(* ===== verification/_CoqProject ===== *)
-Q . S2P
Prelude.v
PyDecimal.v
PyJson.v
Tax.v
TaxOrder.v
TaxLaws.v
StayDates.v
Calendar.v
BookingStatus.v
Models.v
Session.v
Ledger.v
LedgerLaws.v
Rates.v
RatesLaws.v
Folio.v
FolioLaws.v
Extension.v
Booking.v
Tape.v
BookingFrame.v
BookingInvariant.v
BookingRequests.v
System.v
Refusals.v
Remote.v
Steady.v
Rooms.v
RoomsLaws.v
Auth.v
AuthLaws.v
Channex.v
ChannexLaws.v
Webhooks.v
WebhookEvents.v
WebhookLaws.v
ChannexClient.v
ChannexAri.v
AriLaws.v
ChannexLink.v
Access.v
Routes.v
AccessLaws.v
Guests.v
GuestsLaws.v
Properties.v
PropertiesLaws.v
Payments.v
PaymentsLaws.v
Reports.v
Dashboard.v
ReportsLaws.v
Receipts.v
Emails.v
EmailLaws.v
ChannexTasks.v
AuthMail.v
OAuthState.v
Handlers.v
HttpBookings.v
HttpInventory.v
HttpAccounts.v
HttpProperties.v
HttpChannex.v
ReservationBook.v
BookingViews.v
HttpLaws.v
ChannexTasksLaws.v
MigrationState.v
Preno.v
Migration.v
MigrationLaws.v
MigrationRuns.v
Ddl.v
Revisions.v
DdlLaws.v
Startup.v
Requests.v
RequestsLaws.v
Scripts.v
