(* ===== verification/Prelude.v ===== *)
(** * OpenPMS: a verification library for the property-management core

    OpenPMS is a FastAPI service over PostgreSQL for hotels of many tenants.
    A request passes the middlewares and the security dependencies of its
    endpoint, its body is read by a schema, a handler runs services in one
    transaction, the response leaves, and work that is left goes to background
    tasks and to a Celery worker that talks to a channel manager (Channex), a
    card processor (Stripe) and a mail provider (Resend).  This library follows
    the same layers, over the sources under src/.

    ** The program's parts, and the files that model them

    - Python's values: PyDecimal (decimal arithmetic under the default
      context), PyJson (JSON objects and their truth tests), Calendar (dates
      as text).  Results and exceptions are below.
    - Rows and transactions: Models (app/models, one record per mapped class;
      [DB] holds the tables), Session (app/db: an AsyncSession with
      [autoflush=False], as what a SELECT reads and what the loaded objects
      show; [run] is the transaction of a request, [transaction] a block of a
      task).  Every service is a computation of the monad [M] of Session.
    - The schema: Ddl (the statements of Alembic and the errors PostgreSQL
      answers them with, row-level security), Revisions (migrations/versions,
      an upgrade and a downgrade per revision, and the tables app/models
      declares), DdlLaws.
    - Stays and inventory: StayDates, BookingStatus, Ledger (the availability
      ledger), Rates, Booking (booking_service.py), Tape (its read side), Rooms
      (rooms, room types, housekeeping, assignable rooms), Guests.
    - Money: Tax, Folio, Payments (Stripe), OAuthState, Receipts, Reports,
      Dashboard (with the availability grid and the night audit).
    - Tenants and people: Auth, AuthMail, Access (tokens, API keys, the
      dependencies of app/api/deps.py), Properties (with country packs),
      Extension.
    - The outside world: Webhooks and WebhookEvents (outbound webhooks),
      Remote (a computation that talks to a server between statements),
      ChannexClient, Channex (booking revisions), ChannexAri (pushes of
      availability and rates), ChannexLink, ChannexTasks, Emails.
    - The API: Requests (app/schemas), Routes (the table of endpoints),
      Handlers and Http* (one definition per handler: services, exceptions to
      responses, what is left to do), Startup (settings, keys, rate limiter,
      error reports, start of the process, the beat schedule).
    - Commands: Scripts (src/scripts), MigrationState, Preno and Migration
      (src/scripts/migrate: importing a hotel from another system).

    Files named *Laws, *Invariant, *Runs, *Frame or *Views hold theorems about
    the file they are named after; System, ReservationBook, Refusals, Steady,
    BookingRequests and HttpLaws hold theorems about several parts together.

    ** What the theorems show

    - Inventory: every booking request, revision of the channel manager and
      raw request body, in any order, keeps the ledger equal to the lines of
      active bookings and rooms exclusive (BookingInvariant, BookingRequests,
      System, ChannexLaws, RequestsLaws); the booking system refines an
      abstract book of stays (ReservationBook); concurrent claims never
      overbook (LedgerLaws); totals follow the rooms, and the rooms offered are
      the rooms free (RoomsLaws).
    - Money: the tax engine terminates and conserves amounts (TaxOrder,
      TaxLaws); postings, reversals and tax lines of the folio (FolioLaws);
      refunds stay below charges over any sequence of requests and Stripe
      events (PaymentsLaws); receipts, reports, dashboard and ledger agree
      (EmailLaws, ReportsLaws).
    - Security: rotation of refresh tokens, reset links, roles (AuthLaws); what
      it takes to reach a handler (AccessLaws); isolation of packs and of every
      table by row-level security (PropertiesLaws, DdlLaws); what a process
      refuses to start with and what error reports carry (Startup).
    - The outside world: a push makes the channel manager show the ledger
      (AriLaws, HttpLaws); a revision is acknowledged after it is recorded
      (ChannexTasksLaws); every webhook delivery is settled (WebhookLaws);
      reminders go once a day (EmailLaws), audits run once a day (Startup).
    - The database: the revisions form one chain, each of them undone exactly
      by its downgrade, and build the tables the models declare (DdlLaws).
    - Imports and commands: no record of an export is lost without a trace, a
      resumed run repeats nothing (MigrationLaws, MigrationRuns); what the
      scripts do to all tenants (Scripts).
    Where the code does something its comments or names deny, a theorem states
    what it does: for example Refusals (an over-committed night cannot be
    released), [purge_under_policies] (logs that are never purged) and
    [horizon_moves_once_per_tenant].

    ** Conventions

    A UUID is an integer, a date its ordinal, a time an integer of seconds, an
    amount of a [Numeric(_, 2)] column an integer of cents; a JSON value is a
    [json].  Text is ASCII: [strip], [lower] and [upper] fold ASCII letters and
    blanks.  A call returns [Ok] or the exception [Err]; the classes that
    the code tells apart are the constructors of [exn].  Commands run to their
    ends one after the other, except where interleaving is the point
    ([claims_never_overbook] lets transactions commit in any order); locks
    are not modelled beyond that.

    Fuel: loops over a range of days take the number of days as fuel, digit
    loops the number of bits, batches and chunks the length of what they cut,
    the chain of revisions the number of revisions, the queue of compound
    taxes the rules and their dependencies together.  That the fuel is enough is
    proved ([kahn_total] and the laws of days, digits, batches and chunks) or,
    for the one chain there is, computed.
    Retries are bounded by the code (three attempts of a delivery or a call).

    Code that is not under src/ is a class of parameters, instantiated by
    concrete functions in the witnesses: [Env] (the collation of text
    columns, the text of a UUID, the attributes of a Python object), [Crypto] (argon2, PyJWT, secrets), [Net] (DNS, the
    HTTP client of webhooks, HMAC, Fernet), [Wire] (the server that ChannexClient
    or the migration client talks to), [Stripe], [Mailer] (Resend, the template
    engine, WeasyPrint), [Zones] (the time zone database), [BodyReader] and
    [Pydantic] (reading bytes and JSON values), [Pandas] and [Host] (the files
    and frames of the migration), [JwtLibrary].

    ** Not modelled

    The JSON form of responses (a handler answers with the rows its response
    is made from) and response headers other than those named; the JSON values
    of audit rows; the counters of the rate limiter; log lines, except the
    warnings at the start; how long retries wait, where only the attempts
    matter; the statements of revisions that change rows, which are named only;
    NaN, infinities and signed zeros of decimals; e-mail templates and static
    pages.  Left out altogether, with their reasons in the list of
    components: logging_config.py, migrations/env.py, the wiring of Sentry
    and Celery, the load test and the query-plan script, and the tests. *)

From Stdlib Require Export ZArith Lia Ascii String Bool.
From Stdlib Require Import Sorted.
From stdpp Require Export base list gmap strings option.

Abbreviation length := List.length.

(** stdpp's [filter] is the typeclass one; the boolean [List.filter] is the
    one SQL WHERE clauses are modelled by. *)

Declare Scope pms_scope.
Delimit Scope pms_scope with pms.
Open Scope pms_scope.
Open Scope Z_scope.

(** ** Results and exceptions *)

(** Every Python exception class the modelled code raises or catches.  A
    service error carries its [detail] and its HTTP [status_code]. *)
Inductive exn : Type :=
  | ValueError (msg : string)
  | OverflowError
  | DecimalInvalidOperation
  | DecimalDivisionByZero
  | AttributeOrTypeError
  | MissingGreenlet
  | IntegrityError
  | PendingRollbackError
  | DataError
  | RuntimeError (msg : string)
  | LedgerNotSeededError (msg : string)
  | InsufficientInventoryError (msg : string)
  | MissingRatesError (missing_dates : list Z)
  | BookingStatusTransitionError (msg : string)
  | InvalidBookingContextError (msg : string)
  | DuplicateExternalBookingError
  | GuestConflictError
  | AssignBookingRoomError (detail : string) (status_code : Z)
  | PatchBookingError (detail : string) (status_code : Z)
  | DeleteBookingError (detail : string) (status_code : Z)
  | FolioError (detail : string) (status_code : Z)
  | ServiceError (service : string) (detail : string) (status_code : Z)
  | ChannexApiError (message : string) (status_code : option Z) (body : option string)
  | RetryError      (** tenacity: the attempts are used up *)
  | TransportError. (** httpx: no response *)

Inductive result (A : Type) : Type :=
  | Ok (a : A)
  | Err (e : exn).
Arguments Ok {A} a.
Arguments Err {A} e.

Definition is_ok {A} (r : result A) : bool :=
  match r with Ok _ => true | Err _ => false end.

#[export] Instance result_ret : MRet result := fun A a => Ok a.
#[export] Instance result_bind : MBind result :=
  fun A B f r => match r with Ok a => f a | Err e => Err e end.
#[export] Instance result_fmap : FMap result :=
  fun A B f r => match r with Ok a => Ok (f a) | Err e => Err e end.

Definition of_option {A} (o : option A) (e : exn) : result A :=
  match o with Some a => Ok a | None => Err e end.

Lemma bind_Ok {A B} (m : result A) (k : A -> result B) b :
  (m ≫= k) = Ok b -> exists a, m = Ok a /\ k a = Ok b.
Proof. destruct m as [a|e]; [|done]. intros H. by exists a. Qed.

(** Left-to-right traversal, stopping at the first exception (a Python [for]
    loop whose body may raise). *)
Fixpoint mapR {A B} (f : A -> result B) (l : list A) : result (list B) :=
  match l with
  | [] => Ok []
  | x :: l' => y ← f x; ys ← mapR f l'; Ok (y :: ys)
  end.

Fixpoint foldR {A S} (f : S -> A -> result S) (s : S) (l : list A) : result S :=
  match l with
  | [] => Ok s
  | x :: l' => s' ← f s x; foldR f s' l'
  end.

(** ** Text (Python [str] restricted to ASCII) *)

Definition is_space (c : ascii) : bool :=
  let n := nat_of_ascii c in
  ((9 <=? n) && (n <=? 13) || (28 <=? n) && (n <=? 32))%nat.

Fixpoint drop_spaces (l : list ascii) : list ascii :=
  match l with
  | c :: l' => if is_space c then drop_spaces l' else l
  | [] => []
  end.

(** [str.strip()] *)
Definition strip (s : string) : string :=
  string_of_list_ascii
    (rev (drop_spaces (rev (drop_spaces (list_ascii_of_string s))))).

Definition lower_ascii (c : ascii) : ascii :=
  let n := nat_of_ascii c in
  if ((65 <=? n) && (n <=? 90))%nat then ascii_of_nat (n + 32) else c.

Definition upper_ascii (c : ascii) : ascii :=
  let n := nat_of_ascii c in
  if ((97 <=? n) && (n <=? 122))%nat then ascii_of_nat (n - 32) else c.

Fixpoint string_map (f : ascii -> ascii) (s : string) : string :=
  match s with
  | EmptyString => EmptyString
  | String c s' => String (f c) (string_map f s')
  end.

(** [str.lower()], [str.upper()] *)
Definition lower : string -> string := string_map lower_ascii.
Definition upper : string -> string := string_map upper_ascii.

(** [s[:n]] *)
Definition slice (n : nat) (s : string) : string := String.substring 0 n s.

(** Truth value of a string: [bool(s)]. *)
Definition truthy (s : string) : bool := negb (String.eqb s EmptyString).

(** [repr(s)] of a string. *)
Definition hex_digit (n : nat) : ascii :=
  if (n <? 10)%nat then ascii_of_nat (48 + n) else ascii_of_nat (87 + n).

Fixpoint repr_body (q : ascii) (s : string) : string :=
  match s with
  | EmptyString => String q EmptyString
  | String c s' =>
      let n := nat_of_ascii c in
      let rest := repr_body q s' in
      if Ascii.eqb c q || Ascii.eqb c "\"%char then String "\" (String c rest)
      else if (n =? 9)%nat then String "\" (String "t" rest)
      else if (n =? 10)%nat then String "\" (String "n" rest)
      else if (n =? 13)%nat then String "\" (String "r" rest)
      else if ((n <? 32) || (126 <? n))%nat then
        String "\" (String "x" (String (hex_digit (n / 16)) (String (hex_digit (n mod 16)) rest)))
      else String c rest
  end.

Definition has_char (c : ascii) (s : string) : bool :=
  existsb (Ascii.eqb c) (list_ascii_of_string s).

Definition py_repr_str (s : string) : string :=
  let sq := ascii_of_nat 39 in
  let dq := ascii_of_nat 34 in
  let q := if has_char sq s && negb (has_char dq s) then dq else sq in
  String q (repr_body q s).

(** [sep.join(parts)] *)
Definition py_join (sep : string) (parts : list string) : string := String.concat sep parts.

(** [x in {...}] on a finite set of strings. *)
Definition str_in (x : string) (l : list string) : bool :=
  existsb (String.eqb x) l.

Lemma str_in_spec x l : str_in x l = true <-> In x l.
Proof.
  unfold str_in. rewrite existsb_exists. split.
  - intros (y & Hy & ->%String.eqb_eq). exact Hy.
  - intros H. exists x. rewrite String.eqb_refl. auto.
Qed.

Lemma lower_ascii_idem c : lower_ascii (lower_ascii c) = lower_ascii c.
Proof. destruct c as [[] [] [] [] [] [] [] []]; reflexivity. Qed.

Lemma lower_ascii_space c : is_space (lower_ascii c) = is_space c.
Proof. destruct c as [[] [] [] [] [] [] [] []]; reflexivity. Qed.

Lemma list_ascii_map f s :
  list_ascii_of_string (string_map f s) = List.map f (list_ascii_of_string s).
Proof. induction s; simpl; congruence. Qed.

Lemma string_of_list_ascii_map f l :
  string_map f (string_of_list_ascii l) = string_of_list_ascii (List.map f l).
Proof. induction l; simpl; congruence. Qed.

Lemma lower_idem s : lower (lower s) = lower s.
Proof.
  induction s as [|c s IH]; [done|].
  change (String (lower_ascii (lower_ascii c)) (lower (lower s)) =
          String (lower_ascii c) (lower s)).
  by rewrite IH, lower_ascii_idem.
Qed.

Lemma drop_spaces_idem l : drop_spaces (drop_spaces l) = drop_spaces l.
Proof. induction l as [|c l IH]; simpl; [done|]. destruct (is_space c) eqn:E; simpl; rewrite ?E; auto. Qed.

Lemma drop_spaces_lower l :
  drop_spaces (List.map lower_ascii l) = List.map lower_ascii (drop_spaces l).
Proof.
  induction l as [|c l IH]; simpl; [done|].
  rewrite lower_ascii_space. by destruct (is_space c).
Qed.

Lemma drop_spaces_app_last l c :
  is_space c = false -> drop_spaces (l ++ [c]) = drop_spaces l ++ [c].
Proof. intros Hc. induction l as [|d l IH]; simpl; [by rewrite Hc|]. by destruct (is_space d). Qed.

(** A list whose first element is not blank keeps its head when the blanks
    at its end are removed. *)
Lemma drop_spaces_rstrip l :
  drop_spaces l = l ->
  drop_spaces (rev (drop_spaces (rev l))) = rev (drop_spaces (rev l)).
Proof.
  destruct l as [|c l]; [done|]. simpl. destruct (is_space c) eqn:E; intros H.
  - exfalso. assert (Hl : (length (drop_spaces l) <= length l)%nat).
    { clear. induction l as [|d l IH]; simpl; [lia|]. destruct (is_space d); simpl; lia. }
    rewrite H in Hl. simpl in Hl. lia.
  - rewrite drop_spaces_app_last by done. rewrite rev_app_distr. simpl. by rewrite E.
Qed.

Lemma strip_idem s : strip (strip s) = strip s.
Proof.
  unfold strip. rewrite list_ascii_of_string_of_list_ascii.
  set (l := list_ascii_of_string s).
  pose proof (drop_spaces_rstrip _ (drop_spaces_idem l)) as E. cbv zeta.
  rewrite E, rev_involutive. by rewrite drop_spaces_idem.
Qed.

Lemma strip_lower s : strip (lower s) = lower (strip s).
Proof.
  unfold strip, lower. rewrite list_ascii_map, drop_spaces_lower.
  rewrite <- List.map_rev, drop_spaces_lower, <- List.map_rev.
  by rewrite string_of_list_ascii_map.
Qed.

(** ** Lists of rows *)

(** Number of rows satisfying a predicate ([SELECT count( * )]). *)
Definition countb {A} (p : A -> bool) (l : list A) : Z :=
  Z.of_nat (length (List.filter p l)).

Section counting.
Context {A : Type}.
Implicit Types (p q : A -> bool) (l : list A).

Lemma countb_nonneg p l : 0 <= countb p l.
Proof. unfold countb. lia. Qed.

Lemma countb_nil p : countb p [] = 0.
Proof. done. Qed.

Lemma countb_cons p a l : countb p (a :: l) = (if p a then 1 else 0) + countb p l.
Proof. unfold countb. simpl. destruct (p a); simpl length; lia. Qed.

Lemma countb_app p l1 l2 : countb p (l1 ++ l2) = countb p l1 + countb p l2.
Proof. unfold countb. rewrite List.filter_app, length_app. lia. Qed.

Lemma countb_ext p q l :
  (forall a, In a l -> p a = q a) -> countb p l = countb q l.
Proof. intros H. unfold countb. by rewrite (List.filter_ext_in p q l H). Qed.

Lemma countb_false p l : (forall a, In a l -> p a = false) -> countb p l = 0.
Proof.
  induction l as [|a l IH]; intros H; [done|].
  rewrite countb_cons, (H a) by (by left). rewrite IH; [done|]. intros b Hb; apply H; by right.
Qed.

Lemma countb_filter p q l :
  countb p (List.filter q l) = countb (fun a => q a && p a) l.
Proof.
  induction l as [|a l IH]; [done|]. simpl. rewrite countb_cons.
  destruct (q a); simpl; rewrite ?countb_cons, IH; done.
Qed.

Lemma countb_split p q l :
  countb p l = countb (fun a => q a && p a) l + countb (fun a => negb (q a) && p a) l.
Proof.
  induction l as [|a l IH]; [done|]. rewrite !countb_cons, IH.
  destruct (q a), (p a); simpl; lia.
Qed.

Lemma countb_In p l a : In a l -> p a = true -> 1 <= countb p l.
Proof.
  intros Ha Hp. apply in_split in Ha as (l1 & l2 & ->).
  rewrite countb_app, countb_cons, Hp. pose proof (countb_nonneg p l1).
  pose proof (countb_nonneg p l2). lia.
Qed.

Lemma countb_pos p l : 0 < countb p l -> exists a, In a l /\ p a = true.
Proof.
  induction l as [|a l IH]; [by rewrite countb_nil|]. rewrite countb_cons.
  destruct (p a) eqn:E; intros H.
  - exists a. split; [by left|done].
  - destruct IH as (b & ? & ?); [lia|]. exists b. split; [by right|done].
Qed.
End counting.

Lemma countb_map {A B} (f : B -> A) p (l : list B) :
  countb p (List.map f l) = countb (fun b => p (f b)) l.
Proof. induction l as [|b l IH]; [done|]. simpl. by rewrite !countb_cons, IH. Qed.

(** Counting by a key that occurs at most once: 1 if present, 0 if not. *)
Lemma countb_key_NoDup {A} (k : A -> Z) (l : list A) (z : Z) :
  List.NoDup (List.map k l) ->
  countb (fun a => k a =? z) l = if existsb (fun a => k a =? z) l then 1 else 0.
Proof.
  induction l as [|a l IH]; [done|]. simpl. intros Hnd.
  apply List.NoDup_cons_iff in Hnd as [Hni Hnd]. rewrite countb_cons.
  destruct (k a =? z) eqn:E; simpl; [|by apply IH].
  rewrite countb_false; [done|]. intros b Hb. apply Z.eqb_neq. intros <-.
  apply Z.eqb_eq in E. apply Hni. rewrite E. by apply in_map.
Qed.

Lemma in_unique_key {A B} (f : A -> B) l x y :
  List.NoDup (List.map f l) -> In x l -> In y l -> f x = f y -> x = y.
Proof.
  induction l as [|z l IH]; [done|]. simpl. intros Hnd%List.NoDup_cons_iff Hx Hy He. destruct Hnd as [Hni Hnd].
  destruct Hx as [->|Hx], Hy as [->|Hy]; [done| | |by apply IH]; exfalso; apply Hni; [rewrite He|rewrite <- He]; by apply in_map.
Qed.

Lemma NoDup_map_filter {A B} (f : A -> B) (p : A -> bool) l :
  List.NoDup (List.map f l) -> List.NoDup (List.map f (List.filter p l)).
Proof.
  induction l as [|x l IH]; simpl; [done|]. intros H. apply List.NoDup_cons_iff in H as [Hni Hnd].
  destruct (p x); simpl; [|by apply IH]. constructor; [|by apply IH].
  intros (y & Hy & Hin)%in_map_iff. apply Hni. rewrite <- Hy. apply in_map. by apply filter_In in Hin as [? _].
Qed.

Lemma NoDup_snoc {A} (l : list A) x : List.NoDup l -> ~ In x l -> List.NoDup (l ++ [x]).
Proof.
  induction l as [|y l IH]; simpl; intros Hnd Hni; [by repeat constructor|].
  apply List.NoDup_cons_iff in Hnd as [Hy Hnd]. constructor.
  - intros [Hin|[->|[]]]%in_app_iff; [done|]. apply Hni. by left.
  - apply IH; [done|]. intros Hin. apply Hni. by right.
Qed.

Lemma filter_filter_neg {A} (p : A -> bool) l : List.filter p (List.filter (fun x => negb (p x)) l) = [].
Proof. induction l as [|x l IH]; simpl; [done|]. destruct (p x) eqn:E; simpl; rewrite ?E; done. Qed.

Lemma filter_idem {A} (p : A -> bool) l : List.filter p (List.filter p l) = List.filter p l.
Proof. induction l as [|x l IH]; simpl; [done|]. destruct (p x) eqn:E; simpl; rewrite ?E; congruence. Qed.

Lemma fst_determines {A B} (l : list (A * B)) k v v' :
  List.NoDup (List.map fst l) -> In (k, v) l -> In (k, v') l -> v = v'.
Proof.
  induction l as [|[k1 v1] l IH]; [done|]. cbn. intros [Hk Hnd]%NoDup_cons_iff.
  assert (Hno : forall x, In (k1, x) l -> False) by (intros x Hx; apply Hk, in_map_iff; by exists (k1, x)).
  intros [[= -> ->]|H] [[= E1]|H']; subst; eauto; by exfalso; eauto.
Qed.

Lemma filter_all {A} (p : A -> bool) l : (forall x, In x l -> p x = true) -> List.filter p l = l.
Proof. intros H. apply List.forallb_filter_id, forallb_forall, H. Qed.

Lemma filter_none {A} (p : A -> bool) l : (forall x, In x l -> p x = false) -> List.filter p l = [].
Proof.
  induction l as [|x l IH]; intros H; [done|]. simpl. rewrite (H x) by (by left).
  apply IH. intros y Hy. apply H. by right.
Qed.

(** A condition that only one key satisfies, on rows with distinct keys. *)
Lemma filter_unique {A} (key : A -> Z) (p : A -> bool) l x :
  List.NoDup (List.map key l) -> In x l -> p x = true -> (forall y, p y = true -> key y = key x) -> List.filter p l = [x].
Proof.
  induction l as [|y l IH]; [done|]. cbn [List.map]. intros [Hni Hnd]%List.NoDup_cons_iff [->|Hin] Hp Hkey; cbn [List.filter].
  - rewrite Hp. f_equal. apply filter_none. intros z Hz. destruct (p z) eqn:E; [|done]. exfalso. apply Hni. rewrite <- (Hkey z E). by apply in_map.
  - destruct (p y) eqn:E; [|by apply IH]. exfalso. apply Hni. rewrite (Hkey y E). by apply in_map.
Qed.

(** [ORDER BY]: stable insertion sort on a comparison of keys.  Rows the key
    does not separate keep the order of the table. *)
Fixpoint insert_by {A} (le : A -> A -> bool) (x : A) (l : list A) : list A :=
  match l with
  | [] => [x]
  | y :: l' => if le x y then x :: l else y :: insert_by le x l'
  end.
Definition order_by {A} (le : A -> A -> bool) (l : list A) : list A :=
  List.fold_right (insert_by le) [] l.

Lemma insert_by_perm {A} le (x : A) l : Permutation (insert_by le x l) (x :: l).
Proof.
  induction l as [|y l IH]; simpl; [done|]. destruct (le x y); [done|]. rewrite IH. apply perm_swap.
Qed.

Lemma order_by_perm {A} le (l : list A) : Permutation (order_by le l) l.
Proof. induction l as [|x l IH]; simpl; [done|]. by rewrite insert_by_perm, IH. Qed.

Lemma order_by_In {A} le (l : list A) x : In x (order_by le l) <-> In x l.
Proof. split; apply Permutation_in; [|symmetry]; apply order_by_perm. Qed.

Lemma countb_perm {A} (p : A -> bool) l l' : Permutation l l' -> countb p l = countb p l'.
Proof.
  induction 1 as [|x l l' _ IH|x y l|l1 l2 l3 _ IH1 _ IH2]; [done| | |by rewrite IH1]; rewrite !countb_cons; lia.
Qed.

(** A row that comes strictly before every other one is first. *)
Lemma order_by_first {A} (le : A -> A -> bool) l x :
  (forall y, In y l -> le y x = false /\ le x y = true) -> order_by le (l ++ [x]) = x :: order_by le l.
Proof.
  induction l as [|y l IH]; intros H; [done|].
  change (insert_by le y (order_by le (l ++ [x])) = x :: insert_by le y (order_by le l)).
  rewrite IH by (intros z Hz; apply H; by right). cbn. by destruct (H y (or_introl eq_refl)) as [-> _].
Qed.

(** Sorting a list by a key of its elements sorts the images. *)
Lemma order_by_map {A B} (le : B -> B -> bool) (f : A -> B) l :
  order_by le (List.map f l) = List.map f (order_by (fun x y => le (f x) (f y)) l).
Proof.
  induction l as [|x l IH]; [done|]. cbn [List.map order_by List.fold_right]. fold (order_by le (List.map f l)). rewrite IH.
  fold (order_by (fun x y => le (f x) (f y)) l). generalize (order_by (fun x y => le (f x) (f y)) l). intros k.
  induction k as [|y k IHk]; [done|]. cbn. destruct (le (f x) (f y)); [done|]. cbn. by rewrite IHk.
Qed.

Lemma order_by_sorted {A} (key : A -> Z) l :
  StronglySorted (fun x y => key x <= key y) (order_by (fun x y => key x <=? key y) l).
Proof.
  induction l as [|x l IH]; [constructor|]. cbn [order_by List.fold_right]. fold (order_by (fun x y => key x <=? key y) l).
  induction IH as [|y k Hk IHk Hy]; [by repeat constructor|]. cbn. destruct (Z.leb_spec (key x) (key y)) as [Hle|Hlt].
  - constructor; [by constructor|]. constructor; [done|]. eapply Forall_impl; [|exact Hy]. cbn. lia.
  - constructor; [exact IHk|]. apply (Permutation_Forall (Permutation_sym (insert_by_perm _ x k))). constructor; [lia|exact Hy].
Qed.

Lemma In_firstn_or_skipn {A} n (l : list A) x : In x l <-> In x (List.firstn n l) \/ In x (List.skipn n l).
Proof. rewrite <- (List.firstn_skipn n l) at 1. apply in_app_iff. Qed.

(** ** Automation *)

Create Rewrite HintDb countb.
#[export] Hint Rewrite @countb_nil @countb_cons @countb_app : countb.

Create HintDb pms.
#[export] Hint Resolve countb_nonneg str_in_spec : pms.

(** Reduce a hypothesis [m = Ok x] (or [Err e]) over the [result] monad by
    case analysis on the calls it sequences. *)
Ltac inv_result H :=
  repeat (first
    [ discriminate H
    | match type of H with
      | mbind _ ?m = _ => let E := fresh "E" in
          destruct m eqn:E; cbn [mbind result_bind] in H
      | (if ?b then _ else _) = _ => let E := fresh "E" in destruct b eqn:E
      | Ok _ = Ok _ => injection H as H
      end ]).

(** Case on the boolean comparisons of the goal and close with [lia]. *)
Ltac zcase :=
  repeat match goal with
  | |- context [?a <=? ?b] => destruct (Z.leb_spec a b)
  | |- context [?a <? ?b] => destruct (Z.ltb_spec a b)
  | |- context [?a =? ?b] => destruct (Z.eqb_spec a b)
  end.

(** ** The length of a text *)

Lemma length_chars s : length (list_ascii_of_string s) = String.length s.
Proof. induction s as [|c s IH]; [done|]. cbn. by rewrite IH. Qed.

Lemma length_text l : String.length (string_of_list_ascii l) = length l.
Proof. induction l as [|c l IH]; [done|]. cbn. by rewrite IH. Qed.

Lemma length_mapped f s : String.length (string_map f s) = String.length s.
Proof. induction s as [|c s IH]; [done|]. cbn. by rewrite IH. Qed.

Lemma drop_spaces_length l : (length (drop_spaces l) <= length l)%nat.
Proof. induction l as [|c l IH]; cbn; [lia|]. destruct (is_space c); cbn; lia. Qed.

Lemma strip_length s : (String.length (strip s) <= String.length s)%nat.
Proof.
  unfold strip. rewrite length_text, length_rev. etrans; [apply drop_spaces_length|]. rewrite length_rev.
  etrans; [apply drop_spaces_length|]. by rewrite length_chars.
Qed.

Lemma lower_length s : String.length (lower s) = String.length s.
Proof. apply length_mapped. Qed.

(** ** Loops that may raise *)

Lemma foldR_app {A S} (f : S -> A -> result S) l1 l2 s : foldR f s (l1 ++ l2) = s' ← foldR f s l1; foldR f s' l2.
Proof. revert s. induction l1 as [|x l1 IH]; intros s; [done|]. cbn. destruct (f s x); [apply IH|done]. Qed.

Lemma foldR_inv {A S} (I : S -> Prop) (f : S -> A -> result S) l s s' :
  (forall s x s', In x l -> I s -> f s x = Ok s' -> I s') ->
  I s -> foldR f s l = Ok s' -> I s'.
Proof.
  revert s. induction l as [|x l IH]; intros s Hf Hs H; simpl in H; [by simplify_eq|].
  destruct (f s x) as [s1|] eqn:E; [|done]. cbn in H. eapply IH; [|by eapply Hf; [left| |]|done].
  intros s2 y s3 Hy. apply Hf. by right.
Qed.

Lemma mapR_ok {A B} (f : A -> result B) l ys :
  mapR f l = Ok ys -> Forall2 (fun x y => f x = Ok y) l ys.
Proof.
  revert ys. induction l as [|x l IH]; intros ys H; simpl in H; [by simplify_eq|].
  destruct (f x) as [y|] eqn:E; [|done]. cbn in H. destruct (mapR f l) as [ys'|]; [|done].
  cbn in H. simplify_eq. constructor; auto.
Qed.
