(* ===== verification/PyDecimal.v ===== *)
(** * Python's [decimal] arithmetic

    The finite numbers of [decimal.Decimal] under the default context
    (precision 28, ROUND_HALF_EVEN), as the services use them: a coefficient
    and a power of ten.  Infinities, NaNs, the sign of zero and the exponent
    limits of the context are left out. *)

From stdpp Require Import pretty.
From S2P Require Import Prelude.

Record dec := Dec { mant : Z; expo : Z }.

(** The rounding modes the code names. *)
Inductive rounding := ROUND_HALF_UP | ROUND_HALF_EVEN | ROUND_DOWN.

(** ** Digits *)

Fixpoint ndigits_fuel (fuel : nat) (n : Z) : Z :=
  match fuel with
  | O => 1
  | S f => if n <? 10 then 1 else 1 + ndigits_fuel f (n / 10)
  end.

(** [len(str(abs(n)))]; the number of bits of [n] is enough fuel. *)
Definition ndigits (n : Z) : Z :=
  ndigits_fuel (Z.to_nat (Z.log2 (Z.abs n))) (Z.abs n).

Definition prec : Z := 28.

(** ** Rounding *)

(** Round the quotient of a magnitude [n >= 0] by [d > 0]. *)
Definition round_mag (rm : rounding) (n d : Z) : Z :=
  match rm with
  | ROUND_DOWN => n / d
  | ROUND_HALF_UP => (2 * n + d) / (2 * d)
  | ROUND_HALF_EVEN =>
      let q := n / d in
      let r := n mod d in
      if 2 * r <? d then q
      else if d <? 2 * r then q + 1
      else if Z.even q then q else q + 1
  end.

Definition round_div (rm : rounding) (n d : Z) : Z :=
  Z.sgn n * round_mag rm (Z.abs n) d.

(** Result of an operation: rounded to the context precision. *)
Definition dec_fix (x : dec) : dec :=
  let nd := ndigits (mant x) in
  if nd <=? prec then x
  else
    let k := nd - prec in
    let m := round_div ROUND_HALF_EVEN (mant x) (10 ^ k) in
    if ndigits m <=? prec then Dec m (expo x + k)
    else Dec (Z.quot m 10) (expo x + k + 1).

(** ** Operations *)

Definition dec_of_int (z : Z) : dec := Dec z 0.
(** A [Numeric(_, 2)] column value, held as a number of cents. *)
Definition cents (c : Z) : dec := Dec c (-2).

Definition scaled (x : dec) (e : Z) : Z := mant x * 10 ^ (expo x - e).

Definition dec_add (x y : dec) : dec :=
  let e := Z.min (expo x) (expo y) in
  dec_fix (Dec (scaled x e + scaled y e) e).

Definition dec_neg (x : dec) : dec := dec_fix (Dec (- mant x) (expo x)).

Definition dec_abs (x : dec) : dec := dec_fix (Dec (Z.abs (mant x)) (expo x)).

Definition dec_sub (x y : dec) : dec :=
  let e := Z.min (expo x) (expo y) in
  dec_fix (Dec (scaled x e - scaled y e) e).

Definition dec_mul (x y : dec) : dec :=
  dec_fix (Dec (mant x * mant y) (expo x + expo y)).

Fixpoint strip_zeros (fuel : nat) (c e : Z) : Z * Z :=
  match fuel with
  | O => (c, e)
  | S f => if c mod 10 =? 0 then strip_zeros f (c / 10) (e + 1) else (c, e)
  end.

(** [x / y]: one guard digit, a sticky last digit when the division is not
    exact, trailing zeros removed down to the ideal exponent when it is. *)
Definition dec_div (x y : dec) : result dec :=
  if mant y =? 0 then
    Err (if mant x =? 0 then DecimalInvalidOperation else DecimalDivisionByZero)
  else if mant x =? 0 then Ok (Dec 0 (expo x - expo y))
  else
    let shift := ndigits (mant y) - ndigits (mant x) + prec + 1 in
    let e := expo x - expo y - shift in
    let num := if 0 <=? shift then Z.abs (mant x) * 10 ^ shift else Z.abs (mant x) in
    let den := if 0 <=? shift then Z.abs (mant y) else Z.abs (mant y) * 10 ^ (- shift) in
    let c := num / den in
    let '(c', e') :=
      if num mod den =? 0 then strip_zeros (Z.to_nat shift) c e
      else ((if c mod 5 =? 0 then c + 1 else c), e) in
    Ok (dec_fix (Dec (Z.sgn (mant x) * Z.sgn (mant y) * c') e')).

(** [x.quantize(Decimal(10) ** e, rounding=rm)] *)
Definition dec_quantize (rm : rounding) (x : dec) (e : Z) : result dec :=
  let m := if e <=? expo x then scaled x e
           else round_div rm (mant x) (10 ^ (e - expo x)) in
  if ndigits m <=? prec then Ok (Dec m e) else Err DecimalInvalidOperation.

Definition dec_ltb (x y : dec) : bool :=
  let e := Z.min (expo x) (expo y) in scaled x e <? scaled y e.
Definition dec_leb (x y : dec) : bool := negb (dec_ltb y x).
Definition dec_eqb (x y : dec) : bool :=
  let e := Z.min (expo x) (expo y) in scaled x e =? scaled y e.
Definition dec_is_zero (x : dec) : bool := mant x =? 0.

(** [sum(xs, start)] *)
Definition dec_sum (start : dec) (xs : list dec) : dec := List.fold_left dec_add xs start.

(** The amount in cents of a number quantized to two places. *)
Definition to_cents (x : dec) : Z := scaled x (-2).

(** ** Text to number: [Decimal(text)] on finite numerals *)

Definition digit_val (c : ascii) : option Z :=
  let n := nat_of_ascii c in
  if ((48 <=? n) && (n <=? 57))%nat then Some (Z.of_nat n - 48) else None.

(** Leading digits: their value appended to [acc], how many, the rest. *)
Fixpoint take_digits (l : list ascii) (acc cnt : Z) : Z * Z * list ascii :=
  match l with
  | c :: l' =>
      match digit_val c with
      | Some d => take_digits l' (10 * acc + d) (cnt + 1)
      | None => (acc, cnt, l)
      end
  | [] => (acc, cnt, [])
  end.

Definition take_sign (l : list ascii) : Z * list ascii :=
  match l with
  | "-"%char :: l' => (-1, l')
  | "+"%char :: l' => (1, l')
  | _ => (1, l)
  end.

Definition parse_exponent (l : list ascii) : option Z :=
  match l with
  | [] => Some 0
  | c :: l' =>
      if Ascii.eqb (lower_ascii c) "e"%char then
        let '(sg, l1) := take_sign l' in
        let '(v, n, rest) := take_digits l1 0 0 in
        match rest with
        | [] => if n =? 0 then None else Some (sg * v)
        | _ :: _ => None
        end
      else None
  end.

(** [None] is the [InvalidOperation] of a malformed numeral (and of the
    special values, which are not modelled). *)
Definition parse_dec (s : string) : option dec :=
  let l := List.filter (fun c => negb (Ascii.eqb c "_"%char))
             (list_ascii_of_string (strip s)) in
  let '(sg, l1) := take_sign l in
  let '(ip, ni, l2) := take_digits l1 0 0 in
  let '(m, nf, l3) :=
    match l2 with
    | "."%char :: l2' => take_digits l2' ip 0
    | _ => (ip, 0, l2)
    end in
  if ni + nf =? 0 then None
  else match parse_exponent l3 with
       | Some e => Some (Dec (sg * m) (e - nf))
       | None => None
       end.

Definition decimal (s : string) : result dec :=
  of_option (parse_dec s) DecimalInvalidOperation.

(** [format(x, 'f')] (also [str(x)] of a number with two places). *)
Definition zeros (n : Z) : string := string_of_list_ascii (List.repeat "0"%char (Z.to_nat n)).

Definition format_f (x : dec) : string :=
  let sg := if mant x <? 0 then "-"%string else EmptyString in
  let ds := pretty (Z.abs (mant x)) in
  if 0 <=? expo x then
    (sg ++ (if (mant x =? 0)%Z then ds else ds ++ zeros (expo x)))%string
  else
    let n := - expo x in
    let pad := (zeros (n + 1 - Z.of_nat (String.length ds)) ++ ds)%string in
    let k := (String.length pad - Z.to_nat n)%nat in
    (sg ++ String.substring 0 k pad ++ "." ++ String.substring k (Z.to_nat n) pad)%string.

Example format_cents : format_f (cents (-5)) = "-0.05"%string.
Proof. reflexivity. Qed.
Example decimal_rate : decimal "0.0725" = Ok (Dec 725 (-4)).
Proof. reflexivity. Qed.
Example decimal_exp : decimal " -1_000.5e-3 " = Ok (Dec (-10005) (-4)).
Proof. reflexivity. Qed.
Example decimal_bad : decimal "7%" = Err DecimalInvalidOperation.
Proof. reflexivity. Qed.
Example div_third : dec_div (cents 100) (dec_of_int 3) =
  Ok (Dec 3333333333333333333333333333 (-28)).
Proof. reflexivity. Qed.
Example div_exact : dec_div (cents 10700) (Dec 107 (-2)) = Ok (Dec 100 0).
Proof. reflexivity. Qed.
Example quantize_half_even :
  dec_quantize ROUND_HALF_EVEN (Dec 125 (-3)) (-2) = Ok (Dec 12 (-2)).
Proof. reflexivity. Qed.
Example quantize_half_up :
  dec_quantize ROUND_HALF_UP (Dec (-125) (-3)) (-2) = Ok (Dec (-13) (-2)).
Proof. reflexivity. Qed.

(** ** Facts about digits *)

Lemma ndigits_fuel_spec fuel n :
  0 <= n < 2 ^ (Z.of_nat fuel + 1) ->
  1 <= ndigits_fuel fuel n /\ n < 10 ^ ndigits_fuel fuel n /\
  (n < 10 \/ 10 ^ (ndigits_fuel fuel n - 1) <= n).
Proof.
  revert n. induction fuel as [|f IH]; intros n Hn; cbn [ndigits_fuel].
  - change (2 ^ (Z.of_nat 0 + 1)) with 2 in Hn. lia.
  - destruct (Z.ltb_spec n 10); [lia|].
    assert (Hq : 0 <= n / 10 < 2 ^ (Z.of_nat f + 1)).
    { split; [apply Z.div_pos; lia|]. apply Z.div_lt_upper_bound; [lia|].
      replace (Z.of_nat (S f) + 1) with (Z.succ (Z.of_nat f + 1)) in Hn by lia.
      rewrite Z.pow_succ_r in Hn by lia. lia. }
    destruct (IH _ Hq) as (H1 & H2 & H3).
    set (d := ndigits_fuel f (n / 10)) in *.
    split; [lia|]. rewrite Z.add_comm, Z.pow_add_r by lia. change (10 ^ 1) with 10.
    split.
    { pose proof (Z.mod_pos_bound n 10). pose proof (Z.div_mod n 10). lia. }
    right. replace (d + 1 - 1) with d by lia.
    destruct H3 as [H3|H3].
    + assert (d = 1) as ->; [|lia].
      unfold d. destruct f; simpl; [done|]. by destruct (Z.ltb_spec (n / 10) 10); [|lia].
    + pose proof (Z.mul_div_le n 10). replace d with (Z.succ (d - 1)) by lia.
      rewrite Z.pow_succ_r by lia. lia.
Qed.

Lemma ndigits_spec n :
  1 <= ndigits n /\ Z.abs n < 10 ^ ndigits n /\
  (Z.abs n < 10 \/ 10 ^ (ndigits n - 1) <= Z.abs n).
Proof.
  apply ndigits_fuel_spec. split; [lia|]. destruct (Z.eq_dec n 0) as [->|Hn]; [done|].
  rewrite Z2Nat.id by apply Z.log2_nonneg. apply Z.log2_spec. lia.
Qed.

Lemma ndigits_le n k : 1 <= k -> ndigits n <= k <-> Z.abs n < 10 ^ k.
Proof.
  intros Hk. pose proof (ndigits_spec n) as (H1 & H2 & H3). split; intros H.
  - apply (Z.lt_le_trans _ _ _ H2). apply Z.pow_le_mono_r; lia.
  - destruct (Z.le_gt_cases (ndigits n) k) as [|Hgt]; [done|exfalso].
    destruct H3 as [H3|H3].
    + assert (ndigits n <= 1); [|lia].
      unfold ndigits in *. destruct (Z.to_nat _); simpl in *; [lia|].
      destruct (Z.ltb_spec (Z.abs n) 10); lia.
    + assert (10 ^ k <= 10 ^ (ndigits n - 1)) by (apply Z.pow_le_mono_r; lia). lia.
Qed.

(** The integers the context represents exactly. *)
Definition fits (n : Z) : Prop := Z.abs n < 10 ^ prec.

#[export] Instance fits_dec n : Decision (fits n).
Proof. unfold fits. apply _. Defined.

Lemma ndigits_fits n : (ndigits n <=? prec) = true <-> fits n.
Proof. rewrite Z.leb_le. apply ndigits_le. by vm_compute. Qed.

Lemma dec_fix_fits m e : fits m -> dec_fix (Dec m e) = Dec m e.
Proof. intros H%ndigits_fits. unfold dec_fix. simpl. by rewrite H. Qed.

(** ** Amounts in cents *)

Lemma to_cents_cents c : to_cents (cents c) = c.
Proof. unfold to_cents, scaled, cents. simpl. change (10 ^ (-2 - -2)) with 1. lia. Qed.

Lemma cents_add a b : fits (a + b) -> dec_add (cents a) (cents b) = cents (a + b).
Proof.
  intros H. unfold dec_add, scaled, cents; simpl.
  change (10 ^ (-2 - Z.min (-2) (-2))) with 1. rewrite !Z.mul_1_r. by apply dec_fix_fits.
Qed.

Lemma cents_sub a b : fits (a - b) -> dec_sub (cents a) (cents b) = cents (a - b).
Proof.
  intros H. unfold dec_sub, scaled, cents; simpl.
  change (10 ^ (-2 - Z.min (-2) (-2))) with 1. rewrite !Z.mul_1_r. by apply dec_fix_fits.
Qed.

Lemma quantize_cents rm c : fits c -> dec_quantize rm (cents c) (-2) = Ok (cents c).
Proof.
  intros H%ndigits_fits. unfold dec_quantize, scaled, cents. simpl.
  change (10 ^ (-2 - -2)) with 1. by rewrite Z.mul_1_r, H.
Qed.

(** Whatever is quantized to two places is an amount of cents that fits. *)
Lemma quantize_ok rm x y :
  dec_quantize rm x (-2) = Ok y -> exists c, y = cents c /\ fits c.
Proof.
  unfold dec_quantize. destruct (ndigits _ <=? prec) eqn:E; [|done].
  intros [= <-]. eexists. split; [reflexivity|]. by apply ndigits_fits.
Qed.

Definition sumZ (l : list Z) : Z := List.fold_right Z.add 0 l.

Lemma sumZ_cons x l : sumZ (x :: l) = x + sumZ l.
Proof. reflexivity. Qed.

Lemma sumZ_nonneg {A} (w : A -> Z) l : (forall x, 0 <= w x) -> 0 <= sumZ (List.map w l).
Proof. intros Hw. induction l as [|x l IH]; [done|]. cbn [List.map]. rewrite sumZ_cons. specialize (Hw x). lia. Qed.

Lemma sumZ_filter {A} (w : A -> Z) p l :
  (forall x, 0 <= w x) -> sumZ (List.map w (List.filter p l)) <= sumZ (List.map w l).
Proof.
  intros Hw. induction l as [|x l IH]; [done|]. cbn [List.map List.filter]. rewrite sumZ_cons. specialize (Hw x).
  destruct (p x); cbn [List.map]; rewrite ?sumZ_cons; lia.
Qed.

Lemma sumZ_app l1 l2 : sumZ (l1 ++ l2) = sumZ l1 + sumZ l2.
Proof. induction l1; simpl; lia. Qed.

Lemma sumZ_abs l : Z.abs (sumZ l) <= sumZ (List.map Z.abs l).
Proof. induction l; simpl; lia. Qed.

(** Python's [sum] over amounts of cents is exact while the absolute
    amounts together fit the context. *)
Lemma cents_sum s l :
  fits (Z.abs s + sumZ (List.map Z.abs l)) ->
  dec_sum (cents s) (List.map cents l) = cents (s + sumZ l).
Proof.
  unfold fits. revert s. induction l as [|a l IH]; intros s H; simpl in *.
  - by rewrite Z.add_0_r.
  - pose proof (sumZ_abs l). unfold dec_sum in *. simpl.
    rewrite cents_add by (unfold fits; lia). rewrite IH by lia. f_equal. lia.
Qed.

(** ** Rounding bounds *)

Lemma round_mag_half_up n d : 0 < d -> 0 <= n ->
  2 * d * round_mag ROUND_HALF_UP n d <= 2 * n + d < 2 * d * round_mag ROUND_HALF_UP n d + 2 * d.
Proof.
  intros Hd Hn. simpl.
  pose proof (Z.mod_pos_bound (2 * n + d) (2 * d)). pose proof (Z.div_mod (2 * n + d) (2 * d)). lia.
Qed.

(** Half-up rounding moves the value by at most half a unit. *)
Lemma round_half_up_error n d : 0 < d ->
  Z.abs (2 * (d * round_div ROUND_HALF_UP n d - n)) <= d.
Proof.
  intros Hd. unfold round_div. pose proof (round_mag_half_up (Z.abs n) d Hd ltac:(lia)).
  destruct (Z.sgn_spec n) as [[? ->]|[[? ->]|[? ->]]]; nia.
Qed.

(** Truncation never exceeds the value, and loses less than one unit. *)
Lemma round_down_bounds n d : 0 < d -> 0 <= n ->
  d * round_div ROUND_DOWN n d <= n < d * round_div ROUND_DOWN n d + d.
Proof.
  intros Hd Hn. unfold round_div. simpl. rewrite Z.abs_eq by done.
  pose proof (Z.mod_pos_bound n d). pose proof (Z.div_mod n d).
  destruct (Z.sgn_spec n) as [[? ->]|[[? ->]|[? ->]]]; nia.
Qed.

Lemma round_even_lower n d : 0 < d -> 0 <= n -> n / d <= round_mag ROUND_HALF_EVEN n d.
Proof. intros Hd Hn. simpl. repeat case_match; lia. Qed.

Lemma abs_round_even n d : 0 < d -> n <> 0 ->
  Z.abs n / d <= Z.abs (round_div ROUND_HALF_EVEN n d).
Proof.
  intros Hd Hn. unfold round_div. pose proof (round_even_lower (Z.abs n) d Hd ltac:(lia)).
  pose proof (Z.div_pos (Z.abs n) d ltac:(lia) Hd). rewrite Z.abs_mul.
  assert (Z.abs (Z.sgn n) = 1) as -> by lia. lia.
Qed.

(** A result that does not fit is rounded to a larger exponent, and then no
    longer has a representation with two places. *)
Lemma quantize_fix rm n y :
  dec_quantize rm (dec_fix (Dec n (-2))) (-2) = Ok y -> fits n /\ y = cents n.
Proof.
  destruct (decide (fits n)) as [Hf|Hf].
  { rewrite dec_fix_fits by done. change (Dec n (-2)) with (cents n).
    rewrite quantize_cents by done. by intros [= <-]. }
  intros H. exfalso. pose proof Hf as Hnd. rewrite <- ndigits_fits in Hnd.
  apply not_true_is_false in Hnd. pose proof (Z.leb_gt (ndigits n) prec) as [Hgt _].
  specialize (Hgt Hnd). pose proof (ndigits_spec n) as (_ & _ & Hlow).
  unfold fits in Hf. set (k := ndigits n - prec) in *. assert (Hk : 0 < k) by lia.
  destruct Hlow as [Hlow|Hlow]; [change (10 ^ prec) with (10 ^ 28) in Hf; lia|].
  set (m := round_div ROUND_HALF_EVEN n (10 ^ k)) in *.
  assert (Hm : 10 ^ 27 <= Z.abs m).
  { etransitivity; [|apply abs_round_even; [by apply Z.pow_pos_nonneg; lia|]].
    - apply Z.div_le_lower_bound; [by apply Z.pow_pos_nonneg; lia|].
      rewrite <- Z.pow_add_r by lia. replace (k + 27) with (ndigits n - 1) by (unfold k, prec; lia). done.
    - intros ->. change (10 ^ prec) with (10 ^ 28) in Hf. lia. }
  assert (Hbig : forall c j, 10 ^ 27 <= Z.abs c -> 0 < j ->
            dec_quantize rm (Dec c (-2 + j)) (-2) = Ok y -> False).
  { intros c j Hc Hj. unfold dec_quantize. cbn [mant expo].
    rewrite (proj2 (Z.leb_le (-2) (-2 + j))) by lia. unfold scaled; cbn [mant expo]. intros Hq.
    assert (E : fits (c * 10 ^ (-2 + j - -2))).
    { apply ndigits_fits. revert Hq. by destruct (ndigits (c * _) <=? prec). }
    unfold fits in E.
    replace (-2 + j - -2) with (Z.succ (j - 1)) in E by lia.
    rewrite Z.pow_succ_r in E by lia.
    pose proof (Z.pow_pos_nonneg 10 (j - 1) ltac:(lia) ltac:(lia)). change (10 ^ prec) with (10 * 10 ^ 27) in E.
    rewrite Z.abs_mul, (Z.abs_eq (10 * _)) in E by lia. nia. }
  revert H. unfold dec_fix. cbn [mant expo]. rewrite Hnd. fold k m.
  destruct (ndigits m <=? prec) eqn:Em; [by apply Hbig|].
  rewrite <- Z.add_assoc. apply Hbig; [|lia].
  apply not_true_iff_false in Em. rewrite ndigits_fits in Em. unfold fits in Em.
  change (10 ^ prec) with (10 * 10 ^ 27) in Em.
  rewrite <- Z.quot_abs by lia. change (Z.abs 10) with 10.
  rewrite Z.quot_div_nonneg by lia. apply Z.div_le_lower_bound; lia.
Qed.

Lemma quantize_add rm a b y :
  dec_quantize rm (dec_add (cents a) (cents b)) (-2) = Ok y -> fits (a + b) /\ y = cents (a + b).
Proof.
  unfold dec_add, scaled, cents; simpl. change (10 ^ (-2 - Z.min (-2) (-2))) with 1.
  rewrite !Z.mul_1_r. apply quantize_fix.
Qed.

Lemma quantize_sub rm a b y :
  dec_quantize rm (dec_sub (cents a) (cents b)) (-2) = Ok y -> fits (a - b) /\ y = cents (a - b).
Proof.
  unfold dec_sub, scaled, cents; simpl. change (10 ^ (-2 - Z.min (-2) (-2))) with 1.
  rewrite !Z.mul_1_r. apply quantize_fix.
Qed.

(** ** Division of cents by a small count *)

Lemma strip_zeros_spec fuel c e :
  let '(c', e') := strip_zeros fuel c e in
  e <= e' <= e + Z.of_nat fuel /\ c = c' * 10 ^ (e' - e).
Proof.
  revert c e. induction fuel as [|f IH]; intros c e; cbn [strip_zeros].
  - rewrite Z.sub_diag. lia.
  - destruct (Z.eqb_spec (c mod 10) 0) as [E|E].
    + specialize (IH (c / 10) (e + 1)). destruct (strip_zeros f (c / 10) (e + 1)) as [c' e'].
      destruct IH as [Hb Hc]. split; [lia|]. replace (e' - e) with (Z.succ (e' - (e + 1))) by lia.
      rewrite Z.pow_succ_r by lia. pose proof (Z.div_mod c 10 ltac:(lia)). lia.
    + rewrite Z.sub_diag. lia.
Qed.

Lemma strip_all_zeros f c e : strip_zeros f (c * 10 ^ Z.of_nat f) e = (c, e + Z.of_nat f).
Proof.
  revert e. induction f as [|f IH]; intros e; cbn [strip_zeros].
  - f_equal; lia.
  - rewrite Nat2Z.inj_succ, Z.pow_succ_r by lia.
    replace (c * (10 * 10 ^ Z.of_nat f)) with (c * 10 ^ Z.of_nat f * 10) by lia.
    rewrite Z.mod_mul, Z.div_mul by lia. cbn. rewrite IH. f_equal. lia.
Qed.

Lemma round_even_error n d : 0 < d -> 0 <= n -> Z.abs (d * round_div ROUND_HALF_EVEN n d - n) <= d.
Proof.
  intros Hd Hn. unfold round_div, round_mag. rewrite (Z.abs_eq n) by done.
  pose proof (Z.mod_pos_bound n d Hd). pose proof (Z.div_mod n d ltac:(lia)).
  destruct (Z.sgn_spec n) as [[? ->]|[[? ->]|[? ->]]]; [|nia|lia].
  destruct (2 * (n mod d) <? d); [nia|]. destruct (d <? 2 * (n mod d)); [nia|]. destruct (Z.even _); nia.
Qed.

(** Rounding a number of at most thirty digits moves it by at most a hundred
    units of its last place. *)
Lemma dec_fix_error n e :
  0 <= n < 10 ^ 30 ->
  exists m j, dec_fix (Dec n e) = Dec m (e + j) /\ 0 <= j <= 3 /\ 0 <= m /\
    (m * 10 ^ j = n \/ 10 ^ 28 <= n /\ Z.abs (m * 10 ^ j - n) <= 100).
Proof.
  intros Hn. unfold dec_fix. cbn [mant expo]. destruct (Z.leb_spec (ndigits n) prec) as [Hs|Hs].
  { exists n, 0. rewrite Z.add_0_r, Z.mul_1_r. split_and!; try done; lia. }
  assert (Hbig : 10 ^ 28 <= n).
  { apply Z.nlt_ge. intros Hlt. apply (Z.lt_nge 28 (ndigits n)); [done|]. apply ndigits_le; lia. }
  assert (Hd : ndigits n <= 30) by (apply ndigits_le; lia). unfold prec in *.
  set (k := ndigits n - 28). assert (Hk : 1 <= k <= 2) by lia.
  pose proof (round_even_error n (10 ^ k) (Z.pow_pos_nonneg 10 k ltac:(lia) ltac:(lia)) ltac:(lia)) as He.
  set (m := round_div ROUND_HALF_EVEN n (10 ^ k)) in *.
  assert (H100 : 10 ^ k <= 100) by (assert (k = 1 \/ k = 2) as [-> | ->] by lia; done).
  assert (Hm : 0 <= m).
  { unfold m, round_div. apply Z.mul_nonneg_nonneg; [lia|]. etrans; [|apply round_even_lower]; try lia.
    apply Z.div_pos; lia. }
  destruct (Z.leb_spec (ndigits m) 28) as [Hm28|Hm28].
  { exists m, k. split_and!; try done; try lia. }
  assert (Hm0 : m = 10 ^ 28).
  { assert (Hlow : 10 ^ 28 <= m).
    { apply Z.nlt_ge. intros Hlt. apply (Z.lt_nge 28 (ndigits m)); [done|]. apply ndigits_le; lia. }
    pose proof (ndigits_spec n) as (_ & Hup & _). rewrite Z.abs_eq in Hup by lia.
    replace (ndigits n) with (k + 28) in Hup by lia. rewrite Z.pow_add_r in Hup by lia.
    assert (Hr : m <= n / 10 ^ k + 1).
    { unfold m, round_div, round_mag. rewrite (Z.abs_eq n) by lia.
      assert (0 <= n / 10 ^ k) by (apply Z.div_pos; lia).
      destruct (Z.sgn_spec n) as [[? ->]|[[? ->]|[? ->]]]; [|lia|lia].
      destruct (_ <? _); [lia|]. destruct (_ <? _); [lia|]. destruct (Z.even _); lia. }
    assert (n / 10 ^ k < 10 ^ 28) by (apply Z.div_lt_upper_bound; lia). lia. }
  exists (10 ^ 27), (k + 1). rewrite Hm0. split; [f_equal; lia|]. split; [lia|]. split; [lia|]. right. split; [done|].
  rewrite Hm0 in He. rewrite Z.pow_add_r by lia. change (10 ^ 27 * (10 ^ k * 10 ^ 1)) with (10 ^ 27 * (10 ^ k * 10)).
    replace (10 ^ 27 * (10 ^ k * 10)) with (10 ^ k * 10 ^ 28) by lia. lia.
Qed.

Lemma floor_unique D m g x : 0 < D -> g * D <= m < (g + 1) * D -> D * x <= m < D * x + D -> x = g.
Proof.
  intros HD H1 H2. enough (x < g + 1 /\ g < x + 1) by lia.
  split; apply (Z.mul_lt_mono_pos_l D); lia.
Qed.

Lemma floor_close g n r P C V :
  1 <= n < 1000 -> 1 <= r < n -> 10 ^ 13 * n <= P -> Z.abs (C * n - (n * g + r) * P) <= n -> Z.abs (V - C) <= 10 ^ 4 ->
  g * P <= V < (g + 1) * P.
Proof.
  intros Hn Hr HP HC HV.
  assert (H1 : Z.abs (n * V - n * C) <= n * 10 ^ 4).
  { rewrite <- Z.mul_sub_distr_l, Z.abs_mul, (Z.abs_eq n) by lia. apply Z.mul_le_mono_nonneg_l; lia. }
  assert (H2 : 1 * P <= r * P) by (apply Z.mul_le_mono_nonneg_r; lia).
  assert (H3 : r * P <= (n - 1) * P) by (apply Z.mul_le_mono_nonneg_r; lia).
  replace ((n * g + r) * P) with (n * (g * P) + r * P) in HC by ring.
  rewrite Z.mul_sub_distr_r, Z.mul_1_l in H3. rewrite (Z.mul_comm C n) in HC. split.
  - apply Z.lt_le_incl, (Z.mul_lt_mono_pos_l n); lia.
  - apply (Z.mul_lt_mono_pos_l n); [lia|]. replace (n * ((g + 1) * P)) with (n * (g * P) + n * P) by ring. lia.
Qed.

(** [(total / n).quantize(0.01, ROUND_DOWN)] is the floor in cents. *)
Lemma div_round_down c n :
  0 <= c < 10 ^ 14 -> 1 <= n < 1000 ->
  exists q, dec_div (cents c) (dec_of_int n) = Ok q /\ dec_quantize ROUND_DOWN q (-2) = Ok (cents (c / n)).
Proof.
  intros Hc Hn. unfold dec_div, cents, dec_of_int. cbn [mant expo].
  destruct (Z.eqb_spec n 0); [lia|]. destruct (Z.eqb_spec c 0) as [->|Hc0].
  { eexists. split; [reflexivity|]. rewrite Z.div_0_l by lia. reflexivity. }
  pose proof (ndigits_spec c) as (Hc1 & Hcu & Hcl). pose proof (ndigits_spec n) as (Hn1 & Hnu & Hnl).
  rewrite Z.abs_eq in Hcu, Hcl by lia. rewrite Z.abs_eq in Hnu, Hnl by lia.
  assert (Hc14 : ndigits c <= 14) by (apply ndigits_le; lia). assert (Hn3 : ndigits n <= 3) by (apply ndigits_le; lia).
  set (sh := ndigits n - ndigits c + prec + 1). assert (Hsh : 16 <= sh <= 31) by (unfold sh, prec; lia).
  rewrite (proj2 (Z.leb_le 0 sh)) by lia. rewrite !Z.abs_eq by lia. cbv zeta.
  replace (Z.sgn c * Z.sgn n) with 1 by (destruct (Z.sgn_spec c) as [[? ->]|[[? ?]|[? ?]]]; destruct (Z.sgn_spec n) as [[? ->]|[[? ?]|[? ?]]]; lia).
  set (P := 10 ^ sh). assert (HP : 10 ^ 16 <= P) by (apply Z.pow_le_mono_r; lia).
  assert (Hfits : ndigits (c / n) <= prec).
  { apply ndigits_le; [done|]. unfold prec. rewrite Z.abs_eq by (apply Z.div_pos; lia).
    assert (c / n <= c) by (apply Z.div_le_upper_bound; nia). lia. }
  set (g := c / n) in *. set (r := c mod n).
  pose proof (Z.div_mod c n ltac:(lia)) as Hdm. fold g r in Hdm. pose proof (Z.mod_pos_bound c n ltac:(lia)) as Hr. fold r in Hr.
  assert (Hg : 0 <= g) by (apply Z.div_pos; lia).
  destruct (Z.eq_dec r 0) as [Hr0|Hr0].
  - assert (Hnum : c * P = g * P * n) by (rewrite Hdm, Hr0; lia).
    rewrite Hnum, Z.mod_mul, Z.div_mul by lia. cbn [Z.eqb].
    replace P with (10 ^ Z.of_nat (Z.to_nat sh)) by (unfold P; f_equal; lia). rewrite strip_all_zeros, Z2Nat.id by lia.
    replace (-2 - 0 - sh + sh) with (-2) by lia. rewrite Z.mul_1_l.
    exists (cents g). split; [f_equal; apply dec_fix_fits; by apply ndigits_fits, Z.leb_le|].
    apply quantize_cents. by apply ndigits_fits, Z.leb_le.
  - set (e := -2 - 0 - sh).
    assert (Hden : exists c' e', e <= e' <= -2 /\ 0 <= c' /\ c' * 10 ^ (e' - e) < 10 ^ 30 /\
      Z.abs (c' * 10 ^ (e' - e) * n - c * P) <= n /\
      (if c * P mod n =? 0 then strip_zeros (Z.to_nat sh) (c * P / n) e
       else (if (c * P / n) mod 5 =? 0 then c * P / n + 1 else c * P / n, e)) = (c', e')).
    { set (q := c * P / n). pose proof (Z.div_mod (c * P) n ltac:(lia)) as Hq. fold q in Hq.
      pose proof (Z.mod_pos_bound (c * P) n ltac:(lia)) as Hqr.
      assert (HcP : c * P < 10 ^ (ndigits n + 29)).
      { replace (ndigits n + 29) with (ndigits c + sh) by (unfold sh, prec; lia). rewrite Z.pow_add_r by lia. fold P.
        apply Z.mul_lt_mono_pos_r; lia. }
      assert (Hq30 : q < 10 ^ 30).
      { apply Z.div_lt_upper_bound; [lia|]. destruct Hnl as [Hn10|Hnl].
        - assert (ndigits n = 1) as Hn1' by (assert (ndigits n <= 1) by (apply ndigits_le; lia); lia).
          rewrite Hn1' in HcP. change (10 ^ (1 + 29)) with (10 ^ 30) in HcP. nia.
        - replace (ndigits n + 29) with ((ndigits n - 1) + 30) in HcP by lia. rewrite Z.pow_add_r in HcP by lia. nia. }
      assert (Hq0 : 0 <= q) by (apply Z.div_pos; nia).
      destruct (Z.eqb_spec (c * P mod n) 0) as [E0|E0].
      - pose proof (strip_zeros_spec (Z.to_nat sh) q e) as Hs. fold q.
        destruct (strip_zeros (Z.to_nat sh) q e) as [c' e']. rewrite Z2Nat.id in Hs by lia. destruct Hs as [Hs1 Hs2].
        pose proof (Z.pow_pos_nonneg 10 (e' - e) ltac:(lia) ltac:(lia)). exists c', e'.
        rewrite <- Hs2. split_and!; try done; unfold e in *; nia.
      - fold q. destruct (Z.eqb_spec (q mod 5) 0) as [H5|H5].
        + assert (q + 1 < 10 ^ 30).
          { pose proof (Z.div_mod q 5 ltac:(lia)). lia. }
          exists (q + 1), e. rewrite Z.sub_diag, Z.mul_1_r. split_and!; try done; unfold e; nia.
        + exists q, e. rewrite Z.sub_diag, Z.mul_1_r. split_and!; try done; unfold e; nia. }
    destruct Hden as (c' & e' & He' & Hc' & Hsize & Herr & ->). rewrite Z.mul_1_l.
    assert (HPn : 10 ^ 13 * n <= P) by lia.
    pose proof (Z.pow_pos_nonneg 10 (e' - e) ltac:(lia) ltac:(lia)) as Hpe.
    set (E := 10 ^ (e' - e)) in *.
    destruct (dec_fix_error c' e') as (m & j & -> & Hj & Hm & Hmj); [split; [lia|]; apply (Z.le_lt_trans _ (c' * E)); [|lia]; rewrite <- (Z.mul_1_r c') at 1; apply Z.mul_le_mono_nonneg_l; lia|].
    assert (HV : Z.abs (m * 10 ^ j * E - c' * E) <= 10 ^ 4).
    { rewrite <- Z.mul_sub_distr_r, Z.abs_mul, (Z.abs_eq E) by lia. destruct Hmj as [->|[Hc28 Hmj]]; [rewrite Z.sub_diag; lia|].
      assert (E <= 100).
      { apply Z.nlt_ge. intros Hlt. apply (Z.lt_irrefl (10 ^ 30)). apply (Z.le_lt_trans _ (c' * E)); [|done].
        change (10 ^ 30) with (10 ^ 28 * 100). apply Z.mul_le_mono_nonneg; lia. }
      change (10 ^ 4) with (100 * 100). apply Z.mul_le_mono_nonneg; lia. }
    set (J := 10 ^ j) in *. assert (HJ : 0 < J) by (apply Z.pow_pos_nonneg; lia).
    assert (Hfl : g * P <= m * J * E < (g + 1) * P).
    { apply (floor_close g n r P (c' * E)); lia. }
    eexists. split; [reflexivity|]. unfold dec_quantize, scaled. cbn [mant expo].
    assert (HE : 10 ^ (e' + j - e) = J * E).
    { unfold J, E. rewrite <- Z.pow_add_r by lia. f_equal; lia. }
    destruct (Z.leb_spec (-2) (e' + j)) as [Hbig|Hsmall].
    + assert (HPx : J * E = 10 ^ (e' + j - -2) * P).
      { rewrite <- HE. unfold P. rewrite <- Z.pow_add_r by lia. f_equal; unfold e; lia. }
      assert (Hx : m * 10 ^ (e' + j - -2) = g).
      { rewrite <- Z.mul_assoc, HPx, Z.mul_assoc in Hfl. destruct Hfl as [H1 H2].
        apply Z.mul_le_mono_pos_r in H1; [|lia]. apply Z.mul_lt_mono_pos_r in H2; lia. }
      rewrite Hx. by rewrite (proj2 (Z.leb_le (ndigits g) prec)).
    + assert (HPx : P = 10 ^ (-2 - (e' + j)) * (J * E)).
      { rewrite <- HE. unfold P. rewrite <- Z.pow_add_r by lia. f_equal; unfold e; lia. }
      assert (Hx : round_div ROUND_DOWN m (10 ^ (-2 - (e' + j))) = g).
      { rewrite HPx, <- Z.mul_assoc, !Z.mul_assoc, <- !(Z.mul_assoc _ J E) in Hfl.
        assert (0 < J * E) by (apply Z.mul_pos_pos; lia). destruct Hfl as [H1 H2].
        apply Z.mul_le_mono_pos_r in H1; [|lia]. apply Z.mul_lt_mono_pos_r in H2; [|lia].
        pose proof (Z.pow_pos_nonneg 10 (-2 - (e' + j)) ltac:(lia) ltac:(lia)).
        pose proof (round_down_bounds m (10 ^ (-2 - (e' + j))) ltac:(lia) Hm).
        apply (floor_unique (10 ^ (-2 - (e' + j))) m); lia. }
      rewrite Hx. by rewrite (proj2 (Z.leb_le (ndigits g) prec)).
Qed.

#[export] Hint Resolve quantize_cents cents_add cents_sub : pms.
