(* ===== verification/PyJson.v ===== *)
(** * JSON values as Python sees them

    The JSONB columns ([CountryPack.taxes], [required_fields], payloads) are
    loaded as Python objects; the code inspects them with [isinstance],
    [dict.get], [str] and truth tests, which are defined here. *)

From stdpp Require Import pretty.
From S2P Require Import Prelude.

(** A float is kept as the two things the code can observe of it: its
    [repr] and whether it is zero. *)
#[warnings="-register-all"]
Inductive json : Type :=
  | JNull
  | JBool (b : bool)
  | JInt (z : Z)
  | JFloat (repr : string) (nonzero : bool)
  | JStr (s : string)
  | JArr (l : list json)
  | JObj (l : list (string * json)).

(** [repr(x)] *)
Fixpoint py_repr (j : json) : string :=
  match j with
  | JNull => "None"
  | JBool true => "True"
  | JBool false => "False"
  | JInt z => pretty z
  | JFloat r _ => r
  | JStr s => py_repr_str s
  | JArr l => "[" ++ py_join ", " (List.map py_repr l) ++ "]"
  | JObj l =>
      "{" ++ py_join ", " (List.map (fun kv => py_repr_str (fst kv) ++ ": " ++ py_repr (snd kv)) l) ++ "}"
  end%string.

(** [str(x)] *)
Definition py_str (j : json) : string :=
  match j with JStr s => s | _ => py_repr j end.

(** [bool(x)] *)
Definition py_bool (j : json) : bool :=
  match j with
  | JNull => false
  | JBool b => b
  | JInt z => negb (z =? 0)
  | JFloat _ nz => nz
  | JStr s => truthy s
  | JArr l => match l with [] => false | _ => true end
  | JObj l => match l with [] => false | _ => true end
  end.

Definition dict := list (string * json).

(** [d.get(k)]; [d.get(k, default)] *)
Fixpoint dict_get (d : dict) (k : string) : option json :=
  match d with
  | [] => None
  | (k', v) :: d' => if String.eqb k k' then Some v else dict_get d' k
  end.
Definition dict_get_or (d : dict) (k : string) (default : json) : json :=
  match dict_get d k with Some v => v | None => default end.

(** [{**d, k: v}] *)
Fixpoint dict_set (d : dict) (k : string) (v : json) : dict :=
  match d with
  | [] => [(k, v)]
  | (k', v') :: d' => if String.eqb k k' then (k, v) :: d' else (k', v') :: dict_set d' k v
  end.

Lemma dict_get_set_eq d k v : dict_get (dict_set d k v) k = Some v.
Proof.
  induction d as [|[k' v'] d IH]; simpl; [by rewrite String.eqb_refl|].
  destruct (String.eqb_spec k k') as [->|Hne]; simpl; [by rewrite String.eqb_refl|].
  apply String.eqb_neq in Hne. by rewrite Hne.
Qed.

Lemma dict_get_set_ne d k k' v : k <> k' -> dict_get (dict_set d k v) k' = dict_get d k'.
Proof.
  intros Hne. induction d as [|[q w] d IH]; simpl.
  - by destruct (String.eqb_spec k' k); [congruence|].
  - destruct (String.eqb_spec k q) as [<-|]; simpl.
    + by destruct (String.eqb_spec k' k); [congruence|].
    + by rewrite IH.
Qed.

Example repr_nested :
  py_str (JArr [JStr "a"; JInt (-3); JNull; JObj [("k"%string, JBool true)]])
  = "['a', -3, None, {'k': True}]"%string.
Proof. vm_compute. reflexivity. Qed.

(** ** [json.dumps(x, separators=(",", ":"))] *)

Fixpoint escape_body (s : string) : string :=
  match s with
  | EmptyString => EmptyString
  | String c s' =>
      let n := nat_of_ascii c in
      let rest := escape_body s' in
      if (n =? 34)%nat then String "\" (String c rest)
      else if (n =? 92)%nat then String "\" (String c rest)
      else if (n =? 8)%nat then String "\" (String "b" rest)
      else if (n =? 9)%nat then String "\" (String "t" rest)
      else if (n =? 10)%nat then String "\" (String "n" rest)
      else if (n =? 12)%nat then String "\" (String "f" rest)
      else if (n =? 13)%nat then String "\" (String "r" rest)
      else if (n <? 32)%nat then
        "\u00" ++ String (hex_digit (n / 16)) (String (hex_digit (n mod 16)) rest)
      else String c rest
  end.

Definition json_quote (s : string) : string :=
  let q := ascii_of_nat 34 in String q (escape_body s ++ String q EmptyString).

Fixpoint json_dumps (j : json) : string :=
  match j with
  | JNull => "null"
  | JBool b => if b then "true" else "false"
  | JInt z => pretty z
  | JFloat r _ => r
  | JStr s => json_quote s
  | JArr l => "[" ++ py_join "," (List.map json_dumps l) ++ "]"
  | JObj l => "{" ++ py_join "," (List.map (fun kv => json_quote (fst kv) ++ ":" ++ json_dumps (snd kv)) l) ++ "}"
  end%string.
