(* ===== verification/Tax.v ===== *)
(** * Tax engine

    app/services/tax_service.py: country-pack rules (simple, inclusive and
    compound), the order compound rules run in, the folio posting for each
    tax mode, and the single-rate property tax of receipts. *)

From stdpp Require Import gmap pretty.
From S2P Require Import Prelude PyDecimal PyJson.

(** [TaxMode] of app/models/billing/tax_config.py *)
Inductive tax_mode := mode_off | mode_inclusive | mode_exclusive.

#[export] Instance tax_mode_eq_dec : EqDecision tax_mode.
Proof. solve_decision. Defined.

(** [TaxLineResponse], [TaxCalculationResponse], [CountryPackTaxPosting] *)
Record tax_line := TaxLine { tl_code : string; tl_name : string; tl_amount : dec }.
Record tax_calc := TaxCalc {
  tc_lines : list tax_line; tc_subtotal : dec; tc_total : dec }.
Record tax_posting := TaxPosting {
  tp_lines : list tax_line; tp_room_charge : dec; tp_total : dec }.

Definition q2 (value : dec) : result dec := dec_quantize ROUND_HALF_UP value (-2).

Definition rule_applies (applies_to : list string) (category : string) : bool :=
  let norm := List.map (fun x => lower (strip x)) applies_to in
  if str_in "all" norm then true else str_in (lower (strip category)) norm.

Definition parse_rules (raw : json) : list dict :=
  match raw with
  | JArr l => omap (fun j => match j with JObj d => Some d | _ => None end) l
  | _ => []
  end.

Definition rule_code (r : dict) : string := py_str (dict_get_or r "code" (JStr "")).
Definition rule_key (r : dict) : string := strip (rule_code r).
Definition rule_rate (r : dict) : result dec := decimal (py_str (dict_get_or r "rate" (JInt 0))).
Definition rule_inclusive (r : dict) : bool := py_bool (dict_get_or r "inclusive" (JBool false)).

(** The guards of the first loop.  The loop also parses the rate, replaces
    a malformed or negative one by zero, and then appends the rule itself:
    the cleaned rate is dropped and both kinds of rule are kept. *)
Definition rule_active (category : string) (r : dict) : bool :=
  if negb (py_bool (dict_get_or r "active" (JBool true))) then false
  else match dict_get r "applies_to" with
       | Some (JArr codes) =>
           rule_applies (List.map py_str codes) category && truthy (rule_key r)
       | _ => false
       end.

(** The rate as the first loop cleans it (unused by the rest). *)
Definition cleaned_rate (r : dict) : dec :=
  match rule_rate r with
  | Ok x => if dec_ltb x (dec_of_int 0) then dec_of_int 0 else x
  | Err _ => dec_of_int 0
  end.

Definition is_compound (r : dict) : bool :=
  match dict_get r "compound_after" with
  | None | Some JNull => false
  | Some (JStr s) => truthy (strip s)
  | Some _ => true
  end.

(** ** Non-compound rules *)

Definition simple_name (r : dict) : string :=
  py_str (dict_get_or r "name" (dict_get_or r "code" (JStr ""))).

(** One iteration: the lines posted so far and the running total. *)
Definition simple_step (base : dec) (st : list tax_line * dec) (r : dict)
    : result (list tax_line * dec) :=
  let '(lines, running) := st in
  rate ← rule_rate r;
  if rule_inclusive r then
    amt ← (if dec_eqb rate (dec_of_int 0) then Ok (Dec 0 (-2))
           else d ← dec_div base (dec_add (dec_of_int 1) rate);
                net ← q2 d; q2 (dec_sub base net));
    Ok (lines ++ [TaxLine (rule_code r) (simple_name r) amt], running)
  else
    amt ← q2 (dec_mul base rate);
    Ok (lines ++ [TaxLine (rule_code r) (simple_name r) amt], dec_add running amt).

(** ** Order of the compound rules *)

Fixpoint insert_str (s : string) (l : list string) : list string :=
  match l with
  | [] => [s]
  | x :: l' => if String.leb s x then s :: l else x :: insert_str s l'
  end.
(** [sorted(l)] on strings *)
Definition sort_str (l : list string) : list string := List.fold_right insert_str [] l.

(** [deps[c] = dep]: a dictionary in insertion order. *)
Fixpoint deps_set (deps : list (string * option string)) (c : string) (dep : option string) :=
  match deps with
  | [] => [(c, dep)]
  | (c', dep') :: deps' =>
      if String.eqb c c' then (c', dep) :: deps' else (c', dep') :: deps_set deps' c dep
  end.

Definition rule_dep (r : dict) : option string :=
  match dict_get r "compound_after" with Some (JStr s) => Some (strip s) | _ => None end.

Definition compound_deps (compound : list dict) : list (string * option string) :=
  List.fold_left (fun deps r => deps_set deps (rule_key r) (rule_dep r)) compound [].

(** An edge [dep -> c] per dependency on a rule that is active. *)
Definition edges (codes : list string) (deps : list (string * option string))
    : list (string * string) :=
  omap (fun cd => match snd cd with
                  | Some dep => if str_in dep codes then Some (dep, fst cd) else None
                  | None => None end) deps.

Definition adj_of (es : list (string * string)) (n : string) : list string :=
  List.map snd (List.filter (fun e => String.eqb (fst e) n) es).

Definition indeg_get (indeg : gmap string Z) (c : string) : Z := default 0 (indeg !! c).

Definition init_indeg (nodes : list string) (es : list (string * string)) : gmap string Z :=
  List.fold_left (fun m e => <[snd e := indeg_get m (snd e) + 1]> m) es
    (List.fold_left (fun m n => <[n := 0]> m) nodes ∅).

(** The body of [for m in sorted(adj[n])]. *)
Definition relax (st : gmap string Z * list string) (m : string) : gmap string Z * list string :=
  let '(indeg, q) := st in
  let d := indeg_get indeg m - 1 in
  (<[m := d]> indeg, if d =? 0 then q ++ [m] else q).

(** [while q:]; [None] when the fuel runs out, which it never does
    ([kahn_total]). *)
Fixpoint kahn (fuel : nat) (es : list (string * string)) (indeg : gmap string Z)
    (q ordered : list string) : option (list string) :=
  match q with
  | [] => Some ordered
  | n :: q' =>
      match fuel with
      | O => None
      | S f =>
          let '(indeg', q'') := List.fold_left relax (sort_str (adj_of es n)) (indeg, q') in
          kahn f es indeg' q'' (ordered ++ [n])
      end
  end.

Definition append_missing (nodes ordered : list string) : list string :=
  List.fold_left (fun o n => if str_in n o then o else o ++ [n]) nodes ordered.

Definition compound_order (active compound : list dict) : result (list string) :=
  let nodes := List.map rule_key compound in
  let codes := List.filter truthy (List.map rule_key active) in
  let deps := compound_deps compound in
  let es := edges codes deps in
  let indeg := init_indeg nodes es in
  let q := sort_str (List.filter (fun n => indeg_get indeg n =? 0) nodes) in
  ordered ← of_option (kahn (length nodes + length deps) es indeg q [])
              (RuntimeError "unreachable");
  Ok (if Nat.eqb (length ordered) (length nodes) then ordered
      else append_missing nodes ordered).

(** [code_to_rule.get(key)]: the last rule with the code. *)
Definition last_rule (compound : list dict) (key : string) : option dict :=
  List.find (fun r => String.eqb (rule_key r) key) (rev compound).

Definition compound_step (compound : list dict) (st : list tax_line * dec) (key : string)
    : result (list tax_line * dec) :=
  let '(lines, running) := st in
  match last_rule compound key with
  | None => Ok (lines, running)
  | Some r =>
      let name := py_str (dict_get_or r "name" (JStr key)) in
      rate ← rule_rate r;
      if rule_inclusive r then
        net_before ← (if dec_is_zero rate then Ok running
                      else d ← dec_div running (dec_add (dec_of_int 1) rate); q2 d);
        amt ← q2 (dec_sub running net_before);
        Ok (lines ++ [TaxLine key name amt], running)
      else
        amt ← q2 (dec_mul running rate);
        Ok (lines ++ [TaxLine key name amt], dec_add running amt)
  end.

Definition calculate_taxes_from_rules (base : dec) (raw_rules : json) (category : string)
    : result tax_calc :=
  let active := List.filter (rule_active category) (parse_rules raw_rules) in
  let non_compound := List.filter (fun r => negb (is_compound r)) active in
  let compound := List.filter is_compound active in
  st ← foldR (simple_step base) ([], base) non_compound;
  st' ← match compound with
        | [] => Ok st
        | _ => order ← compound_order active compound; foldR (compound_step compound) st order
        end;
  total ← q2 (snd st');
  Ok (TaxCalc (fst st') base total).

Definition set_inclusive (r : dict) : dict := dict_set r "inclusive" (JBool true).

Definition calculate_country_pack_tax_posting (base : dec) (raw_rules : json)
    (category : string) (mode : option tax_mode) : result tax_posting :=
  gross ← q2 base;
  match mode with
  | Some mode_off => Ok (TaxPosting [] gross gross)
  | _ =>
      let parsed := parse_rules raw_rules in
      let inclusive := bool_decide (mode = Some mode_inclusive) in
      let adjusted := if inclusive then List.map set_inclusive parsed else parsed in
      calc ← calculate_taxes_from_rules gross (JArr (List.map JObj adjusted)) category;
      if inclusive then
        tax_total ← q2 (dec_sum (Dec 0 (-2)) (List.map tl_amount (tc_lines calc)));
        room ← q2 (dec_sub gross tax_total);
        Ok (TaxPosting (tc_lines calc) room gross)
      else
        total ← q2 (tc_total calc);
        Ok (TaxPosting (tc_lines calc) gross total)
  end.

(** ** Property tax of receipts *)

(** [TaxConfig] row; [TaxBreakdown] *)
Record tax_config := TaxConfig {
  cfg_tenant : Z; cfg_property : Z; cfg_mode : tax_mode; cfg_name : string; cfg_rate : dec }.
Record tax_breakdown := TaxBreakdown { br_tax : dec; br_gross : dec; br_net : dec }.

Definition calculate_property_tax (amount : dec) (config : tax_config) : result tax_breakdown :=
  let rate := cfg_rate config in
  if bool_decide (cfg_mode config = mode_off) || dec_eqb rate (dec_of_int 0) then
    base ← q2 amount; Ok (TaxBreakdown (Dec 0 (-2)) base base)
  else if bool_decide (cfg_mode config = mode_inclusive) then
    gross ← q2 amount;
    d ← dec_div (dec_mul gross rate) (dec_add (dec_of_int 1) rate);
    tax ← q2 d;
    net ← q2 (dec_sub gross tax);
    Ok (TaxBreakdown tax gross net)
  else
    net ← q2 amount;
    tax ← q2 (dec_mul net rate);
    gross ← q2 (dec_add net tax);
    Ok (TaxBreakdown tax gross net).

Definition property_tax_summary_lines (config : tax_config) (breakdown : tax_breakdown)
    : result (list string) :=
  rate_pct ← dec_quantize ROUND_HALF_UP (dec_mul (cfg_rate config) (dec_of_int 100)) (-2);
  let name := if truthy (strip (cfg_name config)) then strip (cfg_name config) else "Tax"%string in
  let line := (name ++ " " ++ format_f rate_pct ++ "% = " ++ format_f (br_tax breakdown))%string in
  Ok (match cfg_mode config with
      | mode_inclusive => ["Includes " ++ line]%string
      | mode_exclusive => [line]
      | mode_off => []
      end).

(** ** Concrete packs *)

Definition rule_obj (code rate : string) (inclusive : bool) (after : option string) : json :=
  JObj [("code", JStr code); ("name", JStr code); ("rate", JStr rate);
        ("inclusive", JBool inclusive); ("applies_to", JArr [JStr "room_charge"]);
        ("compound_after", match after with Some s => JStr s | None => JNull end);
        ("active", JBool true)]%string.

(** Service charge 10%, then VAT 7% on top of it. *)
Definition thai_pack : json :=
  JArr [rule_obj "SVC" "0.10" false None; rule_obj "VAT" "0.07" false (Some "SVC")]%string.

Definition line_view (l : tax_line) := (tl_code l, to_cents (tl_amount l)).

Example thai_exclusive :
  (p ← calculate_country_pack_tax_posting (cents 100000) thai_pack "room_charge" (Some mode_exclusive);
   Ok (List.map line_view (tp_lines p), to_cents (tp_room_charge p), to_cents (tp_total p)))
  = Ok ([("SVC", 10000); ("VAT", 7700)]%string, 100000, 117700).
Proof. vm_compute. reflexivity. Qed.

Example thai_inclusive :
  (p ← calculate_country_pack_tax_posting (cents 100000) thai_pack "room_charge" (Some mode_inclusive);
   Ok (List.map line_view (tp_lines p), to_cents (tp_room_charge p), to_cents (tp_total p)))
  = Ok ([("SVC", 9091); ("VAT", 6542)]%string, 84367, 100000).
Proof. vm_compute. reflexivity. Qed.
