(* ===== verification/TaxOrder.v ===== *)
(** * The order of compound rules

    The queue loop of [calculate_taxes_from_rules] terminates, and orders
    every compound rule exactly once when rule codes are distinct. *)

From stdpp Require Import gmap.
From Stdlib Require Import Permutation.
From S2P Require Import Prelude PyJson Tax.

Lemma In_insert_str s l x : In x (insert_str s l) <-> x = s \/ In x l.
Proof.
  induction l as [|y l IH]; simpl; [intuition congruence|].
  destruct (String.leb s y); simpl; [intuition congruence|]. rewrite IH. tauto.
Qed.

Lemma insert_str_perm s l : Permutation (insert_str s l) (s :: l).
Proof.
  induction l as [|y l IH]; simpl; [done|]. destruct (String.leb s y); [done|].
  rewrite IH. apply perm_swap.
Qed.

Lemma sort_str_perm l : Permutation (sort_str l) l.
Proof. induction l as [|x l IH]; simpl; [done|]. by rewrite insert_str_perm, IH. Qed.

Lemma In_sort_str l x : In x (sort_str l) -> In x l.
Proof. apply Permutation_in, sort_str_perm. Qed.

Lemma indeg_get_insert_eq m k v : indeg_get (<[k := v]> m) k = v.
Proof. unfold indeg_get. by rewrite lookup_insert_eq. Qed.
Lemma indeg_get_insert_ne m k k' v : k <> k' -> indeg_get (<[k := v]> m) k' = indeg_get m k'.
Proof. intros. unfold indeg_get. by rewrite lookup_insert_ne. Qed.

(** ** Termination: the queue plus the codes still waiting shrink *)

Section potential.
Context (keys : list string) (Hkeys : List.NoDup keys).

Definition waiting (indeg : gmap string Z) : Z :=
  countb (fun k => 0 <? indeg_get indeg k) keys.

Lemma waiting_insert indeg m v :
  In m keys ->
  waiting (<[m := v]> indeg) =
    waiting indeg - (if 0 <? indeg_get indeg m then 1 else 0) + (if 0 <? v then 1 else 0).
Proof.
  unfold waiting. clear -Hkeys. induction keys as [|k ks IH]; [done|].
  apply List.NoDup_cons_iff in Hkeys as [Hni Hnd]. intros [->|Hin]; rewrite !countb_cons.
  - rewrite indeg_get_insert_eq.
    rewrite (countb_ext _ (fun k => 0 <? indeg_get indeg k) ks).
    + destruct (0 <? indeg_get indeg m), (0 <? v); lia.
    + intros a Ha. rewrite indeg_get_insert_ne; [done|]. by intros ->.
  - rewrite indeg_get_insert_ne by (by intros ->). rewrite IH by done. lia.
Qed.

Lemma relax_potential ms indeg q :
  (forall m, In m ms -> In m keys) ->
  let '(indeg', q') := List.fold_left relax ms (indeg, q) in
  Z.of_nat (length q') + waiting indeg' <= Z.of_nat (length q) + waiting indeg.
Proof.
  revert indeg q. induction ms as [|m ms IH]; intros indeg q Hin; simpl; [lia|].
  set (d := indeg_get indeg m - 1).
  specialize (IH (<[m := d]> indeg) (if d =? 0 then q ++ [m] else q)
                (fun x Hx => Hin x (or_intror Hx))).
  destruct (List.fold_left relax ms _) as [indeg' q'].
  rewrite waiting_insert in IH by (apply Hin; by left).
  revert IH. subst d. set (i := indeg_get indeg m).
  destruct (Z.eqb_spec (i - 1) 0), (Z.ltb_spec 0 i), (Z.ltb_spec 0 (i - 1));
    rewrite ?length_app; simpl length; lia.
Qed.

Lemma kahn_terminates es fuel indeg q ordered :
  (forall e, In e es -> In (snd e) keys) ->
  Z.of_nat (length q) + waiting indeg <= Z.of_nat fuel ->
  is_Some (kahn fuel es indeg q ordered).
Proof.
  intros Hes. revert indeg q ordered. induction fuel as [|f IH]; intros indeg q ordered Hf.
  - destruct q as [|n q]; [by eexists|]. pose proof (countb_nonneg (fun k => 0 <? indeg_get indeg k) keys).
    unfold waiting in Hf. simpl length in Hf. lia.
  - destruct q as [|n q]; [by eexists|]. cbn [kahn].
    pose proof (relax_potential (sort_str (adj_of es n)) indeg q) as Hr.
    destruct (List.fold_left relax _ _) as [indeg' q''].
    apply IH. simpl length in Hf. etransitivity; [apply Hr|lia].
    intros m Hm%In_sort_str. unfold adj_of in Hm. apply in_map_iff in Hm as (e & <- & He).
    apply filter_In in He as [He _]. by apply Hes.
Qed.
End potential.

Lemma deps_set_keys deps c dep x :
  In x (List.map fst (deps_set deps c dep)) <-> x = c \/ In x (List.map fst deps).
Proof.
  induction deps as [|[c' d'] deps IH]; simpl; [intuition congruence|].
  destruct (String.eqb_spec c c') as [->|]; simpl; [intuition congruence|]. rewrite IH. tauto.
Qed.

Lemma deps_set_NoDup deps c dep :
  List.NoDup (List.map fst deps) -> List.NoDup (List.map fst (deps_set deps c dep)).
Proof.
  induction deps as [|[c' d'] deps IH]; simpl; intros Hnd; [constructor; [by intros []|done]|].
  apply List.NoDup_cons_iff in Hnd as [Hni Hnd].
  destruct (String.eqb_spec c c') as [->|Hne]; simpl; constructor; auto.
  rewrite deps_set_keys. intros [->|?]; auto.
Qed.

Lemma compound_deps_spec compound :
  List.NoDup (List.map fst (compound_deps compound)) /\
  (forall x, In x (List.map fst (compound_deps compound)) -> In x (List.map rule_key compound)).
Proof.
  unfold compound_deps.
  assert (H : forall l acc, List.NoDup (List.map fst acc) ->
    (forall x, In x (List.map fst acc) -> In x (List.map rule_key compound)) ->
    (forall r, In r l -> In r compound) ->
    List.NoDup (List.map fst (List.fold_left (fun deps r => deps_set deps (rule_key r) (rule_dep r)) l acc)) /\
    (forall x, In x (List.map fst (List.fold_left (fun deps r => deps_set deps (rule_key r) (rule_dep r)) l acc)) ->
       In x (List.map rule_key compound))).
  { induction l as [|r l IH]; intros acc Hnd Hin Hl; simpl; [done|]. apply IH.
    - by apply deps_set_NoDup.
    - intros x [->|?]%deps_set_keys; [|by apply Hin]. apply in_map, Hl. by left.
    - intros r' Hr'. apply Hl. by right. }
  apply H; simpl; [constructor|done|done].
Qed.

Lemma edges_In codes deps e :
  In e (edges codes deps) -> In (snd e) (List.map fst deps).
Proof.
  unfold edges. rewrite <- list_elem_of_In, list_elem_of_omap.
  intros ([c d] & Hin%list_elem_of_In & He). simpl in He.
  destruct d as [d|]; [|done]. destruct (str_in d codes); [|done]. simplify_eq. simpl.
  by apply (in_map fst) in Hin.
Qed.

(** The queue loop always empties its queue within the fuel of
    [compound_order]: the guard of [while q] is what ends it. *)
Lemma kahn_total active compound :
  exists order, compound_order active compound = Ok order.
Proof.
  unfold compound_order. cbv zeta.
  set (nodes := List.map rule_key compound). set (deps := compound_deps compound).
  set (es := edges _ deps). set (indeg := init_indeg nodes es).
  set (q := sort_str _).
  destruct (compound_deps_spec compound) as [Hnd _].
  destruct (kahn_terminates (List.map fst deps) Hnd es (length nodes + length deps) indeg q [])
    as [o ->]; [apply edges_In| |eexists; reflexivity].
  assert (length q <= length nodes)%nat.
  { unfold q. rewrite (Permutation_length (sort_str_perm _)). apply filter_length_le. }
  assert (waiting (List.map fst deps) indeg <= Z.of_nat (length deps)); [|lia].
  unfold waiting, countb. rewrite <- (length_map fst deps). pose proof (filter_length_le (fun k => 0 <? indeg_get indeg k) (List.map fst deps)). lia.
Qed.

(** ** Every rule exactly once *)

Lemma relax_spec nodes ms indeg q ordered :
  (forall m, In m ms -> In m nodes) ->
  List.NoDup (ordered ++ q) -> (forall x, In x (ordered ++ q) -> In x nodes) ->
  (forall x, In x (ordered ++ q) -> indeg_get indeg x <= 0) ->
  let '(indeg', q') := List.fold_left relax ms (indeg, q) in
  List.NoDup (ordered ++ q') /\ (forall x, In x (ordered ++ q') -> In x nodes) /\
  (forall x, In x (ordered ++ q') -> indeg_get indeg' x <= 0).
Proof.
  revert indeg q. induction ms as [|m ms IH]; intros indeg q Hms Hnd Hin Hle; simpl; [done|].
  set (d := indeg_get indeg m - 1). apply IH.
  - intros x Hx. apply Hms. by right.
  - destruct (Z.eqb_spec d 0); [|done]. rewrite app_assoc.
    apply (Permutation_NoDup (Permutation_cons_append _ _)). constructor; [|done].
    intros Hx%Hle. unfold d in *. lia.
  - destruct (Z.eqb_spec d 0); [|done]. intros x. rewrite app_assoc, in_app_iff.
    intros [?|[<-|[]]]; [by apply Hin|]. apply Hms. by left.
  - intros x Hx. destruct (decide (m = x)) as [->|Hne].
    + rewrite indeg_get_insert_eq. destruct (Z.eqb_spec d 0); [lia|].
      apply Hle in Hx. unfold d. lia.
    + rewrite indeg_get_insert_ne by done. apply Hle. destruct (Z.eqb_spec d 0); [|done].
      rewrite app_assoc, in_app_iff in Hx. destruct Hx as [?|[?|[]]]; [done|congruence].
Qed.

Lemma kahn_spec nodes es fuel indeg q ordered o :
  (forall e, In e es -> In (snd e) nodes) ->
  List.NoDup (ordered ++ q) -> (forall x, In x (ordered ++ q) -> In x nodes) ->
  (forall x, In x (ordered ++ q) -> indeg_get indeg x <= 0) ->
  kahn fuel es indeg q ordered = Some o ->
  List.NoDup o /\ (forall x, In x o -> In x nodes).
Proof.
  intros Hes. revert indeg q ordered. induction fuel as [|f IH]; intros indeg q ordered Hnd Hin Hle Hk.
  - destruct q; simpl in Hk; simplify_eq. rewrite app_nil_r in *. done.
  - destruct q as [|n q]; cbn [kahn] in Hk; [simplify_eq; rewrite app_nil_r in *; done|].
    replace (ordered ++ n :: q) with ((ordered ++ [n]) ++ q) in * by (by rewrite <- app_assoc).
    pose proof (relax_spec nodes (sort_str (adj_of es n)) indeg q (ordered ++ [n])) as Hr.
    destruct (List.fold_left relax _ _) as [indeg' q''].
    destruct Hr as (H1 & H2 & H3); try done.
    + intros m Hm%In_sort_str. unfold adj_of in Hm. apply in_map_iff in Hm as (e & <- & He).
      apply filter_In in He as [He _]. by apply Hes.
    + by eapply IH.
Qed.

Lemma append_missing_spec nodes ordered :
  List.NoDup ordered ->
  List.NoDup (append_missing nodes ordered) /\
  (forall x, In x (append_missing nodes ordered) <-> In x ordered \/ In x nodes).
Proof.
  unfold append_missing. revert ordered. induction nodes as [|n nodes IH]; intros o Hnd; simpl; [tauto|].
  destruct (str_in n o) eqn:E.
  - destruct (IH o Hnd) as [H1 H2]. split; [done|]. intros x. rewrite H2.
    apply str_in_spec in E. intuition subst; auto.
  - assert (Hno : ~ In n o). { intros Hx%str_in_spec. congruence. }
    destruct (IH (o ++ [n])) as [H1 H2].
    { apply (Permutation_NoDup (Permutation_cons_append _ _)). by constructor. }
    split; [done|]. intros x. rewrite H2, in_app_iff. simpl. intuition.
Qed.

(** With distinct codes the order is a permutation of the compound rules:
    none is dropped (even on a dependency cycle), none is applied twice. *)
Lemma compound_order_perm active compound order :
  List.NoDup (List.map rule_key compound) ->
  compound_order active compound = Ok order ->
  Permutation order (List.map rule_key compound).
Proof.
  intros Hnd. unfold compound_order. cbv zeta. set (nodes := List.map rule_key compound) in *.
  set (deps := compound_deps compound). set (es := edges _ deps).
  set (indeg := init_indeg nodes es). set (q := sort_str _).
  destruct (kahn _ es indeg q []) as [o|] eqn:Hk; [|done]. cbn. intros [= <-].
  destruct (compound_deps_spec compound) as [_ Hdeps].
  assert (Hq : forall x, In x q -> In x nodes /\ indeg_get indeg x = 0).
  { intros x Hx%In_sort_str. apply filter_In in Hx as [? ?%Z.eqb_eq]. done. }
  apply (kahn_spec nodes) in Hk as [Hnd' Hin'].
  - destruct (Nat.eqb_spec (length o) (length nodes)) as [Hlen|_].
    + apply Permutation.NoDup_Permutation; [done..|]. intros x. split; [apply Hin'|].
      apply (NoDup_length_incl Hnd'); [lia|]. intros y. apply Hin'.
    + destruct (append_missing_spec nodes o Hnd') as [H1 H2].
      apply Permutation.NoDup_Permutation; [done..|]. intros x. rewrite H2. split; [|tauto].
      intros [?|?]; [by apply Hin'|done].
  - intros e He%edges_In. by apply Hdeps.
  - simpl. unfold q. apply (Permutation_NoDup (Permutation_sym (sort_str_perm _))). by apply List.NoDup_filter.
  - intros x Hx. by apply Hq.
  - intros x Hx. apply Hq in Hx. lia.
Qed.

(** Even with repeated codes the order only names compound rules. *)
Lemma relax_In nodes ms indeg q :
  (forall m, In m ms -> In m nodes) -> (forall x, In x q -> In x nodes) ->
  forall x, In x (snd (List.fold_left relax ms (indeg, q))) -> In x nodes.
Proof.
  revert indeg q. induction ms as [|m ms IH]; intros indeg q Hms Hq; simpl; [done|].
  apply IH; [intros; apply Hms; by right|]. intros y.
  destruct (_ =? 0); [|apply Hq]. rewrite in_app_iff. intros [?|[<-|[]]]; [by apply Hq|].
  apply Hms. by left.
Qed.

Lemma kahn_In nodes es fuel indeg q ordered o :
  (forall e, In e es -> In (snd e) nodes) ->
  (forall x, In x ordered -> In x nodes) -> (forall x, In x q -> In x nodes) ->
  kahn fuel es indeg q ordered = Some o -> forall x, In x o -> In x nodes.
Proof.
  intros Hes. revert indeg q ordered. induction fuel as [|f IH]; intros indeg q ordered Ho Hq Hk.
  - by destruct q; simpl in Hk; simplify_eq.
  - destruct q as [|n q]; cbn [kahn] in Hk; [by simplify_eq|].
    pose proof (relax_In nodes (sort_str (adj_of es n)) indeg q) as Hr.
    destruct (List.fold_left relax _ _) as [indeg' q'']. simpl in Hr. eapply IH; [| |exact Hk].
    + intros x [?|[<-|[]]]%in_app_iff; [by apply Ho|]. apply Hq. by left.
    + apply Hr; [|intros; apply Hq; by right].
      intros m Hm%In_sort_str. unfold adj_of in Hm. apply in_map_iff in Hm as (e & <- & He).
      apply filter_In in He as [He _]. by apply Hes.
Qed.

Lemma compound_order_In active compound order k :
  compound_order active compound = Ok order -> In k order -> In k (List.map rule_key compound).
Proof.
  unfold compound_order. cbv zeta. set (nodes := List.map rule_key compound).
  set (deps := compound_deps compound). set (es := edges _ deps).
  destruct (kahn _ _ _ _ _) as [o|] eqn:Hk; [|done]. cbn. intros [= <-] Hin.
  destruct (compound_deps_spec compound) as [_ Hdeps].
  assert (Ho : forall x, In x o -> In x nodes).
  { eapply kahn_In; [| | |exact Hk]; [by intros e He%edges_In; apply Hdeps|done|].
    intros x Hx%In_sort_str. by apply filter_In in Hx as [? _]. }
  destruct (Nat.eqb _ _); [by apply Ho|]. clear Hk. revert Hin Ho. unfold append_missing.
  assert (H : forall l acc, (forall x, In x l -> In x nodes) -> (forall x, In x acc -> In x nodes) ->
    In k (List.fold_left (fun o n => if str_in n o then o else o ++ [n]) l acc) -> In k nodes).
  { induction l as [|n l IH]; intros acc Hl Ha; simpl; [apply Ha|]. apply IH.
    - intros; apply Hl; by right.
    - destruct (str_in n acc); [exact Ha|]. intros x [?|[<-|[]]]%in_app_iff; [by apply Ha|]. apply Hl. by left. }
  intros Hin Ho. exact (H nodes o (fun x h => h) Ho Hin).
Qed.
