(* ===== verification/TaxLaws.v ===== *)
(** * What the tax engine guarantees

    Each active rule posts exactly one line; inclusive postings split the
    gross amount to the cent; exclusive postings add up to the cent; a
    receipt's gross is its net plus its tax. *)

From Stdlib Require Import Permutation.
From S2P Require Import Prelude PyDecimal PyJson Tax TaxOrder.

Definition line_cents (l : tax_line) : Z := to_cents (tl_amount l).

(** The amount of a posted line is a whole number of cents. *)
Definition in_cents (l : tax_line) : Prop := exists c, tl_amount l = cents c /\ fits c.

Lemma in_cents_amount l : in_cents l -> tl_amount l = cents (line_cents l).
Proof. intros (c & E & _). unfold line_cents. by rewrite E, to_cents_cents. Qed.

Lemma q2_in_cents x c n amt : q2 x = Ok amt -> in_cents (TaxLine c n amt).
Proof. intros (z & -> & Hz)%quantize_ok. by exists z. Qed.

Lemma zero_in_cents c n : in_cents (TaxLine c n (Dec 0 (-2))).
Proof. by exists 0. Qed.

(** One loop iteration appends one line and either keeps the running total
    (inclusive rule) or adds the line's amount to it. *)
Lemma simple_step_ok base st r st' :
  simple_step base st r = Ok st' ->
  exists l, fst st' = fst st ++ [l] /\ in_cents l /\ tl_code l = rule_code r /\
    snd st' = if rule_inclusive r then snd st else dec_add (snd st) (tl_amount l).
Proof.
  destruct st as [lines running]. unfold simple_step. intros H.
  destruct (rule_rate r) as [rate|]; [|done]. cbn in H.
  destruct (rule_inclusive r).
  - destruct (if dec_eqb _ _ then _ else _) as [amt|] eqn:E; [|done]. cbn in H. simplify_eq.
    eexists. split_and!; [done| |done..]. destruct (dec_eqb _ _); [simplify_eq; apply zero_in_cents|].
    destruct (dec_div _ _); [|done]. cbn in E. destruct (q2 _); [|done]. by eapply q2_in_cents.
  - destruct (q2 _) as [amt|] eqn:E; [|done]. cbn in H. simplify_eq.
    eexists. split_and!; [done|by eapply q2_in_cents|done..].
Qed.

Lemma compound_step_ok compound st key st' :
  compound_step compound st key = Ok st' -> In key (List.map rule_key compound) ->
  exists l r, In r compound /\ fst st' = fst st ++ [l] /\ in_cents l /\ tl_code l = key /\
    snd st' = if rule_inclusive r then snd st else dec_add (snd st) (tl_amount l).
Proof.
  destruct st as [lines running]. unfold compound_step. intros H Hkey.
  destruct (last_rule compound key) as [r|] eqn:Hr.
  - apply find_some in Hr as [Hr _]. apply in_rev in Hr.
    destruct (rule_rate r) as [rate|]; [|done]. cbn in H.
    destruct (rule_inclusive r) eqn:Ei.
    + destruct (if dec_is_zero rate then _ else _) as [nb|]; [|done]. cbn in H.
      destruct (q2 _) as [amt|] eqn:E; [|done]. cbn in H. simplify_eq.
      eexists _, r. rewrite Ei. split_and!; try done; by eapply q2_in_cents.
    + destruct (q2 _) as [amt|] eqn:E; [|done]. cbn in H. simplify_eq.
      eexists _, r. rewrite Ei. split_and!; try done; by eapply q2_in_cents.
  - exfalso. apply in_map_iff in Hkey as (r & Hk & Hr'). apply in_rev in Hr'.
    unfold last_rule in Hr. apply (find_none _ _ Hr) in Hr'.
    by rewrite Hk, String.eqb_refl in Hr'.
Qed.

(** ** Every active rule posts one line *)

Definition posted_codes (lines : list tax_line) : list string :=
  List.map (fun l => strip (tl_code l)) lines.

Lemma simple_loop base rs st st' :
  foldR (simple_step base) st rs = Ok st' ->
  posted_codes (fst st') = posted_codes (fst st) ++ List.map rule_key rs.
Proof.
  revert st. induction rs as [|r rs IH]; intros st H; simpl in H.
  - simplify_eq. simpl. by rewrite app_nil_r.
  - destruct (simple_step base st r) as [st1|] eqn:E; [|done]. cbn in H.
    apply simple_step_ok in E as (l & E & _ & Hc & _). apply IH in H as ->.
    rewrite E. unfold posted_codes. rewrite List.map_app. simpl. rewrite Hc.
    by rewrite <- app_assoc.
Qed.

Lemma rule_key_strip r : strip (rule_key r) = rule_key r.
Proof. apply strip_idem. Qed.

Lemma compound_loop compound order st st' :
  (forall k, In k order -> In k (List.map rule_key compound)) ->
  foldR (compound_step compound) st order = Ok st' ->
  posted_codes (fst st') = posted_codes (fst st) ++ order.
Proof.
  revert st. induction order as [|k order IH]; intros st Hin H; simpl in H.
  - simplify_eq. by rewrite app_nil_r.
  - destruct (compound_step compound st k) as [st1|] eqn:E; [|done]. cbn in H.
    pose proof (Hin k (or_introl eq_refl)) as Hk.
    apply compound_step_ok in E as (l & r & _ & E & _ & Hc & _); [|done].
    apply IH in H as ->; [|intros k' ?; apply Hin; by right].
    rewrite E. unfold posted_codes. rewrite List.map_app. simpl. rewrite Hc.
    apply in_map_iff in Hk as (r' & <- & _). rewrite rule_key_strip. by rewrite <- app_assoc.
Qed.

Lemma filter_partition_perm {A} (p : A -> bool) l :
  Permutation (List.filter (fun x => negb (p x)) l ++ List.filter p l) l.
Proof.
  induction l as [|x l IH]; simpl; [done|]. destruct (p x); simpl.
  - by rewrite <- Permutation_middle, IH.
  - by rewrite IH.
Qed.

(** The two loops of [calculate_taxes_from_rules], as one run. *)
Lemma calculate_inv base raw cat c :
  calculate_taxes_from_rules base raw cat = Ok c ->
  let active := List.filter (rule_active cat) (parse_rules raw) in
  let compound := List.filter is_compound active in
  exists st st' order,
    foldR (simple_step base) ([], base) (List.filter (fun r => negb (is_compound r)) active) = Ok st /\
    foldR (compound_step compound) st order = Ok st' /\
    (compound = [] /\ order = [] \/ compound_order active compound = Ok order) /\
    tc_lines c = fst st' /\ q2 (snd st') = Ok (tc_total c).
Proof.
  unfold calculate_taxes_from_rules. cbv zeta. set (active := List.filter (rule_active cat) _).
  set (compound := List.filter is_compound active). intros H.
  destruct (foldR _ _ _) as [st|] eqn:E1; [|done]. cbn in H. exists st.
  assert (exists st' order, foldR (compound_step compound) st order = Ok st' /\
    (compound = [] /\ order = [] \/ compound_order active compound = Ok order) /\
    (total ← q2 st'.2; Ok (TaxCalc st'.1 base total)) = Ok c) as (st' & order & H1 & H2 & H3).
  { destruct compound as [|r0 rs] eqn:Ec; rewrite ?Ec in H.
    - exists st, []. split_and!; [done|by left|exact H].
    - destruct (compound_order active (r0 :: rs)) as [order|] eqn:Eo; [|done]. cbn in H.
      destruct (foldR (compound_step (r0 :: rs)) st order) as [st'|] eqn:E2; [|done].
      exists st', order. split_and!; [done|by right|exact H]. }
  exists st', order. destruct (q2 _) as [t|] eqn:Eq; [|done]. cbn in H3. simplify_eq. done.
Qed.

Lemma order_keys cat rules order :
  let active := List.filter (rule_active cat) rules in
  let compound := List.filter is_compound active in
  List.NoDup (List.map rule_key compound) ->
  (compound = [] /\ order = [] \/ compound_order active compound = Ok order) ->
  Permutation order (List.map rule_key compound).
Proof. cbv zeta. intros Hnd [[-> ->]|H]; [done|]. by eapply compound_order_perm. Qed.

(** When compound rules have distinct codes, the lines posted are exactly
    the active rules, one line each: no rule is skipped or charged twice,
    whatever the dependencies between them are. *)
Theorem tax_lines_complete base raw cat c :
  List.NoDup (List.map rule_key
    (List.filter is_compound (List.filter (rule_active cat) (parse_rules raw)))) ->
  calculate_taxes_from_rules base raw cat = Ok c ->
  Permutation (posted_codes (tc_lines c))
    (List.map rule_key (List.filter (rule_active cat) (parse_rules raw))).
Proof.
  intros Hnd (st & st' & order & H1 & H2 & H3 & -> & _)%calculate_inv.
  pose proof (order_keys _ _ _ Hnd H3) as Hp.
  rewrite (compound_loop _ _ _ _ (fun k => Permutation_in k Hp) H2), (simple_loop _ _ _ _ H1), Hp.
  simpl. rewrite <- List.map_app. apply Permutation_map, filter_partition_perm.
Qed.

(** ** Amounts *)

(** The posted amounts and the amount they are posted against together fit
    the decimal context, so Python's sums are exact. *)
Definition lines_fit (g : Z) (lines : list tax_line) : Prop :=
  fits (Z.abs g + sumZ (List.map (fun l => Z.abs (line_cents l)) lines)).

Lemma sumZ_map_abs_nonneg {A} (f : A -> Z) l : 0 <= sumZ (List.map (fun x => Z.abs (f x)) l).
Proof. induction l; simpl; lia. Qed.

Lemma lines_fit_app g l1 l2 : lines_fit g (l1 ++ l2) -> lines_fit g l1.
Proof.
  unfold lines_fit, fits. rewrite List.map_app, sumZ_app.
  pose proof (sumZ_map_abs_nonneg line_cents l1). pose proof (sumZ_map_abs_nonneg line_cents l2). lia.
Qed.

Lemma lines_fit_sum g lines :
  lines_fit g lines -> Forall in_cents lines ->
  dec_sum (cents g) (List.map tl_amount lines) = cents (g + sumZ (List.map line_cents lines)).
Proof.
  intros Hf Hc. rewrite (List.map_ext_in tl_amount (fun l => cents (line_cents l))).
  - rewrite <- (List.map_map line_cents cents). apply cents_sum. by rewrite List.map_map.
  - intros l Hl. apply in_cents_amount. by eapply List.Forall_forall.
Qed.

(** State of the loops when every rule is exclusive: the running total is
    the base plus the amounts posted. *)
Definition running_exact (g : Z) (st : list tax_line * dec) : Prop :=
  Forall in_cents (fst st) /\
  (lines_fit g (fst st) -> snd st = cents (g + sumZ (List.map line_cents (fst st)))).

Lemma running_exact_app g st l run :
  running_exact g st -> in_cents l -> run = dec_add (snd st) (tl_amount l) ->
  running_exact g (fst st ++ [l], run).
Proof.
  intros [Hc Hr] Hl ->. split; simpl; [by apply Forall_app_2; [|constructor]|].
  intros Hf. rewrite Hr by (by eapply lines_fit_app). rewrite in_cents_amount by done.
  unfold lines_fit, fits in Hf. rewrite List.map_app, sumZ_app in *. simpl in *.
  pose proof (sumZ_abs (List.map line_cents (fst st))) as Ha. rewrite List.map_map in Ha.
  rewrite cents_add; [f_equal; lia|]. unfold fits. lia.
Qed.

Definition all_exclusive (rs : list dict) : Prop := forall r, In r rs -> rule_inclusive r = false.
Definition all_inclusive (rs : list dict) : Prop := forall r, In r rs -> rule_inclusive r = true.

(** Both loops append lines in cents, and treat the running total according
    to the kind of the rule: an invariant of the state that tolerates both
    steps holds of the final state. *)
Lemma loops_inv (I : list tax_line * dec -> Prop) base cat rules st st' order :
  let active := List.filter (rule_active cat) rules in
  let compound := List.filter is_compound active in
  (forall st r l run, In r rules -> I st -> in_cents l ->
     run = (if rule_inclusive r then snd st else dec_add (snd st) (tl_amount l)) ->
     I (fst st ++ [l], run)) ->
  I ([], base) ->
  (forall k, In k order -> In k (List.map rule_key compound)) ->
  foldR (simple_step base) ([], base) (List.filter (fun r => negb (is_compound r)) active) = Ok st ->
  foldR (compound_step compound) st order = Ok st' -> I st'.
Proof.
  cbv zeta. intros Hstep H0 Hord H1 H2.
  eapply (foldR_inv I _ _ st); [| |exact H2].
  - intros s k s' Hk Hs E. apply Hord in Hk. apply compound_step_ok in E as (l & r & Hr & El & Hl & _ & Er); [|done].
    apply filter_In in Hr as [[Hr _]%filter_In _]. destruct s' as [ls run]. simpl in *. subst ls.
    by eapply Hstep.
  - eapply (foldR_inv I); [|exact H0|exact H1]. intros s r s' Hr Hs E.
    apply filter_In in Hr as [[Hr _]%filter_In _].
    apply simple_step_ok in E as (l & El & Hl & _ & Er). destruct s' as [ls run]. simpl in *. subst ls.
    by eapply Hstep.
Qed.

Lemma order_In cat rules order k :
  let active := List.filter (rule_active cat) rules in
  let compound := List.filter is_compound active in
  (compound = [] /\ order = [] \/ compound_order active compound = Ok order) ->
  In k order -> In k (List.map rule_key compound).
Proof. cbv zeta. intros [[-> ->]|H]; [done|]. by eapply compound_order_In. Qed.

Lemma calculate_inv_loops (I : list tax_line * dec -> Prop) base raw cat c :
  calculate_taxes_from_rules base raw cat = Ok c ->
  (forall st r l run, In r (parse_rules raw) -> I st -> in_cents l ->
     run = (if rule_inclusive r then snd st else dec_add (snd st) (tl_amount l)) ->
     I (fst st ++ [l], run)) ->
  I ([], base) ->
  exists run, I (tc_lines c, run) /\ q2 run = Ok (tc_total c).
Proof.
  intros (st & st' & order & H1 & H2 & H3 & -> & Hq)%calculate_inv Hstep H0.
  exists (snd st'). split; [|done]. destruct st' as [ls run]. simpl.
  eapply (loops_inv I); [exact Hstep|exact H0| |exact H1|exact H2].
  intros k. by apply order_In.
Qed.

Lemma parse_rules_objs rs : parse_rules (JArr (List.map JObj rs)) = rs.
Proof. unfold parse_rules. induction rs as [|r rs IH]; [done|]. cbn. by f_equal. Qed.

Lemma set_inclusive_inclusive rs : all_inclusive (List.map set_inclusive rs).
Proof.
  intros r (r' & <- & _)%in_map_iff. unfold rule_inclusive, set_inclusive, dict_get_or.
  by rewrite dict_get_set_eq.
Qed.

Lemma calculate_in_cents base raw cat c :
  calculate_taxes_from_rules base raw cat = Ok c -> Forall in_cents (tc_lines c).
Proof.
  intros H. eapply (calculate_inv_loops (fun st => Forall in_cents (fst st))) in H as (run & H & _).
  - done.
  - intros st r l run' _ Hs Hl _. simpl. apply Forall_app_2; [done|by constructor].
  - constructor.
Qed.

Lemma calculate_exclusive g raw cat c :
  all_exclusive (parse_rules raw) ->
  calculate_taxes_from_rules (cents g) raw cat = Ok c -> lines_fit g (tc_lines c) ->
  tc_total c = cents (g + sumZ (List.map line_cents (tc_lines c))).
Proof.
  intros Hex H Hf. eapply (calculate_inv_loops (running_exact g)) in H as (run & [Hc Hr] & Hq).
  - simpl in Hr. rewrite (Hr Hf) in Hq. unfold q2 in Hq. rewrite quantize_cents in Hq; [by simplify_eq|].
    simpl in Hf. unfold lines_fit, fits in *.
    pose proof (sumZ_abs (List.map line_cents (tc_lines c))) as Ha. rewrite List.map_map in Ha. lia.
  - intros st r l run Hin Hs Hl Hrun. rewrite (Hex r Hin) in Hrun. by apply running_exact_app.
  - split; simpl; [constructor|]. intros _. f_equal. lia.
Qed.

Lemma inclusive_exact base raw cat p :
  calculate_country_pack_tax_posting base raw cat (Some mode_inclusive) = Ok p ->
  lines_fit 0 (tp_lines p) ->
  q2 base = Ok (tp_total p) /\
  to_cents (tp_room_charge p) + sumZ (List.map line_cents (tp_lines p)) = to_cents (tp_total p).
Proof.
  unfold calculate_country_pack_tax_posting. intros H Hf.
  apply bind_Ok in H as (gross & Hg & H). pose proof Hg as (g & -> & Hgf)%quantize_ok.
  rewrite bool_decide_eq_true_2 in H by done.
  apply bind_Ok in H as (c & Hc & H). pose proof (calculate_in_cents _ _ _ _ Hc) as Hin.
  apply bind_Ok in H as (tt & Ht & H). apply bind_Ok in H as (room & Hr & H).
  simplify_eq. simpl in Hf |- *.
  change (Dec 0 (-2)) with (cents 0) in Ht. rewrite lines_fit_sum in Ht by done.
  unfold q2 in Ht. apply quantize_ok in Ht as Ht'. destruct Ht' as (s & -> & _).
  unfold lines_fit in Hf. rewrite quantize_cents in Ht.
  - injection Ht as Ht. apply quantize_sub in Hr as [_ ->]. rewrite !to_cents_cents. split; [done|lia].
  - unfold fits in *. pose proof (sumZ_abs (List.map line_cents (tc_lines c))) as Ha.
    rewrite List.map_map in Ha. lia.
Qed.

(** C13: In inclusive mode the posting splits the gross amount exactly: the room
    charge and the tax lines add up, to the cent, to the rounded price that
    was charged, so switching taxes on never changes what the guest owes. *)
Theorem inclusive_posting_conserves base raw cat p :
  calculate_country_pack_tax_posting base raw cat (Some mode_inclusive) = Ok p ->
  lines_fit 0 (tp_lines p) ->
  q2 base = Ok (tp_total p) /\
  to_cents (tp_room_charge p) + sumZ (List.map line_cents (tp_lines p)) = to_cents (tp_total p).
Proof. apply inclusive_exact. Qed.

(** In exclusive mode (also the default when no mode is set) with a pack of
    exclusive rules, the total is the room charge, left at its rounded gross
    amount, plus the posted tax lines, to the cent. *)
Theorem exclusive_posting_adds base raw cat mode p :
  mode = Some mode_exclusive \/ mode = None ->
  all_exclusive (parse_rules raw) ->
  calculate_country_pack_tax_posting base raw cat mode = Ok p ->
  lines_fit (to_cents (tp_room_charge p)) (tp_lines p) ->
  q2 base = Ok (tp_room_charge p) /\
  to_cents (tp_total p) = to_cents (tp_room_charge p) + sumZ (List.map line_cents (tp_lines p)).
Proof.
  unfold calculate_country_pack_tax_posting. intros Hmode Hex H Hf.
  apply bind_Ok in H as (gross & Hg & H). pose proof Hg as (g & -> & Hgf)%quantize_ok.
  assert ((calc ← calculate_taxes_from_rules (cents g) (JArr (List.map JObj (parse_rules raw))) cat;
           total ← q2 (tc_total calc); Ok (TaxPosting (tc_lines calc) (cents g) total)) = Ok p) as H'.
  { by destruct Hmode as [->| ->]. } clear H.
  apply bind_Ok in H' as (c & Hc & H'). apply bind_Ok in H' as (t & Ht & H').
  simplify_eq. simpl in Hf |- *.
  rewrite to_cents_cents in Hf. split; [done|].
  rewrite (calculate_exclusive g _ _ c ltac:(by rewrite parse_rules_objs) Hc Hf) in Ht.
  apply quantize_ok in Ht as Ht'. destruct Ht' as (s & -> & _). unfold q2 in Ht.
  rewrite quantize_cents in Ht.
  - injection Ht as Ht. by rewrite !to_cents_cents, <- Ht.
  - unfold lines_fit, fits in *. pose proof (sumZ_abs (List.map line_cents (tc_lines c))) as Ha.
    rewrite List.map_map in Ha. lia.
Qed.

(** A receipt always balances: gross = net + tax, in every tax mode and for
    every rate, and the amounts are whole cents. *)
Theorem property_tax_balances amount config b :
  calculate_property_tax amount config = Ok b ->
  exists tax gross net, br_tax b = cents tax /\ br_gross b = cents gross /\
    br_net b = cents net /\ gross = net + tax.
Proof.
  unfold calculate_property_tax. intros H.
  destruct (bool_decide _ || _).
  - destruct (q2 amount) as [base|] eqn:E; [|done]. cbn in H. simplify_eq.
    apply quantize_ok in E as (c & -> & _). exists 0, c, c. simpl. split_and!; try done. lia.
  - destruct (bool_decide _).
    + destruct (q2 amount) as [g|] eqn:Eg; [|done]. cbn in H. destruct (dec_div _ _) as [d|]; [|done]. cbn in H.
      destruct (q2 d) as [t|] eqn:Et; [|done]. cbn in H. destruct (q2 (dec_sub _ _)) as [n|] eqn:En; [|done].
      cbn in H. simplify_eq. apply quantize_ok in Eg as (c & -> & _). apply quantize_ok in Et as (x & -> & _).
      apply quantize_sub in En as [_ ->]. exists x, c, (c - x). simpl. split_and!; try done. lia.
    + destruct (q2 amount) as [n|] eqn:En; [|done]. cbn in H. destruct (q2 (dec_mul _ _)) as [t|] eqn:Et; [|done].
      cbn in H. destruct (q2 (dec_add _ _)) as [g|] eqn:Eg; [|done].
      cbn in H. simplify_eq. apply quantize_ok in En as (c & -> & _). apply quantize_ok in Et as (x & -> & _).
      apply quantize_add in Eg as [_ ->]. exists x, (c + x), c. done.
Qed.

(** ** Concrete postings *)

Lemma tax_lines_complete_witness :
  exists c, calculate_taxes_from_rules (cents 100000) thai_pack "room_charge" = Ok c /\
    Permutation (posted_codes (tc_lines c)) ["SVC"; "VAT"]%string.
Proof.
  assert (H : exists c, calculate_taxes_from_rules (cents 100000) thai_pack "room_charge" = Ok c).
  { eexists. vm_compute. reflexivity. }
  destruct H as [c Hc]. exists c. split; [exact Hc|].
  apply (tax_lines_complete (cents 100000) thai_pack "room_charge" c); [|exact Hc].
  repeat constructor; simpl; intuition congruence.
Defined.

Lemma inclusive_posting_conserves_witness :
  exists p, calculate_country_pack_tax_posting (cents 100000) thai_pack "room_charge" (Some mode_inclusive) = Ok p /\
    to_cents (tp_room_charge p) + sumZ (List.map line_cents (tp_lines p)) = to_cents (tp_total p).
Proof.
  assert (H : exists p, calculate_country_pack_tax_posting (cents 100000) thai_pack "room_charge" (Some mode_inclusive) = Ok p
    /\ lines_fit 0 (tp_lines p)).
  { eexists. split; [vm_compute; reflexivity|]. unfold lines_fit, fits. vm_compute. reflexivity. }
  destruct H as (p & Hp & Hf). exists p. split; [exact Hp|].
  exact (proj2 (inclusive_posting_conserves _ _ _ _ Hp Hf)).
Defined.

Lemma exclusive_posting_adds_witness :
  exists p, calculate_country_pack_tax_posting (cents 100000) thai_pack "room_charge" None = Ok p /\
    to_cents (tp_total p) = to_cents (tp_room_charge p) + sumZ (List.map line_cents (tp_lines p)).
Proof.
  assert (H : exists p, calculate_country_pack_tax_posting (cents 100000) thai_pack "room_charge" None = Ok p
    /\ lines_fit (to_cents (tp_room_charge p)) (tp_lines p)).
  { eexists. split; [vm_compute; reflexivity|]. unfold lines_fit, fits. vm_compute. reflexivity. }
  destruct H as (p & Hp & Hf). exists p. split; [exact Hp|].
  refine (proj2 (exclusive_posting_adds (cents 100000) thai_pack "room_charge" None p _ _ Hp Hf)); [by right|].
  intros r Hr. simpl in Hr. by destruct Hr as [<-|[<-|[]]].
Defined.

Lemma property_tax_balances_witness :
  exists b, calculate_property_tax (cents 107000) (TaxConfig 1 1 mode_inclusive "VAT" (Dec 7 (-2))) = Ok b /\
    br_tax b = cents 7000 /\
    exists tax gross net, br_tax b = cents tax /\ br_gross b = cents gross /\ br_net b = cents net /\ gross = net + tax.
Proof.
  assert (H : exists b, calculate_property_tax (cents 107000) (TaxConfig 1 1 mode_inclusive "VAT" (Dec 7 (-2))) = Ok b
    /\ br_tax b = cents 7000).
  { eexists. split; vm_compute; reflexivity. }
  destruct H as (b & Hb & Ht). exists b. split; [exact Hb|]. split; [exact Ht|].
  exact (property_tax_balances _ _ _ Hb).
Defined.
