(* ===== verification/StayDates.v ===== *)
(** * Stay dates

    app/services/stay_dates.py and the inclusive date ranges of the
    inventory services.  A [datetime.date] is its proleptic ordinal; adding
    days past [date.max] raises OverflowError as in Python. *)

From Stdlib Require Import Sorted.
From S2P Require Import Prelude.

Abbreviation date := Z.
(** [date.min.toordinal()], [date.max.toordinal()] *)
Definition MINORD : Z := 1.
Definition MAXORD : Z := 3652059.
Definition valid_date (d : date) : Prop := MINORD <= d <= MAXORD.

(** [d + timedelta(days=n)] *)
Definition date_add (d n : Z) : result date :=
  let d' := d + n in
  if (MINORD <=? d') && (d' <=? MAXORD) then Ok d' else Err OverflowError.

Definition MAX_STAY_NIGHTS : Z := 365.

(** [while d < stop: out.append(d); d += timedelta(days=1)] *)
Fixpoint days_until (fuel : nat) (d stop : date) : result (list date) :=
  match fuel with
  | O => Ok []
  | S f =>
      if d <? stop then
        d' ← date_add d 1; rest ← days_until f d' stop; Ok (d :: rest)
      else Ok []
  end.

Definition iter_stay_nights (check_in check_out : date) : result (list date) :=
  if check_out <=? check_in then Err (ValueError "check_out must be after check_in")
  else
    nights ← days_until (Z.to_nat (check_out - check_in)) check_in check_out;
    if MAX_STAY_NIGHTS <? Z.of_nat (length nights)
    then Err (ValueError "stay cannot exceed 365 nights")
    else Ok nights.

(** [while d <= end: out.append(d); d += timedelta(days=1)] *)
Fixpoint days_through (fuel : nat) (d last : date) : result (list date) :=
  match fuel with
  | O => Ok []
  | S f =>
      if d <=? last then
        d' ← date_add d 1; rest ← days_through f d' last; Ok (d :: rest)
      else Ok []
  end.

Definition iter_inclusive_dates (start last : date) : result (list date) :=
  days_through (Z.to_nat (last - start + 1)) start last.

(** [min(nights)], [max(nights) + timedelta(days=1)] of a nonempty list;
    Python's [min] and [max] raise ValueError on an empty one. *)
Definition list_min (l : list Z) : result Z :=
  match l with
  | [] => Err (ValueError "min() iterable argument is empty")
  | x :: l' => Ok (List.fold_left Z.min l' x)
  end.
Definition list_max (l : list Z) : result Z :=
  match l with
  | [] => Err (ValueError "max() iterable argument is empty")
  | x :: l' => Ok (List.fold_left Z.max l' x)
  end.

Definition stay_bounds (nights : list date) : result (date * date) :=
  lo ← list_min nights; hi ← list_max nights; co ← date_add hi 1; Ok (lo, co).

(** ** Sorted sets of dates: [sorted({...})], [ORDER BY date] *)

Fixpoint insert_date (d : date) (l : list date) : list date :=
  match l with
  | [] => [d]
  | x :: l' => if d <? x then d :: l else if d =? x then l else x :: insert_date d l'
  end.

(** [sorted(set(l))] *)
Definition sorted_set (l : list date) : list date := List.fold_right insert_date [] l.

(** ** Theory *)

Lemma date_add_ok d n : valid_date (d + n) -> date_add d n = Ok (d + n).
Proof. unfold date_add, valid_date. intros [? ?]. by rewrite !(proj2 (Z.leb_le _ _)). Qed.

Lemma seqZ_cons_pos m n : 0 < n -> seqZ m n = m :: seqZ (m + 1) (n - 1).
Proof. intros H. rewrite seqZ_cons by lia. by rewrite Z.add_1_r, <- Z.sub_1_r. Qed.

Lemma days_until_spec fuel d stop :
  valid_date d -> valid_date stop -> (Z.to_nat (stop - d) <= fuel)%nat ->
  days_until fuel d stop = Ok (seqZ d (stop - d)).
Proof.
  revert d. induction fuel as [|f IH]; intros d Hd Hs Hf; simpl.
  - rewrite seqZ_nil by lia. done.
  - destruct (Z.ltb_spec d stop).
    + rewrite date_add_ok by (unfold valid_date in *; lia). cbn.
      rewrite IH by (unfold valid_date in *; lia). cbn.
      rewrite (seqZ_cons_pos d) by lia. by replace (stop - d - 1) with (stop - (d + 1)) by lia.
    + by rewrite seqZ_nil by lia.
Qed.

Lemma days_through_spec fuel d last :
  valid_date d -> last < MAXORD -> (Z.to_nat (last - d + 1) <= fuel)%nat ->
  days_through fuel d last = Ok (seqZ d (last - d + 1)).
Proof.
  revert d. induction fuel as [|f IH]; intros d Hd Hs Hf; simpl.
  - rewrite seqZ_nil by lia. done.
  - destruct (Z.leb_spec d last).
    + rewrite date_add_ok by (unfold valid_date in *; lia). cbn.
      rewrite IH by (unfold valid_date in *; lia). cbn.
      rewrite (seqZ_cons_pos d) by lia. by replace (last - d + 1 - 1) with (last - (d + 1) + 1) by lia.
    + by rewrite seqZ_nil by lia.
Qed.

Lemma days_through_overflow fuel d :
  valid_date d -> (Z.to_nat (MAXORD - d + 1) <= fuel)%nat ->
  days_through fuel d MAXORD = Err OverflowError.
Proof.
  revert d. induction fuel as [|f IH]; intros d Hd Hf; unfold valid_date in *; simpl; [lia|].
  rewrite (proj2 (Z.leb_le _ _)) by lia.
  destruct (Z.eq_dec d MAXORD) as [->|]; [done|].
  rewrite date_add_ok by (unfold valid_date; lia). cbn. rewrite IH; [done|lia..].
Qed.

Lemma seqZ_sorted m n : StronglySorted Z.lt (seqZ m n).
Proof.
  destruct (Z.le_gt_cases n 0); [rewrite seqZ_nil by lia; constructor|].
  rewrite <- (Z2Nat.id n) by lia. generalize (Z.to_nat n) as k. clear n H.
  intros k. revert m. induction k as [|k IH]; intros m.
  { rewrite seqZ_nil by lia. constructor. }
  rewrite seqZ_cons_pos by lia. replace (Z.of_nat (S k) - 1) with (Z.of_nat k) by lia.
  constructor; [apply IH|]. apply List.Forall_forall. intros x Hx%list_elem_of_In%elem_of_seqZ. lia.
Qed.

Lemma insert_date_In d l x : In x (insert_date d l) <-> x = d \/ In x l.
Proof.
  induction l as [|y l IH]; simpl; [intuition congruence|].
  destruct (Z.ltb_spec d y); simpl; [intuition congruence|].
  destruct (Z.eqb_spec d y); simpl; [intuition congruence|]. rewrite IH. tauto.
Qed.

Lemma sorted_set_In l x : In x (sorted_set l) <-> In x l.
Proof. induction l as [|y l IH]; simpl; [done|]. rewrite insert_date_In, IH. intuition congruence. Qed.

Lemma insert_date_sorted d l :
  StronglySorted Z.lt l -> StronglySorted Z.lt (insert_date d l).
Proof.
  induction 1 as [|x l Hl IH Hx]; simpl; [repeat constructor|].
  destruct (Z.ltb_spec d x).
  - constructor; [by constructor|]. constructor; [done|].
    eapply List.Forall_impl; [|exact Hx]. simpl. lia.
  - destruct (Z.eqb_spec d x); [by constructor|]. constructor; [done|].
    apply List.Forall_forall. intros y [->|Hy]%insert_date_In; [lia|].
    rewrite List.Forall_forall in Hx. by apply Hx.
Qed.

Lemma sorted_set_sorted l : StronglySorted Z.lt (sorted_set l).
Proof. induction l; simpl; [constructor|]. by apply insert_date_sorted. Qed.

Lemma sorted_lt_NoDup l : StronglySorted Z.lt l -> List.NoDup l.
Proof.
  induction 1 as [|x l Hl IH Hx]; constructor; [|done].
  intros Hin. rewrite List.Forall_forall in Hx. specialize (Hx _ Hin). lia.
Qed.

Lemma sorted_set_NoDup l : List.NoDup (sorted_set l).
Proof. apply sorted_lt_NoDup, sorted_set_sorted. Qed.

Lemma insert_date_least d l : Forall (fun x => d < x) l -> insert_date d l = d :: l.
Proof. destruct l as [|x l]; simpl; [done|]. intros [Hx _]%List.Forall_cons_iff. by rewrite (proj2 (Z.ltb_lt _ _) Hx). Qed.

(** Sorting a list that is already increasing changes nothing. *)
Lemma sorted_set_id l : StronglySorted Z.lt l -> sorted_set l = l.
Proof.
  induction 1 as [|x l Hl IH Hx]; simpl; [done|]. rewrite IH. by apply insert_date_least.
Qed.

Lemma seqZ_NoDup m n : List.NoDup (seqZ m n).
Proof. apply sorted_lt_NoDup, seqZ_sorted. Qed.

Lemma In_seqZ x m n : In x (seqZ m n) <-> m <= x < m + n.
Proof. rewrite <- list_elem_of_In. apply elem_of_seqZ. Qed.

#[export] Hint Resolve seqZ_sorted sorted_set_sorted sorted_set_NoDup seqZ_NoDup : pms.

(** ** Properties *)

(** Total description of [iter_stay_nights] on real dates: it raises exactly
    when the stay is empty or longer than [MAX_STAY_NIGHTS], and otherwise
    returns the consecutive nights of the half-open interval. *)
Theorem iter_stay_nights_spec ci co :
  valid_date ci -> valid_date co ->
  iter_stay_nights ci co =
    if co <=? ci then Err (ValueError "check_out must be after check_in")
    else if MAX_STAY_NIGHTS <? co - ci then Err (ValueError "stay cannot exceed 365 nights")
    else Ok (seqZ ci (co - ci)).
Proof.
  intros Hi Ho. unfold iter_stay_nights. destruct (Z.leb_spec co ci); [done|].
  rewrite days_until_spec by (try done; lia). cbn.
  rewrite length_seqZ, Z2Nat.id by lia. done.
Qed.

Lemma stay_not_empty ci co : iter_stay_nights ci co <> Ok [].
Proof.
  unfold iter_stay_nights. destruct (Z.leb_spec co ci); [done|]. destruct (Z.to_nat (co - ci)) as [|f] eqn:E; [lia|].
  cbn [days_until]. destruct (Z.ltb_spec ci co); [|lia]. destruct (date_add ci 1) as [d'|]; [|done]. cbn.
  destruct (days_until f d' co) as [ns|]; [|done]. cbn. by destruct (_ <? _).
Qed.

Lemma iter_stay_nights_ok ci co ns :
  valid_date ci -> valid_date co -> iter_stay_nights ci co = Ok ns ->
  ns = seqZ ci (co - ci) /\ ci < co <= ci + MAX_STAY_NIGHTS.
Proof.
  intros Hi Ho. rewrite iter_stay_nights_spec by done.
  destruct (Z.leb_spec co ci); [done|]. destruct (Z.ltb_spec MAX_STAY_NIGHTS (co - ci)); [done|].
  intros [= <-]. split; [done|lia].
Qed.

(** The loop leaves by its own test: more fuel changes nothing. *)
Lemma days_until_stable f1 f2 d stop :
  valid_date d -> valid_date stop ->
  (Z.to_nat (stop - d) <= f1)%nat -> (Z.to_nat (stop - d) <= f2)%nat ->
  days_until f1 d stop = days_until f2 d stop.
Proof. intros. by rewrite !days_until_spec. Qed.

Lemma fold_min_le l a : Forall (fun x => a <= x) l -> List.fold_left Z.min l a = a.
Proof. induction 1 as [|x l Hx Hl IH]; simpl; [done|]. by rewrite Z.min_l. Qed.

Lemma fold_max_seqZ k m :
  List.fold_left Z.max (seqZ (m + 1) (Z.of_nat k)) m = m + Z.of_nat k.
Proof.
  revert m. induction k as [|k IH]; intros m.
  - rewrite seqZ_nil by lia. simpl. lia.
  - rewrite seqZ_cons_pos by lia. cbn [List.fold_left]. rewrite Z.max_r by lia.
    replace (Z.of_nat (S k) - 1) with (Z.of_nat k) by lia. rewrite IH. lia.
Qed.

(** Reading the bounds back from the nights of a stay gives the stay. *)
Lemma stay_bounds_seqZ ci co :
  valid_date ci -> valid_date co -> ci < co ->
  stay_bounds (seqZ ci (co - ci)) = Ok (ci, co).
Proof.
  intros Hi Ho Hlt. unfold stay_bounds. rewrite seqZ_cons_pos by lia. simpl.
  rewrite fold_min_le.
  - cbn. replace (co - ci - 1) with (Z.of_nat (Z.to_nat (co - ci - 1))) by lia.
    rewrite fold_max_seqZ. rewrite date_add_ok by (unfold valid_date in *; lia). cbn.
    do 2 f_equal. lia.
  - apply List.Forall_forall. intros x Hx%In_seqZ. lia.
Qed.

Lemma iter_stay_nights_spec_witness :
  iter_stay_nights 738000 738003 = Ok [738000; 738001; 738002].
Proof. rewrite (iter_stay_nights_spec 738000 738003); [reflexivity|split; discriminate..]. Defined.

(** The loop produces increasing dates, whatever its bounds. *)
Lemma days_until_sorted fuel d stop l :
  days_until fuel d stop = Ok l -> StronglySorted Z.lt l /\ Forall (fun x => d <= x) l.
Proof.
  revert d l. induction fuel as [|f IH]; intros d l H; simpl in H; [by simplify_eq; repeat constructor|].
  destruct (d <? stop); [|by simplify_eq; repeat constructor].
  unfold date_add in H. destruct (_ && _); [|done]. cbn in H.
  destruct (days_until f (d + 1) stop) as [rest|] eqn:E; [|done]. cbn in H. simplify_eq.
  destruct (IH _ _ E) as [Hs Hf]. split.
  - constructor; [done|]. eapply List.Forall_impl; [|exact Hf]. simpl. lia.
  - constructor; [lia|]. eapply List.Forall_impl; [|exact Hf]. simpl. lia.
Qed.

Lemma iter_stay_nights_sorted ci co ns : iter_stay_nights ci co = Ok ns -> StronglySorted Z.lt ns.
Proof.
  unfold iter_stay_nights. destruct (co <=? ci); [done|].
  destruct (days_until _ ci co) as [l|] eqn:E; [|done]. cbn. destruct (_ <? _); [done|].
  intros [= <-]. by apply days_until_sorted in E as [? _].
Qed.
