(* ===== verification/Calendar.v ===== *)
(** * Calendar dates as text

    [date.fromordinal], [date.toordinal] and [date.isoformat] of Python's
    datetime module (the proleptic Gregorian calendar), as used wherever a
    date crosses the API: availability pushes, Channex payloads, error
    details. *)

From stdpp Require Import pretty.
From S2P Require Import Prelude StayDates.

Definition is_leap (y : Z) : bool := (y mod 4 =? 0) && (negb (y mod 100 =? 0) || (y mod 400 =? 0)).

Definition days_in_month (y m : Z) : Z :=
  if m =? 2 then (if is_leap y then 29 else 28)
  else if (m =? 4) || (m =? 6) || (m =? 9) || (m =? 11) then 30 else 31.

Definition days_before_year (y : Z) : Z :=
  let y' := y - 1 in y' * 365 + y' / 4 - y' / 100 + y' / 400.

Definition days_before_month (y m : Z) : Z :=
  List.nth (Z.to_nat (m - 1)) [0; 31; 59; 90; 120; 151; 181; 212; 243; 273; 304; 334] 0
  + (if (2 <? m) && is_leap y then 1 else 0).

Definition ymd2ord (y m d : Z) : Z := days_before_year y + days_before_month y m + d.

(** Day of the year to month and day. *)
Fixpoint month_of_day (fuel : nat) (y m n : Z) : Z * Z :=
  match fuel with
  | O => (m, n + 1)
  | S f =>
      let dim := days_in_month y m in
      if n <? dim then (m, n + 1) else month_of_day f y (m + 1) (n - dim)
  end.

Definition ord2ymd (o : Z) : Z * Z * Z :=
  let n := o - 1 in
  let n400 := n / 146097 in
  let n := n mod 146097 in
  let n100 := n / 36524 in
  let n' := n mod 36524 in
  let n4 := n' / 1461 in
  let n'' := n' mod 1461 in
  let n1 := n'' / 365 in
  let n3 := n'' mod 365 in
  let year := n400 * 400 + 1 + n100 * 100 + n4 * 4 + n1 in
  if (n1 =? 4) || (n100 =? 4) then (year - 1, 12, 31)
  else let '(m, d) := month_of_day 11 year 1 n3 in (year, m, d).

(** Zero-padded decimal text of a fixed width. *)
Fixpoint pad_left (fuel : nat) (w : nat) (s : string) : string :=
  match fuel with
  | O => s
  | S f => if (String.length s <? w)%nat then pad_left f w (String "0"%char s) else s
  end.
Definition fixed (w : nat) (n : Z) : string := pad_left w w (pretty n).

Definition isoformat (o : date) : string :=
  let '(y, m, d) := ord2ymd o in
  (fixed 4 y ++ "-" ++ fixed 2 m ++ "-" ++ fixed 2 d)%string.

(** ** [date.fromisoformat] *)

Definition iso_digit (c : ascii) : option Z :=
  let n := Z.of_nat (nat_of_ascii c) in if (48 <=? n) && (n <=? 57) then Some (n - 48) else None.

(** The number written by the next [n] digits, and what follows. *)
Fixpoint digits (n : nat) (acc : Z) (l : list ascii) : option (Z * list ascii) :=
  match n, l with
  | O, _ => Some (acc, l)
  | S n', c :: l' => match iso_digit c with Some v => digits n' (acc * 10 + v) l' | None => None end
  | S _, [] => None
  end.

Definition starts_dash (l : list ascii) : bool :=
  match l with c :: _ => Ascii.eqb c "-"%char | [] => false end.

Definition in_years (o : Z) : option date := if (MINORD <=? o) && (o <=? MAXORD) then Some o else None.

Definition of_ymd (y m d : Z) : option date :=
  if (1 <=? y) && (1 <=? m) && (m <=? 12) && (1 <=? d) && (d <=? days_in_month y m) then in_years (ymd2ord y m d) else None.

(** Monday is 0. *)
Definition weekday (o : date) : Z := (o + 6) mod 7.

Definition of_iso_week (y w d : Z) : option date :=
  let first_day := ymd2ord y 1 1 in
  let first_weekday := weekday first_day in
  let long := (first_weekday =? 3) || ((first_weekday =? 2) && is_leap y) in
  let monday := first_day - first_weekday + (if 3 <? first_weekday then 7 else 0) in
  if (1 <=? y) && (1 <=? w) && ((w <=? 52) || ((w =? 53) && long)) && (1 <=? d) && (d <=? 7)
  then in_years (monday + (w - 1) * 7 + (d - 1)) else None.

(** [YYYY-MM-DD], [YYYYMMDD], and the ISO week forms; [None] is ValueError. *)
Definition fromisoformat (s : string) : option date :=
  let l := list_ascii_of_string s in
  if negb (existsb (Nat.eqb (length l)) [7; 8; 10]%nat) then None
  else
    match digits 4 0 l with
    | None => None
    | Some (y, l1) =>
        let sep := starts_dash l1 in
        let l2 := if sep then List.tl l1 else l1 in
        let skip (l : list ascii) := if sep then (if starts_dash l then Some (List.tl l) else None) else Some l in
        match l2 with
        | "W"%char :: l3 =>
            match digits 2 0 l3 with
            | Some (w, []) => of_iso_week y w 1
            | Some (w, l4) =>
                match skip l4 with
                | Some l5 => match digits 1 0 l5 with Some (d, []) => of_iso_week y w d | _ => None end
                | None => None
                end
            | None => None
            end
        | _ =>
            match digits 2 0 l2 with
            | Some (m, l3) =>
                match skip l3 with
                | Some l4 => match digits 2 0 l4 with Some (d, []) => of_ymd y m d | _ => None end
                | None => None
                end
            | None => None
            end
        end
    end.

Example from_extended : fromisoformat "1970-01-01" = Some 719163.
Proof. reflexivity. Qed.
Example from_basic : fromisoformat "20240229" = Some (ymd2ord 2024 2 29).
Proof. reflexivity. Qed.
Example from_week : fromisoformat "2020-W53-5" = Some (ymd2ord 2021 1 1).
Proof. reflexivity. Qed.
Example from_not_a_date : fromisoformat "2023-02-29" = None.
Proof. reflexivity. Qed.

Example iso_epoch : isoformat 719163 = "1970-01-01"%string.
Proof. reflexivity. Qed.
Example iso_max : isoformat MAXORD = "9999-12-31"%string.
Proof. reflexivity. Qed.
Example iso_leap : isoformat (ymd2ord 2024 2 29) = "2024-02-29"%string.
Proof. reflexivity. Qed.

(** ** [ymd2ord] inverts [ord2ymd] *)

Lemma days_before_year_split k a b c :
  0 <= a <= 3 -> 0 <= b <= 24 -> 0 <= c <= 3 ->
  days_before_year (400 * k + 1 + 100 * a + 4 * b + c) = 146097 * k + 36524 * a + 1461 * b + 365 * c.
Proof.
  intros Ha Hb Hc. unfold days_before_year.
  set (y := 400 * k + 1 + 100 * a + 4 * b + c - 1).
  rewrite <- (Z.div_unique y 4 (100 * k + 25 * a + b) c) by (unfold y; lia).
  rewrite <- (Z.div_unique y 100 (4 * k + a) (4 * b + c)) by (unfold y; lia).
  rewrite <- (Z.div_unique y 400 k (100 * a + 4 * b + c)) by (unfold y; lia).
  unfold y. lia.
Qed.

Lemma days_before_month_succ y m :
  1 <= m <= 11 -> days_before_month y (m + 1) = days_before_month y m + days_in_month y m.
Proof.
  intros Hm. unfold days_before_month, days_in_month.
  assert (m = 1 \/ m = 2 \/ m = 3 \/ m = 4 \/ m = 5 \/ m = 6 \/ m = 7 \/ m = 8 \/ m = 9 \/ m = 10 \/ m = 11)
    as Hc by lia.
  destruct (is_leap y); intuition (subst; reflexivity).
Qed.

Lemma days_before_december y : days_before_month y 12 = 334 + (if is_leap y then 1 else 0).
Proof. done. Qed.

Lemma month_of_day_spec fuel y m n :
  1 <= m -> m + Z.of_nat fuel = 12 -> 0 <= n -> days_before_month y m + n < 365 ->
  let '(m', d) := month_of_day fuel y m n in
  days_before_month y m' + d = days_before_month y m + n + 1 /\
  1 <= m' <= 12 /\ 1 <= d <= days_in_month y m'.
Proof.
  revert m n. induction fuel as [|f IH]; intros m n Hm Hf Hn Hlt; cbn [month_of_day].
  - assert (m = 12) as -> by lia. change (days_in_month y 12) with 31.
    assert (334 <= days_before_month y 12); [|lia].
    rewrite days_before_december. destruct (is_leap y); lia.
  - cbv zeta. destruct (Z.ltb_spec n (days_in_month y m)); [lia|].
    pose proof (days_before_month_succ y m ltac:(lia)) as Hs.
    specialize (IH (m + 1) (n - days_in_month y m) ltac:(lia) ltac:(lia) ltac:(lia) ltac:(lia)).
    destruct (month_of_day f y (m + 1) _) as [m' d]. lia.
Qed.

(** Every ordinal is the ordinal of the date it denotes, and that date has a
    month of the year and a day of the month. *)
Theorem ymd2ord_ord2ymd o :
  let '(y, m, d) := ord2ymd o in
  ymd2ord y m d = o /\ 1 <= m <= 12 /\ 1 <= d <= days_in_month y m.
Proof.
  unfold ord2ymd. cbv zeta.
  set (k := (o - 1) / 146097). set (r := (o - 1) mod 146097).
  set (a := r / 36524). set (r1 := r mod 36524). set (b := r1 / 1461). set (r2 := r1 mod 1461).
  set (c := r2 / 365). set (r3 := r2 mod 365).
  pose proof (Z.div_mod (o - 1) 146097 ltac:(lia)) as E0. fold k r in E0.
  pose proof (Z.mod_pos_bound (o - 1) 146097 ltac:(lia)) as B0. fold r in B0.
  pose proof (Z.div_mod r 36524 ltac:(lia)) as E1. fold a r1 in E1.
  pose proof (Z.mod_pos_bound r 36524 ltac:(lia)) as B1. fold r1 in B1.
  pose proof (Z.div_mod r1 1461 ltac:(lia)) as E2. fold b r2 in E2.
  pose proof (Z.mod_pos_bound r1 1461 ltac:(lia)) as B2. fold r2 in B2.
  pose proof (Z.div_mod r2 365 ltac:(lia)) as E3. fold c r3 in E3.
  pose proof (Z.mod_pos_bound r2 365 ltac:(lia)) as B3. fold r3 in B3.
  clearbody k r a r1 b r2 c r3. unfold ymd2ord.
  replace (k * 400 + 1 + a * 100 + b * 4 + c) with (400 * k + 1 + 100 * a + 4 * b + c) by lia.
  destruct (Z.eqb_spec c 4) as [->|Hc]; [|destruct (Z.eqb_spec a 4) as [->|Ha]]; cbn [orb].
  - (* the last day of a leap year *)
    replace (400 * k + 1 + 100 * a + 4 * b + 4 - 1) with (400 * k + 1 + 100 * a + 4 * b + 3) by lia.
    rewrite days_before_year_split by lia.
    assert (is_leap (400 * k + 1 + 100 * a + 4 * b + 3) = true) as Hl.
    { unfold is_leap. set (y := 400 * k + 1 + 100 * a + 4 * b + 3).
      rewrite <- (Z.mod_unique y 4 (100 * k + 25 * a + b + 1) 0) by (unfold y; lia).
      destruct (Z.eq_dec b 24) as [->|Hb]; [exfalso; lia|].
      rewrite <- (Z.mod_unique y 100 (4 * k + a) (4 * (b + 1))) by (unfold y; lia).
      destruct (Z.eqb_spec (4 * (b + 1)) 0); [lia|done]. }
    rewrite days_before_december, Hl. change (days_in_month _ 12) with 31. lia.
  - replace (400 * k + 1 + 100 * 4 + 4 * b + c - 1) with (400 * k + 1 + 100 * 3 + 4 * 24 + 3) by lia.
    rewrite days_before_year_split by lia.
    assert (is_leap (400 * k + 1 + 100 * 3 + 4 * 24 + 3) = true) as Hl.
    { unfold is_leap. set (y := 400 * k + 1 + 100 * 3 + 4 * 24 + 3).
      rewrite <- (Z.mod_unique y 4 (100 * k + 100) 0) by (unfold y; lia).
      rewrite <- (Z.mod_unique y 400 (k + 1) 0) by (unfold y; lia). by rewrite orb_true_r. }
    rewrite days_before_december, Hl. change (days_in_month _ 12) with 31. lia.
  - set (y := 400 * k + 1 + 100 * a + 4 * b + c).
    pose proof (month_of_day_spec 11 y 1 r3 ltac:(lia) ltac:(lia) ltac:(lia)) as Hm.
    change (days_before_month y 1) with 0 in Hm. specialize (Hm ltac:(lia)).
    destruct (month_of_day 11 y 1 r3) as [m d]. split; [|lia].
    unfold y at 1. rewrite days_before_year_split by lia. lia.
Qed.

(** ** [fromisoformat] inverts [isoformat] *)

Lemma digits_app n acc l rest v :
  length l = n -> digits n acc l = Some (v, []) -> digits n acc (l ++ rest) = Some (v, rest).
Proof.
  revert n acc. induction l as [|c l IH]; intros [|n] acc Hl H; try done; cbn in *; [by injection H as ->|].
  destruct (iso_digit c); [|done]. apply IH; [lia|done].
Qed.

Lemma fixed4_digits y :
  1 <= y <= 9999 -> length (list_ascii_of_string (fixed 4 y)) = 4%nat /\ digits 4 0 (list_ascii_of_string (fixed 4 y)) = Some (y, []).
Proof.
  intros Hy.
  assert (C : forallb (fun n => let l := list_ascii_of_string (fixed 4 (Z.of_nat n)) in
      (length l =? 4)%nat && match digits 4 0 l with Some (v, []) => v =? Z.of_nat n | _ => false end) (List.seq 1 (Z.to_nat 9999)) = true)
    by (vm_compute; reflexivity).
  rewrite forallb_forall in C. specialize (C (Z.to_nat y)). rewrite Z2Nat.id in C by lia. cbv zeta in C.
  assert (Hin : In (Z.to_nat y) (List.seq 1 (Z.to_nat 9999))) by (apply in_seq; lia). specialize (C Hin). apply andb_prop in C as [Hl C].
  apply Nat.eqb_eq in Hl. split; [done|]. destruct (digits 4 0 _) as [[v [|]]|]; try done. by apply Z.eqb_eq in C as ->.
Qed.

Lemma fixed2_digits n :
  1 <= n <= 31 -> exists a b, list_ascii_of_string (fixed 2 n) = [a; b] /\ digits 2 0 [a; b] = Some (n, []) /\ a <> "W"%char.
Proof.
  intros Hn.
  assert (C : forallb (fun k => match list_ascii_of_string (fixed 2 (Z.of_nat k)) with
      | [a; b] => match digits 2 0 [a; b] with Some (v, []) => (v =? Z.of_nat k) && negb (Ascii.eqb a "W"%char) | _ => false end
      | _ => false end) (List.seq 1 31) = true) by (vm_compute; reflexivity).
  rewrite forallb_forall in C. specialize (C (Z.to_nat n)). rewrite Z2Nat.id in C by lia.
  assert (Hin : In (Z.to_nat n) (List.seq 1 31)) by (apply in_seq; lia). specialize (C Hin).
  destruct (list_ascii_of_string _) as [|a [|b [|]]]; try done. exists a, b.
  destruct (digits 2 0 [a; b]) as [[v [|]]|]; try done. apply andb_prop in C as [Hv%Z.eqb_eq Ha]. split_and!; [done|by rewrite Hv|].
  intros ->. by rewrite Ascii.eqb_refl in Ha.
Qed.

Lemma year_bounds y m d : 1 <= m <= 12 -> 1 <= d <= days_in_month y m -> valid_date (ymd2ord y m d) -> 1 <= y <= 9999.
Proof.
  unfold valid_date, ymd2ord, MINORD, MAXORD. intros Hm Hd Ho.
  assert (Hdm : days_in_month y m <= 31) by (unfold days_in_month; destruct (m =? 2), (is_leap y); try destruct ((m =? 4) || (m =? 6) || (m =? 9) || (m =? 11)); lia).
  assert (Hbm : 0 <= days_before_month y m <= 335).
  { unfold days_before_month.
    assert (m = 1 \/ m = 2 \/ m = 3 \/ m = 4 \/ m = 5 \/ m = 6 \/ m = 7 \/ m = 8 \/ m = 9 \/ m = 10 \/ m = 11 \/ m = 12) as Hc by lia.
    destruct (is_leap y); intuition (subst; vm_compute; discriminate). }
  unfold days_before_year in Ho. cbv zeta in Ho. revert Ho. generalize (days_before_month y m) Hbm. intros b Hb Ho.
  pose proof (Z.div_mod (y - 1) 4 ltac:(lia)). pose proof (Z.mod_pos_bound (y - 1) 4 ltac:(lia)).
  pose proof (Z.div_mod (y - 1) 100 ltac:(lia)). pose proof (Z.mod_pos_bound (y - 1) 100 ltac:(lia)).
  pose proof (Z.div_mod (y - 1) 400 ltac:(lia)). pose proof (Z.mod_pos_bound (y - 1) 400 ltac:(lia)). lia.
Qed.

Lemma app_chars a b : list_ascii_of_string (a ++ b)%string = list_ascii_of_string a ++ list_ascii_of_string b.
Proof. induction a as [|c a IH]; [done|]. cbn. by rewrite <- IH. Qed.

(** Reading back the text of a date gives the date. *)
Theorem fromisoformat_isoformat o : valid_date o -> fromisoformat (isoformat o) = Some o.
Proof.
  intros Ho. unfold isoformat. pose proof (ymd2ord_ord2ymd o) as Hy. destruct (ord2ymd o) as [[y m] d]. destruct Hy as (E & Hm & Hd).
  assert (Hyb : 1 <= y <= 9999) by (eapply year_bounds; [exact Hm|exact Hd|by rewrite E]).
  assert (Hdm : days_in_month y m <= 31) by (unfold days_in_month; destruct (m =? 2), (is_leap y); try destruct ((m =? 4) || (m =? 6) || (m =? 9) || (m =? 11)); lia).
  destruct (fixed4_digits y Hyb) as [Hl Hdig]. destruct (fixed2_digits m ltac:(lia)) as (m1 & m2 & Em & Dm & Wm).
  destruct (fixed2_digits d ltac:(lia)) as (d1 & d2 & Ed & Dd & _).
  unfold fromisoformat. rewrite !app_chars, Em, Ed. set (ys := list_ascii_of_string (fixed 4 y)) in *.
  rewrite length_app, Hl. cbn [length List.length list_ascii_of_string app Nat.add existsb Nat.eqb orb negb].
  rewrite (digits_app 4 0 ys _ y Hl Hdig). cbn [starts_dash Ascii.eqb Bool.eqb List.tl].
  assert (Hw : forall A (x z : A), (match m1 with "W"%char => x | _ => z end) = z).
  { intros A x z. destruct m1 as [[] [] [] [] [] [] [] []]; try reflexivity. by destruct Wm. }
  rewrite Hw. change (m1 :: m2 :: "-"%char :: [d1; d2]) with ([m1; m2] ++ "-"%char :: [d1; d2]).
  rewrite (digits_app 2 0 [m1; m2] _ m eq_refl Dm). cbn [starts_dash Ascii.eqb Bool.eqb List.tl]. rewrite Dd.
  unfold of_ymd, in_years. rewrite E. destruct Ho as [Ho1 Ho2]. unfold MINORD, MAXORD in *.
  rewrite !(proj2 (Z.leb_le _ _)) by lia. done.
Qed.

Lemma isoformat_inj a b : valid_date a -> valid_date b -> isoformat a = isoformat b -> a = b.
Proof. intros Ha Hb E. apply fromisoformat_isoformat in Ha, Hb. rewrite E in Ha. congruence. Qed.
