(* ===== verification/BookingStatus.v ===== *)
(** * Booking lifecycle

    app/domain/booking_status.py: the status strings, the transition check,
    and the state machine it accepts as a step relation. *)

From stdpp Require Import relations.
From S2P Require Import Prelude.

Definition KNOWN_STATUSES : list string :=
  ["pending"; "confirmed"; "checked_in"; "checked_out"; "cancelled"; "no_show"]%string.
Definition TERMINAL_STATUSES : list string := ["cancelled"; "no_show"; "checked_out"]%string.

Definition normalize_booking_status (status : string) : string := lower (strip status).

(** The [allowed] dictionary. *)
Definition allowed_next (o : string) : option (list string) :=
  if String.eqb o "pending" then Some ["confirmed"; "cancelled"]%string
  else if String.eqb o "confirmed" then Some ["checked_in"; "cancelled"; "no_show"]%string
  else if String.eqb o "checked_in" then Some ["checked_out"]%string
  else None.

Definition validate_status_transition (old_status new_status : string) : result unit :=
  let o := normalize_booking_status old_status in
  let n := normalize_booking_status new_status in
  if String.eqb o n then Ok tt
  else if negb (str_in n KNOWN_STATUSES) then
    Err (BookingStatusTransitionError
      ("unknown target status " ++ py_repr_str new_status ++ "; expected one of ['cancelled', 'checked_in', 'checked_out', 'confirmed', 'no_show', 'pending']"))
  else if negb (str_in o KNOWN_STATUSES) then
    Err (BookingStatusTransitionError
      "cannot change status: booking has an unrecognized current status")
  else if str_in o TERMINAL_STATUSES then
    Err (BookingStatusTransitionError
      ("cannot transition from terminal status " ++ py_repr_str o ++ " to " ++ py_repr_str n))
  else match allowed_next o with
       | Some next_ok =>
           if str_in n next_ok then Ok tt
           else Err (BookingStatusTransitionError
             ("cannot transition booking status from " ++ py_repr_str o ++ " to " ++ py_repr_str n))
       | None => Err (BookingStatusTransitionError
             ("cannot transition booking status from " ++ py_repr_str o ++ " to " ++ py_repr_str n))
       end.

(** A booking that holds inventory: SQL's [status NOT IN ('cancelled','no_show')]. *)
Definition is_active (status : string) : bool := negb (str_in status ["cancelled"; "no_show"]%string).

(** ** The machine, as a relation on normalized statuses *)

Inductive step : string -> string -> Prop :=
  | step_confirm : step "pending" "confirmed"
  | step_cancel_pending : step "pending" "cancelled"
  | step_check_in : step "confirmed" "checked_in"
  | step_cancel_confirmed : step "confirmed" "cancelled"
  | step_no_show : step "confirmed" "no_show"
  | step_check_out : step "checked_in" "checked_out".

#[export] Hint Constructors step : pms.

Lemma normalize_idem s : normalize_booking_status (normalize_booking_status s) = normalize_booking_status s.
Proof. unfold normalize_booking_status. by rewrite strip_lower, strip_idem, lower_idem. Qed.

Lemma normalize_known s : str_in s KNOWN_STATUSES = true -> normalize_booking_status s = s.
Proof. intros H%str_in_spec. simpl in H. by intuition subst. Qed.

Lemma allowed_next_step o n :
  (exists l, allowed_next o = Some l /\ str_in n l = true) <-> step o n.
Proof.
  split.
  - intros (l & Ho & Hn). unfold allowed_next in Ho.
    repeat match type of Ho with (if String.eqb o ?s then _ else _) = _ =>
      destruct (String.eqb_spec o s) as [->|_] end; simplify_eq;
    apply str_in_spec in Hn; simpl in Hn; intuition subst; auto with pms.
  - destruct 1; eexists; split; reflexivity.
Qed.

Lemma step_known o n : step o n -> str_in o KNOWN_STATUSES = true /\ str_in n KNOWN_STATUSES = true.
Proof. by destruct 1. Qed.

Lemma step_not_terminal o n : step o n -> str_in o TERMINAL_STATUSES = false.
Proof. by destruct 1. Qed.

Lemma step_neq o n : step o n -> o <> n.
Proof. by destruct 1. Qed.

(** Soundness and completeness of the check with respect to the machine. *)
Lemma validate_ok_iff old new :
  validate_status_transition old new = Ok tt <->
  normalize_booking_status old = normalize_booking_status new \/
  step (normalize_booking_status old) (normalize_booking_status new).
Proof.
  unfold validate_status_transition. set (o := normalize_booking_status old).
  set (n := normalize_booking_status new). cbv zeta.
  destruct (String.eqb_spec o n) as [->|Hne]; [tauto|]. split.
  - intros H. right. apply allowed_next_step.
    destruct (str_in n KNOWN_STATUSES); [|done]. destruct (str_in o KNOWN_STATUSES); [|done].
    destruct (str_in o TERMINAL_STATUSES); [done|]. simpl in H.
    destruct (allowed_next o) as [l|]; [|done]. exists l. by destruct (str_in n l).
  - intros [?|Hs]; [done|]. destruct (step_known _ _ Hs) as [-> ->].
    rewrite (step_not_terminal _ _ Hs). simpl.
    apply allowed_next_step in Hs as (l & -> & ->). done.
Qed.

(** Whatever the check refuses it refuses with a transition error. *)
Lemma validate_err old new e :
  validate_status_transition old new = Err e -> exists m, e = BookingStatusTransitionError m.
Proof.
  unfold validate_status_transition. intros H.
  repeat match type of H with
  | (if ?b then _ else _) = _ => destruct b
  | match ?o with Some _ => _ | None => _ end = _ => destruct o
  end; simplify_eq; eauto.
Qed.

(** Progress of a booking along its lifecycle. *)
Definition rank (s : string) : Z :=
  if String.eqb s "pending" then 0
  else if String.eqb s "confirmed" then 1
  else if String.eqb s "checked_in" then 2 else 3.

Lemma step_rank o n : step o n -> rank o < rank n.
Proof. by destruct 1. Qed.

Lemma nsteps_rank k o n : nsteps step k o n -> rank o + Z.of_nat k <= rank n.
Proof.
  induction 1 as [|k x y z Hxy _ IH]; [lia|]. apply step_rank in Hxy. lia.
Qed.

Lemma rank_bounds s : 0 <= rank s <= 3.
Proof. unfold rank. repeat case_match; lia. Qed.

(** An inactive booking never becomes active again: along any sequence of
    accepted updates starting in 'cancelled' or 'no_show', the status stays. *)
Lemma terminal_step_closed o n :
  str_in o TERMINAL_STATUSES = true -> rtc step o n -> n = o.
Proof.
  intros Ht Hr. destruct Hr as [|o m n Hs _]; [done|].
  by rewrite (step_not_terminal _ _ Hs) in Ht.
Qed.

Lemma is_active_step o n : step o n -> is_active o = true.
Proof. by destruct 1. Qed.

(** ** The accepted updates of a booking's status *)

(** One PATCH: the status the booking ends with, normalized as it is stored. *)
Definition accepts (o n : string) : Prop := validate_status_transition o n = Ok tt.

Inductive lifecycle : string -> list string -> string -> Prop :=
  | lifecycle_nil s : lifecycle s [] s
  | lifecycle_cons s n l z :
      accepts s n -> lifecycle (normalize_booking_status n) l z -> lifecycle s (n :: l) z.

(** Number of updates that change the status. *)
Fixpoint changes (s : string) (l : list string) : nat :=
  match l with
  | [] => 0
  | n :: l' =>
      ((if String.eqb (normalize_booking_status s) (normalize_booking_status n) then 0 else 1)
       + changes (normalize_booking_status n) l')%nat
  end.

Lemma lifecycle_rank s l z :
  lifecycle s l z -> rank (normalize_booking_status s) + Z.of_nat (changes s l) <= 3.
Proof.
  induction 1 as [s|s n l z Ha _ IH]; simpl; [pose proof (rank_bounds (normalize_booking_status s)); lia|].
  rewrite normalize_idem in IH. apply validate_ok_iff in Ha as [Ha|Ha].
  - rewrite Ha, String.eqb_refl. lia.
  - pose proof (step_neq _ _ Ha) as Hne. apply String.eqb_neq in Hne. rewrite Hne.
    apply step_rank in Ha. lia.
Qed.

Lemma lifecycle_terminal s l z :
  lifecycle s l z -> str_in (normalize_booking_status s) TERMINAL_STATUSES = true ->
  changes s l = 0%nat.
Proof.
  induction 1 as [s|s n l z Ha _ IH]; intros Ht; [done|]. cbn [changes]. rewrite normalize_idem in IH.
  apply validate_ok_iff in Ha as [Ha|Ha].
  - rewrite Ha, String.eqb_refl, IH; [done|]. by rewrite <- Ha.
  - by rewrite (step_not_terminal _ _ Ha) in Ht.
Qed.



(** the check never passes silently: it accepts exactly the edges of
    the lifecycle and re-statements of the same status, and refuses everything
    else with a transition error. *)
Theorem transition_decided old new :
  let o := normalize_booking_status old in
  let n := normalize_booking_status new in
  match validate_status_transition old new with
  | Ok _ => o = n \/ step o n
  | Err e => (exists m, e = BookingStatusTransitionError m) /\ o <> n /\ ~ step o n
  end.
Proof.
  intros o n. destruct (validate_status_transition old new) as [[]|e] eqn:E.
  - by apply validate_ok_iff.
  - split; [by eapply validate_err|]. split.
    + intros Ho. assert (Ha : accepts old new) by (apply validate_ok_iff; by left).
      unfold accepts in Ha. congruence.
    + intros Hs. assert (Ha : accepts old new) by (apply validate_ok_iff; by right).
      unfold accepts in Ha. congruence.
Qed.
