(* ===== verification/Models.v ===== *)
(** * The tables

    app/models: one record per mapped class, with the columns the services
    read or write, and the database as a record of tables.  Primary keys are
    integers standing for UUIDs, dates are ordinals, [Numeric(_, 2)] columns
    are held in cents, and the two tables that are only ever addressed by
    their unique composite key (the ledger and the nightly rates) are maps
    from that key.  A time is an integer. *)

From stdpp Require Import gmap strings.
From S2P Require Import Prelude StayDates PyJson Tax.

(** app/models/rates/availability_ledger.py *)
Record AvailabilityLedger := MkLedger { total_rooms : Z; booked_rooms : Z; blocked_rooms : Z }.
(** [uq_availability_ledger_tenant_room_type_date] *)
Abbreviation ledger_key := (Z * Z * date)%type.

(** app/models/rates/rate.py *)
Record Rate := MkRate {
  rate_price : Z; rate_stop_sell : bool; rate_min_stay : option Z; rate_max_stay : option Z }.
(** [uq_rates_tenant_room_type_plan_date] *)
Abbreviation rate_key := (Z * Z * Z * date)%type.


(** app/models/bookings/booking.py *)
Record Booking := MkBooking {
  b_id : Z; b_tenant : Z; b_property : Z; b_guest : Z;
  b_rate_plan : option Z; b_ext : option string; b_status : string; b_source : string;
  b_total : Z; b_notes : option string }.

(** app/models/bookings/booking_line.py *)
Record BookingLine := MkBookingLine {
  l_id : Z; l_tenant : Z; l_booking : Z; l_date : date;
  l_room_type : Z; l_room : option Z; l_price : Z }.

(** app/models/bookings/folio_transaction.py *)
Record FolioTransaction := MkFolioTransaction {
  f_id : Z; f_tenant : Z; f_booking : Z; f_type : string;
  f_amount : Z; f_method : option string; f_desc : option string; f_created_at : Z;
  f_created_by : option Z; f_category : string; f_channel : option string }.

(** app/models/bookings/folio_charge_category.py *)
Record FolioChargeCategory := MkFolioChargeCategory {
  fc_id : Z; fc_tenant : Z; fc_code : string; fc_label : string;
  fc_builtin : bool; fc_active : bool; fc_sort : Z }.

(** app/models/bookings/guest.py *)
Record Guest := MkGuest {
  g_id : Z; g_tenant : Z; g_first : string; g_last : string;
  g_email : string; g_phone : string; g_passport : option string; g_nationality : option string;
  g_birth : option date; g_notes : option string; g_vip : bool; g_updated_at : Z }.

(** app/models/core/room.py *)
Record Room := MkRoom {
  r_id : Z; r_tenant : Z; r_room_type : Z; r_name : string;
  r_status : string; r_deleted_at : option Z; r_hk_status : string; r_hk_priority : string }.

(** app/models/core/room_type.py *)
Record RoomType := MkRoomType {
  rt_id : Z; rt_tenant : Z; rt_property : Z; rt_name : string;
  rt_base_occupancy : Z; rt_max_occupancy : Z; rt_deleted_at : option Z }.

(** app/models/rates/rate_plan.py *)
Record RatePlan := MkRatePlan {
  rp_id : Z; rp_tenant : Z; rp_property : Z; rp_name : string;
  rp_policy : string }.

(** app/models/core/property.py *)
Record Property := MkProperty {
  p_id : Z; p_tenant : Z; p_name : string; p_pack : option string;
  p_timezone : string; p_currency : string; p_checkin : Z; p_checkout : Z }.

(** app/models/integrations/country_pack_extension.py *)
Record CountryPackExtension := MkCountryPackExtension {
  ex_id : Z; ex_tenant : Z; ex_code : string; ex_name : string;
  ex_country : option string; ex_url : string; ex_required : json; ex_active : bool }.

(** app/models/integrations/property_extension.py *)
Record PropertyExtension := MkPropertyExtension {
  pe_id : Z; pe_tenant : Z; pe_property : Z; pe_extension : Z;
  pe_config : option json; pe_active : bool; pe_created_at : Z }.

(** app/models/core/country_pack.py; the code is the primary key. *)
Record CountryPack := MkCountryPack {
  cp_code : string; cp_tenant : option Z; cp_name : string; cp_currency : string;
  cp_symbol : string; cp_position : string; cp_decimals : Z; cp_timezone : string;
  cp_date_format : string; cp_locale : string; cp_checkin : Z; cp_checkout : Z;
  cp_taxes : json; cp_methods : json; cp_fiscal : option string; cp_builtin : bool }.

(** app/models/integrations/channex_booking_revision.py *)
Record ChannexBookingRevision := MkChannexBookingRevision {
  cr_id : Z; cr_tenant : Z; cr_link : Z; cr_revision : string;
  cr_booking_ext : option string; cr_status : option string; cr_channel : option string; cr_payload : json;
  cr_processing : string; cr_error : option string; cr_processed_at : option Z; cr_booking : option Z }.

(** app/models/integrations/channex_property_link.py *)
Record ChannexPropertyLink := MkChannexPropertyLink {
  cl_id : Z; cl_tenant : Z; cl_property : Z; cl_channex_property : string;
  cl_webhook : option string; cl_api_key : string; cl_env : string; cl_status : string;
  cl_connected_at : option Z; cl_last_sync : option Z; cl_error : option string }.

(** app/models/integrations/channex_room_type_map.py *)
Record ChannexRoomTypeMap := MkChannexRoomTypeMap {
  cm_id : Z; cm_tenant : Z; cm_link : Z; cm_room_type : Z;
  cm_channex_room_type : string; cm_name : option string }.

(** app/models/integrations/channex_rate_plan_map.py *)
Record ChannexRatePlanMap := MkChannexRatePlanMap {
  cq_id : Z; cq_tenant : Z; cq_room_type_map : Z; cq_rate_plan : Z;
  cq_channex_rate_plan : string; cq_name : option string }.

(** app/models/billing/stripe_charge.py *)
Record StripeCharge := MkStripeCharge {
  sc_id : Z; sc_tenant : Z; sc_property : Z; sc_booking : option Z;
  sc_folio : option Z; sc_charge_id : string; sc_pm : option string; sc_amount : Z;
  sc_currency : string; sc_status : string; sc_failure : option string; sc_created_at : Z }.

(** app/models/billing/stripe_payment_method.py *)
Record StripePaymentMethod := MkStripePaymentMethod {
  sp_id : Z; sp_tenant : Z; sp_property : Z; sp_booking : option Z;
  sp_pm_id : string; sp_last4 : option string; sp_brand : option string; sp_exp_month : option Z;
  sp_exp_year : option Z; sp_label : option string; sp_created_at : Z }.

(** app/models/notifications/email_log.py *)
Record EmailLog := MkEmailLog {
  el_id : Z; el_tenant : Z; el_property : option Z; el_booking : option Z;
  el_to : string; el_template : string; el_subject : string; el_status : string;
  el_resend : option string; el_error : option string; el_sent_at : Z }.

(** app/models/notifications/email_settings.py *)
Record EmailSettings := MkEmailSettings {
  es_id : Z; es_tenant : Z; es_property : Z; es_sender : string;
  es_reply_to : option string; es_logo : option string; es_locale : string }.

(** app/models/billing/stripe_connection.py *)
Record StripeConnection := MkStripeConnection {
  sn_id : Z; sn_tenant : Z; sn_property : Z; sn_account : string;
  sn_livemode : bool; sn_connected_at : Z; sn_disconnected_at : option Z }.

(** app/models/integrations/channex_ari_push_log.py *)
Record ChannexAriPushLog := MkChannexAriPushLog {
  ca_id : Z; ca_tenant : Z; ca_link : Z; ca_request : json;
  ca_status : option Z; ca_body : option string; ca_error : option string }.

(** app/models/integrations/channex_webhook_log.py *)
Record ChannexWebhookLog := MkChannexWebhookLog {
  cw_id : Z; cw_tenant : option Z; cw_event : option string; cw_payload : option json;
  cw_signature : option string; cw_ip : option string; cw_processed : bool }.

(** app/models/audit/audit_log.py, less the JSON snapshots and the request context. *)
Record AuditLog := MkAuditLog {
  al_id : Z; al_tenant : Z; al_action : string; al_entity_type : string;
  al_entity : option Z; al_created_at : Z }.

(** app/models/core/room_housekeeping_event.py *)
Record RoomHousekeepingEvent := MkRoomHousekeepingEvent {
  he_id : Z; he_tenant : Z; he_room : Z; he_old_status : string;
  he_new_status : string; he_by : option Z }.

(** app/models/core/tenant.py *)
Record Tenant := MkTenant {
  tn_id : Z; tn_name : string; tn_email : string; tn_status : string }.

(** app/models/auth/user.py *)
Record User := MkUser {
  u_id : Z; u_tenant : Z; u_email : string; u_password : string;
  u_name : string; u_role : string; u_active : bool }.

(** app/models/auth/refresh_token.py *)
Record RefreshToken := MkRefreshToken {
  tk_id : Z; tk_tenant : Z; tk_user : Z; tk_hash : string;
  tk_expires_at : Z; tk_revoked_at : option Z; tk_created_at : Z }.

(** app/models/auth/api_key.py *)
Record ApiKey := MkApiKey {
  ak_id : Z; ak_tenant : Z; ak_hash : string; ak_name : string;
  ak_scopes : list string; ak_active : bool; ak_expires_at : option Z }.

(** app/models/integrations/webhook_subscription.py *)
Record WebhookSubscription := MkWebhookSubscription {
  ws_id : Z; ws_tenant : Z; ws_url : string; ws_events : list string;
  ws_secret : string; ws_active : bool }.

(** app/models/integrations/webhook_pending_delivery.py *)
Record WebhookPendingDelivery := MkWebhookPendingDelivery {
  wp_id : Z; wp_tenant : Z; wp_subscription : Z; wp_event : string;
  wp_payload : json; wp_attempts : Z; wp_next_retry : Z; wp_status : string }.

(** app/models/integrations/webhook_delivery_log.py *)
Record WebhookDeliveryLog := MkWebhookDeliveryLog {
  wl_id : Z; wl_tenant : Z; wl_subscription : Z; wl_event : string;
  wl_attempt : Z; wl_http_status : option Z; wl_error : option string; wl_payload : json;
  wl_created_at : Z }.

(** ** Attribute assignment *)

Definition set_b_status (v : string) (x : Booking) : Booking :=
  MkBooking (b_id x) (b_tenant x) (b_property x) (b_guest x) (b_rate_plan x) (b_ext x) v (b_source x) (b_total x) (b_notes x).
Definition set_b_notes (v : option string) (x : Booking) : Booking :=
  MkBooking (b_id x) (b_tenant x) (b_property x) (b_guest x) (b_rate_plan x) (b_ext x) (b_status x) (b_source x) (b_total x) v.
Definition set_b_total (v : Z) (x : Booking) : Booking :=
  MkBooking (b_id x) (b_tenant x) (b_property x) (b_guest x) (b_rate_plan x) (b_ext x) (b_status x) (b_source x) v (b_notes x).
Definition set_b_rate_plan (v : option Z) (x : Booking) : Booking :=
  MkBooking (b_id x) (b_tenant x) (b_property x) (b_guest x) v (b_ext x) (b_status x) (b_source x) (b_total x) (b_notes x).
Definition set_l_room (v : option Z) (x : BookingLine) : BookingLine :=
  MkBookingLine (l_id x) (l_tenant x) (l_booking x) (l_date x) (l_room_type x) v (l_price x).
Definition set_f_amount (v : Z) (x : FolioTransaction) : FolioTransaction :=
  MkFolioTransaction (f_id x) (f_tenant x) (f_booking x) (f_type x) v (f_method x) (f_desc x) (f_created_at x) (f_created_by x) (f_category x) (f_channel x).
Definition set_g_notes (v : option string) (x : Guest) : Guest :=
  MkGuest (g_id x) (g_tenant x) (g_first x) (g_last x) (g_email x) (g_phone x) (g_passport x) (g_nationality x) (g_birth x) v (g_vip x) (g_updated_at x).
Definition set_r_status (v : string) (x : Room) : Room :=
  MkRoom (r_id x) (r_tenant x) (r_room_type x) (r_name x) v (r_deleted_at x) (r_hk_status x) (r_hk_priority x).
Definition set_r_name (v : string) (x : Room) : Room :=
  MkRoom (r_id x) (r_tenant x) (r_room_type x) v (r_status x) (r_deleted_at x) (r_hk_status x) (r_hk_priority x).
Definition set_r_room_type (v : Z) (x : Room) : Room :=
  MkRoom (r_id x) (r_tenant x) v (r_name x) (r_status x) (r_deleted_at x) (r_hk_status x) (r_hk_priority x).
Definition set_r_deleted_at (v : option Z) (x : Room) : Room :=
  MkRoom (r_id x) (r_tenant x) (r_room_type x) (r_name x) (r_status x) v (r_hk_status x) (r_hk_priority x).
Definition set_r_hk_status (v : string) (x : Room) : Room :=
  MkRoom (r_id x) (r_tenant x) (r_room_type x) (r_name x) (r_status x) (r_deleted_at x) v (r_hk_priority x).
Definition set_r_hk_priority (v : string) (x : Room) : Room :=
  MkRoom (r_id x) (r_tenant x) (r_room_type x) (r_name x) (r_status x) (r_deleted_at x) (r_hk_status x) v.
Definition set_cr_payload (v : json) (x : ChannexBookingRevision) : ChannexBookingRevision :=
  MkChannexBookingRevision (cr_id x) (cr_tenant x) (cr_link x) (cr_revision x) (cr_booking_ext x) (cr_status x) (cr_channel x) v (cr_processing x) (cr_error x) (cr_processed_at x) (cr_booking x).
Definition set_cr_processing (v : string) (x : ChannexBookingRevision) : ChannexBookingRevision :=
  MkChannexBookingRevision (cr_id x) (cr_tenant x) (cr_link x) (cr_revision x) (cr_booking_ext x) (cr_status x) (cr_channel x) (cr_payload x) v (cr_error x) (cr_processed_at x) (cr_booking x).
Definition set_cr_error (v : option string) (x : ChannexBookingRevision) : ChannexBookingRevision :=
  MkChannexBookingRevision (cr_id x) (cr_tenant x) (cr_link x) (cr_revision x) (cr_booking_ext x) (cr_status x) (cr_channel x) (cr_payload x) (cr_processing x) v (cr_processed_at x) (cr_booking x).
Definition set_cr_processed_at (v : option Z) (x : ChannexBookingRevision) : ChannexBookingRevision :=
  MkChannexBookingRevision (cr_id x) (cr_tenant x) (cr_link x) (cr_revision x) (cr_booking_ext x) (cr_status x) (cr_channel x) (cr_payload x) (cr_processing x) (cr_error x) v (cr_booking x).
Definition set_cr_booking (v : option Z) (x : ChannexBookingRevision) : ChannexBookingRevision :=
  MkChannexBookingRevision (cr_id x) (cr_tenant x) (cr_link x) (cr_revision x) (cr_booking_ext x) (cr_status x) (cr_channel x) (cr_payload x) (cr_processing x) (cr_error x) (cr_processed_at x) v.
Definition set_cl_last_sync (v : option Z) (x : ChannexPropertyLink) : ChannexPropertyLink :=
  MkChannexPropertyLink (cl_id x) (cl_tenant x) (cl_property x) (cl_channex_property x) (cl_webhook x) (cl_api_key x) (cl_env x) (cl_status x) (cl_connected_at x) v (cl_error x).
Definition set_sc_status (v : string) (x : StripeCharge) : StripeCharge :=
  MkStripeCharge (sc_id x) (sc_tenant x) (sc_property x) (sc_booking x) (sc_folio x) (sc_charge_id x) (sc_pm x) (sc_amount x) (sc_currency x) v (sc_failure x) (sc_created_at x).
Definition set_sp_booking (v : option Z) (x : StripePaymentMethod) : StripePaymentMethod :=
  MkStripePaymentMethod (sp_id x) (sp_tenant x) (sp_property x) v (sp_pm_id x) (sp_last4 x) (sp_brand x) (sp_exp_month x) (sp_exp_year x) (sp_label x) (sp_created_at x).
Definition set_el_booking (v : option Z) (x : EmailLog) : EmailLog :=
  MkEmailLog (el_id x) (el_tenant x) (el_property x) v (el_to x) (el_template x) (el_subject x) (el_status x) (el_resend x) (el_error x) (el_sent_at x).
Definition set_rp_name (v : string) (x : RatePlan) : RatePlan :=
  MkRatePlan (rp_id x) (rp_tenant x) (rp_property x) v (rp_policy x).
Definition set_rp_policy (v : string) (x : RatePlan) : RatePlan :=
  MkRatePlan (rp_id x) (rp_tenant x) (rp_property x) (rp_name x) v.
Definition set_rt_name (v : string) (x : RoomType) : RoomType :=
  MkRoomType (rt_id x) (rt_tenant x) (rt_property x) v (rt_base_occupancy x) (rt_max_occupancy x) (rt_deleted_at x).
Definition set_rt_base_occupancy (v : Z) (x : RoomType) : RoomType :=
  MkRoomType (rt_id x) (rt_tenant x) (rt_property x) (rt_name x) v (rt_max_occupancy x) (rt_deleted_at x).
Definition set_rt_max_occupancy (v : Z) (x : RoomType) : RoomType :=
  MkRoomType (rt_id x) (rt_tenant x) (rt_property x) (rt_name x) (rt_base_occupancy x) v (rt_deleted_at x).
Definition set_rt_deleted_at (v : option Z) (x : RoomType) : RoomType :=
  MkRoomType (rt_id x) (rt_tenant x) (rt_property x) (rt_name x) (rt_base_occupancy x) (rt_max_occupancy x) v.
Definition set_fc_label (v : string) (x : FolioChargeCategory) : FolioChargeCategory :=
  MkFolioChargeCategory (fc_id x) (fc_tenant x) (fc_code x) v (fc_builtin x) (fc_active x) (fc_sort x).
Definition set_fc_sort (v : Z) (x : FolioChargeCategory) : FolioChargeCategory :=
  MkFolioChargeCategory (fc_id x) (fc_tenant x) (fc_code x) (fc_label x) (fc_builtin x) (fc_active x) v.
Definition set_fc_active (v : bool) (x : FolioChargeCategory) : FolioChargeCategory :=
  MkFolioChargeCategory (fc_id x) (fc_tenant x) (fc_code x) (fc_label x) (fc_builtin x) v (fc_sort x).
Definition set_g_first (v : string) (x : Guest) : Guest :=
  MkGuest (g_id x) (g_tenant x) v (g_last x) (g_email x) (g_phone x) (g_passport x) (g_nationality x) (g_birth x) (g_notes x) (g_vip x) (g_updated_at x).
Definition set_g_last (v : string) (x : Guest) : Guest :=
  MkGuest (g_id x) (g_tenant x) (g_first x) v (g_email x) (g_phone x) (g_passport x) (g_nationality x) (g_birth x) (g_notes x) (g_vip x) (g_updated_at x).
Definition set_g_email (v : string) (x : Guest) : Guest :=
  MkGuest (g_id x) (g_tenant x) (g_first x) (g_last x) v (g_phone x) (g_passport x) (g_nationality x) (g_birth x) (g_notes x) (g_vip x) (g_updated_at x).
Definition set_g_phone (v : string) (x : Guest) : Guest :=
  MkGuest (g_id x) (g_tenant x) (g_first x) (g_last x) (g_email x) v (g_passport x) (g_nationality x) (g_birth x) (g_notes x) (g_vip x) (g_updated_at x).
Definition set_g_passport (v : option string) (x : Guest) : Guest :=
  MkGuest (g_id x) (g_tenant x) (g_first x) (g_last x) (g_email x) (g_phone x) v (g_nationality x) (g_birth x) (g_notes x) (g_vip x) (g_updated_at x).
Definition set_g_nationality (v : option string) (x : Guest) : Guest :=
  MkGuest (g_id x) (g_tenant x) (g_first x) (g_last x) (g_email x) (g_phone x) (g_passport x) v (g_birth x) (g_notes x) (g_vip x) (g_updated_at x).
Definition set_g_birth (v : option date) (x : Guest) : Guest :=
  MkGuest (g_id x) (g_tenant x) (g_first x) (g_last x) (g_email x) (g_phone x) (g_passport x) (g_nationality x) v (g_notes x) (g_vip x) (g_updated_at x).
Definition set_g_vip (v : bool) (x : Guest) : Guest :=
  MkGuest (g_id x) (g_tenant x) (g_first x) (g_last x) (g_email x) (g_phone x) (g_passport x) (g_nationality x) (g_birth x) (g_notes x) v (g_updated_at x).
Definition set_p_name (v : string) (x : Property) : Property :=
  MkProperty (p_id x) (p_tenant x) v (p_pack x) (p_timezone x) (p_currency x) (p_checkin x) (p_checkout x).
Definition set_p_pack (v : option string) (x : Property) : Property :=
  MkProperty (p_id x) (p_tenant x) (p_name x) v (p_timezone x) (p_currency x) (p_checkin x) (p_checkout x).
Definition set_p_timezone (v : string) (x : Property) : Property :=
  MkProperty (p_id x) (p_tenant x) (p_name x) (p_pack x) v (p_currency x) (p_checkin x) (p_checkout x).
Definition set_p_currency (v : string) (x : Property) : Property :=
  MkProperty (p_id x) (p_tenant x) (p_name x) (p_pack x) (p_timezone x) v (p_checkin x) (p_checkout x).
Definition set_p_checkin (v : Z) (x : Property) : Property :=
  MkProperty (p_id x) (p_tenant x) (p_name x) (p_pack x) (p_timezone x) (p_currency x) v (p_checkout x).
Definition set_p_checkout (v : Z) (x : Property) : Property :=
  MkProperty (p_id x) (p_tenant x) (p_name x) (p_pack x) (p_timezone x) (p_currency x) (p_checkin x) v.
Definition set_u_password (v : string) (x : User) : User :=
  MkUser (u_id x) (u_tenant x) (u_email x) v (u_name x) (u_role x) (u_active x).
Definition set_u_role (v : string) (x : User) : User :=
  MkUser (u_id x) (u_tenant x) (u_email x) (u_password x) (u_name x) v (u_active x).
Definition set_u_active (v : bool) (x : User) : User :=
  MkUser (u_id x) (u_tenant x) (u_email x) (u_password x) (u_name x) (u_role x) v.
Definition set_tk_revoked_at (v : option Z) (x : RefreshToken) : RefreshToken :=
  MkRefreshToken (tk_id x) (tk_tenant x) (tk_user x) (tk_hash x) (tk_expires_at x) v (tk_created_at x).
Definition set_ak_name (v : string) (x : ApiKey) : ApiKey :=
  MkApiKey (ak_id x) (ak_tenant x) (ak_hash x) v (ak_scopes x) (ak_active x) (ak_expires_at x).
Definition set_cp_name (v : string) (x : CountryPack) : CountryPack :=
  MkCountryPack (cp_code x) (cp_tenant x) v (cp_currency x) (cp_symbol x) (cp_position x) (cp_decimals x) (cp_timezone x) (cp_date_format x) (cp_locale x) (cp_checkin x) (cp_checkout x) (cp_taxes x) (cp_methods x) (cp_fiscal x) (cp_builtin x).
Definition set_cp_currency (v : string) (x : CountryPack) : CountryPack :=
  MkCountryPack (cp_code x) (cp_tenant x) (cp_name x) v (cp_symbol x) (cp_position x) (cp_decimals x) (cp_timezone x) (cp_date_format x) (cp_locale x) (cp_checkin x) (cp_checkout x) (cp_taxes x) (cp_methods x) (cp_fiscal x) (cp_builtin x).
Definition set_cp_symbol (v : string) (x : CountryPack) : CountryPack :=
  MkCountryPack (cp_code x) (cp_tenant x) (cp_name x) (cp_currency x) v (cp_position x) (cp_decimals x) (cp_timezone x) (cp_date_format x) (cp_locale x) (cp_checkin x) (cp_checkout x) (cp_taxes x) (cp_methods x) (cp_fiscal x) (cp_builtin x).
Definition set_cp_position (v : string) (x : CountryPack) : CountryPack :=
  MkCountryPack (cp_code x) (cp_tenant x) (cp_name x) (cp_currency x) (cp_symbol x) v (cp_decimals x) (cp_timezone x) (cp_date_format x) (cp_locale x) (cp_checkin x) (cp_checkout x) (cp_taxes x) (cp_methods x) (cp_fiscal x) (cp_builtin x).
Definition set_cp_decimals (v : Z) (x : CountryPack) : CountryPack :=
  MkCountryPack (cp_code x) (cp_tenant x) (cp_name x) (cp_currency x) (cp_symbol x) (cp_position x) v (cp_timezone x) (cp_date_format x) (cp_locale x) (cp_checkin x) (cp_checkout x) (cp_taxes x) (cp_methods x) (cp_fiscal x) (cp_builtin x).
Definition set_cp_timezone (v : string) (x : CountryPack) : CountryPack :=
  MkCountryPack (cp_code x) (cp_tenant x) (cp_name x) (cp_currency x) (cp_symbol x) (cp_position x) (cp_decimals x) v (cp_date_format x) (cp_locale x) (cp_checkin x) (cp_checkout x) (cp_taxes x) (cp_methods x) (cp_fiscal x) (cp_builtin x).
Definition set_cp_date_format (v : string) (x : CountryPack) : CountryPack :=
  MkCountryPack (cp_code x) (cp_tenant x) (cp_name x) (cp_currency x) (cp_symbol x) (cp_position x) (cp_decimals x) (cp_timezone x) v (cp_locale x) (cp_checkin x) (cp_checkout x) (cp_taxes x) (cp_methods x) (cp_fiscal x) (cp_builtin x).
Definition set_cp_locale (v : string) (x : CountryPack) : CountryPack :=
  MkCountryPack (cp_code x) (cp_tenant x) (cp_name x) (cp_currency x) (cp_symbol x) (cp_position x) (cp_decimals x) (cp_timezone x) (cp_date_format x) v (cp_checkin x) (cp_checkout x) (cp_taxes x) (cp_methods x) (cp_fiscal x) (cp_builtin x).
Definition set_cp_checkin (v : Z) (x : CountryPack) : CountryPack :=
  MkCountryPack (cp_code x) (cp_tenant x) (cp_name x) (cp_currency x) (cp_symbol x) (cp_position x) (cp_decimals x) (cp_timezone x) (cp_date_format x) (cp_locale x) v (cp_checkout x) (cp_taxes x) (cp_methods x) (cp_fiscal x) (cp_builtin x).
Definition set_cp_checkout (v : Z) (x : CountryPack) : CountryPack :=
  MkCountryPack (cp_code x) (cp_tenant x) (cp_name x) (cp_currency x) (cp_symbol x) (cp_position x) (cp_decimals x) (cp_timezone x) (cp_date_format x) (cp_locale x) (cp_checkin x) v (cp_taxes x) (cp_methods x) (cp_fiscal x) (cp_builtin x).
Definition set_cp_taxes (v : json) (x : CountryPack) : CountryPack :=
  MkCountryPack (cp_code x) (cp_tenant x) (cp_name x) (cp_currency x) (cp_symbol x) (cp_position x) (cp_decimals x) (cp_timezone x) (cp_date_format x) (cp_locale x) (cp_checkin x) (cp_checkout x) v (cp_methods x) (cp_fiscal x) (cp_builtin x).
Definition set_cp_methods (v : json) (x : CountryPack) : CountryPack :=
  MkCountryPack (cp_code x) (cp_tenant x) (cp_name x) (cp_currency x) (cp_symbol x) (cp_position x) (cp_decimals x) (cp_timezone x) (cp_date_format x) (cp_locale x) (cp_checkin x) (cp_checkout x) (cp_taxes x) v (cp_fiscal x) (cp_builtin x).
Definition set_cp_fiscal (v : option string) (x : CountryPack) : CountryPack :=
  MkCountryPack (cp_code x) (cp_tenant x) (cp_name x) (cp_currency x) (cp_symbol x) (cp_position x) (cp_decimals x) (cp_timezone x) (cp_date_format x) (cp_locale x) (cp_checkin x) (cp_checkout x) (cp_taxes x) (cp_methods x) v (cp_builtin x).
Definition set_g_updated_at (v : Z) (x : Guest) : Guest :=
  MkGuest (g_id x) (g_tenant x) (g_first x) (g_last x) (g_email x) (g_phone x) (g_passport x) (g_nationality x) (g_birth x) (g_notes x) (g_vip x) v.
Definition set_sn_account (v : string) (x : StripeConnection) : StripeConnection :=
  MkStripeConnection (sn_id x) (sn_tenant x) (sn_property x) v (sn_livemode x) (sn_connected_at x) (sn_disconnected_at x).
Definition set_sn_livemode (v : bool) (x : StripeConnection) : StripeConnection :=
  MkStripeConnection (sn_id x) (sn_tenant x) (sn_property x) (sn_account x) v (sn_connected_at x) (sn_disconnected_at x).
Definition set_sn_connected_at (v : Z) (x : StripeConnection) : StripeConnection :=
  MkStripeConnection (sn_id x) (sn_tenant x) (sn_property x) (sn_account x) (sn_livemode x) v (sn_disconnected_at x).
Definition set_sn_disconnected_at (v : option Z) (x : StripeConnection) : StripeConnection :=
  MkStripeConnection (sn_id x) (sn_tenant x) (sn_property x) (sn_account x) (sn_livemode x) (sn_connected_at x) v.
Definition set_cl_channex_property (v : string) (x : ChannexPropertyLink) : ChannexPropertyLink :=
  MkChannexPropertyLink (cl_id x) (cl_tenant x) (cl_property x) v (cl_webhook x) (cl_api_key x) (cl_env x) (cl_status x) (cl_connected_at x) (cl_last_sync x) (cl_error x).
Definition set_cl_webhook (v : option string) (x : ChannexPropertyLink) : ChannexPropertyLink :=
  MkChannexPropertyLink (cl_id x) (cl_tenant x) (cl_property x) (cl_channex_property x) v (cl_api_key x) (cl_env x) (cl_status x) (cl_connected_at x) (cl_last_sync x) (cl_error x).
Definition set_cl_api_key (v : string) (x : ChannexPropertyLink) : ChannexPropertyLink :=
  MkChannexPropertyLink (cl_id x) (cl_tenant x) (cl_property x) (cl_channex_property x) (cl_webhook x) v (cl_env x) (cl_status x) (cl_connected_at x) (cl_last_sync x) (cl_error x).
Definition set_cl_env (v : string) (x : ChannexPropertyLink) : ChannexPropertyLink :=
  MkChannexPropertyLink (cl_id x) (cl_tenant x) (cl_property x) (cl_channex_property x) (cl_webhook x) (cl_api_key x) v (cl_status x) (cl_connected_at x) (cl_last_sync x) (cl_error x).
Definition set_cl_status (v : string) (x : ChannexPropertyLink) : ChannexPropertyLink :=
  MkChannexPropertyLink (cl_id x) (cl_tenant x) (cl_property x) (cl_channex_property x) (cl_webhook x) (cl_api_key x) (cl_env x) v (cl_connected_at x) (cl_last_sync x) (cl_error x).
Definition set_cl_connected_at (v : option Z) (x : ChannexPropertyLink) : ChannexPropertyLink :=
  MkChannexPropertyLink (cl_id x) (cl_tenant x) (cl_property x) (cl_channex_property x) (cl_webhook x) (cl_api_key x) (cl_env x) (cl_status x) v (cl_last_sync x) (cl_error x).
Definition set_cl_error (v : option string) (x : ChannexPropertyLink) : ChannexPropertyLink :=
  MkChannexPropertyLink (cl_id x) (cl_tenant x) (cl_property x) (cl_channex_property x) (cl_webhook x) (cl_api_key x) (cl_env x) (cl_status x) (cl_connected_at x) (cl_last_sync x) v.
Definition set_cw_tenant (v : option Z) (x : ChannexWebhookLog) : ChannexWebhookLog :=
  MkChannexWebhookLog (cw_id x) v (cw_event x) (cw_payload x) (cw_signature x) (cw_ip x) (cw_processed x).
Definition set_cw_processed (v : bool) (x : ChannexWebhookLog) : ChannexWebhookLog :=
  MkChannexWebhookLog (cw_id x) (cw_tenant x) (cw_event x) (cw_payload x) (cw_signature x) (cw_ip x) v.
Definition set_es_sender (v : string) (x : EmailSettings) : EmailSettings :=
  MkEmailSettings (es_id x) (es_tenant x) (es_property x) v (es_reply_to x) (es_logo x) (es_locale x).
Definition set_es_reply_to (v : option string) (x : EmailSettings) : EmailSettings :=
  MkEmailSettings (es_id x) (es_tenant x) (es_property x) (es_sender x) v (es_logo x) (es_locale x).
Definition set_es_logo (v : option string) (x : EmailSettings) : EmailSettings :=
  MkEmailSettings (es_id x) (es_tenant x) (es_property x) (es_sender x) (es_reply_to x) v (es_locale x).
Definition set_es_locale (v : string) (x : EmailSettings) : EmailSettings :=
  MkEmailSettings (es_id x) (es_tenant x) (es_property x) (es_sender x) (es_reply_to x) (es_logo x) v.
Definition set_cm_channex_room_type (v : string) (x : ChannexRoomTypeMap) : ChannexRoomTypeMap :=
  MkChannexRoomTypeMap (cm_id x) (cm_tenant x) (cm_link x) (cm_room_type x) v (cm_name x).
Definition set_cm_name (v : option string) (x : ChannexRoomTypeMap) : ChannexRoomTypeMap :=
  MkChannexRoomTypeMap (cm_id x) (cm_tenant x) (cm_link x) (cm_room_type x) (cm_channex_room_type x) v.
Definition set_cq_channex_rate_plan (v : string) (x : ChannexRatePlanMap) : ChannexRatePlanMap :=
  MkChannexRatePlanMap (cq_id x) (cq_tenant x) (cq_room_type_map x) (cq_rate_plan x) v (cq_name x).
Definition set_cq_name (v : option string) (x : ChannexRatePlanMap) : ChannexRatePlanMap :=
  MkChannexRatePlanMap (cq_id x) (cq_tenant x) (cq_room_type_map x) (cq_rate_plan x) (cq_channex_rate_plan x) v.
Definition set_ak_active (v : bool) (x : ApiKey) : ApiKey :=
  MkApiKey (ak_id x) (ak_tenant x) (ak_hash x) (ak_name x) (ak_scopes x) v (ak_expires_at x).
Definition set_ws_url (v : string) (x : WebhookSubscription) : WebhookSubscription :=
  MkWebhookSubscription (ws_id x) (ws_tenant x) v (ws_events x) (ws_secret x) (ws_active x).
Definition set_ws_events (v : list string) (x : WebhookSubscription) : WebhookSubscription :=
  MkWebhookSubscription (ws_id x) (ws_tenant x) (ws_url x) v (ws_secret x) (ws_active x).
Definition set_ws_secret (v : string) (x : WebhookSubscription) : WebhookSubscription :=
  MkWebhookSubscription (ws_id x) (ws_tenant x) (ws_url x) (ws_events x) v (ws_active x).
Definition set_ws_active (v : bool) (x : WebhookSubscription) : WebhookSubscription :=
  MkWebhookSubscription (ws_id x) (ws_tenant x) (ws_url x) (ws_events x) (ws_secret x) v.
Definition set_wp_attempts (v : Z) (x : WebhookPendingDelivery) : WebhookPendingDelivery :=
  MkWebhookPendingDelivery (wp_id x) (wp_tenant x) (wp_subscription x) (wp_event x) (wp_payload x) v (wp_next_retry x) (wp_status x).
Definition set_wp_next_retry (v : Z) (x : WebhookPendingDelivery) : WebhookPendingDelivery :=
  MkWebhookPendingDelivery (wp_id x) (wp_tenant x) (wp_subscription x) (wp_event x) (wp_payload x) (wp_attempts x) v (wp_status x).
Definition set_wp_status (v : string) (x : WebhookPendingDelivery) : WebhookPendingDelivery :=
  MkWebhookPendingDelivery (wp_id x) (wp_tenant x) (wp_subscription x) (wp_event x) (wp_payload x) (wp_attempts x) (wp_next_retry x) v.

Definition set_booked (v : Z) (x : AvailabilityLedger) : AvailabilityLedger :=
  MkLedger (total_rooms x) v (blocked_rooms x).
Definition set_blocked (v : Z) (x : AvailabilityLedger) : AvailabilityLedger :=
  MkLedger (total_rooms x) (booked_rooms x) v.
Definition set_total (v : Z) (x : AvailabilityLedger) : AvailabilityLedger :=
  MkLedger v (booked_rooms x) (blocked_rooms x).

(** ** The database *)

Record DB := MkDB {
  ledger : gmap ledger_key AvailabilityLedger;
  rates : gmap rate_key Rate;
  bookings : list Booking;
  lines : list BookingLine;
  folio : list FolioTransaction;
  categories : list FolioChargeCategory;
  guests : list Guest;
  rooms : list Room;
  room_types : list RoomType;
  rate_plans : list RatePlan;
  properties : list Property;
  extensions : list CountryPackExtension;
  property_extensions : list PropertyExtension;
  country_packs : list CountryPack;
  revisions : list ChannexBookingRevision;
  links : list ChannexPropertyLink;
  room_type_maps : list ChannexRoomTypeMap;
  rate_plan_maps : list ChannexRatePlanMap;
  charges : list StripeCharge;
  payment_methods : list StripePaymentMethod;
  email_logs : list EmailLog;
  email_settings : list EmailSettings;
  connections : list StripeConnection;
  ari_logs : list ChannexAriPushLog;
  channex_webhook_logs : list ChannexWebhookLog;
  audit_logs : list AuditLog;
  hk_events : list RoomHousekeepingEvent;
  tenants : list Tenant;
  users : list User;
  refresh_tokens : list RefreshToken;
  api_keys : list ApiKey;
  webhook_subscriptions : list WebhookSubscription;
  webhook_queue : list WebhookPendingDelivery;
  webhook_logs : list WebhookDeliveryLog;
  tax_configs : list tax_config }.

Definition put_ledger (v : gmap ledger_key AvailabilityLedger) (d : DB) : DB :=
  MkDB v (rates d) (bookings d) (lines d) (folio d) (categories d) (guests d) (rooms d) (room_types d) (rate_plans d) (properties d) (extensions d) (property_extensions d) (country_packs d) (revisions d) (links d) (room_type_maps d) (rate_plan_maps d) (charges d) (payment_methods d) (email_logs d) (email_settings d) (connections d) (ari_logs d) (channex_webhook_logs d) (audit_logs d) (hk_events d) (tenants d) (users d) (refresh_tokens d) (api_keys d) (webhook_subscriptions d) (webhook_queue d) (webhook_logs d) (tax_configs d).
Definition put_rates (v : gmap rate_key Rate) (d : DB) : DB :=
  MkDB (ledger d) v (bookings d) (lines d) (folio d) (categories d) (guests d) (rooms d) (room_types d) (rate_plans d) (properties d) (extensions d) (property_extensions d) (country_packs d) (revisions d) (links d) (room_type_maps d) (rate_plan_maps d) (charges d) (payment_methods d) (email_logs d) (email_settings d) (connections d) (ari_logs d) (channex_webhook_logs d) (audit_logs d) (hk_events d) (tenants d) (users d) (refresh_tokens d) (api_keys d) (webhook_subscriptions d) (webhook_queue d) (webhook_logs d) (tax_configs d).
Definition put_bookings (v : list Booking) (d : DB) : DB :=
  MkDB (ledger d) (rates d) v (lines d) (folio d) (categories d) (guests d) (rooms d) (room_types d) (rate_plans d) (properties d) (extensions d) (property_extensions d) (country_packs d) (revisions d) (links d) (room_type_maps d) (rate_plan_maps d) (charges d) (payment_methods d) (email_logs d) (email_settings d) (connections d) (ari_logs d) (channex_webhook_logs d) (audit_logs d) (hk_events d) (tenants d) (users d) (refresh_tokens d) (api_keys d) (webhook_subscriptions d) (webhook_queue d) (webhook_logs d) (tax_configs d).
Definition put_lines (v : list BookingLine) (d : DB) : DB :=
  MkDB (ledger d) (rates d) (bookings d) v (folio d) (categories d) (guests d) (rooms d) (room_types d) (rate_plans d) (properties d) (extensions d) (property_extensions d) (country_packs d) (revisions d) (links d) (room_type_maps d) (rate_plan_maps d) (charges d) (payment_methods d) (email_logs d) (email_settings d) (connections d) (ari_logs d) (channex_webhook_logs d) (audit_logs d) (hk_events d) (tenants d) (users d) (refresh_tokens d) (api_keys d) (webhook_subscriptions d) (webhook_queue d) (webhook_logs d) (tax_configs d).
Definition put_folio (v : list FolioTransaction) (d : DB) : DB :=
  MkDB (ledger d) (rates d) (bookings d) (lines d) v (categories d) (guests d) (rooms d) (room_types d) (rate_plans d) (properties d) (extensions d) (property_extensions d) (country_packs d) (revisions d) (links d) (room_type_maps d) (rate_plan_maps d) (charges d) (payment_methods d) (email_logs d) (email_settings d) (connections d) (ari_logs d) (channex_webhook_logs d) (audit_logs d) (hk_events d) (tenants d) (users d) (refresh_tokens d) (api_keys d) (webhook_subscriptions d) (webhook_queue d) (webhook_logs d) (tax_configs d).
Definition put_categories (v : list FolioChargeCategory) (d : DB) : DB :=
  MkDB (ledger d) (rates d) (bookings d) (lines d) (folio d) v (guests d) (rooms d) (room_types d) (rate_plans d) (properties d) (extensions d) (property_extensions d) (country_packs d) (revisions d) (links d) (room_type_maps d) (rate_plan_maps d) (charges d) (payment_methods d) (email_logs d) (email_settings d) (connections d) (ari_logs d) (channex_webhook_logs d) (audit_logs d) (hk_events d) (tenants d) (users d) (refresh_tokens d) (api_keys d) (webhook_subscriptions d) (webhook_queue d) (webhook_logs d) (tax_configs d).
Definition put_guests (v : list Guest) (d : DB) : DB :=
  MkDB (ledger d) (rates d) (bookings d) (lines d) (folio d) (categories d) v (rooms d) (room_types d) (rate_plans d) (properties d) (extensions d) (property_extensions d) (country_packs d) (revisions d) (links d) (room_type_maps d) (rate_plan_maps d) (charges d) (payment_methods d) (email_logs d) (email_settings d) (connections d) (ari_logs d) (channex_webhook_logs d) (audit_logs d) (hk_events d) (tenants d) (users d) (refresh_tokens d) (api_keys d) (webhook_subscriptions d) (webhook_queue d) (webhook_logs d) (tax_configs d).
Definition put_rooms (v : list Room) (d : DB) : DB :=
  MkDB (ledger d) (rates d) (bookings d) (lines d) (folio d) (categories d) (guests d) v (room_types d) (rate_plans d) (properties d) (extensions d) (property_extensions d) (country_packs d) (revisions d) (links d) (room_type_maps d) (rate_plan_maps d) (charges d) (payment_methods d) (email_logs d) (email_settings d) (connections d) (ari_logs d) (channex_webhook_logs d) (audit_logs d) (hk_events d) (tenants d) (users d) (refresh_tokens d) (api_keys d) (webhook_subscriptions d) (webhook_queue d) (webhook_logs d) (tax_configs d).
Definition put_room_types (v : list RoomType) (d : DB) : DB :=
  MkDB (ledger d) (rates d) (bookings d) (lines d) (folio d) (categories d) (guests d) (rooms d) v (rate_plans d) (properties d) (extensions d) (property_extensions d) (country_packs d) (revisions d) (links d) (room_type_maps d) (rate_plan_maps d) (charges d) (payment_methods d) (email_logs d) (email_settings d) (connections d) (ari_logs d) (channex_webhook_logs d) (audit_logs d) (hk_events d) (tenants d) (users d) (refresh_tokens d) (api_keys d) (webhook_subscriptions d) (webhook_queue d) (webhook_logs d) (tax_configs d).
Definition put_rate_plans (v : list RatePlan) (d : DB) : DB :=
  MkDB (ledger d) (rates d) (bookings d) (lines d) (folio d) (categories d) (guests d) (rooms d) (room_types d) v (properties d) (extensions d) (property_extensions d) (country_packs d) (revisions d) (links d) (room_type_maps d) (rate_plan_maps d) (charges d) (payment_methods d) (email_logs d) (email_settings d) (connections d) (ari_logs d) (channex_webhook_logs d) (audit_logs d) (hk_events d) (tenants d) (users d) (refresh_tokens d) (api_keys d) (webhook_subscriptions d) (webhook_queue d) (webhook_logs d) (tax_configs d).
Definition put_properties (v : list Property) (d : DB) : DB :=
  MkDB (ledger d) (rates d) (bookings d) (lines d) (folio d) (categories d) (guests d) (rooms d) (room_types d) (rate_plans d) v (extensions d) (property_extensions d) (country_packs d) (revisions d) (links d) (room_type_maps d) (rate_plan_maps d) (charges d) (payment_methods d) (email_logs d) (email_settings d) (connections d) (ari_logs d) (channex_webhook_logs d) (audit_logs d) (hk_events d) (tenants d) (users d) (refresh_tokens d) (api_keys d) (webhook_subscriptions d) (webhook_queue d) (webhook_logs d) (tax_configs d).
Definition put_extensions (v : list CountryPackExtension) (d : DB) : DB :=
  MkDB (ledger d) (rates d) (bookings d) (lines d) (folio d) (categories d) (guests d) (rooms d) (room_types d) (rate_plans d) (properties d) v (property_extensions d) (country_packs d) (revisions d) (links d) (room_type_maps d) (rate_plan_maps d) (charges d) (payment_methods d) (email_logs d) (email_settings d) (connections d) (ari_logs d) (channex_webhook_logs d) (audit_logs d) (hk_events d) (tenants d) (users d) (refresh_tokens d) (api_keys d) (webhook_subscriptions d) (webhook_queue d) (webhook_logs d) (tax_configs d).
Definition put_property_extensions (v : list PropertyExtension) (d : DB) : DB :=
  MkDB (ledger d) (rates d) (bookings d) (lines d) (folio d) (categories d) (guests d) (rooms d) (room_types d) (rate_plans d) (properties d) (extensions d) v (country_packs d) (revisions d) (links d) (room_type_maps d) (rate_plan_maps d) (charges d) (payment_methods d) (email_logs d) (email_settings d) (connections d) (ari_logs d) (channex_webhook_logs d) (audit_logs d) (hk_events d) (tenants d) (users d) (refresh_tokens d) (api_keys d) (webhook_subscriptions d) (webhook_queue d) (webhook_logs d) (tax_configs d).
Definition put_country_packs (v : list CountryPack) (d : DB) : DB :=
  MkDB (ledger d) (rates d) (bookings d) (lines d) (folio d) (categories d) (guests d) (rooms d) (room_types d) (rate_plans d) (properties d) (extensions d) (property_extensions d) v (revisions d) (links d) (room_type_maps d) (rate_plan_maps d) (charges d) (payment_methods d) (email_logs d) (email_settings d) (connections d) (ari_logs d) (channex_webhook_logs d) (audit_logs d) (hk_events d) (tenants d) (users d) (refresh_tokens d) (api_keys d) (webhook_subscriptions d) (webhook_queue d) (webhook_logs d) (tax_configs d).
Definition put_revisions (v : list ChannexBookingRevision) (d : DB) : DB :=
  MkDB (ledger d) (rates d) (bookings d) (lines d) (folio d) (categories d) (guests d) (rooms d) (room_types d) (rate_plans d) (properties d) (extensions d) (property_extensions d) (country_packs d) v (links d) (room_type_maps d) (rate_plan_maps d) (charges d) (payment_methods d) (email_logs d) (email_settings d) (connections d) (ari_logs d) (channex_webhook_logs d) (audit_logs d) (hk_events d) (tenants d) (users d) (refresh_tokens d) (api_keys d) (webhook_subscriptions d) (webhook_queue d) (webhook_logs d) (tax_configs d).
Definition put_links (v : list ChannexPropertyLink) (d : DB) : DB :=
  MkDB (ledger d) (rates d) (bookings d) (lines d) (folio d) (categories d) (guests d) (rooms d) (room_types d) (rate_plans d) (properties d) (extensions d) (property_extensions d) (country_packs d) (revisions d) v (room_type_maps d) (rate_plan_maps d) (charges d) (payment_methods d) (email_logs d) (email_settings d) (connections d) (ari_logs d) (channex_webhook_logs d) (audit_logs d) (hk_events d) (tenants d) (users d) (refresh_tokens d) (api_keys d) (webhook_subscriptions d) (webhook_queue d) (webhook_logs d) (tax_configs d).
Definition put_room_type_maps (v : list ChannexRoomTypeMap) (d : DB) : DB :=
  MkDB (ledger d) (rates d) (bookings d) (lines d) (folio d) (categories d) (guests d) (rooms d) (room_types d) (rate_plans d) (properties d) (extensions d) (property_extensions d) (country_packs d) (revisions d) (links d) v (rate_plan_maps d) (charges d) (payment_methods d) (email_logs d) (email_settings d) (connections d) (ari_logs d) (channex_webhook_logs d) (audit_logs d) (hk_events d) (tenants d) (users d) (refresh_tokens d) (api_keys d) (webhook_subscriptions d) (webhook_queue d) (webhook_logs d) (tax_configs d).
Definition put_rate_plan_maps (v : list ChannexRatePlanMap) (d : DB) : DB :=
  MkDB (ledger d) (rates d) (bookings d) (lines d) (folio d) (categories d) (guests d) (rooms d) (room_types d) (rate_plans d) (properties d) (extensions d) (property_extensions d) (country_packs d) (revisions d) (links d) (room_type_maps d) v (charges d) (payment_methods d) (email_logs d) (email_settings d) (connections d) (ari_logs d) (channex_webhook_logs d) (audit_logs d) (hk_events d) (tenants d) (users d) (refresh_tokens d) (api_keys d) (webhook_subscriptions d) (webhook_queue d) (webhook_logs d) (tax_configs d).
Definition put_charges (v : list StripeCharge) (d : DB) : DB :=
  MkDB (ledger d) (rates d) (bookings d) (lines d) (folio d) (categories d) (guests d) (rooms d) (room_types d) (rate_plans d) (properties d) (extensions d) (property_extensions d) (country_packs d) (revisions d) (links d) (room_type_maps d) (rate_plan_maps d) v (payment_methods d) (email_logs d) (email_settings d) (connections d) (ari_logs d) (channex_webhook_logs d) (audit_logs d) (hk_events d) (tenants d) (users d) (refresh_tokens d) (api_keys d) (webhook_subscriptions d) (webhook_queue d) (webhook_logs d) (tax_configs d).
Definition put_payment_methods (v : list StripePaymentMethod) (d : DB) : DB :=
  MkDB (ledger d) (rates d) (bookings d) (lines d) (folio d) (categories d) (guests d) (rooms d) (room_types d) (rate_plans d) (properties d) (extensions d) (property_extensions d) (country_packs d) (revisions d) (links d) (room_type_maps d) (rate_plan_maps d) (charges d) v (email_logs d) (email_settings d) (connections d) (ari_logs d) (channex_webhook_logs d) (audit_logs d) (hk_events d) (tenants d) (users d) (refresh_tokens d) (api_keys d) (webhook_subscriptions d) (webhook_queue d) (webhook_logs d) (tax_configs d).
Definition put_email_logs (v : list EmailLog) (d : DB) : DB :=
  MkDB (ledger d) (rates d) (bookings d) (lines d) (folio d) (categories d) (guests d) (rooms d) (room_types d) (rate_plans d) (properties d) (extensions d) (property_extensions d) (country_packs d) (revisions d) (links d) (room_type_maps d) (rate_plan_maps d) (charges d) (payment_methods d) v (email_settings d) (connections d) (ari_logs d) (channex_webhook_logs d) (audit_logs d) (hk_events d) (tenants d) (users d) (refresh_tokens d) (api_keys d) (webhook_subscriptions d) (webhook_queue d) (webhook_logs d) (tax_configs d).
Definition put_email_settings (v : list EmailSettings) (d : DB) : DB :=
  MkDB (ledger d) (rates d) (bookings d) (lines d) (folio d) (categories d) (guests d) (rooms d) (room_types d) (rate_plans d) (properties d) (extensions d) (property_extensions d) (country_packs d) (revisions d) (links d) (room_type_maps d) (rate_plan_maps d) (charges d) (payment_methods d) (email_logs d) v (connections d) (ari_logs d) (channex_webhook_logs d) (audit_logs d) (hk_events d) (tenants d) (users d) (refresh_tokens d) (api_keys d) (webhook_subscriptions d) (webhook_queue d) (webhook_logs d) (tax_configs d).
Definition put_connections (v : list StripeConnection) (d : DB) : DB :=
  MkDB (ledger d) (rates d) (bookings d) (lines d) (folio d) (categories d) (guests d) (rooms d) (room_types d) (rate_plans d) (properties d) (extensions d) (property_extensions d) (country_packs d) (revisions d) (links d) (room_type_maps d) (rate_plan_maps d) (charges d) (payment_methods d) (email_logs d) (email_settings d) v (ari_logs d) (channex_webhook_logs d) (audit_logs d) (hk_events d) (tenants d) (users d) (refresh_tokens d) (api_keys d) (webhook_subscriptions d) (webhook_queue d) (webhook_logs d) (tax_configs d).
Definition put_ari_logs (v : list ChannexAriPushLog) (d : DB) : DB :=
  MkDB (ledger d) (rates d) (bookings d) (lines d) (folio d) (categories d) (guests d) (rooms d) (room_types d) (rate_plans d) (properties d) (extensions d) (property_extensions d) (country_packs d) (revisions d) (links d) (room_type_maps d) (rate_plan_maps d) (charges d) (payment_methods d) (email_logs d) (email_settings d) (connections d) v (channex_webhook_logs d) (audit_logs d) (hk_events d) (tenants d) (users d) (refresh_tokens d) (api_keys d) (webhook_subscriptions d) (webhook_queue d) (webhook_logs d) (tax_configs d).
Definition put_channex_webhook_logs (v : list ChannexWebhookLog) (d : DB) : DB :=
  MkDB (ledger d) (rates d) (bookings d) (lines d) (folio d) (categories d) (guests d) (rooms d) (room_types d) (rate_plans d) (properties d) (extensions d) (property_extensions d) (country_packs d) (revisions d) (links d) (room_type_maps d) (rate_plan_maps d) (charges d) (payment_methods d) (email_logs d) (email_settings d) (connections d) (ari_logs d) v (audit_logs d) (hk_events d) (tenants d) (users d) (refresh_tokens d) (api_keys d) (webhook_subscriptions d) (webhook_queue d) (webhook_logs d) (tax_configs d).
Definition put_audit_logs (v : list AuditLog) (d : DB) : DB :=
  MkDB (ledger d) (rates d) (bookings d) (lines d) (folio d) (categories d) (guests d) (rooms d) (room_types d) (rate_plans d) (properties d) (extensions d) (property_extensions d) (country_packs d) (revisions d) (links d) (room_type_maps d) (rate_plan_maps d) (charges d) (payment_methods d) (email_logs d) (email_settings d) (connections d) (ari_logs d) (channex_webhook_logs d) v (hk_events d) (tenants d) (users d) (refresh_tokens d) (api_keys d) (webhook_subscriptions d) (webhook_queue d) (webhook_logs d) (tax_configs d).
Definition put_hk_events (v : list RoomHousekeepingEvent) (d : DB) : DB :=
  MkDB (ledger d) (rates d) (bookings d) (lines d) (folio d) (categories d) (guests d) (rooms d) (room_types d) (rate_plans d) (properties d) (extensions d) (property_extensions d) (country_packs d) (revisions d) (links d) (room_type_maps d) (rate_plan_maps d) (charges d) (payment_methods d) (email_logs d) (email_settings d) (connections d) (ari_logs d) (channex_webhook_logs d) (audit_logs d) v (tenants d) (users d) (refresh_tokens d) (api_keys d) (webhook_subscriptions d) (webhook_queue d) (webhook_logs d) (tax_configs d).
Definition put_tenants (v : list Tenant) (d : DB) : DB :=
  MkDB (ledger d) (rates d) (bookings d) (lines d) (folio d) (categories d) (guests d) (rooms d) (room_types d) (rate_plans d) (properties d) (extensions d) (property_extensions d) (country_packs d) (revisions d) (links d) (room_type_maps d) (rate_plan_maps d) (charges d) (payment_methods d) (email_logs d) (email_settings d) (connections d) (ari_logs d) (channex_webhook_logs d) (audit_logs d) (hk_events d) v (users d) (refresh_tokens d) (api_keys d) (webhook_subscriptions d) (webhook_queue d) (webhook_logs d) (tax_configs d).
Definition put_users (v : list User) (d : DB) : DB :=
  MkDB (ledger d) (rates d) (bookings d) (lines d) (folio d) (categories d) (guests d) (rooms d) (room_types d) (rate_plans d) (properties d) (extensions d) (property_extensions d) (country_packs d) (revisions d) (links d) (room_type_maps d) (rate_plan_maps d) (charges d) (payment_methods d) (email_logs d) (email_settings d) (connections d) (ari_logs d) (channex_webhook_logs d) (audit_logs d) (hk_events d) (tenants d) v (refresh_tokens d) (api_keys d) (webhook_subscriptions d) (webhook_queue d) (webhook_logs d) (tax_configs d).
Definition put_refresh_tokens (v : list RefreshToken) (d : DB) : DB :=
  MkDB (ledger d) (rates d) (bookings d) (lines d) (folio d) (categories d) (guests d) (rooms d) (room_types d) (rate_plans d) (properties d) (extensions d) (property_extensions d) (country_packs d) (revisions d) (links d) (room_type_maps d) (rate_plan_maps d) (charges d) (payment_methods d) (email_logs d) (email_settings d) (connections d) (ari_logs d) (channex_webhook_logs d) (audit_logs d) (hk_events d) (tenants d) (users d) v (api_keys d) (webhook_subscriptions d) (webhook_queue d) (webhook_logs d) (tax_configs d).
Definition put_api_keys (v : list ApiKey) (d : DB) : DB :=
  MkDB (ledger d) (rates d) (bookings d) (lines d) (folio d) (categories d) (guests d) (rooms d) (room_types d) (rate_plans d) (properties d) (extensions d) (property_extensions d) (country_packs d) (revisions d) (links d) (room_type_maps d) (rate_plan_maps d) (charges d) (payment_methods d) (email_logs d) (email_settings d) (connections d) (ari_logs d) (channex_webhook_logs d) (audit_logs d) (hk_events d) (tenants d) (users d) (refresh_tokens d) v (webhook_subscriptions d) (webhook_queue d) (webhook_logs d) (tax_configs d).
Definition put_webhook_subscriptions (v : list WebhookSubscription) (d : DB) : DB :=
  MkDB (ledger d) (rates d) (bookings d) (lines d) (folio d) (categories d) (guests d) (rooms d) (room_types d) (rate_plans d) (properties d) (extensions d) (property_extensions d) (country_packs d) (revisions d) (links d) (room_type_maps d) (rate_plan_maps d) (charges d) (payment_methods d) (email_logs d) (email_settings d) (connections d) (ari_logs d) (channex_webhook_logs d) (audit_logs d) (hk_events d) (tenants d) (users d) (refresh_tokens d) (api_keys d) v (webhook_queue d) (webhook_logs d) (tax_configs d).
Definition put_webhook_queue (v : list WebhookPendingDelivery) (d : DB) : DB :=
  MkDB (ledger d) (rates d) (bookings d) (lines d) (folio d) (categories d) (guests d) (rooms d) (room_types d) (rate_plans d) (properties d) (extensions d) (property_extensions d) (country_packs d) (revisions d) (links d) (room_type_maps d) (rate_plan_maps d) (charges d) (payment_methods d) (email_logs d) (email_settings d) (connections d) (ari_logs d) (channex_webhook_logs d) (audit_logs d) (hk_events d) (tenants d) (users d) (refresh_tokens d) (api_keys d) (webhook_subscriptions d) v (webhook_logs d) (tax_configs d).
Definition put_webhook_logs (v : list WebhookDeliveryLog) (d : DB) : DB :=
  MkDB (ledger d) (rates d) (bookings d) (lines d) (folio d) (categories d) (guests d) (rooms d) (room_types d) (rate_plans d) (properties d) (extensions d) (property_extensions d) (country_packs d) (revisions d) (links d) (room_type_maps d) (rate_plan_maps d) (charges d) (payment_methods d) (email_logs d) (email_settings d) (connections d) (ari_logs d) (channex_webhook_logs d) (audit_logs d) (hk_events d) (tenants d) (users d) (refresh_tokens d) (api_keys d) (webhook_subscriptions d) (webhook_queue d) v (tax_configs d).
Definition put_tax_configs (v : list tax_config) (d : DB) : DB :=
  MkDB (ledger d) (rates d) (bookings d) (lines d) (folio d) (categories d) (guests d) (rooms d) (room_types d) (rate_plans d) (properties d) (extensions d) (property_extensions d) (country_packs d) (revisions d) (links d) (room_type_maps d) (rate_plan_maps d) (charges d) (payment_methods d) (email_logs d) (email_settings d) (connections d) (ari_logs d) (channex_webhook_logs d) (audit_logs d) (hk_events d) (tenants d) (users d) (refresh_tokens d) (api_keys d) (webhook_subscriptions d) (webhook_queue d) (webhook_logs d) v.

Definition empty_db : DB :=
  MkDB ∅ ∅ [] [] [] [] [] [] [] [] [] [] [] [] [] [] [] [] [] [] [] [] [] [] [] [] [] [] [] [] [] [] [] [] [].

(** A mapped class with a surrogate primary key: its table and its key. *)
Class Entity (R : Type) := {
  table : DB -> list R;
  put_table : list R -> DB -> DB;
  ident : R -> Z;
  table_put : forall v d, table (put_table v d) = v;
}.

#[export] Instance Booking_entity : Entity Booking :=
  {| table := bookings; put_table := put_bookings; ident := b_id; table_put := fun _ _ => eq_refl |}.
#[export] Instance BookingLine_entity : Entity BookingLine :=
  {| table := lines; put_table := put_lines; ident := l_id; table_put := fun _ _ => eq_refl |}.
#[export] Instance FolioTransaction_entity : Entity FolioTransaction :=
  {| table := folio; put_table := put_folio; ident := f_id; table_put := fun _ _ => eq_refl |}.
#[export] Instance FolioChargeCategory_entity : Entity FolioChargeCategory :=
  {| table := categories; put_table := put_categories; ident := fc_id; table_put := fun _ _ => eq_refl |}.
#[export] Instance Guest_entity : Entity Guest :=
  {| table := guests; put_table := put_guests; ident := g_id; table_put := fun _ _ => eq_refl |}.
#[export] Instance Room_entity : Entity Room :=
  {| table := rooms; put_table := put_rooms; ident := r_id; table_put := fun _ _ => eq_refl |}.
#[export] Instance RoomType_entity : Entity RoomType :=
  {| table := room_types; put_table := put_room_types; ident := rt_id; table_put := fun _ _ => eq_refl |}.
#[export] Instance RatePlan_entity : Entity RatePlan :=
  {| table := rate_plans; put_table := put_rate_plans; ident := rp_id; table_put := fun _ _ => eq_refl |}.
#[export] Instance Property_entity : Entity Property :=
  {| table := properties; put_table := put_properties; ident := p_id; table_put := fun _ _ => eq_refl |}.
#[export] Instance CountryPackExtension_entity : Entity CountryPackExtension :=
  {| table := extensions; put_table := put_extensions; ident := ex_id; table_put := fun _ _ => eq_refl |}.
#[export] Instance PropertyExtension_entity : Entity PropertyExtension :=
  {| table := property_extensions; put_table := put_property_extensions; ident := pe_id; table_put := fun _ _ => eq_refl |}.
#[export] Instance CountryPack_entity : Entity CountryPack :=
  {| table := country_packs; put_table := put_country_packs; ident := fun x => Zpos (encode (cp_code x)); table_put := fun _ _ => eq_refl |}.
#[export] Instance ChannexBookingRevision_entity : Entity ChannexBookingRevision :=
  {| table := revisions; put_table := put_revisions; ident := cr_id; table_put := fun _ _ => eq_refl |}.
#[export] Instance ChannexPropertyLink_entity : Entity ChannexPropertyLink :=
  {| table := links; put_table := put_links; ident := cl_id; table_put := fun _ _ => eq_refl |}.
#[export] Instance ChannexRoomTypeMap_entity : Entity ChannexRoomTypeMap :=
  {| table := room_type_maps; put_table := put_room_type_maps; ident := cm_id; table_put := fun _ _ => eq_refl |}.
#[export] Instance ChannexRatePlanMap_entity : Entity ChannexRatePlanMap :=
  {| table := rate_plan_maps; put_table := put_rate_plan_maps; ident := cq_id; table_put := fun _ _ => eq_refl |}.
#[export] Instance StripeCharge_entity : Entity StripeCharge :=
  {| table := charges; put_table := put_charges; ident := sc_id; table_put := fun _ _ => eq_refl |}.
#[export] Instance StripePaymentMethod_entity : Entity StripePaymentMethod :=
  {| table := payment_methods; put_table := put_payment_methods; ident := sp_id; table_put := fun _ _ => eq_refl |}.
#[export] Instance EmailLog_entity : Entity EmailLog :=
  {| table := email_logs; put_table := put_email_logs; ident := el_id; table_put := fun _ _ => eq_refl |}.
#[export] Instance EmailSettings_entity : Entity EmailSettings :=
  {| table := email_settings; put_table := put_email_settings; ident := es_id; table_put := fun _ _ => eq_refl |}.
#[export] Instance StripeConnection_entity : Entity StripeConnection :=
  {| table := connections; put_table := put_connections; ident := sn_id; table_put := fun _ _ => eq_refl |}.
#[export] Instance ChannexAriPushLog_entity : Entity ChannexAriPushLog :=
  {| table := ari_logs; put_table := put_ari_logs; ident := ca_id; table_put := fun _ _ => eq_refl |}.
#[export] Instance ChannexWebhookLog_entity : Entity ChannexWebhookLog :=
  {| table := channex_webhook_logs; put_table := put_channex_webhook_logs; ident := cw_id; table_put := fun _ _ => eq_refl |}.
#[export] Instance AuditLog_entity : Entity AuditLog :=
  {| table := audit_logs; put_table := put_audit_logs; ident := al_id; table_put := fun _ _ => eq_refl |}.
#[export] Instance RoomHousekeepingEvent_entity : Entity RoomHousekeepingEvent :=
  {| table := hk_events; put_table := put_hk_events; ident := he_id; table_put := fun _ _ => eq_refl |}.
#[export] Instance Tenant_entity : Entity Tenant :=
  {| table := tenants; put_table := put_tenants; ident := tn_id; table_put := fun _ _ => eq_refl |}.
#[export] Instance User_entity : Entity User :=
  {| table := users; put_table := put_users; ident := u_id; table_put := fun _ _ => eq_refl |}.
#[export] Instance RefreshToken_entity : Entity RefreshToken :=
  {| table := refresh_tokens; put_table := put_refresh_tokens; ident := tk_id; table_put := fun _ _ => eq_refl |}.
#[export] Instance ApiKey_entity : Entity ApiKey :=
  {| table := api_keys; put_table := put_api_keys; ident := ak_id; table_put := fun _ _ => eq_refl |}.
#[export] Instance WebhookSubscription_entity : Entity WebhookSubscription :=
  {| table := webhook_subscriptions; put_table := put_webhook_subscriptions; ident := ws_id; table_put := fun _ _ => eq_refl |}.
#[export] Instance WebhookPendingDelivery_entity : Entity WebhookPendingDelivery :=
  {| table := webhook_queue; put_table := put_webhook_queue; ident := wp_id; table_put := fun _ _ => eq_refl |}.
#[export] Instance WebhookDeliveryLog_entity : Entity WebhookDeliveryLog :=
  {| table := webhook_logs; put_table := put_webhook_logs; ident := wl_id; table_put := fun _ _ => eq_refl |}.
(** [tax_configs]: one row per property ([uq_tax_configs_tenant_property]). *)
#[export] Instance tax_config_entity : Entity tax_config :=
  {| table := tax_configs; put_table := put_tax_configs; ident := fun x => Zpos (encode (cfg_tenant x, cfg_property x)); table_put := fun _ _ => eq_refl |}.
