(* ===== verification/Session.v ===== *)
(** * The database session

    Requests run against an [AsyncSession] created with [autoflush=False]
    (app/db/session.py).  SQL statements see the rows already flushed in the
    transaction; attribute assignments and added objects live in the identity
    map until the next [flush].  The session is therefore two databases:
    [disk], what a SELECT's WHERE clause reads, and [mem], the same rows as
    the loaded objects show them.  Statements executed directly (Core DML)
    change both.  A handler that raises is rolled back by [get_db]
    (app/api/deps.py); one that returns is committed. *)

From stdpp Require Import gmap.
From S2P Require Import Prelude StayDates Models.

(** What the code takes from its surroundings: the collation that orders text
    columns, the text of a UUID, and the attribute names a mapped object has
    beside its columns. *)
Class Env := {
  collate : string -> string -> bool;
  uuid_str : Z -> string;
  python_attr : string -> bool
}.

(** ASCII order, one UUID text, no attribute beside the columns. *)
Definition sample_env : Env :=
  {| collate := String.leb; uuid_str := fun _ => "00000000-0000-0000-0000-000000000000"%string;
     python_attr := fun _ => false |}.

Record session := Session {
  disk : DB;                 (** flushed rows *)
  mem : DB;                  (** identity map: flushed rows with pending changes *)
  expired : list Z;          (** bookings whose [lines] collection is expired *)
  now : Z;                   (** [now()]: the transaction's timestamp *)
  today : date;              (** [datetime.now(UTC).date()] *)
  uuids : Z                  (** supply of fresh UUIDs *)
}.

(** A coroutine that uses the session: it may raise, and the changes made
    before the exception stay in the session. *)
Definition M (A : Type) : Type := session -> session * result A.

#[export] Instance M_ret : MRet M := fun A a s => (s, Ok a).
#[export] Instance M_bind : MBind M := fun A B k m s =>
  match m s with
  | (s', Ok a) => k a s'
  | (s', Err e) => (s', Err e)
  end.

Definition raise {A} (e : exn) : M A := fun s => (s, Err e).
Definition lift {A} (r : result A) : M A := fun s => (s, r).

(** [try: m except ...: h]; [h] returns [None] for exceptions it lets pass. *)
Definition try_except {A} (m : M A) (h : exn -> option (M A)) : M A := fun s =>
  match m s with
  | (s', Ok a) => (s', Ok a)
  | (s', Err e) => match h e with Some k => k s' | None => (s', Err e) end
  end.

(** [for x in l: f(x)] *)
Fixpoint forM {A} (l : list A) (f : A -> M unit) : M unit :=
  match l with
  | [] => mret tt
  | x :: l' => _ ← f x; forM l' f
  end.

(** ** Primitive operations *)

Definition set_disk (d : DB) (s : session) : session :=
  Session d (mem s) (expired s) (now s) (today s) (uuids s).
Definition set_mem (d : DB) (s : session) : session :=
  Session (disk s) d (expired s) (now s) (today s) (uuids s).
Definition set_expired (l : list Z) (s : session) : session :=
  Session (disk s) (mem s) l (now s) (today s) (uuids s).

(** Evaluate a SELECT on the flushed rows. *)
Definition query {A} (f : DB -> A) : M A := fun s => (s, Ok (f (disk s))).
(** Read attributes of loaded objects. *)
Definition attrs {A} (f : DB -> A) : M A := fun s => (s, Ok (f (mem s))).
(** Change loaded objects, or add new ones: pending until the flush. *)
Definition orm (f : DB -> DB) : M unit := fun s => (set_mem (f (mem s)) s, Ok tt).
(** [session.execute(update/delete/insert ...)] *)
Definition execute (f : DB -> DB) : M unit := fun s =>
  (set_mem (f (mem s)) (set_disk (f (disk s)) s), Ok tt).
Definition flush : M unit := fun s => (set_disk (mem s) s, Ok tt).
Definition uuid4 : M Z := fun s =>
  (Session (disk s) (mem s) (expired s) (now s) (today s) (uuids s + 1), Ok (uuids s)).
Definition get_now : M Z := fun s => (s, Ok (now s)).
Definition get_today : M date := fun s => (s, Ok (today s)).

(** ** Statements on a mapped class *)

Section statements.
Context {R : Type} `{Entity R}.

(** The loaded object of a row. *)
Definition identity (d : DB) (r : R) : option R :=
  List.find (fun x => ident x =? ident r) (table d).

(** [session.execute(select(R).where(p)).scalars().all()] *)
Definition select (p : R -> bool) : M (list R) := fun s =>
  (s, Ok (omap (identity (mem s)) (List.filter p (table (disk s))))).

(** [session.scalar(select(R).where(p))] *)
Definition scalar (p : R -> bool) : M (option R) :=
  rows ← select p; mret (hd_error rows).

Definition where_id (i : Z) (f : R -> R) (l : list R) : list R :=
  List.map (fun x => if ident x =? i then f x else x) l.

(** Attribute assignment on the object with key [i]. *)
Definition assign (i : Z) (f : R -> R) : M unit :=
  orm (fun d => put_table (where_id i f (table d)) d).

(** [session.add(r)] *)
Definition add (r : R) : M unit := orm (fun d => put_table (table d ++ [r]) d).

(** [session.delete(r)]: emitted at the next flush. *)
Definition remove (i : Z) : M unit :=
  orm (fun d => put_table (List.filter (fun x => negb (ident x =? i)) (table d)) d).

(** [delete(R).where(p)], [update(R).where(p).values(...)] *)
Definition execute_delete (p : R -> bool) : M unit :=
  execute (fun d => put_table (List.filter (fun x => negb (p x)) (table d)) d).
Definition execute_update (p : R -> bool) (f : R -> R) : M unit :=
  execute (fun d => put_table (List.map (fun x => if p x then f x else x) (table d)) d).
End statements.

(** ** Requests *)

(** The transaction of a request: a fresh session on the committed database,
    committed on success and rolled back on an exception. *)
Definition start (d : DB) (t : Z) (td : date) (u : Z) : session := Session d d [] t td u.

Definition run {A} (m : M A) (t : Z) (td : date) (u : Z) (d : DB) : DB * result A :=
  match m (start d t td u) with
  | (s, Ok a) => (mem s, Ok a)
  | (_, Err e) => (d, Err e)
  end.

(** ** Background work

    A task outside a request opens its own sessions: [async with factory() as
    session: async with session.begin(): ...] commits when the block ends and
    rolls back when it raises.  Between the blocks nothing is pending. *)

Definition transaction {A} (m : M A) : M A := fun s =>
  match m (Session (disk s) (disk s) [] (now s) (today s) (uuids s)) with
  | (s', Ok a) => (Session (mem s') (mem s') [] (now s) (today s) (uuids s'), Ok a)
  | (s', Err e) => (Session (disk s) (disk s) [] (now s) (today s) (uuids s'), Err e)
  end.

(** The same work at a later time. *)
Definition at_time {A} (t : Z) (m : M A) : M A := fun s =>
  m (Session (disk s) (mem s) (expired s) t (today s) (uuids s)).

(** ** Row-level security of sessions without a tenant *)

(** A PostgreSQL superuser bypasses every policy, also forced ones; another
    role sees the rows of the tenant in [app.tenant_id]. *)
Inductive db_role := Superuser | TenantRole.

Definition sees (role : db_role) (current : option Z) (tenant : Z) : bool :=
  match role with Superuser => true | TenantRole => bool_decide (current = Some tenant) end.

(** [SELECT id FROM tenants ORDER BY id], before any tenant is set. *)
Definition tenant_ids (role : db_role) : M (list Z) :=
  rows ← select (fun t => sees role None (tn_id t));
  mret (order_by Z.leb (List.map tn_id rows)).

(** ** Reasoning about runs *)

Lemma bind_inv {A B} (m : M A) (k : A -> M B) s s' b :
  (m ≫= k) s = (s', Ok b) -> exists s1 a, m s = (s1, Ok a) /\ k a s1 = (s', Ok b).
Proof.
  unfold mbind, M_bind. destruct (m s) as [s1 [a|e]]; [|done]. intros H. by exists s1, a.
Qed.

Lemma bind_run {A B} (m : M A) (k : A -> M B) s s1 a :
  m s = (s1, Ok a) -> (m ≫= k) s = k a s1.
Proof. intros H. unfold mbind, M_bind. by rewrite H. Qed.

Lemma bind_err {A B} (m : M A) (k : A -> M B) s s' e :
  (m ≫= k) s = (s', Err e) ->
  m s = (s', Err e) \/ exists s1 a, m s = (s1, Ok a) /\ k a s1 = (s', Err e).
Proof.
  unfold mbind, M_bind. destruct (m s) as [s1 [a|e1]]; intros H; [right; by exists s1, a|].
  left. by simplify_eq.
Qed.

(** Running the primitives, as rewriting rules. *)
Section running.
Context {A B : Type}.
Implicit Types (s : session).

Lemma run_query (f : DB -> A) (k : A -> M B) s : (query f ≫= k) s = k (f (disk s)) s.
Proof. done. Qed.
Lemma run_attrs (f : DB -> A) (k : A -> M B) s : (attrs f ≫= k) s = k (f (mem s)) s.
Proof. done. Qed.
Lemma run_orm f (k : unit -> M B) s : (orm f ≫= k) s = k tt (set_mem (f (mem s)) s).
Proof. done. Qed.
Lemma run_execute f (k : unit -> M B) s :
  (execute f ≫= k) s = k tt (set_mem (f (mem s)) (set_disk (f (disk s)) s)).
Proof. done. Qed.
Lemma run_flush (k : unit -> M B) s : (flush ≫= k) s = k tt (set_disk (mem s) s).
Proof. done. Qed.
Lemma run_today (k : date -> M B) s : (get_today ≫= k) s = k (today s) s.
Proof. done. Qed.
Lemma run_now (k : Z -> M B) s : (get_now ≫= k) s = k (now s) s.
Proof. done. Qed.
Lemma run_ret (a : A) (k : A -> M B) s : (mret (M := M) a ≫= k) s = k a s.
Proof. done. Qed.
Lemma run_raise e (k : A -> M B) s : (raise e ≫= k) s = (s, Err e).
Proof. done. Qed.
Lemma run_lift_ok (a : A) (k : A -> M B) s : (lift (Ok a) ≫= k) s = k a s.
Proof. done. Qed.
Lemma run_lift_err e (k : A -> M B) s : (lift (Err e) ≫= k) s = (s, Err e).
Proof. done. Qed.
Lemma run_select {R} `{Entity R} p (k : list R -> M B) s :
  (select p ≫= k) s = k (omap (identity (mem s)) (List.filter p (table (disk s)))) s.
Proof. done. Qed.
Lemma run_scalar {R} `{Entity R} p (k : option R -> M B) s :
  (scalar p ≫= k) s = k (hd_error (omap (identity (mem s)) (List.filter p (table (disk s))))) s.
Proof. done. Qed.
End running.

Lemma run_assoc {A B C} (m : M A) (k : A -> M B) (l : B -> M C) s :
  ((m ≫= k) ≫= l) s = (m ≫= fun a => k a ≫= l) s.
Proof. unfold mbind, M_bind. by destruct (m s) as [s1 [a|e]]. Qed.

Lemma run_last_ret {A} (a : A) s : mret (M := M) a s = (s, Ok a).
Proof. done. Qed.
Lemma run_last_raise {A} e s : @raise A e s = (s, Err e).
Proof. done. Qed.

Create Rewrite HintDb run.
#[export] Hint Rewrite @run_query @run_attrs @run_orm @run_execute @run_flush @run_today @run_now
  @run_ret @run_raise @run_lift_ok @run_lift_err @run_select @run_scalar @run_assoc
  @run_last_ret @run_last_raise : run.

(** Execute the primitives at the head of the goal's computation. *)
Ltac mrun := autorewrite with run; cbn [fst snd disk mem set_disk set_mem].

(** A property of states kept by a computation, whether it returns or raises. *)
Definition preserves {A} (I : session -> Prop) (m : M A) : Prop :=
  forall s s' r, I s -> m s = (s', r) -> I s'.

Section preserves.
Context (I : session -> Prop).

Lemma preserves_ret {A} (a : A) : preserves I (mret a).
Proof. intros s s' r Hs H. cbv [mret M_ret raise lift query] in H. by simplify_eq. Qed.

Lemma preserves_raise {A} e : preserves I (@raise A e).
Proof. intros s s' r Hs H. cbv [mret M_ret raise lift query] in H. by simplify_eq. Qed.

Lemma preserves_lift {A} (x : result A) : preserves I (lift x).
Proof. intros s s' r Hs H. cbv [mret M_ret raise lift query] in H. by simplify_eq. Qed.

Lemma preserves_query {A} (f : DB -> A) : preserves I (query f).
Proof. intros s s' r Hs H. cbv [mret M_ret raise lift query] in H. by simplify_eq. Qed.

Lemma preserves_select {R} `{Entity R} p : preserves I (select (R := R) p).
Proof. intros s s' r Hs Hx. unfold select in Hx. by simplify_eq. Qed.

Lemma preserves_bind {A B} (m : M A) (k : A -> M B) :
  preserves I m -> (forall a, preserves I (k a)) -> preserves I (m ≫= k).
Proof.
  intros Hm Hk s s' r Hs H. unfold mbind, M_bind in H.
  destruct (m s) as [s1 [a|e]] eqn:E.
  - eapply Hk; [|exact H]. by eapply Hm.
  - simplify_eq. by eapply Hm.
Qed.

Lemma preserves_scalar {R} `{Entity R} p : preserves I (scalar (R := R) p).
Proof. apply preserves_bind; [apply preserves_select|]. intros. apply preserves_ret. Qed.

Lemma preserves_forM {A} (l : list A) f : (forall x, In x l -> preserves I (f x)) -> preserves I (forM l f).
Proof.
  induction l as [|x l IH]; intros Hf; simpl; [apply preserves_ret|].
  apply preserves_bind; [apply Hf; by left|]. intros _. apply IH. intros y Hy. apply Hf. by right.
Qed.
End preserves.

(** Selecting when nothing is pending in the table gives the rows themselves. *)
Lemma find_ident {R} `{Entity R} (l : list R) r :
  List.NoDup (List.map ident l) -> In r l -> List.find (fun x => ident x =? ident r) l = Some r.
Proof.
  induction l as [|x l IH]; [done|]. simpl. intros Hnd Hin. apply List.NoDup_cons_iff in Hnd as [Hni Hnd].
  destruct Hin as [->|Hin]; [by rewrite Z.eqb_refl|].
  destruct (Z.eqb_spec (ident x) (ident r)) as [E|_]; [|by apply IH].
  exfalso. apply Hni. rewrite E. by apply in_map.
Qed.

Lemma where_id_idents {R} `{Entity R} i (f : R -> R) l :
  (forall x, ident (f x) = ident x) -> List.map ident (where_id i f l) = List.map ident l.
Proof.
  intros Hf. unfold where_id. rewrite List.map_map. apply List.map_ext. intros x. destruct (_ =? i); [apply Hf|done].
Qed.

Lemma where_id_In {R} `{Entity R} i (f : R -> R) l y :
  In y (where_id i f l) <-> exists x, In x l /\ y = if ident x =? i then f x else x.
Proof. unfold where_id. rewrite in_map_iff. split; intros (x & ? & ?); exists x; auto. Qed.

Lemma omap_identity {R} `{Entity R} (d : DB) (rows : list R) :
  List.NoDup (List.map ident (table d)) -> (forall r, In r rows -> In r (table d)) ->
  omap (identity d) rows = rows.
Proof.
  intros Hnd. induction rows as [|r rows IH]; intros Hin; simpl; [done|].
  unfold identity at 1. rewrite find_ident by (try done; apply Hin; by left).
  f_equal. apply IH. intros x Hx. apply Hin. by right.
Qed.

Lemma select_synced {R} `{Entity R} p (s : session) :
  List.NoDup (List.map ident (table (R := R) (mem s))) ->
  table (R := R) (disk s) = table (mem s) ->
  select (R := R) p s = (s, Ok (List.filter p (table (mem s)))).
Proof.
  intros Hnd Hd. unfold select. rewrite Hd, (omap_identity (mem s)); [reflexivity|exact Hnd|].
  intros r Hr. by apply filter_In in Hr as [? _].
Qed.

Ltac mrun_in H := autorewrite with run in H; cbn [fst snd disk mem set_disk set_mem] in H.

(** Take the bind at the head of [H] apart. *)
Ltac mbind_in H s a E := apply bind_inv in H as (s & a & E & H).

Lemma hd_filter {A} (p : A -> bool) l : hd_error (List.filter p l) = List.find p l.
Proof. induction l as [|x l IH]; [done|]. simpl. by destruct (p x). Qed.

(** A table none of whose changes is pending. *)
Definition synced (R : Type) `{Entity R} (s : session) : Prop :=
  table (R := R) (disk s) = table (R := R) (mem s) /\ List.NoDup (List.map ident (table (R := R) (mem s))).

Lemma run_select_synced {R B} `{Entity R} p (k : list R -> M B) s :
  synced R s -> (select p ≫= k) s = k (List.filter p (table (mem s))) s.
Proof.
  intros [Hs Hnd]. rewrite run_select, Hs, omap_identity; [done|done|].
  intros r Hr. by apply filter_In in Hr as [? _].
Qed.

Lemma run_scalar_synced {R B} `{Entity R} p (k : option R -> M B) s :
  synced R s -> (scalar p ≫= k) s = k (List.find p (table (mem s))) s.
Proof.
  intros [Hs Hnd]. rewrite run_scalar, Hs, omap_identity, hd_filter; [done|done|].
  intros r Hr. by apply filter_In in Hr as [? _].
Qed.

(** ** Triples

    [triple P m Q]: from a state in [P], a run of [m] that returns, returns in
    [Q].  (What a run that raises leaves behind is rolled back.) *)

Definition triple {A} (P : session -> Prop) (m : M A) (Q : A -> session -> Prop) : Prop :=
  forall s s' a, P s -> m s = (s', Ok a) -> Q a s'.

Section triples.
Context {A B : Type}.
Implicit Types (P : session -> Prop) (Q : A -> session -> Prop).

Lemma triple_ret P Q (a : A) : (forall s, P s -> Q a s) -> triple P (mret a) Q.
Proof. intros H s s' b Hs Hr. cbv [mret M_ret] in Hr. simplify_eq. by apply H. Qed.

Lemma triple_raise P Q e : triple P (@raise A e) Q.
Proof. intros s s' b Hs Hr. by cbv [raise] in Hr. Qed.

Lemma triple_lift P Q (r : result A) : (forall s a, P s -> r = Ok a -> Q a s) -> triple P (lift r) Q.
Proof. intros H s s' b Hs Hr. cbv [lift] in Hr. simplify_eq. by apply H. Qed.

Lemma triple_bind P (m : M A) (R : A -> session -> Prop) (k : A -> M B) (Q : B -> session -> Prop) :
  triple P m R -> (forall a, triple (R a) (k a) Q) -> triple P (m ≫= k) Q.
Proof. intros Hm Hk s s' b Hs H. apply bind_inv in H as (s1 & a & H1 & H2). eapply Hk; [|exact H2]. by eapply Hm. Qed.

Lemma triple_if P Q (c : bool) (m1 m2 : M A) :
  (c = true -> triple P m1 Q) -> (c = false -> triple P m2 Q) -> triple P (if c then m1 else m2) Q.
Proof. destruct c; auto. Qed.

Lemma triple_conseq P P' (m : M A) Q Q' :
  triple P' m Q' -> (forall s, P s -> P' s) -> (forall a s, Q' a s -> Q a s) -> triple P m Q.
Proof. intros H Hp Hq s s' a Hs Hr. apply Hq. eapply H; [|exact Hr]. by apply Hp. Qed.

Lemma triple_preserves I (m : M A) : preserves I m -> triple I m (fun _ => I).
Proof. intros H s s' a Hs Hr. by eapply H. Qed.

Lemma triple_query P Q (f : DB -> A) : (forall s, P s -> Q (f (disk s)) s) -> triple P (query f) Q.
Proof. intros H s s' a Hs Hr. cbv [query] in Hr. simplify_eq. by apply H. Qed.

Lemma triple_attrs P Q (f : DB -> A) : (forall s, P s -> Q (f (mem s)) s) -> triple P (attrs f) Q.
Proof. intros H s s' a Hs Hr. cbv [attrs] in Hr. simplify_eq. by apply H. Qed.
End triples.

Lemma triple_orm P (Q : unit -> session -> Prop) f :
  (forall s, P s -> Q tt (set_mem (f (mem s)) s)) -> triple P (orm f) Q.
Proof. intros H s s' [] Hs Hr. cbv [orm] in Hr. simplify_eq. by apply H. Qed.

Lemma triple_flush P (Q : unit -> session -> Prop) :
  (forall s, P s -> Q tt (set_disk (mem s) s)) -> triple P flush Q.
Proof. intros H s s' [] Hs Hr. cbv [flush] in Hr. simplify_eq. by apply H. Qed.

Lemma preserves_orm I f : (forall s, I s -> I (set_mem (f (mem s)) s)) -> preserves I (orm f).
Proof. intros H s s' r Hs Hx. cbv [orm] in Hx. simplify_eq. by apply H. Qed.

Lemma preserves_execute I f :
  (forall s, I s -> I (set_mem (f (mem s)) (set_disk (f (disk s)) s))) -> preserves I (execute f).
Proof. intros H s s' r Hs Hx. cbv [execute] in Hx. simplify_eq. by apply H. Qed.

Lemma preserves_flush (I : session -> Prop) : (forall s, I s -> I (set_disk (mem s) s)) -> preserves I flush.
Proof. intros H s s' r Hs Hx. cbv [flush] in Hx. simplify_eq. by apply H. Qed.

Lemma preserves_if (I : session -> Prop) {A} (b : bool) (m1 m2 : M A) :
  preserves I m1 -> preserves I m2 -> preserves I (if b then m1 else m2).
Proof. by destruct b. Qed.

Lemma preserves_uuid4 I :
  (forall s u, I s -> I (Session (disk s) (mem s) (expired s) (now s) (today s) u)) -> preserves I uuid4.
Proof. intros H s s' r Hs Hx. cbv [uuid4] in Hx. simplify_eq. by apply H. Qed.

Lemma preserves_attrs I {A} (f : DB -> A) : preserves I (attrs f).
Proof. intros s s' r Hs H. cbv [attrs] in H. by simplify_eq. Qed.

Lemma preserves_get_now I : preserves I get_now.
Proof. intros s s' r Hs H. cbv [get_now] in H. by simplify_eq. Qed.
