(* ===== verification/Ledger.v ===== *)
(** * The availability ledger

    app/services/availability_lock.py (reserve and release nights),
    availability_override_service.py (blocked rooms), availability_ledger_seed.py
    (create and refresh rows), [recalculate_ledger_total_rooms] of
    room_service.py and [count_rooms_for_room_type] of room_type_service.py.

    A row is addressed by its unique key (tenant, room type, date); a list of
    ORM rows is the list of their keys, and an attribute of a row is read from
    the identity map. *)

From stdpp Require Import gmap pretty.
From S2P Require Import Prelude StayDates Calendar Models Session.

Definition LedgerNotSeeded : exn :=
  LedgerNotSeededError "availability ledger not seeded for one or more dates".
Definition InsufficientInventory : exn :=
  InsufficientInventoryError "insufficient inventory for one or more dates".

Abbreviation ledger_map := (gmap ledger_key AvailabilityLedger).

(** ** Rows *)

Definition available_rooms (row : AvailabilityLedger) : Z :=
  total_rooms row - booked_rooms row - blocked_rooms row.

Definition has_row (L : ledger_map) (tenant_id room_type_id : Z) (d : date) : bool :=
  bool_decide (is_Some (L !! (tenant_id, room_type_id, d))).

(** [row.booked_rooms += delta] *)
Definition add_booked (delta : Z) (row : AvailabilityLedger) : AvailabilityLedger :=
  set_booked (booked_rooms row + delta) row.

(** The same update on the rows of a list of keys. *)
Definition update_rows (f : AvailabilityLedger -> AvailabilityLedger)
    (ks : list ledger_key) (L : ledger_map) : ledger_map :=
  List.fold_left (fun L k => alter f k L) ks L.

Definition on_ledger (f : ledger_map -> ledger_map) (d : DB) : DB := put_ledger (f (ledger d)) d.

(** [select(AvailabilityLedger).where(tenant, room type, date.in_(nights))
    .order_by(date).with_for_update()] *)
Definition select_ledger (tenant_id room_type_id : Z) (nights : list date) : M (list ledger_key) :=
  query (fun d => List.map (fun n => (tenant_id, room_type_id, n))
    (List.filter (has_row (ledger d) tenant_id room_type_id) (sorted_set nights))).

Definition key_date (k : ledger_key) : date := k.2.

(** The attributes of a row object. *)
Definition row (k : ledger_key) : M AvailabilityLedger :=
  o ← attrs (fun d => ledger d !! k); lift (of_option o AttributeOrTypeError).

Definition assign_row (k : ledger_key) (f : AvailabilityLedger -> AvailabilityLedger) : M unit :=
  orm (on_ledger (alter f k)).

(** ** availability_lock.py *)

Definition dates_eqb (l1 l2 : list date) : bool := bool_decide (l1 = l2).

Definition lock_and_validate_availability (tenant_id room_type_id : Z) (nights : list date)
    (rooms_to_book : Z) : M (list ledger_key) :=
  match nights with
  | [] => mret []
  | _ =>
      rows ← select_ledger tenant_id room_type_id nights;
      if negb (dates_eqb (List.map key_date rows) (sorted_set nights)) then raise LedgerNotSeeded
      else
        _ ← forM rows (fun k =>
          r ← row k;
          if available_rooms r <? rooms_to_book then raise InsufficientInventory else mret tt);
        mret rows
  end.

(** The condition of the conditional UPDATE. *)
Definition has_capacity (delta : Z) (r : AvailabilityLedger) : bool :=
  booked_rooms r + blocked_rooms r + delta <=? total_rooms r.

(** [WITH lk AS (SELECT ... FOR UPDATE), u AS (UPDATE ... RETURNING id)
    SELECT count( * ) FROM u] *)
Definition claimable (L : ledger_map) (tenant_id room_type_id : Z) (delta : Z) (d : date) : bool :=
  match L !! (tenant_id, room_type_id, d) with
  | Some r => has_capacity delta r
  | None => false
  end.

Definition claim_update (tenant_id room_type_id : Z) (dates : list date) (delta : Z) : M Z :=
  keys ← query (fun d => List.map (fun n => (tenant_id, room_type_id, n))
    (List.filter (claimable (ledger d) tenant_id room_type_id delta) dates));
  _ ← execute (on_ledger (update_rows (add_booked delta) keys));
  mret (Z.of_nat (length keys)).

Definition claim_availability_for_new_booking (tenant_id room_type_id : Z) (nights : list date)
    (rooms_to_book : Z) : M unit :=
  match nights with
  | [] => mret tt
  | _ =>
      let night_set := sorted_set nights in
      if negb (length night_set =? length nights)%nat then raise LedgerNotSeeded
      else
        seeded ← query (fun d => countb (has_row (ledger d) tenant_id room_type_id) night_set);
        if negb (seeded =? Z.of_nat (length night_set)) then raise LedgerNotSeeded
        else
          n_up ← claim_update tenant_id room_type_id night_set rooms_to_book;
          if negb (n_up =? Z.of_nat (length night_set)) then raise InsufficientInventory
          else mret tt
  end.

Definition increment_booked_rooms (rows : list ledger_key) (delta : Z) : M unit :=
  forM rows (fun k => assign_row k (add_booked delta)).

Definition decrement_booked_rooms (rows : list ledger_key) (delta : Z) : M unit :=
  forM rows (fun k =>
    _ ← assign_row k (add_booked (- delta));
    r ← row k;
    if booked_rooms r <? 0 then
      raise (InsufficientInventoryError "booked_rooms would go negative for a ledger date")
    else mret tt).

(** ** availability_override_service.py *)

Definition AvailabilityOverrideError (detail : string) : exn :=
  ServiceError "AvailabilityOverrideError" detail 409.

Record override_request := OverrideRequest {
  ov_room_type : Z; ov_start : date; ov_end : date; ov_blocked : Z }.

(** [AvailabilityOverridePutRequest]: field constraints and [validate_range]. *)
Definition override_valid (b : override_request) : bool :=
  (0 <=? ov_blocked b) && (ov_start b <=? ov_end b) && (ov_end b - ov_start b + 1 <=? 366).

Definition apply_blocked_rooms_override (tenant_id : Z) (body : override_request)
    : M (Z * Z * list date) :=
  dates ← lift (iter_inclusive_dates (ov_start body) (ov_end body));
  match dates with
  | [] => mret (0, ov_room_type body, [])
  | _ =>
      ledger_rows ← select_ledger tenant_id (ov_room_type body) dates;
      if negb (length ledger_rows =? length dates)%nat then
        raise (LedgerNotSeededError "availability ledger must be seeded for every date in the override range")
      else
        _ ← forM ledger_rows (fun k =>
          r ← row k;
          let max_block := total_rooms r - booked_rooms r in
          if max_block <? ov_blocked body then
            raise (AvailabilityOverrideError
              ("blocked_rooms exceeds capacity on " ++ isoformat (key_date k) ++
               " (max " ++ pretty max_block ++ " for current bookings)"))
          else assign_row k (set_blocked (ov_blocked body)));
        mret (Z.of_nat (length ledger_rows), ov_room_type body, dates)
  end.

(** ** room_type_service.py, room_service.py: room counts *)

Definition room_of_type (tenant_id room_type_id : Z) (r : Room) : bool :=
  (r_tenant r =? tenant_id) && (r_room_type r =? room_type_id) && bool_decide (r_deleted_at r = None).

Definition count_rooms_for_room_type (tenant_id room_type_id : Z) : M Z :=
  query (fun d => countb (room_of_type tenant_id room_type_id) (rooms d)).

(** [update(AvailabilityLedger).where(tenant, room type, date >= start)
    .values(total_rooms=total)] *)
Definition set_totals (tenant_id room_type_id start total : Z) (L : ledger_map) : ledger_map :=
  map_imap (fun (k : ledger_key) r => let '(t, rt, d) := k in
    Some (if (t =? tenant_id) && (rt =? room_type_id) && (start <=? d) then set_total total r else r)) L.

Definition recalculate_ledger_total_rooms (tenant_id room_type_id : Z) (from_date : option date) : M unit :=
  td ← get_today;
  let start := default td from_date in
  total ← count_rooms_for_room_type tenant_id room_type_id;
  execute (on_ledger (set_totals tenant_id room_type_id start total)).

(** ** availability_ledger_seed.py *)

Definition empty_row (total : Z) : AvailabilityLedger := MkLedger total 0 0.

(** [session.add_all(rows)] and its flush: a row whose key is already in the
    table violates the unique constraint. *)
Definition insert_rows (total : Z) (ks : list ledger_key) : M unit :=
  clash ← query (fun d => existsb (fun k => bool_decide (is_Some (ledger d !! k))) ks);
  if (clash : bool) then raise IntegrityError
  else
    _ ← orm (on_ledger (fun L => List.fold_left (fun L k => <[k := empty_row total]> L) ks L));
    flush.

Definition seed_empty_availability_ledger_year_forward (tenant_id room_type_id total : Z)
    (start_date : option date) (horizon_days : Z) : M unit :=
  td ← get_today;
  let start := default td start_date in
  days ← lift (mapR (date_add start) (seqZ 0 horizon_days));
  insert_rows total (List.map (fun d => (tenant_id, room_type_id, d)) days).

(** [select(func.max(AvailabilityLedger.date)).where(tenant, room type)] *)
Definition max_date (L : ledger_map) (tenant_id room_type_id : Z) : option date :=
  List.fold_right (fun (kr : ledger_key * AvailabilityLedger) acc =>
    let '((t, rt, d), _) := kr in
    if (t =? tenant_id) && (rt =? room_type_id) then
      Some (match acc with Some m => Z.max d m | None => d end)
    else acc) None (map_to_list L).

(** [pg_insert(...).on_conflict_do_nothing(...).returning(id)]: the number of
    rows returned is 1 or 0. *)
Definition insert_or_nothing (k : ledger_key) (total : Z) : M Z :=
  old ← query (fun d => ledger d !! k);
  match old with
  | Some _ => mret 0
  | None => _ ← execute (on_ledger (<[k := empty_row total]>)); mret 1
  end.

(** [for x in l: n += f(x)] *)
Fixpoint sumM {A} (l : list A) (f : A -> M Z) : M Z :=
  match l with
  | [] => mret 0
  | x :: l' => n ← f x; m ← sumM l' f; mret (n + m)
  end.

Section extend.
(** Rows the row-level security policy lets the session see. *)
Variable visible : RoomType -> bool.

Definition extend_availability_ledger_days (extra_days : Z) : M Z :=
  if extra_days <? 1 then mret 0
  else
    room_types ← select visible;
    sumM room_types (fun rt =>
      let tenant_id := rt_tenant rt in
      let room_type_id := rt_id rt in
      max_d ← query (fun d => max_date (ledger d) tenant_id room_type_id);
      total ← count_rooms_for_room_type tenant_id room_type_id;
      match max_d with
      | None =>
          _ ← seed_empty_availability_ledger_year_forward tenant_id room_type_id total None extra_days;
          mret extra_days
      | Some m =>
          sumM (seqZ 1 extra_days) (fun i =>
            day ← lift (date_add m i);
            insert_or_nothing (tenant_id, room_type_id, day) total)
      end).
End extend.

Definition AvailabilityLedgerSeedError (detail : string) (status_code : Z) : exn :=
  ServiceError "AvailabilityLedgerSeedError" detail status_code.

Record seed_segment := SeedSegment { seg_room_type : Z; seg_start : date; seg_end : date }.

(** [for seg in body.segments: ... by_key[(seg.room_type_id, d)] = {...}] *)
Fixpoint seed_keys (tenant_id : Z) (segments : list seed_segment) (by_key : gmap (Z * date) Z)
    : M (gmap (Z * date) Z) :=
  match segments with
  | [] => mret by_key
  | seg :: rest =>
      rt ← scalar (R := RoomType) (fun r => (rt_tenant r =? tenant_id) && (rt_id r =? seg_room_type seg));
      match rt with
      | None => raise (AvailabilityLedgerSeedError "room_type not found" 404)
      | Some _ =>
          total ← count_rooms_for_room_type tenant_id (seg_room_type seg);
          ds ← lift (iter_inclusive_dates (seg_start seg) (seg_end seg));
          seed_keys tenant_id rest
            (List.fold_left (fun m d => <[(seg_room_type seg, d) := total]> m) ds by_key)
      end
  end.

(** [on_conflict_do_update(set_={"total_rooms": excluded.total_rooms})] *)
Definition upsert_row (excluded : option Z) (old : option AvailabilityLedger) : option AvailabilityLedger :=
  match excluded, old with
  | Some total, Some r => Some (set_total total r)
  | Some total, None => Some (empty_row total)
  | None, _ => old
  end.

Definition upsert_totals (tenant_id : Z) (by_key : gmap (Z * date) Z) (L : ledger_map) : ledger_map :=
  merge upsert_row (kmap (fun k : Z * date => (tenant_id, k.1, k.2)) by_key) L.

Definition bulk_seed_availability_ledger (tenant_id : Z) (segments : list seed_segment) : M Z :=
  by_key ← seed_keys tenant_id segments ∅;
  if (size by_key =? 0)%nat then mret 0
  else
    _ ← execute (on_ledger (upsert_totals tenant_id by_key));
    mret (Z.of_nat (size by_key)).
