(* ===== verification/LedgerLaws.v ===== *)
(** * Laws of the availability ledger

    What a claim does to the ledger, that no sequence of claims overbooks a
    night, what an override and a bulk seed keep. *)

From Stdlib Require Import Finite.
From stdpp Require Import gmap.
From S2P Require Import Prelude StayDates Models Session Ledger.

(** ** Updating rows *)

Lemma update_rows_lookup f ks L k :
  List.NoDup ks ->
  update_rows f ks L !! k = if bool_decide (k ∈ ks) then f <$> L !! k else L !! k.
Proof.
  unfold update_rows. revert L. induction ks as [|k' ks IH]; intros L Hnd; simpl.
  { done. }
  apply List.NoDup_cons_iff in Hnd as [Hni Hnd]. rewrite IH by done.
  destruct (decide (k' = k)) as [->|Hk].
  - rewrite (bool_decide_eq_false_2 (k ∈ ks)) by (by rewrite list_elem_of_In).
    rewrite bool_decide_eq_true_2 by (by left). apply lookup_alter_eq.
  - rewrite lookup_alter_ne by done.
    replace (bool_decide (k ∈ k' :: ks)) with (bool_decide (k ∈ ks)); [done|].
    apply bool_decide_ext. rewrite elem_of_cons. intuition congruence.
Qed.

Definition keys_of (tenant_id room_type_id : Z) (nights : list date) : list ledger_key :=
  List.map (fun n => (tenant_id, room_type_id, n)) nights.

Lemma keys_of_NoDup t rt nights : List.NoDup nights -> List.NoDup (keys_of t rt nights).
Proof. apply Finite.Injective_map_NoDup. by intros x y [=]. Qed.

Lemma in_keys_of t rt nights k : In k (keys_of t rt nights) -> exists n, k = (t, rt, n) /\ In n nights.
Proof. intros (n & <- & Hn)%in_map_iff. eauto. Qed.

#[export] Hint Resolve keys_of_NoDup : pms.

(** ** A claim *)

Definition claim_result (L : ledger_map) (tenant_id room_type_id : Z) (nights : list date)
    (delta : Z) : result unit :=
  if negb (length (sorted_set nights) =? length nights)%nat
     || negb (forallb (has_row L tenant_id room_type_id) nights) then Err LedgerNotSeeded
  else if forallb (claimable L tenant_id room_type_id delta) nights then Ok tt
  else Err InsufficientInventory.

Lemma sorted_set_nodup_length l :
  length (sorted_set l) = length l -> List.NoDup l.
Proof.
  intros H. apply (List.NoDup_incl_NoDup (l := sorted_set l)); [apply sorted_set_NoDup|lia|].
  intros x. apply sorted_set_In.
Qed.

Lemma countb_all {A} (p : A -> bool) l :
  (countb p l =? Z.of_nat (length l)) = forallb p l.
Proof.
  induction l as [|x l IH]; [done|]. rewrite countb_cons. simpl.
  assert (countb p l <= Z.of_nat (length l)).
  { unfold countb. pose proof (filter_length_le p l). lia. }
  destruct (p x); simpl; [rewrite <- IH|]; zcase; lia.
Qed.

Lemma forallb_sorted_set p l : forallb p (sorted_set l) = forallb p l.
Proof.
  apply eq_bool_prop_intro. rewrite !Is_true_true, !forallb_forall.
  split; intros H x Hx; apply H; by apply sorted_set_In.
Qed.

Lemma forallb_filter {A} (p : A -> bool) l : forallb p l = true -> List.filter p l = l.
Proof. induction l as [|x l IH]; simpl; [done|]. intros [-> H]%andb_prop. by rewrite IH. Qed.

Lemma forallb_ext_in {A} (p q : A -> bool) l :
  (forall x, In x l -> p x = q x) -> forallb p l = forallb q l.
Proof.
  induction l as [|x l IH]; intros H; [done|]. simpl. rewrite (H x), IH; [done| |by left].
  intros y Hy. apply H. by right.
Qed.

(** [execute] on both views of the ledger. *)
Definition both_ledgers (f : ledger_map -> ledger_map) (s : session) : session :=
  set_mem (on_ledger f (mem s)) (set_disk (on_ledger f (disk s)) s).

Section claim.
Context (tenant_id room_type_id delta : Z) (nights : list date) (s : session).
Let L := ledger (disk s).

Lemma claim_run :
  claim_availability_for_new_booking tenant_id room_type_id nights delta s =
  match claim_result L tenant_id room_type_id nights delta with
  | Ok _ =>
      (both_ledgers (update_rows (add_booked delta) (keys_of tenant_id room_type_id (sorted_set nights))) s, Ok tt)
  | Err e => ((claim_availability_for_new_booking tenant_id room_type_id nights delta s).1, Err e)
  end.
Proof.
  destruct nights as [|n ns] eqn:E; [by destruct s as [[] [] ]|]. rewrite <- E.
  unfold claim_availability_for_new_booking, claim_result. rewrite E. rewrite <- E.
  destruct (_ =? _)%nat eqn:E1; [|done]. cbn [negb orb].
  mrun. fold L. rewrite countb_all, forallb_sorted_set.
  destruct (forallb (has_row L _ _) nights); [|done]. cbn [negb]. unfold claim_update. mrun.
  rewrite length_map. fold L. fold (countb (claimable L tenant_id room_type_id delta) (sorted_set nights)).
  rewrite countb_all, forallb_sorted_set.
  destruct (forallb (claimable L _ _ _) nights) eqn:E3; [|done]. cbn [negb]. mrun.
  rewrite (forallb_filter (claimable L tenant_id room_type_id delta) (sorted_set nights)); [done|].
  by rewrite forallb_sorted_set.
Qed.
End claim.

(** ** Concurrent claims

    Each claim is its own transaction; the row locks serialise the conditional
    updates, so concurrent creators are some sequence of claims. *)

Record claim_request := ClaimRequest {
  q_tenant : Z; q_room_type : Z; q_nights : list date; q_rooms : Z }.

Definition claim_tx (r : claim_request) (d : DB) : DB * result unit :=
  run (claim_availability_for_new_booking (q_tenant r) (q_room_type r) (q_nights r) (q_rooms r)) 0 0 0 d.

Lemma add_booked_add n m r : add_booked n (add_booked m r) = add_booked (m + n) r.
Proof. unfold add_booked, set_booked. cbn. by rewrite Z.add_assoc. Qed.

Lemma add_booked_0 r : add_booked 0 r = r.
Proof. destruct r. unfold add_booked, set_booked. cbn. by rewrite Z.add_0_r. Qed.

(** Rooms a request takes from a row. *)
Definition takes (r : claim_request) (k : ledger_key) : Z :=
  if bool_decide (k ∈ keys_of (q_tenant r) (q_room_type r) (q_nights r)) then q_rooms r else 0.

(** The database after a sequence of claims, and what was sold on a row. *)
Fixpoint claim_all (rs : list claim_request) (k : ledger_key) (d : DB) : DB * Z :=
  match rs with
  | [] => (d, 0)
  | r :: rs' =>
      let '(d1, res) := claim_tx r d in
      let '(d2, n) := claim_all rs' k d1 in
      (d2, (if is_ok res then takes r k else 0) + n)
  end.

Definition within_capacity (L : ledger_map) : Prop :=
  forall k r, L !! k = Some r -> booked_rooms r + blocked_rooms r <= total_rooms r.

(** Effect of one transaction: rejected, and nothing changes; or accepted, and
    every night had the capacity. *)
Lemma claim_tx_cases r d :
  match claim_tx r d with
  | (d', Err _) => d' = d
  | (d', Ok _) =>
      (forall k, ledger d' !! k = add_booked (takes r k) <$> ledger d !! k) /\
      (forall k row, ledger d !! k = Some row -> takes r k <> 0 -> has_capacity (q_rooms r) row = true)
  end.
Proof.
  unfold claim_tx, run. rewrite claim_run. unfold claim_result.
  destruct (negb _ || negb _) eqn:E1; [done|].
  apply orb_false_iff in E1 as [E1%negb_false_iff E2%negb_false_iff].
  destruct (forallb (claimable _ _ _ _) _) eqn:E3; [|done].
  apply Nat.eqb_eq, sorted_set_nodup_length in E1. cbn.
  assert (Hk : forall k, k ∈ keys_of (q_tenant r) (q_room_type r) (sorted_set (q_nights r)) <->
                         k ∈ keys_of (q_tenant r) (q_room_type r) (q_nights r)).
  { intros k. rewrite !list_elem_of_In. unfold keys_of. rewrite !in_map_iff.
    split; intros (n & <- & Hn); exists n; split; try done; by apply sorted_set_In. }
  split.
  - intros k. rewrite update_rows_lookup by auto with pms. unfold takes.
    rewrite (bool_decide_ext _ _ (Hk k)). destruct (bool_decide _); [done|].
    destruct (ledger d !! k); [|done]. cbn. by rewrite add_booked_0.
  - intros k row Hrow. unfold takes. destruct (bool_decide _) eqn:Eb; [|done]. intros _.
    apply bool_decide_eq_true in Eb. apply list_elem_of_In, in_keys_of in Eb as (n & -> & Hn).
    rewrite forallb_forall in E3. specialize (E3 n Hn). unfold claimable in E3. cbn in E3. by rewrite Hrow in E3.
Qed.

(** C11: however concurrent creators are interleaved, no night is
    overbooked, and every row counts exactly the accepted requests. *)
Theorem claims_never_overbook rs k d :
  within_capacity (ledger d) ->
  within_capacity (ledger (claim_all rs k d).1) /\
  ledger (claim_all rs k d).1 !! k = add_booked (claim_all rs k d).2 <$> ledger d !! k.
Proof.
  revert d. induction rs as [|r rs IH]; intros d Hd; simpl.
  - split; [done|]. destruct (ledger d !! k); [|done]. cbn. by rewrite add_booked_0.
  - pose proof (claim_tx_cases r d) as Hr. destruct (claim_tx r d) as [d1 res].
    destruct (claim_all rs k d1) as [d2 n] eqn:E.
    assert (Hd1 : within_capacity (ledger d1)).
    { destruct res as [[]|e]; [|by subst]. destruct Hr as [Hr Hc]. intros k' row Hrow.
      rewrite Hr in Hrow. destruct (ledger d !! k') as [row0|] eqn:E0; [|done]. cbn in Hrow.
      simplify_eq. destruct row0 as [tr br bl]. cbn. specialize (Hd _ _ E0). cbn in Hd.
      specialize (Hc _ _ E0). unfold add_booked; cbn. unfold takes in *.
      destruct (bool_decide _); [|lia].
      destruct (Z.eq_dec (q_rooms r) 0) as [->|H0]; [lia|].
      specialize (Hc H0). apply Z.leb_le in Hc. cbn [total_rooms booked_rooms blocked_rooms] in Hc. lia. }
    specialize (IH d1 Hd1). rewrite E in IH. cbn in *. destruct IH as [IH1 IH2].
    split; [done|]. rewrite IH2. destruct res as [[]|e]; cbn; [|by subst].
    destruct Hr as [Hr _]. rewrite Hr. destruct (ledger d !! k) as [row|]; [|done]. cbn.
    by rewrite add_booked_add.
Qed.

(** ** Blocked-room overrides *)

(** The loop that rewrites the rows of a list of keys, stopping at the first
    row that fails a test of its own attributes. *)
Section row_loop.
Context (ok : AvailabilityLedger -> bool) (f : AvailabilityLedger -> AvailabilityLedger).
Context (err : ledger_key -> AvailabilityLedger -> exn).

Definition checked_update (k : ledger_key) : M unit :=
  r ← row k; if ok r then assign_row k f else raise (err k r).

Lemma row_run {B} (k : ledger_key) (c : AvailabilityLedger -> M B) r s :
  ledger (mem s) !! k = Some r -> (row k ≫= c) s = c r s.
Proof. intros H. unfold row. mrun. by rewrite H. Qed.

Lemma set_mem_mem d1 d2 s : set_mem d2 (set_mem d1 s) = set_mem d2 s.
Proof. done. Qed.

Lemma checked_update_run {B} k (c : unit -> M B) r s :
  ledger (mem s) !! k = Some r ->
  (checked_update k ≫= c) s =
  if ok r then c tt (set_mem (on_ledger (alter f k) (mem s)) s) else (s, Err (err k r)).
Proof.
  intros Hr. unfold checked_update. rewrite run_assoc, (row_run _ _ r) by done.
  destruct (ok r); unfold assign_row; by mrun.
Qed.

(** With distinct keys the loop succeeds exactly when every row passes, and
    then rewrites them all; otherwise it raises the error of a row that fails. *)
Lemma checked_update_loop ks s :
  List.NoDup ks -> (forall k, In k ks -> is_Some (ledger (mem s) !! k)) ->
  let ok_at k := match ledger (mem s) !! k with Some r => ok r | None => false end in
  if forallb ok_at ks then
    forM ks checked_update s = (set_mem (on_ledger (update_rows f ks) (mem s)) s, Ok tt)
  else exists k r, In k ks /\ ledger (mem s) !! k = Some r /\ ok r = false /\
       (forM ks checked_update s).2 = Err (err k r).
Proof.
  revert s. induction ks as [|k ks IH]; intros s Hnd Hex ok_at; simpl.
  { by destruct s as [? [] ? ? ? ?]. }
  apply List.NoDup_cons_iff in Hnd as [Hni Hnd].
  destruct (Hex k) as [r Hr]; [by left|]. unfold ok_at at 1. rewrite Hr.
  destruct (ok r) eqn:Eok; simpl; cycle 1.
  { exists k, r. split_and!; try done; [by left|].
    rewrite (checked_update_run _ _ r) by done. by rewrite Eok. }
  set (s1 := set_mem (on_ledger (alter f k) (mem s)) s).
  rewrite (checked_update_run _ _ r), Eok by done. fold s1.
  assert (Hold : forall k', In k' ks -> ledger (mem s1) !! k' = ledger (mem s) !! k').
  { intros k' Hk'. cbn. apply lookup_alter_ne. intros ->. done. }
  specialize (IH s1 Hnd). cbv zeta in IH.
  rewrite (forallb_ext_in _ ok_at) in IH by (intros k' Hk'; unfold ok_at; by rewrite Hold).
  destruct (forallb ok_at ks).
  - apply IH. intros k' Hk'. rewrite Hold by done. apply Hex. by right.
  - destruct IH as (k' & r' & Hk' & Hr' & Hf & He).
    { intros k' Hk'. rewrite Hold by done. apply Hex. by right. }
    exists k', r'. rewrite Hold in Hr' by done. split_and!; try done. by right.
Qed.
End row_loop.

Lemma forM_ext {A} (l : list A) (f g : A -> M unit) s :
  (forall x s', f x s' = g x s') -> forM l f s = forM l g s.
Proof.
  intros H. revert s. induction l as [|x l IH]; intros s; [done|]. simpl.
  unfold mbind, M_bind. rewrite H. destruct (g x s) as [s1 [a|e]]; [apply IH|done].
Qed.

Lemma filter_all_length {A} (p : A -> bool) l :
  (length (List.filter p l) =? length l)%nat = forallb p l.
Proof.
  apply eq_bool_prop_intro. rewrite !Is_true_true, Nat.eqb_eq. split; intros H.
  - rewrite <- countb_all. unfold countb. rewrite H. apply Z.eqb_refl.
  - by rewrite forallb_filter.
Qed.

Definition override_fits (b : Z) (r : AvailabilityLedger) : bool := b <=? total_rooms r - booked_rooms r.

Definition override_error (k : ledger_key) (r : AvailabilityLedger) : exn :=
  AvailabilityOverrideError
    ("blocked_rooms exceeds capacity on " ++ Calendar.isoformat (key_date k) ++
     " (max " ++ pretty.pretty (total_rooms r - booked_rooms r) ++ " for current bookings)").

Definition row_fits (L : ledger_map) (b : Z) (k : ledger_key) : bool :=
  match L !! k with Some r => override_fits b r | None => false end.

(** Every branch of [apply_blocked_rooms_override]. *)
Lemma override_run t body s :
  ledger (disk s) = ledger (mem s) ->
  valid_date (ov_start body) -> ov_end body < MAXORD -> ov_start body <= ov_end body ->
  let L := ledger (mem s) in
  let dates := seqZ (ov_start body) (ov_end body - ov_start body + 1) in
  let keys := keys_of t (ov_room_type body) dates in
  if forallb (has_row L t (ov_room_type body)) dates then
    if forallb (row_fits L (ov_blocked body)) keys then
      apply_blocked_rooms_override t body s =
        (set_mem (on_ledger (update_rows (set_blocked (ov_blocked body)) keys) (mem s)) s,
         Ok (Z.of_nat (length dates), ov_room_type body, dates))
    else exists k r, In k keys /\ L !! k = Some r /\ override_fits (ov_blocked body) r = false /\
         (apply_blocked_rooms_override t body s).2 = Err (override_error k r)
  else (apply_blocked_rooms_override t body s).2 =
       Err (LedgerNotSeededError "availability ledger must be seeded for every date in the override range").
Proof.
  intros Hsync Hst Hend Hle. cbv zeta. unfold apply_blocked_rooms_override.
  unfold iter_inclusive_dates. rewrite days_through_spec by (try done; lia).
  mrun. set (dates := seqZ _ _). destruct dates as [|d0 ds] eqn:Ed.
  { exfalso. apply (f_equal length) in Ed. unfold dates in Ed. rewrite length_seqZ in Ed. simpl in Ed. lia. }
  rewrite <- Ed. unfold select_ledger. mrun.
  rewrite (sorted_set_id dates) by apply seqZ_sorted. rewrite length_map, filter_all_length, Hsync.
  destruct (forallb (has_row _ _ _) dates) eqn:E1; [|done]. cbn [negb].
  rewrite (forallb_filter _ _ E1). fold (keys_of t (ov_room_type body) dates).
  set (keys := keys_of _ _ _).
  pose proof (checked_update_loop (override_fits (ov_blocked body)) (set_blocked (ov_blocked body))
    override_error keys s) as Hloop. cbv zeta in Hloop.
  fold (row_fits (ledger (mem s)) (ov_blocked body)) in Hloop.
  specialize (Hloop (keys_of_NoDup _ _ _ (seqZ_NoDup _ _))).
  assert (Hrows : forall k, In k keys -> is_Some (ledger (mem s) !! k)).
  { intros k (n & -> & Hn)%in_keys_of. rewrite forallb_forall in E1. specialize (E1 n Hn).
    unfold has_row in E1. by apply bool_decide_eq_true in E1. }
  specialize (Hloop Hrows).
  match goal with |- context [forM keys ?g ≫= ?c] =>
    assert (Hg : forall s0, (forM keys g ≫= c) s0 =
      (forM keys (checked_update (override_fits (ov_blocked body)) (set_blocked (ov_blocked body)) override_error) ≫= c) s0)
  end.
  { intros s0. unfold mbind at 1 3, M_bind at 1 3. erewrite forM_ext; [reflexivity|].
    intros k s1. unfold checked_update, override_fits, override_error, row. mrun.
    destruct (of_option _ _) as [r|]; [|done]. mrun.
    rewrite Z.leb_antisym. by destruct (_ <? _). }
  rewrite Hg.
  destruct (forallb (row_fits _ _) keys).
  - rewrite (bind_run _ _ _ _ _ Hloop). by mrun.
  - destruct Hloop as (k & r & Hk & Hr & Hf & He). exists k, r. split_and!; try done.
    unfold mbind, M_bind. destruct (forM keys _ s) as [s1 [a|e]]; cbn in *; congruence.
Qed.

(** on a ledger whose loaded rows have no pending change, an
    override succeeds exactly when every date of the range is seeded and has
    room for it beside the rooms already booked; it then sets [blocked_rooms]
    on exactly those rows and keeps every row within capacity, and otherwise
    it raises. *)
Theorem override_keeps_capacity t body s :
  ledger (disk s) = ledger (mem s) ->
  override_valid body = true -> valid_date (ov_start body) -> ov_end body < MAXORD ->
  within_capacity (ledger (mem s)) ->
  let dates := seqZ (ov_start body) (ov_end body - ov_start body + 1) in
  let keys := keys_of t (ov_room_type body) dates in
  match apply_blocked_rooms_override t body s with
  | (s', Ok (n, rt, ds)) =>
      n = Z.of_nat (length dates) /\ rt = ov_room_type body /\ ds = dates /\
      within_capacity (ledger (mem s')) /\
      forall k, ledger (mem s') !! k =
        if bool_decide (k ∈ keys) then set_blocked (ov_blocked body) <$> ledger (mem s) !! k
        else ledger (mem s) !! k
  | (_, Err _) => exists k, In k keys /\ row_fits (ledger (mem s)) (ov_blocked body) k = false
  end.
Proof.
  intros Hsync Hv Hst Hend Hcap dates keys.
  unfold override_valid in Hv. apply andb_prop in Hv as [Hv _].
  apply andb_prop in Hv as [_ Hle%Z.leb_le].
  pose proof (override_run t body s Hsync Hst Hend Hle) as H. cbv zeta in H.
  fold dates in H. fold keys in H.
  destruct (forallb (has_row _ _ _) dates) eqn:E1.
  - destruct (forallb (row_fits _ _) keys) eqn:E2.
    + rewrite H. split_and!; try done; cbn.
      * intros k r Hr. rewrite update_rows_lookup in Hr by (apply keys_of_NoDup, seqZ_NoDup).
        destruct (bool_decide (k ∈ keys)) eqn:Ek; [|by apply (Hcap k)].
        apply bool_decide_eq_true, list_elem_of_In in Ek.
        rewrite forallb_forall in E2. specialize (E2 k Ek). unfold row_fits, override_fits in E2.
        destruct (ledger (mem s) !! k) as [r0|]; [|done]. cbn in Hr. simplify_eq.
        apply Z.leb_le in E2. cbn. lia.
      * intros k. apply update_rows_lookup, keys_of_NoDup, seqZ_NoDup.
    + destruct H as (k & r & Hk & Hr & Hf & He).
      destruct (apply_blocked_rooms_override t body s) as [s' [[[]]|e]]; cbn in *; [done|].
      exists k. split; [done|]. unfold row_fits. by rewrite Hr.
  - destruct (apply_blocked_rooms_override t body s) as [s' [[[]]|e]]; cbn in *; [done|].
    apply not_true_iff_false in E1. rewrite forallb_forall in E1.
    destruct (List.existsb (fun d => negb (has_row (ledger (mem s)) t (ov_room_type body) d)) dates) eqn:E.
    + apply existsb_exists in E as (d & Hd & Hn). exists (t, ov_room_type body, d).
      split; [by apply in_map_iff; exists d|].
      unfold has_row in Hn. apply negb_true_iff, bool_decide_eq_false in Hn.
      unfold row_fits. destruct (ledger (mem s) !! _); [|done]. exfalso. by apply Hn.
    + exfalso. apply E1. intros d Hd. destruct (has_row _ _ _ d) eqn:Ed; [done|].
      exfalso. apply not_true_iff_false in E. apply E. apply existsb_exists. exists d. by rewrite Ed.
Qed.

(** ** Bulk seeding *)

Definition covered (segs : list seed_segment) (rt : Z) (d : date) : bool :=
  existsb (fun sg => (seg_room_type sg =? rt) && (seg_start sg <=? d) && (d <=? seg_end sg)) segs.

Definition valid_segment (sg : seed_segment) : Prop :=
  valid_date (seg_start sg) /\ seg_end sg < MAXORD.

Lemma fold_insert_lookup {K V} `{Countable K} (mk : date -> K) (v : V) ds (m : gmap K V) k :
  List.fold_left (fun m d => <[mk d := v]> m) ds m !! k =
  if existsb (fun d => bool_decide (mk d = k)) ds then Some v else m !! k.
Proof.
  revert m. induction ds as [|d ds IH]; intros m; simpl; [done|]. rewrite IH.
  destruct (existsb _ ds); [by rewrite orb_true_r|]. rewrite orb_false_r.
  destruct (decide (mk d = k)) as [<-|Hk].
  - rewrite bool_decide_eq_true_2 by done. apply lookup_insert_eq.
  - rewrite bool_decide_eq_false_2 by done. by apply lookup_insert_ne.
Qed.

Lemma covered_cons sg segs rt d :
  covered (sg :: segs) rt d =
  ((seg_room_type sg =? rt) && (seg_start sg <=? d) && (d <=? seg_end sg)) || covered segs rt d.
Proof. done. Qed.

Lemma existsb_range (rt0 rt : Z) a b d :
  existsb (fun d' => bool_decide ((rt0, d') = (rt, d))) (seqZ a (b - a + 1)) =
  (rt0 =? rt) && (a <=? d) && (d <=? b).
Proof.
  apply eq_bool_prop_intro. rewrite !Is_true_true, existsb_exists, !andb_true_iff, Z.eqb_eq, !Z.leb_le.
  split.
  - intros (d' & Hd%In_seqZ & Hb%bool_decide_eq_true). simplify_eq. lia.
  - intros [[-> Ha] Hb]. exists d. split; [apply In_seqZ; lia|by apply bool_decide_eq_true_2].
Qed.

Lemma seed_keys_spec t segs s m0 s' m :
  Forall valid_segment segs -> seed_keys t segs m0 s = (s', Ok m) ->
  s' = s /\ forall rt d, m !! (rt, d) =
    if covered segs rt d then Some (countb (room_of_type t rt) (rooms (disk s))) else m0 !! (rt, d).
Proof.
  revert m0. induction segs as [|sg segs IH]; intros m0 Hv H; simpl in H.
  { cbv in H. simplify_eq. done. }
  apply List.Forall_cons_iff in Hv as [[Hst Hend] Hv]. revert H. mrun.
  destruct (hd_error _); [|done]. unfold count_rooms_for_room_type. mrun.
  unfold iter_inclusive_dates. rewrite days_through_spec by (try done; lia). mrun.
  intros [-> Hm]%IH; [|done]. split; [done|]. intros rt d. rewrite Hm, covered_cons.
  destruct (covered segs rt d) eqn:Ec; [by rewrite orb_true_r|]. rewrite orb_false_r.
  rewrite (fold_insert_lookup (fun d => (seg_room_type sg, d))).
  rewrite existsb_range. by destruct (Z.eqb_spec (seg_room_type sg) rt) as [<-|].
Qed.

Lemma upsert_totals_lookup (t : Z) (m : gmap (Z * date) Z) L t' rt d :
  upsert_totals t m L !! (t', rt, d) =
  upsert_row (if t' =? t then m !! (rt, d) else None) (L !! (t', rt, d)).
Proof.
  unfold upsert_totals. rewrite lookup_merge. unfold diag_None.
  assert (Hinj : Inj (=) (=) (fun k : Z * date => (t, k.1, k.2))).
  { by intros [] [] [=]; subst. }
  replace (kmap _ m !! (t', rt, d)) with (if t' =? t then m !! (rt, d) else None).
  - destruct (if t' =? t then _ else _), (L !! _); done.
  - destruct (Z.eqb_spec t' t) as [->|Hne].
    + symmetry. apply (lookup_kmap (fun k : Z * date => (t, k.1, k.2)) m (rt, d)).
    + symmetry. apply lookup_kmap_None; [done|]. intros [] [=]. congruence.
Qed.

(** a bulk seed refreshes [total_rooms] of every row of its segments
    to the number of live rooms of the type, creates the missing ones empty,
    and changes neither the booked and blocked rooms of existing rows nor any
    row outside the segments. *)
Theorem bulk_seed_preserves_bookings t segs s s' n :
  Forall valid_segment segs ->
  bulk_seed_availability_ledger t segs s = (s', Ok n) ->
  forall t' rt d,
    let old := ledger (mem s) !! (t', rt, d) in
    let live := countb (room_of_type t rt) (rooms (disk s)) in
    ledger (mem s') !! (t', rt, d) =
    if (t' =? t) && covered segs rt d then
      Some (match old with
            | Some r => MkLedger live (booked_rooms r) (blocked_rooms r)
            | None => MkLedger live 0 0
            end)
    else old.
Proof.
  intros Hv H t' rt d old live. unfold bulk_seed_availability_ledger in H.
  apply bind_inv in H as (s1 & m & Hm & H). apply seed_keys_spec in Hm as [-> Hm]; [|done].
  specialize (Hm rt d). rewrite lookup_empty in Hm.
  assert (Hup : upsert_totals t m (ledger (mem s)) !! (t', rt, d) =
    if (t' =? t) && covered segs rt d then
      Some (match old with Some r => MkLedger live (booked_rooms r) (blocked_rooms r) | None => MkLedger live 0 0 end)
    else old).
  { rewrite upsert_totals_lookup, Hm. fold live. fold old. destruct (t' =? t), (covered segs rt d), old; done. }
  destruct (Nat.eqb_spec (size m) 0) as [Hz|Hz].
  - cbv in H. simplify_eq. rewrite <- Hup. apply map_size_empty_inv in Hz. subst m.
    rewrite upsert_totals_lookup, lookup_empty. by destruct (t' =? t).
  - revert H. mrun. intros [= <- <-]. exact Hup.
Qed.

(** ** Locking, releasing and reserving rows *)

Lemma row_inv k s s' r : row k s = (s', Ok r) -> s' = s /\ ledger (mem s) !! k = Some r.
Proof.
  unfold row. mrun. destruct (ledger (mem s) !! k) eqn:E; cbv [of_option lift]; [|done].
  intros H. by simplify_eq.
Qed.

Lemma available_check_inv ks n s s' :
  forM ks (fun k => r ← row k; if available_rooms r <? n then raise InsufficientInventory else mret tt) s = (s', Ok tt) ->
  s' = s /\ forall k, In k ks -> exists r, ledger (mem s) !! k = Some r /\ n <= available_rooms r.
Proof.
  induction ks as [|k ks IH]; simpl; intros H; [by cbv [mret M_ret] in H; simplify_eq|].
  mbind_in H s1 u H1. mbind_in H1 s2 r Hr. apply row_inv in Hr as [-> Hr].
  destruct (Z.ltb_spec (available_rooms r) n); [done|]. cbv [mret M_ret] in H1. simplify_eq.
  destruct (IH H) as [-> Hks]. split; [done|]. intros k' [<-|Hk']; [by exists r|by apply Hks].
Qed.

Lemma select_ledger_run {B} t rt nights (c : list ledger_key -> M B) s :
  (select_ledger t rt nights ≫= c) s =
  c (keys_of t rt (List.filter (has_row (ledger (disk s)) t rt) (sorted_set nights))) s.
Proof. done. Qed.

Lemma map_date_keys t rt l : List.map key_date (keys_of t rt l) = l.
Proof. unfold keys_of. rewrite List.map_map. apply List.map_id. Qed.

(** The rows a lock returns: one per night, in date order, each with the
    rooms asked for. *)
Lemma lock_inv t rt nights n s s' rows :
  lock_and_validate_availability t rt nights n s = (s', Ok rows) ->
  s' = s /\ rows = keys_of t rt (sorted_set nights) /\
  forall k, In k rows -> exists r, ledger (mem s) !! k = Some r /\ n <= available_rooms r.
Proof.
  unfold lock_and_validate_availability. destruct nights as [|d ds] eqn:E.
  { intros H. cbv [mret M_ret] in H. simplify_eq. done. }
  rewrite <- E. clear E d ds. rewrite select_ledger_run, map_date_keys.
  unfold dates_eqb. destruct (bool_decide_reflect (List.filter (has_row (ledger (disk s)) t rt) (sorted_set nights) = sorted_set nights))
    as [Heq|]; [|done]. cbn [negb]. rewrite Heq. intros H.
  mbind_in H s1 u H1. destruct u. apply available_check_inv in H1 as [-> H1].
  cbv [mret M_ret] in H. simplify_eq. done.
Qed.

Lemma decrement_inv ks n s s' :
  decrement_booked_rooms ks n s = (s', Ok tt) ->
  s' = set_mem (on_ledger (update_rows (add_booked (- n)) ks) (mem s)) s /\
  forall k, In k ks -> is_Some (ledger (mem s) !! k).
Proof.
  unfold decrement_booked_rooms. revert s. induction ks as [|k ks IH]; intros s H; simpl in H.
  { cbv [mret M_ret] in H. simplify_eq. split; [by destruct s' as [? [] ? ? ? ?]|intros ? []]. }
  mbind_in H s1 u H1. unfold assign_row in H1. mrun_in H1. mbind_in H1 s2 r Hr.
  apply row_inv in Hr as [-> Hr]. destruct (booked_rooms r <? 0); [done|]. cbv [mret M_ret] in H1. simplify_eq.
  apply IH in H as [-> Hks]. split; [done|]. cbn in Hr.
  assert (Hk : is_Some (ledger (mem s) !! k)).
  { rewrite lookup_alter_eq in Hr. by destruct (ledger (mem s) !! k). }
  intros k' [<-|Hk']; [done|]. destruct (decide (k' = k)) as [->|Hne]; [done|].
  specialize (Hks k' Hk'). cbn in Hks. by rewrite lookup_alter_ne in Hks.
Qed.

Lemma increment_inv ks n s s' :
  increment_booked_rooms ks n s = (s', Ok tt) ->
  s' = set_mem (on_ledger (update_rows (add_booked n) ks) (mem s)) s.
Proof.
  unfold increment_booked_rooms. revert s. induction ks as [|k ks IH]; intros s H; simpl in H.
  { cbv [mret M_ret] in H. simplify_eq. by destruct s' as [? [] ? ? ? ?]. }
  mbind_in H s1 u H1. unfold assign_row in H1. cbv [orm] in H1. simplify_eq. by apply IH in H as ->.
Qed.

(** Rooms booked on a row; none where there is no row. *)
Definition booked_at (L : ledger_map) (k : ledger_key) : Z :=
  match L !! k with Some r => booked_rooms r | None => 0 end.

Lemma booked_at_update n ks L k :
  List.NoDup ks -> (forall k', In k' ks -> is_Some (L !! k')) ->
  booked_at (update_rows (add_booked n) ks L) k = booked_at L k + (if bool_decide (k ∈ ks) then n else 0).
Proof.
  intros Hnd Hex. unfold booked_at. rewrite update_rows_lookup by done.
  destruct (bool_decide_reflect (k ∈ ks)) as [Hk|]; [|by rewrite Z.add_0_r].
  apply list_elem_of_In in Hk. destruct (Hex k Hk) as [r Hr]. rewrite Hr. cbn. done.
Qed.

(** ** Concrete ledgers *)

Definition sample_ledger : ledger_map :=
  <[(1, 7, 100) := MkLedger 2 1 0]> (<[(1, 7, 101) := MkLedger 2 0 1]> ∅).
Definition sample_db : DB := put_ledger sample_ledger empty_db.

Lemma sample_within_capacity : within_capacity sample_ledger.
Proof.
  intros k r H. unfold sample_ledger in H.
  apply lookup_insert_Some in H as [[_ <-]|[_ H]]; [simpl; lia|].
  apply lookup_insert_Some in H as [[_ <-]|[_ H]]; [simpl; lia|]. by rewrite lookup_empty in H.
Qed.

(** Two creators race for the last room of two nights: one wins. *)
Lemma claims_never_overbook_witness :
  let race := [ClaimRequest 1 7 [100; 101] 1; ClaimRequest 1 7 [100; 101] 1] in
  (claim_all race (1, 7, 100) sample_db).2 = 1 /\
  within_capacity (ledger (claim_all race (1, 7, 100) sample_db).1) /\
  ledger (claim_all race (1, 7, 100) sample_db).1 !! (1, 7, 100) = Some (MkLedger 2 2 0).
Proof.
  intros race.
  pose proof (claims_never_overbook race (1, 7, 100) sample_db sample_within_capacity) as [H1 H2].
  split; [reflexivity|]. split; [exact H1|]. etrans; [exact H2|reflexivity].
Defined.

Lemma override_keeps_capacity_witness :
  exists s', apply_blocked_rooms_override 1 (OverrideRequest 7 100 101 1) (start sample_db 0 0 0) =
    (s', Ok (2, 7, [100; 101])) /\ within_capacity (ledger (mem s')).
Proof.
  pose proof (override_keeps_capacity 1 (OverrideRequest 7 100 101 1) (start sample_db 0 0 0)
    eq_refl eq_refl ltac:(split; discriminate) ltac:(reflexivity) sample_within_capacity) as H.
  assert (Hr : exists s', apply_blocked_rooms_override 1 (OverrideRequest 7 100 101 1) (start sample_db 0 0 0) =
    (s', Ok (2, 7, [100; 101]))) by (eexists; reflexivity).
  destruct Hr as [s' Hr]. exists s'. split; [exact Hr|].
  rewrite Hr in H. cbv zeta in H. exact (proj1 (proj2 (proj2 (proj2 H)))).
Defined.

Definition sample_rooms_db : DB :=
  put_rooms [MkRoom 1 1 7 "101" "available" None "clean" "normal"; MkRoom 2 1 7 "102" "available" None "clean" "normal"]
    (put_room_types [MkRoomType 7 1 3 "Double" 2 2 None] sample_db).

Lemma bulk_seed_preserves_bookings_witness :
  exists s', bulk_seed_availability_ledger 1 [SeedSegment 7 101 102] (start sample_rooms_db 0 0 0) = (s', Ok 2) /\
    ledger (mem s') !! (1, 7, 101) = Some (MkLedger 2 0 1) /\
    ledger (mem s') !! (1, 7, 102) = Some (MkLedger 2 0 0).
Proof.
  assert (Hr : exists s', bulk_seed_availability_ledger 1 [SeedSegment 7 101 102] (start sample_rooms_db 0 0 0) = (s', Ok 2))
    by (eexists; reflexivity).
  destruct Hr as [s' Hr]. exists s'. split; [exact Hr|].
  assert (Hv : Forall valid_segment [SeedSegment 7 101 102])
    by (constructor; [split; [split; discriminate|reflexivity]|constructor]).
  pose proof (bulk_seed_preserves_bookings _ _ _ _ _ Hv Hr 1 7 101) as H1.
  pose proof (bulk_seed_preserves_bookings _ _ _ _ _ Hv Hr 1 7 102) as H2.
  split; [etrans; [exact H1|reflexivity]|etrans; [exact H2|reflexivity]].
Defined.
