(* ===== verification/Rates.v ===== *)
(** * Nightly rates and rate plans

    app/services/pricing_service.py, rates_admin_service.py and
    rate_plan_service.py, with [get_property] of property_service.py.  Prices
    are [Numeric(14, 2)] columns, held in cents; a price that comes in as a
    Decimal is rounded half away from zero by the column. *)

From stdpp Require Import gmap.
From S2P Require Import Prelude PyDecimal StayDates Models Session.

Abbreviation rate_map := (gmap rate_key Rate).

(** Storing a Decimal in a [Numeric(14, 2)] column. *)
Definition numeric_14_2 (x : dec) : result Z :=
  let c := if -2 <=? expo x then mant x * 10 ^ (expo x + 2)
           else round_div ROUND_HALF_UP (mant x) (10 ^ (-2 - expo x)) in
  if Z.abs c <? 10 ^ 14 then Ok c else Err DataError.

Definition property_is (tenant_id property_id : Z) (p : Property) : bool :=
  (p_tenant p =? tenant_id) && (p_id p =? property_id).

Definition get_property (tenant_id property_id : Z) : M (option Property) :=
  scalar (property_is tenant_id property_id).

(** ** pricing_service.py *)

(** The dictionary [by_date]: rows selected on disk, prices of the loaded rows. *)
Definition by_date_of (s : session) (tenant_id room_type_id rate_plan_id : Z) (d : date) : option Z :=
  let k := (tenant_id, room_type_id, rate_plan_id, d) in
  if bool_decide (is_Some (rates (disk s) !! k)) then rate_price <$> rates (mem s) !! k else None.

Definition load_prices (tenant_id room_type_id rate_plan_id : Z) : M (date -> option Z) := fun s =>
  (s, Ok (by_date_of s tenant_id room_type_id rate_plan_id)).

Definition sum_rates_for_stay (tenant_id room_type_id rate_plan_id : Z) (check_in check_out : date)
    : M (Z * list (date * Z)) :=
  nights ← lift (iter_stay_nights check_in check_out);
  by_date ← load_prices tenant_id room_type_id rate_plan_id;
  match List.filter (fun d => bool_decide (by_date d = None)) nights with
  | [] =>
      let per_night := omap (fun d => (fun p => (d, p)) <$> by_date d) nights in
      mret (sumZ (List.map snd per_night), per_night)
  | missing => raise (MissingRatesError missing)
  end.

(** ** rates_admin_service.py *)

Definition RatesServiceError (detail : string) (status_code : Z) : exn :=
  ServiceError "RatesServiceError" detail status_code.

Definition room_type_is (tenant_id room_type_id : Z) (r : RoomType) : bool :=
  (rt_tenant r =? tenant_id) && (rt_id r =? room_type_id).
Definition rate_plan_is (tenant_id rate_plan_id : Z) (r : RatePlan) : bool :=
  (rp_tenant r =? tenant_id) && (rp_id r =? rate_plan_id).

Definition require_room_type_and_plan_same_property (tenant_id room_type_id rate_plan_id : Z) : M unit :=
  rt ← scalar (room_type_is tenant_id room_type_id);
  rp ← scalar (rate_plan_is tenant_id rate_plan_id);
  match rt, rp with
  | None, _ => raise (RatesServiceError "room_type not found" 404)
  | _, None => raise (RatesServiceError "rate_plan not found" 404)
  | Some t, Some p =>
      if negb (rt_property t =? rp_property p)
      then raise (RatesServiceError "room type and rate plan must belong to the same property" 409)
      else mret tt
  end.

(** The rows of one room type and plan in a range, in date order. *)
Definition rates_between (R : rate_map) (tenant_id room_type_id rate_plan_id start_date end_date : Z)
    : list (rate_key * Rate) :=
  omap (fun d => let k := (tenant_id, room_type_id, rate_plan_id, d) in (fun r => (k, r)) <$> R !! k)
    (seqZ start_date (end_date - start_date + 1)).

Definition list_rates_for_period (tenant_id room_type_id rate_plan_id : Z) (start_date end_date : date)
    : M (list (rate_key * Rate)) :=
  if end_date <? start_date then raise (RatesServiceError "end_date must be on or after start_date" 422)
  else
    _ ← require_room_type_and_plan_same_property tenant_id room_type_id rate_plan_id;
    query (fun d => rates_between (rates d) tenant_id room_type_id rate_plan_id start_date end_date).

(** [list(dict.fromkeys(l))]: first occurrences, in order. *)
Fixpoint fromkeys (seen l : list Z) : list Z :=
  match l with
  | [] => []
  | x :: l' =>
      if existsb (Z.eqb x) seen then fromkeys seen l' else x :: fromkeys (x :: seen) l'
  end.

Definition list_rates_for_room_types_period (tenant_id : Z) (room_type_ids : list Z) (rate_plan_id : Z)
    (start_date end_date : date) : M (list (rate_key * Rate)) :=
  if end_date <? start_date then raise (RatesServiceError "end_date must be on or after start_date" 422)
  else
    let uniq := fromkeys [] room_type_ids in
    match uniq with
    | [] => raise (RatesServiceError "room_type_ids cannot be empty" 422)
    | _ =>
        rp ← scalar (rate_plan_is tenant_id rate_plan_id);
        match rp with
        | None => raise (RatesServiceError "rate_plan not found" 404)
        | Some p =>
            found ← select (R := RoomType) (fun r => (rt_tenant r =? tenant_id) && existsb (Z.eqb (rt_id r)) uniq);
            if negb (length found =? length uniq)%nat
            then raise (RatesServiceError "one or more room_types not found" 404)
            else if existsb (fun r => negb (rt_property r =? rp_property p)) found
            then raise (RatesServiceError "room types must belong to the same property as the rate plan" 409)
            else query (fun d => List.concat (List.map (fun rt =>
                   rates_between (rates d) tenant_id rt rate_plan_id start_date end_date) (sorted_set uniq)))
        end
    end.

Record rate_segment := RateSegment {
  rs_room_type : Z; rs_rate_plan : Z; rs_start : date; rs_end : date;
  rs_price : dec; rs_stop_sell : bool; rs_min_stay : option Z; rs_max_stay : option Z }.

(** [BulkRateSegment]: field constraints and [validate_range]. *)
Definition rate_segment_valid (g : rate_segment) : bool :=
  dec_leb (dec_of_int 0) (rs_price g) && (rs_start g <=? rs_end g) && (rs_end g - rs_start g + 1 <=? 366)
  && (1 <=? default 1 (rs_min_stay g)) && (1 <=? default 1 (rs_max_stay g))
  && match rs_min_stay g, rs_max_stay g with Some lo, Some hi => lo <=? hi | _, _ => true end.

(** The dictionary of rows to write: insertion-ordered, one per key. *)
Definition pending_rates := list (Z * Z * date * rate_segment).

Fixpoint pending_set (k : Z * Z * date) (v : rate_segment) (m : pending_rates) : pending_rates :=
  match m with
  | [] => [(k, v)]
  | (k', v') :: m' =>
      if bool_decide (k = k') then (k', v) :: m' else (k', v') :: pending_set k v m'
  end.

Fixpoint rate_rows (tenant_id : Z) (segments : list rate_segment) (by_key : pending_rates) : M pending_rates :=
  match segments with
  | [] => mret by_key
  | seg :: rest =>
      _ ← require_room_type_and_plan_same_property tenant_id (rs_room_type seg) (rs_rate_plan seg);
      ds ← lift (iter_inclusive_dates (rs_start seg) (rs_end seg));
      rate_rows tenant_id rest
        (List.fold_left (fun m d => pending_set (rs_room_type seg, rs_rate_plan seg, d) seg m) ds by_key)
  end.

(** The row a segment stores. *)
Definition rate_of_segment (g : rate_segment) : result Rate :=
  p ← numeric_14_2 (rs_price g); Ok (MkRate p (rs_stop_sell g) (rs_min_stay g) (rs_max_stay g)).

(** [insert(Rate).values(rows).on_conflict_do_update(...)]: all columns of the
    row come from the excluded row. *)
Definition upsert_rates (tenant_id : Z) (rows : list (Z * Z * date * Rate)) (R : rate_map) : rate_map :=
  List.fold_left (fun R (kr : Z * Z * date * Rate) =>
    let '((rt, rp, d), r) := kr in <[(tenant_id, rt, rp, d) := r]> R) rows R.

Definition on_rates (f : rate_map -> rate_map) (d : DB) : DB := put_rates (f (rates d)) d.

Definition bulk_upsert_rates (tenant_id : Z) (segments : list rate_segment)
    : M (Z * list (Z * Z * date * string)) :=
  rows ← rate_rows tenant_id segments [];
  match rows with
  | [] => mret (0, [])
  | _ =>
      stored ← lift (mapR (fun kv : Z * Z * date * rate_segment => r ← rate_of_segment kv.2; Ok (kv.1, r)) rows);
      _ ← execute (on_rates (upsert_rates tenant_id stored));
      mret (Z.of_nat (length rows), List.map (fun kv => (kv.1, format_f (rs_price kv.2))) rows)
  end.

(** ** rate_plan_service.py *)

Definition RatePlanServiceError (detail : string) (status_code : Z) : exn :=
  ServiceError "RatePlanServiceError" detail status_code.

Definition get_rate_plan (tenant_id rate_plan_id : Z) : M (option RatePlan) :=
  scalar (rate_plan_is tenant_id rate_plan_id).

Definition create_rate_plan (tenant_id property_id : Z) (name policy : string) : M RatePlan :=
  prop ← get_property tenant_id property_id;
  match prop with
  | None => raise (RatePlanServiceError "property not found" 404)
  | Some _ =>
      i ← uuid4;
      let r := MkRatePlan i tenant_id property_id (strip name) (strip policy) in
      _ ← add r; _ ← flush; mret r
  end.

Definition patch_rate_plan (tenant_id rate_plan_id : Z) (name policy : option string) : M unit :=
  row ← get_rate_plan tenant_id rate_plan_id;
  match row with
  | None => raise (RatePlanServiceError "rate plan not found" 404)
  | Some r =>
      _ ← match name with Some n => assign (rp_id r) (set_rp_name (strip n)) | None => mret tt end;
      _ ← match policy with Some p => assign (rp_id r) (set_rp_policy (strip p)) | None => mret tt end;
      flush
  end.

(** [session.delete] of an AsyncSession is a coroutine: called without
    [await], it does nothing. *)
Definition unawaited_delete : M unit := mret tt.

Definition delete_rate_plan (tenant_id rate_plan_id : Z) : M unit :=
  row ← get_rate_plan tenant_id rate_plan_id;
  match row with
  | None => raise (RatePlanServiceError "rate plan not found" 404)
  | Some r =>
      ref ← scalar (R := Booking) (fun b =>
        (b_tenant b =? tenant_id) && bool_decide (b_rate_plan b = Some rate_plan_id));
      match ref with
      | Some _ => raise (RatePlanServiceError "cannot delete rate plan referenced by bookings" 409)
      | None =>
          _ ← execute (on_rates (base.filter (fun kr : rate_key * Rate =>
                let '((t, _, p, _), _) := kr in negb ((t =? tenant_id) && (p =? rate_plan_id)) = true)));
          _ ← unawaited_delete;
          flush
      end
  end.

Section listing.
Context {env : Env}.

Definition list_rate_plans (tenant_id : Z) (property_id : option Z) : M (list RatePlan) :=
  rs ← select (fun r => (rp_tenant r =? tenant_id) && match property_id with Some p => rp_property r =? p | None => true end);
  mret (order_by (fun a b => collate (rp_name a) (rp_name b)) rs).

End listing.
