(* ===== verification/RatesLaws.v ===== *)
(** * Laws of pricing and of the bulk upsert of rates *)

From stdpp Require Import gmap.
From S2P Require Import Prelude PyDecimal StayDates Models Session Rates.

(** ** The price of a stay *)

Definition price_at (R : rate_map) (t rt rp : Z) (d : date) : option Z :=
  rate_price <$> R !! (t, rt, rp, d).

Definition price_or (R : rate_map) (t rt rp : Z) (d : date) : Z := default 0 (price_at R t rt rp d).

Lemma omap_all_some {A B} (f : A -> option B) (g : A -> B) l :
  (forall x, In x l -> f x = Some (g x)) -> omap f l = List.map g l.
Proof.
  induction l as [|x l IH]; intros H; simpl; [done|]. rewrite (H x) by (by left).
  f_equal. apply IH. intros y Hy. apply H. by right.
Qed.

Lemma filter_nil {A} (p : A -> bool) l : List.filter p l = [] -> forall x, In x l -> p x = false.
Proof.
  induction l as [|y l IH]; simpl; [done|]. destruct (p y) eqn:E; [done|].
  intros H x [->|Hx]; [done|]. by apply IH.
Qed.

(** for a stay on a session with no pending rate, the price is the
    sum of the stored nightly rates and the lines are its consecutive nights
    each with its own rate; when a rate is missing the call raises
    [MissingRatesError] listing exactly the nights without one; it changes
    nothing. *)
Theorem sum_rates_for_stay_spec t rt rp ci co s :
  rates (disk s) = rates (mem s) -> valid_date ci -> valid_date co ->
  ci < co <= ci + MAX_STAY_NIGHTS ->
  let nights := seqZ ci (co - ci) in
  let R := rates (mem s) in
  let missing := List.filter (fun d => bool_decide (price_at R t rt rp d = None)) nights in
  sum_rates_for_stay t rt rp ci co s =
  (s, match missing with
      | [] => Ok (sumZ (List.map (price_or R t rt rp) nights),
                  List.map (fun d => (d, price_or R t rt rp d)) nights)
      | _ => Err (MissingRatesError missing)
      end).
Proof.
  intros Hsync Hi Ho Hlt nights R missing. unfold sum_rates_for_stay.
  rewrite iter_stay_nights_spec by done.
  destruct (Z.leb_spec co ci); [lia|]. destruct (Z.ltb_spec MAX_STAY_NIGHTS (co - ci)); [lia|].
  mrun. unfold load_prices, mbind at 1, M_bind. fold nights.
  set (f := by_date_of s t rt rp).
  assert (Hf : forall d, f d = price_at R t rt rp d).
  { intros d. unfold f, by_date_of, price_at. cbv zeta. rewrite Hsync. fold R.
    by destruct (R !! _). }
  assert (Hm : List.filter (fun d => bool_decide (f d = None)) nights = missing).
  { apply List.filter_ext. intros d. by rewrite Hf. }
  cbv beta iota. rewrite Hm. destruct missing as [|m ms] eqn:Em; [|done].
  pose proof (filter_nil _ _ Em) as Hall.
  assert (Hper : omap (fun d => (fun p => (d, p)) <$> f d) nights =
                 List.map (fun d => (d, price_or R t rt rp d)) nights).
  { apply omap_all_some. intros d Hd. specialize (Hall d Hd). rewrite Hf.
    apply bool_decide_eq_false in Hall. unfold price_or.
    destruct (price_at R t rt rp d); [done|]. by destruct Hall. }
  rewrite Hper, List.map_map. done.
Qed.

(** A price that is returned prices every night of the stay, in order. *)
Lemma sum_rates_inv t rt rp ci co s s' total per_night :
  sum_rates_for_stay t rt rp ci co s = (s', Ok (total, per_night)) ->
  s' = s /\ iter_stay_nights ci co = Ok (List.map fst per_night) /\ total = sumZ (List.map snd per_night).
Proof.
  unfold sum_rates_for_stay. destruct (iter_stay_nights ci co) as [nights|e]; [|by mrun]. mrun.
  unfold load_prices, mbind at 1, M_bind. set (f := by_date_of s t rt rp). cbv beta iota.
  destruct (List.filter _ nights) as [|m ms] eqn:Em; [|done].
  intros H. cbv [mret M_ret] in H. injection H as <- <- <-. split_and!; [done| |done]. f_equal.
  pose proof (filter_nil _ _ Em) as Hall. clear Em.
  induction nights as [|d ds IH]; [done|]. simpl.
  pose proof (Hall d ltac:(by left)) as Hd. apply bool_decide_eq_false in Hd.
  destruct (f d) as [p|]; [|done]. simpl. f_equal. apply IH. intros x Hx. apply Hall. by right.
Qed.

(** ** The bulk upsert *)

Definition in_segment (g : rate_segment) (rt rp : Z) (d : date) : bool :=
  (rs_room_type g =? rt) && (rs_rate_plan g =? rp) && (rs_start g <=? d) && (d <=? rs_end g).

(** The last segment that covers a night decides its rate. *)
Definition last_segment (segs : list rate_segment) (rt rp : Z) (d : date) : option rate_segment :=
  List.fold_left (fun acc g => if in_segment g rt rp d then Some g else acc) segs None.

Fixpoint pending_get {V} (k : Z * Z * date) (m : list (Z * Z * date * V)) : option V :=
  match m with
  | [] => None
  | (k', v) :: m' => if bool_decide (k = k') then Some v else pending_get k m'
  end.

Lemma pending_get_set k k' v m :
  pending_get k' (pending_set k v m) = if bool_decide (k' = k) then Some v else pending_get k' m.
Proof.
  induction m as [|[k0 v0] m IH]; simpl; [done|].
  destruct (decide (k = k0)) as [->|Hk].
  - rewrite bool_decide_eq_true_2 by done. simpl. by destruct (bool_decide (k' = k0)).
  - rewrite (bool_decide_eq_false_2 (k = k0)) by done. simpl. rewrite IH.
    destruct (decide (k' = k0)) as [->|H0]; [|by rewrite (bool_decide_eq_false_2 (k' = k0))].
    rewrite bool_decide_eq_true_2 by done. by rewrite bool_decide_eq_false_2.
Qed.

Lemma pending_set_keys k v m x : In x (List.map fst (pending_set k v m)) -> x = k \/ In x (List.map fst m).
Proof.
  induction m as [|[k0 v0] m IH]; simpl; [intuition congruence|].
  destruct (bool_decide (k = k0)); simpl; intuition congruence.
Qed.

Lemma pending_set_NoDup k v m :
  List.NoDup (List.map fst m) -> List.NoDup (List.map fst (pending_set k v m)).
Proof.
  induction m as [|[k0 v0] m IH]; simpl; intros H; [constructor; [simpl; tauto|constructor]|].
  apply List.NoDup_cons_iff in H as [Hni Hnd]. destruct (bool_decide_reflect (k = k0)) as [->|Hk]; simpl.
  - by constructor.
  - constructor; [|by apply IH]. intros [->|Hx]%pending_set_keys; [done|]. done.
Qed.

Definition range_step (g : rate_segment) (m : pending_rates) (d : date) : pending_rates :=
  pending_set (rs_room_type g, rs_rate_plan g, d) g m.

Lemma range_get g ds m rt rp d :
  pending_get (rt, rp, d) (List.fold_left (range_step g) ds m) =
  if (rs_room_type g =? rt) && (rs_rate_plan g =? rp) && existsb (Z.eqb d) ds
  then Some g else pending_get (rt, rp, d) m.
Proof.
  revert m. induction ds as [|d0 ds IH]; intros m; simpl; [by rewrite andb_false_r|].
  rewrite IH. unfold range_step. rewrite pending_get_set.
  destruct (Z.eqb_spec (rs_room_type g) rt) as [<-|]; cbn [andb].
  2:{ rewrite bool_decide_eq_false_2 by congruence. done. }
  destruct (Z.eqb_spec (rs_rate_plan g) rp) as [<-|]; cbn [andb].
  2:{ rewrite bool_decide_eq_false_2 by congruence. done. }
  destruct (existsb (Z.eqb d) ds); [by rewrite orb_true_r|]. rewrite orb_false_r.
  destruct (Z.eqb_spec d d0) as [->|]; [by rewrite bool_decide_eq_true_2|].
  rewrite bool_decide_eq_false_2 by congruence. done.
Qed.

Lemma range_NoDup g ds m :
  List.NoDup (List.map fst m) -> List.NoDup (List.map fst (List.fold_left (range_step g) ds m)).
Proof. revert m. induction ds as [|d ds IH]; intros m H; simpl; [done|]. by apply IH, pending_set_NoDup. Qed.

Lemma existsb_eqb_seqZ d a n : existsb (Z.eqb d) (seqZ a n) = (a <=? d) && (d <? a + n).
Proof.
  apply eq_bool_prop_intro. rewrite !Is_true_true, existsb_exists, andb_true_iff, Z.leb_le, Z.ltb_lt.
  split.
  - intros (x & Hx%In_seqZ & ->%Z.eqb_eq). lia.
  - intros H. exists d. split; [by apply In_seqZ|apply Z.eqb_refl].
Qed.

Definition valid_rate_segment (g : rate_segment) : Prop := valid_date (rs_start g) /\ rs_end g < MAXORD.

Lemma rate_rows_spec t segs s m0 s' m :
  Forall valid_rate_segment segs -> rate_rows t segs m0 s = (s', Ok m) ->
  List.NoDup (List.map fst m0) ->
  s' = s /\ List.NoDup (List.map fst m) /\
  forall rt rp d, pending_get (rt, rp, d) m =
    List.fold_left (fun acc g => if in_segment g rt rp d then Some g else acc) segs
      (pending_get (rt, rp, d) m0).
Proof.
  revert m0. induction segs as [|g segs IH]; intros m0 Hv H Hnd; simpl in H.
  { cbv [mret M_ret] in H. simplify_eq. done. }
  apply List.Forall_cons_iff in Hv as [[Hst Hend] Hv]. revert H.
  unfold require_room_type_and_plan_same_property. mrun.
  destruct (hd_error _) as [r|]; [|by mrun].
  destruct (hd_error _) as [p|]; [|by mrun]. destruct (negb _); mrun; [done|].
  unfold iter_inclusive_dates. rewrite days_through_spec by (try done; lia). mrun.
  fold (range_step g). intros H. destruct (IH _ Hv H) as (-> & Hm & Hget); [by apply range_NoDup|].
  split_and!; [done|done|]. intros rt rp d. rewrite Hget. simpl. f_equal.
  rewrite range_get, existsb_eqb_seqZ. unfold in_segment.
  replace (d <? rs_start g + (rs_end g - rs_start g + 1)) with (d <=? rs_end g).
  - by rewrite !andb_assoc.
  - destruct (Z.leb_spec d (rs_end g)), (Z.ltb_spec d (rs_start g + (rs_end g - rs_start g + 1))); lia.
Qed.

Lemma mapR_values {V W} (g : V -> result W) rows stored :
  mapR (fun kv : Z * Z * date * V => r ← g kv.2; Ok (kv.1, r)) rows = Ok stored ->
  List.map fst stored = List.map fst rows /\
  forall k, match pending_get k rows with
            | Some v => exists r, g v = Ok r /\ pending_get k stored = Some r
            | None => pending_get k stored = None
            end.
Proof.
  revert stored. induction rows as [|[k0 v0] rows IH]; intros stored H; simpl in H; [by simplify_eq|].
  destruct (g v0) as [r0|] eqn:Eg; [|done]. cbn in H. destruct (mapR _ rows) as [st|]; [|done].
  cbn in H. simplify_eq. destruct (IH st eq_refl) as [Hk Hg]. split; [simpl; by f_equal|].
  intros k. simpl. destruct (bool_decide (k = k0)); [by exists r0|apply Hg].
Qed.

Lemma upsert_rates_lookup t stored R t' rt rp d :
  List.NoDup (List.map fst stored) ->
  upsert_rates t stored R !! (t', rt, rp, d) =
  if t' =? t then match pending_get (rt, rp, d) stored with Some r => Some r | None => R !! (t', rt, rp, d) end
  else R !! (t', rt, rp, d).
Proof.
  unfold upsert_rates. revert R. induction stored as [|[[[rt0 rp0] d0] r0] st IH]; intros R Hnd; simpl.
  { by destruct (t' =? t). }
  apply List.NoDup_cons_iff in Hnd as [Hni Hnd]. rewrite IH by done.
  assert (Hnone : pending_get (rt0, rp0, d0) st = None).
  { clear -Hni. induction st as [|[k v] st IH]; [done|]. simpl in *.
    rewrite bool_decide_eq_false_2 by (intros <-; tauto). apply IH. tauto. }
  destruct (Z.eqb_spec t' t) as [->|Ht].
  - destruct (decide ((rt, rp, d) = (rt0, rp0, d0))) as [[= -> -> ->]|Hk].
    + rewrite bool_decide_eq_true_2 by done. by rewrite Hnone, lookup_insert_eq.
    + rewrite bool_decide_eq_false_2 by done. by rewrite lookup_insert_ne by congruence.
  - rewrite lookup_insert_ne; [done|congruence].
Qed.

(** after a bulk upsert, the rate of every (room type, plan, night) is
    the one of the last segment that covers it, its price rounded to cents,
    and every other rate is unchanged. *)
Theorem bulk_upsert_last_segment_wins t segs s s' res :
  Forall valid_rate_segment segs ->
  bulk_upsert_rates t segs s = (s', Ok res) ->
  forall t' rt rp d,
    match (if t' =? t then last_segment segs rt rp d else None) with
    | Some g => exists r, rate_of_segment g = Ok r /\ rates (mem s') !! (t', rt, rp, d) = Some r
    | None => rates (mem s') !! (t', rt, rp, d) = rates (mem s) !! (t', rt, rp, d)
    end.
Proof.
  intros Hv H t' rt rp d. unfold bulk_upsert_rates in H.
  apply bind_inv in H as (s1 & rows & Hrows & H).
  apply rate_rows_spec in Hrows as (-> & Hnd & Hget); [|done|constructor].
  specialize (Hget rt rp d). simpl in Hget. fold (last_segment segs rt rp d) in Hget.
  destruct rows as [|r0 rows0] eqn:Er.
  - cbv [mret M_ret] in H. simplify_eq. simpl in Hget. rewrite <- Hget. by destruct (t' =? t).
  - rewrite <- Er in *. clear r0 rows0 Er. revert H.
    destruct (mapR _ rows) as [stored|e] eqn:Es; mrun; [|done]. intros [= <- _]. cbn.
    apply (mapR_values rate_of_segment) in Es as [Hk Hg]. specialize (Hg (rt, rp, d)). rewrite Hget in Hg.
    rewrite upsert_rates_lookup by (by rewrite Hk).
    destruct (t' =? t); [|done]. destruct (last_segment segs rt rp d) as [g|].
    + destruct Hg as (r & Hr & Hp). exists r. split; [done|]. by rewrite Hp.
    + by rewrite Hg.
Qed.

(** ** Deleting a rate plan *)

(** deleting a rate plan no booking refers to removes its rates but,
    the deletion of the row itself being a coroutine that is never awaited,
    leaves the plan in the table. *)
Theorem delete_rate_plan_keeps_the_plan t rp s s' :
  rate_plans (disk s) = rate_plans (mem s) ->
  delete_rate_plan t rp s = (s', Ok tt) ->
  rate_plans (mem s') = rate_plans (mem s) /\ rate_plans (disk s') = rate_plans (disk s) /\
  forall rt d, rates (mem s') !! (t, rt, rp, d) = None.
Proof.
  intros Hsync. unfold delete_rate_plan, get_rate_plan. mrun.
  destruct (hd_error _) as [r|]; [|by mrun]. mrun. destruct (hd_error _); [by mrun|]. mrun.
  unfold unawaited_delete. mrun. intros [= <-]. cbn. split_and!; [done|by rewrite Hsync|].
  intros rt d. apply map_lookup_filter_None. right. intros r0 _. cbn. rewrite !Z.eqb_refl. done.
Qed.

(** ** A concrete price list *)

Definition sample_rates : rate_map :=
  <[(1, 7, 5, 100) := MkRate 12000 false None None]> (<[(1, 7, 5, 101) := MkRate 15050 false None None]> ∅).
Definition rates_db : DB :=
  put_rate_plans [MkRatePlan 5 1 3 "BAR" "flex"]
    (put_room_types [MkRoomType 7 1 3 "Double" 2 2 None] (put_rates sample_rates empty_db)).

Lemma sum_rates_for_stay_spec_witness :
  sum_rates_for_stay 1 7 5 100 102 (start rates_db 0 0 0) =
    (start rates_db 0 0 0, Ok (27050, [(100, 12000); (101, 15050)])) /\
  (sum_rates_for_stay 1 7 5 100 103 (start rates_db 0 0 0)).2 = Err (MissingRatesError [102]).
Proof.
  split.
  - refine (eq_trans (sum_rates_for_stay_spec 1 7 5 100 102 (start rates_db 0 0 0) eq_refl _ _ _) _);
      [split; discriminate..|unfold MAX_STAY_NIGHTS; lia|reflexivity].
  - refine (eq_trans (f_equal snd (sum_rates_for_stay_spec 1 7 5 100 103 (start rates_db 0 0 0) eq_refl _ _ _)) _);
      [split; discriminate..|unfold MAX_STAY_NIGHTS; lia|reflexivity].
Defined.

Lemma bulk_upsert_last_segment_wins_witness :
  let segs := [RateSegment 7 5 100 102 (Dec 100 0) false None None; RateSegment 7 5 101 101 (Dec 99995 (-3)) false None None] in
  exists s' res, bulk_upsert_rates 1 segs (start rates_db 0 0 0) = (s', Ok res) /\
    (exists r, rate_of_segment (RateSegment 7 5 101 101 (Dec 99995 (-3)) false None None) = Ok r /\
       rates (mem s') !! (1, 7, 5, 101) = Some r /\ rate_price r = 10000).
Proof.
  intros segs.
  assert (H : exists p, bulk_upsert_rates 1 segs (start rates_db 0 0 0) = (p.1, Ok p.2)).
  { eexists (_, _). reflexivity. }
  destruct H as [[s' res] H]. exists s', res. split; [exact H|].
  assert (Hv : Forall valid_rate_segment segs).
  { repeat constructor; discriminate. }
  destruct (bulk_upsert_last_segment_wins _ _ _ _ _ Hv H 1 7 5 101) as (r & Hr & Hl).
  exists r. split; [exact Hr|]. split; [exact Hl|]. cbv in Hr. by simplify_eq.
Defined.

Lemma delete_rate_plan_keeps_the_plan_witness :
  exists s', delete_rate_plan 1 5 (start rates_db 0 0 0) = (s', Ok tt) /\
    rate_plans (mem s') = [MkRatePlan 5 1 3 "BAR" "flex"].
Proof.
  assert (H : exists s', delete_rate_plan 1 5 (start rates_db 0 0 0) = (s', Ok tt)) by (eexists; reflexivity).
  destruct H as [s' H]. exists s'. split; [exact H|].
  exact (proj1 (delete_rate_plan_keeps_the_plan 1 5 (start rates_db 0 0 0) s' eq_refl H)).
Defined.
