(* ===== verification/Folio.v ===== *)
(** * The folio

    app/services/folio_service.py (balance, entries, reversals, country-pack
    taxes), folio_category_service.py (charge categories), [record_audit] of
    audit_service.py and [get_tax_config] of tax_service.py.  Stored amounts
    are cents; a Decimal that reaches a column goes through [numeric_14_2]. *)

From stdpp Require Import gmap.
From S2P Require Import Prelude PyDecimal PyJson StayDates Tax Models Session Rates.

Definition COUNTRY_PACK_TAX_PREFIX : string := "[country-pack-tax]".

(** [Decimal.quantize(Decimal("0.01"))]: half even, at the context's 28 digits. *)
Definition quantize_cents_even (x : dec) : result dec := dec_quantize ROUND_HALF_EVEN x (-2).

(** ** audit_service.py *)

Definition record_audit (tenant_id : Z) (action entity_type : string) (entity_id : option Z) : M unit :=
  i ← uuid4; t ← get_now; add (MkAuditLog i tenant_id action entity_type entity_id t).

(** ** folio_category_service.py *)

Definition BUILTIN_CHARGE_ROWS : list (string * string * Z) :=
  [("room_charge", "Room charge", 0); ("food_beverage", "Food & beverage", 10); ("spa", "Spa", 20);
   ("minibar", "Minibar", 30); ("tax", "Tax", 40); ("discount", "Discount", 50);
   ("misc", "Miscellaneous", 60); ("service", "Service", 70)]%string.

Definition FolioCategoryError (detail : string) (status_code : Z) : exn :=
  ServiceError "FolioCategoryError" detail status_code.

Definition category_is (tenant_id : Z) (code : string) (c : FolioChargeCategory) : bool :=
  (fc_tenant c =? tenant_id) && String.eqb (fc_code c) code.

Definition ensure_builtin_categories (tenant_id : Z) : M unit :=
  _ ← forM BUILTIN_CHARGE_ROWS (fun '(code, label, sort_order) =>
    exists_ ← query (fun d => existsb (category_is tenant_id code) (categories d));
    if (exists_ : bool) then mret tt
    else i ← uuid4; add (MkFolioChargeCategory i tenant_id code label true true sort_order));
  flush.

Definition active_category_codes (tenant_id : Z) : M (list string) :=
  _ ← ensure_builtin_categories tenant_id;
  query (fun d => List.map fc_code
    (List.filter (fun c => (fc_tenant c =? tenant_id) && fc_active c) (categories d))).

Definition get_category_by_code (tenant_id : Z) (code : string) : M (option FolioChargeCategory) :=
  _ ← ensure_builtin_categories tenant_id; scalar (category_is tenant_id code).

Section categories.
Context {env : Env}.

Definition list_categories (tenant_id : Z) : M (list FolioChargeCategory) :=
  _ ← ensure_builtin_categories tenant_id;
  rows ← select (R := FolioChargeCategory) (fun c => fc_tenant c =? tenant_id);
  mret (order_by (fun a b => (fc_sort a <? fc_sort b)
    || ((fc_sort a =? fc_sort b) && collate (fc_code a) (fc_code b))) rows).
End categories.

(** The unique constraint on (tenant, code) turns the flush into a 409. *)
Definition create_category (tenant_id : Z) (code label : string) (is_active : bool) (sort_order : Z)
    : M FolioChargeCategory :=
  _ ← ensure_builtin_categories tenant_id;
  i ← uuid4;
  let r := MkFolioChargeCategory i tenant_id code label false is_active sort_order in
  taken ← query (fun d => existsb (category_is tenant_id code) (categories d));
  if (taken : bool) then raise (FolioCategoryError "category code already exists" 409)
  else _ ← add r; _ ← flush; mret r.

Definition update_category (tenant_id : Z) (code : string) (label : option string)
    (sort_order : option Z) (is_active : option bool) : M unit :=
  _ ← ensure_builtin_categories tenant_id;
  row ← get_category_by_code tenant_id code;
  match row with
  | None => raise (FolioCategoryError "category not found" 404)
  | Some r =>
      _ ← match label with Some v => assign (fc_id r) (set_fc_label v) | None => mret tt end;
      _ ← match sort_order with Some v => assign (fc_id r) (set_fc_sort v) | None => mret tt end;
      _ ← match is_active with Some v => assign (fc_id r) (set_fc_active v) | None => mret tt end;
      flush
  end.

Definition delete_category (tenant_id : Z) (code : string) : M unit :=
  _ ← ensure_builtin_categories tenant_id;
  row ← get_category_by_code tenant_id code;
  match row with
  | None => raise (FolioCategoryError "category not found" 404)
  | Some r =>
      if fc_builtin r then raise (FolioCategoryError "cannot delete built-in category" 400)
      else _ ← remove (R := FolioChargeCategory) (fc_id r); flush
  end.

(** ** folio_service.py *)

Definition booking_is (tenant_id booking_id : Z) (b : Booking) : bool :=
  (b_tenant b =? tenant_id) && (b_id b =? booking_id).

Definition require_booking (tenant_id booking_id : Z) : M Booking :=
  b ← scalar (booking_is tenant_id booking_id);
  lift (of_option b (FolioError "booking not found" 404)).

Definition on_folio (tenant_id booking_id : Z) (f : FolioTransaction) : bool :=
  (f_tenant f =? tenant_id) && (f_booking f =? booking_id).

Definition is_charge (f : FolioTransaction) : bool := String.eqb (f_type f) "Charge".
Definition is_payment (f : FolioTransaction) : bool := String.eqb (f_type f) "Payment".

(** [sum(case((p, amount), else_=0))] *)
Definition sum_case (p : FolioTransaction -> bool) (l : list FolioTransaction) : Z :=
  sumZ (List.map (fun f => if p f then f_amount f else 0) l).

Definition folio_rows (tenant_id booking_id : Z) (d : DB) : list FolioTransaction :=
  List.filter (on_folio tenant_id booking_id) (folio d).

Definition balance_of (l : list FolioTransaction) : Z := sum_case is_charge l - sum_case is_payment l.

Definition sum_booking_charge_amounts (tenant_id booking_id : Z) : M Z :=
  query (fun d => sumZ (List.map f_amount
    (List.filter (fun f => on_folio tenant_id booking_id f && is_charge f) (folio d)))).

Definition compute_folio_balance (tenant_id booking_id : Z) : M Z :=
  query (fun d => balance_of (folio_rows tenant_id booking_id d)).

(** [select(func.max(BookingLine.date))] of a booking's lines. *)
Definition max_line_date (d : DB) (tenant_id booking_id : Z) : option date :=
  List.fold_right (fun l acc =>
    if (l_tenant l =? tenant_id) && (l_booking l =? booking_id) then
      Some (match acc with Some m => Z.max (l_date l) m | None => l_date l end)
    else acc) None (lines d).

Definition unpaid_row (d : DB) (tenant_id property_id : Z) (last_night : option date) (checked_out_only : bool)
    (b : Booking) : list (Z * Z * string * string) :=
  let bal := balance_of (folio_rows tenant_id (b_id b) d) in
  if (b_tenant b =? tenant_id) && (b_property b =? property_id)
     && existsb (on_folio tenant_id (b_id b)) (folio d) && (0 <? bal)
     && (negb checked_out_only || String.eqb (b_status b) "checked_out")
     && match last_night with
        | Some n => bool_decide (max_line_date d tenant_id (b_id b) = Some n)
        | None => true
        end
  then List.map (fun g => (b_id b, bal, g_first g, g_last g))
         (List.filter (fun g => (g_tenant g =? b_tenant b) && (g_id g =? b_guest b)) (guests d))
  else [].

Definition list_unpaid_folio_summary_for_property (tenant_id property_id : Z)
    (departed_on : option date) (checked_out_only : bool) : M (list (Z * Z * string * string)) :=
  last_night ← lift (match departed_on with
                     | Some d => n ← date_add d (-1); Ok (Some n)
                     | None => Ok None
                     end);
  query (fun d =>
    order_by (fun (x y : Z * Z * string * string) => y.1.1.2 <=? x.1.1.2)
      (List.concat (List.map (unpaid_row d tenant_id property_id last_night checked_out_only) (bookings d)))).

(** [ORDER BY created_at, id] *)
Definition folio_order (a b : FolioTransaction) : bool :=
  (f_created_at a <? f_created_at b) || ((f_created_at a =? f_created_at b) && (f_id a <=? f_id b)).

Definition list_folio_transactions (tenant_id booking_id : Z) : M (list FolioTransaction * Z) :=
  _ ← require_booking tenant_id booking_id;
  rows ← select (on_folio tenant_id booking_id);
  balance ← compute_folio_balance tenant_id booking_id;
  mret (order_by folio_order rows, balance).

Record folio_post := FolioPost {
  fp_charge : bool;              (** [entry_type == "charge"] *)
  fp_amount : dec; fp_category : string; fp_description : option string; fp_method : option string }.

(** [x.strip() if x else None] *)
Definition strip_or_none (o : option string) : option string :=
  match o with Some s => if truthy s then Some (strip s) else None | None => None end.

Definition insert_folio (tenant_id booking_id : Z) (tx_type : string) (amount : dec)
    (method desc : option string) (created_by : option Z) (category : string) : M FolioTransaction :=
  i ← uuid4; t ← get_now;
  c ← lift (numeric_14_2 amount);
  let f := MkFolioTransaction i tenant_id booking_id tx_type c method desc t created_by category None in
  _ ← add f; mret f.

Definition add_folio_entry (tenant_id booking_id : Z) (body : folio_post) (created_by : option Z)
    : M FolioTransaction :=
  _ ← require_booking tenant_id booking_id;
  '(stored_amount, tx_type, payment_method) ←
    (if fp_charge body then
       allowed ← active_category_codes tenant_id;
       if negb (str_in (fp_category body) allowed) then
         raise (FolioError "invalid category for charge" 422)
       else if String.eqb (fp_category body) "discount" then
         mret (dec_neg (dec_abs (fp_amount body)), "Charge"%string, None)
       else mret (fp_amount body, "Charge"%string, None)
     else mret (fp_amount body, "Payment"%string, strip_or_none (fp_method body)));
  q ← lift (quantize_cents_even stored_amount);
  tx ← insert_folio tenant_id booking_id tx_type q payment_method
         (strip_or_none (fp_description body)) created_by (fp_category body);
  _ ← flush;
  _ ← record_audit tenant_id "folio.post" "folio_transaction" (Some (f_id tx));
  mret tx.

Section reversal.
Context {env : Env}.

Definition reverse_folio_transaction (tenant_id booking_id transaction_id : Z) (created_by : option Z)
    : M FolioTransaction :=
  _ ← require_booking tenant_id booking_id;
  tx ← scalar (fun f => on_folio tenant_id booking_id f && (f_id f =? transaction_id));
  match tx with
  | None => raise (FolioError "folio transaction not found" 404)
  | Some tx =>
      if f_amount tx =? 0 then raise (FolioError "cannot reverse zero-amount transaction" 409)
      else
        q ← lift (quantize_cents_even (dec_neg (cents (f_amount tx))));
        rev ← insert_folio tenant_id booking_id (f_type tx) q (f_method tx)
                (Some ("Reversal of " ++ uuid_str transaction_id)%string) created_by (f_category tx);
        _ ← flush;
        _ ← record_audit tenant_id "folio.reverse" "folio_transaction" (Some (f_id rev));
        mret rev
  end.
End reversal.

(** ** Country-pack taxes *)

Definition is_pack_tax (f : FolioTransaction) : bool :=
  is_charge f && String.eqb (f_category f) "tax"
  && match f_desc f with Some s => String.prefix COUNTRY_PACK_TAX_PREFIX s | None => false end.

Definition get_tax_config (tenant_id property_id : Z) : M (option tax_config) :=
  query (fun d => List.find (fun c => (cfg_tenant c =? tenant_id) && (cfg_property c =? property_id)) (tax_configs d)).

(** The read policy of country_packs: built-in packs and the tenant's own. *)
Definition pack_readable (tenant_id : Z) (p : CountryPack) : bool :=
  (cp_builtin p && bool_decide (cp_tenant p = None)) || bool_decide (cp_tenant p = Some tenant_id).

Definition get_pack (tenant_id : Z) (code : string) : M (option CountryPack) :=
  query (fun d => List.find (fun p => pack_readable tenant_id p && String.eqb (cp_code p) code) (country_packs d)).

Definition pack_tax_description (l : tax_line) : string :=
  (COUNTRY_PACK_TAX_PREFIX ++ " " ++ tl_code l ++ ": " ++ tl_name l)%string.

Definition post_tax_lines (tenant_id booking_id : Z) (ls : list tax_line) : M unit :=
  forM ls (fun l =>
    q ← lift (quantize_cents_even (tl_amount l));
    _ ← insert_folio tenant_id booking_id "Charge" q None (Some (pack_tax_description l)) None "tax";
    mret tt).

Definition replace_country_pack_tax_charges (tenant_id booking_id property_id : Z) (base_room_charge : dec)
    : M dec :=
  _ ← require_booking tenant_id booking_id;
  _ ← execute_delete (fun f => on_folio tenant_id booking_id f && is_pack_tax f);
  _ ← flush;
  prop ← scalar (property_is tenant_id property_id);
  match prop ≫= p_pack with
  | None => lift (quantize_cents_even base_room_charge)
  | Some code =>
      if negb (truthy code) then lift (quantize_cents_even base_room_charge)
      else
        cfg ← get_tax_config tenant_id property_id;
        let mode := match cfg with Some c => cfg_mode c | None => mode_exclusive end in
        if bool_decide (mode = mode_off) then lift (quantize_cents_even base_room_charge)
        else
          pack ← get_pack tenant_id (strip code);
          match pack with
          | None => lift (quantize_cents_even base_room_charge)
          | Some pack =>
              posting ← lift (calculate_country_pack_tax_posting base_room_charge (cp_taxes pack)
                                "room_charge" (Some mode));
              _ ← post_tax_lines tenant_id booking_id (tp_lines posting);
              _ ← flush;
              mret (tp_room_charge posting)
          end
  end.
