(* ===== verification/FolioLaws.v ===== *)
(** * Laws of the folio *)

From stdpp Require Import gmap.
From S2P Require Import Prelude PyDecimal PyJson StayDates Tax TaxLaws Models Session Rates Folio.

(** ** Inserting rows *)

Lemma numeric_cents c x : numeric_14_2 (cents c) = Ok x -> x = c /\ Z.abs c < 10 ^ 14.
Proof.
  unfold numeric_14_2, cents. cbn [expo mant]. change (-2 <=? -2) with true. cbv iota zeta.
  change (10 ^ (-2 + 2)) with 1. rewrite Z.mul_1_r.
  destruct (Z.ltb_spec (Z.abs c) (10 ^ 14)); [|done]. intros [= <-]. done.
Qed.

Lemma bind_lift_inv {A B} (r : result A) (k : A -> M B) s s' b :
  (lift r ≫= k) s = (s', Ok b) -> exists a, r = Ok a /\ k a s = (s', Ok b).
Proof. destruct r as [a|e]; [|done]. intros H. by exists a. Qed.

(** The row a call inserts. *)
Definition is_posted (t bid : Z) (ty : string) (amount : Z) (method desc : option string)
    (by_ : option Z) (category : string) (f : FolioTransaction) : Prop :=
  f_tenant f = t /\ f_booking f = bid /\ f_type f = ty /\ f_amount f = amount /\
  f_method f = method /\ f_desc f = desc /\ f_created_by f = by_ /\ f_category f = category.

(** Sessions that differ at most in the folio being extended, unflushed. *)
Definition append_folio (fs : list FolioTransaction) (s s' : session) : Prop :=
  disk s' = disk s /\ mem s' = put_folio (folio (mem s) ++ fs) (mem s) /\ expired s' = expired s /\
  now s' = now s /\ today s' = today s.

Lemma insert_folio_inv t bid ty amount method desc by_ category s s' f :
  insert_folio t bid ty amount method desc by_ category s = (s', Ok f) ->
  append_folio [f] s s' /\ exists c, numeric_14_2 amount = Ok c /\ is_posted t bid ty c method desc by_ category f.
Proof.
  unfold insert_folio. intros H. apply bind_inv in H as (s1 & i & H1 & H). cbv in H1. simplify_eq.
  revert H. mrun. intros H. apply bind_lift_inv in H as (c & Hc & H). revert H. unfold add. mrun.
  intros [= <- <-]. split; [done|]. by exists c.
Qed.

Lemma append_folio_trans fs gs s s1 s2 :
  append_folio fs s s1 -> append_folio gs s1 s2 -> append_folio (fs ++ gs) s s2.
Proof.
  intros (Hd1 & Hm1 & He1 & Hn1 & Ht1) (Hd2 & Hm2 & He2 & Hn2 & Ht2).
  unfold append_folio. rewrite Hd2, Hd1, Hm2, Hm1, He2, He1, Hn2, Hn1, Ht2, Ht1.
  split_and!; try done. cbn. by rewrite app_assoc.
Qed.

Lemma append_folio_nil s : append_folio [] s s.
Proof. unfold append_folio. rewrite app_nil_r. split_and!; try done. by destruct s as [? [] ? ? ? ?]. Qed.

Definition tax_row (t bid : Z) (l : tax_line) (f : FolioTransaction) : Prop :=
  is_posted t bid "Charge" (line_cents l) None (Some (pack_tax_description l)) None "tax" f.

Lemma quantize_even_cents c x : quantize_cents_even (cents c) = Ok x -> fits c -> x = cents c.
Proof. unfold quantize_cents_even. intros H Hf. rewrite quantize_cents in H by done. by simplify_eq. Qed.

Lemma post_tax_lines_inv t bid ls s s' :
  Forall in_cents ls -> post_tax_lines t bid ls s = (s', Ok tt) ->
  exists rows, append_folio rows s s' /\ Forall2 (tax_row t bid) ls rows.
Proof.
  unfold post_tax_lines. revert s. induction ls as [|l ls IH]; intros s Hc H; simpl in H.
  { cbv [mret M_ret] in H. simplify_eq. exists []. split; [apply append_folio_nil|constructor]. }
  apply List.Forall_cons_iff in Hc as [Hl Hc].
  apply bind_inv in H as (s1 & [] & H1 & H). apply bind_lift_inv in H1 as (q & Hq & H1).
  apply bind_inv in H1 as (s2 & f & H2 & H1). cbv [mret M_ret] in H1. simplify_eq.
  destruct (insert_folio_inv _ _ _ _ _ _ _ _ _ _ _ H2) as (Ha & c & Hn & Hp).
  destruct Hl as (c0 & Hl & Hfit). rewrite Hl in Hq. apply quantize_even_cents in Hq as ->; [|done].
  apply numeric_cents in Hn as [-> _].
  destruct (IH _ Hc H) as (rows & Hr & Hf). exists (f :: rows). split.
  - by apply (append_folio_trans [f] rows _ _ _ Ha).
  - constructor; [|done]. unfold tax_row. replace (line_cents l) with c0; [done|].
    unfold line_cents. by rewrite Hl, to_cents_cents.
Qed.

(** ** Country-pack taxes *)

Lemma prefix_app p s : String.prefix p (p ++ s)%string = true.
Proof.
  induction p as [|c p IH]; [by destruct s|]. simpl. destruct (ascii_dec c c); [done|congruence].
Qed.

Lemma tax_row_is_pack_tax t bid l f : tax_row t bid l f -> on_folio t bid f && is_pack_tax f = true.
Proof.
  intros (Ht & Hb & Hty & _ & _ & Hd & _ & Hcat). unfold on_folio, is_pack_tax, is_charge.
  rewrite Ht, Hb, Hty, Hcat, Hd, !Z.eqb_refl. unfold pack_tax_description. apply prefix_app.
Qed.

Definition pack_taxes (t bid : Z) (l : list FolioTransaction) : list FolioTransaction :=
  List.filter (fun f => on_folio t bid f && is_pack_tax f) l.
Definition other_rows (t bid : Z) (l : list FolioTransaction) : list FolioTransaction :=
  List.filter (fun f => negb (on_folio t bid f && is_pack_tax f)) l.

Lemma pack_taxes_rows t bid old ls rows :
  Forall2 (tax_row t bid) ls rows ->
  pack_taxes t bid (other_rows t bid old ++ rows) = rows /\
  other_rows t bid (other_rows t bid old ++ rows) = other_rows t bid old /\
  sumZ (List.map f_amount rows) = sumZ (List.map line_cents ls).
Proof.
  intros H. unfold pack_taxes, other_rows. rewrite !List.filter_app, filter_filter_neg, filter_idem.
  assert (Hall : forall f, In f rows -> on_folio t bid f && is_pack_tax f = true).
  { intros f Hf. induction H as [|l g ls rows Hlg _ IH]; [done|].
    destruct Hf as [<-|Hf]; [by eapply tax_row_is_pack_tax|by apply IH]. }
  split_and!.
  - clear H. induction rows as [|f rows IH]; [done|]. simpl. rewrite (Hall f) by (by left).
    simpl in IH. f_equal. apply IH. intros g Hg. apply Hall. by right.
  - replace (List.filter _ rows) with (@nil FolioTransaction); [apply app_nil_r|].
    clear H. induction rows as [|f rows IH]; [done|]. simpl. rewrite (Hall f) by (by left).
    simpl. apply IH. intros g Hg. apply Hall. by right.
  - induction H as [|l g ls rows Hlg _ IH]; [done|]. simpl. rewrite IH.
    + destruct Hlg as (_ & _ & _ & -> & _). done.
    + intros f Hf. apply Hall. by right.
Qed.

(** The tax mode of a property: its tax configuration's, exclusive without
    one. *)
Definition tax_mode_of (d : DB) (t pid : Z) : tax_mode :=
  match List.find (fun c => (cfg_tenant c =? t) && (cfg_property c =? pid)) (tax_configs d) with
  | Some c => cfg_mode c
  | None => mode_exclusive
  end.

(** The pack whose code a property names, if the tenant may read it. *)
Definition pack_of_property (d : DB) (t pid : Z) : option CountryPack :=
  p ← List.find (property_is t pid) (properties d);
  code ← p_pack p;
  if truthy code then List.find (fun p => pack_readable t p && String.eqb (cp_code p) (strip code)) (country_packs d) else None.

(** The pack that taxes a property's stays, and how. *)
Definition taxing (d : DB) (t pid : Z) : option (tax_mode * CountryPack) :=
  if bool_decide (tax_mode_of d t pid = mode_off) then None else pair (tax_mode_of d t pid) <$> pack_of_property d t pid.

(** What they prescribe for a room charge: the charge that is kept for the
    room, and the tax lines. *)
Definition prescribed (d : DB) (t pid base room : Z) (ls : list tax_line) : Prop :=
  match taxing d t pid with
  | None => room = base /\ ls = []
  | Some (mode, pack) =>
      exists posting, calculate_country_pack_tax_posting (cents base) (cp_taxes pack) "room_charge" (Some mode) = Ok posting /\
        tp_room_charge posting = cents room /\ ls = tp_lines posting
  end.

Lemma quantize_even_inv c x : quantize_cents_even (cents c) = Ok x -> x = cents c.
Proof.
  unfold quantize_cents_even, dec_quantize. change (-2 <=? expo (cents c)) with true. cbv iota zeta.
  replace (scaled (cents c) (-2)) with c by (unfold scaled; cbn; lia).
  destruct (ndigits c <=? prec); [|done]. by intros [= <-].
Qed.

Lemma posting_in_cents base raw cat m p :
  calculate_country_pack_tax_posting (cents base) raw cat m = Ok p ->
  Forall in_cents (tp_lines p) /\ exists r, tp_room_charge p = cents r.
Proof.
  unfold calculate_country_pack_tax_posting. intros H. apply bind_Ok in H as (g & Hg & H).
  apply quantize_ok in Hg as (c & -> & Hf).
  assert (H' : p = TaxPosting [] (cents c) (cents c) \/
    exists calc raw' room total, calculate_taxes_from_rules (cents c) raw' cat = Ok calc /\
      p = TaxPosting (tc_lines calc) room total /\ exists r, room = cents r).
  { destruct m as [[]|]; [by simplify_eq; left|..]; right;
      apply bind_Ok in H as (calc & Hc & H); cbn in H;
      [apply bind_Ok in H as (tt' & Htt & H); apply bind_Ok in H as (room & Hr & H);
       apply quantize_ok in Hr as (r & -> & _)|..];
      try (apply bind_Ok in H as (total & Ht & H));
      simplify_eq; eexists calc, _, _, _; (split; [exact Hc|]); (split; [reflexivity|]); eauto. }
  destruct H' as [->|(calc & raw' & room & total & Hc & -> & Hr)]; simpl.
  - split; [constructor|eauto].
  - split; [by eapply calculate_in_cents|done].
Qed.

Lemma replace_inv t bid pid base s s' room :
  List.NoDup (List.map p_id (properties (mem s))) ->
  replace_country_pack_tax_charges t bid pid (cents base) s = (s', Ok room) ->
  exists r ls rows,
    room = cents r /\ Forall2 (tax_row t bid) ls rows /\ prescribed (mem s) t pid base r ls /\
    mem s' = put_folio (other_rows t bid (folio (mem s)) ++ rows) (mem s) /\ disk s' = mem s'.
Proof.
  unfold replace_country_pack_tax_charges, require_booking. intros Hnd H.
  mbind_in H s1 b Hb. mrun_in Hb.
  destruct (of_option _ _) in Hb; [|done]. cbv [lift] in Hb. simplify_eq.
  unfold execute_delete in H. rewrite run_execute, run_flush in H.
  set (d2 := put_table _ (mem s1)) in H.
  assert (Hnone : forall s2, mem s2 = d2 -> disk s2 = d2 -> taxing (mem s1) t pid = None -> lift (quantize_cents_even (cents base)) s2 = (s', Ok room) ->
    exists r ls rows, room = cents r /\ Forall2 (tax_row t bid) ls rows /\ prescribed (mem s1) t pid base r ls /\
      mem s' = put_folio (other_rows t bid (folio (mem s1)) ++ rows) (mem s1) /\ disk s' = mem s').
  { intros s2 Hm Hd Htax Hl. cbv [lift] in Hl. injection Hl as <- Hq. apply quantize_even_inv in Hq as ->.
    exists base, [], []. rewrite app_nil_r. unfold prescribed. rewrite Htax.
    split; [done|]. split; [constructor|]. split; [done|]. by rewrite Hm, Hd. }
  rewrite run_scalar_synced in H by done. cbn [mem disk set_mem set_disk] in H.
  change (table d2) with (properties (mem s1)) in H. set (s2 := set_disk d2 _) in H. specialize (Hnone s2 eq_refl eq_refl).
  unfold prescribed, taxing, pack_of_property in Hnone |- *.
  destruct (List.find (property_is t pid) (properties (mem s1))) as [p|]; cbn [mbind option_bind] in H, Hnone |- *;
    [|apply Hnone; [by case_bool_decide|exact H]].
  destruct (p_pack p) as [code|]; cbn [mbind option_bind] in H, Hnone |- *;
    [|apply Hnone; [by case_bool_decide|exact H]].
  destruct (truthy code); cbn [negb] in H; [|apply Hnone; [by case_bool_decide|exact H]].
  unfold get_tax_config, get_pack in H. rewrite run_query in H.
  match type of H with context [if bool_decide (?m = mode_off) then _ else _] => change m with (tax_mode_of (mem s1) t pid) in H end.
  destruct (bool_decide_reflect (tax_mode_of (mem s1) t pid = mode_off)) as [|Hoff]; [by apply Hnone|]. rewrite run_query in H.
  change (country_packs (disk s2)) with (country_packs (mem s1)) in H.
  destruct (List.find _ (country_packs (mem s1))) as [pack|]; [|by apply Hnone]. clear Hnone.
  apply bind_lift_inv in H as (posting & Hp & H). mbind_in H s3 u Hpost.
  destruct (posting_in_cents _ _ _ _ _ Hp) as [Hc [r Hr]]. destruct u.
  apply post_tax_lines_inv in Hpost as (rows & (Hd & Hm & _) & Hrows); [|done].
  mrun_in H. injection H as <- <-. exists r, (tp_lines posting), rows.
  split; [done|]. split; [done|]. split; [by exists posting|]. done.
Qed.

Lemma q2_cents_inv c x : q2 (cents c) = Ok x -> x = cents c.
Proof.
  unfold q2, dec_quantize. change (-2 <=? expo (cents c)) with true. cbv iota zeta.
  replace (scaled (cents c) (-2)) with c by (unfold scaled; cbn; lia).
  destruct (ndigits c <=? prec); [|done]. by intros [= <-].
Qed.

Lemma cents_inj a b : cents a = cents b -> a = b.
Proof. by intros [=]. Qed.

(** The room charge that is kept beside the taxes. *)
Lemma prescribed_room d t pid base r ls :
  prescribed d t pid base r ls -> lines_fit 0 ls ->
  match taxing d t pid with
  | Some (mode_inclusive, _) => r + sumZ (List.map line_cents ls) = base
  | _ => r = base
  end.
Proof.
  unfold prescribed, taxing. intros H Hf. case_bool_decide as Hoff; [by destruct H|].
  destruct (pack_of_property d t pid) as [pack|]; [|by destruct H]. cbn in H |- *.
  destruct (tax_mode_of d t pid); [done| |]; destruct H as (posting & Hp & Hr & ->).
  - destruct (inclusive_exact _ _ _ _ Hp Hf) as [Hq He].
    apply q2_cents_inv in Hq. rewrite Hr, Hq, !to_cents_cents in He. done.
  - unfold calculate_country_pack_tax_posting in Hp.
    apply bind_Ok in Hp as (g & Hg & Hp). apply q2_cents_inv in Hg as ->.
    cbn in Hp. apply bind_Ok in Hp as (calc & _ & Hp). apply bind_Ok in Hp as (tot & _ & Hp).
    simplify_eq. cbn in Hr. by apply cents_inj in Hr.
Qed.

Lemma lines_fit_rows t bid ls rows : Forall2 (tax_row t bid) ls rows ->
  lines_fit 0 ls <-> fits (sumZ (List.map (fun f => Z.abs (f_amount f)) rows)).
Proof.
  intros H. unfold lines_fit. rewrite Z.abs_0, Z.add_0_l.
  replace (sumZ (List.map (fun l => Z.abs (line_cents l)) ls)) with (sumZ (List.map (fun f => Z.abs (f_amount f)) rows)); [done|].
  induction H as [|l f ls rows (_ & _ & _ & Ha & _) _ IH]; [done|]. simpl. by rewrite IH, Ha.
Qed.

(** C12: reposting the country-pack taxes of a booking for a given room
    charge leaves on its folio exactly the tax lines that the pack named by the
    property prescribes under the property's tax mode, and none where the mode
    is off or the property has no readable pack, whatever lines a previous
    posting had left.  It touches no other row of the database, and conserves
    the charge: in inclusive mode the amount kept for the room plus the tax
    lines is the gross charge, otherwise the room keeps it whole. *)
Theorem pack_taxes_replaced t bid pid base s s' r :
  List.NoDup (List.map p_id (properties (mem s))) ->
  replace_country_pack_tax_charges t bid pid (cents base) s = (s', Ok (cents r)) ->
  fits (sumZ (List.map (fun f => Z.abs (f_amount f)) (pack_taxes t bid (folio (mem s'))))) ->
  let posted := pack_taxes t bid (folio (mem s')) in
  mem s' = put_folio (other_rows t bid (folio (mem s)) ++ posted) (mem s) /\
  disk s' = mem s' /\
  match taxing (mem s) t pid with
  | None => posted = [] /\ r = base
  | Some (mode, pack) =>
      exists posting, calculate_country_pack_tax_posting (cents base) (cp_taxes pack) "room_charge" (Some mode) = Ok posting /\
        tp_room_charge posting = cents r /\ Forall2 (tax_row t bid) (tp_lines posting) posted /\
        match mode with mode_inclusive => r + sumZ (List.map f_amount posted) = base | _ => r = base end
  end.
Proof.
  intros Hnd H Hf posted.
  destruct (replace_inv _ _ _ _ _ _ _ Hnd H) as (r' & ls & rows & Hr & Hrows & Hp & Hm & Hd).
  apply cents_inj in Hr as <-. unfold posted in *. clear posted.
  assert (Hfo : folio (mem s') = other_rows t bid (folio (mem s)) ++ rows) by (by rewrite Hm).
  rewrite Hfo in Hf |- *.
  destruct (pack_taxes_rows t bid (folio (mem s)) ls rows Hrows) as (Hpt & _ & Hs).
  rewrite Hpt in Hf |- *. split; [done|]. split; [done|].
  assert (Hfit : lines_fit 0 ls) by (by apply (lines_fit_rows _ _ _ _ Hrows)).
  pose proof (prescribed_room _ _ _ _ _ _ Hp Hfit) as Hroom. rewrite <-Hs in Hroom. unfold prescribed in Hp.
  destruct (taxing (mem s) t pid) as [[mode pack]|].
  - destruct Hp as (posting & Hp & Hrc & ->). exists posting. by destruct mode.
  - destruct Hp as [-> ->]. by inversion Hrows.
Qed.

(** ** Balance *)

Lemma sum_case_app p l1 l2 : sum_case p (l1 ++ l2) = sum_case p l1 + sum_case p l2.
Proof. unfold sum_case. by rewrite List.map_app, sumZ_app. Qed.

Lemma balance_app l1 l2 : balance_of (l1 ++ l2) = balance_of l1 + balance_of l2.
Proof. unfold balance_of. rewrite !sum_case_app. lia. Qed.

(** What a row contributes to the balance of its booking. *)
Definition contribution (f : FolioTransaction) : Z :=
  if is_charge f then f_amount f else if is_payment f then - f_amount f else 0.

Lemma balance_one f : balance_of [f] = contribution f.
Proof.
  unfold balance_of, sum_case, contribution, is_charge, is_payment. cbn.
  destruct (String.eqb_spec (f_type f) "Charge") as [->|]; [cbn; lia|].
  destruct (String.eqb (f_type f) "Payment"); lia.
Qed.

Definition balance (d : DB) (t bid : Z) : Z := balance_of (folio_rows t bid d).

Lemma balance_append d f t bid :
  on_folio t bid f = true ->
  balance (put_folio (folio d ++ [f]) d) t bid = balance d t bid + contribution f.
Proof.
  intros H. unfold balance, folio_rows. cbn. rewrite List.filter_app. cbn. rewrite H.
  by rewrite balance_app, balance_one.
Qed.

Lemma is_posted_on t bid ty c m de by_ cat f : is_posted t bid ty c m de by_ cat f -> on_folio t bid f = true.
Proof. unfold on_folio. intros (-> & -> & _). by rewrite !Z.eqb_refl. Qed.

Lemma record_audit_inv t a e i s s' :
  record_audit t a e i s = (s', Ok tt) -> folio (mem s') = folio (mem s) /\ folio (disk s') = folio (disk s).
Proof. unfold record_audit, uuid4. cbv. intros [= <-]. done. Qed.

Section reversal.
Context {env : Env} (t bid tid : Z) (by_ : option Z) (s s' : session) (rev : FolioTransaction).

(** C14: reversing a transaction of a booking adds one opposite row and
    takes the contribution of the reversed row back out of the balance; the
    reversed row itself is kept. *)
Theorem reversal_restores_balance :
  synced FolioTransaction s ->
  reverse_folio_transaction t bid tid by_ s = (s', Ok rev) ->
  exists tx, In tx (folio (mem s)) /\ f_id tx = tid /\ on_folio t bid tx = true /\
    f_amount tx <> 0 /\ f_amount rev = - f_amount tx /\ f_type rev = f_type tx /\
    folio (mem s') = folio (mem s) ++ [rev] /\
    balance (mem s') t bid = balance (mem s) t bid - contribution tx.
Proof.
  intros Hsync H. unfold reverse_folio_transaction, require_booking in H.
  mbind_in H s1 b Hb. mrun_in Hb. destruct (of_option _ _) in Hb; [|done]. cbv [lift] in Hb. simplify_eq.
  rewrite run_scalar_synced in H by done.
  destruct (List.find _ _) as [tx|] eqn:Hf; [|by mrun_in H].
  apply find_some in Hf as [Hin Hp]. apply andb_prop in Hp as [Hon Hid%Z.eqb_eq].
  destruct (Z.eqb_spec (f_amount tx) 0) as [|Hne]; [by mrun_in H|].
  apply bind_lift_inv in H as (q & Hq & H).
  assert (Hqc : q = cents (- f_amount tx)).
  { unfold quantize_cents_even, dec_neg in Hq. by apply quantize_fix in Hq as [_ ->]. }
  subst q. clear Hq. mbind_in H s2 f Hins. apply insert_folio_inv in Hins as ((Hd & Hm & _) & c & Hc & Hpost).
  apply numeric_cents in Hc as [-> _]. mrun_in H. mbind_in H s3 u Hau. destruct u.
  apply record_audit_inv in Hau as [Hfm _]. cbv [mret M_ret] in H. simplify_eq. cbn in Hfm.
  rewrite Hm in Hfm. cbn in Hfm.
  pose proof Hpost as (_ & _ & Hty & Ham & _).
  exists tx. split_and!; try done.
  unfold balance, folio_rows. rewrite Hfm.
  change (balance_of (List.filter (on_folio t bid) (folio (mem s1) ++ [rev])) =
          balance_of (List.filter (on_folio t bid) (folio (mem s1))) - contribution tx).
  rewrite List.filter_app. cbn [List.filter]. rewrite (is_posted_on _ _ _ _ _ _ _ _ _ Hpost).
  rewrite balance_app, balance_one. unfold contribution, is_charge, is_payment. rewrite Hty, Ham.
  destruct (String.eqb (f_type tx) "Charge"); [lia|]. destruct (String.eqb (f_type tx) "Payment"); lia.
Qed.
End reversal.

(** ** Posting entries *)

(** Creating the missing categories touches no folio row. *)
Lemma ensure_builtin_frame t F :
  preserves (fun s => folio (mem s) = F) (ensure_builtin_categories t).
Proof.
  unfold ensure_builtin_categories. apply preserves_bind.
  - apply preserves_forM. intros [[code label] so] _.
    apply preserves_bind; [apply preserves_query|]. intros [|]; [apply preserves_ret|].
    apply preserves_bind.
    + intros s s' r Hs Hx. cbv [uuid4] in Hx. by simplify_eq.
    + intros i. unfold add. apply preserves_orm. intros s Hs. exact Hs.
  - intros _ s s' r Hs Hx. cbv [flush] in Hx. by simplify_eq.
Qed.

Lemma active_codes_frame t F :
  preserves (fun s => folio (mem s) = F) (active_category_codes t).
Proof.
  unfold active_category_codes. apply preserves_bind; [apply ensure_builtin_frame|].
  intros _. apply preserves_query.
Qed.

(** The signed amount an entry stores before rounding. *)
Definition signed_amount (body : folio_post) : dec :=
  if fp_charge body && String.eqb (fp_category body) "discount" then dec_neg (dec_abs (fp_amount body))
  else fp_amount body.

(** a posted entry adds exactly one row to the booking's folio, with
    the entered amount rounded to cents (negated for a discount); a charge
    raises the balance by it and a payment lowers the balance by it. *)
Theorem folio_entry_moves_balance t bid body by_ s s' f :
  add_folio_entry t bid body by_ s = (s', Ok f) ->
  folio (mem s') = folio (mem s) ++ [f] /\ on_folio t bid f = true /\
  f_type f = (if fp_charge body then "Charge" else "Payment")%string /\
  quantize_cents_even (signed_amount body) = Ok (cents (f_amount f)) /\
  balance (mem s') t bid = balance (mem s) t bid + (if fp_charge body then f_amount f else - f_amount f).
Proof.
  unfold add_folio_entry, require_booking. intros H.
  mbind_in H s1 b Hb. mrun_in Hb. destruct (of_option _ _) in Hb; [|done]. cbv [lift] in Hb. simplify_eq.
  mbind_in H s2 p Hpre. destruct p as [[amount ty] method].
  assert (Hp : folio (mem s2) = folio (mem s1) /\ amount = signed_amount body /\
               ty = (if fp_charge body then "Charge" else "Payment")%string).
  { unfold signed_amount. destruct (fp_charge body); cbn [andb].
    - mbind_in Hpre s3 codes Hc. apply (active_codes_frame t (folio (mem s1))) in Hc; [|done].
      destruct (negb _); [done|].
      destruct (String.eqb _ _); cbv [mret M_ret] in Hpre; by simplify_eq.
    - cbv [mret M_ret] in Hpre. by simplify_eq. }
  destruct Hp as (Hfo & -> & ->). clear Hpre. apply bind_lift_inv in H as (q & Hq & H).
  pose proof Hq as Hqc. apply quantize_ok in Hqc as (c & -> & _).
  mbind_in H s3 tx Hins. apply insert_folio_inv in Hins as ((Hd & Hm & _) & c' & Hc & Hpost).
  apply numeric_cents in Hc as [-> _]. mrun_in H. mbind_in H s4 u Hau. destruct u.
  apply record_audit_inv in Hau as [Hfm _]. cbv [mret M_ret] in H. simplify_eq. cbn in Hfm.
  rewrite Hm in Hfm. cbn in Hfm. rewrite Hfo in Hfm.
  pose proof Hpost as (_ & _ & Hty & Ham & _). pose proof (is_posted_on _ _ _ _ _ _ _ _ _ Hpost) as Hon.
  rewrite Ham. split_and!; try done.
  unfold balance, folio_rows. rewrite Hfm.
  rewrite List.filter_app. cbn [List.filter]. rewrite Hon.
  rewrite balance_app, balance_one. unfold contribution, is_charge, is_payment. rewrite Hty, Ham.
  by destruct (fp_charge body).
Qed.

(** ** A concrete folio *)

Definition folio_db : DB :=
  put_country_packs [MkCountryPack "TH" None "Thailand" "THB" "B" "before" 2 "Asia/Bangkok" "DD/MM/YYYY" "th-TH" 14 12 thai_pack JNull None true]
  (put_tax_configs [TaxConfig 1 3 mode_inclusive "VAT" (Dec 7 (-2))]
  (put_properties [MkProperty 3 1 "Hotel" (Some "TH"%string) "UTC" "THB" 14 12]
  (put_folio [MkFolioTransaction 50 1 9 "Charge" 100000 None (Some "Room charge (stay)"%string) 10 None "room_charge" None;
              MkFolioTransaction 51 1 9 "Charge" 77 None (Some "[country-pack-tax] OLD: Old"%string) 10 None "tax" None]
  (put_bookings [MkBooking 9 1 3 4 (Some 5) None "confirmed" "api" 100000 None] empty_db)))).

Lemma pack_taxes_replaced_witness :
  exists s', replace_country_pack_tax_charges 1 9 3 (cents 100000) (start folio_db 20 0 60) = (s', Ok (cents 84367)) /\
    84367 + sumZ (List.map f_amount (pack_taxes 1 9 (folio (mem s')))) = 100000.
Proof.
  assert (H : exists s', replace_country_pack_tax_charges 1 9 3 (cents 100000) (start folio_db 20 0 60) =
      (s', Ok (cents 84367)) /\
    fits (sumZ (List.map (fun f => Z.abs (f_amount f)) (pack_taxes 1 9 (folio (mem s')))))).
  { eexists. split; [vm_compute; reflexivity|]. unfold fits. vm_compute. reflexivity. }
  destruct H as (s' & H & Hf). exists s'. split; [exact H|].
  destruct (pack_taxes_replaced 1 9 3 100000 (start folio_db 20 0 60) s' 84367) as (_ & _ & Hp); [|exact H|exact Hf|].
  - repeat constructor; simpl; tauto.
  - destruct Hp as (posting & _ & _ & _ & Hc). exact Hc.
Defined.

Lemma reversal_restores_balance_witness :
  exists s' rev, reverse_folio_transaction (env := sample_env) 1 9 50 None (start folio_db 20 0 60) = (s', Ok rev) /\
    f_amount rev = -100000.
Proof.
  assert (H : exists p, reverse_folio_transaction (env := sample_env) 1 9 50 None (start folio_db 20 0 60) = (p.1, Ok p.2)).
  { eexists (_, _). vm_compute. reflexivity. }
  destruct H as [[s' rev] H]. exists s', rev. split; [exact H|].
  assert (Hs : synced FolioTransaction (start folio_db 20 0 60)).
  { split; [reflexivity|]. repeat constructor; simpl; intuition congruence. }
  destruct (reversal_restores_balance (env := sample_env) 1 9 50 None _ s' rev Hs H) as (tx & Hin & Hid & _ & _ & Ha & _).
  rewrite Ha. destruct Hin as [<-|[<-|[]]]; [reflexivity|discriminate].
Defined.

Lemma folio_entry_moves_balance_witness :
  let body := FolioPost false (Dec 250 0) "payment" None (Some "card"%string) in
  exists s' f, add_folio_entry 1 9 body None (start folio_db 20 0 60) = (s', Ok f) /\
    balance (mem s') 1 9 = 100077 - 25000.
Proof.
  intros body.
  assert (H : exists p, add_folio_entry 1 9 body None (start folio_db 20 0 60) = (p.1, Ok p.2)).
  { eexists (_, _). vm_compute. reflexivity. }
  destruct H as [[s' f] H]. exists s', f. split; [exact H|].
  destruct (folio_entry_moves_balance 1 9 body None _ s' f H) as (_ & _ & _ & Hq & Hb).
  rewrite Hb. assert (Hf : f_amount f = 25000) by (vm_compute in Hq; by simplify_eq).
  rewrite Hf. reflexivity.
Defined.
