(* ===== verification/Extension.v ===== *)
(** * Country-pack extensions

    app/services/extension_service.py: the registry of extensions, their
    activation on a property, and the guest fields they require at check-in. *)

From S2P Require Import Prelude PyJson StayDates Models Session Rates.

Definition ExtensionServiceError (detail : string) (status_code : Z) : exn :=
  ServiceError "ExtensionServiceError" detail status_code.

Section extension.
Context {env : Env}.

Definition register_extension (tenant_id : Z) (code name : string) (country : option string)
    (webhook_url : string) (required_fields : list string) : M CountryPackExtension :=
  let code := strip code in
  existing ← scalar (fun e => (ex_tenant e =? tenant_id) && String.eqb (ex_code e) code);
  match existing with
  | Some _ => raise (ExtensionServiceError "extension code already registered" 409)
  | None =>
      i ← uuid4;
      let r := MkCountryPackExtension i tenant_id code (strip name) country (strip webhook_url)
                 (JArr (List.map JStr required_fields)) true in
      _ ← add r; _ ← flush; mret r
  end.

Definition list_extensions (tenant_id : Z) (country_code : option string) : M (list CountryPackExtension) :=
  rows ← select (fun e => (ex_tenant e =? tenant_id) &&
    match country_code with
    | Some c => match ex_country e with Some c' => String.eqb c' (upper (strip c)) | None => true end
    | None => true
    end);
  mret (order_by (fun a b => collate (ex_code a) (ex_code b)) rows).

Definition set_pe (config : option json) (is_active : bool) (x : PropertyExtension) : PropertyExtension :=
  MkPropertyExtension (pe_id x) (pe_tenant x) (pe_property x) (pe_extension x) config is_active (pe_created_at x).

Definition upsert_property_extension (tenant_id property_id extension_id : Z) (config : option json)
    (is_active : bool) : M unit :=
  prop ← get_property tenant_id property_id;
  match prop with
  | None => raise (ExtensionServiceError "property not found" 404)
  | Some _ =>
      ext ← scalar (fun e => (ex_tenant e =? tenant_id) && (ex_id e =? extension_id));
      match ext with
      | None => raise (ExtensionServiceError "extension not found" 404)
      | Some _ =>
          row ← scalar (fun p => (pe_tenant p =? tenant_id) && (pe_property p =? property_id)
                                 && (pe_extension p =? extension_id));
          _ ← match row with
              | None => i ← uuid4; t ← get_now;
                        add (MkPropertyExtension i tenant_id property_id extension_id config is_active t)
              | Some r => assign (pe_id r) (set_pe config is_active)
              end;
          flush
      end
  end.

Definition list_property_extensions (tenant_id property_id : Z) : M (list PropertyExtension) :=
  rows ← select (fun p => (pe_tenant p =? tenant_id) && (pe_property p =? property_id));
  mret (order_by (fun a b => pe_created_at a <=? pe_created_at b) rows).

(** ** Check-in validation *)

Definition present_str (o : option string) : bool :=
  match o with Some s => truthy (strip s) | None => false end.

(** [getattr(guest, field, None)] is not None and not a blank string. *)
Definition guest_field_present (guest : Guest) (field : string) : bool :=
  if str_in field ["id"; "tenant_id"; "vip_status"; "created_at"; "updated_at"]%string then true
  else if String.eqb field "first_name" then present_str (Some (g_first guest))
  else if String.eqb field "last_name" then present_str (Some (g_last guest))
  else if String.eqb field "email" then present_str (Some (g_email guest))
  else if String.eqb field "phone" then present_str (Some (g_phone guest))
  else if String.eqb field "passport_data" then present_str (g_passport guest)
  else if String.eqb field "nationality" then present_str (g_nationality guest)
  else if String.eqb field "date_of_birth" then bool_decide (is_Some (g_birth guest))
  else if String.eqb field "notes" then present_str (g_notes guest)
  else python_attr field.

Definition missing_fields (guest : Guest) (rf : list json) : list string :=
  List.filter (fun key => negb (guest_field_present guest key))
    (List.filter truthy (List.map (fun f => strip (py_str f)) rf)).

(** The message of one activated extension, if it has one. *)
Definition extension_message (guest : Guest) (exts : list CountryPackExtension) (ln : PropertyExtension)
    : option string :=
  match List.find (fun e => ex_id e =? pe_extension ln) (rev exts) with
  | None => None
  | Some ext =>
      if negb (ex_active ext) then None
      else match ex_required ext with
           | JArr rf =>
               match missing_fields guest rf with
               | [] => None
               | missing => Some (ex_code ext ++ " requires: " ++ py_join ", " missing)%string
               end
           | _ => None
           end
  end.

Definition validate_extension_required_fields_for_checkin (tenant_id property_id : Z) (guest : Guest)
    : M (list string) :=
  links ← select (fun p => (pe_tenant p =? tenant_id) && (pe_property p =? property_id) && pe_active p);
  match links with
  | [] => mret []
  | _ =>
      let ext_ids := List.map pe_extension links in
      ext_rows ← select (fun e => (ex_tenant e =? tenant_id) && existsb (Z.eqb (ex_id e)) ext_ids && ex_active e);
      mret (omap (extension_message guest ext_rows) links)
  end.

End extension.

(** ** Correctness *)

Section correctness.
Context {env : Env}.

(** An active extension, activated on the property, that requires a field the
    guest does not have. *)
Definition blocks (d : DB) (t pid : Z) (guest : Guest) (ln : PropertyExtension) (ext : CountryPackExtension)
    (rf : list json) (key : string) : Prop :=
  In ln (property_extensions d) /\ pe_tenant ln = t /\ pe_property ln = pid /\ pe_active ln = true /\
  In ext (extensions d) /\ ex_tenant ext = t /\ ex_id ext = pe_extension ln /\ ex_active ext = true /\
  ex_required ext = JArr rf /\ In key (List.map (fun f => strip (py_str f)) rf) /\ truthy key = true /\
  guest_field_present guest key = false.

Lemma missing_fields_In guest rf key :
  In key (missing_fields guest rf) <->
  In key (List.map (fun f => strip (py_str f)) rf) /\ truthy key = true /\ guest_field_present guest key = false.
Proof. unfold missing_fields. rewrite !filter_In, negb_true_iff. tauto. Qed.

Lemma find_by_id {R} `{Entity R} (l : list R) r i :
  List.NoDup (List.map ident l) -> In r l -> ident r = i ->
  List.find (fun x => ident x =? i) (rev l) = Some r.
Proof.
  intros Hnd Hin <-. apply find_ident; [|by apply in_rev in Hin].
  rewrite List.map_rev. by apply List.NoDup_rev.
Qed.

(** the check-in validation changes nothing and reports no message
    exactly when no active extension of the property requires a field the
    guest lacks. *)
Theorem checkin_validation_complete t pid guest s :
  synced PropertyExtension s -> synced CountryPackExtension s ->
  exists msgs, validate_extension_required_fields_for_checkin t pid guest s = (s, Ok msgs) /\
    (msgs = [] <-> ~ exists ln ext rf key, blocks (mem s) t pid guest ln ext rf key).
Proof.
  intros Hp He. unfold validate_extension_required_fields_for_checkin.
  rewrite run_select_synced by done.
  destruct (List.filter _ (table (mem s))) as [|l0 ls0] eqn:El.
  { eexists. split; [reflexivity|]. split; [|done]. intros _ (ln & ext & rf & key & Hin & Ht & Hpr & Ha & _).
    assert (Hx : In ln (List.filter (fun p => (pe_tenant p =? t) && (pe_property p =? pid) && pe_active p)
      (table (mem s)))) by (apply filter_In; split; [done|]; rewrite Ht, Hpr, Ha, !Z.eqb_refl; done).
    by rewrite El in Hx. }
  rewrite <- El. set (links := List.filter _ (table (mem s))).
  rewrite run_select_synced by done. set (exts := List.filter _ (table (mem s))).
  eexists. split; [reflexivity|].
  assert (Hnd : List.NoDup (List.map ident exts)).
  { unfold exts. apply NoDup_map_filter. apply He. }
  assert (Hext : forall ln ext, In ln links -> In ext (extensions (mem s)) -> ex_tenant ext = t ->
    ex_id ext = pe_extension ln -> ex_active ext = true -> In ext exts).
  { intros ln ext Hl Hin Ht Hid Ha. apply filter_In. split; [done|]. rewrite Ht, Ha, Z.eqb_refl.
    rewrite andb_true_r. apply existsb_exists. exists (pe_extension ln). rewrite Hid, Z.eqb_refl.
    split; [by apply in_map|done]. }
  split.
  - intros Hnil (ln & ext & rf & key & Hin & Ht & Hpr & Ha & Hex & Het & Hid & Hea & Hrf & Hkey).
    assert (Hln : In ln links) by (apply filter_In; split; [done|]; rewrite Ht, Hpr, Ha, !Z.eqb_refl; done).
    assert (Hm : extension_message guest exts ln <> None).
    { unfold extension_message.
      pose proof (find_by_id (R := CountryPackExtension) exts ext (pe_extension ln) Hnd (Hext ln ext Hln Hex Het Hid Hea) Hid) as Hfi.
      cbn [ident CountryPackExtension_entity] in Hfi. rewrite Hfi, Hea, Hrf. cbn [negb]. apply missing_fields_In in Hkey. by destruct (missing_fields guest rf). }
    destruct (extension_message guest exts ln) as [m|] eqn:Em; [|done].
    assert (Hmem : m ∈ omap (extension_message guest exts) links).
    { apply list_elem_of_omap. exists ln. split; [by apply list_elem_of_In|done]. }
    rewrite Hnil in Hmem. by apply not_elem_of_nil in Hmem.
  - intros Hno. destruct (omap _ links) as [|m ms] eqn:Em; [done|]. exfalso. apply Hno.
    assert (Hmem : m ∈ omap (extension_message guest exts) links) by (rewrite Em; by left).
    apply list_elem_of_omap in Hmem as (ln & Hln%list_elem_of_In & Hm). unfold extension_message in Hm.
    destruct (List.find _ _) as [ext|] eqn:Hf; [|done]. apply find_some in Hf as [Hr Hid%Z.eqb_eq].
    apply in_rev in Hr. apply filter_In in Hr as [Hex Hp2]. apply filter_In in Hln as [Hin Hp1].
    rewrite !andb_true_iff, !Z.eqb_eq in Hp1, Hp2. destruct (ex_active ext) eqn:Ea; [|done].
    cbn [negb] in Hm. destruct (ex_required ext) as [| | | | |rf|] eqn:Er; try done.
    destruct (missing_fields guest rf) as [|key ks] eqn:Ek; [done|].
    exists ln, ext, rf, key. unfold blocks.
    assert (Hk : In key (missing_fields guest rf)) by (rewrite Ek; by left). apply missing_fields_In in Hk.
    destruct Hp1 as [[? ?] ?], Hp2 as [[? ?] ?], Hk as (? & ? & ?). split_and!; try done; by apply Z.eqb_eq.
Qed.
End correctness.

(** An extension that asks for the passport, activated on the property. *)
Definition extension_db : DB :=
  put_extensions [MkCountryPackExtension 80 1 "TM30" "Immigration" None "https://x" (JArr [JStr "passport_data"]) true]
  (put_property_extensions [MkPropertyExtension 90 1 3 80 None true 0] empty_db).

Lemma checkin_validation_complete_witness :
  exists msgs, validate_extension_required_fields_for_checkin (env := sample_env) 1 3
      (MkGuest 4 1 "Ann" "Lee" "a@b" "1" None None None None false 0) (start extension_db 0 0 0) =
    (start extension_db 0 0 0, Ok msgs) /\ msgs <> [].
Proof.
  destruct (checkin_validation_complete (env := sample_env) 1 3
    (MkGuest 4 1 "Ann" "Lee" "a@b" "1" None None None None false 0) (start extension_db 0 0 0)) as (msgs & Hr & Hiff).
  - split; [reflexivity|]. repeat constructor; simpl; tauto.
  - split; [reflexivity|]. repeat constructor; simpl; tauto.
  - exists msgs. split; [exact Hr|]. intros ->. apply (proj1 Hiff eq_refl).
    exists (MkPropertyExtension 90 1 3 80 None true 0),
      (MkCountryPackExtension 80 1 "TM30" "Immigration" None "https://x" (JArr [JStr "passport_data"%string]) true),
      [JStr "passport_data"%string], "passport_data"%string.
    unfold blocks. simpl. tauto.
Defined.
