(* ===== verification/Booking.v ===== *)
(** * Bookings

    app/services/booking_service.py: creating a booking (price, claim, guest,
    lines, folio, room), assigning a room, patching (notes, cancellation,
    dates, room, status, check-out) and deleting; [booking_quick_snapshot] of
    webhook_runner.py.  [patch_booking] is the composition of its phases, in
    the order of the code. *)

From S2P Require Import Prelude PyDecimal PyJson StayDates Calendar BookingStatus Tax Models Session.
From S2P Require Import Ledger Rates Folio Extension.

(** ** Requests *)

Record guest_payload := GuestPayload {
  gp_first : string; gp_last : string; gp_email : string; gp_phone : string; gp_passport : option string }.

Record booking_create := BookingCreate {
  bc_property : Z; bc_room_type : Z; bc_rate_plan : Z; bc_check_in : date; bc_check_out : date;
  bc_guest : guest_payload; bc_status : string; bc_source : string; bc_force_new_guest : bool;
  bc_external : option string }.

(** [BookingCreateRequest]: the status literal and [validate_stay_dates]. *)
Definition booking_create_valid (b : booking_create) : bool :=
  str_in (bc_status b) ["pending"; "confirmed"]%string
  && (bc_check_in b <? bc_check_out b) && (bc_check_out b - bc_check_in b <=? MAX_STAY_NIGHTS).

(** [body.model_dump(exclude_unset=True)]: an unset field is [None], a field
    set to null is [Some None]. *)
Record booking_patch := BookingPatch {
  pt_room_id : option (option Z); pt_status : option (option string);
  pt_check_in : option (option date); pt_check_out : option (option date);
  pt_reason : option (option string); pt_notes : option (option string) }.

Record booking_created := BookingCreated {
  br_booking : Z; br_guest : Z; br_total : Z; br_nights : list (date * Z); br_merged : bool }.

Record booking_snapshot := BookingSnapshot {
  sn_guest : Z; sn_status : string; sn_total : Z; sn_stay : option (date * date);
  sn_room : option Z; sn_notes : option string }.

(** ** Lines of a booking *)

Definition line_of (tenant_id booking_id : Z) (l : BookingLine) : bool :=
  (l_tenant l =? tenant_id) && (l_booking l =? booking_id).

Definition lines_of (d : DB) (tenant_id booking_id : Z) : list BookingLine :=
  List.filter (line_of tenant_id booking_id) (lines d).

(** [selectinload(Booking.lines)] loads the collection if it is not there. *)
Definition load_lines (booking_id : Z) : M unit := fun s =>
  (set_expired (List.filter (fun i => negb (i =? booking_id)) (expired s)) s, Ok tt).

(** [session.expire(booking, ["lines"])] *)
Definition expire_lines (booking_id : Z) : M unit := fun s =>
  (set_expired (booking_id :: expired s) s, Ok tt).

(** [list(booking.lines)]: reading an expired collection needs I/O, which an
    AsyncSession refuses on attribute access. *)
Definition booking_lines (tenant_id booking_id : Z) : M (list BookingLine) := fun s =>
  if existsb (Z.eqb booking_id) (expired s) then (s, Err MissingGreenlet)
  else (s, Ok (lines_of (mem s) tenant_id booking_id)).

(** Distinct values, as a Python set. *)
Definition distinct (l : list Z) : list Z := List.nodup Z.eq_dec l.

Definition stay_bounds_from_lines (ls : list BookingLine) : result (date * date) :=
  stay_bounds (List.map l_date ls).

Definition unified_room_id_from_lines (ls : list BookingLine) : option Z :=
  match distinct (omap l_room ls) with
  | [r] => Some r
  | _ => None
  end.

Definition room_id_from_lines (ls : list BookingLine) : option Z := hd_error (omap l_room ls).

Definition booking_quick_snapshot (b : Booking) : M booking_snapshot :=
  ls ← booking_lines (b_tenant b) (b_id b);
  stay ← lift (match ls with [] => Ok None | _ => p ← stay_bounds_from_lines ls; Ok (Some p) end);
  mret (BookingSnapshot (b_guest b) (lower (strip (b_status b))) (b_total b) stay
          (room_id_from_lines ls) (b_notes b)).

(** ** Guests *)

Definition guest_email_is (tenant_id : Z) (email : string) (g : Guest) : bool :=
  (g_tenant g =? tenant_id) && String.eqb (g_email g) email.

Definition guest_of_payload (i tenant_id : Z) (p : guest_payload) (email_norm : string) (t : Z) : Guest :=
  MkGuest i tenant_id (strip (gp_first p)) (strip (gp_last p)) email_norm (strip (gp_phone p))
    (strip_or_none (gp_passport p)) None None None false t.

(** The flush in the savepoint fails exactly when the unique (tenant, email)
    is taken; after an unsuccessful lookup in the same transaction it is not. *)
Definition get_or_create_guest_for_booking (tenant_id : Z) (payload : guest_payload) (force_new_guest : bool)
    : M (Z * bool) :=
  let email_norm := lower (strip (gp_email payload)) in
  if force_new_guest then
    i ← uuid4;
    taken ← query (fun d => existsb (guest_email_is tenant_id email_norm) (guests d));
    if (taken : bool) then raise GuestConflictError
    else t ← get_now; _ ← add (guest_of_payload i tenant_id payload email_norm t); _ ← flush; mret (i, false)
  else
    existing ← scalar (guest_email_is tenant_id email_norm);
    match existing with
    | Some g => mret (g_id g, true)
    | None =>
        i ← uuid4;
        t ← get_now; _ ← add (guest_of_payload i tenant_id payload email_norm t); _ ← flush; mret (i, false)
    end.

(** ** Context checks *)

Definition require_room_type_on_property (tenant_id property_id room_type_id : Z) : M RoomType :=
  row ← scalar (fun r => (rt_tenant r =? tenant_id) && (rt_id r =? room_type_id)
                 && (rt_property r =? property_id) && bool_decide (rt_deleted_at r = None));
  lift (of_option row (InvalidBookingContextError "room_type not found for this property")).

Definition require_rate_plan_on_property (tenant_id property_id rate_plan_id : Z) : M RatePlan :=
  row ← scalar (fun r => (rp_tenant r =? tenant_id) && (rp_id r =? rate_plan_id)
                 && (rp_property r =? property_id));
  lift (of_option row (InvalidBookingContextError "rate_plan not found for this property")).

(** ** Rooms *)

(** A line of another active booking that holds the room on one of the nights. *)
Definition room_clash (d : DB) (tenant_id room_id : Z) (nights : list date) (exclude_booking_id : Z)
    (l : BookingLine) : bool :=
  (l_tenant l =? tenant_id) && bool_decide (l_room l = Some room_id)
  && existsb (Z.eqb (l_date l)) nights && negb (l_booking l =? exclude_booking_id)
  && existsb (fun b => (b_tenant b =? l_tenant l) && (b_id b =? l_booking l) && is_active (b_status b)) (bookings d).

Definition assert_no_room_conflict (tenant_id room_id : Z) (nights : list date) (exclude_booking_id : Z) : M unit :=
  match nights with
  | [] => mret tt
  | _ =>
      clash ← query (fun d => existsb (room_clash d tenant_id room_id nights exclude_booking_id) (lines d));
      if (clash : bool) then
        raise (AssignBookingRoomError "room is already used by another active booking on overlapping nights" 409)
      else mret tt
  end.

(** [try: assert ... except AssignBookingRoomError: continue; return room.id] *)
Fixpoint first_free (tenant_id : Z) (nights : list date) (exclude_booking_id : Z) (rs : list Room) : M (option Z) :=
  match rs with
  | [] => mret None
  | r :: rs' =>
      free ← try_except (_ ← assert_no_room_conflict tenant_id (r_id r) nights exclude_booking_id; mret true)
               (fun e => match e with AssignBookingRoomError _ _ => Some (mret false) | _ => None end);
      if (free : bool) then mret (Some (r_id r)) else first_free tenant_id nights exclude_booking_id rs'
  end.

Section booking.
Context {env : Env}.

Definition pick_first_free_room_for_stay (tenant_id property_id room_type_id : Z) (nights : list date)
    (exclude_booking_id : Z) : M (option Z) :=
  let night_list := sorted_set nights in
  match night_list with
  | [] => mret None
  | _ =>
      types ← query room_types;
      rs ← select (R := Room) (fun r => room_of_type tenant_id room_type_id r
             && existsb (fun t => (rt_tenant t =? r_tenant r) && (rt_id t =? r_room_type r)
                  && (rt_tenant t =? tenant_id) && (rt_property t =? property_id)) types);
      first_free tenant_id night_list exclude_booking_id
        (order_by (fun a b => collate (r_name a) (r_name b)) rs)
  end.

(** ** Inventory and folio of a booking *)

Definition release_booking_inventory (tenant_id : Z) (booking : Booking) : M unit :=
  ls ← booking_lines (b_tenant booking) (b_id booking);
  match ls with
  | [] => mret tt
  | _ =>
      match distinct (List.map l_room_type ls) with
      | [room_type_id] =>
          rows ← lock_and_validate_availability tenant_id room_type_id (List.map l_date ls) 0;
          decrement_booked_rooms rows 1
      | _ => mret tt
      end
  end.

Definition update_folio_charge_amount (tenant_id booking_id : Z) (amount : dec) : M unit :=
  rows ← select (fun f => on_folio tenant_id booking_id f && is_charge f && String.eqb (f_category f) "room_charge");
  match order_by (fun a b => f_created_at a <=? f_created_at b) rows with
  | [] => mret tt
  | ft :: _ => c ← lift (numeric_14_2 amount); assign (f_id ft) (set_f_amount c)
  end.

Definition assign_lines_room (tenant_id booking_id : Z) (room_id : option Z) : M unit :=
  orm (fun d => put_lines
    (List.map (fun l => if line_of tenant_id booking_id l then set_l_room room_id l else l) (lines d)) d).

Definition assign_booking_room (tenant_id booking_id : Z) (room_id : option Z) : M unit :=
  booking ← scalar (booking_is tenant_id booking_id);
  match booking with
  | None => raise (AssignBookingRoomError "booking not found" 404)
  | Some booking =>
      _ ← load_lines booking_id;
      if str_in (lower (strip (b_status booking))) ["cancelled"; "no_show"]%string then
        raise (AssignBookingRoomError "cannot assign room on an inactive booking" 409)
      else
        ls ← booking_lines tenant_id booking_id;
        match ls with
        | [] => raise (AssignBookingRoomError "booking has no lines" 400)
        | _ =>
            match distinct (List.map l_room_type ls) with
            | [line_room_type_id] =>
                let nights := sorted_set (List.map l_date ls) in
                match room_id with
                | None => assign_lines_room tenant_id booking_id None
                | Some rid =>
                    room ← scalar (R := Room) (fun r => (r_tenant r =? tenant_id) && (r_id r =? rid)
                                              && bool_decide (r_deleted_at r = None));
                    match room with
                    | None => raise (AssignBookingRoomError "room not found" 404)
                    | Some room =>
                        if negb (r_room_type room =? line_room_type_id) then
                          raise (AssignBookingRoomError "room category does not match booking" 409)
                        else
                          rt ← scalar (R := RoomType) (fun r => (rt_tenant r =? tenant_id)
                                 && (rt_id r =? r_room_type room) && bool_decide (rt_deleted_at r = None));
                          if match rt with Some t => negb (rt_property t =? b_property booking) | None => true end then
                            raise (AssignBookingRoomError "room is not on the same property as the booking" 409)
                          else
                            _ ← assert_no_room_conflict tenant_id rid nights booking_id;
                            assign_lines_room tenant_id booking_id (Some rid)
                    end
                end
            | _ => raise (AssignBookingRoomError "booking lines must share a single room type" 409)
            end
        end
  end.

(** ** Creating *)

(** [str(external_booking_id).strip()[:128]] when it is not blank *)
Definition external_ref (e : option string) : option string :=
  match e with
  | Some s => if truthy (strip s) then Some (slice 128 (strip s)) else None
  | None => None
  end.

Definition check_duplicate_external (tenant_id : Z) (ext_ref : option string) : M unit :=
  match ext_ref with
  | None => mret tt
  | Some _ =>
      dup ← query (fun d => existsb (fun b => (b_tenant b =? tenant_id) && bool_decide (b_ext b = ext_ref)) (bookings d));
      if (dup : bool) then raise DuplicateExternalBookingError else mret tt
  end.

(** [for night, price in per_night: session.add(BookingLine(...))] *)
Definition add_lines (tenant_id booking_id room_type_id : Z) (room_id : option Z) (per_night : list (date * Z)) : M unit :=
  forM per_night (fun np =>
    i ← uuid4; add (MkBookingLine i tenant_id booking_id np.1 room_type_id room_id np.2)).

Definition insert_booking (b : Booking) : M unit :=
  _ ← lift (numeric_14_2 (cents (b_total b)));
  _ ← add b; flush.

Definition create_booking (tenant_id : Z) (body : booking_create) : M booking_created :=
  nights ← lift (iter_stay_nights (bc_check_in body) (bc_check_out body));
  let ext_ref := external_ref (bc_external body) in
  _ ← check_duplicate_external tenant_id ext_ref;
  _ ← require_room_type_on_property tenant_id (bc_property body) (bc_room_type body);
  _ ← require_rate_plan_on_property tenant_id (bc_property body) (bc_rate_plan body);
  '(total, per_night) ← sum_rates_for_stay tenant_id (bc_room_type body) (bc_rate_plan body)
                          (bc_check_in body) (bc_check_out body);
  _ ← claim_availability_for_new_booking tenant_id (bc_room_type body) nights 1;
  '(guest_id, guest_merged) ← get_or_create_guest_for_booking tenant_id (bc_guest body) (bc_force_new_guest body);
  booking_id ← uuid4;
  _ ← insert_booking (MkBooking booking_id tenant_id (bc_property body) guest_id (Some (bc_rate_plan body))
        ext_ref (bc_status body) (strip (bc_source body)) total None);
  _ ← add_lines tenant_id booking_id (bc_room_type body) None per_night;
  _ ← insert_folio tenant_id booking_id "Charge" (cents total) None (Some "Room charge (stay)"%string) None "room_charge";
  _ ← flush;
  room_charge_amount ← replace_country_pack_tax_charges tenant_id booking_id (bc_property body) (cents total);
  _ ← update_folio_charge_amount tenant_id booking_id room_charge_amount;
  let night_list := List.map fst per_night in
  picked_room ← pick_first_free_room_for_stay tenant_id (bc_property body) (bc_room_type body) night_list booking_id;
  _ ← match picked_room with
      | Some r => assign_booking_room tenant_id booking_id (Some r)
      | None => mret tt
      end;
  mret (BookingCreated booking_id guest_id total per_night guest_merged).

(** ** Patching, phase by phase *)

(** The booking as its object shows it now. *)
Definition booking_now (booking_id : Z) : M Booking :=
  o ← attrs (fun d => List.find (fun b => b_id b =? booking_id) (bookings d));
  lift (of_option o AttributeOrTypeError).

Definition transition_or_409 (old_status new_status : string) : M unit :=
  match validate_status_transition old_status new_status with
  | Ok _ => mret tt
  | Err (BookingStatusTransitionError m) => raise (PatchBookingError m 409)
  | Err e => raise e
  end.

(** [str(x)] of an optional string *)
Definition py_str_opt (o : option string) : string := match o with Some s => s | None => "None"%string end.

Definition patch_notes (booking_id : Z) (n : option string) : M unit :=
  assign booking_id (set_b_notes
    match n with
    | Some s => if truthy (strip s) then Some (slice (Z.to_nat 8000) (strip s)) else None
    | None => None
    end).

Definition patch_cancel (tenant_id booking_id : Z) : M unit :=
  booking ← booking_now booking_id;
  if String.eqb (normalize_booking_status (b_status booking)) "cancelled" then mret tt
  else
    _ ← transition_or_409 (b_status booking) "cancelled";
    _ ← release_booking_inventory tenant_id booking;
    _ ← assign booking_id (set_b_status "cancelled");
    flush.

Definition is_set {A} (o : option A) : bool := bool_decide (is_Some o).

Definition patch_inactive_guard (body : booking_patch) (booking : Booking) : M unit :=
  if str_in (normalize_booking_status (b_status booking)) ["cancelled"; "no_show"]%string then
    _ ← match pt_status body with
        | Some st => transition_or_409 (b_status booking) (py_str_opt st)
        | None => mret tt
        end;
    if is_set (pt_check_in body) || is_set (pt_check_out body) || is_set (pt_room_id body) then
      raise (PatchBookingError "cannot change stay dates or room on an inactive booking" 409)
    else mret tt
  else mret tt.

(** A date of the request, or the current one; a null date breaks the
    comparison that follows. *)
Definition date_or (o : option (option date)) (d : date) : result date :=
  match o with
  | None => Ok d
  | Some (Some d') => Ok d'
  | Some None => Err AttributeOrTypeError
  end.

Definition missing_rates_detail (missing : list date) : string :=
  ("missing rates for dates: [" ++ py_join ", " (List.map (fun d => py_repr_str (isoformat d)) missing) ++ "]")%string.

(** Move the booking to other nights: release, reprice, reserve. *)
Definition move_inventory (tenant_id room_type_id rate_plan_id : Z) (old_nights : list date) (new_ci new_co : date)
    : M (Z * list (date * Z)) :=
  old_rows ← lock_and_validate_availability tenant_id room_type_id old_nights 0;
  _ ← decrement_booked_rooms old_rows 1;
  priced ← try_except (sum_rates_for_stay tenant_id room_type_id rate_plan_id new_ci new_co)
             (fun e => match e with
                       | MissingRatesError ds => Some (raise (PatchBookingError (missing_rates_detail ds) 422))
                       | _ => None end);
  new_nights ← lift (iter_stay_nights new_ci new_co);
  new_rows ← lock_and_validate_availability tenant_id room_type_id new_nights 1;
  _ ← increment_booked_rooms new_rows 1;
  mret priced.

(** Replace the lines, reprice the folio and repost the taxes. *)
Definition rewrite_lines (tenant_id : Z) (booking : Booking) (room_type_id : Z) (total : Z)
    (per_night : list (date * Z)) : M unit :=
  let booking_id := b_id booking in
  _ ← execute_delete (line_of tenant_id booking_id);
  _ ← flush;
  _ ← add_lines tenant_id booking_id room_type_id None per_night;
  _ ← assign booking_id (set_b_total total);
  _ ← update_folio_charge_amount tenant_id booking_id (cents total);
  _ ← lift (numeric_14_2 (cents total));
  _ ← flush;
  _ ← expire_lines booking_id;
  room_charge_amount ← replace_country_pack_tax_charges tenant_id booking_id (b_property booking) (cents total);
  update_folio_charge_amount tenant_id booking_id room_charge_amount.

Definition patch_dates (tenant_id booking_id : Z) (body : booking_patch) (booking : Booking)
    (ls : list BookingLine) : M unit :=
  if negb (is_set (pt_check_in body) || is_set (pt_check_out body)) then mret tt
  else match ls with
  | [] => raise (PatchBookingError "booking has no lines" 409)
  | _ =>
      '(ci, co) ← lift (stay_bounds_from_lines ls);
      new_ci ← lift (date_or (pt_check_in body) ci);
      new_co ← lift (date_or (pt_check_out body) co);
      if new_co <=? new_ci then raise (PatchBookingError "check_out must be after check_in" 422)
      else if MAX_STAY_NIGHTS <? new_co - new_ci then raise (PatchBookingError "stay cannot exceed 365 nights" 422)
      else if (new_ci =? ci) && (new_co =? co) then mret tt
      else match b_rate_plan booking with
      | None => raise (PatchBookingError "booking has no stored rate_plan_id; cannot repricing on date change" 422)
      | Some rate_plan_id =>
          match distinct (List.map l_room_type ls) with
          | [room_type_id] =>
              let prior_room := if is_set (pt_room_id body) then None else unified_room_id_from_lines ls in
              '(total, per_night) ← move_inventory tenant_id room_type_id rate_plan_id
                                      (sorted_set (List.map l_date ls)) new_ci new_co;
              _ ← rewrite_lines tenant_id booking room_type_id total per_night;
              match prior_room with
              | Some r => assign_booking_room tenant_id booking_id (Some r)
              | None => mret tt
              end
          | _ => raise (PatchBookingError "booking lines must share a single room type" 409)
          end
      end
  end.

Definition patch_room (tenant_id booking_id : Z) (body : booking_patch) : M unit :=
  match pt_room_id body with
  | Some r => assign_booking_room tenant_id booking_id r
  | None => mret tt
  end.

Definition checkin_requirements (tenant_id : Z) (booking : Booking) : M unit :=
  guest_row ← scalar (fun g => (g_tenant g =? tenant_id) && (g_id g =? b_guest booking));
  match guest_row with
  | None => raise (PatchBookingError "guest not found" 404)
  | Some g =>
      ext_msgs ← validate_extension_required_fields_for_checkin tenant_id (b_property booking) g;
      match ext_msgs with
      | [] => mret tt
      | _ => raise (PatchBookingError (py_join "; " ext_msgs) 400)
      end
  end.

Definition patch_status (tenant_id booking_id : Z) (body : booking_patch) (prev_status : string) : M unit :=
  match pt_status body with
  | None => mret tt
  | Some st =>
      booking ← booking_now booking_id;
      let new_s := normalize_booking_status (py_str_opt st) in
      _ ← transition_or_409 (b_status booking) new_s;
      _ ← (if String.eqb new_s "checked_in"
              && negb (String.eqb (normalize_booking_status prev_status) "checked_in")
           then checkin_requirements tenant_id booking else mret tt);
      _ ← (if String.eqb new_s "no_show"
              && String.eqb (normalize_booking_status prev_status) "confirmed"
           then release_booking_inventory tenant_id booking else mret tt);
      assign booking_id (set_b_status new_s)
  end.

Definition mark_assigned_rooms_dirty_on_checkout (tenant_id booking_id : Z) : M unit :=
  room_ids ← query (fun d => distinct (omap l_room (lines_of d tenant_id booking_id)));
  forM room_ids (fun rid =>
    room ← scalar (R := Room) (fun r => (r_tenant r =? tenant_id) && (r_id r =? rid) && bool_decide (r_deleted_at r = None));
    match room with
    | Some r => assign (r_id r) (set_r_hk_status "dirty")
    | None => mret tt
    end).

Definition patch_checkout (tenant_id booking_id : Z) (prev_status : string) : M (option Z) :=
  booking ← booking_now booking_id;
  if String.eqb (normalize_booking_status (b_status booking)) "checked_out"
     && negb (String.eqb (normalize_booking_status prev_status) "checked_out")
  then
    _ ← mark_assigned_rooms_dirty_on_checkout tenant_id booking_id;
    bal ← compute_folio_balance tenant_id booking_id;
    mret (if bal =? 0 then None else Some bal)
  else mret None.

(** Is there anything to do beside the notes? *)
Definition has_more (body : booking_patch) : bool :=
  is_set (pt_room_id body) || is_set (pt_status body) || is_set (pt_check_in body)
  || is_set (pt_check_out body) || is_set (pt_reason body).

(** [status_in is not None and normalize(str(status_in)) == "cancelled"] *)
Definition wants_cancel (body : booking_patch) : bool :=
  match pt_status body with
  | Some (Some st) => String.eqb (normalize_booking_status st) "cancelled"
  | _ => false
  end.

Definition patch_stay (tenant_id booking_id : Z) (body : booking_patch) (booking : Booking)
    (ls : list BookingLine) : M (option Z) :=
  _ ← patch_inactive_guard body booking;
  _ ← patch_dates tenant_id booking_id body booking ls;
  _ ← patch_room tenant_id booking_id body;
  _ ← patch_status tenant_id booking_id body (b_status booking);
  patch_checkout tenant_id booking_id (b_status booking).

Definition patch_booking (tenant_id booking_id : Z) (body : booking_patch) : M (option Z) :=
  if negb (has_more body || is_set (pt_notes body)) then mret None
  else
    found ← scalar (booking_is tenant_id booking_id);
    match found with
    | None => raise (PatchBookingError "booking not found" 404)
    | Some _ =>
        _ ← load_lines booking_id;
        _ ← match pt_notes body with Some n => patch_notes booking_id n | None => mret tt end;
        if negb (has_more body) then _ ← flush; mret None
        else
          booking ← booking_now booking_id;
          ls ← booking_lines tenant_id booking_id;
          if wants_cancel body then _ ← patch_cancel tenant_id booking_id; mret None
          else patch_stay tenant_id booking_id body booking ls
    end.

(** ** Deleting *)

Definition delete_dependents (tenant_id booking_id : Z) : M unit :=
  _ ← execute_delete (R := StripeCharge) (fun c => (sc_tenant c =? tenant_id) && bool_decide (sc_booking c = Some booking_id));
  _ ← execute_update (R := StripePaymentMethod)
        (fun p => (sp_tenant p =? tenant_id) && bool_decide (sp_booking p = Some booking_id)) (set_sp_booking None);
  _ ← execute_update (R := EmailLog)
        (fun e => (el_tenant e =? tenant_id) && bool_decide (el_booking e = Some booking_id)) (set_el_booking None);
  _ ← execute_update (R := ChannexBookingRevision)
        (fun r => (cr_tenant r =? tenant_id) && bool_decide (cr_booking r = Some booking_id)) (set_cr_booking None);
  _ ← execute_delete (on_folio tenant_id booking_id);
  execute_delete (line_of tenant_id booking_id).

Definition delete_booking (tenant_id booking_id : Z) : M booking_snapshot :=
  found ← scalar (booking_is tenant_id booking_id);
  match found with
  | None => raise (DeleteBookingError "booking not found" 404)
  | Some booking =>
      _ ← load_lines booking_id;
      let st := normalize_booking_status (b_status booking) in
      if str_in st ["checked_in"; "checked_out"]%string then
        raise (DeleteBookingError "cannot delete booking after check-in or check-out" 409)
      else
        old_values ← booking_quick_snapshot booking;
        _ ← (if str_in st ["cancelled"; "no_show"]%string then mret tt
             else release_booking_inventory tenant_id booking);
        _ ← delete_dependents tenant_id booking_id;
        _ ← remove (R := Booking) booking_id;
        _ ← flush;
        mret old_values
  end.

End booking.
