(* ===== verification/Tape.v ===== *)
(** * The booking tape

    The read side of app/services/booking_service.py: the rows of the tape,
    which join a booking with its guest and with the aggregate of its lines
    (app/services/sql/booking_tape_*.sql), one booking by id or by external
    id, and the page of the bookings of a property that touch a window. *)

From stdpp Require Import strings.
From Stdlib Require Import Sorted.
From S2P Require Import Prelude PyDecimal PyJson StayDates Models Session Folio Booking.

(** [BookingTapeRead] *)
Record booking_tape := BookingTape {
  bt_id : Z; bt_tenant : Z; bt_property : Z; bt_guest : Z; bt_ext : option string; bt_status : string; bt_source : string;
  bt_total : Z; bt_first : string; bt_last : string; bt_check_in : date; bt_check_out : date;
  bt_room : option Z; bt_room_type : option Z; bt_notes : option string }.

(** ** The aggregate of the lines *)

Record line_agg := LineAgg { la_check_in : date; la_last : date; la_room_type : option Z; la_room : option Z }.

(** [CASE WHEN COUNT(DISTINCT x) = 1 THEN MIN(x) ELSE NULL END] *)
Definition only_value (l : list Z) : option Z := match distinct l with [x] => Some x | _ => None end.

(** One group of [GROUP BY tenant_id, booking_id]. *)
Definition aggregate (ls : list BookingLine) : option line_agg :=
  match list_min (List.map l_date ls), list_max (List.map l_date ls) with
  | Ok first, Ok last => Some (LineAgg first last (only_value (List.map l_room_type ls)) (only_value (omap l_room ls)))
  | _, _ => None
  end.

(** booking_tape_line_agg_all_lines.sql *)
Definition line_agg_all_lines (d : DB) (tenant_id booking_id : Z) : option line_agg := aggregate (lines_of d tenant_id booking_id).

Definition in_window (start_date end_date : date) (l : BookingLine) : bool := (start_date <=? l_date l) && (l_date l <=? end_date).

(** booking_tape_line_agg_in_window.sql: the bookings of a tenant that touch
    the window, and all their lines. *)
Definition line_agg_in_window (window_tenant : Z) (start_date end_date : date) (d : DB) (tenant_id booking_id : Z) : option line_agg :=
  let touch l := (l_tenant l =? window_tenant) && in_window start_date end_date l && line_of tenant_id booking_id l in
  if existsb touch (lines d) then aggregate (lines_of d tenant_id booking_id) else None.

(** ** Rows *)

Definition empty_to_none (o : option string) : option string :=
  match o with Some s => if truthy s then Some s else None | None => None end.

(** A row that was read: the day after the last night is a date of the
    calendar or cannot be read. *)
Definition booking_tape_from_mapping (row : Booking * Guest * line_agg) : result booking_tape :=
  let '(b, g, la) := row in
  check_out ← date_add (la_last la) 1;
  Ok (BookingTape (b_id b) (b_tenant b) (b_property b) (b_guest b) (empty_to_none (b_ext b)) (b_status b) (b_source b) (b_total b)
        (g_first g) (g_last g) (la_check_in la) check_out (la_room la) (la_room_type la) (empty_to_none (b_notes b))).

(** booking_tape_select.sql: the inner joins of a booking. *)
Definition tape_join (agg : DB -> Z -> Z -> option line_agg) (d : DB) (b : Booking) : option (Booking * Guest * line_agg) :=
  la ← agg d (b_tenant b) (b_id b);
  g ← List.find (fun g => (g_tenant g =? b_tenant b) && (g_id g =? b_guest b)) (guests d);
  Some (b, g, la).

Definition tape_select (agg : DB -> Z -> Z -> option line_agg) (p : Booking -> bool) (d : DB) : list (Booking * Guest * line_agg) :=
  omap (tape_join agg d) (List.filter p (bookings d)).

Definition first_row (rows : list (Booking * Guest * line_agg)) : result (option booking_tape) :=
  match rows with
  | [] => Ok None
  | row :: _ => t ← booking_tape_from_mapping row; Ok (Some t)
  end.

(** ** Queries *)

Definition get_booking_tape (tenant_id booking_id : Z) : M (option booking_tape) :=
  rows ← query (tape_select line_agg_all_lines (booking_is tenant_id booking_id));
  lift (first_row rows).

Definition get_booking_tape_by_external_id (tenant_id : Z) (external_booking_id : string) : M (option booking_tape) :=
  let ext := strip external_booking_id in
  if negb (truthy ext) then mret None
  else
    rows ← query (tape_select line_agg_all_lines (fun b => (b_tenant b =? tenant_id) && bool_decide (b_ext b = Some (slice 128 ext))));
    lift (first_row rows).

(** The WHERE clause of [_booking_tape_list_params]. *)
Definition listed (d : DB) (tenant_id property_id : Z) (start_date end_date : date) (status_filter : option string) (b : Booking) : bool :=
  (b_tenant b =? tenant_id) && (b_property b =? property_id)
  && existsb (fun l => line_of (b_tenant b) (b_id b) l && in_window start_date end_date l) (lines d)
  && match status_filter with Some s => String.eqb (b_status b) s | None => true end.

Definition by_booking_id (x y : Booking * Guest * line_agg) : bool := b_id x.1.1 <=? b_id y.1.1.

Definition list_bookings_enriched (tenant_id property_id : Z) (start_date end_date : date) (status_filter : option string)
    (limit offset : nat) : M (list booking_tape * Z) :=
  total ← query (fun d => Z.of_nat (length (List.filter (listed d tenant_id property_id start_date end_date status_filter) (bookings d))));
  rows ← query (fun d => tape_select (line_agg_in_window tenant_id start_date end_date)
                           (listed d tenant_id property_id start_date end_date status_filter) d);
  rows ← lift (mapR booking_tape_from_mapping (firstn limit (skipn offset (order_by by_booking_id rows))));
  mret (rows, total).

(** * Laws of the tape *)

(** Every booking names a guest of its tenant. *)
Definition guests_present (d : DB) : Prop :=
  forall b, In b (bookings d) -> List.find (fun g => (g_tenant g =? b_tenant b) && (g_id g =? b_guest b)) (guests d) <> None.

Lemma aggregate_Some ls : ls <> [] -> exists la, aggregate ls = Some la.
Proof. destruct ls as [|l ls]; [done|]. intros _. unfold aggregate. cbn. eauto. Qed.

(** In the window or not, the aggregate is taken over all lines. *)
Lemma window_agg d t p a e st b :
  listed d t p a e st b = true -> line_agg_in_window t a e d (b_tenant b) (b_id b) = line_agg_all_lines d (b_tenant b) (b_id b).
Proof.
  unfold listed, line_agg_in_window. rewrite !andb_true_iff. intros (((Ht%Z.eqb_eq & _) & (l & Hin & Hl)%existsb_exists) & _).
  apply andb_prop in Hl as [Hof Hw]. destruct (existsb _ (lines d)) eqn:E; [done|].
  assert (Hn : existsb (fun l => (l_tenant l =? t) && in_window a e l && line_of (b_tenant b) (b_id b) l) (lines d) = true); [|by rewrite Hn in E].
  apply existsb_exists. exists l. split; [done|]. rewrite Hof, Hw.
  unfold line_of in Hof. apply andb_prop in Hof as [Hlt%Z.eqb_eq _]. rewrite Hlt, Ht, Z.eqb_refl. done.
Qed.

Lemma listed_joins d t p a e st b :
  guests_present d -> In b (bookings d) -> listed d t p a e st b = true ->
  exists g la, tape_join line_agg_all_lines d b = Some (b, g, la).
Proof.
  intros Hg Hin Hl. unfold listed in Hl. rewrite !andb_true_iff in Hl. destruct Hl as ((_ & (l & Hinl & Hl)%existsb_exists) & _).
  apply andb_prop in Hl as [Hof _]. unfold tape_join, line_agg_all_lines.
  destruct (aggregate_Some (lines_of d (b_tenant b) (b_id b))) as (la & ->).
  { intros E. assert (Hx : In l (lines_of d (b_tenant b) (b_id b))) by (apply filter_In; done). by rewrite E in Hx. }
  cbn [mbind option_bind]. specialize (Hg b Hin). destruct (List.find _ (guests d)) as [g|]; [|done]. cbn. eauto.
Qed.

(** The joined row of a booking, in either query. *)
Definition joined (d : DB) (b : Booking) (row : Booking * Guest * line_agg) : Prop :=
  tape_join line_agg_all_lines d b = Some row /\ row.1.1 = b.

Lemma tape_select_joined d t p a e st :
  guests_present d ->
  Forall2 (joined d) (List.filter (listed d t p a e st) (bookings d))
    (tape_select (line_agg_in_window t a e) (listed d t p a e st) d).
Proof.
  intros Hg. unfold tape_select.
  assert (Hall : forall b, In b (List.filter (listed d t p a e st) (bookings d)) -> In b (bookings d) /\ listed d t p a e st b = true)
    by (intros b; apply filter_In).
  induction (List.filter _ _) as [|b bs IH]; [constructor|].
  destruct (Hall b (or_introl eq_refl)) as [Hin Hl]. destruct (listed_joins d t p a e st b) as (g & la & Hj); [done..|].
  assert (Hw : tape_join (line_agg_in_window t a e) d b = Some (b, g, la)).
  { unfold tape_join in *. rewrite (window_agg d t p a e st) by done. exact Hj. }
  cbn [omap list_omap]. rewrite Hw. constructor; [by split|]. apply IH. intros b' Hb'. apply Hall. by right.
Qed.

(** Sorting the joined rows sorts their bookings. *)
Lemma order_joined d bs rows :
  Forall2 (joined d) bs rows -> Forall2 (joined d) (order_by (fun x y => b_id x <=? b_id y) bs) (order_by by_booking_id rows).
Proof.
  induction 1 as [|b row bs rows [Hj Hb] _ IH]; [constructor|]. cbn [order_by List.fold_right].
  fold (order_by (fun x y => b_id x <=? b_id y) bs). fold (order_by by_booking_id rows).
  induction IH as [|b' row' bs' rows' [Hj' Hb'] H' IH']; [by repeat constructor|]. cbn [insert_by].
  replace (by_booking_id row row') with (b_id b <=? b_id b') by (unfold by_booking_id; by rewrite Hb, Hb').
  destruct (b_id b <=? b_id b'); constructor; try done. by constructor.
Qed.

(** A booking shown alone. *)
Lemma get_booking_tape_joined s b row r :
  List.NoDup (List.map b_id (bookings (disk s))) -> In b (bookings (disk s)) ->
  joined (disk s) b row -> booking_tape_from_mapping row = Ok r ->
  get_booking_tape (b_tenant b) (b_id b) s = (s, Ok (Some r)).
Proof.
  intros Hnd Hin [Hj Hb] Hr. unfold get_booking_tape. rewrite run_query. unfold tape_select.
  rewrite (filter_unique b_id _ _ b); [|done|done|unfold booking_is; by rewrite !Z.eqb_refl|intros y [_ Hy%Z.eqb_eq]%andb_prop; exact Hy].
  cbn [omap list_omap]. rewrite Hj. cbn [first_row]. unfold lift. rewrite Hr. done.
Qed.

(** C34: A page of the tape: the bookings of the property with a night in the
    window (and the status asked for), counted, in the order of their keys,
    from the offset on; each row is the one its booking has when shown alone. *)
Theorem tape_page_exact t p a e st limit offset s rows total s' :
  List.NoDup (List.map b_id (bookings (disk s))) -> guests_present (disk s) ->
  list_bookings_enriched t p a e st limit offset s = (s', Ok (rows, total)) ->
  exists all, Permutation all (List.filter (listed (disk s) t p a e st) (bookings (disk s))) /\
    StronglySorted (fun x y => b_id x <= b_id y) all /\ total = Z.of_nat (length all) /\
    Forall2 (fun row b => get_booking_tape t (b_id b) s = (s, Ok (Some row))) rows (firstn limit (skipn offset all)).
Proof.
  intros Hnd Hg H. unfold list_bookings_enriched in H. rewrite !run_query in H. cbn [fst snd] in H.
  pose proof (order_joined _ _ _ (tape_select_joined (disk s) t p a e st Hg)) as F.
  apply (Forall2_drop _ _ _ offset) in F. apply (Forall2_take _ _ _ limit) in F.
  destruct (mapR _ _) as [rows'|er] eqn:E; [|by rewrite run_lift_err in H]. rewrite run_lift_ok in H. injection H as -> <- <-.
  eexists. split; [apply order_by_perm|]. split; [apply order_by_sorted|]. split; [by rewrite (Permutation_length (order_by_perm _ _))|].
  apply mapR_ok in E. revert rows' E.
  assert (Hall : forall b, In b (firstn limit (skipn offset (order_by (fun x y => b_id x <=? b_id y)
                   (List.filter (listed (disk s') t p a e st) (bookings (disk s')))))) ->
                 In b (bookings (disk s')) /\ b_tenant b = t).
  { intros b Hb. assert (Hf : In b (List.filter (listed (disk s') t p a e st) (bookings (disk s')))).
    { apply (order_by_In (fun x y => b_id x <=? b_id y)). apply (In_firstn_or_skipn offset). right. apply (In_firstn_or_skipn limit). by left. }
    apply filter_In in Hf as [Hin Hl]. split; [done|]. unfold listed in Hl. rewrite !andb_true_iff in Hl. by destruct Hl as (((?%Z.eqb_eq & _) & _) & _). }
  induction F as [|b row bs rows Hj _ IH]; intros rows' E; inversion E; subst; constructor.
  - destruct (Hall b (or_introl eq_refl)) as [Hin <-]. by eapply get_booking_tape_joined.
  - apply IH; [|done]. intros b' Hb'. apply Hall. by right.
Qed.

(** ** A page of two stays *)

Definition ann : Guest := MkGuest 1 7 "Ann" "Lee" "ann@example.com" "1" None None None None false 0.
Definition stay (i : Z) : Booking := MkBooking i 7 3 1 None None "confirmed" "api" 10000 None.
Definition tape_db : DB :=
  put_guests [ann] (put_lines [MkBookingLine 1 7 12 50 5 (Some 4) 10000; MkBookingLine 2 7 11 49 5 None 10000; MkBookingLine 3 7 12 51 6 (Some 4) 10000]
    (put_bookings [stay 12; stay 11] empty_db)).

Lemma tape_page_exact_witness :
  exists rows total s', list_bookings_enriched 7 3 50 60 None 10 0 (start tape_db 10 20 100) = (s', Ok (rows, total)) /\ total = 1 /\
    exists all, StronglySorted (fun x y => b_id x <= b_id y) all /\ total = Z.of_nat (length all) /\
      Forall2 (fun row b => get_booking_tape 7 (b_id b) (start tape_db 10 20 100) = (start tape_db 10 20 100, Ok (Some row))) rows (firstn 10 all).
Proof.
  eexists _, _, _. split; [reflexivity|]. split; [reflexivity|].
  edestruct (tape_page_exact 7 3 50 60 None 10 0 (start tape_db 10 20 100)) as (all & _ & Hs & Ht & F); [..|reflexivity|].
  - repeat constructor; cbn; intuition lia.
  - intros b Hb. cbn in Hb. destruct Hb as [<-|[<-|[]]]; discriminate.
  - exists all. split; [exact Hs|]. split; [exact Ht|exact F].
Defined.
