(* ===== verification/BookingFrame.v ===== *)
(** * What the services around a booking leave alone

    The folio, guests, extensions, audit and housekeeping services change
    neither the ledger nor the lines nor the bookings: they preserve every
    session predicate that only looks at those three tables
    ([CoreStable]).  The invariant proofs use this interface instead of the
    bodies of those services. *)

From S2P Require Import Prelude PyDecimal PyJson StayDates Tax Models Session Ledger Rates Folio.
From S2P Require Import Extension Booking.

(** Two databases with the same ledger, lines and bookings. *)
Definition same_core (d d' : DB) : Prop :=
  ledger d = ledger d' /\ lines d = lines d' /\ bookings d = bookings d'.

Lemma same_core_refl d : same_core d d.
Proof. done. Qed.

Class CoreStable (I : session -> Prop) : Prop := {
  cs_frame : forall s s', same_core (mem s) (mem s') -> same_core (disk s) (disk s') ->
    uuids s <= uuids s' -> I s -> I s';
  cs_flush : forall s, I s -> I (set_disk (mem s) s);
}.

(** A change of the database outside the three tables. *)
Definition outside (f : DB -> DB) : Prop := forall d, same_core d (f d).

Create HintDb frame.

Section frame.
Context {env : Env} (I : session -> Prop) {HI : CoreStable I}.

Lemma frame_orm f : outside f -> preserves I (orm f).
Proof. intros Hf. apply preserves_orm. intros s Hs. eapply cs_frame; [| | |exact Hs]; [apply Hf|done|done]. Qed.

Lemma frame_execute f : outside f -> preserves I (execute f).
Proof. intros Hf. apply preserves_execute. intros s Hs. eapply cs_frame; [| | |exact Hs]; [apply Hf|apply Hf|done]. Qed.

Lemma frame_flush : preserves I flush.
Proof. apply preserves_flush, cs_flush. Qed.

Lemma frame_uuid4 : preserves I uuid4.
Proof.
  intros s s' r Hs H. cbv [uuid4] in H. simplify_eq.
  eapply cs_frame; [| | |exact Hs]; [done|done|cbn; lia].
Qed.

Lemma frame_load_lines i : preserves I (load_lines i).
Proof. intros s s' r Hs H. cbv [load_lines] in H. simplify_eq. by eapply cs_frame; [| | |exact Hs]. Qed.

Lemma frame_expire_lines i : preserves I (expire_lines i).
Proof. intros s s' r Hs H. cbv [expire_lines] in H. simplify_eq. by eapply cs_frame; [| | |exact Hs]. Qed.

(** Changes to a table that is none of the three. *)
Class Peripheral (R : Type) `{Entity R} : Prop := peripheral : forall l, outside (put_table (R := R) l).

Lemma frame_assign {R} `{Entity R} (i : Z) (f : R -> R) : Peripheral R -> preserves I (assign i f).
Proof. intros HP. apply frame_orm. intros d. apply HP. Qed.
Lemma frame_add {R} `{Entity R} (r : R) : Peripheral R -> preserves I (add r).
Proof. intros HP. apply frame_orm. intros d. apply HP. Qed.
Lemma frame_execute_delete {R} `{Entity R} (p : R -> bool) : Peripheral R -> preserves I (execute_delete p).
Proof. intros HP. apply frame_execute. intros d. apply HP. Qed.
Lemma frame_execute_update {R} `{Entity R} (p : R -> bool) f : Peripheral R -> preserves I (execute_update p f).
Proof. intros HP. apply frame_execute. intros d. apply HP. Qed.
End frame.

#[export] Instance folio_peripheral : Peripheral FolioTransaction := fun _ _ => same_core_refl _.
#[export] Instance guest_peripheral : Peripheral Guest := fun _ _ => same_core_refl _.
#[export] Instance room_peripheral : Peripheral Room := fun _ _ => same_core_refl _.
#[export] Instance audit_peripheral : Peripheral AuditLog := fun _ _ => same_core_refl _.
#[export] Instance category_peripheral : Peripheral FolioChargeCategory := fun _ _ => same_core_refl _.
#[export] Instance charge_peripheral : Peripheral StripeCharge := fun _ _ => same_core_refl _.
#[export] Instance payment_method_peripheral : Peripheral StripePaymentMethod := fun _ _ => same_core_refl _.
#[export] Instance email_peripheral : Peripheral EmailLog := fun _ _ => same_core_refl _.
#[export] Instance link_peripheral : Peripheral ChannexPropertyLink := fun _ _ => same_core_refl _.
#[export] Instance revision_peripheral : Peripheral ChannexBookingRevision := fun _ _ => same_core_refl _.

(** Follow the structure of a computation built from frame-preserving steps. *)
Ltac frame_step :=
  match goal with
  | |- preserves _ (mret _) => apply preserves_ret
  | |- preserves _ (raise _) => apply preserves_raise
  | |- preserves _ (lift _) => apply preserves_lift
  | |- preserves _ (query _) => apply preserves_query
  | |- preserves _ (attrs _) => apply preserves_attrs
  | |- preserves _ (select _) => apply preserves_select
  | |- preserves _ (scalar _) => apply preserves_scalar
  | |- preserves _ get_now => apply preserves_get_now
  | |- preserves _ flush => apply frame_flush
  | |- preserves _ uuid4 => apply frame_uuid4
  | |- preserves _ (assign _ _) => apply frame_assign
  | |- preserves _ (add _) => apply frame_add
  | |- preserves _ (execute_delete _) => apply frame_execute_delete
  | |- preserves _ (execute_update _ _) => apply frame_execute_update
  | |- preserves _ (load_lines _) => apply frame_load_lines
  | |- preserves _ (expire_lines _) => apply frame_expire_lines
  | |- preserves _ (forM _ _) => apply preserves_forM; intros ? _
  | |- preserves _ (_ ≫= _) => apply preserves_bind; [|intros ?]
  | |- preserves _ (match ?x with _ => _ end) => destruct x
  | |- preserves _ (if ?b then _ else _) => destruct b
  | |- Peripheral _ => exact _
  | |- _ => solve [eauto with frame typeclass_instances]
  end.
Ltac frames := repeat frame_step.

Section services.
Context {env : Env} (I : session -> Prop) {HI : CoreStable I}.

Lemma insert_folio_frame t bid ty a m de by_ cat : preserves I (insert_folio t bid ty a m de by_ cat).
Proof. unfold insert_folio. frames. Qed.
#[local] Hint Resolve insert_folio_frame : frame.

Lemma replace_taxes_frame t bid pid base : preserves I (replace_country_pack_tax_charges t bid pid base).
Proof.
  unfold replace_country_pack_tax_charges, require_booking, get_tax_config, get_pack, post_tax_lines. frames.
Qed.

Lemma update_folio_frame t bid a : preserves I (update_folio_charge_amount t bid a).
Proof. unfold update_folio_charge_amount. frames. Qed.

Lemma guest_frame t p b : preserves I (get_or_create_guest_for_booking t p b).
Proof. unfold get_or_create_guest_for_booking. frames. Qed.

Lemma check_duplicate_frame t e : preserves I (check_duplicate_external t e).
Proof. unfold check_duplicate_external. frames. Qed.

Lemma require_room_type_frame t pid rt : preserves I (require_room_type_on_property t pid rt).
Proof. unfold require_room_type_on_property. frames. Qed.

Lemma require_rate_plan_frame t pid rp : preserves I (require_rate_plan_on_property t pid rp).
Proof. unfold require_rate_plan_on_property. frames. Qed.

Lemma mark_dirty_frame t bid : preserves I (mark_assigned_rooms_dirty_on_checkout t bid).
Proof. unfold mark_assigned_rooms_dirty_on_checkout. frames. Qed.

Lemma checkin_frame t b : preserves I (checkin_requirements t b).
Proof. unfold checkin_requirements, validate_extension_required_fields_for_checkin. frames. Qed.

Lemma transition_frame o n : preserves I (transition_or_409 o n).
Proof. unfold transition_or_409. frames. Qed.

Lemma booking_now_frame bid : preserves I (booking_now bid).
Proof. unfold booking_now. frames. Qed.

Lemma patch_checkout_frame t bid prev : preserves I (patch_checkout t bid prev).
Proof.
  unfold patch_checkout, compute_folio_balance.
  apply preserves_bind; [apply booking_now_frame|]. intros b. apply preserves_if; [|apply preserves_ret].
  apply preserves_bind; [apply mark_dirty_frame|]. intros _. frames.
Qed.

Lemma sum_rates_frame t rt rp ci co : preserves I (sum_rates_for_stay t rt rp ci co).
Proof.
  unfold sum_rates_for_stay. apply preserves_bind; [apply preserves_lift|]. intros ns.
  apply preserves_bind; [|intros f; destruct (List.filter _ _); frames].
  intros s s' r Hs H. cbv [load_prices] in H. by simplify_eq.
Qed.

Lemma try_except_frame {A} (m : M A) h :
  preserves I m -> (forall e k, h e = Some k -> preserves I k) -> preserves I (try_except m h).
Proof.
  intros Hm Hh s s' r Hs H. unfold try_except in H. destruct (m s) as [s1 [a|e]] eqn:E.
  - simplify_eq. by eapply Hm.
  - destruct (h e) as [k|] eqn:Ek.
    + eapply (Hh _ _ Ek); [|exact H]. by eapply Hm.
    + simplify_eq. by eapply Hm.
Qed.

Lemma no_conflict_frame t r ns x : preserves I (assert_no_room_conflict t r ns x).
Proof. unfold assert_no_room_conflict. frames. Qed.

Lemma first_free_frame t ns x rs : preserves I (first_free t ns x rs).
Proof.
  induction rs as [|r rs IH]; simpl; [apply preserves_ret|]. apply preserves_bind.
  - apply try_except_frame.
    + apply preserves_bind; [apply no_conflict_frame|]. intros. apply preserves_ret.
    + intros e k Hk. destruct e; simplify_eq; frames.
  - intros [|]; [apply preserves_ret|done].
Qed.

Lemma pick_room_frame t pid rt ns x : preserves I (pick_first_free_room_for_stay t pid rt ns x).
Proof.
  unfold pick_first_free_room_for_stay. destruct (sorted_set ns); [apply preserves_ret|].
  apply preserves_bind; [apply preserves_query|]. intros types.
  apply preserves_bind; [apply preserves_select|]. intros rs. apply first_free_frame.
Qed.
End services.
