(* ===== verification/BookingInvariant.v ===== *)
(** * Inventory accounting and room exclusivity

    The two invariants that bookings and the ledger share: the booked rooms of
    a ledger row are the lines of active bookings on that night, and no two
    active bookings hold the same room on the same night.  Every operation on
    bookings preserves them. *)

From stdpp Require Import gmap.
From Stdlib Require Import Sorted.
From S2P Require Import Prelude PyDecimal PyJson StayDates BookingStatus Models Session Ledger LedgerLaws.
From S2P Require Import Rates RatesLaws Folio FolioLaws Extension Booking BookingFrame.

(** ** Occupancy *)

Definition booking_active (d : DB) (t bid : Z) : bool :=
  existsb (fun b => (b_tenant b =? t) && (b_id b =? bid) && is_active (b_status b)) (bookings d).

Definition line_key (l : BookingLine) : ledger_key := (l_tenant l, l_room_type l, l_date l).

Definition at_key (k : ledger_key) (l : BookingLine) : bool := bool_decide (line_key l = k).

Definition line_active (d : DB) (l : BookingLine) : bool := booking_active d (l_tenant l) (l_booking l).

(** Lines of active bookings on a ledger row. *)
Definition occupancy (d : DB) (k : ledger_key) : Z :=
  countb (fun l => line_active d l && at_key k l) (lines d).

Definition accounted (d : DB) : Prop := forall k, booked_at (ledger d) k = occupancy d k.

(** No two active bookings share a room on a night. *)
Definition exclusive (d : DB) : Prop := forall l1 l2 r,
  In l1 (lines d) -> In l2 (lines d) -> line_active d l1 = true -> line_active d l2 = true ->
  l_tenant l1 = l_tenant l2 -> l_room l1 = Some r -> l_room l2 = Some r -> l_date l1 = l_date l2 ->
  l_booking l1 = l_booking l2.

(** A booking's lines are distinct nights of one room type. *)
Definition one_stay (ls : list BookingLine) : Prop :=
  List.NoDup (List.map l_date ls) /\ forall l l', In l ls -> In l' ls -> l_room_type l = l_room_type l'.

Record well_formed (d : DB) : Prop := {
  wf_ids : List.NoDup (List.map b_id (bookings d));
  wf_status : forall b, In b (bookings d) -> str_in (b_status b) KNOWN_STATUSES = true;
  wf_stays : forall t bid, one_stay (lines_of d t bid);
}.

Record inventory_ok (d : DB) : Prop := {
  inv_wf : well_formed d;
  inv_accounted : accounted d;
  inv_exclusive : exclusive d;
}.

(** ** Splitting the occupancy at a booking *)

Section split.
Context (d : DB) (t bid : Z).

Definition others (k : ledger_key) : Z :=
  countb (fun l => negb (line_of t bid l) && (line_active d l && at_key k l)) (lines d).

Definition own (k : ledger_key) : Z := countb (at_key k) (lines_of d t bid).

Lemma line_of_active l : line_of t bid l = true -> line_active d l = booking_active d t bid.
Proof. unfold line_of, line_active. intros [Ht%Z.eqb_eq Hb%Z.eqb_eq]%andb_prop. by rewrite Ht, Hb. Qed.

Lemma occupancy_split k :
  occupancy d k = others k + (if booking_active d t bid then own k else 0).
Proof.
  unfold occupancy, others, own, lines_of. rewrite (countb_split _ (line_of t bid)), Z.add_comm.
  f_equal. rewrite countb_filter.
  destruct (booking_active d t bid) eqn:E.
  - apply countb_ext. intros l _. destruct (line_of t bid l) eqn:El; [|done].
    by rewrite (line_of_active l El), E.
  - apply countb_false. intros l _. destruct (line_of t bid l) eqn:El; [|done].
    by rewrite (line_of_active l El), E.
Qed.

(** With one stay, the booking's own share is one room on each of its nights. *)
Lemma own_keys rt k :
  one_stay (lines_of d t bid) -> (forall l, In l (lines_of d t bid) -> l_room_type l = rt) ->
  own k = if bool_decide (k ∈ keys_of t rt (sorted_set (List.map l_date (lines_of d t bid)))) then 1 else 0.
Proof.
  intros [Hnd _] Hrt. unfold own. destruct k as [[t' rt'] n].
  assert (Ht : forall l, In l (lines_of d t bid) -> l_tenant l = t).
  { intros l [_ Hl]%filter_In. unfold line_of in Hl. by apply andb_prop in Hl as [Hl%Z.eqb_eq _]. }
  destruct (bool_decide_reflect ((t', rt', n) ∈ keys_of t rt (sorted_set (List.map l_date (lines_of d t bid))))) as [Hk|Hk].
  - apply list_elem_of_In, in_keys_of in Hk as (n' & [= -> -> ->] & Hn). apply (proj1 (sorted_set_In _ _)) in Hn.
    rewrite (countb_ext _ (fun l => l_date l =? n')).
    + rewrite countb_key_NoDup by done. replace (existsb _ _) with true; [done|]. symmetry.
      apply existsb_exists. apply in_map_iff in Hn as (l & Hl & Hin). exists l. split; [done|by apply Z.eqb_eq].
    + intros l Hl. unfold at_key, line_key. rewrite (Ht l Hl), (Hrt l Hl).
      destruct (Z.eqb_spec (l_date l) n') as [->|Hne]; [by apply bool_decide_eq_true_2|].
      apply bool_decide_eq_false_2. congruence.
  - apply countb_false. intros l Hl. unfold at_key. apply bool_decide_eq_false_2. intros Heq.
    apply Hk. rewrite <- Heq. unfold line_key. rewrite (Ht l Hl), (Hrt l Hl).
    apply list_elem_of_In, in_map_iff. exists (l_date l). split; [done|].
    apply sorted_set_In. by apply in_map.
Qed.
End split.

(** ** Agreement of two databases on every other booking *)

Record same_others (t bid : Z) (d d' : DB) : Prop := {
  so_lines : List.filter (fun l => negb (line_of t bid l)) (lines d) =
             List.filter (fun l => negb (line_of t bid l)) (lines d');
  so_active : forall t' b', (t', b') <> (t, bid) -> booking_active d t' b' = booking_active d' t' b';
}.

Lemma same_others_refl t bid d : same_others t bid d d.
Proof. by split. Qed.

Lemma same_others_trans t bid d1 d2 d3 :
  same_others t bid d1 d2 -> same_others t bid d2 d3 -> same_others t bid d1 d3.
Proof.
  intros [Hl1 Ha1] [Hl2 Ha2]. split; [congruence|]. intros t' b' H. by rewrite Ha1, Ha2.
Qed.

Lemma same_others_sym t bid d d' : same_others t bid d d' -> same_others t bid d' d.
Proof. intros [Hl Ha]. split; [done|]. intros t' b' H. by rewrite Ha. Qed.

Lemma not_line_of t bid l : line_of t bid l = false -> (l_tenant l, l_booking l) <> (t, bid).
Proof. unfold line_of. intros H [= Ht Hb]. by rewrite Ht, Hb, !Z.eqb_refl in H. Qed.

Lemma others_same t bid d d' k : same_others t bid d d' -> others d t bid k = others d' t bid k.
Proof.
  intros [Hl Ha]. unfold others.
  assert (Hf : forall d0, countb (fun l => negb (line_of t bid l) && (line_active d0 l && at_key k l)) (lines d0) =
    countb (fun l => line_active d0 l && at_key k l) (List.filter (fun l => negb (line_of t bid l)) (lines d0))).
  { intros d0. by rewrite countb_filter. }
  rewrite !Hf, Hl. apply countb_ext. intros l [_ Hn%negb_true_iff]%filter_In.
  unfold line_active. by rewrite Ha by (by apply not_line_of).
Qed.

Lemma booking_active_ext d d' t bid : bookings d = bookings d' -> booking_active d t bid = booking_active d' t bid.
Proof. unfold booking_active. by intros ->. Qed.

Lemma inventory_ext d d' : same_core d d' -> inventory_ok d -> inventory_ok d'.
Proof.
  intros (Hle & Hli & Hbo) [[Hid Hst Hstay] Hacc Hex]. split; [split| |].
  - by rewrite <- Hbo.
  - by rewrite <- Hbo.
  - intros t bid. specialize (Hstay t bid). unfold lines_of in *. by rewrite <- Hli.
  - intros k. specialize (Hacc k). unfold occupancy, line_active in *. rewrite <- Hle, <- Hli, Hacc.
    apply countb_ext. intros l _. by rewrite (booking_active_ext d d').
  - intros l1 l2 r. specialize (Hex l1 l2 r). unfold line_active in *. rewrite <- Hli.
    by rewrite !(booking_active_ext d' d).
Qed.

Lemma same_others_ext t bid d d' : lines d = lines d' -> bookings d = bookings d' -> same_others t bid d d'.
Proof. intros Hl Hb. split; [by rewrite Hl|]. intros. by apply booking_active_ext. Qed.

(** ** The status of a booking *)

(** Out of the inventory for good. *)
Definition no_revival (st st' : string) : Prop := is_active st' = true -> is_active st = true.

Definition has_status (d : DB) (t bid : Z) (st : string) : Prop :=
  exists b, In b (bookings d) /\ b_tenant b = t /\ b_id b = bid /\ b_status b = st.

Lemma in_unique_id (l : list Booking) b b' :
  List.NoDup (List.map b_id l) -> In b l -> In b' l -> b_id b = b_id b' -> b = b'.
Proof.
  intros Hnd Hb Hb' Heq. pose proof (find_ident l b Hnd Hb) as H1. pose proof (find_ident l b' Hnd Hb') as H2.
  cbn in H1, H2. rewrite Heq in H1. congruence.
Qed.

Lemma has_status_active d t bid st :
  List.NoDup (List.map b_id (bookings d)) -> has_status d t bid st -> booking_active d t bid = is_active st.
Proof.
  intros Hnd (b & Hin & Ht & Hid & Hst). unfold booking_active. destruct (is_active st) eqn:E.
  - apply existsb_exists. exists b. by rewrite Ht, Hid, Hst, E, !Z.eqb_refl.
  - apply not_true_iff_false. intros (b' & Hin' & Hb')%existsb_exists.
    rewrite !andb_true_iff in Hb'. destruct Hb' as [[_ Hid'%Z.eqb_eq] Ha].
    rewrite (in_unique_id _ b' b Hnd Hin' Hin) in Ha by congruence. congruence.
Qed.

(** Changing the booking with key [bid], not its identity. *)
Definition on_booking (bid : Z) (f : Booking -> Booking) (d : DB) : DB :=
  put_bookings (where_id bid f (bookings d)) d.

Definition keeps_identity (f : Booking -> Booking) : Prop :=
  forall b, b_id (f b) = b_id b /\ b_tenant (f b) = b_tenant b.

Lemma where_id_ids bid f l : keeps_identity f -> List.map b_id (where_id bid f l) = List.map b_id l.
Proof.
  intros Hf. unfold where_id. rewrite List.map_map. apply List.map_ext. intros b. cbn.
  destruct (b_id b =? bid); [apply Hf|done].
Qed.

Lemma on_booking_ids bid f d :
  keeps_identity f -> List.map b_id (bookings (on_booking bid f d)) = List.map b_id (bookings d).
Proof. intros Hf. exact (where_id_ids bid f (bookings d) Hf). Qed.

Lemma existsb_map {A B} (p : B -> bool) (f : A -> B) l : existsb p (List.map f l) = existsb (fun x => p (f x)) l.
Proof. induction l as [|x l IH]; simpl; [done|]. by rewrite IH. Qed.

Lemma existsb_ext_in {A} (p q : A -> bool) l : (forall x, In x l -> p x = q x) -> existsb p l = existsb q l.
Proof.
  induction l as [|x l IH]; intros H; [done|]. simpl. rewrite (H x), IH; [done| |by left].
  intros y Hy. apply H. by right.
Qed.

Lemma on_booking_active_other bid f d t t' b' :
  keeps_identity f -> List.NoDup (List.map b_id (bookings d)) ->
  (exists b, In b (bookings d) /\ b_id b = bid /\ b_tenant b = t) ->
  (t', b') <> (t, bid) -> booking_active (on_booking bid f d) t' b' = booking_active d t' b'.
Proof.
  intros Hf Hnd (b0 & Hb0 & Hid0 & Ht0) Hne. unfold booking_active, on_booking, where_id. cbn.
  rewrite existsb_map. apply existsb_ext_in. intros b Hb.
  destruct (Z.eqb_spec (b_id b) bid) as [Hid|]; [|done].
  assert (b = b0) as -> by (apply (in_unique_id (bookings d)); [done..|congruence]).
  destruct (Hf b0) as [-> ->]. rewrite Ht0, Hid0.
  destruct (Z.eqb_spec t t') as [<-|]; [|done]. destruct (Z.eqb_spec bid b') as [<-|]; [|done]. done.
Qed.

Lemma on_booking_status bid f d t st :
  keeps_identity f -> has_status d t bid st ->
  exists b, In b (bookings d) /\ b_id b = bid /\ b_tenant b = t /\ b_status b = st /\
    has_status (on_booking bid f d) t bid (b_status (f b)).
Proof.
  intros Hf (b & Hin & Ht & Hid & Hst). exists b. split_and!; try done.
  exists (f b). destruct (Hf b) as [Hfi Hft]. split_and!; try congruence.
  unfold on_booking, where_id. cbn. apply in_map_iff. exists b. split; [|done].
  by rewrite Hid, Z.eqb_refl.
Qed.

(** ** The invariant inside a request *)

(** [held extra]: the identity map satisfies the invariants, except that the
    share of booking [bid] in the ledger is [extra]; every other booking is
    on disk as it is in memory; and the booking has status [st]. *)
Record held (t bid : Z) (st : string) (extra : ledger_key -> Z) (s : session) : Prop := {
  h_wf : well_formed (mem s);
  h_exclusive : exclusive (mem s);
  h_balance : forall k, booked_at (ledger (mem s)) k = others (mem s) t bid k + extra k;
  h_others : same_others t bid (disk s) (mem s);
  h_status : has_status (mem s) t bid st;
}.

(** What the booking takes from the ledger: its lines, if it is active. *)
Definition share (t bid : Z) (st : string) (d : DB) (k : ledger_key) : Z :=
  if is_active st then own d t bid k else 0.

Definition core (t bid : Z) (st : string) (s : session) : Prop := held t bid st (share t bid st (mem s)) s.

Section held.
Context (t bid : Z) (st : string).

Lemma core_intro s :
  inventory_ok (mem s) -> same_others t bid (disk s) (mem s) -> has_status (mem s) t bid st -> core t bid st s.
Proof.
  intros [Hwf Hacc Hex] Ho Hst. split; try done. intros k. rewrite Hacc, (occupancy_split _ t bid).
  unfold share. by rewrite (has_status_active _ _ _ _ (wf_ids _ Hwf) Hst).
Qed.

Lemma core_inventory s : core t bid st s -> inventory_ok (mem s).
Proof.
  intros [Hwf Hex Hb Ho Hst]. split; [done| |done]. intros k. rewrite Hb, (occupancy_split _ t bid).
  unfold share. by rewrite (has_status_active _ _ _ _ (wf_ids _ Hwf) Hst).
Qed.

Lemma held_ext e e' s : (forall k, e k = e' k) -> held t bid st e s -> held t bid st e' s.
Proof. intros He [Hwf Hex Hb Ho Hst]. split; try done. intros k. by rewrite Hb, He. Qed.

#[export] Instance held_stable e : CoreStable (held t bid st e).
Proof.
  split.
  - intros s s' Hm Hd _ [Hwf Hex Hb Ho Hst].
    assert (Hm' : ledger (mem s) = ledger (mem s') /\ lines (mem s) = lines (mem s') /\ bookings (mem s) = bookings (mem s')) by exact Hm.
    assert (Hd' : ledger (disk s) = ledger (disk s') /\ lines (disk s) = lines (disk s') /\ bookings (disk s) = bookings (disk s')) by exact Hd.
    destruct Hm' as (Hl & Hli & Hbo). destruct Hd' as (_ & Hdl & Hdb). split.
    + destruct Hwf as [H1 H2 H3]. split; [by rewrite <- Hbo..|].
      intros t' b'. specialize (H3 t' b'). unfold lines_of in *. by rewrite <- Hli.
    + intros l1 l2 r. specialize (Hex l1 l2 r). unfold line_active in *. rewrite <- Hli.
      by rewrite !(booking_active_ext (mem s') (mem s)).
    + intros k. rewrite <- Hl, Hb. f_equal. apply others_same. by apply same_others_ext.
    + apply (same_others_trans _ _ _ (disk s)); [by apply same_others_ext|].
      apply (same_others_trans _ _ _ (mem s)); [done|by apply same_others_ext].
    + unfold has_status in *. by rewrite <- Hbo.
  - intros s [Hwf Hex Hb Ho Hst]. split; try done; apply same_others_refl.
Qed.

#[export] Instance core_stable : CoreStable (core t bid st).
Proof.
  split.
  - intros s s' Hm Hd Hu H. unfold core in *.
    eapply held_ext; [|exact (cs_frame _ _ Hm Hd Hu H)]. intros k. unfold share, own, lines_of.
    destruct Hm as (_ & -> & _). done.
  - intros s H. exact (cs_flush (I := held t bid st (share t bid st (mem s))) s H).
Qed.
End held.

(** ** Releasing *)

Section phases.
Context {env : Env} (t bid : Z).

(** The booking's lines, as the phases snapshot them. *)
Definition at_lines (ls : list BookingLine) (s : session) : Prop := ls = lines_of (mem s) t bid.

Lemma distinct_one l x : distinct l = [x] -> forall y, In y l -> y = x.
Proof. intros H y Hy. apply (nodup_In Z.eq_dec) in Hy. unfold distinct in H. rewrite H in Hy. by destruct Hy as [<-|[]]. Qed.

Lemma distinct_all l x : In x l -> (forall y, In y l -> y = x) -> distinct l = [x].
Proof.
  intros Hx Hall. unfold distinct. pose proof (NoDup_nodup Z.eq_dec l) as Hnd.
  assert (Hin : forall y, In y (List.nodup Z.eq_dec l) -> y = x) by (intros y Hy; apply Hall; by apply nodup_In in Hy).
  apply (nodup_In Z.eq_dec) in Hx. destruct (List.nodup Z.eq_dec l) as [|a [|b l']]; [done| |].
  - by rewrite (Hin a) by (by left).
  - exfalso. apply List.NoDup_cons_iff in Hnd as [Hni _]. apply Hni.
    assert (a = x) as -> by (apply Hin; by left).
    assert (b = x) as -> by (apply Hin; right; by left). by left.
Qed.

Lemma booking_lines_inv s s' ls : booking_lines t bid s = (s', Ok ls) -> s' = s /\ at_lines ls s.
Proof. unfold booking_lines. destruct (existsb _ _); [done|]. intros H. by simplify_eq. Qed.

(** Moving the ledger under the booking changes only what is booked. *)
Lemma held_ledger st e ks n s :
  List.NoDup ks -> (forall k, In k ks -> is_Some (ledger (mem s) !! k)) ->
  held t bid st e s ->
  held t bid st (fun k => e k + (if bool_decide (k ∈ ks) then n else 0))
    (set_mem (on_ledger (update_rows (add_booked n) ks) (mem s)) s).
Proof.
  intros Hnd Hex [Hwf Hexc Hb Ho Hst].
  set (s' := set_mem _ s).
  assert (Hsame : lines (mem s') = lines (mem s) /\ bookings (mem s') = bookings (mem s)) by done.
  split.
  - destruct Hwf. by split.
  - exact Hexc.
  - intros k. cbn. rewrite booked_at_update, Hb, Z.add_assoc by done. do 2 f_equal.
  - apply (same_others_trans _ _ _ (mem s)); [exact Ho|by apply same_others_ext].
  - exact Hst.
Qed.

Lemma release_triple st b :
  b_tenant b = t -> b_id b = bid -> is_active st = true ->
  triple (core t bid st) (release_booking_inventory t b) (fun _ s => held t bid st (fun _ => 0) s).
Proof.
  intros Ht Hid Hact s s' [] Hs H. unfold release_booking_inventory in H. rewrite Ht, Hid in H.
  mbind_in H s1 ls Hls. apply booking_lines_inv in Hls as [-> Hls]. red in Hls.
  assert (Hstay : one_stay ls) by (rewrite Hls; apply (wf_stays _ (h_wf _ _ _ _ _ Hs))).
  unfold core, share in Hs. rewrite Hact in Hs.
  destruct ls as [|l0 ls0] eqn:El.
  { cbv [mret M_ret] in H. simplify_eq. eapply held_ext; [|exact Hs].
    intros k. unfold own. by rewrite <- Hls. }
  rewrite <- El in *. assert (Hl0 : In l0 ls) by (rewrite El; by left). clear El.
  assert (Hrt : distinct (List.map l_room_type ls) = [l_room_type l0]).
  { apply distinct_all; [by apply in_map|]. intros y (l & <- & Hl)%in_map_iff. by apply (proj2 Hstay). }
  rewrite Hrt in H. mbind_in H s2 rows Hlock. apply lock_inv in Hlock as (-> & -> & Hrows).
  apply decrement_inv in H as [-> Hex]. eapply held_ext; [|apply held_ledger; [auto with pms|done|exact Hs]].
  intros k. cbv beta. rewrite (own_keys _ _ _ (l_room_type l0)).
  - rewrite <- Hls. destruct (bool_decide _); lia.
  - by rewrite <- Hls.
  - rewrite <- Hls. intros l Hl. by apply (proj2 Hstay).
Qed.

(** ** Changing the booking's row *)

Lemma on_booking_held bid' f e st s :
  bid' = bid -> keeps_identity f -> (forall b, str_in (b_status (f b)) KNOWN_STATUSES = true \/ b_status (f b) = b_status b) ->
  held t bid st e s -> exclusive (on_booking bid f (mem s)) ->
  exists b, b_status b = st /\
    held t bid (b_status (f b)) e (set_mem (on_booking bid' f (mem s)) s).
Proof.
  intros -> Hf Hk [[Hid Hkn Hstay] Hexc Hb Ho Hst] Hex'.
  destruct (on_booking_status bid f (mem s) t st Hf Hst) as (b & Hin & Hbid & Hbt & Hbs & Hst').
  assert (Hag : same_others t bid (mem s) (on_booking bid f (mem s))).
  { split; [done|]. intros t' b' Hne. symmetry. apply (on_booking_active_other bid f (mem s) t); try done.
    by exists b. }
  exists b. split; [done|]. split; cbn [mem set_mem disk].
  - split.
    + rewrite on_booking_ids by done. exact Hid.
    + cbn. intros b' (b0 & <- & Hb0)%in_map_iff. destruct (ident b0 =? bid); [|by apply Hkn].
      destruct (Hk b0) as [?| ->]; [done|by apply Hkn].
    + exact Hstay.
  - exact Hex'.
  - intros k. cbn. rewrite Hb. f_equal. by apply others_same.
  - by apply (same_others_trans _ _ _ (mem s)).
  - exact Hst'.
Qed.

End phases.

Lemma exclusive_mono d d' :
  lines d' = lines d -> (forall t' b', booking_active d' t' b' = true -> booking_active d t' b' = true) ->
  exclusive d -> exclusive d'.
Proof.
  intros Hl Ha Hex l1 l2 r H1 H2 Ha1 Ha2. rewrite Hl in H1, H2. apply Hex; try done; by apply Ha.
Qed.

Lemma on_booking_exclusive t bid f st s :
  keeps_identity f -> well_formed (mem s) -> has_status (mem s) t bid st ->
  (forall b, b_status b = st -> is_active (b_status (f b)) = true -> is_active st = true) ->
  exclusive (mem s) -> exclusive (on_booking bid f (mem s)).
Proof.
  intros Hf Hwf Hst Hact. apply exclusive_mono; [done|]. intros t' b' Ha.
  pose proof Hst as (b0 & Hin & Hbt & Hbid & Hbs).
  destruct (decide ((t', b') = (t, bid))) as [[= -> ->]|Hne].
  - rewrite (has_status_active _ _ _ _ (wf_ids _ Hwf) Hst).
    destruct (on_booking_status bid f (mem s) t st Hf Hst) as (b & Hb & _ & _ & Hbs' & Hst').
    rewrite (has_status_active _ _ _ _ ltac:(rewrite on_booking_ids; [apply Hwf|done]) Hst') in Ha.
    by apply (Hact b).
  - rewrite (on_booking_active_other bid f (mem s) t) in Ha; [done|done|apply Hwf|by exists b0|done].
Qed.

Lemma booking_now_inv bid s s' b :
  booking_now bid s = (s', Ok b) -> s' = s /\ In b (bookings (mem s)) /\ b_id b = bid.
Proof.
  unfold booking_now. mrun. intros H. destruct (List.find _ _) as [b0|] eqn:Hf; [|done].
  cbv [of_option lift] in H. simplify_eq. apply find_some in Hf as [Hin Hid%Z.eqb_eq]. done.
Qed.

Lemma has_status_now t bid st b s :
  held t bid st (share t bid st (mem s)) s -> In b (bookings (mem s)) -> b_id b = bid ->
  b_status b = st /\ b_tenant b = t.
Proof.
  intros Hs Hin Hid. destruct (h_status _ _ _ _ _ Hs) as (b0 & Hin0 & Ht0 & Hid0 & Hst0).
  assert (b = b0) as -> by (apply (in_unique_id (bookings (mem s))); [apply Hs|done..|congruence]). done.
Qed.

Lemma core_known t bid st s : core t bid st s -> str_in st KNOWN_STATUSES = true.
Proof. intros [Hwf _ _ _ (b & Hin & _ & _ & <-)]. by apply Hwf. Qed.

Lemma assign_is_on_booking bid f s : assign (R := Booking) bid f s = (set_mem (on_booking bid f (mem s)) s, Ok tt).
Proof. done. Qed.

(** Setting the status of a booking whose share of the ledger is settled. *)
Lemma set_status_core t bid st st' e s :
  held t bid st e s -> str_in st' KNOWN_STATUSES = true ->
  (is_active st' = true -> is_active st = true) ->
  (forall k, e k = share t bid st' (mem s) k) ->
  core t bid st' (set_mem (on_booking bid (set_b_status st') (mem s)) s).
Proof.
  intros Hs Hk Hact He.
  assert (Hkeep : keeps_identity (set_b_status st')) by (intros b; done).
  destruct (on_booking_held t bid bid (set_b_status st') e st s eq_refl Hkeep) as (b & Hbs & Hh).
  - intros b. left. exact Hk.
  - exact Hs.
  - apply (on_booking_exclusive t bid _ st); try done; apply Hs.
  - cbn in Hh. unfold core. eapply held_ext; [|exact Hh]. intros k. rewrite He. done.
Qed.

Lemma transition_inv o n s s' :
  transition_or_409 o n s = (s', Ok tt) -> s' = s /\
  (normalize_booking_status o = normalize_booking_status n \/
   step (normalize_booking_status o) (normalize_booking_status n)).
Proof.
  unfold transition_or_409. intros H. destruct (validate_status_transition o n) as [[]|e] eqn:E.
  - cbv [mret M_ret] in H. simplify_eq. split; [done|]. by apply validate_ok_iff.
  - by destruct e.
Qed.

Lemma patch_cancel_triple {env : Env} t bid st :
  triple (core t bid st) (patch_cancel t bid) (fun _ s => exists st', core t bid st' s /\ no_revival st st').
Proof.
  intros s s' [] Hs H. unfold patch_cancel in H. mbind_in H s1 b Hb.
  apply booking_now_inv in Hb as (-> & Hin & Hid).
  destruct (has_status_now _ _ _ _ _ Hs Hin Hid) as [Hbs Hbt]. pose proof (core_known _ _ _ _ Hs) as Hkn.
  rewrite Hbs, (normalize_known st Hkn) in H.
  destruct (String.eqb_spec st "cancelled") as [_|Hne].
  { exists st. cbv [mret M_ret] in H. split; [by injection H as <-|by intros ?]. }
  mbind_in H s2 u Htr. destruct u. apply transition_inv in Htr as [-> Htr].
  rewrite (normalize_known st Hkn) in Htr. change (normalize_booking_status "cancelled") with "cancelled"%string in Htr.
  destruct Htr as [?|Hstep]; [done|]. pose proof (is_active_step _ _ Hstep) as Hact.
  mbind_in H s3 u Hrel. destruct u. apply (release_triple t bid st b Hbt Hid Hact s) in Hrel; [|exact Hs].
  mbind_in H s4 u Ha. rewrite assign_is_on_booking in Ha. simplify_eq.
  cbv [flush] in H. simplify_eq. exists "cancelled"%string. split; [|by intros ?].
  apply (cs_flush (I := core (b_tenant b) (b_id b) "cancelled")).
  by apply (set_status_core _ _ (b_status b) "cancelled" (fun _ => 0)).
Qed.

Lemma not_cancelled body o :
  wants_cancel body = false -> pt_status body = Some o ->
  normalize_booking_status (py_str_opt o) <> "cancelled"%string.
Proof.
  unfold wants_cancel. intros Hw Ho. rewrite Ho in Hw. destruct o as [st|]; [|done].
  cbn [py_str_opt]. intros E. by rewrite E in Hw.
Qed.

Lemma patch_status_triple {env : Env} t bid body st :
  wants_cancel body = false ->
  triple (core t bid st) (patch_status t bid body st) (fun _ s => exists st', core t bid st' s /\ no_revival st st').
Proof.
  intros Hw s s' [] Hs H. unfold patch_status in H. destruct (pt_status body) as [o|] eqn:Eo.
  2:{ cbv [mret M_ret] in H. simplify_eq. exists st. split; [done|by intros ?]. }
  mbind_in H s1 b Hb. apply booking_now_inv in Hb as (-> & Hin & Hid).
  destruct (has_status_now _ _ _ _ _ Hs Hin Hid) as [Hbs Hbt]. pose proof (core_known _ _ _ _ Hs) as Hkn.
  pose proof (not_cancelled body o Hw Eo) as Hnc.
  set (n := normalize_booking_status (py_str_opt o)) in H, Hnc. cbv zeta in H.
  mbind_in H s2 u Htr. destruct u. apply transition_inv in Htr as [-> Htr].
  unfold n in Htr at 1 2. rewrite normalize_idem in Htr. fold n in Htr.
  rewrite Hbs, (normalize_known st Hkn) in Htr.
  mbind_in H s3 u Hci.
  assert (Hs3 : core t bid st s3).
  { destruct (String.eqb n "checked_in" && _) in Hci.
    - by apply (checkin_frame (core t bid st) _ _ _ _ _ Hs Hci).
    - cbv [mret M_ret] in Hci. by simplify_eq. }
  clear Hci u. mbind_in H s4 u Hns. destruct u. rewrite assign_is_on_booking in H. simplify_eq. exists n.
  split; cycle 1.
  { intros Hna. destruct Htr as [<-|Hstep]; [done|by apply (is_active_step _ n)]. }
  assert (Hn : str_in n KNOWN_STATUSES = true).
  { destruct Htr as [<-|Hst]; [done|]. by apply step_known in Hst as [_ ?]. }
  rewrite (normalize_known (b_status b) Hkn) in Hns.
  destruct Htr as [Heq|Hstep].
  - (* re-statement of the same status *)
    clearbody n. subst n.
    assert (Hs4 : core (b_tenant b) (b_id b) (b_status b) s4).
    { destruct (String.eqb_spec (b_status b) "no_show") as [E|]; cbn [andb] in Hns.
      - rewrite E in Hns. cbv [mret M_ret String.eqb] in Hns. cbn in Hns. by simplify_eq.
      - cbv [mret M_ret] in Hns. by simplify_eq. }
    by apply (set_status_core _ _ (b_status b) (b_status b) (share (b_tenant b) (b_id b) (b_status b) (mem s4))).
  - destruct (String.eqb_spec n "no_show") as [E|Hne]; cbn [andb] in Hns.
    + rewrite E in Hstep |- *. inversion Hstep as [| | | |Hst|]. rewrite <- Hst in Hns. cbn in Hns.
      assert (Hact : is_active (b_status b) = true) by (by rewrite <- Hst).
      apply (release_triple (b_tenant b) (b_id b) (b_status b) b eq_refl eq_refl Hact s3) in Hns; [|exact Hs3].
      by apply (set_status_core _ _ (b_status b) "no_show" (fun _ => 0)).
    + cbv [mret M_ret] in Hns. simplify_eq.
      apply (set_status_core _ _ (b_status b) n (share (b_tenant b) (b_id b) (b_status b) (mem s4))); try done.
      * intros _. by apply (is_active_step _ n).
      * intros k. unfold share. rewrite (is_active_step _ _ Hstep).
        inversion Hstep; congruence || done.
Qed.

(** ** Assigning a room *)

Definition give_room (t bid : Z) (r : option Z) (l : BookingLine) : BookingLine :=
  if line_of t bid l then set_l_room r l else l.

Definition roomed (t bid : Z) (r : option Z) (d : DB) : DB := put_lines (List.map (give_room t bid r) (lines d)) d.

Lemma assert_free_inv t rid nights x s s' :
  assert_no_room_conflict t rid nights x s = (s', Ok tt) ->
  s' = s /\ forall l, In l (lines (disk s)) -> room_clash (disk s) t rid nights x l = false.
Proof.
  unfold assert_no_room_conflict. destruct nights as [|n ns].
  - intros H. cbv [mret M_ret] in H. simplify_eq. split; [done|]. intros l _. unfold room_clash.
    cbn. by rewrite andb_false_r.
  - mrun. destruct (existsb _ _) eqn:E; intros H; cbv [raise mret M_ret] in H; [done|]. simplify_eq.
    split; [done|]. intros l Hl. apply not_true_iff_false. intros Hc.
    apply not_true_iff_false in E. apply E. apply existsb_exists. by exists l.
Qed.

(** A successful assignment writes the room on the booking's lines, and found
    no line of another active booking with that room on those nights. *)
Lemma assign_room_inv {env : Env} t bid r s s' :
  assign_booking_room t bid r s = (s', Ok tt) ->
  mem s' = roomed t bid r (mem s) /\ disk s' = disk s /\
  match r with
  | Some rid => forall l, In l (lines (disk s)) ->
      room_clash (disk s) t rid (sorted_set (List.map l_date (lines_of (mem s) t bid))) bid l = false
  | None => True
  end.
Proof.
  unfold assign_booking_room. mrun. destruct (hd_error _) as [b|]; [|done]. intros H.
  mbind_in H s1 u H1. cbv [load_lines] in H1. injection H1 as H1 _.
  assert (Hm1 : mem s1 = mem s /\ disk s1 = disk s) by (by subst s1). destruct Hm1 as [Hm1 Hd1]. clear H1 u.
  destruct (str_in _ _); [done|]. mbind_in H s2 ls Hls. apply booking_lines_inv in Hls as [-> Hls]. red in Hls.
  destruct ls as [|l0 ls0] eqn:El; [done|]. rewrite <- El in *. clear El l0 ls0.
  destruct (distinct _) as [|rt [|? ?]]; [done| |done].
  destruct r as [rid|].
  2:{ unfold assign_lines_room in H. cbv [orm] in H. injection H as <-. cbn. by rewrite Hm1, Hd1. }
  autorewrite with run in H. destruct (hd_error _) as [rm|]; [|done]. destruct (negb _); [done|].
  autorewrite with run in H. destruct (match hd_error _ with Some _ => _ | None => _ end); [done|].
  mbind_in H s3 u H3. destruct u. apply assert_free_inv in H3 as [-> H3].
  unfold assign_lines_room in H. cbv [orm] in H. injection H as <-. cbn.
  rewrite Hm1, Hd1 in *. split_and!; [done|done|]. intros l Hl. rewrite <- Hls. by apply H3.
Qed.

Lemma give_room_line t bid r t' b' l : line_of t' b' (give_room t bid r l) = line_of t' b' l.
Proof. unfold give_room. by destruct (line_of t bid l). Qed.

Lemma filter_map_comm {A} (p : A -> bool) (f : A -> A) l :
  (forall x, p (f x) = p x) -> List.filter p (List.map f l) = List.map f (List.filter p l).
Proof. intros H. induction l as [|x l IH]; simpl; [done|]. rewrite H. destruct (p x); simpl; congruence. Qed.

Lemma roomed_lines_of t bid r d t' b' :
  lines_of (roomed t bid r d) t' b' = List.map (give_room t bid r) (lines_of d t' b').
Proof. unfold lines_of, roomed. cbn. apply filter_map_comm. intros l. apply give_room_line. Qed.

Lemma roomed_others t bid r d : same_others t bid d (roomed t bid r d).
Proof.
  split; [|done]. unfold roomed. cbn. rewrite filter_map_comm by (intros l; by rewrite give_room_line).
  symmetry. rewrite <- (List.map_id (List.filter _ (lines d))) at 2. apply List.map_ext_in.
  intros l [_ Hl%negb_true_iff]%filter_In. unfold give_room. by rewrite Hl.
Qed.

Lemma roomed_own t bid r d k : own (roomed t bid r d) t bid k = own d t bid k.
Proof.
  unfold own. rewrite roomed_lines_of, countb_map. apply countb_ext. intros l _.
  unfold at_key, line_key, give_room. by destruct (line_of t bid l).
Qed.

Lemma roomed_stay t bid r d t' b' : one_stay (lines_of d t' b') -> one_stay (lines_of (roomed t bid r d) t' b').
Proof.
  rewrite roomed_lines_of. intros [Hnd Hrt]. split.
  - rewrite List.map_map. erewrite List.map_ext; [exact Hnd|]. intros l. unfold give_room. by destruct (line_of t bid l).
  - intros l l' (l0 & <- & H0)%in_map_iff (l1 & <- & H1)%in_map_iff.
    assert (He : forall l, l_room_type (give_room t bid r l) = l_room_type l).
    { intros x. unfold give_room. by destruct (line_of t bid x). }
    rewrite !He. by apply Hrt.
Qed.

(** The room is free on disk, and the other bookings are on disk as they are
    in memory: no other active booking can clash. *)
Lemma roomed_exclusive t bid r s :
  same_others t bid (disk s) (mem s) -> exclusive (mem s) ->
  match r with
  | Some rid => forall l, In l (lines (disk s)) ->
      room_clash (disk s) t rid (sorted_set (List.map l_date (lines_of (mem s) t bid))) bid l = false
  | None => True
  end ->
  exclusive (roomed t bid r (mem s)).
Proof.
  intros Ho Hex Hfree.
  assert (Hcross : forall l1 l2 x, In l1 (lines (mem s)) -> In l2 (lines (mem s)) ->
    line_of t bid l1 = true -> line_of t bid l2 = false -> line_active (mem s) l2 = true ->
    l_tenant l2 = t -> r = Some x -> l_room l2 = Some x -> l_date l1 = l_date l2 -> False).
  { intros l1 l2 x H1 H2 Hl1 Hl2 Ha Ht -> Hx Hd.
    assert (Hin : In l2 (lines (disk s))).
    { assert (Hf : In l2 (List.filter (fun l => negb (line_of t bid l)) (lines (mem s)))) by (apply filter_In; by rewrite Hl2).
      rewrite <- (so_lines _ _ _ _ Ho) in Hf. by apply filter_In in Hf as [? _]. }
    specialize (Hfree l2 Hin). apply not_true_iff_false in Hfree. apply Hfree. unfold room_clash.
    rewrite Ht, Hx, Z.eqb_refl, bool_decide_eq_true_2 by done. cbn [andb].
    assert (Hb : (l_booking l2 =? bid) = false).
    { unfold line_of in Hl2. rewrite Ht, Z.eqb_refl in Hl2. exact Hl2. }
    rewrite Hb. cbn [negb andb]. rewrite andb_true_r, andb_true_iff. split.
    - apply existsb_exists. exists (l_date l2). split; [|apply Z.eqb_refl]. apply sorted_set_In.
      rewrite <- Hd. apply in_map. by apply filter_In.
    - unfold line_active in Ha. rewrite Ht in Ha.
      rewrite <- (so_active _ _ _ _ Ho) in Ha by (intros [= E]; rewrite E, Z.eqb_refl in Hb; done).
      unfold booking_active in Ha. exact Ha. }
  intros l1' l2' x (l1 & <- & H1)%in_map_iff (l2 & <- & H2)%in_map_iff Ha1 Ha2.
  assert (Hat : forall l, line_active (roomed t bid r (mem s)) (give_room t bid r l) = line_active (mem s) l).
  { intros l. unfold give_room. by destruct (line_of t bid l). }
  rewrite Hat in Ha1, Ha2. unfold give_room.
  destruct (line_of t bid l1) eqn:E1, (line_of t bid l2) eqn:E2; cbn; intros Ht Hr1 Hr2 Hd.
  - unfold line_of in E1, E2. apply andb_prop in E1 as [_ ->%Z.eqb_eq], E2 as [_ ->%Z.eqb_eq]. done.
  - exfalso. pose proof E1 as Et. unfold line_of in Et. apply andb_prop in Et as [Et%Z.eqb_eq _].
    apply (Hcross l1 l2 x); try done; congruence.
  - exfalso. pose proof E2 as Et. unfold line_of in Et. apply andb_prop in Et as [Et%Z.eqb_eq _].
    apply (Hcross l2 l1 x); try done; congruence.
  - by apply (Hex l1 l2 x).
Qed.

Lemma assign_room_triple {env : Env} t bid r st e :
  triple (held t bid st e) (assign_booking_room t bid r) (fun _ => held t bid st e).
Proof.
  intros s s' [] [Hwf Hex Hb Ho Hst] H. apply assign_room_inv in H as (Hm & Hd & Hfree).
  split; rewrite ?Hm, ?Hd.
  - destruct Hwf as [H1 H2 H3]. split; [done|done|]. intros t' b'. by apply roomed_stay.
  - by apply roomed_exclusive.
  - intros k. rewrite <- (others_same t bid (mem s)) by apply roomed_others. apply Hb.
  - apply (same_others_trans _ _ _ (mem s)); [done|apply roomed_others].
  - exact Hst.
Qed.

Lemma assign_room_core {env : Env} t bid r st :
  triple (core t bid st) (assign_booking_room t bid r) (fun _ => core t bid st).
Proof.
  intros s s' [] Hs H. pose proof (assign_room_inv _ _ _ _ _ H) as (Hm & _ & _).
  pose proof (assign_room_triple t bid r st _ _ _ _ Hs H) as Hh. unfold core.
  eapply held_ext; [|exact Hh]. intros k. unfold share. by rewrite Hm, roomed_own.
Qed.

(** ** Moving the stay *)

Definition nights_share (t rt : Z) (nights : list date) (k : ledger_key) : Z :=
  if bool_decide (k ∈ keys_of t rt (sorted_set nights)) then 1 else 0.

Lemma try_except_missing_inv {A} (m : M A) h s s' a :
  (forall e k, h e = Some k -> forall s1 s2 b, k s1 <> (s2, Ok b)) ->
  try_except m h s = (s', Ok a) -> m s = (s', Ok a).
Proof.
  intros Hh H. unfold try_except in H. destruct (m s) as [s1 [b|e]]; [done|].
  destruct (h e) as [k|] eqn:E; [|done]. by destruct (Hh _ _ E _ _ _ H).
Qed.

Lemma sorted_set_twice l : sorted_set (sorted_set l) = sorted_set l.
Proof. apply sorted_set_id, sorted_set_sorted. Qed.

(** An active booking's nights go back to the ledger. *)
Lemma give_back_held t bid st rt ls s s' :
  is_active st = true -> (forall l, In l ls -> l_room_type l = rt) -> ls = lines_of (mem s) t bid -> core t bid st s ->
  decrement_booked_rooms (keys_of t rt (sorted_set (List.map l_date ls))) 1 s = (s', Ok tt) ->
  held t bid st (fun _ => 0) s'.
Proof.
  intros Hact Hrt Hls Hs H. apply decrement_inv in H as [-> Hex].
  pose proof (wf_stays _ (h_wf _ _ _ _ _ Hs) t bid) as Hstay. unfold core, share in Hs. rewrite Hact in Hs.
  eapply held_ext; [|apply held_ledger; [auto with pms|exact Hex|exact Hs]].
  intros k. cbv beta. rewrite (own_keys _ _ _ rt).
  - rewrite <- Hls. destruct (bool_decide _); lia.
  - exact Hstay.
  - by rewrite <- Hls.
Qed.

(** A booking that takes nothing takes new nights. *)
Lemma take_nights_held t bid st rt nights s s1 s' rows :
  held t bid st (fun _ => 0) s -> lock_and_validate_availability t rt nights 1 s = (s1, Ok rows) ->
  increment_booked_rooms rows 1 s1 = (s', Ok tt) -> held t bid st (nights_share t rt nights) s'.
Proof.
  intros Hs Hlock Hinc. apply lock_inv in Hlock as (-> & -> & Hrows). apply increment_inv in Hinc as ->.
  eapply held_ext; [|apply (held_ledger t bid st (fun _ => 0)); [auto with pms| |exact Hs]].
  - intros k. apply Z.add_0_l.
  - intros k Hk. destruct (Hrows k Hk) as (r & Hr & _). by exists r.
Qed.

Lemma move_inventory_triple {env : Env} t bid st rt rp ls ci co :
  is_active st = true -> (forall l, In l ls -> l_room_type l = rt) ->
  triple (fun s => core t bid st s /\ ls = lines_of (mem s) t bid)
    (move_inventory t rt rp (sorted_set (List.map l_date ls)) ci co)
    (fun p s => held t bid st (nights_share t rt (List.map fst p.2)) s /\
       StronglySorted Z.lt (List.map fst p.2) /\ p.1 = sumZ (List.map snd p.2)).
Proof.
  intros Hact Hrt s s' [total per_night] [Hs Hls] H. unfold move_inventory in H.
  mbind_in H s1 rows Hlock. apply lock_inv in Hlock as (-> & -> & _). rewrite sorted_set_twice in H.
  mbind_in H s2 u Hdec. destruct u. apply (give_back_held t bid st rt ls s s2 Hact Hrt Hls Hs) in Hdec as H0.
  mbind_in H s3 priced Hp. apply try_except_missing_inv in Hp; cycle 1.
  { intros e k Hk s4 s5 b. destruct e; simplify_eq. done. }
  destruct priced as [tot per]. apply sum_rates_inv in Hp as (-> & Hn & Htot).
  rewrite Hn, run_lift_ok in H. mbind_in H s4 rows Hlock. mbind_in H s5 u Hinc. destruct u.
  cbv [mret M_ret] in H. injection H as <- <- <-. split_and!; [|by eapply iter_stay_nights_sorted|done].
  by eapply take_nights_held.
Qed.

(** The lines a booking gets for its nights. *)
Definition line_for (t bid rt : Z) (r : option Z) (np : date * Z) (l : BookingLine) : Prop :=
  l_tenant l = t /\ l_booking l = bid /\ l_date l = np.1 /\ l_room_type l = rt /\ l_room l = r /\ l_price l = np.2.

Lemma add_lines_inv t bid rt r per s s' :
  add_lines t bid rt r per s = (s', Ok tt) ->
  exists news, Forall2 (line_for t bid rt r) per news /\
    mem s' = put_lines (lines (mem s) ++ news) (mem s) /\ disk s' = disk s.
Proof.
  unfold add_lines. revert s. induction per as [|np per IH]; intros s H; simpl in H.
  { cbv [mret M_ret] in H. injection H as <-. exists []. split; [constructor|].
    rewrite app_nil_r. by destruct s as [? [] ? ? ? ?]. }
  mbind_in H s1 u H1. mbind_in H1 s2 i Hi. cbv [uuid4] in Hi. injection Hi as <- <-.
  cbv [add orm] in H1. injection H1 as <- _. apply IH in H as (news & Hn & Hm & Hd).
  eexists (_ :: news). split; [constructor; [|exact Hn]|]; cycle 1.
  - rewrite Hm, Hd. cbn. split; [|done]. by rewrite <- app_assoc.
  - by unfold line_for.
Qed.

Lemma lines_for_dates t bid rt r per news :
  Forall2 (line_for t bid rt r) per news -> List.map l_date news = List.map fst per.
Proof. induction 1 as [|np l per news (_ & _ & Hd & _) _ IH]; simpl; [done|]. by rewrite Hd, IH. Qed.

Lemma lines_for_all t bid rt r per news l :
  Forall2 (line_for t bid rt r) per news -> In l news ->
  line_of t bid l = true /\ l_room_type l = rt /\ l_room l = r.
Proof.
  induction 1 as [|np l0 per news (Ht & Hb & _ & Hr & Hro & _) _ IH]; [done|]. intros [<-|Hl]; [|by apply IH].
  unfold line_of. by rewrite Ht, Hb, !Z.eqb_refl.
Qed.

(** The booking's lines replaced by new ones. *)
Definition relined (t bid : Z) (news : list BookingLine) (d : DB) : DB :=
  put_lines (List.filter (fun l => negb (line_of t bid l)) (lines d) ++ news) d.

Lemma relined_own_lines t bid news d :
  (forall l, In l news -> line_of t bid l = true) -> lines_of (relined t bid news d) t bid = news.
Proof.
  intros Hn. unfold lines_of, relined. cbn. rewrite List.filter_app, filter_filter_neg. simpl.
  by apply forallb_filter, forallb_forall.
Qed.

Lemma relined_others t bid news d :
  (forall l, In l news -> line_of t bid l = true) -> same_others t bid d (relined t bid news d).
Proof.
  intros Hn. split; [|done]. unfold relined. cbn. rewrite List.filter_app, filter_idem.
  rewrite (filter_none _ news), app_nil_r; [done|]. intros l Hl. by rewrite Hn.
Qed.

Lemma line_of_unique t bid t' b' l : line_of t bid l = true -> line_of t' b' l = true -> (t', b') = (t, bid).
Proof.
  unfold line_of. intros [<-%Z.eqb_eq <-%Z.eqb_eq]%andb_prop [<-%Z.eqb_eq <-%Z.eqb_eq]%andb_prop. done.
Qed.

Lemma relined_other_lines t bid news d t' b' :
  (forall l, In l news -> line_of t bid l = true) -> (t', b') <> (t, bid) ->
  lines_of (relined t bid news d) t' b' = lines_of d t' b'.
Proof.
  intros Hn Hne. unfold lines_of, relined. cbn. rewrite List.filter_app, (filter_none _ news), app_nil_r.
  - induction (lines d) as [|l ls IH]; [done|]. simpl. destruct (line_of t bid l) eqn:E; simpl.
    + rewrite IH. destruct (line_of t' b' l) eqn:E'; [|done]. by destruct (line_of_unique _ _ _ _ _ E E').
    + by rewrite IH.
  - intros l Hl. apply not_true_iff_false. intros E'. by destruct (line_of_unique _ _ _ _ _ (Hn l Hl) E').
Qed.

(** New lines without a room, on the nights the ledger already counts. *)
Lemma relined_core t bid st rt per news s s' :
  held t bid st (nights_share t rt (List.map fst per)) s -> is_active st = true ->
  StronglySorted Z.lt (List.map fst per) -> Forall2 (line_for t bid rt None) per news ->
  mem s' = relined t bid news (mem s) -> same_others t bid (disk s') (mem s) ->
  core t bid st s'.
Proof.
  intros [Hwf Hex Hb Ho Hst] Hact Hsort Hnews Hm Hd.
  assert (Hall : forall l, In l news -> line_of t bid l = true) by (intros l Hl; by destruct (lines_for_all _ _ _ _ _ _ _ Hnews Hl) as [? _]).
  assert (Hown : lines_of (mem s') t bid = news) by (rewrite Hm; by apply relined_own_lines).
  assert (Hstay : one_stay news).
  { split.
    - rewrite (lines_for_dates _ _ _ _ _ _ Hnews). by apply sorted_lt_NoDup.
    - intros l l' Hl Hl'. destruct (lines_for_all _ _ _ _ _ _ _ Hnews Hl) as (_ & -> & _).
      by destruct (lines_for_all _ _ _ _ _ _ _ Hnews Hl') as (_ & -> & _). }
  split.
  - destruct Hwf as [H1 H2 H3]. rewrite Hm. split; [done|done|]. intros t' b'.
    destruct (decide ((t', b') = (t, bid))) as [[= -> ->]|Hne].
    + by rewrite relined_own_lines.
    + by rewrite relined_other_lines.
  - rewrite Hm. intros l1 l2 r H1 H2 Ha1 Ha2 Ht Hr1 Hr2.
    assert (Hin : forall l, In l (lines (relined t bid news (mem s))) -> l_room l = Some r -> In l (lines (mem s))).
    { intros l [Hl|Hl]%in_app_iff Hr; [by apply filter_In in Hl as [? _]|].
      destruct (lines_for_all _ _ _ _ _ _ _ Hnews Hl) as (_ & _ & Hro). congruence. }
    apply (Hex l1 l2 r); try done; by apply Hin.
  - intros k. unfold share. rewrite Hact, (own_keys _ _ _ rt).
    + rewrite Hown, (lines_for_dates _ _ _ _ _ _ Hnews), Hm.
      rewrite <- (others_same t bid (mem s)) by (by apply relined_others). apply Hb.
    + by rewrite Hown.
    + rewrite Hown. intros l Hl. by destruct (lines_for_all _ _ _ _ _ _ _ Hnews Hl) as (_ & ? & _).
  - rewrite Hm. apply (same_others_trans _ _ _ (mem s)); [exact Hd|by apply relined_others].
  - rewrite Hm. exact Hst.
Qed.

(** Changing columns of the booking other than its key and status. *)
Lemma touch_booking_held t bid f st e :
  keeps_identity f -> (forall b, b_status (f b) = b_status b) ->
  preserves (held t bid st e) (assign (R := Booking) bid f).
Proof.
  intros Hkeep Hstat s s' r Hs H. rewrite assign_is_on_booking in H. injection H as <- <-.
  destruct (on_booking_held t bid bid f e st s eq_refl Hkeep) as (b & Hbs & Hh).
  - intros b. right. apply Hstat.
  - exact Hs.
  - apply (on_booking_exclusive t bid _ st); try done; try apply Hs. intros b <-. by rewrite Hstat.
  - rewrite Hstat, Hbs in Hh. exact Hh.
Qed.

Lemma touch_booking_core t bid f st :
  keeps_identity f -> (forall b, b_status (f b) = b_status b) ->
  preserves (core t bid st) (assign (R := Booking) bid f).
Proof.
  intros Hkeep Hstat s s' r Hs H. apply (touch_booking_held t bid f st _ Hkeep Hstat _ _ _ Hs) in H as Hh.
  rewrite assign_is_on_booking in H. injection H as <- <-. exact Hh.
Qed.

Lemma set_total_core t bid total st :
  preserves (core t bid st) (assign (R := Booking) bid (set_b_total total)).
Proof. by apply touch_booking_core. Qed.

Lemma rewrite_lines_triple {env : Env} t b rt total per st :
  b_tenant b = t -> is_active st = true -> StronglySorted Z.lt (List.map fst per) ->
  triple (held t (b_id b) st (nights_share t rt (List.map fst per)))
    (rewrite_lines t b rt total per) (fun _ => core t (b_id b) st).
Proof.
  intros Ht Hact Hsort s s' [] Hs H. unfold rewrite_lines in H. unfold execute_delete in H.
  rewrite run_execute, run_flush in H. mbind_in H s1 u H1. destruct u.
  apply add_lines_inv in H1 as (news & Hn & Hm & Hd).
  assert (Hc : core t (b_id b) st s1).
  { apply (relined_core t (b_id b) st rt per news s); try done.
    rewrite Hd. apply same_others_sym. pose proof (relined_others t (b_id b) [] (mem s)) as Ho.
    unfold relined in Ho. rewrite app_nil_r in Ho. by apply Ho. }
  clear Hm Hd Hn news Hs. revert H. apply (triple_preserves (core t (b_id b) st)); [|exact Hc].
  apply preserves_bind; [apply set_total_core|]. intros _.
  apply preserves_bind; [by apply update_folio_frame; exact _|]. intros _.
  apply preserves_bind; [apply preserves_lift|]. intros _.
  apply preserves_bind; [apply frame_flush; exact _|]. intros _.
  apply preserves_bind; [apply frame_expire_lines; exact _|]. intros _.
  apply preserves_bind; [by apply replace_taxes_frame; exact _|]. intros r.
  by apply update_folio_frame; exact _.
Qed.

Lemma patch_dates_triple {env : Env} t body b ls st :
  b_tenant b = t ->
  (is_set (pt_check_in body) || is_set (pt_check_out body) = true -> is_active st = true) ->
  triple (fun s => core t (b_id b) st s /\ ls = lines_of (mem s) t (b_id b))
    (patch_dates t (b_id b) body b ls) (fun _ => core t (b_id b) st).
Proof.
  intros Ht Hact s s' [] [Hs Hls] H. unfold patch_dates in H.
  destruct (is_set (pt_check_in body) || is_set (pt_check_out body)) eqn:Eset; cbn [negb] in H; cycle 1.
  { cbv [mret M_ret] in H. by injection H as <-. }
  specialize (Hact eq_refl).
  destruct ls as [|l0 ls0] eqn:El; [done|]. rewrite <- El in *. clear El l0 ls0.
  apply bind_lift_inv in H as ([ci co] & _ & H). apply bind_lift_inv in H as (nci & _ & H).
  apply bind_lift_inv in H as (nco & _ & H). destruct (nco <=? nci); [done|]. destruct (_ <? _); [done|].
  destruct ((nci =? ci) && (nco =? co)); [cbv [mret M_ret] in H; by injection H as <-|].
  destruct (b_rate_plan b) as [rp|]; [|done]. destruct (distinct _) as [|rt [|? ?]] eqn:Ed; [done| |done].
  assert (Hrt : forall l, In l ls -> l_room_type l = rt).
  { intros l Hl. apply (distinct_one _ _ Ed). by apply in_map. }
  mbind_in H s1 p Hmv. destruct p as [total per].
  apply (move_inventory_triple t (b_id b) st rt rp ls nci nco Hact Hrt) in Hmv as (Hh & Hsort & _); [|done].
  mbind_in H s2 u Hrw. destruct u. apply (rewrite_lines_triple t b rt total per st Ht Hact Hsort) in Hrw; [|exact Hh].
  destruct (if is_set _ then None else _) as [r|].
  - by apply (assign_room_core t (b_id b) (Some r) st s2 s' tt).
  - cbv [mret M_ret] in H. by injection H as <-.
Qed.

(** ** Requests *)

Lemma inactive_guard_inv body b s s' :
  patch_inactive_guard body b s = (s', Ok tt) ->
  s' = s /\ (is_set (pt_check_in body) || is_set (pt_check_out body) = true ->
    str_in (normalize_booking_status (b_status b)) ["cancelled"; "no_show"]%string = false).
Proof.
  unfold patch_inactive_guard. destruct (str_in _ _); [|intros H; cbv [mret M_ret] in H; by simplify_eq].
  intros H. mbind_in H s1 u H1. destruct u.
  assert (Hs1 : s1 = s).
  { destruct (pt_status body) as [st|]; [by apply transition_inv in H1 as [-> _]|].
    cbv [mret M_ret] in H1. by simplify_eq. }
  subst s1. destruct (is_set (pt_check_in body) || is_set (pt_check_out body)); [done|].
  destruct (false || _); [done|]. cbv [mret M_ret] in H. by simplify_eq.
Qed.

Lemma set_notes_core t bid v st : preserves (core t bid st) (assign (R := Booking) bid (set_b_notes v)).
Proof. by apply touch_booking_core. Qed.

Lemma patch_stay_triple {env : Env} t body b ls st :
  b_tenant b = t -> b_status b = st -> str_in st KNOWN_STATUSES = true -> wants_cancel body = false ->
  triple (fun s => core t (b_id b) st s /\ ls = lines_of (mem s) t (b_id b))
    (patch_stay t (b_id b) body b ls) (fun _ s => exists st', core t (b_id b) st' s /\ no_revival st st').
Proof.
  intros Ht Hst Hk Hw s s' r [Hs Hls] H. unfold patch_stay in H.
  mbind_in H s1 u H1. destruct u. apply inactive_guard_inv in H1 as [-> Hg].
  rewrite Hst, (normalize_known st Hk) in Hg.
  mbind_in H s2 u H2. destruct u. apply (patch_dates_triple t body b ls st) in H2; [|done| |done].
  2:{ intros Hd. unfold is_active. by rewrite (Hg Hd). }
  mbind_in H s3 u H3. destruct u.
  assert (H3' : core t (b_id b) st s3).
  { unfold patch_room in H3. destruct (pt_room_id body) as [ro|].
    - by apply (assign_room_core t (b_id b) ro st s2 s3 tt).
    - cbv [mret M_ret] in H3. by simplify_eq. }
  mbind_in H s4 u H4. destruct u. rewrite Hst in H4.
  apply (patch_status_triple t (b_id b) body st Hw) in H4 as (st' & H4 & Hrev); [|done].
  exists st'. split; [|done]. revert H. by apply (patch_checkout_frame (core t (b_id b) st') t (b_id b)).
Qed.

(** What a served PATCH leaves: the booking it found, consistent, in a status
    that is not active again. *)
Lemma patch_booking_core {env : Env} t bid body d tm td u s' r :
  inventory_ok d -> patch_booking t bid body (start d tm td u) = (s', Ok r) ->
  mem s' = d \/ exists st st', has_status d t bid st /\ core t bid st' s' /\ no_revival st st'.
Proof.
  intros Hinv H. unfold patch_booking in H.
  destruct (negb _); [cbv [mret M_ret] in H; left; by simplify_eq|]. right.
  rewrite run_scalar in H. destruct (hd_error _) as [b0|] eqn:Hf; [|done].
  assert (Hb0 : In b0 (bookings d) /\ b_tenant b0 = t /\ b_id b0 = bid).
  { cbn [disk mem start] in Hf. rewrite (omap_identity (R := Booking) d) in Hf.
    - rewrite hd_filter in Hf. apply find_some in Hf as [Hin Hp]. unfold booking_is in Hp.
      apply andb_prop in Hp as [Ht%Z.eqb_eq Hi%Z.eqb_eq]. done.
    - apply Hinv.
    - intros x Hx. by apply filter_In in Hx as [? _]. }
  destruct Hb0 as (Hin0 & Ht0 & Hid0).
  assert (Hc : core t bid (b_status b0) (start d tm td u)).
  { apply core_intro; [exact Hinv|apply same_others_refl|by exists b0]. }
  assert (Hst0 : has_status d t bid (b_status b0)) by (by exists b0).
  set (st := b_status b0) in *. clearbody st. clear Hf Hin0 Ht0 Hid0 b0.
  mbind_in H s1 v H1. apply (frame_load_lines (core t bid st)) in H1; [|done]. clear Hc v.
  mbind_in H s2 v H2.
  assert (Hc2 : core t bid st s2).
  { destruct (pt_notes body) as [n|].
    - unfold patch_notes in H2. by apply (set_notes_core t bid _ st) in H2.
    - cbv [mret M_ret] in H2. by simplify_eq. }
  clear H1 H2 v. destruct (negb (has_more body)).
  { exists st, st. split_and!; [done| |by intros ?]. mbind_in H s3 v H3. cbv [mret M_ret] in H. injection H as <- _.
    by apply (frame_flush (core t bid st)) in H3. }
  mbind_in H s3 b Hb. apply booking_now_inv in Hb as (-> & Hin & Hid).
  destruct (has_status_now _ _ _ _ _ Hc2 Hin Hid) as [Hbs Hbt].
  mbind_in H s4 ls Hls. apply booking_lines_inv in Hls as [-> Hls]. red in Hls.
  destruct (wants_cancel body) eqn:Hw.
  - mbind_in H s5 v H5. destruct v. apply (patch_cancel_triple t bid st) in H5 as (st' & H5 & Hrev); [|done].
    cbv [mret M_ret] in H. injection H as <- _. by exists st, st'.
  - rewrite <- Hid in H. rewrite <- Hid in Hc2, Hls.
    apply (patch_stay_triple t body b ls st) in H as (st' & H & Hrev); try done.
    + exists st, st'. split_and!; [done| |done]. by rewrite <- Hid.
    + by apply (core_known t (b_id b) st s2).
Qed.

Lemma patch_booking_triple {env : Env} t bid body d :
  inventory_ok d ->
  forall tm td u s' r, patch_booking t bid body (start d tm td u) = (s', Ok r) -> inventory_ok (mem s').
Proof.
  intros Hinv tm td u s' r H. destruct (patch_booking_core t bid body d tm td u s' r Hinv H) as [->|(_ & st' & _ & Hc & _)]; [done|].
  by apply (core_inventory t bid st').
Qed.
