(* ===== verification/BookingRequests.v ===== *)
(** * Creating and deleting bookings

    [create_booking] and [delete_booking] keep the invariants of
    BookingInvariant.v, and so does every sequence of booking requests. *)

From stdpp Require Import gmap.
From Stdlib Require Import Sorted.
From S2P Require Import Prelude PyDecimal PyJson StayDates Calendar BookingStatus Models Session.
From S2P Require Import Ledger LedgerLaws Rates RatesLaws Folio FolioLaws Extension Booking BookingFrame.
From S2P Require Import BookingInvariant.

(** ** Before the booking exists *)

(** Keys from [u] on are not used yet. *)
Record fresh (u : Z) (d : DB) : Prop := {
  fr_bookings : forall b, In b (bookings d) -> b_id b < u;
  fr_lines : forall l, In l (lines d) -> l_booking l < u;
}.

(** Nothing of the three tables is pending, and the ledger counts [extra]
    rooms beyond the lines of active bookings. *)
Record staged (extra : ledger_key -> Z) (s : session) : Prop := {
  sg_wf : well_formed (mem s);
  sg_exclusive : exclusive (mem s);
  sg_balance : forall k, booked_at (ledger (mem s)) k = occupancy (mem s) k + extra k;
  sg_synced : same_core (disk s) (mem s);
  sg_fresh : fresh (uuids s) (mem s);
}.

Lemma occupancy_ext d d' k : lines d = lines d' -> bookings d = bookings d' -> occupancy d k = occupancy d' k.
Proof.
  intros Hl Hb. unfold occupancy. rewrite Hl. apply countb_ext. intros l _. unfold line_active.
  by rewrite (booking_active_ext d d').
Qed.

Lemma exclusive_ext d d' : lines d = lines d' -> bookings d = bookings d' -> exclusive d -> exclusive d'.
Proof.
  intros Hl Hb. apply exclusive_mono; [done|]. intros t b. by rewrite (booking_active_ext d d').
Qed.

Lemma well_formed_ext d d' : lines d = lines d' -> bookings d = bookings d' -> well_formed d -> well_formed d'.
Proof.
  intros Hl Hb [H1 H2 H3]. split; [by rewrite <- Hb..|]. intros t b. specialize (H3 t b).
  unfold lines_of in *. by rewrite <- Hl.
Qed.

Lemma same_core_sym d d' : same_core d d' -> same_core d' d.
Proof. intros (Hl & Hli & Hbo). unfold same_core. by rewrite Hl, Hli, Hbo. Qed.

Lemma same_core_trans d1 d2 d3 : same_core d1 d2 -> same_core d2 d3 -> same_core d1 d3.
Proof. intros (Hl & Hli & Hbo). unfold same_core. by rewrite Hl, Hli, Hbo. Qed.

#[export] Instance staged_stable e : CoreStable (staged e).
Proof.
  split.
  - intros s s' Hm Hd Hu [Hwf Hex Hb Hs [Hf1 Hf2]].
    pose proof Hm as (Hl & Hli & Hbo). split.
    + by apply (well_formed_ext (mem s)).
    + by apply (exclusive_ext (mem s)).
    + intros k. rewrite <- Hl, Hb. f_equal. by apply occupancy_ext.
    + apply (same_core_trans _ (disk s)); [by apply same_core_sym|]. by apply (same_core_trans _ (mem s)).
    + split; intros x Hx; [rewrite <- Hbo in Hx; specialize (Hf1 x Hx)|rewrite <- Hli in Hx; specialize (Hf2 x Hx)]; lia.
  - intros s [Hwf Hex Hb Hs Hf]. by split.
Qed.

(** Staged, with the three tables of [d]. *)
Definition staged_on (d : DB) (e : ledger_key -> Z) (s : session) : Prop := staged e s /\ same_core d (mem s).

#[export] Instance staged_on_stable d e : CoreStable (staged_on d e).
Proof.
  split.
  - intros s s' Hm Hd Hu [Hs Hc]. split; [by apply (cs_frame s s')|]. by apply (same_core_trans _ (mem s)).
  - intros s [Hs Hc]. split; [by apply cs_flush|done].
Qed.

(** The same with changes of the ledger still to be flushed. *)
Record pending (extra : ledger_key -> Z) (s : session) : Prop := {
  pn_wf : well_formed (mem s);
  pn_exclusive : exclusive (mem s);
  pn_balance : forall k, booked_at (ledger (mem s)) k = occupancy (mem s) k + extra k;
  pn_fresh : fresh (uuids s) (mem s);
}.

Lemma staged_pending e s : staged e s -> pending e s.
Proof. by intros [? ? ? ? ?]. Qed.

#[export] Instance pending_stable e : CoreStable (pending e).
Proof.
  split; [|by intros s []].
  intros s s' (Hl & Hli & Hbo) _ Hu [Hwf Hex Hb [Hf1 Hf2]]. split.
  - by apply (well_formed_ext (mem s)).
  - by apply (exclusive_ext (mem s)).
  - intros k. rewrite <- Hl, Hb. f_equal. by apply occupancy_ext.
  - split; intros x Hx; [rewrite <- Hbo in Hx; specialize (Hf1 x Hx)|rewrite <- Hli in Hx; specialize (Hf2 x Hx)]; lia.
Qed.

Lemma staged_start d tm td u : inventory_ok d -> fresh u d -> staged (fun _ => 0) (start d tm td u).
Proof.
  intros [Hwf Hacc Hex] Hf. split; try done. intros k. rewrite Z.add_0_r. apply Hacc.
Qed.

(** The claim of one room per night. *)
Lemma claim_staged t rt nights s s' :
  staged (fun _ => 0) s -> claim_availability_for_new_booking t rt nights 1 s = (s', Ok tt) ->
  staged (nights_share t rt nights) s' /\
  lines (mem s') = lines (mem s) /\ bookings (mem s') = bookings (mem s).
Proof.
  intros [Hwf Hex Hb (Hl & Hli & Hbo) Hf] H. rewrite claim_run in H. rewrite Hl in H.
  destruct (claim_result _ _ _ _ _) as [u|] eqn:Ec; [|done]. injection H as <-.
  set (ks := keys_of t rt (sorted_set nights)).
  assert (Hks : List.NoDup ks) by (unfold ks; auto with pms).
  assert (Hrows : forall k, In k ks -> is_Some (ledger (mem s) !! k)).
  { unfold claim_result in Ec. destruct (negb (length _ =? _)%nat); [done|]. cbn [orb] in Ec.
    destruct (forallb (has_row _ _ _) nights) eqn:Eh; [|done].
    intros k (n & -> & Hn)%in_keys_of. apply (proj1 (sorted_set_In _ _)) in Hn.
    rewrite forallb_forall in Eh. specialize (Eh n Hn). by apply bool_decide_eq_true in Eh. }
  split; [|done]. split.
  - by apply (well_formed_ext (mem s)).
  - by apply (exclusive_ext (mem s)).
  - intros k. cbn. fold ks. rewrite booked_at_update, Hb, Z.add_0_r by done. unfold nights_share. fold ks.
    reflexivity.
  - unfold same_core. cbn. by rewrite Hl, Hli, Hbo.
  - destruct Hf. by split.
Qed.

(** ** The insertion *)

Section create.
Context {env : Env}.

Lemma fresh_no_lines u bid d t : fresh u d -> u <= bid -> forall l, In l (lines d) -> line_of t bid l = false.
Proof.
  intros [_ Hf] Hu l Hl. specialize (Hf l Hl). unfold line_of. apply andb_false_iff. right.
  apply Z.eqb_neq. lia.
Qed.

Lemma fresh_inactive u bid d t : fresh u d -> u <= bid -> booking_active d t bid = false.
Proof.
  intros [Hf _] Hu. unfold booking_active. apply not_true_iff_false.
  intros (b & Hb & Hp)%existsb_exists. specialize (Hf b Hb). rewrite !andb_true_iff in Hp.
  destruct Hp as [[_ Hp%Z.eqb_eq] _]. lia.
Qed.

(** The database with a booking added. *)
Definition with_booking (b : Booking) (d : DB) : DB := put_bookings (bookings d ++ [b]) d.

Lemma with_booking_active b d t' b' :
  (t', b') <> (b_tenant b, b_id b) -> booking_active (with_booking b d) t' b' = booking_active d t' b'.
Proof.
  intros Hne. unfold booking_active, with_booking. cbn. rewrite existsb_app. simpl.
  destruct (Z.eqb_spec (b_tenant b) t') as [<-|]; [|by rewrite !orb_false_r].
  destruct (Z.eqb_spec (b_id b) b') as [<-|]; [done|]. by rewrite !orb_false_r.
Qed.

Lemma with_booking_line_active b d u l :
  fresh u d -> u <= b_id b -> In l (lines d) -> line_active (with_booking b d) l = line_active d l.
Proof.
  intros [_ Hf] Hu Hl. unfold line_active. apply with_booking_active. intros [= _ E].
  specialize (Hf l Hl). lia.
Qed.

Lemma insert_booking_held b e s s' :
  str_in (b_status b) KNOWN_STATUSES = true -> pending e s -> fresh (b_id b) (mem s) ->
  insert_booking b s = (s', Ok tt) ->
  held (b_tenant b) (b_id b) (b_status b) e s' /\ mem s' = with_booking b (mem s) /\ disk s' = mem s'.
Proof.
  intros Hk [Hwf Hex Hb Hf0] Hf H. unfold insert_booking in H.
  assert (Hu : b_id b <= b_id b) by lia.
  apply bind_lift_inv in H as (c & _ & H). unfold add in H. rewrite run_orm in H.
  cbv [flush] in H. injection H as <-. cbn. split; [|done].
  change (put_table (table (mem s) ++ [b]) (mem s)) with (with_booking b (mem s)).
  assert (Hact : forall l, In l (lines (mem s)) -> line_active (with_booking b (mem s)) l = line_active (mem s) l).
  { intros l Hl. by apply (with_booking_line_active b _ (b_id b)). }
  split; cbn [mem disk set_mem set_disk].
  - destruct Hwf as [H1 H2 H3]. split; cbn.
    + rewrite List.map_app. apply NoDup_snoc; [exact H1|]. intros (b0 & Hb0 & Hin)%in_map_iff.
      destruct Hf as [Hf _]. specialize (Hf b0 Hin). cbn in Hb0. lia.
    + intros b0 [Hb0|[<-|[]]]%in_app_iff; [by apply H2|done].
    + exact H3.
  - intros l1 l2 r H1 H2. cbn in H1, H2. rewrite !Hact by done. by apply (Hex l1 l2 r).
  - intros k. cbn [ledger with_booking put_bookings]. rewrite Hb. f_equal. unfold occupancy, others.
    apply countb_ext. intros l Hl. cbn in Hl. rewrite Hact by done.
    by rewrite (fresh_no_lines (b_id b) _ (mem s) (b_tenant b) Hf Hu l Hl).
  - apply same_others_refl.
  - exists b. cbn. split_and!; try done. apply in_app_iff. right. by left.
Qed.

(** ** The new booking *)

(** Booking [bid] has been added to [d] with the nights of [per], all in one
    room or in none, and its share of the ledger is accounted for. *)
Record settled (t bid : Z) (st : string) (rt : Z) (per : list (date * Z)) (d : DB) (s : session) : Prop := {
  st_core : core t bid st s;
  st_lines : exists room news, Forall2 (line_for t bid rt room) per news /\
    same_core (put_lines (lines d ++ news) d) (mem s);
}.

#[export] Instance settled_stable t bid st rt per d : CoreStable (settled t bid st rt per d).
Proof.
  split.
  - intros s s' Hm Hd Hu [Hc (room & news & Hn & Hl)]. split; [by apply (cs_frame s s')|].
    exists room, news. split; [done|]. by apply (same_core_trans _ (mem s)).
  - intros s [Hc Hl]. split; [by apply cs_flush|done].
Qed.

Lemma put_lines_id d : put_lines (lines d) d = d.
Proof. by destruct d. Qed.

Lemma add_lines_settled t bid st rt per s s' :
  held t bid st (nights_share t rt (List.map fst per)) s -> disk s = mem s -> is_active st = true ->
  StronglySorted Z.lt (List.map fst per) -> (forall l, In l (lines (mem s)) -> line_of t bid l = false) ->
  add_lines t bid rt None per s = (s', Ok tt) -> settled t bid st rt per (mem s) s'.
Proof.
  intros Hs Hd Hact Hsort Hno H. apply add_lines_inv in H as (news & Hn & Hm & Hd').
  assert (Hf : List.filter (fun l => negb (line_of t bid l)) (lines (mem s)) = lines (mem s)).
  { apply forallb_filter, forallb_forall. intros l Hl. by rewrite (Hno l Hl). }
  split; [|exists None, news; rewrite Hm; done].
  apply (relined_core t bid st rt per news s); try done.
  - unfold relined. by rewrite Hf.
  - rewrite Hd', Hd. apply same_others_refl.
Qed.

Lemma give_room_news t bid rt room r per news :
  Forall2 (line_for t bid rt room) per news ->
  Forall2 (line_for t bid rt r) per (List.map (give_room t bid r) news).
Proof.
  induction 1 as [|np l per news (Ht & Hb & Hd & Hr & _ & Hp) _ IH]; simpl; constructor; [|done].
  unfold give_room. unfold line_of. rewrite Ht, Hb, !Z.eqb_refl. by unfold line_for.
Qed.

Lemma assign_room_settled t bid st rt per d r :
  (forall l, In l (lines d) -> line_of t bid l = false) ->
  triple (settled t bid st rt per d) (assign_booking_room t bid r) (fun _ => settled t bid st rt per d).
Proof.
  intros Hno s s' [] [Hc (room & news & Hn & Hl)] H. pose proof (assign_room_inv _ _ _ _ _ H) as (Hm & _ & _).
  split; [by apply (assign_room_core t bid r st s s' tt)|].
  exists r, (List.map (give_room t bid r) news). split; [by eapply give_room_news|].
  destruct Hl as (Hle & Hli & Hbo). rewrite Hm. unfold same_core, roomed. cbn in *. split_and!; [done| |done].
  rewrite <- Hli, List.map_app. f_equal. symmetry. rewrite <- (List.map_id (lines d)) at 2. apply List.map_ext_in.
  intros l Hl. unfold give_room. by rewrite (Hno l Hl).
Qed.

(** From the added lines on, [create_booking] only adds what hangs on the
    booking, and puts it in a room. *)
Lemma create_tail_triple t bid st rt per d pid amount {A} (r : A) :
  (forall l, In l (lines d) -> line_of t bid l = false) ->
  triple (settled t bid st rt per d)
    (_ ← insert_folio t bid "Charge" amount None (Some "Room charge (stay)"%string) None "room_charge";
     _ ← flush;
     room_charge_amount ← replace_country_pack_tax_charges t bid pid amount;
     _ ← update_folio_charge_amount t bid room_charge_amount;
     picked_room ← pick_first_free_room_for_stay t pid rt (List.map fst per) bid;
     _ ← match picked_room with
         | Some r => assign_booking_room t bid (Some r)
         | None => mret tt
         end;
     mret r)
    (fun a s => a = r /\ settled t bid st rt per d s).
Proof.
  intros Hno. pose (I := settled t bid st rt per d).
  apply (triple_bind _ _ (fun _ => I)); [by apply triple_preserves, insert_folio_frame; exact _|]. intros _.
  apply (triple_bind _ _ (fun _ => I)); [by apply triple_preserves, frame_flush; exact _|]. intros _.
  apply (triple_bind _ _ (fun _ => I)); [by apply triple_preserves, replace_taxes_frame; exact _|]. intros c.
  apply (triple_bind _ _ (fun _ => I)); [by apply triple_preserves, update_folio_frame; exact _|]. intros _.
  apply (triple_bind _ _ (fun _ => I)); [by apply triple_preserves, pick_room_frame; exact _|]. intros o.
  apply (triple_bind _ _ (fun _ => I)); [|by intros _; apply triple_ret].
  destruct o as [x|]; [by apply assign_room_settled|]. by apply triple_ret.
Qed.

(** What a created booking looks like. *)
Definition created (t : Z) (body : booking_create) (d d' : DB) (r : booking_created) : Prop :=
  iter_stay_nights (bc_check_in body) (bc_check_out body) = Ok (List.map fst (br_nights r)) /\
  br_total r = sumZ (List.map snd (br_nights r)) /\
  bookings d' = bookings d ++ [MkBooking (br_booking r) t (bc_property body) (br_guest r) (Some (bc_rate_plan body))
    (external_ref (bc_external body)) (bc_status body) (strip (bc_source body)) (br_total r) None] /\
  (exists room news, lines d' = lines d ++ news /\
    Forall2 (line_for t (br_booking r) (bc_room_type body) room) (br_nights r) news) /\
  forall k, booked_at (ledger d') k =
    booked_at (ledger d) k + nights_share t (bc_room_type body) (List.map fst (br_nights r)) k.

Lemma valid_status body :
  booking_create_valid body = true ->
  str_in (bc_status body) KNOWN_STATUSES = true /\ is_active (bc_status body) = true.
Proof.
  unfold booking_create_valid. intros [[Hs _]%andb_prop _]%andb_prop. apply str_in_spec in Hs.
  by destruct Hs as [<-|[<-|[]]].
Qed.

Lemma create_booking_inv t body d s s' r :
  booking_create_valid body = true -> staged_on d (fun _ => 0) s ->
  create_booking t body s = (s', Ok r) -> inventory_ok (mem s') /\ created t body d (mem s') r /\ fresh (br_booking r) d.
Proof.
  intros Hv Hs H. destruct (valid_status body Hv) as [Hk Hact]. unfold create_booking in H.
  apply bind_lift_inv in H as (nights & Hn & H). cbv zeta in H.
  mbind_in H s1 u1 H1. apply (check_duplicate_frame (staged_on d (fun _ => 0))) in H1; [|done].
  mbind_in H s2 u2 H2. apply (require_room_type_frame (staged_on d (fun _ => 0))) in H2; [|done].
  mbind_in H s3 u3 H3. apply (require_rate_plan_frame (staged_on d (fun _ => 0))) in H3; [|done].
  mbind_in H s4 p H4. destruct p as [total per]. apply sum_rates_inv in H4 as (-> & Hper & Htot).
  rewrite Hn in Hper. injection Hper as ->. clear H1 H2 Hs s u1 u2 u3 s1 s2.
  mbind_in H s5 u5 H5. destruct u5. destruct H3 as [H3 Hd3].
  destruct (claim_staged _ _ _ _ _ H3 H5) as (Hs5 & Hli & Hbo).
  set (share5 := nights_share t (bc_room_type body) (List.map fst per)) in *.
  assert (Hs5' : staged_on (mem s5) share5 s5) by (split; [done|apply same_core_refl]).
  mbind_in H s6 g H6. destruct g as [gid merged]. apply (guest_frame (staged_on (mem s5) share5)) in H6; [|done].
  mbind_in H s7 bid H7. cbv [uuid4] in H7. injection H7 as H7 Hbid.
  assert (Hs7 : staged_on (mem s5) share5 s7).
  { apply (frame_uuid4 (staged_on (mem s5) share5) s6 s7 (Ok bid)); [done|]. cbv [uuid4]. by rewrite H7, Hbid. }
  assert (Hf : fresh bid (mem s7)).
  { rewrite <- H7, <- Hbid. cbn. apply H6. }
  destruct Hs7 as [Hs7 Hd7]. clear H6 H7 Hbid s6.
  mbind_in H s8 u8 H8. destruct u8. set (b := MkBooking _ _ _ _ _ _ _ _ _ _) in H8.
  destruct (insert_booking_held b share5 s7 s8 Hk (staged_pending _ _ Hs7) Hf H8) as (Hh & Hm8 & Hd8). cbn in Hh.
  assert (Hno : forall l, In l (lines (mem s8)) -> line_of t bid l = false).
  { intros l Hl. rewrite Hm8 in Hl. by apply (fresh_no_lines bid bid (mem s7) t Hf (Z.le_refl bid)). }
  mbind_in H s9 u9 H9. destruct u9.
  apply (add_lines_settled t bid (bc_status body) (bc_room_type body) per s8) in H9; try done.
  2:{ by eapply iter_stay_nights_sorted. }
  cbv zeta in H. apply (create_tail_triple t bid (bc_status body) (bc_room_type body) per (mem s8)) in H as [-> H];
    [|exact Hno|exact H9].
  destruct H as [Hc (room & news & Hnews & Hl')]. split; [by apply core_inventory in Hc|].
  destruct Hl' as (Hle' & Hli' & Hbo'). rewrite Hm8 in Hle', Hli', Hbo'. cbn in Hle', Hli', Hbo'.
  destruct Hd7 as (Hle7 & Hli7 & Hbo7). destruct Hd3 as (Hle3 & Hli3 & Hbo3). cbn.
  split; [|destruct Hf as [Hfb Hfl]; rewrite <- Hbo7, Hbo, <- Hbo3 in Hfb; rewrite <- Hli7, Hli, <- Hli3 in Hfl; by split].
  unfold created. cbn. split_and!; try done.
  - rewrite <- Hbo', <- Hbo7, Hbo, <- Hbo3. done.
  - exists room, news. split; [|done]. rewrite <- Hli', <- Hli7, Hli, <- Hli3. done.
  - intros k. rewrite <- Hle', <- Hle7, (sg_balance _ _ Hs5), Hle3, (sg_balance _ _ H3), Z.add_0_r.
    f_equal. by apply occupancy_ext.
Qed.


End create.

(** ** Deleting *)

Section delete.
Context {env : Env}.

(** The database without the booking and its lines. *)
Definition without (t bid : Z) (d : DB) : DB :=
  put_bookings (List.filter (fun b => negb (b_id b =? bid)) (bookings d)) (relined t bid [] d).

Lemma without_active t bid st d t' b' :
  List.NoDup (List.map b_id (bookings d)) -> has_status d t bid st -> (t', b') <> (t, bid) ->
  booking_active (without t bid d) t' b' = booking_active d t' b'.
Proof.
  intros Hnd (b0 & Hin0 & Ht0 & Hid0 & _) Hne. unfold booking_active, without. cbn.
  assert (Hs : forall b, In b (bookings d) -> (b_tenant b =? t') && (b_id b =? b') = true -> b_id b <> bid).
  { intros b Hb [Ht%Z.eqb_eq Hi%Z.eqb_eq]%andb_prop Heq. apply Hne.
    assert (b = b0) as -> by (apply (in_unique_id (bookings d)); [done..|congruence]). congruence. }
  revert Hs. generalize (bookings d). intros l. induction l as [|b l IH]; intros Hs; [done|]. simpl.
  rewrite <- IH by (intros x Hx; apply Hs; by right).
  destruct (Z.eqb_spec (b_id b) bid) as [E|]; simpl; [|done].
  destruct ((b_tenant b =? t') && (b_id b =? b')) eqn:Ek; [|done].
  by destruct (Hs b (or_introl eq_refl) Ek).
Qed.

(** A booking that takes nothing from the ledger can go. *)
Lemma without_inventory t bid st s :
  held t bid st (fun _ => 0) s -> inventory_ok (without t bid (mem s)).
Proof.
  intros [[H1 H2 H3] Hex Hb Ho Hst].
  assert (Hlines : lines (without t bid (mem s)) = List.filter (fun l => negb (line_of t bid l)) (lines (mem s))).
  { unfold without, relined. cbn. apply app_nil_r. }
  assert (Hin : forall l, In l (lines (without t bid (mem s))) ->
    In l (lines (mem s)) /\ line_active (without t bid (mem s)) l = line_active (mem s) l).
  { intros l Hl. rewrite Hlines in Hl. apply filter_In in Hl as [Hl Hn%negb_true_iff]. split; [done|].
    unfold line_active. apply (without_active t bid st); [done..|]. by apply not_line_of. }
  split; [split| |].
  - cbn. by apply NoDup_map_filter.
  - cbn. intros b [Hb' _]%filter_In. by apply H2.
  - intros t' b'. destruct (decide ((t', b') = (t, bid))) as [[= -> ->]|Hne].
    + unfold lines_of. rewrite Hlines, filter_filter_neg. split; [constructor|done].
    + specialize (H3 t' b'). rewrite <- (relined_other_lines t bid []) in H3; done.
  - intros k. change (booked_at (ledger (mem s)) k = occupancy (without t bid (mem s)) k).
    rewrite Hb, Z.add_0_r. unfold occupancy, others. rewrite Hlines, countb_filter.
    apply countb_ext. intros l Hl. destruct (line_of t bid l) eqn:El; [done|]. cbn [negb andb].
    destruct (Hin l) as [_ ->]; [|done]. rewrite Hlines. apply filter_In. by rewrite El.
  - intros l1 l2 r Hl1 Hl2. apply Hin in Hl1 as [Hl1 ->], Hl2 as [Hl2 ->]. by apply (Hex l1 l2 r).
Qed.

(** Releasing touches only the ledger. *)
Definition same_stays (d : DB) (s : session) : Prop := lines d = lines (mem s) /\ bookings d = bookings (mem s).

Lemma release_same_stays t b d :
  triple (same_stays d) (release_booking_inventory t b) (fun _ => same_stays d).
Proof.
  intros s s' [] Hs H. unfold release_booking_inventory in H. mbind_in H s1 ls H1.
  apply booking_lines_inv in H1 as [-> _]. destruct ls as [|l0 ls0]; [cbv [mret M_ret] in H; by simplify_eq|].
  destruct (distinct _) as [|rt [|? ?]]; try (cbv [mret M_ret] in H; by simplify_eq).
  mbind_in H s2 rows H2. apply lock_inv in H2 as (-> & -> & _). apply decrement_inv in H as [-> _]. exact Hs.
Qed.

Lemma delete_dependents_run t bid s s' :
  delete_dependents t bid s = (s', Ok tt) ->
  ledger (mem s') = ledger (mem s) /\ bookings (mem s') = bookings (mem s) /\
  lines (mem s') = List.filter (fun l => negb (line_of t bid l)) (lines (mem s)) /\
  folio (mem s') = List.filter (fun f => negb (on_folio t bid f)) (folio (mem s)).
Proof.
  unfold delete_dependents, execute_delete, execute_update. mrun. cbv [execute]. intros H. by simplify_eq.
Qed.

Lemma snapshot_inv b s s' v : booking_quick_snapshot b s = (s', Ok v) -> s' = s.
Proof.
  unfold booking_quick_snapshot. intros H. mbind_in H s1 ls H1. apply booking_lines_inv in H1 as [-> _].
  apply bind_lift_inv in H as (st & _ & H). cbv [mret M_ret] in H. by simplify_eq.
Qed.

(** The deletion of a booking found in a consistent state. *)
Lemma delete_found t b d s s1 s2 u (v a : booking_snapshot) :
  core t (b_id b) (b_status b) s -> b_tenant b = t -> same_stays d s ->
  ((if str_in (normalize_booking_status (b_status b)) ["cancelled"; "no_show"]%string then mret tt
    else release_booking_inventory t b) s = (s1, Ok u)) ->
  (_ ← delete_dependents t (b_id b); _ ← remove (R := Booking) (b_id b); _ ← flush; mret v : M booking_snapshot) s1 = (s2, Ok a) ->
  inventory_ok (mem s2) /\ lines (mem s2) = lines (without t (b_id b) d) /\
  bookings (mem s2) = bookings (without t (b_id b) d) /\
  List.filter (on_folio t (b_id b)) (folio (mem s2)) = [].
Proof.
  intros Hc Ht Hst Hrel H. pose proof (core_known _ _ _ _ Hc) as Hk. rewrite (normalize_known _ Hk) in Hrel.
  assert (Hs1 : held t (b_id b) (b_status b) (fun _ => 0) s1 /\ same_stays d s1).
  { destruct (str_in (b_status b) ["cancelled"; "no_show"]%string) eqn:Ei.
    - cbv [mret M_ret] in Hrel. simplify_eq. split; [|done]. eapply held_ext; [|exact Hc].
      intros k. unfold share, is_active. by rewrite Ei.
    - split; [|by apply (release_same_stays t b d s s1 u)].
      apply (release_triple t (b_id b) (b_status b) b Ht eq_refl) with (s := s) (a := u); [|exact Hc|exact Hrel].
      unfold is_active. by rewrite Ei. }
  destruct Hs1 as [Hh [Hli Hbo]].
  mbind_in H s3 u3 H3. destruct u3. apply delete_dependents_run in H3 as (Hle3 & Hbo3 & Hli3 & Hfo3).
  unfold remove in H. rewrite run_orm, run_flush in H. cbv [mret M_ret] in H. injection H as <- _. cbn [mem set_mem set_disk].
  assert (Heq : same_core (without t (b_id b) (mem s1))
    (put_table (List.filter (fun x : Booking => negb (ident x =? b_id b)) (table (mem s3))) (mem s3))).
  { unfold same_core. cbn. rewrite Hle3, Hli3, Hbo3, app_nil_r. done. }
  split_and!.
  - eapply inventory_ext; [exact Heq|]. by apply (without_inventory t (b_id b) (b_status b)).
  - cbn. by rewrite Hli3, Hli, app_nil_r.
  - cbn. by rewrite Hbo3, Hbo.
  - cbn. rewrite Hfo3. apply filter_filter_neg.
Qed.

Lemma delete_booking_inv t bid tm td u d s a :
  inventory_ok d -> delete_booking t bid (start d tm td u) = (s, Ok a) ->
  inventory_ok (mem s) /\ lines (mem s) = lines (without t bid d) /\ bookings (mem s) = bookings (without t bid d) /\
  List.filter (on_folio t bid) (folio (mem s)) = [] /\
  exists st, has_status d t bid st /\ st <> "checked_in"%string /\ st <> "checked_out"%string.
Proof.
  intros Hinv E.
  unfold delete_booking in E. rewrite run_scalar_synced in E by (split; [done|apply Hinv]).
  cbn [mem start] in E. destruct (List.find _ _) as [b|] eqn:Hf; [|done].
  apply find_some in Hf as [Hin [Ht%Z.eqb_eq <-%Z.eqb_eq]%andb_prop].
  assert (Hst : has_status d t (b_id b) (b_status b)) by (by exists b).
  mbind_in E s1 x1 H1. destruct (str_in _ ["checked_in"; "checked_out"]%string) eqn:Ein; [done|].
  rewrite (normalize_known (b_status b)) in Ein by (by apply (wf_status _ (inv_wf _ Hinv))).
  assert (Hc : core t (b_id b) (b_status b) s1).
  { apply (frame_load_lines (core t (b_id b) (b_status b))) in H1; [done|]. by apply core_intro. }
  assert (Hs1 : same_stays d s1) by (cbv [load_lines] in H1; by simplify_eq).
  mbind_in E s2 v H2. apply snapshot_inv in H2 as ->. mbind_in E s3 u3 H3.
  destruct (delete_found t b d s1 s3 s u3 v a) as (? & ? & ? & ?); try done.
  split_and!; try done. exists (b_status b). split_and!; [done|..]; intros E'; by rewrite E' in Ein.
Qed.

(** C10: a deletion that is accepted removes the booking, its lines and
    its folio and nothing else of the three tables, gives its rooms back to
    the ledger, and is only accepted before check-in; a refused one changes
    nothing. *)
Theorem delete_keeps_inventory t bid tm td u d d' r :
  inventory_ok d -> run (delete_booking t bid) tm td u d = (d', r) ->
  match r with
  | Ok _ => inventory_ok d' /\ lines d' = lines (without t bid d) /\ bookings d' = bookings (without t bid d) /\
      List.filter (on_folio t bid) (folio d') = [] /\
      exists st, has_status d t bid st /\ st <> "checked_in"%string /\ st <> "checked_out"%string
  | Err _ => d' = d
  end.
Proof.
  intros Hinv H. unfold run in H. destruct (delete_booking t bid _) as [s [a|e]] eqn:E; simplify_eq; [|done].
  by apply (delete_booking_inv t bid tm td u d s a).
Qed.

End delete.

(** ** A concrete hotel *)

(** Two rooms of one type, three nights on sale. *)
Definition hotel_db : DB :=
  put_ledger (<[(1, 7, 100) := MkLedger 2 0 0]> (<[(1, 7, 101) := MkLedger 2 0 0]> (<[(1, 7, 102) := MkLedger 2 0 0]> ∅)))
  (put_rates (<[(1, 7, 5, 100) := MkRate 12000 false None None]>
    (<[(1, 7, 5, 101) := MkRate 15050 false None None]> (<[(1, 7, 5, 102) := MkRate 9000 false None None]> ∅)))
  (put_rate_plans [MkRatePlan 5 1 3 "BAR" "flex"]
  (put_room_types [MkRoomType 7 1 3 "Double" 2 2 None]
  (put_rooms [MkRoom 1 1 7 "101" "available" None "clean" "normal"; MkRoom 2 1 7 "102" "available" None "clean" "normal"]
  empty_db)))).

Definition ann : guest_payload := GuestPayload "Ann" "Lee" "Ann@Example.com " "1" None.
Definition ann_books : booking_create := BookingCreate 3 7 5 100 102 ann "confirmed" "direct" false None.

Lemma hotel_inventory : inventory_ok hotel_db.
Proof.
  split; [split| |].
  - constructor.
  - done.
  - intros t bid. split; [constructor|done].
  - intros k. unfold booked_at, hotel_db. cbn [ledger put_ledger].
    destruct (_ !! k) as [r|] eqn:E; [|done].
    by repeat (apply lookup_insert_Some in E as [[_ <-]|[_ E]]; [done|]).
  - done.
Qed.

Lemma hotel_fresh : fresh 1000 hotel_db.
Proof. by split. Qed.


(** ** Patching and deleting it *)

(** C9: every accepted PATCH of a booking (notes, cancellation, dates,
    room, status, check-out, in any combination) keeps the ledger equal to
    the lines of active bookings and never gives a room to two active bookings
    on the same night; a refused one changes nothing. *)
Theorem patch_keeps_inventory {env : Env} t bid body tm td u d d' r :
  inventory_ok d -> run (patch_booking t bid body) tm td u d = (d', r) ->
  inventory_ok d' /\ match r with Err _ => d' = d | Ok _ => True end.
Proof.
  intros Hinv H. unfold run in H. destruct (patch_booking t bid body _) as [s [a|e]] eqn:E; simplify_eq.
  - split; [|done]. by eapply patch_booking_triple.
  - done.
Qed.

Definition booked_db : DB := (run (create_booking (env := sample_env) 1 ann_books) 0 0 1000 hotel_db).1.

Lemma booked_inventory : inventory_ok booked_db.
Proof.
  assert (H : exists s r, create_booking (env := sample_env) 1 ann_books (start hotel_db 0 0 1000) = (s, Ok r)).
  { eexists _, _. vm_compute. reflexivity. }
  destruct H as (s & r & H). unfold booked_db, run. rewrite H. cbn [fst].
  apply (create_booking_inv (env := sample_env) 1 ann_books hotel_db) in H as [H _]; [exact H|done|].
  split; [apply staged_start; [apply hotel_inventory|apply hotel_fresh]|apply same_core_refl].
Qed.

(** Ann's stay moves one night on, and she checks in. *)
Definition ann_moves : booking_patch :=
  BookingPatch None (Some (Some "checked_in"%string)) (Some (Some 101)) (Some (Some 103)) None None.

Lemma patch_keeps_inventory_witness :
  exists d' r, run (patch_booking (env := sample_env) 1 1001 ann_moves) 0 0 2000 booked_db = (d', Ok r) /\
    List.map (fun l => (l_date l, l_room l)) (lines d') = [(101, Some 1); (102, Some 1)] /\ inventory_ok d'.
Proof.
  assert (H : exists d' r, run (patch_booking (env := sample_env) 1 1001 ann_moves) 0 0 2000 booked_db = (d', Ok r) /\
    List.map (fun l => (l_date l, l_room l)) (lines d') = [(101, Some 1); (102, Some 1)]).
  { eexists _, _. split; [vm_compute; reflexivity|]. reflexivity. }
  destruct H as (d' & r & H & Hl). exists d', r. split_and!; [exact H|exact Hl|].
  exact (proj1 (patch_keeps_inventory (env := sample_env) 1 1001 ann_moves 0 0 2000 booked_db d' (Ok r) booked_inventory H)).
Defined.

Lemma delete_keeps_inventory_witness :
  exists d' r, run (delete_booking 1 1001) 0 0 2000 booked_db = (d', Ok r) /\
    bookings d' = [] /\ lines d' = [] /\ folio d' = [] /\ inventory_ok d'.
Proof.
  assert (H : exists d' r, run (delete_booking 1 1001) 0 0 2000 booked_db = (d', Ok r) /\
    bookings d' = [] /\ lines d' = [] /\ folio d' = []).
  { eexists _, _. split; [vm_compute; reflexivity|]. by split. }
  destruct H as (d' & r & H & Hb & Hl & Hf). exists d', r. split_and!; [exact H|exact Hb|exact Hl|exact Hf|].
  exact (proj1 (delete_keeps_inventory 1 1001 0 0 2000 booked_db d' (Ok r) booked_inventory H)).
Defined.
