(* ===== verification/System.v ===== *)
(** * The booking system

    The requests that touch bookings, lines or the ledger, as one transition
    system on the committed database: whatever requests are served, in
    whatever order, the ledger agrees with the bookings and no room is shared. *)

From stdpp Require Import gmap relations.
From S2P Require Import Prelude PyDecimal PyJson StayDates Calendar BookingStatus Models Session.
From S2P Require Import Ledger LedgerLaws Rates RatesLaws Folio FolioLaws Extension Booking BookingFrame.
From S2P Require Import BookingInvariant BookingRequests.

(** ** Ledger administration

    Seeding, extending and recounting change totals and add empty rows: what
    is booked stays. *)

Record neutral (d : DB) (s : session) : Prop := {
  nt_booked : forall k, booked_at (ledger (mem s)) k = booked_at (ledger d) k;
  nt_lines : lines (mem s) = lines d;
  nt_bookings : bookings (mem s) = bookings d;
  nt_synced : ledger (disk s) = ledger (mem s);
}.

Lemma neutral_start d tm td u : neutral d (start d tm td u).
Proof. done. Qed.

Lemma neutral_inventory d s : inventory_ok d -> neutral d s -> inventory_ok (mem s).
Proof.
  intros [Hwf Hacc Hex] [Hb Hl Hbo _]. split.
  - by apply (well_formed_ext d).
  - intros k. rewrite Hb, Hacc. by apply occupancy_ext.
  - by apply (exclusive_ext d).
Qed.

Section admin.
Context (d : DB).

Lemma neutral_execute f :
  (forall L k, booked_at (f L) k = booked_at L k) -> preserves (neutral d) (execute (on_ledger f)).
Proof.
  intros Hf. apply preserves_execute. intros s [Hb Hl Hbo Hs]. split; cbn; try done.
  - intros k. by rewrite Hf.
  - by rewrite Hs.
Qed.

Lemma booked_at_set_totals t rt start total L k : booked_at (set_totals t rt start total L) k = booked_at L k.
Proof.
  unfold booked_at, set_totals. rewrite map_lookup_imap. destruct k as [[t' rt'] n].
  destruct (L !! (t', rt', n)) as [r|]; [|done]. cbn. by destruct (_ && _).
Qed.

Lemma booked_at_upsert t m L k : booked_at (upsert_totals t m L) k = booked_at L k.
Proof.
  destruct k as [[t' rt'] n]. unfold booked_at. rewrite upsert_totals_lookup. unfold upsert_row.
  by destruct (t' =? t), (m !! (rt', n)), (L !! (t', rt', n)).
Qed.

Lemma booked_at_insert k total L k' :
  L !! k = None -> booked_at (<[k := empty_row total]> L) k' = booked_at L k'.
Proof.
  intros Hn. unfold booked_at. destruct (decide (k = k')) as [<-|Hne].
  - by rewrite lookup_insert_eq, Hn.
  - by rewrite lookup_insert_ne.
Qed.

Lemma recalculate_neutral t rt from : preserves (neutral d) (recalculate_ledger_total_rooms t rt from).
Proof.
  unfold recalculate_ledger_total_rooms, count_rooms_for_room_type, get_today.
  apply preserves_bind; [intros s s' r Hs H; by simplify_eq|]. intros td.
  apply preserves_bind; [apply preserves_query|]. intros total.
  apply neutral_execute. intros. apply booked_at_set_totals.
Qed.

Lemma seed_keys_neutral t segs m : preserves (neutral d) (seed_keys t segs m).
Proof.
  revert m. induction segs as [|sg segs IH]; intros m; simpl; [apply preserves_ret|].
  apply preserves_bind; [apply preserves_scalar|]. intros [rt|]; [|apply preserves_raise].
  apply preserves_bind; [apply preserves_query|]. intros total.
  apply preserves_bind; [apply preserves_lift|]. intros ds. apply IH.
Qed.

Lemma bulk_seed_neutral t segs : preserves (neutral d) (bulk_seed_availability_ledger t segs).
Proof.
  unfold bulk_seed_availability_ledger. apply preserves_bind; [apply seed_keys_neutral|]. intros m.
  apply preserves_if; [apply preserves_ret|]. apply preserves_bind; [|intros; apply preserves_ret].
  apply neutral_execute. intros. apply booked_at_upsert.
Qed.

Lemma insert_or_nothing_neutral k total : preserves (neutral d) (insert_or_nothing k total).
Proof.
  intros s s' r Hs H. unfold insert_or_nothing in H. rewrite run_query in H.
  destruct (ledger (disk s) !! k) eqn:E; [cbv [mret M_ret] in H; by simplify_eq|].
  rewrite run_execute in H. cbv [mret M_ret] in H. simplify_eq. destruct Hs as [Hb Hl Hbo Hs].
  split; cbn; try done; [|by rewrite Hs]. intros k'. rewrite booked_at_insert; [done|]. by rewrite <- Hs.
Qed.

Lemma booked_at_insert_rows total ks L k' :
  (forall k, In k ks -> L !! k = None \/ L !! k = Some (empty_row total)) ->
  booked_at (List.fold_left (fun L k => <[k := empty_row total]> L) ks L) k' = booked_at L k'.
Proof.
  revert L. induction ks as [|k ks IH]; intros L Hn; simpl; [done|]. rewrite IH.
  - destruct (Hn k) as [H|H]; [by left|by apply booked_at_insert|]. by rewrite insert_id.
  - intros k0 Hk0. destruct (decide (k = k0)) as [<-|Hne]; [right; apply lookup_insert_eq|].
    rewrite lookup_insert_ne by done. apply Hn. by right.
Qed.

Lemma insert_rows_neutral total ks : preserves (neutral d) (insert_rows total ks).
Proof.
  intros s s' r [Hb Hl Hbo Hs] H. unfold insert_rows in H. rewrite run_query in H.
  destruct (existsb _ ks) eqn:E; [cbv [raise] in H; by simplify_eq|].
  rewrite run_orm in H. cbv [flush] in H. simplify_eq. split; cbn; try done.
  intros k. rewrite booked_at_insert_rows; [done|]. intros k0 Hk0. left. rewrite <- Hs.
  destruct (ledger (disk s) !! k0) eqn:E0; [|done]. exfalso. apply not_true_iff_false in E. apply E.
  apply existsb_exists. exists k0. split; [done|]. rewrite E0. by apply bool_decide_eq_true_2.
Qed.

Lemma sumM_neutral {A} (l : list A) f : (forall x, preserves (neutral d) (f x)) -> preserves (neutral d) (sumM l f).
Proof.
  intros Hf. induction l as [|x l IH]; simpl; [apply preserves_ret|].
  apply preserves_bind; [apply Hf|]. intros n. apply preserves_bind; [exact IH|]. intros m. apply preserves_ret.
Qed.

Lemma seed_year_neutral t rt total from days :
  preserves (neutral d) (seed_empty_availability_ledger_year_forward t rt total from days).
Proof.
  unfold seed_empty_availability_ledger_year_forward, get_today.
  apply preserves_bind; [intros s s' r Hs H; by simplify_eq|]. intros td.
  apply preserves_bind; [apply preserves_lift|]. intros ds. apply insert_rows_neutral.
Qed.

Lemma extend_neutral visible days : preserves (neutral d) (extend_availability_ledger_days visible days).
Proof.
  unfold extend_availability_ledger_days. apply preserves_if; [apply preserves_ret|].
  apply preserves_bind; [apply preserves_select|]. intros rts. apply sumM_neutral. intros rt.
  apply preserves_bind; [apply preserves_query|]. intros m.
  apply preserves_bind; [apply preserves_query|]. intros total. destruct m as [m|].
  - apply sumM_neutral. intros i. apply preserves_bind; [apply preserves_lift|]. intros day.
    apply insert_or_nothing_neutral.
  - apply preserves_bind; [apply seed_year_neutral|]. intros _. apply preserves_ret.
Qed.
End admin.

(** ** Overrides *)

(** Writing [blocked_rooms] and nothing else. *)
Lemma blocked_inventory body s k :
  inventory_ok (mem s) ->
  inventory_ok (mem (set_mem (on_ledger (alter (set_blocked body) k) (mem s)) s)).
Proof.
  intros [Hwf Hacc Hex]. split.
  - by apply (well_formed_ext (mem s)).
  - intros k'. change (booked_at (alter (set_blocked body) k (ledger (mem s))) k' = occupancy (mem s) k').
    rewrite <- Hacc. unfold booked_at. destruct (decide (k = k')) as [<-|Hne].
    + rewrite lookup_alter_eq. by destruct (ledger (mem s) !! k).
    + by rewrite lookup_alter_ne.
  - by apply (exclusive_ext (mem s)).
Qed.

Definition consistent (s : session) : Prop := inventory_ok (mem s).

#[export] Instance consistent_stable : CoreStable consistent.
Proof. split; [|done]. intros s s' Hm _ _. by apply inventory_ext. Qed.

Lemma override_consistent t body : preserves consistent (apply_blocked_rooms_override t body).
Proof.
  unfold apply_blocked_rooms_override, select_ledger. apply preserves_bind; [apply preserves_lift|]. intros ds.
  destruct ds as [|d0 ds]; [apply preserves_ret|]. apply preserves_bind; [apply preserves_query|]. intros ks.
  apply preserves_if; [apply preserves_raise|].
  apply preserves_bind; [|intros; apply preserves_ret]. apply preserves_forM. intros k _.
  unfold row. apply preserves_bind.
  - apply preserves_bind; [apply preserves_attrs|]. intros. apply preserves_lift.
  - intros r. apply preserves_if; [apply preserves_raise|]. unfold assign_row. apply preserves_orm.
    intros s Hs. by apply blocked_inventory.
Qed.

(** ** Requests *)

Section system.
Context {env : Env} (visible : RoomType -> bool).

Inductive request : Type :=
  | CreateBooking (body : booking_create)
  | PatchBooking (booking_id : Z) (body : booking_patch)
  | DeleteBooking (booking_id : Z)
  | BlockRooms (body : override_request)
  | SeedLedger (segments : list seed_segment)
  | ExtendLedger (days : Z)
  | RecountRooms (room_type_id : Z) (from : option date)
  | UpsertRates (segments : list rate_segment)
  | PostFolio (booking_id : Z) (body : folio_post) (by_ : option Z)
  | ReverseFolio (booking_id tx : Z) (by_ : option Z).

(** What the request schemas let through. *)
Definition request_valid (q : request) : bool :=
  match q with
  | CreateBooking body => booking_create_valid body
  | BlockRooms body => override_valid body
  | UpsertRates segs => forallb rate_segment_valid segs
  | _ => true
  end.

Definition serve (t : Z) (q : request) : M unit :=
  match q with
  | CreateBooking body => _ ← create_booking t body; mret tt
  | PatchBooking bid body => _ ← patch_booking t bid body; mret tt
  | DeleteBooking bid => _ ← delete_booking t bid; mret tt
  | BlockRooms body => _ ← apply_blocked_rooms_override t body; mret tt
  | SeedLedger segs => _ ← bulk_seed_availability_ledger t segs; mret tt
  | ExtendLedger days => _ ← extend_availability_ledger_days visible days; mret tt
  | RecountRooms rt from => _ ← recalculate_ledger_total_rooms t rt from; mret tt
  | UpsertRates segs => _ ← bulk_upsert_rates t segs; mret tt
  | PostFolio bid body by_ => _ ← add_folio_entry t bid body by_; mret tt
  | ReverseFolio bid tx by_ => _ ← reverse_folio_transaction t bid tx by_; mret tt
  end.

(** One served request; [u] is where its fresh UUIDs start. *)
Inductive transaction : DB -> DB -> Prop :=
  | served t q tm td u d :
      request_valid q = true -> fresh u d ->
      transaction d (run (serve t q) tm td u d).1.

Lemma bulk_rates_frame (I : session -> Prop) {HI : CoreStable I} t segs : preserves I (bulk_upsert_rates t segs).
Proof.
  unfold bulk_upsert_rates. apply preserves_bind.
  - generalize (@nil (Z * Z * date * rate_segment)). induction segs as [|g segs IH]; intros m; simpl; [apply preserves_ret|].
    apply preserves_bind; [unfold require_room_type_and_plan_same_property; frames|]. intros _.
    apply preserves_bind; [apply preserves_lift|]. intros ds. apply IH.
  - intros [|kv rows]; [apply preserves_ret|]. apply preserves_bind; [apply preserves_lift|]. intros st.
    apply preserves_bind; [|intros; apply preserves_ret]. apply frame_execute; [exact _|]. done.
Qed.

Lemma folio_post_frame (I : session -> Prop) {HI : CoreStable I} t bid body by_ : preserves I (add_folio_entry t bid body by_).
Proof.
  unfold add_folio_entry, require_booking, active_category_codes, ensure_builtin_categories, record_audit, insert_folio.
  frames.
Qed.

Lemma folio_reverse_frame (I : session -> Prop) {HI : CoreStable I} t bid tx by_ : preserves I (reverse_folio_transaction t bid tx by_).
Proof. unfold reverse_folio_transaction, require_booking, record_audit, insert_folio. frames. Qed.

Lemma serve_inventory t q tm td u d s r :
  inventory_ok d -> fresh u d -> request_valid q = true ->
  serve t q (start d tm td u) = (s, Ok r) -> inventory_ok (mem s).
Proof.
  intros Hinv Hf Hv H.
  assert (Hn : forall {A} (m : M A) s' x, preserves (neutral d) m -> m (start d tm td u) = (s', x) -> inventory_ok (mem s')).
  { intros A m s' x Hm Hx. apply (neutral_inventory d); [done|]. eapply Hm; [|exact Hx]. apply neutral_start. }
  assert (Hc : forall {A} (m : M A) s' x, preserves consistent m -> m (start d tm td u) = (s', x) -> inventory_ok (mem s')).
  { intros A m s' x Hm Hx. by apply (Hm (start d tm td u) s' x Hinv). }
  destruct q; simpl in H, Hv;
    (mbind_in H s1 x H1; cbv [mret M_ret] in H; injection H as <-).
  - by apply (create_booking_inv t body d) in H1 as [? _]; [|done|split; [by apply staged_start|apply same_core_refl]].
  - by eapply patch_booking_triple.
  - by apply (delete_booking_inv t booking_id tm td u d) in H1 as [? _].
  - apply (Hc _ _ _ _ (override_consistent _ _) H1).
  - apply (Hn _ _ _ _ (bulk_seed_neutral _ _ _) H1).
  - apply (Hn _ _ _ _ (extend_neutral _ _ _) H1).
  - apply (Hn _ _ _ _ (recalculate_neutral _ _ _ _) H1).
  - apply (Hc _ _ _ _ (bulk_rates_frame consistent _ _) H1).
  - apply (Hc _ _ _ _ (folio_post_frame consistent _ _ _ _) H1).
  - apply (Hc _ _ _ _ (folio_reverse_frame consistent _ _ _ _) H1).
Qed.

Lemma transaction_inventory d d' : transaction d d' -> inventory_ok d -> inventory_ok d'.
Proof.
  intros [t q tm td u d0 Hv Hf] Hinv. unfold run. destruct (serve t q _) as [s [a|e]] eqn:E; [|done].
  by eapply serve_inventory.
Qed.

(** C1: whatever valid requests are served, for whatever tenants and in
    whatever order, accepted or refused, the booked rooms of every ledger row
    are exactly the lines of active bookings on that night, and no room is
    held by two active bookings on the same night. *)
Theorem reachable_inventory d d' :
  inventory_ok d -> rtc transaction d d' -> accounted d' /\ exclusive d'.
Proof.
  intros Hinv Hr. assert (H : inventory_ok d'); [|split; apply H].
  induction Hr as [|d1 d2 d3 H12 _ IH]; [done|]. by apply IH, (transaction_inventory d1).
Qed.

End system.

Lemma run_discard {A} (m : M A) tm td u d : (run (_ ← m; mret tt) tm td u d).1 = (run m tm td u d).1.
Proof. unfold run, mbind, M_bind. by destruct (m _) as [s [a|e]]. Qed.

(** Ann books and then cancels. *)
Lemma reachable_inventory_witness :
  exists d', rtc (transaction (env := sample_env) (fun _ => true)) hotel_db d' /\
    List.map b_status (bookings d') = ["cancelled"%string] /\ accounted d' /\ exclusive d'.
Proof.
  set (cancel := PatchBooking 1001 (BookingPatch None (Some (Some "cancelled"%string)) None None None None)).
  exists (run (serve (env := sample_env) (fun _ => true) 1 cancel) 0 0 2000 booked_db).1.
  assert (Hr : rtc (transaction (env := sample_env) (fun _ => true)) hotel_db
    (run (serve (env := sample_env) (fun _ => true) 1 cancel) 0 0 2000 booked_db).1).
  { apply (rtc_l _ _ booked_db); [|apply rtc_once].
    - unfold booked_db. rewrite <- run_discard.
      apply (served (env := sample_env) (fun _ => true) 1 (CreateBooking ann_books)); [done|apply hotel_fresh].
    - apply served; [done|]. split.
      + vm_compute. intros b [<-|[]]. done.
      + vm_compute. intros l [<-|[<-|[]]]; done. }
  split; [exact Hr|]. split; [vm_compute; reflexivity|].
  exact (reachable_inventory (env := sample_env) (fun _ => true) hotel_db _ hotel_inventory Hr).
Defined.
