(* ===== verification/Refusals.v ===== *)
(** * What an over-committed ledger refuses

    [lock_and_validate_availability] is asked for zero rooms when a booking is
    released, and still compares the rooms left with zero: where a row has
    fewer rooms than are booked and blocked (a room was deleted, or blocked
    rooms were raised by a recount), the bookings that make it so can be
    neither cancelled nor deleted. *)

From stdpp Require Import gmap.
From S2P Require Import Prelude StayDates BookingStatus Models Session Ledger LedgerLaws.
From S2P Require Import Folio FolioLaws Booking BookingFrame BookingInvariant BookingRequests.

(** ** The lock *)

Lemma available_check_refused ks n s :
  (forall k, In k ks -> is_Some (ledger (mem s) !! k)) ->
  (exists k r, In k ks /\ ledger (mem s) !! k = Some r /\ available_rooms r < n) ->
  forM ks (fun k => r ← row k; if available_rooms r <? n then raise InsufficientInventory else mret tt) s =
  (s, Err InsufficientInventory).
Proof.
  intros Hex (k0 & r0 & Hin & Hr0 & Hlt). induction ks as [|k ks IH]; [done|]. simpl.
  destruct (Hex k (or_introl eq_refl)) as [r Hr].
  assert (Hrow : row k s = (s, Ok r)) by (unfold row; mrun; by rewrite Hr).
  rewrite run_assoc, (bind_run _ _ _ _ _ Hrow). destruct (Z.ltb_spec (available_rooms r) n); [done|].
  rewrite run_ret. destruct Hin as [->|Hin].
  - rewrite Hr0 in Hr. injection Hr as ->. lia.
  - apply IH; [|done]. intros k' Hk'. apply Hex. by right.
Qed.

(** The rows a lock finds: all of them. *)
Lemma lock_rows t rt nights s :
  (forall x, In x nights -> is_Some (ledger (disk s) !! (t, rt, x))) ->
  List.filter (has_row (ledger (disk s)) t rt) (sorted_set nights) = sorted_set nights.
Proof.
  intros Hex. apply forallb_filter. rewrite forallb_sorted_set. apply forallb_forall. intros y Hy. unfold has_row.
  apply bool_decide_eq_true_2. by apply Hex.
Qed.

Lemma lock_refused t rt nights n s :
  (forall x, In x nights -> is_Some (ledger (disk s) !! (t, rt, x))) ->
  (forall x, In x nights -> is_Some (ledger (mem s) !! (t, rt, x))) ->
  (exists x r, In x nights /\ ledger (mem s) !! (t, rt, x) = Some r /\ available_rooms r < n) ->
  lock_and_validate_availability t rt nights n s = (s, Err InsufficientInventory).
Proof.
  intros Hd Hex (x & r & Hx & Hr & Hlt). unfold lock_and_validate_availability.
  destruct nights as [|d ds] eqn:E; [done|]. rewrite <- E in *. clear E d ds.
  rewrite select_ledger_run, lock_rows, map_date_keys by done.
  unfold dates_eqb. rewrite bool_decide_eq_true_2 by done. cbn [negb].
  unfold mbind at 1, M_bind at 1. rewrite available_check_refused; [done| |].
  - intros k (y & -> & Hy)%in_keys_of. apply Hex. by apply sorted_set_In.
  - exists (t, rt, x), r. split_and!; [|done|done]. unfold keys_of. apply in_map_iff. exists x.
    split; [done|]. by apply sorted_set_In.
Qed.

Lemma available_check_granted ks n s :
  (forall k, In k ks -> exists r, ledger (mem s) !! k = Some r /\ n <= available_rooms r) ->
  forM ks (fun k => r ← row k; if available_rooms r <? n then raise InsufficientInventory else mret tt) s = (s, Ok tt).
Proof.
  induction ks as [|k ks IH]; intros H; [done|]. simpl. destruct (H k (or_introl eq_refl)) as (r & Hr & Hle).
  rewrite run_assoc, (row_run k _ r s Hr). destruct (Z.ltb_spec (available_rooms r) n); [lia|].
  rewrite run_ret. apply IH. intros k' Hk'. apply H. by right.
Qed.

Lemma lock_granted t rt nights n s :
  (forall x, In x nights -> is_Some (ledger (disk s) !! (t, rt, x))) ->
  (forall x, In x nights -> exists r, ledger (mem s) !! (t, rt, x) = Some r /\ n <= available_rooms r) ->
  lock_and_validate_availability t rt nights n s = (s, Ok (keys_of t rt (sorted_set nights))).
Proof.
  intros Hd Hex. unfold lock_and_validate_availability.
  destruct nights as [|d ds] eqn:E; [done|]. rewrite <- E in *. clear E d ds.
  rewrite select_ledger_run, lock_rows, map_date_keys by done.
  unfold dates_eqb. rewrite bool_decide_eq_true_2 by done. cbn [negb].
  unfold mbind at 1, M_bind at 1. rewrite available_check_granted; [done|].
  intros k (y & -> & Hy)%in_keys_of. apply Hex. by apply sorted_set_In.
Qed.

Lemma decrement_granted ks n s :
  List.NoDup ks -> (forall k, In k ks -> exists r, ledger (mem s) !! k = Some r /\ n <= booked_rooms r) ->
  decrement_booked_rooms ks n s = (set_mem (on_ledger (update_rows (add_booked (- n)) ks) (mem s)) s, Ok tt).
Proof.
  unfold decrement_booked_rooms. revert s. induction ks as [|k ks IH]; intros s Hnd H.
  { cbn. f_equal. by destruct s as [? [] ? ? ? ?]. }
  apply List.NoDup_cons_iff in Hnd as [Hni Hnd]. destruct (H k (or_introl eq_refl)) as (r & Hr & Hle). simpl.
  rewrite run_assoc. unfold assign_row. rewrite run_orm, run_assoc. cbv beta.
  set (s1 := set_mem _ s).
  assert (Hr1 : ledger (mem s1) !! k = Some (add_booked (- n) r)) by (cbn; rewrite lookup_alter_eq, Hr; done).
  rewrite (row_run k _ _ s1 Hr1). cbn [booked_rooms add_booked set_booked]. destruct (Z.ltb_spec (booked_rooms r + - n) 0); [lia|].
  rewrite run_ret, IH; [|done|].
  - f_equal.
  - intros k' Hk'. cbn. rewrite lookup_alter_ne by (intros <-; done). apply H. by right.
Qed.

(** ** Releasing *)

(** A ledger row of the booking with more rooms taken than there are. *)
Definition overcommitted (d : DB) (t bid : Z) : Prop :=
  exists l r, In l (lines_of d t bid) /\ ledger d !! line_key l = Some r /\ available_rooms r < 0.

Lemma active_line_row d l :
  accounted d -> In l (lines d) -> line_active d l = true -> is_Some (ledger d !! line_key l).
Proof.
  intros Hacc Hin Hact. destruct (ledger d !! line_key l) as [r|] eqn:E; [by exists r|]. exfalso.
  specialize (Hacc (line_key l)). unfold booked_at in Hacc. rewrite E in Hacc.
  assert (Hpos : 1 <= occupancy d (line_key l)); [|lia].
  unfold occupancy. eapply countb_In; [exact Hin|]. rewrite Hact. cbn [andb].
  unfold at_key. by apply bool_decide_eq_true_2.
Qed.

Lemma release_refused t b s :
  inventory_ok (mem s) -> disk s = mem s -> In b (bookings (mem s)) -> b_tenant b = t ->
  is_active (b_status b) = true -> ~ In (b_id b) (expired s) -> overcommitted (mem s) t (b_id b) ->
  release_booking_inventory t b s = (s, Err InsufficientInventory).
Proof.
  intros Hinv Hsync Hin Ht Hact Hexp (l & r & Hl & Hr & Hlt). unfold release_booking_inventory, booking_lines.
  unfold mbind at 1, M_bind at 1.
  assert (He : existsb (Z.eqb (b_id b)) (expired s) = false).
  { apply not_true_iff_false. intros (x & Hx & <-%Z.eqb_eq)%existsb_exists. done. }
  rewrite He, Ht. pose proof (wf_stays _ (inv_wf _ Hinv) t (b_id b)) as [_ Hrt].
  destruct (lines_of (mem s) t (b_id b)) as [|l0 ls0] eqn:El; [done|]. rewrite <- El in *.
  rewrite (distinct_all _ (l_room_type l)); [|by apply in_map|].
  2:{ intros y (l' & <- & Hl')%in_map_iff. by apply Hrt. }
  assert (Hkey : forall l', In l' (lines_of (mem s) t (b_id b)) ->
    line_key l' = (t, l_room_type l, l_date l') /\ is_Some (ledger (mem s) !! (t, l_room_type l, l_date l'))).
  { intros l' Hl'. assert (Hk : line_key l' = (t, l_room_type l, l_date l')).
    { unfold line_key. rewrite (Hrt l' l Hl' Hl). apply filter_In in Hl' as [_ Hp]. unfold line_of in Hp.
      by apply andb_prop in Hp as [->%Z.eqb_eq _]. }
    split; [exact Hk|]. rewrite <- Hk. apply filter_In in Hl' as [Hin' Hp].
    apply active_line_row; [apply Hinv|done|]. rewrite (line_of_active _ t (b_id b)) by exact Hp.
    rewrite (has_status_active _ t (b_id b) (b_status b)); [done|apply Hinv|by exists b]. }
  unfold mbind at 1, M_bind at 1. rewrite lock_refused; [done| | |].
  { rewrite Hsync. intros x (l' & <- & Hl')%in_map_iff. by apply Hkey. }
  - intros x (l' & <- & Hl')%in_map_iff. by apply Hkey.
  - exists (l_date l), r. split_and!; [by apply in_map| |done]. by rewrite <- (proj1 (Hkey l Hl)).
Qed.

(** ** Cancelling and deleting *)

Section refusals.
Context {env : Env}.

Definition cancel_request (reason : option (option string)) : booking_patch :=
  BookingPatch None (Some (Some "cancelled"%string)) None None reason None.

Lemma find_booking d b :
  List.NoDup (List.map b_id (bookings d)) -> In b (bookings d) ->
  List.find (booking_is (b_tenant b) (b_id b)) (bookings d) = Some b.
Proof.
  intros Hnd Hin. destruct (List.find _ _) as [b'|] eqn:Hf.
  - apply find_some in Hf as [Hin' [_ Hid%Z.eqb_eq]%andb_prop]. f_equal. by apply (in_unique_id (bookings d)).
  - apply (find_none _ _ Hf) in Hin. unfold booking_is in Hin. by rewrite !Z.eqb_refl in Hin.
Qed.

(** a pending or confirmed booking with a night whose ledger row
    has fewer rooms than are booked and blocked can be neither cancelled (the
    request fails with the inventory error) nor deleted; nothing changes. *)
Theorem overcommitted_cannot_be_released b reason tm td u d :
  inventory_ok d -> In b (bookings d) -> b_status b = "pending"%string \/ b_status b = "confirmed"%string ->
  overcommitted d (b_tenant b) (b_id b) ->
  run (patch_booking (b_tenant b) (b_id b) (cancel_request reason)) tm td u d = (d, Err InsufficientInventory) /\
  exists e, run (delete_booking (b_tenant b) (b_id b)) tm td u d = (d, Err e).
Proof.
  intros Hinv Hin Hst Hover. pose proof (wf_ids _ (inv_wf _ Hinv)) as Hnd.
  assert (Hact : is_active (b_status b) = true) by (by destruct Hst as [-> | ->]).
  set (s := set_expired [] (start d tm td u)).
  assert (Hload : load_lines (b_id b) (start d tm td u) = (s, Ok tt)) by done.
  assert (Hrel : release_booking_inventory (b_tenant b) b s = (s, Err InsufficientInventory)).
  { apply release_refused; [exact Hinv|reflexivity|exact Hin|reflexivity|exact Hact|by intros []|exact Hover]. }
  assert (Hnow : booking_now (b_id b) s = (s, Ok b)).
  { unfold booking_now. mrun. cbn [mem s set_expired start].
    pose proof (find_ident (bookings d) b Hnd Hin) as Hf. cbn in Hf. by rewrite Hf. }
  assert (Hlines : booking_lines (b_tenant b) (b_id b) s = (s, Ok (lines_of d (b_tenant b) (b_id b)))) by done.
  assert (Hfind : forall B (k : option Booking -> M B),
    (scalar (booking_is (b_tenant b) (b_id b)) ≫= k) (start d tm td u) = k (Some b) (start d tm td u)).
  { intros B k. rewrite run_scalar_synced by (split; [done|exact Hnd]). cbn [mem start table Booking_entity].
    by rewrite find_booking. }
  split; unfold run.
  - unfold patch_booking. replace (negb _) with false by done. rewrite Hfind, (bind_run _ _ _ _ _ Hload).
    cbn [pt_notes cancel_request]. rewrite run_ret. replace (negb _) with false by done.
    rewrite (bind_run _ _ _ _ _ Hnow), (bind_run _ _ _ _ _ Hlines). replace (wants_cancel _) with true by done.
    unfold patch_cancel. rewrite run_assoc, (bind_run _ _ _ _ _ Hnow).
    replace (String.eqb _ _) with false by (by destruct Hst as [-> | ->]).
    replace (transition_or_409 (b_status b) "cancelled") with (mret (M := M) tt) by (by destruct Hst as [-> | ->]).
    rewrite !run_assoc, run_ret. unfold mbind, M_bind. by rewrite Hrel.
  - unfold delete_booking. rewrite Hfind, (bind_run _ _ _ _ _ Hload).
    replace (str_in (normalize_booking_status (b_status b)) ["checked_in"; "checked_out"]%string) with false
      by (by destruct Hst as [-> | ->]).
    replace (str_in (normalize_booking_status (b_status b)) ["cancelled"; "no_show"]%string) with false
      by (by destruct Hst as [-> | ->]).
    unfold mbind at 1, M_bind at 1. destruct (booking_quick_snapshot b s) as [s1 [v|e]] eqn:Esn; [|by exists e].
    apply snapshot_inv in Esn as ->. unfold mbind at 1, M_bind at 1. rewrite Hrel. by eexists.
Qed.
End refusals.

Lemma recounted_inventory t rt start total d :
  inventory_ok d -> inventory_ok (put_ledger (set_totals t rt start total (ledger d)) d).
Proof.
  intros [Hwf Hacc Hex]. split; [by apply (well_formed_ext d)| |by apply (exclusive_ext d)].
  intros k. specialize (Hacc k). cbn [ledger put_ledger]. unfold booked_at in *.
  unfold set_totals. rewrite map_lookup_imap. destruct k as [[t' rt'] n].
  destruct (ledger d !! (t', rt', n)) as [r|]; cbn; [|exact Hacc].
  etrans; [|exact Hacc]. by destruct (_ && _).
Qed.

(** Ann's booking, unassigned and with its room type emptied: no room is left
    on her nights. *)
Definition emptied_db : DB :=
  put_ledger (set_totals 1 7 100 0 (ledger booked_db)) booked_db.

Lemma emptied_inventory : inventory_ok emptied_db.
Proof. apply recounted_inventory, booked_inventory. Qed.

Lemma overcommitted_cannot_be_released_witness :
  exists b, In b (bookings emptied_db) /\ b_status b = "confirmed"%string /\
    run (patch_booking (env := sample_env) (b_tenant b) (b_id b) (cancel_request None)) 0 0 2000 emptied_db =
    (emptied_db, Err InsufficientInventory).
Proof.
  assert (H : exists b, In b (bookings emptied_db) /\ b_status b = "confirmed"%string /\
    overcommitted emptied_db (b_tenant b) (b_id b)).
  { eexists. split; [vm_compute; left; reflexivity|]. split; [reflexivity|].
    eexists _, _. split; [vm_compute; left; reflexivity|]. split; [vm_compute; reflexivity|reflexivity]. }
  destruct H as (b & Hin & Hst & Hover). exists b. split; [exact Hin|]. split; [exact Hst|].
  exact (proj1 (overcommitted_cannot_be_released (env := sample_env) b None 0 0 2000 emptied_db emptied_inventory Hin
    (or_intror Hst) Hover)).
Defined.
