(* ===== verification/Remote.v ===== *)
(** * Conversations with remote systems

    Work that reads and writes the database and talks to a server in between.
    The server is a state of some type [W]; a client call moves it and gives
    a result.  A transaction that is rolled back takes nothing back from the
    server. *)

From S2P Require Import Prelude StayDates Models Session.

(** A call of a client, on the server's side of the wire. *)
Definition call (W A : Type) : Type := W -> W * result A.
#[export] Typeclasses Opaque call.

#[export] Instance call_ret {W} : MRet (call W) := fun A a w => (w, Ok a).
#[export] Instance call_bind {W} : MBind (call W) := fun A B k m w =>
  match m w with
  | (w', Ok a) => k a w'
  | (w', Err e) => (w', Err e)
  end.

Definition call_raise {W A} (e : exn) : call W A := fun w => (w, Err e).
Definition call_lift {W A} (r : result A) : call W A := fun w => (w, r).

(** Work on the database and the server. *)
Definition T (W A : Type) : Type := session -> W -> session * W * result A.
#[export] Typeclasses Opaque T.

#[export] Instance T_ret {W} : MRet (T W) := fun A a s w => (s, w, Ok a).
#[export] Instance T_bind {W} : MBind (T W) := fun A B k m s w =>
  match m s w with
  | (s', w', Ok a) => k a s' w'
  | (s', w', Err e) => (s', w', Err e)
  end.

Section work.
Context {W : Type}.

Definition db {A} (m : M A) : T W A := fun s w => let '(s', r) := m s in (s', w, r).
Definition wire {A} (c : call W A) : T W A := fun s w => let '(w', r) := c w in (s, w', r).
Definition T_raise {A} (e : exn) : T W A := fun s w => (s, w, Err e).

Definition T_try {A} (m : T W A) (h : exn -> option (T W A)) : T W A := fun s w =>
  match m s w with
  | (s', w', Err e) => match h e with Some k => k s' w' | None => (s', w', Err e) end
  | r => r
  end.

Fixpoint T_for {A} (l : list A) (f : A -> T W unit) : T W unit :=
  match l with
  | [] => mret tt
  | x :: l' => _ ← f x; T_for l' f
  end.

(** [for x in l: acc = f(acc, x)] *)
Fixpoint T_fold {A S} (l : list A) (f : S -> A -> T W S) (acc : S) : T W S :=
  match l with
  | [] => mret acc
  | x :: l' => acc' ← f acc x; T_fold l' f acc'
  end.

(** A request or a task with its own transaction. *)
Definition T_transaction {A} (m : T W A) : T W A := fun s w =>
  match m (Session (disk s) (disk s) [] (now s) (today s) (uuids s)) w with
  | (s', w', Ok a) => (Session (mem s') (mem s') [] (now s) (today s) (uuids s'), w', Ok a)
  | (s', w', Err e) => (Session (disk s) (disk s) [] (now s) (today s) (uuids s'), w', Err e)
  end.

Definition T_run {A} (m : T W A) (t : Z) (td : date) (u : Z) (d : DB) (w : W) : DB * W * result A :=
  match m (start d t td u) w with
  | (s, w', Ok a) => (mem s, w', Ok a)
  | (_, w', Err e) => (d, w', Err e)
  end.

(** ** Running the primitives *)

Lemma T_run_db {A B} (m : M A) (k : A -> T W B) s w :
  (db m ≫= k) s w = match m s with (s', Ok a) => k a s' w | (s', Err e) => (s', w, Err e) end.
Proof. unfold mbind, T_bind, db. by destruct (m s) as [s' [a|e]]. Qed.

Lemma T_run_wire {A B} (c : call W A) (k : A -> T W B) s w :
  (wire c ≫= k) s w = match c w with (w', Ok a) => k a s w' | (w', Err e) => (s, w', Err e) end.
Proof. unfold mbind, T_bind, wire. by destruct (c w) as [w' [a|e]]. Qed.

Lemma T_run_ret {A B} (a : A) (k : A -> T W B) s w : (mret (M := T W) a ≫= k) s w = k a s w.
Proof. done. Qed.

Lemma T_run_raise {A B} e (k : A -> T W B) s w : (T_raise e ≫= k) s w = (s, w, Err e).
Proof. done. Qed.

Lemma T_run_assoc {A B C} (m : T W A) (k : A -> T W B) (l : B -> T W C) s w :
  ((m ≫= k) ≫= l) s w = (m ≫= fun a => k a ≫= l) s w.
Proof. unfold mbind, T_bind. by destruct (m s w) as [[s1 w1] [a|e]]. Qed.

Lemma T_bind_inv {A B} (m : T W A) (k : A -> T W B) s w s' w' b :
  (m ≫= k) s w = (s', w', Ok b) -> exists s1 w1 a, m s w = (s1, w1, Ok a) /\ k a s1 w1 = (s', w', Ok b).
Proof. unfold mbind, T_bind. destruct (m s w) as [[s1 w1] [a|e]]; [|done]. intros H. by exists s1, w1, a. Qed.

Lemma call_bind_inv {A B} (m : call W A) (k : A -> call W B) w w' b :
  (m ≫= k) w = (w', Ok b) -> exists w1 a, m w = (w1, Ok a) /\ k a w1 = (w', Ok b).
Proof. unfold mbind, call_bind. destruct (m w) as [w1 [a|e]]; [|done]. intros H. by exists w1, a. Qed.

(** [db] is a monad morphism. *)
Lemma T_db_bind {A B} (m : M A) (k : A -> M B) s w :
  db (m ≫= k) s w = (db m ≫= fun a => db (k a)) s w.
Proof. unfold db, mbind, T_bind, M_bind. by destruct (m s) as [s' [a|e]]. Qed.
End work.

Create Rewrite HintDb run_remote.
#[export] Hint Rewrite @T_run_db @T_run_wire @T_run_ret @T_run_raise @T_run_assoc : run_remote.

Ltac trun := autorewrite with run_remote; cbn [fst snd disk mem set_disk set_mem].
