(* ===== verification/Steady.v ===== *)
(** * What a computation leaves alone

    A view of the database (some of its tables, some row of the ledger) stays
    the same through a computation that writes only elsewhere.  [keeps_view]
    is decided step by step along the structure of the computation, for
    sessions and for conversations with a remote system. *)

From stdpp Require Import gmap.
From S2P Require Import Prelude StayDates Models Session Ledger Remote.

Section view.
Context {X : Type} (view : DB -> X).

(** Flushed and pending rows look the same through the view. *)
Definition steady (x : X) (s : session) : Prop := view (mem s) = x /\ view (disk s) = x.

Definition keeps_view {A} (m : M A) : Prop := forall x, preserves (steady x) m.

(** A table outside the view. *)
Class Beside (R : Type) `{Entity R} : Prop := beside : forall l d, view (put_table (R := R) l d) = view d.

Lemma steady_start d t td u : steady (view d) (start d t td u).
Proof. done. Qed.

(** *** The primitives *)

Lemma kv_ret {A} (a : A) : keeps_view (mret a).
Proof. intros x. apply preserves_ret. Qed.
Lemma kv_raise {A} e : keeps_view (raise (A := A) e).
Proof. intros x. apply preserves_raise. Qed.
Lemma kv_lift {A} (r : result A) : keeps_view (lift r).
Proof. intros x. apply preserves_lift. Qed.
Lemma kv_query {A} (f : DB -> A) : keeps_view (query f).
Proof. intros x. apply preserves_query. Qed.
Lemma kv_attrs {A} (f : DB -> A) : keeps_view (attrs f).
Proof. intros x. apply preserves_attrs. Qed.
Lemma kv_select {R} `{Entity R} p : keeps_view (select (R := R) p).
Proof. intros x. apply preserves_select. Qed.
Lemma kv_scalar {R} `{Entity R} p : keeps_view (scalar (R := R) p).
Proof. intros x. apply preserves_scalar. Qed.
Lemma kv_now : keeps_view get_now.
Proof. intros x. apply preserves_get_now. Qed.
Lemma kv_today : keeps_view get_today.
Proof. intros x s s' r Hs H. cbv [get_today] in H. by simplify_eq. Qed.
Lemma kv_uuid4 : keeps_view uuid4.
Proof. intros x. by apply preserves_uuid4. Qed.
Lemma kv_flush : keeps_view flush.
Proof. intros x. apply preserves_flush. by intros s [H _]. Qed.
Lemma kv_orm f : (forall d, view (f d) = view d) -> keeps_view (orm f).
Proof. intros Hf x. apply preserves_orm. intros s [Hm Hd]. split; [by rewrite <- Hm, <- (Hf (mem s))|done]. Qed.
Lemma kv_execute f : (forall d, view (f d) = view d) -> keeps_view (execute f).
Proof.
  intros Hf x. apply preserves_execute. intros s [Hm Hd]. split; [by rewrite <- Hm, <- (Hf (mem s))|by rewrite <- Hd, <- (Hf (disk s))].
Qed.
Lemma kv_assign {R} `{Entity R} i (f : R -> R) : Beside R -> keeps_view (assign i f).
Proof. intros HB. apply kv_orm. intros d. apply HB. Qed.
Lemma kv_add {R} `{Entity R} (r : R) : Beside R -> keeps_view (add r).
Proof. intros HB. apply kv_orm. intros d. apply HB. Qed.
Lemma kv_remove {R} `{Entity R} i : Beside R -> keeps_view (remove (R := R) i).
Proof. intros HB. apply kv_orm. intros d. apply HB. Qed.
Lemma kv_execute_delete {R} `{Entity R} (p : R -> bool) : Beside R -> keeps_view (execute_delete p).
Proof. intros HB. apply kv_execute. intros d. apply HB. Qed.
Lemma kv_execute_update {R} `{Entity R} (p : R -> bool) f : Beside R -> keeps_view (execute_update p f).
Proof. intros HB. apply kv_execute. intros d. apply HB. Qed.

(** *** Their combination *)

Lemma kv_bind {A B} (m : M A) (k : A -> M B) : keeps_view m -> (forall a, keeps_view (k a)) -> keeps_view (m ≫= k).
Proof. intros Hm Hk x. apply preserves_bind; [apply Hm|]. intros a. apply Hk. Qed.
Lemma kv_forM {A} (l : list A) f : (forall a, keeps_view (f a)) -> keeps_view (forM l f).
Proof. intros Hf x. apply preserves_forM. intros a _. apply Hf. Qed.
Lemma kv_try {A} (m : M A) h : keeps_view m -> (forall e k, h e = Some k -> keeps_view k) -> keeps_view (try_except m h).
Proof.
  intros Hm Hh x s s' r Hs H. unfold try_except in H. destruct (m s) as [s1 [a|e]] eqn:E; [simplify_eq; by eapply Hm|].
  destruct (h e) as [k|] eqn:Ek; [|simplify_eq; by eapply Hm]. eapply (Hh _ _ Ek); [|exact H]. by eapply Hm.
Qed.
Lemma kv_transaction {A} (m : M A) : keeps_view m -> keeps_view (transaction m).
Proof.
  intros Hm x s s' r [_ Hd] H. unfold transaction in H.
  destruct (m _) as [s1 [a|e]] eqn:E; injection H as <- <-; [|done]. apply (Hm x) in E; [|done]. by destruct E as [E _].
Qed.

(** *** Conversations: what the server shows stays as well *)

Context {W : Type} (P : W -> Prop).

Definition T_keeps_view {A} (m : T W A) : Prop :=
  forall x s w s' w' r, steady x s -> P w -> m s w = (s', w', r) -> steady x s' /\ P w'.

Lemma Tkv_db {A} (m : M A) : keeps_view m -> T_keeps_view (db m).
Proof.
  intros Hm x s w s' w' r Hs Hw H. unfold db in H. destruct (m s) as [s1 r1] eqn:E. injection H as <- <- <-. split; [by eapply Hm|done].
Qed.
Lemma Tkv_wire {A} (c : call W A) : (forall w, P w -> P (c w).1) -> T_keeps_view (wire c).
Proof.
  intros Hc x s w s' w' r Hs Hw H. unfold wire in H. specialize (Hc w Hw). destruct (c w) as [w1 r1]. by injection H as <- <- <-.
Qed.
Lemma Tkv_ret {A} (a : A) : T_keeps_view (mret a).
Proof. intros x s w s' w' r Hs Hw H. by injection H as <- <- <-. Qed.
Lemma Tkv_bind {A B} (m : T W A) (k : A -> T W B) : T_keeps_view m -> (forall a, T_keeps_view (k a)) -> T_keeps_view (m ≫= k).
Proof.
  intros Hm Hk x s w s' w' r Hs Hw H. unfold mbind, T_bind in H. destruct (m s w) as [[s1 w1] [a|e]] eqn:E.
  - eapply Hm in E as [Hs1 Hw1]; [|done..]. by eapply Hk in H.
  - injection H as <- <- <-. by eapply Hm in E.
Qed.
Lemma Tkv_try {A} (m : T W A) h : T_keeps_view m -> (forall e k, h e = Some k -> T_keeps_view k) -> T_keeps_view (T_try m h).
Proof.
  intros Hm Hh x s w s' w' r Hs Hw H. unfold T_try in H. destruct (m s w) as [[s1 w1] [a|e]] eqn:E; [injection H as <- <- <-; by eapply Hm in E|].
  eapply Hm in E as [Hs1 Hw1]; [|done..]. destruct (h e) as [k|] eqn:Ek; [by eapply (Hh e k Ek) in H|]. by injection H as <- <- <-.
Qed.
Lemma Tkv_transaction {A} (m : T W A) : T_keeps_view m -> T_keeps_view (T_transaction m).
Proof.
  intros Hm x s w s' w' r [_ Hd] Hw H. unfold T_transaction in H.
  destruct (m _ w) as [[s1 w1] [a|e]] eqn:E; injection H as <- <- <-; apply (Hm x) in E as [[E _] Hw1]; done.
Qed.
End view.

Create HintDb keeps discriminated.

(** Follow the structure of a computation; helpers are found in [keeps]. *)
Ltac keep_step :=
  match goal with
  | |- keeps_view _ (mret _) => apply kv_ret
  | |- keeps_view _ (raise _) => apply kv_raise
  | |- keeps_view _ (lift _) => apply kv_lift
  | |- keeps_view _ (query _) => apply kv_query
  | |- keeps_view _ (attrs _) => apply kv_attrs
  | |- keeps_view _ (select _) => apply kv_select
  | |- keeps_view _ (scalar _) => apply kv_scalar
  | |- keeps_view _ get_now => apply kv_now
  | |- keeps_view _ get_today => apply kv_today
  | |- keeps_view _ uuid4 => apply kv_uuid4
  | |- keeps_view _ flush => apply kv_flush
  | |- keeps_view _ (assign _ _) => first [solve [eauto with keeps nocore] | apply kv_assign]
  | |- keeps_view _ (add _) => apply kv_add
  | |- keeps_view _ (remove _) => apply kv_remove
  | |- keeps_view _ (execute_delete _) => apply kv_execute_delete
  | |- keeps_view _ (execute_update _ _) => apply kv_execute_update
  | |- keeps_view _ (orm _) => apply kv_orm; intros ?; first [reflexivity | refine (@beside _ _ BookingLine _ _ _ _) | refine (@beside _ _ Booking _ _ _ _)]
  | |- keeps_view _ (execute _) => apply kv_execute; intros ?; first [reflexivity | refine (@beside _ _ BookingLine _ _ _ _) | refine (@beside _ _ Booking _ _ _ _)]
  | |- keeps_view _ (forM _ _) => apply kv_forM; intros ?
  | |- keeps_view _ (transaction _) => apply kv_transaction
  | |- keeps_view _ (try_except _ _) => apply kv_try; [|intros [] ? ?; simplify_eq]
  | |- keeps_view _ (_ ≫= _) => apply kv_bind; [|intros ?]
  | |- T_keeps_view _ _ (mret _) => apply Tkv_ret
  | |- T_keeps_view _ _ (db _) => apply Tkv_db
  | |- T_keeps_view _ _ (T_transaction _) => apply Tkv_transaction
  | |- T_keeps_view _ _ (_ ≫= _) => apply Tkv_bind; [|intros ?]
  | |- Beside _ _ => first [exact _ | intros ? ?; reflexivity]
  | |- _ => solve [eauto with keeps typeclass_instances nocore]
  | |- keeps_view _ (match ?x with _ => _ end) => destruct x
  | |- keeps_view _ (if ?b then _ else _) => destruct b
  | |- T_keeps_view _ _ (match ?x with _ => _ end) => destruct x
  | |- T_keeps_view _ _ (if ?b then _ else _) => destruct b
  | |- keeps_view _ (let _ := _ in _) => cbv zeta
  end.
Ltac keeps_views := repeat keep_step.
