(* ===== verification/Rooms.v ===== *)
(** * Rooms

    app/services: room_service.py (physical rooms and the ledger totals that
    follow them), room_type_service.py, housekeeping_service.py,
    room_assignable_service.py and room_list_service.py. *)

From S2P Require Import Prelude StayDates BookingStatus Models Session Ledger Rates.

Section rooms.
Context {env : Env}.

Definition by_name (a b : Room) : bool := collate (r_name a) (r_name b).

Definition live_room (tenant_id room_id : Z) (r : Room) : bool :=
  (r_tenant r =? tenant_id) && (r_id r =? room_id) && bool_decide (r_deleted_at r = None).

Definition live_room_type (tenant_id room_type_id : Z) (r : RoomType) : bool :=
  (rt_tenant r =? tenant_id) && (rt_id r =? room_type_id) && bool_decide (rt_deleted_at r = None).

(** The join of a room with its type. *)
Definition type_of_room (r : Room) (t : RoomType) : bool :=
  (rt_tenant t =? r_tenant r) && (rt_id t =? r_room_type r).

(** ** room_service.py *)

Definition VALID_ROOM_STATUSES : list string := ["available"; "maintenance"; "out_of_order"]%string.
Definition ACTIVE_BOOKING_STATUSES : list string := ["pending"; "confirmed"; "checked_in"; "in_house"]%string.

Definition RoomServiceError (detail : string) (status_code : Z) : exn :=
  ServiceError "RoomServiceError" detail status_code.

Definition bad_room_status : exn :=
  RoomServiceError ("status must be one of: " ++ py_join ", " VALID_ROOM_STATUSES) 422.

Definition list_rooms (tenant_id : Z) (property_id : option Z) : M (list Room) :=
  types ← query room_types;
  rs ← select (fun r => (r_tenant r =? tenant_id) && bool_decide (r_deleted_at r = None)
         && match property_id with
            | Some p => existsb (fun t => type_of_room r t && (rt_property t =? p)) types
            | None => true
            end);
  mret (order_by by_name rs).

Definition get_room (tenant_id room_id : Z) : M (option Room) := scalar (live_room tenant_id room_id).

Definition get_room_for_patch (tenant_id room_id : Z) : M (option Room) :=
  scalar (fun r => (r_tenant r =? tenant_id) && (r_id r =? room_id)).

Definition new_room (i tenant_id room_type_id : Z) (name status : string) : Room :=
  MkRoom i tenant_id room_type_id name status None "clean" "normal".

Definition create_room (tenant_id room_type_id : Z) (name status : string) : M Room :=
  let st := lower (strip status) in
  if negb (str_in st VALID_ROOM_STATUSES) then raise bad_room_status
  else
    rt ← scalar (live_room_type tenant_id room_type_id);
    match rt with
    | None => raise (RoomServiceError "room type not found" 404)
    | Some _ =>
        i ← uuid4;
        let room := new_room i tenant_id room_type_id (strip name) st in
        _ ← add room; _ ← flush;
        _ ← recalculate_ledger_total_rooms tenant_id room_type_id None;
        mret room
    end.

(** The names and statuses of a batch, checked before anything is written. *)
Fixpoint check_batch (batch_seen : list string) (items : list (string * string)) : result unit :=
  match items with
  | [] => Ok tt
  | (name, status) :: items' =>
      if str_in (strip name) batch_seen then Err (RoomServiceError "duplicate room name in batch" 422)
      else if negb (str_in (lower (strip status)) VALID_ROOM_STATUSES) then Err bad_room_status
      else check_batch (strip name :: batch_seen) items'
  end.

(** The rooms added and the names skipped, given the names already taken. *)
Fixpoint add_batch (tenant_id room_type_id : Z) (fail_on_conflict : bool) (existing : list string)
    (items : list (string * string)) : M (list Room * list string) :=
  match items with
  | [] => mret ([], [])
  | (name, status) :: items' =>
      if str_in (strip name) existing then
        if fail_on_conflict then raise (RoomServiceError ("room name already exists: " ++ strip name) 409)
        else
          '(created, skipped) ← add_batch tenant_id room_type_id fail_on_conflict existing items';
          mret (created, strip name :: skipped)
      else
        i ← uuid4;
        let room := new_room i tenant_id room_type_id (strip name) (lower (strip status)) in
        _ ← add room;
        '(created, skipped) ← add_batch tenant_id room_type_id fail_on_conflict (strip name :: existing) items';
        mret (room :: created, skipped)
  end.

Definition create_rooms_bulk (tenant_id room_type_id : Z) (items : list (string * string))
    (fail_on_conflict : bool) : M (list Room * list string) :=
  rt ← scalar (live_room_type tenant_id room_type_id);
  match rt with
  | None => raise (RoomServiceError "room type not found" 404)
  | Some _ =>
      _ ← lift (check_batch [] items);
      existing ← query (fun d => List.map r_name (List.filter (room_of_type tenant_id room_type_id) (rooms d)));
      '(created, skipped) ← add_batch tenant_id room_type_id fail_on_conflict existing items;
      match created with
      | [] => _ ← flush; mret ([], skipped)
      | _ =>
          _ ← flush;
          _ ← recalculate_ledger_total_rooms tenant_id room_type_id None;
          mret (created, skipped)
      end
  end.

Definition patch_room (tenant_id room_id : Z) (name status : option string) (room_type_id : option Z) : M Z :=
  room ← get_room_for_patch tenant_id room_id;
  match room with
  | None => raise (RoomServiceError "room not found" 404)
  | Some room =>
      if bool_decide (is_Some (r_deleted_at room)) then raise (RoomServiceError "room not found" 404)
      else
        let old_type := r_room_type room in
        let new_type := default old_type room_type_id in
        _ ← (if negb (new_type =? old_type) then
               rt ← scalar (live_room_type tenant_id new_type);
               match rt with
               | None => raise (RoomServiceError "room type not found" 404)
               | Some _ => assign (r_id room) (set_r_room_type new_type)
               end
             else mret tt);
        _ ← match name with Some n => assign (r_id room) (set_r_name (strip n)) | None => mret tt end;
        _ ← match status with
            | Some s =>
                if negb (str_in (lower (strip s)) VALID_ROOM_STATUSES) then raise bad_room_status
                else assign (r_id room) (set_r_status (lower (strip s)))
            | None => mret tt
            end;
        _ ← flush;
        _ ← (if negb (new_type =? old_type) then
               _ ← recalculate_ledger_total_rooms tenant_id old_type None;
               recalculate_ledger_total_rooms tenant_id new_type None
             else mret tt);
        mret (r_id room)
  end.

(** A line of an active booking that puts someone in the room from [td] on. *)
Definition future_use (d : DB) (tenant_id room_id : Z) (td : date) (l : BookingLine) : bool :=
  (l_tenant l =? tenant_id) && bool_decide (l_room l = Some room_id) && (td <=? l_date l)
  && existsb (fun b => (b_id b =? l_booking l) && (b_tenant b =? tenant_id)
                       && str_in (b_status b) ACTIVE_BOOKING_STATUSES) (bookings d).

Definition soft_delete_room (tenant_id room_id : Z) : M unit :=
  room ← get_room_for_patch tenant_id room_id;
  match room with
  | None => raise (RoomServiceError "room not found" 404)
  | Some room =>
      if bool_decide (is_Some (r_deleted_at room)) then raise (RoomServiceError "room not found" 404)
      else
        td ← get_today;
        conflict ← query (fun d => existsb (future_use d tenant_id room_id td) (lines d));
        if (conflict : bool) then
          raise (RoomServiceError "cannot delete room with future booking lines in active statuses" 409)
        else
          t ← get_now;
          _ ← assign (r_id room) (set_r_deleted_at (Some t));
          _ ← flush;
          recalculate_ledger_total_rooms tenant_id (r_room_type room) None
  end.

(** ** room_type_service.py *)

Definition create_room_type (tenant_id property_id : Z) (name : string) (base_occupancy max_occupancy : Z) : M RoomType :=
  prop ← get_property tenant_id property_id;
  match prop with
  | None => raise (ValueError "property not found")
  | Some _ =>
      i ← uuid4;
      let rt := MkRoomType i tenant_id property_id (strip name) base_occupancy max_occupancy None in
      _ ← add rt; _ ← flush;
      total_rooms ← count_rooms_for_room_type tenant_id i;
      _ ← seed_empty_availability_ledger_year_forward tenant_id i total_rooms None 365;
      mret rt
  end.

Definition list_room_types (tenant_id : Z) (property_id : option Z) : M (list RoomType) :=
  rs ← select (fun r => (rt_tenant r =? tenant_id) && bool_decide (rt_deleted_at r = None)
         && match property_id with Some p => rt_property r =? p | None => true end);
  mret (order_by (fun a b => collate (rt_name a) (rt_name b)) rs).

Definition get_room_type (tenant_id room_type_id : Z) : M (option RoomType) :=
  scalar (live_room_type tenant_id room_type_id).

Definition get_room_type_for_write (tenant_id room_type_id : Z) : M (option RoomType) :=
  scalar (room_type_is tenant_id room_type_id).

(** [body.model_dump(exclude_unset=True)]; a null occupancy breaks [int()]. *)
Record room_type_patch := RoomTypePatch {
  rtp_name : option (option string); rtp_base : option (option Z); rtp_max : option (option Z) }.

Definition set_occupancy (i : Z) (f : Z -> RoomType -> RoomType) (o : option (option Z)) : M unit :=
  match o with
  | None => mret tt
  | Some None => raise AttributeOrTypeError
  | Some (Some v) => assign i (f v)
  end.

Definition patch_room_type (tenant_id room_type_id : Z) (body : room_type_patch) : M unit :=
  row ← get_room_type_for_write tenant_id room_type_id;
  match row with
  | None => raise (ValueError "room type not found")
  | Some rt =>
      if bool_decide (is_Some (rt_deleted_at rt)) then raise (ValueError "room type not found")
      else
        _ ← match rtp_name body with
            | Some n => assign (rt_id rt) (set_rt_name (strip (default "None"%string n)))
            | None => mret tt
            end;
        _ ← set_occupancy (rt_id rt) set_rt_base_occupancy (rtp_base body);
        _ ← set_occupancy (rt_id rt) set_rt_max_occupancy (rtp_max body);
        bad ← attrs (fun d => existsb (fun r => (rt_id r =? rt_id rt)
                                        && (rt_max_occupancy r <? rt_base_occupancy r)) (room_types d));
        if (bad : bool) then raise (ValueError "max_occupancy must be >= base_occupancy") else flush
  end.

Definition soft_delete_room_type (tenant_id room_type_id : Z) : M unit :=
  row ← get_room_type_for_write tenant_id room_type_id;
  match row with
  | None => raise (ValueError "room type not found")
  | Some rt =>
      if bool_decide (is_Some (rt_deleted_at rt)) then raise (ValueError "room type not found")
      else t ← get_now; _ ← assign (rt_id rt) (set_rt_deleted_at (Some t)); flush
  end.

(** ** housekeeping_service.py *)

Definition VALID_HK_STATUSES : list string := ["clean"; "dirty"; "inspected"; "out_of_service"]%string.
Definition VALID_HK_PRIORITIES : list string := ["high"; "low"; "normal"; "rush"]%string.

Definition HousekeepingServiceError (detail : string) (status_code : Z) : exn :=
  ServiceError "HousekeepingServiceError" detail status_code.

Definition bad_value (what : string) (valid : list string) : exn :=
  HousekeepingServiceError (what ++ " must be one of: " ++ py_join ", " valid) 422.

(** A filter value, normalised and checked. *)
Definition checked_filter (what : string) (valid : list string) (o : option string) : result (option string) :=
  match o with
  | None => Ok None
  | Some s => if negb (str_in (lower (strip s)) valid) then Err (bad_value what valid) else Ok (Some (lower (strip s)))
  end.

Definition matches (o : option string) (s : string) : bool :=
  match o with Some x => String.eqb s x | None => true end.

Definition list_rooms_for_housekeeping (tenant_id property_id : Z) (status priority : option string)
    (filter_date : option date) : M (list (Room * string)) :=
  hs ← lift (checked_filter "status filter" VALID_HK_STATUSES status);
  hp ← lift (checked_filter "priority filter" VALID_HK_PRIORITIES priority);
  types ← query room_types;
  ls ← query lines;
  rs ← select (fun r => (r_tenant r =? tenant_id) && bool_decide (r_deleted_at r = None)
         && existsb (fun t => type_of_room r t && (rt_property t =? property_id)) types
         && matches hs (r_hk_status r) && matches hp (r_hk_priority r)
         && match filter_date with
            | Some d => existsb (fun l => (l_tenant l =? r_tenant r) && bool_decide (l_room l = Some (r_id r))
                                          && (l_date l =? d)) ls
            | None => true
            end);
  mret (omap (fun r => (fun t => (r, rt_name t)) <$>
          List.find (fun t => type_of_room r t && (rt_property t =? property_id)) types)
        (order_by by_name rs)).

Definition patch_room_housekeeping (tenant_id room_id : Z) (status : string) (priority : option string)
    (actor_user_id : option Z) : M Z :=
  room ← scalar (live_room tenant_id room_id);
  match room with
  | None => raise (HousekeepingServiceError "room not found" 404)
  | Some room =>
      let new_status := lower (strip status) in
      if negb (str_in new_status VALID_HK_STATUSES) then raise (bad_value "housekeeping_status" VALID_HK_STATUSES)
      else
        new_priority ← lift (match priority with
          | None => Ok (r_hk_priority room)
          | Some p =>
              if negb (str_in (lower (strip p)) VALID_HK_PRIORITIES)
              then Err (bad_value "housekeeping_priority" VALID_HK_PRIORITIES)
              else Ok (lower (strip p))
          end);
        _ ← assign (r_id room) (set_r_hk_status new_status);
        _ ← assign (r_id room) (set_r_hk_priority new_priority);
        _ ← (if String.eqb new_status "inspected" && negb (str_in (r_status room) ["maintenance"; "out_of_order"]%string)
             then assign (r_id room) (set_r_status "available") else mret tt);
        i ← uuid4;
        _ ← add (MkRoomHousekeepingEvent i tenant_id room_id (r_hk_status room) new_status actor_user_id);
        _ ← flush;
        mret (r_id room)
  end.

(** ** room_list_service.py, room_assignable_service.py *)

Definition list_rooms_for_property (tenant_id property_id : Z) : M (list Room) :=
  types ← query room_types;
  rs ← select (fun r => (r_tenant r =? tenant_id) && bool_decide (r_deleted_at r = None)
         && existsb (fun t => type_of_room r t && (rt_property t =? property_id)
                              && bool_decide (rt_deleted_at t = None)) types);
  mret (order_by by_name rs).

Definition property_belongs_to_tenant (tenant_id property_id : Z) : M bool :=
  query (fun d => existsb (property_is tenant_id property_id) (properties d)).

(** A line of an active booking on one of the nights. *)
Definition busy_line (d : DB) (tenant_id : Z) (nights : list date) (l : BookingLine) : bool :=
  (l_tenant l =? tenant_id) && existsb (Z.eqb (l_date l)) nights
  && existsb (fun b => (b_tenant b =? l_tenant l) && (b_id b =? l_booking l) && is_active (b_status b)) (bookings d).

Definition list_assignable_rooms_for_stay (tenant_id property_id room_type_id : Z) (check_in check_out : date)
    : M (option (list Room)) :=
  known ← property_belongs_to_tenant tenant_id property_id;
  if negb known then mret None
  else
    rt ← scalar (R := RoomType) (fun r => (rt_tenant r =? tenant_id) && (rt_id r =? room_type_id)
           && (rt_property r =? property_id) && bool_decide (rt_deleted_at r = None));
    match rt with
    | None => mret None
    | Some _ =>
        nights ← lift (iter_stay_nights check_in check_out);
        rs ← select (R := Room) (fun r => room_of_type tenant_id room_type_id r && String.eqb (r_status r) "available");
        let rooms := order_by by_name rs in
        busy ← query (fun d => omap l_room (List.filter (busy_line d tenant_id nights) (lines d)));
        mret (Some (List.filter (fun r => negb (existsb (Z.eqb (r_id r)) busy)) rooms))
    end.

End rooms.
