(* ===== verification/RoomsLaws.v ===== *)
(** * Room operations keep the ledger totals

    From today on, the total of every ledger row is the number of live rooms
    of its type: creating, moving and deleting rooms, creating, changing and deleting room types and
    seeding or extending the ledger all keep it so.  A room offered for a stay
    is a room the booking can be assigned to. *)

From stdpp Require Import gmap.
From S2P Require Import Prelude StayDates BookingStatus Models Session Ledger LedgerLaws Rates Rooms Remote Steady.
From S2P Require Import FolioLaws Booking.

(** ** Totals *)

Definition live_rooms (d : DB) (t rt : Z) : Z := countb (room_of_type t rt) (rooms d).

(** Every row from [td] on has the right total, except those of the types in
    [bad]. *)
Definition totals_but (bad : list (Z * Z)) (td : date) (d : DB) : Prop :=
  forall t rt n row, ~ In (t, rt) bad -> ledger d !! (t, rt, n) = Some row -> td <= n ->
  total_rooms row = live_rooms d t rt.

Definition totals_ok (td : date) (d : DB) : Prop := totals_but [] td d.

Lemma totals_later td td' d : td <= td' -> totals_ok td d -> totals_ok td' d.
Proof. intros Hle H t rt n row Hb Hr Hn. apply (H t rt n row Hb Hr). lia. Qed.

(** Nothing is pending, the room keys are distinct, and the next keys are
    new. *)
Record roomy (bad : list (Z * Z)) (td : date) (s : session) : Prop := {
  ro_totals : totals_but bad td (mem s);
  ro_ids : List.NoDup (List.map r_id (rooms (mem s)));
  ro_fresh : forall r, In r (rooms (mem s)) -> r_id r < uuids s;
  ro_today : today s = td;
  ro_sync : disk s = mem s;
}.

Lemma roomy_weaken bad bad' td s : incl bad bad' -> roomy bad td s -> roomy bad' td s.
Proof.
  intros Hi [Ht Hn Hf Hd Hs]. split; try done. intros t rt n row Hb. apply Ht. intros Hin. by apply Hb, Hi.
Qed.

Lemma set_totals_lookup t rt start total L k :
  set_totals t rt start total L !! k =
  (fun r => if (k.1.1 =? t) && (k.1.2 =? rt) && (start <=? k.2) then set_total total r else r) <$> L !! k.
Proof.
  unfold set_totals. rewrite map_lookup_imap. destruct k as [[t' rt'] n]. by destruct (L !! (t', rt', n)).
Qed.

Lemma recalculate_roomy bad td t rt s s' u :
  roomy ((t, rt) :: bad) td s -> recalculate_ledger_total_rooms t rt None s = (s', Ok u) -> roomy bad td s'.
Proof.
  intros [Ht Hn Hf Hd Hs] H. unfold recalculate_ledger_total_rooms, count_rooms_for_room_type in H.
  mrun_in H. cbv [execute] in H. injection H as <- _. cbn [default]. split; cbn; try done.
  2:{ by rewrite Hs. }
  intros t' rt' n row Hb Hr Hle. unfold on_ledger in Hr. cbn [ledger put_ledger] in Hr.
  rewrite set_totals_lookup in Hr.
  destruct (ledger (mem s) !! (t', rt', n)) as [row0|] eqn:E0; [|done]. cbn in Hr. injection Hr as <-.
  change (live_rooms (on_ledger _ (mem s)) t' rt') with (live_rooms (mem s) t' rt').
  destruct ((t' =? t) && (rt' =? rt) && (today s <=? n)) eqn:E.
  - rewrite !andb_true_iff, !Z.eqb_eq in E. destruct E as [[-> ->] _]. cbn. unfold live_rooms. by rewrite <- Hs.
  - apply (Ht t' rt' n); try done. intros [[= <- <-]|Hin]; [|done].
    rewrite !Z.eqb_refl in E. cbn in E. apply Z.leb_gt in E. rewrite Hd in E. lia.
Qed.

(** Changing rooms of the types in [bad] only. *)
Lemma totals_put_rooms bad bad' td d rs :
  totals_but bad td d -> incl bad bad' ->
  (forall t rt, ~ In (t, rt) bad' -> countb (room_of_type t rt) rs = live_rooms d t rt) ->
  totals_but bad' td (put_rooms rs d).
Proof.
  intros Ht Hi Hc t rt n row Hb Hr Hle. unfold live_rooms. cbn. rewrite (Hc t rt Hb).
  apply (Ht t rt n row); [|exact Hr|exact Hle]. intros Hin. by apply Hb, Hi.
Qed.

Lemma room_of_type_In t rt r : room_of_type t rt r = true -> r_tenant r = t /\ r_room_type r = rt.
Proof. unfold room_of_type. rewrite !andb_true_iff, !Z.eqb_eq. tauto. Qed.

Lemma countb_other t rt t' rt' rs :
  (forall r, In r rs -> r_tenant r = t /\ r_room_type r = rt) -> (t', rt') <> (t, rt) ->
  countb (room_of_type t' rt') rs = 0.
Proof.
  intros Hall Hne. apply countb_false. intros r Hr. apply not_true_iff_false. intros H.
  apply room_of_type_In in H as [<- <-]. apply Hne. by destruct (Hall r Hr) as [-> ->].
Qed.

Lemma NoDup_app_disjoint {A} (l1 l2 : list A) :
  List.NoDup l1 -> List.NoDup l2 -> (forall x, In x l1 -> ~ In x l2) -> List.NoDup (l1 ++ l2).
Proof.
  induction l1 as [|x l1 IH]; simpl; intros H1 H2 Hd; [done|]. apply List.NoDup_cons_iff in H1 as [Hni H1].
  constructor.
  - intros [Hin|Hin]%in_app_iff; [done|]. by apply (Hd x (or_introl eq_refl)).
  - apply IH; [done|done|]. intros y Hy. apply Hd. by right.
Qed.

(** ** New rooms *)

(** Rooms added to the identity map, with keys taken in order. *)
Record added (t rt : Z) (news : list Room) (s s' : session) : Prop := {
  ad_rooms : mem s' = put_rooms (rooms (mem s) ++ news) (mem s);
  ad_disk : disk s' = disk s;
  ad_today : today s' = today s;
  ad_type : forall r, In r news -> r_tenant r = t /\ r_room_type r = rt;
  ad_keys : List.map r_id news = seqZ (uuids s) (Z.of_nat (length news));
  ad_next : uuids s' = uuids s + Z.of_nat (length news);
}.

Lemma added_nil t rt s : added t rt [] s s.
Proof. split; try done; cbn; [|lia]. rewrite app_nil_r. by destruct (mem s). Qed.

Lemma added_cons t rt r news s s1 s' :
  added t rt [r] s s1 -> added t rt news s1 s' -> added t rt (r :: news) s s'.
Proof.
  intros [R1 D1 T1 Y1 K1 N1] [R2 D2 T2 Y2 K2 N2]. split.
  - rewrite R2, R1. cbn. by rewrite <- app_assoc.
  - by rewrite D2.
  - by rewrite T2.
  - intros x [<-|Hx]; [apply Y1; by left|by apply Y2].
  - change (List.map r_id (r :: news)) with (r_id r :: List.map r_id news).
    change (List.map r_id [r]) with [r_id r] in K1. rewrite seqZ_cons_pos in K1 by (cbn; lia).
    injection K1 as K1. change (length (r :: news)) with (S (length news)). rewrite K1, K2, N1.
    rewrite (seqZ_cons_pos _ (Z.of_nat (S _))) by lia. do 2 f_equal; cbn [List.length]; lia.
  - rewrite N2, N1. cbn [List.length]. lia.
Qed.

(** New rooms of one type upset the totals of that type only. *)
Lemma added_roomy bad td t rt news s s' :
  roomy bad td s -> added t rt news s s' -> roomy ((t, rt) :: bad) td (set_disk (mem s') s').
Proof.
  intros [Ht Hn Hf Hd Hs] [R D T Y K N]. split; cbn; try done.
  - rewrite R. apply (totals_put_rooms bad); [exact Ht|by apply incl_tl, incl_refl|].
    intros t' rt' Hb. rewrite countb_app, (countb_other t rt t' rt' news Y); [unfold live_rooms; lia|].
    intros E. apply Hb. left. by injection E as -> ->.
  - rewrite R. cbn. rewrite List.map_app, K. apply NoDup_app_disjoint; [exact Hn|apply seqZ_NoDup|].
    intros x (r & <- & Hr)%in_map_iff Hx%In_seqZ. specialize (Hf r Hr). lia.
  - rewrite R, N. cbn. intros r [Hr|Hr]%in_app_iff; [specialize (Hf r Hr); lia|].
    assert (Hk : In (r_id r) (List.map r_id news)) by (by apply in_map). rewrite K, In_seqZ in Hk. lia.
  - by rewrite T.
Qed.

Section ops.
Context {env : Env}.

Lemma add_room_added t rt nm st s :
  added t rt [new_room (uuids s) t rt nm st]  s
    (Session (disk s) (put_rooms (rooms (mem s) ++ [new_room (uuids s) t rt nm st]) (mem s)) (expired s) (now s) (today s) (uuids s + 1)).
Proof.
  split; try done.
  - intros r [<-|[]]. done.
Qed.

Lemma add_batch_added t rt fc existing items s s' created skipped :
  add_batch t rt fc existing items s = (s', Ok (created, skipped)) -> added t rt created s s'.
Proof.
  revert existing s s' created skipped. induction items as [|[nm st] items IH]; intros existing s s' created skipped H; simpl in H.
  { cbv [mret M_ret] in H. injection H as <- <- <-. apply added_nil. }
  destruct (str_in (strip nm) existing).
  - destruct fc; [done|]. mbind_in H s1 p H1. destruct p as [c k]. apply IH in H1.
    cbv [mret M_ret] in H. by injection H as <- <- <-.
  - mbind_in H s1 i H1. cbv [uuid4] in H1. injection H1 as <- <-. mbind_in H s2 u H2. cbv [add orm] in H2.
    injection H2 as <- _. mbind_in H s3 p H3. destruct p as [c k]. apply IH in H3. cbv [mret M_ret] in H.
    injection H as <- <- <-. eapply added_cons; [apply add_room_added|exact H3].
Qed.

Lemma create_room_roomy td t rt nm st s s' r :
  roomy [] td s -> create_room t rt nm st s = (s', Ok r) -> roomy [] td s'.
Proof.
  intros Hs H. unfold create_room in H. destruct (negb _); [done|]. rewrite run_scalar in H.
  destruct (hd_error _); [|done]. mbind_in H s1 i H1. cbv [uuid4] in H1. injection H1 as <- <-. cbv zeta in H.
  unfold add in H. rewrite run_orm, run_flush in H. mbind_in H s2 u H2. cbv [mret M_ret] in H. injection H as <- _.
  eapply recalculate_roomy; [|exact H2].
  exact (added_roomy [] td t rt _ _ _ Hs (add_room_added t rt (strip nm) (lower (strip st)) s)).
Qed.

Lemma create_bulk_roomy td t rt items fc s s' r :
  roomy [] td s -> create_rooms_bulk t rt items fc s = (s', Ok r) -> roomy [] td s'.
Proof.
  intros Hs H. unfold create_rooms_bulk in H. rewrite run_scalar in H. destruct (hd_error _); [|done].
  apply bind_lift_inv in H as (v & _ & H). rewrite run_query in H. mbind_in H s1 p H1. destruct p as [created skipped].
  apply add_batch_added in H1. destruct created as [|r1 rs]; rewrite run_flush in H.
  - cbv [mret M_ret] in H. injection H as <- _. destruct H1 as [R D T _ _ N].
    destruct Hs as [Ht Hn Hf Hd Hsy]. split; cbn; rewrite ?R, ?T, ?N; cbn; rewrite ?app_nil_r, ?Z.add_0_r; try done.
  - mbind_in H s2 u H2. cbv [mret M_ret] in H. injection H as <- _.
    eapply recalculate_roomy; [|exact H2]. by apply (added_roomy [] td t rt (r1 :: rs) s).
Qed.

(** ** Changing a room *)

(** A change of the room with key [i] that upsets only the types in [bad]. *)
Lemma assign_roomy bad td i f s s' u :
  roomy bad td (set_disk (mem s) s) ->
  (forall r, r_id (f r) = r_id r) ->
  (forall r t rt, In r (rooms (mem s)) -> r_id r = i -> ~ In (t, rt) bad ->
     room_of_type t rt (f r) = room_of_type t rt r) ->
  assign (R := Room) i f s = (s', Ok u) -> roomy bad td (set_disk (mem s') s').
Proof.
  intros [Ht Hn Hf Hd _] Hid Hc H. cbv [assign orm] in H. injection H as <- _. cbn in *.
  assert (Hids : List.map r_id (where_id i f (rooms (mem s))) = List.map r_id (rooms (mem s))).
  { unfold where_id. rewrite List.map_map. apply List.map_ext. intros r. cbn. destruct (r_id r =? i); [apply Hid|done]. }
  split; cbn; try done.
  - apply (totals_put_rooms bad bad); [exact Ht|apply incl_refl|]. intros t rt Hb. unfold live_rooms, where_id.
    rewrite countb_map. apply countb_ext. intros r Hr. cbn. destruct (Z.eqb_spec (r_id r) i); [by apply Hc|done].
  - by rewrite Hids.
  - intros r (r0 & <- & Hr0)%in_map_iff. cbn. destruct (r_id r0 =? i); [rewrite Hid|]; by apply Hf.
Qed.

Lemma found_room s p r :
  disk s = mem s -> List.NoDup (List.map r_id (rooms (mem s))) ->
  hd_error (omap (identity (R := Room) (mem s)) (List.filter p (table (disk s)))) = Some r ->
  In r (rooms (mem s)) /\ p r = true /\ forall r', In r' (rooms (mem s)) -> r_id r' = r_id r -> r' = r.
Proof.
  intros Hs Hn H. rewrite Hs, omap_identity, hd_filter in H.
  - apply find_some in H as [Hin Hp]. split_and!; try done. intros r' Hin' Heq.
    pose proof (find_ident (R := Room) _ r Hn Hin) as H1. pose proof (find_ident (R := Room) _ r' Hn Hin') as H2.
    cbn in H1, H2. rewrite Heq in H2. congruence.
  - exact Hn.
  - intros x Hx. by apply filter_In in Hx as [? _].
Qed.

Lemma flush_roomy bad td s s' u : roomy bad td (set_disk (mem s) s) -> flush s = (s', Ok u) -> roomy bad td s'.
Proof. intros Hs H. cbv [flush] in H. by injection H as <- _. Qed.

Lemma roomy_flushed bad td s : roomy bad td s -> roomy bad td (set_disk (mem s) s).
Proof. intros []. by split. Qed.

(** Writing a name or a status moves no total. *)
Lemma set_name_roomy bad td i v s s' u :
  roomy bad td (set_disk (mem s) s) ->
  (match v with Some n => assign i (set_r_name (strip n)) | None => mret tt end) s = (s', Ok u) ->
  roomy bad td (set_disk (mem s') s').
Proof.
  intros Hs H. destruct v as [n|]; [|cbv [mret M_ret] in H; by injection H as <- _].
  by apply (assign_roomy bad td i (set_r_name (strip n)) s s' u).
Qed.

Lemma set_status_roomy bad td i v s s' u :
  roomy bad td (set_disk (mem s) s) ->
  (match v with
   | Some st => if negb (str_in (lower (strip st)) VALID_ROOM_STATUSES) then raise bad_room_status
                else assign i (set_r_status (lower (strip st)))
   | None => mret tt
   end) s = (s', Ok u) -> roomy bad td (set_disk (mem s') s').
Proof.
  intros Hs H. destruct v as [st|]; [|cbv [mret M_ret] in H; by injection H as <- _].
  destruct (negb _); [done|]. by apply (assign_roomy bad td i (set_r_status (lower (strip st))) s s' u).
Qed.

Lemma patch_room_roomy td t rid nm st ort s s' v :
  roomy [] td s -> Rooms.patch_room t rid nm st ort s = (s', Ok v) -> roomy [] td s'.
Proof.
  intros Hs H. unfold Rooms.patch_room, get_room_for_patch in H. rewrite run_scalar in H.
  destruct (hd_error _) as [room|] eqn:Hr; [|done].
  apply found_room in Hr as (Hin & Hp & Huniq); [|apply Hs..]. apply andb_prop in Hp as [Ht%Z.eqb_eq _].
  destruct (bool_decide _); [done|]. cbv zeta in H.
  set (old := r_room_type room) in *. set (new := default old ort) in *.
  set (bad := if negb (new =? old) then [(t, old); (t, new)] else []).
  assert (Hb : roomy bad td (set_disk (mem s) s)).
  { apply roomy_flushed, (roomy_weaken []); [|exact Hs]. intros x []. }
  mbind_in H s1 u1 H1.
  assert (Hb1 : roomy bad td (set_disk (mem s1) s1)).
  { unfold bad in *. destruct (negb (new =? old)).
    - rewrite run_scalar in H1. destruct (hd_error _); [|done].
      apply (assign_roomy _ td (r_id room) (set_r_room_type new) s s1 u1); try done.
      intros rx t' rt' Hr Hid Hnb. rewrite (Huniq rx Hr Hid). unfold room_of_type. cbn. fold old. rewrite Ht.
      destruct (Z.eqb_spec t t') as [<-|]; [|done].
      destruct (Z.eqb_spec new rt') as [<-|]; [by destruct Hnb; right; left|].
      destruct (Z.eqb_spec old rt') as [<-|]; [by destruct Hnb; left|done].
    - cbv [mret M_ret] in H1. by injection H1 as <- _. }
  mbind_in H s2 u2 H2. apply (set_name_roomy bad td) in H2; [|exact Hb1].
  mbind_in H s3 u3 H3. apply (set_status_roomy bad td) in H3; [|exact H2].
  rewrite run_flush in H. mbind_in H s4 u4 H4. cbv [mret M_ret] in H. injection H as <- _.
  unfold bad in H3. destruct (negb (new =? old)).
  - mbind_in H4 s5 u5 H5. apply (recalculate_roomy [(t, new)] td t old _ _ _ H3) in H5.
    by apply (recalculate_roomy [] td t new _ _ _ H5) in H4.
  - cbv [mret M_ret] in H4. by injection H4 as <- _.
Qed.

Lemma delete_room_roomy td t rid s s' v :
  roomy [] td s -> soft_delete_room t rid s = (s', Ok v) -> roomy [] td s'.
Proof.
  intros Hs H. unfold soft_delete_room, get_room_for_patch in H. rewrite run_scalar in H.
  destruct (hd_error _) as [room|] eqn:Hr; [|done].
  apply found_room in Hr as (Hin & Hp & Huniq); [|apply Hs..]. apply andb_prop in Hp as [Ht%Z.eqb_eq _].
  destruct (bool_decide _); [done|]. rewrite run_today, run_query in H. destruct (existsb _ _); [done|].
  rewrite run_now in H. mbind_in H s1 u1 H1. rewrite run_flush in H.
  apply (assign_roomy [(t, r_room_type room)] td) in H1; [|by apply roomy_flushed, (roomy_weaken []); [intros x []|]|done|].
  - by apply (recalculate_roomy [] td t (r_room_type room) _ _ _ H1) in H.
  - intros r t' rt' Hr Hid Hnb. rewrite (Huniq r Hr Hid). unfold room_of_type. cbn. rewrite Ht.
    destruct (Z.eqb_spec t t') as [<-|]; [|done].
    destruct (Z.eqb_spec (r_room_type room) rt') as [<-|]; [by destruct Hnb; left|done].
Qed.

(** ** New ledger rows *)

(** Rows of one type added with the number of its live rooms. *)
Definition grows (d d' : DB) : Prop :=
  rooms d' = rooms d /\
  forall t rt n row, ledger d' !! (t, rt, n) = Some row ->
    ledger d !! (t, rt, n) = Some row \/ row = empty_row (live_rooms d t rt).

Lemma grows_refl d : grows d d.
Proof. split; [done|]. intros t rt n row H. by left. Qed.

Lemma grows_trans d1 d2 d3 : grows d1 d2 -> grows d2 d3 -> grows d1 d3.
Proof.
  intros [R1 H1] [R2 H2]. split; [congruence|]. intros t rt n row H.
  destruct (H2 _ _ _ _ H) as [H'| ->]; [by apply H1|]. right. unfold live_rooms. by rewrite R1.
Qed.

Lemma grows_totals bad td d d' : grows d d' -> totals_but bad td d -> totals_but bad td d'.
Proof.
  intros [R H] Ht t rt n row Hb Hr Hn. unfold live_rooms. rewrite R.
  destruct (H _ _ _ _ Hr) as [Hr'| ->]; [by apply (Ht t rt n)|done].
Qed.

Lemma grows_insert d t rt n :
  grows d (on_ledger (<[(t, rt, n) := empty_row (live_rooms d t rt)]>) d).
Proof.
  split; [done|]. intros t' rt' n' row H. unfold on_ledger in H. cbn [ledger put_ledger] in H.
  apply lookup_insert_Some in H as [[[= -> -> ->] <-]|[_ H]]; [by right|by left].
Qed.

Lemma grows_rows d t rt ns :
  grows d (on_ledger (fun L => List.fold_left (fun L k => <[k := empty_row (live_rooms d t rt)]> L)
    (List.map (fun n => (t, rt, n)) ns) L) d).
Proof.
  enough (H : forall d', grows d d' -> grows d (on_ledger (fun L => List.fold_left
    (fun L k => <[k := empty_row (live_rooms d t rt)]> L) (List.map (fun n => (t, rt, n)) ns) L) d')) by apply H, grows_refl.
  induction ns as [|n ns IH]; intros d' Hd; simpl.
  - unfold on_ledger. by replace (put_ledger (ledger d') d') with d' by (by destruct d').
  - refine (IH (on_ledger (<[(t, rt, n) := empty_row (live_rooms d t rt)]>) d') _).
    apply (grows_trans _ d'); [exact Hd|]. replace (live_rooms d t rt) with (live_rooms d' t rt); [apply grows_insert|].
    unfold live_rooms. by rewrite (proj1 Hd).
Qed.

(** States in step with [s], up to new ledger rows. *)
Record growing (s s' : session) : Prop := {
  gr_grows : grows (mem s) (mem s');
  gr_sync : disk s' = mem s';
  gr_today : today s' = today s;
}.

Lemma insert_or_nothing_growing s0 k s s' v :
  growing s0 s -> insert_or_nothing k (live_rooms (mem s0) k.1.1 k.1.2) s = (s', Ok v) -> growing s0 s'.
Proof.
  intros [Hg Hs Ht] H. unfold insert_or_nothing in H. rewrite run_query in H.
  destruct (ledger (disk s) !! k); [cbv [mret M_ret] in H; by injection H as <- _|].
  rewrite run_execute in H. cbv [mret M_ret] in H. injection H as <- _.
  split; cbn [mem disk set_mem set_disk today]; [|by rewrite Hs|done].
  apply (grows_trans _ (mem s)); [exact Hg|]. destruct k as [[t rt] n].
  assert (E : live_rooms (mem s0) t rt = live_rooms (mem s) t rt) by (unfold live_rooms; by rewrite (proj1 Hg)).
  cbn [fst snd]. rewrite E. exact (grows_insert (mem s) t rt n).
Qed.

Lemma sumM_growing {A} s0 (l : list A) f :
  (forall x s s' v, growing s0 s -> f x s = (s', Ok v) -> growing s0 s') ->
  forall s s' v, growing s0 s -> sumM l f s = (s', Ok v) -> growing s0 s'.
Proof.
  intros Hf. induction l as [|x l IH]; intros s s' v Hs H; simpl in H.
  { cbv [mret M_ret] in H. by injection H as <- _. }
  mbind_in H s1 n H1. mbind_in H s2 m H2. cbv [mret M_ret] in H. injection H as <- _.
  eapply IH; [|exact H2]. by eapply Hf.
Qed.

Lemma insert_rows_growing s0 t rt ns s s' v :
  growing s0 s -> insert_rows (live_rooms (mem s0) t rt) (List.map (fun n => (t, rt, n)) ns) s = (s', Ok v) ->
  growing s0 s'.
Proof.
  intros [Hg Hs Ht] H. unfold insert_rows in H. rewrite run_query in H. destruct (existsb _ _); [done|].
  rewrite run_orm in H. cbv [flush] in H. injection H as <- _. split; cbn [mem disk set_mem set_disk today]; try done.
  apply (grows_trans _ (mem s)); [exact Hg|].
  replace (live_rooms (mem s0) t rt) with (live_rooms (mem s) t rt); [apply grows_rows|].
  unfold live_rooms. by rewrite (proj1 Hg).
Qed.

Lemma seed_year_growing s0 t rt from days s s' v :
  growing s0 s -> seed_empty_availability_ledger_year_forward t rt (live_rooms (mem s0) t rt) from days s = (s', Ok v) ->
  growing s0 s'.
Proof.
  intros Hg H. unfold seed_empty_availability_ledger_year_forward in H. rewrite run_today in H.
  apply bind_lift_inv in H as (ds & _ & H). by eapply insert_rows_growing.
Qed.

Lemma extend_growing visible days s s' v :
  disk s = mem s -> extend_availability_ledger_days visible days s = (s', Ok v) -> growing s s'.
Proof.
  intros Hsync H. assert (H0 : growing s s) by (split; [apply grows_refl|done|done]).
  unfold extend_availability_ledger_days in H. destruct (days <? 1); [cbv [mret M_ret] in H; by injection H as <- _|].
  mbind_in H s1 rts H1. cbv [select] in H1. injection H1 as <- <-. revert H0 H. apply (sumM_growing s).
  intros rt s2 s3 n Hg H2. unfold count_rooms_for_room_type in H2. rewrite !run_query in H2.
  assert (Htot : countb (room_of_type (rt_tenant rt) (rt_id rt)) (rooms (disk s2)) = live_rooms (mem s) (rt_tenant rt) (rt_id rt)).
  { rewrite (gr_sync _ _ Hg), (proj1 (gr_grows _ _ Hg)). done. }
  rewrite Htot in H2. destruct (max_date _ _ _) as [m|].
  - revert Hg H2. apply (sumM_growing s). intros i s4 s5 w Hg4 H4. apply bind_lift_inv in H4 as (day & _ & H4).
    by eapply (insert_or_nothing_growing s (rt_tenant rt, rt_id rt, day)).
  - mbind_in H2 s4 u H4. cbv [mret M_ret] in H2. injection H2 as <- _. by eapply seed_year_growing.
Qed.

Lemma create_room_type_growing t pid nm bo mo s s' v :
  disk s = mem s -> create_room_type t pid nm bo mo s = (s', Ok v) -> growing s s'.
Proof.
  intros Hsync H. unfold create_room_type in H. mbind_in H s1 prop H1.
  unfold get_property in H1. assert (s1 = s) as ->.
  { unfold scalar in H1. mbind_in H1 s2 rows H2. cbv [select] in H2. injection H2 as <- _.
    cbv [mret M_ret] in H1. by injection H1 as <- _. }
  destruct prop; [|done]. mbind_in H s1 i Hu. cbv [uuid4] in Hu. injection Hu as <- <-. cbv zeta in H.
  unfold add, count_rooms_for_room_type in H. rewrite run_orm, run_flush, run_query in H.
  mbind_in H s2 u H2. cbv [mret M_ret] in H. injection H as <- _.
  apply (seed_year_growing s t (uuids s)) in H2; [exact H2|]. split; [|done|done].
  split; [done|]. intros t' rt n row Hr. by left.
Qed.

Lemma bulk_seed_totals td t segs s s' v :
  roomy [] td s -> Forall valid_segment segs -> bulk_seed_availability_ledger t segs s = (s', Ok v) ->
  totals_ok td (mem s').
Proof.
  intros [Ht _ _ _ Hs] Hv H. unfold bulk_seed_availability_ledger in H. mbind_in H s1 m Hm.
  apply seed_keys_spec in Hm as [-> Hm]; [|exact Hv].
  destruct (_ =? _)%nat; [cbv [mret M_ret] in H; by injection H as <- _|].
  rewrite run_execute in H. cbv [mret M_ret] in H. injection H as <- _.
  intros t' rt n row _ Hr Hn. unfold on_ledger in Hr. cbn [mem set_mem ledger put_ledger] in Hr.
  rewrite upsert_totals_lookup, Hm, lookup_empty in Hr. rewrite Hs in Hr.
  change (countb _ (rooms (mem s))) with (live_rooms (mem s) t rt) in Hr.
  change (live_rooms _ t' rt) with (live_rooms (mem s) t' rt).
  assert (Hold : forall r0, ledger (mem s) !! (t', rt, n) = Some r0 -> total_rooms r0 = live_rooms (mem s) t' rt).
  { intros r0 H0. by apply (Ht t' rt n r0 (fun x => x)). }
  destruct (Z.eqb_spec t' t) as [->|]; [|by apply Hold; destruct (ledger (mem s) !! _)].
  destruct (covered segs rt n); [|by apply Hold; destruct (ledger (mem s) !! _)].
  destruct (ledger (mem s) !! (t, rt, n)); cbn in Hr; by injection Hr as <-.
Qed.

(** ** Room types that change or go *)

(** The rooms and the ledger: what the totals are about. *)
Definition totals_view (d : DB) := (rooms d, ledger d).

Lemma totals_seen td d d' : totals_view d' = totals_view d -> totals_ok td d -> totals_ok td d'.
Proof. intros [= Hr Hl] H t rt n row Hb Hrow Hn. rewrite Hl in Hrow. unfold live_rooms. rewrite Hr. by apply (H t rt n row). Qed.

(** A room type that is renamed, resized or deleted leaves its rooms, live or
    not, and its ledger rows as they are. *)
Lemma patch_room_type_keeps t rt body : keeps_view totals_view (Rooms.patch_room_type t rt body).
Proof. unfold Rooms.patch_room_type, get_room_type_for_write, set_occupancy. keeps_views. Qed.

Lemma soft_delete_room_type_keeps t rt : keeps_view totals_view (soft_delete_room_type t rt).
Proof. unfold soft_delete_room_type, get_room_type_for_write. keeps_views. Qed.

Lemma kept_totals td (m : M unit) s s' r : keeps_view totals_view m -> roomy [] td s -> m s = (s', r) -> totals_ok td (mem s').
Proof.
  intros Hk Hs H. eapply totals_seen; [|apply Hs].
  eapply (Hk (totals_view (mem s))); [|exact H]. split; [done|]. by rewrite (ro_sync _ _ _ Hs).
Qed.

(** ** Requests *)

Inductive room_request : Type :=
  | CreateRoom (room_type : Z) (name status : string)
  | CreateRooms (room_type : Z) (items : list (string * string)) (fail_on_conflict : bool)
  | PatchRoom (room : Z) (name status : option string) (room_type : option Z)
  | DeleteRoom (room : Z)
  | CreateRoomType (property : Z) (name : string) (base max : Z)
  | PatchRoomType (room_type : Z) (body : room_type_patch)
  | DeleteRoomType (room_type : Z)
  | SeedTotals (segments : list seed_segment)
  | ExtendTotals (visible : RoomType -> bool) (days : Z)
  | RecountTotals (room_type : Z).

Definition serve_room (t : Z) (q : room_request) : M unit :=
  match q with
  | CreateRoom rt nm st => _ ← create_room t rt nm st; mret tt
  | CreateRooms rt items fc => _ ← create_rooms_bulk t rt items fc; mret tt
  | PatchRoom r nm st rt => _ ← Rooms.patch_room t r nm st rt; mret tt
  | DeleteRoom r => _ ← soft_delete_room t r; mret tt
  | CreateRoomType p nm b m => _ ← create_room_type t p nm b m; mret tt
  | PatchRoomType rt body => Rooms.patch_room_type t rt body
  | DeleteRoomType rt => soft_delete_room_type t rt
  | SeedTotals segs => _ ← bulk_seed_availability_ledger t segs; mret tt
  | ExtendTotals v days => _ ← extend_availability_ledger_days v days; mret tt
  | RecountTotals rt => _ ← recalculate_ledger_total_rooms t rt None; mret tt
  end.

Definition room_request_valid (q : room_request) : Prop :=
  match q with SeedTotals segs => Forall valid_segment segs | _ => True end.

Lemma serve_room_totals td t q s s' v :
  roomy [] td s -> room_request_valid q -> serve_room t q s = (s', Ok v) -> totals_ok td (mem s').
Proof.
  intros Hs Hv H.
  assert (Hg : forall s1, growing s s1 -> totals_ok td (mem s1)).
  { intros s1 Hg. eapply grows_totals; [apply Hg|apply Hs]. }
  destruct q as [rt nm st|rt items fc|r nm st rt|r|p nm b m|rt body|rt|segs|v0 days|rt]; cbn [serve_room] in H.
  6: by eapply kept_totals; [apply patch_room_type_keeps|exact Hs|exact H].
  6: by eapply kept_totals; [apply soft_delete_room_type_keeps|exact Hs|exact H].
  all: simpl in Hv; mbind_in H s1 x H1; cbv [mret M_ret] in H; injection H as <-.
  - by apply (create_room_roomy td) in H1; [apply H1|].
  - by apply (create_bulk_roomy td) in H1; [apply H1|].
  - by apply (patch_room_roomy td) in H1; [apply H1|].
  - by apply (delete_room_roomy td) in H1; [apply H1|].
  - by eapply Hg, create_room_type_growing, H1; apply Hs.
  - by eapply bulk_seed_totals.
  - by eapply Hg, extend_growing, H1; apply Hs.
  - apply (recalculate_roomy [] td) in H1; [apply H1|]. by apply (roomy_weaken []); [intros y []|].
Qed.

(** C17: creating, changing and deleting rooms and room types, seeding and
    extending the ledger and recounting it keep the total of every ledger row
    from today on equal to the number of live rooms of its type; a refused
    request changes nothing. *)
Theorem rooms_keep_totals t q tm td u d d' r :
  totals_ok td d -> List.NoDup (List.map r_id (rooms d)) -> (forall x, In x (rooms d) -> r_id x < u) ->
  room_request_valid q -> run (serve_room t q) tm td u d = (d', r) ->
  totals_ok td d' /\ match r with Err _ => d' = d | Ok _ => True end.
Proof.
  intros Ht Hn Hf Hv H. unfold run in H. destruct (serve_room t q _) as [s [a|e]] eqn:E; simplify_eq; [|done].
  split; [|done]. eapply (serve_room_totals td t q (start d tm td u)); [by split|exact Hv|exact E].
Qed.

(** ** Rooms offered for a stay *)

Lemma room_clash_busy d t rid nights x l :
  l_booking l <> x ->
  room_clash d t rid nights x l = bool_decide (l_room l = Some rid) && busy_line d t nights l.
Proof.
  intros Hne. unfold room_clash, busy_line. apply Z.eqb_neq in Hne. rewrite Hne. cbn [negb].
  destruct (l_tenant l =? t), (bool_decide _), (existsb _ nights); done.
Qed.

Lemma no_conflict_iff t rid nights x s :
  nights <> [] ->
  assert_no_room_conflict t rid nights x s = (s, Ok tt) <->
  forall l, In l (lines (disk s)) -> room_clash (disk s) t rid nights x l = false.
Proof.
  intros Hne. unfold assert_no_room_conflict. destruct nights as [|n ns]; [done|]. rewrite run_query.
  destruct (existsb _ (lines (disk s))) eqn:E; cbv [raise mret M_ret].
  - split; [done|]. intros H. exfalso. apply existsb_exists in E as (l & Hl & Hc). by rewrite (H l Hl) in Hc.
  - split; [|done]. intros _ l Hl. apply not_true_iff_false. intros Hc. apply not_true_iff_false in E. apply E.
    apply existsb_exists. by exists l.
Qed.

(** C18: the rooms offered for a stay are exactly the live, available
    rooms of the type to which a new booking of those nights can be assigned
    without a conflict. *)
Theorem assignable_rooms_exact t pid rt ci co nights x s s' rs :
  synced Room s -> (forall l, In l (lines (disk s)) -> l_booking l <> x) ->
  iter_stay_nights ci co = Ok nights -> nights <> [] ->
  list_assignable_rooms_for_stay t pid rt ci co s = (s', Ok (Some rs)) ->
  s' = s /\ forall r, In r rs <->
    In r (rooms (mem s)) /\ room_of_type t rt r = true /\ r_status r = "available"%string /\
    assert_no_room_conflict t (r_id r) nights x s = (s, Ok tt).
Proof.
  intros Hsync Hx Hn Hne H. unfold list_assignable_rooms_for_stay, property_belongs_to_tenant in H.
  rewrite run_query in H. destruct (negb _); [done|]. rewrite run_scalar in H. destruct (hd_error _) as [rty|]; [|done].
  rewrite Hn, run_lift_ok, run_select_synced, run_query in H by done. cbv [mret M_ret] in H. injection H as <- <-.
  split; [done|]. intros r. rewrite filter_In, order_by_In, filter_In, andb_true_iff, String.eqb_eq, negb_true_iff.
  rewrite no_conflict_iff by done. split.
  - intros [[Hin [Ht Hst]] Hb]. split_and!; try done. intros l Hl. rewrite room_clash_busy by auto.
    apply andb_false_iff. destruct (bool_decide_reflect (l_room l = Some (r_id r))) as [Hr|]; [right|by left].
    apply not_true_iff_false. intros Hbusy. apply not_true_iff_false in Hb. apply Hb. apply existsb_exists.
    exists (r_id r). split; [|apply Z.eqb_refl]. apply list_elem_of_In, list_elem_of_omap. exists l.
    split; [by apply list_elem_of_In, filter_In|done].
  - intros (Hin & Ht & Hst & Hfree). split_and!; try done. apply not_true_iff_false. intros Hb.
    apply existsb_exists in Hb as (i & Hi & <-%Z.eqb_eq).
    apply list_elem_of_In, list_elem_of_omap in Hi as (l & Hl & Hr). apply list_elem_of_In, filter_In in Hl as [Hl Hbusy].
    specialize (Hfree l Hl). rewrite room_clash_busy, bool_decide_eq_true_2, Hbusy in Hfree by auto. done.
Qed.

End ops.

(** ** Concrete rooms *)

Lemma sample_totals : totals_ok 100 sample_rooms_db.
Proof.
  intros t rt n row _ Hr _. unfold sample_rooms_db, sample_db, sample_ledger in Hr. cbn [ledger put_ledger put_rooms put_room_types] in Hr.
  apply lookup_insert_Some in Hr as [[[= <- <- <-] <-]|[_ Hr]]; [reflexivity|].
  apply lookup_insert_Some in Hr as [[[= <- <- <-] <-]|[_ Hr]]; [reflexivity|]. by rewrite lookup_empty in Hr.
Qed.

(** A third room: the rows from today on count three. *)
Lemma rooms_keep_totals_witness :
  exists d', run (serve_room 1 (CreateRoom 7 " 103" "Available ")) 0 101 50 sample_rooms_db = (d', Ok tt) /\
    totals_ok 101 d' /\ ledger d' !! (1, 7, 101) = Some (MkLedger 3 0 1) /\ ledger d' !! (1, 7, 100) = Some (MkLedger 2 1 0).
Proof.
  assert (H : exists d', run (serve_room 1 (CreateRoom 7 " 103" "Available ")) 0 101 50 sample_rooms_db = (d', Ok tt)
    /\ ledger d' !! (1, 7, 101) = Some (MkLedger 3 0 1) /\ ledger d' !! (1, 7, 100) = Some (MkLedger 2 1 0)).
  { eexists. split; [vm_compute; reflexivity|]. split; reflexivity. }
  destruct H as (d' & H & H1 & H2). exists d'. split; [exact H|]. split; [|split; [exact H1|exact H2]].
  refine (proj1 (rooms_keep_totals 1 (CreateRoom 7 " 103" "Available ") 0 101 50 sample_rooms_db d' (Ok tt) _ _ _ I H)).
  - apply (totals_later 100); [lia|apply sample_totals].
  - repeat constructor; simpl; lia.
  - intros r [<-|[<-|[]]]; simpl; lia.
Defined.

(** Room 1 is taken on the first night. *)
Definition stay_db : DB :=
  put_properties [MkProperty 3 1 "Inn" None "UTC" "EUR" 0 0]
  (put_bookings [MkBooking 60 1 3 4 (Some 5) None "confirmed" "api" 100 None]
  (put_lines [MkBookingLine 61 1 60 100 7 (Some 1) 100] sample_rooms_db)).

Lemma assignable_rooms_exact_witness :
  exists s' rs, list_assignable_rooms_for_stay (env := sample_env) 1 3 7 100 102 (start stay_db 0 0 90) = (s', Ok (Some rs)) /\
    List.map r_id rs = [2] /\
    assert_no_room_conflict 1 2 [100; 101] 99 (start stay_db 0 0 90) = (start stay_db 0 0 90, Ok tt).
Proof.
  assert (H : exists s' rs, list_assignable_rooms_for_stay (env := sample_env) 1 3 7 100 102 (start stay_db 0 0 90) = (s', Ok (Some rs))
    /\ rs = [MkRoom 2 1 7 "102" "available" None "clean" "normal"]).
  { eexists _, _. split; [vm_compute; reflexivity|reflexivity]. }
  destruct H as (s' & rs & H & ->). exists s', [MkRoom 2 1 7 "102" "available" None "clean" "normal"].
  split; [exact H|]. split; [reflexivity|].
  assert (Hx : forall l, In l (lines (disk (start stay_db 0 0 90))) -> l_booking l <> 99) by (intros l [<-|[]]; discriminate).
  assert (Hs : synced Room (start stay_db 0 0 90)) by (split; [reflexivity|repeat constructor; simpl; lia]).
  destruct (assignable_rooms_exact (env := sample_env) 1 3 7 100 102 [100; 101] 99 _ _ _ Hs Hx eq_refl
    ltac:(discriminate) H) as [_ Hiff].
  exact (proj2 (proj2 (proj2 (proj1 (Hiff (MkRoom 2 1 7 "102" "available" None "clean" "normal")) (or_introl eq_refl))))).
Defined.
