(* ===== verification/Auth.v ===== *)
(** * Accounts and sessions

    app/services/auth_service.py and app/core/security.py: registration,
    login, refresh-token rotation, logout, password change and reset, and
    changes to other users of the tenant.

    Hashing, signing and random values come from argon2, hashlib, PyJWT and
    secrets: they are the parameters of [Crypto]. *)

From S2P Require Import Prelude StayDates PyJson Models Session Folio.

Class Crypto := {
  argon2_hash : Z -> string -> string;       (** [PasswordHasher.hash], with its salt *)
  argon2_verify : string -> string -> bool;  (** hash, password *)
  argon2_needs_rehash : string -> bool;
  sha256_hex : string -> string;
  token_urlsafe : Z -> string;
  jwt_encode : dict -> string;
  jwt_decode : Z -> string -> option dict;   (** signature, expiry at a time, required claims *)
  uuid_parse : string -> option Z
}.

(** The settings the services read; times in seconds. *)
Record auth_settings := AuthSettings { refresh_ttl : Z; access_ttl : Z }.

Definition AuthServiceError (detail : string) (status_code : Z) : exn :=
  ServiceError "AuthServiceError" detail status_code.

Section auth.
Context {env : Env} {crypto : Crypto} (settings : auth_settings).

(** ** security.py *)

Definition hash_password (plain : string) : M string := salt ← uuid4; mret (argon2_hash salt plain).
Definition verify_password (plain password_hash : string) : bool := argon2_verify password_hash plain.
Definition password_needs_rehash (password_hash : string) : bool := argon2_needs_rehash password_hash.
Definition new_refresh_token_value : M string := r ← uuid4; mret (token_urlsafe r).
Definition hash_refresh_token (raw : string) : string := sha256_hex raw.

(** ** Tokens *)

Definition issue_access_token (user : User) : M string :=
  t ← get_now;
  mret (jwt_encode [("sub", JStr (uuid_str (u_id user))); ("tenant_id", JStr (uuid_str (u_tenant user)));
    ("role", JStr (u_role user)); ("typ", JStr "access"); ("iat", JInt t); ("exp", JInt (t + access_ttl settings))]%string).

Definition MAX_ACTIVE_REFRESH_TOKENS : nat := 10.

(** Not revoked and not expired. *)
Definition token_active (t : Z) (k : RefreshToken) : bool :=
  bool_decide (tk_revoked_at k = None) && (t <? tk_expires_at k).

Definition token_of (tenant_id user_id : Z) (k : RefreshToken) : bool :=
  (tk_user k =? user_id) && (tk_tenant k =? tenant_id).

Definition newest_first (a b : RefreshToken) : bool := tk_created_at b <=? tk_created_at a.

Definition revoke_excess_active_refresh_tokens (user : User) : M unit :=
  t ← get_now;
  stale ← query (fun d => List.map tk_id (List.skipn MAX_ACTIVE_REFRESH_TOKENS (order_by newest_first
    (List.filter (fun k => token_of (u_tenant user) (u_id user) k && token_active t k) (refresh_tokens d)))));
  execute_update (fun k => existsb (Z.eqb (tk_id k)) stale) (set_tk_revoked_at (Some t)).

Definition persist_refresh_pair (user : User) : M string :=
  raw ← new_refresh_token_value;
  t ← get_now;
  i ← uuid4;
  _ ← add (MkRefreshToken i (u_tenant user) (u_id user) (hash_refresh_token raw) (t + refresh_ttl settings) None t);
  _ ← flush;
  _ ← revoke_excess_active_refresh_tokens user;
  mret raw.

Definition revoke_all_refresh_tokens_for_user (tenant_id user_id : Z) : M unit :=
  t ← get_now;
  execute_update (fun k => (tk_tenant k =? tenant_id) && (tk_user k =? user_id)
                           && bool_decide (tk_revoked_at k = None)) (set_tk_revoked_at (Some t)).

(** ** Registration and login *)

Definition register_tenant_owner (tenant_id : Z) (tenant_name email password full_name : string)
    : M (string * string * User) :=
  let email_norm := lower (strip email) in
  _ ← add (MkTenant tenant_id (strip tenant_name) email_norm "active");
  _ ← flush;
  _ ← ensure_builtin_categories tenant_id;
  h ← hash_password password;
  i ← uuid4;
  let user := MkUser i tenant_id email_norm h (strip full_name) "owner" true in
  _ ← add user;
  _ ← flush;
  access ← issue_access_token user;
  refresh_raw ← persist_refresh_pair user;
  mret (access, refresh_raw, user).

(** [trim(both from s)] of SQL: blanks only. *)
Fixpoint drop_blanks (l : list ascii) : list ascii :=
  match l with
  | c :: l' => if Ascii.eqb c " "%char then drop_blanks l' else l
  | [] => []
  end.
Definition sql_trim (s : string) : string :=
  string_of_list_ascii (rev (drop_blanks (rev (drop_blanks (list_ascii_of_string s))))).

(** The SQL function [lookup_active_users_by_email_login]: the active users
    with the address, of every tenant. *)
Definition lookup_active_users_by_email_login (email : string) (d : DB) : list User :=
  List.filter (fun u => u_active u && String.eqb (lower (sql_trim (u_email u))) (lower (sql_trim email))) (users d).

Definition resolve_tenant_id_for_email_login (email_norm : string) : M Z :=
  rows ← query (fun d => List.map u_tenant (lookup_active_users_by_email_login email_norm d));
  match rows with
  | [] => raise (AuthServiceError "Неверные данные." 401)
  | [t] => mret t
  | _ => raise (AuthServiceError "Несколько аккаунтов с этим email. Укажите ID организации (tenant)." 401)
  end.

Definition user_email_is (tenant_id : Z) (email : string) (u : User) : bool :=
  (u_tenant u =? tenant_id) && String.eqb (u_email u) email.

Definition user_is (tenant_id user_id : Z) (u : User) : bool := (u_tenant u =? tenant_id) && (u_id u =? user_id).

Definition get_user (tenant_id user_id : Z) : M (option User) := scalar (user_is tenant_id user_id).

(** [user is None or not user.is_active] *)
Definition active_user (o : option User) : option User :=
  match o with Some u => if u_active u then Some u else None | None => None end.

Definition login (tenant_id : option Z) (email password : string) : M (string * string * Z) :=
  match tenant_id with
  | None => raise (AuthServiceError "tenant_id required" 500)
  | Some tid =>
      found ← scalar (user_email_is tid (lower (strip email)));
      match active_user found with
      | None => raise (AuthServiceError "invalid credentials" 401)
      | Some user =>
          if negb (verify_password password (u_password user)) then
            raise (AuthServiceError "invalid credentials" 401)
          else
            _ ← (if password_needs_rehash (u_password user) then
                   h ← hash_password password; _ ← assign (u_id user) (set_u_password h); flush
                 else mret tt);
            access ← issue_access_token user;
            refresh_raw ← persist_refresh_pair user;
            mret (access, refresh_raw, u_id user)
      end
  end.

Definition refresh_session (tenant_id : Z) (refresh_token : option string) : M (string * string) :=
  match strip <$> refresh_token with
  | None => raise (AuthServiceError "missing refresh token" 401)
  | Some raw =>
      if negb (truthy raw) then raise (AuthServiceError "missing refresh token" 401)
      else
        let digest := hash_refresh_token raw in
        t ← get_now;
        row ← scalar (fun k => (tk_tenant k =? tenant_id) && String.eqb (tk_hash k) digest && token_active t k);
        match row with
        | None => raise (AuthServiceError "invalid refresh token" 401)
        | Some row =>
            found ← get_user (tk_tenant row) (tk_user row);
            match active_user found with
            | None => raise (AuthServiceError "user inactive" 401)
            | Some user =>
                _ ← assign (tk_id row) (set_tk_revoked_at (Some t));
                access ← issue_access_token user;
                refresh_raw ← persist_refresh_pair user;
                mret (access, refresh_raw)
            end
        end
  end.

Definition logout (tenant_id : Z) (raw_token : string) : M unit :=
  let digest := hash_refresh_token (strip raw_token) in
  t ← get_now;
  execute_update (fun k => (tk_tenant k =? tenant_id) && String.eqb (tk_hash k) digest
                           && bool_decide (tk_revoked_at k = None)) (set_tk_revoked_at (Some t)).

Definition list_users (tenant_id : Z) : M (list User) :=
  rs ← select (fun u => u_tenant u =? tenant_id);
  mret (order_by (fun a b => collate (u_email a) (u_email b)) rs).

(** Row-level security limits the statement to the [visible] rows. *)
Definition purge_stale_refresh_tokens (visible : RefreshToken -> bool) : M Z :=
  t ← get_now;
  let stale k := visible k && (bool_decide (is_Some (tk_revoked_at k)) || (tk_expires_at k <? t)) in
  n ← query (fun d => countb stale (refresh_tokens d));
  _ ← execute_delete stale;
  mret n.

(** ** Passwords *)

Definition change_password (tenant_id user_id : Z) (current_password new_password : string) : M unit :=
  found ← get_user tenant_id user_id;
  match active_user found with
  | None => raise (AuthServiceError "user not found" 404)
  | Some user =>
      if negb (verify_password current_password (u_password user)) then
        raise (AuthServiceError "invalid current password" 401)
      else
        h ← hash_password new_password;
        _ ← assign (u_id user) (set_u_password h);
        _ ← revoke_all_refresh_tokens_for_user tenant_id user_id;
        flush
  end.

Definition password_fingerprint (password_hash : string) : string := slice 12 (sha256_hex password_hash).

Definition PASSWORD_RESET_TTL : Z := 3600.

(** What a reset link says: whom it is for, and a fingerprint of the password
    hash it is to replace. *)
Definition reset_claims (user : User) (t : Z) : dict :=
  [("sub", JStr (uuid_str (u_id user))); ("tenant_id", JStr (uuid_str (u_tenant user)));
   ("typ", JStr "password_reset"); ("pwd_fp", JStr (password_fingerprint (u_password user)));
   ("iat", JInt t); ("exp", JInt (t + PASSWORD_RESET_TTL))]%string.

Definition issue_password_reset_token (user : User) : M string :=
  t ← get_now; mret (jwt_encode (reset_claims user t)).

(** A claim that is missing, or null, or (for [pwd_fp]) empty is refused. *)
Definition decode_password_reset_token (t : Z) (token : string) : option dict :=
  match jwt_decode t token with
  | None => None
  | Some payload =>
      match dict_get payload "typ" with
      | Some (JStr typ) =>
          if negb (String.eqb typ "password_reset") then None
          else match dict_get payload "tenant_id" with
               | None | Some JNull => None
               | Some _ => if py_bool (dict_get_or payload "pwd_fp" JNull) then Some payload else None
               end
      | _ => None
      end
  end.

Definition claim_uuid (payload : dict) (k : string) : option Z :=
  match dict_get payload k with Some v => uuid_parse (py_str v) | None => None end.

Definition invalid_token : exn := AuthServiceError "invalid or expired token" 401.

Definition reset_password (token new_password : string) : M unit :=
  t ← get_now;
  match decode_password_reset_token t token with
  | None => raise invalid_token
  | Some payload =>
      match claim_uuid payload "tenant_id", claim_uuid payload "sub" with
      | Some tenant_id, Some user_id =>
          let pwd_fp := match dict_get payload "pwd_fp" with
                        | Some v => if py_bool v then py_str v else EmptyString
                        | None => EmptyString
                        end in
          found ← get_user tenant_id user_id;
          match active_user found with
          | None => raise invalid_token
          | Some user =>
              if negb (String.eqb (password_fingerprint (u_password user)) pwd_fp) then raise invalid_token
              else
                h ← hash_password new_password;
                _ ← assign (u_id user) (set_u_password h);
                _ ← revoke_all_refresh_tokens_for_user tenant_id user_id;
                _ ← flush;
                record_audit tenant_id "user.reset_password" "user" (Some user_id)
          end
      | _, _ => raise invalid_token
      end
  end.

(** ** Changing users *)

Definition USER_ROLES : list string := ["housekeeper"; "manager"; "owner"; "receptionist"; "viewer"]%string.

(** [body.model_dump(exclude_unset=True)] *)
Record user_patch := UserPatch { up_active : option (option bool); up_role : option (option string) }.

Definition is_active_owner (u : User) : bool := String.eqb (u_role u) "owner" && u_active u.

Definition owner_only : exn := AuthServiceError "only an owner can assign the owner role" 403.

Definition patch_user (tenant_id actor_user_id : Z) (actor_role : string) (target_user_id : Z) (body : user_patch)
    : M Z :=
  if bool_decide (up_active body = None) && bool_decide (up_role body = None) then
    target ← get_user tenant_id target_user_id;
    match target with
    | None => raise (AuthServiceError "user not found" 404)
    | Some u => mret (u_id u)
    end
  else
    let actor_r := lower (strip actor_role) in
    if (actor_user_id =? target_user_id) && bool_decide (up_active body = Some (Some false)) then
      raise (AuthServiceError "cannot deactivate yourself" 400)
    else
      target ← get_user tenant_id target_user_id;
      match target with
      | None => raise (AuthServiceError "user not found" 404)
      | Some target =>
          let asked := match up_role body with Some (Some r) => Some (lower (strip r)) | _ => None end in
          if String.eqb actor_r "manager" && String.eqb (lower (strip (u_role target))) "owner" then
            raise (AuthServiceError "managers cannot modify an owner account" 403)
          else if String.eqb actor_r "manager" && bool_decide (asked = Some "owner"%string) then raise owner_only
          else if match asked with Some r => negb (str_in r USER_ROLES) | None => false end then
            raise (AuthServiceError ("role must be one of: " ++ py_join ", " USER_ROLES) 422)
          else
            let next_role := default (lower (strip (u_role target))) asked in
            let next_active := match up_active body with
                               | Some o => default false o
                               | None => u_active target
                               end in
            other_active_owners ← query (fun d => countb (fun u => (u_tenant u =? tenant_id)
                                            && negb (u_id u =? target_user_id) && is_active_owner u) (users d));
            if ((if String.eqb next_role "owner" && next_active then 1 else 0) + other_active_owners <? 1)%Z then
              raise (AuthServiceError "tenant must keep at least one active owner" 409)
            else
              _ ← match asked with Some r => assign (u_id target) (set_u_role r) | None => mret tt end;
              _ ← match up_active body with
                  | Some o => assign (u_id target) (set_u_active (default false o))
                  | None => mret tt
                  end;
              _ ← flush;
              mret (u_id target)
      end.

End auth.
