(* ===== verification/AuthLaws.v ===== *)
(** * Sessions, passwords and roles are kept safe

    A refresh token is good for one refresh; a user never has more than ten
    live ones; changing or resetting a password ends every session; a reset
    link works once; a tenant keeps an active owner, whom no manager can
    touch. *)

From S2P Require Import Prelude StayDates PyJson Models Session Folio Auth.

(** ** Refresh tokens *)

Section tokens.
Context {crypto : Crypto} (settings : auth_settings).

Definition live_tokens (t tenant_id user_id : Z) (d : DB) : list RefreshToken :=
  List.filter (fun k => token_of tenant_id user_id k && token_active t k) (refresh_tokens d).

Definition excess (t : Z) (user : User) (d : DB) : list Z :=
  List.map tk_id (List.skipn MAX_ACTIVE_REFRESH_TOKENS (order_by newest_first (live_tokens t (u_tenant user) (u_id user) d))).

Definition revoke_ids (t : Z) (ids : list Z) (k : RefreshToken) : RefreshToken :=
  if existsb (Z.eqb (tk_id k)) ids then set_tk_revoked_at (Some t) k else k.

Definition new_token (user : User) (s : session) : RefreshToken :=
  MkRefreshToken (uuids s + 1) (u_tenant user) (u_id user) (hash_refresh_token (token_urlsafe (uuids s)))
    (now s + refresh_ttl settings) None (now s).

Definition with_token (user : User) (s : session) : DB :=
  put_refresh_tokens (refresh_tokens (mem s) ++ [new_token user s]) (mem s).

Definition after_issue (user : User) (s : session) : DB :=
  put_refresh_tokens (List.map (revoke_ids (now s) (excess (now s) user (with_token user s)))
    (refresh_tokens (with_token user s))) (with_token user s).

Lemma persist_run user s :
  persist_refresh_pair settings user s =
  (Session (after_issue user s) (after_issue user s) (expired s) (now s) (today s) (uuids s + 1 + 1),
   Ok (token_urlsafe (uuids s))).
Proof. reflexivity. Qed.

Lemma existsb_eqb z l : existsb (Z.eqb z) l = true <-> In z l.
Proof. rewrite existsb_exists. split; [by intros (y & Hy & <-%Z.eqb_eq)|]. intros H. exists z. by rewrite Z.eqb_refl. Qed.

Lemma revoke_ids_id t ids k : tk_id (revoke_ids t ids k) = tk_id k.
Proof. unfold revoke_ids. by destruct (existsb _ _). Qed.

Lemma revoke_ids_live t' t tenant_id user_id ids k :
  token_of tenant_id user_id (revoke_ids t ids k) && token_active t' (revoke_ids t ids k) =
  negb (existsb (Z.eqb (tk_id k)) ids) && (token_of tenant_id user_id k && token_active t' k).
Proof. unfold revoke_ids. destruct (existsb _ _); [|done]. cbn. apply andb_false_r. Qed.

(** At most ten live tokens are left. *)
Lemma excess_bound user s :
  (length (live_tokens (now s) (u_tenant user) (u_id user) (after_issue user s)) <= MAX_ACTIVE_REFRESH_TOKENS)%nat.
Proof.
  unfold live_tokens at 1, after_issue. cbn [refresh_tokens put_refresh_tokens].
  set (d := with_token user s). set (L := live_tokens (now s) (u_tenant user) (u_id user) d).
  apply Nat2Z.inj_le. fold (countb (fun k => token_of (u_tenant user) (u_id user) k && token_active (now s) k)
    (List.map (revoke_ids (now s) (excess (now s) user d)) (refresh_tokens d))).
  rewrite countb_map. erewrite countb_ext by (intros k _; apply revoke_ids_live).
  rewrite (countb_ext _ (fun k => (token_of (u_tenant user) (u_id user) k && token_active (now s) k) &&
    negb (existsb (Z.eqb (tk_id k)) (excess (now s) user d)))) by (intros; apply andb_comm).
  rewrite <- countb_filter. fold (live_tokens (now s) (u_tenant user) (u_id user) d). fold L.
  rewrite <- (countb_perm _ _ _ (order_by_perm newest_first L)).
  rewrite <- (List.firstn_skipn MAX_ACTIVE_REFRESH_TOKENS (order_by newest_first L)) at 1.
  rewrite countb_app, (countb_false _ (List.skipn _ _)).
  - unfold countb. pose proof (List.filter_length_le (fun k => negb (existsb (Z.eqb (tk_id k)) (excess (now s) user d)))
      (List.firstn MAX_ACTIVE_REFRESH_TOKENS (order_by newest_first L))) as H1.
    pose proof (List.firstn_le_length MAX_ACTIVE_REFRESH_TOKENS (order_by newest_first L)) as H2. lia.
  - intros k Hk. apply negb_false_iff, existsb_eqb. unfold excess. apply in_map. exact Hk.
Qed.

(** The token just issued is among them, when it is the youngest. *)
Lemma new_token_kept user s :
  List.NoDup (List.map tk_id (refresh_tokens (with_token user s))) -> 0 < refresh_ttl settings ->
  (forall k, In k (refresh_tokens (mem s)) -> tk_created_at k < now s) ->
  In (new_token user s) (live_tokens (now s) (u_tenant user) (u_id user) (after_issue user s)).
Proof.
  intros Hnd Httl Hold. set (k0 := new_token user s).
  assert (Hlive : token_of (u_tenant user) (u_id user) k0 && token_active (now s) k0 = true).
  { unfold token_of, token_active. cbn. rewrite !Z.eqb_refl. cbn. apply Z.ltb_lt. lia. }
  assert (Hord : order_by newest_first (live_tokens (now s) (u_tenant user) (u_id user) (with_token user s)) =
    k0 :: order_by newest_first (live_tokens (now s) (u_tenant user) (u_id user) (mem s))).
  { unfold live_tokens at 1. cbn [refresh_tokens with_token put_refresh_tokens]. rewrite List.filter_app.
    cbn [List.filter]. fold k0. rewrite Hlive. apply order_by_first. intros y [Hy _]%filter_In.
    specialize (Hold y Hy). unfold newest_first. cbn. zcase; lia || done. }
  assert (Hkept : existsb (Z.eqb (tk_id k0)) (excess (now s) user (with_token user s)) = false).
  { apply not_true_iff_false. rewrite existsb_eqb. unfold excess. rewrite Hord. cbn [List.skipn MAX_ACTIVE_REFRESH_TOKENS].
    cbn [refresh_tokens with_token put_refresh_tokens] in Hnd. rewrite List.map_app in Hnd. cbn in Hnd.
    intros (k & Hid & Hk)%in_map_iff.
    assert (Hk' : In k (refresh_tokens (mem s))).
    { assert (In k (order_by newest_first (live_tokens (now s) (u_tenant user) (u_id user) (mem s)))) as Ho.
      { apply (In_firstn_or_skipn 9). by right. }
      apply order_by_In in Ho. by apply filter_In in Ho as [? _]. }
    apply List.NoDup_remove_2 in Hnd. apply Hnd. rewrite app_nil_r.
    change (In (tk_id k0) (List.map tk_id (refresh_tokens (mem s)))). rewrite <- Hid. by apply in_map. }
  apply filter_In. split; [|exact Hlive]. unfold after_issue. cbn [refresh_tokens put_refresh_tokens].
  apply in_map_iff. exists k0. split; [unfold revoke_ids; by rewrite Hkept|].
  cbn. apply in_app_iff. right. by left.
Qed.

(** A revoked token stays revoked. *)
Lemma revoke_ids_keeps t ids k : tk_revoked_at k <> None -> tk_revoked_at (revoke_ids t ids k) <> None.
Proof. unfold revoke_ids. by destruct (existsb _ _). Qed.

(** Keys distinct and below the supply, digests distinct, and every token
    older than the request. *)
Record token_db (t u : Z) (d : DB) : Prop := {
  td_ids : List.NoDup (List.map tk_id (refresh_tokens d));
  td_fresh : forall k, In k (refresh_tokens d) -> tk_id k < u;
  td_digests : forall k k', In k (refresh_tokens d) -> In k' (refresh_tokens d) -> tk_hash k = tk_hash k' -> k = k';
  td_older : forall k, In k (refresh_tokens d) -> tk_created_at k < t;
}.

Context {env : Env}.

Lemma active_user_inv o u : active_user o = Some u -> o = Some u /\ u_active u = true.
Proof. destruct o as [v|]; [|done]. cbn. destruct (u_active v) eqn:E; [|done]. by intros [= <-]. Qed.

Lemma run_get_user {B} tid uid (k : option User -> M B) s :
  synced User s -> (get_user tid uid ≫= k) s = k (List.find (user_is tid uid) (users (mem s))) s.
Proof. intros H. unfold get_user. rewrite run_scalar_synced by exact H. done. Qed.

Lemma find_user_inv tid uid us u :
  List.find (user_is tid uid) us = Some u -> In u us /\ u_tenant u = tid /\ u_id u = uid.
Proof. intros [Hin Hp]%find_some. unfold user_is in Hp. rewrite andb_true_iff, !Z.eqb_eq in Hp. tauto. Qed.

Definition keys_distinct (d : DB) : Prop :=
  List.NoDup (List.map tk_id (refresh_tokens d)) /\ List.NoDup (List.map u_id (users d)).

Definition consumed (row : RefreshToken) (t : Z) (d : DB) : DB :=
  put_refresh_tokens (where_id (tk_id row) (set_tk_revoked_at (Some t)) (refresh_tokens d)) d.

(** What a successful refresh did. *)
Lemma refresh_inv tid raw tm td u d d' access fresh :
  keys_distinct d ->
  run (refresh_session settings tid (Some raw)) tm td u d = (d', Ok (access, fresh)) ->
  exists row user,
    In row (refresh_tokens d) /\ tk_tenant row = tid /\ tk_hash row = hash_refresh_token (strip raw) /\
    token_active tm row = true /\ truthy (strip raw) = true /\ fresh = token_urlsafe u /\
    In user (users d) /\ u_tenant user = tid /\ u_id user = tk_user row /\ u_active user = true /\
    d' = after_issue user (set_mem (consumed row tm d) (start d tm td u)).
Proof.
  intros [Hk Hu]. unfold run. destruct (refresh_session _ _ _ _) as [s1 [[a f]|e]] eqn:E; [|done].
  intros [= <- <- <-]. unfold refresh_session in E. cbn [fmap option_fmap option_map] in E.
  destruct (truthy (strip raw)) eqn:Htr; [|done]. cbv zeta in E. cbn [negb] in E. rewrite run_now, run_scalar_synced in E by (split; [done|exact Hk]).
  destruct (List.find _ _) as [row|] eqn:Hrow; [|done]. apply find_some in Hrow as [Hin Hp].
  rewrite !andb_true_iff, Z.eqb_eq, String.eqb_eq in Hp. destruct Hp as [[Ht Hh] Hact].
  rewrite run_get_user in E by (split; [done|exact Hu]).
  destruct (active_user _) as [user|] eqn:Hau; [|done]. apply active_user_inv in Hau as [Hf Hau].
  apply find_user_inv in Hf as (Huin & Hut & Huid). unfold assign in E. rewrite run_orm in E.
  mbind_in E s2 acc E2. unfold issue_access_token in E2. rewrite run_now, run_last_ret in E2. injection E2 as <- <-.
  mbind_in E s3 raw' E3. rewrite persist_run in E3. injection E3 as <- <-. rewrite run_last_ret in E.
  injection E as <- <- <-. exists row, user. rewrite Hut. split_and!; done.
Qed.

Lemma refresh_refused tid raw tm td u d :
  keys_distinct d -> truthy (strip raw) = true ->
  (forall k, In k (refresh_tokens d) -> tk_hash k = hash_refresh_token (strip raw) -> tk_revoked_at k <> None) ->
  run (refresh_session settings tid (Some raw)) tm td u d = (d, Err (AuthServiceError "invalid refresh token" 401)).
Proof.
  intros [Hk Hu] Hne Hdead. unfold run, refresh_session. cbn [fmap option_fmap option_map]. rewrite Hne.
  cbn [negb]. rewrite run_now, run_scalar_synced by (split; [done|exact Hk]).
  destruct (List.find _ _) as [row|] eqn:Hrow; [|done]. apply find_some in Hrow as [Hin Hp]. exfalso.
  rewrite !andb_true_iff, String.eqb_eq in Hp. destruct Hp as [[_ Hh] Hact].
  unfold token_active in Hact. apply andb_prop in Hact as [Hact%bool_decide_eq_true_1 _]. by apply (Hdead row).
Qed.

Section consumed.
Context (row : RefreshToken) (user : User) (tm td u : Z) (d : DB).
Context (Hkeys : keys_distinct d) (Htd : token_db tm u d) (Hrow : In row (refresh_tokens d)).
Context (Huser : tk_user row = u_id user).
Let s : session := set_mem (consumed row tm d) (start d tm td u).

Lemma consumed_ids : List.NoDup (List.map tk_id (refresh_tokens (with_token user s))).
Proof.
  cbn [refresh_tokens with_token put_refresh_tokens mem s set_mem consumed].
  pose proof (where_id_idents (R := RefreshToken) (tk_id row) (set_tk_revoked_at (Some tm)) (refresh_tokens d)) as Hids.
  cbn [ident RefreshToken_entity] in Hids. rewrite List.map_app, Hids by done. cbn. apply NoDup_snoc; [apply Hkeys|].
  intros (k & Hk & Hin)%in_map_iff. pose proof (td_fresh _ _ _ Htd k Hin). lia.
Qed.

Lemma consumed_older k : In k (refresh_tokens (mem s)) -> tk_created_at k < tm.
Proof.
  intros (x & Hx & ->)%(where_id_In (R := RefreshToken)). pose proof (td_older _ _ _ Htd x Hx).
  by destruct (ident x =? tk_id row).
Qed.

(** Tokens of other users are as they were. *)
Lemma consumed_others k :
  In k (refresh_tokens d) -> tk_user k <> u_id user -> In k (refresh_tokens (after_issue user s)).
Proof.
  intros Hin Hne. cbn [refresh_tokens after_issue put_refresh_tokens]. apply in_map_iff. exists k.
  assert (Hk : In k (refresh_tokens (with_token user s))).
  { cbn. apply in_app_iff. left. apply (where_id_In (R := RefreshToken)). exists k. split; [done|]. cbn.
    destruct (Z.eqb_spec (tk_id k) (tk_id row)) as [E|]; [|done]. exfalso. apply Hne. rewrite <- Huser. f_equal.
    exact (in_unique_key tk_id (refresh_tokens d) k row (proj1 Hkeys) Hin Hrow E). }
  split; [|exact Hk]. unfold revoke_ids.
  destruct (existsb _ _) eqn:E; [|done]. exfalso. apply existsb_eqb in E as (k' & Hid & Hk')%in_map_iff.
  assert (Hl : In k' (order_by newest_first (live_tokens (now s) (u_tenant user) (u_id user) (with_token user s)))).
  { apply (In_firstn_or_skipn MAX_ACTIVE_REFRESH_TOKENS). by right. }
  apply order_by_In, filter_In in Hl as [Hin' [[Hu _]%andb_prop _]%andb_prop]. apply Z.eqb_eq in Hu.
  pose proof (in_unique_key tk_id _ k' k consumed_ids Hin' Hk Hid) as ->. done.
Qed.

(** The presented token is dead. *)
Lemma consumed_dead k :
  tk_hash row <> hash_refresh_token (token_urlsafe u) ->
  In k (refresh_tokens (after_issue user s)) -> tk_hash k = tk_hash row -> tk_revoked_at k <> None.
Proof.
  intros Hnew (k1 & <- & Hk1)%in_map_iff Hh. apply revoke_ids_keeps.
  assert (Hh1 : tk_hash k1 = tk_hash row) by (revert Hh; unfold revoke_ids; by destruct (existsb _ _)).
  cbn in Hk1. apply in_app_iff in Hk1 as [Hk1|[<-|[]]]; [|by rewrite <- Hh1 in Hnew].
  apply (where_id_In (R := RefreshToken)) in Hk1 as (x & Hx & ->). cbn in *.
  assert (x = row) as ->.
  { apply (td_digests _ _ _ Htd); [done|done|]. by destruct (tk_id x =? tk_id row). }
  by rewrite Z.eqb_refl.
Qed.

Lemma after_issue_keys : keys_distinct (after_issue user s).
Proof.
  split; [|by apply Hkeys]. cbn [refresh_tokens after_issue put_refresh_tokens]. rewrite List.map_map.
  erewrite List.map_ext by (intros; apply revoke_ids_id). apply consumed_ids.
Qed.
End consumed.

(** C15: a refresh is granted only for a live token of an active user
    of the tenant.  It revokes that token, so presenting it again is refused;
    it issues a new live one with a fresh digest, and leaves the user with at
    most ten; the other users keep theirs. *)
Theorem refresh_rotates tid raw tm td u d d' access fresh :
  keys_distinct d -> token_db tm u d -> 0 < refresh_ttl settings ->
  (forall k, In k (refresh_tokens d) -> tk_hash k <> hash_refresh_token (token_urlsafe u)) ->
  run (refresh_session settings tid (Some raw)) tm td u d = (d', Ok (access, fresh)) ->
  exists row user, In row (refresh_tokens d) /\ tk_tenant row = tid /\ tk_hash row = hash_refresh_token (strip raw) /\
    token_active tm row = true /\ In user (users d') /\ u_id user = tk_user row /\ u_active user = true /\
    (exists k, In k (live_tokens tm tid (u_id user) d') /\ tk_hash k = hash_refresh_token fresh /\
               tk_expires_at k = tm + refresh_ttl settings) /\
    (length (live_tokens tm tid (u_id user) d') <= 10)%nat /\
    (forall k, In k (refresh_tokens d) -> tk_user k <> u_id user -> In k (refresh_tokens d')) /\
    (forall tm' td' u', run (refresh_session settings tid (Some raw)) tm' td' u' d' =
                        (d', Err (AuthServiceError "invalid refresh token" 401))).
Proof.
  intros Hk Htd Httl Hnew (row & user & Hrow & Ht & Hh & Hact & Htr & -> & Hu & <- & Huid & Hau & ->)%refresh_inv; [|done].
  exists row, user. split_and!; try done.
  - exists (new_token user (set_mem (consumed row tm d) (start d tm td u))). split_and!; [|done|done].
    apply new_token_kept; [by apply consumed_ids|done|]. intros k. by apply consumed_older.
  - apply (excess_bound user (set_mem (consumed row tm d) (start d tm td u))).
  - intros k. by apply consumed_others.
  - intros tm' td' u'. apply refresh_refused; [by apply after_issue_keys|done|].
    intros k Hin Hd. eapply consumed_dead; [done|done| |exact Hin|by rewrite Hd].
    by apply Hnew.
Qed.

End tokens.

(** ** Passwords *)

Section passwords.
Context {env : Env} {crypto : Crypto}.

Definition revoke_all (tenant_id user_id t : Z) (k : RefreshToken) : RefreshToken :=
  if (tk_tenant k =? tenant_id) && (tk_user k =? user_id) && bool_decide (tk_revoked_at k = None)
  then set_tk_revoked_at (Some t) k else k.

(** The user's new password, with every session ended. *)
Definition repassworded (tenant_id user_id t : Z) (h : string) (d : DB) : DB :=
  put_refresh_tokens (List.map (revoke_all tenant_id user_id t) (refresh_tokens d))
    (put_users (where_id user_id (set_u_password h) (users d)) d).

Definition signed_out (tenant_id user_id : Z) (d : DB) : Prop :=
  forall k, In k (refresh_tokens d) -> token_of tenant_id user_id k = true -> tk_revoked_at k <> None.

Lemma repassworded_signed_out tid uid t h d : signed_out tid uid (repassworded tid uid t h d).
Proof.
  intros k (x & <- & Hx)%in_map_iff. unfold revoke_all, token_of.
  destruct (tk_tenant x =? tid) eqn:E1; cbn; [|rewrite E1; by rewrite andb_false_r].
  destruct (tk_user x =? uid) eqn:E2; cbn; [|by rewrite E2].
  case_bool_decide as E3; cbn; [done|]. by intros _.
Qed.

Lemma repassworded_others tid uid t h d k :
  In k (refresh_tokens d) -> token_of tid uid k = false -> In k (refresh_tokens (repassworded tid uid t h d)).
Proof.
  intros Hin Hk. apply in_map_iff. exists k. split; [|done]. unfold revoke_all. unfold token_of in Hk.
  rewrite andb_comm in Hk. by rewrite Hk.
Qed.

Lemma repassworded_user tid uid t h d v :
  List.NoDup (List.map u_id (users d)) -> In v (users d) -> u_tenant v = tid -> u_id v = uid ->
  List.find (user_is tid uid) (users (repassworded tid uid t h d)) = Some (set_u_password h v).
Proof.
  intros Hnd Hin <- <-. cbn [users repassworded put_refresh_tokens put_users].
  induction (users d) as [|w l IH]; [done|]. cbn in Hnd. apply List.NoDup_cons_iff in Hnd as [Hni Hnd].
  cbn. destruct Hin as [->|Hin].
  - unfold user_is. rewrite Z.eqb_refl. cbn. by rewrite !Z.eqb_refl.
  - destruct (Z.eqb_spec (u_id w) (u_id v)) as [E|E].
    + exfalso. apply Hni. rewrite E. by apply in_map.
    + unfold user_is at 1. destruct (Z.eqb_spec (u_id w) (u_id v)); [done|]. rewrite andb_false_r. by apply IH.
Qed.

Definition repassword (tid uid : Z) (h : string) : M unit :=
  _ ← assign uid (set_u_password h); _ ← revoke_all_refresh_tokens_for_user tid uid; flush.

Lemma repassword_run tid uid h s :
  repassword tid uid h s =
  (Session (repassworded tid uid (now s) h (mem s)) (repassworded tid uid (now s) h (mem s))
     (expired s) (now s) (today s) (uuids s), Ok tt).
Proof. reflexivity. Qed.

Lemma repassword_fold {B} tid uid h (k : unit -> M B) s :
  (assign uid (set_u_password h) ≫= fun _ => revoke_all_refresh_tokens_for_user tid uid ≫= fun _ => flush ≫= k) s =
  (repassword tid uid h ≫= k) s.
Proof. unfold repassword. by rewrite !run_assoc. Qed.

(** a password changes only for an active user who gave the current
    one; the user gets the new one and loses every session, the others keep
    theirs. *)
Theorem change_password_ends_sessions tid uid current new tm td u d d' :
  keys_distinct d ->
  run (change_password tid uid current new) tm td u d = (d', Ok tt) ->
  exists user, In user (users d) /\ u_tenant user = tid /\ u_id user = uid /\ u_active user = true /\
    argon2_verify (u_password user) current = true /\
    List.find (user_is tid uid) (users d') = Some (set_u_password (argon2_hash u new) user) /\
    (forall v, In v (users d) -> u_id v <> uid -> In v (users d')) /\
    signed_out tid uid d' /\
    (forall k, In k (refresh_tokens d) -> token_of tid uid k = false -> In k (refresh_tokens d')).
Proof.
  intros [Hk Hu]. unfold run. destruct (change_password _ _ _ _ _) as [s1 [[]|e]] eqn:E; [|done].
  intros [= <-]. unfold change_password in E. rewrite run_get_user in E by (split; [done|exact Hu]).
  destruct (active_user _) as [user|] eqn:Hau; [|done]. apply active_user_inv in Hau as [Hf Hau].
  apply find_user_inv in Hf as (Hin & Ht & Hid). unfold verify_password in E.
  destruct (argon2_verify _ _) eqn:Hv; [|done]. cbn [negb] in E. mbind_in E s2 h E2.
  unfold hash_password in E2. mbind_in E2 s3 salt E3. cbv [uuid4] in E3. injection E3 as <- <-.
  rewrite run_last_ret in E2. injection E2 as <- <-. rewrite Hid in E.
  match type of E with _ ?st = _ => change (repassword tid uid (argon2_hash u new) st = (s1, Ok tt)) in E end.
  rewrite repassword_run in E.
  injection E as <-. cbn [mem now uuids start]. exists user. split_and!; try done.
  - by apply repassworded_user.
  - intros v Hv' Hne. cbn. apply (where_id_In (R := User)). exists v. split; [done|]. cbn.
    by destruct (Z.eqb_spec (u_id v) uid).
  - apply repassworded_signed_out.
  - intros k. apply repassworded_others.
Qed.

Definition claimed_fp (payload : dict) : string :=
  match dict_get payload "pwd_fp" with Some v => if py_bool v then py_str v else EmptyString | None => EmptyString end.

(** What a successful reset checked and did. *)
Lemma reset_inv token new tm td u d d' :
  keys_distinct d -> run (reset_password token new) tm td u d = (d', Ok tt) ->
  exists payload tid uid user logs,
    decode_password_reset_token tm token = Some payload /\
    claim_uuid payload "tenant_id" = Some tid /\ claim_uuid payload "sub" = Some uid /\
    List.find (user_is tid uid) (users d) = Some user /\ u_active user = true /\
    password_fingerprint (u_password user) = claimed_fp payload /\
    d' = put_audit_logs logs (repassworded tid uid tm (argon2_hash u new) d).
Proof.
  intros [Hk Hu]. unfold run. destruct (reset_password _ _ _) as [s1 [[]|e]] eqn:E; [|done].
  intros [= <-]. unfold reset_password in E. rewrite run_now in E.
  destruct (decode_password_reset_token _ _) as [payload|] eqn:Hp; [|done].
  destruct (claim_uuid payload "tenant_id") as [tid|] eqn:H1; [|done].
  destruct (claim_uuid payload "sub") as [uid|] eqn:H2; [|done]. cbv zeta in E. fold (claimed_fp payload) in E.
  rewrite run_get_user in E by (split; [done|exact Hu]).
  destruct (active_user _) as [user|] eqn:Hau; [|done]. apply active_user_inv in Hau as [Hf Hau].
  destruct (String.eqb_spec (password_fingerprint (u_password user)) (claimed_fp payload)) as [Hfp|]; [|done].
  cbn [negb] in E. mbind_in E s2 h E2.
  unfold hash_password in E2. mbind_in E2 s3 salt E3. cbv [uuid4] in E3. injection E3 as <- <-.
  rewrite run_last_ret in E2. injection E2 as <- <-.
  destruct (find_user_inv _ _ _ _ Hf) as (_ & _ & Hid). rewrite Hid, repassword_fold in E.
  unfold mbind at 1, M_bind at 1 in E. rewrite repassword_run in E. cbv beta iota in E.
  unfold record_audit in E. mbind_in E s2 i E2. cbv [uuid4] in E2. injection E2 as <- <-.
  cbv [add orm] in E. injection E as <-. eexists payload, tid, uid, user, _. split_and!; try done.
Qed.

Lemma keys_repassworded tid uid t h d logs :
  keys_distinct d -> keys_distinct (put_audit_logs logs (repassworded tid uid t h d)).
Proof.
  intros [Hk Hu]. split; cbn.
  - rewrite List.map_map. erewrite List.map_ext; [exact Hk|]. intros k. unfold revoke_all. by destruct (_ && _).
  - pose proof (where_id_idents (R := User) uid (set_u_password h) (users d)) as Hids.
    cbn [ident User_entity] in Hids. by rewrite Hids.
Qed.

Lemma reset_refused token new tm td u d :
  keys_distinct d ->
  (forall payload tid uid user, decode_password_reset_token tm token = Some payload ->
     claim_uuid payload "tenant_id" = Some tid -> claim_uuid payload "sub" = Some uid ->
     List.find (user_is tid uid) (users d) = Some user ->
     password_fingerprint (u_password user) <> claimed_fp payload) ->
  run (reset_password token new) tm td u d = (d, Err invalid_token).
Proof.
  intros [Hk Hu] Hbad. unfold run, reset_password. rewrite run_now. cbn [now start].
  destruct (decode_password_reset_token _ _) as [payload|] eqn:Hp; [|done].
  destruct (claim_uuid payload "tenant_id") as [tid|] eqn:H1; [|done].
  destruct (claim_uuid payload "sub") as [uid|] eqn:H2; [|done]. cbv zeta. fold (claimed_fp payload).
  rewrite run_get_user by (split; [done|exact Hu]). cbn [mem start].
  destruct (List.find _ _) as [user|] eqn:Hf; [|done]. cbn. destruct (u_active user); [|done].
  destruct (String.eqb_spec (password_fingerprint (u_password user)) (claimed_fp payload)) as [Hfp|]; [|done].
  exfalso. by eapply Hbad.
Qed.

Lemma decode_reset_inv t token payload : decode_password_reset_token t token = Some payload ->
  jwt_decode t token = Some payload /\ dict_get payload "typ" = Some (JStr "password_reset").
Proof.
  unfold decode_password_reset_token. destruct (jwt_decode t token) as [p|]; [|done]. intros H.
  destruct (dict_get p "typ") as [[| | | |typ| |]|] eqn:E; try done.
  destruct (String.eqb_spec typ "password_reset") as [->|]; [|done]. cbn [negb] in H.
  assert (p = payload) as -> by (destruct (dict_get p "tenant_id") as [[]|]; try done; destruct (py_bool _); congruence). done.
Qed.

Lemma claimed_fp_of_issued v t : claimed_fp (reset_claims v t) = password_fingerprint (u_password v).
Proof. unfold claimed_fp. cbn. by destruct (password_fingerprint (u_password v)). Qed.

Lemma claims_of_issued v t tid uid :
  uuid_parse (uuid_str (u_tenant v)) = Some (u_tenant v) -> uuid_parse (uuid_str (u_id v)) = Some (u_id v) ->
  claim_uuid (reset_claims v t) "tenant_id" = Some tid -> claim_uuid (reset_claims v t) "sub" = Some uid ->
  u_tenant v = tid /\ u_id v = uid.
Proof. intros Ht Hi H1 H2. cbn in H1, H2. rewrite Ht in H1. rewrite Hi in H2. by injection H1; injection H2. Qed.

Lemma repassworded_others_keep tid uid t h d v : In v (users d) -> u_id v <> uid -> In v (users (repassworded tid uid t h d)).
Proof.
  intros Hv Hne. apply (where_id_In (R := User)). exists v. split; [done|]. cbn. by destruct (Z.eqb_spec (u_id v) uid).
Qed.

(** C16: a reset link changes the password of one user: the active user that
    the claims of its token name by tenant and id, whose hash has the
    fingerprint the token was issued for.  That user's sessions end; the other
    users and their sessions stay.  A token issued for a user names that user,
    and the hash the user had then.  The link is refused ever after. *)
Theorem reset_link_used_once token new tm td u d d' :
  keys_distinct d ->
  (forall t, tm <= t -> jwt_decode t token = None \/ jwt_decode t token = jwt_decode tm token) ->
  (forall v, In v (users d) -> password_fingerprint (argon2_hash u new) <> password_fingerprint (u_password v)) ->
  run (reset_password token new) tm td u d = (d', Ok tt) ->
  (exists payload tid uid user,
     jwt_decode tm token = Some payload /\ dict_get payload "typ" = Some (JStr "password_reset") /\
     claim_uuid payload "tenant_id" = Some tid /\ claim_uuid payload "sub" = Some uid /\
     In user (users d) /\ u_tenant user = tid /\ u_id user = uid /\ u_active user = true /\
     password_fingerprint (u_password user) = claimed_fp payload /\
     List.find (user_is tid uid) (users d') = Some (set_u_password (argon2_hash u new) user) /\
     signed_out tid uid d' /\
     (forall v, In v (users d) -> u_id v <> uid -> In v (users d')) /\
     (forall k, In k (refresh_tokens d) -> token_of tid uid k = false -> In k (refresh_tokens d')) /\
     (forall v t0, payload = reset_claims v t0 ->
        uuid_parse (uuid_str (u_tenant v)) = Some (u_tenant v) -> uuid_parse (uuid_str (u_id v)) = Some (u_id v) ->
        u_tenant v = tid /\ u_id v = uid /\ claimed_fp payload = password_fingerprint (u_password v))) /\
  (forall new' tm' td' u', tm <= tm' -> run (reset_password token new') tm' td' u' d' = (d', Err invalid_token)).
Proof.
  intros Hkd Hdec Hfp (payload & tid & uid & user & logs & Hp & H1 & H2 & Hf & Hau & Hok & ->)%reset_inv; [|done].
  destruct (find_user_inv _ _ _ _ Hf) as (Hin & Ht & Hid).
  assert (Hf' : List.find (user_is tid uid) (users (repassworded tid uid tm (argon2_hash u new) d)) =
                Some (set_u_password (argon2_hash u new) user)).
  { apply repassworded_user; [apply Hkd|done|done|done]. }
  split.
  - destruct (decode_reset_inv _ _ _ Hp) as [Hj Htyp]. exists payload, tid, uid, user. split_and!; try done.
    + apply repassworded_signed_out.
    + intros v. apply repassworded_others_keep.
    + intros k. apply repassworded_others.
    + intros v t0 -> Hut Hui. destruct (claims_of_issued _ _ _ _ Hut Hui H1 H2). split_and!; [done..|]. apply claimed_fp_of_issued.
  - intros new' tm' td' u' Hle. apply reset_refused; [by apply keys_repassworded|].
    intros p2 tid2 uid2 user2 Hp2 H12 H22 Hf2.
    assert (p2 = payload) as ->.
    { unfold decode_password_reset_token in Hp, Hp2. destruct (Hdec tm' Hle) as [E|E]; rewrite E in Hp2; [done|].
      rewrite Hp in Hp2. by injection Hp2. }
    rewrite H1 in H12. rewrite H2 in H22. injection H12 as <-. injection H22 as <-.
    cbn [users put_audit_logs] in Hf2. change (users (repassworded tid uid tm (argon2_hash u new) d)) with
      (users (repassworded tid uid tm (argon2_hash u new) d)) in Hf2.
    rewrite Hf' in Hf2. injection Hf2 as <-. rewrite <- Hok. by apply Hfp.
Qed.
End passwords.

(** ** Roles *)

Section roles.
Context {env : Env}.

Definition active_owners (tenant_id : Z) (d : DB) : Z :=
  countb (fun u => (u_tenant u =? tenant_id) && is_active_owner u) (users d).

(** User keys distinct, and roles written as [patch_user] and the schemas
    write them. *)
Definition user_db (d : DB) : Prop :=
  List.NoDup (List.map u_id (users d)) /\ forall v, In v (users d) -> lower (strip (u_role v)) = u_role v.

Definition nonempty_patch (body : user_patch) : bool :=
  negb (bool_decide (up_active body = None) && bool_decide (up_role body = None)).

Definition asked_role (body : user_patch) : option string :=
  match up_role body with Some (Some r) => Some (lower (strip r)) | _ => None end.

(** The user after the change. *)
Definition patched_user (body : user_patch) (v : User) : User :=
  let v := match asked_role body with Some r => set_u_role r v | None => v end in
  match up_active body with Some o => set_u_active (default false o) v | None => v end.

Definition other_owners (tenant_id user_id : Z) (d : DB) : Z :=
  countb (fun u => (u_tenant u =? tenant_id) && negb (u_id u =? user_id) && is_active_owner u) (users d).

Lemma patch_user_inv tid actor role target body tm td u d d' i :
  user_db d -> nonempty_patch body = true ->
  run (patch_user tid actor role target body) tm td u d = (d', Ok i) ->
  exists v, List.find (user_is tid target) (users d) = Some v /\
    ~ (actor = target /\ up_active body = Some (Some false)) /\
    (lower (strip role) = "manager"%string -> u_role v <> "owner"%string /\ asked_role body <> Some "owner"%string) /\
    (forall r, asked_role body = Some r -> In r USER_ROLES) /\
    1 <= (if is_active_owner (patched_user body v) then 1 else 0) + other_owners tid target d /\
    users d' = where_id target (patched_user body) (users d).
Proof.
  intros [Hu Hn] Hne. unfold run. destruct (patch_user _ _ _ _ _ _) as [s1 [j|e]] eqn:E; [|done].
  intros [= <- <-]. unfold patch_user in E. unfold nonempty_patch in Hne. apply negb_true_iff in Hne. rewrite Hne in E.
  cbv zeta in E. destruct ((actor =? target) && _) eqn:Hself; [done|].
  rewrite run_get_user in E by (split; [done|exact Hu]). cbn [mem start] in E.
  destruct (List.find _ _) as [v|] eqn:Hf; [|done]. destruct (find_user_inv _ _ _ _ Hf) as (Hin & Ht & Hid).
  fold (asked_role body) in E. rewrite (Hn v Hin) in E.
  destruct (String.eqb (lower (strip role)) "manager" && String.eqb (u_role v) "owner") eqn:Hm1; [done|].
  destruct (String.eqb (lower (strip role)) "manager" && bool_decide _) eqn:Hm2; [done|].
  destruct (match asked_role body with Some r => _ | None => _ end) eqn:Hr; [done|].
  rewrite run_query in E. fold (other_owners tid target (disk (start d tm td u))) in E.
  destruct (Z.ltb_spec ((if String.eqb (default (u_role v) (asked_role body)) "owner" &&
    match up_active body with Some o => default false o | None => u_active v end then 1 else 0) +
    other_owners tid target (disk (start d tm td u))) 1) as [|Hge]; [done|].
  exists v. split_and!; try done.
  - intros [-> Ha]. rewrite Z.eqb_refl, bool_decide_eq_true_2 in Hself by done. done.
  - intros Hm. rewrite Hm in Hm1, Hm2. cbn in Hm1, Hm2. split; [by apply String.eqb_neq|].
    by apply bool_decide_eq_false_1 in Hm2.
  - intros r Hr'. rewrite Hr' in Hr. apply negb_false_iff in Hr. by apply str_in_spec.
  - etrans; [exact Hge|]. cbn [disk start]. apply Z.add_le_mono_r. unfold is_active_owner, patched_user.
    destruct (asked_role body), (up_active body) as [o|]; cbn; lia.
  - rewrite Hid in E. unfold patched_user.
    destruct (asked_role body) as [r|], (up_active body) as [o|]; unfold assign in E; mrun_in E; injection E as <- <-; cbn.
    + unfold where_id. rewrite List.map_map. apply List.map_ext. intros w. cbn. destruct (u_id w =? target) eqn:Ew; cbn; by rewrite Ew.
    + done.
    + done.
    + unfold where_id. rewrite <- (List.map_id (users d)) at 1. apply List.map_ext. intros w. cbn. by destruct (u_id w =? target).
Qed.

Lemma patched_user_id body v : u_id (patched_user body v) = u_id v.
Proof. unfold patched_user. by destruct (asked_role body), (up_active body). Qed.

Lemma patched_user_tenant body v : u_tenant (patched_user body v) = u_tenant v.
Proof. unfold patched_user. by destruct (asked_role body), (up_active body). Qed.

Lemma where_target_In body target us v :
  In v us -> u_id v <> target -> In v (where_id target (patched_user body) us).
Proof.
  intros Hin Hne. apply (where_id_In (R := User)). exists v. split; [done|]. cbn.
  by destruct (Z.eqb_spec (u_id v) target).
Qed.

Lemma active_owners_patched tid target body us v :
  List.NoDup (List.map u_id us) -> In v us -> u_tenant v = tid -> u_id v = target ->
  countb (fun u => (u_tenant u =? tid) && is_active_owner u) (where_id target (patched_user body) us) =
  (if is_active_owner (patched_user body v) then 1 else 0) +
  countb (fun u => (u_tenant u =? tid) && negb (u_id u =? target) && is_active_owner u) us.
Proof.
  intros Hnd Hin Ht Hid. induction us as [|w us IH]; [done|]. cbn in Hnd. apply List.NoDup_cons_iff in Hnd as [Hni Hnd].
  change (where_id target (patched_user body) (w :: us)) with
    ((if u_id w =? target then patched_user body w else w) :: where_id target (patched_user body) us).
  rewrite !countb_cons. destruct Hin as [->|Hin].
  - rewrite Hid, Z.eqb_refl, patched_user_tenant, Ht, Z.eqb_refl. cbn [andb negb]. rewrite Z.add_0_l. f_equal.
    unfold where_id. rewrite countb_map. apply countb_ext. intros x Hx. cbn.
    destruct (Z.eqb_spec (u_id x) target) as [Ex|]; [|by rewrite andb_true_r]. exfalso. apply Hni.
    rewrite Hid, <- Ex. by apply in_map.
  - destruct (Z.eqb_spec (u_id w) target) as [Ew|Ew].
    + exfalso. apply Hni. rewrite Ew, <- Hid. by apply in_map.
    + rewrite (IH Hnd Hin). rewrite andb_true_r. lia.
Qed.

(** no change of a user leaves the tenant without an active owner. *)
Theorem patch_user_keeps_an_owner tid actor role target body tm td u d d' i :
  user_db d -> nonempty_patch body = true ->
  run (patch_user tid actor role target body) tm td u d = (d', Ok i) ->
  user_db d' /\ 1 <= active_owners tid d' /\
  (forall v, In v (users d) -> u_id v <> target -> In v (users d')).
Proof.
  intros Hdb Hne (v & Hf & _ & _ & Hr & Hown & Hus)%patch_user_inv; [|done|done].
  destruct (find_user_inv _ _ _ _ Hf) as (Hin & Ht & Hid). split_and!.
  - split; rewrite Hus.
    + pose proof (where_id_idents (R := User) target (patched_user body) (users d) (patched_user_id body)) as Hids.
      cbn [ident User_entity] in Hids. rewrite Hids. apply Hdb.
    + intros w (x & Hx & ->)%(where_id_In (R := User)). destruct (ident x =? target); [|by apply Hdb].
      assert (Hrole : lower (strip (u_role (match asked_role body with Some r => set_u_role r x | None => x end))) =
                      u_role (match asked_role body with Some r => set_u_role r x | None => x end)).
      { destruct (asked_role body) as [r|] eqn:Er; [|by apply Hdb]. cbn. specialize (Hr r eq_refl).
        repeat destruct Hr as [<-|Hr]; done. }
      unfold patched_user. destruct (up_active body); exact Hrole.
  - unfold active_owners. rewrite Hus, (active_owners_patched tid target body (users d) v); [exact Hown|apply Hdb|done..].
  - intros w Hw Hwne. rewrite Hus. by apply where_target_In.
Qed.

(** a manager changes no owner's account and makes nobody an
    owner. *)
Theorem managers_cannot_touch_owners tid actor role target body tm td u d d' i :
  user_db d -> nonempty_patch body = true -> lower (strip role) = "manager"%string ->
  run (patch_user tid actor role target body) tm td u d = (d', Ok i) ->
  forall v, u_role v = "owner"%string -> In v (users d) <-> In v (users d').
Proof.
  intros Hdb Hne Hm (v0 & Hf & _ & Hg & _ & _ & Hus)%patch_user_inv v Hv; [|done|done].
  destruct (find_user_inv _ _ _ _ Hf) as (Hin & Ht & Hid). destruct (Hg Hm) as [Hno Hask]. split.
  - intros Hv'. rewrite Hus. apply where_target_In; [done|]. intros E. apply Hno.
    rewrite <- E in Hid. by rewrite (in_unique_key u_id (users d) v0 v (proj1 Hdb) Hin Hv' Hid).
  - rewrite Hus. intros (x & Hx & ->)%(where_id_In (R := User)). cbn in Hv |- *.
    destruct (Z.eqb_spec (u_id x) target) as [E|E]; [|done]. exfalso.
    rewrite <- E in Hid. apply (in_unique_key u_id (users d) v0 x (proj1 Hdb) Hin Hx) in Hid as ->.
    unfold patched_user in Hv. destruct (asked_role body) as [r|]; cbn in Hv.
    + apply Hask. f_equal. by destruct (up_active body).
    + apply Hno. by destruct (up_active body).
Qed.

(** [{"is_active": null}] switches an account off like [false], and
    unlike [false] a user may send it for the own account. *)
Theorem null_switches_oneself_off tid v role tm td u d :
  user_db d -> In v (users d) -> u_tenant v = tid -> 1 <= other_owners tid (u_id v) d ->
  lower (strip role) <> "manager"%string ->
  run (patch_user tid (u_id v) role (u_id v) (UserPatch (Some (Some false)) None)) tm td u d =
    (d, Err (AuthServiceError "cannot deactivate yourself" 400)) /\
  exists d', run (patch_user tid (u_id v) role (u_id v) (UserPatch (Some None) None)) tm td u d = (d', Ok (u_id v)) /\
    users d' = where_id (u_id v) (set_u_active false) (users d).
Proof.
  intros [Hu Hn] Hin Ht Ho Hm. split.
  - unfold run, patch_user. cbn. by rewrite Z.eqb_refl.
  - assert (Hf : List.find (user_is tid (u_id v)) (users d) = Some v).
    { destruct (List.find _ _) as [w|] eqn:Hw.
      - apply find_user_inv in Hw as (Hw & _ & Hid). f_equal. by apply (in_unique_key u_id (users d)).
      - apply (find_none _ _ Hw) in Hin. unfold user_is in Hin. by rewrite Ht, !Z.eqb_refl in Hin. }
    eexists. unfold run, patch_user. cbn [up_active up_role]. rewrite (bool_decide_eq_false_2 (Some None = None)) by done.
    cbn [andb]. cbv zeta. rewrite (bool_decide_eq_false_2 (Some None = Some (Some false))) by done. rewrite andb_false_r.
    rewrite run_get_user by (split; [done|exact Hu]). cbn [mem start]. rewrite Hf.
    apply String.eqb_neq in Hm. rewrite Hm. cbn [andb default]. rewrite run_query.
    rewrite andb_false_r. fold (other_owners tid (u_id v) (disk (start d tm td u))). cbn [disk start].
    destruct (Z.ltb_spec (0 + other_owners tid (u_id v) d) 1); [lia|]. split; reflexivity.
Qed.

End roles.

(** ** A small tenant *)

#[local] Instance toy_crypto : Crypto := {|
  argon2_hash := fun _ p => String "$" p;
  argon2_verify := fun h p => String.eqb h (String "$" p);
  argon2_needs_rehash := fun _ => false;
  sha256_hex := fun s => s;
  token_urlsafe := fun r => String "r" (String (ascii_of_nat (Z.to_nat r)) EmptyString);
  jwt_encode := fun _ => "jwt"%string;
  jwt_decode := fun t token => if String.eqb token "link" && (t <? 3600) then
    Some [("sub", JStr "ann"); ("tenant_id", JStr "one"); ("typ", JStr "password_reset"); ("pwd_fp", JStr "$old"); ("iat", JInt 0); ("exp", JInt 3600)]%string
    else None;
  uuid_parse := fun s => if String.eqb s "one" then Some 1 else if String.eqb s "ann" then Some 5 else None
|}.

#[local] Instance toy_env : Env := {|
  collate := String.leb; python_attr := fun _ => false;
  uuid_str := fun i => if i =? 1 then "one"%string else if i =? 5 then "ann"%string else "other"%string |}.

Definition ann : User := MkUser 5 1 "ann@example.org" "$old" "Ann" "owner" true.
Definition mia : User := MkUser 6 1 "mia@example.org" "$mia" "Mia" "owner" true.
Definition eve : User := MkUser 7 1 "eve@example.org" "$eve" "Eve" "viewer" true.
Definition ann_token : RefreshToken := MkRefreshToken 20 1 5 "k1" 1000 None 10.
Definition mia_token : RefreshToken := MkRefreshToken 21 1 6 "k2" 1000 None 10.
Definition staff_db : DB := put_refresh_tokens [ann_token; mia_token] (put_users [ann; mia; eve] empty_db).
Definition toy_settings : auth_settings := AuthSettings 600 60.

Lemma staff_keys : keys_distinct staff_db.
Proof. split; repeat constructor; cbn; intuition discriminate. Qed.

Lemma staff_users : user_db staff_db.
Proof. split; [apply staff_keys|]. intros v. cbn. by intros [<-|[<-|[<-|[]]]]. Qed.

Lemma refresh_rotates_witness :
  exists d' access fresh,
    run (refresh_session toy_settings 1 (Some " k1 "%string)) 100 0 65 staff_db = (d', Ok (access, fresh)) /\
    run (refresh_session toy_settings 1 (Some " k1 "%string)) 100 0 70 d' =
      (d', Err (AuthServiceError "invalid refresh token" 401)).
Proof.
  destruct (run (refresh_session toy_settings 1 (Some " k1 "%string)) 100 0 65 staff_db) as [d' [[access fresh]|e]] eqn:E.
  - exists d', access, fresh. split; [reflexivity|].
    assert (Htd : token_db 100 65 staff_db).
    { split; [apply staff_keys| | |]; cbn.
      - intros k [<-|[<-|[]]]; cbn; lia.
      - intros k k' [<-|[<-|[]]] [<-|[<-|[]]]; cbn; done.
      - intros k [<-|[<-|[]]]; cbn; lia. }
    destruct (refresh_rotates toy_settings 1 " k1 " 100 0 65 staff_db d' access fresh staff_keys Htd eq_refl) as
      (row & user & _ & _ & _ & _ & _ & _ & _ & _ & _ & _ & H); [|exact E|apply H].
    intros k [<-|[<-|[]]]; discriminate.
  - exfalso. vm_compute in E. discriminate E.
Defined.

Lemma change_password_ends_sessions_witness :
  exists d', run (change_password 1 5 "old" "new") 100 0 65 staff_db = (d', Ok tt) /\ signed_out 1 5 d' /\
    In mia_token (refresh_tokens d').
Proof.
  destruct (run (change_password 1 5 "old" "new") 100 0 65 staff_db) as [d' [[]|e]] eqn:E.
  - exists d'. split; [reflexivity|].
    destruct (change_password_ends_sessions 1 5 "old" "new" 100 0 65 staff_db d' staff_keys E) as
      (user & _ & _ & _ & _ & _ & _ & _ & Hout & Hother). split; [exact Hout|].
    apply Hother; [right; left; reflexivity|reflexivity].
  - exfalso. vm_compute in E. discriminate E.
Defined.

Lemma reset_link_used_once_witness :
  exists d', run (reset_password "link" "new") 100 0 65 staff_db = (d', Ok tt) /\
    List.find (user_is 1 5) (users d') = Some (set_u_password "$new" ann) /\ In mia (users d') /\ In mia_token (refresh_tokens d') /\
    run (reset_password "link" "newer") 200 0 80 d' = (d', Err invalid_token).
Proof.
  destruct (run (reset_password "link" "new") 100 0 65 staff_db) as [d' [[]|e]] eqn:E.
  - exists d'. split; [reflexivity|].
    destruct (reset_link_used_once "link" "new" 100 0 65 staff_db d' staff_keys) as
      [(payload & tid & uid & user & Hj & _ & _ & _ & Hin & Ht & Hi & _ & _ & Hf & _ & Hus & Hks & Hissued) Hlater].
    + intros t _. cbn. destruct (t <? 3600); [by right|by left].
    + intros v [<-|[<-|[<-|[]]]]; discriminate.
    + exact E.
    + destruct (Hissued ann 0) as (<- & <- & _); [cbn in Hj; by injection Hj as <-|reflexivity|reflexivity|].
      split; [change (user_is 1 5) with (user_is (u_tenant ann) (u_id ann)); rewrite Hf; destruct Hin as [<-|[<-|[<-|[]]]]; [reflexivity|discriminate..]|].
      split; [apply Hus; [right; left; reflexivity|discriminate]|].
      split; [apply Hks; [right; left; reflexivity|reflexivity]|]. apply Hlater. lia.
  - exfalso. vm_compute in E. discriminate E.
Defined.

Lemma patch_user_keeps_an_owner_witness :
  exists d', run (patch_user 1 5 "owner" 6 (UserPatch None (Some (Some "Viewer"%string)))) 100 0 65 staff_db = (d', Ok 6) /\
    1 <= active_owners 1 d'.
Proof.
  destruct (run (patch_user 1 5 "owner" 6 (UserPatch None (Some (Some "Viewer"%string)))) 100 0 65 staff_db) as [d' [j|e]] eqn:E.
  - exists d'. split; [vm_compute in E; by injection E as <- <-|].
    apply (patch_user_keeps_an_owner 1 5 "owner" 6 (UserPatch None (Some (Some "Viewer"%string))) 100 0 65 staff_db d' j
      staff_users eq_refl E).
  - exfalso. vm_compute in E. discriminate E.
Defined.

Lemma managers_cannot_touch_owners_witness :
  exists d', run (patch_user 1 8 "Manager" 7 (UserPatch (Some (Some false)) None)) 100 0 65 staff_db = (d', Ok 7) /\
    In ann (users d').
Proof.
  destruct (run (patch_user 1 8 "Manager" 7 (UserPatch (Some (Some false)) None)) 100 0 65 staff_db) as [d' [j|e]] eqn:E.
  - exists d'. split; [vm_compute in E; by injection E as <- <-|].
    apply (managers_cannot_touch_owners 1 8 "Manager" 7 (UserPatch (Some (Some false)) None) 100 0 65 staff_db d' j
      staff_users eq_refl eq_refl E ann eq_refl). left. reflexivity.
  - exfalso. vm_compute in E. discriminate E.
Defined.

Lemma null_switches_oneself_off_witness :
  exists d', run (patch_user 1 5 "owner" 5 (UserPatch (Some None) None)) 100 0 65 staff_db = (d', Ok 5) /\
    users d' = where_id 5 (set_u_active false) (users staff_db).
Proof.
  apply (null_switches_oneself_off 1 ann "owner" 100 0 65 staff_db staff_users);
    [left; reflexivity|reflexivity|vm_compute; discriminate|discriminate].
Defined.
