(* ===== verification/Channex.v ===== *)
(** * Booking revisions from the channel manager

    app/services/channex_booking_service.py and the payload schemas of
    app/integrations/channex/schemas.py: reading a revision, claiming it once,
    and applying a new, modified or cancelled booking to the PMS. *)

From stdpp Require Import pretty.
From S2P Require Import Prelude PyDecimal PyJson StayDates Calendar Tax Models Session.
From S2P Require Import Ledger Rates Folio Booking.

(** ** Payloads *)

Record revision_customer := RevisionCustomer {
  cu_name : option string; cu_surname : option string; cu_mail : option string; cu_phone : option string }.
Record revision_room := RevisionRoom {
  xr_room_type : option string; xr_rate_plan : option string; xr_checkin : option string; xr_checkout : option string }.
Record revision_payload := RevisionPayload {
  px_id : string; px_booking_id : option string; px_status : option string;
  px_arrival : option string; px_departure : option string; px_amount : option string;
  px_customer : option revision_customer; px_rooms : list revision_room;
  px_notes : option string; px_channel : option string }.

(** [str | None = None] *)
Definition opt_str_field (d : dict) (k : string) : option (option string) :=
  match dict_get d k with
  | None | Some JNull => Some None
  | Some (JStr s) => Some (Some s)
  | Some _ => None
  end.

(** [amount: str | float | int | None]; the code only reads [str(amount)]. *)
Definition amount_field (d : dict) : option (option string) :=
  match dict_get d "amount" with
  | None | Some JNull => Some None
  | Some (JStr s) => Some (Some s)
  | Some (JInt z) => Some (Some (pretty z))
  | Some (JFloat r _) => Some (Some r)
  | Some (JBool b) => Some (Some (if b then "1.0" else "0.0")%string)
  | Some _ => None
  end.

Definition room_of_json (j : json) : option revision_room :=
  match j with
  | JObj d =>
      a ← opt_str_field d "room_type_id"; b ← opt_str_field d "rate_plan_id";
      c ← opt_str_field d "checkin_date"; e ← opt_str_field d "checkout_date";
      Some (RevisionRoom a b c e)
  | _ => None
  end.

Definition customer_field (d : dict) : option (option revision_customer) :=
  match dict_get d "customer" with
  | None | Some JNull => Some None
  | Some (JObj c) =>
      a ← opt_str_field c "name"; b ← opt_str_field c "surname";
      m ← opt_str_field c "mail"; p ← opt_str_field c "phone";
      Some (Some (RevisionCustomer a b m p))
  | Some _ => None
  end.

(** [ChannexBookingRevisionPayload.model_validate]; [None] is ValidationError. *)
Definition model_validate (d : dict) : option revision_payload :=
  i ← match dict_get d "id" with Some (JStr s) => Some s | _ => None end;
  bid ← opt_str_field d "booking_id"; _ ← opt_str_field d "property_id"; st ← opt_str_field d "status";
  ar ← opt_str_field d "arrival_date"; de ← opt_str_field d "departure_date";
  am ← amount_field d; _ ← opt_str_field d "currency"; cu ← customer_field d;
  rs ← match dict_get d "rooms" with
       | None => Some []
       | Some (JArr l) => mapM room_of_json l
       | Some _ => None
       end;
  _ ← match dict_get d "occupancy" with None | Some JNull | Some (JObj _) => Some tt | Some _ => None end;
  no ← opt_str_field d "notes"; ch ← opt_str_field d "channel_id";
  Some (RevisionPayload i bid st ar de am cu rs no ch).

(** [x or default] *)
Definition py_or (o : option string) (default : string) : string :=
  match o with Some s => if truthy s then s else default | None => default end.

(** [s or None] *)
Definition or_none (s : string) : option string := if truthy s then Some s else None.

Fixpoint before_T (s : string) : string :=
  match s with
  | EmptyString => EmptyString
  | String c s' => if Ascii.eqb c "T"%char then EmptyString else String c (before_T s')
  end.

Definition parse_iso_date (value : option string) : option date :=
  let s := strip (py_or value EmptyString) in
  if negb (truthy s) then None else fromisoformat (slice 10 (before_T s)).

Definition decimal_amount (raw : option string) : result dec :=
  let s := strip (default EmptyString raw) in
  if negb (truthy s) then Ok (cents 0) else d ← decimal s; quantize_cents_even d.

Definition nightly_prices_from_total (total : dec) (nights : list date) : result (list (date * dec)) :=
  match nights with
  | [] => Ok []
  | _ =>
      let n := Z.of_nat (length nights) in
      q ← dec_div total (dec_of_int n);
      unit ← dec_quantize ROUND_DOWN q (-2);
      let first_sum := dec_mul unit (dec_of_int (n - 1)) in
      last_night ← quantize_cents_even (dec_sub total first_sum);
      Ok (List.map (fun d => (d, unit)) (List.removelast nights) ++ [(List.last nights 0, last_night)])
  end.

Definition guest_payload_from_channex (payload : revision_payload) (fallback_key : string) : result guest_payload :=
  let c := px_customer payload in
  let first := slice 255 (py_or (c ≫= cu_name) "Guest") in
  let last := slice 255 (py_or (c ≫= cu_surname) "Channex") in
  let mail := slice 320 (lower (strip (py_or (c ≫= cu_mail)
                ("channex-" ++ fallback_key ++ "@guests.openpms.invalid")))) in
  let phone := slice 64 (strip (py_or (c ≫= cu_phone) "+10000000000")) in
  if truthy mail && truthy phone then Ok (GuestPayload first last mail phone None)
  else Err (ValueError "GuestPayload").

Definition source_channel (payload : revision_payload) : string :=
  slice 64 ("channex:" ++ slice 40 (strip (py_or (px_channel payload) "ota"))).

Definition check_in_out (payload : revision_payload) : option date * option date :=
  match px_rooms payload with
  | r :: _ =>
      if truthy (py_or (xr_checkin r) EmptyString) && truthy (py_or (xr_checkout r) EmptyString)
      then (parse_iso_date (xr_checkin r), parse_iso_date (xr_checkout r))
      else (parse_iso_date (px_arrival payload), parse_iso_date (px_departure payload))
  | [] => (parse_iso_date (px_arrival payload), parse_iso_date (px_departure payload))
  end.

(** ** Maps between the two systems *)

Section channex.
Context {env : Env}.

Definition resolve_room_and_rate_maps (tenant_id link_id : Z) (cx_room_type_id cx_rate_plan_id : string)
    : M (option (ChannexRoomTypeMap * ChannexRatePlanMap)) :=
  let cx_rt := strip cx_room_type_id in
  let cx_rp := strip cx_rate_plan_id in
  rtm ← scalar (fun m => (cm_tenant m =? tenant_id) && (cm_link m =? link_id) && String.eqb (cm_channex_room_type m) cx_rt);
  match rtm with
  | None => mret None
  | Some rtm =>
      rpm ← scalar (fun q => (cq_tenant q =? tenant_id) && (cq_room_type_map q =? cm_id rtm)
              && String.eqb (cq_channex_rate_plan q) cx_rp);
      mret ((fun rpm => (rtm, rpm)) <$> rpm)
  end.

(** ** Outcomes *)

Record ingest_result := IngestResult {
  ir_skip : bool; ir_push : bool; ir_room_type : option Z; ir_dates : list string; ir_success : bool;
  ir_confirm : option Z; ir_cancel : option Z }.

Definition refused (rt : option Z) : ingest_result := IngestResult false false rt [] false None None.

Definition sorted_date_strs (dates : list date) : list string :=
  sort_str (List.nodup string_dec (List.map isoformat dates)).

Definition pushed (rt : Z) (dates : list date) (confirm cancel : option Z) : ingest_result :=
  IngestResult false true (Some rt) (sorted_date_strs dates) true confirm cancel.

(** The revision is left in error, and the transaction goes on to commit. *)
Definition mark_error (rev : Z) (message : string) (t : Z) : M unit :=
  _ ← assign rev (set_cr_processing "error");
  _ ← assign rev (set_cr_error (Some message));
  _ ← assign rev (set_cr_processed_at (Some t));
  flush.

Definition refuse (rev : Z) (message : string) (rt : option Z) : M ingest_result :=
  t ← get_now; _ ← mark_error rev message t; mret (refused rt).

Definition mark_done (rev link booking : Z) : M unit :=
  t ← get_now;
  _ ← assign rev (set_cr_booking (Some booking));
  _ ← assign rev (set_cr_processing "done");
  _ ← assign rev (set_cr_error None);
  _ ← assign rev (set_cr_processed_at (Some t));
  assign link (set_cl_last_sync (Some t)).

(** ** Claiming a revision *)

(** A text that does not fit its column raises DataError. *)
Definition varchar (n : nat) (s : string) : result string :=
  if (String.length s <=? n)%nat then Ok s else Err DataError.

Definition revision_is (revision_id : string) (r : ChannexBookingRevision) : bool := String.eqb (cr_revision r) revision_id.

(** [insert ... on_conflict_do_nothing(channex_revision_id)]: whether a row
    was inserted. *)
Definition insert_revision (row : ChannexBookingRevision) : M bool :=
  taken ← query (fun d => existsb (revision_is (cr_revision row)) (revisions d));
  if (taken : bool) then mret false
  else _ ← execute (fun d => put_revisions (revisions d ++ [row]) d); mret true.

(** The key of the claimed row, or [None] for "skip".  Row-level security
    hides the rows of other tenants. *)
Definition claim_revision_row (tenant_id : Z) (link : ChannexPropertyLink) (revision_id : string)
    (revision_flat : dict) (payload : revision_payload) : M (option Z) :=
  i ← uuid4;
  rid ← lift (varchar 36 revision_id);
  bid ← lift (varchar 36 (strip (default EmptyString (px_booking_id payload))));
  inserted ← insert_revision (MkChannexBookingRevision i tenant_id (cl_id link) rid (or_none bid)
    (or_none (slice 20 (default EmptyString (px_status payload))))
    (or_none (slice 50 (default EmptyString (px_channel payload))))
    (JObj revision_flat) "processing" None None None);
  rev_row ← scalar (fun r => revision_is revision_id r && (cr_tenant r =? tenant_id));
  match rev_row with
  | None => raise (RuntimeError "channex_booking_revision insert failed")
  | Some r =>
      if (inserted : bool) then mret (Some (cr_id r))
      else if str_in (cr_processing r) ["done"; "processing"]%string then mret None
      else if String.eqb (cr_processing r) "error" then
        _ ← assign (cr_id r) (set_cr_processing "processing");
        _ ← assign (cr_id r) (set_cr_error None);
        _ ← assign (cr_id r) (set_cr_payload (JObj revision_flat));
        _ ← flush;
        mret (Some (cr_id r))
      else mret (Some (cr_id r))
  end.

(** ** Applying a revision *)

(** What the three kinds of revision share. *)
Record stay_revision := StayRevision {
  sv_rev : Z; sv_link : ChannexPropertyLink; sv_external : string;
  sv_room_type : Z; sv_rate_plan : Z; sv_nights : list date; sv_total : dec;
  sv_prices : list (date * dec); sv_source : string; sv_guest : guest_payload; sv_notes : option string }.

Definition by_external (tenant_id : Z) (ext : string) (b : Booking) : bool :=
  (b_tenant b =? tenant_id) && bool_decide (b_ext b = Some ext).

Definition unknown_booking (v : stay_revision) : M ingest_result :=
  refuse (sv_rev v) ("No OpenPMS booking for external_booking_id=" ++ py_repr_str (sv_external v)) (Some (sv_room_type v)).

(** The booked nights, given back to the ledger. *)
Definition release_for_cancel (tenant_id booking_id : Z) : M (list date) :=
  ls ← booking_lines tenant_id booking_id;
  match distinct (List.map l_room_type ls) with
  | [rt_id] =>
      let old_nights := List.map l_date ls in
      rows ← lock_and_validate_availability tenant_id rt_id old_nights 0;
      _ ← decrement_booked_rooms rows 1;
      mret old_nights
  | _ => mret []
  end.

Definition apply_cancelled (tenant_id : Z) (v : stay_revision) : M ingest_result :=
  booking ← scalar (by_external tenant_id (sv_external v));
  match booking with
  | None => unknown_booking v
  | Some b =>
      _ ← load_lines (b_id b);
      '(dates, mail) ←
        (if negb (String.eqb (b_status b) "cancelled") then
           dates ← release_for_cancel tenant_id (b_id b);
           _ ← assign (b_id b) (set_b_status "cancelled");
           mret (dates, Some (b_id b))
         else mret ([], None));
      _ ← mark_done (sv_rev v) (cl_id (sv_link v)) (b_id b);
      _ ← flush;
      mret (pushed (sv_room_type v) dates None mail)
  end.

(** [_update_room_charge_folio] *)
Definition update_room_charge_folio (tenant_id booking_id : Z) (amount : dec) : M unit :=
  update_folio_charge_amount tenant_id booking_id amount.

(** [session.add(BookingLine(...))] for each night at its price. *)
Definition add_priced_lines (tenant_id booking_id room_type_id : Z) (prices : list (date * dec)) : M unit :=
  per_night ← lift (mapR (fun np : date * dec => c ← numeric_14_2 np.2; Ok (np.1, c)) prices);
  add_lines tenant_id booking_id room_type_id None per_night.

(** The guest takes the names and contacts of the revision. *)
Definition update_guest (tenant_id guest_id : Z) (v : stay_revision) : M unit :=
  guest ← scalar (R := Guest) (fun g => (g_tenant g =? tenant_id) && (g_id g =? guest_id));
  match guest with
  | None => mret tt
  | Some g =>
      _ ← assign (g_id g) (set_g_first (gp_first (sv_guest v)));
      _ ← assign (g_id g) (set_g_last (gp_last (sv_guest v)));
      _ ← assign (g_id g) (set_g_email (lower (strip (gp_email (sv_guest v)))));
      _ ← assign (g_id g) (set_g_phone (gp_phone (sv_guest v)));
      match sv_notes v with
      | Some n => if truthy n then assign (g_id g) (set_g_notes (Some (slice 2000 n))) else mret tt
      | None => mret tt
      end
  end.

(** A flush with a changed guest: the address may be another guest's. *)
Definition flush_guest (tenant_id guest_id : Z) (email : string) : M unit :=
  taken ← query (fun d => existsb (fun g => guest_email_is tenant_id email g && negb (g_id g =? guest_id)) (guests d)
            && existsb (fun g => (g_tenant g =? tenant_id) && (g_id g =? guest_id)) (guests d));
  if (taken : bool) then raise IntegrityError else flush.

Definition apply_modified (tenant_id : Z) (v : stay_revision) : M ingest_result :=
  booking ← scalar (by_external tenant_id (sv_external v));
  match booking with
  | None => unknown_booking v
  | Some b =>
      _ ← load_lines (b_id b);
      old_lines ← booking_lines tenant_id (b_id b);
      let old_nights := sorted_set (List.map l_date old_lines) in
      match distinct (List.map l_room_type old_lines) with
      | [old_room_type_id] =>
          old_rows ← lock_and_validate_availability tenant_id old_room_type_id old_nights 0;
          _ ← decrement_booked_rooms old_rows 1;
          new_rows ← lock_and_validate_availability tenant_id (sv_room_type v) (sv_nights v) 1;
          _ ← increment_booked_rooms new_rows 1;
          _ ← execute_delete (line_of tenant_id (b_id b));
          _ ← assign (b_id b) (set_b_rate_plan (Some (sv_rate_plan v)));
          total ← lift (numeric_14_2 (sv_total v));
          _ ← assign (b_id b) (set_b_total total);
          _ ← add_priced_lines tenant_id (b_id b) (sv_room_type v) (sv_prices v);
          _ ← flush;
          room_charge_amount ← replace_country_pack_tax_charges tenant_id (b_id b) (b_property b) (sv_total v);
          _ ← update_room_charge_folio tenant_id (b_id b) room_charge_amount;
          _ ← update_guest tenant_id (b_guest b) v;
          _ ← mark_done (sv_rev v) (cl_id (sv_link v)) (b_id b);
          _ ← flush_guest tenant_id (b_guest b) (lower (strip (gp_email (sv_guest v))));
          mret (pushed (sv_room_type v) (old_nights ++ sv_nights v) None None)
      | _ => refuse (sv_rev v) "Booking lines must share one room type for Channex modify" (Some (sv_room_type v))
      end
  end.

(** [if payload.notes and guest.notes is None] *)
Definition note_new_guest (guest_id : Z) (notes : option string) : M unit :=
  match notes with
  | Some n =>
      if truthy n then
        blank ← attrs (fun d => existsb (fun g => (g_id g =? guest_id) && bool_decide (g_notes g = None)) (guests d));
        if (blank : bool) then assign guest_id (set_g_notes (Some (slice 2000 n))) else mret tt
      else mret tt
  | None => mret tt
  end.

Definition apply_new (tenant_id : Z) (v : stay_revision) : M ingest_result :=
  existing ← scalar (by_external tenant_id (sv_external v));
  match existing with
  | Some b =>
      _ ← mark_done (sv_rev v) (cl_id (sv_link v)) (b_id b);
      _ ← flush;
      mret (IngestResult false false (Some (sv_room_type v)) [] true None None)
  | None =>
      let property_id := cl_property (sv_link v) in
      ledger_rows ← lock_and_validate_availability tenant_id (sv_room_type v) (sv_nights v) 1;
      _ ← increment_booked_rooms ledger_rows 1;
      '(guest_id, _) ← get_or_create_guest_for_booking tenant_id (sv_guest v) false;
      _ ← note_new_guest guest_id (sv_notes v);
      booking_id ← uuid4;
      total ← lift (numeric_14_2 (sv_total v));
      _ ← insert_booking (MkBooking booking_id tenant_id property_id guest_id (Some (sv_rate_plan v))
            (Some (slice 128 (sv_external v))) "confirmed" (sv_source v) total None);
      _ ← add_priced_lines tenant_id booking_id (sv_room_type v) (sv_prices v);
      _ ← insert_folio tenant_id booking_id "Charge" (sv_total v) None (Some "Room charge (Channex OTA)"%string) None "room_charge";
      _ ← flush;
      room_charge_amount ← replace_country_pack_tax_charges tenant_id booking_id property_id (sv_total v);
      _ ← update_room_charge_folio tenant_id booking_id room_charge_amount;
      let night_list := List.map fst (sv_prices v) in
      picked ← pick_first_free_room_for_stay tenant_id property_id (sv_room_type v) night_list booking_id;
      _ ← match picked with
          | Some r => assign_booking_room tenant_id booking_id (Some r)
          | None => mret tt
          end;
      _ ← mark_done (sv_rev v) (cl_id (sv_link v)) booking_id;
      _ ← flush;
      mret (pushed (sv_room_type v) (sv_nights v) (Some booking_id) None)
  end.

(** The exceptions the code turns into a revision in error.  What was changed
    before the exception stays in the session.  After a failed flush the
    session refuses the handler's own flush. *)
Definition ingest_handler (v : stay_revision) (e : exn) : option (M ingest_result) :=
  match e with
  | InsufficientInventoryError m => Some (refuse (sv_rev v) (slice 2000 ("overbooking: " ++ m)) (Some (sv_room_type v)))
  | LedgerNotSeededError m => Some (refuse (sv_rev v) (slice 2000 ("ledger not seeded: " ++ m)) (Some (sv_room_type v)))
  | InvalidBookingContextError m =>
      Some (refuse (sv_rev v) (slice 2000 ("guest creation failed: " ++ m)) (Some (sv_room_type v)))
  | IntegrityError => Some (raise PendingRollbackError)
  | _ => None
  end.

Definition apply_revision (tenant_id : Z) (status_raw : string) (v : stay_revision) : M ingest_result :=
  try_except
    (if String.eqb status_raw "cancelled" then apply_cancelled tenant_id v
     else if String.eqb status_raw "modified" then apply_modified tenant_id v
     else apply_new tenant_id v)
    (ingest_handler v).

Definition ingest_channex_booking (tenant_id : Z) (link : ChannexPropertyLink) (revision_flat : dict) : M ingest_result :=
  match model_validate revision_flat with
  | None => mret (refused None)
  | Some payload =>
      let revision_id := strip (px_id payload) in
      if negb (truthy revision_id) then mret (refused None)
      else
        claim ← claim_revision_row tenant_id link revision_id revision_flat payload;
        match claim with
        | None => mret (IngestResult true false None [] true None None)
        | Some rev =>
            let status_raw := lower (strip (default EmptyString (px_status payload))) in
            match hd_error (px_rooms payload) with
            | Some (RevisionRoom (Some rt_code) (Some rp_code) _ _) =>
                if negb (truthy rt_code && truthy rp_code) then
                  refuse rev "Channex revision missing rooms[0] or room_type_id/rate_plan_id" None
                else
                  maps ← resolve_room_and_rate_maps tenant_id (cl_id link) rt_code rp_code;
                  match maps with
                  | None =>
                      refuse rev ("Unknown channex_room_type_id or rate map: room_type=" ++ py_repr_str rt_code ++
                                  " rate_plan=" ++ py_repr_str rp_code) None
                  | Some (rtm, rpm) =>
                      let rt := Some (cm_room_type rtm) in
                      let external := py_or (or_none (strip (default EmptyString (px_booking_id payload)))) revision_id in
                      match check_in_out payload with
                      | (Some check_in, Some check_out) =>
                          if check_out <=? check_in then refuse rev "Invalid or missing arrival/departure dates" rt
                          else
                            nights ← lift (iter_stay_nights check_in check_out);
                            match nights with
                            | [] => refuse rev "Empty stay nights" rt
                            | _ =>
                                total ← lift (decimal_amount (px_amount payload));
                                prices ← lift (nightly_prices_from_total total nights);
                                guest ← lift (guest_payload_from_channex payload external);
                                apply_revision tenant_id status_raw
                                  (StayRevision rev link external (cm_room_type rtm) (cq_rate_plan rpm) nights total
                                     prices (source_channel payload) guest (px_notes payload))
                            end
                      | _ => refuse rev "Invalid or missing arrival/departure dates" rt
                      end
                  end
            | _ => refuse rev "Channex revision missing rooms[0] or room_type_id/rate_plan_id" None
            end
        end
  end.

End channex.
