(* ===== verification/ChannexLaws.v ===== *)
(** * Revisions are applied once, and keep the inventory in step

    The nightly prices of a revision add up to its amount; a revision is
    claimed once; an accepted one keeps the ledger in step with the bookings;
    what a refused modification leaves behind. *)

From stdpp Require Import gmap.
From Stdlib Require Import Sorted.
From S2P Require Import Prelude PyDecimal PyJson StayDates Calendar BookingStatus Tax Models Session.
From S2P Require Import Ledger LedgerLaws Rates RatesLaws Folio FolioLaws Booking BookingFrame.
From S2P Require Import BookingInvariant BookingRequests Refusals Channex.

(** ** Prices *)

Lemma removelast_last (l : list Z) : l <> [] -> l = List.removelast l ++ [List.last l 0].
Proof. intros H. by apply app_removelast_last. Qed.

Lemma sumZ_const {A} (l : list A) z : sumZ (List.map (fun _ => z) l) = z * Z.of_nat (length l).
Proof. induction l as [|x l IH]; [cbn; lia|]. cbn [List.map sumZ List.fold_right List.length]. fold (sumZ (List.map (fun _ : A => z) l)). rewrite IH. lia. Qed.

Lemma match_nonempty {A B} (l : list A) (x y : B) : l <> [] -> match l with [] => x | _ :: _ => y end = y.
Proof. by destruct l. Qed.

(** C23: the amount of a revision is split over the nights of the stay to
    the cent: every night gets the floor of the mean, the last one also the
    remainder, which is less than a cent per night. *)
Theorem nightly_prices_conserve c nights :
  0 <= c < 10 ^ 14 -> nights <> [] -> Z.of_nat (length nights) <= MAX_STAY_NIGHTS ->
  exists prices, nightly_prices_from_total (cents c) nights = Ok prices /\
    List.map fst prices = nights /\
    sumZ (List.map (fun p => to_cents p.2) prices) = c /\
    forall p, In p prices -> exists z, p.2 = cents z /\
      c / Z.of_nat (length nights) <= z < c / Z.of_nat (length nights) + Z.of_nat (length nights).
Proof.
  intros Hc Hne Hmax. unfold MAX_STAY_NIGHTS in Hmax. set (n := Z.of_nat (length nights)) in *.
  assert (Hn : 1 <= n) by (unfold n; destruct nights; [done|cbn [List.length]; lia]).
  unfold nightly_prices_from_total. rewrite (match_nonempty nights _ _ Hne). fold n.
  destruct (div_round_down c n Hc ltac:(lia)) as (q & -> & Hq). cbn [mbind result_bind]. rewrite Hq. cbn [mbind result_bind].
  set (g := c / n) in *. pose proof (Z.div_mod c n ltac:(lia)) as Hdm. fold g in Hdm. pose proof (Z.mod_pos_bound c n ltac:(lia)) as Hr.
  assert (Hg : 0 <= g) by (apply Z.div_pos; lia). assert (Hgn : 0 <= g * (n - 1) <= c) by nia.
  assert (Hmul : dec_mul (cents g) (dec_of_int (n - 1)) = cents (g * (n - 1))).
  { unfold dec_mul, cents, dec_of_int. cbn [mant expo]. rewrite Z.add_0_r. apply dec_fix_fits. unfold fits, prec. lia. }
  unfold quantize_cents_even. rewrite Hmul, cents_sub by (unfold fits, prec; lia). rewrite quantize_cents by (unfold fits, prec; lia).
  cbn [mbind result_bind]. eexists. split; [reflexivity|]. pose proof (removelast_last nights Hne) as Hrl.
  assert (Hlen : Z.of_nat (length (List.removelast nights)) = n - 1).
  { unfold n. rewrite Hrl at 2. rewrite length_app. cbn [List.length]. lia. }
  split_and!.
  - rewrite List.map_app, List.map_map. cbn [List.map fst]. rewrite List.map_id. by rewrite <- Hrl.
  - rewrite List.map_app, List.map_map, sumZ_app. cbn [snd]. rewrite sumZ_const, Hlen, to_cents_cents.
    cbn [List.map snd sumZ List.fold_right]. rewrite to_cents_cents. lia.
  - intros p [(d & <- & _)%in_map_iff|[<-|[]]]%in_app_iff.
    + exists g. cbn. split; [done|lia].
    + exists (c - g * (n - 1)). cbn. split; [done|]. replace (c - g * (n - 1)) with (g + c mod n) by lia. lia.
Qed.

Lemma nightly_prices_conserve_witness :
  exists prices, nightly_prices_from_total (cents 10000) [1; 2; 3] = Ok prices /\
    sumZ (List.map (fun p => to_cents p.2) prices) = 10000.
Proof.
  destruct (nightly_prices_conserve 10000 [1; 2; 3]) as (prices & H & _ & Hs & _); [lia|done|vm_compute; discriminate|].
  exists prices. split; [exact H|exact Hs].
Defined.

(** ** What the bookkeeping of a revision leaves alone *)

Section frames.
Context (I : session -> Prop) {HI : CoreStable I}.

Lemma insert_revision_frame row : preserves I (insert_revision row).
Proof.
  unfold insert_revision. apply preserves_bind; [apply preserves_query|]. intros [|]; [apply preserves_ret|].
  apply preserves_bind; [|intros; apply preserves_ret]. apply frame_execute; [exact _|]. intros d. by repeat split.
Qed.
#[local] Hint Resolve insert_revision_frame : frame.

Lemma claim_frame t link rid flat p : preserves I (claim_revision_row t link rid flat p).
Proof. unfold claim_revision_row. frames. Qed.

Lemma mark_done_frame rev link b : preserves I (mark_done rev link b).
Proof. unfold mark_done. frames. Qed.

Lemma refuse_frame rev msg rt : preserves I (refuse rev msg rt).
Proof. unfold refuse, mark_error. frames. Qed.

Lemma resolve_frame t link a b : preserves I (resolve_room_and_rate_maps t link a b).
Proof. unfold resolve_room_and_rate_maps. frames. Qed.

Lemma update_guest_frame t g v : preserves I (update_guest t g v).
Proof. unfold update_guest. frames. Qed.

Lemma flush_guest_frame t g e : preserves I (flush_guest t g e).
Proof. unfold flush_guest. frames. Qed.

Lemma note_new_guest_frame g n : preserves I (note_new_guest g n).
Proof. unfold note_new_guest. frames. Qed.
End frames.

Lemma refuse_inv rev msg rt s s' r : refuse rev msg rt s = (s', Ok r) -> r = refused rt.
Proof.
  unfold refuse. rewrite run_now. intros H. mbind_in H s1 u H1. cbv [mret M_ret] in H. by injection H as _ <-.
Qed.

(** ** Cancellations *)

Section apply.
Context {env : Env} (t : Z).

Lemma staged_synced e s : staged e s -> synced Booking s.
Proof. intros [Hwf _ _ (_ & _ & Hb) _]. split; [exact Hb|apply Hwf]. Qed.

Lemma staged_core s b :
  staged (fun _ => 0) s -> In b (bookings (mem s)) -> b_tenant b = t -> core t (b_id b) (b_status b) s.
Proof.
  intros [Hwf Hex Hb (_ & Hl & Hbo) _] Hin Ht. apply core_intro.
  - split; [done| |done]. intros k. by rewrite Hb, Z.add_0_r.
  - by apply same_others_ext.
  - by exists b.
Qed.

Lemma by_external_In ext bs b :
  List.find (by_external t ext) bs = Some b -> In b bs /\ b_tenant b = t /\ b_ext b = Some ext.
Proof.
  intros [Hin Hp]%find_some. unfold by_external in Hp. apply andb_prop in Hp as [Ht%Z.eqb_eq He%bool_decide_eq_true_1].
  done.
Qed.

Lemma release_for_cancel_is_release b s s' ds :
  b_tenant b = t -> release_for_cancel t (b_id b) s = (s', Ok ds) ->
  release_booking_inventory t b s = (s', Ok tt).
Proof.
  intros Ht H. unfold release_for_cancel, release_booking_inventory in *. rewrite Ht.
  mbind_in H s1 ls Hls. rewrite (bind_run _ _ _ _ _ Hls). destruct ls as [|l ls].
  { cbv [mret M_ret distinct List.map List.nodup] in H. by injection H as <- _. }
  destruct (distinct _) as [|rt [|? ?]]; [cbv [mret M_ret] in H; by injection H as <- _| |cbv [mret M_ret] in H; by injection H as <- _].
  cbv zeta in H. mbind_in H s2 rows Hlock. rewrite (bind_run _ _ _ _ _ Hlock). mbind_in H s3 u Hdec.
  cbv [mret M_ret] in H. injection H as <- _. by destruct u.
Qed.

(** The bookings a cancellation may name. *)
Definition releasable (ext : string) (d : DB) : Prop :=
  forall b, In b (bookings d) -> b_tenant b = t -> b_ext b = Some ext ->
    is_active (b_status b) = true \/ b_status b = "cancelled"%string.

Lemma apply_cancelled_inv v s s' r :
  staged (fun _ => 0) s -> releasable (sv_external v) (mem s) ->
  apply_cancelled t v s = (s', Ok r) -> ir_success r = true -> inventory_ok (mem s').
Proof.
  intros Hs Hrel H Hr. unfold apply_cancelled in H. rewrite run_scalar_synced in H by (by apply (staged_synced (fun _ => 0))).
  destruct (List.find _ _) as [b|] eqn:Hf; cycle 1.
  { unfold unknown_booking in H. apply refuse_inv in H as ->. done. }
  apply by_external_In in Hf as (Hin & Ht & He). pose proof (staged_core s b Hs Hin Ht) as Hc.
  mbind_in H s1 u H1. apply (frame_load_lines (core t (b_id b) (b_status b))) in H1; [|exact Hc]. clear u Hs.
  mbind_in H s2 p H2. destruct p as [dates mail].
  assert (Hc2 : core t (b_id b) "cancelled" s2).
  { destruct (String.eqb_spec (b_status b) "cancelled") as [E|E]; cbn [negb] in H2.
    - cbv [mret M_ret] in H2. injection H2 as <- _ _. by rewrite <- E.
    - destruct (Hrel b Hin Ht He) as [Hact|]; [|done]. mbind_in H2 s3 ds H3.
      apply release_for_cancel_is_release in H3; [|done].
      apply (release_triple t (b_id b) (b_status b) b Ht eq_refl Hact) in H3; [|exact H1].
      rewrite (bind_run _ _ _ _ _ (assign_is_on_booking _ _ _)) in H2. cbv [mret M_ret] in H2. injection H2 as <- _ _.
      by apply (set_status_core t (b_id b) (b_status b) "cancelled" (fun _ => 0)). }
  assert (Hfin : core t (b_id b) "cancelled" s'); [|by apply core_inventory in Hfin].
  refine (preserves_bind _ _ _ (mark_done_frame _ _ _ _) _ s2 s' (Ok r) Hc2 H).
  intros _. apply preserves_bind; [apply frame_flush; exact _|]. intros _. apply preserves_ret.
Qed.

(** ** Modifications *)

(** The booking without its lines, whose nights the ledger already counts. *)
Definition bare (bid : Z) (st : string) (e : ledger_key -> Z) (s : session) : Prop :=
  held t bid st e s /\ forall l, In l (lines (mem s)) -> line_of t bid l = false.

Lemma drop_lines_bare bid st e s s' :
  held t bid st e s -> execute_delete (line_of t bid) s = (s', Ok tt) -> bare bid st e s'.
Proof.
  intros [[H1 H2 H3] Hex Hb Ho Hst] H. unfold execute_delete in H. cbv [execute] in H. injection H as <-.
  cbn [mem disk set_mem set_disk table BookingLine_entity put_table].
  set (d' := put_lines (List.filter (fun l => negb (line_of t bid l)) (lines (mem s))) (mem s)).
  assert (Hd' : d' = relined t bid [] (mem s)) by (unfold d', relined; by rewrite app_nil_r).
  assert (Hso : forall d, same_others t bid d (put_lines (List.filter (fun l => negb (line_of t bid l)) (lines d)) d)).
  { intros d. pose proof (relined_others t bid [] d) as Hr. unfold relined in Hr. rewrite app_nil_r in Hr. by apply Hr. }
  split; cycle 1.
  { cbn. intros l [_ Hl]%filter_In. by apply negb_true_iff in Hl. }
  split; cbn [mem disk set_mem set_disk].
  - split; [done|done|]. intros t' b'. fold d'. rewrite Hd'. destruct (decide ((t', b') = (t, bid))) as [[= -> ->]|Hne].
    + rewrite relined_own_lines by done. split; [constructor|done].
    + by rewrite relined_other_lines.
  - intros l1 l2 r Hl1 Hl2. cbn in Hl1, Hl2. apply filter_In in Hl1 as [Hl1 _], Hl2 as [Hl2 _]. by apply (Hex l1 l2 r).
  - intros k. cbn [ledger put_lines]. rewrite Hb. f_equal. by apply others_same.
  - apply (same_others_trans _ _ _ (disk s)); [by apply same_others_sym|].
    apply (same_others_trans _ _ _ (mem s)); [exact Ho|apply Hso].
  - exact Hst.
Qed.

Lemma touch_bare bid f st e :
  keeps_identity f -> (forall b, b_status (f b) = b_status b) ->
  preserves (bare bid st e) (assign (R := Booking) bid f).
Proof.
  intros Hk Hs s s' r [Hh Hl] H. split; [by eapply touch_booking_held|].
  rewrite assign_is_on_booking in H. injection H as <- _. exact Hl.
Qed.

Lemma priced_dates prices per :
  mapR (fun np : date * dec => c ← numeric_14_2 np.2; Ok (np.1, c)) prices = Ok per ->
  List.map fst per = List.map fst prices.
Proof.
  intros H. apply mapR_ok in H. induction H as [|np p prices per Hp _ IH]; [done|]. cbn. f_equal; [|exact IH].
  destruct (numeric_14_2 np.2); [|done]. cbn in Hp. by injection Hp as <-.
Qed.

Lemma add_priced_core bid st rt prices s s' :
  bare bid st (nights_share t rt (List.map fst prices)) s -> is_active st = true ->
  StronglySorted Z.lt (List.map fst prices) ->
  add_priced_lines t bid rt prices s = (s', Ok tt) -> core t bid st s'.
Proof.
  intros [Hh Hl] Hact Hsort H. unfold add_priced_lines in H. apply bind_lift_inv in H as (per & Hp & H).
  apply priced_dates in Hp. rewrite <- Hp in *. apply add_lines_inv in H as (news & Hn & Hm & Hd).
  apply (relined_core t bid st rt per news s); try done.
  - rewrite Hm. unfold relined. f_equal. f_equal. symmetry. apply forallb_filter, forallb_forall.
    intros l Hin. by rewrite Hl.
  - rewrite Hd. apply Hh.
Qed.

Definition stay_ok (v : stay_revision) : Prop :=
  List.map fst (sv_prices v) = sv_nights v /\ StronglySorted Z.lt (sv_nights v).

Lemma apply_modified_inv v s s' r :
  staged (fun _ => 0) s -> stay_ok v ->
  (forall b, In b (bookings (mem s)) -> b_tenant b = t -> b_ext b = Some (sv_external v) -> is_active (b_status b) = true) ->
  apply_modified t v s = (s', Ok r) -> ir_success r = true -> inventory_ok (mem s').
Proof.
  intros Hs [Hpr Hsort] Hrel H Hr. unfold apply_modified in H.
  rewrite run_scalar_synced in H by (by apply (staged_synced (fun _ => 0))).
  destruct (List.find _ _) as [b|] eqn:Hf; cycle 1.
  { unfold unknown_booking in H. apply refuse_inv in H as ->. done. }
  apply by_external_In in Hf as (Hin & Ht & He). pose proof (Hrel b Hin Ht He) as Hact.
  pose proof (staged_core s b Hs Hin Ht) as Hc. clear Hs Hin He Hrel.
  mbind_in H s1 u H1. apply (frame_load_lines (core t (b_id b) (b_status b))) in H1; [|exact Hc]. clear u Hc.
  mbind_in H s2 ls Hls. apply booking_lines_inv in Hls as [-> Hls]. red in Hls. cbv zeta in H.
  destruct (distinct _) as [|ort [|? ?]] eqn:Hd; try (apply refuse_inv in H as ->; done).
  assert (Hrt : forall l, In l ls -> l_room_type l = ort).
  { intros l Hl. apply (distinct_one _ _ Hd). by apply in_map. }
  mbind_in H s3 rows Hlock. apply lock_inv in Hlock as (-> & -> & _). rewrite sorted_set_twice in H.
  mbind_in H s4 u Hdec. destruct u. apply (give_back_held t (b_id b) (b_status b) ort ls s1 s4 Hact Hrt Hls H1) in Hdec.
  mbind_in H s5 rows Hlock. mbind_in H s6 u Hinc. destruct u.
  pose proof (take_nights_held _ _ _ _ _ _ _ _ _ Hdec Hlock Hinc) as H6. rewrite <- Hpr in H6. clear H1 Hdec Hlock Hinc Hls.
  mbind_in H s7 u H7. destruct u. apply (drop_lines_bare (b_id b) (b_status b) _ s6 s7 H6) in H7.
  mbind_in H s8 u H8. eapply touch_bare in H8; [|done|done|exact H7]. apply bind_lift_inv in H as (tot & _ & H).
  mbind_in H s9 u' H9. eapply touch_bare in H9; [|done|done|exact H8].
  mbind_in H s10 u'' H10. destruct u''.
  apply (add_priced_core (b_id b) (b_status b) (sv_room_type v)) in H10; [|exact H9|done|by rewrite Hpr].
  assert (Hfin : core t (b_id b) (b_status b) s'); [|by apply core_inventory in Hfin].
  refine (preserves_bind _ _ _ (frame_flush _) _ s10 s' (Ok r) H10 H). intros _.
  apply preserves_bind; [by apply replace_taxes_frame; exact _|]. intros c.
  apply preserves_bind; [by apply update_folio_frame; exact _|]. intros _.
  apply preserves_bind; [apply update_guest_frame; exact _|]. intros _.
  apply preserves_bind; [apply mark_done_frame; exact _|]. intros _.
  apply preserves_bind; [apply flush_guest_frame; exact _|]. intros _. apply preserves_ret.
Qed.

(** ** New bookings *)

Lemma lock_pending rt nights s s1 s' rows :
  staged (fun _ => 0) s -> lock_and_validate_availability t rt nights 1 s = (s1, Ok rows) ->
  increment_booked_rooms rows 1 s1 = (s', Ok tt) -> pending (nights_share t rt nights) s'.
Proof.
  intros [Hwf Hex Hb _ Hf] Hlock Hinc. apply lock_inv in Hlock as (-> & -> & Hrows). apply increment_inv in Hinc as ->.
  split; cbn [mem set_mem].
  - by apply (well_formed_ext (mem s)).
  - by apply (exclusive_ext (mem s)).
  - intros k. cbn. rewrite booked_at_update, Hb, Z.add_0_r.
    + by unfold nights_share.
    + auto with pms.
    + intros k' Hk'. destruct (Hrows k' Hk') as (r & Hr & _). by exists r.
  - by destruct Hf.
Qed.

(** What follows the lines of a new booking keeps it consistent. *)
Lemma new_tail_triple bid v :
  triple (core t bid "confirmed")
    (_ ← insert_folio t bid "Charge" (sv_total v) None (Some "Room charge (Channex OTA)"%string) None "room_charge";
     _ ← flush;
     room_charge_amount ← replace_country_pack_tax_charges t bid (cl_property (sv_link v)) (sv_total v);
     _ ← update_room_charge_folio t bid room_charge_amount;
     picked ← pick_first_free_room_for_stay t (cl_property (sv_link v)) (sv_room_type v) (List.map fst (sv_prices v)) bid;
     _ ← match picked with Some r => assign_booking_room t bid (Some r) | None => mret tt end;
     _ ← mark_done (sv_rev v) (cl_id (sv_link v)) bid; _ ← flush;
     mret (pushed (sv_room_type v) (sv_nights v) (Some bid) None))
    (fun _ => core t bid "confirmed").
Proof.
  pose (I := core t bid "confirmed").
  apply (triple_bind _ _ (fun _ => I)); [by apply triple_preserves, insert_folio_frame; exact _|]. intros _.
  apply (triple_bind _ _ (fun _ => I)); [by apply triple_preserves, frame_flush; exact _|]. intros _.
  apply (triple_bind _ _ (fun _ => I)); [by apply triple_preserves, replace_taxes_frame; exact _|]. intros c.
  apply (triple_bind _ _ (fun _ => I)); [by apply triple_preserves, update_folio_frame; exact _|]. intros _.
  apply (triple_bind _ _ (fun _ => I)); [by apply triple_preserves, pick_room_frame; exact _|]. intros o.
  apply (triple_bind _ _ (fun _ => I)).
  { destruct o as [x|]; [by apply assign_room_core|by apply triple_ret]. }
  intros _. apply triple_preserves. apply preserves_bind; [apply mark_done_frame; exact _|]. intros _.
  apply preserves_bind; [apply frame_flush; exact _|]. intros _. apply preserves_ret.
Qed.

Lemma apply_new_inv v s s' r :
  staged (fun _ => 0) s -> stay_ok v ->
  apply_new t v s = (s', Ok r) -> inventory_ok (mem s').
Proof.
  intros Hs [Hpr Hsort] H. unfold apply_new in H.
  rewrite run_scalar_synced in H by (by apply (staged_synced (fun _ => 0))).
  destruct (List.find _ _) as [b|].
  { assert (Hfin : staged (fun _ => 0) s').
    { refine (preserves_bind _ _ _ (mark_done_frame _ _ _ _) _ s s' (Ok r) Hs H).
      intros _. apply preserves_bind; [apply frame_flush; exact _|]. intros _. apply preserves_ret. }
    destruct Hfin as [Hwf Hex Hb _ _]. split; [done| |done]. intros k. by rewrite Hb, Z.add_0_r. }
  cbv zeta in H. mbind_in H s1 rows Hlock. mbind_in H s2 u Hinc. destruct u.
  pose proof (lock_pending _ _ _ _ _ _ Hs Hlock Hinc) as H2. rewrite <- Hpr in H2, Hsort. clear Hs Hlock Hinc.
  set (e := nights_share t (sv_room_type v) (List.map fst (sv_prices v))) in *.
  mbind_in H s3 g H3. destruct g as [gid merged]. apply (guest_frame (pending e)) in H3; [|exact H2].
  mbind_in H s4 u H4. apply (note_new_guest_frame (pending e)) in H4; [|exact H3].
  mbind_in H s5 bid H5. cbv [uuid4] in H5. injection H5 as H5 Hbid.
  assert (Hp5 : pending e s5).
  { apply (frame_uuid4 (pending e) s4 s5 (Ok bid)); [done|]. cbv [uuid4]. by rewrite H5, Hbid. }
  assert (Hf : fresh bid (mem s5)) by (rewrite <- H5, <- Hbid; cbn; apply H4).
  apply bind_lift_inv in H as (tot & _ & H). mbind_in H s6 u6 H6. destruct u6.
  apply (insert_booking_held _ e) in H6 as (Hh & Hm & _); [|done|exact Hp5|exact Hf]. cbn in Hh.
  mbind_in H s7 u7 H7. destruct u7.
  apply (add_priced_core bid "confirmed" (sv_room_type v)) in H7; [| |done|exact Hsort]; cycle 1.
  { split; [exact Hh|]. intros l Hl. rewrite Hm in Hl. exact (fresh_no_lines bid bid (mem s5) t Hf (Z.le_refl bid) l Hl). }
  assert (Hfin : core t bid "confirmed" s'); [|by apply core_inventory in Hfin].
  exact (new_tail_triple bid v s7 s' r H7 H).
Qed.

End apply.

(** ** The whole ingestion *)

Lemma nightly_dates total nights prices :
  nightly_prices_from_total total nights = Ok prices -> List.map fst prices = nights.
Proof.
  unfold nightly_prices_from_total. intros H. destruct (decide (nights = [])) as [->|Hne]; [by injection H as <-|].
  rewrite (match_nonempty nights _ _ Hne) in H.
  destruct (dec_div _ _) as [q|]; [|done]. cbn in H. destruct (dec_quantize _ _ _) as [unit|]; [|done]. cbn in H.
  destruct (quantize_cents_even _) as [l|]; [|done]. cbn in H. injection H as <-.
  rewrite List.map_app, List.map_map. cbn [List.map fst]. rewrite List.map_id. symmetry. by apply removelast_last.
Qed.

Definition payload_status (p : revision_payload) : string := lower (strip (default EmptyString (px_status p))).
Definition payload_external (p : revision_payload) : string :=
  py_or (or_none (strip (default EmptyString (px_booking_id p)))) (strip (px_id p)).

(** The bookings the revision names are active, or it cancels one that is
    cancelled already. *)
Definition amendable (t : Z) (p : revision_payload) (d : DB) : Prop :=
  forall b, In b (bookings d) -> b_tenant b = t -> b_ext b = Some (payload_external p) ->
    is_active (b_status b) = true \/ (payload_status p = "cancelled"%string /\ b_status b = "cancelled"%string).

Section ingest.
Context {env : Env}.

Lemma apply_revision_inv t p v s s' r :
  staged (fun _ => 0) s -> stay_ok v -> sv_external v = payload_external p -> amendable t p (mem s) ->
  apply_revision t (payload_status p) v s = (s', Ok r) -> ir_success r = true -> inventory_ok (mem s').
Proof.
  intros Hs Hv He Hok H Hr. unfold apply_revision, try_except in H.
  match type of H with (let (_, _) := ?m s in _) = _ => destruct (m s) as [s1 [a|e]] eqn:E end; cycle 1.
  { destruct e; cbn in H; try done; by apply refuse_inv in H as ->. }
  injection H as <- ->. destruct (String.eqb_spec (payload_status p) "cancelled") as [Ec|Ec].
  - eapply (apply_cancelled_inv t v s s1 r Hs); [|exact E|exact Hr].
    intros b Hin Ht Hb. rewrite He in Hb. destruct (Hok b Hin Ht Hb) as [Ha|[_ Ha]]; [by left|by right].
  - assert (Hact : forall b, In b (bookings (mem s)) -> b_tenant b = t -> b_ext b = Some (sv_external v) ->
      is_active (b_status b) = true).
    { intros b Hin Ht Hb. rewrite He in Hb. by destruct (Hok b Hin Ht Hb) as [Ha|[? _]]. }
    destruct (String.eqb _ _).
    + by apply (apply_modified_inv t v s s1 r Hs Hv Hact E).
    + by apply (apply_new_inv t v s s1 r Hs Hv E).
Qed.

(** C22: an accepted revision, be it a new, modified or cancelled
    booking, keeps the ledger in step with the bookings and the rooms
    exclusive, when the booking it amends is active. *)
Theorem ingest_keeps_inventory t link flat tm td u d d' r :
  inventory_ok d -> fresh u d -> (forall p, model_validate flat = Some p -> amendable t p d) ->
  run (ingest_channex_booking t link flat) tm td u d = (d', Ok r) -> ir_success r = true -> inventory_ok d'.
Proof.
  intros Hinv Hf Ham. unfold run. destruct (ingest_channex_booking _ _ _ _) as [s1 [a|e]] eqn:H; [|done].
  intros [= <- ->] Hr. unfold ingest_channex_booking in H.
  assert (Hs : staged_on d (fun _ => 0) (start d tm td u)) by (split; [by apply staged_start|apply same_core_refl]).
  destruct (model_validate flat) as [p|] eqn:Hp; [|cbv [mret M_ret] in H; by injection H as _ <-]. specialize (Ham p eq_refl).
  destruct (negb _); [cbv [mret M_ret] in H; by injection H as _ <-|]. cbv zeta in H.
  mbind_in H s2 claim H2. apply (claim_frame (staged_on d (fun _ => 0))) in H2; [|exact Hs].
  destruct claim as [rev|].
  2:{ cbv [mret M_ret] in H. injection H as <- _. destruct H2 as [[Hwf Hex Hb _ _] _]. split; [done| |done]. intros k. by rewrite Hb, Z.add_0_r. }
  fold (payload_status p) (payload_external p) in H.
  destruct (hd_error _) as [[[rt|] [rp|] ci co]|]; try (apply refuse_inv in H as ->; done).
  destruct (negb _); [apply refuse_inv in H as ->; done|]. mbind_in H s3 maps H3.
  apply (resolve_frame (staged_on d (fun _ => 0))) in H3 as [H3 Hd]; [|exact H2].
  destruct maps as [[rtm rpm]|]; [|apply refuse_inv in H as ->; done].
  destruct (check_in_out p) as [[cin|] [cout|]]; try (apply refuse_inv in H as ->; done).
  destruct (cout <=? cin); [apply refuse_inv in H as ->; done|].
  apply bind_lift_inv in H as (nights & Hn & H). pose proof (iter_stay_nights_sorted _ _ _ Hn) as Hsort.
  destruct nights as [|n0 ns] eqn:En; [apply refuse_inv in H as ->; done|]. rewrite <- En in *. clear n0 ns En.
  apply bind_lift_inv in H as (total & _ & H). apply bind_lift_inv in H as (prices & Hpr & H).
  apply bind_lift_inv in H as (guest & _ & H). apply nightly_dates in Hpr.
  refine (apply_revision_inv t p _ s3 s1 r H3 _ _ _ H Hr); [by split|done|].
  intros b. destruct Hd as (_ & _ & <-). apply Ham.
Qed.

(** ** Once *)

(** a revision that is done or being processed is skipped: presenting
    it again, with whatever payload, changes nothing. *)
Theorem settled_revision_skipped t link flat p row tm td u d :
  model_validate flat = Some p -> truthy (strip (px_id p)) = true ->
  (String.length (strip (px_id p)) <= 36)%nat -> (String.length (strip (default EmptyString (px_booking_id p))) <= 36)%nat ->
  List.NoDup (List.map cr_id (revisions d)) -> In row (revisions d) -> cr_tenant row = t ->
  cr_revision row = strip (px_id p) -> (forall r, In r (revisions d) -> cr_revision r = cr_revision row -> r = row) ->
  cr_processing row = "done"%string \/ cr_processing row = "processing"%string ->
  run (ingest_channex_booking t link flat) tm td u d = (d, Ok (IngestResult true false None [] true None None)).
Proof.
  intros Hp Hid Hlen1 Hlen2 Hnd Hin Ht Hrow Huniq Hdone.
  assert (Hclaim : exists s, claim_revision_row t link (strip (px_id p)) flat p (start d tm td u) = (s, Ok None) /\ mem s = d).
  { unfold claim_revision_row, varchar. rewrite (proj2 (Nat.leb_le _ _) Hlen1), (proj2 (Nat.leb_le _ _) Hlen2).
    unfold mbind at 1, M_bind at 1. cbv [uuid4]. rewrite !run_lift_ok.
    set (s1 := Session _ _ _ _ _ _). assert (Hsync : synced ChannexBookingRevision s1) by (split; [done|exact Hnd]).
    unfold insert_revision. rewrite run_assoc, run_query. cbn [disk s1 start cr_revision].
    rewrite (proj2 (existsb_exists _ _)) by (exists row; split; [done|]; unfold revision_is; by rewrite Hrow, String.eqb_refl).
    rewrite run_ret, run_scalar_synced by exact Hsync. cbn [mem s1 table ChannexBookingRevision_entity].
    assert (Hfind : List.find (fun r => revision_is (strip (px_id p)) r && (cr_tenant r =? t)) (revisions d) = Some row).
    { destruct (List.find _ _) as [r|] eqn:Hf.
      - apply find_some in Hf as [Hr [He _]%andb_prop]. apply String.eqb_eq in He. f_equal. apply Huniq; [done|congruence].
      - apply (find_none _ _ Hf) in Hin. unfold revision_is in Hin. by rewrite Hrow, Ht, String.eqb_refl, Z.eqb_refl in Hin. }
    match goal with |- context [List.find ?q ?l] => change (List.find q l) with
      (List.find (fun r => revision_is (strip (px_id p)) r && (cr_tenant r =? t)) (revisions d)) end.
    rewrite Hfind. exists s1. split; [|done].
    replace (str_in (cr_processing row) ["done"; "processing"]%string) with true by (by destruct Hdone as [-> | ->]). done. }
  destruct Hclaim as (s & Hc & Hm). unfold run, ingest_channex_booking. rewrite Hp, Hid. cbn [negb]. cbv zeta.
  rewrite (bind_run _ _ _ _ _ Hc). cbv [mret M_ret]. by rewrite Hm.
Qed.

(** ** An over-booked modification *)

Lemma booking_line_booked d t bid l :
  inventory_ok d -> booking_active d t bid = true -> In l (lines_of d t bid) ->
  exists r, ledger d !! line_key l = Some r /\ 1 <= booked_rooms r.
Proof.
  intros Hinv Hact Hl. apply filter_In in Hl as [Hin Hp].
  assert (Hla : line_active d l = true) by (by rewrite (line_of_active _ t bid)).
  destruct (active_line_row d l (inv_accounted _ Hinv) Hin Hla) as [r Hr]. exists r. split; [done|].
  pose proof (inv_accounted _ Hinv (line_key l)) as Ha. unfold booked_at in Ha. rewrite Hr in Ha. rewrite Ha.
  unfold occupancy. eapply countb_In; [exact Hin|]. rewrite Hla. unfold at_key. by rewrite bool_decide_eq_true_2.
Qed.

(** The ledger after the nights have been given back. *)
Definition given_back (t rt : Z) (nights : list date) (L : ledger_map) : ledger_map :=
  update_rows (add_booked (- (1))) (keys_of t rt (sorted_set nights)) L.

(** a modification that finds no room on its new nights is refused,
    but its transaction commits: the old nights have been given back to the
    ledger while the booking keeps them. *)
Theorem overbooked_modification_leaks t b v ort tm td u d :
  inventory_ok d -> List.find (by_external t (sv_external v)) (bookings d) = Some b -> is_active (b_status b) = true ->
  lines_of d t (b_id b) <> [] -> (forall l, In l (lines_of d t (b_id b)) -> l_room_type l = ort) ->
  (forall l r, In l (lines_of d t (b_id b)) -> ledger d !! line_key l = Some r -> 0 <= available_rooms r) ->
  let L := given_back t ort (List.map l_date (lines_of d t (b_id b))) (ledger d) in
  (forall x, In x (sv_nights v) -> is_Some (ledger d !! (t, sv_room_type v, x))) ->
  (exists x r, In x (sv_nights v) /\ L !! (t, sv_room_type v, x) = Some r /\ available_rooms r < 1) ->
  exists d', run (apply_revision t "modified" v) tm td u d = (d', Ok (refused (Some (sv_room_type v)))) /\
    bookings d' = bookings d /\ lines d' = lines d /\ ledger d' = L /\ ~ accounted d'.
Proof.
  intros Hinv Hf Hact Hne Hort Hav L Hrows Hfull. apply by_external_In in Hf as Hb. destruct Hb as (Hin & Ht & _).
  set (ls := lines_of d t (b_id b)) in *. set (ks := keys_of t ort (sorted_set (List.map l_date ls))) in *.
  assert (Hba : booking_active d t (b_id b) = true).
  { rewrite (has_status_active d t (b_id b) (b_status b)); [done|apply Hinv|by exists b]. }
  assert (Hkey : forall l, In l ls -> line_key l = (t, ort, l_date l)).
  { intros l Hl. unfold line_key. rewrite (Hort l Hl). apply filter_In in Hl as [_ Hp]. unfold line_of in Hp.
    by apply andb_prop in Hp as [->%Z.eqb_eq _]. }
  assert (Hold : forall x, In x (List.map l_date ls) -> exists r, ledger d !! (t, ort, x) = Some r /\ 0 <= available_rooms r /\ 1 <= booked_rooms r).
  { intros x (l & <- & Hl)%in_map_iff. destruct (booking_line_booked d t (b_id b) l Hinv Hba Hl) as (r & Hr & Hbk).
    exists r. rewrite <- Hkey by done. split_and!; [done|by apply (Hav l)|done]. }
  assert (Hin_set : forall x, In x (sorted_set (List.map l_date ls)) <-> In x (List.map l_date ls)) by (intros; apply sorted_set_In).
  set (s0 := set_expired [] (start d tm td u)).
  set (s1 := set_mem (on_ledger (update_rows (add_booked (- (1))) ks) (mem s0)) s0).
  assert (Hlock : lock_and_validate_availability t ort (sorted_set (List.map l_date ls)) 0 s0 = (s0, Ok ks)).
  { rewrite (lock_granted t ort (sorted_set (List.map l_date ls))); [by rewrite sorted_set_twice| |].
    - intros x Hx%Hin_set. destruct (Hold x Hx) as (r & Hr & _). by exists r.
    - intros x Hx%Hin_set. destruct (Hold x Hx) as (r & Hr & Ha & _). by exists r. }
  assert (Hdec : decrement_booked_rooms ks 1 s0 = (s1, Ok tt)).
  { apply decrement_granted; [unfold ks; auto with pms|]. intros k (x & -> & Hx)%in_keys_of. apply Hin_set in Hx.
    destruct (Hold x Hx) as (r & Hr & _ & Hbk). by exists r. }
  assert (Hnew : lock_and_validate_availability t (sv_room_type v) (sv_nights v) 1 s1 = (s1, Err InsufficientInventory)).
  { apply lock_refused; [exact Hrows| |exact Hfull].
    intros x Hx. destruct (Hrows x Hx) as [r Hr]. cbn. rewrite update_rows_lookup by (unfold ks; auto with pms).
    rewrite Hr. destruct (bool_decide _); by eexists. }
  assert (Happ : apply_modified t v (start d tm td u) = (s1, Err InsufficientInventory)).
  { unfold apply_modified. rewrite run_scalar_synced by (split; [done|apply Hinv]).
    cbn [mem start table Booking_entity]. rewrite Hf.
    assert (Hload : load_lines (b_id b) (start d tm td u) = (s0, Ok tt)) by done. rewrite (bind_run _ _ _ _ _ Hload).
    assert (Hlines : booking_lines t (b_id b) s0 = (s0, Ok ls)) by done. rewrite (bind_run _ _ _ _ _ Hlines). cbv zeta.
    destruct ls as [|l0 ls0] eqn:Els; [done|]. rewrite <- Els in *.
    rewrite (distinct_all _ ort); [|rewrite Els; cbn; left; apply Hort; rewrite Els; by left|].
    2:{ intros y (l' & <- & Hl')%in_map_iff. by apply Hort. }
    rewrite (bind_run _ _ _ _ _ Hlock), (bind_run _ _ _ _ _ Hdec). unfold mbind, M_bind. by rewrite Hnew. }
  eexists. split.
  { unfold run, apply_revision. cbn [String.eqb Ascii.eqb Bool.eqb]. unfold try_except. rewrite Happ. cbn [ingest_handler InsufficientInventory].
    reflexivity. }
  split_and!; [done|done|done|]. intros Hacc.
  assert (Hl : exists l, In l ls) by (clear - Hne; destruct ls as [|l0 ?]; [done|exists l0; by left]).
  destruct Hl as [l Hl]. specialize (Hacc (line_key l)).
  pose proof (inv_accounted _ Hinv (line_key l)) as Ha. destruct (booking_line_booked d t (b_id b) l Hinv Hba Hl) as (r & Hr & _).
  unfold booked_at in *. rewrite Hr in Ha.
  match type of Hacc with context [ledger ?m] => change (ledger m) with (update_rows (add_booked (- (1))) ks (ledger d)) in Hacc end.
  rewrite update_rows_lookup in Hacc by (unfold ks; auto with pms).
  rewrite Hr in Hacc. rewrite bool_decide_eq_true_2 in Hacc.
  - cbn in Hacc. match type of Hacc with _ = ?o => change o with (occupancy d (line_key l)) in Hacc end. lia.
  - apply list_elem_of_In. rewrite (Hkey l Hl). unfold ks, keys_of. apply in_map_iff. exists (l_date l). split; [done|]. apply Hin_set. by apply in_map.
Qed.

End ingest.

(** ** A hotel on a channel manager *)

Definition ota_link : ChannexPropertyLink := MkChannexPropertyLink 40 1 3 "cx-prop" None "key" "sandbox" "active" None None None.
Definition ota_db : DB :=
  put_links [ota_link] (put_room_type_maps [MkChannexRoomTypeMap 41 1 40 7 "rt-1" None]
    (put_rate_plan_maps [MkChannexRatePlanMap 42 1 41 5 "rp-1" None] hotel_db)).

(** Two nights for 100.01. *)
Definition ota_revision : dict :=
  [("id", JStr " rev-1 "); ("booking_id", JStr "bk-1"); ("status", JStr "new"); ("amount", JStr "100.01");
   ("arrival_date", JStr "0001-04-10"); ("departure_date", JStr "0001-04-12");
   ("rooms", JArr [JObj [("room_type_id", JStr "rt-1"); ("rate_plan_id", JStr "rp-1")]])]%string.

Lemma ota_inventory : inventory_ok ota_db.
Proof.
  destruct hotel_inventory as [Hwf Hb Hex].
  split; [by apply (well_formed_ext hotel_db)|exact Hb|by apply (exclusive_ext hotel_db)].
Qed.

Lemma ota_fresh : fresh 1000 ota_db.
Proof. by split. Qed.

Lemma ota_amendable flat p : model_validate flat = Some p -> amendable 1 p ota_db.
Proof. intros _ b []. Qed.

Lemma ota_ingested :
  exists d' r, run (ingest_channex_booking (env := sample_env) 1 ota_link ota_revision) 0 0 1000 ota_db = (d', Ok r) /\
    ir_success r = true /\ ir_dates r = ["0001-04-10"; "0001-04-11"]%string /\
    List.map b_total (bookings d') = [10001].
Proof. eexists _, _. split; [vm_compute; reflexivity|]. split; [|split]; vm_compute; reflexivity. Qed.

Lemma ingest_keeps_inventory_witness :
  exists d' r, run (ingest_channex_booking (env := sample_env) 1 ota_link ota_revision) 0 0 1000 ota_db = (d', Ok r) /\
    List.map b_total (bookings d') = [10001] /\ inventory_ok d'.
Proof.
  destruct ota_ingested as (d' & r & H & Hr & _ & Ht). exists d', r. split_and!; [exact H|exact Ht|].
  exact (ingest_keeps_inventory (env := sample_env) 1 ota_link ota_revision 0 0 1000 ota_db d' r ota_inventory ota_fresh
    (ota_amendable ota_revision) H Hr).
Defined.

(** The database after that booking. *)
Definition ota_booked : DB :=
  (run (ingest_channex_booking (env := sample_env) 1 ota_link ota_revision) 0 0 1000 ota_db).1.

Lemma ota_booked_inventory : inventory_ok ota_booked.
Proof.
  destruct ota_ingested as (d' & r & H & Hr & _). unfold ota_booked. rewrite H.
  exact (ingest_keeps_inventory 1 ota_link ota_revision 0 0 1000 ota_db d' r ota_inventory ota_fresh
    (ota_amendable ota_revision) H Hr).
Qed.

Lemma settled_revision_skipped_witness :
  exists row, In row (revisions ota_booked) /\ cr_processing row = "done"%string /\
    run (ingest_channex_booking (env := sample_env) 1 ota_link ota_revision) 9 9 5000 ota_booked =
    (ota_booked, Ok (IngestResult true false None [] true None None)).
Proof.
  assert (H : exists p row, model_validate ota_revision = Some p /\ revisions ota_booked = [row] /\
    strip (px_id p) = "rev-1"%string /\ px_booking_id p = Some "bk-1"%string /\ cr_tenant row = 1 /\
    cr_revision row = "rev-1"%string /\ cr_processing row = "done"%string).
  { eexists _, _. split; [vm_compute; reflexivity|]. split; [vm_compute; reflexivity|]. repeat split. }
  destruct H as (p & row & Hp & Hrows & Hid & Hbk & Ht & Hrev & Hdone).
  assert (Hin : In row (revisions ota_booked)) by (rewrite Hrows; left; reflexivity).
  exists row. split; [exact Hin|]. split; [exact Hdone|].
  apply (settled_revision_skipped (env := sample_env) 1 ota_link ota_revision p row 9 9 5000 ota_booked Hp).
  - rewrite Hid. reflexivity.
  - rewrite Hid. cbn. lia.
  - rewrite Hbk. apply Nat.leb_le; vm_compute; reflexivity.
  - rewrite Hrows. repeat constructor. intros [].
  - exact Hin.
  - exact Ht.
  - exact (eq_trans Hrev (eq_sym Hid)).
  - intros r Hr _. rewrite Hrows in Hr. destruct Hr as [->|[]]. reflexivity.
  - left. exact Hdone.
Defined.

(** The same two nights moved a night later, when the new night is sold out. *)
Definition sold_out : DB := put_ledger (alter (set_blocked 2) (1, 7, 102) (ledger ota_booked)) ota_booked.
Definition moved : stay_revision :=
  StayRevision 50 ota_link "bk-1" 7 5 [101; 102] (cents 10001) [(101, cents 5000); (102, cents 5001)] "channex:ota" ann None.

Lemma closed_night_inventory k n d :
  inventory_ok d -> inventory_ok (put_ledger (alter (set_blocked n) k (ledger d)) d).
Proof.
  intros [Hwf Hb Hex]. split; [by apply (well_formed_ext d)| |by apply (exclusive_ext d)].
  intros k'. specialize (Hb k'). cbn [ledger put_ledger]. unfold booked_at in *.
  destruct (decide (k' = k)) as [->|Hne].
  - rewrite lookup_alter_eq. destruct (ledger d !! _); exact Hb.
  - rewrite lookup_alter_ne by congruence. exact Hb.
Qed.

Lemma overbooked_modification_leaks_witness :
  exists d', run (apply_revision (env := sample_env) 1 "modified" moved) 9 9 5000 sold_out = (d', Ok (refused (Some 7))) /\
    lines d' = lines sold_out /\ ~ accounted d'.
Proof.
  assert (H : exists b l1 l2, List.find (by_external 1 "bk-1") (bookings sold_out) = Some b /\ b_id b = 1002 /\
    is_active (b_status b) = true /\ lines_of sold_out 1 1002 = [l1; l2] /\
    l_room_type l1 = 7 /\ l_room_type l2 = 7 /\
    ledger sold_out !! line_key l1 = Some (MkLedger 2 1 0) /\ ledger sold_out !! line_key l2 = Some (MkLedger 2 1 0) /\
    given_back 1 7 (List.map l_date [l1; l2]) (ledger sold_out) !! (1, 7, 102) = Some (MkLedger 2 0 2)).
  { eexists _, _, _. split_and!; vm_compute; reflexivity. }
  destruct H as (b & l1 & l2 & Hf & Hb & Hst & Hls & Hr1 & Hr2 & Hk1 & Hk2 & Hfull).
  assert (Hrows : forall x, In x (sv_nights moved) -> is_Some (ledger sold_out !! (1, sv_room_type moved, x))).
  { assert (H : exists r1 r2, ledger sold_out !! (1, 7, 101) = Some r1 /\ ledger sold_out !! (1, 7, 102) = Some r2).
    { eexists _, _. split; vm_compute; reflexivity. }
    destruct H as (r1 & r2 & H1 & H2). intros x [<-|[<-|[]]]; eexists; [exact H1|exact H2]. }
  destruct (overbooked_modification_leaks (env := sample_env) 1 b moved 7 9 9 5000 sold_out
      (closed_night_inventory (1, 7, 102) 2 ota_booked ota_booked_inventory) Hf Hst)
    as (d' & Hrun & _ & Hl & _ & Ha).
  - rewrite Hb, Hls. discriminate.
  - rewrite Hb, Hls. intros l [<-|[<-|[]]]; [exact Hr1|exact Hr2].
  - rewrite Hb, Hls. intros l r [<-|[<-|[]]] Hr; [rewrite Hk1 in Hr|rewrite Hk2 in Hr]; injection Hr as <-; apply Z.leb_le; reflexivity.
  - exact Hrows.
  - exists 102, (MkLedger 2 0 2). rewrite Hb, Hls. split; [right; left; reflexivity|]. split; [exact Hfull|reflexivity].
  - exists d'. split; [exact Hrun|]. split; [exact Hl|exact Ha].
Defined.
