(* ===== verification/Webhooks.v ===== *)
(** * Webhooks: targets, subscriptions and the delivery queue

    app/core/webhook_url_validation.py, webhook_events.py and
    webhook_secrets.py, app/services/webhook_subscription_service.py and
    webhook_delivery_engine.py.

    DNS, the HTTP client, HMAC and Fernet are the parameters of [Net]. *)

From S2P Require Import Prelude PyJson StayDates Models Session Rates Auth.

(** ** Outside *)

(** The attributes of an [ipaddress] object that the code reads. *)
Record ip_object := IpObject {
  is_private : bool; is_loopback : bool; is_link_local : bool; is_reserved : bool; is_multicast : bool }.

(** [socket.getaddrinfo]: the socket addresses (an entry [ip_address] cannot
    read is [None]), [gaierror] with its text, or the UnicodeError of a label
    the idna codec refuses. *)
Inductive resolution :=
  | Addresses (l : list (option ip_object))
  | GaiError (msg : string)
  | IdnaError.

(** [client.post]: the status code, or the text of the exception. *)
Inductive reply :=
  | Response (code : Z)
  | RequestFailed (msg : string).

Class Net := {
  getaddrinfo : string -> Z -> resolution;           (** at a time *)
  ipv6_literal : string -> bool;                     (** what [urlsplit] accepts between brackets *)
  http_post : string -> string -> list (string * string) -> Z -> Z * reply;  (** completion time *)
  hmac_sha256_hex : string -> string -> string;      (** key, message *)
  fernet_encrypt : Z -> string -> string;            (** under the application's key *)
  fernet_decrypt : string -> option string;
  fernet_encrypt_with : string -> Z -> string -> option string  (** under an explicit key, if it is one *)
}.

(** ** [urllib.parse.urlparse] *)

(** [s.partition(c)]: before, whether found, after. *)
Fixpoint partition (c : ascii) (s : string) : string * bool * string :=
  match s with
  | EmptyString => (EmptyString, false, EmptyString)
  | String x s' =>
      if Ascii.eqb x c then (EmptyString, true, s')
      else let '(a, found, b) := partition c s' in (String x a, found, b)
  end.

(** [s.rpartition(c)[2]] *)
Fixpoint after_last (c : ascii) (s : string) : string :=
  match s with
  | EmptyString => EmptyString
  | String x s' => if has_char c s' then after_last c s' else if Ascii.eqb x c then s' else s
  end.

Definition is_alpha (c : ascii) : bool :=
  let n := nat_of_ascii c in ((65 <=? n) && (n <=? 90) || (97 <=? n) && (n <=? 122))%nat.
Definition is_digit (c : ascii) : bool := let n := nat_of_ascii c in ((48 <=? n) && (n <=? 57))%nat.
Definition scheme_char (c : ascii) : bool :=
  is_alpha c || is_digit c || Ascii.eqb c "+" || Ascii.eqb c "-" || Ascii.eqb c ".".

Definition all_chars (p : ascii -> bool) (s : string) : bool := forallb p (list_ascii_of_string s).
Definition string_filter (p : ascii -> bool) (s : string) : string :=
  string_of_list_ascii (List.filter p (list_ascii_of_string s)).
Fixpoint take_until (p : ascii -> bool) (s : string) : string :=
  match s with
  | EmptyString => EmptyString
  | String x s' => if p x then EmptyString else String x (take_until p s')
  end.

(** C0 control characters and blank, at the start. *)
Fixpoint lstrip_c0 (s : string) : string :=
  match s with
  | String x s' => if (nat_of_ascii x <=? 32)%nat then lstrip_c0 s' else s
  | EmptyString => EmptyString
  end.

Section webhooks.
Context {env : Env} {crypto : Crypto} {net : Net}.

(** The scheme and the network location of a URL. *)
Definition urlparse (url : string) : result (string * string) :=
  let url := string_filter (fun c => negb (existsb (Nat.eqb (nat_of_ascii c)) [9; 10; 13]%nat)) (lstrip_c0 url) in
  let '(before, found, after) := partition ":" url in
  let named := found && match before with String c _ => is_alpha c | EmptyString => false end && all_chars scheme_char before in
  let scheme := if named then lower before else EmptyString in
  let rest := if named then after else url in
  match rest with
  | String "/" (String "/" tail) =>
      let netloc := take_until (fun c => existsb (Ascii.eqb c) ["/"; "?"; "#"]%char) tail in
      let opened := has_char "[" netloc in
      let closed := has_char "]" netloc in
      if xorb opened closed then Err (ValueError "Invalid IPv6 URL")
      else if opened && closed && negb (ipv6_literal netloc) then Err (ValueError "Invalid IPv6 URL")
      else Ok (scheme, netloc)
  | _ => Ok (scheme, EmptyString)
  end%char.

(** [parsed.hostname] *)
Definition hostname (netloc : string) : option string :=
  let hostinfo := after_last "@" netloc in
  let '(_, have_open_br, bracketed) := partition "[" hostinfo in
  let host := if have_open_br then fst (fst (partition "]" bracketed)) else fst (fst (partition ":" hostinfo)) in
  if truthy host then
    let '(name, percent, zone) := partition "%" host in
    Some (lower name ++ (if percent then String "%" zone else EmptyString))%string
  else None.

(** ** webhook_url_validation.py *)

Definition WebhookUrlUnsafeError (msg : string) : exn := ServiceError "WebhookUrlUnsafeError" msg 0.

Definition ip_is_blocked (addr : ip_object) : bool :=
  is_private addr || is_loopback addr || is_link_local addr || is_reserved addr || is_multicast addr.

Definition assert_webhook_target_ips_safe_for_url (url : string) (t : Z) : result unit :=
  '(scheme, netloc) ← urlparse (strip url);
  if negb (String.eqb scheme "https") then Err (WebhookUrlUnsafeError "url must use HTTPS")
  else
    match hostname netloc with
    | None => Err (WebhookUrlUnsafeError "url must include a host")
    | Some host =>
        match getaddrinfo host t with
        | GaiError exc => Err (WebhookUrlUnsafeError ("url host could not be resolved: " ++ exc))
        | IdnaError => Err (ValueError "encoding with 'idna' codec failed")
        | Addresses infos =>
            if existsb ip_is_blocked (omap id infos) then Err (WebhookUrlUnsafeError "url resolves to a non-public address")
            else Ok tt
        end
    end.

(** ** webhook_events.py *)

Definition BOOKING_CREATED : string := "booking.created".
Definition BOOKING_UPDATED : string := "booking.updated".
Definition BOOKING_CANCELLED : string := "booking.cancelled".
Definition AVAILABILITY_CHANGED : string := "availability.changed".
Definition RATE_UPDATED : string := "rate.updated".
Definition GUEST_CHECKED_IN : string := "guest.checked_in".
Definition GUEST_CHECKED_OUT : string := "guest.checked_out".
Definition VALID_WEBHOOK_EVENTS : list string :=
  [BOOKING_CREATED; BOOKING_UPDATED; BOOKING_CANCELLED; AVAILABILITY_CHANGED; RATE_UPDATED; GUEST_CHECKED_IN; GUEST_CHECKED_OUT].

(** ** webhook_secrets.py *)

Definition decrypt_webhook_secret (stored : string) : string :=
  match fernet_decrypt stored with Some plain => plain | None => stored end.

(** ** Subscriptions *)

Definition WebhookSubscriptionError (detail : string) (status_code : Z) : exn :=
  ServiceError "WebhookSubscriptionError" detail status_code.

Definition generate_webhook_secret : M string := r ← uuid4; mret ("whsec_" ++ token_urlsafe r)%string.

Definition validate_https_url (url : string) (t : Z) : result string :=
  let trimmed := strip url in
  if negb (truthy trimmed) then Err (WebhookSubscriptionError "url is required" 422)
  else
    '(scheme, netloc) ← urlparse trimmed;
    if negb (String.eqb scheme "https") then Err (WebhookSubscriptionError "url must use HTTPS" 422)
    else if negb (truthy netloc) then Err (WebhookSubscriptionError "url must include a host" 422)
    else
      match assert_webhook_target_ips_safe_for_url trimmed t with
      | Ok _ => Ok trimmed
      | Err (ServiceError "WebhookUrlUnsafeError" msg _) => Err (WebhookSubscriptionError msg 422)
      | Err e => Err e
      end.

(** The distinct elements in order of first occurrence. *)
Fixpoint dedup_in_order (seen : list string) (l : list string) : list string :=
  match l with
  | [] => []
  | e :: l' => if str_in e seen then dedup_in_order seen l' else e :: dedup_in_order (e :: seen) l'
  end.

Definition unknown_event (e : string) : exn :=
  WebhookSubscriptionError ("unknown event: " ++ py_repr_str e ++ "; valid: " ++
    py_repr (JArr (List.map JStr (order_by String.leb VALID_WEBHOOK_EVENTS)))) 422.

Definition normalize_events (events : list string) : result (list string) :=
  out ← mapR (fun e =>
    let t := lower (strip e) in
    if negb (truthy t) then Ok None
    else if negb (str_in t VALID_WEBHOOK_EVENTS) then Err (unknown_event e) else Ok (Some t)) events;
  match omap id out with
  | [] => Err (WebhookSubscriptionError "at least one event is required" 422)
  | evs => Ok (dedup_in_order [] evs)
  end.

Definition create_subscription (tenant_id : Z) (url : string) (events : list string) (is_active : bool)
    : M (WebhookSubscription * string) :=
  t ← get_now;
  u ← lift (validate_https_url url t);
  ev ← lift (normalize_events events);
  plain_secret ← generate_webhook_secret;
  i ← uuid4;
  nonce ← uuid4;
  let row := MkWebhookSubscription i tenant_id u ev (fernet_encrypt nonce plain_secret) is_active in
  _ ← add row;
  _ ← flush;
  mret (row, plain_secret).

Definition list_subscriptions (tenant_id : Z) : M (list WebhookSubscription) :=
  rows ← select (fun w => ws_tenant w =? tenant_id);
  mret (order_by (fun a b => collate (ws_url a) (ws_url b)) rows).

Definition subscription_is (tenant_id subscription_id : Z) (w : WebhookSubscription) : bool :=
  (ws_tenant w =? tenant_id) && (ws_id w =? subscription_id).

Definition patch_subscription (tenant_id subscription_id : Z) (url : option string) (events : option (list string))
    (is_active : option bool) : M Z :=
  t ← get_now;
  row ← scalar (subscription_is tenant_id subscription_id);
  match row with
  | None => raise (WebhookSubscriptionError "subscription not found" 404)
  | Some row =>
      _ ← match url with
          | Some url => u ← lift (validate_https_url url t); assign (ws_id row) (set_ws_url u)
          | None => mret tt
          end;
      _ ← match events with
          | Some events => ev ← lift (normalize_events events); assign (ws_id row) (set_ws_events ev)
          | None => mret tt
          end;
      _ ← match is_active with
          | Some b => assign (ws_id row) (set_ws_active b)
          | None => mret tt
          end;
      _ ← flush;
      mret (ws_id row)
  end.

(** [encrypt_plaintext_with_fernet_key] *)
Definition encrypt_plaintext_with_fernet_key (plain key_ascii : string) (nonce : Z) : result string :=
  let trimmed := strip key_ascii in
  if negb (truthy trimmed) then Err (WebhookSubscriptionError "Fernet key is required" 422)
  else of_option (fernet_encrypt_with trimmed nonce plain) (WebhookSubscriptionError "Invalid Fernet key material" 422).

Definition reencrypt_subscription_secrets_for_tenant (tenant_id : Z) (new_fernet_key : string) : M Z :=
  nonce ← uuid4;
  _ ← lift (encrypt_plaintext_with_fernet_key EmptyString new_fernet_key nonce);
  rows ← list_subscriptions tenant_id;
  _ ← forM rows (fun row =>
        n ← uuid4;
        secret ← lift (encrypt_plaintext_with_fernet_key (decrypt_webhook_secret (ws_secret row)) new_fernet_key n);
        assign (ws_id row) (set_ws_secret secret));
  _ ← flush;
  mret (Z.of_nat (length rows)).

(** The delete is not awaited. *)
Definition delete_subscription (tenant_id subscription_id : Z) : M unit :=
  row ← scalar (subscription_is tenant_id subscription_id);
  match row with
  | None => raise (WebhookSubscriptionError "subscription not found" 404)
  | Some _ => _ ← unawaited_delete; flush
  end.

Definition subscription_matches (tenant_id : Z) (ev : string) (w : WebhookSubscription) : bool :=
  (ws_tenant w =? tenant_id) && ws_active w && str_in ev (ws_events w).

Definition list_matching_subscriptions (tenant_id : Z) (event_type : string) : M (list WebhookSubscription) :=
  let ev := lower (strip event_type) in select (subscription_matches tenant_id ev).

(** ** Delivery *)

Definition sign_webhook_body (secret body : string) : string := hmac_sha256_hex secret body.

(** A log names its subscription through a foreign key. *)
Definition append_delivery_log (tenant_id subscription_id : Z) (event_type : string) (attempt_number : Z)
    (http_status_code : option Z) (error_message : option string) (payload : dict) : M unit :=
  i ← uuid4;
  t ← get_now;
  _ ← add (MkWebhookDeliveryLog i tenant_id subscription_id event_type attempt_number http_status_code error_message (JObj payload) t);
  known ← query (fun d => existsb (subscription_is tenant_id subscription_id) (webhook_subscriptions d));
  if (known : bool) then flush else raise IntegrityError.

(** Success, status code, error text; and when the attempt ended. *)
Definition single_http_delivery_attempt (url body : string) (headers : list (string * string)) (t : Z)
    : result (Z * (bool * option Z * option string)) :=
  match assert_webhook_target_ips_safe_for_url url t with
  | Err (ServiceError "WebhookUrlUnsafeError" msg _) => Ok (t, (false, None, Some (slice 4000 msg)))
  | Err e => Err e
  | Ok _ =>
      let '(t', r) := http_post url body headers t in
      match r with
      | RequestFailed exc => Ok (t', (false, None, Some (slice 4000 exc)))
      | Response code =>
          if (200 <=? code) && (code <? 300) then Ok (t', (true, Some code, None))
          else Ok (t', (false, Some code, Some ("HTTP " ++ py_str (JInt code))%string))
      end
  end.

(** Body, signature and POST for a subscription. *)
Definition attempt_for (sub : WebhookSubscription) (envelope : dict) (t : Z)
    : result (Z * (bool * option Z * option string)) :=
  let body := json_dumps (JObj envelope) in
  let signature := sign_webhook_body (decrypt_webhook_secret (ws_secret sub)) body in
  single_http_delivery_attempt (ws_url sub) body
    [("Content-Type", "application/json"); ("X-Webhook-Signature", "sha256=" ++ signature)]%string t.

Definition QUEUE_RETRY_DELAYS_SEC : list Z := [10; 60].

(** [deliver_to_subscription]: up to three attempts from a time on, each
    logged in a transaction of its own; 10 and 60 seconds of sleep between. *)
Fixpoint deliver_attempts (tenant_id : Z) (sub : WebhookSubscription) (event_type : string) (envelope : dict)
    (attempt_no : Z) (sleeps : list Z) (t : Z) : M unit :=
  '(t', (ok, http_status, err_msg)) ← lift (attempt_for sub envelope t);
  _ ← at_time t' (transaction (append_delivery_log tenant_id (ws_id sub) event_type attempt_no http_status
        (if (ok : bool) then None else err_msg) envelope));
  if (ok : bool) then mret tt
  else match sleeps with
       | [] => mret tt
       | sleep :: sleeps' => deliver_attempts tenant_id sub event_type envelope (attempt_no + 1) sleeps' (t' + sleep)
       end.

Definition envelope_of (event_type : string) (data : dict) : dict :=
  [("event", JStr event_type); ("data", JObj data)]%string.

Definition deliver_to_subscription (tenant_id : Z) (sub : WebhookSubscription) (event_type : string) (data : dict) : M unit :=
  t ← get_now;
  deliver_attempts tenant_id sub event_type (envelope_of event_type data) 1 QUEUE_RETRY_DELAYS_SEC t.

Definition dispatch_webhook_event (tenant_id : Z) (event_type : string) (data : dict) : M unit :=
  transaction (
    t ← get_now;
    subs ← list_matching_subscriptions tenant_id event_type;
    forM subs (fun sub =>
      i ← uuid4;
      add (MkWebhookPendingDelivery i tenant_id (ws_id sub) event_type (JObj (envelope_of event_type data)) 0 t "pending"))).

(** The wait after failed attempts 1 and 2. *)
Definition retry_delay (attempt_no : Z) : Z :=
  List.nth (Z.to_nat (Z.min (attempt_no - 1) (Z.of_nat (length QUEUE_RETRY_DELAYS_SEC) - 1))) QUEUE_RETRY_DELAYS_SEC 0.

Definition process_one_pending_row (row : WebhookPendingDelivery) : M unit :=
  let tenant_id := wp_tenant row in
  t ← get_now;
  sub ← scalar (subscription_is tenant_id (wp_subscription row));
  match wp_payload row with
  | JObj envelope =>
      let ev := match dict_get envelope "event" with
                | Some e => if py_bool e then py_str e else wp_event row
                | None => wp_event row
                end in
      let attempt_no := wp_attempts row + 1 in
      match (match sub with
             | Some sub => if ws_active sub && str_in ev (ws_events sub) then Some sub else None
             | None => None
             end) with
      | None =>
          _ ← append_delivery_log tenant_id (wp_subscription row) ev attempt_no None
                (Some "subscription inactive, missing, or event no longer subscribed"%string) envelope;
          remove (R := WebhookPendingDelivery) (wp_id row)
      | Some sub =>
          '(t', (ok, http_status, err_msg)) ← lift (attempt_for sub envelope t);
          if (ok : bool) then
            _ ← append_delivery_log tenant_id (ws_id sub) ev attempt_no http_status None envelope;
            remove (R := WebhookPendingDelivery) (wp_id row)
          else
            _ ← append_delivery_log tenant_id (ws_id sub) ev attempt_no http_status err_msg envelope;
            if 3 <=? attempt_no then
              _ ← assign (wp_id row) (set_wp_status "dead_letter");
              assign (wp_id row) (set_wp_attempts attempt_no)
            else
              _ ← assign (wp_id row) (set_wp_attempts attempt_no);
              assign (wp_id row) (set_wp_next_retry (t' + retry_delay attempt_no))
      end
  | _ => raise AttributeOrTypeError
  end.

(** The pending row that has been due for the longest, locked. *)
Definition claim_due_row : M (option WebhookPendingDelivery) :=
  t ← get_now;
  rows ← select (fun q => String.eqb (wp_status q) "pending" && (wp_next_retry q <=? t));
  mret (hd_error (order_by (fun a b => wp_next_retry a <=? wp_next_retry b) rows)).

(** One iteration: whether a row was processed. *)
Definition process_next : M bool :=
  transaction (
    row ← claim_due_row;
    match row with
    | None => mret false
    | Some row => _ ← process_one_pending_row row; mret true
    end).

(** [max_rows] iterations at their times. *)
Fixpoint process_webhook_delivery_queue_batch (clocks : list Z) : M Z :=
  match clocks with
  | [] => mret 0
  | c :: clocks' =>
      found ← at_time c process_next;
      if (found : bool) then n ← process_webhook_delivery_queue_batch clocks'; mret (n + 1) else mret 0
  end.

(** Rounds of the worker until it is stopped: a failed batch is logged. *)
Definition webhook_delivery_worker_loop (rounds : list (list Z)) : M unit :=
  forM rounds (fun clocks =>
    try_except (_ ← process_webhook_delivery_queue_batch clocks; mret tt) (fun _ => Some (mret tt))).

End webhooks.
