(* ===== verification/WebhookEvents.v ===== *)
(** * Which webhooks a booking emits

    app/services/webhook_runner.py: the events dispatched after a booking is
    created or patched, after a rate or an override changes, and the POSTs to
    the integrators of country-pack extensions at check-in. *)

From stdpp Require Import gmap.
From S2P Require Import Prelude PyDecimal PyJson StayDates Calendar Models Session Folio Booking Auth Webhooks.

Section runner.
Context {env : Env} {crypto : Crypto} {net : Net}.

Definition jopt (o : option string) : json := match o with Some s => JStr s | None => JNull end.

(** ** Payloads *)

Definition booking_entity_to_read_dict (b : Booking) : dict :=
  [("id", JStr (uuid_str (b_id b))); ("tenant_id", JStr (uuid_str (b_tenant b)));
   ("property_id", JStr (uuid_str (b_property b))); ("guest_id", JStr (uuid_str (b_guest b)));
   ("rate_plan_id", jopt (uuid_str <$> b_rate_plan b)); ("status", JStr (b_status b)); ("source", JStr (b_source b));
   ("total_amount", JStr (format_f (cents (b_total b))))]%string.

(** The entries of [booking_quick_snapshot] that [booking.updated] compares. *)
Definition watched (v : booking_snapshot) : list (string * option string) :=
  [("status", Some (sn_status v)); ("total_amount", Some (format_f (cents (sn_total v))));
   ("check_in", isoformat ∘ fst <$> sn_stay v); ("check_out", isoformat ∘ snd <$> sn_stay v);
   ("room_id", uuid_str <$> sn_room v)]%string.

(** ** Availability *)

Definition webhook_available_rooms (tenant_id room_type_id : Z) (d : date) : M Z :=
  query (fun db => match ledger db !! (tenant_id, room_type_id, d) with
                   | None => 0
                   | Some r => total_rooms r - booked_rooms r - blocked_rooms r
                   end).

Definition emit_availability_for_dates (tenant_id room_type_id : Z) (dates : list date) : M unit :=
  forM (sorted_set dates) (fun d =>
    avail ← transaction (webhook_available_rooms tenant_id room_type_id d);
    dispatch_webhook_event tenant_id AVAILABILITY_CHANGED
      [("room_type_id", JStr (uuid_str room_type_id)); ("date", JStr (isoformat d)); ("available_rooms", JInt avail)]%string).

Definition run_availability_after_override (tenant_id room_type_id : Z) (dates : list date) : M unit :=
  emit_availability_for_dates tenant_id room_type_id dates.

(** ** Created bookings, changed rates *)

(** The booking with its lines loaded. *)
Definition load_booking_for_webhook (tenant_id booking_id : Z) : M (option Booking) :=
  found ← scalar (booking_is tenant_id booking_id);
  match found with
  | None => mret None
  | Some b => _ ← load_lines booking_id; mret (Some b)
  end.

Definition run_booking_created_webhook (tenant_id booking_id : Z) : M unit :=
  found ← transaction (
    booking ← load_booking_for_webhook tenant_id booking_id;
    match booking with
    | None => mret None
    | Some b =>
        ls ← booking_lines tenant_id booking_id;
        mret (Some (booking_entity_to_read_dict b,
          match distinct (List.map l_room_type ls) with [rt] => Some (rt, List.map l_date ls) | _ => None end))
    end);
  match found with
  | None => mret tt
  | Some (payload, stay) =>
      _ ← dispatch_webhook_event tenant_id BOOKING_CREATED payload;
      match stay with
      | Some (rt_id, nights) => emit_availability_for_dates tenant_id rt_id nights
      | None => mret tt
      end
  end.

Definition run_rate_updated_webhooks (tenant_id : Z) (updates : list (Z * Z * date * string)) : M unit :=
  forM updates (fun u =>
    let '(room_type_id, rate_plan_id, d, price_s) := u in
    dispatch_webhook_event tenant_id RATE_UPDATED
      [("room_type_id", JStr (uuid_str room_type_id)); ("rate_plan_id", JStr (uuid_str rate_plan_id));
       ("date", JStr (isoformat d)); ("price", JStr price_s)]%string).

(** ** Check-in: the integrators of the active extensions *)

Definition checkin_targets (tenant_id property_id : Z) (d : DB) : list (string * string * option json) :=
  List.flat_map (fun pe =>
    List.map (fun ex => (ex_url ex, ex_code ex, pe_config pe))
      (List.filter (fun ex => (ex_id ex =? pe_extension pe) && (ex_tenant ex =? pe_tenant pe) && ex_active ex) (extensions d)))
    (List.filter (fun pe => (pe_tenant pe =? tenant_id) && (pe_property pe =? property_id) && pe_active pe) (property_extensions d)).

(** The POSTs issued: unsafe and unresolvable URLs are passed over. *)
Fixpoint post_to_targets (guest_payload : dict) (t : Z) (targets : list (string * string * option json))
    : result (list (string * json)) :=
  match targets with
  | [] => Ok []
  | (url, ext_code, cfg) :: targets' =>
      let body := [("event", JStr GUEST_CHECKED_IN); ("extension_code", JStr ext_code); ("data", JObj guest_payload)]%string in
      let body := match cfg with
                  | Some (JObj c) => body ++ [("property_extension_config"%string, JObj c)]
                  | _ => body
                  end in
      match assert_webhook_target_ips_safe_for_url url t with
      | Err (ServiceError "WebhookUrlUnsafeError" _ _) => post_to_targets guest_payload t targets'
      | Err e => Err e
      | Ok _ =>
          let '(t', _) := http_post url (json_dumps (JObj body)) [("X-OpenPMS-Event", GUEST_CHECKED_IN)]%string t in
          rest ← post_to_targets guest_payload t' targets'; Ok ((url, JObj body) :: rest)
      end
  end.

Definition post_country_pack_extension_checkin_webhooks (tenant_id booking_id : Z) (guest_payload : dict)
    : M (list (string * json)) :=
  targets ← transaction (
    booking ← load_booking_for_webhook tenant_id booking_id;
    match booking with
    | None => mret []
    | Some b => query (checkin_targets tenant_id (b_property b))
    end);
  t ← get_now;
  lift (post_to_targets guest_payload t targets).

(** ** Patched bookings *)

Definition is_guest (tenant_id guest_id : Z) (g : Guest) : bool := (g_tenant g =? tenant_id) && (g_id g =? guest_id).
Definition is_property (tenant_id property_id : Z) (p : Property) : bool := (p_tenant p =? tenant_id) && (p_id p =? property_id).

(** [guest_payload] of the check-in event. *)
Definition checkin_payload (tenant_id booking_id : Z) (after : booking_snapshot) : M dict :=
  let base := [("booking_id", JStr (uuid_str booking_id)); ("guest_id", JStr (uuid_str (sn_guest after)));
               ("room_id", JStr (default EmptyString (uuid_str <$> sn_room after)))]%string in
  transaction (
    booking ← load_booking_for_webhook tenant_id booking_id;
    match booking with
    | None => mret base
    | Some b =>
        guest ← scalar (is_guest tenant_id (b_guest b));
        prop ← scalar (is_property tenant_id (b_property b));
        mret (base ++ [("property_id"%string, JStr (uuid_str (b_property b)))]
          ++ match guest with
             | Some g =>
                 [("first_name", JStr (g_first g)); ("last_name", JStr (g_last g)); ("nationality", jopt (g_nationality g));
                  ("passport_data", jopt (g_passport g)); ("passport_number", JNull);
                  ("date_of_birth", jopt (isoformat <$> g_birth g));
                  ("check_in_date", jopt (isoformat ∘ fst <$> sn_stay after)); ("room_number", JNull)]%string
             | None => []
             end
          ++ match prop with
             | Some p => [("property_address", JStr (p_name p)); ("property_registration_number", JNull)]%string
             | None => []
             end)
    end).

Definition entered (st : string) (before after : booking_snapshot) : bool :=
  String.eqb (lower (strip (sn_status after))) st && negb (String.eqb (lower (strip (sn_status before))) st).

(** The watched entries that differ, less the status when it has its own event. *)
Definition changed_entries (before after : booking_snapshot) : list (string * option string * option string) :=
  let announced := existsb (fun st => entered st before after) ["cancelled"; "checked_in"; "checked_out"]%string in
  omap (fun ba : (string * option string) * (string * option string) =>
      let '((k, b_v), (_, a_v)) := ba in
      if bool_decide (b_v = a_v) then None
      else if announced && String.eqb k "status" then None else Some (k, b_v, a_v))
    (combine (watched before) (watched after)).

Definition cancelled_event (tenant_id booking_id : Z) (cancellation_reason : option string) : M unit :=
  dispatch_webhook_event tenant_id BOOKING_CANCELLED
    [("booking_id", JStr (uuid_str booking_id)); ("cancellation_reason", JStr (default EmptyString cancellation_reason))]%string.

Definition checked_in_event (tenant_id booking_id : Z) (after : booking_snapshot) : M unit :=
  guest_payload ← checkin_payload tenant_id booking_id after;
  _ ← dispatch_webhook_event tenant_id GUEST_CHECKED_IN guest_payload;
  _ ← post_country_pack_extension_checkin_webhooks tenant_id booking_id guest_payload;
  mret tt.

Definition checked_out_event (tenant_id booking_id : Z) (after : booking_snapshot) (folio_balance : option string) : M unit :=
  dispatch_webhook_event tenant_id GUEST_CHECKED_OUT
    [("booking_id", JStr (uuid_str booking_id)); ("guest_id", JStr (uuid_str (sn_guest after)));
     ("room_id", JStr (default EmptyString (uuid_str <$> sn_room after)));
     ("folio_balance", JStr (match folio_balance with Some s => if truthy s then s else "0.00" | None => "0.00" end))]%string.

Definition run_booking_patch_webhooks (tenant_id booking_id : Z) (before after : booking_snapshot)
    (cancellation_reason folio_balance_on_checkout : option string) : M unit :=
  _ ← (if entered "cancelled" before after then cancelled_event tenant_id booking_id cancellation_reason else mret tt);
  _ ← (if entered "checked_in" before after then checked_in_event tenant_id booking_id after else mret tt);
  _ ← (if entered "checked_out" before after
       then checked_out_event tenant_id booking_id after folio_balance_on_checkout else mret tt);
  match changed_entries before after with
  | [] => mret tt
  | changed =>
      dispatch_webhook_event tenant_id BOOKING_UPDATED
        [("booking_id", JStr (uuid_str booking_id));
         ("changed", JObj (List.map (fun kba => (kba.1.1, jopt kba.2)) changed));
         ("previous_values", JObj (List.map (fun kba => (kba.1.1, jopt kba.1.2)) changed))]%string
  end.

(** [run_booking_patch_availability_refresh], on the lines of the two bookings. *)
Definition run_booking_patch_availability_refresh (tenant_id : Z) (lines_before : list BookingLine)
    (lines_after : option (list BookingLine)) : M unit :=
  match lines_after with
  | None => mret tt
  | Some lines_after =>
      match distinct (List.map l_room_type lines_before), distinct (List.map l_room_type lines_after) with
      | [rb], [ra] =>
          if rb =? ra then
            emit_availability_for_dates tenant_id rb (List.map l_date lines_before ++ List.map l_date lines_after)
          else mret tt
      | _, _ => mret tt
      end
  end.

End runner.
