(* ===== verification/WebhookLaws.v ===== *)
(** * Every queued webhook is settled

    An accepted subscription has a public https target; an event is queued
    once for each subscription that asked for it; a queued delivery is
    attempted at most three times and leaves the pending state; nothing is
    deleted by the un-awaited delete. *)

From S2P Require Import Prelude PyJson StayDates Models Session PyDecimal Rates Auth AuthLaws Webhooks.

(** ** Tables changed at one key *)

Section keyed.
Context {R : Type} `{Entity R}.
Implicit Types (l : list R) (f g : R -> R).

Lemma where_id_twice i f g l :
  (forall x, ident (f x) = ident x) -> where_id i g (where_id i f l) = where_id i (fun x => g (f x)) l.
Proof.
  intros Hf. unfold where_id. rewrite List.map_map. apply List.map_ext. intros x.
  destruct (ident x =? i) eqn:E; [by rewrite Hf, E|by rewrite E].
Qed.

(** The weight of a table whose row [q] is dropped or replaced. *)
Lemma drop_weight (w : R -> Z) q l :
  (forall x, 0 <= w x) -> In q l ->
  sumZ (List.map w (List.filter (fun x => negb (ident x =? ident q)) l)) <= sumZ (List.map w l) - w q.
Proof.
  intros Hw. induction l as [|x l IH]; [done|]. intros Hin. cbn [List.filter List.map]. rewrite sumZ_cons.
  pose proof (sumZ_filter w (fun x => negb (ident x =? ident q)) l Hw) as Hle. destruct Hin as [->|Hin].
  - rewrite Z.eqb_refl. cbn [negb]. lia.
  - specialize (IH Hin). specialize (Hw x). destruct (negb _); cbn [List.map]; rewrite ?sumZ_cons; lia.
Qed.

Lemma replace_weight (w : R -> Z) q f l :
  List.NoDup (List.map ident l) -> In q l ->
  sumZ (List.map w (where_id (ident q) f l)) = sumZ (List.map w l) - w q + w (f q).
Proof.
  induction l as [|x l IH]; [done|]. cbn [List.map]. intros Hnd Hin. apply List.NoDup_cons_iff in Hnd as [Hni Hnd].
  change (where_id (ident q) f (x :: l)) with ((if ident x =? ident q then f x else x) :: where_id (ident q) f l).
  cbn [List.map]. rewrite !sumZ_cons. destruct Hin as [->|Hin].
  - rewrite Z.eqb_refl. assert (E : where_id (ident q) f l = l); [|rewrite E; lia].
    unfold where_id. rewrite <- (List.map_id l) at 2. apply List.map_ext_in. intros y Hy.
    destruct (Z.eqb_spec (ident y) (ident q)) as [Ey|]; [|done]. exfalso. apply Hni. rewrite <- Ey. by apply in_map.
  - destruct (Z.eqb_spec (ident x) (ident q)) as [Ex|]; [|rewrite IH by done; lia].
    exfalso. apply Hni. rewrite Ex. by apply in_map.
Qed.
End keyed.

Section delivery.
Context {env : Env} {crypto : Crypto} {net : Net}.

(** ** The queue *)

Definition pending (q : WebhookPendingDelivery) : bool := String.eqb (wp_status q) "pending".

(** A row of the queue names a subscription of its tenant and has been tried
    at most twice. *)
Definition row_ok (d : DB) (q : WebhookPendingDelivery) : Prop :=
  (exists w, In w (webhook_subscriptions d) /\ subscription_is (wp_tenant q) (wp_subscription q) w = true) /\
  0 <= wp_attempts q <= 2 /\ exists e, wp_payload q = JObj e.

Record queue_ok (d : DB) : Prop := {
  qo_ids : List.NoDup (List.map wp_id (webhook_queue d));
  qo_subs : List.NoDup (List.map ws_id (webhook_subscriptions d));
  qo_rows : forall q, In q (webhook_queue d) -> pending q = true -> row_ok d q }.

(** A delivery attempt ends with an answer or an error text: no URL of a
    subscription makes the check itself fail. *)
Definition deliverable (d : DB) : Prop :=
  forall w e t, In w (webhook_subscriptions d) -> is_ok (attempt_for w e t) = true.

Definition weight (q : WebhookPendingDelivery) : Z := if pending q then Z.max 0 (3 - wp_attempts q) else 0.

(** The attempts the queue can still make. *)
Definition work (d : DB) : Z := sumZ (List.map weight (webhook_queue d)).

Lemma weight_nonneg q : 0 <= weight q.
Proof. unfold weight. destruct (pending q); lia. Qed.

Lemma work_nonneg d : 0 <= work d.
Proof. apply sumZ_nonneg, weight_nonneg. Qed.

(** ** One attempt *)

(** What becomes of the row. *)
Inductive fate := Gone | Kept (f : WebhookPendingDelivery -> WebhookPendingDelivery).

Definition settle (q : WebhookPendingDelivery) (x : fate) (l : list WebhookPendingDelivery) : list WebhookPendingDelivery :=
  match x with
  | Gone => List.filter (fun y => negb (wp_id y =? wp_id q)) l
  | Kept f => where_id (wp_id q) f l
  end.

(** A row that is kept has one attempt more, and is a dead letter at three. *)
Definition fate_ok (q : WebhookPendingDelivery) (x : fate) : Prop :=
  match x with
  | Gone => True
  | Kept f => (forall y, wp_id (f y) = wp_id y) /\ wp_attempts (f q) = wp_attempts q + 1 /\
      (forall y, wp_tenant (f y) = wp_tenant y /\ wp_subscription (f y) = wp_subscription y /\ wp_payload (f y) = wp_payload y) /\
      (pending (f q) = true -> wp_attempts q < 2)
  end.

Definition with_log (l : WebhookDeliveryLog) (d : DB) : DB := put_webhook_logs (webhook_logs d ++ [l]) d.

Lemma log_run {B} t sub ev n code err e (k : unit -> M B) s :
  existsb (subscription_is t sub) (webhook_subscriptions (disk s)) = true ->
  (append_delivery_log t sub ev n code err e ≫= k) s =
  (let d := with_log (MkWebhookDeliveryLog (uuids s) t sub ev n code err (JObj e) (now s)) (mem s) in
   k tt (Session d d (expired s) (now s) (today s) (uuids s + 1))).
Proof.
  intros Hsub. unfold append_delivery_log. rewrite run_assoc. unfold mbind at 1, M_bind at 1. cbv [uuid4].
  unfold add. rewrite run_assoc, run_now, run_assoc, run_orm, run_assoc, run_query. cbn [disk set_mem]. by rewrite Hsub.
Qed.

(** Processing a row logs one attempt and settles the row. *)
Lemma process_one_run q s d :
  disk s = d -> mem s = d -> queue_ok d -> deliverable d -> In q (webhook_queue d) -> pending q = true ->
  exists l x s', process_one_pending_row q s = (s', Ok tt) /\
    mem s' = put_webhook_queue (settle q x (webhook_queue d)) (with_log l d) /\
    fate_ok q x /\ wl_attempt l = wp_attempts q + 1 /\ wl_subscription l = wp_subscription q.
Proof.
  intros Hd Hm Hok Hnet Hin Hp. destruct (qo_rows _ Hok q Hin Hp) as ((w & Hw & Hsw) & Hat & e & He).
  assert (Hex : existsb (subscription_is (wp_tenant q) (wp_subscription q)) (webhook_subscriptions (disk s)) = true).
  { rewrite Hd. apply existsb_exists. by exists w. }
  unfold process_one_pending_row. rewrite run_now, run_scalar_synced by (split; [cbn; congruence|cbn; rewrite Hm; apply Hok]).
  rewrite He. cbn [table WebhookSubscription_entity]. rewrite Hm.
  assert (Hsub : List.find (subscription_is (wp_tenant q) (wp_subscription q)) (webhook_subscriptions d) = Some w).
  { destruct (List.find _ _) as [w'|] eqn:Hf; [|by rewrite (find_none _ _ Hf w Hw) in Hsw].
    apply find_some in Hf as [Hw' Hsw']. f_equal. apply (in_unique_key ws_id (webhook_subscriptions d)); [apply Hok|done..|].
    unfold subscription_is in *. apply andb_prop in Hsw as [_ ?%Z.eqb_eq], Hsw' as [_ ?%Z.eqb_eq]. congruence. }
  rewrite Hsub. set (ev := match dict_get e "event" with Some _ => _ | None => _ end). cbv zeta.
  apply andb_prop in Hsw as [_ Hid%Z.eqb_eq].
  destruct (ws_active w && str_in ev (ws_events w)).
  2:{ rewrite log_run by exact Hex. cbv zeta. rewrite Hm. eexists _, Gone, _. split; [reflexivity|]. by repeat split. }
  specialize (Hnet w e (now s) Hw). destruct (attempt_for w e (now s)) as [[t' [[[|] code] err]]|] eqn:Ha; [..|done];
    rewrite run_lift_ok; rewrite Hid; rewrite log_run by exact Hex; cbv zeta; rewrite Hm.
  { eexists _, Gone, _. split; [reflexivity|]. by repeat split. }
  destruct (Z.leb_spec 3 (wp_attempts q + 1)).
  - eexists _, (Kept (fun y => set_wp_attempts (wp_attempts q + 1) (set_wp_status "dead_letter" y))), _. split; [reflexivity|].
    split; [cbn -[where_id]; rewrite where_id_twice by done; reflexivity|]. by repeat split.
  - eexists _, (Kept (fun y => set_wp_next_retry (t' + retry_delay (wp_attempts q + 1)) (set_wp_attempts (wp_attempts q + 1) y))), _.
    split; [reflexivity|]. split; [cbn -[where_id]; rewrite where_id_twice by done; reflexivity|]. repeat split; intros; lia.
Qed.

(** ** One iteration of the worker *)

Definition quiet (d : DB) (s : session) : Prop := disk s = d /\ mem s = d.

Definition due (c : Z) (q : WebhookPendingDelivery) : bool := pending q && (wp_next_retry q <=? c).

Lemma claim_due_run c d s :
  quiet d s -> now s = c -> queue_ok d ->
  claim_due_row s = (s, Ok (hd_error (order_by (fun a b => wp_next_retry a <=? wp_next_retry b) (List.filter (due c) (webhook_queue d))))).
Proof.
  intros [Hd Hm] <- Hok. unfold claim_due_row. rewrite run_now, run_select_synced.
  - cbn [table WebhookPendingDelivery_entity]. by rewrite Hm.
  - split; [cbn; congruence|]. cbn. rewrite Hm. apply Hok.
Qed.

Lemma next_idle c d s :
  quiet d s -> queue_ok d -> existsb (due c) (webhook_queue d) = false ->
  exists s', at_time c process_next s = (s', Ok false) /\ quiet d s'.
Proof.
  intros [Hd Hm] Hok Hidle. unfold at_time, process_next, transaction. cbn [disk mem expired now today uuids]. rewrite Hd.
  set (s0 := Session d d [] c (today s) (uuids s)).
  rewrite (bind_run _ _ s0 _ _ (claim_due_run c d s0 (conj eq_refl eq_refl) eq_refl Hok)).
  rewrite filter_none; cycle 1.
  { intros q Hq. destruct (due c q) eqn:E; [|done]. exfalso.
    assert (existsb (due c) (webhook_queue d) = true) by (apply existsb_exists; by exists q). congruence. }
  cbn. eexists. split; [reflexivity|by split].
Qed.

Lemma settle_row q x l y :
  In y (settle q x l) -> (In y l \/ exists f z, x = Kept f /\ In z l /\ wp_id z = wp_id q /\ y = f z).
Proof.
  destruct x as [|f]; cbn.
  - intros [Hy _]%filter_In. by left.
  - intros (z & Hz & ->)%where_id_In. cbn [ident WebhookPendingDelivery_entity].
    destruct (Z.eqb_spec (wp_id z) (wp_id q)); [right; by exists f, z|by left].
Qed.

Lemma settle_ok q x l d :
  queue_ok d -> In q (webhook_queue d) -> pending q = true -> fate_ok q x ->
  queue_ok (put_webhook_queue (settle q x (webhook_queue d)) (with_log l d)).
Proof.
  intros Hok Hin Hp Hx. split; cbn [webhook_queue webhook_subscriptions put_webhook_queue with_log put_webhook_logs].
  - destruct x as [|f]; cbn [settle]; [by apply NoDup_map_filter, Hok|].
    destruct Hx as (Hid & _). change wp_id with (ident (R := WebhookPendingDelivery)). rewrite where_id_idents by done. apply Hok.
  - apply Hok.
  - intros y Hy Hpy. destruct (settle_row _ _ _ _ Hy) as [Hy'|(f & z & -> & Hz & Hid & ->)].
    + exact (qo_rows _ Hok y Hy' Hpy).
    + assert (z = q) as -> by (by apply (in_unique_key wp_id (webhook_queue d)); [apply Hok|..]).
      destruct Hx as (_ & Hat & Hsame & Hlt), (Hsame q) as (Ht & Hs & He).
      destruct (qo_rows _ Hok q Hin Hp) as (Hsub & Hrange & Hpay). specialize (Hlt Hpy).
      split; [|split]; [cbn; rewrite Ht, Hs; exact Hsub|lia|by rewrite He].
Qed.

Lemma settle_work q x l d :
  queue_ok d -> In q (webhook_queue d) -> pending q = true -> fate_ok q x ->
  work (put_webhook_queue (settle q x (webhook_queue d)) (with_log l d)) < work d.
Proof.
  intros Hok Hin Hp Hx. unfold work. cbn [webhook_queue put_webhook_queue].
  destruct (qo_rows _ Hok q Hin Hp) as (_ & Hrange & _).
  assert (Hw : weight q = 3 - wp_attempts q) by (unfold weight; rewrite Hp; lia).
  destruct x as [|f]; cbn [settle].
  - pose proof (drop_weight weight q (webhook_queue d) weight_nonneg Hin) as H. cbn [ident WebhookPendingDelivery_entity] in H. lia.
  - pose proof (replace_weight weight q f (webhook_queue d) (qo_ids _ Hok) Hin) as H. cbn [ident WebhookPendingDelivery_entity] in H.
    destruct Hx as (_ & Hat & _ & Hlt). rewrite H, Hw. unfold weight. destruct (pending (f q)); [specialize (Hlt eq_refl)|]; lia.
Qed.

Lemma next_progress c d s :
  quiet d s -> queue_ok d -> deliverable d -> existsb (due c) (webhook_queue d) = true ->
  exists s' d', at_time c process_next s = (s', Ok true) /\ quiet d' s' /\ queue_ok d' /\ deliverable d' /\
    work d' < work d /\ length (webhook_logs d') = S (length (webhook_logs d)).
Proof.
  intros [Hd Hm] Hok Hnet Hdue. unfold at_time, process_next, transaction. cbn [disk mem expired now today uuids]. rewrite Hd.
  set (s0 := Session d d [] c (today s) (uuids s)).
  rewrite (bind_run _ _ s0 _ _ (claim_due_run c d s0 (conj eq_refl eq_refl) eq_refl Hok)).
  destruct (order_by _ _) as [|q rest] eqn:Eo.
  { exfalso. apply existsb_exists in Hdue as (q & Hq & Hdq). assert (Hin : In q []); [|done].
    rewrite <- Eo. apply order_by_In, filter_In. by split. }
  assert (Hq : In q (webhook_queue d) /\ due c q = true) by (apply filter_In, (order_by_In (fun a b => wp_next_retry a <=? wp_next_retry b)); rewrite Eo; by left).
  destruct Hq as [Hin [Hp _]%andb_prop]. cbn [hd_error].
  destruct (process_one_run q s0 d eq_refl eq_refl Hok Hnet Hin Hp) as (l & x & s1 & Hrun & Hmem & Hx & _).
  rewrite (bind_run _ _ _ _ _ Hrun). cbv [mret M_ret].
  eexists _, (mem s1). split; [reflexivity|]. split; [by split|]. rewrite Hmem. split; [by apply settle_ok|]. split; [exact Hnet|].
  split; [by apply settle_work|]. cbn. rewrite length_app. cbn. lia.
Qed.

(** ** The worker drains the queue *)

(** The state after [n] iterations, the next of them at [clock 0]. *)
Fixpoint polls (clock : nat -> Z) (n : nat) (s : session) : session :=
  match n with
  | O => s
  | S n' => polls (fun i => clock (S i)) n' (fst (at_time (clock O) process_next s))
  end.

Lemma polls_add clock n m s : polls clock (n + m) s = polls (fun i => clock (n + i)%nat) m (polls clock n s).
Proof. revert clock s. induction n as [|n IH]; intros clock s; [done|]. cbn. by rewrite IH. Qed.

Lemma first_due i : forall clock d s,
  quiet d s -> queue_ok d -> existsb (due (clock i)) (webhook_queue d) = true ->
  exists j, quiet d (polls clock j s) /\ existsb (due (clock j)) (webhook_queue d) = true.
Proof.
  induction i as [|i IH]; intros clock d s Hs Hok Hdue; [by exists O|].
  destruct (existsb (due (clock O)) (webhook_queue d)) eqn:E; [by exists O|].
  destruct (next_idle (clock O) d s Hs Hok E) as (s1 & H1 & Hs1).
  destruct (IH (fun i => clock (S i)) d s1 Hs1 Hok Hdue) as (j & Hj & Hdj).
  exists (S j). cbn [polls]. rewrite H1. by split.
Qed.

Definition unbounded (clock : nat -> Z) : Prop := forall T n, exists i, (n <= i)%nat /\ T <= clock i.

Lemma unbounded_later clock n : unbounded clock -> unbounded (fun i => clock (n + i)%nat).
Proof.
  intros H T m. destruct (H T (n + m)%nat) as (i & Hi & HT). exists (i - n)%nat. split; [lia|].
  by replace (n + (i - n))%nat with i by lia.
Qed.

Definition settled (d : DB) : Prop := forall q, In q (webhook_queue d) -> pending q = false.

Lemma drains (k : nat) : forall clock d s,
  work d <= Z.of_nat k -> quiet d s -> queue_ok d -> deliverable d -> unbounded clock ->
  exists n d', quiet d' (polls clock n s) /\ settled d' /\
    Z.of_nat (length (webhook_logs d')) <= Z.of_nat (length (webhook_logs d)) + work d.
Proof.
  induction k as [|k IH]; intros clock d s Hk Hs Hok Hnet Hclock;
    destruct (existsb pending (webhook_queue d)) eqn:Ep; cycle 1.
  1, 3: exists O, d; split; [exact Hs|]; split; [|pose proof (work_nonneg d); lia];
    intros q Hq; destruct (pending q) eqn:E; [|done]; assert (existsb pending (webhook_queue d) = true) by (apply existsb_exists; by exists q); congruence.
  all: apply existsb_exists in Ep as (q & Hq & Hp); destruct (Hclock (wp_next_retry q) O) as (i & _ & Hi);
    assert (Hdue : existsb (due (clock i)) (webhook_queue d) = true) by
      (apply existsb_exists; exists q; split; [done|]; unfold due; rewrite Hp; by apply Z.leb_le);
    destruct (first_due i clock d s Hs Hok Hdue) as (j & Hj & Hdj);
    destruct (next_progress (clock j) d (polls clock j s) Hj Hok Hnet Hdj) as (s1 & d1 & H1 & Hs1 & Hok1 & Hnet1 & Hw & Hlen).
  2: { pose proof (work_nonneg d1). lia. }
  destruct (IH (fun i => clock (S j + i)%nat) d1 s1) as (n & d' & Hn & Hset & Hlogs); [lia|done|done|done| |].
  { by apply unbounded_later. }
  exists (S j + n)%nat, d'. rewrite polls_add. replace (polls clock (S j) s) with s1; [by split_and!; [..|lia]|].
  replace (S j) with (j + 1)%nat by lia. rewrite polls_add. cbn [polls]. replace (j + 0)%nat with j by lia. by rewrite H1.
Qed.

(** C26: while no event arrives, the worker settles every delivery of the
    queue: polling at times that go on for ever, it comes to a state where
    none is pending, after at most as many attempts as the queue had left,
    three a row. *)
Theorem queue_drains clock d t td u :
  queue_ok d -> deliverable d -> unbounded clock ->
  exists n, let s := polls clock n (start d t td u) in
    settled (mem s) /\ Z.of_nat (length (webhook_logs (mem s))) <= Z.of_nat (length (webhook_logs d)) + work d.
Proof.
  intros Hok Hnet Hclock. destruct (drains (Z.to_nat (work d)) clock d (start d t td u)) as (n & d' & [_ Hm] & Hset & Hlogs);
    [pose proof (work_nonneg d); lia|by split|done..|].
  exists n. cbv zeta. by rewrite Hm.
Qed.

End delivery.

(** ** Dispatching *)

Section dispatch.
Context {env : Env} {crypto : Crypto} {net : Net}.

(** The deliveries queued for an event, one for each subscription. *)
Fixpoint queued (t : Z) (tenant_id : Z) (event_type : string) (data : dict) (u : Z) (subs : list WebhookSubscription)
    : list WebhookPendingDelivery :=
  match subs with
  | [] => []
  | sub :: subs' =>
      MkWebhookPendingDelivery u tenant_id (ws_id sub) event_type (JObj (envelope_of event_type data)) 0 t "pending"
        :: queued t tenant_id event_type data (u + 1) subs'
  end.

Lemma queue_loop tenant_id event_type data t subs s :
  forM subs (fun sub => i ← uuid4; add (MkWebhookPendingDelivery i tenant_id (ws_id sub) event_type
    (JObj (envelope_of event_type data)) 0 t "pending")) s =
  (Session (disk s) (put_webhook_queue (webhook_queue (mem s) ++ queued t tenant_id event_type data (uuids s) subs) (mem s))
     (expired s) (now s) (today s) (uuids s + Z.of_nat (length subs)), Ok tt).
Proof.
  revert s. induction subs as [|sub subs IH]; intros s; cbn [forM].
  { cbv [mret M_ret]. cbn. rewrite app_nil_r, Z.add_0_r. by destruct s as [? [] ? ? ? ?]. }
  rewrite run_assoc. unfold mbind at 1, M_bind at 1. cbv [uuid4]. unfold add. rewrite run_orm, IH.
  cbn [disk mem set_mem put_table table WebhookPendingDelivery_entity webhook_queue put_webhook_queue expired now today uuids length queued].
  rewrite <- app_assoc. cbn [app]. f_equal. f_equal. lia.
Qed.

Lemma queued_spec t tenant_id event_type data u subs :
  List.map wp_subscription (queued t tenant_id event_type data u subs) = List.map ws_id subs /\
  forall q, In q (queued t tenant_id event_type data u subs) ->
    wp_tenant q = tenant_id /\ wp_event q = event_type /\ wp_attempts q = 0 /\ wp_next_retry q = t /\
    wp_status q = "pending"%string /\ wp_payload q = JObj (envelope_of event_type data) /\ u <= wp_id q.
Proof.
  revert u. induction subs as [|sub subs IH]; intros u; [done|]. destruct (IH (u + 1)) as [IH1 IH2]. cbn [queued List.map]. split.
  - by rewrite IH1.
  - intros q [<-|Hq]; [cbn; split_and!; done || lia|]. destruct (IH2 q Hq) as (? & ? & ? & ? & ? & ? & ?). split_and!; done || lia.
Qed.

(** dispatching an event queues one pending delivery, due at once,
    for each active subscription of the tenant to it, and changes nothing
    else. *)
Theorem dispatch_queues_each_subscription tenant_id event_type data s d :
  quiet d s -> List.NoDup (List.map ws_id (webhook_subscriptions d)) ->
  exists s' news, dispatch_webhook_event tenant_id event_type data s = (s', Ok tt) /\
    quiet (put_webhook_queue (webhook_queue d ++ news) d) s' /\
    List.map wp_subscription news =
      List.map ws_id (List.filter (subscription_matches tenant_id (lower (strip event_type))) (webhook_subscriptions d)) /\
    forall q, In q news -> wp_tenant q = tenant_id /\ wp_event q = event_type /\ wp_attempts q = 0 /\
      wp_next_retry q = now s /\ pending q = true /\ uuids s <= wp_id q.
Proof.
  intros [Hd Hm] Hnd. unfold dispatch_webhook_event, transaction. rewrite Hd.
  set (s0 := Session d d [] (now s) (today s) (uuids s)). rewrite run_now.
  unfold list_matching_subscriptions. cbv zeta. rewrite run_select_synced by (by split).
  cbn [table WebhookSubscription_entity mem s0]. rewrite queue_loop. cbn [mem disk now today uuids expired s0].
  eexists _, _. split; [reflexivity|]. split; [by split|].
  destruct (queued_spec (now s) tenant_id event_type data (uuids s)
    (List.filter (subscription_matches tenant_id (lower (strip event_type))) (webhook_subscriptions d))) as [H1 H2].
  split; [exact H1|]. intros q Hq. destruct (H2 q Hq) as (? & ? & ? & ? & Hs & ? & ?). unfold pending. rewrite Hs. by split_and!.
Qed.

End dispatch.

(** ** What a subscription looks like *)

Section subscriptions.
Context {env : Env} {crypto : Crypto} {net : Net}.

Lemma dedup_spec seen l :
  List.NoDup (dedup_in_order seen l) /\
  forall e, In e (dedup_in_order seen l) <-> In e l /\ ~ In e seen.
Proof.
  revert seen. induction l as [|x l IH]; intros seen; cbn [dedup_in_order]; [split; [constructor|cbn; tauto]|].
  destruct (str_in x seen) eqn:E.
  - apply str_in_spec in E. destruct (IH seen) as [Hnd Hin]. split; [done|]. intros e. rewrite Hin. cbn. split; [tauto|].
    intros [[<-|?] ?]; tauto.
  - assert (Hx : ~ In x seen) by (intros H; apply str_in_spec in H; congruence).
    destruct (IH (x :: seen)) as [Hnd Hin]. split.
    + constructor; [|done]. rewrite Hin. cbn. tauto.
    + intros e. cbn [In]. rewrite Hin. cbn [In]. destruct (string_dec x e) as [<-|]; tauto.
Qed.

Lemma normalized_events l evs :
  normalize_events l = Ok evs -> evs <> [] /\ List.NoDup evs /\ forall e, In e evs -> In e VALID_WEBHOOK_EVENTS.
Proof.
  unfold normalize_events. intros H. apply bind_Ok in H as (out & Hout & H).
  assert (Hvalid : forall e, In e (omap id out) -> In e VALID_WEBHOOK_EVENTS).
  { apply mapR_ok in Hout. clear H. induction Hout as [|x y xs ys Hx _ IH]; [done|]. intros e. cbn [omap list_omap].
    destruct (negb (truthy _)); [injection Hx as <-; exact (IH e)|].
    destruct (str_in (lower (strip x)) VALID_WEBHOOK_EVENTS) eqn:E; [|done]. cbn in Hx. injection Hx as <-.
    intros [<-|He]; [by apply str_in_spec|by apply IH]. }
  destruct (omap id out) as [|e0 es] eqn:Eo; [done|]. injection H as <-. destruct (dedup_spec [] (e0 :: es)) as [Hnd Hin].
  split_and!; [|done|].
  - intros E. cbn in E. discriminate E.
  - intros e He. apply Hvalid. by apply Hin in He as [? _].
Qed.

(** A non-blank https URL with a host, and distinct known events, at least
    one. *)
Record typed (w : WebhookSubscription) : Prop := {
  ty_url : exists netloc, urlparse (ws_url w) = Ok ("https"%string, netloc) /\ truthy netloc = true;
  ty_some : ws_events w <> [];
  ty_distinct : List.NoDup (ws_events w);
  ty_known : forall e, In e (ws_events w) -> In e VALID_WEBHOOK_EVENTS }.

Lemma validated_url url t u :
  validate_https_url url t = Ok u -> exists netloc, urlparse u = Ok ("https"%string, netloc) /\ truthy netloc = true.
Proof.
  unfold validate_https_url. cbv zeta. destruct (negb (truthy _)); [done|]. intros H. apply bind_Ok in H as ([scheme netloc] & Hp & H).
  destruct (String.eqb_spec scheme "https") as [->|]; [|done]. cbn [negb] in H.
  destruct (truthy netloc) eqn:Ht; [|done]. cbn [negb] in H.
  destruct (assert_webhook_target_ips_safe_for_url _ _) as [|e].
  - injection H as <-. by exists netloc.
  - destruct e as [ | | | | | | | | | | | | | | | | | | | | |sv m c| | |]; try done. by repeat (destruct sv as [|[[] [] [] [] [] [] [] []] sv]; try done).
Qed.

Definition all_typed (s : session) : Prop := forall w, In w (webhook_subscriptions (mem s)) -> typed w.

Lemma typed_assign i f : (forall w, typed w -> typed (f w)) -> preserves all_typed (assign (R := WebhookSubscription) i f).
Proof.
  intros Hf. apply preserves_orm. intros s Hs w Hw.
  apply (where_id_In (R := WebhookSubscription)) in Hw as (x & Hx & ->).
  destruct (_ =? _); [apply Hf|]; by apply Hs.
Qed.

Lemma typed_unchanged {A} (m : M A) :
  (forall s s' r, m s = (s', r) -> webhook_subscriptions (mem s') = webhook_subscriptions (mem s)) -> preserves all_typed m.
Proof. intros Hm s s' r Hs H w Hw. rewrite (Hm _ _ _ H) in Hw. by apply Hs. Qed.

Lemma typed_quiet :
  preserves all_typed uuid4 /\ preserves all_typed flush /\ preserves all_typed get_now.
Proof. split_and!; apply typed_unchanged; intros s s' r H; cbv [uuid4 flush get_now] in H; by simplify_eq. Qed.

Inductive subscription_request :=
  | CreateSubscription (url : string) (events : list string) (is_active : bool)
  | PatchSubscription (id : Z) (url : option string) (events : option (list string)) (is_active : option bool)
  | ReencryptSecrets (key : string)
  | DeleteSubscription (id : Z).

Definition serve_subscription (t : Z) (q : subscription_request) : M unit :=
  match q with
  | CreateSubscription url events a => _ ← create_subscription t url events a; mret tt
  | PatchSubscription i url events a => _ ← patch_subscription t i url events a; mret tt
  | ReencryptSecrets key => _ ← reencrypt_subscription_secrets_for_tenant t key; mret tt
  | DeleteSubscription i => delete_subscription t i
  end.

Lemma typed_create t url events a : preserves all_typed (create_subscription t url events a).
Proof.
  destruct typed_quiet as (Hu & Hf & Hn). unfold create_subscription, generate_webhook_secret.
  apply preserves_bind; [exact Hn|]. intros tm. intros s s' r Hs H.
  unfold mbind at 1, M_bind at 1, lift at 1 in H. destruct (validate_https_url url tm) as [u|] eqn:Eu; [|by simplify_eq].
  unfold mbind at 1, M_bind at 1, lift at 1 in H. destruct (normalize_events events) as [evs|] eqn:Ee; [|by simplify_eq].
  apply normalized_events in Ee as (H1 & H2 & H3). apply validated_url in Eu.
  revert s s' r Hs H. apply preserves_bind; [apply preserves_bind; [exact Hu|intros; apply preserves_ret]|]. intros secret.
  apply preserves_bind; [exact Hu|]. intros i. apply preserves_bind; [exact Hu|]. intros nonce.
  apply preserves_bind; [|intros _; apply preserves_bind; [exact Hf|intros; apply preserves_ret]].
  apply preserves_orm. intros s Hs w [Hw|[<-|[]]]%in_app_iff; [by apply Hs|by split].
Qed.

Lemma typed_patch t i url events a : preserves all_typed (patch_subscription t i url events a).
Proof.
  destruct typed_quiet as (Hu & Hf & Hn). unfold patch_subscription. apply preserves_bind; [exact Hn|]. intros tm.
  apply preserves_bind; [apply preserves_scalar|]. intros [w|]; [|apply preserves_raise].
  apply preserves_bind.
  { destruct url as [url|]; [|apply preserves_ret]. intros s s' r Hs H.
    unfold mbind, M_bind, lift in H. destruct (validate_https_url url tm) as [u|] eqn:Eu; [|by simplify_eq].
    apply validated_url in Eu. eapply typed_assign; [|exact Hs|exact H]. intros x [? ? ? ?]. by split. }
  intros _. apply preserves_bind.
  { destruct events as [events|]; [|apply preserves_ret]. intros s s' r Hs H.
    unfold mbind, M_bind, lift in H. destruct (normalize_events events) as [evs|] eqn:Ee; [|by simplify_eq].
    apply normalized_events in Ee as (H1 & H2 & H3). eapply typed_assign; [|exact Hs|exact H]. intros x [? ? ? ?]. by split. }
  intros _. apply preserves_bind.
  { destruct a as [b|]; [|apply preserves_ret]. apply typed_assign. intros x [? ? ? ?]. by split. }
  intros _. apply preserves_bind; [exact Hf|]. intros _. apply preserves_ret.
Qed.

Lemma typed_reencrypt t key : preserves all_typed (reencrypt_subscription_secrets_for_tenant t key).
Proof.
  destruct typed_quiet as (Hu & Hf & Hn). unfold reencrypt_subscription_secrets_for_tenant, list_subscriptions.
  apply preserves_bind; [exact Hu|]. intros n. apply preserves_bind; [apply preserves_lift|]. intros _.
  apply preserves_bind; [apply preserves_bind; [apply preserves_select|intros; apply preserves_ret]|]. intros rows.
  apply preserves_bind; [|intros _; apply preserves_bind; [exact Hf|intros; apply preserves_ret]].
  apply preserves_forM. intros w _. apply preserves_bind; [exact Hu|]. intros k. apply preserves_bind; [apply preserves_lift|].
  intros secret. apply typed_assign. intros x [? ? ? ?]. by split.
Qed.

Lemma typed_delete t i : preserves all_typed (delete_subscription t i).
Proof.
  destruct typed_quiet as (Hu & Hf & Hn). unfold delete_subscription, unawaited_delete.
  apply preserves_bind; [apply preserves_scalar|]. intros [w|]; [|apply preserves_raise].
  apply preserves_bind; [apply preserves_ret|]. intros _. exact Hf.
Qed.

(** C28: every stored subscription keeps its type: an https URL with a
    host, and a list of distinct known events that is not empty, whatever
    subscription requests are served. *)
Theorem subscriptions_stay_typed t q tm td u d :
  (forall w, In w (webhook_subscriptions d) -> typed w) ->
  forall w, In w (webhook_subscriptions (run (serve_subscription t q) tm td u d).1) -> typed w.
Proof.
  intros Hd. unfold run. destruct (serve_subscription t q _) as [s [a|e]] eqn:E; [|exact Hd]. cbn [fst].
  assert (Hp : preserves all_typed (serve_subscription t q)).
  { destruct q; cbn [serve_subscription]; [| | |apply typed_delete];
      (apply preserves_bind; [|intros; apply preserves_ret]); [apply typed_create|apply typed_patch|apply typed_reencrypt]. }
  exact (Hp (start d tm td u) s (Ok a) Hd E).
Qed.

End subscriptions.

(** ** A concrete network *)

(** Every host has one public address and every POST ends in a timeout. *)
Definition deaf_net : Net := {|
  getaddrinfo := fun _ _ => Addresses [Some (IpObject false false false false false)];
  ipv6_literal := fun _ => true;
  http_post := fun _ _ _ t => (t + 30, RequestFailed "timed out");
  hmac_sha256_hex := fun _ _ => "00"%string;
  fernet_encrypt := fun _ s => s; fernet_decrypt := Some; fernet_encrypt_with := fun _ _ => Some |}.

Definition hook : WebhookSubscription :=
  MkWebhookSubscription 5 1 "https://example.com/hook" ["booking.created"%string] "whsec" true.
Definition hook_db : DB := put_webhook_subscriptions [hook] empty_db.

Lemma dispatch_queues_each_subscription_witness :
  exists s' news, dispatch_webhook_event 1 BOOKING_CREATED [] (start hook_db 7 0 100) = (s', Ok tt) /\
    quiet (put_webhook_queue news hook_db) s' /\ List.map wp_subscription news = [5].
Proof.
  destruct (dispatch_queues_each_subscription 1 BOOKING_CREATED [] (start hook_db 7 0 100) hook_db) as (s' & news & H & Hq & Hs & _).
  - split; reflexivity.
  - repeat constructor. intros [].
  - exists s', news. split; [exact H|]. split; [exact Hq|exact Hs].
Defined.

(** One delivery to it, queued at time 7. *)
Definition queued_db : DB :=
  put_webhook_queue [MkWebhookPendingDelivery 100 1 5 BOOKING_CREATED (JObj (envelope_of BOOKING_CREATED [])) 0 7 "pending"] hook_db.

Lemma queued_ok : queue_ok queued_db.
Proof.
  split.
  - repeat constructor. intros [].
  - repeat constructor. intros [].
  - intros q [<-|[]] _. split; [|split].
    + exists hook. split; [by left|reflexivity].
    + cbn. lia.
    + eexists. reflexivity.
Qed.

Lemma queue_drains_witness :
  exists n, let s := polls (net := deaf_net) Z.of_nat n (start queued_db 0 0 200) in
    settled (mem s) /\ Z.of_nat (length (webhook_logs (mem s))) <= 3.
Proof.
  apply (queue_drains (net := deaf_net) Z.of_nat queued_db 0 0 200 queued_ok).
  - intros w e t [<-|[]]. reflexivity.
  - intros T n. exists (Nat.max n (Z.to_nat T)). split; lia.
Defined.

Lemma subscriptions_stay_typed_witness :
  exists d', (run (serve_subscription (env := sample_env) (crypto := AuthLaws.toy_crypto) (net := deaf_net) 1
      (CreateSubscription " https://example.com/a " [" Booking.Created "; "booking.created"]%string true)) 0 0 9 hook_db).1 = d' /\
    List.map ws_events (webhook_subscriptions d') = [["booking.created"]; ["booking.created"]]%string /\
    forall w, In w (webhook_subscriptions d') -> typed (net := deaf_net) w.
Proof.
  eexists. split; [reflexivity|]. split; [vm_compute; reflexivity|].
  apply (subscriptions_stay_typed (env := sample_env) (crypto := AuthLaws.toy_crypto) (net := deaf_net)). intros w [<-|[]]. split.
  - exists "example.com"%string. split; reflexivity.
  - discriminate.
  - repeat constructor. intros [].
  - intros e [<-|[]]. left. reflexivity.
Defined.
