(* ===== verification/ChannexClient.v ===== *)
(** * The channel manager's HTTP client

    app/integrations/channex/client.py (retries, error mapping, JSON:API
    unwrapping, the calls the services make) and rate_value.py (prices as
    text in a currency's minor unit).  The channel manager itself is a state
    of type [W] that answers requests. *)

From S2P Require Import Prelude PyDecimal PyJson StayDates Calendar Models Session Remote Channex.

Record http_call := HttpCall {
  hc_base : string; hc_key : string; hc_method : string; hc_path : string;
  hc_body : option json; hc_params : list (string * json) }.

(** Status, text, and what [response.json()] makes of the text. *)
Inductive http_reply := Reply (status : Z) (text : string) (payload : option json) | NoReply.

(** The server, and the text of exceptions that are not the client's own. *)
Class Wire (W : Type) := { serve : W -> http_call -> W * http_reply; exn_text : exn -> string }.

Definition CHANNEX_PROD_BASE : string := "https://api.channex.io/api/v1".
Definition CHANNEX_SANDBOX_BASE : string := "https://staging.channex.io/api/v1".

Record channex_client := ChannexClient { cc_base : string; cc_key : string }.

(** [ChannexClient(api_key, env)] *)
Definition new_client (api_key : string) (env : string) : channex_client :=
  let env_lower := lower (strip (if truthy env then env else "production")) in
  ChannexClient (if String.eqb env_lower "sandbox" then CHANNEX_SANDBOX_BASE else CHANNEX_PROD_BASE) api_key.

(** [json.dumps(x, default=str)] *)
Fixpoint json_dumps_spaced (j : json) : string :=
  match j with
  | JArr l => "[" ++ py_join ", " (List.map json_dumps_spaced l) ++ "]"
  | JObj l => "{" ++ py_join ", " (List.map (fun kv => json_quote (fst kv) ++ ": " ++ json_dumps_spaced (snd kv)) l) ++ "}"
  | _ => json_dumps j
  end%string.

(** A 200 whose [meta.warnings] is not empty is a failure. *)
Definition ensure_no_channex_ari_warnings (payload : json) (endpoint : string) : result unit :=
  match payload with
  | JObj d =>
      match dict_get d "meta" with
      | Some (JObj meta) =>
          match dict_get meta "warnings" with
          | Some (JArr (w :: ws)) =>
              let detail := slice 1900 (json_dumps_spaced (JArr (w :: ws))) in
              Err (ChannexApiError ("Channex rejected part of ARI update (" ++ endpoint ++ "): " ++ detail) (Some 200) (Some detail))
          | _ => Ok tt
          end
      | _ => Ok tt
      end
  | _ => Ok tt
  end.

(** ** JSON:API payloads *)

Definition objects (l : list json) : list dict := omap (fun x => match x with JObj d => Some d | _ => None end) l.

Definition unwrap_items (data : json) : list dict :=
  match data with
  | JArr l => objects l
  | JObj d =>
      match dict_get d "data" with
      | Some JNull => []
      | Some (JArr l) => objects l
      | Some (JObj inner) => [inner]
      | _ => [d]
      end
  | _ => []
  end.

(** [{**base, **attrs}] *)
Definition dict_update (base attrs : dict) : dict := List.fold_left (fun d kv => dict_set d (fst kv) (snd kv)) attrs base.

(** [x if x is not None] *)
Definition not_none (o : option json) : option json := match o with Some JNull => None | _ => o end.

Definition attributes_obj (item : dict) : dict :=
  match dict_get item "attributes" with
  | Some (JObj attrs) =>
      let resolved := match not_none (dict_get item "id") with Some v => Some v | None => not_none (dict_get attrs "id") end in
      dict_update [("id"%string, JStr (match resolved with Some v => strip (py_str v) | None => EmptyString end))] attrs
  | _ => item
  end.

(** The first item, or the payload itself, or nothing. *)
Definition first_flat (payload : json) : dict :=
  match unwrap_items payload with
  | item :: _ => attributes_obj item
  | [] => match payload with JObj d => attributes_obj d | _ => [] end
  end.

Definition has_id (flat : dict) : bool := match dict_get flat "id" with Some v => py_bool v | None => false end.

Definition extract_created_resource_id (payload : json) : option string :=
  match unwrap_items payload with
  | [] => None
  | item :: _ =>
      match not_none (dict_get (attributes_obj item) "id") with
      | None => None
      | Some rid => if truthy (strip (py_str rid)) then Some (strip (py_str rid)) else None
      end
  end.

(** [ChannexProperty], [ChannexRoomType] and [ChannexRatePlan] have the same
    two fields. *)
Record cx_resource := CxResource { rs_id : string; rs_title : option string }.

Definition resource_of (flat : dict) : result cx_resource :=
  match dict_get flat "id", opt_str_field flat "title" with
  | Some (JStr i), Some t => Ok (CxResource i t)
  | _, _ => Err (ValueError "ValidationError")
  end.

(** ** Requests *)

Section client.
Context {W : Type} {channex : Wire W}.

Definition raw_request (c : channex_client) (method path : string) (body : option json) (params : dict) : call W (Z * string * option json) :=
  fun w =>
  match serve w (HttpCall (cc_base c) (cc_key c) method path body params) with
  | (w', Reply status text payload) => (w', Ok (status, text, payload))
  | (w', NoReply) => (w', Err TransportError)
  end.

(** [stop_after_attempt(n + 1)]: an answer 429 is asked again; when every
    attempt got one, tenacity raises its RetryError. *)
Fixpoint with_429_retries (n : nat) (m : call W (Z * string * option json)) : call W (Z * string * option json) :=
  r ← m;
  if (r.1.1 =? 429)%Z then match n with O => call_raise RetryError | S n' => with_429_retries n' m end else mret r.

Definition server_error (status : Z) : bool := (500 <=? status) && (status <? 600).

Fixpoint server_error_retries (n : nat) (m : call W (Z * string * option json)) (r : Z * string * option json)
    : call W (Z * string * option json) :=
  if server_error r.1.1 then match n with O => mret r | S n' => r' ← m; server_error_retries n' m r' end else mret r.

Definition request (c : channex_client) (method path : string) (body : option json) (params : dict) : call W (string * option json) :=
  let m := raw_request c method path body params in
  r ← with_429_retries 2 m;
  r ← server_error_retries 2 m r;
  let '(status, text, payload) := r in
  if 400 <=? status then
    call_raise (ChannexApiError ("Channex API error: HTTP " ++ py_str (JInt status)) (Some status) (Some text))
  else mret (text, payload).

(** [r.json()] *)
Definition request_json (c : channex_client) (method path : string) (body : option json) (params : dict) : call W json :=
  '(_, payload) ← request c method path body params;
  call_lift (of_option payload (ValueError "JSONDecodeError")).

(** ** Calls *)

Definition resources (payload : json) : result (list cx_resource) :=
  mapR resource_of (List.filter has_id (List.map attributes_obj (unwrap_items payload))).

Definition get_properties (c : channex_client) : call W (list cx_resource) :=
  payload ← request_json c "GET" "properties" None []; call_lift (resources payload).

Definition get_room_types (c : channex_client) (property_id : string) : call W (list cx_resource) :=
  payload ← request_json c "GET" "room_types" None [("property_id"%string, JStr property_id)]; call_lift (resources payload).

Definition get_rate_plans (c : channex_client) (property_id : string) : call W (list cx_resource) :=
  payload ← request_json c "GET" "rate_plans" None [("property_id"%string, JStr property_id)]; call_lift (resources payload).

(** [str(payload)[:500] if payload else None] *)
Definition payload_preview (payload : json) : option string :=
  if py_bool payload then Some (slice 500 (py_str payload)) else None.

Definition created (what : string) (payload : json) : result cx_resource :=
  let flat := first_flat payload in
  if has_id flat then resource_of flat
  else Err (ChannexApiError ("Channex create " ++ what ++ ": missing id in response") None (payload_preview payload)).

Definition cx_create_property (c : channex_client) (title currency : string) (timezone : option string) : call W cx_resource :=
  let zone := match timezone with Some z => if truthy z && truthy (strip z) then [("timezone"%string, JStr (strip z))] else [] | None => [] end in
  payload ← request_json c "POST" "properties" (Some (JObj [("property", JObj
    ([("title", JStr (strip title)); ("currency", JStr (upper (strip currency))); ("property_type", JStr "hotel")] ++ zone))]%string)) [];
  call_lift (created "property" payload).

Definition cx_create_room_type (c : channex_client) (property_id title : string) (count_of_rooms occ_adults occ_children occ_infants default_occupancy : Z)
    : call W cx_resource :=
  payload ← request_json c "POST" "room_types" (Some (JObj [("room_type", JObj
    [("property_id", JStr (strip property_id)); ("title", JStr (strip title)); ("count_of_rooms", JInt count_of_rooms);
     ("occ_adults", JInt occ_adults); ("occ_children", JInt occ_children); ("occ_infants", JInt occ_infants);
     ("default_occupancy", JInt default_occupancy); ("facilities", JArr []); ("room_kind", JStr "room")])]%string)) [];
  call_lift (created "room type" payload).

Definition week (j : json) : json := JArr (List.repeat j 7).

Definition cx_create_rate_plan (c : channex_client) (property_id room_type_id title currency : string) (primary_occupancy : Z)
    : call W cx_resource :=
  let no := JBool false in
  payload ← request_json c "POST" "rate_plans" (Some (JObj [("rate_plan", JObj
    [("title", JStr (slice 255 (strip title))); ("property_id", JStr (strip property_id)); ("room_type_id", JStr (strip room_type_id));
     ("parent_rate_plan_id", JNull); ("children_fee", JStr "0.00"); ("infant_fee", JStr "0.00");
     ("max_stay", week (JInt 0)); ("min_stay_arrival", week (JInt 1)); ("min_stay_through", week (JInt 1));
     ("closed_to_arrival", week no); ("closed_to_departure", week no); ("stop_sell", week no);
     ("options", JArr [JObj [("occupancy", JInt (Z.max 1 primary_occupancy)); ("is_primary", JBool true); ("rate", JInt 0)]]);
     ("currency", JStr (upper (strip currency))); ("sell_mode", JStr "per_room"); ("rate_mode", JStr "manual");
     ("inherit_rate", no); ("inherit_closed_to_arrival", no); ("inherit_closed_to_departure", no); ("inherit_stop_sell", no);
     ("inherit_min_stay_arrival", no); ("inherit_min_stay_through", no); ("inherit_max_stay", no); ("inherit_max_sell", no);
     ("inherit_max_availability", no); ("inherit_availability_offset", no); ("auto_rate_settings", JNull)])]%string)) [];
  call_lift (created "rate plan" payload).

Definition push (c : channex_client) (endpoint : string) (values : list json) : call W json :=
  payload ← request_json c "POST" endpoint (Some (JObj [("values"%string, JArr values)])) [];
  _ ← call_lift (ensure_no_channex_ari_warnings payload endpoint);
  mret payload.

Definition push_availability (c : channex_client) (values : list json) : call W json := push c "availability" values.
Definition push_restrictions (c : channex_client) (values : list json) : call W json := push c "restrictions" values.

Definition get_booking_revision_raw (c : channex_client) (revision_id : string) : call W dict :=
  payload ← request_json c "GET" ("booking_revisions/" ++ revision_id) None []; mret (first_flat payload).

Definition acknowledge_revision (c : channex_client) (revision_id : string) : call W json :=
  '(text, payload) ← request c "POST" ("booking_revisions/" ++ revision_id ++ "/acknowledge") None [];
  if negb (truthy text) then mret (JObj []) else call_lift (of_option payload (ValueError "JSONDecodeError")).

Definition create_webhook (c : channex_client) (url : string) (events : list string) : call W json :=
  request_json c "POST" "webhooks" (Some (JObj [("url"%string, JStr url); ("events"%string, JArr (List.map JStr events))])) [].

Definition delete_webhook (c : channex_client) (webhook_id : string) : call W unit :=
  _ ← request c "DELETE" ("webhooks/" ++ webhook_id) None []; mret tt.

End client.

(** ** rate_value.py *)

Definition MINOR_UNITS : list (string * Z) :=
  [("BHD", 3); ("IQD", 3); ("JOD", 3); ("KWD", 3); ("LYD", 3); ("OMR", 3); ("TND", 3); ("CLF", 4); ("UYW", 4);
   ("BIF", 0); ("CLP", 0); ("DJF", 0); ("GNF", 0); ("ISK", 0); ("JPY", 0); ("KMF", 0); ("KRW", 0); ("PYG", 0);
   ("RWF", 0); ("UGX", 0); ("VND", 0); ("VUV", 0); ("XAF", 0); ("XOF", 0); ("XPF", 0)]%string.

Definition DEFAULT_MINOR_DIGITS : Z := 2.

Definition currency_exponent (currency_code : string) : Z :=
  let c := slice 3 (upper (strip currency_code)) in
  if negb (String.length c =? 3)%nat then DEFAULT_MINOR_DIGITS
  else match List.find (fun kv => String.eqb (fst kv) c) MINOR_UNITS with Some (_, e) => e | None => DEFAULT_MINOR_DIGITS end.

Definition channex_rate_string (price : dec) (currency_code : string) : result string :=
  q ← dec_quantize ROUND_HALF_UP price (- currency_exponent currency_code);
  Ok (format_f q).

Example rate_in_baht : channex_rate_string (cents 199990) "thb" = Ok "1999.90"%string.
Proof. vm_compute. reflexivity. Qed.
Example rate_in_yen : channex_rate_string (cents 199950) "JPY" = Ok "2000"%string.
Proof. vm_compute. reflexivity. Qed.
