(* ===== verification/ChannexAri.v ===== *)
(** * Availability and rates for the channel manager

    app/tasks/channex_incremental_ari.py (pushes for the dates of a change),
    app/tasks/channex_ari_sync.py (the full push of a year) and
    app/services/channex_ari_triggers.py (what a request leaves to push). *)

From stdpp Require Import pretty.
From S2P Require Import Prelude PyDecimal PyJson StayDates Calendar Tax Models Session Rates Webhooks Channex Remote ChannexClient.

Definition BATCH : nat := 200.
Definition SYNC_DAYS : nat := 365.

(** [for i in range(0, len(l), n): l[i : i + n]]; the length of the list is
    enough fuel. *)
Fixpoint batches_of {A} (n fuel : nat) (l : list A) : list (list A) :=
  match fuel, l with
  | S f, _ :: _ => List.firstn n l :: batches_of n f (List.skipn n l)
  | _, _ => []
  end.

Definition batches {A} (l : list A) : list (list A) := batches_of BATCH (length l) l.

(** [msg[:2000]] *)
Definition error_text (m : string) : option string := Some (slice 2000 m).

Section ari.
Context {env : Env} {net : Net} {W : Type} {channex : Wire W}.

(** ** What both tasks read *)

Definition link_is (tenant_id property_id : Z) (l : ChannexPropertyLink) : bool :=
  (cl_tenant l =? tenant_id) && (cl_property l =? property_id).

Definition get_link (tenant_id property_id : Z) : M (option ChannexPropertyLink) := scalar (link_is tenant_id property_id).

(** [decrypt_channex_api_key] and [_client_for_link] *)
Definition client_for_link (link : ChannexPropertyLink) : result channex_client :=
  match fernet_decrypt (cl_api_key link) with
  | Some plain => Ok (new_client plain (cl_env link))
  | None => Err (ValueError "Invalid or corrupted Channex API key ciphertext")
  end.

(** The rows of the ledger and the rates a SELECT loads, by key. *)
Definition ledger_rows : M (Z -> Z -> date -> option AvailabilityLedger) := fun s =>
  (s, Ok (fun t rt d => if bool_decide (is_Some (ledger (disk s) !! (t, rt, d))) then ledger (mem s) !! (t, rt, d) else None)).

Definition rate_rows_loaded : M (Z -> Z -> Z -> date -> option Rate) := fun s =>
  (s, Ok (fun t rt rp d => if bool_decide (is_Some (rates (disk s) !! (t, rt, rp, d))) then rates (mem s) !! (t, rt, rp, d) else None)).

Definition property_currency_code (tenant_id property_id : Z) : M string :=
  prop ← scalar (property_is tenant_id property_id);
  let raw := match prop with Some p => if truthy (p_currency p) then p_currency p else "USD"%string | None => "USD"%string end in
  let cc := slice 3 (upper (strip raw)) in
  mret (if (String.length cc =? 3)%nat then cc else "USD"%string).

(** [max(0, total - booked - blocked)], and 0 without a row. *)
Definition available (row : option AvailabilityLedger) : Z :=
  match row with Some r => Z.max 0 (total_rooms r - booked_rooms r - blocked_rooms r) | None => 0 end.

Definition availability_row (prop_cx cx_rt : string) (d : date) (avail : Z) : json :=
  JObj [("property_id", JStr prop_cx); ("room_type_id", JStr cx_rt); ("date", JStr (isoformat d)); ("availability", JInt avail)]%string.

Definition field_of {A} (k : string) (f : A -> json) (o : option A) : list (string * json) :=
  match o with Some v => [(k, f v)] | None => [] end.

(** [_restriction_payload] *)
Definition restriction_payload (prop_cx cx_rp : string) (d : date) (currency_code : string) (price : option Z) (stop_sell : option bool)
    (min_stay_arrival max_stay : option Z) : result json :=
  rate ← match price with
         | Some p => r ← channex_rate_string (cents p) currency_code; Ok [("rate"%string, JStr r)]
         | None => Ok []
         end;
  Ok (JObj ([("property_id", JStr prop_cx); ("rate_plan_id", JStr cx_rp); ("date", JStr (isoformat d))]%string ++ rate ++
    field_of "stop_sell" JBool stop_sell ++ field_of "min_stay_arrival" JInt min_stay_arrival ++ field_of "max_stay" JInt max_stay)).

(** ** Sending *)

(** [for i in range(0, len(values), _BATCH): await client.push_...] *)
Fixpoint push_batches (send : list json -> call W json) (bs : list (list json)) : call W unit :=
  match bs with
  | [] => mret tt
  | b :: bs' => _ ← send b; push_batches send bs'
  end.

Definition note_error (link : ChannexPropertyLink) (m : option string) : M unit :=
  _ ← assign (R := ChannexPropertyLink) (cl_id link) (set_cl_error m); flush.

(** The try block of the incremental pushes. *)
Definition send_noting (link : ChannexPropertyLink) (c : call W unit) : T W unit :=
  T_try (_ ← wire c; db (note_error link None))
    (fun e => match e with
              | ChannexApiError msg _ _ => Some (db (note_error link (error_text msg)))
              | _ => None
              end).

(** [sorted({date.fromisoformat(s) for s in date_strs})] *)
Definition parse_dates (date_strs : list string) : result (list date) :=
  ds ← mapR (fun s => of_option (fromisoformat s) (ValueError "Invalid isoformat string")) date_strs;
  Ok (sorted_set ds).

Definition active (link : ChannexPropertyLink) : bool := String.eqb (cl_status link) "active".

Definition room_map_of (tenant_id : Z) (link : ChannexPropertyLink) (m : ChannexRoomTypeMap) : bool :=
  (cm_tenant m =? tenant_id) && (cm_link m =? cl_id link).

Definition rate_map_of (tenant_id : Z) (rtm : ChannexRoomTypeMap) (m : ChannexRatePlanMap) : bool :=
  (cq_tenant m =? tenant_id) && (cq_room_type_map m =? cm_id rtm).

(** The active link and the map of a room type, if there are such. *)
Definition linked_room (tenant_id property_id room_type_id : Z) : M (option (ChannexPropertyLink * ChannexRoomTypeMap)) :=
  link ← get_link tenant_id property_id;
  match link with
  | None => mret None
  | Some link =>
      if negb (active link) then mret None
      else
        rm ← scalar (fun m => room_map_of tenant_id link m && (cm_room_type m =? room_type_id));
        mret ((fun rm => (link, rm)) <$> rm)
  end.

(** ** Incremental pushes *)

Definition availability_values (tenant_id room_type_id : Z) (prop_cx cx_rt : string) (rows : Z -> Z -> date -> option AvailabilityLedger)
    (dates : list date) : list json :=
  List.map (fun d => availability_row prop_cx cx_rt d (available (rows tenant_id room_type_id d))) dates.

Definition run_push_channex_availability (tenant_id property_id room_type_id : Z) (date_strs : list string) : T W unit :=
  match date_strs with
  | [] => mret tt
  | _ =>
      dates ← db (lift (parse_dates date_strs));
      T_transaction (
        lr ← db (linked_room tenant_id property_id room_type_id);
        match lr with
        | None => mret tt
        | Some (link, rm) =>
            rows ← db ledger_rows;
            let values := availability_values tenant_id room_type_id (strip (cl_channex_property link)) (strip (cm_channex_room_type rm)) rows dates in
            client ← db (lift (client_for_link link));
            send_noting link (push_batches (push_availability client) (batches values))
        end)
  end.

(** The rates of the dates that have one above zero. *)
Definition rate_values (prop_cx cx_rp currency_code : string) (row : date -> option Rate) (dates : list date) : result (list json) :=
  mapR (fun dr : date * Rate =>
      restriction_payload prop_cx cx_rp dr.1 currency_code (Some (rate_price dr.2)) (Some (rate_stop_sell dr.2)) (rate_min_stay dr.2) (rate_max_stay dr.2))
    (omap (fun d => match row d with Some r => if rate_price r <=? 0 then None else Some (d, r) | None => None end) dates).

Definition run_push_channex_rates (tenant_id property_id room_type_id rate_plan_id : Z) (date_strs : list string) : T W unit :=
  match date_strs with
  | [] => mret tt
  | _ =>
      dates ← db (lift (parse_dates date_strs));
      T_transaction (
        lr ← db (linked_room tenant_id property_id room_type_id);
        match lr with
        | None => mret tt
        | Some (link, rtm) =>
            rpm ← db (scalar (fun m => rate_map_of tenant_id rtm m && (cq_rate_plan m =? rate_plan_id)));
            match rpm with
            | None => mret tt
            | Some rpm =>
                currency_code ← db (property_currency_code tenant_id (cl_property link));
                row ← db rate_rows_loaded;
                values ← db (lift (rate_values (strip (cl_channex_property link)) (strip (cq_channex_rate_plan rpm)) currency_code
                                     (row tenant_id room_type_id rate_plan_id) dates));
                match values with
                | [] => mret tt
                | _ =>
                    client ← db (lift (client_for_link link));
                    send_noting link (push_batches (push_restrictions client) (batches values))
                end
            end
        end)
  end.

Definition stop_sell_values (prop_cx currency_code : string) (row : Z -> date -> option Rate) (dates : list date) (rpm : ChannexRatePlanMap)
    : result (list json) :=
  mapR (fun d =>
      let price := match row (cq_rate_plan rpm) d with Some r => if 0 <? rate_price r then Some (rate_price r) else None | None => None end in
      restriction_payload prop_cx (strip (cq_channex_rate_plan rpm)) d currency_code price (Some true) None None) dates.

Definition run_push_channex_stop_sell (tenant_id property_id room_type_id : Z) (date_strs : list string) : T W unit :=
  match date_strs with
  | [] => mret tt
  | _ =>
      dates ← db (lift (parse_dates date_strs));
      T_transaction (
        lr ← db (linked_room tenant_id property_id room_type_id);
        match lr with
        | None => mret tt
        | Some (link, rtm) =>
            rate_maps ← db (select (rate_map_of tenant_id rtm));
            match rate_maps with
            | [] => mret tt
            | _ =>
                currency_code ← db (property_currency_code tenant_id (cl_property link));
                row ← db rate_rows_loaded;
                values ← db (lift (mapR (stop_sell_values (strip (cl_channex_property link)) currency_code (row tenant_id room_type_id) dates) rate_maps));
                client ← db (lift (client_for_link link));
                send_noting link (push_batches (push_restrictions client) (batches (List.concat values)))
            end
        end)
  end.

(** ** The full push *)

(** The [SYNC_DAYS] dates from [start] on. *)
Definition sync_dates (start : date) : result (list date) :=
  mapR (fun i => date_add start (Z.of_nat i)) (List.seq 0 SYNC_DAYS).

Definition full_restriction_values (prop_cx currency_code : string) (row : Z -> Z -> date -> option Rate) (dates : list date)
    (room_maps : list ChannexRoomTypeMap) (rpm : ChannexRatePlanMap) : result (list json) :=
  match List.find (fun x => cm_id x =? cq_room_type_map rpm) room_maps with
  | None => Ok []
  | Some rtm => rate_values prop_cx (strip (cq_channex_rate_plan rpm)) currency_code (row (cm_room_type rtm) (cq_rate_plan rpm)) dates
  end.

Definition ari_push_log (i tenant_id link : Z) (n_avail n_rest : Z) (first last : date) : ChannexAriPushLog :=
  MkChannexAriPushLog i tenant_id link
    (JObj [("availability_objects", JInt n_avail); ("restriction_objects", JInt n_rest);
           ("date_from", JStr (isoformat first)); ("date_to", JStr (isoformat last))]%string)
    (Some 200) (Some "ok"%string) None.

Definition run_channex_full_ari_sync (tenant_id property_id : Z) : T W unit :=
  T_transaction (
    link ← db (get_link tenant_id property_id);
    match link with
    | None => mret tt
    | Some link =>
        if negb (active link) then mret tt
        else
          currency_code ← db (property_currency_code tenant_id property_id);
          room_maps ← db (select (room_map_of tenant_id link));
          match room_maps with
          | [] =>
              t ← db get_now;
              _ ← db (assign (R := ChannexPropertyLink) (cl_id link) (set_cl_last_sync (Some t)));
              db (note_error link None)
          | _ =>
              rate_maps ← db (select (fun m => (cq_tenant m =? tenant_id) && existsb (fun x => cm_id x =? cq_room_type_map m) room_maps));
              first ← db get_today;
              dates ← db (lift (sync_dates first));
              last ← db (lift (date_add first (Z.of_nat SYNC_DAYS - 1)));
              rows ← db ledger_rows;
              rrows ← db rate_rows_loaded;
              let prop_cx := strip (cl_channex_property link) in
              let av_values := List.concat (List.map (fun rm =>
                availability_values tenant_id (cm_room_type rm) prop_cx (strip (cm_channex_room_type rm)) rows dates) room_maps) in
              rest ← db (lift (mapR (full_restriction_values prop_cx currency_code (rrows tenant_id) dates room_maps) rate_maps));
              let rest_values := List.concat rest in
              client ← db (lift (client_for_link link));
              sent ← T_try (_ ← wire (push_batches (push_availability client) (batches av_values));
                            _ ← wire (push_batches (push_restrictions client) (batches rest_values));
                            mret true)
                (fun e => Some (_ ← db (note_error link (error_text (match e with ChannexApiError msg _ _ => msg | _ => exn_text e end))); mret false));
              if (sent : bool) then
                t ← db get_now;
                _ ← db (assign (R := ChannexPropertyLink) (cl_id link) (set_cl_last_sync (Some t)));
                _ ← db (assign (R := ChannexPropertyLink) (cl_id link) (set_cl_error None));
                i ← db uuid4;
                _ ← db (add (ari_push_log i tenant_id (cl_id link) (Z.of_nat (length av_values)) (Z.of_nat (length rest_values)) first last));
                db flush
              else mret tt
          end
    end).

(** The properties whose full push is queued: every active link of every
    tenant. *)
Definition run_channex_full_ari_sync_all_properties : M (list (Z * Z)) :=
  query (fun d => List.map (fun l => (cl_tenant l, cl_property l)) (List.filter active (links d))).

(** ** Triggers and their tasks *)

Inductive ari_task :=
  | PushAvailability (tenant_id property_id room_type_id : Z) (date_strs : list string)
  | PushRates (tenant_id property_id room_type_id rate_plan_id : Z) (date_strs : list string)
  | PushStopSell (tenant_id property_id room_type_id : Z) (date_strs : list string).

Definition schedule (task : list string -> ari_task) (dates : list date) : list ari_task :=
  match sorted_date_strs dates with [] => [] | uniq => [task uniq] end.

Definition schedule_push_channex_availability (tenant_id property_id room_type_id : Z) (dates : list date) : list ari_task :=
  schedule (PushAvailability tenant_id property_id room_type_id) dates.
Definition schedule_push_channex_rates (tenant_id property_id room_type_id rate_plan_id : Z) (dates : list date) : list ari_task :=
  schedule (PushRates tenant_id property_id room_type_id rate_plan_id) dates.
Definition schedule_push_channex_stop_sell (tenant_id property_id room_type_id : Z) (dates : list date) : list ari_task :=
  schedule (PushStopSell tenant_id property_id room_type_id) dates.

Definition run_ari_task (task : ari_task) : T W unit :=
  match task with
  | PushAvailability t p rt ds => run_push_channex_availability t p rt ds
  | PushRates t p rt rp ds => run_push_channex_rates t p rt rp ds
  | PushStopSell t p rt ds => run_push_channex_stop_sell t p rt ds
  end.

Definition MAX_RETRIES : nat := 3.

Definition retry_countdown (retries : nat) : Z := Z.min 125 (5 * 5 ^ Z.of_nat retries).

(** One execution of a task: done, or to be executed again after a delay; the
    exception of the last execution is final. *)
Definition execute_ari_task (task : ari_task) (retries : nat) : T W (option Z) :=
  T_try (_ ← run_ari_task task; mret None)
    (fun e => if (retries <? MAX_RETRIES)%nat then Some (mret (Some (retry_countdown retries))) else None).

End ari.
