(* ===== verification/AriLaws.v ===== *)
(** * Laws of the availability pushes

    The channel manager shows what it was last sent.  A full push makes it
    show the ledger for a year; when the ledger changes on some nights and
    those nights are pushed, it shows the ledger again. *)

From stdpp Require Import gmap strings.
From S2P Require Import Prelude PyDecimal PyJson StayDates Calendar Tax TaxOrder Models Session Ledger Rates Webhooks WebhookLaws Channex Remote ChannexClient ChannexAri.

#[local] Instance ledger_row_eq_dec : EqDecision AvailabilityLedger.
Proof. solve_decision. Defined.

(** ** Batches *)

Lemma batches_concat {A} (l : list A) : List.concat (batches l) = l.
Proof.
  unfold batches. assert (H : forall fuel (l : list A), (length l <= fuel)%nat -> List.concat (batches_of BATCH fuel l) = l); [|by apply H].
  intros fuel. induction fuel as [|f IH]; intros k Hk; [destruct k; [done|cbn in Hk; lia]|]. destruct k as [|x k]; [done|].
  change (batches_of BATCH (S f) (x :: k)) with (List.firstn BATCH (x :: k) :: batches_of BATCH f (List.skipn BATCH (x :: k))).
  cbn [List.concat]. rewrite IH; [apply List.firstn_skipn|]. rewrite length_drop. unfold BATCH. cbn [length List.length] in *. lia.
Qed.

(** ** What the channel manager shows *)

(** A row of an availability call: property, room type, date, rooms. *)
Definition avail := (string * string * string * Z)%type.

Definition avail_json (r : avail) : json :=
  let '(p, rt, d, n) := r in
  JObj [("property_id", JStr p); ("room_type_id", JStr rt); ("date", JStr d); ("availability", JInt n)]%string.

Definition avail_key (p rt d : string) (r : avail) : bool :=
  let '(p', rt', d', _) := r in String.eqb p p' && String.eqb rt rt' && String.eqb d d'.

(** The last row of a key. *)
Definition latest (rows : list avail) (p rt d : string) : option Z := snd <$> List.find (avail_key p rt d) (rev rows).

Definition or_else (new old : option Z) : option Z := match new with Some n => Some n | None => old end.

(** What is documented of the channel manager: an answer below 400 without
    warnings means that the rows were taken in order; a call touches only the
    keys it names, and only calls of the availability endpoint do. *)
Class ShowsAvailability (W : Type) {srv : Wire W} := {
  shown : W -> string -> string -> string -> option Z;
  shown_pushed : forall w c w' status text payload rows,
    serve w c = (w', Reply status text (Some payload)) -> status < 400 ->
    hc_method c = "POST"%string -> hc_path c = "availability"%string ->
    hc_body c = Some (JObj [("values"%string, JArr (List.map avail_json rows))]) ->
    ensure_no_channex_ari_warnings payload "availability" = Ok tt ->
    forall p rt d, shown w' p rt d = or_else (latest rows p rt d) (shown w p rt d);
  shown_named : forall w c rows,
    hc_body c = Some (JObj [("values"%string, JArr (List.map avail_json rows))]) ->
    forall p rt d, latest rows p rt d = None -> shown (serve w c).1 p rt d = shown w p rt d;
  shown_elsewhere : forall w c p rt d, hc_path c <> "availability"%string -> shown (serve w c).1 p rt d = shown w p rt d }.

Lemma latest_app a b p rt d : latest (a ++ b) p rt d = or_else (latest b p rt d) (latest a p rt d).
Proof.
  unfold latest. rewrite rev_app_distr. generalize (rev a), (rev b). intros a' b'. induction b' as [|r b' IH]; [done|]. cbn [app List.find].
  by destruct (avail_key p rt d r).
Qed.

Lemma latest_None rows p rt d : latest rows p rt d = None <-> forall r, In r rows -> avail_key p rt d r = false.
Proof.
  unfold latest. split.
  - intros H r Hr%in_rev. destruct (List.find _ _) eqn:E; [done|]. by apply (find_none _ _ E).
  - intros H. destruct (List.find _ _) as [r|] eqn:E; [|done]. apply find_some in E as [Hr%in_rev Hk]. by rewrite (H r Hr) in Hk.
Qed.

Section client.
Context {W : Type} {srv : Wire W} {shows : ShowsAvailability W}.

(** Everything a call does to the server keeps [I] from [w] on. *)
Definition keeps (P : W -> Prop) {A} (m : call W A) : Prop := forall w, P w -> P (m w).1.

Lemma keeps_bind P {A B} (m : call W A) (k : A -> call W B) : keeps P m -> (forall a, keeps P (k a)) -> keeps P (m ≫= k).
Proof.
  intros Hm Hk w Hw. unfold mbind, call_bind. specialize (Hm w Hw). destruct (m w) as [w' [a|e]]; [|done]. by apply Hk.
Qed.

Lemma keeps_ret P {A} (a : A) : keeps P (mret a).
Proof. by intros w Hw. Qed.

Lemma keeps_lift P {A} (r : result A) : keeps P (call_lift r).
Proof. by intros w Hw. Qed.

Lemma keeps_raw P c method path body params :
  (forall w, P w -> P (serve w (HttpCall (cc_base c) (cc_key c) method path body params)).1) -> keeps P (raw_request c method path body params).
Proof. intros H w Hw. unfold raw_request. specialize (H w Hw). by destruct (serve w _) as [w' [st tx pl|]]. Qed.

Lemma keeps_429 P n m : keeps P m -> keeps P (with_429_retries n m).
Proof.
  intros Hm. induction n as [|n IH]; cbn [with_429_retries]; apply keeps_bind; try done; intros r; destruct (r.1.1 =? 429); try done; by intros w Hw.
Qed.

Lemma keeps_5xx P n m r : keeps P m -> keeps P (server_error_retries n m r).
Proof.
  intros Hm. revert r. induction n as [|n IH]; intros r; cbn [server_error_retries]; destruct (server_error _); try by intros w Hw.
  apply keeps_bind; [done|]. intros r'. apply IH.
Qed.

Lemma keeps_request P c method path body params :
  (forall w, P w -> P (serve w (HttpCall (cc_base c) (cc_key c) method path body params)).1) -> keeps P (request c method path body params).
Proof.
  intros H. apply keeps_bind; [apply keeps_429, keeps_raw, H|]. intros r. apply keeps_bind; [apply keeps_5xx, keeps_raw, H|].
  intros [[st tx] pl]. destruct (_ <=? _); by intros w Hw.
Qed.

(** A request that returns ends with an answer below 400. *)
Definition answered (m : call W (Z * string * option json)) (P : W -> Prop) (w' : W) (r : Z * string * option json) : Prop :=
  exists w1, P w1 /\ m w1 = (w', Ok r).

Lemma answered_429 P n m w w' r :
  keeps P m -> P w -> with_429_retries n m w = (w', Ok r) -> answered m P w' r.
Proof.
  intros Hm. revert w. induction n as [|n IH]; intros w Hw H; cbn [with_429_retries] in H; apply call_bind_inv in H as (w1 & r1 & H1 & H2).
  - destruct (r1.1.1 =? 429); [done|]. injection H2 as <- <-. by exists w.
  - destruct (r1.1.1 =? 429); [|injection H2 as <- <-; by exists w]. eapply IH; [|exact H2]. specialize (Hm w Hw). by rewrite H1 in Hm.
Qed.

Lemma answered_5xx P n m w0 w r r0 :
  keeps P m -> answered m P w0 r0 -> P w0 -> forall w', server_error_retries n m r0 w0 = (w', Ok r) -> w = w' -> answered m P w r.
Proof.
  intros Hm. revert w0 r0. induction n as [|n IH]; intros w0 r0 H0 Hw0 w' H ->; cbn [server_error_retries] in H.
  - destruct (server_error _); injection H as <- <-; done.
  - destruct (server_error _); [|injection H as <- <-; done]. apply call_bind_inv in H as (w1 & r1 & H1 & H2).
    eapply IH; [by exists w0| |exact H2|done]. specialize (Hm w0 Hw0). by rewrite H1 in Hm.
Qed.

Lemma request_answered P c method path body params w w' text payload :
  (forall w, P w -> P (serve w (HttpCall (cc_base c) (cc_key c) method path body params)).1) -> P w ->
  request c method path body params w = (w', Ok (text, payload)) ->
  exists w1 status, P w1 /\ status < 400 /\
    serve w1 (HttpCall (cc_base c) (cc_key c) method path body params) = (w', Reply status text payload).
Proof.
  intros HP Hw H. unfold request in H. apply call_bind_inv in H as (w1 & r1 & H1 & H). apply call_bind_inv in H as (w2 & [[st tx] pl] & H2 & H).
  destruct (Z.leb_spec 400 st); [done|]. injection H as <- <- <-. pose proof (keeps_raw P c method path body params HP) as Hk.
  assert (Hw1 : P w1) by (pose proof (keeps_429 P 2 _ Hk w Hw) as Hx; by rewrite H1 in Hx).
  pose proof (answered_429 P _ _ _ _ _ Hk Hw H1) as Ha.
  destruct (answered_5xx P _ _ _ _ _ _ Hk Ha Hw1 _ H2 eq_refl) as (w3 & Hw3 & E). exists w3, st. split_and!; [done|lia|].
  unfold raw_request in E. destruct (serve w3 _) as [w4 [st' tx' pl'|]]; [|done]. by injection E as <- <- <- <-.
Qed.

(** An availability push leaves the keys it does not name; when it returns,
    the channel manager shows its rows. *)
Lemma push_availability_frame c rows p rt d n :
  latest rows p rt d = None -> keeps (fun w => shown w p rt d = n) (push_availability c (List.map avail_json rows)).
Proof.
  intros H. unfold push_availability, push, request_json.
  apply keeps_bind; [apply keeps_bind|].
  - apply keeps_request. intros w <-. by apply (shown_named _ _ rows).
  - intros [tx pl]. apply keeps_lift.
  - intros payload. apply keeps_bind; [apply keeps_lift|]. intros _. apply keeps_ret.
Qed.

Lemma push_availability_shown c rows w w' j p rt d :
  push_availability c (List.map avail_json rows) w = (w', Ok j) ->
  shown w' p rt d = or_else (latest rows p rt d) (shown w p rt d).
Proof.
  intros H. unfold push_availability, push in H. apply call_bind_inv in H as (w1 & payload & H1 & H).
  apply call_bind_inv in H as (w2 & [] & H2 & H). injection H as <- _. injection H2 as <- Hwarn.
  unfold request_json in H1. apply call_bind_inv in H1 as (w3 & [tx pl] & H1 & H3). destruct pl as [payload'|]; [|done]. injection H3 as <- <-.
  set (P := fun v => or_else (latest rows p rt d) (shown v p rt d) = or_else (latest rows p rt d) (shown w p rt d)).
  assert (HP : forall v, P v -> P (serve v (HttpCall (cc_base c) (cc_key c) "POST" "availability"
      (Some (JObj [("values"%string, JArr (List.map avail_json rows))])) [])).1).
  { intros v Hv. unfold P in *. destruct (latest rows p rt d) eqn:E; [done|]. cbn [or_else] in *. rewrite <- Hv. by apply (shown_named _ _ rows). }
  destruct (request_answered P _ _ _ _ _ _ _ _ _ HP eq_refl H1) as (w4 & st & Hw4 & Hst & E).
  erewrite shown_pushed; [|exact E|exact Hst|reflexivity|reflexivity|reflexivity|exact Hwarn]. exact Hw4.
Qed.

Lemma push_batches_frame c bs p rt d n :
  (forall rows, In rows bs -> latest rows p rt d = None) ->
  keeps (fun w => shown w p rt d = n) (push_batches (push_availability c) (List.map (List.map avail_json) bs)).
Proof.
  induction bs as [|b bs IH]; intros H; [apply keeps_ret|]. apply keeps_bind; [apply push_availability_frame, H; by left|].
  intros _. apply IH. intros rows Hr. apply H. by right.
Qed.

Lemma push_batches_shown c bs w w' p rt d :
  push_batches (push_availability c) (List.map (List.map avail_json) bs) w = (w', Ok tt) ->
  shown w' p rt d = or_else (latest (List.concat bs) p rt d) (shown w p rt d).
Proof.
  revert w. induction bs as [|b bs IH]; intros w H; [by injection H as <-|]. apply call_bind_inv in H as (w1 & j & H1 & H2).
  rewrite (IH _ H2). cbn [List.concat]. rewrite latest_app, (push_availability_shown _ _ _ _ _ _ _ _ H1). by destruct (latest (List.concat bs) p rt d).
Qed.

(** Calls of other endpoints leave what is shown. *)
Lemma push_restrictions_frame c values p rt d n : keeps (fun w => shown w p rt d = n) (push_restrictions c values).
Proof.
  unfold push_restrictions, push, request_json. apply keeps_bind; [apply keeps_bind|].
  - apply keeps_request. intros w <-. by apply shown_elsewhere.
  - intros [tx pl]. apply keeps_lift.
  - intros payload. apply keeps_bind; [apply keeps_lift|]. intros _. apply keeps_ret.
Qed.

Lemma push_restrictions_batches_frame c bs p rt d n : keeps (fun w => shown w p rt d = n) (push_batches (push_restrictions c) bs).
Proof. induction bs as [|b bs IH]; [apply keeps_ret|]. apply keeps_bind; [apply push_restrictions_frame|]. intros _. apply IH. Qed.

End client.

Lemma batches_map {A B} (f : A -> B) (l : list A) : batches (List.map f l) = List.map (List.map f) (batches l).
Proof.
  unfold batches. rewrite length_map. generalize (length l) at 1 2. intros n. generalize l. clear l.
  induction n as [|n IH]; intros l; [done|]. destruct l as [|x l]; [done|].
  change (batches_of BATCH (S n) (List.map f (x :: l))) with
    (List.firstn BATCH (List.map f (x :: l)) :: batches_of BATCH n (List.skipn BATCH (List.map f (x :: l)))).
  change (batches_of BATCH (S n) (x :: l)) with (List.firstn BATCH (x :: l) :: batches_of BATCH n (List.skipn BATCH (x :: l))).
  by rewrite List.firstn_map, List.skipn_map, IH.
Qed.

Section laws.
Context {env : Env} {net : Net} {W : Type} {srv : Wire W} {shows : ShowsAvailability W}.

Definition stock_rows (P R : string) (t rt : Z) (d : DB) (dates : list date) : list avail :=
  List.map (fun x => (P, R, isoformat x, available (ledger d !! (t, rt, x)))) dates.

Lemma latest_stock P R t rt d dates p r x :
  Forall valid_date dates -> valid_date x ->
  latest (stock_rows P R t rt d dates) p r (isoformat x) =
  if String.eqb p P && String.eqb r R && existsb (Z.eqb x) dates then Some (available (ledger d !! (t, rt, x))) else None.
Proof.
  intros Hd Hx. unfold latest, stock_rows. rewrite <- List.map_rev.
  assert (He : existsb (Z.eqb x) dates = existsb (Z.eqb x) (rev dates)).
  { destruct (existsb (Z.eqb x) dates) eqn:E; symmetry.
    - apply existsb_exists in E as (y & Hy & E). apply existsb_exists. exists y. split; [by apply in_rev in Hy|done].
    - destruct (existsb (Z.eqb x) (rev dates)) eqn:E2; [|done]. apply existsb_exists in E2 as (y & Hy%in_rev & E2).
      rewrite <- E. symmetry. apply existsb_exists. eauto. }
  rewrite He. clear He. assert (Hr : Forall valid_date (rev dates)) by (by apply Forall_rev). revert Hr. generalize (rev dates). intros l Hr.
  induction l as [|y l IH]; cbn [List.map List.find existsb]; [by rewrite andb_false_r|]. apply Forall_cons_1 in Hr as [Hy Hr].
  cbn [avail_key]. destruct (String.eqb p P && String.eqb r R) eqn:Epr; cbn [andb] in *.
  - destruct (Z.eqb_spec x y) as [<-|Hne]; cbn [orb].
    + by rewrite String.eqb_refl.
    + destruct (String.eqb_spec (isoformat x) (isoformat y)) as [E|]; [|by apply IH]. exfalso. apply Hne. by apply isoformat_inj.
  - by apply IH.
Qed.

(** *** Running a push *)

Lemma send_noting_inv link (c : call W unit) s w s' w' r :
  send_noting link c s w = (s', w', Ok r) ->
  exists e rc, c w = (w', rc) /\ note_error link e s = (s', Ok r) /\ (e = None -> rc = Ok tt).
Proof.
  unfold send_noting, T_try. rewrite T_run_wire. unfold db at 1. destruct (c w) as [w1 [[]|ex]] eqn:E.
  - destruct (note_error link None s) as [s1 [a|e1]] eqn:En.
    + intros [= <- <- <-]. by exists None, (Ok tt).
    + unfold note_error, assign, orm, flush, mbind, M_bind in En. by cbn in En.
  - destruct ex; try done. unfold db. destruct (note_error link _ s) as [s1 r1] eqn:En. intros [= <- <- ->].
    by exists (error_text message), (Err (ChannexApiError message status_code body)).
Qed.

Lemma note_error_run link e d tm td u s' r :
  note_error link e (start d tm td u) = (s', Ok r) ->
  mem s' = put_links (where_id (cl_id link) (set_cl_error e) (links d)) d.
Proof. intros H. cbv [note_error mbind M_bind assign orm flush start] in H. cbn in H. by injection H as <- _. Qed.

Lemma T_run_transaction {A} (m : T W A) tm td u d w d' w' a :
  T_run (T_transaction m) tm td u d w = (d', w', Ok a) -> exists s', m (start d tm td u) w = (s', w', Ok a) /\ mem s' = d'.
Proof.
  unfold T_run, T_transaction. cbn [disk now today uuids start].
  change (Session d d [] tm td u) with (start d tm td u). destruct (m (start d tm td u) w) as [[s1 w1] [b|e]]; intros [= <- <- <-]. by exists s1.
Qed.

Lemma select_start {R} `{Entity R} p d tm td u :
  List.NoDup (List.map ident (table d)) -> select (R := R) p (start d tm td u) = (start d tm td u, Ok (List.filter p (table d))).
Proof. intros Hnd. by apply select_synced. Qed.

Lemma scalar_start {R} `{Entity R} p d tm td u :
  List.NoDup (List.map ident (table d)) -> scalar (R := R) p (start d tm td u) = (start d tm td u, Ok (List.find p (table d))).
Proof. intros Hnd. unfold scalar, mbind, M_bind. rewrite select_start by done. by rewrite hd_filter. Qed.

Lemma ledger_rows_start d tm td u :
  exists f, ledger_rows (start d tm td u) = (start d tm td u, Ok f) /\ forall t rt x, f t rt x = ledger d !! (t, rt, x).
Proof.
  eexists. split; [reflexivity|]. intros t rt x. cbn. case_bool_decide as E; [done|]. destruct (ledger d !! _); [|done]. by destruct E.
Qed.

Record link_keys (d : DB) : Prop := {
  lk_links : List.NoDup (List.map ident (links d));
  lk_rooms : List.NoDup (List.map ident (room_type_maps d));
  lk_rates : List.NoDup (List.map ident (rate_plan_maps d)) }.

(** The rows of a list of nights are sent, or part of them and an error noted. *)
Definition sends (rows : list avail) (w w' : W) (e : option string) : Prop :=
  (e = None -> forall p r x, shown w' p r x = or_else (latest rows p r x) (shown w p r x)) /\
  (forall p r x, latest rows p r x = None -> shown w' p r x = shown w p r x).

Lemma pushed_rows client rows w w' rc :
  push_batches (push_availability client) (batches (List.map avail_json rows)) w = (w', rc) ->
  (rc = Ok tt -> forall p r x, shown w' p r x = or_else (latest rows p r x) (shown w p r x)) /\
  (forall p r x, latest rows p r x = None -> shown w' p r x = shown w p r x).
Proof.
  intros H. rewrite batches_map in H. split.
  - intros -> p r x. erewrite push_batches_shown by exact H. by rewrite batches_concat.
  - intros p r x Hn.
    assert (Hk : keeps (fun v => shown v p r x = shown w p r x) (push_batches (push_availability client) (List.map (List.map avail_json) (batches rows)))).
    { apply push_batches_frame. intros b Hb. apply latest_None. intros row Hrow. rewrite <- (batches_concat rows) in Hn.
      rewrite latest_None in Hn. apply Hn. apply in_concat. eauto. }
    specialize (Hk w eq_refl). by rewrite H in Hk.
Qed.

Lemma linked_room_start t p rt l rm tm td u d :
  link_keys d -> List.find (link_is t p) (links d) = Some l -> active l = true ->
  List.find (fun m => room_map_of t l m && (cm_room_type m =? rt)) (room_type_maps d) = Some rm ->
  linked_room t p rt (start d tm td u) = (start d tm td u, Ok (Some (l, rm))).
Proof.
  intros Hk Hl Ha Hr. unfold linked_room, get_link. erewrite bind_run by (apply scalar_start, (lk_links _ Hk)).
  cbn [table ChannexPropertyLink_entity]. rewrite Hl, Ha. cbn [negb].
  erewrite bind_run by (apply scalar_start, (lk_rooms _ Hk)). cbn [table ChannexRoomTypeMap_entity]. by rewrite Hr.
Qed.

Lemma incremental_effect t p rt strs dates l rm tm td u d w d' w' :
  link_keys d -> strs <> [] -> parse_dates strs = Ok dates ->
  List.find (link_is t p) (links d) = Some l -> active l = true ->
  List.find (fun m => room_map_of t l m && (cm_room_type m =? rt)) (room_type_maps d) = Some rm ->
  T_run (run_push_channex_availability t p rt strs) tm td u d w = (d', w', Ok tt) ->
  exists e, d' = put_links (where_id (cl_id l) (set_cl_error e) (links d)) d /\
    sends (stock_rows (strip (cl_channex_property l)) (strip (cm_channex_room_type rm)) t rt d dates) w w' e.
Proof.
  intros Hk Hs Hp Hl Ha Hr H. unfold run_push_channex_availability in H. destruct strs as [|x strs]; [done|].
  assert (H' : T_run (T_transaction (lr ← db (linked_room t p rt);
        match lr with
        | None => mret tt
        | Some (link, rm) =>
            rows ← db ledger_rows;
            let values := availability_values t rt (strip (cl_channex_property link)) (strip (cm_channex_room_type rm)) rows dates in
            client ← db (lift (client_for_link link));
            send_noting link (push_batches (push_availability client) (batches values))
        end)) tm td u d w = (d', w', Ok tt)).
  { unfold T_run in H |- *. rewrite T_run_db, Hp in H. exact H. }
  clear H. apply T_run_transaction in H' as (s' & H & <-). rewrite T_run_db in H.
  erewrite linked_room_start in H by done. rewrite T_run_db in H.
  destruct (ledger_rows_start d tm td u) as (f & Hf & Hfl). rewrite Hf in H. cbv zeta in H. rewrite T_run_db in H. unfold lift in H.
  destruct (client_for_link l) as [client|]; [|done].
  assert (Hv : availability_values t rt (strip (cl_channex_property l)) (strip (cm_channex_room_type rm)) f dates =
    List.map avail_json (stock_rows (strip (cl_channex_property l)) (strip (cm_channex_room_type rm)) t rt d dates)).
  { unfold availability_values, stock_rows. rewrite List.map_map. apply List.map_ext. intros y. by rewrite Hfl. }
  rewrite Hv in H. apply send_noting_inv in H as (e & rc & Hc & Hn & He). exists e. split; [by eapply note_error_run|].
  apply pushed_rows in Hc as [H1 H2]. split; [|exact H2]. intros ->. by apply H1, He.
Qed.

(** ** The channel manager in step with the ledger *)

(** The number of rooms the ledger still sells on a night: a claim of some rooms
    is accepted exactly when it asks for no more. *)
Definition sellable (d : DB) (t rt : Z) (x : date) (n : Z) : Prop :=
  0 <= n /\ forall k, 1 <= k -> claimable (ledger d) t rt k x = true <-> k <= n.

Lemma available_sellable d t rt x : sellable d t rt x (available (ledger d !! (t, rt, x))).
Proof.
  unfold sellable, available, claimable, has_capacity. destruct (ledger d !! (t, rt, x)) as [r|]; [|split; [lia|]; intros; split; [done|lia]].
  split; [lia|]. intros k Hk. rewrite Z.leb_le. lia.
Qed.

Lemma sellable_unique d t rt x n m : sellable d t rt x n -> sellable d t rt x m -> n <= m.
Proof.
  intros [H0 H] [H0' H']. destruct (Z.le_gt_cases n m) as [|Hlt]; [done|]. apply H', H; lia.
Qed.

Definition in_step (w : W) (d : DB) (l : ChannexPropertyLink) (window : date -> Prop) : Prop :=
  forall rm x, In rm (room_type_maps d) -> room_map_of (cl_tenant l) l rm = true -> window x ->
    exists n, shown w (strip (cl_channex_property l)) (strip (cm_channex_room_type rm)) (isoformat x) = Some n /\
      sellable d (cl_tenant l) (cm_room_type rm) x n.

Lemma in_step_intro w d l (window : date -> Prop) :
  (forall rm x, In rm (room_type_maps d) -> room_map_of (cl_tenant l) l rm = true -> window x ->
    shown w (strip (cl_channex_property l)) (strip (cm_channex_room_type rm)) (isoformat x) =
    Some (available (ledger d !! (cl_tenant l, cm_room_type rm, x)))) -> in_step w d l window.
Proof. intros H rm x H1 H2 H3. eexists. split; [by apply H|apply available_sellable]. Qed.

Lemma in_step_elim w d l (window : date -> Prop) rm x :
  in_step w d l window -> In rm (room_type_maps d) -> room_map_of (cl_tenant l) l rm = true -> window x ->
  shown w (strip (cl_channex_property l)) (strip (cm_channex_room_type rm)) (isoformat x) =
  Some (available (ledger d !! (cl_tenant l, cm_room_type rm, x))).
Proof. intros H H1 H2 H3. destruct (H rm x H1 H2 H3) as (n & -> & Hn). do 2 f_equal.
  pose proof (available_sellable d (cl_tenant l) (cm_room_type rm) x) as Ha. apply Z.le_antisymm; eapply sellable_unique; eauto.
Qed.

(** Each room type of a link has one map and its own counterpart. *)
Definition maps_distinct (l : ChannexPropertyLink) (d : DB) : Prop :=
  forall rm rm', In rm (room_type_maps d) -> In rm' (room_type_maps d) ->
    room_map_of (cl_tenant l) l rm = true -> room_map_of (cl_tenant l) l rm' = true ->
    cm_room_type rm = cm_room_type rm' \/ strip (cm_channex_room_type rm) = strip (cm_channex_room_type rm') -> rm = rm'.

Lemma In_sort_str_iff l x : In x (sort_str l) <-> In x l.
Proof. split; apply Permutation_in; [|symmetry]; apply sort_str_perm. Qed.

Lemma parse_scheduled changed :
  Forall valid_date changed ->
  exists ds, parse_dates (sorted_date_strs changed) = Ok ds /\ (forall x, In x ds <-> In x changed).
Proof.
  intros Hv. rewrite Forall_forall in Hv. unfold parse_dates, sorted_date_strs.
  set (ss := sort_str _).
  assert (Hs : forall s, In s ss <-> exists x, In x changed /\ s = isoformat x).
  { intros s. unfold ss. rewrite In_sort_str_iff, nodup_In, in_map_iff. split; intros (x & H1 & H2); exists x; auto. }
  assert (Hm : forall l, (forall s, In s l -> exists x, In x changed /\ s = isoformat x) ->
    exists ds, mapR (fun s => of_option (fromisoformat s) (ValueError "Invalid isoformat string")) l = Ok ds /\
      forall x, In x ds <-> exists s, In s l /\ fromisoformat s = Some x).
  { induction l as [|s l IH]; intros Hl; cbn [mapR]; [exists []; split; [done|]; intros x; split; [done|by intros (? & [] & _)]|].
    destruct (Hl s ltac:(by left)) as (x & Hx & ->). rewrite fromisoformat_isoformat by (by apply Hv). cbn [of_option].
    destruct IH as (ds & -> & Hds); [intros s Hs'; apply Hl; by right|]. eexists. split; [reflexivity|]. intros y. cbn [In]. rewrite Hds. split.
    - intros [<-|(s & Hin & E)]; [exists (isoformat x)|exists s]; split; auto. by apply fromisoformat_isoformat, Hv.
    - intros (s & [<-|Hin] & E); [left|right; eauto]. rewrite fromisoformat_isoformat in E by (by apply Hv). congruence. }
  destruct (Hm ss) as (ds & -> & Hds); [intros s Hin; by apply Hs|]. exists (sorted_set ds). split; [done|].
  intros x. rewrite sorted_set_In, Hds. split.
  - intros (s & Hin & E). apply Hs in Hin as (y & Hy & ->). rewrite fromisoformat_isoformat in E by (by apply Hv). congruence.
  - intros Hx. exists (isoformat x). split; [apply Hs; eauto|]. by apply fromisoformat_isoformat, Hv.
Qed.

(** C25: While the channel manager shows the ledger of a linked
    property, let the ledger change on some nights of a room type.  The push
    that is scheduled for those nights, unless the channel manager refuses it
    and the link keeps the error, makes it show the ledger again, and changes
    nothing in the database but that note. *)
Theorem push_restores_agreement t p rt changed task l d0 d tm td u w d' w' window :
  link_keys d -> List.find (link_is t p) (links d) = Some l -> active l = true -> maps_distinct l d ->
  room_type_maps d = room_type_maps d0 ->
  (exists rm, In rm (room_type_maps d) /\ room_map_of t l rm = true /\ cm_room_type rm = rt) ->
  (forall k, ledger d !! k <> ledger d0 !! k -> exists x, In x changed /\ k = (t, rt, x)) ->
  Forall valid_date changed -> (forall x, window x -> valid_date x) ->
  schedule_push_channex_availability t p rt changed = [task] ->
  T_run (run_ari_task task) tm td u d w = (d', w', Ok tt) ->
  in_step w d0 l window ->
  exists e, d' = put_links (where_id (cl_id l) (set_cl_error e) (links d)) d /\ (e = None -> in_step w' d' l window).
Proof.
  intros Hk Hl Ha Hdist Hmaps (rm0 & Hin0 & Hof0 & Hrt0) Hled Hch Hwin Hsch Hrun Hstep.
  unfold schedule_push_channex_availability, schedule in Hsch. destruct (sorted_date_strs changed) as [|s ss] eqn:Es; [done|].
  injection Hsch as <-. rewrite <- Es in Hrun. destruct (parse_scheduled changed Hch) as (ds & Hp & Hds).
  assert (Ht : cl_tenant l = t).
  { apply find_some in Hl as [_ Hl]. unfold link_is in Hl. apply andb_prop in Hl as [Hl%Z.eqb_eq _]. done. }
  destruct (List.find (fun m => room_map_of t l m && (cm_room_type m =? rt)) (room_type_maps d)) as [rm|] eqn:Er.
  2:{ exfalso. apply (find_none _ _ Er) in Hin0. rewrite Hof0, Hrt0, Z.eqb_refl in Hin0. done. }
  pose proof (find_some _ _ Er) as [Hin Hof]. apply andb_prop in Hof as [Hof Hrt%Z.eqb_eq].
  destruct (incremental_effect t p rt (sorted_date_strs changed) ds l rm tm td u d w d' w') as (e & -> & Hs1 & Hs2); try done; [by rewrite Es|].
  exists e. split; [done|]. intros ->. apply in_step_intro. intros rm' x Hin' Hof' Hx. change (room_type_maps (put_links _ d)) with (room_type_maps d) in Hin'.
  change (ledger (put_links _ d)) with (ledger d). rewrite Ht in *.
  assert (Hv : Forall valid_date ds).
  { apply Forall_forall. intros y Hy%Hds. rewrite Forall_forall in Hch. by apply Hch. }
  rewrite (Hs1 eq_refl), latest_stock by (done || by apply Hwin).
  rewrite String.eqb_refl. cbn [andb]. destruct (String.eqb_spec (strip (cm_channex_room_type rm')) (strip (cm_channex_room_type rm))) as [E|Hne]; cbn [andb].
  - assert (rm' = rm) as -> by (apply Hdist; rewrite ?Ht; auto). destruct (existsb (Z.eqb x) ds) eqn:Ex; cbn [or_else]; [by rewrite Hrt|].
    rewrite (in_step_elim _ _ _ _ rm x Hstep) by (rewrite ?Ht; congruence || done). do 2 f_equal. rewrite Ht.
    destruct (decide (ledger d !! (t, cm_room_type rm, x) = ledger d0 !! (t, cm_room_type rm, x))) as [->|Hd]; [done|]. exfalso.
    destruct (Hled _ Hd) as (y & Hy & [= _ ->]). apply Hds in Hy. assert (existsb (Z.eqb y) ds = true) by (apply existsb_exists; exists y; by rewrite Z.eqb_refl).
    congruence.
  - cbn [or_else]. rewrite (in_step_elim _ _ _ _ rm' x Hstep) by (rewrite ?Ht; congruence || done). do 2 f_equal. rewrite Ht.
    destruct (decide (ledger d !! (t, cm_room_type rm', x) = ledger d0 !! (t, cm_room_type rm', x))) as [->|Hd]; [done|]. exfalso.
    destruct (Hled _ Hd) as (y & Hy & [= E ->]). apply Hne. f_equal. f_equal. apply Hdist; rewrite ?Ht; auto. left. congruence.
Qed.

(** ** The full push *)

Lemma find_where_id {R} `{Entity R} (q : R -> bool) i (f : R -> R) rows :
  (forall x, q (f x) = q x) -> List.find q (where_id i f rows) = (fun x => if ident x =? i then f x else x) <$> List.find q rows.
Proof.
  intros Hq. unfold where_id. induction rows as [|x rows IH]; [done|]. cbn [List.map List.find].
  assert (E : q (if ident x =? i then f x else x) = q x) by (destruct (ident x =? i); auto). rewrite E. by destruct (q x).
Qed.

Lemma mapR_ext_ok {A B} (f : A -> result B) (g : A -> B) l : (forall x, In x l -> f x = Ok (g x)) -> mapR f l = Ok (List.map g l).
Proof.
  induction l as [|x l IH]; intros H; [done|]. cbn. rewrite (H x) by (by left). rewrite IH; [done|]. intros y Hy. apply H. by right.
Qed.

Lemma sync_dates_spec td dates :
  sync_dates td = Ok dates -> dates = List.map (fun i => td + Z.of_nat i) (List.seq 0 SYNC_DAYS) /\ Forall valid_date dates.
Proof.
  unfold sync_dates. intros H%mapR_ok. revert H. generalize (List.seq 0 SYNC_DAYS). intros l H. induction H as [|i x l xs H _ [IH1 IH2]]; [done|].
  assert (x = td + Z.of_nat i /\ valid_date x) as [-> Hv].
  { unfold date_add in H. destruct (_ && _) eqn:E; [|done]. injection H as <-. split; [done|]. apply andb_prop in E as [? ?].
    unfold valid_date. split; by apply Z.leb_le. }
  split; [cbn; by f_equal|by constructor].
Qed.

Definition full_rows (t : Z) (l : ChannexPropertyLink) (d : DB) (dates : list date) : list avail :=
  List.concat (List.map (fun rm => stock_rows (strip (cl_channex_property l)) (strip (cm_channex_room_type rm)) t (cm_room_type rm) d dates)
    (List.filter (room_map_of t l) (room_type_maps d))).

Lemma full_send_inv link (c1 c2 : call W unit) (m : exn -> string) s w s1 w1 b :
  T_try (_ ← wire c1; _ ← wire c2; mret true) (fun e => Some (_ ← db (note_error link (error_text (m e))); mret false)) s w = (s1, w1, Ok b) ->
  exists w2 rc, c1 w = (w2, rc) /\
    (b = true /\ rc = Ok tt /\ s1 = s /\ c2 w2 = (w1, Ok tt) \/
     b = false /\ (exists e, note_error link (Some e) s = (s1, Ok tt)) /\ (w1 = w2 \/ exists r2, c2 w2 = (w1, r2))).
Proof.
  unfold T_try. rewrite T_run_wire. destruct (c1 w) as [w2 [[]|e1]] eqn:E1.
  - rewrite T_run_wire. destruct (c2 w2) as [w3 [[]|e2]] eqn:E2.
    + intros [= <- <- <-]. exists w2, (Ok tt). split; [done|]. by left.
    + rewrite T_run_db. destruct (note_error link _ s) as [s2 [[]|]] eqn:En; [|done]. intros [= <- <- <-]. exists w2, (Ok tt). split; [done|].
      right. split_and!; [done|by eexists|right; by eexists].
  - rewrite T_run_db. destruct (note_error link _ s) as [s2 [[]|]] eqn:En; [|done]. intros [= <- <- <-]. exists w2, (Err e1). split; [done|].
    right. split_and!; [done|by eexists|by left].
Qed.

Lemma full_sync_effect t p l tm td u d w d' w' :
  link_keys d -> List.find (link_is t p) (links d) = Some l -> active l = true ->
  List.filter (room_map_of t l) (room_type_maps d) <> [] ->
  T_run (run_channex_full_ari_sync t p) tm td u d w = (d', w', Ok tt) ->
  exists dates e, sync_dates td = Ok dates /\ sends (full_rows t l d dates) w w' e /\
    ledger d' = ledger d /\ room_type_maps d' = room_type_maps d /\
    exists l', List.find (link_is t p) (links d') = Some l' /\ cl_error l' = e.
Proof.
  intros Hk Hl Ha Hms H. unfold run_channex_full_ari_sync in H. apply T_run_transaction in H as (s' & H & <-).
  rewrite T_run_db in H. unfold get_link in H. rewrite scalar_start in H by apply (lk_links _ Hk).
  cbn [table ChannexPropertyLink_entity] in H. rewrite Hl, Ha in H. cbn [negb] in H. rewrite T_run_db in H.
  destruct (property_currency_code t p (start d tm td u)) as [s1 [cc|]] eqn:Ec; [|done].
  assert (s1 = start d tm td u) as -> by (unfold property_currency_code in Ec; rewrite run_scalar in Ec; by injection Ec as <- _).
  clear Ec. rewrite T_run_db, select_start in H by apply (lk_rooms _ Hk). cbn [table ChannexRoomTypeMap_entity] in H.
  set (ms := List.filter (room_map_of t l) (room_type_maps d)) in *.
  destruct ms as [|m0 ms0] eqn:Em; [done|]. rewrite <- Em in H.
  rewrite T_run_db, select_start in H by apply (lk_rates _ Hk). rewrite T_run_db in H. cbn [get_today today start] in H. rewrite T_run_db in H.
  unfold lift at 1 in H. destruct (sync_dates td) as [dates|] eqn:Ed; [|done]. rewrite T_run_db in H. unfold lift at 1 in H.
  destruct (date_add td _) as [last|]; [|done]. rewrite T_run_db in H. destruct (ledger_rows_start d tm td u) as (f & Hf & Hfl).
  change (Session d d [] tm td u) with (start d tm td u) in H. rewrite Hf in H. rewrite T_run_db in H. unfold rate_rows_loaded at 1 in H. cbv zeta in H.
  rewrite T_run_db in H. unfold lift at 1 in H. destruct (mapR _ _) as [rest|]; [|done]. rewrite T_run_db in H. unfold lift at 1 in H.
  destruct (client_for_link l) as [client|]; [|done].
  set (av := List.concat (List.map _ ms)) in H.
  assert (Hav : av = List.map avail_json (full_rows t l d dates)).
  { unfold av, full_rows. rewrite concat_map, List.map_map. fold ms. rewrite Em, <- Em. f_equal. apply List.map_ext. intros rm. unfold stock_rows, availability_values.
    rewrite List.map_map. apply List.map_ext. intros y. by rewrite Hfl. }
  clearbody av. subst av. exists dates.
  apply T_bind_inv in H as (s1 & w1 & sent & Hsend & H). apply full_send_inv in Hsend as (w2 & rc & Hc1 & Hsent).
  apply pushed_rows in Hc1 as [Hs1 Hs2]. destruct Hsent as [(-> & -> & -> & Hc2)|(-> & (e & Hn) & Hw1)].
  - exists None.
    assert (Hw : w' = w1 /\ mem s' = put_ari_logs (ari_logs (mem s')) (put_links (where_id (cl_id l) (set_cl_error None) (where_id (cl_id l) (set_cl_last_sync (Some tm)) (links d))) d)).
    { cbv [mbind T_bind db get_now assign add orm uuid4 flush start] in H. cbn in H. by injection H as <- <-. }
    destruct Hw as [-> ->]. split; [done|].
    assert (Hsame : forall q r x, shown w1 q r x = shown w2 q r x).
    { intros q r x. pose proof (push_restrictions_batches_frame client (batches (List.concat rest)) q r x (shown w2 q r x) w2 eq_refl) as Hx.
      by rewrite Hc2 in Hx. }
    split_and!; [split; intros; rewrite Hsame; auto|done|done|].
    cbn [links put_ari_logs put_links]. rewrite !find_where_id by done. rewrite Hl. cbn -[Z.eqb]. rewrite Z.eqb_refl. cbn -[Z.eqb].
    rewrite Z.eqb_refl. by eexists.
  - exists (Some e). split; [done|].
    assert (w' = w1 /\ s' = s1) as [-> ->] by (by injection H as <- <-). rewrite (note_error_run _ _ _ _ _ _ _ _ Hn).
    split_and!; [|done|done|].
    + split; [done|]. intros q r x Hq. destruct Hw1 as [->|[r2 Hc2]]; [by apply Hs2|].
      pose proof (push_restrictions_batches_frame client (batches (List.concat rest)) q r x (shown w2 q r x) w2 eq_refl) as Hx. rewrite Hc2 in Hx. cbn in Hx.
      rewrite Hx. by apply Hs2.
    + cbn [links put_links]. rewrite find_where_id by done. rewrite Hl. cbn -[Z.eqb]. rewrite Z.eqb_refl. by eexists.
Qed.

Lemma latest_concat {A} (g : A -> list avail) l a p r x v :
  In a l -> latest (g a) p r x = Some v -> (forall b, In b l -> latest (g b) p r x = None \/ latest (g b) p r x = Some v) ->
  latest (List.concat (List.map g l)) p r x = Some v.
Proof.
  intros Hin Ha Hall. assert (H : latest (List.concat (List.map g l)) p r x = Some v \/ (latest (List.concat (List.map g l)) p r x = None /\ forall b, In b l -> latest (g b) p r x = None)).
  { clear Hin Ha. induction l as [|b l IH]; [right; split; [done|by intros b []]|]. cbn [List.map List.concat]. rewrite latest_app.
    destruct IH as [->|[-> Hn]]; [intros c Hc; apply Hall; by right|by left|]. cbn [or_else].
    destruct (Hall b ltac:(by left)) as [E|E]; [right|by left]. split; [done|]. intros c [<-|Hc]; auto. }
  destruct H as [|[_ Hn]]; [done|]. rewrite (Hn a Hin) in Ha. done.
Qed.

(** C24: After a full push of an active link that leaves no error, the
    channel manager shows the ledger for every mapped room type and each of
    the 365 days from today; the push changes neither the ledger nor the maps. *)
Theorem full_sync_establishes_agreement t p l tm td u d w d' w' :
  link_keys d -> List.find (link_is t p) (links d) = Some l -> active l = true -> maps_distinct l d ->
  (exists rm, In rm (room_type_maps d) /\ room_map_of t l rm = true) ->
  T_run (run_channex_full_ari_sync t p) tm td u d w = (d', w', Ok tt) ->
  exists l', List.find (link_is t p) (links d') = Some l' /\ ledger d' = ledger d /\ room_type_maps d' = room_type_maps d /\
    (cl_error l' = None -> in_step w' d' l (fun x => td <= x < td + 365)).
Proof.
  intros Hk Hl Ha Hdist (rm0 & Hin0 & Hof0) H. assert (Ht : cl_tenant l = t).
  { apply find_some in Hl as [_ Hl]. unfold link_is in Hl. apply andb_prop in Hl as [Hl%Z.eqb_eq _]. done. }
  destruct (full_sync_effect t p l tm td u d w d' w') as (dates & e & Hd & [Hs _] & Hled & Hmaps & l' & Hl' & He); try done.
  { intros E. assert (Hin : In rm0 (List.filter (room_map_of t l) (room_type_maps d))) by (by apply filter_In). by rewrite E in Hin. }
  exists l'. split_and!; try done. rewrite He. intros ->. apply in_step_intro. intros rm x Hin Hof Hx. rewrite Ht, Hmaps in *. rewrite (Hs eq_refl), Hled.
  destruct (sync_dates_spec _ _ Hd) as [-> Hv].
  assert (Hxin : In x (List.map (fun i => td + Z.of_nat i) (List.seq 0 SYNC_DAYS))).
  { apply in_map_iff. exists (Z.to_nat (x - td)). split; [lia|]. apply in_seq. unfold SYNC_DAYS. lia. }
  assert (Hxv : valid_date x) by (rewrite Forall_forall in Hv; by apply Hv).
  unfold full_rows. erewrite latest_concat; [reflexivity|by apply filter_In| |].
  - rewrite latest_stock, !String.eqb_refl by done. cbn [andb]. assert (existsb (Z.eqb x) (List.map (fun i => td + Z.of_nat i) (List.seq 0 SYNC_DAYS)) = true) as ->; [|done].
    apply existsb_exists. exists x. by rewrite Z.eqb_refl.
  - intros rm' [Hin' Hof']%filter_In. rewrite latest_stock by done. destruct (String.eqb_spec (strip (cm_channex_room_type rm)) (strip (cm_channex_room_type rm'))) as [E|];
      [|left; by rewrite andb_false_r].
    assert (rm' = rm) as -> by (apply Hdist; rewrite ?Ht; auto). destruct (_ && _); auto.
Qed.

End laws.

(** ** Witnesses *)

(** A channel manager that keeps what it is sent. *)
Abbreviation store := (gmap (string * string * string) Z).

Definition read_row (j : json) : option avail :=
  match j with
  | JObj d =>
      match dict_get d "property_id", dict_get d "room_type_id", dict_get d "date", dict_get d "availability" with
      | Some (JStr p), Some (JStr rt), Some (JStr x), Some (JInt n) => Some (p, rt, x, n)
      | _, _, _, _ => None
      end
  | _ => None
  end.

Definition put_row (w : store) (r : avail) : store := let '(p, rt, x, n) := r in <[(p, rt, x) := n]> w.

Definition values_of (c : http_call) : list json :=
  match hc_body c with
  | Some (JObj d) => match dict_get d "values" with Some (JArr l) => l | _ => [] end
  | _ => []
  end.

#[local] Instance store_wire : Wire store := {|
  serve := fun w c =>
    (if String.eqb (hc_path c) "availability" then List.fold_left put_row (omap read_row (values_of c)) w else w,
     Reply 200 EmptyString (Some (JObj [])));
  exn_text := fun _ => EmptyString |}.

Lemma read_rows rows : omap read_row (List.map avail_json rows) = rows.
Proof. induction rows as [|[[[p rt] x] n] rows IH]; [done|]. cbn. by rewrite IH. Qed.

Lemma put_rows_lookup rows w p rt x : List.fold_left put_row rows w !! (p, rt, x) = or_else (latest rows p rt x) (w !! (p, rt, x)).
Proof.
  revert w. induction rows as [|[[[p' rt'] x'] n] rows IH]; intros w; [done|]. cbn [List.fold_left]. rewrite IH.
  change (((p', rt', x', n) : avail) :: rows) with ([(p', rt', x', n) : avail] ++ rows). rewrite latest_app.
  destruct (latest rows p rt x); [done|]. cbn [or_else put_row]. unfold latest. cbn [rev app List.find avail_key].
  destruct (String.eqb_spec p p') as [->|]; cbn [andb fmap option_fmap option_map or_else snd]; [|by rewrite lookup_insert_ne by congruence].
  destruct (String.eqb_spec rt rt') as [->|]; cbn [andb fmap option_fmap option_map or_else snd]; [|by rewrite lookup_insert_ne by congruence].
  destruct (String.eqb_spec x x') as [->|]; cbn [andb fmap option_fmap option_map or_else snd]; [by rewrite lookup_insert_eq|by rewrite lookup_insert_ne by congruence].
Qed.

#[local, program] Instance store_shows : ShowsAvailability store := {| shown := fun w p rt x => w !! (p, rt, x) |}.
Next Obligation.
  intros w c w' status text payload rows H _ _ Hp Hb _ p rt x. cbn in H. injection H as <- _ _ _. rewrite Hp. cbn [String.eqb Ascii.eqb Bool.eqb].
  unfold values_of. rewrite Hb. cbn [dict_get String.eqb Ascii.eqb Bool.eqb]. rewrite read_rows. apply put_rows_lookup.
Qed.
Next Obligation.
  intros w c rows Hb p rt x Hn. cbn. destruct (String.eqb _ _); [|done]. unfold values_of. rewrite Hb. cbn [dict_get String.eqb Ascii.eqb Bool.eqb].
  rewrite read_rows, put_rows_lookup, Hn. done.
Qed.
Next Obligation. intros w c p rt x Hp. cbn. apply String.eqb_neq in Hp. by rewrite Hp. Qed.

#[local] Instance quiet_env : Env := sample_env.
#[local] Instance quiet_net : Net := deaf_net.

Definition hotel_link : ChannexPropertyLink := MkChannexPropertyLink 1 1 10 "cxp" None "key" "sandbox" "active" None None None.
Definition double_map : ChannexRoomTypeMap := MkChannexRoomTypeMap 2 1 1 20 "cx-double" None.
Definition opening : date := 738000.

Definition linked_db : DB :=
  put_links [hotel_link] (put_room_type_maps [double_map]
    (put_ledger {[ (1, 20, opening) := MkLedger 5 1 0; (1, 20, opening + 1) := MkLedger 5 2 1 ]} empty_db)).

(** One more room is booked on the second night. *)
Definition booked_db : DB := put_ledger (<[(1, 20, opening + 1) := MkLedger 5 3 1]> (ledger linked_db)) linked_db.

Lemma linked_keys : link_keys linked_db.
Proof. split; repeat constructor; cbn; tauto. Qed.

Lemma booked_keys : link_keys booked_db.
Proof. split; repeat constructor; cbn; tauto. Qed.

Lemma linked_distinct : maps_distinct hotel_link linked_db.
Proof. by intros rm rm' [<-|[]] [<-|[]]. Qed.

(** A run that returns with no error on a link. *)
Definition clean (r : DB * store * result unit) : bool :=
  match r with
  | (d, _, Ok _) => forallb (fun l => match cl_error l with None => true | Some _ => false end) (links d)
  | _ => false
  end.

Lemma clean_spec d w u l : clean (d, w, Ok u) = true -> In l (links d) -> cl_error l = None.
Proof. cbn. rewrite forallb_forall. intros H Hl. specialize (H l Hl). by destruct (cl_error l). Qed.

Lemma full_sync_establishes_agreement_witness :
  exists d' w' l', T_run (run_channex_full_ari_sync 1 10) 100 opening 50 linked_db (empty : store) = (d', w', Ok tt) /\
    List.find (link_is 1 10) (links d') = Some l' /\ in_step w' d' hotel_link (fun x => opening <= x < opening + 365).
Proof.
  assert (Hc : clean (T_run (run_channex_full_ari_sync 1 10) 100 opening 50 linked_db (empty : store)) = true) by (vm_compute; reflexivity).
  destruct (T_run (run_channex_full_ari_sync 1 10) 100 opening 50 linked_db (empty : store)) as [[d' w'] [[]|]] eqn:H; [|done].
  assert (He : forall l', In l' (links d') -> cl_error l' = None) by (intros l' Hl'; eapply clean_spec; [exact Hc|exact Hl']).
  clear Hc.
  destruct (full_sync_establishes_agreement 1 10 hotel_link 100 opening 50 linked_db empty d' w' linked_keys eq_refl eq_refl linked_distinct) as (l' & Hl & _ & _ & Hs).
  - exists double_map. split; [by left|done].
  - exact H.
  - exists d', w', l'. split_and!; [reflexivity|exact Hl|]. apply Hs, He. by apply find_some in Hl as [? _].
Defined.

Definition in_sync : store :=
  {[ ("cxp", "cx-double", isoformat opening)%string := 4; ("cxp", "cx-double", isoformat (opening + 1))%string := 2 ]}.

Lemma push_restores_agreement_witness :
  exists d' w', T_run (run_ari_task (PushAvailability 1 10 20 [isoformat (opening + 1)])) 100 opening 50 booked_db in_sync = (d', w', Ok tt) /\
    in_step w' d' hotel_link (fun x => opening <= x < opening + 2).
Proof.
  assert (Hc : clean (T_run (run_ari_task (PushAvailability 1 10 20 [isoformat (opening + 1)])) 100 opening 50 booked_db in_sync) = true) by (vm_compute; reflexivity).
  destruct (T_run (run_ari_task (PushAvailability 1 10 20 [isoformat (opening + 1)])) 100 opening 50 booked_db in_sync) as [[d' w'] [[]|]] eqn:H; [|done].
  assert (He : forall l', In l' (links d') -> cl_error l' = None) by (intros l' Hl'; eapply clean_spec; [exact Hc|exact Hl']).
  clear Hc.
  exists d', w'. split; [reflexivity|].
  destruct (push_restores_agreement 1 10 20 [opening + 1] (PushAvailability 1 10 20 [isoformat (opening + 1)]) hotel_link linked_db booked_db 100 opening 50
    in_sync d' w' (fun x => opening <= x < opening + 2)) as (e & E & Hs); try done.
  - exact booked_keys.
  - exact linked_distinct.
  - exists double_map. split; [by left|done].
  - intros k Hk. exists (opening + 1). split; [by left|]. destruct (decide (k = (1, 20, opening + 1))) as [|Hne]; [done|]. exfalso. apply Hk.
    unfold booked_db. cbn [ledger put_ledger]. by rewrite lookup_insert_ne.
  - repeat constructor; unfold MINORD, MAXORD, opening; lia.
  - intros x [H1 H2]. unfold opening, valid_date, MINORD, MAXORD in *. lia.
  - apply in_step_intro. intros rm x [<-|[]] _ Hx. assert (x = opening \/ x = opening + 1) as [-> | ->] by lia; vm_compute; reflexivity.
  - apply Hs. specialize (He (set_cl_error e hotel_link)). rewrite E in He. apply He. by left.
Defined.
