(* ===== verification/ChannexLink.v ===== *)
(** * Connecting a property to the channel manager

    app/services/channex_service.py: connecting, provisioning room types and
    rate plans, mapping them, activating, disconnecting, and the list of
    revisions left in error. *)

From stdpp Require Import gmap strings.
From S2P Require Import Prelude PyDecimal PyJson StayDates Calendar Tax Models Session Ledger Rates Rooms Webhooks Channex Remote ChannexClient ChannexAri.

Definition ChannexServiceError (detail : string) (status_code : Z) : exn := ServiceError "ChannexServiceError" detail status_code.

Definition not_connected : exn := ChannexServiceError "Channex is not connected for this property" 404.

(** [(env or "production").strip().lower()] *)
Definition normalize_env (env : string) : result string :=
  let e := lower (strip (if truthy env then env else "production")) in
  if str_in e ["production"; "sandbox"]%string then Ok e
  else Err (ChannexServiceError "env must be 'production' or 'sandbox'" 422).

(** The answer to a caller for an error of the channel manager; [code or 502]. *)
Definition channex_http_to_service (message : string) (status_code : option Z) (body : option string) : exn :=
  let code := match status_code with Some c => if c =? 0 then 502 else c | None => 502 end in
  if (code =? 401) || (code =? 403) then ChannexServiceError "Invalid or unauthorized Channex API key" 401
  else if code =? 404 then ChannexServiceError "Channex resource not found" 404
  else if code =? 422 then
    ChannexServiceError (match body with
                         | Some b => if truthy b && (String.length b <? 800)%nat then b else "Channex rejected the request (validation error)"
                         | None => "Channex rejected the request (validation error)" end) 422
  else ChannexServiceError message 502.

Record room_mapping := RoomMapping { rm_room_type : Z; rm_channex : string; rm_name : option string }.
Record rate_mapping := RateMapping { ra_map : Z; ra_rate_plan : Z; ra_channex : string; ra_name : option string }.

Record channex_status := ChannexStatus { cs_link : option ChannexPropertyLink; cs_room_maps : list ChannexRoomTypeMap; cs_rate_maps : Z }.

Record provision_counts := ProvisionCounts { pv_rt_created : Z; pv_rt_skipped : Z; pv_rp_created : Z; pv_rp_skipped : Z }.

(** [len(l) != len(set(l))] *)
Definition has_duplicates {A} (eq_dec : forall x y : A, {x = y} + {x <> y}) (l : list A) : bool :=
  negb (length (List.nodup eq_dec l) =? length l)%nat.

Definition pair_dec : forall x y : Z * Z, {x = y} + {x <> y} := fun x y => decide (x = y).

Section link.
Context {env : Env} {net : Net} {W : Type} {channex : Wire W}.

(** [try: ... except ChannexApiError: raise _channex_http_to_service(exc)] *)
Definition calling {A} (c : call W A) : T W A :=
  T_try (wire c)
    (fun e => match e with ChannexApiError m code body => Some (T_raise (channex_http_to_service m code body)) | _ => None end).

Definition validate_key (api_key env_name : string) : T W (list cx_resource) :=
  env_n ← db (lift (normalize_env env_name));
  calling (get_properties (new_client (strip api_key) env_n)).

Definition create_channex_property_from_openpms (tenant_id property_id : Z) (api_key env_name : string) : T W cx_resource :=
  env_n ← db (lift (normalize_env env_name));
  existing ← db (get_link tenant_id property_id);
  match existing with
  | Some _ => T_raise (ChannexServiceError "Channex is already connected for this property" 409)
  | None =>
      prop ← db (get_property tenant_id property_id);
      match prop with
      | None => T_raise (ChannexServiceError "Property not found" 404)
      | Some p => calling (cx_create_property (new_client (strip api_key) env_n) (p_name p) (p_currency p) (Some (p_timezone p)))
      end
  end.

(** The insertion of a link: one per property, of a property of the tenant. *)
Definition insert_link (row : ChannexPropertyLink) : M unit :=
  _ ← lift (varchar 36 (cl_channex_property row));
  taken ← query (fun d => existsb (fun l => cl_property l =? cl_property row) (links d)
                          || negb (existsb (property_is (cl_tenant row) (cl_property row)) (properties d)));
  if (taken : bool) then raise IntegrityError else _ ← add row; flush.

Definition connect (tenant_id property_id : Z) (api_key env_name channex_property_id : string) : T W ChannexPropertyLink :=
  env_n ← db (lift (normalize_env env_name));
  let key_plain := strip api_key in
  let cx_prop_id := strip channex_property_id in
  existing ← db (get_link tenant_id property_id);
  match existing with
  | Some _ => T_raise (ChannexServiceError "Channex is already connected for this property" 409)
  | None =>
      props ← validate_key key_plain env_n;
      if negb (existsb (fun p => String.eqb (rs_id p) cx_prop_id) props) then
        T_raise (ChannexServiceError "Selected Channex property is not available for this API key" 422)
      else
        n ← db uuid4; i ← db uuid4;
        let row := MkChannexPropertyLink i tenant_id property_id cx_prop_id None (fernet_encrypt n key_plain) env_n "pending" None None None in
        _ ← db (insert_link row);
        mret row
  end.

(** Maps of one link are made in one transaction: its order of creation does
    not tell them apart. *)
Definition get_status (tenant_id property_id : Z) : M channex_status :=
  link ← get_link tenant_id property_id;
  match link with
  | None => mret (ChannexStatus None [] 0)
  | Some link =>
      rt_rows ← select (room_map_of tenant_id link);
      n ← query (fun d => countb (fun q => (cq_tenant q =? tenant_id)
                            && existsb (fun m => room_map_of tenant_id link m && (cm_id m =? cq_room_type_map q)) (room_type_maps d)) (rate_plan_maps d));
      mret (ChannexStatus (Some link) rt_rows n)
  end.

Definition linked (tenant_id property_id : Z) : M ChannexPropertyLink :=
  link ← get_link tenant_id property_id; lift (of_option link not_connected).

Definition get_channex_rooms (tenant_id property_id : Z) : T W (list cx_resource) :=
  link ← db (linked tenant_id property_id);
  client ← db (lift (client_for_link link));
  calling (get_room_types client (cl_channex_property link)).

Definition get_channex_rates (tenant_id property_id : Z) : T W (list cx_resource) :=
  link ← db (linked tenant_id property_id);
  client ← db (lift (client_for_link link));
  calling (get_rate_plans client (cl_channex_property link)).

(** ** Provisioning *)

Definition title_of (r : cx_resource) : string := strip (default EmptyString (rs_title r)).

(** [{title: id}] of the titled resources; the last one of a title counts. *)
Definition by_title (rs : list cx_resource) : gmap string string :=
  List.fold_left (fun m r => if truthy (title_of r) && truthy (rs_id r) then <[title_of r := rs_id r]> m else m) rs ∅.

(** Room types and their counterparts so far. *)
Record rt_progress := RtProgress { rg_titles : gmap string string; rg_map : list (Z * string); rg_created : Z; rg_skipped : Z }.

Definition provision_room_type (client : channex_client) (cx_pid : string) (tenant_id : Z) (acc : rt_progress) (rt : RoomType) : T W rt_progress :=
  let key := strip (rt_name rt) in
  match rg_titles acc !! key with
  | Some cx => mret (RtProgress (rg_titles acc) (rg_map acc ++ [(rt_id rt, cx)]) (rg_created acc) (rg_skipped acc + 1))
  | None =>
      count ← db (count_rooms_for_room_type tenant_id (rt_id rt));
      let occ_adults := Z.max 1 (rt_max_occupancy rt) in
      let default_occ := Z.max 1 (Z.min (rt_base_occupancy rt) occ_adults) in
      cx_r ← calling (cx_create_room_type client cx_pid (rt_name rt) (Z.max 1 count) occ_adults 0 0 default_occ);
      mret (RtProgress (<[key := rs_id cx_r]> (rg_titles acc)) (rg_map acc ++ [(rt_id rt, rs_id cx_r)]) (rg_created acc + 1) (rg_skipped acc))
  end.

Definition rate_title (rp : RatePlan) (rt : RoomType) : string := slice 255 (strip (rp_name rp) ++ " / " ++ strip (rt_name rt)).

Record rp_progress := RpProgress { rq_titles : list string; rq_created : Z; rq_skipped : Z }.

(** [om_rt_to_cx.get(rt.id)] *)
Definition counterpart (m : list (Z * string)) (rt : Z) : option string :=
  snd <$> List.find (fun kv => fst kv =? rt) (rev m).

Definition provision_rate_plan (client : channex_client) (cx_pid currency : string) (rts : list (Z * string)) (acc : rp_progress)
    (pair : RatePlan * RoomType) : T W rp_progress :=
  let '(rp, rt) := pair in
  match counterpart rts (rt_id rt) with
  | None => mret acc
  | Some cx_rt_id =>
      if negb (truthy cx_rt_id) then mret acc
      else
        let title := rate_title rp rt in
        if str_in title (rq_titles acc) then mret (RpProgress (rq_titles acc) (rq_created acc) (rq_skipped acc + 1))
        else
          _ ← calling (cx_create_rate_plan client cx_pid cx_rt_id title currency (Z.max 1 (rt_max_occupancy rt)));
          mret (RpProgress (title :: rq_titles acc) (rq_created acc + 1) (rq_skipped acc))
  end.

Definition provision_channex_from_openpms (tenant_id property_id : Z) : T W provision_counts :=
  link ← db (linked tenant_id property_id);
  prop ← db (get_property tenant_id property_id);
  match prop with
  | None => T_raise (ChannexServiceError "Property not found" 404)
  | Some prop =>
      room_types_local ← db (list_room_types tenant_id (Some property_id));
      match room_types_local with
      | [] => T_raise (ChannexServiceError "No room categories in OpenPMS for this property; add room types first" 422)
      | _ =>
          client ← db (lift (client_for_link link));
          let cx_pid := cl_channex_property link in
          existing_cx_rt ← calling (get_room_types client cx_pid);
          rts ← T_fold room_types_local (provision_room_type client cx_pid tenant_id) (RtProgress (by_title existing_cx_rt) [] 0 0);
          rate_plans_local ← db (list_rate_plans tenant_id (Some property_id));
          existing_cx_rp ← calling (get_rate_plans client cx_pid);
          let titles := List.filter truthy (List.map title_of existing_cx_rp) in
          let currency := upper (strip (if truthy (p_currency prop) then p_currency prop else "USD")) in
          rps ← T_fold (List.flat_map (fun rp => List.map (fun rt => (rp, rt)) room_types_local) rate_plans_local)
                  (provision_rate_plan client cx_pid currency (rg_map rts)) (RpProgress titles 0 0);
          mret (ProvisionCounts (rg_created rts) (rg_skipped rts) (rq_created rps) (rq_skipped rps))
      end
  end.

(** ** Maps *)

Definition assert_room_types_belong_to_property (tenant_id property_id : Z) (room_type_ids : list Z) : M unit :=
  match room_type_ids with
  | [] => mret tt
  | _ =>
      n ← query (fun d => countb (fun r => (rt_tenant r =? tenant_id) && (rt_property r =? property_id)
                            && existsb (Z.eqb (rt_id r)) room_type_ids && bool_decide (rt_deleted_at r = None)) (room_types d));
      if n =? Z.of_nat (length (List.nodup Z.eq_dec room_type_ids)) then mret tt
      else raise (ChannexServiceError "One or more room types are invalid for this property" 422)
  end.

Definition assert_rate_plans_belong_to_property (tenant_id property_id : Z) (rate_plan_ids : list Z) : M unit :=
  match rate_plan_ids with
  | [] => mret tt
  | _ =>
      n ← query (fun d => countb (fun r => (rp_tenant r =? tenant_id) && (rp_property r =? property_id)
                            && existsb (Z.eqb (rp_id r)) rate_plan_ids) (rate_plans d));
      if n =? Z.of_nat (length (List.nodup Z.eq_dec rate_plan_ids)) then mret tt
      else raise (ChannexServiceError "One or more rate plans are invalid for this property" 422)
  end.

(** The rate plan maps under the room type maps of a link. *)
Definition delete_rate_maps (tenant_id : Z) (link : ChannexPropertyLink) : M unit :=
  ids ← query (fun d => List.map cm_id (List.filter (room_map_of tenant_id link) (room_type_maps d)));
  execute_delete (R := ChannexRatePlanMap) (fun q => (cq_tenant q =? tenant_id) && existsb (Z.eqb (cq_room_type_map q)) ids).

Definition delete_room_maps (tenant_id : Z) (link : ChannexPropertyLink) : M unit :=
  execute_delete (R := ChannexRoomTypeMap) (room_map_of tenant_id link).

Definition name_column (name : option string) : result (option string) :=
  match name with Some n => n' ← varchar 255 n; Ok (Some n') | None => Ok None end.

(** One row of the flush: its texts fit, and its room type and its
    counterpart are new to the link. *)
Definition insert_room_map (tenant_id : Z) (link : ChannexPropertyLink) (m : room_mapping) : M unit :=
  i ← uuid4;
  cx ← lift (varchar 36 (strip (rm_channex m)));
  nm ← lift (name_column (rm_name m));
  taken ← attrs (fun d => existsb (fun x => (cm_link x =? cl_id link) && ((cm_room_type x =? rm_room_type m) || String.eqb (cm_channex_room_type x) cx))
                            (room_type_maps d));
  if (taken : bool) then raise IntegrityError
  else add (MkChannexRoomTypeMap i tenant_id (cl_id link) (rm_room_type m) cx nm).

Definition save_room_mappings (tenant_id property_id : Z) (mappings : list room_mapping) : M unit :=
  link ← linked tenant_id property_id;
  let room_type_ids := List.map rm_room_type mappings in
  if has_duplicates Z.eq_dec room_type_ids then raise (ChannexServiceError "Duplicate OpenPMS room type in mappings" 422)
  else if has_duplicates string_dec (List.map rm_channex mappings) then
    raise (ChannexServiceError "Duplicate Channex room type in mappings" 422)
  else
    _ ← assert_room_types_belong_to_property tenant_id property_id room_type_ids;
    _ ← delete_rate_maps tenant_id link;
    _ ← delete_room_maps tenant_id link;
    _ ← forM mappings (insert_room_map tenant_id link);
    flush.

Definition insert_rate_map (tenant_id : Z) (m : rate_mapping) : M unit :=
  i ← uuid4;
  cx ← lift (varchar 36 (strip (ra_channex m)));
  nm ← lift (name_column (ra_name m));
  taken ← attrs (fun d => existsb (fun x => (cq_room_type_map x =? ra_map m) && (cq_rate_plan x =? ra_rate_plan m)) (rate_plan_maps d));
  if (taken : bool) then raise IntegrityError
  else add (MkChannexRatePlanMap i tenant_id (ra_map m) (ra_rate_plan m) cx nm).

Definition save_rate_mappings (tenant_id property_id : Z) (mappings : list rate_mapping) : M unit :=
  link ← linked tenant_id property_id;
  match mappings with
  | [] => _ ← delete_rate_maps tenant_id link; flush
  | _ =>
      if has_duplicates pair_dec (List.map (fun m => (ra_map m, ra_rate_plan m)) mappings) then
        raise (ChannexServiceError "Duplicate room category and rate plan combination in mappings" 422)
      else
        found ← select (fun m => room_map_of tenant_id link m && existsb (fun q => cm_id m =? ra_map q) mappings);
        if negb (forallb (fun q => existsb (fun m => cm_id m =? ra_map q) found) mappings) then
          raise (ChannexServiceError "One or more room type mappings are invalid for this connection" 422)
        else
          _ ← assert_rate_plans_belong_to_property tenant_id property_id (List.map ra_rate_plan mappings);
          _ ← delete_rate_maps tenant_id link;
          _ ← forM mappings (insert_rate_map tenant_id);
          flush
  end.

(** ** Activation and disconnection *)

Definition set_link (link : ChannexPropertyLink) (f : ChannexPropertyLink -> ChannexPropertyLink) : M unit :=
  assign (R := ChannexPropertyLink) (cl_id link) f.

(** [(link.channex_webhook_id or "").strip()] *)
Definition webhook_id_of (link : ChannexPropertyLink) : string := strip (default EmptyString (cl_webhook link)).

Definition activate (channex_webhook_url : option string) (tenant_id property_id : Z) : T W unit :=
  link ← db (linked tenant_id property_id);
  t ← db get_now;
  let webhook_url := strip (default EmptyString channex_webhook_url) in
  wid ← (if truthy webhook_url && negb (truthy (webhook_id_of link)) then
           client ← db (lift (client_for_link link));
           resp ← calling (create_webhook client webhook_url ["booking"; "ari"]%string);
           match extract_created_resource_id resp with
           | None => T_raise (ChannexServiceError "Channex webhook response missing id" 502)
           | Some wid => db (lift (varchar 36 wid)) ≫= fun w => mret (Some w)
           end
         else mret (cl_webhook link));
  _ ← db (set_link link (set_cl_webhook wid));
  _ ← db (set_link link (set_cl_status "active"));
  _ ← db (set_link link (fun l => match cl_connected_at l with None => set_cl_connected_at (Some t) l | Some _ => l end));
  _ ← db (set_link link (set_cl_error None));
  db flush.

Definition require_active_channex_link (tenant_id property_id : Z) : M ChannexPropertyLink :=
  link ← linked tenant_id property_id;
  if active link then mret link else raise (ChannexServiceError "Channex integration must be active to sync" 409).

(** [delete(ChannexPropertyLink)]: the revisions and the push logs of the link
    refer to it, and nothing removes them. *)
Definition delete_link (tenant_id : Z) (link : ChannexPropertyLink) : M unit :=
  referred ← query (fun d => existsb (fun r => (cr_tenant r =? tenant_id) && (cr_link r =? cl_id link)) (revisions d)
                             || existsb (fun r => (ca_tenant r =? tenant_id) && (ca_link r =? cl_id link)) (ari_logs d));
  if (referred : bool) then raise IntegrityError
  else execute_delete (R := ChannexPropertyLink) (fun l => (cl_tenant l =? tenant_id) && (cl_id l =? cl_id link)).

Definition disconnect (tenant_id property_id : Z) : T W unit :=
  link ← db (get_link tenant_id property_id);
  match link with
  | None => mret tt
  | Some link =>
      _ ← (if truthy (webhook_id_of link) then
             T_try (client ← db (lift (client_for_link link)); wire (delete_webhook client (webhook_id_of link)))
               (fun e => match e with ChannexApiError _ _ _ => Some (mret tt) | _ => None end)
           else mret tt);
      _ ← db (delete_rate_maps tenant_id link);
      _ ← db (delete_room_maps tenant_id link);
      _ ← db (delete_link tenant_id link);
      db flush
  end.

(** Rows are in order of arrival; the newest come first. *)
Definition list_failed_channex_booking_revisions (tenant_id : Z) (property_id : option Z) (limit offset : nat)
    : M (list (ChannexBookingRevision * Z) * Z) :=
  query (fun d =>
    let joined := omap (fun r =>
        if (cr_tenant r =? tenant_id) && String.eqb (cr_processing r) "error" then
          match List.find (fun l => cl_id l =? cr_link r) (links d) with
          | Some l => if match property_id with Some p => cl_property l =? p | None => true end then Some (r, cl_property l) else None
          | None => None
          end
        else None) (rev (revisions d)) in
    (List.firstn limit (List.skipn offset joined), Z.of_nat (length joined))).

End link.
