(* ===== verification/Access.v ===== *)
(** * Who may call the API

    app/middleware/tenant_jwt.py (authentication by a bearer token or an API
    key), the dependencies of app/api/deps.py (roles, scopes, interactive
    users), app/core/jwt_keys.py and app/services/api_key_service.py.  A
    refusal is the [HTTPException] of its status. *)

From stdpp Require Import gmap strings.
From S2P Require Import Prelude PyJson StayDates Calendar Models Session Rates Folio Auth.

(** Verification of a token that must carry an audience or an issuer. *)
Class Tokens := jwt_decode_for : option string -> option string -> Z -> string -> option dict.

Record jwt_settings := JwtSettings { jwt_audience : option string; jwt_issuer : option string }.

Definition http_error (status_code : Z) (detail : string) : exn := ServiceError "HTTPException" detail status_code.

Inductive auth_source := Jwt | ApiKeyAuth.

#[export] Instance auth_source_eq_dec : EqDecision auth_source.
Proof. solve_decision. Defined.

(** [request.state]; the source of an unauthenticated request reads as [Jwt]. *)
Record auth_state := AuthState {
  as_tenant : option Z; as_source : auth_source; as_user : option Z; as_role : option string;
  as_key : option Z; as_scopes : list string }.

Definition no_auth : auth_state := AuthState None Jwt None None None [].

(** Method, path and the two headers. *)
Record http_request := HttpRequest {
  rq_method : string; rq_path : string; rq_authorization : option string; rq_api_key : option string }.

Section access.
Context {env : Env} {crypto : Crypto} {tokens : Tokens} (settings : jwt_settings).

(** ** api_key_service.py *)

Definition ApiKeyServiceError (detail : string) (status_code : Z) : exn := ServiceError "ApiKeyServiceError" detail status_code.

Definition hash_api_key (plaintext : string) : string := sha256_hex plaintext.

Definition generate_api_key_plaintext : M string := n ← uuid4; mret ("opms_" ++ token_urlsafe n)%string.

(** [[s.strip().lower() for s in scopes if s.strip()]] *)
Definition normal_scopes (scopes : list string) : list string :=
  List.map (fun s => lower (strip s)) (List.filter (fun s => truthy (strip s)) scopes).

Definition create_api_key (tenant_id : Z) (name : string) (scopes : list string) (expires_at : option Z) : M (ApiKey * string) :=
  let trimmed := strip name in
  if negb (truthy trimmed) then raise (ApiKeyServiceError "name is required" 422)
  else
    let norm_scopes := normal_scopes scopes in
    match norm_scopes with
    | [] => raise (ApiKeyServiceError "at least one scope is required" 422)
    | _ =>
        plain ← generate_api_key_plaintext;
        i ← uuid4;
        let row := MkApiKey i tenant_id (hash_api_key plain) trimmed norm_scopes true expires_at in
        taken ← query (fun d => existsb (fun k => String.eqb (ak_hash k) (hash_api_key plain)) (api_keys d));
        if (taken : bool) then raise IntegrityError
        else _ ← add row; _ ← flush; mret (row, plain)
    end.

Definition list_api_keys (tenant_id : Z) : M (list ApiKey) :=
  rows ← select (fun k => ak_tenant k =? tenant_id);
  mret (order_by (fun a b => if String.eqb (ak_name a) (ak_name b) then ak_id a <=? ak_id b else collate (ak_name a) (ak_name b)) rows).

Definition key_is (tenant_id key_id : Z) (k : ApiKey) : bool := (ak_tenant k =? tenant_id) && (ak_id k =? key_id).

Definition patch_api_key (tenant_id key_id : Z) (is_active : option bool) (name : option string) : M ApiKey :=
  row ← scalar (key_is tenant_id key_id);
  match row with
  | None => raise (ApiKeyServiceError "API key not found" 404)
  | Some row =>
      renamed ← match name with
        | Some n => if truthy (strip n) then mret (set_ak_name (strip n) row)
                    else raise (ApiKeyServiceError "name cannot be empty" 422)
        | None => mret row
        end;
      let k := match is_active with Some b => set_ak_active b renamed | None => renamed end in
      _ ← assign (ak_id row) (fun _ => k);
      _ ← flush;
      mret k
  end.

(** The delete is not awaited. *)
Definition delete_api_key (tenant_id key_id : Z) : M unit :=
  row ← scalar (key_is tenant_id key_id);
  match row with
  | None => raise (ApiKeyServiceError "API key not found" 404)
  | Some _ => _ ← unawaited_delete; flush
  end.

(** ** jwt_keys.py *)

Definition decode_access_token (t : Z) (token : string) : option dict :=
  let payload := match jwt_audience settings, jwt_issuer settings with
                 | None, None => jwt_decode t token
                 | aud, iss => jwt_decode_for aud iss t token
                 end in
  match payload with
  | Some p => match dict_get p "tenant_id" with None | Some JNull => None | Some _ => Some p end
  | None => None
  end.

(** ** tenant_jwt.py *)

Definition EXEMPT_PATHS : list string :=
  ["/health"; "/health/deep"; "/openapi.json"; "/docs"; "/redoc"; "/docs/oauth2-redirect"; "/favicon.ico"; "/developer";
   "/auth/register"; "/auth/login"; "/auth/refresh"; "/auth/logout"; "/auth/forgot-password"; "/auth/reset-password";
   "/webhooks/channex"; "/webhooks/stripe"; "/stripe/oauth/callback"]%string.

Definition is_auth_exempt_path (path : string) : bool :=
  str_in path EXEMPT_PATHS || String.prefix "/docs/" path || String.prefix "/redoc/" path.

(** The token of a [Bearer] header. *)
Definition bearer_token (r : http_request) : option string :=
  match rq_authorization r with
  | Some h => if String.prefix "Bearer " h then Some (strip (String.substring 7 (String.length h - 7) h)) else None
  | None => None
  end.

(** [UUID(str(x))] of a claim. *)
Definition claim (payload : dict) (k : string) : option Z :=
  match dict_get payload k with Some v => uuid_parse (py_str v) | None => None end.

Definition state_of_payload (payload : dict) : result auth_state :=
  match claim payload "tenant_id" with
  | None => Err (ValueError "bad_tenant")
  | Some tenant_id =>
      user ← match dict_get payload "sub" with
             | None | Some JNull => Ok None
             | Some _ => match claim payload "sub" with Some u => Ok (Some u) | None => Err (ValueError "bad_sub") end
             end;
      let role := match dict_get payload "role" with
                  | Some (JStr r) => if truthy (strip r) then Some (lower (strip r)) else None
                  | _ => None
                  end in
      Ok (AuthState (Some tenant_id) Jwt user role None [])
  end.

(** [None] is the missing token. *)
Definition authenticate_jwt (t : Z) (r : http_request) : result (option auth_state) :=
  match bearer_token r with
  | None => Ok None
  | Some token =>
      if negb (truthy token) then Ok None
      else match decode_access_token t token with
           | None => Err (ValueError "invalid_token")
           | Some payload => st ← state_of_payload payload; Ok (Some st)
           end
  end.

(** [lookup_api_key_by_hash] *)
Definition live_key (t : Z) (digest : string) (k : ApiKey) : bool :=
  String.eqb (ak_hash k) digest && ak_active k && match ak_expires_at k with Some e => t <? e | None => true end.

Definition authenticate_api_key (r : http_request) : M (option auth_state) :=
  match rq_api_key r with
  | None => mret None
  | Some raw =>
      if negb (truthy (strip raw)) then mret None
      else
        t ← get_now;
        row ← query (fun d => List.find (live_key t (hash_api_key (strip raw))) (api_keys d));
        match row with
        | None => raise (ValueError "unknown_key")
        | Some k => mret (Some (AuthState (Some (ak_tenant k)) ApiKeyAuth None None (Some (ak_id k)) (normal_scopes (ak_scopes k))))
        end
  end.

Definition unauthorized (message : string) : exn := http_error 401 message.

(** [TenantJwtASGIMiddleware]: the state the application is called with. *)
Definition tenant_jwt_middleware (r : http_request) : M auth_state :=
  if String.eqb (rq_method r) "OPTIONS" then mret no_auth
  else if is_auth_exempt_path (rq_path r) then mret no_auth
  else if match rq_authorization r with Some h => String.prefix "Bearer " h | None => false end then
    t ← get_now;
    match authenticate_jwt t r with
    | Err (ValueError _) => raise (unauthorized "Invalid or expired token")
    | Err e => raise e
    | Ok None => raise (unauthorized "Missing bearer token")
    | Ok (Some st) => mret st
    end
  else
    ok ← try_except (authenticate_api_key r)
           (fun e => match e with ValueError _ => Some (raise (unauthorized "Invalid API key")) | _ => None end);
    match ok with
    | Some st => mret st
    | None => raise (unauthorized "Authenticate with Authorization: Bearer <JWT> or X-API-Key")
    end.

(** ** deps.py *)

Definition get_tenant_id (st : auth_state) : result Z :=
  of_option (as_tenant st) (http_error 500 "tenant_id missing; authenticate with Bearer JWT or X-API-Key").

Inductive guard : Type :=
  | RequireJwtUser                       (** [require_jwt_user] *)
  | RequireRoles (allowed : list string) (** [require_roles] *)
  | RequireScopes (required : list string) (** [require_scopes] *)
  | RequireUser                          (** [get_user_id] *)
  | RequireUserToken                     (** [get_jwt_only_user_id] *)
  | RequireUserOrKey.                    (** [get_optional_user_id_for_audit] *)

Definition require_jwt_user (st : auth_state) : result unit :=
  if bool_decide (as_source st = Jwt) then Ok tt
  else Err (http_error 403 "This operation requires a user JWT, not an API key").

Definition require_roles (allowed : list string) (st : auth_state) : result unit :=
  if negb (bool_decide (as_source st = Jwt)) then Ok tt
  else match as_role st with
       | Some r =>
           if truthy (strip r) && str_in (lower (strip r)) (List.map lower allowed) then Ok tt
           else Err (http_error 403 "Insufficient role for this operation")
       | None => Err (http_error 403 "Insufficient role for this operation")
       end.

Definition require_scopes (required : list string) (st : auth_state) : result unit :=
  if negb (bool_decide (as_source st = ApiKeyAuth)) then Ok tt
  else match required with
       | [] => Ok tt
       | _ =>
           let granted := normal_scopes (as_scopes st) in
           if str_in "*" granted then Ok tt
           else if forallb (fun n => str_in n granted) (List.map lower required) then Ok tt
           else Err (http_error 403 "API key lacks required scope")
       end.

Definition missing_subject : exn := http_error 401 "Access token must include user subject (sub) for this route".

Definition get_user_id (st : auth_state) : result Z := of_option (as_user st) missing_subject.

Definition get_jwt_only_user_id (st : auth_state) : result Z := _ ← require_jwt_user st; get_user_id st.

Definition get_optional_user_id_for_audit (st : auth_state) : result (option Z) :=
  if bool_decide (as_source st = ApiKeyAuth) then Ok None else u ← get_user_id st; Ok (Some u).

Definition run_guard (g : guard) (st : auth_state) : result unit :=
  match g with
  | RequireJwtUser => require_jwt_user st
  | RequireRoles allowed => require_roles allowed st
  | RequireScopes required => require_scopes required st
  | RequireUser => _ ← get_user_id st; Ok tt
  | RequireUserToken => _ ← get_jwt_only_user_id st; Ok tt
  | RequireUserOrKey => _ ← get_optional_user_id_for_audit st; Ok tt
  end.

Definition chain_dependency_runners (runners : list guard) (st : auth_state) : result unit :=
  foldR (fun _ g => run_guard g st) tt runners.

End access.
