(* ===== verification/Routes.v ===== *)
(** * The routes

    app/api/routes/*.py and the [include_router] calls of app/main.py: the
    method, the path and the security dependencies of every endpoint, in the
    order the routers are searched, and what it takes for a request to reach a
    handler. *)

From stdpp Require Import strings.
From S2P Require Import Prelude PyJson Models Session Auth Access.

(** ** api_scopes.py *)

Definition BOOKINGS_READ : string := "bookings:read".
Definition BOOKINGS_WRITE : string := "bookings:write".
Definition GUESTS_READ : string := "guests:read".
Definition GUESTS_WRITE : string := "guests:write".
Definition HOUSEKEEPING_READ : string := "housekeeping:read".
Definition HOUSEKEEPING_WRITE : string := "housekeeping:write".
Definition INVENTORY_READ : string := "inventory:read".
Definition INVENTORY_WRITE : string := "inventory:write".
Definition RATES_READ : string := "rates:read".
Definition RATES_WRITE : string := "rates:write".
Definition PROPERTIES_READ : string := "properties:read".
Definition PROPERTIES_WRITE : string := "properties:write".
Definition ROOMS_READ : string := "rooms:read".
Definition ROOMS_WRITE : string := "rooms:write".
Definition ROOM_TYPES_READ : string := "room_types:read".
Definition ROOM_TYPES_WRITE : string := "room_types:write".
Definition RATE_PLANS_READ : string := "rate_plans:read".
Definition RATE_PLANS_WRITE : string := "rate_plans:write".
Definition WEBHOOKS_READ : string := "webhooks:read".
Definition WEBHOOKS_WRITE : string := "webhooks:write".
Definition COUNTRY_PACKS_READ : string := "country_packs:read".
Definition COUNTRY_PACKS_WRITE : string := "country_packs:write".
Definition CHANNEX_READ : string := "channex:read".
Definition CHANNEX_WRITE : string := "channex:write".

(** A parameter of a path, or a literal segment. *)
Inductive segment := Param | Lit (s : string).

Record endpoint := Endpoint { ep_method : string; ep_path : list segment; ep_guards : list guard; ep_handler : string }.

(** ** Routers *)

Definition auth_router : list endpoint :=
  [Endpoint "POST" [Lit "auth"; Lit "register"] [] "post_register";
   Endpoint "POST" [Lit "auth"; Lit "login"] [] "post_login";
   Endpoint "POST" [Lit "auth"; Lit "refresh"] [] "post_refresh";
   Endpoint "POST" [Lit "auth"; Lit "logout"] [] "post_logout";
   Endpoint "POST" [Lit "auth"; Lit "forgot-password"] [] "post_forgot_password";
   Endpoint "POST" [Lit "auth"; Lit "reset-password"] [] "post_reset_password";
   Endpoint "GET" [Lit "auth"; Lit "users"] [RequireJwtUser; RequireRoles ["owner"; "manager"]] "get_users";
   Endpoint "POST" [Lit "auth"; Lit "change-password"] [RequireJwtUser; RequireUser] "post_change_password";
   Endpoint "PATCH" [Lit "auth"; Lit "users"; Param] [RequireJwtUser; RequireRoles ["owner"; "manager"]; RequireUser] "patch_user_route";
   Endpoint "GET" [Lit "auth"; Lit "me"] [RequireUserToken] "get_me";
   Endpoint "POST" [Lit "auth"; Lit "invite"] [RequireJwtUser; RequireRoles ["owner"; "manager"]] "post_invite"]%string.

Definition properties_router : list endpoint :=
  [Endpoint "POST" [Lit "properties"] [RequireRoles ["owner"; "manager"]; RequireScopes [PROPERTIES_WRITE]] "create_property";
   Endpoint "GET" [Lit "properties"] [RequireRoles ["owner"; "manager"; "viewer"; "receptionist"]; RequireScopes [PROPERTIES_READ]] "list_properties";
   Endpoint "GET" [Lit "properties"; Param; Lit "lock-status"] [RequireRoles ["owner"; "manager"; "viewer"; "receptionist"]; RequireScopes [PROPERTIES_READ]] "get_property_lock_status";
   Endpoint "GET" [Lit "properties"; Param; Lit "tax-config"] [RequireRoles ["owner"; "manager"; "viewer"; "receptionist"]; RequireScopes [PROPERTIES_READ]] "get_property_tax_config";
   Endpoint "PUT" [Lit "properties"; Param; Lit "tax-config"] [RequireRoles ["owner"]; RequireScopes [PROPERTIES_WRITE]] "put_property_tax_config";
   Endpoint "GET" [Lit "properties"; Param; Lit "email-settings"] [RequireRoles ["owner"; "manager"; "viewer"; "receptionist"]; RequireScopes [PROPERTIES_READ]] "get_property_email_settings";
   Endpoint "PUT" [Lit "properties"; Param; Lit "email-settings"] [RequireRoles ["owner"; "manager"]; RequireScopes [PROPERTIES_WRITE]] "put_property_email_settings";
   Endpoint "POST" [Lit "properties"; Param; Lit "email"; Lit "test"] [RequireJwtUser; RequireRoles ["owner"; "manager"]; RequireScopes [PROPERTIES_WRITE]; RequireUser] "post_property_email_test";
   Endpoint "DELETE" [Lit "properties"; Param; Lit "tax-config"] [RequireRoles ["owner"]; RequireScopes [PROPERTIES_WRITE]] "delete_property_tax_config";
   Endpoint "GET" [Lit "properties"; Param] [RequireRoles ["owner"; "manager"; "viewer"; "receptionist"]; RequireScopes [PROPERTIES_READ]] "get_property";
   Endpoint "PATCH" [Lit "properties"; Param] [RequireRoles ["owner"; "manager"]; RequireScopes [PROPERTIES_WRITE]] "patch_property"]%string.

Definition reports_router : list endpoint :=
  [Endpoint "GET" [Lit "properties"; Param; Lit "reports"; Lit "occupancy"] [RequireRoles ["owner"; "manager"]; RequireScopes [BOOKINGS_READ]] "get_occupancy_report_endpoint";
   Endpoint "GET" [Lit "properties"; Param; Lit "reports"; Lit "revenue"] [RequireRoles ["owner"; "manager"]; RequireScopes [BOOKINGS_READ]] "get_revenue_report_endpoint";
   Endpoint "GET" [Lit "properties"; Param; Lit "reports"; Lit "kpi"] [RequireRoles ["owner"; "manager"]; RequireScopes [BOOKINGS_READ]] "get_kpi_report_endpoint"]%string.

Definition country_packs_router : list endpoint :=
  [Endpoint "GET" [Lit "country-packs"; Lit "extensions"] [RequireJwtUser; RequireRoles ["owner"; "manager"]; RequireScopes [COUNTRY_PACKS_READ]] "list_extensions_route";
   Endpoint "POST" [Lit "country-packs"; Lit "extensions"] [RequireJwtUser; RequireRoles ["owner"]; RequireScopes [COUNTRY_PACKS_WRITE]] "register_extension_route";
   Endpoint "GET" [Lit "country-packs"; Lit "property-extensions"] [RequireJwtUser; RequireRoles ["owner"; "manager"]; RequireScopes [COUNTRY_PACKS_READ]] "list_property_extensions_route";
   Endpoint "POST" [Lit "country-packs"; Lit "property-extensions"] [RequireJwtUser; RequireRoles ["owner"]; RequireScopes [COUNTRY_PACKS_WRITE]] "upsert_property_extension_route";
   Endpoint "GET" [Lit "country-packs"] [RequireJwtUser; RequireRoles ["owner"; "manager"]; RequireScopes [COUNTRY_PACKS_READ]] "list_country_packs_route";
   Endpoint "POST" [Lit "country-packs"] [RequireJwtUser; RequireRoles ["owner"]; RequireScopes [COUNTRY_PACKS_WRITE]] "create_country_pack_route";
   Endpoint "GET" [Lit "country-packs"; Param] [RequireJwtUser; RequireRoles ["owner"; "manager"]; RequireScopes [COUNTRY_PACKS_READ]] "get_country_pack_route";
   Endpoint "PATCH" [Lit "country-packs"; Param] [RequireJwtUser; RequireRoles ["owner"]; RequireScopes [COUNTRY_PACKS_WRITE]] "patch_country_pack_route";
   Endpoint "DELETE" [Lit "country-packs"; Param] [RequireJwtUser; RequireRoles ["owner"]; RequireScopes [COUNTRY_PACKS_WRITE]] "delete_country_pack_route";
   Endpoint "POST" [Lit "country-packs"; Param; Lit "apply"] [RequireJwtUser; RequireRoles ["owner"]; RequireScopes [COUNTRY_PACKS_WRITE]] "apply_country_pack_route"]%string.

Definition room_types_router : list endpoint :=
  [Endpoint "POST" [Lit "room-types"] [RequireRoles ["owner"; "manager"]; RequireScopes [ROOM_TYPES_WRITE]] "create_room_type";
   Endpoint "GET" [Lit "room-types"] [RequireRoles ["owner"; "manager"; "viewer"; "receptionist"]; RequireScopes [ROOM_TYPES_READ]] "list_room_types";
   Endpoint "GET" [Lit "room-types"; Param] [RequireRoles ["owner"; "manager"; "viewer"; "receptionist"]; RequireScopes [ROOM_TYPES_READ]] "get_room_type";
   Endpoint "PATCH" [Lit "room-types"; Param] [RequireRoles ["owner"; "manager"]; RequireScopes [ROOM_TYPES_WRITE]] "patch_room_type";
   Endpoint "DELETE" [Lit "room-types"; Param] [RequireRoles ["owner"; "manager"]; RequireScopes [ROOM_TYPES_WRITE]] "delete_room_type"]%string.

Definition assignable_stay_router : list endpoint :=
  [Endpoint "GET" [Lit "assignable-rooms-for-stay"] [RequireRoles ["owner"; "manager"; "viewer"; "receptionist"]; RequireScopes [INVENTORY_READ]] "get_assignable_rooms_for_stay_at_root"]%string.

Definition unpaid_folio_summary_router : list endpoint :=
  [Endpoint "GET" [Lit "unpaid-folio-summary"] [RequireRoles ["owner"; "manager"; "viewer"; "housekeeper"; "receptionist"]; RequireScopes [BOOKINGS_READ]] "get_unpaid_folio_summary_at_root"]%string.

Definition inventory_router : list endpoint :=
  [Endpoint "GET" [Lit "inventory"; Lit "availability"] [RequireRoles ["owner"; "manager"; "viewer"; "receptionist"]; RequireScopes [INVENTORY_READ]] "get_availability_grid";
   Endpoint "PUT" [Lit "inventory"; Lit "availability"; Lit "seed"] [RequireRoles ["owner"; "manager"]; RequireScopes [INVENTORY_WRITE]] "put_availability_ledger_seed";
   Endpoint "GET" [Lit "inventory"; Lit "rooms-for-stay"] [RequireRoles ["owner"; "manager"; "viewer"; "receptionist"]; RequireScopes [INVENTORY_READ]] "get_inventory_rooms_for_stay";
   Endpoint "PUT" [Lit "inventory"; Lit "availability"; Lit "overrides"] [RequireRoles ["owner"; "manager"]; RequireScopes [INVENTORY_WRITE]] "put_availability_overrides"]%string.

Definition rate_plans_router : list endpoint :=
  [Endpoint "GET" [Lit "rate-plans"] [RequireRoles ["owner"; "manager"; "viewer"; "receptionist"]; RequireScopes [RATE_PLANS_READ]] "get_rate_plans";
   Endpoint "GET" [Lit "rate-plans"; Param] [RequireRoles ["owner"; "manager"; "viewer"; "receptionist"]; RequireScopes [RATE_PLANS_READ]] "get_rate_plan_by_id";
   Endpoint "POST" [Lit "rate-plans"] [RequireRoles ["owner"; "manager"]; RequireScopes [RATE_PLANS_WRITE]] "post_rate_plan";
   Endpoint "PATCH" [Lit "rate-plans"; Param] [RequireRoles ["owner"; "manager"]; RequireScopes [RATE_PLANS_WRITE]] "patch_rate_plan_by_id";
   Endpoint "DELETE" [Lit "rate-plans"; Param] [RequireRoles ["owner"; "manager"]; RequireScopes [RATE_PLANS_WRITE]] "delete_rate_plan_by_id"]%string.

Definition nightly_rates_router : list endpoint :=
  [Endpoint "GET" [Lit "rates"] [RequireRoles ["owner"; "manager"; "viewer"; "receptionist"]; RequireScopes [RATES_READ]] "get_rates";
   Endpoint "GET" [Lit "rates"; Lit "batch"] [RequireRoles ["owner"; "manager"; "viewer"; "receptionist"]; RequireScopes [RATES_READ]] "get_rates_batch";
   Endpoint "PUT" [Lit "rates"; Lit "bulk"] [RequireRoles ["owner"; "manager"]; RequireScopes [RATES_WRITE]] "put_rates_bulk"]%string.

Definition bookings_router : list endpoint :=
  [Endpoint "GET" [Lit "bookings"] [RequireRoles ["owner"; "manager"; "viewer"; "housekeeper"; "receptionist"]; RequireScopes [BOOKINGS_READ]] "get_bookings";
   Endpoint "GET" [Lit "bookings"; Lit "assignable-rooms-for-stay"] [RequireRoles ["owner"; "manager"; "viewer"; "receptionist"]; RequireScopes [INVENTORY_READ]] "get_bookings_assignable_rooms_for_stay";
   Endpoint "GET" [Lit "bookings"; Lit "unpaid-folio-summary"] [RequireRoles ["owner"; "manager"; "viewer"; "housekeeper"; "receptionist"]; RequireScopes [BOOKINGS_READ]] "get_unpaid_folio_summary";
   Endpoint "GET" [Lit "bookings"; Param; Lit "email-logs"] [RequireRoles ["owner"; "manager"; "viewer"; "housekeeper"; "receptionist"]; RequireScopes [BOOKINGS_READ]] "get_booking_email_logs";
   Endpoint "GET" [Lit "bookings"; Param] [RequireRoles ["owner"; "manager"; "viewer"; "housekeeper"; "receptionist"]; RequireScopes [BOOKINGS_READ]] "get_booking_by_id";
   Endpoint "GET" [Lit "bookings"; Param; Lit "folio"] [RequireRoles ["owner"; "manager"; "viewer"; "housekeeper"; "receptionist"]; RequireScopes [BOOKINGS_READ]] "get_booking_folio";
   Endpoint "GET" [Lit "bookings"; Param; Lit "receipt"] [RequireRoles ["owner"; "manager"; "viewer"; "housekeeper"; "receptionist"]; RequireScopes [BOOKINGS_READ]] "get_booking_receipt";
   Endpoint "POST" [Lit "bookings"; Param; Lit "send-invoice"] [RequireRoles ["owner"; "manager"; "receptionist"]; RequireScopes [BOOKINGS_WRITE]] "post_send_booking_invoice";
   Endpoint "POST" [Lit "bookings"; Param; Lit "folio"] [RequireRoles ["owner"; "manager"; "receptionist"]; RequireScopes [BOOKINGS_WRITE]; RequireUserOrKey] "post_booking_folio";
   Endpoint "POST" [Lit "bookings"; Param; Lit "folio"; Param; Lit "reverse"] [RequireRoles ["owner"; "manager"; "receptionist"]; RequireScopes [BOOKINGS_WRITE]; RequireUserOrKey] "post_booking_folio_reverse";
   Endpoint "DELETE" [Lit "bookings"; Param; Lit "folio"; Param] [RequireRoles ["owner"; "manager"; "receptionist"]; RequireScopes [BOOKINGS_WRITE]; RequireUserOrKey] "delete_booking_folio_transaction";
   Endpoint "DELETE" [Lit "bookings"; Param] [RequireRoles ["owner"; "manager"; "receptionist"]; RequireScopes [BOOKINGS_WRITE]] "delete_booking_by_id";
   Endpoint "PATCH" [Lit "bookings"; Param] [RequireRoles ["owner"; "manager"; "receptionist"]; RequireScopes [BOOKINGS_WRITE]] "patch_booking_by_id";
   Endpoint "POST" [Lit "bookings"] [RequireRoles ["owner"; "manager"; "receptionist"]; RequireScopes [BOOKINGS_WRITE]] "post_booking"]%string.

Definition folio_categories_router : list endpoint :=
  [Endpoint "GET" [Lit "folio-categories"] [RequireRoles ["owner"; "manager"; "viewer"; "housekeeper"; "receptionist"]; RequireScopes [BOOKINGS_READ]] "list_folio_charge_categories";
   Endpoint "POST" [Lit "folio-categories"] [RequireRoles ["owner"; "manager"]; RequireScopes [BOOKINGS_WRITE]] "create_folio_charge_category";
   Endpoint "PATCH" [Lit "folio-categories"; Param] [RequireRoles ["owner"; "manager"]; RequireScopes [BOOKINGS_WRITE]] "patch_folio_charge_category";
   Endpoint "DELETE" [Lit "folio-categories"; Param] [RequireRoles ["owner"; "manager"]; RequireScopes [BOOKINGS_WRITE]] "remove_folio_charge_category"]%string.

Definition rooms_router : list endpoint :=
  [Endpoint "GET" [Lit "rooms"] [RequireRoles ["owner"; "manager"; "viewer"; "receptionist"; "housekeeper"]; RequireScopes [ROOMS_READ]] "get_rooms";
   Endpoint "GET" [Lit "rooms"; Param] [RequireRoles ["owner"; "manager"; "viewer"; "receptionist"; "housekeeper"]; RequireScopes [ROOMS_READ]] "get_room_by_id";
   Endpoint "POST" [Lit "rooms"] [RequireRoles ["owner"; "manager"]; RequireScopes [ROOMS_WRITE]] "post_room";
   Endpoint "POST" [Lit "rooms"; Lit "bulk"] [RequireRoles ["owner"; "manager"]; RequireScopes [ROOMS_WRITE]] "post_rooms_bulk";
   Endpoint "PATCH" [Lit "rooms"; Param] [RequireRoles ["owner"; "manager"]; RequireScopes [ROOMS_WRITE]] "patch_room_by_id";
   Endpoint "DELETE" [Lit "rooms"; Param] [RequireRoles ["owner"; "manager"]; RequireScopes [ROOMS_WRITE]] "delete_room"]%string.

Definition guests_router : list endpoint :=
  [Endpoint "GET" [Lit "guests"] [RequireRoles ["owner"; "manager"; "viewer"; "receptionist"]; RequireScopes [GUESTS_READ]] "get_guests";
   Endpoint "GET" [Lit "guests"; Param] [RequireRoles ["owner"; "manager"; "viewer"; "receptionist"]; RequireScopes [GUESTS_READ]] "get_guest_detail";
   Endpoint "POST" [Lit "guests"] [RequireRoles ["owner"; "manager"; "receptionist"]; RequireScopes [GUESTS_WRITE]] "post_guest";
   Endpoint "PATCH" [Lit "guests"; Param] [RequireRoles ["owner"; "manager"; "receptionist"]; RequireScopes [GUESTS_WRITE]] "patch_guest_by_id";
   Endpoint "DELETE" [Lit "guests"; Param] [RequireRoles ["owner"; "manager"; "receptionist"]; RequireScopes [GUESTS_WRITE]] "delete_guest_by_id"]%string.

Definition dashboard_router : list endpoint :=
  [Endpoint "GET" [Lit "dashboard"; Lit "summary"] [RequireRoles ["owner"; "manager"; "viewer"; "housekeeper"; "receptionist"]; RequireScopes [BOOKINGS_READ]] "get_dashboard_summary_endpoint";
   Endpoint "GET" [Lit "dashboard"; Lit "unpaid-folio-summary"] [RequireRoles ["owner"; "manager"; "viewer"; "housekeeper"; "receptionist"]; RequireScopes [BOOKINGS_READ]] "get_dashboard_unpaid_folio_summary"]%string.

Definition housekeeping_router : list endpoint :=
  [Endpoint "GET" [Lit "housekeeping"] [RequireRoles ["owner"; "manager"; "housekeeper"; "receptionist"]; RequireScopes [HOUSEKEEPING_READ]] "get_housekeeping_board";
   Endpoint "PATCH" [Lit "housekeeping"; Param] [RequireRoles ["owner"; "manager"; "housekeeper"]; RequireScopes [HOUSEKEEPING_WRITE]; RequireUserOrKey] "patch_housekeeping_room"]%string.

Definition api_keys_router : list endpoint :=
  [Endpoint "GET" [Lit "api-keys"] [RequireJwtUser; RequireRoles ["owner"; "manager"]] "get_api_keys";
   Endpoint "POST" [Lit "api-keys"] [RequireJwtUser; RequireRoles ["owner"; "manager"]] "post_api_key";
   Endpoint "PATCH" [Lit "api-keys"; Param] [RequireJwtUser; RequireRoles ["owner"; "manager"]] "patch_api_key_route";
   Endpoint "DELETE" [Lit "api-keys"; Param] [RequireJwtUser; RequireRoles ["owner"; "manager"]] "delete_api_key_route"]%string.

Definition webhooks_router : list endpoint :=
  [Endpoint "GET" [Lit "webhooks"; Lit "subscriptions"] [RequireJwtUser; RequireRoles ["owner"; "manager"]; RequireScopes [WEBHOOKS_READ]] "list_webhook_subscriptions";
   Endpoint "GET" [Lit "webhooks"; Lit "delivery-logs"] [RequireJwtUser; RequireRoles ["owner"; "manager"]; RequireScopes [WEBHOOKS_READ]] "list_webhook_delivery_logs";
   Endpoint "POST" [Lit "webhooks"; Lit "subscriptions"] [RequireJwtUser; RequireRoles ["owner"; "manager"]; RequireScopes [WEBHOOKS_WRITE]] "create_webhook_subscription";
   Endpoint "POST" [Lit "webhooks"; Lit "subscriptions"; Lit "reencrypt-secrets"] [RequireJwtUser; RequireRoles ["owner"]; RequireScopes [WEBHOOKS_WRITE]] "reencrypt_webhook_subscription_secrets";
   Endpoint "PATCH" [Lit "webhooks"; Lit "subscriptions"; Param] [RequireJwtUser; RequireRoles ["owner"; "manager"]; RequireScopes [WEBHOOKS_WRITE]] "patch_webhook_subscription";
   Endpoint "DELETE" [Lit "webhooks"; Lit "subscriptions"; Param] [RequireJwtUser; RequireRoles ["owner"; "manager"]; RequireScopes [WEBHOOKS_WRITE]] "delete_webhook_subscription"]%string.

Definition channex_inbound_router : list endpoint :=
  [Endpoint "POST" [Lit "webhooks"; Lit "channex"] [] "inbound_channex_webhook"]%string.

Definition stripe_inbound_router : list endpoint :=
  [Endpoint "POST" [Lit "webhooks"; Lit "stripe"] [] "inbound_stripe_webhook"]%string.

Definition channex_router : list endpoint :=
  [Endpoint "POST" [Lit "channex"; Lit "validate-key"] [RequireJwtUser; RequireRoles ["owner"; "manager"]; RequireScopes [CHANNEX_WRITE]] "validate_channex_key";
   Endpoint "POST" [Lit "channex"; Lit "create-property"] [RequireJwtUser; RequireRoles ["owner"; "manager"]; RequireScopes [CHANNEX_WRITE]] "create_channex_property_endpoint";
   Endpoint "POST" [Lit "channex"; Lit "provision-from-openpms"] [RequireJwtUser; RequireRoles ["owner"; "manager"]; RequireScopes [CHANNEX_WRITE]] "provision_channex_from_openpms_endpoint";
   Endpoint "POST" [Lit "channex"; Lit "connect"] [RequireJwtUser; RequireRoles ["owner"; "manager"]; RequireScopes [CHANNEX_WRITE]] "connect_channex";
   Endpoint "GET" [Lit "channex"; Lit "status"] [RequireJwtUser; RequireRoles ["owner"; "manager"]; RequireScopes [CHANNEX_READ]] "channex_status";
   Endpoint "GET" [Lit "channex"; Lit "revisions"; Lit "failed"] [RequireJwtUser; RequireRoles ["owner"; "manager"]; RequireScopes [CHANNEX_READ]] "list_failed_channex_revisions";
   Endpoint "POST" [Lit "channex"; Lit "revisions"; Param; Lit "retry"] [RequireJwtUser; RequireRoles ["owner"; "manager"]; RequireScopes [CHANNEX_WRITE]] "retry_failed_channex_revision";
   Endpoint "GET" [Lit "channex"; Lit "channex-rooms"] [RequireJwtUser; RequireRoles ["owner"; "manager"]; RequireScopes [CHANNEX_READ]] "channex_rooms";
   Endpoint "GET" [Lit "channex"; Lit "channex-rates"] [RequireJwtUser; RequireRoles ["owner"; "manager"]; RequireScopes [CHANNEX_READ]] "channex_rates";
   Endpoint "POST" [Lit "channex"; Lit "map-rooms"] [RequireJwtUser; RequireRoles ["owner"; "manager"]; RequireScopes [CHANNEX_WRITE]] "map_channex_rooms";
   Endpoint "POST" [Lit "channex"; Lit "map-rates"] [RequireJwtUser; RequireRoles ["owner"; "manager"]; RequireScopes [CHANNEX_WRITE]] "map_channex_rates";
   Endpoint "POST" [Lit "channex"; Lit "activate"] [RequireJwtUser; RequireRoles ["owner"; "manager"]; RequireScopes [CHANNEX_WRITE]] "activate_channex";
   Endpoint "POST" [Lit "channex"; Lit "sync"] [RequireJwtUser; RequireRoles ["owner"; "manager"]; RequireScopes [CHANNEX_WRITE]] "sync_channex";
   Endpoint "POST" [Lit "channex"; Lit "disconnect"] [RequireJwtUser; RequireRoles ["owner"; "manager"]; RequireScopes [CHANNEX_WRITE]] "disconnect_channex"]%string.

Definition audit_log_router : list endpoint :=
  [Endpoint "GET" [Lit "audit-log"] [RequireJwtUser; RequireRoles ["owner"; "manager"]] "get_audit_log"]%string.

Definition stripe_connect_router : list endpoint :=
  [Endpoint "GET" [Lit "properties"; Param; Lit "stripe"; Lit "status"] [RequireRoles ["owner"; "manager"; "viewer"; "receptionist"]; RequireScopes [PROPERTIES_READ]] "get_property_stripe_status";
   Endpoint "GET" [Lit "properties"; Param; Lit "stripe"; Lit "connect-url"] [RequireRoles ["owner"]; RequireScopes [PROPERTIES_WRITE]] "get_property_stripe_connect_url";
   Endpoint "DELETE" [Lit "properties"; Param; Lit "stripe"; Lit "disconnect"] [RequireRoles ["owner"]; RequireScopes [PROPERTIES_WRITE]] "delete_property_stripe_connection";
   Endpoint "GET" [Lit "stripe"; Lit "oauth"; Lit "callback"] [] "stripe_oauth_callback";
   Endpoint "POST" [Lit "stripe"; Lit "oauth"; Lit "callback"] [] "stripe_oauth_callback"]%string.

Definition stripe_payments_router : list endpoint :=
  [Endpoint "POST" [Lit "properties"; Param; Lit "stripe"; Lit "payment-methods"] [RequireRoles ["owner"; "manager"]; RequireScopes [PROPERTIES_WRITE]] "post_stripe_payment_method";
   Endpoint "GET" [Lit "properties"; Param; Lit "stripe"; Lit "payment-methods"] [RequireRoles ["owner"; "manager"]; RequireScopes [PROPERTIES_READ]] "get_stripe_payment_methods";
   Endpoint "DELETE" [Lit "stripe"; Lit "payment-methods"; Param] [RequireRoles ["owner"; "manager"]; RequireScopes [PROPERTIES_WRITE]] "delete_stripe_payment_method_route";
   Endpoint "POST" [Lit "bookings"; Param; Lit "stripe"; Lit "charge"] [RequireRoles ["owner"; "manager"]; RequireScopes [BOOKINGS_WRITE]] "post_booking_stripe_charge";
   Endpoint "POST" [Lit "bookings"; Param; Lit "stripe"; Lit "refund"] [RequireRoles ["owner"]; RequireScopes [BOOKINGS_WRITE]] "post_booking_stripe_refund";
   Endpoint "GET" [Lit "bookings"; Param; Lit "stripe"; Lit "charges"] [RequireRoles ["owner"; "manager"]; RequireScopes [BOOKINGS_READ]] "get_booking_stripe_charges"]%string.

(** The [add_api_route] calls of [create_app]. *)
Definition system_router : list endpoint :=
  [Endpoint "GET" [Lit "health"] [] "_health_check";
   Endpoint "GET" [Lit "health"; Lit "deep"] [] "_health_deep";
   Endpoint "GET" [Lit "developer"] [] "developer_portal"]%string.

(** [include_router] and [add_api_route], in order; the documentation pages
    FastAPI adds by itself are not among them. *)
Definition api : list endpoint :=
  auth_router ++ properties_router ++ reports_router ++ country_packs_router ++ room_types_router ++ assignable_stay_router ++ unpaid_folio_summary_router ++ inventory_router ++ rate_plans_router ++ nightly_rates_router ++ bookings_router ++ folio_categories_router ++ rooms_router ++ guests_router ++ dashboard_router ++ housekeeping_router ++ api_keys_router ++ webhooks_router ++ channex_inbound_router ++ stripe_inbound_router ++ channex_router ++ audit_log_router ++ stripe_connect_router ++ stripe_payments_router ++ system_router.

(** ** Dispatch *)

(** The segments of a path that starts with a slash. *)
Fixpoint split_on (c : ascii) (s : string) : list string :=
  match s with
  | EmptyString => [EmptyString]
  | String x s' =>
      if Ascii.eqb x c then EmptyString :: split_on c s'
      else match split_on c s' with
           | h :: t => String x h :: t
           | [] => [String x EmptyString]
           end
  end.

Definition path_segments (path : string) : option (list string) :=
  match path with String "/" p => Some (split_on "/" p) | _ => None end.

(** A parameter takes one segment, not empty. *)
Definition segment_matches (t : segment) (s : string) : bool :=
  match t with Param => truthy s | Lit l => String.eqb l s end.

Fixpoint template_matches (ts : list segment) (ss : list string) : bool :=
  match ts, ss with
  | [], [] => true
  | t :: ts', s :: ss' => segment_matches t s && template_matches ts' ss'
  | _, _ => false
  end.

Definition path_matches (path : string) (ep : endpoint) : bool :=
  match path_segments path with Some ss => template_matches (ep_path ep) ss | None => false end.

Definition endpoint_matches (r : http_request) (ep : endpoint) : bool :=
  String.eqb (ep_method ep) (rq_method r) && path_matches (rq_path r) ep.

(** The router of the web framework: it hands a request to the first endpoint,
    in the order of registration, of its method and path, and answers 404 or
    405 when there is none. *)
Class Router := {
  dispatch : list endpoint -> http_request -> result endpoint;
  dispatch_first : forall endpoints r ep,
    dispatch endpoints r = Ok ep <-> List.find (endpoint_matches r) endpoints = Some ep }.

Section routes.
Context {env : Env} {crypto : Crypto} {tokens : Tokens} {router : Router} (settings : jwt_settings).

(** A request on its way to a handler: the middleware, the route, the
    security dependencies. *)
Definition enter (r : http_request) : M (endpoint * auth_state) :=
  st ← tenant_jwt_middleware settings r;
  ep ← lift (dispatch api r);
  _ ← lift (chain_dependency_runners (ep_guards ep) st);
  mret (ep, st).

End routes.
