(* ===== verification/AccessLaws.v ===== *)
(** * Laws of access control

    A request reaches a guarded handler only when a token or a live API key
    vouches for it and every guard accepts it; keys reach what their scopes
    name; viewers read; every endpoint can be reached.  The life of an API
    key, and three things tokens and keys do that the code does not mean. *)

From stdpp Require Import gmap strings.
From S2P Require Import Prelude PyJson StayDates Calendar Models Session Rates Folio FolioLaws Auth Access Routes.

(** A question about every endpoint of the API is settled by computation. *)
Lemma api_check (p : endpoint -> bool) ep : forallb p api = true -> In ep api -> p ep = true.
Proof. intros H. by apply forallb_forall. Qed.

Lemma find_endpoint {router : Router} r ep :
  dispatch api r = Ok ep -> In ep api /\ ep_method ep = rq_method r /\ path_matches (rq_path r) ep = true.
Proof. intros E%dispatch_first. apply find_some in E as [Hin Hm]. by apply andb_prop in Hm as [Hm%String.eqb_eq Hp]. Qed.

(** ** Reaching an endpoint

    The path of an endpoint with a text for its parameters. *)

Definition instance (v : string) (ts : list segment) : list string :=
  List.map (fun t => match t with Param => v | Lit l => l end) ts.

Definition path_of (segments : list string) : string := String "/" (py_join "/" segments).

(** Whether a template takes the instance of another, when the text is no
    segment of the API. *)
Fixpoint takes (ts us : list segment) : bool :=
  match ts, us with
  | [], [] => true
  | Param :: ts', _ :: us' => takes ts' us'
  | Lit l :: ts', Lit l' :: us' => String.eqb l l' && takes ts' us'
  | _, _ => false
  end.

Definition literals (ts : list segment) : list string :=
  List.concat (List.map (fun t => match t with Param => [] | Lit l => [l] end) ts).

Definition plain (s : string) : bool := truthy s && negb (has_char "/" s).

Lemma split_plain s : has_char "/" s = false -> split_on "/" s = [s].
Proof.
  induction s as [|c s IH]; [done|]. unfold has_char. cbn [list_ascii_of_string existsb]. intros [Hc Hs]%orb_false_elim.
  cbn [split_on]. rewrite Ascii.eqb_sym in Hc. rewrite Hc, (IH Hs). done.
Qed.

Lemma split_join x s : has_char "/" x = false -> split_on "/" (x ++ String "/" s)%string = x :: split_on "/" s.
Proof.
  induction x as [|c x IH]; [done|]. unfold has_char. cbn [list_ascii_of_string existsb]. intros [Hc Hx]%orb_false_elim.
  rewrite Ascii.eqb_sym in Hc. change ((String c x ++ String "/" s)%string) with (String c (x ++ String "/" s)%string).
  cbn [split_on]. by rewrite Hc, (IH Hx).
Qed.

Lemma path_segments_of l : l <> [] -> forallb plain l = true -> path_segments (path_of l) = Some l.
Proof.
  intros Hne Hl. unfold path_of. cbn [path_segments]. f_equal. unfold py_join.
  induction l as [|x l IH]; [done|]. cbn [forallb] in Hl. apply andb_prop in Hl as [Hx Hl].
  apply andb_prop in Hx as [_ Hx%negb_true_iff]. destruct l as [|y l].
  - by apply split_plain.
  - change (String.concat "/" (x :: y :: l)) with (x ++ String "/" (String.concat "/" (y :: l)))%string.
    rewrite split_join by done. f_equal. by apply IH.
Qed.

Lemma takes_instance v ts us :
  ~ In v (literals ts) -> forallb plain (instance v us) = true -> template_matches ts (instance v us) = takes ts us.
Proof.
  revert us. induction ts as [|t ts IH]; intros us Hv Hp; [by destruct us|].
  destruct us as [|u us]; [by destruct t|]. cbn [instance List.map forallb template_matches] in *. apply andb_prop in Hp as [Hx Hp].
  apply andb_prop in Hx as [Ht _]. cbn [literals List.map List.concat] in Hv.
  assert (Hv' : ~ In v (literals ts)) by (intros Hin; apply Hv; apply in_or_app; by right).
  fold (instance v us) in *. rewrite (IH us Hv' Hp). destruct t as [|l], u as [|l']; cbn [segment_matches takes]; rewrite ?Ht; try done.
  destruct (String.eqb_spec l v) as [->|]; [|done]. exfalso. apply Hv. by left.
Qed.

Lemma lookup_of_In {A} (l : list A) x : In x l -> exists n, l !! n = Some x.
Proof. intros H%list_elem_of_In. by apply list_elem_of_lookup. Qed.

Lemma In_of_lookup {A} (l : list A) n x : l !! n = Some x -> In x l.
Proof. intros H. by eapply list_elem_of_In, list_elem_of_lookup_2. Qed.

Lemma find_index {A} (p : A -> bool) l n x :
  l !! n = Some x -> p x = true -> (forall i y, (i < n)%nat -> l !! i = Some y -> p y = false) -> List.find p l = Some x.
Proof.
  revert n. induction l as [|y l IH]; intros n Hn Hx Hb; [done|]. cbn. destruct n as [|n].
  - injection Hn as ->. by rewrite Hx.
  - rewrite (Hb 0%nat y) by (done || lia). apply (IH n); [done|done|]. intros i z Hi. apply (Hb (S i)). lia.
Qed.

(** No endpoint before another one takes its requests. *)
Definition unshadowed : bool :=
  forallb (fun n => match api !! n with
    | Some ep => forallb (fun e => negb (String.eqb (ep_method e) (ep_method ep) && takes (ep_path e) (ep_path ep))) (List.firstn n api)
    | None => true
    end) (List.seq 0 (length api)).

(** Whatever text, without a slash and not a fixed
    segment of the API, stands for the parameters of an endpoint's path, a request for
    that path with the endpoint's method is dispatched to this endpoint and
    no other, although routes such as /bookings/{id} overlap the fixed ones. *)
Theorem every_endpoint_reachable {router : Router} ep v auth key :
  In ep api -> plain v = true -> (forall e, In e api -> ~ In v (literals (ep_path e))) ->
  dispatch api (HttpRequest (ep_method ep) (path_of (instance v (ep_path ep))) auth key) = Ok ep.
Proof.
  intros Hin Hv Hl. destruct (lookup_of_In _ _ Hin) as [n Hn].
  assert (Hp : forallb plain (instance v (ep_path ep)) = true).
  { pose proof (api_check (fun ep => forallb (fun t => match t with Param => true | Lit l => plain l end) (ep_path ep)) ep eq_refl Hin) as C.
    cbn beta in C. rewrite forallb_forall in C. apply forallb_forall. intros x (t & <- & Ht)%in_map_iff. specialize (C t Ht).
    by destruct t. }
  assert (Hne : instance v (ep_path ep) <> []).
  { pose proof (api_check (fun ep => match ep_path ep with [] => false | _ => true end) ep eq_refl Hin) as C.
    cbn beta in C. intros E. by destruct (ep_path ep). }
  assert (Hm : forall e, In e api -> path_matches (path_of (instance v (ep_path ep))) e = takes (ep_path e) (ep_path ep)).
  { intros e He. unfold path_matches. rewrite path_segments_of by done. apply takes_instance; auto. }
  apply dispatch_first. apply (find_index _ _ n ep); [done| |].
  - unfold endpoint_matches. cbn [rq_method rq_path]. rewrite String.eqb_refl, Hm by done. cbn [andb].
    pose proof (api_check (fun e => takes (ep_path e) (ep_path e)) ep eq_refl Hin) as C. exact C.
  - intros i e Hi He. unfold endpoint_matches. cbn [rq_method rq_path].
    assert (Hein : In e api) by (by eapply In_of_lookup). rewrite Hm by done.
    assert (C : unshadowed = true) by (vm_compute; reflexivity). unfold unshadowed in C. rewrite forallb_forall in C.
    specialize (C n). rewrite Hn in C. rewrite forallb_forall in C.
    assert (Hi2 : In n (List.seq 0 (length api))) by (apply in_seq; apply lookup_lt_Some in Hn; lia).
    specialize (C Hi2 e). apply negb_true_iff. apply C. apply In_of_lookup with i. by rewrite lookup_take_lt.
Qed.

Section laws.
Context {env : Env} {crypto : Crypto} {tokens : Tokens} {router : Router} (settings : jwt_settings).

(** ** Who vouches for a request *)

Inductive vouched (t : Z) (d : DB) (r : http_request) : auth_state -> Prop :=
  | by_token token payload st :
      bearer_token r = Some token -> decode_access_token settings t token = Some payload ->
      state_of_payload payload = Ok st -> vouched t d r st
  | by_key raw k :
      rq_api_key r = Some raw -> In k (api_keys d) -> live_key t (hash_api_key (strip raw)) k = true ->
      vouched t d r (AuthState (Some (ak_tenant k)) ApiKeyAuth None None (Some (ak_id k)) (normal_scopes (ak_scopes k))).

Lemma state_of_payload_inv p st :
  state_of_payload p = Ok st -> as_source st = Jwt /\ as_tenant st = claim p "tenant_id" /\ is_Some (as_tenant st).
Proof.
  unfold state_of_payload. destruct (claim p "tenant_id") as [t|]; [|done]. intros H. apply bind_Ok in H as (u & _ & H).
  injection H as <-. by split_and!; [| |eexists].
Qed.

Lemma vouched_tenant t d r st : vouched t d r st -> is_Some (as_tenant st).
Proof. intros [token payload st' _ _ H|raw k _ _ _]; [by apply state_of_payload_inv in H as (_ & _ & ?)|by eexists]. Qed.

Lemma authenticate_jwt_inv t r o :
  authenticate_jwt settings t r = Ok o ->
  match o with
  | Some st => exists token payload, bearer_token r = Some token /\ decode_access_token settings t token = Some payload /\ state_of_payload payload = Ok st
  | None => True
  end.
Proof.
  unfold authenticate_jwt. destruct (bearer_token r) as [token|]; [|by intros [= <-]].
  destruct (truthy token); cbn [negb]; [|by intros [= <-]].
  destruct (decode_access_token settings t token) as [p|] eqn:Ed; [|done]. intros H. apply bind_Ok in H as (st & H1 & [= <-]). eauto.
Qed.

Lemma authenticate_api_key_inv r s s' o :
  authenticate_api_key r s = (s', o) ->
  s' = s /\ match o with
            | Ok (Some st) => exists raw k, rq_api_key r = Some raw /\ In k (api_keys (disk s)) /\ live_key (now s) (hash_api_key (strip raw)) k = true /\
                st = AuthState (Some (ak_tenant k)) ApiKeyAuth None None (Some (ak_id k)) (normal_scopes (ak_scopes k))
            | Ok None => True
            | Err e => e = ValueError "unknown_key"
            end.
Proof.
  unfold authenticate_api_key. destruct (rq_api_key r) as [raw|]; [|by intros [= <- <-]].
  destruct (truthy (strip raw)); cbn [negb]; [|by intros [= <- <-]]. mrun.
  destruct (List.find _ (api_keys (disk s))) as [k|] eqn:E; intros [= <- <-]; [|done].
  apply find_some in E as [? ?]. split; [done|]. by exists raw, k.
Qed.

Lemma middleware_inv r s s' st :
  tenant_jwt_middleware settings r s = (s', Ok st) ->
  s' = s /\ (vouched (now s) (disk s) r st \/ st = no_auth /\ (rq_method r = "OPTIONS"%string \/ is_auth_exempt_path (rq_path r) = true)).
Proof.
  unfold tenant_jwt_middleware. destruct (String.eqb_spec (rq_method r) "OPTIONS") as [Ho|_].
  { intros [= <- <-]. auto. }
  destruct (is_auth_exempt_path (rq_path r)) eqn:Hx. { intros [= <- <-]. auto. }
  destruct (match rq_authorization r with Some h => _ | None => _ end).
  - mrun. destruct (authenticate_jwt settings (now s) r) as [[st'|]|e] eqn:E; [|done|by destruct e].
    intros [= <- <-]. apply authenticate_jwt_inv in E as (token & p & ? & ? & ?). split; [done|]. left. by eapply by_token.
  - intros H. apply bind_inv in H as (s1 & o & H & H2). unfold try_except in H.
    destruct (authenticate_api_key r s) as [s2 [o2|e]] eqn:E; apply authenticate_api_key_inv in E as [-> E]; [|by subst e].
    injection H as <- <-. destruct o2 as [st'|]; [|done]. injection H2 as <- <-. destruct E as (raw & k & ? & ? & ? & ->).
    split; [done|]. left. by eapply by_key.
Qed.

(** ** Paths without authentication *)

Lemma prefix_String a p s :
  String.prefix (String a p) s = true -> exists s', s = String a s' /\ String.prefix p s' = true.
Proof. destruct s as [|c s]; [done|]. cbn [String.prefix]. destruct (ascii_dec a c) as [<-|]; [eauto|done]. Qed.

Lemma prefix_split p s :
  String.prefix (String "/" (p ++ "/")%string) s = true -> has_char "/" p = false ->
  exists rest, path_segments s = Some (p :: rest).
Proof.
  intros H Hp. apply prefix_String in H as (s' & -> & H). cbn [path_segments]. revert s' H.
  induction p as [|x p IH]; intros s H.
  - apply (prefix_String "/" EmptyString) in H as (s' & -> & _). cbn. eauto.
  - unfold has_char in Hp. cbn [list_ascii_of_string existsb] in Hp. apply orb_false_elim in Hp as [Hx Hp].
    change (has_char "/" p = false) in Hp. rewrite Ascii.eqb_sym in Hx. apply (prefix_String x) in H as (s' & -> & H).
    destruct (IH Hp s' H) as [rest E]. injection E as E.
    exists rest. cbn [split_on]. by rewrite Hx, E.
Qed.

Lemma open_path_unguarded p ep :
  is_auth_exempt_path p = true -> In ep api -> path_matches p ep = true -> ep_guards ep = [].
Proof.
  intros H Hin Hm. unfold is_auth_exempt_path in H. apply orb_prop in H as [H|H]; [apply orb_prop in H as [H|H]|].
  - apply str_in_spec in H.
    assert (C : forallb (fun p => forallb (fun ep => negb (path_matches p ep) || match ep_guards ep with [] => true | _ => false end) api) EXEMPT_PATHS = true)
      by (vm_compute; reflexivity).
    rewrite forallb_forall in C. specialize (C p H). cbn beta in C. rewrite forallb_forall in C. specialize (C ep Hin). cbn beta in C.
    rewrite Hm in C. by destruct (ep_guards ep).
  - apply (prefix_split "docs") in H as [rest E]; [|done]. unfold path_matches in Hm. rewrite E in Hm.
    pose proof (api_check (fun ep => match ep_path ep with Lit l :: _ => negb (String.eqb l "docs") | _ => false end) ep eq_refl Hin) as C.
    cbn beta in C. destruct (ep_path ep) as [|[|l] ts]; [done|done|]. cbn in Hm. by destruct (String.eqb l "docs").
  - apply (prefix_split "redoc") in H as [rest E]; [|done]. unfold path_matches in Hm. rewrite E in Hm.
    pose proof (api_check (fun ep => match ep_path ep with Lit l :: _ => negb (String.eqb l "redoc") | _ => false end) ep eq_refl Hin) as C.
    cbn beta in C. destruct (ep_path ep) as [|[|l] ts]; [done|done|]. cbn in Hm. by destruct (String.eqb l "redoc").
Qed.

Lemma no_options_endpoint ep : In ep api -> ep_method ep <> "OPTIONS"%string.
Proof.
  intros Hin E. pose proof (api_check (fun ep => negb (String.eqb (ep_method ep) "OPTIONS")) ep eq_refl Hin) as C.
  cbn beta in C. by rewrite E in C.
Qed.

(** ** Guards *)

Lemma chain_inv (gs : list guard) st u :
  chain_dependency_runners gs st = Ok u -> Forall (fun g => run_guard g st = Ok tt) gs.
Proof.
  unfold chain_dependency_runners. generalize tt at 1. induction gs as [|g gs IH]; intros v H; [constructor|].
  cbn in H. apply bind_Ok in H as ([] & Hg & H). constructor; [done|by eapply IH].
Qed.

Lemma enter_inv r s s' ep st :
  enter settings r s = (s', Ok (ep, st)) ->
  s' = s /\ In ep api /\ ep_method ep = rq_method r /\ path_matches (rq_path r) ep = true /\
  Forall (fun g => run_guard g st = Ok tt) (ep_guards ep) /\
  (ep_guards ep = [] \/ vouched (now s) (disk s) r st).
Proof.
  unfold enter. intros H. apply bind_inv in H as (s1 & st' & H1 & H). apply middleware_inv in H1 as [-> Hv].
  destruct (dispatch api r) as [ep'|] eqn:Ed; [|done]. rewrite run_lift_ok in H.
  destruct (chain_dependency_runners (ep_guards ep') st') as [u|] eqn:Ec; [|done]. rewrite run_lift_ok in H.
  injection H as <- <- <-. apply find_endpoint in Ed as (Hin & Hmeth & Hm). apply chain_inv in Ec.
  split_and!; try done. destruct Hv as [Hv|[-> [Ho|Hx]]]; [by right| |].
  - exfalso. eapply no_options_endpoint; [exact Hin|congruence].
  - left. by eapply open_path_unguarded.
Qed.

(** C29: A request that reaches a handler with security dependencies
    carries a bearer token of the API's key for the tenant it acts for, or an
    API key of that tenant that is active and not expired, and passes every
    one of the dependencies; authentication changes nothing. *)
Theorem admitted_is_authorized r s s' ep st :
  enter settings r s = (s', Ok (ep, st)) ->
  s' = s /\ In ep api /\ endpoint_matches r ep = true /\
  (ep_guards ep <> [] -> vouched (now s) (disk s) r st /\ is_Some (as_tenant st)) /\
  forall g, In g (ep_guards ep) -> run_guard g st = Ok tt.
Proof.
  intros H. apply enter_inv in H as (-> & Hin & Hm & Hp & Hg & Hv). split_and!; try done.
  - unfold endpoint_matches. by rewrite Hm, String.eqb_refl, Hp.
  - intros Hne. destruct Hv as [|Hv]; [done|]. split; [done|]. by eapply vouched_tenant.
  - intros g. rewrite List.Forall_forall in Hg. by apply Hg.
Qed.

(** ** What keys and roles reach *)

Definition write_scope (s : string) : bool := String.eqb (String.substring (String.length s - 6) 6 s) ":write".

(** The scopes an endpoint asks of a key. *)
Definition ep_scopes (ep : endpoint) : list string :=
  List.concat (List.map (fun g => match g with RequireScopes l => l | _ => [] end) (ep_guards ep)).

Definition users_only (g : guard) : bool :=
  match g with RequireJwtUser | RequireUser | RequireUserToken => true | _ => false end.

Lemma users_only_refuses g st :
  users_only g = true -> as_source st = ApiKeyAuth -> as_user st = None -> run_guard g st <> Ok tt.
Proof.
  intros Hg Hs Hu. destruct g; try done; cbn; unfold get_jwt_only_user_id, require_jwt_user, get_user_id; rewrite ?Hs, ?Hu;
    rewrite ?bool_decide_false by done; done.
Qed.

Lemma scopes_granted l st :
  require_scopes l st = Ok tt -> as_source st = ApiKeyAuth -> as_scopes st = normal_scopes (as_scopes st) ->
  forall n, In n l -> In "*"%string (as_scopes st) \/ In (lower n) (as_scopes st).
Proof.
  unfold require_scopes. intros H Hs Hn n Hin. rewrite Hs, bool_decide_true in H by done. cbn [negb] in H. rewrite <- Hn in H.
  destruct l as [|x l]; [done|]. destruct (str_in "*" (as_scopes st)) eqn:E; [left; by apply str_in_spec|].
  destruct (forallb _ _) eqn:Ef; [|done]. right. rewrite forallb_forall in Ef. apply str_in_spec. apply Ef. by apply in_map.
Qed.

Lemma normal_scopes_idem l : normal_scopes (normal_scopes l) = normal_scopes l.
Proof.
  unfold normal_scopes. induction l as [|s l IH]; [done|]. cbn [List.filter]. destruct (truthy (strip s)) eqn:E; [|done].
  cbn [List.map List.filter]. rewrite strip_lower, strip_idem.
  assert (Hl : truthy (lower (strip s)) = true) by (by destruct (strip s)). rewrite Hl. cbn [List.map].
  by rewrite strip_lower, strip_idem, lower_idem, IH.
Qed.

(** C30: An API key reaches a guarded endpoint only when the endpoint
    admits keys and names one scope that the key was given (or the key has
    the scope that stands for all); the scope of an endpoint that is not a GET is
    a write scope. *)
Theorem keys_reach_their_scopes r s s' ep st :
  enter settings r s = (s', Ok (ep, st)) -> ep_guards ep <> [] -> as_source st = ApiKeyAuth ->
  exists k scope,
    In k (api_keys (disk s)) /\ as_tenant st = Some (ak_tenant k) /\ existsb users_only (ep_guards ep) = false /\
    ep_scopes ep = [scope] /\ (ep_method ep <> "GET"%string -> write_scope scope = true) /\
    (In scope (normal_scopes (ak_scopes k)) \/ In "*"%string (normal_scopes (ak_scopes k))).
Proof.
  intros H Hne Hs. apply enter_inv in H as (_ & Hin & _ & _ & Hg & Hv). destruct Hv as [|Hv]; [done|].
  rewrite List.Forall_forall in Hg.
  destruct Hv as [token p st Hb Hd Hp|raw k Hk Hkin Hlive].
  { apply state_of_payload_inv in Hp as [Hp _]. congruence. }
  assert (Hu : existsb users_only (ep_guards ep) = false).
  { destruct (existsb users_only (ep_guards ep)) eqn:E; [|done]. apply existsb_exists in E as (g & Hgin & Hgu).
    exfalso. eapply (users_only_refuses g); [done|done|reflexivity|by apply Hg]. }
  pose proof (api_check (fun ep => match ep_guards ep with [] => true | _ =>
      existsb users_only (ep_guards ep) ||
      match ep_scopes ep with
      | [scope] => String.eqb (lower scope) scope && existsb (fun g => match g with RequireScopes [s] => String.eqb s scope | _ => false end) (ep_guards ep) &&
          (String.eqb (ep_method ep) "GET" || write_scope scope)
      | _ => false
      end end) ep eq_refl Hin) as C.
  cbn beta in C. rewrite Hu in C. destruct (ep_guards ep) as [|g0 gs] eqn:Eg; [done|]. rewrite <- Eg in *. cbn [orb] in C.
  destruct (ep_scopes ep) as [|scope [|]] eqn:Es; try done.
  apply andb_prop in C as [C Cm]. apply andb_prop in C as [Cl%String.eqb_eq Ce].
  apply existsb_exists in Ce as ([| |[|sc [|]]| | |] & Hgin & Hgs); try done. apply String.eqb_eq in Hgs as ->.
  exists k, scope. split_and!; try done.
  - intros Hget. apply orb_prop in Cm as [Cm%String.eqb_eq|Cm]; done.
  - apply Hg in Hgin. cbn [run_guard] in Hgin. destruct (scopes_granted _ _ Hgin Hs) with (n := scope) as [E|E]; cbn [as_scopes].
    + by rewrite normal_scopes_idem.
    + by left.
    + by right.
    + left. by rewrite <- Cl.
Qed.

(** A user whose role is viewer reaches, beside the endpoints open
    to everybody, only GETs and the change of the own password. *)
Theorem viewers_only_read r s s' ep st :
  enter settings r s = (s', Ok (ep, st)) -> ep_guards ep <> [] -> as_source st = Jwt -> as_role st = Some "viewer"%string ->
  ep_method ep = "GET"%string \/ ep_handler ep = "post_change_password"%string.
Proof.
  intros H Hne Hs Hr. apply enter_inv in H as (_ & Hin & _ & _ & Hg & _).
  rewrite List.Forall_forall in Hg.
  pose proof (api_check (fun ep => match ep_guards ep with [] => true | _ =>
     String.eqb (ep_method ep) "GET" || String.eqb (ep_handler ep) "post_change_password" ||
     existsb (fun g => match g with RequireRoles l => negb (str_in "viewer" (List.map lower l)) | _ => false end) (ep_guards ep) end) ep eq_refl Hin) as C.
  cbn beta in C. destruct (ep_guards ep) as [|g0 gs] eqn:Eg; [done|]. rewrite <- Eg in *.
  apply orb_prop in C as [C|C]; [apply orb_prop in C as [C%String.eqb_eq|C%String.eqb_eq]; auto|]. exfalso.
  apply existsb_exists in C as ([|l| | | |] & Hgin & Hl); try done. apply Hg in Hgin. cbn in Hgin.
  unfold require_roles in Hgin. rewrite Hs, Hr in Hgin. rewrite bool_decide_true in Hgin by done. cbn [negb] in Hgin.
  change (lower (strip "viewer")) with "viewer"%string in Hgin. apply negb_true_iff in Hl. rewrite Hl in Hgin. by rewrite andb_false_r in Hgin.
Qed.

(** ** The life of an API key *)

Lemma drop_spaces_none l : forallb (fun c => negb (is_space c)) l = true -> drop_spaces l = l.
Proof. destruct l as [|c l]; [done|]. cbn. by destruct (is_space c). Qed.

Lemma strip_blankless s : (forall c, has_char c s = true -> is_space c = false) -> strip s = s.
Proof.
  intros H. assert (Hl : forallb (fun c => negb (is_space c)) (list_ascii_of_string s) = true).
  { apply forallb_forall. intros c Hc. rewrite H; [done|]. apply existsb_exists. exists c. by rewrite Ascii.eqb_refl. }
  unfold strip. rewrite (drop_spaces_none _ Hl), drop_spaces_none, rev_involutive; [apply string_of_list_ascii_of_string|].
  rewrite forallb_forall in *. intros c Hc%in_rev. by apply Hl.
Qed.

Lemma has_char_app c a b : has_char c (a ++ b)%string = has_char c a || has_char c b.
Proof.
  unfold has_char. induction a as [|x a IH]; [done|]. cbn [list_ascii_of_string existsb String.append].
  by rewrite <- orb_assoc, <- IH.
Qed.

(** A request for a path that needs authentication, with an API key and no token. *)
Definition key_request (r : http_request) (raw : string) : Prop :=
  rq_method r <> "OPTIONS"%string /\ is_auth_exempt_path (rq_path r) = false /\ rq_authorization r = None /\ rq_api_key r = Some raw /\
  truthy (strip raw) = true.

Lemma key_middleware r raw s :
  key_request r raw ->
  tenant_jwt_middleware settings r s =
  match List.find (live_key (now s) (hash_api_key (strip raw))) (api_keys (disk s)) with
  | Some k => (s, Ok (AuthState (Some (ak_tenant k)) ApiKeyAuth None None (Some (ak_id k)) (normal_scopes (ak_scopes k))))
  | None => (s, Err (unauthorized "Invalid API key"))
  end.
Proof.
  intros (Hm & Hx & Ha & Hk & Ht). unfold tenant_jwt_middleware. destruct (String.eqb_spec (rq_method r) "OPTIONS"); [done|].
  rewrite Hx, Ha. unfold mbind at 1, M_bind, try_except, authenticate_api_key. rewrite Hk, Ht. cbn [negb]. mrun.
  by destruct (List.find _ _).
Qed.

Lemma find_snoc {A} (p : A -> bool) l x : (forall y, In y l -> p y = false) -> p x = true -> List.find p (l ++ [x]) = Some x.
Proof.
  induction l as [|y l IH]; intros H Hx; cbn; [by rewrite Hx|]. rewrite (H y) by (by left). apply IH; [|done]. intros z Hz. apply H. by right.
Qed.

Lemma find_live t digest k l :
  List.NoDup (List.map ak_hash l) -> In k l -> live_key t digest k = true -> List.find (live_key t digest) l = Some k.
Proof.
  intros Hnd Hin Hl. destruct (List.find (live_key t digest) l) as [k'|] eqn:E.
  - apply find_some in E as [Hin' Hl']. f_equal. eapply (in_unique_key ak_hash); [done|done|done|].
    unfold live_key in Hl, Hl'. apply andb_prop in Hl as [Hl _], Hl' as [Hl' _]. apply andb_prop in Hl as [Hl%String.eqb_eq _].
    apply andb_prop in Hl' as [Hl'%String.eqb_eq _]. congruence.
  - by rewrite (find_none _ _ E k Hin) in Hl.
Qed.

(** Characters of [secrets.token_urlsafe]. *)
Definition urlsafe : Prop := forall n c, has_char c (token_urlsafe n) = true -> is_space c = false.

(** C33: The key handed out by an accepted creation authenticates
    any later request before its expiry, as the tenant it was made for and with
    the scopes it was made with; creation changes no other key. *)
Theorem created_key_authenticates t name scopes expires_at d tm td u row key d' r tm' td' u' :
  urlsafe ->
  run (create_api_key t name scopes expires_at) tm td u d = (d', Ok (row, key)) ->
  key_request r key -> (forall e, expires_at = Some e -> tm' < e) ->
  tenant_jwt_middleware settings r (start d' tm' td' u') =
    (start d' tm' td' u', Ok (AuthState (Some t) ApiKeyAuth None None (Some (ak_id row)) (normal_scopes scopes))) /\
  api_keys d' = api_keys d ++ [row].
Proof.
  intros Hu H Hr He. unfold run, create_api_key in H. destruct (truthy (strip name)); cbn [negb] in H; [|done].
  destruct (normal_scopes scopes) as [|x l] eqn:Es; [done|]. rewrite <- Es in H.
  unfold generate_api_key_plaintext in H. cbv [mbind M_bind uuid4 query add orm flush mret M_ret raise] in H. cbn in H.
  destruct (existsb _ (api_keys d)) eqn:Ex in H; [done|]. cbn in H. injection H as <- <- <-.
  split; [|done]. erewrite key_middleware by exact Hr. cbn [disk start].
  assert (Hs : strip ("opms_" ++ token_urlsafe u) = ("opms_" ++ token_urlsafe u)%string).
  { apply strip_blankless. intros c Hc. rewrite has_char_app in Hc. apply orb_prop in Hc as [Hc|Hc]; [|by eapply Hu].
    apply existsb_exists in Hc as (c' & Hin & ->%Ascii.eqb_eq). repeat destruct Hin as [<-|Hin]; done. }
  rewrite Hs. cbn [put_api_keys api_keys]. erewrite find_snoc; [cbn [ak_tenant ak_id ak_scopes]; by rewrite normal_scopes_idem, Es| |].
  - intros k Hk. unfold live_key. destruct (String.eqb (ak_hash k) _) eqn:E; [|done].
    assert (existsb (fun k => String.eqb (ak_hash k) (hash_api_key ("opms_" ++ token_urlsafe u)%string)) (api_keys d) = true) by (apply existsb_exists; eauto).
    congruence.
  - unfold live_key. cbn. rewrite String.eqb_refl. destruct expires_at as [e|]; [|done]. cbn. apply Z.ltb_lt. by apply He.
Qed.

(** Once a key is switched off no request with it is
    authenticated. *)
Theorem deactivated_key_refused t i name d tm td u k d' r raw tm' td' u' :
  List.NoDup (List.map ak_hash (api_keys d)) -> List.NoDup (List.map ident (api_keys d)) ->
  run (patch_api_key t i (Some false) name) tm td u d = (d', Ok k) ->
  key_request r raw -> hash_api_key (strip raw) = ak_hash k ->
  tenant_jwt_middleware settings r (start d' tm' td' u') = (start d' tm' td' u', Err (unauthorized "Invalid API key")).
Proof.
  intros Hh Hi H Hr Hk. erewrite key_middleware by exact Hr. cbn [disk start].
  assert (Hd : exists k0, In k0 (api_keys d) /\ ak_hash k0 = ak_hash k /\ ak_active k = false /\
                 api_keys d' = where_id (ident k0) (fun _ => k) (api_keys d)).
  { unfold run in H. destruct (patch_api_key t i (Some false) name (start d tm td u)) as [s [k'|]] eqn:E; [|done]. injection H as <- <-.
    unfold patch_api_key in E. rewrite run_scalar_synced in E by done. cbn [mem start] in E.
    destruct (List.find (key_is t i) (table d)) as [k0|] eqn:Ef; [|done]. apply find_some in Ef as [Hin _]. exists k0.
    destruct name as [n|]; [destruct (truthy (strip n)); [|done]|]; cbn in E; injection E as <- <-; by destruct k0. }
  destruct Hd as (k0 & Hin & Hhash & Hoff & ->).
  destruct (List.find _ _) as [k'|] eqn:Ef; [|done]. exfalso. apply find_some in Ef as [Hin' Hl].
  apply where_id_In in Hin' as (y & Hy & ->). unfold live_key in Hl. apply andb_prop in Hl as [Hl _]. apply andb_prop in Hl as [Hl Ha].
  destruct (Z.eqb_spec (ident y) (ident k0)) as [|Hne]; [congruence|]. apply String.eqb_eq in Hl. apply Hne. f_equal.
  eapply (in_unique_key ak_hash); [done|done|done|]. congruence.
Qed.

(** Deleting an API key answers success and deletes
    nothing, because the call is not awaited: the key opens requests as before. *)
Theorem deleted_key_still_authenticates t k d tm td u r raw tm' td' u' :
  List.NoDup (List.map ak_hash (api_keys d)) -> List.NoDup (List.map ident (api_keys d)) ->
  In k (api_keys d) -> ak_tenant k = t ->
  key_request r raw -> live_key tm' (hash_api_key (strip raw)) k = true ->
  run (delete_api_key t (ak_id k)) tm td u d = (d, Ok tt) /\
  tenant_jwt_middleware settings r (start d tm' td' u') =
    (start d tm' td' u', Ok (AuthState (Some t) ApiKeyAuth None None (Some (ak_id k)) (normal_scopes (ak_scopes k)))).
Proof.
  intros Hh Hi Hin <- Hr Hl. split.
  - unfold run, delete_api_key. rewrite run_scalar_synced by done. cbn [mem start].
    destruct (List.find _ _) eqn:E; [done|]. eapply find_none in E; [|exact Hin]. unfold key_is in E. by rewrite !Z.eqb_refl in E.
  - erewrite key_middleware by exact Hr. cbn [disk start now]. by erewrite find_live.
Qed.

(** ** Tokens *)

Lemma substring_full s : String.substring 0 (String.length s) s = s.
Proof. induction s as [|c s IH]; [done|]. cbn. by rewrite IH. Qed.

Lemma bearer_token_of r token : rq_authorization r = Some ("Bearer " ++ token)%string -> bearer_token r = Some (strip token).
Proof.
  intros H. unfold bearer_token. rewrite H, prefix_app. do 2 f_equal.
  transitivity (String.substring 0 (String.length token - 0) token); [done|]. by rewrite Nat.sub_0_r, substring_full.
Qed.

(** What the middleware makes of a bearer token. *)
Lemma bearer_middleware r token s :
  rq_method r <> "OPTIONS"%string -> is_auth_exempt_path (rq_path r) = false ->
  rq_authorization r = Some ("Bearer " ++ token)%string -> strip token = token -> truthy token = true ->
  tenant_jwt_middleware settings r s =
  (s, match decode_access_token settings (now s) token with
      | Some p => match state_of_payload p with Ok st => Ok st | Err _ => Err (unauthorized "Invalid or expired token") end
      | None => Err (unauthorized "Invalid or expired token")
      end).
Proof.
  intros Hm Hx Ha Hs Ht. unfold tenant_jwt_middleware. destruct (String.eqb_spec (rq_method r) "OPTIONS"); [done|].
  rewrite Hx, Ha, prefix_app. mrun. unfold authenticate_jwt. rewrite (bearer_token_of _ _ Ha), Hs, Ht. cbn [negb].
  destruct (decode_access_token _ _ _) as [p|]; [|done].
  assert (Hp : forall e, state_of_payload p = Err e -> exists m, e = ValueError m).
  { unfold state_of_payload. destruct (claim p "tenant_id"); [|intros e [= <-]; eauto].
    destruct (dict_get p "sub") as [[]|]; cbn; try done; destruct (claim p "sub"); cbn; try done; intros e [= <-]; eauto. }
  destruct (state_of_payload p) as [st|e] eqn:E; cbn; [done|]. by destruct (Hp e eq_refl) as [m ->].
Qed.

(** The token of a password-reset link, sent as a bearer
    token, is taken for an access token of its user: the signature, expiry and
    claims are the same and the type is not looked at. *)
Theorem reset_token_opens_session token p t sub uid tm r s :
  jwt_audience settings = None -> jwt_issuer settings = None ->
  decode_password_reset_token tm token = Some p -> claim p "tenant_id" = Some t ->
  dict_get p "sub" = Some (JStr sub) -> uuid_parse sub = Some uid -> dict_get p "role" = None -> now s = tm -> strip token = token -> truthy token = true ->
  rq_method r = "GET"%string -> rq_path r = "/auth/me"%string -> rq_authorization r = Some ("Bearer " ++ token)%string ->
  exists ep, ep_handler ep = "get_me"%string /\
    enter settings r s = (s, Ok (ep, AuthState (Some t) Jwt (Some uid) None None [])).
Proof.
  intros Haud Hiss Hd Ht Hsub Hu Hrole Hnow Hs Htr Hm Hp Ha. unfold decode_password_reset_token in Hd.
  destruct (jwt_decode tm token) as [q|] eqn:Ej; [|done].
  assert (q = p /\ decode_access_token settings tm token = Some p) as [-> Hacc].
  { destruct (dict_get q "typ") as [[]|]; try done. destruct (negb _); [done|].
    destruct (dict_get q "tenant_id") as [v|] eqn:Et; [|done].
    assert (v <> JNull /\ Some q = Some p) as [Hv [= ->]].
    { split; [by intros ->|]. destruct v; try done; by destruct (py_bool _). }
    split; [done|]. unfold decode_access_token. rewrite Haud, Hiss, Ej, Et. by destruct v. }
  exists (Endpoint "GET" [Lit "auth"; Lit "me"] [RequireUserToken] "get_me")%string. split; [done|].
  assert (Hst : state_of_payload p = Ok (AuthState (Some t) Jwt (Some uid) None None [])).
  { unfold state_of_payload. rewrite Ht. unfold claim. rewrite Hsub, Hrole. cbn [py_str]. by rewrite Hu. }
  assert (Hdp : dispatch api r = Ok (Endpoint "GET" [Lit "auth"; Lit "me"] [RequireUserToken] "get_me")%string).
  { apply dispatch_first. destruct r; cbn in *; subst; vm_compute; reflexivity. }
  unfold enter, mbind at 1, M_bind. rewrite (bearer_middleware r token); [|by rewrite Hm|by rewrite Hp|done|done|done].
  rewrite Hnow, Hacc, Hst, Hdp. done.
Qed.

(** Where an audience or an issuer is configured, the API
    refuses every access token it hands out: it checks claims it never
    writes.  (A decoder given an audience or an issuer demands the claim, and
    returns the claims that were encoded.) *)
Theorem configured_audience_locks_out issuing user s0 s1 token r s :
  (jwt_audience settings <> None \/ jwt_issuer settings <> None) ->
  (forall aud iss tm tok p, jwt_decode_for aud iss tm tok = Some p ->
     (aud <> None -> is_Some (dict_get p "aud")) /\ (iss <> None -> is_Some (dict_get p "iss"))) ->
  (forall aud iss tm q p, jwt_decode_for aud iss tm (jwt_encode q) = Some p -> p = q) ->
  issue_access_token issuing user s0 = (s1, Ok token) ->
  rq_method r <> "OPTIONS"%string -> is_auth_exempt_path (rq_path r) = false ->
  rq_authorization r = Some ("Bearer " ++ token)%string -> strip token = token -> truthy token = true ->
  tenant_jwt_middleware settings r s = (s, Err (unauthorized "Invalid or expired token")).
Proof.
  intros Hc Hdec Henc Hi Hm Hx Ha Hs Ht. rewrite (bearer_middleware r token) by done.
  cbv [issue_access_token mbind M_bind get_now mret M_ret] in Hi. injection Hi as _ Hi.
  assert (Hd : decode_access_token settings (now s) token = None); [|by rewrite Hd].
  unfold decode_access_token.
  assert (Hn : forall aud iss, aud = jwt_audience settings -> iss = jwt_issuer settings -> jwt_decode_for aud iss (now s) token = None).
  { intros aud iss -> ->. destruct (jwt_decode_for _ _ _ _) as [p|] eqn:E; [|done]. exfalso. pose proof (Hdec _ _ _ _ _ E) as [H1 H2].
    rewrite <- Hi in E. apply Henc in E as ->. destruct Hc as [Hc|Hc]; [destruct (H1 Hc)|destruct (H2 Hc)]; done. }
  destruct (jwt_audience settings) as [a|] eqn:Ea, (jwt_issuer settings) as [i|] eqn:Ei; [| | |by destruct Hc]; by rewrite Hn.
Qed.

End laws.

(** ** Witnesses *)

(** Three tokens: a viewer's, a reset link and a partner's. *)
#[local] Instance door_crypto : Crypto := {|
  argon2_hash := fun _ p => String "$" p;
  argon2_verify := fun h p => String.eqb h (String "$" p);
  argon2_needs_rehash := fun _ => false;
  sha256_hex := fun s => s;
  token_urlsafe := fun _ => "r"%string;
  jwt_encode := fun _ => "jwt"%string;
  jwt_decode := fun t token =>
    if String.eqb token "jwt" then Some [("tenant_id", JStr "one"); ("sub", JStr "ann"); ("role", JStr "viewer"); ("exp", JInt 5000)]%string
    else if String.eqb token "link" && (t <? 3600) then
      Some [("typ", JStr "password_reset"); ("tenant_id", JStr "one"); ("sub", JStr "ann"); ("pwd_fp", JStr "$old")]%string
    else None;
  uuid_parse := fun s => if String.eqb s "one" then Some 1 else if String.eqb s "ann" then Some 5 else None
|}.

#[local] Instance door_tokens : Tokens :=
  fun _ _ _ token => if String.eqb token "partner" then Some [("tenant_id", JStr "one"); ("aud", JStr "pms"); ("iss", JStr "idp")]%string else None.

#[local, program] Instance first_match : Router := {|
  dispatch := fun endpoints r => of_option (List.find (endpoint_matches r) endpoints) (http_error 404 "Not Found")
|}.
Next Obligation. intros endpoints r ep. cbn beta. destruct (List.find _ _) as [e|]; cbn; split; intros H; by inversion H. Qed.

#[local] Instance door_env : Env := sample_env.

Definition plain_settings : jwt_settings := JwtSettings None None.

Definition till_key : ApiKey := MkApiKey 30 1 "opms_till" "till" ["rates:read"]%string true None.
Definition keys_db : DB := put_api_keys [till_key] empty_db.

Definition with_token (m p token : string) : http_request := HttpRequest m p (Some ("Bearer " ++ token)%string) None.
Definition with_key (m p key : string) : http_request := HttpRequest m p None (Some key).

Lemma admitted_is_authorized_witness :
  exists ep st, In ep api /\ ep_handler ep = "get_rates"%string /\
    vouched plain_settings 100 keys_db (with_token "GET" "/rates" "jwt") st.
Proof.
  assert (H : exists ep st, enter plain_settings (with_token "GET" "/rates" "jwt") (start keys_db 100 0 0) = (start keys_db 100 0 0, Ok (ep, st)) /\
    ep_handler ep = "get_rates"%string) by (do 2 eexists; split; vm_compute; reflexivity).
  destruct H as (ep & st & H & Hh).
  destruct (admitted_is_authorized plain_settings _ _ _ _ _ H) as (_ & Hin & _ & Hv & _). exists ep, st. split_and!; [done|done|].
  apply Hv. destruct (ep_guards ep) eqn:E; [|done]. exfalso.
  pose proof (api_check (fun ep => negb (String.eqb (ep_handler ep) "get_rates") || match ep_guards ep with [] => false | _ => true end) ep eq_refl Hin) as C.
  cbn beta in C. by rewrite Hh, E in C.
Defined.

Lemma keys_reach_their_scopes_witness :
  exists ep scope, ep_scopes ep = [scope] /\ In scope (normal_scopes (ak_scopes till_key)) /\ ep_method ep = "GET"%string.
Proof.
  assert (H : exists ep st, enter plain_settings (with_key "GET" "/rates" " opms_till ") (start keys_db 100 0 0) = (start keys_db 100 0 0, Ok (ep, st)) /\
    ep_method ep = "GET"%string /\ ep_guards ep <> [] /\ as_source st = ApiKeyAuth)
    by (do 2 eexists; split_and!; [vm_compute; reflexivity|reflexivity|done|reflexivity]).
  destruct H as (ep & st & H & Hm & Hg & Hs). exists ep.
  destruct (keys_reach_their_scopes plain_settings _ _ _ _ _ H Hg Hs) as (k & scope & [<-|[]] & _ & _ & Hsc & _ & Hin).
  exists scope. split_and!; try done. destruct Hin as [Hin|[Hin|[]]]; done.
Defined.

Lemma viewers_only_read_witness :
  exists ep st, enter plain_settings (with_token "GET" "/rates" "jwt") (start keys_db 100 0 0) = (start keys_db 100 0 0, Ok (ep, st)) /\
    (ep_method ep = "GET"%string \/ ep_handler ep = "post_change_password"%string).
Proof.
  assert (H : exists ep st, enter plain_settings (with_token "GET" "/rates" "jwt") (start keys_db 100 0 0) = (start keys_db 100 0 0, Ok (ep, st)) /\
    ep_guards ep <> [] /\ as_source st = Jwt /\ as_role st = Some "viewer"%string)
    by (do 2 eexists; split_and!; [vm_compute; reflexivity|done|reflexivity|reflexivity]).
  destruct H as (ep & st & H & Hg & Hs & Hr). exists ep, st. split; [done|].
  exact (viewers_only_read plain_settings _ _ _ _ _ H Hg Hs Hr).
Defined.

Lemma every_endpoint_reachable_witness :
  exists ep, ep_handler ep = "get_booking_by_id"%string /\
    dispatch api (HttpRequest "GET" (path_of (instance "7" (ep_path ep))) None None) = Ok ep.
Proof.
  assert (H : exists ep, List.find (fun ep => String.eqb (ep_handler ep) "get_booking_by_id") api = Some ep /\ ep_method ep = "GET"%string)
    by (eexists; split; vm_compute; reflexivity).
  destruct H as (ep & H & Hm). exists ep. apply find_some in H as [Hin Hh%String.eqb_eq]. split; [done|]. rewrite <- Hm.
  apply (every_endpoint_reachable ep "7" None None Hin eq_refl). intros e He Hl.
  pose proof (api_check (fun e => negb (str_in "7" (literals (ep_path e)))) e eq_refl He) as C. cbn beta in C.
  apply str_in_spec in Hl. by rewrite Hl in C.
Defined.

Lemma created_key_authenticates_witness :
  exists row key d',
    run (create_api_key 1 " shop " ["Rates:Read"]%string (Some 500)) 100 0 40 keys_db = (d', Ok (row, key)) /\
    tenant_jwt_middleware plain_settings (with_key "GET" "/rates" key) (start d' 200 0 60) =
      (start d' 200 0 60, Ok (AuthState (Some 1) ApiKeyAuth None None (Some (ak_id row)) ["rates:read"]%string)).
Proof.
  assert (H : exists row key d', run (create_api_key 1 " shop " ["Rates:Read"]%string (Some 500)) 100 0 40 keys_db = (d', Ok (row, key)) /\
    key = "opms_r"%string) by (do 3 eexists; split; vm_compute; reflexivity).
  destruct H as (row & key & d' & H & ->). exists row, "opms_r"%string, d'. split; [exact H|].
  refine (proj1 (created_key_authenticates plain_settings 1 " shop " ["Rates:Read"]%string (Some 500) keys_db 100 0 40 row _ d' (with_key "GET" "/rates" "opms_r") 200 0 60 _ H _ _)).
  - intros n c Hc. apply existsb_exists in Hc as (c' & [<-|[]] & ->%Ascii.eqb_eq). reflexivity.
  - split_and!; done.
  - by intros e [= <-].
Defined.

Lemma deactivated_key_refused_witness :
  exists d' k, run (patch_api_key 1 30 (Some false) None) 100 0 40 keys_db = (d', Ok k) /\
    tenant_jwt_middleware plain_settings (with_key "GET" "/rates" "opms_till") (start d' 200 0 60) =
      (start d' 200 0 60, Err (unauthorized "Invalid API key")).
Proof.
  assert (H : exists d' k, run (patch_api_key 1 30 (Some false) None) 100 0 40 keys_db = (d', Ok k) /\ ak_hash k = "opms_till"%string)
    by (do 2 eexists; split; vm_compute; reflexivity).
  destruct H as (d' & k & H & Hk). exists d', k. split; [exact H|].
  apply (deactivated_key_refused plain_settings 1 30 None keys_db 100 0 40 k d' _ "opms_till" 200 0 60);
    [repeat constructor; cbn; tauto|repeat constructor; cbn; tauto|exact H|split_and!; done|by rewrite Hk].
Defined.

Lemma deleted_key_still_authenticates_witness :
  tenant_jwt_middleware plain_settings (with_key "GET" "/rates" "opms_till") (start keys_db 200 0 60) =
    (start keys_db 200 0 60, Ok (AuthState (Some 1) ApiKeyAuth None None (Some 30) ["rates:read"]%string)).
Proof.
  apply (deleted_key_still_authenticates plain_settings 1 till_key keys_db 100 0 40 (with_key "GET" "/rates" "opms_till") "opms_till" 200 0 60);
    [repeat constructor; cbn; tauto|repeat constructor; cbn; tauto|by left|done|split_and!; done|done].
Defined.

Lemma reset_token_opens_session_witness :
  exists ep, ep_handler ep = "get_me"%string /\
    enter plain_settings (with_token "GET" "/auth/me" "link") (start keys_db 100 0 0) =
      (start keys_db 100 0 0, Ok (ep, AuthState (Some 1) Jwt (Some 5) None None [])).
Proof.
  apply (reset_token_opens_session plain_settings "link" [("typ", JStr "password_reset"); ("tenant_id", JStr "one"); ("sub", JStr "ann"); ("pwd_fp", JStr "$old")]%string
    1 "ann" 5 100); done.
Defined.

Lemma configured_audience_locks_out_witness :
  exists token, snd (issue_access_token (AuthSettings 600 60) (MkUser 5 1 "ann@example.org" "$old" "Ann" "owner" true) (start keys_db 100 0 0)) = Ok token /\
    tenant_jwt_middleware (JwtSettings (Some "pms"%string) None) (with_token "GET" "/rates" token) (start keys_db 100 0 0) =
      (start keys_db 100 0 0, Err (unauthorized "Invalid or expired token")).
Proof.
  exists "jwt"%string. split; [reflexivity|].
  refine (configured_audience_locks_out (JwtSettings (Some "pms"%string) None) (AuthSettings 600 60)
    (MkUser 5 1 "ann@example.org" "$old" "Ann" "owner" true) (start keys_db 100 0 0) (start keys_db 100 0 0) "jwt" _ _ _ _ _ _ _ _ _ _ _); try done.
  - by left.
  - intros aud iss tm tok p H. unfold jwt_decode_for, door_tokens in H. destruct (String.eqb tok "partner"); [|done].
    injection H as <-. split; intros _; by eexists.
Defined.
