(* ===== verification/Guests.v ===== *)
(** * Guest profiles

    app/services/guest_service.py: the searchable guest list, a guest with the
    stays booked for them, creation, changes and deletion. *)

From S2P Require Import Prelude PyDecimal PyJson StayDates Calendar Models Session Rates Folio Booking.

Definition GuestServiceError (detail : string) (status_code : Z) : exn := ServiceError "GuestServiceError" detail status_code.

(** ** ILIKE *)

(** [text LIKE pattern]: [%] any run of characters, [_] any one, a backslash
    before the character it stands for.  A pattern that ends in a lone
    backslash is not a pattern; none is built here, since they end in [%]. *)
Fixpoint like (p s : list ascii) {struct p} : bool :=
  match p with
  | [] => match s with [] => true | _ => false end
  | "%"%char :: p' =>
      (fix any (s : list ascii) : bool := like p' s || match s with [] => false | _ :: s' => any s' end) s
  | "_"%char :: p' => match s with [] => false | _ :: s' => like p' s' end
  | "\"%char :: c :: p' => match s with [] => false | c' :: s' => Ascii.eqb c c' && like p' s' end
  | c :: p' => match s with [] => false | c' :: s' => Ascii.eqb c c' && like p' s' end
  end.

Definition ilike (text pattern : string) : bool :=
  like (list_ascii_of_string (lower pattern)) (list_ascii_of_string (lower text)).

(** ** Requests *)

Record guest_create := GuestCreate {
  gc_first : string; gc_last : string; gc_email : string; gc_phone : string; gc_passport : option string;
  gc_nationality : option string; gc_birth : option date; gc_notes : option string; gc_vip : bool }.

(** An unset field is [None], a null one [Some None]. *)
Record guest_patch := GuestPatch {
  gt_first : option (option string); gt_last : option (option string); gt_email : option (option string);
  gt_phone : option (option string); gt_passport : option (option string); gt_nationality : option (option string);
  gt_birth : option (option date); gt_notes : option (option string); gt_vip : option (option bool) }.

Record guest_booking_summary := GuestBookingSummary {
  gs_id : Z; gs_property : Z; gs_status : string; gs_source : string; gs_total : Z; gs_stay : option (date * date) }.

Section guests.
Context {env : Env}.

(** ** Reading *)

(** The rows of [list_guests]: all of the tenant, or those a term occurs in. *)
Definition guest_matches (tenant_id : Z) (q : option string) (g : Guest) : bool :=
  (g_tenant g =? tenant_id) &&
  match q with
  | Some q =>
      if truthy (strip q) then
        let term := ("%" ++ strip q ++ "%")%string in
        ilike (g_first g) term || ilike (g_last g) term || ilike (g_email g) term || ilike (g_phone g) term
      else true
  | None => true
  end.

(** [ORDER BY updated_at DESC, last_name ASC] *)
Definition guest_order (a b : Guest) : bool :=
  (g_updated_at b <? g_updated_at a) || ((g_updated_at b =? g_updated_at a) && collate (g_last a) (g_last b)).

Definition list_guests (tenant_id : Z) (q : option string) (limit offset : nat) : M (list Guest * Z) :=
  total ← query (fun d => countb (guest_matches tenant_id q) (guests d));
  rows ← select (guest_matches tenant_id q);
  mret (List.firstn limit (List.skipn offset (order_by guest_order rows)), total).

Definition guest_is (tenant_id guest_id : Z) (g : Guest) : bool := (g_tenant g =? tenant_id) && (g_id g =? guest_id).

Definition get_guest (tenant_id guest_id : Z) : M (option Guest) := scalar (guest_is tenant_id guest_id).

Definition summarize_booking (booking : Booking) (line_dates : list date) : result guest_booking_summary :=
  stay ← match line_dates with [] => Ok None | _ => p ← stay_bounds line_dates; Ok (Some p) end;
  Ok (GuestBookingSummary (b_id booking) (b_property booking) (b_status booking) (b_source booking) (b_total booking) stay).

Definition get_guest_with_booking_summaries (tenant_id guest_id : Z) : M (option Guest * list guest_booking_summary) :=
  guest ← get_guest tenant_id guest_id;
  match guest with
  | None => mret (None, [])
  | Some g =>
      rows ← select (fun b => (b_tenant b =? tenant_id) && (b_guest b =? guest_id));
      d ← query (fun d => d);
      summaries ← lift (mapR (fun b => summarize_booking b (List.map l_date (lines_of d (b_tenant b) (b_id b))))
        (order_by (fun a b => b_id b <=? b_id a) rows));
      mret (Some g, summaries)
  end.

(** ** Writing *)

(** The flush of a guest fails when another guest of the tenant has its
    address ([uq_guests_tenant_email]). *)
Definition flush_guest (tenant_id guest_id : Z) (email : string) : M unit :=
  taken ← query (fun d => existsb (fun g => guest_email_is tenant_id email g && negb (g_id g =? guest_id)) (guests d));
  if (taken : bool) then raise (GuestServiceError "guest with this email already exists" 409) else flush.

Definition create_guest (tenant_id : Z) (body : guest_create) : M Guest :=
  let email_norm := lower (strip (gc_email body)) in
  i ← uuid4; t ← get_now;
  let row := MkGuest i tenant_id (strip (gc_first body)) (strip (gc_last body)) email_norm (strip (gc_phone body))
    (strip_or_none (gc_passport body)) (gc_nationality body) (gc_birth body) (strip_or_none (gc_notes body)) (gc_vip body) t in
  _ ← add row;
  _ ← flush_guest tenant_id i email_norm;
  mret row.

(** [data["x"].strip()] of a field that is set: null has no [strip]. *)
Definition set_text (f : option (option string)) (set : string -> Guest -> Guest) (norm : string -> string) (g : Guest) : result Guest :=
  match f with
  | None => Ok g
  | Some None => Err AttributeOrTypeError
  | Some (Some v) => Ok (set (norm v) g)
  end.

Definition set_field {A} (f : option A) (set : A -> Guest -> Guest) (g : Guest) : Guest :=
  match f with Some v => set v g | None => g end.

(** The assignments of [patch_guest], in order. *)
Definition patched_guest (body : guest_patch) (t : Z) (g : Guest) : result Guest :=
  g ← set_text (gt_first body) set_g_first strip g;
  g ← set_text (gt_last body) set_g_last strip g;
  g ← set_text (gt_email body) set_g_email (fun e => lower (strip e)) g;
  g ← set_text (gt_phone body) set_g_phone strip g;
  let g := set_field (option_map strip_or_none (gt_passport body)) set_g_passport g in
  let g := set_field (gt_nationality body) set_g_nationality g in
  let g := set_field (gt_birth body) set_g_birth g in
  let g := set_field (option_map strip_or_none (gt_notes body)) set_g_notes g in
  let g := match gt_vip body with Some (Some v) => set_g_vip v g | _ => g end in
  Ok (set_g_updated_at t g).

Definition patch_guest (tenant_id guest_id : Z) (body : guest_patch) : M Guest :=
  row ← get_guest tenant_id guest_id;
  match row with
  | None => raise (GuestServiceError "guest not found" 404)
  | Some row =>
      t ← get_now;
      g ← lift (patched_guest body t row);
      _ ← assign (g_id row) (fun _ => g);
      _ ← flush_guest tenant_id guest_id (g_email g);
      mret g
  end.

Definition delete_guest (tenant_id guest_id : Z) : M Guest :=
  row ← get_guest tenant_id guest_id;
  match row with
  | None => raise (GuestServiceError "guest not found" 404)
  | Some row =>
      has_bookings ← query (fun d => existsb (fun b => (b_tenant b =? tenant_id) && (b_guest b =? guest_id)) (bookings d));
      if (has_bookings : bool) then
        raise (GuestServiceError "cannot delete guest with existing bookings; delete bookings first" 409)
      else
        _ ← remove (R := Guest) (g_id row);
        _ ← flush;
        mret row
  end.

End guests.
