(* ===== verification/GuestsLaws.v ===== *)
(** * Laws of guest profiles

    Addresses stay normal and unique within a tenant and no stay loses its
    guest, whatever guest requests are served; a search finds exactly the
    guests a plain term occurs in. *)

From S2P Require Import Prelude PyDecimal PyJson StayDates Calendar Models Session Rates Folio FolioLaws Booking Guests.

(** ** Search *)

Definition special (c : ascii) : bool := existsb (Ascii.eqb c) ["%"; "_"; "\"]%char.
Definition plain (l : list ascii) : Prop := forall c, In c l -> special c = false.

Lemma like_char c p s : special c = false -> like (c :: p) s = match s with [] => false | c' :: s' => Ascii.eqb c c' && like p s' end.
Proof. destruct c as [[] [] [] [] [] [] [] []]; try reflexivity; discriminate. Qed.

Lemma like_plain t p s : plain t -> like (t ++ p) s = true <-> exists s', s = t ++ s' /\ like p s' = true.
Proof.
  revert s. induction t as [|c t IH]; intros s Hp.
  - split; [by exists s|]. by intros (s' & -> & ?).
  - cbn [app]. rewrite like_char by (apply Hp; by left). destruct s as [|c' s]; [split; [done|by intros (? & ? & _)]|].
    rewrite andb_true_iff, Ascii.eqb_eq, IH by (intros x Hx; apply Hp; by right). split.
    + intros [-> (s' & -> & H)]. by exists s'.
    + intros (s' & [= -> ->] & H). split; [done|]. by exists s'.
Qed.

Lemma like_any p s : like ("%"%char :: p) s = true <-> exists pre post, s = pre ++ post /\ like p post = true.
Proof.
  induction s as [|c s IH].
  - change (like ("%"%char :: p) []) with (like p [] || false). rewrite orb_false_r. split; [by exists [], []|].
    intros (pre & post & E & H). symmetry in E. by apply app_eq_nil in E as [_ ->].
  - change (like ("%"%char :: p) (c :: s)) with (like p (c :: s) || like ("%"%char :: p) s). rewrite orb_true_iff, IH. split.
    + intros [H|(pre & post & -> & H)]; [by exists [], (c :: s)|by exists (c :: pre), post].
    + intros ([|x pre] & post & E & H); [left; by rewrite E|right]. injection E as <- ->. by exists pre, post.
Qed.

(** The text contains the term, whatever the case. *)
Definition contains (text term : string) : Prop :=
  exists pre post, list_ascii_of_string (lower text) = pre ++ list_ascii_of_string (lower term) ++ post.

Lemma special_lower c : special (lower_ascii c) = special c.
Proof. by destruct c as [[] [] [] [] [] [] [] []]. Qed.

Lemma list_ascii_app a b : list_ascii_of_string (a ++ b) = list_ascii_of_string a ++ list_ascii_of_string b.
Proof. induction a as [|c a IH]; [done|]. change (String c a ++ b)%string with (String c (a ++ b)). cbn [list_ascii_of_string]. by rewrite IH. Qed.

Lemma lower_append a b : lower (a ++ b) = (lower a ++ lower b)%string.
Proof. induction a as [|c a IH]; [done|]. unfold lower in *. change (String c a ++ b)%string with (String c (a ++ b)). cbn [string_map]. by rewrite IH. Qed.

Lemma ilike_contains text term :
  plain (list_ascii_of_string term) -> ilike text ("%" ++ term ++ "%") = true <-> contains text term.
Proof.
  intros Hp. unfold ilike, contains. rewrite !lower_append, !list_ascii_app. change (list_ascii_of_string (lower "%")) with ["%"%char].
  cbn [app]. rewrite like_any.
  assert (Hpl : plain (list_ascii_of_string (lower term))).
  { intros c. unfold lower. rewrite list_ascii_map. intros (x & <- & Hx)%in_map_iff. rewrite special_lower. by apply Hp. }
  split.
  - intros (pre & post & -> & H). apply like_plain in H as (s' & -> & _); [|done]. by exists pre, s'.
  - intros (pre & post & ->). exists pre, (list_ascii_of_string (lower term) ++ post). split; [done|].
    apply like_plain; [done|]. exists post. split; [done|]. apply (like_any [] post). exists post, []. by rewrite app_nil_r.
Qed.

Section laws.
Context {env : Env}.

Definition found_by (t : Z) (term : string) (g : Guest) : Prop :=
  g_tenant g = t /\ (contains (g_first g) term \/ contains (g_last g) term \/ contains (g_email g) term \/ contains (g_phone g) term).

Lemma matches_found t q g :
  truthy (strip q) = true -> plain (list_ascii_of_string (strip q)) -> guest_matches t (Some q) g = true <-> found_by t (strip q) g.
Proof.
  intros Hq Hp. unfold guest_matches, found_by. rewrite Hq. cbv zeta.
  rewrite andb_true_iff, !orb_true_iff, Z.eqb_eq, !ilike_contains by done. tauto.
Qed.

(** a search for a term without wildcards counts exactly the
    tenant's guests a name, the address or the phone of whom contains it,
    lists only such guests, and lists every one of them when the page is large
    enough. *)
Theorem guest_search_exact t q limit tm td u d :
  List.NoDup (List.map g_id (guests d)) -> truthy (strip q) = true -> plain (list_ascii_of_string (strip q)) ->
  exists rows total, list_guests t (Some q) limit 0 (start d tm td u) = (start d tm td u, Ok (rows, total)) /\
    (exists found, total = Z.of_nat (length found) /\ (forall g, In g found <-> In g (guests d) /\ found_by t (strip q) g) /\
      (length found <= limit -> Permutation rows found)%nat) /\
    forall g, In g rows -> In g (guests d) /\ found_by t (strip q) g.
Proof.
  intros Hnd Hq Hp. unfold list_guests. rewrite run_query, run_select_synced by (by split). cbn [mem disk start table Guest_entity].
  set (found := List.filter (guest_matches t (Some q)) (guests d)).
  assert (Hin : forall g, In g found <-> In g (guests d) /\ found_by t (strip q) g).
  { intros g. unfold found. rewrite filter_In, matches_found by done. done. }
  eexists _, _. split; [reflexivity|]. change (List.skipn 0 (order_by guest_order found)) with (order_by guest_order found). split.
  - exists found. split; [|split; [exact Hin|]].
    + unfold found. generalize (guests d) as l. intros l. induction l as [|g l IH]; [done|]. rewrite countb_cons. cbn [List.filter].
      destruct (guest_matches _ _ g); cbn [length]; rewrite IH; lia.
    + intros Hle. rewrite List.firstn_all2; [apply order_by_perm|]. by rewrite (Permutation_length (order_by_perm guest_order found)).
  - intros g Hg. apply Hin. apply (order_by_In guest_order). apply (In_firstn_or_skipn limit). by left.
Qed.

(** ** Profiles *)

Definition normal (email : string) : Prop := lower (strip email) = email.

Record guests_ok (d : DB) : Prop := {
  gk_ids : List.NoDup (List.map g_id (guests d));
  gk_normal : forall g, In g (guests d) -> normal (g_email g);
  gk_unique : forall g g', In g (guests d) -> In g' (guests d) -> g_tenant g = g_tenant g' -> g_email g = g_email g' -> g = g';
  gk_known : forall b, In b (bookings d) -> exists g, In g (guests d) /\ guest_is (b_tenant b) (b_guest b) g = true }.

Lemma normal_of e : normal (lower (strip e)).
Proof. unfold normal. by rewrite strip_lower, strip_idem, lower_idem. Qed.

Lemma guests_ext d d' : guests d' = guests d -> bookings d' = bookings d -> guests_ok d -> guests_ok d'.
Proof. intros Hg Hb [H1 H2 H3 H4]. split; rewrite ?Hg, ?Hb; done. Qed.

Lemma guests_add d g :
  guests_ok d -> (forall x, In x (guests d) -> g_id x <> g_id g) -> normal (g_email g) ->
  existsb (guest_email_is (g_tenant g) (g_email g)) (guests d) = false -> guests_ok (put_guests (guests d ++ [g]) d).
Proof.
  intros [H1 H2 H3 H4] Hid Hn Hfree.
  assert (Hne : forall x, In x (guests d) -> g_tenant x = g_tenant g -> g_email x = g_email g -> False).
  { intros x Hx Ht He. assert (E : existsb (guest_email_is (g_tenant g) (g_email g)) (guests d) = true); [|congruence].
    apply existsb_exists. exists x. split; [done|]. unfold guest_email_is. by rewrite Ht, He, Z.eqb_refl, String.eqb_refl. }
  split; cbn [guests put_guests].
  - rewrite List.map_app. apply NoDup_snoc; [done|]. intros (x & Hx & Hin)%in_map_iff. by apply (Hid x).
  - intros x [Hx|[<-|[]]]%in_app_iff; [by apply H2|done].
  - intros x y [Hx|[<-|[]]]%in_app_iff [Hy|[<-|[]]]%in_app_iff Ht He; [by apply H3|by destruct (Hne x)|by destruct (Hne y)|done].
  - intros b Hb. destruct (H4 b Hb) as (x & Hx & Hp). exists x. split; [apply in_or_app; by left|done].
Qed.

Lemma guests_replace d g g' :
  guests_ok d -> In g (guests d) -> g_id g' = g_id g -> g_tenant g' = g_tenant g -> normal (g_email g') ->
  existsb (fun x => guest_email_is (g_tenant g) (g_email g') x && negb (g_id x =? g_id g)) (guests d) = false ->
  guests_ok (put_guests (where_id (g_id g) (fun _ => g') (guests d)) d).
Proof.
  intros [H1 H2 H3 H4] Hg Hid Ht Hn Hfree.
  assert (Hne : forall x, In x (guests d) -> g_id x <> g_id g -> g_tenant x = g_tenant g -> g_email x = g_email g' -> False).
  { intros x Hx Hi Htx He. enough (E : existsb (fun x => guest_email_is (g_tenant g) (g_email g') x && negb (g_id x =? g_id g)) (guests d) = true) by congruence.
    apply existsb_exists. exists x. split; [done|]. unfold guest_email_is. rewrite Htx, He, Z.eqb_refl, String.eqb_refl.
    apply Z.eqb_neq in Hi. by rewrite Hi. }
  assert (Hcase : forall x, In x (where_id (g_id g) (fun _ => g') (guests d)) -> x = g' \/ In x (guests d) /\ g_id x <> g_id g).
  { intros x (y & Hy & ->)%(where_id_In (R := Guest)). change (ident y) with (g_id y). destruct (Z.eqb_spec (g_id y) (g_id g)); [by left|by right]. }
  split; cbn [guests put_guests bookings].
  - assert (E : List.map g_id (where_id (g_id g) (fun _ => g') (guests d)) = List.map g_id (guests d)); [|by rewrite E].
    unfold where_id. rewrite List.map_map. apply List.map_ext. intros x. change (ident x) with (g_id x).
    destruct (Z.eqb_spec (g_id x) (g_id g)); congruence.
  - intros x [->|[Hx _]]%Hcase; [done|by apply H2].
  - intros x y [->|[Hx Hxi]]%Hcase [->|[Hy Hyi]]%Hcase Htt He; [done| | |by apply H3].
    + exfalso. apply (Hne y); [done|done|congruence|done].
    + exfalso. apply (Hne x); [done|done|congruence|done].
  - intros b Hb. destruct (H4 b Hb) as (x & Hx & Hp). unfold guest_is in *. destruct (Z.eq_dec (g_id x) (g_id g)) as [E|E].
    + exists g'. assert (x = g) as -> by (by eapply (in_unique_key g_id)). split.
      * apply (where_id_In (R := Guest)). exists g. split; [done|]. change (ident g) with (g_id g). by rewrite Z.eqb_refl.
      * by rewrite Ht, Hid.
    + exists x. split; [|done]. apply (where_id_In (R := Guest)). exists x. split; [done|]. change (ident x) with (g_id x).
      apply Z.eqb_neq in E. by rewrite E.
Qed.

Lemma guests_remove d g :
  guests_ok d -> In g (guests d) ->
  existsb (fun b => (b_tenant b =? g_tenant g) && (b_guest b =? g_id g)) (bookings d) = false ->
  guests_ok (put_guests (List.filter (fun x => negb (g_id x =? g_id g)) (guests d)) d).
Proof.
  intros [H1 H2 H3 H4] Hg Hfree. split; cbn [guests put_guests bookings].
  - by apply NoDup_map_filter.
  - intros x [Hx _]%filter_In. by apply H2.
  - intros x y [Hx _]%filter_In [Hy _]%filter_In. by apply H3.
  - intros b Hb. destruct (H4 b Hb) as (x & Hx & Hp). exists x. split; [|done]. apply filter_In. split; [done|].
    destruct (Z.eqb_spec (g_id x) (g_id g)) as [E|]; [|done]. exfalso.
    assert (x = g) as -> by (by eapply (in_unique_key g_id)). unfold guest_is in Hp. apply andb_prop in Hp as [Ht%Z.eqb_eq Hi%Z.eqb_eq].
    enough (E' : existsb (fun b => (b_tenant b =? g_tenant g) && (b_guest b =? g_id g)) (bookings d) = true) by congruence.
    apply existsb_exists. exists b. split; [done|]. by rewrite Ht, Hi, !Z.eqb_refl.
Qed.

Lemma set_text_inv f set norm g g' :
  (forall v, g_id (set v g) = g_id g /\ g_tenant (set v g) = g_tenant g) ->
  set_text f set norm g = Ok g' ->
  g_id g' = g_id g /\ g_tenant g' = g_tenant g /\ (g' = g \/ exists v, g' = set (norm v) g).
Proof.
  intros Hset. unfold set_text. destruct f as [[v|]|]; [|done|]; intros [= <-]; split_and!; try apply Hset; try done; [|by left].
  right. by exists v.
Qed.

Lemma patched_inv body t g g' :
  patched_guest body t g = Ok g' -> normal (g_email g) -> g_id g' = g_id g /\ g_tenant g' = g_tenant g /\ normal (g_email g').
Proof.
  unfold patched_guest. intros H Hn.
  apply bind_Ok in H as (g1 & H1 & H). apply set_text_inv in H1 as (Hi1 & Ht1 & Hc1); [|done].
  apply bind_Ok in H as (g2 & H2 & H). apply set_text_inv in H2 as (Hi2 & Ht2 & Hc2); [|done].
  apply bind_Ok in H as (g3 & H3 & H). apply set_text_inv in H3 as (Hi3 & Ht3 & Hc3); [|done].
  apply bind_Ok in H as (g4 & H4 & H). apply set_text_inv in H4 as (Hi4 & Ht4 & Hc4); [|done].
  assert (Hn4 : normal (g_email g4)).
  { assert (E2 : g_email g2 = g_email g) by (destruct Hc2 as [->|(? & ->)], Hc1 as [->|(? & ->)]; done).
    assert (Hn3 : normal (g_email g3)) by (destruct Hc3 as [->|(v & ->)]; [by rewrite E2|cbn; apply normal_of]).
    by destruct Hc4 as [->|(? & ->)]. }
  injection H as <-. unfold set_field. repeat case_match; cbn; (split_and!; [congruence|congruence|exact Hn4]).
Qed.

Lemma flush_guest_inv t i e s s' x :
  flush_guest t i e s = (s', Ok x) ->
  s' = set_disk (mem s) s /\ existsb (fun g => guest_email_is t e g && negb (g_id g =? i)) (guests (disk s)) = false.
Proof.
  unfold flush_guest. rewrite run_query. destruct (existsb _ _); [done|]. cbv [flush]. intros H. by simplify_eq.
Qed.

(** ** Requests *)

Inductive guest_request : Type :=
  | CreateGuest (body : guest_create)
  | PatchGuest (guest_id : Z) (body : guest_patch)
  | DeleteGuest (guest_id : Z)
  | GuestOfBooking (payload : guest_payload) (force_new_guest : bool).

Definition serve_guest (t : Z) (q : guest_request) : M unit :=
  match q with
  | CreateGuest body => _ ← create_guest t body; mret tt
  | PatchGuest i body => _ ← patch_guest t i body; mret tt
  | DeleteGuest i => _ ← delete_guest t i; mret tt
  | GuestOfBooking p f => _ ← get_or_create_guest_for_booking t p f; mret tt
  end.

Definition guests_before (u : Z) (d : DB) : Prop := forall g, In g (guests d) -> g_id g < u.

Lemma email_free t e i l : (forall g, In g l -> g_id g <> i) ->
  existsb (fun g => guest_email_is t e g && negb (g_id g =? i)) l = false -> existsb (guest_email_is t e) l = false.
Proof.
  intros Hi H. induction l as [|g l IH]; [done|]. cbn [existsb] in *. apply orb_false_iff in H as [H H'].
  assert (E : negb (g_id g =? i) = true) by (apply negb_true_iff, Z.eqb_neq, Hi; by left). rewrite E, andb_true_r in H.
  rewrite H. apply IH; [|done]. intros x Hx. apply Hi. by right.
Qed.

Lemma create_guest_ok t body d tm td u s g :
  guests_ok d -> guests_before u d -> create_guest t body (start d tm td u) = (s, Ok g) -> guests_ok (mem s).
Proof.
  intros Hok Hu H. unfold create_guest in H. mbind_in H s1 i H1. injection H1 as <- <-. rewrite run_now in H.
  unfold add in H. rewrite run_orm in H. mbind_in H s2 x H2. apply flush_guest_inv in H2 as [-> Hfree]. cbv [mret M_ret] in H. simplify_eq.
  assert (Hid : forall x0, In x0 (guests d) -> g_id x0 <> u) by (intros x0 Hx0; apply Hu in Hx0; lia).
  apply guests_add; [done|exact Hid|apply normal_of|]. cbn [g_tenant g_email]. by apply (email_free _ _ u).
Qed.

Lemma booking_guest_ok t p f d tm td u s r :
  guests_ok d -> guests_before u d -> get_or_create_guest_for_booking t p f (start d tm td u) = (s, Ok r) -> guests_ok (mem s).
Proof.
  intros Hok Hu. unfold get_or_create_guest_for_booking. cbv zeta.
  assert (Hid : forall x0, In x0 (guests d) -> g_id x0 <> u) by (intros x0 Hx0; apply Hu in Hx0; lia).
  assert (Hadd : existsb (guest_email_is t (lower (strip (gp_email p)))) (guests d) = false ->
    guests_ok (put_guests (guests d ++ [guest_of_payload u t p (lower (strip (gp_email p))) tm]) d)).
  { intros Hfree. apply guests_add; [done|exact Hid|apply normal_of|done]. }
  destruct f; intros H.
  - mbind_in H s1 i H1. injection H1 as <- <-. rewrite run_query in H. destruct (existsb _ _) eqn:E; [done|].
    rewrite run_now in H. unfold add in H. rewrite run_orm, run_flush in H. cbv [mret M_ret] in H. simplify_eq. by apply Hadd.
  - rewrite run_scalar_synced in H by (split; [done|apply (gk_ids _ Hok)]). destruct (List.find _ _) as [g|] eqn:E.
    + cbv [mret M_ret] in H. by simplify_eq.
    + mbind_in H s1 i H1. injection H1 as <- <-. rewrite run_now in H. unfold add in H. rewrite run_orm, run_flush in H.
      cbv [mret M_ret] in H. simplify_eq. apply Hadd. apply not_true_iff_false. intros (x & Hx & Hp)%existsb_exists.
      by apply (find_none _ _ E) in Hx; rewrite Hp in Hx.
Qed.

Lemma patch_guest_ok t i body d tm td u s g :
  guests_ok d -> patch_guest t i body (start d tm td u) = (s, Ok g) -> guests_ok (mem s).
Proof.
  intros Hok H. unfold patch_guest, get_guest in H. rewrite run_scalar_synced in H by (split; [done|apply (gk_ids _ Hok)]).
  destruct (List.find _ _) as [row|] eqn:E; [|done]. apply find_some in E as [Hin Hp]. rewrite run_now in H.
  apply bind_lift_inv in H as (g' & Hg & H). unfold assign in H. rewrite run_orm in H.
  mbind_in H s2 x H2. apply flush_guest_inv in H2 as [-> Hfree]. cbv [mret M_ret] in H. simplify_eq.
  destruct (patched_inv _ _ _ _ Hg (gk_normal _ Hok _ Hin)) as (Hi & Ht & Hn).
  apply andb_prop in Hp as [Ht'%Z.eqb_eq Hi'%Z.eqb_eq]. cbn [disk set_mem start] in Hfree.
  apply (guests_replace d row); try done. by rewrite Ht', Hi'.
Qed.

Lemma delete_guest_ok t i d tm td u s g :
  guests_ok d -> delete_guest t i (start d tm td u) = (s, Ok g) -> guests_ok (mem s).
Proof.
  intros Hok H. unfold delete_guest, get_guest in H. rewrite run_scalar_synced in H by (split; [done|apply (gk_ids _ Hok)]).
  destruct (List.find _ _) as [row|] eqn:E; [|done]. apply find_some in E as [Hin Hp]. rewrite run_query in H.
  destruct (existsb _ _) eqn:Hb; [done|]. unfold remove in H. rewrite run_orm, run_flush in H. cbv [mret M_ret] in H. simplify_eq.
  apply andb_prop in Hp as [Ht'%Z.eqb_eq Hi'%Z.eqb_eq]. apply (guests_remove d g); [done|done|]. by rewrite Ht', Hi'.
Qed.

(** whatever guest requests are served, addresses stay normal (no
    surrounding blanks, lower case) and unique within a tenant, and every
    booking keeps its guest. *)
Theorem guests_stay_unique t q tm td u d :
  guests_ok d -> guests_before u d -> guests_ok (run (serve_guest t q) tm td u d).1.
Proof.
  intros Hok Hu. unfold run. destruct (serve_guest t q _) as [s [x|e]] eqn:E; [|done]. cbn [fst].
  destruct q; cbn [serve_guest] in E; mbind_in E s1 y H1; cbv [mret M_ret] in E; simplify_eq.
  - by eapply create_guest_ok.
  - by eapply patch_guest_ok.
  - by eapply delete_guest_ok.
  - by eapply booking_guest_ok.
Qed.
End laws.

(** ** A concrete tenant *)

Definition ann_guest : Guest := MkGuest 4 1 "Ann" "Lee" "ann@x.org" "1" None None None None false 0.
Definition guest_db : DB :=
  put_guests [ann_guest] (put_bookings [MkBooking 9 1 3 4 (Some 5) None "confirmed" "api" 100000 None] empty_db).

Lemma guest_db_ok : guests_ok guest_db.
Proof.
  split.
  - repeat constructor. intros [].
  - intros g [<-|[]]. reflexivity.
  - intros g g' [<-|[]] [<-|[]] _ _. reflexivity.
  - intros b [<-|[]]. exists ann_guest. split; [by left|reflexivity].
Qed.

(** Her address is changed, in capitals and with blanks. *)
Definition new_address : guest_request :=
  PatchGuest 4 (GuestPatch None None (Some (Some " ANN@y.org "%string)) None None None None None None).

Lemma guests_stay_unique_witness :
  exists d', (run (serve_guest 1 new_address) 0 0 10 guest_db).1 = d' /\
    List.map g_email (guests d') = ["ann@y.org"%string] /\ guests_ok d'.
Proof.
  eexists. split; [reflexivity|]. split; [vm_compute; reflexivity|].
  apply (guests_stay_unique 1 new_address 0 0 10 guest_db guest_db_ok). intros g [<-|[]]. reflexivity.
Defined.

Lemma guest_search_exact_witness :
  exists rows total, list_guests (env := sample_env) 1 (Some " LEE "%string) 10 0 (start guest_db 0 0 0) = (start guest_db 0 0 0, Ok (rows, total)) /\
    List.map g_first rows = ["Ann"%string] /\ total = 1 /\ forall g, In g rows -> found_by 1 "LEE" g.
Proof.
  assert (Hp : plain (list_ascii_of_string (strip " LEE "))) by (intros c [<-|[<-|[<-|[]]]]; reflexivity).
  assert (Hnd : List.NoDup (List.map g_id (guests guest_db))) by (repeat constructor; intros []).
  destruct (guest_search_exact (env := sample_env) 1 " LEE " 10 0 0 0 guest_db Hnd eq_refl Hp) as (rows & total & E & _ & Hin).
  assert (H : exists r n, list_guests (env := sample_env) 1 (Some " LEE "%string) 10 0 (start guest_db 0 0 0) = (start guest_db 0 0 0, Ok (r, n)) /\
    List.map g_first r = ["Ann"%string] /\ n = 1) by (eexists _, _; split_and!; vm_compute; reflexivity).
  destruct H as (r & n & E' & Hf & Hn). exists r, n. split; [exact E'|]. split; [exact Hf|]. split; [exact Hn|].
  assert (Er : rows = r) by congruence. intros g Hg. apply (Hin g). rewrite Er. exact Hg.
Defined.
