(* ===== verification/Properties.v ===== *)
(** * Properties, country packs and tax configurations

    app/services/property_service.py, country_pack_service.py and the
    tax_configs half of tax_service.py. *)

From stdpp Require Import gmap strings pretty.
From S2P Require Import Prelude PyDecimal PyJson StayDates Calendar Tax Models Session Rates Folio.

Section properties.
Context {env : Env}.

(** ** property_service.py *)

Record property_create := PropertyCreate {
  py_name : string; py_timezone : string; py_currency : string; py_checkin : Z; py_checkout : Z; py_pack : option string }.

Record property_patch := PropertyPatch {
  pq_name : option (option string); pq_timezone : option (option string); pq_currency : option (option string);
  pq_checkin : option (option Z); pq_checkout : option (option Z); pq_pack : option (option string) }.

(** The foreign key to the packs, which sees those of every tenant. *)
Definition pack_exists (code : string) (d : DB) : bool := existsb (fun p => String.eqb (cp_code p) code) (country_packs d).

Definition flush_property (pack : option string) : M unit :=
  known ← query (fun d => match pack with Some c => pack_exists c d | None => true end);
  if (known : bool) then flush else raise IntegrityError.

Definition create_property (tenant_id : Z) (data : property_create) : M Property :=
  let pack_code := strip_or_none (py_pack data) in
  i ← uuid4;
  let prop := MkProperty i tenant_id (strip (py_name data)) pack_code (py_timezone data) (py_currency data)
                (py_checkin data) (py_checkout data) in
  _ ← add prop;
  _ ← flush_property pack_code;
  mret prop.

Definition list_properties (tenant_id : Z) : M (list Property) :=
  rows ← select (fun p => p_tenant p =? tenant_id); mret (order_by (fun a b => collate (p_name a) (p_name b)) rows).

Definition count_bookings_for_property (tenant_id property_id : Z) : M Z :=
  query (fun d => countb (fun b => (b_property b =? property_id) && (b_tenant b =? tenant_id)) (bookings d)).

(** Null in a column that may not be null fails at the flush. *)
Definition set_column {R A} (f : option (option A)) (set : A -> R -> R) (r : R) : result R :=
  match f with None => Ok r | Some None => Err IntegrityError | Some (Some v) => Ok (set v r) end.

Definition patched_property (data : property_patch) (p : Property) : result Property :=
  p ← match pq_name data with
      | None => Ok p | Some None => Err AttributeOrTypeError | Some (Some n) => Ok (set_p_name (strip n) p)
      end;
  p ← set_column (pq_timezone data) set_p_timezone p;
  p ← set_column (pq_currency data) set_p_currency p;
  p ← set_column (pq_checkin data) set_p_checkin p;
  p ← set_column (pq_checkout data) set_p_checkout p;
  Ok (match pq_pack data with
      | None => p
      | Some c => set_p_pack (match c with Some c => if truthy (strip c) then Some (strip c) else None | None => None end) p
      end).

Definition update_property (tenant_id property_id : Z) (data : property_patch) : M (option Property) :=
  prop ← get_property tenant_id property_id;
  match prop with
  | None => mret None
  | Some prop =>
      p ← lift (patched_property data prop);
      _ ← assign (p_id prop) (fun _ => p);
      _ ← flush_property (p_pack p);
      mret (Some p)
  end.

(** ** country_pack_service.py *)

Definition CountryPackServiceError (detail : string) (status_code : Z) : exn := ServiceError "CountryPackServiceError" detail status_code.

(** The statement's own filter; row-level security applies [pack_readable] as
    well. *)
Definition pack_visible (tenant_id : Z) (p : CountryPack) : bool :=
  pack_readable tenant_id p && (cp_builtin p || bool_decide (cp_tenant p = Some tenant_id)).

(** [ORDER BY is_builtin DESC, code] *)
Definition pack_order (a b : CountryPack) : bool :=
  if Bool.eqb (cp_builtin a) (cp_builtin b) then collate (cp_code a) (cp_code b) else cp_builtin a.

Definition list_country_packs (tenant_id : Z) : M (list CountryPack) :=
  rows ← select (pack_visible tenant_id); mret (order_by pack_order rows).

Definition find_pack (tenant_id : Z) (code : string) : M (option CountryPack) :=
  scalar (fun p => pack_visible tenant_id p && String.eqb (cp_code p) code).

Definition get_country_pack (tenant_id : Z) (code : string) : M (option CountryPack) := find_pack tenant_id (strip code).

Record tax_rule_schema := TaxRuleSchema {
  ts_code : string; ts_name : string; ts_rate : dec; ts_inclusive : bool; ts_applies_to : list string;
  ts_compound_after : option string; ts_display : bool; ts_active : bool }.

(** [str(Decimal)] *)
Definition dec_str (x : dec) : string :=
  let digits := pretty (Z.abs (mant x)) in
  let n := Z.of_nat (String.length digits) in
  let left := expo x + n in
  let point := if (expo x <=? 0) && (-6 <? left) then left else 1 in
  let body :=
    if point <=? 0 then ("0." ++ zeros (- point) ++ digits)%string
    else if n <=? point then (digits ++ zeros (point - n))%string
    else (String.substring 0 (Z.to_nat point) digits ++ "."
          ++ String.substring (Z.to_nat point) (String.length digits - Z.to_nat point) digits)%string in
  let exp := left - point in
  let sign := if mant x <? 0 then "-"%string else EmptyString in
  let mark := if 0 <? exp then "E+"%string else "E"%string in
  if exp =? 0 then (sign ++ body)%string else (sign ++ body ++ mark ++ pretty exp)%string.

(** [TaxRuleSchema.model_dump(mode="json")] *)
Definition rule_dump (r : tax_rule_schema) : json :=
  JObj [("code", JStr (ts_code r)); ("name", JStr (ts_name r)); ("rate", JStr (dec_str (ts_rate r)));
        ("inclusive", JBool (ts_inclusive r)); ("applies_to", JArr (List.map JStr (ts_applies_to r)));
        ("compound_after", match ts_compound_after r with Some c => JStr c | None => JNull end);
        ("display_on_folio", JBool (ts_display r)); ("active", JBool (ts_active r))]%string.

Record pack_create := PackCreate {
  pa_code : string; pa_name : string; pa_currency : string; pa_symbol : string; pa_position : string; pa_decimals : Z;
  pa_timezone : string; pa_date_format : string; pa_locale : string; pa_checkin : Z; pa_checkout : Z;
  pa_taxes : list tax_rule_schema; pa_methods : list string; pa_fiscal : option string }.

(** A pack of another tenant has the code, but row-level security hides it:
    the primary key then fails. *)
Definition create_country_pack (tenant_id : Z) (data : pack_create) : M CountryPack :=
  let code := strip (pa_code data) in
  existing ← scalar (fun p => pack_readable tenant_id p && String.eqb (cp_code p) code);
  match existing with
  | Some _ => raise (CountryPackServiceError "country pack code already exists" 409)
  | None =>
      let row := MkCountryPack code (Some tenant_id) (strip (pa_name data)) (pa_currency data) (strip (pa_symbol data))
        (pa_position data) (pa_decimals data) (strip (pa_timezone data)) (strip (pa_date_format data)) (strip (pa_locale data))
        (pa_checkin data) (pa_checkout data) (JArr (List.map rule_dump (pa_taxes data))) (JArr (List.map JStr (pa_methods data)))
        (strip_or_none (pa_fiscal data)) false in
      taken ← query (pack_exists code);
      if (taken : bool) then raise IntegrityError else _ ← add row; _ ← flush; mret row
  end.

Record pack_patch := PackPatch {
  pk_name : option (option string); pk_currency : option (option string); pk_symbol : option (option string);
  pk_position : option (option string); pk_decimals : option (option Z); pk_timezone : option (option string);
  pk_date_format : option (option string); pk_locale : option (option string); pk_checkin : option (option Z);
  pk_checkout : option (option Z); pk_taxes : option (option (list tax_rule_schema));
  pk_methods : option (option (list string)); pk_fiscal : option (option string) }.

(** [str(patch["x"]).strip()]: the text of null is None. *)
Definition str_text (f : option (option string)) (set : string -> CountryPack -> CountryPack) (p : CountryPack) : CountryPack :=
  match f with
  | None => p
  | Some o => set (strip (match o with Some v => v | None => "None"%string end)) p
  end.

(** The rules come out of [data.model_dump] as dicts that hold a Decimal: a
    list that is not empty cannot be stored as JSON. *)
Definition patched_taxes (f : option (option (list tax_rule_schema))) (p : CountryPack) : result CountryPack :=
  match f with
  | Some (Some []) => Ok (set_cp_taxes (JArr []) p)
  | Some (Some _) => Err AttributeOrTypeError
  | _ => Ok p
  end.

(** Python's own errors come first, then the columns that may not be null. *)
Definition patched_pack (data : pack_patch) (p : CountryPack) : result CountryPack :=
  p ← match pk_decimals data with
      | None => Ok p | Some None => Err AttributeOrTypeError | Some (Some n) => Ok (set_cp_decimals n p)
      end;
  p ← patched_taxes (pk_taxes data) p;
  let p := str_text (pk_name data) set_cp_name p in
  p ← set_column (pk_currency data) set_cp_currency p;
  let p := str_text (pk_symbol data) set_cp_symbol p in
  p ← set_column (pk_position data) set_cp_position p;
  let p := str_text (pk_timezone data) set_cp_timezone p in
  let p := str_text (pk_date_format data) set_cp_date_format p in
  let p := str_text (pk_locale data) set_cp_locale p in
  p ← set_column (pk_checkin data) set_cp_checkin p;
  p ← set_column (pk_checkout data) set_cp_checkout p;
  let p := match pk_methods data with
           | None => p | Some o => set_cp_methods (JArr (List.map JStr (default [] o))) p
           end in
  Ok (match pk_fiscal data with None => p | Some o => set_cp_fiscal (strip_or_none o) p end).

(** The pack a tenant may change: its own. *)
Definition own_pack (tenant_id : Z) (code verb : string) : M CountryPack :=
  row ← find_pack tenant_id (strip code);
  match row with
  | None => raise (CountryPackServiceError "country pack not found" 404)
  | Some row =>
      if cp_builtin row then raise (CountryPackServiceError ("cannot " ++ verb ++ " builtin country pack") 403)
      else if bool_decide (cp_tenant row = Some tenant_id) then mret row
      else raise (CountryPackServiceError "country pack not found" 404)
  end.

Definition update_country_pack (tenant_id : Z) (code : string) (data : pack_patch) : M CountryPack :=
  row ← own_pack tenant_id code "modify";
  p ← lift (patched_pack data row);
  _ ← assign (ident row) (fun _ => p);
  _ ← flush;
  mret p.

(** The delete is not awaited. *)
Definition delete_country_pack (tenant_id : Z) (code : string) : M unit :=
  _ ← own_pack tenant_id code "delete";
  n_props ← query (fun d => countb (fun p => (p_tenant p =? tenant_id) && bool_decide (p_pack p = Some (strip code))) (properties d));
  if 0 <? n_props then raise (CountryPackServiceError "country pack is attached to one or more properties" 409)
  else _ ← unawaited_delete; flush.

Record pack_apply := PackApply {
  pl_property : Z; pl_code : string; pl_currency : string; pl_timezone : string; pl_checkin : Z; pl_checkout : Z;
  pl_methods : list string }.

(** The columns a pack gives to a property. *)
Definition with_pack (pack : CountryPack) (p : Property) : Property :=
  MkProperty (p_id p) (p_tenant p) (p_name p) (Some (cp_code pack)) (cp_timezone pack) (cp_currency pack)
    (cp_checkin pack) (cp_checkout pack).

Definition locked_message (n : Z) : string :=
  "Cannot change country pack: property has " ++ pretty n ++ " booking(s). Contact support.".

Definition apply_country_pack (tenant_id : Z) (code : string) (property_id : Z) : M pack_apply :=
  pack ← find_pack tenant_id (strip code);
  match pack with
  | None => raise (CountryPackServiceError "country pack not found" 404)
  | Some pack =>
      prop ← get_property tenant_id property_id;
      match prop with
      | None => raise (CountryPackServiceError "property not found" 404)
      | Some prop =>
          _ ← match p_pack prop with
              | None => mret tt
              | Some _ =>
                  n ← count_bookings_for_property tenant_id property_id;
                  if 0 <? n then raise (CountryPackServiceError (locked_message n) 409) else mret tt
              end;
          _ ← assign (p_id prop) (with_pack pack);
          _ ← flush;
          mret (PackApply (p_id prop) (cp_code pack) (cp_currency pack) (cp_timezone pack) (cp_checkin pack) (cp_checkout pack)
                  (match cp_methods pack with JArr l => List.map py_str l | _ => [] end))
      end
  end.

(** ** tax_configs *)

Definition config_of (tenant_id property_id : Z) (c : tax_config) : bool :=
  (cfg_tenant c =? tenant_id) && (cfg_property c =? property_id).

(** Storing a Decimal in a [Numeric(5, 4)] column. *)
Definition numeric_5_4 (x : dec) : result dec :=
  let m := if -4 <=? expo x then mant x * 10 ^ (expo x + 4) else round_div ROUND_HALF_UP (mant x) (10 ^ (-4 - expo x)) in
  if Z.abs m <? 10 ^ 5 then Ok (Dec m (-4)) else Err DataError.

Definition get_config (tenant_id property_id : Z) : M (option tax_config) := scalar (config_of tenant_id property_id).

(** The property must exist: [fk_tax_configs_property_composite]. *)
Definition upsert_tax_config (tenant_id property_id : Z) (mode : tax_mode) (tax_name : string) (tax_rate : dec) : M tax_config :=
  existing ← get_config tenant_id property_id;
  rate ← lift (numeric_5_4 tax_rate);
  let row := TaxConfig tenant_id property_id mode (strip tax_name) rate in
  match existing with
  | Some c => _ ← assign (ident c) (fun _ => row); _ ← flush; mret row
  | None =>
      known ← query (fun d => existsb (property_is tenant_id property_id) (properties d));
      if (known : bool) then _ ← add row; _ ← flush; mret row else raise IntegrityError
  end.

Definition delete_tax_config (tenant_id property_id : Z) : M bool :=
  row ← get_config tenant_id property_id;
  match row with
  | None => mret false
  | Some c => _ ← remove (R := tax_config) (ident c); _ ← flush; mret true
  end.

End properties.
