(* ===== verification/PropertiesLaws.v ===== *)
(** * Laws of properties and country packs

    No request of a tenant changes a built-in pack, a pack of another tenant
    or a property of another tenant; a pack is applied to a property only
    while it has no bookings under a pack; the rules of a pack cannot be
    changed after its creation. *)

From stdpp Require Import gmap strings.
From S2P Require Import Prelude PyDecimal PyJson StayDates Calendar Tax Models Session Rates Folio FolioLaws Properties.

Section laws.
Context {env : Env}.

(** ** What belongs to others *)

Definition own (t : Z) (p : CountryPack) : bool := negb (cp_builtin p) && bool_decide (cp_tenant p = Some t).
Definition foreign_packs (t : Z) (d : DB) : list CountryPack := List.filter (fun p => negb (own t p)) (country_packs d).
Definition foreign_properties (t : Z) (d : DB) : list Property := List.filter (fun p => negb (p_tenant p =? t)) (properties d).
Definition foreign_configs (t : Z) (d : DB) : list tax_config := List.filter (fun c => negb (cfg_tenant c =? t)) (tax_configs d).

Record keys_ok (d : DB) : Prop := {
  ky_packs : List.NoDup (List.map ident (country_packs d));
  ky_properties : List.NoDup (List.map ident (properties d));
  ky_configs : List.NoDup (List.map ident (tax_configs d)) }.

Definition others_as (t : Z) (d d' : DB) : Prop :=
  foreign_packs t d' = foreign_packs t d /\ foreign_properties t d' = foreign_properties t d /\
  foreign_configs t d' = foreign_configs t d.

Lemma filter_snoc {A} (p : A -> bool) l x : p x = false -> List.filter p (l ++ [x]) = List.filter p l.
Proof. intros H. rewrite List.filter_app. cbn. by rewrite H, app_nil_r. Qed.

(** Replacing a row of one's own by another of one's own. *)
Lemma filter_where_id {R} `{Entity R} (p : R -> bool) (f : R -> R) (l : list R) r :
  List.NoDup (List.map ident l) -> In r l -> p r = false -> p (f r) = false ->
  List.filter p (where_id (ident r) f l) = List.filter p l.
Proof.
  intros Hnd Hin Hr Hr'. unfold where_id. induction l as [|x l IH]; [done|]. cbn [List.map] in *.
  apply List.NoDup_cons_iff in Hnd as [Hni Hnd]. cbn [List.filter]. destruct Hin as [->|Hin].
  - rewrite Z.eqb_refl, Hr, Hr'. f_equal.
    assert (E : List.map (fun y => if ident y =? ident r then f y else y) l = l); [|by rewrite E].
    rewrite <- (List.map_id l) at 2. apply List.map_ext_in. intros y Hy. destruct (Z.eqb_spec (ident y) (ident r)) as [E|]; [|done].
    exfalso. apply Hni. rewrite <- E. by apply in_map.
  - destruct (Z.eqb_spec (ident x) (ident r)) as [E|]; [exfalso; apply Hni; rewrite E; by apply in_map|]. by rewrite IH.
Qed.

Lemma filter_removed {R} `{Entity R} (p : R -> bool) (l : list R) r :
  List.NoDup (List.map ident l) -> In r l -> p r = false ->
  List.filter p (List.filter (fun x => negb (ident x =? ident r)) l) = List.filter p l.
Proof.
  intros Hnd Hin Hr. induction l as [|x l IH]; [done|]. cbn [List.map] in Hnd. apply List.NoDup_cons_iff in Hnd as [Hni Hnd].
  cbn [List.filter]. destruct Hin as [->|Hin].
  - rewrite Z.eqb_refl, Hr. cbn [negb]. f_equal.
    assert (E : List.filter (fun y => negb (ident y =? ident r)) l = l); [|by rewrite E].
    apply forallb_filter_id, forallb_forall. intros y Hy. destruct (Z.eqb_spec (ident y) (ident r)) as [E|]; [|done].
    exfalso. apply Hni. rewrite <- E. by apply in_map.
  - destruct (Z.eqb_spec (ident x) (ident r)) as [E|]; [exfalso; apply Hni; rewrite E; by apply in_map|]. cbn [negb List.filter].
    by rewrite IH.
Qed.

(** ** The operations *)

Lemma scalar_found {R} `{Entity R} (p : R -> bool) d tm td u s o :
  List.NoDup (List.map ident (table d)) -> scalar p (start d tm td u) = (s, Ok o) ->
  s = start d tm td u /\ match o with Some r => In r (table d) /\ p r = true | None => True end.
Proof.
  intros Hnd E. unfold scalar, mbind, M_bind in E. rewrite select_synced in E by done. injection E as <- <-.
  split; [done|]. cbn [mem start]. rewrite hd_filter. destruct (List.find p (table d)) eqn:Ef; [by apply find_some|done].
Qed.

Lemma own_pack_inv t code verb d tm td u s row :
  keys_ok d -> own_pack t code verb (start d tm td u) = (s, Ok row) ->
  s = start d tm td u /\ In row (country_packs d) /\ own t row = true /\ cp_code row = strip code.
Proof.
  intros Hk H. unfold own_pack, find_pack in H. mbind_in H s1 o H1.
  apply scalar_found in H1 as [-> Hin]; [|apply (ky_packs _ Hk)]. destruct o as [p|]; [|done].
  destruct (cp_builtin p) eqn:Hb; [done|]. destruct (bool_decide_reflect (cp_tenant p = Some t)); [|done].
  cbv [mret M_ret] in H. simplify_eq. destruct Hin as [Hin Hp]. apply andb_prop in Hp as [_ Hc%String.eqb_eq].
  split_and!; try done. unfold own. by rewrite Hb, bool_decide_true.
Qed.

Lemma set_column_cp {A} f (set : A -> CountryPack -> CountryPack) p p' :
  (forall v q, cp_code (set v q) = cp_code q /\ cp_tenant (set v q) = cp_tenant q /\ cp_builtin (set v q) = cp_builtin q) ->
  set_column f set p = Ok p' -> cp_code p' = cp_code p /\ cp_tenant p' = cp_tenant p /\ cp_builtin p' = cp_builtin p.
Proof. intros Hs. unfold set_column. destruct f as [[v|]|]; [|done|]; intros [= <-]; [apply Hs|done]. Qed.

Lemma str_text_cp f set p :
  (forall v q, cp_code (set v q) = cp_code q /\ cp_tenant (set v q) = cp_tenant q /\ cp_builtin (set v q) = cp_builtin q) ->
  cp_code (str_text f set p) = cp_code p /\ cp_tenant (str_text f set p) = cp_tenant p /\ cp_builtin (str_text f set p) = cp_builtin p.
Proof. intros Hs. unfold str_text. destruct f; [apply Hs|done]. Qed.

(** A patched pack keeps its key and its owner. *)
Lemma patched_pack_inv data p p' :
  patched_pack data p = Ok p' -> cp_code p' = cp_code p /\ cp_tenant p' = cp_tenant p /\ cp_builtin p' = cp_builtin p.
Proof.
  unfold patched_pack. intros H. apply bind_Ok in H as (p1 & H1 & H).
  assert (E1 : cp_code p1 = cp_code p /\ cp_tenant p1 = cp_tenant p /\ cp_builtin p1 = cp_builtin p)
    by (destruct (pk_decimals data) as [[n|]|]; [|done|]; by injection H1 as <-).
  apply bind_Ok in H as (p2 & H2 & H).
  assert (E2 : cp_code p2 = cp_code p1 /\ cp_tenant p2 = cp_tenant p1 /\ cp_builtin p2 = cp_builtin p1)
    by (unfold patched_taxes in H2; destruct (pk_taxes data) as [[[|]|]|]; try done; by injection H2 as <-).
  clear H1 H2. cbv zeta in H.
  repeat match type of H with
         | mbind _ (set_column _ _ _) = Ok _ =>
             let q := fresh "q" in let Hq := fresh "Hq" in
             apply bind_Ok in H as (q & Hq & H); apply set_column_cp in Hq; [|done]
         end.
  injection H as <-.
  repeat match goal with
         | Hq : context [str_text ?f ?g ?p] |- _ =>
             let E := fresh "E" in pose proof (str_text_cp f g p (fun _ _ => conj eq_refl (conj eq_refl eq_refl))) as E;
             revert Hq E; generalize (str_text f g p); intros ? Hq E
         end.
  destruct (pk_methods data), (pk_fiscal data); cbn; intuition congruence.
Qed.
Inductive admin_request : Type :=
  | CreatePack (data : pack_create)
  | PatchPack (code : string) (data : pack_patch)
  | DeletePack (code : string)
  | ApplyPack (code : string) (property_id : Z)
  | CreateProperty (data : property_create)
  | PatchProperty (property_id : Z) (data : property_patch)
  | PutTax (property_id : Z) (mode : tax_mode) (name : string) (rate : dec)
  | DeleteTax (property_id : Z).

Definition serve_admin (t : Z) (q : admin_request) : M unit :=
  match q with
  | CreatePack data => _ ← create_country_pack t data; mret tt
  | PatchPack code data => _ ← update_country_pack t code data; mret tt
  | DeletePack code => delete_country_pack t code
  | ApplyPack code p => _ ← apply_country_pack t code p; mret tt
  | CreateProperty data => _ ← create_property t data; mret tt
  | PatchProperty p data => _ ← update_property t p data; mret tt
  | PutTax p m n r => _ ← upsert_tax_config t p m n r; mret tt
  | DeleteTax p => _ ← delete_tax_config t p; mret tt
  end.

Lemma create_pack_others t data d tm td u s x :
  keys_ok d -> create_country_pack t data (start d tm td u) = (s, Ok x) -> others_as t d (mem s).
Proof.
  intros Hk H. unfold create_country_pack in H. cbv zeta in H. mbind_in H s1 o H1.
  apply scalar_found in H1 as [-> _]; [|apply (ky_packs _ Hk)]. destruct o; [done|].
  rewrite run_query in H. destruct (pack_exists _ _); [done|]. unfold add in H. rewrite run_orm, run_flush in H.
  injection H as <- _. split_and!; try done. apply filter_snoc. unfold own. cbn. by rewrite bool_decide_true.
Qed.

Lemma patch_pack_others t code data d tm td u s x :
  keys_ok d -> update_country_pack t code data (start d tm td u) = (s, Ok x) -> others_as t d (mem s).
Proof.
  intros Hk H. unfold update_country_pack in H. mbind_in H s1 row H1. apply own_pack_inv in H1 as (-> & Hin & Hown & _); [|done].
  apply bind_lift_inv in H as (p' & Hp & H). apply patched_pack_inv in Hp as (_ & Ht & Hb). unfold assign in H.
  rewrite run_orm, run_flush in H. injection H as <- _. split_and!; try done. unfold foreign_packs. cbn [mem set_disk set_mem start].
  refine (filter_where_id (R := CountryPack) _ (fun _ => p') _ row (ky_packs _ Hk) Hin _ _); [by rewrite Hown|].
  unfold own in *. by rewrite Ht, Hb, Hown.
Qed.

Lemma delete_pack_same t code d tm td u s x :
  keys_ok d -> delete_country_pack t code (start d tm td u) = (s, Ok x) -> mem s = d.
Proof.
  intros Hk H. unfold delete_country_pack, unawaited_delete in H. mbind_in H s1 row H1. apply own_pack_inv in H1 as (-> & _); [|done].
  rewrite run_query in H. destruct (0 <? _); [done|]. rewrite run_ret in H. by injection H as <- _.
Qed.

Lemma property_found t i d tm td u s o :
  keys_ok d -> get_property t i (start d tm td u) = (s, Ok o) ->
  s = start d tm td u /\ match o with Some p => In p (properties d) /\ p_tenant p = t /\ p_id p = i | None => True end.
Proof.
  intros Hk H. apply scalar_found in H as [-> Ho]; [|apply (ky_properties _ Hk)]. split; [done|].
  destruct o as [p|]; [|done]. destruct Ho as [Hin [Ht%Z.eqb_eq Hi%Z.eqb_eq]%andb_prop]. done.
Qed.

(** An accepted application: which pack, to which property, and when. *)
Lemma apply_inv t code i d tm td u s x :
  keys_ok d -> apply_country_pack t code i (start d tm td u) = (s, Ok x) ->
  exists pack prop, In pack (country_packs d) /\ pack_visible t pack = true /\ cp_code pack = strip code /\
    In prop (properties d) /\ p_tenant prop = t /\ p_id prop = i /\
    (p_pack prop = None \/ forall b, In b (bookings d) -> b_property b = i -> b_tenant b = t -> False) /\
    mem s = put_properties (where_id i (with_pack pack) (properties d)) d.
Proof.
  intros Hk H. unfold apply_country_pack, find_pack in H. mbind_in H s1 o H1.
  apply scalar_found in H1 as [-> Ho]; [|apply (ky_packs _ Hk)]. destruct o as [pack|]; [|done].
  destruct Ho as [Hpin [Hpv Hpc%String.eqb_eq]%andb_prop]. mbind_in H s2 o H1. apply property_found in H1 as [-> Ho]; [|done].
  destruct o as [prop|]; [|done]. destruct Ho as (Hin & Ht & Hi). mbind_in H s3 y H1.
  assert (Hlock : s3 = start d tm td u /\ (p_pack prop = None \/
    forall b, In b (bookings d) -> b_property b = i -> b_tenant b = t -> False)).
  { destruct (p_pack prop) as [c|]; [|cbv [mret M_ret] in H1; injection H1 as <- _; split; [done|by left]].
    unfold count_bookings_for_property in H1. rewrite run_query in H1. destruct (Z.ltb_spec 0 (countb (fun b => (b_property b =? i) && (b_tenant b =? t)) (bookings (disk (start d tm td u))))) as [|Hn]; [done|].
    injection H1 as <- _. split; [done|]. right. intros b Hb Hbp Hbt.
    pose proof (countb_In (fun b => (b_property b =? i) && (b_tenant b =? t)) (bookings d) b Hb) as Hc. cbn beta in Hc.
    rewrite Hbp, Hbt, !Z.eqb_refl in Hc. specialize (Hc eq_refl). cbn [disk start] in Hn. lia. }
  destruct Hlock as [-> Hlock]. unfold assign in H. rewrite run_orm, run_flush in H. injection H as <- _.
  exists pack, prop. split_and!; try done. cbn [mem set_disk set_mem start]. by rewrite Hi.
Qed.

Lemma property_replaced t d f i prop :
  keys_ok d -> In prop (properties d) -> p_tenant prop = t -> p_id prop = i -> p_tenant (f prop) = t ->
  others_as t d (put_properties (where_id i f (properties d)) d).
Proof.
  intros Hk Hin Ht <- Hf. split_and!; try done. unfold foreign_properties. cbn [properties put_properties].
  refine (filter_where_id (R := Property) _ f _ prop (ky_properties _ Hk) Hin _ _); by rewrite ?Ht, ?Hf, Z.eqb_refl.
Qed.

Lemma create_property_others t data d tm td u s x :
  create_property t data (start d tm td u) = (s, Ok x) -> others_as t d (mem s).
Proof.
  intros H. unfold create_property in H. mbind_in H s1 i H1. injection H1 as <- <-. unfold add, flush_property in H.
  rewrite run_orm, run_assoc, run_query in H. destruct (match strip_or_none _ with Some _ => _ | None => _ end); [|done].
  rewrite run_flush in H. injection H as <- _. split_and!; try done. apply filter_snoc. cbn. by rewrite Z.eqb_refl.
Qed.

Lemma patched_property_tenant data p p' : patched_property data p = Ok p' -> p_tenant p' = p_tenant p.
Proof.
  assert (Hc : forall A (f : option (option A)) (set : A -> Property -> Property) q q',
    (forall v x, p_tenant (set v x) = p_tenant x) -> set_column f set q = Ok q' -> p_tenant q' = p_tenant q).
  { intros A f set q q' Hs. unfold set_column. destruct f as [[v|]|]; [|done|]; intros [= <-]; [apply Hs|done]. }
  unfold patched_property. intros H. apply bind_Ok in H as (p1 & H1 & H).
  assert (E : p_tenant p1 = p_tenant p) by (destruct (pq_name data) as [[n|]|]; [|done|]; by injection H1 as <-).
  do 4 (let q := fresh "q" in let Hq := fresh "Hq" in apply bind_Ok in H as (q & Hq & H); apply Hc in Hq; [|done]).
  injection H as <-. destruct (pq_pack data); cbn; congruence.
Qed.

Lemma patch_property_others t i data d tm td u s x :
  keys_ok d -> update_property t i data (start d tm td u) = (s, Ok x) -> others_as t d (mem s).
Proof.
  intros Hk H. unfold update_property in H. mbind_in H s1 o H1. apply property_found in H1 as [-> Ho]; [|done].
  destruct o as [prop|]; [|injection H as <- _; by split_and!]. destruct Ho as (Hin & Ht & Hi).
  apply bind_lift_inv in H as (p & Hp & H). unfold assign, flush_property in H. rewrite run_orm, run_assoc, run_query in H.
  destruct (match p_pack p with Some _ => _ | None => _ end); [|done]. rewrite run_flush in H. injection H as <- _.
  cbn [mem set_disk set_mem start]. apply patched_property_tenant in Hp. eapply property_replaced; try done. congruence.
Qed.

Lemma tax_others t q d tm td u s x :
  keys_ok d -> serve_admin t q (start d tm td u) = (s, Ok x) ->
  match q with PutTax _ _ _ _ | DeleteTax _ => True | _ => False end -> others_as t d (mem s).
Proof.
  intros Hk H Hq.
  assert (Hget : forall i s1 o, get_config t i (start d tm td u) = (s1, Ok o) -> s1 = start d tm td u /\
    match o with Some c => In c (tax_configs d) /\ cfg_tenant c = t | None => True end).
  { intros i s1 o Ho. apply scalar_found in Ho as [-> Ho]; [|apply (ky_configs _ Hk)]. split; [done|].
    destruct o as [c|]; [|done]. by destruct Ho as [Hin [Ht%Z.eqb_eq _]%andb_prop]. }
  destruct q; try done; cbn [serve_admin] in H; mbind_in H s1 y H1; injection H as <- _.
  - unfold upsert_tax_config in H1. mbind_in H1 s2 o H2. apply Hget in H2 as [-> Ho]. apply bind_lift_inv in H1 as (r & _ & H1).
    destruct o as [c|].
    + destruct Ho as [Hin Ht]. unfold assign in H1. rewrite run_orm, run_flush in H1. injection H1 as <- _. split_and!; try done.
      refine (filter_where_id (R := tax_config) _ _ _ c (ky_configs _ Hk) Hin _ _); cbn [cfg_tenant]; by rewrite ?Ht, Z.eqb_refl.
    + rewrite run_query in H1. destruct (existsb _ _); [|done]. unfold add in H1. rewrite run_orm, run_flush in H1.
      injection H1 as <- _. split_and!; try done. apply filter_snoc. cbn. by rewrite Z.eqb_refl.
  - unfold delete_tax_config in H1. mbind_in H1 s2 o H2. apply Hget in H2 as [-> Ho]. destruct o as [c|]; [|injection H1 as <- _; by split_and!].
    destruct Ho as [Hin Ht]. unfold remove in H1. rewrite run_orm, run_flush in H1. injection H1 as <- _. split_and!; try done.
    refine (filter_removed (R := tax_config) _ _ c (ky_configs _ Hk) Hin _). by rewrite Ht, Z.eqb_refl.
Qed.


(** a pack is applied only to a property of the tenant that has no
    pack yet or no bookings; the property then has the pack's code, currency,
    time zone and hours, and nothing else changes. *)
Theorem pack_applied_while_unlocked t code i tm td u d d' x :
  keys_ok d -> run (apply_country_pack t code i) tm td u d = (d', Ok x) ->
  exists pack prop, In pack (country_packs d) /\ pack_visible t pack = true /\ cp_code pack = strip code /\
    In prop (properties d) /\ p_tenant prop = t /\ p_id prop = i /\
    (p_pack prop = None \/ forall b, In b (bookings d) -> b_property b = i -> b_tenant b = t -> False) /\
    d' = put_properties (where_id i (with_pack pack) (properties d)) d.
Proof.
  intros Hk. unfold run. destruct (apply_country_pack _ _ _ _) as [s [y|e]] eqn:E; [|done]. intros [= <- <-].
  by apply (apply_inv t code i d tm td u s y).
Qed.

(** the tax rules of a pack cannot be changed after its creation: a
    request that brings any rule fails and changes nothing. *)
Theorem pack_rules_cannot_be_patched t code data r rs tm td u d :
  pk_taxes data = Some (Some (r :: rs)) ->
  (run (update_country_pack t code data) tm td u d).1 = d /\ is_ok (run (update_country_pack t code data) tm td u d).2 = false.
Proof.
  intros Hx. unfold run. destruct (update_country_pack _ _ _ _) as [s [x|e]] eqn:E; [|done]. exfalso.
  unfold update_country_pack in E. mbind_in E s1 row H1. apply bind_lift_inv in E as (p & Hp & _). unfold patched_pack in Hp.
  apply bind_Ok in Hp as (p1 & _ & Hp). unfold patched_taxes in Hp. by rewrite Hx in Hp.
Qed.
End laws.

(** ** A concrete tenant *)

Definition own_pack_row : CountryPack :=
  MkCountryPack "AA" (Some 1) "Mine" "EUR" "E" "before" 2 "UTC" "D" "en" 14 11 (JArr []) (JArr []) None false.
Definition thai : CountryPack :=
  MkCountryPack "TH" None "Thailand" "THB" "B" "before" 2 "Asia/Bangkok" "D" "th" 14 12 (JArr []) (JArr [JStr "cash"]) None true.
Definition inn : Property := MkProperty 3 1 "Inn" None "UTC" "EUR" 14 11.
Definition pack_db : DB := put_country_packs [own_pack_row; thai] (put_properties [inn] empty_db).

Lemma pack_db_ok : keys_ok pack_db.
Proof.
  split; [|repeat constructor; intros []|constructor]. apply NoDup_ListNoDup. apply (bool_decide_unpack _). vm_compute. reflexivity.
Qed.


Lemma pack_applied_while_unlocked_witness :
  exists d' x, run (apply_country_pack 1 "TH" 3) 0 0 9 pack_db = (d', Ok x) /\ pl_currency x = "THB"%string /\
    exists pack, cp_code pack = "TH"%string /\ d' = put_properties (where_id 3 (with_pack pack) (properties pack_db)) pack_db.
Proof.
  assert (H : exists d' x, run (apply_country_pack 1 "TH" 3) 0 0 9 pack_db = (d', Ok x) /\ pl_currency x = "THB"%string)
    by (eexists _, _; split; vm_compute; reflexivity).
  destruct H as (d' & x & E & Hx). exists d', x. split; [exact E|]. split; [exact Hx|].
  destruct (pack_applied_while_unlocked 1 "TH" 3 0 0 9 pack_db d' x pack_db_ok E) as (pack & prop & _ & _ & Hc & _ & _ & _ & _ & Hd).
  exists pack. split; [exact Hc|exact Hd].
Defined.

Lemma pack_rules_cannot_be_patched_witness :
  is_ok (run (update_country_pack 1 "AA" (PackPatch None None None None None None None None None None
    (Some (Some [TaxRuleSchema "VAT" "VAT" (Dec 7 (-2)) true ["all"%string] None true true])) None None)) 0 0 9 pack_db).2 = false.
Proof.
  apply (pack_rules_cannot_be_patched 1 "AA" (PackPatch None None None None None None None None None None
    (Some (Some [TaxRuleSchema "VAT" "VAT" (Dec 7 (-2)) true ["all"%string] None true true])) None None) 
    (TaxRuleSchema "VAT" "VAT" (Dec 7 (-2)) true ["all"%string] None true true) [] 0 0 9 pack_db eq_refl).
Defined.

(** A null name becomes the text None. *)
Example null_name_is_text :
  exists d', (run (update_country_pack 1 "AA" (PackPatch (Some None) None None None None None None None None None None None None)) 0 0 9 pack_db).1 = d' /\
    List.map cp_name (country_packs d') = ["None"; "Thailand"]%string.
Proof. eexists. split; [reflexivity|]. vm_compute. reflexivity. Qed.
