(* ===== verification/Payments.v ===== *)
(** * Card payments

    app/services/stripe_payment_service.py (saved cards, charges, refunds, the
    reconciliation of refunds made at Stripe), stripe_connect_service.py (the
    link of a property to a Stripe account, less the OAuth state, which is in
    OAuthState.v) and app/api/routes/stripe_inbound.py (the webhook).  Stripe's
    API is a parameter; its answers may differ from call to call, so each call
    takes a fresh number. *)

From stdpp Require Import gmap.
From S2P Require Import Prelude PyDecimal PyJson StayDates Calendar Tax Models Session Rates Folio Auth Webhooks.

Record card := Card {
  card_last4 : option string; card_brand : option string; card_exp_month : option Z; card_exp_year : option Z }.

(** An answer of Stripe: a value or the text of a [StripeError]. *)
Inductive stripe_answer (A : Type) : Type :=
  | Answered (a : A)
  | StripeError (message : string).
Arguments Answered {A} a.
Arguments StripeError {A} message.

(** [stripe.Webhook.construct_event] *)
Inductive stripe_event : Type :=
  | Event (d : dict)
  | InvalidPayload
  | InvalidSignature.

Class Stripe := {
  pm_retrieve : Z -> string -> string -> stripe_answer (option card);         (** card id, account *)
  pm_detach : Z -> string -> string -> stripe_answer unit;                   (** card id, account *)
  intent_create : Z -> Z -> string -> string -> string -> stripe_answer string; (** cents, currency, card id, account *)
  refund_create : Z -> string -> Z -> string -> stripe_answer unit;          (** intent, cents, account *)
  oauth_token : Z -> string -> stripe_answer (option string * bool);         (** code; account id and livemode *)
  oauth_deauthorize : Z -> string -> stripe_answer unit;                     (** account *)
  construct_event : string -> string -> string -> stripe_event               (** body, signature, secret *)
}.

(** The settings the services read. *)
Record stripe_settings := StripeSettings {
  stripe_secret_key : string; stripe_client_id : string; stripe_redirect_uri : string; stripe_webhook_secret : string }.

(** One call of the API. *)
Definition call {A} (f : Z -> stripe_answer A) : M (stripe_answer A) := n ← uuid4; mret (f n).

Definition StripePaymentError (detail : string) (status_code : Z) : exn := ServiceError "StripePaymentError" detail status_code.
Definition StripeConnectError (detail : string) (status_code : Z) : exn := ServiceError "StripeConnectError" detail status_code.

(** Storing a Decimal in a [Numeric(12, 2)] column. *)
Definition numeric_12_2 (x : dec) : result Z :=
  c ← numeric_14_2 x; if Z.abs c <? 10 ^ 12 then Ok c else Err DataError.

Section payments.
Context {env : Env} {crypto : Crypto} {net : Net} {stripe : Stripe} (settings : stripe_settings).

Definition require_stripe_secret : M unit :=
  if truthy (strip (stripe_secret_key settings)) then mret tt
  else raise (StripePaymentError "Stripe secret key is not configured" 503).

(** [(amount * 100).quantize(1, ROUND_HALF_UP)] *)
Definition money_to_stripe_cents (amount : dec) : result Z :=
  c ← dec_quantize ROUND_HALF_UP (dec_mul amount (dec_of_int 100)) 0; Ok (mant c).

(** Fernet refuses what it did not encrypt. *)
Definition decrypt_stripe_account_id (stored : string) : result string :=
  of_option (fernet_decrypt stored) (RuntimeError "InvalidToken").

Definition require_booking_for_payment (tenant_id booking_id : Z) : M Booking :=
  b ← scalar (booking_is tenant_id booking_id);
  lift (of_option b (StripePaymentError "booking not found" 404)).

Definition connection_of (tenant_id property_id : Z) (c : StripeConnection) : bool :=
  (sn_tenant c =? tenant_id) && (sn_property c =? property_id).

Definition active_connection_and_account (tenant_id property_id : Z) : M (StripeConnection * string) :=
  row ← scalar (fun c => connection_of tenant_id property_id c && bool_decide (sn_disconnected_at c = None));
  match row with
  | None => raise (StripePaymentError "Stripe is not connected for this property" 422)
  | Some row => plain ← lift (decrypt_stripe_account_id (sn_account row)); mret (row, plain)
  end.

(** [label.strip() if label and label.strip() else None] *)
Definition label_or_none (label : option string) : option string :=
  match label with Some l => if truthy (strip l) then Some (strip l) else None | None => None end.

(** ** Saved cards *)

Definition save_payment_method (tenant_id property_id : Z) (stripe_pm_id : string) (booking_id : option Z) (label : option string)
    : M StripePaymentMethod :=
  _ ← require_stripe_secret;
  '(_, acct) ← active_connection_and_account tenant_id property_id;
  _ ← match booking_id with
      | Some bid =>
          booking ← require_booking_for_payment tenant_id bid;
          if b_property booking =? property_id then mret tt
          else raise (StripePaymentError "booking does not belong to this property" 422)
      | None => mret tt
      end;
  pm_obj ← call (fun n => pm_retrieve n stripe_pm_id acct);
  match pm_obj with
  | StripeError msg => raise (StripePaymentError msg 422)
  | Answered c =>
      i ← uuid4; t ← get_now;
      let row := MkStripePaymentMethod i tenant_id property_id booking_id (strip stripe_pm_id) (c ≫= card_last4) (c ≫= card_brand)
        (c ≫= card_exp_month) (c ≫= card_exp_year) (label_or_none label) t in
      _ ← add row; _ ← flush; mret row
  end.

Definition list_payment_methods (tenant_id property_id : Z) (booking_id : option Z) : M (list StripePaymentMethod) :=
  rows ← select (fun m => (sp_tenant m =? tenant_id) && (sp_property m =? property_id)
    && match booking_id with Some b => bool_decide (sp_booking m = Some b) | None => true end);
  mret (order_by (fun a b => sp_created_at b <=? sp_created_at a) rows).

Definition payment_method_is (tenant_id i : Z) (m : StripePaymentMethod) : bool := (sp_tenant m =? tenant_id) && (sp_id m =? i).

Definition delete_payment_method (tenant_id pm_row_id : Z) : M unit :=
  _ ← require_stripe_secret;
  row ← scalar (payment_method_is tenant_id pm_row_id);
  match row with
  | None => raise (StripePaymentError "payment method not found" 404)
  | Some row =>
      '(_, acct) ← active_connection_and_account tenant_id (sp_property row);
      detached ← call (fun n => pm_detach n (sp_pm_id row) acct);
      match detached with
      | StripeError msg => raise (StripePaymentError msg 422)
      | Answered _ => _ ← remove (R := StripePaymentMethod) (sp_id row); flush
      end
  end.

(** ** Charges *)

(** A Stripe line of the folio. *)
Definition stripe_folio (tenant_id booking_id : Z) (amount : dec) (description : string) : M FolioTransaction :=
  i ← uuid4; t ← get_now;
  c ← lift (numeric_14_2 amount);
  let f := MkFolioTransaction i tenant_id booking_id "Payment" c (Some "stripe"%string) (Some description) t None "payment"
             (Some "stripe"%string) in
  _ ← add f; _ ← flush; mret f.

Definition add_charge (tenant_id property_id booking_id : Z) (folio_tx_id : option Z) (stripe_charge_id stripe_pm_id : string)
    (amount : dec) (currency status : string) (failure_message : option string) : M StripeCharge :=
  i ← uuid4; t ← get_now;
  c ← lift (numeric_12_2 amount);
  let ch := MkStripeCharge i tenant_id property_id (Some booking_id) folio_tx_id stripe_charge_id (Some stripe_pm_id) c currency
              status failure_message t in
  _ ← add ch; _ ← flush; mret ch.

(** What [charge_booking] leaves: a charge, or a refusal by Stripe, recorded
    and committed before [StripePaymentError(message, 422)] is raised. *)
Inductive charge_outcome : Type :=
  | Charged (ch : StripeCharge)
  | Declined (message : string).

(** [charge_booking] from the checks to the call of Stripe: the booking, the
    card, the account and the currency. *)
Definition charge_context (tenant_id booking_id stripe_pm_row_id : Z) (amount : dec)
    : M (Booking * StripePaymentMethod * string * string) :=
  _ ← require_stripe_secret;
  if dec_leb amount (dec_of_int 0) then raise (StripePaymentError "amount must be positive" 422)
  else
    booking ← require_booking_for_payment tenant_id booking_id;
    pm_row ← scalar (payment_method_is tenant_id stripe_pm_row_id);
    match pm_row with
    | None => raise (StripePaymentError "saved payment method not found" 422)
    | Some pm_row =>
        if negb (sp_property pm_row =? b_property booking) then
          raise (StripePaymentError "payment method does not belong to this booking's property" 422)
        else if match sp_booking pm_row with Some b => negb (b =? booking_id) | None => false end then
          raise (StripePaymentError "payment method is restricted to another booking" 422)
        else
          prop ← get_property tenant_id (b_property booking);
          match prop with
          | None => raise (StripePaymentError "property not found" 404)
          | Some prop =>
              '(_, acct) ← active_connection_and_account tenant_id (b_property booking);
              mret (booking, pm_row, acct, lower (strip (p_currency prop)))
          end
    end.

Definition charge_booking (tenant_id booking_id stripe_pm_row_id : Z) (amount : dec) (label : option string) : M charge_outcome :=
  '(booking, pm_row, acct, currency) ← charge_context tenant_id booking_id stripe_pm_row_id amount;
  amount_q ← lift (quantize_cents_even amount);
  amount_cents ← lift (money_to_stripe_cents amount_q);
  pi ← call (fun n => intent_create n amount_cents currency (sp_pm_id pm_row) acct);
  match pi with
  | StripeError msg =>
      failed ← uuid4;
      _ ← add_charge tenant_id (b_property booking) booking_id None ("failed_" ++ uuid_str failed) (sp_pm_id pm_row) amount_q
            (upper currency) "failed" (Some msg);
      mret (Declined msg)
  | Answered pi_id =>
      if negb (truthy pi_id) then raise (StripePaymentError "Stripe did not return a payment intent id" 502)
      else
        folio ← stripe_folio tenant_id booking_id amount_q (default "Stripe card payment"%string (label_or_none label));
        ch ← add_charge tenant_id (b_property booking) booking_id (Some (f_id folio)) pi_id (sp_pm_id pm_row) amount_q
               (upper currency) "succeeded" None;
        mret (Charged ch)
  end.

(** ** Refunds *)

Definition charge_is (tenant_id i : Z) (c : StripeCharge) : bool := (sc_tenant c =? tenant_id) && (sc_id c =? i).

(** What may be refunded of a charge: nothing but one refund of a charge that
    went through. *)
Definition refusal_of_refund (ch : StripeCharge) (booking_id : Z) : option (string * Z) :=
  if negb (bool_decide (sc_booking ch = Some booking_id)) then Some ("charge does not belong to this booking"%string, 404)
  else if String.eqb (sc_status ch) "failed" then Some ("cannot refund a failed charge"%string, 422)
  else if String.eqb (sc_status ch) "refunded" then Some ("charge is already fully refunded"%string, 422)
  else if String.eqb (sc_status ch) "partial_refund" then Some ("only one refund is allowed per charge"%string, 422)
  else None.

Definition refunded_status (refund_amt charge_amt : dec) : string :=
  if dec_leb charge_amt refund_amt then "refunded" else "partial_refund".

(** The bookkeeping of a refund: the charge's status, then a negative payment. *)
Definition book_refund (tenant_id : Z) (ch : StripeCharge) (booking_id : Z) (refund_amt : dec) (description : string) : M unit :=
  _ ← assign (R := StripeCharge) (sc_id ch) (set_sc_status (refunded_status refund_amt (cents (sc_amount ch))));
  _ ← flush;
  q ← lift (quantize_cents_even (dec_neg refund_amt));
  _ ← stripe_folio tenant_id booking_id q description;
  mret tt.

Definition refund_stripe_charge (tenant_id booking_id stripe_charge_row_id : Z) (amount : option dec) : M unit :=
  _ ← require_stripe_secret;
  _ ← require_booking_for_payment tenant_id booking_id;
  ch ← scalar (charge_is tenant_id stripe_charge_row_id);
  match ch with
  | None => raise (StripePaymentError "charge not found" 404)
  | Some ch =>
      match refusal_of_refund ch booking_id with
      | Some (detail, code) => raise (StripePaymentError detail code)
      | None =>
          refund_amt ← lift (match amount with None => Ok (cents (sc_amount ch)) | Some a => quantize_cents_even a end);
          if bool_decide (amount <> None) && dec_leb refund_amt (dec_of_int 0) then
            raise (StripePaymentError "refund amount must be positive" 422)
          else if dec_ltb (cents (sc_amount ch)) refund_amt then
            raise (StripePaymentError "refund amount exceeds charge amount" 422)
          else
            '(_, acct) ← active_connection_and_account tenant_id (sc_property ch);
            refund_cents ← lift (money_to_stripe_cents refund_amt);
            answer ← call (fun n => refund_create n (sc_charge_id ch) refund_cents acct);
            match answer with
            | StripeError msg => raise (StripePaymentError msg 422)
            | Answered _ => book_refund tenant_id ch booking_id refund_amt "Stripe refund"
            end
      end
  end.

(** [reconcile_refund_from_webhook]; a charge always has a booking. *)
Definition reconcile_refund_from_webhook (tenant_id stripe_charge_row_id : Z) (amount_refunded : option dec) : M bool :=
  ch ← scalar (charge_is tenant_id stripe_charge_row_id);
  match ch with
  | None => mret false
  | Some ch =>
      if negb (String.eqb (sc_status ch) "succeeded") then mret false
      else
        refund_amt ← lift (match amount_refunded with
          | Some a => if dec_ltb (dec_of_int 0) a then quantize_cents_even a else Ok (cents (sc_amount ch))
          | None => Ok (cents (sc_amount ch))
          end);
        let refund_amt := if dec_ltb (cents (sc_amount ch)) refund_amt then cents (sc_amount ch) else refund_amt in
        match sc_booking ch with
        | None => raise IntegrityError
        | Some bid => _ ← book_refund tenant_id ch bid refund_amt "Stripe refund (webhook)"; mret true
        end
  end.

Definition list_booking_stripe_charges (tenant_id booking_id : Z) : M (list StripeCharge) :=
  _ ← require_booking_for_payment tenant_id booking_id;
  rows ← select (fun c => (sc_tenant c =? tenant_id) && bool_decide (sc_booking c = Some booking_id));
  mret (order_by (fun a b => (sc_created_at a <? sc_created_at b)
    || ((sc_created_at a =? sc_created_at b) && (sc_id a <=? sc_id b))) rows).

(** ** The webhook *)

Definition HANDLED_EVENTS : list string := ["charge.refunded"; "charge.dispute.created"]%string.

(** [int(x)] of a JSON value; [None] where it raises TypeError or ValueError. *)
Definition int_of_json (j : json) : result (option Z) :=
  match j with
  | JInt z => Ok (Some z)
  | JBool b => Ok (Some (if b then 1 else 0))
  | JFloat r _ =>
      match parse_dec r with
      | Some d => Ok (Some (if 0 <=? expo d then scaled d 0 else Z.quot (mant d) (10 ^ (- expo d))))
      | None => if String.eqb r "nan" then Ok None else Err OverflowError
      end
  | JStr s =>
      let '(sg, l) := take_sign (list_ascii_of_string (strip s)) in
      let '(v, n, rest) := take_digits l 0 0 in
      Ok (match rest with [] => if n =? 0 then None else Some (sg * v) | _ => None end)
  | _ => Ok None
  end.

Definition cents_to_money (j : json) : result (option dec) :=
  z ← int_of_json j;
  match z with
  | None => Ok None
  | Some z => q ← dec_div (dec_of_int z) (dec_of_int 100); m ← quantize_cents_even q; Ok (Some m)
  end.

(** [str(x or "")] *)
Definition text_or_empty (o : option json) : string :=
  match o with Some j => if py_bool j then py_str j else EmptyString | None => EmptyString end.

(** [(x or {})], used as a dict. *)
Definition dict_or_empty (o : option json) : result dict :=
  match o with
  | Some (JObj d) => Ok d
  | Some j => if py_bool j then Err AttributeOrTypeError else Ok []
  | None => Ok []
  end.

(** [lookup_stripe_charge_for_webhook]: across tenants. *)
Definition lookup_stripe_charge_for_webhook (pi_id : string) : M (option (Z * Z)) :=
  query (fun d => option_map (fun c => (sc_tenant c, sc_id c))
    (List.find (fun c => String.eqb (sc_charge_id c) pi_id) (charges d))).

Definition HTTPException (status_code : Z) (detail : string) : exn := ServiceError "HTTPException" detail status_code.

(** The work on a known charge, in a transaction of its own. *)
Definition on_charge_event (event_type : string) (obj : dict) (tenant_id charge_id : Z) : M unit :=
  if String.eqb event_type "charge.refunded" then
    amount_refunded ← lift (cents_to_money (dict_get_or obj "amount_refunded" JNull));
    changed ← reconcile_refund_from_webhook tenant_id charge_id amount_refunded;
    if (changed : bool) then record_audit tenant_id "stripe.refund_reconciled" "stripe_charge" (Some charge_id) else mret tt
  else record_audit tenant_id "stripe.dispute_created" "stripe_charge" (Some charge_id).

(** The status it answers with. *)
Definition inbound_stripe_webhook (body : string) (signature : option string) : M string :=
  let secret := strip (stripe_webhook_secret settings) in
  if negb (truthy secret) then raise (HTTPException 503 "Stripe webhooks are not configured")
  else
    match signature with
    | None | Some EmptyString => raise (HTTPException 400 "Missing signature")
    | Some sig =>
        match construct_event body sig secret with
        | InvalidPayload => raise (HTTPException 400 "Invalid payload")
        | InvalidSignature => raise (HTTPException 400 "Invalid signature")
        | Event event =>
            let event_type := text_or_empty (dict_get event "type") in
            if negb (str_in event_type HANDLED_EVENTS) then mret "ignored"%string
            else
              data ← lift (dict_or_empty (dict_get event "data"));
              obj ← lift (dict_or_empty (dict_get data "object"));
              let pi_id := strip (text_or_empty (dict_get obj "payment_intent")) in
              if negb (truthy pi_id) then mret "ignored"%string
              else
                row ← transaction (lookup_stripe_charge_for_webhook pi_id);
                match row with
                | None => mret "ignored"%string
                | Some (tenant_id, charge_id) =>
                    _ ← transaction (on_charge_event event_type obj tenant_id charge_id);
                    mret "ok"%string
                end
        end
    end.

(** ** Connecting an account *)

Definition require_oauth_settings : M unit :=
  if negb (truthy (strip (stripe_client_id settings))) then raise (StripeConnectError "Stripe client_id is not configured" 503)
  else if negb (truthy (strip (stripe_redirect_uri settings))) then
    raise (StripeConnectError "Stripe redirect_uri is not configured" 503)
  else mret tt.

Definition require_connect_secret : M unit :=
  if truthy (strip (stripe_secret_key settings)) then mret tt
  else raise (StripeConnectError "Stripe secret key is not configured" 503).

(** The [connected] half of [get_stripe_status]. *)
Definition get_stripe_status (tenant_id property_id : Z) : M (option (bool * Z)) :=
  row ← scalar (fun c => connection_of tenant_id property_id c && bool_decide (sn_disconnected_at c = None));
  mret (option_map (fun r => (sn_livemode r, sn_connected_at r)) row).

Definition disconnect_stripe_connection (tenant_id property_id : Z) : M unit :=
  _ ← require_connect_secret;
  _ ← require_oauth_settings;
  row ← scalar (fun c => connection_of tenant_id property_id c && bool_decide (sn_disconnected_at c = None));
  match row with
  | None => raise (StripeConnectError "Stripe is not connected for this property" 404)
  | Some row =>
      plain ← lift (decrypt_stripe_account_id (sn_account row));
      answer ← call (fun n => oauth_deauthorize n plain);
      match answer with
      | StripeError msg => raise (StripeConnectError msg 502)
      | Answered _ => t ← get_now; _ ← assign (sn_id row) (set_sn_disconnected_at (Some t)); flush
      end
  end.

(** [exchange_code_for_connection] after the state has named the property. *)
Definition connect_property (tenant_id property_id : Z) (code : string) : M StripeConnection :=
  prop ← get_property tenant_id property_id;
  match prop with
  | None => raise (StripeConnectError "property not found" 404)
  | Some _ =>
      answer ← call (fun n => oauth_token n code);
      match answer with
      | StripeError msg => raise (StripeConnectError msg 400)
      | Answered (stripe_user_id, livemode) =>
          match stripe_user_id with
          | None | Some EmptyString => raise (StripeConnectError "Stripe did not return stripe_user_id" 502)
          | Some user =>
              n ← uuid4;
              let ciphertext := fernet_encrypt n user in
              t ← get_now;
              existing ← scalar (connection_of tenant_id property_id);
              match existing with
              | Some row =>
                  let renew r := set_sn_disconnected_at None (set_sn_connected_at t (set_sn_livemode livemode
                    (set_sn_account ciphertext r))) in
                  _ ← assign (sn_id row) renew; _ ← flush; mret (renew row)
              | None =>
                  i ← uuid4;
                  let row := MkStripeConnection i tenant_id property_id ciphertext livemode t None in
                  _ ← add row; _ ← flush; mret row
              end
          end
      end
  end.

End payments.
