(* ===== verification/PaymentsLaws.v ===== *)
(** * Laws of card payments

    A charge that Stripe accepts is one payment on the folio; a refund is one
    negative payment, at most once per charge and never above it; whatever
    payment requests and webhooks are served, the Stripe lines of a booking's
    folio add up to what its charges still hold. *)

From stdpp Require Import gmap.
From S2P Require Import Prelude PyDecimal PyJson StayDates Calendar Tax TaxLaws Models Session Rates Folio FolioLaws Auth AuthLaws Webhooks WebhookLaws Payments.

(** ** Money *)

Lemma leb_cents a b : dec_leb (cents a) (cents b) = (a <=? b).
Proof.
  unfold dec_leb, dec_ltb, cents, scaled. cbn [expo mant]. change (10 ^ _) with 1.
  rewrite !Z.mul_1_r. destruct (Z.ltb_spec b a), (Z.leb_spec a b); cbn; lia.
Qed.

Lemma ltb_cents a b : dec_ltb (cents a) (cents b) = (a <? b).
Proof.
  unfold dec_ltb, cents, scaled. cbn [expo mant]. change (10 ^ _) with 1. by rewrite !Z.mul_1_r.
Qed.

Lemma leb_cents_zero a : dec_leb (cents a) (dec_of_int 0) = (a <=? 0).
Proof.
  unfold dec_leb, dec_ltb, cents, dec_of_int, scaled. cbn [expo mant Z.min Z.compare]. change (Z.min 0 (-2)) with (-2).
  change (10 ^ (-2 - -2)) with 1. rewrite Z.mul_1_r, Z.mul_0_l.
  destruct (Z.ltb_spec 0 a), (Z.leb_spec a 0); cbn; lia.
Qed.

(** What [quantize] returns is in cents, and not below zero for an amount that
    is not. *)
Lemma quantize_even_shape x q : quantize_cents_even x = Ok q -> q = cents (mant q).
Proof. unfold quantize_cents_even, dec_quantize. destruct (ndigits _ <=? prec); [|done]. by intros [= <-]. Qed.

Lemma numeric_12 c x : numeric_12_2 (cents c) = Ok x -> x = c.
Proof.
  unfold numeric_12_2. intros H. apply bind_Ok in H as (y & Hy & H). apply numeric_cents in Hy as [-> _].
  destruct (_ <? _); [|done]. by injection H.
Qed.

Lemma refund_line_amount r q c : quantize_cents_even (dec_neg (cents r)) = Ok q -> numeric_14_2 q = Ok c -> c = - r.
Proof.
  unfold quantize_cents_even, dec_neg. intros Hq Hc. apply quantize_fix in Hq as [_ ->]. by apply numeric_cents in Hc as [-> _].
Qed.

Lemma round_nonneg rm n d : 0 < d -> 0 <= n -> 0 <= round_div rm n d.
Proof.
  intros Hd Hn. unfold round_div, round_mag. apply Z.mul_nonneg_nonneg; [lia|].
  assert (0 <= Z.abs n / d) by (apply Z.div_pos; lia).
  assert (0 <= (2 * Z.abs n + d) / (2 * d)) by (apply Z.div_pos; lia). destruct rm; repeat case_match; lia.
Qed.

Lemma quantize_even_nonneg x q : quantize_cents_even x = Ok q -> 0 <= mant x -> 0 <= mant q.
Proof.
  unfold quantize_cents_even, dec_quantize. intros H Hx. destruct (ndigits _ <=? prec); [|done]. injection H as <-. cbn [mant].
  destruct (-2 <=? expo x) eqn:E; [unfold scaled; nia|]. apply round_nonneg; [apply Z.pow_pos_nonneg; lia|done].
Qed.

Lemma positive_mant x : dec_leb x (dec_of_int 0) = false -> 0 < mant x.
Proof.
  unfold dec_leb, dec_ltb, dec_of_int, scaled. cbn [mant expo]. rewrite Z.mul_0_l. intros H.
  apply negb_false_iff, Z.ltb_lt in H. nia.
Qed.

Section laws.
Context {env : Env} {crypto : Crypto} {net : Net} {stripe : Stripe} (settings : stripe_settings).

(** ** The rows the operations add *)

(** Everything the transaction has done is flushed, and is [d]. *)
Definition settled_at (d : DB) (s : session) : Prop := mem s = d /\ disk s = d.

Lemma stripe_folio_inv t bid a de s s' f :
  stripe_folio t bid a de s = (s', Ok f) ->
  exists c, numeric_14_2 a = Ok c /\ on_folio t bid f = true /\ f_type f = "Payment"%string /\ f_amount f = c /\
    f_channel f = Some "stripe"%string /\ uuids s' = uuids s + 1 /\
    settled_at (put_folio (folio (mem s) ++ [f]) (mem s)) s'.
Proof.
  unfold stripe_folio. intros H. mbind_in H s1 i H1. injection H1 as <- <-. rewrite run_now in H.
  apply bind_lift_inv in H as (c & Hc & H). revert H. unfold add. mrun. intros [= <- <-]. exists c.
  split_and!; try done. unfold on_folio. cbn [f_tenant f_booking]. by rewrite !Z.eqb_refl.
Qed.

Lemma add_charge_inv t pid bid fid cid pm a cur st msg s s' ch :
  add_charge t pid bid fid cid pm a cur st msg s = (s', Ok ch) ->
  exists c, numeric_12_2 a = Ok c /\ sc_tenant ch = t /\ sc_property ch = pid /\ sc_booking ch = Some bid /\ sc_folio ch = fid /\
    sc_amount ch = c /\ sc_status ch = st /\ sc_id ch = uuids s /\
    settled_at (put_charges (charges (mem s) ++ [ch]) (mem s)) s'.
Proof.
  unfold add_charge. intros H. mbind_in H s1 i H1. injection H1 as <- <-. rewrite run_now in H.
  apply bind_lift_inv in H as (c & Hc & H). revert H. unfold add. mrun. intros [= <- <-]. by exists c.
Qed.

(** The checks and the calls of Stripe change no row. *)
Definition untouched (s s' : session) : Prop := mem s' = mem s /\ disk s' = disk s /\ uuids s <= uuids s'.

Lemma call_inv {A} (f : Z -> stripe_answer A) s s' x : call f s = (s', Ok x) -> untouched s s'.
Proof. unfold call. intros H. mbind_in H s1 n H1. injection H1 as <- <-. injection H as <- _. unfold untouched. cbn. split_and!; [done|done|lia]. Qed.

Lemma connection_inv t pid s s' x : active_connection_and_account t pid s = (s', Ok x) -> s' = s.
Proof.
  unfold active_connection_and_account. intros H. mbind_in H s1 o H1. cbv [scalar mbind M_bind select mret M_ret] in H1. simplify_eq.
  destruct (hd_error _); [|done]. apply bind_lift_inv in H as (plain & _ & H). cbv [mret M_ret] in H. by simplify_eq.
Qed.

Lemma scalar_inv {R} `{Entity R} (p : R -> bool) s s' o : scalar p s = (s', Ok o) -> s' = s.
Proof. cbv [scalar mbind M_bind select mret M_ret]. intros H'. by simplify_eq. Qed.

Lemma require_booking_inv t bid s s' b : require_booking_for_payment t bid s = (s', Ok b) -> s' = s.
Proof.
  unfold require_booking_for_payment. intros H. mbind_in H s1 o H1. apply scalar_inv in H1 as ->.
  destruct o; [|done]. cbv in H. by simplify_eq.
Qed.

Lemma secret_inv s s' x : require_stripe_secret settings s = (s', Ok x) -> s' = s.
Proof. unfold require_stripe_secret. case_match; [|done]. cbv. intros H'. by simplify_eq. Qed.

(** ** Charging *)

Lemma charge_context_inv t bid pm amount s s' b m acct cur :
  charge_context settings t bid pm amount s = (s', Ok (b, m, acct, cur)) -> s' = s /\ dec_leb amount (dec_of_int 0) = false.
Proof.
  unfold charge_context, get_property. intros H. mbind_in H s1 x H1. apply secret_inv in H1 as ->.
  destruct (dec_leb amount _); [done|]. split; [|done].
  mbind_in H s2 b' H1. apply require_booking_inv in H1 as ->. mbind_in H s3 o H1. apply scalar_inv in H1 as ->.
  destruct o as [m'|]; [|done]. destruct (negb _); [done|]. destruct (match sp_booking m' with Some _ => _ | None => _ end); [done|].
  mbind_in H s4 o H1. apply scalar_inv in H1 as ->. destruct o as [pr|]; [|done].
  mbind_in H s5 ca H1. destruct ca as [cn ac]. apply connection_inv in H1 as ->. cbv [mret M_ret] in H. by simplify_eq.
Qed.

(** What a charge leaves of a database: one payment and one charge that went
    through, or one failed charge. *)
Definition charge_effect (u t bid c : Z) (d d' : DB) (o : charge_outcome) : Prop :=
  match o with
  | Charged ch =>
      exists f, on_folio t bid f = true /\ f_type f = "Payment"%string /\ f_amount f = c /\ f_channel f = Some "stripe"%string /\
        sc_tenant ch = t /\ sc_booking ch = Some bid /\ sc_folio ch = Some (f_id f) /\ sc_amount ch = c /\
        sc_status ch = "succeeded"%string /\ u <= sc_id ch /\
        d' = put_charges (charges d ++ [ch]) (put_folio (folio d ++ [f]) d)
  | Declined _ =>
      exists ch, sc_tenant ch = t /\ sc_booking ch = Some bid /\ sc_amount ch = c /\ sc_status ch = "failed"%string /\ u <= sc_id ch /\
        d' = put_charges (charges d ++ [ch]) d
  end.

Lemma charge_inv t bid pm amount label s s' o :
  charge_booking settings t bid pm amount label s = (s', Ok o) ->
  exists c, 0 <= c /\ quantize_cents_even amount = Ok (cents c) /\ charge_effect (uuids s) t bid c (mem s) (mem s') o /\
    disk s' = mem s'.
Proof.
  unfold charge_booking. intros H. mbind_in H s1 ctx H1. destruct ctx as [[[b m] acct] cur].
  apply charge_context_inv in H1 as [-> Hpos]. apply bind_lift_inv in H as (q & Hq & H).
  apply bind_lift_inv in H as (ac & _ & H). mbind_in H s2 pi H2. apply call_inv in H2 as (Hm & Hd & Hu).
  pose proof (quantize_even_shape _ _ Hq) as Eq. rewrite Eq in H, Hq. exists (mant q).
  split; [apply (quantize_even_nonneg _ _ Hq), Z.lt_le_incl, positive_mant, Hpos|]. split; [done|].
  destruct pi as [pi_id|msg].
  - destruct (negb _); [done|]. mbind_in H s3 f H3. apply stripe_folio_inv in H3 as (c & Hc & Hon & Hty & Ham & Hch & Hu3 & Hs3 & Hd3).
    apply numeric_cents in Hc as [-> _]. mbind_in H s4 ch H4.
    apply add_charge_inv in H4 as (c & Hc & Ht & Hp & Hb & Hf & Hca & Hst & Hid & Hs4 & Hd4).
    apply numeric_12 in Hc as ->. cbv [mret M_ret] in H. simplify_eq. rewrite Hs4, Hs3, Hm. split_and!.
    + exists f. split_and!; try done. lia.
    + by rewrite Hd4, Hs3, Hm.
  - mbind_in H s3 i H3. injection H3 as <- <-. mbind_in H s4 ch H4.
    apply add_charge_inv in H4 as (c & Hc & Ht & Hp & Hb & Hf & Hca & Hst & Hid & Hs4 & Hd4).
    apply numeric_12 in Hc as ->. cbv [mret M_ret] in H. simplify_eq. cbn [mem uuids] in *. rewrite Hs4, Hm. split_and!.
    + exists ch. split_and!; try done. lia.
    + by rewrite Hd4, Hm.
Qed.

Lemma balance_with_charges l d t bid : balance (put_charges l d) t bid = balance d t bid.
Proof. done. Qed.

(** a charge that Stripe accepts is one payment of the rounded
    amount on the booking's folio, linked to one charge row, and takes the
    amount off the balance; a declined one leaves a failed charge row and no
    folio line; any other outcome leaves nothing. *)
Theorem charge_settles t bid pm amount label tm td u d d' r :
  run (charge_booking settings t bid pm amount label) tm td u d = (d', r) ->
  match r with
  | Ok o => exists c, 0 <= c /\ quantize_cents_even amount = Ok (cents c) /\ charge_effect u t bid c d d' o /\
      balance d' t bid = balance d t bid - match o with Charged _ => c | Declined _ => 0 end
  | Err _ => d' = d
  end.
Proof.
  unfold run. destruct (charge_booking _ _ _ _ _ _ _) as [s [o|e]] eqn:E; intros [= <- <-]; [|done].
  apply charge_inv in E as (c & Hc & Hq & Heff & _). exists c. cbn [mem start uuids] in Heff. split_and!; try done.
  destruct o as [ch|msg]; cbn [charge_effect] in Heff.
  - destruct Heff as (f & Hon & Hty & Ham & _ & _ & _ & _ & _ & _ & _ & ->). rewrite balance_with_charges, balance_append by done.
    unfold contribution, is_charge, is_payment. rewrite Hty, Ham. cbn. lia.
  - destruct Heff as (ch & _ & _ & _ & _ & _ & ->). rewrite balance_with_charges. lia.
Qed.
(** ** Refunding *)

(** The status of a charge of [a] after a refund of [r]. *)
Definition after_refund (r a : Z) : string := if a <=? r then "refunded" else "partial_refund".

(** One refund of [r] of the charge: its status, and a negative payment. *)
Definition refund_effect (t bid : Z) (ch : StripeCharge) (r : Z) (d d' : DB) : Prop :=
  exists f, on_folio t bid f = true /\ f_type f = "Payment"%string /\ f_amount f = - r /\ f_channel f = Some "stripe"%string /\
    d' = put_folio (folio d ++ [f]) (put_charges (where_id (sc_id ch) (set_sc_status (after_refund r (sc_amount ch))) (charges d)) d).

Lemma book_refund_inv t ch bid r de s s' :
  book_refund t ch bid (cents r) de s = (s', Ok tt) -> refund_effect t bid ch r (mem s) (mem s') /\ disk s' = mem s'.
Proof.
  unfold book_refund, refunded_status. rewrite leb_cents. intros H. unfold assign in H. rewrite run_orm, run_flush in H.
  apply bind_lift_inv in H as (q & Hq & H). mbind_in H s1 f H1. cbv [mret M_ret] in H. simplify_eq.
  apply stripe_folio_inv in H1 as (c & Hc & Hon & Hty & Ham & Hch & _ & Hm & Hd). rewrite Hm, Hd.
  rewrite (refund_line_amount _ _ _ Hq Hc) in Ham. split; [|done]. by exists f.
Qed.

Lemma refund_inv t bid i amount s s' :
  synced StripeCharge s -> refund_stripe_charge settings t bid i amount s = (s', Ok tt) ->
  exists ch r, In ch (charges (mem s)) /\ charge_is t i ch = true /\ sc_booking ch = Some bid /\
    ~ In (sc_status ch) ["failed"; "refunded"; "partial_refund"]%string /\ (0 < r \/ r = sc_amount ch) /\ r <= sc_amount ch /\
    match amount with Some a => quantize_cents_even a = Ok (cents r) | None => r = sc_amount ch end /\
    refund_effect t bid ch r (mem s) (mem s') /\ disk s' = mem s'.
Proof.
  unfold refund_stripe_charge. intros Hs H. mbind_in H s1 x H1. apply secret_inv in H1 as ->.
  mbind_in H s2 b H1. apply require_booking_inv in H1 as ->. rewrite run_scalar_synced in H by done.
  destruct (List.find _ _) as [ch|] eqn:Ef; [|done]. apply find_some in Ef as [Hin Hp].
  destruct (refusal_of_refund ch bid) as [[de co]|] eqn:Er; [done|]. unfold refusal_of_refund in Er.
  destruct (bool_decide_reflect (sc_booking ch = Some bid)) as [Hb|]; [|done]. cbn [negb] in Er.
  destruct (String.eqb_spec (sc_status ch) "failed"); [done|]. destruct (String.eqb_spec (sc_status ch) "refunded"); [done|].
  destruct (String.eqb_spec (sc_status ch) "partial_refund"); [done|].
  apply bind_lift_inv in H as (q & Hq & H).
  destruct (bool_decide (amount <> None) && dec_leb q (dec_of_int 0)) eqn:Hpos; [done|].
  destruct (dec_ltb _ q) eqn:Hle; [done|].
  mbind_in H s3 ca H1. destruct ca as [cn acct]. apply connection_inv in H1 as ->.
  apply bind_lift_inv in H as (rc & _ & H). mbind_in H s4 an H1. apply call_inv in H1 as (Hm & Hd & _). destruct an as [u|]; [|done].
  assert (Hsh : q = cents (mant q)).
  { destruct amount as [a|]; [by eapply quantize_even_shape|]. by injection Hq as <-. }
  rewrite Hsh in *. rewrite leb_cents_zero in Hpos. rewrite ltb_cents in Hle. apply Z.ltb_ge in Hle.
  apply book_refund_inv in H as [He Hd']. rewrite Hm in He. exists ch, (mant q). split_and!; try done.
  - cbn. intuition congruence.
  - destruct amount as [a|]; [left|right; by injection Hq]. rewrite bool_decide_true in Hpos by done. cbn [andb] in Hpos. lia.
  - destruct amount as [a|]; [done|]. by injection Hq.
Qed.

Lemma reconcile_inv t i amount s s' b :
  synced StripeCharge s -> reconcile_refund_from_webhook t i amount s = (s', Ok b) ->
  if b then
    exists ch r bid, In ch (charges (mem s)) /\ charge_is t i ch = true /\ sc_booking ch = Some bid /\
      sc_status ch = "succeeded"%string /\ r <= sc_amount ch /\ (0 <= r \/ r = sc_amount ch) /\
      refund_effect t bid ch r (mem s) (mem s') /\ disk s' = mem s'
  else s' = s.
Proof.
  unfold reconcile_refund_from_webhook. intros Hs H. rewrite run_scalar_synced in H by done.
  destruct (List.find _ _) as [ch|] eqn:Ef; [|cbv [mret M_ret] in H; by simplify_eq]. apply find_some in Ef as [Hin Hp].
  destruct (String.eqb_spec (sc_status ch) "succeeded") as [Hst|]; [|cbn [negb] in H; injection H as <- <-; done].
  cbn [negb] in H. apply bind_lift_inv in H as (q & Hq & H).
  destruct (sc_booking ch) as [bid|] eqn:Hb; [|done].
  assert (Hsh : q = cents (mant q) /\ (0 <= mant q \/ mant q = sc_amount ch)).
  { destruct amount as [a|]; [|injection Hq as <-; split; [done|by right]].
    destruct (dec_ltb (dec_of_int 0) a) eqn:Ha; [|injection Hq as <-; split; [done|by right]].
    split; [by eapply quantize_even_shape|]. left. apply (quantize_even_nonneg _ _ Hq), Z.lt_le_incl, positive_mant.
    unfold dec_leb. by rewrite Ha. }
  destruct Hsh as [Hsh Hr]. rewrite Hsh in H. rewrite ltb_cents in H.
  mbind_in H s1 u H1. destruct u. cbv [mret M_ret] in H. simplify_eq.
  destruct (Z.ltb_spec (sc_amount ch) (mant q)); apply book_refund_inv in H1 as [He Hd].
  - exists ch, (sc_amount ch), bid. split_and!; try done. by right.
  - exists ch, (mant q), bid. split_and!; try done.
Qed.

(** ** What the charges still hold *)

Definition stripe_line (t bid : Z) (f : FolioTransaction) : bool :=
  on_folio t bid f && bool_decide (f_channel f = Some "stripe"%string).
(** The Stripe lines of a booking's folio. *)
Definition stripe_net (t bid : Z) (d : DB) : Z := sumZ (List.map f_amount (List.filter (stripe_line t bid) (folio d))).

Definition charge_of (t bid : Z) (c : StripeCharge) : bool := (sc_tenant c =? t) && bool_decide (sc_booking c = Some bid).
(** The money of a booking's charges in one of the statuses. *)
Definition weight (t bid : Z) (sts : list string) (c : StripeCharge) : Z :=
  if charge_of t bid c && str_in (sc_status c) sts then sc_amount c else 0.
Definition held (t bid : Z) (sts : list string) (d : DB) : Z := sumZ (List.map (weight t bid sts) (charges d)).

(** Every charge has a known status, and on each folio the Stripe lines add up
    to at least what the charges in full force hold and at most what they and
    the partly refunded ones were. *)
Record payments_ok (d : DB) : Prop := {
  pk_ids : List.NoDup (List.map sc_id (charges d));
  pk_amounts : forall c, In c (charges d) -> 0 <= sc_amount c;
  pk_status : forall c, In c (charges d) -> In (sc_status c) ["succeeded"; "failed"; "refunded"; "partial_refund"]%string;
  pk_low : forall t bid, held t bid ["succeeded"]%string d <= stripe_net t bid d;
  pk_high : forall t bid, stripe_net t bid d <= held t bid ["succeeded"; "partial_refund"]%string d }.

Lemma payments_ext d d' : charges d' = charges d -> folio d' = folio d -> payments_ok d -> payments_ok d'.
Proof. intros Hc Hf [H1 H2 H3 H4 H5]. split; unfold held, stripe_net in *; rewrite ?Hc, ?Hf; done. Qed.

Lemma net_app t bid f d :
  stripe_net t bid (put_folio (folio d ++ [f]) d) = stripe_net t bid d + (if stripe_line t bid f then f_amount f else 0).
Proof.
  unfold stripe_net. cbn [folio put_folio]. rewrite List.filter_app, List.map_app, sumZ_app. cbn [List.filter].
  destruct (stripe_line t bid f); cbn; lia.
Qed.

Lemma stripe_line_iff t bid t' bid' f :
  on_folio t bid f = true -> f_channel f = Some "stripe"%string ->
  stripe_line t' bid' f = (t' =? t) && (bid' =? bid).
Proof.
  unfold stripe_line, on_folio. intros [->%Z.eqb_eq ->%Z.eqb_eq]%andb_prop ->. rewrite bool_decide_true, andb_true_r by done.
  by rewrite (Z.eqb_sym t t'), (Z.eqb_sym bid bid').
Qed.

Lemma charge_of_iff t bid t' bid' c :
  sc_tenant c = t -> sc_booking c = Some bid -> charge_of t' bid' c = (t' =? t) && (bid' =? bid).
Proof.
  intros <- Hb. unfold charge_of. rewrite Hb, (Z.eqb_sym t'). destruct (Z.eqb_spec bid' bid) as [->|Hne].
  - by rewrite bool_decide_true.
  - rewrite bool_decide_false; [done|]. intros [=]. by apply Hne.
Qed.

Lemma held_app t bid sts d ch l :
  held t bid sts (put_charges (charges d ++ [ch]) (put_folio l d)) = held t bid sts d + weight t bid sts ch.
Proof. unfold held. cbn [charges put_charges put_folio]. rewrite List.map_app, sumZ_app. cbn. lia. Qed.

Lemma effect_charge_ok u t bid c d d' o :
  payments_ok d -> (forall ch, In ch (charges d) -> sc_id ch < u) -> 0 <= c ->
  charge_effect u t bid c d d' o -> payments_ok d'.
Proof.
  intros [H1 H2 H3 H4 H5] Hu Hc He.
  assert (Hnew : exists ch l, d' = put_charges (charges d ++ [ch]) (put_folio l d) /\ sc_tenant ch = t /\ sc_booking ch = Some bid /\
    sc_amount ch = c /\ u <= sc_id ch /\ In (sc_status ch) ["succeeded"; "failed"]%string /\
    forall t' bid', sumZ (List.map f_amount (List.filter (stripe_line t' bid') l)) =
      stripe_net t' bid' d + weight t' bid' ["succeeded"]%string ch).
  { destruct o as [ch|msg]; cbn [charge_effect] in He.
    - destruct He as (f & Hon & _ & Ham & Hch & Ht & Hb & _ & Hca & Hst & Hid & ->). exists ch, (folio d ++ [f]).
      split_and!; try done; [rewrite Hst; cbn; tauto|]. intros t' bid'. rewrite List.filter_app, List.map_app, sumZ_app. cbn [List.filter].
      unfold weight. rewrite (stripe_line_iff t bid t' bid' f), (charge_of_iff t bid t' bid' ch), Hst by done.
      destruct ((t' =? t) && (bid' =? bid)); cbn; unfold stripe_net; lia.
    - destruct He as (ch & Ht & Hb & Hca & Hst & Hid & ->). exists ch, (folio d).
      split_and!; try done; [rewrite Hst; cbn; tauto|]. intros t' bid'. unfold weight. rewrite Hst.
      rewrite andb_false_r. unfold stripe_net. lia. }
  destruct Hnew as (ch & l & -> & Ht & Hb & Hca & Hid & Hst & Hnet).
  assert (Hw : forall t' bid', weight t' bid' ["succeeded"; "partial_refund"]%string ch = weight t' bid' ["succeeded"]%string ch).
  { intros t' bid'. unfold weight. destruct Hst as [<-|[<-|[]]]; done. }
  split; cbn [charges put_charges].
  - rewrite List.map_app. apply NoDup_snoc; [done|]. intros (x & Hx & Hin)%in_map_iff. apply Hu in Hin. lia.
  - intros x [Hx|[<-|[]]]%in_app_iff; [by apply H2|lia].
  - intros x [Hx|[<-|[]]]%in_app_iff; [by apply H3|]. destruct Hst as [<-|[<-|[]]]; cbn; tauto.
  - intros t' bid'. rewrite held_app. unfold stripe_net at 1. cbn [folio put_charges put_folio]. rewrite Hnet. specialize (H4 t' bid'). lia.
  - intros t' bid'. rewrite held_app, Hw. unfold stripe_net at 1. cbn [folio put_charges put_folio]. rewrite Hnet. specialize (H5 t' bid'). lia.
Qed.

Lemma sum_where_id (w : StripeCharge -> Z) (g : StripeCharge -> StripeCharge) l ch :
  List.NoDup (List.map sc_id l) -> In ch l ->
  sumZ (List.map w (where_id (sc_id ch) g l)) = sumZ (List.map w l) - w ch + w (g ch).
Proof.
  unfold where_id. induction l as [|x l IH]; intros Hnd Hin; [done|]. apply List.NoDup_cons_iff in Hnd as [Hni Hnd].
  cbn [List.map]. rewrite !sumZ_cons. change (ident x) with (sc_id x). destruct Hin as [->|Hin].
  - rewrite Z.eqb_refl. enough (List.map w (List.map (fun y => if ident y =? sc_id ch then g y else y) l) = List.map w l) as -> by lia.
    rewrite List.map_map. apply List.map_ext_in. intros y Hy. change (ident y) with (sc_id y).
    destruct (Z.eqb_spec (sc_id y) (sc_id ch)) as [E|]; [|done]. exfalso. apply Hni. rewrite <- E. by apply in_map.
  - destruct (Z.eqb_spec (sc_id x) (sc_id ch)) as [E|]; [exfalso; apply Hni; rewrite E; by apply in_map|]. rewrite IH by done. lia.
Qed.

Lemma effect_refund_ok t bid ch r d d' :
  payments_ok d -> In ch (charges d) -> sc_tenant ch = t -> sc_booking ch = Some bid -> sc_status ch = "succeeded"%string ->
  0 <= r <= sc_amount ch -> refund_effect t bid ch r d d' -> payments_ok d'.
Proof.
  intros [H1 H2 H3 H4 H5] Hin Ht Hb Hst Hr (f & Hon & _ & Ham & Hch & ->).
  set (st := after_refund r (sc_amount ch)). set (l := where_id (sc_id ch) (set_sc_status st) (charges d)).
  assert (Hst' : st = "refunded"%string /\ r = sc_amount ch \/ st = "partial_refund"%string).
  { unfold st, after_refund. destruct (Z.leb_spec (sc_amount ch) r); [left; split; [done|lia]|by right]. }
  assert (Hl : forall x, In x l -> exists y, In y (charges d) /\ sc_amount x = sc_amount y /\ (sc_status x = sc_status y \/ sc_status x = st)).
  { intros x (y & Hy & ->)%(where_id_In (R := StripeCharge)). exists y. destruct (_ =? _); split_and!; try done; [by right|by left]. }
  assert (Hheld : forall t' bid' sts, sumZ (List.map (weight t' bid' sts) l) =
    held t' bid' sts d - weight t' bid' sts ch + weight t' bid' sts (set_sc_status st ch)).
  { intros. by apply sum_where_id. }
  assert (Hnet : forall t' bid', stripe_net t' bid' (put_folio (folio d ++ [f]) (put_charges l d)) =
    stripe_net t' bid' d - (if (t' =? t) && (bid' =? bid) then r else 0)).
  { intros t' bid'. change (folio d) with (folio (put_charges l d)). rewrite net_app, (stripe_line_iff t bid) by done.
    change (stripe_net t' bid' (put_charges l d)) with (stripe_net t' bid' d). destruct (_ && _); lia. }
  split; cbn [charges put_charges put_folio].
  - pose proof (where_id_idents (R := StripeCharge) (sc_id ch) (set_sc_status st) (charges d) (fun _ => eq_refl)) as E.
    change (List.map sc_id l = List.map sc_id (charges d)) in E. by rewrite E.
  - intros x Hx. destruct (Hl x Hx) as (y & Hy & -> & _). by apply H2.
  - intros x Hx. destruct (Hl x Hx) as (y & Hy & _ & [->| ->]); [by apply H3|]. destruct Hst' as [[-> _]| ->]; cbn; tauto.
  - intros t' bid'. rewrite Hnet. unfold held at 1. cbn [charges put_folio put_charges]. rewrite Hheld. specialize (H4 t' bid').
    unfold weight. rewrite !(charge_of_iff t bid t' bid') by done. cbn [set_sc_status sc_status sc_amount]. rewrite Hst.
    destruct ((t' =? t) && (bid' =? bid)); destruct Hst' as [[-> ?]| ->]; cbn; lia.
  - intros t' bid'. rewrite Hnet. unfold held at 1. cbn [charges put_folio put_charges]. rewrite Hheld. specialize (H5 t' bid').
    unfold weight. rewrite !(charge_of_iff t bid t' bid') by done. cbn [set_sc_status sc_status sc_amount]. rewrite Hst.
    destruct ((t' =? t) && (bid' =? bid)); destruct Hst' as [[-> ?]| ->]; cbn; lia.
Qed.

(** ** Requests and webhooks *)

Inductive payment_request : Type :=
  | SaveCard (property_id : Z) (stripe_pm_id : string) (booking_id : option Z) (label : option string)
  | DeleteCard (pm_row_id : Z)
  | Charge (booking_id pm_row_id : Z) (amount : dec) (label : option string)
  | Refund (booking_id charge_row_id : Z) (amount : option dec)
  | Disconnect (property_id : Z)
  | StripeCalls (body : string) (signature : option string).

Definition serve_payment (t : Z) (q : payment_request) : M unit :=
  match q with
  | SaveCard p m b l => _ ← save_payment_method settings t p m b l; mret tt
  | DeleteCard i => delete_payment_method settings t i
  | Charge b m a l => _ ← charge_booking settings t b m a l; mret tt
  | Refund b i a => refund_stripe_charge settings t b i a
  | Disconnect p => disconnect_stripe_connection settings t p
  | StripeCalls body sig => _ ← inbound_stripe_webhook settings body sig; mret tt
  end.

(** Ids of charges come from before [u]. *)
Definition charges_before (u : Z) (d : DB) : Prop := forall ch, In ch (charges d) -> sc_id ch < u.

Inductive payment_step : DB -> DB -> Prop :=
  | payment_served t q tm td u d : charges_before u d -> payment_step d (run (serve_payment t q) tm td u d).1.

(** Charges and folio as they were. *)
Definition books_as (d : DB) (s : session) : Prop :=
  charges (mem s) = charges d /\ folio (mem s) = folio d /\ charges (disk s) = charges d /\ folio (disk s) = folio d.

Lemma books_quiet d :
  preserves (books_as d) uuid4 /\ preserves (books_as d) flush /\ preserves (books_as d) get_now /\
  preserves (books_as d) (require_stripe_secret settings) /\
  (forall A (f : Z -> stripe_answer A), preserves (books_as d) (call f)) /\
  (forall t p, preserves (books_as d) (active_connection_and_account t p)) /\
  (forall t b, preserves (books_as d) (require_booking_for_payment t b)).
Proof.
  assert (Hu : preserves (books_as d) uuid4) by (by apply preserves_uuid4).
  split_and!; [exact Hu| | | | | |].
  - apply preserves_flush. intros s (? & ? & ? & ?). by split_and!.
  - apply preserves_get_now.
  - unfold require_stripe_secret. apply preserves_if; [apply preserves_ret|apply preserves_raise].
  - intros A f. unfold call. apply preserves_bind; [exact Hu|]. intros. apply preserves_ret.
  - intros t p. unfold active_connection_and_account. apply preserves_bind; [apply preserves_scalar|].
    intros [c|]; [|apply preserves_raise]. apply preserves_bind; [apply preserves_lift|]. intros. apply preserves_ret.
  - intros t b. unfold require_booking_for_payment. apply preserves_bind; [apply preserves_scalar|]. intros. apply preserves_lift.
Qed.

Lemma save_card_quiet d t p m b l : preserves (books_as d) (save_payment_method settings t p m b l).
Proof.
  destruct (books_quiet d) as (Hu & Hf & Hn & Hs & Hc & Ha & Hb). unfold save_payment_method.
  apply preserves_bind; [exact Hs|]. intros _. apply preserves_bind; [apply Ha|]. intros [c acct].
  apply preserves_bind.
  { destruct b as [bid|]; [|apply preserves_ret]. apply preserves_bind; [apply Hb|]. intros.
    apply preserves_if; [apply preserves_ret|apply preserves_raise]. }
  intros _. apply preserves_bind; [apply Hc|]. intros [o|msg]; [|apply preserves_raise].
  apply preserves_bind; [exact Hu|]. intros i. apply preserves_bind; [exact Hn|]. intros tm.
  apply preserves_bind; [unfold add; apply preserves_orm; intros s (? & ? & ? & ?); by split_and!|]. intros _.
  apply preserves_bind; [exact Hf|]. intros. apply preserves_ret.
Qed.

Lemma delete_card_quiet d t i : preserves (books_as d) (delete_payment_method settings t i).
Proof.
  destruct (books_quiet d) as (Hu & Hf & Hn & Hs & Hc & Ha & Hb). unfold delete_payment_method.
  apply preserves_bind; [exact Hs|]. intros _. apply preserves_bind; [apply preserves_scalar|].
  intros [m|]; [|apply preserves_raise]. apply preserves_bind; [apply Ha|]. intros [c acct].
  apply preserves_bind; [apply Hc|]. intros [x|msg]; [|apply preserves_raise].
  apply preserves_bind; [|intros; exact Hf]. unfold remove. apply preserves_orm. intros s (? & ? & ? & ?). by split_and!.
Qed.

Lemma disconnect_quiet d t p : preserves (books_as d) (disconnect_stripe_connection settings t p).
Proof.
  destruct (books_quiet d) as (Hu & Hf & Hn & Hs & Hc & Ha & Hb).
  unfold disconnect_stripe_connection, require_connect_secret, require_oauth_settings.
  apply preserves_bind; [apply preserves_if; [apply preserves_ret|apply preserves_raise]|]. intros _.
  apply preserves_bind.
  { apply preserves_if; [apply preserves_raise|]. apply preserves_if; [apply preserves_raise|apply preserves_ret]. }
  intros _. apply preserves_bind; [apply preserves_scalar|]. intros [c|]; [|apply preserves_raise].
  apply preserves_bind; [apply preserves_lift|]. intros plain. apply preserves_bind; [apply Hc|].
  intros [x|msg]; [|apply preserves_raise]. apply preserves_bind; [exact Hn|]. intros tm.
  apply preserves_bind; [|intros; exact Hf]. unfold assign. apply preserves_orm. intros s (? & ? & ? & ?). by split_and!.
Qed.

Lemma start_synced d tm td u : payments_ok d -> synced StripeCharge (start d tm td u).
Proof. intros Hok. split; [done|]. apply (pk_ids _ Hok). Qed.

Lemma reconcile_ok t i amount d tm td u s b :
  payments_ok d -> reconcile_refund_from_webhook t i amount (start d tm td u) = (s, Ok b) -> payments_ok (mem s).
Proof.
  intros Hok H. apply reconcile_inv in H; [|by apply start_synced]. destruct b; [|by subst s].
  destruct H as (ch & r & bid & Hin & Hp & Hb & Hst & Hr & Hr0 & He & _). cbn [mem start] in *.
  apply andb_prop in Hp as [Ht%Z.eqb_eq _]. apply (effect_refund_ok t bid ch r d); try done.
  split; [|done]. destruct Hr0 as [?| ->]; [done|]. by apply (pk_amounts _ Hok).
Qed.

Lemma event_ok ty obj t i d tm td u s :
  payments_ok d -> on_charge_event ty obj t i (start d tm td u) = (s, Ok tt) -> payments_ok (mem s).
Proof.
  assert (Haud : forall a e x s0 s1, record_audit t a e x s0 = (s1, Ok tt) -> charges (mem s1) = charges (mem s0) /\ folio (mem s1) = folio (mem s0)).
  { intros a e x s0 s1. unfold record_audit, uuid4. cbv. intros [= <-]. done. }
  intros Hok. unfold on_charge_event. destruct (String.eqb ty _); intros H.
  - apply bind_lift_inv in H as (a & _ & H). mbind_in H s1 b H1. apply reconcile_ok in H1; [|done].
    destruct b; [|cbv [mret M_ret] in H; by simplify_eq]. apply Haud in H as [Hc Hf]. by eapply payments_ext.
  - apply Haud in H as [Hc Hf]. by eapply payments_ext.
Qed.

Lemma webhook_ok body sig d tm td u s r :
  payments_ok d -> inbound_stripe_webhook settings body sig (start d tm td u) = (s, Ok r) -> payments_ok (mem s).
Proof.
  intros Hok. unfold inbound_stripe_webhook. cbv zeta. destruct (negb _); [done|]. destruct sig as [[|ch sg]|]; [done| |done].
  destruct (construct_event _ _ _) as [event| |]; [|done|done]. destruct (negb (str_in _ _)).
  { cbv [mret M_ret]. intros H. by simplify_eq. }
  intros H. apply bind_lift_inv in H as (data & _ & H). apply bind_lift_inv in H as (obj & _ & H).
  destruct (negb _); [cbv [mret M_ret] in H; by simplify_eq|].
  mbind_in H s1 row H1. unfold transaction, lookup_stripe_charge_for_webhook, query in H1. cbn [disk start] in H1. simplify_eq.
  destruct (option_map _ _) as [[t i]|]; [|cbv [mret M_ret] in H; by simplify_eq].
  mbind_in H s2 x H1. destruct x. cbv [mret M_ret] in H. simplify_eq. unfold transaction in H1. cbn [disk mem now today uuids] in H1.
  destruct (on_charge_event _ _ _ _ _) as [s3 [[]|e]] eqn:E; [|done]. simplify_eq. cbn [mem]. by apply (event_ok _ _ _ _ d _ _ _ _ Hok E).
Qed.

(** C31: whatever card payments, refunds and Stripe webhooks are served,
    in whatever order and however often they are repeated, the Stripe lines of
    every folio add up to at least what the booking's charges in full force
    hold, and to at most what its charges not wholly refunded were: no charge
    is refunded twice or beyond its amount. *)
Theorem refunds_never_exceed_charges d d' :
  payments_ok d -> rtc payment_step d d' ->
  forall t bid, held t bid ["succeeded"]%string d' <= stripe_net t bid d' <= held t bid ["succeeded"; "partial_refund"]%string d'.
Proof.
  intros Hok Hr. assert (H : payments_ok d'); [|intros t bid; split; [apply (pk_low _ H)|apply (pk_high _ H)]].
  induction Hr as [|d1 d2 d3 [t q tm td u d Hu] _ IH]; [done|]. apply IH. clear IH.
  unfold run. destruct (serve_payment t q _) as [s [x|e]] eqn:E; [|done]. cbn [fst].
  assert (Hq : forall A (m : M A) s' r, preserves (books_as d) m -> m (start d tm td u) = (s', r) -> payments_ok (mem s')).
  { intros A m s' r Hm Hx. assert (Hb : books_as d (start d tm td u)) by (by split_and!).
    destruct (Hm _ _ _ Hb Hx) as (Hc & Hf & _). by eapply payments_ext. }
  destruct q; cbn [serve_payment] in E.
  - mbind_in E s1 m H1. cbv [mret M_ret] in E. simplify_eq. by eapply Hq; [apply save_card_quiet|].
  - by eapply Hq; [apply delete_card_quiet|].
  - mbind_in E s1 o H1. cbv [mret M_ret] in E. simplify_eq. apply charge_inv in H1 as (c & Hc & _ & He & _).
    by eapply effect_charge_ok.
  - destruct x. apply refund_inv in E as (ch & r & Hin & Hp & Hb & Hst & Hr & Hle & _ & He & _); [|by apply start_synced].
    cbn [mem start] in *. apply andb_prop in Hp as [Ht%Z.eqb_eq _]. apply (effect_refund_ok t booking_id ch r d); try done.
    + destruct (pk_status _ Hok _ Hin) as [<-|Hx]; [done|by apply Hst in Hx].
    + pose proof (pk_amounts _ Hok _ Hin). lia.
  - by eapply Hq; [apply disconnect_quiet|].
  - mbind_in E s1 o H1. cbv [mret M_ret] in E. simplify_eq. by eapply webhook_ok.
Qed.

(** a refund that Stripe reports is booked once: after it, every
    further report on the charge, of whatever amount, is passed over and
    changes nothing. *)
Theorem reported_refund_booked_once t i amount d tm td u s :
  payments_ok d -> reconcile_refund_from_webhook t i amount (start d tm td u) = (s, Ok true) ->
  (exists ch r bid, In ch (charges d) /\ charge_is t i ch = true /\ 0 <= r <= sc_amount ch /\ refund_effect t bid ch r d (mem s)) /\
  forall amount' tm' td' u', reconcile_refund_from_webhook t i amount' (start (mem s) tm' td' u') = (start (mem s) tm' td' u', Ok false).
Proof.
  intros Hok H. pose proof (reconcile_ok _ _ _ _ _ _ _ _ _ Hok H) as Hok'.
  apply reconcile_inv in H as (ch & r & bid & Hin & Hp & Hb & Hst & Hr & Hr0 & He & _); [|by apply start_synced].
  cbn [mem start] in *. split.
  { exists ch, r, bid. split_and!; try done. destruct Hr0 as [?| ->]; [done|]. by apply (pk_amounts _ Hok). }
  intros amount' tm' td' u'. unfold reconcile_refund_from_webhook. rewrite run_scalar_synced by (by apply start_synced).
  cbn [mem start]. destruct (List.find _ _) as [c|] eqn:Ef; [|done]. apply find_some in Ef as [Hc Hp'].
  destruct He as (f & _ & _ & _ & _ & Em). rewrite Em in Hc. cbn in Hc.
  apply (where_id_In (R := StripeCharge)) in Hc as (y & Hy & ->). change (ident y) with (sc_id y) in *.
  apply andb_prop in Hp as [_ Hid%Z.eqb_eq]. destruct (Z.eqb_spec (sc_id y) (sc_id ch)) as [E|Hne].
  - cbn [set_sc_status sc_status]. unfold after_refund. by destruct (_ <=? r).
  - exfalso. apply Hne. apply andb_prop in Hp' as [_ Hid'%Z.eqb_eq]. congruence.
Qed.
End laws.

(** ** A concrete account *)

(** Cards are accepted but for one, and every body is a report of a refund of
    30.00. *)
Definition test_stripe : Stripe := {|
  pm_retrieve := fun _ _ _ => Answered (Some (Card (Some "4242") (Some "visa") (Some 4) (Some 2031)));
  pm_detach := fun _ _ _ => Answered tt;
  intent_create := fun _ _ _ pm _ => if String.eqb pm "pm_bad" then StripeError "card declined" else Answered "pi_1"%string;
  refund_create := fun _ _ _ _ => Answered tt;
  oauth_token := fun _ _ => Answered (Some "acct_1"%string, false);
  oauth_deauthorize := fun _ _ => Answered tt;
  construct_event := fun _ _ _ => Event [("type", JStr "charge.refunded");
    ("data", JObj [("object", JObj [("payment_intent", JStr "pi_1"); ("amount_refunded", JInt 3000)])])] |}.

Definition test_settings : stripe_settings := StripeSettings "sk" "ca" "https://h/cb" "whsec".

Definition card_db : DB :=
  put_payment_methods [MkStripePaymentMethod 70 1 3 None "pm_ok" None None None None None 0]
  (put_connections [MkStripeConnection 71 1 3 "acct_1" false 0 None]
  (put_properties [MkProperty 3 1 "Hotel" None "UTC" "EUR" 14 11]
  (put_bookings [MkBooking 9 1 3 4 (Some 5) None "confirmed" "api" 100000 None] empty_db))).

#[local] Instance witness_env : Env := sample_env.
#[local] Instance witness_crypto : Crypto := toy_crypto.
#[local] Instance witness_net : Net := deaf_net.
#[local] Instance witness_stripe : Stripe := test_stripe.

Lemma card_db_ok : payments_ok card_db.
Proof. split; [constructor|intros c []|intros c []|done|done]. Qed.

(** 80.00 charged to the saved card. *)
Definition pay : M charge_outcome := charge_booking test_settings 1 9 70 (cents 8000) None.
Definition paid_db : DB := (run pay 5 0 100 card_db).1.

Lemma charge_settles_witness :
  exists ch, (run pay 5 0 100 card_db).2 = Ok (Charged ch) /\ balance (run pay 5 0 100 card_db).1 1 9 = balance card_db 1 9 - 8000.
Proof.
  assert (H : exists d' ch, run pay 5 0 100 card_db = (d', Ok (Charged ch))) by (eexists _, _; vm_compute; reflexivity).
  destruct H as (d' & ch & E). exists ch. rewrite E. split; [reflexivity|].
  destruct (charge_settles test_settings 1 9 70 (cents 8000) None 5 0 100 card_db d' (Ok (Charged ch)) E) as (c & _ & Hq & _ & Hb).
  assert (Hc : c = 8000) by (vm_compute in Hq; congruence). rewrite Hc in Hb. exact Hb.
Defined.

(** The charge, then Stripe's report of a refund of 30.00, twice. *)
Lemma refunds_never_exceed_charges_witness :
  exists d', rtc (payment_step test_settings) card_db d' /\ stripe_net 1 9 d' = 5000 /\
    held 1 9 ["succeeded"]%string d' <= stripe_net 1 9 d' <= held 1 9 ["succeeded"; "partial_refund"]%string d'.
Proof.
  set (d1 := (run (serve_payment test_settings 1 (Charge 9 70 (cents 8000) None)) 5 0 100 card_db).1).
  set (d2 := (run (serve_payment test_settings 1 (StripeCalls "{}" (Some "sig"%string))) 6 0 200 d1).1).
  set (d3 := (run (serve_payment test_settings 1 (StripeCalls "{}" (Some "sig"%string))) 7 0 300 d2).1).
  assert (Hr : rtc (payment_step test_settings) card_db d3).
  { apply (rtc_l _ _ d1); [constructor; intros ch []|]. apply (rtc_l _ _ d2); [|apply rtc_once].
    - constructor. vm_compute. intros ch [<-|[]]. reflexivity.
    - constructor. vm_compute. intros ch [<-|[]]. reflexivity. }
  exists d3. split; [exact Hr|]. split; [vm_compute; reflexivity|].
  apply (refunds_never_exceed_charges test_settings card_db d3 card_db_ok Hr 1 9).
Defined.

Lemma paid_db_ok : payments_ok paid_db.
Proof.
  unfold paid_db, run. destruct (pay (start card_db 5 0 100)) as [s [o|e]] eqn:E; [|exact card_db_ok].
  apply charge_inv in E as (c & Hc & _ & He & _). cbn [mem start uuids] in He.
  eapply effect_charge_ok; [exact card_db_ok| |exact Hc|exact He]. intros ch [].
Qed.

Lemma reported_refund_booked_once_witness :
  exists s, reconcile_refund_from_webhook 1 102 (Some (cents 3000)) (start paid_db 6 0 200) = (s, Ok true) /\
    reconcile_refund_from_webhook 1 102 (Some (cents 8000)) (start (mem s) 7 0 300) = (start (mem s) 7 0 300, Ok false).
Proof.
  assert (H : exists s, reconcile_refund_from_webhook 1 102 (Some (cents 3000)) (start paid_db 6 0 200) = (s, Ok true))
    by (eexists; vm_compute; reflexivity).
  destruct H as (s & E). exists s. split; [exact E|].
  apply (reported_refund_booked_once 1 102 (Some (cents 3000)) paid_db 6 0 200 s paid_db_ok E).
Defined.
