(* ===== verification/Reports.v ===== *)
(** * Management reports

    app/services/reports_service.py: occupancy, revenue and KPI reports of a
    property over a range of days, and their CSV form.  SQL aggregates are
    finite maps from the day to the aggregate. *)

From stdpp Require Import gmap pretty.
From S2P Require Import Prelude PyDecimal PyJson StayDates Calendar Models Session Rates Booking.

(** The time zone database: which names it knows, and the local calendar day
    and hour of an instant. *)
Class Zones := {
  zone_known : string -> bool;
  local_day : string -> Z -> date;
  local_hour : string -> Z -> Z
}.

(** [SELECT key, sum(val) ... GROUP BY key], as the dict the code builds. *)
Definition group_sum {A K} `{Countable K} (key : A -> K) (val : A -> Z) (rows : list A) : gmap K Z :=
  List.fold_right (fun r m => <[key r := default 0 (m !! key r) + val r]> m) ∅ rows.

(** [d.get(k, 0)] *)
Definition get0 {K} `{Countable K} (m : gmap K Z) (k : K) : Z := default 0 (m !! k).

Definition ACTIVE_EXCLUDE : list string := ["cancelled"; "no_show"]%string.

Definition ReportsServiceError (detail : string) (status_code : Z) : exn := ServiceError "ReportsServiceError" detail status_code.

(** ** Decimals *)

Definition q2 (x : dec) : result dec := dec_quantize ROUND_HALF_EVEN x (-2).

Definition money_str (x : dec) : result string := v ← q2 x; Ok (format_f v).

Definition pct_str (numerator denominator : Z) : result string :=
  if denominator =? 0 then Ok "0.00"%string
  else q ← dec_div (dec_mul (dec_of_int numerator) (dec_of_int 100)) (dec_of_int denominator);
       v ← q2 q; Ok (format_f v).

(** [_q2(a + b)] *)
Definition add_q2 (a b : dec) : result dec := q2 (dec_add a b).

Definition daterange (date_from date_to : date) : list date :=
  List.map (fun i => date_from + Z.of_nat i) (List.seq 0 (Z.to_nat (date_to - date_from + 1))).

Section reports.
Context {env : Env} {zones : Zones}.

Definition require_property (tenant_id property_id : Z) : M Property :=
  prop ← scalar (fun p => (p_tenant p =? tenant_id) && (p_id p =? property_id));
  match prop with
  | None => raise (ReportsServiceError "property not found" 404)
  | Some p => mret p
  end.

Definition invalid_zone (p : Property) : string :=
  "Invalid IANA timezone for property: " ++ py_repr_str (p_timezone p) ++
  ". Use a valid identifier such as Europe/Berlin or Asia/Bangkok.".

Definition property_zoneinfo (p : Property) : result string :=
  let tz_id := strip (p_timezone p) in
  if negb (truthy tz_id) then Err (ReportsServiceError "property timezone is empty" 400)
  else if zone_known tz_id then Ok tz_id else Err (ReportsServiceError (invalid_zone p) 400).

(** ** The three aggregates by day *)

(** [booking_lines JOIN bookings]: the lines of the property's bookings that
    are neither cancelled nor no-shows, in the range. *)
Definition sold_line (d : DB) (tenant_id property_id : Z) (date_from date_to : date) (l : BookingLine) : bool :=
  existsb (fun b => (b_tenant b =? l_tenant l) && (b_id b =? l_booking l) && (b_tenant b =? tenant_id)
             && (b_property b =? property_id) && negb (str_in (b_status b) ACTIVE_EXCLUDE)) (bookings d)
  && (date_from <=? l_date l) && (l_date l <=? date_to).

Definition sold_lines (tenant_id property_id : Z) (date_from date_to : date) (d : DB) : list BookingLine :=
  List.filter (sold_line d tenant_id property_id date_from date_to) (lines d).

Definition occupied_by_date (tenant_id property_id : Z) (date_from date_to : date) : M (gmap date Z) :=
  query (fun d => group_sum l_date (fun _ => 1) (sold_lines tenant_id property_id date_from date_to d)).

Definition room_revenue_by_date (tenant_id property_id : Z) (date_from date_to : date) : M (gmap date Z) :=
  query (fun d => group_sum l_date l_price (sold_lines tenant_id property_id date_from date_to d)).

(** [availability_ledger JOIN room_types] *)
Definition property_row (d : DB) (tenant_id property_id : Z) (kr : ledger_key * AvailabilityLedger) : bool :=
  let '((t, rt, _), _) := kr in
  (t =? tenant_id) && existsb (fun x => (rt_tenant x =? t) && (rt_id x =? rt) && (rt_property x =? property_id)) (room_types d).

Definition row_date (kr : ledger_key * AvailabilityLedger) : date := kr.1.2.

Definition available_by_date (tenant_id property_id : Z) (date_from date_to : date) : M (gmap date Z) :=
  query (fun d => group_sum row_date (fun kr => total_rooms kr.2 - blocked_rooms kr.2)
    (List.filter (fun kr => property_row d tenant_id property_id kr && (date_from <=? row_date kr) && (row_date kr <=? date_to))
       (map_to_list (ledger d)))).

(** ** Folio by local day *)

Definition folio_in_range (d : DB) (tenant_id property_id : Z) (tz : string) (date_from date_to : date) (f : FolioTransaction) : bool :=
  (f_tenant f =? tenant_id)
  && existsb (fun b => (b_tenant b =? f_tenant f) && (b_id b =? f_booking f) && (b_property b =? property_id)) (bookings d)
  && (date_from <=? local_day tz (f_created_at f)) && (local_day tz (f_created_at f) <=? date_to).

Definition is_payment_row (f : FolioTransaction) : bool := String.eqb (f_type f) "Payment".
Definition is_tax_row (f : FolioTransaction) : bool := String.eqb (f_type f) "Charge" && String.eqb (f_category f) "tax".
Definition is_other_row (f : FolioTransaction) : bool :=
  String.eqb (f_type f) "Charge" && negb (str_in (f_category f) ["tax"; "room_charge"]%string).

(** Other charges by day and category, tax by day, payments by day. *)
Definition folio_aggregates_by_date (tenant_id property_id : Z) (timezone_id : string) (date_from date_to : date)
    : M (gmap (date * string) Z * gmap date Z * gmap date Z) :=
  query (fun d =>
    let rows := List.filter (folio_in_range d tenant_id property_id timezone_id date_from date_to) (folio d) in
    let day f := local_day timezone_id (f_created_at f) in
    (group_sum (fun f => (day f, f_category f)) f_amount (List.filter is_other_row rows),
     group_sum day f_amount (List.filter is_tax_row rows),
     group_sum day f_amount (List.filter is_payment_row rows))).

(** The categories of a day, sorted, with their amounts. *)
Definition others_of (other : gmap (date * string) Z) (d : date) : list (string * Z) :=
  order_by (fun a b => String.leb (fst a) (fst b))
    (omap (fun kv : (date * string) * Z => if kv.1.1 =? d then Some (kv.1.2, kv.2) else None) (map_to_list other)).

(** ** Reports *)

Record occupancy_row := OccupancyRow { or_date : date; or_occupied : Z; or_available : Z; or_pct : string }.
Record occupancy_report := OccupancyReport {
  oc_property : Z; oc_from : date; oc_to : date; oc_currency : string; oc_rows : list occupancy_row }.

Definition get_occupancy_report (tenant_id property_id : Z) (date_from date_to : date) : M occupancy_report :=
  prop ← require_property tenant_id property_id;
  occupied ← occupied_by_date tenant_id property_id date_from date_to;
  available ← available_by_date tenant_id property_id date_from date_to;
  rows ← lift (mapR (fun d =>
    let occ := get0 occupied d in
    let avail := get0 available d in
    pct ← pct_str occ avail; Ok (OccupancyRow d occ avail pct)) (daterange date_from date_to));
  mret (OccupancyReport property_id date_from date_to (p_currency prop) rows).

Record revenue_row := RevenueRow {
  rv_date : date; rv_room : string; rv_other : list (string * string); rv_tax : string; rv_payments : string }.
Record revenue_report := RevenueReport {
  re_property : Z; re_from : date; re_to : date; re_currency : string; re_rows : list revenue_row;
  re_room_total : string; re_other_total : list (string * string); re_tax_total : string; re_payments_total : string }.

(** The running totals of [get_revenue_report]. *)
Record revenue_acc := RevenueAcc {
  ra_room : dec; ra_other : gmap string dec; ra_tax : dec; ra_payments : dec; ra_rows : list revenue_row }.

Definition add_other (m : gmap string dec) (kv : string * Z) : result (gmap string dec) :=
  v ← add_q2 (default (cents 0) (m !! kv.1)) (cents kv.2); Ok (<[kv.1 := v]> m).

Definition money_items (l : list (string * dec)) : result (list (string * string)) :=
  mapR (fun kv => s ← money_str kv.2; Ok (kv.1, s)) (order_by (fun a b : string * dec => String.leb (fst a) (fst b)) l).

Definition revenue_day (room : gmap date Z) (other : gmap (date * string) Z) (tax payments : gmap date Z)
    (acc : revenue_acc) (d : date) : result revenue_acc :=
  room_total ← add_q2 (ra_room acc) (cents (get0 room d));
  tax_total ← add_q2 (ra_tax acc) (cents (get0 tax d));
  payments_total ← add_q2 (ra_payments acc) (cents (get0 payments d));
  other_totals ← foldR add_other (ra_other acc) (others_of other d);
  r ← money_str (cents (get0 room d));
  o ← money_items (List.map (fun kv => (kv.1, cents kv.2)) (others_of other d));
  x ← money_str (cents (get0 tax d));
  p ← money_str (cents (get0 payments d));
  Ok (RevenueAcc room_total other_totals tax_total payments_total (ra_rows acc ++ [RevenueRow d r o x p])).

Definition get_revenue_report (tenant_id property_id : Z) (date_from date_to : date) : M revenue_report :=
  prop ← require_property tenant_id property_id;
  tz_id ← lift (property_zoneinfo prop);
  room_by_date ← room_revenue_by_date tenant_id property_id date_from date_to;
  '(other_by_date, tax_by_date, pay_by_date) ← folio_aggregates_by_date tenant_id property_id tz_id date_from date_to;
  acc ← lift (foldR (revenue_day room_by_date other_by_date tax_by_date pay_by_date)
    (RevenueAcc (cents 0) ∅ (cents 0) (cents 0) []) (daterange date_from date_to));
  room_total ← lift (money_str (ra_room acc));
  other_total ← lift (money_items (map_to_list (ra_other acc)));
  tax_total ← lift (money_str (ra_tax acc));
  payments_total ← lift (money_str (ra_payments acc));
  mret (RevenueReport property_id date_from date_to (p_currency prop) (ra_rows acc) room_total other_total tax_total payments_total).

Record kpi_report := KpiReport {
  ki_property : Z; ki_from : date; ki_to : date; ki_currency : string; ki_sold : Z; ki_available : Z;
  ki_revenue : string; ki_pct : string; ki_adr : string; ki_revpar : string }.

Definition kpi_day (room occupied available : gmap date Z) (acc : dec * Z * Z) (d : date) : result (dec * Z * Z) :=
  let '(room_revenue, sold, avail) := acc in
  r ← add_q2 room_revenue (cents (get0 room d));
  Ok (r, sold + get0 occupied d, avail + get0 available d).

(** [room_revenue / nights], or nothing for no nights. *)
Definition per_night (room_revenue : dec) (nights : Z) : result dec :=
  if nights =? 0 then Ok (cents 0) else q ← dec_div room_revenue (dec_of_int nights); q2 q.

Definition get_kpi_report (tenant_id property_id : Z) (date_from date_to : date) : M kpi_report :=
  prop ← require_property tenant_id property_id;
  room_by_date ← room_revenue_by_date tenant_id property_id date_from date_to;
  occupied ← occupied_by_date tenant_id property_id date_from date_to;
  available ← available_by_date tenant_id property_id date_from date_to;
  '(room_revenue, sold_nights, available_nights) ← lift (foldR (kpi_day room_by_date occupied available)
    (cents 0, 0, 0) (daterange date_from date_to));
  adr ← lift (per_night room_revenue sold_nights);
  revpar ← lift (per_night room_revenue available_nights);
  revenue ← lift (money_str room_revenue);
  pct ← lift (pct_str sold_nights available_nights);
  adr_s ← lift (money_str adr);
  revpar_s ← lift (money_str revpar);
  mret (KpiReport property_id date_from date_to (p_currency prop) sold_nights available_nights revenue pct adr_s revpar_s).

(** ** CSV *)

Definition crlf : string := String (ascii_of_nat 13) (String (ascii_of_nat 10) EmptyString).
Definition dquote : ascii := ascii_of_nat 34.

Fixpoint double_quotes (s : string) : string :=
  match s with
  | EmptyString => EmptyString
  | String c s' => if Ascii.eqb c dquote then String c (String c (double_quotes s')) else String c (double_quotes s')
  end.

(** [csv.writer] in its excel dialect: minimal quoting. *)
Definition csv_field (s : string) : string :=
  if existsb (fun c => existsb (Ascii.eqb c) [dquote; ","%char; ascii_of_nat 13; ascii_of_nat 10]) (list_ascii_of_string s)
  then String dquote (double_quotes s ++ String dquote EmptyString) else s.

Definition writerow (row : list string) : string :=
  match row with
  | [EmptyString] => String dquote (String dquote crlf)
  | _ => String.append (py_join "," (List.map csv_field row)) crlf
  end.

(** The byte order mark in UTF-8. *)
Definition bom : string := string_of_list_ascii (List.map ascii_of_nat [239; 187; 191]%nat).

Definition rows_to_csv (headers : list string) (rows : list (list string)) : list string :=
  bom :: writerow headers :: List.map writerow rows.

Definition occupancy_report_csv_rows (report : occupancy_report) : list string :=
  rows_to_csv ["date"; "occupied_rooms"; "available_rooms"; "occupancy_pct"]%string
    (List.map (fun r => [isoformat (or_date r); pretty (or_occupied r); pretty (or_available r); or_pct r]) (oc_rows report)).

Definition str_get (d : list (string * string)) (k : string) : string :=
  match List.find (fun kv => String.eqb (fst kv) k) d with Some kv => snd kv | None => "0.00" end.

Definition category_keys (report : revenue_report) : list string :=
  order_by String.leb (List.nodup string_dec (List.flat_map (fun row => List.map fst (rv_other row)) (re_rows report))).

Definition revenue_report_csv_rows (report : revenue_report) : list string :=
  let keys := category_keys report in
  rows_to_csv (["date"; "room_revenue"]%string ++ keys ++ ["tax_total"; "payments_total"]%string)
    (List.map (fun r => [isoformat (rv_date r); rv_room r] ++ List.map (str_get (rv_other r)) keys ++ [rv_tax r; rv_payments r])
       (re_rows report)).

Definition kpi_report_csv_rows (report : kpi_report) : list string :=
  rows_to_csv ["property_id"; "date_from"; "date_to"; "currency"; "sold_nights"; "available_nights"; "room_revenue";
    "occupancy_pct"; "adr"; "revpar"]%string
    [[uuid_str (ki_property report); isoformat (ki_from report); isoformat (ki_to report); ki_currency report;
      pretty (ki_sold report); pretty (ki_available report); ki_revenue report; ki_pct report; ki_adr report; ki_revpar report]].

End reports.
