(* ===== verification/Dashboard.v ===== *)
(** * The availability grid, the dashboard and the night audit

    app/services/availability_service.py, dashboard_service.py and
    app/tasks/night_audit.py: what a property looks like on a day, and the
    nightly task that marks no-shows and counts the day before.  Sending the
    owner's e-mail is left out. *)

From stdpp Require Import gmap.
From S2P Require Import Prelude PyDecimal PyJson StayDates Calendar Models Session Rates Folio Booking Reports.

Section dashboard.
Context {env : Env} {zones : Zones}.

(** ** availability_service.py *)

Record availability_cell := AvailabilityCell {
  ac_date : date; ac_room_type : Z; ac_name : string; ac_total : Z; ac_booked : Z; ac_blocked : Z; ac_available : Z }.

Definition room_counts_by_type (tenant_id : Z) (room_type_ids : list Z) : M (gmap Z Z) :=
  query (fun d => group_sum r_room_type (fun _ => 1)
    (List.filter (fun r => (r_tenant r =? tenant_id) && existsb (Z.eqb (r_room_type r)) room_type_ids
                           && bool_decide (r_deleted_at r = None)) (rooms d))).

(** The rows of the range, as the dict [ledger_map]. *)
Definition grid_ledger (tenant_id : Z) (rt_ids : list Z) (start_date end_date : date) (d : DB) : gmap (Z * date) AvailabilityLedger :=
  list_to_map (omap (fun kr : ledger_key * AvailabilityLedger =>
    let '((t, rt, n), r) := kr in
    if (t =? tenant_id) && existsb (Z.eqb rt) rt_ids && (start_date <=? n) && (n <=? end_date) then Some ((rt, n), r) else None)
    (map_to_list (ledger d))).

Definition grid_cell (counts : gmap Z Z) (ledger_map : gmap (Z * date) AvailabilityLedger) (rt : RoomType) (day : date)
    : availability_cell :=
  let '(total, booked, blocked) :=
    match ledger_map !! (rt_id rt, day) with
    | Some row => (total_rooms row, booked_rooms row, blocked_rooms row)
    | None => (get0 counts (rt_id rt), 0, 0)
    end in
  AvailabilityCell day (rt_id rt) (rt_name rt) total booked blocked (total - booked - blocked).

Definition get_availability_grid (tenant_id property_id : Z) (start_date end_date : date) (room_type_id : option Z)
    : M (option (list availability_cell)) :=
  prop ← get_property tenant_id property_id;
  match prop with
  | None => mret None
  | Some _ =>
      rts ← select (fun rt => (rt_tenant rt =? tenant_id) && (rt_property rt =? property_id)
                 && match room_type_id with Some i => rt_id rt =? i | None => true end);
      let room_types := order_by (fun a b => collate (rt_name a) (rt_name b)) rts in
      match room_types with
      | [] => mret (Some [])
      | _ =>
          let rt_ids := List.map rt_id room_types in
          counts ← room_counts_by_type tenant_id rt_ids;
          dates ← lift (iter_inclusive_dates start_date end_date);
          ledger_map ← query (grid_ledger tenant_id rt_ids start_date end_date);
          mret (Some (List.flat_map (fun rt => List.map (grid_cell counts ledger_map rt) dates) room_types))
      end
  end.

(** ** Counts by first and last night *)

Definition min_line_date (d : DB) (tenant_id booking_id : Z) : option date :=
  List.fold_right (fun l acc =>
    if (l_tenant l =? tenant_id) && (l_booking l =? booking_id) then
      Some (match acc with Some m => Z.min (l_date l) m | None => l_date l end)
    else acc) None (lines d).

Definition booking_of_property (tenant_id property_id : Z) (b : Booking) : bool :=
  (b_tenant b =? tenant_id) && (b_property b =? property_id).

Definition first_night_is (d : DB) (b : Booking) (day : date) : bool :=
  bool_decide (min_line_date d (b_tenant b) (b_id b) = Some day).
Definition last_night_is (d : DB) (b : Booking) (day : date) : bool :=
  bool_decide (max_line_date d (b_tenant b) (b_id b) = Some day).

(** [_count_arrivals] *)
Definition count_arrivals (tenant_id property_id : Z) (day : date) : M Z :=
  query (fun d => countb (fun b => booking_of_property tenant_id property_id b
    && negb (str_in (b_status b) ACTIVE_EXCLUDE) && first_night_is d b day) (bookings d)).

(** [_count_departures]: the last night was the day before. *)
Definition count_departures (tenant_id property_id : Z) (day : date) : M Z :=
  last_night ← lift (date_add day (-1));
  query (fun d => countb (fun b => booking_of_property tenant_id property_id b
    && negb (str_in (b_status b) ACTIVE_EXCLUDE) && last_night_is d b last_night) (bookings d)).

Definition count_no_shows (tenant_id property_id : Z) (day : date) : M Z :=
  query (fun d => countb (fun b => booking_of_property tenant_id property_id b
    && String.eqb (b_status b) "no_show" && first_night_is d b day) (bookings d)).

(** ** dashboard_service.py *)

Definition DashboardServiceError (detail : string) (status_code : Z) : exn := ServiceError "DashboardServiceError" detail status_code.

Record dashboard_summary := DashboardSummary {
  ds_arrivals : Z; ds_departures : Z; ds_occupied : Z; ds_total : Z; ds_dirty : Z; ds_currency : string;
  ds_unpaid : list (Z * string * option string) }.

Definition rows_on (d : DB) (tenant_id property_id : Z) (day : date) : list (ledger_key * AvailabilityLedger) :=
  List.filter (fun kr => property_row d tenant_id property_id kr && (row_date kr =? day)) (map_to_list (ledger d)).

(** [(func.sum(booked_rooms), func.sum(total_rooms))] of the day. *)
Definition ledger_day (tenant_id property_id : Z) (day : date) : M (Z * Z) :=
  query (fun d =>
    (sumZ (List.map (fun kr => booked_rooms kr.2) (rows_on d tenant_id property_id day)),
     sumZ (List.map (fun kr => total_rooms kr.2) (rows_on d tenant_id property_id day)))).

Definition count_dirty_rooms (tenant_id property_id : Z) : M Z :=
  query (fun d => countb (fun r => (r_tenant r =? tenant_id) && String.eqb (r_hk_status r) "dirty"
    && bool_decide (r_deleted_at r = None)
    && existsb (fun x => (rt_tenant x =? r_tenant r) && (rt_id x =? r_room_type r) && (rt_property x =? property_id)) (room_types d))
    (rooms d)).

(** One row of the unpaid list as the API shows it. *)
Definition unpaid_read (row : Z * Z * string * string) : Z * string * option string :=
  let '(bid, bal, fn, ln) := row in
  let name := strip (fn ++ " " ++ ln) in
  (bid, format_f (cents bal), if truthy name then Some name else None).

Definition get_dashboard_summary (tenant_id property_id : Z) : M dashboard_summary :=
  prop ← scalar (fun p => (p_tenant p =? tenant_id) && (p_id p =? property_id));
  match prop with
  | None => raise (DashboardServiceError "property not found" 404)
  | Some prop =>
      let tz_id := strip (p_timezone prop) in
      if negb (truthy tz_id) then raise (DashboardServiceError "property timezone is empty" 400)
      else if negb (zone_known tz_id) then raise (DashboardServiceError (invalid_zone prop) 400)
      else
        t ← get_now;
        let today_local := local_day tz_id t in
        arrivals ← count_arrivals tenant_id property_id today_local;
        departures ← count_departures tenant_id property_id today_local;
        '(occupied, total) ← ledger_day tenant_id property_id today_local;
        dirty ← count_dirty_rooms tenant_id property_id;
        raw_unpaid ← list_unpaid_folio_summary_for_property tenant_id property_id None false;
        mret (DashboardSummary arrivals departures occupied total dirty (p_currency prop) (List.map unpaid_read raw_unpaid))
  end.

(** ** night_audit.py *)

(** A zone name the database does not know counts as UTC. *)
Definition audit_zone (timezone_id : string) : string :=
  let tz := strip timezone_id in if zone_known tz then tz else "UTC"%string.

(** [_night_audit_fanout_async]: the properties whose local hour it is. *)
Definition night_audit_fanout (properties : list (Z * Z * string)) (target_hour now : Z) : list (Z * Z) :=
  omap (fun p : Z * Z * string => let '(tenant_id, property_id, timezone_id) := p in
    if local_hour (audit_zone timezone_id) now =? target_hour then Some (tenant_id, property_id) else None) properties.

Definition no_show_request : booking_patch :=
  BookingPatch None (Some (Some "no_show"%string)) None None None None.

(** [_auto_no_show_confirmed_past_checkin]: a booking that cannot be marked is
    passed over. *)
Definition auto_no_show (tenant_id : Z) : list Z -> M Z :=
  fix loop (booking_ids : list Z) : M Z :=
    match booking_ids with
    | [] => mret 0
    | bid :: rest =>
        marked ← try_except
          (_ ← patch_booking tenant_id bid no_show_request;
           _ ← record_audit tenant_id "booking.night_audit_no_show" "booking" (Some bid);
           mret 1)
          (fun e => match e with PatchBookingError _ _ => Some (mret 0) | _ => None end);
        n ← loop rest;
        mret (marked + n)
    end.

Definition overdue (d : DB) (tenant_id property_id : Z) (today_local : date) (b : Booking) : bool :=
  booking_of_property tenant_id property_id b && String.eqb (b_status b) "confirmed"
  && match min_line_date d (b_tenant b) (b_id b) with Some n => n <? today_local | None => false end.

Definition auto_no_show_confirmed_past_checkin (tenant_id property_id : Z) (today_local : date) : M Z :=
  booking_ids ← query (fun d => List.map b_id (List.filter (overdue d tenant_id property_id today_local) (bookings d)));
  auto_no_show tenant_id booking_ids.

(** A zone name the database does not know is an error as soon as a payment's
    local day is asked for. *)
Definition payments_total_for_local_day (tenant_id property_id : Z) (timezone_id : string) (day : date) : M Z :=
  paid ← query (fun d => existsb (fun f => (f_tenant f =? tenant_id) && is_payment_row f) (folio d));
  if paid && negb (zone_known timezone_id) then raise DataError
  else query (fun d => sumZ (List.map f_amount (List.filter
    (fun f => folio_in_range d tenant_id property_id timezone_id day day f && is_payment_row f) (folio d)))).

Record night_audit := NightAudit {
  na_auto_no_shows : Z; na_arrivals : Z; na_departures : Z; na_no_shows : Z; na_payments : Z;
  na_unpaid : list (string * string); na_date : date }.

Definition unpaid_entry (row : Z * Z * string * string) : string * string :=
  let '(bid, bal, fn, ln) := row in
  let name := strip (fn ++ " " ++ ln) in
  (if truthy name then name else uuid_str bid, format_f (cents bal)).

Definition night_audit_property (tenant_id property_id : Z) : M (option night_audit) :=
  prop ← scalar (fun p => (p_tenant p =? tenant_id) && (p_id p =? property_id));
  match prop with
  | None => mret None
  | Some prop =>
      t ← get_now;
      let today_local := local_day (audit_zone (p_timezone prop)) t in
      yesterday_local ← lift (date_add today_local (-1));
      auto_no_shows ← auto_no_show_confirmed_past_checkin tenant_id property_id today_local;
      arrivals ← count_arrivals tenant_id property_id yesterday_local;
      departures ← count_departures tenant_id property_id yesterday_local;
      no_shows ← count_no_shows tenant_id property_id yesterday_local;
      payments ← payments_total_for_local_day tenant_id property_id (strip (p_timezone prop)) yesterday_local;
      unpaid_raw ← list_unpaid_folio_summary_for_property tenant_id property_id (Some yesterday_local) true;
      mret (Some (NightAudit auto_no_shows arrivals departures no_shows payments (List.map unpaid_entry unpaid_raw) yesterday_local))
  end.

End dashboard.
