(* ===== verification/ReportsLaws.v ===== *)
(** * The reports agree with the ledger and with each other

    The occupancy report counts lines of bookings, the dashboard sums the
    ledger: on a consistent database they show the same number.  The KPI
    report is the sum of the daily reports. *)

From stdpp Require Import gmap.
From S2P Require Import Prelude PyDecimal PyJson StayDates BookingStatus Models Session Ledger LedgerLaws.
From S2P Require Import Rates RatesLaws Folio FolioLaws Booking BookingFrame BookingInvariant BookingRequests Refusals Reports Dashboard.

(** ** Aggregates *)

Lemma group_sum_get {A K} `{Countable K} (key : A -> K) (val : A -> Z) rows k :
  get0 (group_sum key val rows) k = sumZ (List.map val (List.filter (fun r => bool_decide (key r = k)) rows)).
Proof.
  unfold get0, group_sum. induction rows as [|r rows IH]; [done|]. cbn [List.fold_right List.filter].
  destruct (bool_decide_reflect (key r = k)) as [<-|Hne].
  - rewrite lookup_insert_eq. cbn [List.map]. rewrite sumZ_cons, <- IH. cbn [from_option]. unfold id. lia.
  - by rewrite lookup_insert_ne.
Qed.

Lemma sumZ_ones {A} (l : list A) : sumZ (List.map (fun _ => 1) l) = Z.of_nat (length l).
Proof. induction l as [|x l IH]; [done|]. cbn [List.map length]. rewrite sumZ_cons, IH. lia. Qed.

Lemma sumZ_map_ext {A} (f g : A -> Z) l : (forall x, In x l -> f x = g x) -> sumZ (List.map f l) = sumZ (List.map g l).
Proof. intros H. f_equal. by apply List.map_ext_in. Qed.

(** Counting by key: the keys partition the rows that have one of them. *)
Lemma sum_of_counts {A K} `{EqDecision K} (p : A -> bool) (key : A -> K) (ks : list K) l :
  List.NoDup ks ->
  sumZ (List.map (fun k => countb (fun x => p x && bool_decide (key x = k)) l) ks) =
  countb (fun x => p x && existsb (fun k => bool_decide (key x = k)) ks) l.
Proof.
  induction ks as [|k ks IH]; intros Hnd.
  { cbn. rewrite countb_false; [done|]. intros. apply andb_false_r. }
  apply List.NoDup_cons_iff in Hnd as [Hni Hnd]. cbn [List.map existsb]. rewrite sumZ_cons, IH by done.
  rewrite (countb_split (fun x => p x && (bool_decide (key x = k) || _)) (fun x => bool_decide (key x = k))). f_equal.
  - apply countb_ext. intros x _. by destruct (p x), (bool_decide _).
  - apply countb_ext. intros x _. destruct (bool_decide_reflect (key x = k)) as [->|]; cbn; [|done].
    assert (E : existsb (fun k' => bool_decide (k = k')) ks = false); [|by rewrite E, andb_false_r].
    apply not_true_iff_false. intros (y & Hy & He%bool_decide_eq_true_1)%existsb_exists. by subst y.
Qed.

(** ** Bookings are on the property of their rooms *)

Record sited (d : DB) : Prop := {
  si_types : List.NoDup (List.map rt_id (room_types d));
  si_lines : forall l b, In l (lines d) -> In b (bookings d) -> b_tenant b = l_tenant l -> b_id b = l_booking l ->
    exists x, In x (room_types d) /\ rt_tenant x = l_tenant l /\ rt_id x = l_room_type l /\ rt_property x = b_property b }.

Lemma active_not_excluded st : is_active st = negb (str_in st ACTIVE_EXCLUDE).
Proof. done. Qed.

Lemma sold_line_sited d t p day l :
  inventory_ok d -> sited d -> In l (lines d) ->
  sold_line d t p day day l =
  line_active d l && existsb (fun k => bool_decide (line_key l = k)) (List.map fst (rows_on d t p day)).
Proof.
  intros Hinv Hs Hl. apply eq_true_iff_eq. split.
  - intros [[(b & Hb & Hp)%existsb_exists Hge]%andb_prop Hle]%andb_prop.
    repeat (apply andb_prop in Hp as [Hp ?]). apply Z.leb_le in Hge, Hle.
    repeat match goal with H : (_ =? _) = true |- _ => apply Z.eqb_eq in H end.
    assert (Hact : line_active d l = true).
    { unfold line_active, booking_active. apply existsb_exists. exists b. split; [done|].
      rewrite active_not_excluded. repeat (apply andb_true_intro; split); try (apply Z.eqb_eq; congruence). done. }
    rewrite Hact. cbn [andb]. destruct (active_line_row d l (inv_accounted _ Hinv) Hl Hact) as [r Hr].
    destruct (si_lines _ Hs l b Hl Hb) as (x & Hx & Hxt & Hxi & Hxp); [congruence..|].
    apply existsb_exists. exists (line_key l). split; [|by apply bool_decide_eq_true_2].
    apply in_map_iff. exists (line_key l, r). split; [done|]. apply filter_In. split.
    + by apply list_elem_of_In, elem_of_map_to_list.
    + unfold property_row, line_key, row_date. cbn [fst snd]. apply andb_true_intro. split; [apply andb_true_intro; split|].
      * apply Z.eqb_eq. congruence.
      * apply existsb_exists. exists x. split; [done|]. rewrite Hxt, Hxi, Hxp, !Z.eqb_refl. cbn. apply Z.eqb_eq. congruence.
      * apply Z.eqb_eq. lia.
  - intros [Hact (k & Hk & He%bool_decide_eq_true_1)%existsb_exists]%andb_prop. subst k.
    apply in_map_iff in Hk as ([k r] & Hk & [_ Hp]%filter_In). cbn in Hk. subst k.
    unfold property_row, line_key, row_date in Hp. cbn [fst snd] in Hp. apply andb_prop in Hp as [[Ht Hx]%andb_prop Hd].
    apply Z.eqb_eq in Ht, Hd. apply existsb_exists in Hx as (x & Hx & Hp). repeat (apply andb_prop in Hp as [Hp ?]).
    repeat match goal with H : (_ =? _) = true |- _ => apply Z.eqb_eq in H end.
    unfold line_active, booking_active in Hact. apply existsb_exists in Hact as (b & Hb & Hbp).
    apply andb_prop in Hbp as [[Hbt%Z.eqb_eq Hbi%Z.eqb_eq]%andb_prop Hst].
    destruct (si_lines _ Hs l b Hl Hb Hbt Hbi) as (x' & Hx' & _ & Hxi & Hxp).
    assert (x' = x) as -> by (apply (in_unique_key rt_id (room_types d)); [apply Hs|done..|congruence]).
    unfold sold_line. rewrite Hd, !Z.leb_refl, !andb_true_r. apply existsb_exists. exists b. split; [done|].
    rewrite active_not_excluded in Hst. rewrite Hst, Hbt, Hbi, <- Hxp, Ht, !Z.eqb_refl. cbn. rewrite andb_true_r. apply Z.eqb_eq. congruence.
Qed.

(** The booked rooms of a day on the ledger are the lines sold on that day. *)
Lemma ledger_counts_lines d t p day :
  inventory_ok d -> sited d ->
  sumZ (List.map (fun kr => booked_rooms kr.2) (rows_on d t p day)) = countb (sold_line d t p day day) (lines d).
Proof.
  intros Hinv Hs.
  rewrite (sumZ_map_ext _ (fun kr : ledger_key * AvailabilityLedger => occupancy d kr.1)).
  2:{ intros [k r] [Hin _]%filter_In. cbn [fst snd]. rewrite <- (inv_accounted _ Hinv k). unfold booked_at.
      apply list_elem_of_In, elem_of_map_to_list in Hin. by rewrite Hin. }
  rewrite <- (List.map_map fst (occupancy d)). unfold occupancy, at_key.
  rewrite (sum_of_counts (line_active d) line_key).
  - apply countb_ext. intros l Hl. symmetry. by apply sold_line_sited.
  - apply NoDup_map_filter. apply NoDup_ListNoDup, NoDup_fst_map_to_list.
Qed.

(** ** Reading the reports *)

Section reports_laws.
Context {env : Env} {zones : Zones}.

Lemma run_ok_inv {A} (m : M A) t td u d d' a : run m t td u d = (d', Ok a) -> exists s, m (start d t td u) = (s, Ok a).
Proof. unfold run. destruct (m _) as [s [x|e]]; [|done]. intros [= _ ->]. by exists s. Qed.

Lemma require_property_inv t p s s' prop :
  require_property t p s = (s', Ok prop) -> s' = s.
Proof.
  unfold require_property. rewrite run_scalar. destruct (hd_error _); [|done]. cbv [mret M_ret]. by intros [= <- _].
Qed.

(** The sold lines of a range, one day of it. *)
Lemma sold_day d t p a b day :
  a <= day <= b ->
  sumZ (List.map (fun _ => 1) (List.filter (fun l => bool_decide (l_date l = day)) (sold_lines t p a b d))) =
  countb (sold_line d t p day day) (lines d).
Proof.
  intros Hday. rewrite sumZ_ones. unfold sold_lines. fold (countb (fun l => bool_decide (l_date l = day)) (List.filter (sold_line d t p a b) (lines d))).
  rewrite countb_filter. apply countb_ext. intros l _. unfold sold_line. destruct (existsb _ _); cbn [andb]; [|done].
  destruct (bool_decide_reflect (l_date l = day)) as [->|Hne].
  - rewrite !Z.leb_refl. cbn. rewrite andb_true_r. apply andb_true_intro. split; apply Z.leb_le; lia.
  - rewrite andb_false_r. symmetry. apply not_true_iff_false. intros [H1%Z.leb_le H2%Z.leb_le]%andb_prop. apply Hne. lia.
Qed.

Lemma occupancy_report_rows t p a b s s' rep :
  get_occupancy_report t p a b s = (s', Ok rep) ->
  List.map or_date (oc_rows rep) = daterange a b /\
  forall row, In row (oc_rows rep) ->
    or_occupied row = get0 (group_sum l_date (fun _ => 1) (sold_lines t p a b (disk s))) (or_date row).
Proof.
  intros H. unfold get_occupancy_report in H. mbind_in H s1 prop H1. apply require_property_inv in H1 as ->.
  unfold occupied_by_date, available_by_date in H. rewrite !run_query in H.
  apply bind_lift_inv in H as (rows & Hrows & H). cbv [mret M_ret] in H. injection H as _ <-. cbn [oc_rows].
  apply mapR_ok in Hrows. induction Hrows as [|day row days rows Hr _ IH]; [done|].
  destruct (pct_str _ _) as [pct|] eqn:E; [|done]. cbn in Hr. injection Hr as <-. destruct IH as [IH1 IH2].
  cbn [List.map]. split; [by rewrite IH1|]. intros r [<-|Hr]; [done|by apply IH2].
Qed.

Lemma daterange_In a b x : In x (daterange a b) -> a <= x <= b.
Proof. unfold daterange. rewrite in_map_iff. intros (i & <- & Hi%in_seq). lia. Qed.

Definition the_property (d : DB) (t p : Z) (prop : Property) : Prop :=
  In prop (properties d) /\ p_tenant prop = t /\ p_id prop = p /\ List.NoDup (List.map p_id (properties d)).

Lemma find_property d t p prop :
  the_property d t p prop -> List.find (fun x => (p_tenant x =? t) && (p_id x =? p)) (properties d) = Some prop.
Proof.
  intros (Hin & <- & <- & Hnd). destruct (List.find _ _) as [x|] eqn:Hf.
  - apply find_some in Hf as [Hx [_ Hi%Z.eqb_eq]%andb_prop]. f_equal. by apply (in_unique_key p_id (properties d)).
  - apply (find_none _ _ Hf) in Hin. by rewrite !Z.eqb_refl in Hin.
Qed.

Lemma dashboard_occupied t p tm td u d s' ds prop :
  the_property d t p prop -> get_dashboard_summary t p (start d tm td u) = (s', Ok ds) ->
  ds_occupied ds = sumZ (List.map (fun kr => booked_rooms kr.2) (rows_on d t p (local_day (strip (p_timezone prop)) tm))).
Proof.
  intros Hp H. unfold get_dashboard_summary in H. rewrite run_scalar_synced in H by (split; [done|apply Hp]).
  cbn [table Property_entity mem start] in H. rewrite (find_property d t p prop Hp) in H. cbv zeta in H.
  destruct (negb (truthy _)); [done|]. destruct (negb (zone_known _)); [done|]. rewrite run_now in H.
  mbind_in H s1 arrivals H1. assert (s1 = start d tm td u) as -> by (unfold count_arrivals in H1; cbv [query] in H1; by injection H1 as <- _).
  mbind_in H s2 departures H2.
  assert (s2 = start d tm td u) as ->.
  { unfold count_departures in H2. apply bind_lift_inv in H2 as (x & _ & H2). cbv [query] in H2. by injection H2 as <- _. }
  unfold ledger_day in H. rewrite run_query in H. mbind_in H s3 dirty H3. mbind_in H s4 unpaid H4.
  cbv [mret M_ret] in H. by injection H as _ <-.
Qed.

(** C27: on a consistent database the dashboard, which sums the
    ledger, and the occupancy report, which counts the lines of bookings, show
    the same number of occupied rooms for the property's today. *)
Theorem dashboard_agrees_with_report t p a b tm td u d d1 d2 ds rep prop row :
  inventory_ok d -> sited d -> the_property d t p prop ->
  run (get_dashboard_summary t p) tm td u d = (d1, Ok ds) ->
  run (get_occupancy_report t p a b) tm td u d = (d2, Ok rep) ->
  In row (oc_rows rep) -> or_date row = local_day (strip (p_timezone prop)) tm ->
  or_occupied row = ds_occupied ds.
Proof.
  intros Hinv Hs Hp [s1 H1]%run_ok_inv [s2 H2]%run_ok_inv Hrow Hday.
  rewrite (dashboard_occupied _ _ _ _ _ _ _ _ prop Hp H1), <- Hday, ledger_counts_lines by done.
  apply occupancy_report_rows in H2 as [Hdates Hocc]. rewrite (Hocc row Hrow), group_sum_get. cbn [disk start].
  apply sold_day, daterange_In. rewrite <- Hdates. by apply in_map.
Qed.

(** ** Key figures *)

Lemma foldR_project {A S T} (f : S -> A -> result S) (g : T -> A -> result T) (pi : S -> T) l s s' :
  (forall s x s', f s x = Ok s' -> g (pi s) x = Ok (pi s')) -> foldR f s l = Ok s' -> foldR g (pi s) l = Ok (pi s').
Proof.
  intros Hstep. revert s. induction l as [|x l IH]; intros s H; cbn in *; [by injection H as <-|].
  destruct (f s x) as [s1|] eqn:E; [|done]. cbn in H. rewrite (Hstep _ _ _ E). cbn. by apply IH.
Qed.

(** The running total of the room revenue. *)
Definition revenue_step (room : gmap date Z) (acc : dec) (d : date) : result dec := add_q2 acc (cents (get0 room d)).

Lemma kpi_counts room occupied available l acc acc' :
  foldR (kpi_day room occupied available) acc l = Ok acc' ->
  acc'.1.2 = acc.1.2 + sumZ (List.map (get0 occupied) l) /\ acc'.2 = acc.2 + sumZ (List.map (get0 available) l).
Proof.
  revert acc. induction l as [|x l IH]; intros [[r so] av] H; cbn [foldR List.map] in *.
  { injection H as <-. cbn. lia. }
  apply bind_Ok in H as ([[r1 so1] av1] & H1 & H). unfold kpi_day in H1. apply bind_Ok in H1 as (r2 & _ & [= <- <- <-]).
  apply IH in H as [-> ->]. cbn [fst snd]. rewrite !sumZ_cons. lia.
Qed.

Lemma kpi_revenue room occupied available l acc acc' :
  foldR (kpi_day room occupied available) acc l = Ok acc' -> foldR (revenue_step room) acc.1.1 l = Ok acc'.1.1.
Proof.
  apply (foldR_project (kpi_day room occupied available) (revenue_step room) (fun acc => acc.1.1)).
  intros [[r so] av] x s' H. unfold kpi_day in H. unfold revenue_step. cbn [fst].
  destruct (add_q2 r _) as [r'|]; [|done]. cbn in H. by injection H as <-.
Qed.

Lemma report_revenue room other tax payments l acc acc' :
  foldR (revenue_day room other tax payments) acc l = Ok acc' -> foldR (revenue_step room) (ra_room acc) l = Ok (ra_room acc').
Proof.
  apply (foldR_project (revenue_day room other tax payments) (revenue_step room) ra_room).
  intros s x s' H. unfold revenue_day in H. unfold revenue_step.
  apply bind_Ok in H as (r & Hr & H). rewrite Hr. repeat (apply bind_Ok in H as (? & _ & H)). by injection H as <-.
Qed.

Lemma occupancy_rows_of t p a b s s' rep :
  get_occupancy_report t p a b s = (s', Ok rep) ->
  let occ := group_sum l_date (fun _ => 1) (sold_lines t p a b (disk s)) in
  let avail := group_sum row_date (fun kr => total_rooms kr.2 - blocked_rooms kr.2)
    (List.filter (fun kr => property_row (disk s) t p kr && (a <=? row_date kr) && (row_date kr <=? b)) (map_to_list (ledger (disk s)))) in
  List.map or_occupied (oc_rows rep) = List.map (get0 occ) (daterange a b) /\
  List.map or_available (oc_rows rep) = List.map (get0 avail) (daterange a b).
Proof.
  intros H. cbv zeta. unfold get_occupancy_report in H. mbind_in H s1 prop H1. apply require_property_inv in H1 as ->.
  unfold occupied_by_date, available_by_date in H. rewrite !run_query in H.
  apply bind_lift_inv in H as (rows & Hrows & H). cbv [mret M_ret] in H. injection H as _ <-. cbn [oc_rows].
  apply mapR_ok in Hrows. induction Hrows as [|day row days rows Hr _ IH]; [done|].
  destruct (pct_str _ _) as [pct|]; [|done]. cbn in Hr. injection Hr as <-. destruct IH as [IH1 IH2]. cbn [List.map or_occupied or_available].
  by rewrite IH1, IH2.
Qed.

(** the KPI report adds up the other two over the same days: its sold
    and available nights are the sums of the occupancy report's columns, its
    room revenue is the revenue report's total. *)
Theorem kpi_sums_the_reports t p a b tm td u d d1 d2 d3 oc re ki :
  run (get_occupancy_report t p a b) tm td u d = (d1, Ok oc) ->
  run (get_revenue_report t p a b) tm td u d = (d2, Ok re) ->
  run (get_kpi_report t p a b) tm td u d = (d3, Ok ki) ->
  ki_sold ki = sumZ (List.map or_occupied (oc_rows oc)) /\
  ki_available ki = sumZ (List.map or_available (oc_rows oc)) /\
  ki_revenue ki = re_room_total re /\
  pct_str (sumZ (List.map or_occupied (oc_rows oc))) (sumZ (List.map or_available (oc_rows oc))) = Ok (ki_pct ki).
Proof.
  intros [s1 H1]%run_ok_inv [s2 H2]%run_ok_inv [s3 H3]%run_ok_inv. apply occupancy_rows_of in H1 as [-> ->]. cbn [disk start].
  unfold get_kpi_report in H3. mbind_in H3 s4 prop H4. apply require_property_inv in H4 as ->.
  unfold room_revenue_by_date, occupied_by_date, available_by_date in H3. rewrite !run_query in H3. cbn [disk start] in H3.
  apply bind_lift_inv in H3 as ([[rev sold] avail] & Hk & H3). apply kpi_counts in Hk as Hc. destruct Hc as [Hsold Havail].
  apply kpi_revenue in Hk. cbn [fst snd] in *. rewrite Z.add_0_l in Hsold, Havail.
  apply bind_lift_inv in H3 as (adr & _ & H3). apply bind_lift_inv in H3 as (revpar & _ & H3).
  apply bind_lift_inv in H3 as (rs & Hrs & H3). apply bind_lift_inv in H3 as (pct & Hpct & H3).
  apply bind_lift_inv in H3 as (? & _ & H3). apply bind_lift_inv in H3 as (? & _ & H3). cbv [mret M_ret] in H3. injection H3 as _ <-.
  cbn [ki_sold ki_available ki_revenue ki_pct]. subst sold avail. split_and!; [done|done| |done].
  unfold get_revenue_report in H2. mbind_in H2 s5 prop2 H5. apply require_property_inv in H5 as ->.
  apply bind_lift_inv in H2 as (tz & _ & H2). unfold room_revenue_by_date, folio_aggregates_by_date in H2. rewrite !run_query in H2. cbn [disk start] in H2.
  apply bind_lift_inv in H2 as (acc & Hacc & H2). apply report_revenue in Hacc. cbn [ra_room] in Hacc. rewrite Hk in Hacc. injection Hacc as ->.
  apply bind_lift_inv in H2 as (rt & Hrt & H2). rewrite Hrs in Hrt. injection Hrt as ->.
  apply bind_lift_inv in H2 as (? & _ & H2). apply bind_lift_inv in H2 as (? & _ & H2). apply bind_lift_inv in H2 as (? & _ & H2).
  cbv [mret M_ret] in H2. by injection H2 as _ <-.
Qed.

End reports_laws.

(** ** Ann's hotel, on her first night *)

(** Days in UTC, counted like [date.toordinal]. *)
Definition utc : Zones := {|
  zone_known := fun s => String.eqb s "UTC"; local_day := fun _ t => t / 86400 + 719163; local_hour := fun _ t => t / 3600 mod 24 |}.

Definition ann_hotel : Property := MkProperty 3 1 "Hotel" None "UTC" "EUR" 14 11.
Definition open_db : DB := put_properties [ann_hotel] booked_db.
Definition day_100 : Z := (100 - 719163) * 86400.

Lemma with_properties_inventory ps d : inventory_ok d -> inventory_ok (put_properties ps d).
Proof. intros [Hwf Hb Hex]. split; [by apply (well_formed_ext d)|exact Hb|by apply (exclusive_ext d)]. Qed.

(** A database whose bookings are all on one property with one room type. *)
Lemma one_type_sited d x :
  room_types d = [x] ->
  forallb (fun b => b_property b =? rt_property x) (bookings d) = true ->
  forallb (fun l => (l_tenant l =? rt_tenant x) && (l_room_type l =? rt_id x)) (lines d) = true -> sited d.
Proof.
  intros Hx Hb Hl. split.
  - rewrite Hx. repeat constructor. by intros [].
  - intros l b Hinl Hinb _ _. exists x. rewrite Hx. apply (proj1 (forallb_forall _ _) Hb) in Hinb.
    apply (proj1 (forallb_forall _ _) Hl) in Hinl. apply andb_prop in Hinl as [?%Z.eqb_eq ?%Z.eqb_eq]. apply Z.eqb_eq in Hinb.
    split_and!; [by left|congruence..].
Qed.

Lemma dashboard_agrees_with_report_witness :
  exists d1 d2 ds rep row, run (get_dashboard_summary (zones := utc) 1 3) day_100 100 0 open_db = (d1, Ok ds) /\
    run (get_occupancy_report 1 3 100 101) day_100 100 0 open_db = (d2, Ok rep) /\
    In row (oc_rows rep) /\ ds_occupied ds = 1 /\ or_occupied row = ds_occupied ds.
Proof.
  assert (H : exists d1 d2 ds rep row rows, run (get_dashboard_summary (zones := utc) 1 3) day_100 100 0 open_db = (d1, Ok ds) /\
    run (get_occupancy_report 1 3 100 101) day_100 100 0 open_db = (d2, Ok rep) /\
    oc_rows rep = row :: rows /\ ds_occupied ds = 1 /\ or_date row = 100).
  { eexists _, _, _, _, _, _. split; [vm_compute; reflexivity|]. split; [vm_compute; reflexivity|].
    split; [reflexivity|]. split; reflexivity. }
  assert (Hs : sited open_db).
  { apply (one_type_sited _ (MkRoomType 7 1 3 "Double" 2 2 None)); vm_compute; reflexivity. }
  assert (Hp : the_property open_db 1 3 ann_hotel).
  { split; [left; reflexivity|]. split; [reflexivity|]. split; [reflexivity|]. repeat constructor. intros []. }
  destruct H as (d1 & d2 & ds & rep & row & rows & H1 & H2 & Hrows & Hocc & Hdate).
  assert (Hrow : In row (oc_rows rep)) by (rewrite Hrows; left; reflexivity).
  exists d1, d2, ds, rep, row. split; [exact H1|]. split; [exact H2|]. split; [exact Hrow|]. split; [exact Hocc|].
  apply (dashboard_agrees_with_report (zones := utc) 1 3 100 101 day_100 100 0 open_db d1 d2 ds rep ann_hotel row
    (with_properties_inventory [ann_hotel] booked_db booked_inventory) Hs Hp H1 H2 Hrow).
  rewrite Hdate. vm_compute. reflexivity.
Defined.

Lemma kpi_sums_the_reports_witness :
  exists d1 d2 d3 oc re ki, run (get_occupancy_report 1 3 100 101) day_100 100 0 open_db = (d1, Ok oc) /\
    run (get_revenue_report (zones := utc) 1 3 100 101) day_100 100 0 open_db = (d2, Ok re) /\
    run (get_kpi_report 1 3 100 101) day_100 100 0 open_db = (d3, Ok ki) /\
    ki_revenue ki = "270.50"%string /\ ki_sold ki = sumZ (List.map or_occupied (oc_rows oc)) /\ ki_revenue ki = re_room_total re.
Proof.
  assert (H : exists d1 d2 d3 oc re ki, run (get_occupancy_report 1 3 100 101) day_100 100 0 open_db = (d1, Ok oc) /\
    run (get_revenue_report (zones := utc) 1 3 100 101) day_100 100 0 open_db = (d2, Ok re) /\
    run (get_kpi_report 1 3 100 101) day_100 100 0 open_db = (d3, Ok ki) /\ ki_revenue ki = "270.50"%string).
  { eexists _, _, _, _, _, _. split; [vm_compute; reflexivity|]. split; [vm_compute; reflexivity|].
    split; [vm_compute; reflexivity|]. reflexivity. }
  destruct H as (d1 & d2 & d3 & oc & re & ki & H1 & H2 & H3 & Hr).
  destruct (kpi_sums_the_reports (zones := utc) 1 3 100 101 day_100 100 0 open_db d1 d2 d3 oc re ki H1 H2 H3) as (Hs & _ & Ht & _).
  exists d1, d2, d3, oc, re, ki. split; [exact H1|]. split; [exact H2|]. split; [exact H3|]. split; [exact Hr|].
  split; [exact Hs|exact Ht].
Defined.
