(* ===== verification/Receipts.v ===== *)
(** * Receipts and invoices

    app/services/booking_receipt_service.py and pdf_invoice_service.py: the
    receipt of a booking's charges with its property tax, and the data of the
    printed invoice.  WeasyPrint, which turns the invoice's HTML into a PDF, is
    a parameter of [Emails]. *)

From stdpp Require Import gmap.
From S2P Require Import Prelude PyDecimal PyJson StayDates Calendar Tax Models Session Folio WebhookEvents.

(** Timestamps are seconds since 1970-01-01 UTC. *)
Definition utc_date (t : Z) : date := t / 86400 + 719163.

(** [t.astimezone(utc).strftime("%Y-%m-%d %H:%M UTC")] *)
Definition utc_stamp (t : Z) : string :=
  (isoformat (utc_date t) ++ " " ++ fixed 2 (t mod 86400 / 3600) ++ ":" ++ fixed 2 (t mod 3600 / 60) ++ " UTC")%string.

Example stamp_of_y2k : utc_stamp 946684859 = "2000-01-01 00:00 UTC"%string.
Proof. vm_compute. reflexivity. Qed.

Definition mode_value (m : tax_mode) : string :=
  match m with mode_off => "off" | mode_inclusive => "inclusive" | mode_exclusive => "exclusive" end.

(** A tax configuration that is not switched off. *)
Definition taxed (cfg : option tax_config) : option tax_config :=
  match cfg with
  | Some c => if bool_decide (cfg_mode c = mode_off) then None else Some c
  | None => None
  end.

(** ** booking_receipt_service.py *)

Record receipt_tax := ReceiptTax {
  rx_mode : string; rx_name : string; rx_rate : string; rx_breakdown : tax_breakdown; rx_lines : list string }.

Record receipt := Receipt {
  rc_booking : Z; rc_property : Z; rc_first : option string; rc_last : option string;
  rc_currency : option string; rc_subtotal : string; rc_tax : option receipt_tax }.

Definition receipt_tax_of (charge_total : dec) (cfg : tax_config) : result receipt_tax :=
  breakdown ← calculate_property_tax charge_total cfg;
  ls ← property_tax_summary_lines cfg breakdown;
  Ok (ReceiptTax (mode_value (cfg_mode cfg)) (cfg_name cfg) (format_f (cfg_rate cfg)) breakdown ls).

Definition build_booking_receipt (tenant_id booking_id : Z) : M receipt :=
  booking ← require_booking tenant_id booking_id;
  guest ← scalar (fun g => (g_tenant g =? b_tenant booking) && (g_id g =? b_guest booking));
  charge_total ← sum_booking_charge_amounts tenant_id booking_id;
  prop_row ← scalar (fun p => (p_tenant p =? tenant_id) && (p_id p =? b_property booking));
  cfg ← get_tax_config tenant_id (b_property booking);
  tax ← lift (match taxed cfg with
              | Some c => t ← receipt_tax_of (cents charge_total) c; Ok (Some t)
              | None => Ok None
              end);
  mret (Receipt (b_id booking) (b_property booking) (g_first <$> guest) (g_last <$> guest) (p_currency <$> prop_row)
          (format_f (cents charge_total)) tax).

(** ** pdf_invoice_service.py *)

(** [_money], on an amount of whole cents *)
Definition money (amount : Z) (currency_code : string) : string := (format_f (cents amount) ++ " " ++ currency_code)%string.

(** [_folio_totals] *)
Definition folio_totals (folio_lines : list FolioTransaction) : Z * Z * Z :=
  let '(charges, payments) := List.fold_left (fun acc t =>
      if String.eqb (f_type t) "Charge" then (acc.1 + f_amount t, acc.2)
      else if String.eqb (f_type t) "Payment" then (acc.1, acc.2 + f_amount t) else acc) folio_lines (0, 0) in
  (charges, payments, charges - payments).

(** [_stay_dates] *)
Definition invoice_stay (booking_lines : list BookingLine) : result (string * string) :=
  match booking_lines with
  | [] => Ok (EmptyString, EmptyString)
  | _ => '(ci, co) ← stay_bounds (List.map l_date booking_lines); Ok (isoformat ci, isoformat co)
  end.

Definition older_first (a b : FolioTransaction) : bool :=
  (f_created_at a <? f_created_at b) || ((f_created_at a =? f_created_at b) && (f_id a <=? f_id b)).

(** The dash printed for a text that is missing. *)
Definition dash : string := "—".
Definition or_dash (s : string) : string := if truthy s then s else dash.

Definition folio_row (currency : string) (t : FolioTransaction) : json :=
  JObj [("posted_at", JStr (utc_stamp (f_created_at t))); ("tx_type", JStr (f_type t)); ("category", JStr (f_category t));
        ("description", JStr (or_dash (default EmptyString (f_desc t)))); ("amount", JStr (money (f_amount t) currency))]%string.

Definition tax_block (charges : Z) (cfg : tax_config) : result json :=
  breakdown ← calculate_property_tax (cents charges) cfg;
  rate_pct ← dec_quantize ROUND_HALF_UP (dec_mul (cfg_rate cfg) (dec_of_int 100)) (-2);
  ls ← property_tax_summary_lines cfg breakdown;
  Ok (JObj [("mode", JStr (mode_value (cfg_mode cfg))); ("name", JStr (cfg_name cfg)); ("rate_pct", JStr (format_f rate_pct));
            ("summary_lines", JArr (List.map JStr ls)); ("net", JStr (format_f (br_net breakdown)));
            ("tax_amount", JStr (format_f (br_tax breakdown))); ("gross", JStr (format_f (br_gross breakdown)))]%string).

Section invoice.
Context {env : Env}.

Definition build_invoice_pdf_context (booking : Booking) (property_ : Property) (folio_lines : list FolioTransaction)
    (tax : option tax_config) (guest : option Guest) (booking_lines : list BookingLine) (room_name : option string)
    (generated_at : Z) : result dict :=
  let currency := p_currency property_ in
  let guest_display := match guest with Some g => or_dash (strip (g_first g ++ " " ++ g_last g)) | None => dash end in
  '(check_in, check_out) ← invoice_stay booking_lines;
  let '(charges, payments, balance) := folio_totals folio_lines in
  block ← match taxed tax with Some c => tax_block charges c | None => Ok JNull end;
  Ok [("property_name", JStr (p_name property_)); ("currency_code", JStr currency); ("generated_at", JStr (utc_stamp generated_at));
      ("guest_display", JStr guest_display); ("booking_id", JStr (uuid_str (b_id booking)));
      ("external_booking_id", JStr (default EmptyString (b_ext booking))); ("booking_status", JStr (b_status booking));
      ("check_in", JStr check_in); ("check_out", JStr check_out); ("room_display", JStr (default EmptyString room_name));
      ("folio_rows", JArr (List.map (folio_row currency) (order_by older_first folio_lines))); ("tax", block);
      ("charges_total", JStr (money charges currency)); ("payments_total", JStr (money payments currency));
      ("balance_due", JStr (money balance currency))]%string.

End invoice.

(** ** The papers agree with the folio *)

Lemma folio_totals_spec l : folio_totals l = (sum_case is_charge l, sum_case is_payment l, balance_of l).
Proof.
  unfold folio_totals, balance_of, sum_case, is_charge, is_payment.
  assert (H : forall l a b, List.fold_left (fun acc t =>
      if String.eqb (f_type t) "Charge" then (acc.1 + f_amount t, acc.2)
      else if String.eqb (f_type t) "Payment" then (acc.1, acc.2 + f_amount t) else acc) l (a, b) =
    (a + sumZ (List.map (fun f => if String.eqb (f_type f) "Charge" then f_amount f else 0) l),
     b + sumZ (List.map (fun f => if String.eqb (f_type f) "Payment" then f_amount f else 0) l))).
  { clear l. induction l as [|t l IH]; intros a b; cbn [List.fold_left List.map]; [cbn; by rewrite !Z.add_0_r|rewrite !sumZ_cons].
    destruct (String.eqb_spec (f_type t) "Charge") as [E|]; destruct (String.eqb_spec (f_type t) "Payment") as [E'|];
      [congruence|rewrite IH; cbn [fst snd]; f_equal; lia..]. }
  rewrite H, !Z.add_0_l. done.
Qed.
