(* ===== verification/Emails.v ===== *)
(** * Transactional e-mail

    app/services/email_service.py, email_log_service.py,
    email_settings_service.py, app/tasks/email_tasks.py, [send_email] of
    app/integrations/resend/client.py, and the report that ends the night
    audit (app/tasks/night_audit.py).  The mail provider is a state of type
    [W]; the template engine and the PDF renderer are parameters. *)

From stdpp Require Import gmap strings.
From S2P Require Import Prelude PyDecimal PyJson StayDates Calendar Tax Models Session Folio Booking WebhookEvents Channex Remote Reports Dashboard Receipts.

Record mail := Mail {
  ml_from : string; ml_to : list string; ml_subject : string; ml_html : string; ml_attachments : list (string * string) }.

Inductive delivery := Delivered (id : string) | Undelivered (error : string).

(** The provider, Jinja and WeasyPrint. *)
Class Mailer (W : Type) := {
  deliver : W -> string -> mail -> W * delivery;
  render_email : string -> dict -> result string;
  html_to_pdf : string -> result string }.

(** ** base64.b64encode *)

Definition b64_char (n : Z) : ascii :=
  ascii_of_nat (Z.to_nat (if n <? 26 then n + 65 else if n <? 52 then n + 71 else if n <? 62 then n - 4 else if n =? 62 then 43 else 47)).

Definition byte (c : ascii) : Z := Z.of_nat (nat_of_ascii c).

Fixpoint b64_chars (l : list ascii) : list ascii :=
  match l with
  | a :: b :: c :: l' =>
      let n := byte a * 65536 + byte b * 256 + byte c in
      b64_char (n / 262144) :: b64_char (n / 4096 mod 64) :: b64_char (n / 64 mod 64) :: b64_char (n mod 64) :: b64_chars l'
  | [a; b] => let n := byte a * 1024 + byte b * 4 in [b64_char (n / 4096); b64_char (n / 64 mod 64); b64_char (n mod 64); "="%char]
  | [a] => let n := byte a * 16 in [b64_char (n / 64); b64_char (n mod 64); "="%char; "="%char]
  | [] => []
  end.

Definition b64encode (s : string) : string := string_of_list_ascii (b64_chars (list_ascii_of_string s)).

Example b64_two : b64encode "Ma" = "TWE="%string. Proof. reflexivity. Qed.
Example b64_many : b64encode "light work." = "bGlnaHQgd29yay4="%string. Proof. reflexivity. Qed.

(** [s.endswith(suffix)] *)
Definition ends_with (suffix s : string) : bool :=
  (String.length suffix <=? String.length s)%nat
  && String.eqb (substring (String.length s - String.length suffix) (String.length suffix) s) suffix.

(** Addresses under the reserved domain, which imports make up for guests
    without one. *)
Definition placeholder (address : string) : bool := ends_with ".invalid" (lower (strip address)).

Definition guest_may_receive_email (guest : Guest) : bool :=
  truthy (strip (g_email guest)) && negb (placeholder (g_email guest)).

(** ** email_log_service.py, email_settings_service.py *)

Definition list_email_logs_for_booking (tenant_id booking_id : Z) : M (list EmailLog) :=
  rows ← select (R := EmailLog) (fun e => (el_tenant e =? tenant_id) && bool_decide (el_booking e = Some booking_id));
  mret (order_by (fun a b => el_sent_at b <=? el_sent_at a) rows).

Record email_settings_put := EmailSettingsPut {
  ep_sender : string; ep_reply_to : option string; ep_logo : option string; ep_locale : string }.

Definition settings_of (tenant_id property_id : Z) (e : EmailSettings) : bool :=
  (es_tenant e =? tenant_id) && (es_property e =? property_id).

Definition get_email_settings (tenant_id property_id : Z) : M (option EmailSettings) := scalar (settings_of tenant_id property_id).

(** [(x or "").strip() or None] *)
Definition blank_to_none (o : option string) : option string :=
  let s := strip (default EmptyString o) in if truthy s then Some s else None.

Definition upsert_email_settings (tenant_id property_id : Z) (data : email_settings_put) : M EmailSettings :=
  row ← get_email_settings tenant_id property_id;
  let reply := blank_to_none (ep_reply_to data) in
  let logo := blank_to_none (ep_logo data) in
  let locale := lower (strip (ep_locale data)) in
  match row with
  | None =>
      i ← uuid4;
      let r := MkEmailSettings i tenant_id property_id (strip (ep_sender data)) reply logo locale in
      _ ← add r; _ ← flush; mret r
  | Some r =>
      let r' := MkEmailSettings (es_id r) (es_tenant r) (es_property r) (strip (ep_sender data)) reply logo locale in
      _ ← assign (es_id r) (fun _ : EmailSettings => r'); _ ← flush; mret r'
  end.

(** ** The log *)

(** A row that says that a message of a template reached the provider. *)
Definition logged_sent (tenant_id : Z) (template : string) (e : EmailLog) : bool :=
  (el_tenant e =? tenant_id) && String.eqb (el_template e) template && String.eqb (el_status e) "sent".

Definition checkin_reminder_sent_today (tenant_id booking_id : Z) : M bool :=
  t ← get_now;
  query (fun d => existsb (fun e => logged_sent tenant_id "checkin_reminder" e && bool_decide (el_booking e = Some booking_id)
                                    && (utc_date (el_sent_at e) =? utc_date t)) (email_logs d)).

Section emails.
Context {env : Env} {W : Type} {mailer : Mailer W} (resend_api_key email_from_default : string).

(** What a message is about, beside its text. *)
Record about := About { ab_property : option Z; ab_booking : option Z; ab_template : string }.

Definition log_email (tenant_id : Z) (a : about) (to subject status : string) (resend_id error_message : option string) : M unit :=
  i ← uuid4; t ← get_now;
  address ← lift (varchar 320 to);
  _ ← add (MkEmailLog i tenant_id (ab_property a) (ab_booking a) address (ab_template a) subject status resend_id error_message t);
  flush.

(** [send_email]: the key is the one the caller checked. *)
Definition send_email (to subject html : string) (attachments : list (string * string)) : call W delivery := fun w =>
  let '(w', r) := deliver w (strip resend_api_key) (Mail email_from_default [to] subject html attachments) in (w', Ok r).

Definition send_booking_email (tenant_id : Z) (to subject html : string) (a : about) (attachments : list (string * string)) : T W unit :=
  if negb (truthy (strip resend_api_key)) then mret tt
  else
    r ← wire (send_email to subject html attachments);
    match r with
    | Delivered i => db (log_email tenant_id a to subject "sent" (Some i) None)
    | Undelivered e => db (log_email tenant_id a to subject "failed" None (Some (slice (Z.to_nat 8000) e)))
    end.

(** Render a template and send it. *)
Definition send_template (tenant_id : Z) (to subject template_file : string) (ctx : dict) (a : about) : T W unit :=
  html ← db (lift (render_email template_file ctx));
  send_booking_email tenant_id to subject html a [].

(** ** Messages to users *)

Definition no_property : json := JObj [].

Definition send_invite_email (tenant_id : Z) (to_email full_name tenant_name temporary_password : string) : T W unit :=
  send_template tenant_id (strip to_email) ("You've been invited to " ++ tenant_name ++ " on OpenPMS")%string "user_invite.html"
    [("full_name", JStr full_name); ("email", JStr to_email); ("tenant_name", JStr tenant_name);
     ("temporary_password", JStr temporary_password); ("property", no_property)]%string
    (About None None "user_invite").

Definition send_password_reset_email (tenant_id : Z) (to_email full_name reset_link : string) : T W unit :=
  send_template tenant_id (strip to_email) "Reset your OpenPMS password" "password_reset.html"
    [("full_name", JStr full_name); ("reset_link", JStr reset_link); ("property", no_property)]%string
    (About None None "password_reset").

Definition send_property_test_email (tenant_id property_id : Z) (property_name sender_display to_address : string) : T W unit :=
  send_template tenant_id (strip to_address) ("Test email — " ++ property_name)%string "test_email.html"
    [("sender_name", JStr sender_display); ("property_name", JStr property_name)]%string
    (About (Some property_id) None "test_email").

(** ** What a message says of a stay *)

Definition stay_summary (ls : list BookingLine) : result (string * string * Z) :=
  match ls with
  | [] => Ok (EmptyString, EmptyString, 0)
  | _ =>
      '(ci, co) ← stay_bounds_from_lines ls;
      Ok (isoformat ci, isoformat co, Z.of_nat (length (sorted_set (List.map l_date ls))))
  end.

Definition room_type_name (tenant_id : Z) (ls : list BookingLine) : M string :=
  match ls with
  | [] => mret EmptyString
  | l :: _ =>
      row ← scalar (fun r => (rt_tenant r =? tenant_id) && (rt_id r =? l_room_type l));
      let n := strip (default EmptyString (rt_name <$> row)) in
      mret (if truthy n then n else "Room"%string)
  end.

Fixpoint room_label (tenant_id : Z) (ls : list BookingLine) : M (option string) :=
  match ls with
  | [] => mret None
  | l :: ls' =>
      match l_room l with
      | None => room_label tenant_id ls'
      | Some rid =>
          room ← scalar (R := Room) (fun r => (r_tenant r =? tenant_id) && (r_id r =? rid));
          match room with Some r => mret (Some (r_name r)) | None => room_label tenant_id ls' end
      end
  end.

Definition guest_name (guest : Guest) : string := strip (g_first guest ++ " " ++ g_last guest).
Definition booking_reference (booking : Booking) : string := upper (slice 8 (uuid_str (b_id booking))).

Definition property_ctx (property_ : Property) : json :=
  JObj [("name", JStr (p_name property_)); ("address", JStr EmptyString); ("phone", JStr EmptyString)]%string.

Definition about_booking (booking : Booking) (template : string) : about := About (Some (b_property booking)) (Some (b_id booking)) template.

(** ** Messages to guests *)

Definition send_booking_confirmation (tenant_id : Z) (booking : Booking) (property_ : Property) (guest : Guest) : T W unit :=
  if negb (guest_may_receive_email guest) then mret tt
  else
    ls ← db (booking_lines (b_tenant booking) (b_id booking));
    '(ci, co, n_nights) ← db (lift (stay_summary ls));
    rt_name ← db (room_type_name tenant_id ls);
    room_name ← db (room_label tenant_id ls);
    send_template tenant_id (strip (g_email guest)) ("Booking confirmed — " ++ p_name property_)%string "booking_confirmation.html"
      [("guest_name", JStr (guest_name guest)); ("booking_reference", JStr (booking_reference booking)); ("check_in", JStr ci);
       ("check_out", JStr co); ("nights", JInt n_nights); ("room_type_name", JStr rt_name);
       ("room_name", JStr (default EmptyString room_name)); ("total_amount", JStr (format_f (cents (b_total booking))));
       ("currency", JStr (p_currency property_)); ("property", property_ctx property_)]%string
      (about_booking booking "booking_confirmation").

Definition cancellation_policy (tenant_id : Z) (booking : Booking) : M string :=
  match b_rate_plan booking with
  | None => mret EmptyString
  | Some rp =>
      row ← scalar (fun r => (rp_tenant r =? tenant_id) && (rp_id r =? rp));
      mret (slice 2000 (strip (default EmptyString (rp_policy <$> row))))
  end.

Definition send_cancellation_email (tenant_id : Z) (booking : Booking) (property_ : Property) (guest : Guest) : T W unit :=
  if negb (guest_may_receive_email guest) then mret tt
  else
    ls ← db (booking_lines (b_tenant booking) (b_id booking));
    '(ci, co, _) ← db (lift (stay_summary ls));
    rt_name ← db (room_type_name tenant_id ls);
    policy_line ← db (cancellation_policy tenant_id booking);
    send_template tenant_id (strip (g_email guest)) ("Booking cancelled — " ++ p_name property_)%string "booking_cancellation.html"
      [("guest_name", JStr (guest_name guest)); ("booking_reference", JStr (booking_reference booking)); ("check_in", JStr ci);
       ("check_out", JStr co); ("room_type_name", JStr rt_name); ("cancellation_policy", JStr policy_line);
       ("property", property_ctx property_)]%string
      (about_booking booking "booking_cancellation").

Definition send_checkin_reminder_email (tenant_id : Z) (booking : Booking) (property_ : Property) (guest : Guest) : T W unit :=
  if negb (String.eqb (b_status booking) "confirmed") then mret tt
  else if negb (guest_may_receive_email guest) then mret tt
  else
    sent ← db (checkin_reminder_sent_today tenant_id (b_id booking));
    if (sent : bool) then mret tt
    else
      ls ← db (booking_lines (b_tenant booking) (b_id booking));
      '(ci, co, _) ← db (lift (stay_summary ls));
      rt_name ← db (room_type_name tenant_id ls);
      room_name ← db (room_label tenant_id ls);
      send_template tenant_id (strip (g_email guest)) ("Your check-in is tomorrow — " ++ p_name property_)%string "checkin_reminder.html"
        [("guest_name", JStr (guest_name guest)); ("booking_reference", JStr (booking_reference booking)); ("check_in", JStr ci);
         ("check_out", JStr co); ("room_type_name", JStr rt_name); ("room_name", JStr (default EmptyString room_name));
         ("property", property_ctx property_)]%string
        (about_booking booking "checkin_reminder").

(** A booking with its guest, its lines loaded, and its property. *)
Definition booking_with_guest (tenant_id booking_id : Z) : M (option (Booking * Guest)) :=
  found ← scalar (booking_is tenant_id booking_id);
  match found with
  | None => mret None
  | Some b =>
      _ ← load_lines booking_id;
      guest ← scalar (is_guest (b_tenant b) (b_guest b));
      mret ((fun g => (b, g)) <$> guest)
  end.

Definition with_booking (tenant_id booking_id : Z) (send : Z -> Booking -> Property -> Guest -> T W unit) : T W unit :=
  T_transaction (
    found ← db (booking_with_guest tenant_id booking_id);
    match found with
    | None => mret tt
    | Some (booking, guest) =>
        property_ ← db (scalar (is_property tenant_id (b_property booking)));
        match property_ with
        | None => mret tt
        | Some p => send tenant_id booking p guest
        end
    end).

Definition run_send_booking_confirmation_task (tenant_id booking_id : Z) : T W unit :=
  with_booking tenant_id booking_id send_booking_confirmation.
Definition run_send_cancellation_email_task (tenant_id booking_id : Z) : T W unit :=
  with_booking tenant_id booking_id send_cancellation_email.

Definition dispatch_channex_booking_emails (tenant_id : Z) (out : ingest_result) : T W unit :=
  if negb (ir_success out) then mret tt
  else
    _ ← match ir_confirm out with Some b => run_send_booking_confirmation_task tenant_id b | None => mret tt end;
    match ir_cancel out with Some b => run_send_cancellation_email_task tenant_id b | None => mret tt end.

(** ** Invoices *)

Definition generate_invoice_pdf (booking : Booking) (folio_lines : list FolioTransaction) (tax : option tax_config) (property_ : Property)
    (guest : Guest) (ls : list BookingLine) (room_name : option string) (generated_at : Z) : result string :=
  context ← build_invoice_pdf_context booking property_ folio_lines tax (Some guest) ls room_name generated_at;
  html ← render_email "invoice.html" context;
  html_to_pdf html.

(** [str(booking.id).replace("-", "")[:8]] *)
Definition without_dashes (s : string) : string :=
  string_of_list_ascii (List.filter (fun c => negb (Ascii.eqb c "-"%char)) (list_ascii_of_string s)).

Definition send_invoice_email_for_booking (tenant_id booking_id : Z) (to_override : option string) : T W unit :=
  found ← db (booking_with_guest tenant_id booking_id);
  match found with
  | None => T_raise (ValueError "booking not found")
  | Some (booking, guest) =>
      property_ ← db (scalar (is_property tenant_id (b_property booking)));
      match property_ with
      | None => T_raise (ValueError "property not found")
      | Some p =>
          let override := strip (default EmptyString to_override) in
          let target := if truthy override then override else strip (g_email guest) in
          if negb (truthy target) || ends_with ".invalid" (lower target) then T_raise (ValueError "guest has no valid email")
          else
            '(folio_lines, _) ← db (list_folio_transactions tenant_id booking_id);
            tax ← db (get_tax_config tenant_id (b_property booking));
            ls ← db (booking_lines (b_tenant booking) (b_id booking));
            room_name ← db (room_label tenant_id ls);
            t ← db get_now;
            pdf ← db (lift (generate_invoice_pdf booking folio_lines tax p guest ls room_name t));
            let short := slice 8 (without_dashes (uuid_str (b_id booking))) in
            html ← db (lift (render_email "invoice_email.html"
              [("guest_name", JStr (guest_name guest)); ("booking_reference", JStr (booking_reference booking));
               ("amount_due", JStr (format_f (cents (b_total booking)))); ("currency", JStr (p_currency p));
               ("property_name", JStr (p_name p))]%string));
            send_booking_email tenant_id target ("Invoice — " ++ p_name p)%string html (about_booking booking "invoice_email")
              [("invoice-" ++ short ++ ".pdf", b64encode pdf)%string]
      end
  end.

(** ** Check-in reminders *)

(** [lookup_checkin_reminder_candidates(for_date)] *)
Definition reminder_candidates (for_date : date) (d : DB) : list (Z * Z) :=
  List.map (fun b => (b_tenant b, b_id b)) (List.filter (fun b =>
    String.eqb (b_status b) "confirmed"
    && existsb (fun g => is_guest (b_tenant b) (b_guest b) g && negb (ends_with ".invalid" (g_email g))) (guests d)
    && bool_decide (min_line_date d (b_tenant b) (b_id b) = Some for_date)) (bookings d)).

Definition checkin_reminder_target_date : M date := td ← get_today; lift (date_add td 1).

(** A reminder that fails is logged and passed over. *)
Definition send_checkin_reminders : T W unit :=
  target_date ← db checkin_reminder_target_date;
  rows ← db (query (reminder_candidates target_date));
  T_for rows (fun '(tid, bid) =>
    T_try (with_booking tid bid send_checkin_reminder_email) (fun _ => Some (mret tt))).

(** ** The night audit's report *)

Definition resolve_night_audit_recipients (tenant_id : Z) : M (list string) :=
  owners ← query (fun d => List.map u_email (List.filter (fun u =>
    (u_tenant u =? tenant_id) && String.eqb (u_role u) "owner" && u_active u) (users d)));
  match sort_str (List.nodup string_dec (List.filter truthy (List.map strip owners))) with
  | [] =>
      tenant ← scalar (R := Tenant) (fun t => tn_id t =? tenant_id);
      mret (match tenant with
            | Some t => if truthy (strip (tn_email t)) then [strip (tn_email t)] else []
            | None => []
            end)
  | emails => mret emails
  end.

Context {zones : Zones}.

(** The instants between the two midnights are those of the local day. *)
Definition night_audit_sent_for_local_day (tenant_id property_id : Z) (timezone_id : string) (today_local : date) : M bool :=
  query (fun d => existsb (fun e => logged_sent tenant_id "night_audit" e && bool_decide (el_property e = Some property_id)
                                    && (local_day (audit_zone timezone_id) (el_sent_at e) =? today_local)) (email_logs d)).

Definition send_night_audit_email (tenant_id : Z) (property_ : Property) (na : night_audit) (today_local : date) : T W bool :=
  already ← db (night_audit_sent_for_local_day tenant_id (p_id property_) (p_timezone property_) today_local);
  if (already : bool) then mret false
  else
    recipients ← db (resolve_night_audit_recipients tenant_id);
    match recipients with
    | [] => mret false
    | _ =>
        html ← db (lift (render_email "night_audit.html"
          [("audit_date", JStr (isoformat (na_date na))); ("arrivals", JInt (na_arrivals na)); ("departures", JInt (na_departures na));
           ("no_shows", JInt (na_no_shows na)); ("auto_no_shows", JInt (na_auto_no_shows na));
           ("payments_total", JStr (format_f (cents (na_payments na)))); ("currency", JStr (p_currency property_));
           ("unpaid_folios", JArr (List.map (fun gb => JObj [("guest_name", JStr gb.1); ("balance", JStr gb.2)]%string) (na_unpaid na)));
           ("property", property_ctx property_)]%string));
        let subject := ("Night audit — " ++ p_name property_ ++ " — " ++ isoformat (na_date na))%string in
        _ ← T_for recipients (fun to =>
          send_booking_email tenant_id to subject html (About (Some (p_id property_)) None "night_audit") []);
        mret true
    end.

(** [_night_audit_property_async]: the audit and its report are one
    transaction. *)
Definition run_night_audit_property (tenant_id property_id : Z) : T W (option (night_audit * bool)) :=
  T_transaction (
    na ← db (night_audit_property tenant_id property_id);
    prop ← db (scalar (is_property tenant_id property_id));
    match na, prop with
    | Some na, Some p =>
        today_local ← db (lift (date_add (na_date na) 1));
        emailed ← send_night_audit_email tenant_id p na today_local;
        mret (Some (na, emailed))
    | _, _ => mret None
    end).

End emails.
