(* ===== verification/EmailLaws.v ===== *)
(** * Laws of transactional e-mail

    Every attempt to deliver a message is logged once, with its outcome; a
    booking is reminded at most once a day, however often the task runs, and
    never at a made-up address.  The printed invoice, the receipt and the
    folio agree on the amounts. *)

From stdpp Require Import gmap strings.
From S2P Require Import Prelude PyDecimal PyJson StayDates Calendar Tax Models Session Folio Booking WebhookEvents Channex Remote Reports Dashboard Receipts Emails.

(** ** Runs with their attempts written down *)

Abbreviation attempt := (mail * delivery)%type.

#[export] Instance recorded {W} {mailer : Mailer W} : Mailer (W * list attempt) := {|
  deliver := fun wo k m => let '(w', r) := deliver wo.1 k m in ((w', wo.2 ++ [(m, r)]), r);
  render_email := render_email (W := W);
  html_to_pdf := html_to_pdf (W := W) |}.

(** A row of the log that says what became of an attempt. *)
Definition reported (tm : Z) (a : attempt) (row : EmailLog) : Prop :=
  ml_to a.1 = [el_to row] /\ ml_subject a.1 = el_subject row /\ el_sent_at row = tm /\
  match a.2 with
  | Delivered i => el_status row = "sent"%string /\ el_resend row = Some i /\ el_error row = None
  | Undelivered e => el_status row = "failed"%string /\ el_resend row = None /\ el_error row = Some (slice (Z.to_nat 8000) e)
  end.

(** Computations that leave the session as it is. *)
Definition reads {A} (m : M A) : Prop := forall s, (m s).1 = s.

Lemma reads_ret {A} (a : A) : reads (mret a). Proof. done. Qed.
Lemma reads_lift {A} (r : result A) : reads (lift r). Proof. done. Qed.
Lemma reads_query {A} (f : DB -> A) : reads (query f). Proof. done. Qed.
Lemma reads_scalar {R} `{Entity R} p : reads (scalar (R := R) p). Proof. done. Qed.
Lemma reads_now : reads get_now. Proof. done. Qed.
Lemma reads_bind {A B} (m : M A) (k : A -> M B) : reads m -> (forall a, reads (k a)) -> reads (m ≫= k).
Proof. intros Hm Hk s. unfold mbind, M_bind. specialize (Hm s). destruct (m s) as [s' [a|e]]; cbn in *; subst; [apply Hk|done]. Qed.

Create HintDb reads.
#[export] Hint Resolve reads_ret reads_lift reads_query reads_scalar reads_now reads_bind : reads.

Lemma booking_lines_reads t b : reads (booking_lines t b).
Proof. intros s. unfold booking_lines. by destruct (existsb _ _). Qed.

Lemma room_type_name_reads t ls : reads (room_type_name t ls).
Proof. destruct ls; cbn [room_type_name]; auto with reads. Qed.

Lemma room_label_reads t ls : reads (room_label t ls).
Proof.
  induction ls as [|l ls IH]; cbn [room_label]; [auto with reads|]. destruct (l_room l); [|done].
  apply reads_bind; [auto with reads|]. intros [r|]; [auto with reads|done].
Qed.

Lemma checkin_reminder_sent_today_reads t b : reads (checkin_reminder_sent_today t b).
Proof. apply reads_bind; auto with reads. Qed.
#[export] Hint Resolve booking_lines_reads room_type_name_reads room_label_reads checkin_reminder_sent_today_reads : reads.

(** The next reading step of a task: it fails, or goes on in the same state. *)
Lemma T_reads {W A B} (m : M A) (k : A -> T W B) s w s' w' r :
  reads m -> (db m ≫= k) s w = (s', w', r) -> (exists e, (s', w', r) = (s, w, Err e)) \/ exists a, (m s).2 = Ok a /\ k a s w = (s', w', r).
Proof.
  intros Hm H. rewrite T_run_db in H. specialize (Hm s). destruct (m s) as [s1 [a|e]]; cbn in Hm; subst s1; [right; by exists a|left; by exists e].
Qed.

Section laws.
Context {env : Env} {W : Type} {mailer : Mailer W} (resend_api_key email_from_default : string).

Abbreviation world := (W * list attempt)%type.

(** ** One attempt, one row *)

Definition appended (s s' : session) (rows : list EmailLog) : Prop :=
  mem s' = put_email_logs (email_logs (mem s) ++ rows) (mem s).

Lemma send_booking_email_step t to subject html a atts s (w : world) s' w' r :
  (String.length to <= 320)%nat ->
  send_booking_email resend_api_key email_from_default t to subject html a atts s w = (s', w', r) ->
  r = Ok tt /\ ((s' = s /\ w' = w) \/
    exists dv row, w'.2 = w.2 ++ [(Mail email_from_default [to] subject html atts, dv)] /\ appended s s' [row] /\ now s' = now s /\
      reported (now s) (Mail email_from_default [to] subject html atts, dv) row /\
      el_tenant row = t /\ el_booking row = ab_booking a /\ el_template row = ab_template a).
Proof.
  intros Hto H. unfold send_booking_email in H. destruct (negb _); [injection H as <- <- <-; auto|].
  rewrite T_run_wire in H. unfold send_email in H. cbn [deliver recorded] in H.
  destruct (deliver w.1 (strip resend_api_key) _) as [w1 dv] eqn:Ed. assert (Hv : varchar 320 to = Ok to) by (unfold varchar; by rewrite (proj2 (Nat.leb_le _ _) Hto)).
  destruct dv as [i|e]; unfold db, log_email in H; cbv [mbind M_bind uuid4 get_now lift] in H; rewrite Hv in H; cbn in H; injection H as <- <- <-;
    (split; [done|]); right; eexists; eexists; (split_and!; [reflexivity|reflexivity|done|split_and!; done|done..]).
Qed.

Lemma send_template_step t to subject file ctx a s (w : world) s' w' r :
  (String.length to <= 320)%nat ->
  send_template resend_api_key email_from_default t to subject file ctx a s w = (s', w', r) ->
  (s' = s /\ w' = w) \/
    r = Ok tt /\ exists m dv row, ml_to m = [to] /\ w'.2 = w.2 ++ [(m, dv)] /\ appended s s' [row] /\ now s' = now s /\
      reported (now s) (m, dv) row /\ el_tenant row = t /\ el_booking row = ab_booking a /\ el_template row = ab_template a.
Proof.
  intros Hto H. unfold send_template in H. apply T_reads in H as [(e & [= -> -> ->])|(html & _ & H)]; [by left| |apply reads_lift].
  apply send_booking_email_step in H as [-> [H|(dv & row & H)]]; [by left|right|done]. split; [done|]. by exists (Mail email_from_default [to] subject html []), dv, row.
Qed.

(** ** Reminders *)

(** A confirmed booking that begins on a day, and its guest with an address
    to be written to. *)
Definition expects (d : DB) (day : date) (t : Z) (bid : Z) (address : string) : Prop :=
  exists b g, In b (bookings d) /\ b_tenant b = t /\ b_id b = bid /\ b_status b = "confirmed"%string /\
    min_line_date d t bid = Some day /\ In g (guests d) /\ g_id g = b_guest b /\ address = strip (g_email g) /\
    address <> EmptyString /\ placeholder address = false.

Definition reminder_today (day : date) (t bid : Z) (e : EmailLog) : bool :=
  logged_sent t "checkin_reminder" e && bool_decide (el_booking e = Some bid) && (utc_date (el_sent_at e) =? day).

(** Reminders a booking got on a day. *)
Definition reminders (d : DB) (day : date) (t bid : Z) : Z := countb (reminder_today day t bid) (email_logs d).

(** Nothing pending, and rows told apart by their keys. *)
Record settled (d : DB) (tm : Z) (s : session) : Prop := {
  se_disk : disk s = mem s;
  se_mem : mem s = d;
  se_now : now s = tm }.

Record readable (d : DB) : Prop := {
  re_bookings : List.NoDup (List.map b_id (bookings d));
  re_guests : List.NoDup (List.map g_id (guests d));
  re_addresses : Forall (fun g => String.length (strip (g_email g)) <= 320)%nat (guests d) }.

(** What the task does for one candidate: nothing, or one attempt and its row. *)
Definition reminded (d : DB) (day : date) (tm : Z) (t bid : Z) (d' : DB) (out out' : list attempt) : Prop :=
  (d' = d /\ out' = out) \/
  exists m dv row address, d' = put_email_logs (email_logs d ++ [row]) d /\ out' = out ++ [(m, dv)] /\ reported tm (m, dv) row /\
    ml_to m = [address] /\ expects d day t bid address /\ reminders d (utc_date tm) t bid = 0 /\
    el_tenant row = t /\ el_booking row = Some bid /\ el_template row = "checkin_reminder"%string.

Lemma existsb_countb {A} (p : A -> bool) l : existsb p l = false -> countb p l = 0.
Proof. unfold countb. induction l as [|x l IH]; cbn; [done|]. destruct (p x); [done|]. exact IH. Qed.

Lemma sent_today_spec t bid s :
  (checkin_reminder_sent_today t bid s).2 = Ok false -> reminders (disk s) (utc_date (now s)) t bid = 0.
Proof. unfold checkin_reminder_sent_today. rewrite run_now. cbn. intros [= H]. by apply existsb_countb. Qed.

Lemma send_checkin_reminder_step d day tm t b p g s (w : world) s' w' r :
  settled d tm s -> readable d -> In b (bookings d) -> b_tenant b = t -> min_line_date d t (b_id b) = Some day ->
  In g (guests d) -> g_id g = b_guest b ->
  send_checkin_reminder_email resend_api_key email_from_default t b p g s w = (s', w', r) ->
  match r with Ok _ => reminded d day tm t (b_id b) (mem s') w.2 w'.2 | Err _ => w'.2 = w.2 end.
Proof.
  intros [Hd Hm Hn] Hre Hb Ht Hday Hg Hgid H. unfold send_checkin_reminder_email in H.
  destruct (String.eqb_spec (b_status b) "confirmed") as [Hst|]; cbn [negb] in H; [|injection H as <- <- <-; left; by rewrite Hm].
  destruct (guest_may_receive_email g) eqn:Hmay; cbn [negb] in H; [|injection H as <- <- <-; left; by rewrite Hm].
  apply T_reads in H as [(e & [= -> -> ->])|([] & Hsent & H)]; [done| | |auto with reads]; [injection H as <- <- <-; left; by rewrite Hm|].
  apply sent_today_spec in Hsent. rewrite Hd, Hm, Hn in Hsent.
  apply T_reads in H as [(e & [= -> -> ->])|(ls & _ & H)]; [done| |auto with reads].
  apply T_reads in H as [(e & [= -> -> ->])|([[ci co] n] & _ & H)]; [done| |auto with reads].
  apply T_reads in H as [(e & [= -> -> ->])|(rt & _ & H)]; [done| |auto with reads].
  apply T_reads in H as [(e & [= -> -> ->])|(rn & _ & H)]; [done| |auto with reads].
  assert (Hlen : (String.length (strip (g_email g)) <= 320)%nat) by (pose proof (re_addresses _ Hre) as Ha; rewrite Forall_forall in Ha; by apply Ha).
  apply send_template_step in H as [[-> ->]|(-> & m & dv & row & Hto & Hout & Happ & _ & Hrep & Hte & Hbo & Htm)]; [destruct r; [by left; rewrite Hm|done]| |exact Hlen].
  right. exists m, dv, row, (strip (g_email g)). unfold appended in Happ. rewrite Hm in Happ. rewrite Hn in Hrep. split_and!; try done.
  unfold guest_may_receive_email in Hmay. apply andb_prop in Hmay as [Hne Hpl%negb_true_iff].
  exists b, g. split_and!; try done.
  - intros E. by rewrite E in Hne.
  - unfold placeholder in *. by rewrite strip_idem.
Qed.

Lemma booking_with_guest_spec d tm t bid s :
  settled d tm s -> readable d ->
  exists s' o, booking_with_guest t bid s = (s', Ok o) /\ settled d tm s' /\
    match o with
    | Some (b, g) => In b (bookings d) /\ b_tenant b = t /\ b_id b = bid /\ In g (guests d) /\ g_id g = b_guest b
    | None => True
    end.
Proof.
  intros [Hd Hm Hn] Hre. unfold booking_with_guest. rewrite run_scalar_synced by (split; cbn; [by rewrite Hd|rewrite Hm; apply Hre]).
  cbn [table Booking_entity]. rewrite Hm. destruct (List.find (booking_is t bid) (bookings d)) as [b|] eqn:Eb; [|by exists s, None].
  unfold load_lines, mbind at 1, M_bind at 1. cbv beta iota.
  rewrite run_scalar_synced by (split; cbn; [by rewrite Hd|rewrite Hm; apply Hre]). cbn [table Guest_entity mem set_expired]. rewrite Hm.
  eexists _, _. split; [reflexivity|]. split; [by split|]. cbn.
  destruct (List.find _ (guests d)) as [g|] eqn:Eg; [|done]. cbn.
  apply find_some in Eb as [Hb Eb], Eg as [Hg Eg]. unfold booking_is in Eb. unfold is_guest in Eg.
  apply andb_prop in Eb as [E1%Z.eqb_eq E2%Z.eqb_eq], Eg as [E3%Z.eqb_eq E4%Z.eqb_eq]. done.
Qed.

Lemma with_booking_step d day tm t bid s (w : world) s' w' r :
  settled d tm s -> readable d -> min_line_date d t bid = Some day ->
  T_try (with_booking t bid (send_checkin_reminder_email resend_api_key email_from_default)) (fun _ => Some (mret tt)) s w = (s', w', r) ->
  r = Ok tt /\ exists d', settled d' tm s' /\ reminded d day tm t bid d' w.2 w'.2.
Proof.
  intros [Hd Hm Hn] Hre Hday H. unfold T_try, with_booking, T_transaction in H.
  set (s0 := Session (disk s) (disk s) [] (now s) (today s) (uuids s)) in H.
  assert (H0 : settled d tm s0) by (split; cbn; congruence).
  match type of H with context [match ?m s0 w with _ => _ end] => destruct (m s0 w) as [[s1 w1] r1] eqn:E end.
  assert (Hw : match r1 with Ok _ => reminded d day tm t bid (mem s1) w.2 w1.2 | Err _ => w1.2 = w.2 end).
  { rewrite T_run_db in E. destruct (booking_with_guest_spec d tm t bid s0 H0 Hre) as (s2 & o & E2 & H2 & Ho). rewrite E2 in E.
    assert (Hm2 : mem s2 = d) by apply H2.
    destruct o as [[b g]|]; [|injection E as <- <- <-; left; by rewrite Hm2]. destruct Ho as (Hb & Htb & <- & Hg & Hgid).
    apply T_reads in E as [(e & [= -> -> ->])|(p & _ & E)]; [done| |auto with reads].
    destruct p as [p|]; [|injection E as <- <- <-; left; by rewrite Hm2]. by eapply send_checkin_reminder_step. }
  destruct r1 as [[]|e]; cbn in H; injection H as <- <- <-; (split; [done|]).
  - exists (mem s1). split; [split; cbn; congruence|done].
  - exists d. split; [split; cbn; congruence|left; by rewrite Hw].
Qed.

(** A run of tasks adds rows for its attempts. *)
Record reminding (d : DB) (day : date) (tm : Z) (d' : DB) (out out' : list attempt) : Prop := {
  rg_log : exists att new, d' = put_email_logs (email_logs d ++ new) d /\ out' = out ++ att /\ Forall2 (reported tm) att new;
  rg_once : forall t b, reminders d (utc_date tm) t b <= 1 -> reminders d' (utc_date tm) t b <= 1;
  rg_expected : forall m dv, In (m, dv) out' -> In (m, dv) out \/ exists t b address, ml_to m = [address] /\ expects d day t b address }.

Lemma put_own_logs d : put_email_logs (email_logs d) d = d.
Proof. by destruct d. Qed.

Lemma reminding_refl d day tm out : reminding d day tm d out out.
Proof. split; [|done|auto]. exists [], []. rewrite !app_nil_r, put_own_logs. done. Qed.

Lemma reminding_trans d day tm d1 d2 o o1 o2 : reminding d day tm d1 o o1 -> reminding d1 day tm d2 o1 o2 -> reminding d day tm d2 o o2.
Proof.
  intros [(a1 & n1 & -> & -> & F1) H1 X1] [(a2 & n2 & -> & -> & F2) H2 X2]. split; [|auto|].
  - exists (a1 ++ a2), (n1 ++ n2). cbn. rewrite !app_assoc. split_and!; [done|done|by apply Forall2_app].
  - intros m dv [Hin|Hx]%X2; [by apply X1|by right].
Qed.

Lemma reminded_reminding d day tm t bid d' out out' : reminded d day tm t bid d' out out' -> reminding d day tm d' out out'.
Proof.
  intros [[-> ->]|(m & dv & row & address & -> & -> & Hr & Hto & Hx & H0 & Ht & Hb & Htm)]; [apply reminding_refl|]. split.
  - exists [(m, dv)], [row]. split_and!; [done|done|by constructor].
  - intros t' b' Hle. unfold reminders in *. cbn [email_logs put_email_logs]. rewrite countb_app, countb_cons, countb_nil.
    destruct (reminder_today (utc_date tm) t' b' row) eqn:E; [|lia]. unfold reminder_today, logged_sent in E. rewrite !andb_true_iff in E.
    destruct E as [[[[E1%Z.eqb_eq _] _] E2%bool_decide_eq_true] _]. rewrite <- E1, Ht. rewrite Hb in E2. injection E2 as <-. lia.
  - intros m' dv' [Hin|[[= <- <-]|[]]]%in_app_or; [by left|right]. by exists t, bid, address.
Qed.

(** Only the log changes: the guests to be reminded stay the same. *)
Lemma reminders_loop day tm rows d s (w : world) s' w' r :
  settled d tm s -> readable d -> Forall (fun tb => min_line_date d tb.1 tb.2 = Some day) rows ->
  T_for rows (fun '(tid, bid) => T_try (with_booking tid bid (send_checkin_reminder_email resend_api_key email_from_default))
    (fun _ => Some (mret tt))) s w = (s', w', r) ->
  r = Ok tt /\ exists d', settled d' tm s' /\ reminding d day tm d' w.2 w'.2.
Proof.
  revert d s w. induction rows as [|[t bid] rows IH]; intros d s w Hs Hre Hall H; cbn [T_for] in H.
  - injection H as <- <- <-. split; [done|]. exists d. split; [done|apply reminding_refl].
  - inversion Hall as [|? ? Hday Hall']; subst. cbn in Hday. unfold mbind at 1, T_bind at 1 in H.
    match type of H with context [match ?m s w with _ => _ end] => destruct (m s w) as [[s1 w1] r1] eqn:E end.
    apply (with_booking_step d day tm) in E as (-> & d1 & Hs1 & Hr); try done. apply reminded_reminding in Hr as Hg.
    destruct (rg_log _ _ _ _ _ _ Hg) as (a1 & n1 & E1 & _). apply IH with (d := d1) in H as (-> & d2 & Hs2 & Hg2); [..|done| |].
    + split; [done|]. exists d2. split; [done|by eapply reminding_trans].
    + rewrite E1. by destruct Hre.
    + rewrite E1. exact Hall'.
Qed.

(** C36: However often the task runs, on whatever answers of the provider, it
    returns; every attempt to deliver a reminder is logged in one row that says
    what became of it, and nothing else changes; no booking gets a second
    reminder on a day; and every message goes to the guest of a confirmed
    booking that begins the next day, never to a made-up address. *)
Theorem reminders_once_a_day d tm td u (w : W) d' (w' : world) r :
  readable d -> valid_date (td + 1) -> (forall t b, reminders d (utc_date tm) t b <= 1) ->
  T_run (send_checkin_reminders resend_api_key email_from_default) tm td u d (w, []) = (d', w', r) ->
  r = Ok tt /\
  (exists new, d' = put_email_logs (email_logs d ++ new) d /\ Forall2 (reported tm) w'.2 new) /\
  (forall t b, reminders d' (utc_date tm) t b <= 1) /\
  (forall m dv, In (m, dv) w'.2 -> exists t b address, ml_to m = [address] /\ expects d (td + 1) t b address).
Proof.
  intros Hre Hv Honce H. unfold T_run, send_checkin_reminders in H. rewrite T_run_db in H.
  unfold checkin_reminder_target_date in H. rewrite run_today in H. cbn [today start] in H. rewrite date_add_ok in H by done. unfold lift in H.
  rewrite T_run_db in H. unfold query in H. cbn [disk start] in H.
  match type of H with context [T_for ?rs ?f ?s ?w] => destruct (T_for rs f s w) as [[s1 w1] r1] eqn:E end.
  apply (reminders_loop (td + 1) tm _ d) in E as (-> & d1 & [_ Hm _] & Hg); [|by split|done|].
  2:{ apply Forall_forall. intros x (b & <- & Hb)%in_map_iff. apply filter_In in Hb as [_ Hb]. apply andb_prop in Hb as [_ Hb%bool_decide_eq_true]. done. }
  injection H as <- <- <-. rewrite Hm. destruct Hg as [(att & new & -> & Eo & F) H1 H2]. cbn in Eo. subst att. split; [done|]. split; [eauto|]. split; [auto|].
  intros m dv Hin. destruct (H2 m dv Hin) as [[]|Hx]; exact Hx.
Qed.

End laws.

(** ** The night audit's report *)

Lemma resolve_night_audit_recipients_reads t : reads (resolve_night_audit_recipients t).
Proof. unfold resolve_night_audit_recipients. apply reads_bind; [auto with reads|]. intros l. destruct (sort_str _); [apply reads_bind; auto with reads|auto with reads]. Qed.

(** Without a provider's key the audit answers that its report was sent,
    though no message left and none is in the log. *)
Theorem audit_report_claimed {env : Env} {W} {mailer : Mailer W} {zones : Zones} key from t p na today_local s (w : W) s' w' :
  truthy (strip key) = false -> send_night_audit_email key from t p na today_local s w = (s', w', Ok true) -> s' = s /\ w' = w.
Proof.
  intros Hk H. unfold send_night_audit_email in H. apply T_reads in H as [(e & [= ])|([] & _ & H)]; [done| |apply reads_query].
  apply T_reads in H as [(e & [= ])|(rs & _ & H)]; [|apply resolve_night_audit_recipients_reads].
  destruct rs as [|r0 rs]; [done|]. apply T_reads in H as [(e & [= ])|(html & _ & H)]; [|apply reads_lift].
  apply T_bind_inv in H as (s1 & w1 & [] & H & [= <- <-]).
  revert H. generalize (r0 :: rs). clear r0 rs. intros l. induction l as [|x l IH]; cbn [T_for]; [by intros [= <- <-]|].
  intros H. unfold mbind, T_bind, send_booking_email at 1 in H. rewrite Hk in H. by apply IH.
Qed.

(** ** Invoice, receipt and folio *)

Lemma sum_case_perm p l l' : Permutation l l' -> sum_case p l = sum_case p l'.
Proof.
  unfold sum_case. induction 1; cbn [List.map]; rewrite ?sumZ_cons; [done|lia|lia|congruence].
Qed.

Lemma sum_case_filter p l : sum_case p l = sumZ (List.map f_amount (List.filter p l)).
Proof. unfold sum_case. induction l as [|x l IH]; [done|]. cbn [List.map List.filter]. rewrite sumZ_cons, IH. by destruct (p x). Qed.

Lemma filter_filter {A} (p q : A -> bool) l : List.filter q (List.filter p l) = List.filter (fun x => p x && q x) l.
Proof. induction l as [|x l IH]; [done|]. cbn. destruct (p x); cbn; [destruct (q x)|]; by rewrite IH. Qed.

(** The invoice of a booking, its receipt and its folio show the same charges,
    the same balance and the same tax. *)
Theorem invoice_receipt_folio_agree {env : Env} t bid s b p rows balance guest ls room_name at_ ctx rc s1 s2 :
  disk s = mem s -> List.NoDup (List.map b_id (bookings (mem s))) -> List.NoDup (List.map f_id (folio (mem s))) ->
  List.find (booking_is t bid) (bookings (mem s)) = Some b ->
  list_folio_transactions t bid s = (s1, Ok (rows, balance)) ->
  build_invoice_pdf_context b p rows
    (List.find (fun c => (cfg_tenant c =? t) && (cfg_property c =? b_property b)) (tax_configs (mem s))) guest ls room_name at_ = Ok ctx ->
  build_booking_receipt t bid s = (s2, Ok rc) ->
  balance = balance_of (folio_rows t bid (mem s)) /\
  dict_get ctx "balance_due" = Some (JStr (money balance (p_currency p))) /\
  (exists charges, dict_get ctx "charges_total" = Some (JStr (money charges (p_currency p))) /\ rc_subtotal rc = format_f (cents charges)) /\
  match rc_tax rc with
  | Some x => exists block, dict_get ctx "tax" = Some (JObj block) /\
      dict_get block "tax_amount" = Some (JStr (format_f (br_tax (rx_breakdown x)))) /\
      dict_get block "gross" = Some (JStr (format_f (br_gross (rx_breakdown x))))
  | None => dict_get ctx "tax" = Some JNull
  end.
Proof.
  intros Hd Hb Hf Hfind Hlist Hctx Hrc.
  assert (Hsb : synced Booking s) by (split; [by rewrite Hd|done]). assert (Hsf : synced FolioTransaction s) by (split; [by rewrite Hd|done]).
  unfold list_folio_transactions, require_booking in Hlist. rewrite run_assoc, run_scalar_synced in Hlist by done.
  cbn [table Booking_entity] in Hlist. rewrite Hfind in Hlist. cbn [of_option] in Hlist. rewrite run_lift_ok in Hlist.
  rewrite run_select_synced in Hlist by done. unfold compute_folio_balance in Hlist. rewrite run_query in Hlist.
  cbn [table FolioTransaction_entity] in Hlist. injection Hlist as <- <- <-.
  unfold build_booking_receipt, require_booking in Hrc. rewrite run_assoc, run_scalar_synced in Hrc by done.
  cbn [table Booking_entity] in Hrc. rewrite Hfind in Hrc. cbn [of_option] in Hrc. rewrite run_lift_ok, run_scalar in Hrc.
  unfold sum_booking_charge_amounts in Hrc. rewrite run_query, run_scalar in Hrc. unfold get_tax_config in Hrc. rewrite run_query in Hrc.
  rewrite Hd in Hrc. set (cfg := List.find _ (tax_configs (mem s))) in *.
  set (charges := sumZ _) in Hrc.
  unfold build_invoice_pdf_context in Hctx. destruct (invoice_stay ls) as [[ci co]|]; [|done].
  rewrite folio_totals_spec in Hctx. unfold mbind at 1, result_bind in Hctx.
  set (rows := order_by folio_order _) in Hctx.
  assert (Hp : Permutation rows (folio_rows t bid (mem s))) by apply order_by_perm.
  assert (Hch : sum_case is_charge rows = charges).
  { rewrite (sum_case_perm _ _ _ Hp), sum_case_filter. unfold folio_rows. by rewrite filter_filter. }
  assert (Hba : balance_of rows = balance_of (folio_rows t bid (mem s))) by (unfold balance_of; by rewrite !(sum_case_perm _ _ _ Hp)).
  rewrite Hch, Hba in Hctx. rewrite Hd. destruct (taxed cfg) as [c|]; cbn [mbind result_bind] in Hctx, Hrc.
  - unfold tax_block, receipt_tax_of in *. destruct (calculate_property_tax (cents charges) c) as [bd|]; cbn [mbind result_bind] in Hctx, Hrc; [|done].
    destruct (dec_quantize _ _ _) as [pct|] eqn:Eq; cbn [mbind result_bind] in Hctx; [|done].
    destruct (property_tax_summary_lines c bd) as [l|]; cbn [mbind result_bind] in Hctx, Hrc; [|done].
    injection Hctx as <-. rewrite run_lift_ok in Hrc. injection Hrc as <- <-. cbn [rc_tax rc_subtotal rx_breakdown].
    split; [done|]. split; [done|]. split; [by exists charges|]. eexists. split; [reflexivity|]. done.
  - injection Hctx as <-. rewrite run_lift_ok in Hrc. injection Hrc as <- <-. cbn [rc_tax rc_subtotal]. split; [done|]. split; [done|]. split; [by exists charges|]. done.
Qed.

(** ** Witnesses *)

(** A provider that takes every message, and templates without text. *)
#[local] Instance plain_mailer : Mailer nat := {|
  deliver := fun n _ _ => (S n, Delivered "re_1"%string);
  render_email := fun _ _ => Ok "<p>"%string;
  html_to_pdf := fun h => Ok h |}.

#[local] Existing Instance sample_env.

Definition tomorrow : date := utc_date 1000000000 + 1.

(** Ann has an address, the second guest was imported without one. *)
Definition ann_guest : Guest := MkGuest 1 7 "Ann" "Lee" "ann@example.com" "1" None None None None false 0.
Definition imported_guest : Guest := MkGuest 2 7 "Bo" "Ek" "guest-2@import.invalid" "1" None None None None false 0.
Definition stay_of (i g : Z) : Booking := MkBooking i 7 3 g None None "confirmed" "api" 10000 None.

Definition front_desk : DB :=
  put_properties [MkProperty 3 7 "Inn" None "UTC" "EUR" 0 0]
    (put_guests [ann_guest; imported_guest]
      (put_lines [MkBookingLine 1 7 11 tomorrow 5 None 10000; MkBookingLine 2 7 12 tomorrow 5 None 10000]
        (put_folio [MkFolioTransaction 1 7 11 "Charge" 10000 None None 5 None "room_charge" None;
                    MkFolioTransaction 2 7 11 "Payment" 4000 None None 6 None "payment" None]
          (put_bookings [stay_of 11 1; stay_of 12 2] empty_db)))).

Definition mailed_once (x : DB * (nat * list attempt) * result unit) : bool :=
  let '(_, (_, out), _) := x in match out with [(m, _)] => bool_decide (ml_to m = ["ann@example.com"%string]) | _ => false end.

Lemma reminders_once_a_day_witness :
  mailed_once (T_run (send_checkin_reminders "key" "desk@inn") 1000000000 (tomorrow - 1) 100 front_desk (0%nat, [])) = true /\
  exists d' w', T_run (send_checkin_reminders "key" "desk@inn") 1000000000 (tomorrow - 1) 100 front_desk (0%nat, []) = (d', w', Ok tt) /\
    forall t b, reminders d' (utc_date 1000000000) t b <= 1.
Proof.
  split; [vm_compute; reflexivity|].
  destruct (T_run (send_checkin_reminders "key" "desk@inn") 1000000000 (tomorrow - 1) 100 front_desk (0%nat, [])) as [[d' w'] r] eqn:H.
  destruct (reminders_once_a_day "key" "desk@inn" front_desk 1000000000 (tomorrow - 1) 100 0%nat d' w' r) as (-> & _ & Ho & _).
  - split; [repeat constructor; cbn; intuition lia..|]. repeat constructor; vm_compute; lia.
  - split; vm_compute; done.
  - intros t b. by vm_compute.
  - exact H.
  - exists d', w'. by split.
Defined.

Lemma invoice_receipt_folio_agree_witness :
  exists ctx, build_invoice_pdf_context (stay_of 11 1) (MkProperty 3 7 "Inn" None "UTC" "EUR" 0 0)
      (folio_rows 7 11 front_desk) None (Some ann_guest) [] None 0 = Ok ctx /\
    dict_get ctx "balance_due" = Some (JStr (money 6000 "EUR")).
Proof.
  eexists. split; [reflexivity|].
  edestruct (invoice_receipt_folio_agree 7 11 (start front_desk 10 20 100) (stay_of 11 1) (MkProperty 3 7 "Inn" None "UTC" "EUR" 0 0)
    (folio_rows 7 11 front_desk) 6000 (Some ann_guest) [] None 0) as (_ & Hb & _); [..|exact Hb].
  - reflexivity.
  - repeat constructor; cbn; intuition lia.
  - repeat constructor; cbn; intuition lia.
  - reflexivity.
  - vm_compute. reflexivity.
  - reflexivity.
  - vm_compute. reflexivity.
Defined.
