(* ===== verification/ChannexTasks.v ===== *)
(** * Webhooks and tasks of the channel manager

    app/api/routes/channex_inbound.py (the public webhook),
    app/tasks/channex_webhook_task.py (the task that processes a logged
    webhook), app/tasks/channex_booking_retry.py (the retry of a revision left
    in error) and app/tasks/cleanup_webhook_logs.py. *)

From stdpp Require Import gmap strings.
From S2P Require Import Prelude PyDecimal PyJson StayDates Calendar Tax Models Session Ledger Booking Auth Access Webhooks Channex Remote ChannexClient ChannexAri Payments Dashboard Receipts Emails.

(** [json.loads] of a body that is UTF-8, and the decoding that replaces what
    is not. *)
Class BodyReader := { json_loads : string -> option json; decode_replace : string -> string }.

(** ** Dotted IPv4 addresses *)

Definition digit (c : ascii) : option Z :=
  let n := byte c - 48 in if (0 <=? n) && (n <=? 9) then Some n else None.

(** One to three digits, no leading zero, at most 255. *)
Definition octet (s : list ascii) : option Z :=
  match s with
  | [] => None
  | "0"%char :: _ :: _ => None
  | _ =>
      if (3 <? length s)%nat then None
      else
        n ← List.fold_left (fun acc c => a ← acc; x ← digit c; Some (a * 10 + x)) s (Some 0);
        if n <=? 255 then Some n else None
  end.

Fixpoint split_dots (l : list ascii) : list (list ascii) :=
  match l with
  | [] => [[]]
  | c :: l' =>
      if Ascii.eqb c "."%char then [] :: split_dots l'
      else match split_dots l' with x :: xs => (c :: x) :: xs | [] => [[c]] end
  end.

Definition ipv4 (s : string) : option (Z * Z * Z * Z) :=
  match List.map octet (split_dots (list_ascii_of_string s)) with
  | [Some a; Some b; Some c; Some d] => Some (a, b, c, d)
  | _ => None
  end.

(** [_CHANNEX_IP_NET]: 34.76.12.0/24 *)
Definition in_channex_net (ip : Z * Z * Z * Z) : bool := let '(a, b, c, _) := ip in (a =? 34) && (b =? 76) && (c =? 12).

Example channex_address : in_channex_net <$> ipv4 "34.76.12.7" = Some true. Proof. reflexivity. Qed.
Example other_address : in_channex_net <$> ipv4 "34.76.13.7" = Some false. Proof. reflexivity. Qed.
Example padded_address : ipv4 "034.76.12.7" = None. Proof. reflexivity. Qed.

Section tasks.
Context {env : Env} {net : Net} {reader : BodyReader} {W : Type} {channex : Wire W} {mailer : Mailer W}.
Context (resend_api_key email_from_default : string).

(** ** channex_inbound.py *)

Record inbound := Inbound { in_body : string; in_signature : option string; in_host : option string }.

(** A header that is absent or empty. *)
Definition header (o : option string) : option string := match o with Some s => if truthy s then Some s else None | None => None end.

Definition check_origin (channex_webhook_secret : string) (verify_ips : bool) (r : inbound) : result unit :=
  let secret := strip channex_webhook_secret in
  if truthy secret then
    match header (in_signature r) with
    | None => Err (http_error 401 "Missing signature")
    | Some sig =>
        if String.eqb (lower (hmac_sha256_hex secret (in_body r))) (lower (strip sig)) then Ok tt
        else Err (http_error 401 "Invalid signature")
    end
  else if verify_ips then
    match in_host r with
    | None => Err (http_error 403 "Missing client IP")
    | Some host =>
        match ipv4 host with
        | Some ip => if in_channex_net ip then Ok tt else Err (http_error 403 "Forbidden source IP")
        | None => if ipv6_literal host then Err (http_error 403 "Forbidden source IP") else Err (http_error 403 "Invalid client IP")
        end
    end
  else Ok tt.

Definition read_payload (body : string) : json :=
  match json_loads body with
  | Some j => j
  | None => JObj [("_parse_error", JBool true); ("raw_preview", JStr (decode_replace (slice 500 body)))]%string
  end.

(** [str(payload.get(k) or "")] *)
Definition text_of (payload : dict) (k : string) : string := text_or_empty (dict_get payload k).

(** [lookup_channex_link_for_webhook]: across tenants. *)
Definition lookup_channex_link_for_webhook (cx_property : string) : M (option (Z * Z)) :=
  query (fun d => (fun l => (cl_tenant l, cl_id l)) <$> List.find (fun l => String.eqb (cl_channex_property l) cx_property) (links d)).

(** The row logged for a webhook; its key goes to the task. *)
Definition inbound_channex_webhook (channex_webhook_secret : string) (verify_ips : bool) (r : inbound) : M Z :=
  _ ← lift (check_origin channex_webhook_secret verify_ips r);
  let payload := read_payload (in_body r) in
  let fields := match payload with JObj d => d | _ => [] end in
  let cx_prop := strip (text_of fields "property_id") in
  found ← (if truthy cx_prop then lookup_channex_link_for_webhook cx_prop else mret None);
  ev ← lift (match not_none (dict_get fields "event") with
             | Some e => t ← varchar 50 (py_str e); Ok (Some t)
             | None => Ok None
             end);
  ip ← lift (match in_host r with Some h => t ← varchar 45 h; Ok (Some t) | None => Ok None end);
  i ← uuid4;
  _ ← add (MkChannexWebhookLog i (fst <$> found) ev
             (Some (match payload with JObj d => JObj d | _ => JObj [("invalid"%string, JBool true)] end))
             (header (in_signature r)) ip false);
  _ ← flush;
  mret i.

(** ** After an ingest *)

(** [session.get(ChannexPropertyLink, id)] under a tenant's row-level security. *)
Definition link_by_id (tenant_id link_id : Z) : M (option ChannexPropertyLink) :=
  scalar (fun l => (cl_id l =? link_id) && (cl_tenant l =? tenant_id)).

(** The acknowledgement, unless the ingest left the revision in error. *)
Definition acknowledge (tenant_id link_id : Z) (revision_id : string) (out : option ingest_result) : T W unit :=
  client ← T_transaction (
    lr ← db (link_by_id tenant_id link_id);
    match lr with
    | None => mret None
    | Some l => c ← db (lift (client_for_link l)); mret (Some c)
    end);
  match client with
  | None => mret tt
  | Some c =>
      if match out with Some o => negb (ir_success o) | None => false end then mret tt
      else
        T_try (_ ← wire (acknowledge_revision c revision_id); mret tt)
          (fun e => match e with ChannexApiError _ _ _ => Some (mret tt) | _ => None end)
  end.

Definition push_after (tenant_id property_id : Z) (out : option ingest_result) : list ari_task :=
  match out with
  | Some (IngestResult _ true (Some rt) (d :: ds) _ _ _) => [PushAvailability tenant_id property_id rt (d :: ds)]
  | _ => []
  end.

Definition mails_after (tenant_id : Z) (out : option ingest_result) : T W unit :=
  match out with
  | Some o => if ir_success o then dispatch_channex_booking_emails resend_api_key email_from_default tenant_id o else mret tt
  | None => mret tt
  end.

(** ** channex_webhook_task.py *)

Definition BOOKING_WEBHOOK_EVENTS : list string :=
  ["booking"; "booking_new"; "booking_modification"; "booking_mod"; "booking_cancel"; "booking_cancelled"; "booking_cancellation"]%string.

(** [inner.get("id")] as stripped text, if there is any. *)
Definition revision_id_of (payload : dict) : option string :=
  match dict_get payload "payload" with
  | Some (JObj inner) =>
      match not_none (dict_get inner "id") with
      | Some v => let s := strip (py_str v) in if truthy s then Some s else None
      | None => None
      end
  | _ => None
  end.

Record processed := Processed { pc_link : ChannexPropertyLink; pc_tenant : Z; pc_revision : string; pc_out : option ingest_result }.

(** The link a webhook names; the log row learns its tenant. *)
Definition link_for_webhook (wl : ChannexWebhookLog) (payload : dict) : M (option (ChannexPropertyLink * Z)) :=
  let cx_prop := strip (text_of payload "property_id") in
  if negb (truthy cx_prop) then mret None
  else
    found ← lookup_channex_link_for_webhook cx_prop;
    match found with
    | None => mret None
    | Some (tid, lid) =>
        _ ← match cw_tenant wl with
            | None => assign (R := ChannexWebhookLog) (cw_id wl) (set_cw_tenant (Some tid))
            | Some _ => mret tt
            end;
        l ← link_by_id tid lid;
        mret ((fun l => (l, tid)) <$> l)
    end.

(** Fetch and ingest the revision; nothing when it cannot be fetched. *)
Definition fetch_and_ingest (link : ChannexPropertyLink) (tenant_id : Z) (revision_id : string) : T W (option processed) :=
  client ← db (lift (client_for_link link));
  flat ← T_try (f ← wire (get_booking_revision_raw client revision_id); mret (Some f))
           (fun e => match e with ChannexApiError _ _ _ => Some (mret None) | _ => None end);
  match flat with
  | None => mret None
  | Some flat =>
      out ← db (ingest_channex_booking tenant_id link flat);
      mret (Some (Processed link tenant_id revision_id (Some out)))
  end.

Definition process_logged_webhook (webhook_log_id : Z) : T W (option processed) :=
  wl ← db (scalar (R := ChannexWebhookLog) (fun w => cw_id w =? webhook_log_id));
  match wl with
  | None => mret None
  | Some wl =>
      let payload := match cw_payload wl with Some (JObj d) => d | _ => [] end in
      let ev_raw := lower (text_of payload "event") in
      link ← db (link_for_webhook wl payload);
      out ← match link, revision_id_of payload with
            | Some (l, tid), Some rid => if str_in ev_raw BOOKING_WEBHOOK_EVENTS then fetch_and_ingest l tid rid else mret None
            | _, _ => mret None
            end;
      _ ← db (assign (R := ChannexWebhookLog) (cw_id wl) (set_cw_processed true));
      mret out
  end.

(** What follows the committed transaction: mails, the acknowledgement, the
    push, in this order. *)
Definition follow_up (p : processed) : T W (list ari_task) :=
  _ ← mails_after (pc_tenant p) (pc_out p);
  _ ← (if truthy (pc_revision p) then acknowledge (pc_tenant p) (cl_id (pc_link p)) (pc_revision p) (pc_out p) else mret tt);
  mret (push_after (pc_tenant p) (cl_property (pc_link p)) (pc_out p)).

(** [_run_channex_process_webhook]: the pushes it queues. *)
Definition run_channex_process_webhook (webhook_log_id : Z) : T W (list ari_task) :=
  p ← T_transaction (process_logged_webhook webhook_log_id);
  match p with Some p => follow_up p | None => mret [] end.

(** ** channex_booking_retry.py *)

Definition retry_ingest (openpms_revision_id tenant_id : Z) : T W (option processed) :=
  rev ← db (scalar (fun r => (cr_id r =? openpms_revision_id) && (cr_tenant r =? tenant_id)));
  match rev with
  | None => mret None
  | Some rev =>
      if negb (String.eqb (cr_processing rev) "error") then mret None
      else
        link ← db (link_by_id tenant_id (cr_link rev));
        match link with
        | None => mret None
        | Some link =>
            let payload := match cr_payload rev with JObj d => d | _ => [] end in
            out ← db (ingest_channex_booking tenant_id link payload);
            mret (Some (Processed link tenant_id (cr_revision rev) (Some out)))
        end
  end.

Definition run_channex_retry_booking_revision (openpms_revision_id tenant_id : Z) : T W (list ari_task) :=
  p ← T_transaction (retry_ingest openpms_revision_id tenant_id);
  match p with Some p => follow_up p | None => mret [] end.

(** ** cleanup_webhook_logs.py *)

(** The rows one DELETE reaches are those its role sees as the tenant; the
    result is the number of rows deleted. *)
Definition delete_old_logs (role : db_role) (cutoff tid : Z) : M Z :=
  let old w := sees role (Some tid) (wl_tenant w) && (wl_created_at w <? cutoff) in
  rowcount ← query (fun d => Z.of_nat (length (List.filter old (webhook_logs d))));
  _ ← execute_delete (R := WebhookDeliveryLog) old;
  mret rowcount.

Definition cleanup_old_delivery_logs (role : db_role) (retention_days : Z) : M Z :=
  t ← get_now;
  let cutoff := t - retention_days * 86400 in
  tenants ← tenant_ids role;
  match tenants with
  | [] => mret 0
  | _ => sumM tenants (delete_old_logs role cutoff)
  end.

End tasks.
