(* ===== verification/AuthMail.v ===== *)
(** * Accounts reached by mail

    The operations of app/services/auth_service.py that send a message:
    inviting a user and asking for a password reset. *)

From stdpp Require Import strings.
From S2P Require Import Prelude PyJson StayDates Models Session Folio Auth Remote Emails.

Section accounts.
Context {env : Env} {crypto : Crypto} {W : Type} {mailer : Mailer W}.
Context (resend_api_key email_from_default frontend_base_url : string).

(** ** [invite_user] *)

Definition INVITABLE_ROLES : list string := ["manager"; "viewer"; "housekeeper"; "receptionist"]%string.

Record invitation := Invitation { iv_email : string; iv_name : string; iv_role : string }.

(** The account with its temporary password, added to the tenant. *)
Definition add_invited_user (tenant_id : Z) (body : invitation) : M (User * string) :=
  let role := lower (strip (iv_role body)) in
  if negb (str_in role INVITABLE_ROLES) then
    raise (AuthServiceError "role must be one of: manager, viewer, housekeeper, receptionist" 422)
  else
    let email_norm := lower (strip (iv_email body)) in
    taken ← query (fun d => existsb (user_email_is tenant_id email_norm) (users d));
    if (taken : bool) then raise (AuthServiceError "user with this email already exists" 409)
    else
      r ← uuid4;
      let temp_password := token_urlsafe r in
      h ← hash_password temp_password;
      i ← uuid4;
      let user := MkUser i tenant_id email_norm h (strip (iv_name body)) role true in
      _ ← add user; _ ← flush;
      mret (user, temp_password).

Definition invite_user (tenant_id : Z) (body : invitation) : T W User :=
  '(user, temp_password) ← db (add_invited_user tenant_id body);
  tenant_row ← db (scalar (R := Tenant) (fun t => tn_id t =? tenant_id));
  let tenant_name := match tenant_row with Some t => strip (tn_name t) | None => "OpenPMS"%string end in
  _ ← send_invite_email resend_api_key email_from_default tenant_id (u_email user) (strip (iv_name body)) tenant_name temp_password;
  mret user.

(** ** [request_password_reset] *)

(** [s.rstrip("/")] *)
Definition rstrip_slashes (s : string) : string :=
  let fix drop (l : list ascii) := match l with c :: l' => if Ascii.eqb c "/"%char then drop l' else l | [] => [] end in
  string_of_list_ascii (List.rev (drop (List.rev (list_ascii_of_string s)))).

Definition reset_link_for (token : string) : string := (rstrip_slashes frontend_base_url ++ "/reset-password?token=" ++ token)%string.

(** One account: its own transaction. *)
Definition send_reset_link (account : Z * Z) : T W unit :=
  let '(tenant_id, user_id) := account in
  T_transaction (
    user ← db (get_user tenant_id user_id);
    match active_user user with
    | None => mret tt
    | Some user =>
        token ← db (issue_password_reset_token user);
        send_password_reset_email resend_api_key email_from_default tenant_id (u_email user) (u_name user) (reset_link_for token)
    end).

(** Every exception is logged and forgotten. *)
Definition request_password_reset (email : string) : T W unit :=
  rows ← db (query (fun d => List.map (fun u => (u_tenant u, u_id u)) (lookup_active_users_by_email_login (lower (strip email)) d)));
  T_for rows (fun account => T_try (send_reset_link account) (fun _ => Some (mret tt))).

End accounts.
