(* ===== verification/OAuthState.v ===== *)
(** * The state of a Stripe OAuth flow

    app/services/stripe_connect_service.py: the signed [state] that carries a
    tenant and a property through Stripe's consent page and back, the URL of
    that page, and the exchange of the code it returns. *)

From stdpp Require Import strings.
From S2P Require Import Prelude PyDecimal PyJson StayDates Models Session Rates Auth Webhooks Payments Emails ChannexTasks.

(** ** base64.urlsafe_b64encode, urlsafe_b64decode *)

Definition urlsafe (c : ascii) : ascii := if Ascii.eqb c "+" then "-"%char else if Ascii.eqb c "/" then "_"%char else c.
Definition standard (c : ascii) : ascii := if Ascii.eqb c "-" then "+"%char else if Ascii.eqb c "_" then "/"%char else c.

Definition map_chars (f : ascii -> ascii) (s : string) : string := string_of_list_ascii (List.map f (list_ascii_of_string s)).

Definition urlsafe_b64encode (s : string) : string := map_chars urlsafe (b64encode s).

(** [s.rstrip("=")] *)
Fixpoint rstrip_equals (l : list ascii) : list ascii :=
  match l with
  | [] => []
  | c :: l' => match rstrip_equals l' with
               | [] => if Ascii.eqb c "=" then [] else [c]
               | l'' => c :: l''
               end
  end.

Definition b64_value (c : ascii) : option Z :=
  let n := byte c in
  if (65 <=? n) && (n <=? 90) then Some (n - 65)
  else if (97 <=? n) && (n <=? 122) then Some (n - 71)
  else if (48 <=? n) && (n <=? 57) then Some (n + 4)
  else if n =? 43 then Some 62 else if n =? 47 then Some 63 else None.

Definition chr (n : Z) : ascii := ascii_of_nat (Z.to_nat n).

(** [binascii.a2b_base64], not strict: characters outside the alphabet are
    skipped, padding ends the data, and an incomplete group is an error. *)
Fixpoint a2b_base64 (l : list ascii) (quad_pos leftchar pads : Z) : option (list ascii) :=
  match l with
  | [] => if quad_pos =? 0 then Some [] else None
  | c :: l' =>
      if Ascii.eqb c "=" then
        if 2 <=? quad_pos then
          if 4 <=? quad_pos + (pads + 1) then Some [] else a2b_base64 l' quad_pos leftchar (pads + 1)
        else a2b_base64 l' quad_pos leftchar pads
      else
        match b64_value c with
        | None => a2b_base64 l' quad_pos leftchar pads
        | Some v =>
            if quad_pos =? 0 then a2b_base64 l' 1 v 0
            else if quad_pos =? 1 then cons (chr (leftchar * 4 + v / 16)) <$> a2b_base64 l' 2 (v mod 16) 0
            else if quad_pos =? 2 then cons (chr (leftchar * 16 + v / 4)) <$> a2b_base64 l' 3 (v mod 4) 0
            else cons (chr (leftchar * 64 + v)) <$> a2b_base64 l' 0 0 0
        end
  end.

Definition is_ascii (s : string) : bool := forallb (fun c => byte c <? 128) (list_ascii_of_string s).

Definition urlsafe_b64decode (s : string) : option string :=
  if is_ascii s then string_of_list_ascii <$> a2b_base64 (List.map standard (list_ascii_of_string s)) 0 0 0 else None.

(** ["=" * ((4 - len(b64) % 4) % 4)] *)
Definition padding (b64 : string) : string :=
  string_of_list_ascii (List.repeat "="%char (Z.to_nat ((4 - Z.of_nat (String.length b64) mod 4) mod 4))).

Example decode_padded : urlsafe_b64decode "TWE=" = Some "Ma"%string. Proof. reflexivity. Qed.
Example decode_skips : urlsafe_b64decode "T W!E=" = Some "Ma"%string. Proof. reflexivity. Qed.
Example decode_short : urlsafe_b64decode "TWE" = None. Proof. reflexivity. Qed.

(** ** The state *)

Definition STATE_MAX_AGE_SEC : Z := 3600.

Record oauth_settings := OAuthSettings {
  stripe_oauth_state_secret : string; jwt_algorithm : string; jwt_secret : string; webhook_secret_fernet_key : string }.

Section oauth.
Context {env : Env} {crypto : Crypto} {net : Net} {reader : BodyReader} {stripe : Stripe}.
Context (settings : stripe_settings) (oauth : oauth_settings).
(** [stripe.OAuth.authorize_url] *)
Context (authorize_url : list (string * string) -> string).

Definition oauth_state_hmac_key : result string :=
  let own := strip (stripe_oauth_state_secret oauth) in
  if truthy own then Ok own
  else if String.eqb (upper (jwt_algorithm oauth)) "HS256" then Ok (jwt_secret oauth)
  else
    let w := strip (webhook_secret_fernet_key oauth) in
    if truthy w then Ok w
    else Err (ValueError "Set STRIPE_OAUTH_STATE_SECRET (or WEBHOOK_SECRET_FERNET_KEY in RS256 mode) for Stripe OAuth state signing").

Definition state_payload (tenant_id property_id ts : Z) : json :=
  JObj [("p", JStr (uuid_str property_id)); ("t", JStr (uuid_str tenant_id)); ("ts", JInt ts)]%string.

Definition encode_oauth_state (tenant_id property_id ts : Z) : result string :=
  key ← oauth_state_hmac_key;
  let b64 := string_of_list_ascii (rstrip_equals (list_ascii_of_string (urlsafe_b64encode (json_dumps (state_payload tenant_id property_id ts))))) in
  Ok (b64 ++ "." ++ hmac_sha256_hex key b64)%string.

Definition invalid_state : exn := StripeConnectError "invalid state" 400.

(** [payload[k]] *)
Definition subscript (payload : json) (k : string) : result json :=
  match payload with
  | JObj d => of_option (dict_get d k) invalid_state
  | _ => Err AttributeOrTypeError
  end.

Definition uuid_at (payload : json) (k : string) : result Z :=
  v ← subscript payload k; of_option (uuid_parse (py_str v)) invalid_state.

(** [int(v)]: text that is no number is a ValueError, what is no number at all
    a TypeError, which nothing catches. *)
Definition int_at (payload : json) (k : string) : result Z :=
  v ← subscript payload k;
  z ← int_of_json v;
  match z, v with
  | Some z, _ => Ok z
  | None, (JStr _ | JFloat _ _) => Err invalid_state
  | None, _ => Err AttributeOrTypeError
  end.

Definition decode_oauth_state (state : string) (now : Z) : result (Z * Z) :=
  key ← oauth_state_hmac_key;
  let '(b64, found, sig) := partition "." state in
  if negb found then Err invalid_state
  else if negb (is_ascii sig) then Err AttributeOrTypeError
  else if negb (String.eqb (hmac_sha256_hex key b64) sig) then Err invalid_state
  else
    raw ← of_option (urlsafe_b64decode (b64 ++ padding b64)) invalid_state;
    payload ← of_option (json_loads raw) invalid_state;
    tenant_id ← uuid_at payload "t";
    property_id ← uuid_at payload "p";
    ts ← int_at payload "ts";
    if STATE_MAX_AGE_SEC <? now - ts then Err (StripeConnectError "state expired" 400)
    else Ok (tenant_id, property_id).

(** ** The flow *)

Definition build_connect_authorize_url (tenant_id property_id : Z) : M string :=
  _ ← require_oauth_settings settings;
  ts ← get_now;
  state ← lift (encode_oauth_state tenant_id property_id ts);
  mret (authorize_url [("client_id", strip (stripe_client_id settings)); ("response_type", "code"); ("scope", "read_write");
                       ("redirect_uri", strip (stripe_redirect_uri settings)); ("state", state)]%string).

Definition exchange_code_for_connection (code state : string) : M StripeConnection :=
  _ ← require_connect_secret settings;
  _ ← require_oauth_settings settings;
  t ← get_now;
  '(tenant_id, property_id) ← lift (decode_oauth_state state t);
  connect_property tenant_id property_id code.

End oauth.

(** * Laws of the signed state *)

(** ** base64 *)

Definition b64_alphabet : list Z := List.map Z.of_nat (List.seq 0 64).

Lemma in_alphabet n : 0 <= n < 64 -> In n b64_alphabet.
Proof. intros H. unfold b64_alphabet. apply in_map_iff. exists (Z.to_nat n). split; [lia|]. apply in_seq. lia. Qed.

Definition good_char (n : Z) : bool :=
  bool_decide (b64_value (b64_char n) = Some n) && negb (Ascii.eqb (b64_char n) "=")
  && Ascii.eqb (standard (urlsafe (b64_char n))) (b64_char n) && negb (Ascii.eqb (urlsafe (b64_char n)) ".")
  && negb (Ascii.eqb (urlsafe (b64_char n)) "=") && (byte (urlsafe (b64_char n)) <? 128).

Lemma good_chars n : 0 <= n < 64 -> good_char n = true.
Proof. intros H%in_alphabet. revert n H. apply List.forallb_forall. vm_compute. reflexivity. Qed.

Lemma char_value n : 0 <= n < 64 -> b64_value (b64_char n) = Some n /\ Ascii.eqb (b64_char n) "=" = false.
Proof.
  intros H. pose proof (good_chars n H) as G. unfold good_char in G. rewrite !andb_true_iff in G. destruct G as (((((G1 & G2) & _) & _) & _) & _).
  split; [by apply bool_decide_eq_true in G1|by apply negb_true_iff in G2].
Qed.

Lemma byte_range c : 0 <= byte c < 256.
Proof. unfold byte. pose proof (nat_ascii_bounded c). lia. Qed.

Lemma chr_byte c : chr (byte c) = c.
Proof. unfold chr, byte. rewrite Nat2Z.id. apply ascii_nat_embedding. Qed.

(** One group of the decoder. *)
Lemma a2b_0 n l : 0 <= n < 64 -> a2b_base64 (b64_char n :: l) 0 0 0 = a2b_base64 l 1 n 0.
Proof. intros H. destruct (char_value n H) as [Hv Hp]. cbn [a2b_base64]. by rewrite Hp, Hv. Qed.
Lemma a2b_1 n left l : 0 <= n < 64 -> a2b_base64 (b64_char n :: l) 1 left 0 = cons (chr (left * 4 + n / 16)) <$> a2b_base64 l 2 (n mod 16) 0.
Proof. intros H. destruct (char_value n H) as [Hv Hp]. cbn [a2b_base64]. by rewrite Hp, Hv. Qed.
Lemma a2b_2 n left l : 0 <= n < 64 -> a2b_base64 (b64_char n :: l) 2 left 0 = cons (chr (left * 16 + n / 4)) <$> a2b_base64 l 3 (n mod 4) 0.
Proof. intros H. destruct (char_value n H) as [Hv Hp]. cbn [a2b_base64]. by rewrite Hp, Hv. Qed.
Lemma a2b_3 n left l : 0 <= n < 64 -> a2b_base64 (b64_char n :: l) 3 left 0 = cons (chr (left * 64 + n)) <$> a2b_base64 l 0 0 0.
Proof. intros H. destruct (char_value n H) as [Hv Hp]. cbn [a2b_base64]. by rewrite Hp, Hv. Qed.

Ltac sextets := Z.to_euclidean_division_equations; lia.

(** Induction on a text by groups of three bytes. *)
Lemma by_three (P : list ascii -> Prop) :
  P [] -> (forall a, P [a]) -> (forall a b, P [a; b]) -> (forall a b c l, P l -> P (a :: b :: c :: l)) -> forall l, P l.
Proof.
  intros H0 H1 H2 H3 l. enough (P l /\ (forall a, P (a :: l)) /\ (forall a b, P (a :: b :: l))) by tauto.
  induction l as [|x l (IH0 & IH1 & IH2)]; [done|]. split; [auto|]. split; [intros a; apply IH2|]. intros a b. by apply H3.
Qed.

Lemma decode_encode l : a2b_base64 (b64_chars l) 0 0 0 = Some l.
Proof.
  induction l as [|a|a b|a b c l IH] using by_three; [done| | |]; cbn [b64_chars];
    pose proof (byte_range a); try (pose proof (byte_range b)); try (pose proof (byte_range c)).
  - rewrite a2b_0 by sextets. rewrite a2b_1 by sextets. cbn [a2b_base64 Ascii.eqb Bool.eqb].
    replace (byte a * 16 / 64 * 4 + byte a * 16 mod 64 / 16) with (byte a) by sextets. cbn. by rewrite chr_byte.
  - rewrite a2b_0 by sextets. rewrite a2b_1 by sextets. rewrite a2b_2 by sextets. cbn [a2b_base64 Ascii.eqb Bool.eqb].
    set (n := byte a * 1024 + byte b * 4).
    replace (n / 4096 * 4 + n / 64 mod 64 / 16) with (byte a) by (subst n; sextets).
    replace ((n / 64 mod 64) mod 16 * 16 + n mod 64 / 4) with (byte b) by (subst n; sextets). cbn. by rewrite !chr_byte.
  - rewrite a2b_0 by sextets. rewrite a2b_1 by sextets. rewrite a2b_2 by sextets. rewrite a2b_3 by sextets. rewrite IH.
    set (n := byte a * 65536 + byte b * 256 + byte c).
    replace (n / 262144 * 4 + n / 4096 mod 64 / 16) with (byte a) by (subst n; sextets).
    replace ((n / 4096 mod 64) mod 16 * 16 + n / 64 mod 64 / 4) with (byte b) by (subst n; sextets).
    replace ((n / 64 mod 64) mod 4 * 64 + n mod 64) with (byte c) by (subst n; sextets). cbn. by rewrite !chr_byte.
Qed.

(** ** The body of the state *)

Definition letter (c : ascii) : Prop := exists n, 0 <= n < 64 /\ c = b64_char n.

(** Letters, then the padding that fills the last group. *)
Lemma b64_shape l : exists data k, b64_chars l = data ++ List.repeat "="%char k /\ Forall letter data /\
  Z.of_nat k = (4 - Z.of_nat (length data) mod 4) mod 4.
Proof.
  assert (L : forall n, 0 <= n < 64 -> letter (b64_char n)) by (intros n ?; by exists n).
  induction l as [|a|a b|a b c l (data & k & E & F & Hk)] using by_three; cbn [b64_chars];
    try (pose proof (byte_range a)); try (pose proof (byte_range b)); try (pose proof (byte_range c)).
  - exists [], 0%nat. by repeat split.
  - eexists [_; _], 2%nat. split; [reflexivity|]. split; [|done]. repeat constructor; apply L; sextets.
  - eexists [_; _; _], 1%nat. split; [reflexivity|]. split; [|done]. repeat constructor; apply L; sextets.
  - eexists (_ :: _ :: _ :: _ :: data), k. split; [by rewrite E|]. split; [repeat constructor; try done; apply L; sextets|].
    cbn [length]. rewrite Hk. f_equal. f_equal. rewrite !Nat2Z.inj_succ. replace (Z.succ _) with (Z.of_nat (length data) + 1 * 4) by lia.
    by rewrite Z_mod_plus_full.
Qed.

Lemma letter_facts c : letter c ->
  standard (urlsafe c) = c /\ Ascii.eqb (urlsafe c) "." = false /\ Ascii.eqb (urlsafe c) "=" = false /\ byte (urlsafe c) < 128.
Proof.
  intros (n & H & ->). pose proof (good_chars n H) as G. unfold good_char in G. rewrite !andb_true_iff, !negb_true_iff in G.
  destruct G as (((((_ & _) & G3) & G4) & G5) & G6). apply Ascii.eqb_eq in G3. apply Z.ltb_lt in G6. done.
Qed.

Lemma rstrip_padding x k : Forall (fun c => Ascii.eqb c "=" = false) x -> rstrip_equals (x ++ List.repeat "="%char k) = x.
Proof.
  assert (H0 : rstrip_equals (List.repeat "="%char k) = []) by (induction k as [|k IH]; [done|]; cbn; by rewrite IH).
  induction 1 as [|c x Hc _ IH]; [done|]. cbn [app rstrip_equals]. rewrite IH. destruct x; [by rewrite Hc|done].
Qed.

Lemma map_padding f k : f "="%char = "="%char -> List.map f (List.repeat "="%char k) = List.repeat "="%char k.
Proof. intros Hf. induction k as [|k IH]; [done|]. cbn. by rewrite Hf, IH. Qed.

Lemma chars_of_string l : list_ascii_of_string (string_of_list_ascii l) = l.
Proof. induction l as [|c l IH]; [done|]. cbn. by rewrite IH. Qed.
Lemma string_of_chars s : string_of_list_ascii (list_ascii_of_string s) = s.
Proof. induction s as [|c s IH]; [done|]. cbn. by rewrite IH. Qed.
Lemma length_of_chars l : String.length (string_of_list_ascii l) = length l.
Proof. induction l as [|c l IH]; [done|]. cbn. by rewrite IH. Qed.
Lemma chars_app s t : list_ascii_of_string (s ++ t) = list_ascii_of_string s ++ list_ascii_of_string t.
Proof. induction s as [|c s IH]; [done|]. change ((String c s ++ t)%string) with (String c (s ++ t)). cbn [list_ascii_of_string app]. by rewrite IH. Qed.

(** What the state carries of a text. *)
Definition carried (text : string) : string :=
  string_of_list_ascii (rstrip_equals (list_ascii_of_string (urlsafe_b64encode text))).

Lemma carried_letters text : exists data k, b64_chars (list_ascii_of_string text) = data ++ List.repeat "="%char k /\ Forall letter data /\
  carried text = string_of_list_ascii (List.map urlsafe data) /\ padding (carried text) = string_of_list_ascii (List.repeat "="%char k).
Proof.
  destruct (b64_shape (list_ascii_of_string text)) as (data & k & E & F & Hk). exists data, k. split; [done|]. split; [done|].
  assert (Hc : carried text = string_of_list_ascii (List.map urlsafe data)).
  { unfold carried, urlsafe_b64encode, map_chars, b64encode. rewrite !chars_of_string, E, List.map_app, map_padding by done. f_equal.
    apply rstrip_padding. apply Forall_forall. intros c (x & <- & Hx)%in_map_iff. rewrite Forall_forall in F. by apply letter_facts, F. }
  split; [done|]. rewrite Hc. unfold padding. rewrite length_of_chars, List.length_map, <- Hk. by rewrite Nat2Z.id.
Qed.

(** The decoder, given the padding back, reads the text. *)
Lemma carried_decodes text : urlsafe_b64decode (carried text ++ padding (carried text)) = Some text.
Proof.
  destruct (carried_letters text) as (data & k & E & F & Hc & Hp). rewrite Hp, Hc. unfold urlsafe_b64decode, is_ascii.
  rewrite chars_app, !chars_of_string, List.map_app, map_padding by done. rewrite Forall_forall in F.
  assert (Hm : List.map standard (List.map urlsafe data) = data).
  { rewrite List.map_map. rewrite <- (List.map_id data) at 2. apply List.map_ext_in. intros c Hin. by apply letter_facts, F. }
  rewrite Hm, <- E, decode_encode. cbn. rewrite string_of_chars.
  destruct (forallb _ _) eqn:Ea; [done|]. exfalso. rewrite <- not_true_iff_false in Ea. apply Ea. apply List.forallb_forall.
  intros c [(x & <- & Hx)%in_map_iff|Hx%List.repeat_spec]%in_app_or; [apply Z.ltb_lt, letter_facts, F, Hx|by subst].
Qed.

(** The signature begins at the only point. *)
Lemma partition_data data rest : Forall (fun c => Ascii.eqb c "." = false) data ->
  partition "." (string_of_list_ascii data ++ String "." rest) = (string_of_list_ascii data, true, rest).
Proof.
  induction 1 as [|c data Hc _ IH]; [done|]. cbn [string_of_list_ascii].
  change ((String c (string_of_list_ascii data) ++ String "." rest)%string) with (String c (string_of_list_ascii data ++ String "." rest)).
  cbn [partition]. by rewrite Hc, IH.
Qed.

Lemma carried_partition text sig : partition "." (carried text ++ "." ++ sig) = (carried text, true, sig).
Proof.
  destruct (carried_letters text) as (data & k & _ & F & -> & _). change ("." ++ sig)%string with (String "." sig). apply partition_data.
  apply Forall_forall. intros c (x & <- & Hx)%in_map_iff. rewrite Forall_forall in F. by apply letter_facts, F.
Qed.

Lemma partition_joins c s a b : partition c s = (a, true, b) -> s = (a ++ String c b)%string.
Proof.
  revert a b. induction s as [|x s IH]; [done|]. intros a b. cbn [partition]. destruct (Ascii.eqb_spec x c) as [->|_]; [by intros [= <- <-]|].
  destruct (partition c s) as [[a' f] b']. intros [= <- -> <-]. change (String x s = String x (a' ++ String c b')). f_equal. by apply IH.
Qed.

(** ** The state *)

Section state.
Context {env : Env} {crypto : Crypto} {net : Net} {reader : BodyReader} (oauth : oauth_settings).

(** C35: A state reads back as the tenant and the property it was made for, until
    an hour has passed; and whatever state is accepted, its signature is the
    one the key gives its body. *)
Theorem oauth_state_roundtrip t p ts state now :
  (forall m, match oauth_state_hmac_key oauth with Ok k => is_ascii (hmac_sha256_hex k m) = true | Err _ => True end) ->
  json_loads (json_dumps (state_payload t p ts)) = Some (state_payload t p ts) ->
  uuid_parse (uuid_str t) = Some t -> uuid_parse (uuid_str p) = Some p ->
  encode_oauth_state oauth t p ts = Ok state ->
  decode_oauth_state oauth state now =
    (if STATE_MAX_AGE_SEC <? now - ts then Err (StripeConnectError "state expired" 400) else Ok (t, p)) /\
  (forall forged x, decode_oauth_state oauth forged now = Ok x ->
     exists key b64, oauth_state_hmac_key oauth = Ok key /\ forged = (b64 ++ "." ++ hmac_sha256_hex key b64)%string).
Proof.
  intros Hascii Hjson Ht Hp Henc. unfold encode_oauth_state, decode_oauth_state in *.
  destruct (oauth_state_hmac_key oauth) as [key|e]; [|done]. cbn [mbind result_bind] in *. split.
  - set (text := json_dumps (state_payload t p ts)) in *.
    assert (Es : state = (carried text ++ "." ++ hmac_sha256_hex key (carried text))%string) by (unfold carried; congruence).
    rewrite Es, carried_partition. cbn [negb]. rewrite Hascii, String.eqb_refl. cbn [negb]. rewrite carried_decodes.
    cbn [of_option mbind result_bind]. rewrite Hjson. cbn. rewrite Ht. cbn. rewrite Hp. cbn. done.
  - intros forged x H. destruct (partition "." forged) as [[b64 found] sig] eqn:Ep. destruct found; [|done]. cbn [negb] in H.
    destruct (is_ascii sig); [|done]. cbn [negb] in H. destruct (String.eqb_spec (hmac_sha256_hex key b64) sig) as [Es|_]; [|done].
    exists key, b64. split; [done|]. rewrite Es. change ("." ++ sig)%string with (String "." sig). by apply partition_joins.
Qed.

End state.

(** ** A state for one property *)

#[local] Existing Instance sample_env.

Definition one_key : oauth_settings := OAuthSettings "state-key" "RS256" EmptyString EmptyString.

#[local] Instance one_uuid : Crypto := {|
  argon2_hash := fun _ p => p; argon2_verify := String.eqb; argon2_needs_rehash := fun _ => false; sha256_hex := id;
  token_urlsafe := fun _ => EmptyString; jwt_encode := fun _ => EmptyString; jwt_decode := fun _ _ => None; uuid_parse := fun _ => Some 7 |}.
#[local] Instance plain_net : Net := {|
  getaddrinfo := fun _ _ => Addresses []; ipv6_literal := fun _ => false; http_post := fun _ _ _ t => (t, Response 200);
  hmac_sha256_hex := fun _ _ => "c0ffee"%string; fernet_encrypt := fun _ s => s; fernet_decrypt := Some; fernet_encrypt_with := fun _ _ s => Some s |}.
#[local] Instance one_reader : BodyReader := {| json_loads := fun _ => Some (state_payload 7 7 1000); decode_replace := id |}.

Lemma oauth_state_roundtrip_witness : exists state, encode_oauth_state one_key 7 7 1000 = Ok state /\
  decode_oauth_state one_key state 4600 = Ok (7, 7) /\ decode_oauth_state one_key state 4601 = Err (StripeConnectError "state expired" 400).
Proof.
  eexists. split; [reflexivity|]. split.
  - eapply proj1, (oauth_state_roundtrip one_key 7 7 1000); [done|reflexivity..].
  - eapply proj1, (oauth_state_roundtrip one_key 7 7 1000); [done|reflexivity..].
Defined.
