(* ===== verification/Handlers.v ===== *)
(** * What the handlers share

    A handler of app/api/routes/*.py runs the services in the transaction of
    its request, turns their exceptions into HTTP responses, and leaves work to
    be done once the response has left: background tasks, which open their own
    sessions, and tasks queued for the worker.  The database changes of a
    request are committed before its background tasks run, whether the handler
    commits itself or leaves it to [get_db] (app/api/deps.py). *)

From stdpp Require Import strings.
From S2P Require Import Prelude PyJson StayDates Models Session Booking Auth Access Webhooks WebhookEvents Remote ChannexClient ChannexAri Emails ChannexTasks.

(** ** Work left by a handler *)

(** Tasks of the worker's queue. *)
Inductive celery_task :=
  | Push (t : ari_task)                                      (** channex_incremental_ari.py *)
  | FullSync (tenant_id property_id : Z)                     (** channex_ari_sync.py *)
  | ProcessWebhook (webhook_log_id : Z)                      (** channex_webhook_task.py *)
  | RetryRevision (openpms_revision_id tenant_id : Z).       (** channex_booking_retry.py *)

Inductive background :=
  | BookingCreatedWebhook (tenant_id booking_id : Z)
  | BookingPatchWebhooks (tenant_id booking_id : Z) (before after : booking_snapshot) (cancellation_reason folio_balance_on_checkout : option string)
  | EmitAvailability (tenant_id room_type_id : Z) (dates : list date)
  | AvailabilityAfterOverride (tenant_id room_type_id : Z) (dates : list date)
  | RateUpdatedWebhooks (tenant_id : Z) (updates : list (Z * Z * date * string))
  | ConfirmationEmail (tenant_id booking_id : Z)
  | CancellationEmail (tenant_id booking_id : Z)
  | Enqueue (task : celery_task).

(** ** Replies *)

Record reply (A : Type) := Reply { rp_status : Z; rp_body : A; rp_headers : list (string * string); rp_tasks : list background }.
Arguments Reply {A} rp_status rp_body rp_headers rp_tasks.
Arguments rp_status {A} r.
Arguments rp_body {A} r.
Arguments rp_headers {A} r.
Arguments rp_tasks {A} r.

Definition ok {A} (body : A) : reply A := Reply 200 body [] [].
Definition created {A} (body : A) : reply A := Reply 201 body [] [].
Definition no_content : reply unit := Reply 204 tt [] [].
Definition leaving {A} (r : reply A) (tasks : list background) : reply A := Reply (rp_status r) (rp_body r) (rp_headers r) (rp_tasks r ++ tasks).
Definition with_headers {A} (hs : list (string * string)) (r : reply A) : reply A := Reply (rp_status r) (rp_body r) hs (rp_tasks r).

Definition PRIVATE : list (string * string) := [("Cache-Control", "private, no-store")]%string.
Definition DEPRECATED : list (string * string) :=
  [("Deprecation", "true"); ("Link", "</inventory/rooms-for-stay>; rel=" ++ json_quote "successor-version")]%string.

(** ** Exceptions *)

(** [try: m except E as exc: raise HTTPException(...) from exc] *)
Definition mapping {A} (h : exn -> option exn) (m : M A) : M A := try_except m (fun e => raise <$> h e).
Definition T_mapping {W A} (h : exn -> option exn) (m : T W A) : T W A := T_try m (fun e => T_raise <$> h e).

(** A service error keeps its status and its detail. *)
Definition service_error (service : string) (e : exn) : option exn :=
  match e with
  | ServiceError name detail status_code => if String.eqb name service then Some (http_error status_code detail) else None
  | _ => None
  end.
Definition folio_error (e : exn) : option exn :=
  match e with FolioError detail status_code => Some (http_error status_code detail) | _ => None end.

Definition or_404 {A} (detail : string) (o : option A) : M A := lift (of_option o (http_error 404 detail)).

(** The status of the response to an exception: what is not an HTTPException
    is answered 500 ([_unhandled_exception_handler] of app/main.py). *)
Definition unhandled_exception_handler (e : exn) : Z :=
  match e with
  | ServiceError "HTTPException" _ status_code => status_code
  | _ => 500
  end.

(** The object with a key, as it is now. *)
Definition loaded {R} `{Entity R} (i : Z) : M R :=
  o ← attrs (fun d => List.find (fun r => ident r =? i) (table d));
  lift (of_option o AttributeOrTypeError).

(** [needle in hay] *)
Definition occurs_in (needle hay : string) : bool := match String.index 0 needle hay with Some _ => true | None => false end.

(** ** After the response *)

Section serve.
Context {env : Env} {crypto : Crypto} {net : Net} {reader : BodyReader} {W : Type} {channex : Wire W} {mailer : Mailer W}.
Context (resend_api_key email_from_default : string).

(** A background task, and what it queues for the worker. *)
Definition run_background (b : background) : T W (list celery_task) :=
  match b with
  | BookingCreatedWebhook t bid => _ ← db (run_booking_created_webhook t bid); mret []
  | BookingPatchWebhooks t bid before after reason balance =>
      _ ← db (run_booking_patch_webhooks t bid before after reason balance); mret []
  | EmitAvailability t rt ds => _ ← db (emit_availability_for_dates t rt ds); mret []
  | AvailabilityAfterOverride t rt ds => _ ← db (run_availability_after_override t rt ds); mret []
  | RateUpdatedWebhooks t updates => _ ← db (run_rate_updated_webhooks t updates); mret []
  | ConfirmationEmail t bid => _ ← run_send_booking_confirmation_task resend_api_key email_from_default t bid; mret []
  | CancellationEmail t bid => _ ← run_send_cancellation_email_task resend_api_key email_from_default t bid; mret []
  | Enqueue task => mret [task]
  end.

(** The tasks run one after the other; an exception drops those that follow. *)
Fixpoint run_tasks (l : list background) : T W (list celery_task) := fun s w =>
  match l with
  | [] => (s, w, Ok [])
  | b :: l' =>
      match run_background b s w with
      | (s1, w1, Ok q) =>
          match run_tasks l' s1 w1 with
          | (s2, w2, Ok q') => (s2, w2, Ok (q ++ q'))
          | (s2, w2, Err e) => (s2, w2, Err e)
          end
      | (s1, w1, Err _) => (s1, w1, Ok [])
      end
  end.

(** The session a handler depends on: committed when the handler returns,
    rolled back when it raises. *)
Definition get_db {A} (h : T W A) : T W A := T_transaction h.

(** A request: its handler, then its background tasks. *)
Definition serve {A} (h : T W (reply A)) : T W (reply A * list celery_task) :=
  r ← h;
  q ← run_tasks (rp_tasks r);
  mret (r, q).

(** A task of the worker, as Celery executes it once. *)
Definition run_celery_task (task : celery_task) : T W (list celery_task) :=
  match task with
  | Push t => _ ← run_ari_task t; mret []
  | FullSync t p => _ ← run_channex_full_ari_sync t p; mret []
  | ProcessWebhook i => q ← run_channex_process_webhook resend_api_key email_from_default i; mret (List.map Push q)
  | RetryRevision i t => q ← run_channex_retry_booking_revision resend_api_key email_from_default i t; mret (List.map Push q)
  end.

End serve.
