(* ===== verification/HttpBookings.v ===== *)
(** * The handlers of bookings

    app/api/routes/bookings.py, with the aliases of its read endpoints in
    assignable_stay.py and unpaid_folio_summary.py. *)

From stdpp Require Import strings.
From S2P Require Import Prelude PyDecimal PyJson StayDates Calendar Models Session Ledger Rates Folio Booking Tape Auth Access Rooms Webhooks WebhookEvents Remote ChannexClient ChannexAri Dashboard Receipts Emails ChannexTasks Handlers.

Section bookings.
Context {env : Env} {W : Type} {mailer : Mailer W}.
Context (resend_api_key email_from_default : string).

(** ** Reading *)

Record tape_page := TapePage { pg_items : list booking_tape; pg_total : Z; pg_limit : nat; pg_offset : nat }.

Record bookings_query := BookingsQuery {
  bq_property : option Z; bq_start : option date; bq_end : option date; bq_external : option string;
  bq_status : option string; bq_limit : nat; bq_offset : nat }.

Definition is_housekeeper (user_role : option string) : bool :=
  match user_role with Some r => String.eqb (lower r) "housekeeper" | None => false end.

(** One booking, by the id its source gave it. *)
Definition bookings_by_external (tenant_id : Z) (ext : string) (q : bookings_query) : M (reply tape_page) :=
  row ← get_booking_tape_by_external_id tenant_id ext;
  let items := match row with
               | None => []
               | Some r => match bq_property q with Some p => if bt_property r =? p then [r] else [] | None => [r] end
               end in
  mret (ok (TapePage items (Z.of_nat (length items)) (bq_limit q) (bq_offset q))).

Definition bookings_in_window (tenant_id : Z) (user_role : option string) (q : bookings_query) : M (reply tape_page) :=
  match bq_property q, bq_start q, bq_end q with
  | Some p, Some start_date, Some end_date =>
      td ← get_today;
      if is_housekeeper user_role && negb ((start_date =? td) && (end_date =? td)) then
        raise (http_error 403 "Housekeeping role may only query today's bookings")
      else if end_date <? start_date then raise (http_error 422 "start_date must be on or before end_date")
      else
        '(items, total) ← list_bookings_enriched tenant_id p start_date end_date (bq_status q) (bq_limit q) (bq_offset q);
        mret (ok (TapePage items total (bq_limit q) (bq_offset q)))
  | _, _, _ => raise (http_error 422 "property_id, start_date, and end_date are required unless external_booking_id is provided")
  end.

Definition get_bookings (tenant_id : Z) (user_role : option string) (q : bookings_query) : M (reply tape_page) :=
  let ext := strip (default EmptyString (bq_external q)) in
  if truthy ext then bookings_by_external tenant_id ext q else bookings_in_window tenant_id user_role q.

(** [AssignableRoomsQueryParams]: a stay of one to 365 nights. *)
Definition rooms_for_stay_query_params (check_in check_out : date) : result unit :=
  match iter_stay_nights check_in check_out with
  | Ok _ => Ok tt
  | Err (ValueError m) => Err (http_error 422 m)
  | Err e => Err e
  end.

Definition rooms_for_stay (tenant_id property_id room_type_id : Z) (check_in check_out : date) : M (list Room) :=
  _ ← lift (rooms_for_stay_query_params check_in check_out);
  rows ← list_assignable_rooms_for_stay tenant_id property_id room_type_id check_in check_out;
  or_404 "property or room type not found" rows.

Definition get_bookings_assignable_rooms_for_stay (tenant_id property_id room_type_id : Z) (check_in check_out : date) : M (reply (list Room)) :=
  rows ← rooms_for_stay tenant_id property_id room_type_id check_in check_out; mret (with_headers DEPRECATED (ok rows)).
Definition get_assignable_rooms_for_stay_at_root (tenant_id property_id room_type_id : Z) (check_in check_out : date) : M (reply (list Room)) :=
  rows ← rooms_for_stay tenant_id property_id room_type_id check_in check_out; mret (with_headers DEPRECATED (ok rows)).

(** One unpaid booking: its id, its balance, the guest's name. *)
Definition unpaid_summary (tenant_id property_id : Z) : M (reply (list (Z * string * option string))) :=
  known ← property_belongs_to_tenant tenant_id property_id;
  if negb known then raise (http_error 404 "property not found")
  else
    raw ← list_unpaid_folio_summary_for_property tenant_id property_id None false;
    mret (with_headers PRIVATE (ok (List.map unpaid_read raw))).

Definition get_unpaid_folio_summary (tenant_id property_id : Z) : M (reply (list (Z * string * option string))) :=
  unpaid_summary tenant_id property_id.
Definition get_unpaid_folio_summary_at_root (tenant_id property_id : Z) : M (reply (list (Z * string * option string))) :=
  unpaid_summary tenant_id property_id.

Definition get_booking_by_id (tenant_id booking_id : Z) : M (reply booking_tape) :=
  row ← get_booking_tape tenant_id booking_id;
  row ← or_404 "booking not found" row; mret (ok row).

Definition get_booking_email_logs (tenant_id booking_id : Z) : M (reply (list EmailLog)) :=
  row ← get_booking_tape tenant_id booking_id;
  _ ← or_404 "booking not found" row;
  rows ← list_email_logs_for_booking tenant_id booking_id; mret (ok rows).

(** ** Folio *)

Definition get_booking_folio (tenant_id booking_id : Z) : M (reply (list FolioTransaction * Z)) :=
  r ← mapping folio_error (list_folio_transactions tenant_id booking_id); mret (ok r).

Definition get_booking_receipt (tenant_id booking_id : Z) : M (reply receipt) :=
  r ← mapping folio_error (build_booking_receipt tenant_id booking_id); mret (ok r).

Definition post_booking_folio (tenant_id booking_id : Z) (body : folio_post) (user_id : option Z) : M (reply FolioTransaction) :=
  tx ← mapping folio_error (add_folio_entry tenant_id booking_id body user_id); mret (created tx).

Definition reverse_folio_response (tenant_id booking_id transaction_id : Z) (created_by : option Z) : M FolioTransaction :=
  mapping folio_error (reverse_folio_transaction tenant_id booking_id transaction_id created_by).

Definition post_booking_folio_reverse (tenant_id booking_id transaction_id : Z) (user_id : option Z) : M (reply FolioTransaction) :=
  rev ← reverse_folio_response tenant_id booking_id transaction_id user_id; mret (created rev).
Definition delete_booking_folio_transaction (tenant_id booking_id transaction_id : Z) (user_id : option Z) : M (reply FolioTransaction) :=
  rev ← reverse_folio_response tenant_id booking_id transaction_id user_id; mret (ok rev).

(** ** The invoice *)

(** [SendInvoiceRequest.from_body]: only [email], a text of at most 320
    characters or null; anything else raises pydantic's ValidationError. *)
Definition send_invoice_request (raw : dict) : result (option string) :=
  if forallb (fun kv => String.eqb kv.1 "email") raw then
    match dict_get raw "email" with
    | None | Some JNull => Ok None
    | Some (JStr s) => if (String.length s <=? 320)%nat then Ok (Some s) else Err (ValueError "email is too long")
    | Some _ => Err (ValueError "email is not a string")
    end
  else Err (ValueError "extra inputs are not permitted").

Definition invoice_error (e : exn) : option exn :=
  match e with
  | ValueError detail => Some (http_error (if occurs_in "no valid email" (lower detail) then 422 else 404) detail)
  | _ => None
  end.

Definition post_send_booking_invoice (tenant_id booking_id : Z) (raw_body : dict) : T W (reply unit) :=
  email ← db (lift (send_invoice_request raw_body));
  _ ← T_mapping invoice_error (send_invoice_email_for_booking resend_api_key email_from_default tenant_id booking_id email);
  _ ← db (record_audit tenant_id "booking.send_invoice" "booking" (Some booking_id));
  mret (Reply 202 tt [] []).

(** ** Creating, changing, deleting *)

Definition create_error (e : exn) : option exn :=
  match e with
  | DuplicateExternalBookingError => Some (http_error 409 "booking with this external_booking_id already exists")
  | InsufficientInventoryError m => Some (http_error 409 m)
  | LedgerNotSeededError m => Some (http_error 422 m)
  | MissingRatesError ds => Some (http_error 422 (json_dumps (JObj [("missing_dates"%string, JArr (List.map (fun d => JStr (isoformat d)) ds))])))
  | GuestConflictError => Some (http_error 409 "guest with this email already exists for this tenant")
  | InvalidBookingContextError m => Some (http_error 404 m)
  | _ => None
  end.

Definition pushes (ts : list ari_task) : list background := List.map (fun t => Enqueue (Push t)) ts.

Definition post_booking (tenant_id : Z) (body : booking_create) : M (reply booking_created) :=
  out ← mapping create_error (create_booking tenant_id body);
  _ ← record_audit tenant_id "booking.create" "booking" (Some (br_booking out));
  stay_nights ← lift (iter_stay_nights (bc_check_in body) (bc_check_out body));
  mret (leaving (created out)
          ([BookingCreatedWebhook tenant_id (br_booking out); ConfirmationEmail tenant_id (br_booking out)]
           ++ pushes (schedule_push_channex_availability tenant_id (bc_property body) (bc_room_type body) stay_nights))).

Definition patch_error (e : exn) : option exn :=
  match e with
  | AssignBookingRoomError detail status_code | PatchBookingError detail status_code => Some (http_error status_code detail)
  | InsufficientInventoryError m => Some (http_error 409 m)
  | _ => None
  end.

(** [avail_touch]: does the request move nights? *)
Definition touches_availability (body : booking_patch) : bool :=
  is_set (pt_check_in body) || is_set (pt_check_out body)
  || match pt_status body with
     | Some (Some st) => str_in (lower (strip st)) ["cancelled"; "no_show"]%string
     | _ => false
     end.

(** The nights announced after a change.  [b_before] and [b_after] are one
    object of the session, so both sets of dates are those of its lines now. *)
Definition patch_announcements (tenant_id : Z) (b_after : Booking) (ls : list BookingLine) : list background :=
  match distinct (List.map l_room_type ls) with
  | [rt_id] =>
      let all_dates := sorted_set (List.map l_date ls ++ List.map l_date ls) in
      EmitAvailability tenant_id rt_id all_dates
        :: pushes (schedule_push_channex_availability tenant_id (b_property b_after) rt_id all_dates)
  | _ => []
  end.

Definition folio_for_hook (snap_before snap_after : booking_snapshot) (warn_balance : option Z) : option string :=
  if entered "checked_out" snap_before snap_after then
    Some (match warn_balance with Some b => format_f (cents b) | None => "0.00"%string end)
  else None.

(** A booking with its lines, as the session shows it now. *)
Definition seen_again (tenant_id booking_id : Z) : M (option (Booking * booking_snapshot * list BookingLine)) :=
  found ← load_booking_for_webhook tenant_id booking_id;
  match found with
  | None => mret None
  | Some b =>
      snap ← booking_quick_snapshot b;
      ls ← booking_lines (b_tenant b) (b_id b);
      mret (Some (b, snap, ls))
  end.

Definition patch_tasks (tenant_id booking_id : Z) (body : booking_patch) (snap_before : booking_snapshot)
    (after : option (Booking * booking_snapshot * list BookingLine)) (warn_balance : option Z) : list background :=
  let snap_after := match after with Some (_, snap, _) => snap | None => snap_before end in
  [BookingPatchWebhooks tenant_id booking_id snap_before snap_after (mjoin (pt_reason body)) (folio_for_hook snap_before snap_after warn_balance)]
  ++ (if entered "cancelled" snap_before snap_after then [CancellationEmail tenant_id booking_id] else [])
  ++ match after with
     | Some (b_after, _, ls) => if touches_availability body then patch_announcements tenant_id b_after ls else []
     | None => []
     end.

(** 204, or 200 with the balance a guest leaves behind. *)
Definition patch_booking_by_id (tenant_id booking_id : Z) (body : booking_patch) : M (reply (option Z)) :=
  if negb (has_more body || is_set (pt_notes body)) then mret (Reply 204 None [] [])
  else
    b_before ← load_booking_for_webhook tenant_id booking_id;
    b_before ← or_404 "booking not found" b_before;
    snap_before ← booking_quick_snapshot b_before;
    warn_balance ← mapping patch_error (patch_booking tenant_id booking_id body);
    after ← seen_again tenant_id booking_id;
    _ ← record_audit tenant_id "booking.patch" "booking" (Some booking_id);
    mret (Reply (if is_set warn_balance then 200 else 204) warn_balance []
            (patch_tasks tenant_id booking_id body snap_before after warn_balance)).

Definition delete_error (e : exn) : option exn :=
  match e with DeleteBookingError detail status_code => Some (http_error status_code detail) | _ => None end.

Definition delete_booking_by_id (tenant_id booking_id : Z) : M (reply unit) :=
  _ ← mapping delete_error (delete_booking tenant_id booking_id);
  _ ← record_audit tenant_id "booking.delete" "booking" (Some booking_id);
  mret no_content.

End bookings.
