(* ===== verification/HttpInventory.v ===== *)
(** * The handlers of rooms, rates and the desk

    app/api/routes/inventory.py, rooms.py, room_types.py, rate_plans.py,
    nightly_rates.py, housekeeping.py, guests.py, dashboard.py,
    folio_categories.py and audit_log.py (with [list_audit_logs] of
    audit_service.py). *)

From stdpp Require Import gmap strings.
From S2P Require Import Prelude PyDecimal PyJson StayDates Calendar Models Session Ledger Rates Folio Booking Auth Access Routes Rooms Guests Dashboard ChannexAri Handlers HttpBookings.

Section desk.
Context {env : Env} {crypto : Crypto} {zones : Reports.Zones}.

(** ** inventory.py *)

Definition availability_query_params (start_date end_date : date) : result unit :=
  if end_date <? start_date then Err (http_error 422 "end_date must be >= start_date")
  else if 366 <? end_date - start_date + 1 then Err (http_error 422 "date range must not exceed 366 days")
  else Ok tt.

Definition get_availability_grid (tenant_id property_id : Z) (start_date end_date : date) (room_type_id : option Z)
    : M (Handlers.reply (list availability_cell)) :=
  _ ← lift (availability_query_params start_date end_date);
  grid ← Dashboard.get_availability_grid tenant_id property_id start_date end_date room_type_id;
  grid ← or_404 "Property not found" grid; mret (ok grid).

Definition put_availability_ledger_seed (tenant_id : Z) (segments : list seed_segment) : M (Handlers.reply Z) :=
  n ← mapping (service_error "AvailabilityLedgerSeedError") (bulk_seed_availability_ledger tenant_id segments);
  _ ← record_audit tenant_id "inventory.availability_ledger.seed" "availability_ledger" None;
  mret (ok n).

Definition get_inventory_rooms_for_stay (tenant_id property_id room_type_id : Z) (check_in check_out : date) : M (Handlers.reply (list Room)) :=
  rows ← rooms_for_stay tenant_id property_id room_type_id check_in check_out; mret (ok rows).

Definition override_error (e : exn) : option exn :=
  match e with
  | LedgerNotSeededError m => Some (http_error 422 m)
  | _ => service_error "AvailabilityOverrideError" e
  end.

(** The property of a room type, deleted or not. *)
Definition property_of_type (tenant_id room_type_id : Z) : M (option Z) :=
  query (fun d => rt_property <$> List.find (room_type_is tenant_id room_type_id) (room_types d)).

(** The nights the override blocks whole, as the loaded rows show them. *)
Definition full_stop_dates (tenant_id room_type_id : Z) (dates : list date) : M (list date) :=
  ks ← select_ledger tenant_id room_type_id dates;
  attrs (fun d => List.map key_date (List.filter (fun k =>
    match ledger d !! k with Some r => (0 <? total_rooms r) && (blocked_rooms r =? total_rooms r) | None => false end) ks)).

Definition put_availability_overrides (tenant_id : Z) (body : override_request) : M (Handlers.reply Z) :=
  '(n, room_type_id, dates) ← mapping override_error (apply_blocked_rooms_override tenant_id body);
  _ ← record_audit tenant_id "inventory.availability_override.put" "availability_ledger" (Some (ov_room_type body));
  match dates with
  | [] => mret (ok n)
  | _ =>
      prop_id ← property_of_type tenant_id room_type_id;
      match prop_id with
      | None => mret (leaving (ok n) [AvailabilityAfterOverride tenant_id room_type_id dates])
      | Some p =>
          stops ← full_stop_dates tenant_id room_type_id dates;
          mret (leaving (ok n)
            (AvailabilityAfterOverride tenant_id room_type_id dates
             :: pushes (schedule_push_channex_availability tenant_id p room_type_id dates
                        ++ schedule_push_channex_stop_sell tenant_id p room_type_id stops)))
      end
  end.

(** ** rooms.py *)

Definition ensure_property (tenant_id property_id : Z) : M unit :=
  known ← property_belongs_to_tenant tenant_id property_id;
  if negb known then raise (http_error 404 "property not found") else mret tt.

Definition get_rooms (tenant_id : Z) (property_id for_stay_room_type_id : option Z) (for_stay_check_in for_stay_check_out : option date)
    : M (Handlers.reply (list Room)) :=
  match property_id, for_stay_room_type_id, for_stay_check_in, for_stay_check_out with
  | Some p, Some rt, Some ci, Some co =>
      _ ← ensure_property tenant_id p;
      rows ← rooms_for_stay tenant_id p rt ci co; mret (ok rows)
  | _, _, _, _ =>
      _ ← match property_id with Some p => ensure_property tenant_id p | None => mret tt end;
      rows ← list_rooms tenant_id property_id; mret (ok rows)
  end.

Definition get_room_by_id (tenant_id room_id : Z) : M (Handlers.reply Room) :=
  row ← get_room tenant_id room_id; row ← or_404 "room not found" row; mret (ok row).

Definition post_room (tenant_id room_type_id : Z) (name status : string) : M (Handlers.reply Room) :=
  row ← mapping (service_error "RoomServiceError") (create_room tenant_id room_type_id name status);
  _ ← record_audit tenant_id "room.create" "room" (Some (r_id row));
  mret (created row).

Definition post_rooms_bulk (tenant_id room_type_id : Z) (items : list (string * string)) (fail_on_conflict : bool)
    : M (Handlers.reply (list Room * list string)) :=
  '(rows, skipped) ← mapping (service_error "RoomServiceError") (create_rooms_bulk tenant_id room_type_id items fail_on_conflict);
  _ ← record_audit tenant_id "room.bulk_create" "room" (r_id <$> hd_error rows);
  mret (created (rows, skipped)).

Definition patch_room_by_id (tenant_id room_id : Z) (name status : option string) (room_type_id : option Z) : M (Handlers.reply Room) :=
  i ← mapping (service_error "RoomServiceError") (Rooms.patch_room tenant_id room_id name status room_type_id);
  _ ← record_audit tenant_id "room.patch" "room" (Some room_id);
  row ← loaded i; mret (ok row).

Definition delete_room (tenant_id room_id : Z) : M (Handlers.reply unit) :=
  _ ← mapping (service_error "RoomServiceError") (soft_delete_room tenant_id room_id);
  _ ← record_audit tenant_id "room.delete" "room" (Some room_id);
  mret no_content.

(** ** room_types.py *)

Definition value_error (h : string -> exn) (e : exn) : option exn := match e with ValueError m => Some (h m) | _ => None end.

Definition create_room_type (tenant_id property_id : Z) (name : string) (base_occupancy max_occupancy : Z) : M (Handlers.reply RoomType) :=
  rt ← mapping (value_error (fun _ => http_error 404 "Property not found")) (Rooms.create_room_type tenant_id property_id name base_occupancy max_occupancy);
  _ ← record_audit tenant_id "room_type.create" "room_type" (Some (rt_id rt));
  mret (created rt).

Definition list_room_types (tenant_id : Z) (property_id : option Z) : M (Handlers.reply (list RoomType)) :=
  rows ← Rooms.list_room_types tenant_id property_id; mret (ok rows).

Definition get_room_type (tenant_id room_type_id : Z) : M (Handlers.reply RoomType) :=
  rt ← Rooms.get_room_type tenant_id room_type_id; rt ← or_404 "Room type not found" rt; mret (ok rt).

Definition patch_room_type (tenant_id room_type_id : Z) (body : room_type_patch) : M (Handlers.reply RoomType) :=
  _ ← mapping (value_error (fun detail => if occurs_in "max_occupancy" detail then http_error 422 detail else http_error 404 "Room type not found"))
        (Rooms.patch_room_type tenant_id room_type_id body);
  _ ← record_audit tenant_id "room_type.patch" "room_type" (Some room_type_id);
  rt ← loaded room_type_id; mret (ok rt).

Definition delete_room_type (tenant_id room_type_id : Z) : M (Handlers.reply unit) :=
  _ ← mapping (value_error (fun _ => http_error 404 "Room type not found")) (soft_delete_room_type tenant_id room_type_id);
  _ ← record_audit tenant_id "room_type.delete" "room_type" (Some room_type_id);
  mret no_content.

(** ** rate_plans.py *)

Definition get_rate_plans (tenant_id : Z) (property_id : option Z) : M (Handlers.reply (list RatePlan)) :=
  rows ← list_rate_plans tenant_id property_id; mret (ok rows).

Definition get_rate_plan_by_id (tenant_id rate_plan_id : Z) : M (Handlers.reply RatePlan) :=
  row ← get_rate_plan tenant_id rate_plan_id; row ← or_404 "rate plan not found" row; mret (ok row).

Definition post_rate_plan (tenant_id property_id : Z) (name policy : string) : M (Handlers.reply RatePlan) :=
  row ← mapping (service_error "RatePlanServiceError") (create_rate_plan tenant_id property_id name policy);
  _ ← record_audit tenant_id "rate_plan.create" "rate_plan" (Some (rp_id row));
  mret (created row).

Definition patch_rate_plan_by_id (tenant_id rate_plan_id : Z) (name policy : option string) : M (Handlers.reply RatePlan) :=
  _ ← mapping (service_error "RatePlanServiceError") (patch_rate_plan tenant_id rate_plan_id name policy);
  _ ← record_audit tenant_id "rate_plan.patch" "rate_plan" (Some rate_plan_id);
  row ← loaded rate_plan_id; mret (ok row).

Definition delete_rate_plan_by_id (tenant_id rate_plan_id : Z) : M (Handlers.reply unit) :=
  _ ← mapping (service_error "RatePlanServiceError") (delete_rate_plan tenant_id rate_plan_id);
  _ ← record_audit tenant_id "rate_plan.delete" "rate_plan" (Some rate_plan_id);
  mret no_content.

(** ** nightly_rates.py *)

Definition get_rates (tenant_id room_type_id rate_plan_id : Z) (start_date end_date : date) : M (Handlers.reply (list (rate_key * Rate))) :=
  rows ← mapping (service_error "RatesServiceError") (list_rates_for_period tenant_id room_type_id rate_plan_id start_date end_date);
  mret (ok rows).

(** Comma-separated UUIDs, blanks left out. *)
Definition room_type_ids_of (room_type_ids : string) : result (list Z) :=
  let parts := List.filter truthy (List.map strip (split_on "," room_type_ids)) in
  match parts with
  | [] => Err (http_error 422 "room_type_ids must list at least one UUID")
  | _ => mapR (fun p => of_option (uuid_parse p) (http_error 422 "room_type_ids must be comma-separated UUIDs")) parts
  end.

Definition get_rates_batch (tenant_id rate_plan_id : Z) (start_date end_date : date) (room_type_ids : string)
    : M (Handlers.reply (list (rate_key * Rate))) :=
  rt_ids ← lift (room_type_ids_of room_type_ids);
  rows ← mapping (service_error "RatesServiceError") (list_rates_for_room_types_period tenant_id rt_ids rate_plan_id start_date end_date);
  mret (ok rows).

(** The dates of the updates by room type and plan, in the order of their
    first update. *)
Fixpoint add_date (k : Z * Z) (d : date) (by_pair : list (Z * Z * list date)) : list (Z * Z * list date) :=
  match by_pair with
  | [] => [(k, [d])]
  | (k', ds) :: rest => if bool_decide (k' = k) then (k', ds ++ [d]) :: rest else (k', ds) :: add_date k d rest
  end.

Definition dates_by_pair (updates : list (Z * Z * date * string)) : list (Z * Z * list date) :=
  List.fold_left (fun acc (u : Z * Z * date * string) => let '(rt, rp, d, _) := u in add_date (rt, rp) d acc) updates [].

Definition put_rates_bulk (tenant_id : Z) (segments : list rate_segment) : M (Handlers.reply Z) :=
  '(n, updates) ← mapping (service_error "RatesServiceError") (bulk_upsert_rates tenant_id segments);
  _ ← record_audit tenant_id "rates.bulk_upsert" "rate" None;
  match updates, segments with
  | _ :: _, seg :: _ =>
      prop_id ← property_of_type tenant_id (rs_room_type seg);
      mret (leaving (ok n) (RateUpdatedWebhooks tenant_id updates ::
        match prop_id with
        | Some p => pushes (List.concat (List.map (fun kd : Z * Z * list date =>
                      schedule_push_channex_rates tenant_id p kd.1.1 kd.1.2 kd.2) (dates_by_pair updates)))
        | None => []
        end))
  | _ :: _, [] => raise AttributeOrTypeError
  | [], _ => mret (ok n)
  end.

(** ** housekeeping.py *)

Definition get_housekeeping_board (tenant_id property_id : Z) (hk_status priority : option string) (filter_date : option date)
    : M (Handlers.reply (list (Room * string))) :=
  rows ← mapping (service_error "HousekeepingServiceError") (list_rooms_for_housekeeping tenant_id property_id hk_status priority filter_date);
  mret (ok rows).

Definition patch_housekeeping_room (tenant_id room_id : Z) (status : string) (priority : option string) (user_id : option Z)
    : M (Handlers.reply (Z * string * string)) :=
  i ← mapping (service_error "HousekeepingServiceError") (patch_room_housekeeping tenant_id room_id status priority user_id);
  _ ← record_audit tenant_id "housekeeping.room.patch" "room" (Some room_id);
  room ← loaded i; mret (ok (r_id room, r_hk_status room, r_hk_priority room)).

(** ** guests.py *)

Definition get_guests (tenant_id : Z) (q : option string) (limit offset : nat) : M (Handlers.reply (list Guest * Z * nat * nat)) :=
  '(rows, total) ← list_guests tenant_id q limit offset; mret (ok (rows, total, limit, offset)).

Definition get_guest_detail (tenant_id guest_id : Z) : M (Handlers.reply (Guest * list guest_booking_summary)) :=
  '(guest, summaries) ← get_guest_with_booking_summaries tenant_id guest_id;
  guest ← or_404 "guest not found" guest; mret (ok (guest, summaries)).

Definition post_guest (tenant_id : Z) (body : guest_create) : M (Handlers.reply Guest) :=
  row ← mapping (service_error "GuestServiceError") (create_guest tenant_id body);
  _ ← record_audit tenant_id "guest.create" "guest" (Some (g_id row));
  mret (created row).

Definition patch_guest_by_id (tenant_id guest_id : Z) (body : guest_patch) : M (Handlers.reply Guest) :=
  row ← mapping (service_error "GuestServiceError") (patch_guest tenant_id guest_id body);
  _ ← record_audit tenant_id "guest.patch" "guest" (Some guest_id);
  mret (ok row).

Definition delete_guest_by_id (tenant_id guest_id : Z) : M (Handlers.reply unit) :=
  _ ← mapping (service_error "GuestServiceError") (delete_guest tenant_id guest_id);
  _ ← record_audit tenant_id "guest.delete" "guest" (Some guest_id);
  mret no_content.

(** ** dashboard.py *)

Definition get_dashboard_summary_endpoint (tenant_id property_id : Z) : M (Handlers.reply dashboard_summary) :=
  s ← mapping (service_error "DashboardServiceError") (get_dashboard_summary tenant_id property_id);
  mret (with_headers PRIVATE (ok s)).

Definition get_dashboard_unpaid_folio_summary (tenant_id property_id : Z) : M (Handlers.reply (list (Z * string * option string))) :=
  unpaid_summary tenant_id property_id.

(** ** audit_service.py, audit_log.py *)

Definition wanted (filter : option string) (s : string) : bool :=
  match filter with Some v => if truthy (strip v) then String.eqb s (strip v) else true | None => true end.

Definition list_audit_logs (tenant_id : Z) (limit offset : nat) (action entity_type : option string) : M (list AuditLog) :=
  rows ← select (fun a => (al_tenant a =? tenant_id) && wanted action (al_action a) && wanted entity_type (al_entity_type a));
  mret (firstn limit (skipn offset (order_by (fun a b => al_created_at b <=? al_created_at a) rows))).

Definition get_audit_log (tenant_id : Z) (limit offset : nat) (action entity_type : option string) : M (Handlers.reply (list AuditLog)) :=
  rows ← list_audit_logs tenant_id limit offset action entity_type; mret (ok rows).

(** ** folio_categories.py *)

Definition list_folio_charge_categories (tenant_id : Z) : M (Handlers.reply (list FolioChargeCategory)) :=
  rows ← list_categories tenant_id; mret (ok rows).

Definition create_folio_charge_category (tenant_id : Z) (code label : string) (is_active : bool) (sort_order : Z)
    : M (Handlers.reply FolioChargeCategory) :=
  row ← mapping (service_error "FolioCategoryError") (create_category tenant_id code label is_active sort_order);
  _ ← record_audit tenant_id "folio_category.create" "folio_charge_category" (Some (fc_id row));
  mret (created row).

Definition patch_folio_charge_category (tenant_id : Z) (code : string) (label : option string) (sort_order : option Z) (is_active : option bool)
    : M (Handlers.reply FolioChargeCategory) :=
  row_before ← get_category_by_code tenant_id code;
  row_before ← or_404 "category not found" row_before;
  _ ← mapping (service_error "FolioCategoryError") (update_category tenant_id code label sort_order is_active);
  _ ← record_audit tenant_id "folio_category.update" "folio_charge_category" (Some (fc_id row_before));
  row ← loaded (fc_id row_before); mret (ok row).

Definition remove_folio_charge_category (tenant_id : Z) (code : string) : M (Handlers.reply unit) :=
  row_before ← get_category_by_code tenant_id code;
  row_before ← or_404 "category not found" row_before;
  _ ← mapping (service_error "FolioCategoryError") (delete_category tenant_id code);
  _ ← record_audit tenant_id "folio_category.delete" "folio_charge_category" (Some (fc_id row_before));
  mret no_content.

End desk.
