(* ===== verification/HttpAccounts.v ===== *)
(** * The handlers of accounts

    app/api/routes/auth.py with the refresh cookie of app/api/cookies_auth.py,
    and api_keys.py.  The endpoints without a token open the transactions they
    need themselves ([tenant_transaction_session]). *)

From stdpp Require Import strings.
From S2P Require Import Prelude PyJson StayDates Models Session Folio Auth Access Remote Emails ChannexTasks AuthMail Handlers.

Section accounts.
Context {env : Env} {crypto : Crypto} {tokens : Tokens} {W : Type} {mailer : Mailer W}.
Context (settings : auth_settings) (resend_api_key email_from_default frontend_base_url : string).
Context (allow_public_registration refresh_cookie_secure : bool) (refresh_cookie_name : string).

Definition auth_error : exn -> option exn := service_error "AuthServiceError".

(** ** cookies_auth.py *)

Record set_cookie := SetCookie { ck_name : string; ck_value : string; ck_max_age : Z; ck_http_only : bool; ck_secure : bool; ck_path : string }.

Definition attach_refresh_cookie (refresh_raw : string) : set_cookie :=
  SetCookie refresh_cookie_name refresh_raw (refresh_ttl settings) true refresh_cookie_secure "/".

(** [delete_cookie]: an empty value that has expired. *)
Definition clear_refresh_cookie : set_cookie := SetCookie refresh_cookie_name EmptyString 0 true refresh_cookie_secure "/".

(** ** Endpoints without a token *)

Definition post_register (tenant_name email password full_name : string) : M (reply (string * Z * User * set_cookie)) :=
  if negb allow_public_registration then raise (http_error 403 "Public registration is disabled. Use /auth/invite.")
  else
    tenant_id ← uuid4;
    '(access, refresh_raw, user) ← mapping auth_error (transaction (register_tenant_owner settings tenant_id tenant_name email password full_name));
    mret (created (access, tenant_id, user, attach_refresh_cookie refresh_raw)).

Definition post_login (tenant_id : option Z) (email password : string) : M (reply (string * Z * set_cookie)) :=
  tid ← match tenant_id with
        | Some t => mret t
        | None => mapping auth_error (transaction (resolve_tenant_id_for_email_login (lower (strip email))))
        end;
  '(access, refresh_raw, user_id) ← mapping auth_error (transaction (login settings (Some tid) email password));
  mret (ok (access, user_id, attach_refresh_cookie refresh_raw)).

(** The text of the body, or else of the cookie, when it is not blank. *)
Definition presented (in_body in_cookie : option string) : option string :=
  let given o := match o with Some s => if truthy (strip s) then Some s else None | None => None end in
  match given in_body with Some s => Some s | None => given in_cookie end.

(** A refused refresh is answered, not raised: it clears the cookie. *)
Definition post_refresh (tenant_id : Z) (refresh_token cookie : option string) : M (reply (option string * set_cookie)) :=
  match presented refresh_token cookie with
  | None => raise (http_error 401 "missing refresh token")
  | Some raw =>
      try_except
        ('(access, refresh_raw) ← transaction (refresh_session settings tenant_id (Some (strip raw)));
         mret (ok (Some access, attach_refresh_cookie refresh_raw)))
        (fun e => match e with
                  | ServiceError "AuthServiceError" _ status_code => Some (mret (Reply status_code (None, clear_refresh_cookie) [] []))
                  | _ => None
                  end)
  end.

Definition post_logout (tenant_id : option Z) (refresh_token cookie : option string) : M (reply set_cookie) :=
  _ ← match tenant_id, presented refresh_token cookie with
      | Some t, Some raw => transaction (logout t (strip raw))
      | _, _ => mret tt
      end;
  mret (Reply 204 clear_refresh_cookie [] []).

Definition post_forgot_password (email : string) : T W (reply unit) :=
  _ ← request_password_reset resend_api_key email_from_default frontend_base_url email;
  mret no_content.

Definition post_reset_password (token new_password : string) : M (reply unit) :=
  _ ← mapping auth_error (transaction (reset_password token new_password)); mret no_content.

(** ** Users *)

Definition get_users (tenant_id : Z) : M (reply (list User)) := rows ← list_users tenant_id; mret (ok rows).

Definition post_change_password (tenant_id user_id : Z) (current_password new_password : string) : M (reply unit) :=
  _ ← mapping auth_error (change_password tenant_id user_id current_password new_password);
  _ ← record_audit tenant_id "user.change_password" "user" (Some user_id);
  mret no_content.

Definition patch_user_route (tenant_id : Z) (user_role : option string) (actor_user_id user_id : Z) (body : user_patch) : M (reply User) :=
  let actor_role := lower (strip (default EmptyString user_role)) in
  if negb (truthy actor_role) then raise (http_error 403 "Insufficient role for this operation")
  else
    i ← mapping auth_error (patch_user tenant_id actor_user_id actor_role user_id body);
    _ ← record_audit tenant_id "user.patch" "user" (Some user_id);
    user ← loaded i; mret (ok user).

Definition get_me (tenant_id user_id : Z) : M (reply User) :=
  user ← get_user tenant_id user_id; user ← or_404 "user not found" user; mret (ok user).

Definition post_invite (tenant_id : Z) (body : invitation) : T W (reply User) :=
  user ← T_mapping auth_error (invite_user resend_api_key email_from_default tenant_id body);
  _ ← db (record_audit tenant_id "user.invite" "user" (Some (u_id user)));
  mret (created user).

(** ** api_keys.py *)

Definition api_key_error : exn -> option exn := service_error "ApiKeyServiceError".

Definition get_api_keys (tenant_id : Z) : M (reply (list ApiKey)) := rows ← list_api_keys tenant_id; mret (ok rows).

(** The key, and the only time its plain text is shown. *)
Definition post_api_key (tenant_id : Z) (name : string) (scopes : list string) (expires_at : option Z) : M (reply (ApiKey * string)) :=
  '(row, plain) ← mapping api_key_error (create_api_key tenant_id name scopes expires_at);
  _ ← record_audit tenant_id "api_key.create" "api_key" (Some (ak_id row));
  mret (created (row, plain)).

Definition patch_api_key_route (tenant_id key_id : Z) (is_active : option bool) (name : option string) : M (reply ApiKey) :=
  row ← mapping api_key_error (patch_api_key tenant_id key_id is_active name);
  _ ← record_audit tenant_id "api_key.patch" "api_key" (Some key_id);
  mret (ok row).

Definition delete_api_key_route (tenant_id key_id : Z) : M (reply unit) :=
  _ ← mapping api_key_error (delete_api_key tenant_id key_id);
  _ ← record_audit tenant_id "api_key.delete" "api_key" (Some key_id);
  mret no_content.

End accounts.
