(* ===== verification/HttpProperties.v ===== *)
(** * The handlers of properties, packs, reports and webhooks

    app/api/routes/properties.py, country_packs.py, reports.py and webhooks.py. *)

From stdpp Require Import strings.
From S2P Require Import Prelude PyDecimal PyJson StayDates Calendar Tax Models Session Rates Folio Extension Auth Access Webhooks Remote Properties Reports Emails ChannexTasks Handlers.

Section properties.
Context {env : Env} {crypto : Crypto} {net : Net} {zones : Zones} {W : Type} {mailer : Mailer W}.
Context (resend_api_key email_from_default : string).

(** ** properties.py *)

Definition property_or_404 (tenant_id property_id : Z) : M Property :=
  prop ← Rates.get_property tenant_id property_id; or_404 "Property not found" prop.

Definition create_property (tenant_id : Z) (body : property_create) : M (Handlers.reply Property) :=
  prop ← Properties.create_property tenant_id body;
  _ ← record_audit tenant_id "property.create" "property" (Some (p_id prop));
  mret (created prop).

Definition list_properties (tenant_id : Z) : M (Handlers.reply (list Property)) :=
  rows ← Properties.list_properties tenant_id; mret (ok rows).

(** Whether bookings lock the country pack, and how many. *)
Definition get_property_lock_status (tenant_id property_id : Z) : M (Handlers.reply (Z * bool * Z)) :=
  _ ← property_or_404 tenant_id property_id;
  booking_count ← count_bookings_for_property tenant_id property_id;
  mret (ok (property_id, 0 <? booking_count, booking_count)).

Definition get_property_tax_config (tenant_id property_id : Z) : M (Handlers.reply tax_config) :=
  _ ← property_or_404 tenant_id property_id;
  row ← Folio.get_tax_config tenant_id property_id;
  row ← or_404 "Tax config not found" row; mret (ok row).

Definition put_property_tax_config (tenant_id property_id : Z) (mode : tax_mode) (tax_name : string) (tax_rate : dec)
    : M (Handlers.reply tax_config) :=
  _ ← property_or_404 tenant_id property_id;
  row ← upsert_tax_config tenant_id property_id mode tax_name tax_rate;
  _ ← record_audit tenant_id "property.tax_config.upsert" "property" (Some property_id);
  mret (ok row).

Definition get_property_email_settings (tenant_id property_id : Z) : M (Handlers.reply EmailSettings) :=
  _ ← property_or_404 tenant_id property_id;
  row ← get_email_settings tenant_id property_id;
  row ← or_404 "Email settings not found" row; mret (ok row).

Definition put_property_email_settings (tenant_id property_id : Z) (body : email_settings_put) : M (Handlers.reply EmailSettings) :=
  _ ← property_or_404 tenant_id property_id;
  row ← upsert_email_settings tenant_id property_id body;
  _ ← record_audit tenant_id "property.email_settings.upsert" "property" (Some property_id);
  mret (ok row).

(** What the test message needs: the property, the name of the sender and the
    address of the user. *)
Definition email_test_context (tenant_id property_id user_id : Z) : M (Property * string * string) :=
  if negb (truthy (strip resend_api_key)) then raise (http_error 422 "Resend API key is not configured")
  else
    prop ← property_or_404 tenant_id property_id;
    es_row ← get_email_settings tenant_id property_id;
    es_row ← or_404 "Email settings not found; save settings first" es_row;
    user ← get_user tenant_id user_id;
    user ← or_404 "User not found" user;
    let to_addr := strip (u_email user) in
    if negb (truthy to_addr) || ends_with ".invalid" (lower to_addr) then raise (http_error 422 "User has no valid email for test delivery")
    else mret (prop, es_sender es_row, to_addr).

Definition post_property_email_test (tenant_id property_id user_id : Z) : T W (Handlers.reply unit) :=
  '(prop, sender_name, to_addr) ← db (email_test_context tenant_id property_id user_id);
  _ ← send_property_test_email resend_api_key email_from_default tenant_id property_id (p_name prop) sender_name to_addr;
  _ ← db (record_audit tenant_id "property.email_test" "property" (Some property_id));
  mret (Reply 202 tt [] []).

Definition delete_property_tax_config (tenant_id property_id : Z) : M (Handlers.reply unit) :=
  _ ← property_or_404 tenant_id property_id;
  deleted ← delete_tax_config tenant_id property_id;
  if negb deleted then raise (http_error 404 "Tax config not found")
  else _ ← record_audit tenant_id "property.tax_config.delete" "property" (Some property_id); mret no_content.

Definition get_property (tenant_id property_id : Z) : M (Handlers.reply Property) :=
  prop ← property_or_404 tenant_id property_id; mret (ok prop).

Definition patch_property (tenant_id property_id : Z) (body : property_patch) : M (Handlers.reply Property) :=
  prop ← update_property tenant_id property_id body;
  prop ← or_404 "Property not found" prop;
  _ ← record_audit tenant_id "property.patch" "property" (Some property_id);
  mret (ok prop).

(** ** country_packs.py *)

Definition extension_error : exn -> option exn := service_error "ExtensionServiceError".
Definition pack_error : exn -> option exn := service_error "CountryPackServiceError".

Definition list_extensions_route (tenant_id : Z) (country_code : option string) : M (Handlers.reply (list CountryPackExtension)) :=
  rows ← list_extensions tenant_id country_code; mret (ok rows).

Definition register_extension_route (tenant_id : Z) (code name : string) (country : option string) (webhook_url : string)
    (required_fields : list string) : M (Handlers.reply CountryPackExtension) :=
  row ← mapping extension_error (register_extension tenant_id code name country webhook_url required_fields); mret (created row).

Definition list_property_extensions_route (tenant_id property_id : Z) : M (Handlers.reply (list PropertyExtension)) :=
  rows ← list_property_extensions tenant_id property_id; mret (ok rows).

Definition upsert_property_extension_route (tenant_id property_id extension_id : Z) (config : option json) (is_active : bool)
    : M (Handlers.reply PropertyExtension) :=
  _ ← mapping extension_error (upsert_property_extension tenant_id property_id extension_id config is_active);
  row ← attrs (fun d => List.find (fun p => (pe_tenant p =? tenant_id) && (pe_property p =? property_id) && (pe_extension p =? extension_id))
                          (property_extensions d));
  row ← lift (of_option row AttributeOrTypeError); mret (created row).

Definition list_country_packs_route (tenant_id : Z) : M (Handlers.reply (list CountryPack)) :=
  rows ← list_country_packs tenant_id; mret (ok rows).

Definition create_country_pack_route (tenant_id : Z) (body : pack_create) : M (Handlers.reply CountryPack) :=
  row ← mapping pack_error (create_country_pack tenant_id body); mret (created row).

Definition get_country_pack_route (tenant_id : Z) (code : string) : M (Handlers.reply CountryPack) :=
  row ← get_country_pack tenant_id code; row ← or_404 "Not found" row; mret (ok row).

Definition patch_country_pack_route (tenant_id : Z) (code : string) (body : pack_patch) : M (Handlers.reply CountryPack) :=
  row ← mapping pack_error (update_country_pack tenant_id code body); mret (ok row).

Definition delete_country_pack_route (tenant_id : Z) (code : string) : M (Handlers.reply unit) :=
  _ ← mapping pack_error (delete_country_pack tenant_id code); mret no_content.

Definition apply_country_pack_route (tenant_id : Z) (code : string) (property_id : Z) : M (Handlers.reply pack_apply) :=
  out ← mapping pack_error (apply_country_pack tenant_id code property_id); mret (ok out).

(** ** reports.py *)

(** [ReportRangeParams]: pydantic prefixes the message of a validator. *)
Definition range_params (date_from date_to : date) : result unit :=
  if date_to <? date_from then Err (http_error 422 "Value error, date_to must be >= date_from")
  else if 366 <? date_to - date_from + 1 then Err (http_error 422 "Value error, date range must not exceed 366 days")
  else Ok tt.

(** A report, or the lines of its CSV file. *)
Inductive report_body (A : Type) := AsJson (report : A) | AsCsv (lines : list string).
Arguments AsJson {A} report.
Arguments AsCsv {A} lines.

(** [_csv_response] *)
Definition csv_headers (name : string) (date_from date_to : date) : list (string * string) :=
  [("Content-Disposition", "attachment; filename=" ++ json_quote (name ++ "_" ++ isoformat date_from ++ "_" ++ isoformat date_to ++ ".csv"));
   ("Cache-Control", "private, no-store")]%string.

Definition report_reply {A} (get : Z -> Z -> date -> date -> M A) (rows : A -> list string) (name : string)
    (tenant_id property_id : Z) (date_from date_to : date) (csv : bool) : M (Handlers.reply (report_body A)) :=
  _ ← lift (range_params date_from date_to);
  report ← mapping (service_error "ReportsServiceError") (get tenant_id property_id date_from date_to);
  mret (if csv then with_headers (csv_headers name date_from date_to) (ok (AsCsv (rows report)))
        else with_headers PRIVATE (ok (AsJson report))).

Definition get_occupancy_report_endpoint : Z -> Z -> date -> date -> bool -> M (Handlers.reply (report_body occupancy_report)) :=
  report_reply get_occupancy_report occupancy_report_csv_rows "occupancy".
Definition get_revenue_report_endpoint : Z -> Z -> date -> date -> bool -> M (Handlers.reply (report_body revenue_report)) :=
  report_reply get_revenue_report revenue_report_csv_rows "revenue".
Definition get_kpi_report_endpoint : Z -> Z -> date -> date -> bool -> M (Handlers.reply (report_body kpi_report)) :=
  report_reply get_kpi_report kpi_report_csv_rows "kpi".

(** ** webhooks.py *)

Definition subscription_error : exn -> option exn := service_error "WebhookSubscriptionError".

Definition list_webhook_subscriptions (tenant_id : Z) : M (Handlers.reply (list WebhookSubscription)) :=
  rows ← list_subscriptions tenant_id; mret (ok rows).

Definition list_webhook_delivery_logs (tenant_id : Z) (limit offset : nat) : M (Handlers.reply (list WebhookDeliveryLog)) :=
  rows ← select (fun l => wl_tenant l =? tenant_id);
  mret (ok (firstn limit (skipn offset (order_by (fun a b => wl_created_at b <=? wl_created_at a) rows)))).

(** The subscription, with its signing secret this once. *)
Definition create_webhook_subscription (tenant_id : Z) (url : string) (events : list string) (is_active : bool)
    : M (Handlers.reply (WebhookSubscription * string)) :=
  '(row, secret) ← mapping subscription_error (create_subscription tenant_id url events is_active);
  _ ← record_audit tenant_id "webhook_subscription.create" "webhook_subscription" (Some (ws_id row));
  mret (created (row, secret)).

Definition reencrypt_webhook_subscription_secrets (tenant_id : Z) (new_fernet_key : string) : M (Handlers.reply Z) :=
  updated ← mapping subscription_error (reencrypt_subscription_secrets_for_tenant tenant_id new_fernet_key);
  _ ← record_audit tenant_id "webhook_subscription.secrets_reencrypt" "webhook_subscription" None;
  mret (ok updated).

Definition patch_webhook_subscription (tenant_id subscription_id : Z) (url : option string) (events : option (list string))
    (is_active : option bool) : M (Handlers.reply WebhookSubscription) :=
  i ← mapping subscription_error (patch_subscription tenant_id subscription_id url events is_active);
  _ ← record_audit tenant_id "webhook_subscription.patch" "webhook_subscription" (Some subscription_id);
  row ← loaded i; mret (ok row).

Definition delete_webhook_subscription (tenant_id subscription_id : Z) : M (Handlers.reply unit) :=
  _ ← mapping subscription_error (delete_subscription tenant_id subscription_id);
  _ ← record_audit tenant_id "webhook_subscription.delete" "webhook_subscription" (Some subscription_id);
  mret no_content.

End properties.
