(* ===== verification/HttpChannex.v ===== *)
(** * The handlers of the channel manager and of card payments

    app/api/routes/channex.py: connecting a property, provisioning, mappings,
    activation, synchronisation, the revisions left in error; and
    stripe_payments.py and stripe_connect.py, the OAuth callback included. *)

From stdpp Require Import strings.
From S2P Require Import HttpProperties Prelude PyDecimal PyJson StayDates Models Session Rates Folio Auth Webhooks Remote ChannexClient ChannexAri ChannexLink Access Payments Emails ChannexTasks OAuthState Handlers.

Section channex.
Context {env : Env} {net : Net} {W : Type} {channex : Wire W}.

(** [_http_from_service] *)
Definition http_from_service : exn -> option exn := service_error "ChannexServiceError".

(** [_enqueue_channex_ari_sync_job] *)
Definition enqueue_channex_ari_sync_job (tenant_id property_id : Z) : background := Enqueue (FullSync tenant_id property_id).

Definition validate_channex_key (api_key env_name : string) : T W (Handlers.reply (list cx_resource)) :=
  props ← T_mapping http_from_service (validate_key api_key env_name); mret (ok props).

Definition create_channex_property_endpoint (tenant_id property_id : Z) (api_key env_name : string) : T W (Handlers.reply cx_resource) :=
  row ← T_mapping http_from_service (create_channex_property_from_openpms tenant_id property_id api_key env_name);
  _ ← db (record_audit tenant_id "channex.create_property" "property" (Some property_id));
  mret (created row).

Definition provision_channex_from_openpms_endpoint (tenant_id property_id : Z) : T W (Handlers.reply provision_counts) :=
  result ← T_mapping http_from_service (provision_channex_from_openpms tenant_id property_id);
  _ ← db (record_audit tenant_id "channex.provision_from_openpms" "property" (Some property_id));
  mret (ok result).

Definition connect_channex (tenant_id property_id : Z) (api_key env_name channex_property_id : string) : T W (Handlers.reply ChannexPropertyLink) :=
  row ← T_mapping http_from_service (connect tenant_id property_id api_key env_name channex_property_id);
  _ ← db (record_audit tenant_id "channex.connect" "channex_property_link" (Some (cl_id row)));
  mret (created row).

Definition channex_status (tenant_id property_id : Z) : M (Handlers.reply channex_status) :=
  prop ← get_property tenant_id property_id;
  _ ← or_404 "Property not found" prop;
  st ← get_status tenant_id property_id; mret (ok st).

Definition list_failed_channex_revisions (tenant_id : Z) (property_id : option Z) (limit offset : nat)
    : M (Handlers.reply (list (ChannexBookingRevision * Z) * Z)) :=
  r ← list_failed_channex_booking_revisions tenant_id property_id limit offset; mret (ok r).

Definition retry_failed_channex_revision (tenant_id revision_id : Z) : M (Handlers.reply unit) :=
  rev ← scalar (R := ChannexBookingRevision) (fun r => (cr_id r =? revision_id) && (cr_tenant r =? tenant_id));
  rev ← or_404 "Booking revision not found" rev;
  if negb (String.eqb (cr_processing rev) "error") then raise (http_error 400 "Only revisions in error state can be retried")
  else mret (Reply 202 tt [] [Enqueue (RetryRevision revision_id tenant_id)]).

Definition channex_rooms (tenant_id property_id : Z) : T W (Handlers.reply (list cx_resource)) :=
  rows ← T_mapping http_from_service (get_channex_rooms tenant_id property_id); mret (ok rows).
Definition channex_rates (tenant_id property_id : Z) : T W (Handlers.reply (list cx_resource)) :=
  rows ← T_mapping http_from_service (get_channex_rates tenant_id property_id); mret (ok rows).

Definition map_channex_rooms (tenant_id property_id : Z) (mappings : list room_mapping) : M (Handlers.reply unit) :=
  _ ← mapping http_from_service (save_room_mappings tenant_id property_id mappings);
  _ ← record_audit tenant_id "channex.map_rooms" "property" (Some property_id);
  mret no_content.

Definition map_channex_rates (tenant_id property_id : Z) (mappings : list rate_mapping) : M (Handlers.reply unit) :=
  _ ← mapping http_from_service (save_rate_mappings tenant_id property_id mappings);
  _ ← record_audit tenant_id "channex.map_rates" "property" (Some property_id);
  mret no_content.

Definition activate_channex (channex_webhook_url : option string) (tenant_id property_id : Z) : T W (Handlers.reply ChannexPropertyLink) :=
  _ ← T_mapping http_from_service (activate channex_webhook_url tenant_id property_id);
  row ← db (attrs (fun d => List.find (link_is tenant_id property_id) (links d)));
  row ← db (lift (of_option row AttributeOrTypeError));
  _ ← db (record_audit tenant_id "channex.activate" "channex_property_link" (Some (cl_id row)));
  mret (leaving (ok row) [enqueue_channex_ari_sync_job tenant_id property_id]).

Definition sync_channex (tenant_id property_id : Z) : M (Handlers.reply unit) :=
  _ ← mapping http_from_service (require_active_channex_link tenant_id property_id);
  _ ← record_audit tenant_id "channex.sync" "property" (Some property_id);
  mret (Reply 202 tt [] [enqueue_channex_ari_sync_job tenant_id property_id]).

Definition disconnect_channex (tenant_id property_id : Z) : T W (Handlers.reply unit) :=
  _ ← disconnect tenant_id property_id;
  _ ← db (record_audit tenant_id "channex.disconnect" "property" (Some property_id));
  mret no_content.

End channex.

(** * Card payments and connections *)

Section payments.
Context {env : Env} {crypto : Crypto} {net : Net} {reader : BodyReader} {stripe : Stripe}.
Context (settings : stripe_settings) (oauth : oauth_settings) (stripe_connect_success_url : string).
Context (authorize_url : list (string * string) -> string).

Definition payment_http_error : exn -> option exn := service_error "StripePaymentError".
Definition stripe_http_error : exn -> option exn := service_error "StripeConnectError".

(** ** stripe_payments.py *)

Definition post_stripe_payment_method (tenant_id property_id : Z) (stripe_pm_id : string) (booking_id : option Z) (label : option string)
    : M (Handlers.reply StripePaymentMethod) :=
  _ ← property_or_404 tenant_id property_id;
  row ← mapping payment_http_error (save_payment_method settings tenant_id property_id (strip stripe_pm_id) booking_id label);
  mret (created row).

Definition get_stripe_payment_methods (tenant_id property_id : Z) (booking_id : option Z) : M (Handlers.reply (list StripePaymentMethod)) :=
  _ ← property_or_404 tenant_id property_id;
  rows ← list_payment_methods tenant_id property_id booking_id; mret (ok rows).

Definition delete_stripe_payment_method_route (tenant_id pm_id : Z) : M (Handlers.reply unit) :=
  _ ← mapping payment_http_error (delete_payment_method settings tenant_id pm_id); mret no_content.

(** A declined card is committed as a failed charge, and answered 422. *)
Definition post_booking_stripe_charge (tenant_id booking_id stripe_pm_id : Z) (amount : dec) (label : option string)
    : M (Handlers.reply (StripeCharge + string)) :=
  out ← mapping payment_http_error (charge_booking settings tenant_id booking_id stripe_pm_id amount label);
  mret match out with
       | Charged ch => created (inl ch)
       | Declined msg => Reply 422 (inr msg) [] []
       end.

Definition post_booking_stripe_refund (tenant_id booking_id stripe_charge_id : Z) (amount : option dec) : M (Handlers.reply StripeCharge) :=
  _ ← mapping payment_http_error (refund_stripe_charge settings tenant_id booking_id stripe_charge_id amount);
  row ← loaded stripe_charge_id; mret (ok row).

Definition get_booking_stripe_charges (tenant_id booking_id : Z) : M (Handlers.reply (list StripeCharge)) :=
  rows ← mapping payment_http_error (list_booking_stripe_charges tenant_id booking_id); mret (ok rows).

(** ** stripe_connect.py *)

Definition get_property_stripe_status (tenant_id property_id : Z) : M (Handlers.reply (option (bool * Z))) :=
  _ ← property_or_404 tenant_id property_id;
  st ← get_stripe_status tenant_id property_id; mret (ok st).

(** A missing signing key is a server error. *)
Definition connect_url_error (e : exn) : option exn :=
  match e with ValueError m => Some (http_error 500 m) | _ => stripe_http_error e end.

Definition get_property_stripe_connect_url (tenant_id property_id : Z) : M (Handlers.reply string) :=
  _ ← property_or_404 tenant_id property_id;
  url ← mapping connect_url_error (build_connect_authorize_url settings oauth authorize_url tenant_id property_id); mret (ok url).

Definition delete_property_stripe_connection (tenant_id property_id : Z) : M (Handlers.reply unit) :=
  _ ← property_or_404 tenant_id property_id;
  _ ← mapping stripe_http_error (disconnect_stripe_connection settings tenant_id property_id); mret no_content.

(** [quote(s, safe="")] *)
Definition unreserved (c : ascii) : bool :=
  is_alpha c || is_digit c || existsb (Ascii.eqb c) ["_"; "."; "-"; "~"]%char.
Definition quote (s : string) : string :=
  String.concat EmptyString (List.map (fun c => if unreserved c then String c EmptyString
    else upper (String "%" (String (hex_digit (nat_of_ascii c / 16)) (String (hex_digit (nat_of_ascii c mod 16)) EmptyString))))
    (list_ascii_of_string s)).

Example quoted : quote "a b/ü" = "a%20b%2F%C3%BC"%string. Proof. reflexivity. Qed.

Definition redirect (success_base query : string) : Handlers.reply unit :=
  let sep := if occurs_in "?" success_base then "&"%string else "?"%string in
  Reply 302 tt [("Location", success_base ++ sep ++ query)]%string [].

Definition redirect_success (success_base : string) (property_id : Z) : Handlers.reply unit :=
  redirect success_base ("property_id=" ++ uuid_str property_id ++ "&connected=1")%string.

Definition redirect_denied (success_base error : string) (error_description : option string) : Handlers.reply unit :=
  redirect success_base ("stripe_error=" ++ quote error ++ "&stripe_error_description=" ++ quote (default EmptyString error_description))%string.

Definition given (o : option string) : option string := match o with Some s => if truthy s then Some s else None | None => None end.

(** The exchange runs in a transaction of its own, outside the handler that
    maps the service's errors. *)
Definition stripe_oauth_callback (code state error error_description : option string) : M (Handlers.reply unit) :=
  let success_base := strip stripe_connect_success_url in
  if negb (truthy success_base) then raise (http_error 500 "STRIPE_CONNECT_SUCCESS_URL is not configured")
  else
    match given error with
    | Some e => mret (redirect_denied success_base e error_description)
    | None =>
        match given code, given state with
        | Some code, Some state =>
            t ← get_now;
            '(tenant_id, property_id) ← mapping connect_url_error (lift (decode_oauth_state oauth state t));
            _ ← transaction (exchange_code_for_connection settings oauth code state);
            mret (redirect_success success_base property_id)
        | _, _ => raise (http_error 400 "Missing code or state")
        end
    end.

End payments.
