(* ===== verification/ReservationBook.v ===== *)
(** * The reservation book

    What the booking requests promise, without tables: a book that gives each
    active booking its stay.  The booking system refines it: every request is
    one step of the book, or leaves it as it is, and the ledger is the book's
    demand. *)

From stdpp Require Import gmap relations.
From S2P Require Import Prelude PyDecimal PyJson StayDates Calendar BookingStatus Models Session.
From S2P Require Import Ledger LedgerLaws Rates RatesLaws Folio FolioLaws Extension Booking BookingFrame.
From S2P Require Import BookingInvariant BookingRequests System.

(** ** The abstract book *)

(** The nights of a stay and the room type it takes on each. *)
Definition stay := list (Z * date).

(** Active bookings, by tenant and key. *)
Definition book := Z * Z -> option stay.

(** One room type, distinct nights. *)
Definition stay_valid (st : stay) : Prop :=
  List.NoDup (List.map snd st) /\ forall x y, In x st -> In y st -> fst x = fst y.

(** The steps of the book: a new stay, a change or an end of a stay that is
    in it; a booking that has left the book never comes back. *)
Inductive book_step (b b' : book) : Prop :=
  | Unchanged : (forall k, b' k = b k) -> book_step b b'
  | Reserved key st : b key = None -> b' key = Some st -> st <> [] -> stay_valid st ->
      (forall k, k <> key -> b' k = b k) -> book_step b b'
  | Amended key st st' : b key = Some st -> b' key = Some st' -> stay_valid st' ->
      (forall k, k <> key -> b' k = b k) -> book_step b b'
  | Ended key : b' key = None -> (forall k, k <> key -> b' k = b k) -> book_step b b'.

(** ** The database as a book *)

Definition night_of (l : BookingLine) : Z * date := (l_room_type l, l_date l).

Definition book_of (d : DB) : book := fun k =>
  if booking_active d k.1 k.2 then Some (List.map night_of (lines_of d k.1 k.2)) else None.

Lemma book_of_others t bid d d' :
  same_others t bid d d' -> forall k, k <> (t, bid) -> book_of d' k = book_of d k.
Proof.
  intros [Hl Ha] [t' b'] Hne. unfold book_of. cbn [fst snd]. rewrite Ha by done.
  assert (E : lines_of d' t' b' = lines_of d t' b'); [|by rewrite E].
  assert (Hf : forall d0, lines_of d0 t' b' = lines_of (put_lines (List.filter (fun l => negb (line_of t bid l)) (lines d0)) d0) t' b').
  { intros d0. unfold lines_of. cbn [lines put_lines]. induction (lines d0) as [|l ls IH]; [done|]. cbn [List.filter].
    destruct (line_of t bid l) eqn:E; cbn [negb List.filter]; [|by rewrite IH].
    destruct (line_of t' b' l) eqn:E'; [|exact IH]. exfalso. by apply Hne, (line_of_unique t bid t' b' l). }
  rewrite (Hf d'), (Hf d). unfold lines_of. cbn [lines put_lines]. by rewrite Hl.
Qed.

Lemma book_of_ext d d' : lines d' = lines d -> bookings d' = bookings d -> forall k, book_of d' k = book_of d k.
Proof. intros Hl Hb k. unfold book_of, lines_of, booking_active. by rewrite Hl, Hb. Qed.

Lemma book_valid d k st : inventory_ok d -> book_of d k = Some st -> stay_valid st.
Proof.
  intros Hinv. unfold book_of. destruct (booking_active _ _ _); [|done]. intros [= <-].
  destruct (wf_stays _ (inv_wf _ Hinv) k.1 k.2) as [Hnd Hrt]. split.
  - rewrite List.map_map. exact Hnd.
  - intros x y (l & <- & Hl)%in_map_iff (l' & <- & Hl')%in_map_iff. by apply Hrt.
Qed.

(** ** What a request leaves of the other bookings *)

Record others_kept (t bid : Z) (d : DB) (s : session) : Prop := {
  ok_mem : same_others t bid d (mem s);
  ok_disk : same_others t bid d (disk s);
  ok_ids : List.NoDup (List.map b_id (bookings (mem s)));
  ok_found : exists st, has_status (mem s) t bid st }.

#[export] Instance others_kept_stable t bid d : CoreStable (others_kept t bid d).
Proof.
  split.
  - intros s s' (_ & Hl & Hb) (_ & Hl' & Hb') _ [Hm Hd Hnd Ho]. split.
    + eapply same_others_trans; [exact Hm|]. by apply same_others_ext.
    + eapply same_others_trans; [exact Hd|]. by apply same_others_ext.
    + by rewrite <- Hb.
    + unfold has_status in *. by rewrite <- Hb.
  - intros s [Hm Hd Hnd Ho]. by split.
Qed.

Section kept.
Context {env : Env} (t bid : Z) (d : DB).
Let K := others_kept t bid d.

Lemma kept_assign_row k f : preserves K (assign_row k f).
Proof.
  unfold assign_row. apply preserves_orm. intros s [Hm Hd Hnd Ho]. split; [|exact Hd|exact Hnd|exact Ho].
  eapply same_others_trans; [exact Hm|]. by apply same_others_ext.
Qed.

Lemma kept_assign f : keeps_identity f -> preserves K (assign (R := Booking) bid f).
Proof.
  intros Hf s s' r [Hm Hd Hnd [st Hst]] H. rewrite assign_is_on_booking in H. injection H as <- _.
  destruct (on_booking_status bid f (mem s) t st Hf Hst) as (b & Hin & Hid & Ht & _ & Hst'). split; cbn [mem disk set_mem].
  - eapply same_others_trans; [exact Hm|]. split; [done|]. intros t' b' Hne. symmetry.
    apply (on_booking_active_other bid f (mem s) t); [done|done|by exists b|done].
  - exact Hd.
  - by rewrite on_booking_ids.
  - by eexists.
Qed.

(** Changes confined to the lines of the booking. *)
Lemma kept_lines f :
  (forall dd, bookings (f dd) = bookings dd) ->
  (forall dd, List.filter (fun l => negb (line_of t bid l)) (lines (f dd)) = List.filter (fun l => negb (line_of t bid l)) (lines dd)) ->
  preserves K (orm f) /\ preserves K (execute f).
Proof.
  intros Hb Hl.
  assert (Hs : forall dd, same_others t bid dd (f dd)).
  { intros dd. split; [by rewrite Hl|]. intros. by apply booking_active_ext. }
  split; [apply preserves_orm|apply preserves_execute]; intros s [Hm Hd Hnd Ho]; split; cbn [mem disk set_mem set_disk].
  all: try (by eapply same_others_trans; [|apply Hs]); try exact Hd.
  all: try (by rewrite Hb). all: unfold has_status in *; by rewrite Hb.
Qed.

Lemma kept_drop_lines : preserves K (execute_delete (line_of t bid)).
Proof.
  unfold execute_delete. apply kept_lines; [done|]. intros dd. cbn [table put_table BookingLine_entity lines put_lines]. apply filter_idem.
Qed.

Lemma kept_assign_lines r : preserves K (assign_lines_room t bid r).
Proof.
  unfold assign_lines_room. apply kept_lines; [done|]. intros dd. cbn [lines put_lines].
  induction (lines dd) as [|l ls IH]; [done|]. cbn [List.map List.filter]. destruct (line_of t bid l) eqn:E.
  - replace (line_of t bid (set_l_room r l)) with true by (by symmetry). exact IH.
  - rewrite E. cbn [negb]. by rewrite IH.
Qed.

Lemma kept_add_lines rt r per : preserves K (add_lines t bid rt r per).
Proof.
  unfold add_lines. apply preserves_forM. intros np _. apply preserves_bind; [apply frame_uuid4; exact _|]. intros i.
  unfold add. apply kept_lines; [done|]. intros dd. cbn [table put_table BookingLine_entity lines put_lines].
  rewrite List.filter_app. cbn [List.filter]. unfold line_of at 2. cbn [l_tenant l_booking]. rewrite !Z.eqb_refl. cbn. apply app_nil_r.
Qed.

Lemma kept_row k : preserves K (row k).
Proof. unfold row. frames. Qed.
#[local] Hint Resolve kept_assign_row kept_drop_lines kept_assign_lines kept_add_lines kept_row : frame.

Lemma kept_lock rt ns n : preserves K (lock_and_validate_availability t rt ns n).
Proof. unfold lock_and_validate_availability, select_ledger. frames. Qed.

Lemma kept_decrement ks n : preserves K (decrement_booked_rooms ks n).
Proof. unfold decrement_booked_rooms. frames. Qed.

Lemma kept_increment ks n : preserves K (increment_booked_rooms ks n).
Proof. unfold increment_booked_rooms. frames. Qed.

Lemma kept_booking_lines t' b' : preserves K (booking_lines t' b').
Proof. intros s s' r Hs H. unfold booking_lines in H. destruct (existsb _ _); by simplify_eq. Qed.
#[local] Hint Resolve kept_lock kept_decrement kept_increment kept_booking_lines : frame.

Lemma kept_release b : preserves K (release_booking_inventory t b).
Proof. unfold release_booking_inventory. frames. Qed.

Lemma kept_assign_room r : preserves K (assign_booking_room t bid r).
Proof.
  unfold assign_booking_room. frames. apply no_conflict_frame; exact _.
Qed.
#[local] Hint Resolve kept_release kept_assign_room : frame.

Lemma kept_cancel : preserves K (patch_cancel t bid).
Proof.
  unfold patch_cancel. apply preserves_bind; [apply booking_now_frame; exact _|]. intros b. apply preserves_if; [apply preserves_ret|].
  apply preserves_bind; [apply transition_frame; exact _|]. intros _. apply preserves_bind; [apply kept_release|]. intros _.
  apply preserves_bind; [by apply kept_assign|]. intros _. apply frame_flush; exact _.
Qed.

Lemma kept_dates body b ls : b_id b = bid -> preserves K (patch_dates t bid body b ls).
Proof.
  intros Hid. unfold patch_dates, move_inventory, rewrite_lines. rewrite Hid.
  repeat first [apply kept_drop_lines | (apply kept_assign; done) | frame_step | apply try_except_frame | apply sum_rates_frame | apply replace_taxes_frame
    | apply update_folio_frame].
  intros e k Hk. destruct e; simplify_eq; frames.
Qed.

Lemma kept_status body prev : preserves K (patch_status t bid body prev).
Proof.
  unfold patch_status. destruct (pt_status body) as [st|]; [|apply preserves_ret].
  apply preserves_bind; [apply booking_now_frame; exact _|]. intros b.
  apply preserves_bind; [apply transition_frame; exact _|]. intros _.
  apply preserves_bind; [apply preserves_if; [apply checkin_frame; exact _|apply preserves_ret]|]. intros _.
  apply preserves_bind; [apply preserves_if; [apply kept_release|apply preserves_ret]|]. intros _. by apply kept_assign.
Qed.

Lemma kept_patch body s s' r : K s -> patch_booking t bid body s = (s', Ok r) -> K s'.
Proof.
  intros Hs H. unfold patch_booking in H. destruct (negb _); [cbv [mret M_ret] in H; by simplify_eq|].
  mbind_in H s1 o H1. pose proof (preserves_scalar K (R := Booking) (booking_is t bid) s s1 (Ok o) Hs H1) as Hs1. clear Hs H1.
  destruct o as [b0|]; [|done]. mbind_in H s2 u H2. apply (frame_load_lines K) in H2; [|exact Hs1]. clear Hs1.
  mbind_in H s3 u' H3.
  assert (Hs3 : K s3).
  { destruct (pt_notes body) as [n|]; [|cbv [mret M_ret] in H3; by simplify_eq]. unfold patch_notes in H3.
    revert H3. by apply kept_assign. }
  clear H2 H3. destruct (negb (has_more body)).
  { mbind_in H s4 v H4. apply (frame_flush K) in H4; [|exact Hs3]. cbv [mret M_ret] in H. by injection H as <- _. }
  mbind_in H s4 b Hb. apply booking_now_inv in Hb as (-> & _ & Hid).
  mbind_in H s5 ls Hls. apply kept_booking_lines in Hls; [|exact Hs3]. destruct (wants_cancel body).
  - mbind_in H s6 v H6. apply kept_cancel in H6; [|exact Hls]. cbv [mret M_ret] in H. by injection H as <- _.
  - unfold patch_stay in H. mbind_in H s6 v6 H6. destruct v6. apply inactive_guard_inv in H6 as [-> _].
    mbind_in H s7 v7 H7. apply kept_dates in H7; [|exact Hid|exact Hls].
    mbind_in H s8 v8 H8.
    assert (Hs8 : K s8).
    { unfold patch_room in H8. destruct (pt_room_id body); [revert H8; by apply kept_assign_room|]. cbv [mret M_ret] in H8. by simplify_eq. }
    mbind_in H s9 v9 H9. apply kept_status in H9; [|exact Hs8]. revert H. by apply (patch_checkout_frame K).
Qed.
End kept.

(** ** Requests that leave the book as it is *)

Definition stays_as (d : DB) (s : session) : Prop := lines (mem s) = lines d /\ bookings (mem s) = bookings d.

#[export] Instance stays_as_stable d : CoreStable (stays_as d).
Proof.
  split; [|done]. intros s s' (_ & Hl & Hb) _ _ [H1 H2]. split; congruence.
Qed.

Lemma neutral_stays d s : neutral d s -> stays_as d s.
Proof. intros [_ Hl Hb _]. by split. Qed.

Lemma override_stays d t body : preserves (stays_as d) (apply_blocked_rooms_override t body).
Proof.
  unfold apply_blocked_rooms_override, select_ledger, row.
  repeat first [frame_step | (unfold assign_row; apply preserves_orm; intros s Hs; exact Hs)].
Qed.

Section refinement.
Context {env : Env} (visible : RoomType -> bool).

(** ** Creating *)

Lemma created_book t body d d' r :
  inventory_ok d' -> booking_create_valid body = true -> created t body d d' r -> book_step (book_of d) (book_of d').
Proof.
  intros Hinv Hv (Hn & _ & Hb & (room & news & Hl & Hnews) & _). set (key := (t, br_booking r)).
  assert (Hact : is_active (bc_status body) = true).
  { unfold booking_create_valid in Hv. apply andb_prop in Hv as [[Hv _]%andb_prop _]. apply str_in_spec in Hv.
    by destruct Hv as [<-|[<-|[]]]. }
  assert (Hnew : existsb (fun b => b_id b =? br_booking r) (bookings d) = false).
  { apply not_true_iff_false. intros (b & Hin & Hid%Z.eqb_eq)%existsb_exists. pose proof (wf_ids _ (inv_wf _ Hinv)) as Hnd.
    rewrite Hb, List.map_app in Hnd. cbn in Hnd. apply List.NoDup_remove_2 in Hnd. rewrite app_nil_r in Hnd.
    apply Hnd. rewrite <- Hid. by apply in_map. }
  assert (Hothers : same_others t (br_booking r) d d').
  { split.
    - rewrite Hl, List.filter_app. rewrite (filter_none _ news), app_nil_r; [done|].
      intros l Hin. destruct (lines_for_all _ _ _ _ _ _ l Hnews Hin) as [-> _]. done.
    - intros t' b' Hne. unfold booking_active. rewrite Hb, existsb_app. cbn [existsb b_tenant b_id b_status].
      destruct (Z.eqb_spec t t') as [<-|]; [|by rewrite !orb_false_r]. destruct (Z.eqb_spec (br_booking r) b') as [<-|]; [done|].
      by rewrite !orb_false_r. }
  assert (Hnone : book_of d key = None).
  { unfold book_of, booking_active. cbn [fst snd key]. rewrite (existsb_ext_in _ (fun _ => false)).
    - assert (E : forall l : list Booking, existsb (fun _ => false) l = false) by (by induction l). by rewrite E.
    - intros b Hin. destruct (Z.eqb_spec (b_id b) (br_booking r)) as [He|]; [|by rewrite andb_false_r].
      exfalso. apply not_true_iff_false in Hnew. apply Hnew, existsb_exists. exists b. split; [done|by apply Z.eqb_eq]. }
  assert (Hsome : book_of d' key = Some (List.map night_of (lines_of d' t (br_booking r)))).
  { unfold book_of, booking_active. cbn [fst snd key]. rewrite Hb, existsb_app. cbn [existsb b_tenant b_id b_status].
    by rewrite !Z.eqb_refl, Hact, !orb_true_r. }
  eapply (Reserved _ _ key); [exact Hnone|exact Hsome| |exact (book_valid d' key _ Hinv Hsome)|].
  - unfold lines_of. rewrite Hl, List.filter_app. intros E%map_eq_nil%app_eq_nil. destruct E as [_ E].
    rewrite forallb_filter in E by (apply forallb_forall; intros l Hin; exact (proj1 (lines_for_all _ _ _ _ _ _ l Hnews Hin))).
    subst news. inversion Hnews as [E|]. rewrite <- E in Hn. cbn in Hn.
    by apply stay_not_empty in Hn.
  - intros k Hk. by apply (book_of_others t (br_booking r)).
Qed.

(** ** Patching and deleting *)

Lemma book_of_status d t bid st :
  inventory_ok d -> has_status d t bid st ->
  book_of d (t, bid) = if is_active st then Some (List.map night_of (lines_of d t bid)) else None.
Proof.
  intros Hinv Hst. unfold book_of. cbn [fst snd]. by rewrite (has_status_active d t bid st (wf_ids _ (inv_wf _ Hinv)) Hst).
Qed.

Lemma patched_book t bid body d tm td u s r :
  inventory_ok d -> patch_booking t bid body (start d tm td u) = (s, Ok r) -> book_step (book_of d) (book_of (mem s)).
Proof.
  intros Hinv H. destruct (patch_booking_core t bid body d tm td u s r Hinv H) as [->|(st & st' & Hst & Hc & Hrev)];
    [by apply Unchanged|].
  assert (Hk : others_kept t bid d (start d tm td u)).
  { split; [apply same_others_refl|apply same_others_refl|apply Hinv|by exists st]. }
  apply (kept_patch t bid d body _ _ _ Hk) in H as [Hm _ _ _].
  assert (Hothers : forall k, k <> (t, bid) -> book_of (mem s) k = book_of d k) by (by apply book_of_others).
  pose proof (core_inventory t bid st' s Hc) as Hinv'. pose proof (h_status _ _ _ _ _ Hc) as Hst'.
  pose proof (book_of_status d t bid st Hinv Hst) as Hold. pose proof (book_of_status (mem s) t bid st' Hinv' Hst') as Hnew.
  destruct (is_active st') eqn:Ea.
  - rewrite (Hrev Ea) in Hold. eapply (Amended _ _ (t, bid)); [exact Hold|exact Hnew| |exact Hothers].
    by apply (book_valid (mem s) (t, bid)).
  - by apply (Ended _ _ (t, bid)).
Qed.

Lemma deleted_book t bid d tm td u s r :
  inventory_ok d -> delete_booking t bid (start d tm td u) = (s, Ok r) -> book_step (book_of d) (book_of (mem s)).
Proof.
  intros Hinv H. apply delete_booking_inv in H as (_ & Hl & Hb & _ & st & Hst & _); [|done].
  assert (E : forall k, book_of (mem s) k = book_of (without t bid d) k) by (by apply book_of_ext).
  apply (Ended _ _ (t, bid)).
  - rewrite E. unfold book_of, booking_active. cbn [fst snd without bookings put_bookings].
    rewrite (existsb_ext_in _ (fun _ => false)).
    + assert (E' : forall l : list Booking, existsb (fun _ => false) l = false) by (by induction l). by rewrite E'.
    + intros b [_ Hn%negb_true_iff]%filter_In. by rewrite Hn, andb_false_r.
  - intros k Hk. rewrite E. apply (book_of_others t bid); [|done]. split.
    + apply (so_lines t bid d (relined t bid [] d)), relined_others. by intros l [].
    + intros t' b' Hne. symmetry. by apply (without_active t bid st d); [apply Hinv|..].
Qed.

(** C7: the booking system refines the reservation book.  A served
    request is one step of the book, in which it reserves a new stay, changes
    or ends one that is in the book, or leaves the book alone, and touches no
    other booking; a refused one leaves it alone; and afterwards the booked
    rooms of every ledger row are again what the book takes. *)
Theorem booking_system_refines_book d d' :
  inventory_ok d -> transaction visible d d' ->
  book_step (book_of d) (book_of d') /\
  forall k, booked_at (ledger d') k = countb (fun l => line_active d' l && at_key k l) (lines d').
Proof.
  intros Hinv Ht. pose proof (transaction_inventory visible d d' Ht Hinv) as Hinv'. split; [|apply Hinv'].
  destruct Ht as [t q tm td u d Hv Hf]. unfold run in *. destruct (serve visible t q _) as [s [a|e]] eqn:E; [|by apply Unchanged].
  cbn [fst] in *.
  assert (Hstay : stays_as d s -> book_step (book_of d) (book_of (mem s))) by (intros [Hl Hb]; by apply Unchanged, book_of_ext).
  assert (Hs0 : stays_as d (start d tm td u)) by (by split).
  destruct q; simpl in E, Hv; mbind_in E s1 x H1; cbv [mret M_ret] in E; injection E as <-.
  - apply (create_booking_inv t body d) in H1 as (_ & Hc & _); [|done|split; [by apply staged_start|apply same_core_refl]].
    by apply (created_book t body d _ x).
  - by apply (patched_book t booking_id body d tm td u s1 x).
  - by apply (deleted_book t booking_id d tm td u s1 x).
  - apply Hstay. by apply (override_stays d t body _ _ _ Hs0 H1).
  - apply Hstay, neutral_stays. by apply (bulk_seed_neutral d t segments _ _ _ (neutral_start d tm td u) H1).
  - apply Hstay, neutral_stays. by apply (extend_neutral d visible days _ _ _ (neutral_start d tm td u) H1).
  - apply Hstay, neutral_stays. by apply (recalculate_neutral d t room_type_id from _ _ _ (neutral_start d tm td u) H1).
  - apply Hstay. by apply (bulk_rates_frame (stays_as d) t segments _ _ _ Hs0 H1).
  - apply Hstay. by apply (folio_post_frame (stays_as d) t booking_id body by_ _ _ _ Hs0 H1).
  - apply Hstay. by apply (folio_reverse_frame (stays_as d) t booking_id tx by_ _ _ _ Hs0 H1).
Qed.
End refinement.

(** Ann's request reserves her two nights. *)
Lemma booking_system_refines_book_witness :
  book_of booked_db (1, 1001) = Some [(7, 100); (7, 101)] /\ book_step (book_of hotel_db) (book_of booked_db).
Proof.
  split; [vm_compute; reflexivity|].
  apply (proj1 (booking_system_refines_book (env := sample_env) (fun _ => true) hotel_db booked_db hotel_inventory
    ltac:(unfold booked_db; rewrite <- run_discard;
      exact (served (env := sample_env) (fun _ => true) 1 (CreateBooking ann_books) 0 0 1000 hotel_db eq_refl hotel_fresh)))).
Defined.
