(* ===== verification/BookingViews.v ===== *)
(** * What the services of a booking leave alone, seen through a view

    The services that a booking is made of write bookings, lines, folio rows
    and guests.  Any view of the database without those four tables stays as
    it is. *)

From stdpp Require Import gmap.
From S2P Require Import Prelude PyDecimal PyJson StayDates Tax Models Session Ledger Rates Folio Extension Booking Remote Steady.

(** A view that shows nothing of bookings, lines and folios. *)
Class StaySide {X} (view : DB -> X) : Prop := {
  ss_bookings :: Beside view Booking;
  ss_lines :: Beside view BookingLine;
  ss_folio :: Beside view FolioTransaction }.

(** Nor of guests. *)
Class BookingSide {X} (view : DB -> X) : Prop := {
  bs_stays :: StaySide view;
  bs_guests :: Beside view Guest }.

(** Loading and reading the lines of a booking changes no row. *)
Section reading.
Context {X : Type} (view : DB -> X).
#[local] Abbreviation keeps := (keeps_view view).

Lemma load_lines_keeps i : keeps (load_lines i).
Proof. intros x s s' r Hs H. cbv [load_lines] in H. by simplify_eq. Qed.
Lemma expire_lines_keeps i : keeps (expire_lines i).
Proof. intros x s s' r Hs H. cbv [expire_lines] in H. by simplify_eq. Qed.
Lemma booking_lines_keeps t i : keeps (booking_lines t i).
Proof. intros x s s' r Hs H. unfold booking_lines in H. by destruct (existsb _ _); simplify_eq. Qed.
End reading.
#[export] Hint Resolve load_lines_keeps expire_lines_keeps booking_lines_keeps : keeps.

Section services.
Context {env : Env} {X : Type} (view : DB -> X) {HB : StaySide view}.

#[local] Abbreviation keeps := (keeps_view view).

Lemma insert_folio_keeps t bid ty a m de by_ cat : keeps (insert_folio t bid ty a m de by_ cat).
Proof. unfold insert_folio. keeps_views. Qed.
#[local] Hint Resolve insert_folio_keeps : keeps.

Lemma replace_taxes_keeps t bid pid base : keeps (replace_country_pack_tax_charges t bid pid base).
Proof. unfold replace_country_pack_tax_charges, require_booking, get_tax_config, get_pack, post_tax_lines. keeps_views. Qed.

Lemma guest_keeps {HG : Beside view Guest} t p b : keeps (get_or_create_guest_for_booking t p b).
Proof. unfold get_or_create_guest_for_booking. keeps_views. Qed.

Lemma load_prices_keeps t rt rp : keeps (load_prices t rt rp).
Proof. intros x s s' r Hs H. cbv [load_prices] in H. by simplify_eq. Qed.
#[local] Hint Resolve replace_taxes_keeps guest_keeps load_prices_keeps : keeps.

Lemma sum_rates_keeps t rt rp ci co : keeps (sum_rates_for_stay t rt rp ci co).
Proof. unfold sum_rates_for_stay. keeps_views. Qed.

Lemma assign_room_keeps t bid r : keeps (assign_booking_room t bid r).
Proof. unfold assign_booking_room, assign_lines_room, assert_no_room_conflict. keeps_views.
Qed.
#[local] Hint Resolve sum_rates_keeps assign_room_keeps : keeps.

Lemma first_free_keeps t ns x rs : keeps (first_free t ns x rs).
Proof. induction rs as [|r rs IH]; cbn [first_free]; unfold assert_no_room_conflict; keeps_views. Qed.
#[local] Hint Resolve first_free_keeps : keeps.

Lemma pick_room_keeps t pid rt ns x : keeps (pick_first_free_room_for_stay t pid rt ns x).
Proof. unfold pick_first_free_room_for_stay. keeps_views. Qed.

Lemma add_lines_keeps t bid rt r per : keeps (add_lines t bid rt r per).
Proof. unfold add_lines. keeps_views. Qed.

Lemma insert_booking_keeps b : keeps (insert_booking b).
Proof. unfold insert_booking. keeps_views. Qed.

Lemma update_folio_keeps t bid a : keeps (update_folio_charge_amount t bid a).
Proof. unfold update_folio_charge_amount. keeps_views. Qed.
End services.

#[export] Hint Resolve insert_folio_keeps replace_taxes_keeps guest_keeps
  sum_rates_keeps assign_room_keeps pick_room_keeps add_lines_keeps insert_booking_keeps update_folio_keeps : keeps.
