(* ===== verification/HttpLaws.v ===== *)
(** * From a request to the channel manager

    POST /bookings runs a service in the transaction of the request, answers,
    and leaves work behind: webhooks, a confirmation mail and a task that
    pushes the nights sold to the channel manager.  The theorems here follow
    one request through all of it: neither the webhooks nor the mail can raise,
    so the push behind them is queued.  That the template engine renders the
    confirmation is a hypothesis, as it is not part of the program. *)

From stdpp Require Import gmap strings.
From S2P Require Import Prelude PyDecimal PyJson StayDates Calendar Tax TaxOrder Models Session Ledger LedgerLaws Rates Folio FolioLaws Extension Booking BookingFrame BookingInvariant BookingRequests Auth Webhooks WebhookEvents WebhookLaws Channex Remote ChannexClient ChannexAri AriLaws Receipts Emails ChannexTasks Steady BookingViews Handlers HttpBookings.

(** ** What the request and its background work leave alone *)

(** The connection to the channel manager and one row of the ledger. *)
Definition channel_side (k : ledger_key) (d : DB) := (links d, room_type_maps d, rate_plan_maps d, ledger d !! k).

Section webhooks.
Context {env : Env} {net : Net} {X : Type} (view : DB -> X) {HQ : Beside view WebhookPendingDelivery}.
#[local] Abbreviation keeps := (keeps_view view).

Lemma dispatch_keeps t e p : keeps (dispatch_webhook_event t e p).
Proof. unfold dispatch_webhook_event, list_matching_subscriptions. keeps_views. Qed.
#[local] Hint Resolve dispatch_keeps : keeps.

Lemma emit_keeps t rt ds : keeps (emit_availability_for_dates t rt ds).
Proof. unfold emit_availability_for_dates, webhook_available_rooms. keeps_views. Qed.
#[local] Hint Resolve emit_keeps : keeps.

Lemma created_webhook_keeps t bid : keeps (run_booking_created_webhook t bid).
Proof. unfold run_booking_created_webhook, load_booking_for_webhook. keeps_views. Qed.
End webhooks.

Section request.
Context {env : Env} {crypto : Crypto} {net : Net} {reader : BodyReader} {W : Type} {channex : Wire W} {mailer : Mailer W}.
Context (resend_api_key email_from_default : string) (k : ledger_key).

#[local] Abbreviation keeps := (keeps_view (channel_side k)).

Instance channel_booking_side : BookingSide (channel_side k).
Proof. by repeat split. Qed.
#[export] Instance channel_queue_side : Beside (channel_side k) WebhookPendingDelivery.
Proof. done. Qed.

Lemma update_rows_ne f ks L : ~ In k ks -> update_rows f ks L !! k = L !! k.
Proof.
  unfold update_rows. revert L. induction ks as [|k' ks IH]; intros L Hk; [done|]. cbn [List.fold_left].
  rewrite IH by (intros H; apply Hk; by right). apply lookup_alter_ne. intros ->. apply Hk. by left.
Qed.

Lemma claim_keeps t rt nights n :
  (forall x, In x nights -> k <> (t, rt, x)) -> keeps (claim_availability_for_new_booking t rt nights n).
Proof.
  intros Hout. unfold claim_availability_for_new_booking. destruct nights as [|x0 nights]; [apply kv_ret|].
  set (ns := sorted_set _). assert (Hin : forall x, In x ns -> k <> (t, rt, x)) by (intros x Hx; apply Hout; apply (proj1 (sorted_set_In _ _)) in Hx; exact Hx).
  clearbody ns. keeps_views. unfold claim_update.
  intros x s s' r Hs H. rewrite run_query, run_execute in H. cbv [mret M_ret] in H. injection H as <- _.
  assert (Hk : forall l d, (forall y, In y l -> In y ns) -> channel_side k (on_ledger (update_rows (add_booked n) (List.map (fun y => (t, rt, y)) l)) d) = channel_side k d).
  { intros l d Hl. unfold channel_side, on_ledger. cbn [links room_type_maps ledger put_ledger]. f_equal.
    rewrite update_rows_ne; [done|]. intros (y & E & Hy)%in_map_iff. by apply (Hin y); [apply Hl|]. }
  destruct Hs as [Hm Hd]. split; cbn; rewrite Hk; try done; by intros y [Hy _]%filter_In.
Qed.
#[local] Hint Resolve claim_keeps : keeps.

Lemma create_booking_keeps t body :
  (forall nights, iter_stay_nights (bc_check_in body) (bc_check_out body) = Ok nights -> forall x, In x nights -> k <> (t, bc_room_type body, x)) ->
  keeps (create_booking t body).
Proof.
  intros Hout. unfold create_booking.
  destruct (iter_stay_nights _ _) as [nights|e]; [|by intros x s s' r Hs [= <- _]].
  specialize (Hout nights eq_refl). intros x s s' r Hs H. rewrite run_lift_ok in H. revert x s s' r Hs H.
  match goal with |- forall x s s' r, steady _ x s -> ?m s = _ -> _ => change (keeps m) end. cbv zeta.
  unfold check_duplicate_external, require_room_type_on_property, require_rate_plan_on_property. keeps_views.
Qed.

Context (P : W -> Prop) (HP : forall w key m, P w -> P (deliver w key m).1).
#[local] Abbreviation T_keeps := (T_keeps_view (channel_side k) P).

Lemma send_booking_email_keeps t to subject html a atts : T_keeps (send_booking_email resend_api_key email_from_default t to subject html a atts).
Proof.
  unfold send_booking_email, log_email. keeps_views. apply Tkv_wire. intros w Hw. unfold send_email.
  match goal with |- context [deliver w ?key ?m] => specialize (HP w key m Hw); destruct (deliver w key m) end. done.
Qed.

Lemma room_label_keeps t ls : keeps (room_label t ls).
Proof. induction ls as [|l ls IH]; cbn [room_label]; keeps_views. Qed.
#[local] Hint Resolve send_booking_email_keeps room_label_keeps : keeps.

Lemma confirmation_keeps t bid : T_keeps (run_send_booking_confirmation_task resend_api_key email_from_default t bid).
Proof.
  unfold run_send_booking_confirmation_task, with_booking, booking_with_guest, send_booking_confirmation, room_type_name, send_template. keeps_views.
Qed.

End request.

(** ** Work that does not raise *)

Section total.
Context {env : Env}.

(** A computation that returns from whatever session it starts in. *)
Definition total {A} (m : M A) : Prop := forall s, exists s' a, m s = (s', Ok a).

Lemma total_ret {A} (a : A) : total (mret a).
Proof. by intros s; eexists _, _. Qed.
Lemma total_query {A} (f : DB -> A) : total (query f).
Proof. by intros s; eexists _, _. Qed.
Lemma total_scalar {R} `{Entity R} p : total (scalar (R := R) p).
Proof. by intros s; eexists _, _. Qed.
Lemma total_select {R} `{Entity R} p : total (select (R := R) p).
Proof. by intros s; eexists _, _. Qed.
Lemma total_add {R} `{Entity R} (r : R) : total (add r).
Proof. by intros s; eexists _, _. Qed.
Lemma total_flush : total flush.
Proof. by intros s; eexists _, _. Qed.
Lemma total_uuid4 : total uuid4.
Proof. by intros s; eexists _, _. Qed.
Lemma total_now : total get_now.
Proof. by intros s; eexists _, _. Qed.
Lemma total_lift {A} (a : A) : total (lift (Ok a)).
Proof. by intros s; eexists _, _. Qed.

Lemma returns_bind {A B} (m : M A) (k : A -> M B) s :
  (exists s' a, m s = (s', Ok a)) -> (forall a, total (k a)) -> exists s' b, (m ≫= k) s = (s', Ok b).
Proof. intros (s1 & a & H) Hk. rewrite (bind_run _ _ _ _ _ H). apply Hk. Qed.
Lemma total_bind {A B} (m : M A) (k : A -> M B) : total m -> (forall a, total (k a)) -> total (m ≫= k).
Proof. intros Hm Hk s. by apply returns_bind. Qed.
Lemma total_forM {A} (l : list A) f : (forall a, total (f a)) -> total (forM l f).
Proof. intros Hf. induction l as [|a l IH]; [apply total_ret|]. by apply total_bind. Qed.
Lemma returns_transaction {A} (m : M A) s :
  (exists s' a, m (Session (disk s) (disk s) [] (now s) (today s) (uuids s)) = (s', Ok a)) -> exists s' a, transaction m s = (s', Ok a).
Proof. intros (s1 & a & H). unfold transaction. rewrite H. by eexists _, _. Qed.
Lemma total_transaction {A} (m : M A) : total m -> total (transaction m).
Proof. intros Hm s. apply returns_transaction, Hm. Qed.
End total.

Create HintDb total discriminated.
#[export] Hint Resolve total_ret total_query total_scalar total_select total_add total_flush total_uuid4 total_now total_lift
  total_bind total_forM total_transaction : total.

(** Follow the structure of a computation that cannot raise. *)
Ltac totals :=
  repeat match goal with
  | |- total (_ ≫= _) => apply total_bind; [|intros ?]
  | |- total (forM _ _) => apply total_forM; intros ?
  | |- total (transaction _) => apply total_transaction
  | |- total (match ?x with _ => _ end) => destruct x
  | |- total _ => solve [eauto with total nocore]
  end.

(** *** The webhooks of a booking *)

Section booking_work.
Context {env : Env} {net : Net}.

Lemma dispatch_total t e p : total (dispatch_webhook_event t e p).
Proof. unfold dispatch_webhook_event, list_matching_subscriptions. totals. Qed.
#[local] Hint Resolve dispatch_total : total.

Lemma emit_total t rt ds : total (emit_availability_for_dates t rt ds).
Proof. unfold emit_availability_for_dates, webhook_available_rooms. totals. Qed.
#[local] Hint Resolve emit_total : total.

Lemma created_webhook_total t bid : total (run_booking_created_webhook t bid).
Proof.
  intros s. unfold run_booking_created_webhook. apply returns_bind; [|intros [[p stay]|]; totals].
  apply returns_transaction. unfold load_booking_for_webhook. rewrite run_assoc, run_scalar.
  destruct (hd_error _) as [b|]; by eexists _, _.
Qed.

(** *** Its confirmation *)

Lemma scalar_seen {R} `{Entity R} (p : R -> bool) d l r :
  hd_error (omap (identity d) (List.filter p l)) = Some r -> In r (table d) /\ exists r0, p r0 = true /\ ident r0 = ident r.
Proof.
  intros Hr. assert (Hin : r ∈ omap (identity d) (List.filter p l)).
  { destruct (omap _ _) as [|x xs]; [done|]. cbn in Hr. injection Hr as ->. left. }
  apply list_elem_of_omap in Hin as (r0 & Hr0%list_elem_of_In%filter_In & Hi). unfold identity in Hi.
  apply find_some in Hi as [Hin Heq%Z.eqb_eq]. split; [done|]. exists r0. split; [apply Hr0|done].
Qed.

Lemma booking_with_guest_seen t bid s : expired s = [] ->
  exists o, booking_with_guest t bid s = (s, Ok o) /\
    forall b g, o = Some (b, g) -> In b (bookings (mem s)) /\ b_id b = bid /\ In g (guests (mem s)).
Proof.
  intros He. assert (Hl : load_lines bid s = (s, Ok tt)) by (unfold load_lines; rewrite He; destruct s; cbn in He; by subst).
  unfold booking_with_guest. rewrite run_scalar. destruct (hd_error _) as [b|] eqn:Eb; [|by exists None].
  rewrite (bind_run _ _ _ _ _ Hl), run_scalar, run_last_ret.
  apply (scalar_seen (R := Booking)) in Eb as (Hin & b0 & Hb0 & Hid).
  destruct (hd_error _) as [g|] eqn:Eg; [|by exists None]. apply (scalar_seen (R := Guest)) in Eg as (Hgin & _).
  exists (Some (b, g)). split; [done|]. intros b' g' [= <- <-]. split_and!; [done| |done].
  unfold booking_is in Hb0. apply andb_prop in Hb0 as [_ E%Z.eqb_eq]. cbn in Hid. congruence.
Qed.

Lemma room_type_name_total t ls : total (room_type_name t ls).
Proof. unfold room_type_name. totals. Qed.
Lemma room_label_total t ls : total (room_label t ls).
Proof. induction ls as [|l ls IH]; cbn [room_label]; totals. Qed.

Context {W : Type} {mailer : Mailer W} (resend_api_key email_from_default : string).

Definition T_total {A} (m : T W A) : Prop := forall s w, exists s' w' a, m s w = (s', w', Ok a).

Lemma T_total_ret {A} (a : A) : T_total (mret a).
Proof. by intros s w; eexists _, _, _. Qed.
Lemma T_total_db {A} (m : M A) : total m -> T_total (db m).
Proof. intros Hm s w. destruct (Hm s) as (s' & a & H). exists s', w, a. unfold db. by rewrite H. Qed.
Lemma T_total_bind {A B} (m : T W A) (k : A -> T W B) : T_total m -> (forall a, T_total (k a)) -> T_total (m ≫= k).
Proof.
  intros Hm Hk s w. destruct (Hm s w) as (s1 & w1 & a & H). destruct (Hk a s1 w1) as (s' & w' & b & H').
  exists s', w', b. unfold mbind, T_bind. by rewrite H.
Qed.

(** A column of the mail log takes addresses of at most 320 characters. *)
Definition address_fits (a : string) : Prop := (String.length (strip a) <= 320)%nat.

Lemma log_email_total t a to subject st i e : (String.length to <= 320)%nat -> total (log_email t a to subject st i e).
Proof. intros Hto. unfold log_email, varchar. rewrite (proj2 (Nat.leb_le _ _) Hto). totals. Qed.

Lemma send_booking_email_total t to subject html a atts :
  (String.length to <= 320)%nat -> T_total (send_booking_email resend_api_key email_from_default t to subject html a atts).
Proof.
  intros Hto. unfold send_booking_email. destruct (negb _); [apply T_total_ret|].
  apply T_total_bind; [|intros []; by apply T_total_db, log_email_total].
  intros s w. unfold wire, send_email. destruct (deliver w _ _) as [w1 r]. by eexists _, _, _.
Qed.

(** The template engine renders the confirmation, whatever it says. *)
Context (renders : forall ctx, exists html, render_email "booking_confirmation.html" ctx = Ok html).

Lemma send_confirmation_returns t b p g s w ci co n :
  expired s = [] -> stay_summary (lines_of (mem s) (b_tenant b) (b_id b)) = Ok (ci, co, n) -> address_fits (g_email g) ->
  exists s' w' a, send_booking_confirmation resend_api_key email_from_default t b p g s w = (s', w', Ok a).
Proof.
  intros He Hst Hfit. unfold send_booking_confirmation. destruct (negb _); [apply T_total_ret|].
  rewrite T_run_db. unfold booking_lines. rewrite He. cbn [existsb]. rewrite T_run_db, Hst. cbv [lift]. cbn iota beta.
  apply T_total_bind; [apply T_total_db, room_type_name_total|intros rt].
  apply T_total_bind; [apply T_total_db, room_label_total|intros rm].
  unfold send_template. apply T_total_bind; [|intros html; by apply send_booking_email_total].
  apply T_total_db. match goal with |- total (lift (render_email _ ?ctx)) => destruct (renders ctx) as [html ->] end. apply total_lift.
Qed.

Lemma confirmation_returns t bid s w :
  (forall g, In g (guests (disk s)) -> address_fits (g_email g)) ->
  (forall b, In b (bookings (disk s)) -> b_id b = bid -> exists ci co n, stay_summary (lines_of (disk s) (b_tenant b) bid) = Ok (ci, co, n)) ->
  exists s' w', run_send_booking_confirmation_task resend_api_key email_from_default t bid s w = (s', w', Ok tt).
Proof.
  intros Hg Hb. unfold run_send_booking_confirmation_task, with_booking, T_transaction.
  match goal with |- context [match ?m ?s0 w with _ => _ end] => enough (H : exists s' w' a, m s0 w = (s', w', Ok a)) end.
  { destruct H as (s' & w' & [] & ->). by eexists _, _. }
  rewrite T_run_db. set (s0 := Session _ _ _ _ _ _).
  destruct (booking_with_guest_seen t bid s0 eq_refl) as (o & -> & Ho). destruct o as [[b g]|]; [|apply T_total_ret].
  destruct (Ho b g eq_refl) as (Hin & Hid & Hgin). destruct (Hb b Hin Hid) as (ci & co & n & Hst).
  rewrite T_run_db. unfold scalar. rewrite run_select, run_last_ret. destruct (hd_error _) as [p|]; [|apply T_total_ret].
  apply (send_confirmation_returns _ _ _ _ _ _ ci co n); [done|by rewrite Hid|by apply Hg].
Qed.
End booking_work.

(** *** What a creation leaves for its confirmation *)

Section left.
Context {env : Env}.

#[local] Instance guests_stay_side : StaySide guests.
Proof. by repeat split. Qed.

Lemma claim_keeps_guests t rt nights n : keeps_view guests (claim_availability_for_new_booking t rt nights n).
Proof. unfold claim_availability_for_new_booking, claim_update. keeps_views. Qed.
#[local] Hint Resolve claim_keeps_guests : keeps.

Lemma keeps_next {A B} (m : M A) (k : A -> M B) x s s' b : keeps_view guests m -> steady guests x s ->
  (m ≫= k) s = (s', Ok b) -> exists s1 a, steady guests x s1 /\ k a s1 = (s', Ok b).
Proof. intros Hm Hs (s1 & a & H1 & H)%bind_inv. exists s1, a. split; [by eapply Hm|done]. Qed.

(** A booking is made for a guest there was, or for one more. *)
Definition guests_after (t : Z) (p : guest_payload) (before after : list Guest) : Prop :=
  after = before \/ exists i tm, after = before ++ [guest_of_payload i t p (lower (strip (gp_email p))) tm].

Lemma guest_found_or_made t p force x s s' r : steady guests x s ->
  get_or_create_guest_for_booking t p force s = (s', Ok r) -> exists y, steady guests y s' /\ guests_after t p x y.
Proof.
  intros [Hm Hd] H. unfold get_or_create_guest_for_booking in H. destruct force.
  - mbind_in H s1 i Hi. cbv [uuid4] in Hi. injection Hi as <- <-. rewrite run_query in H. destruct (existsb _ _); [done|].
    rewrite run_now in H. unfold add in H. rewrite run_orm, run_flush in H. cbv [mret M_ret] in H. injection H as <- _.
    eexists. split; [by split|]. right. cbn. rewrite Hm. by eexists _, _.
  - rewrite run_scalar in H. destruct (hd_error _) as [g|].
    + cbv [mret M_ret] in H. injection H as <- _. exists x. split; [by split|by left].
    + mbind_in H s1 i Hi. cbv [uuid4] in Hi. injection Hi as <- <-. rewrite run_now in H. unfold add in H.
      rewrite run_orm, run_flush in H. cbv [mret M_ret] in H. injection H as <- _.
      eexists. split; [by split|]. right. cbn. rewrite Hm. by eexists _, _.
Qed.

Lemma create_booking_guests t body d tm td u s r :
  create_booking t body (start d tm td u) = (s, Ok r) -> guests_after t (bc_guest body) (guests d) (guests (mem s)).
Proof.
  intros H. unfold create_booking in H. apply bind_lift_inv in H as (nights & _ & H). cbv zeta in H.
  pose proof (steady_start guests d tm td u) as Hs.
  unfold check_duplicate_external, require_room_type_on_property, require_rate_plan_on_property in H.
  do 3 (eapply keeps_next in H as (? & ? & ?Hs & H); [|by keeps_views|eassumption]).
  eapply keeps_next in H as (? & [total per] & ?Hs & H); [|by keeps_views|eassumption].
  eapply keeps_next in H as (? & ? & ?Hs & H); [|by keeps_views|eassumption].
  mbind_in H s6 g H6. destruct g as [gid merged]. eapply guest_found_or_made in H6 as (y & Hy & Hafter); [|eassumption].
  match type of H with ?m s6 = _ => assert (Hk : keeps_view guests m) by keeps_views end.
  destruct (Hk y _ _ _ Hy H) as [E _]. by rewrite E.
Qed.

Lemma guests_after_fit t p x y : guests_after t p x y -> address_fits (gp_email p) ->
  (forall g, In g x -> address_fits (g_email g)) -> forall g, In g y -> address_fits (g_email g).
Proof.
  intros [->|(i & tm & ->)] Hp Hx g Hg; [by apply Hx|]. apply in_app_iff in Hg as [Hg|[<-|[]]]; [by apply Hx|].
  unfold address_fits in *. cbn [g_email guest_of_payload]. etrans; [apply strip_length|]. by rewrite lower_length.
Qed.

Lemma stay_summary_returns ls : (forall l, In l ls -> valid_date (l_date l) /\ l_date l < MAXORD) ->
  exists ci co n, stay_summary ls = Ok (ci, co, n).
Proof.
  intros H. unfold stay_summary. destruct ls as [|l ls]; [by eexists _, _, _|].
  unfold stay_bounds_from_lines, stay_bounds. cbn [List.map list_min list_max mbind result_bind].
  set (hi := List.fold_left Z.max _ _).
  assert (Hhi : valid_date hi /\ hi < MAXORD).
  { subst hi. assert (Hl : valid_date (l_date l) /\ l_date l < MAXORD) by (apply H; by left).
    assert (Hls : forall m, In m ls -> valid_date (l_date m) /\ l_date m < MAXORD) by (intros m Hm; apply H; by right).
    clear H. revert Hl. generalize (l_date l). induction ls as [|m ls IH]; intros x Hx; [done|]. cbn [List.map List.fold_left].
    apply IH; [intros m' Hm'; apply Hls; by right|]. specialize (Hls m (or_introl eq_refl)). unfold valid_date in *. lia. }
  rewrite date_add_ok by (unfold valid_date in *; lia). by eexists _, _, _.
Qed.

(** The lines of the new booking are its nights. *)
Lemma created_summary t body d d' r b : BookingRequests.created t body d d' r -> fresh (br_booking r) d ->
  valid_date (bc_check_in body) -> valid_date (bc_check_out body) ->
  In b (bookings d') -> b_id b = br_booking r -> exists ci co n, stay_summary (lines_of d' (b_tenant b) (br_booking r)) = Ok (ci, co, n).
Proof.
  intros (Hn & _ & _ & (room & news & Hl & Hnews) & _) Hf Hci Hco _ _. apply stay_summary_returns.
  apply iter_stay_nights_ok in Hn as [Hn Hb]; [|done..]. intros l (Hin & Hof)%filter_In. unfold line_of in Hof.
  apply andb_prop in Hof as [_ Hbk%Z.eqb_eq]. rewrite Hl in Hin. apply in_app_iff in Hin as [Hin|Hin].
  { apply (fr_lines _ _ Hf) in Hin. lia. }
  assert (Hd : In (l_date l) (List.map fst (br_nights r))).
  { clear -Hnews Hin. induction Hnews as [|np l0 per news (_ & _ & Hd & _) _ IH]; [done|].
    destruct Hin as [->|Hin]; [left; congruence|right; by apply IH]. }
  rewrite Hn in Hd. apply In_seqZ in Hd. unfold valid_date in *. lia.
Qed.
End left.

(** ** A booking reaches the channel manager *)

(** A property connected to the channel manager, and one of its room types. *)
Record connected (t p rt : Z) (l : ChannexPropertyLink) (d : DB) : Prop := {
  co_keys : link_keys d;
  co_link : List.find (link_is t p) (links d) = Some l;
  co_active : active l = true;
  co_distinct : maps_distinct l d;
  co_mapped : exists rm, In rm (room_type_maps d) /\ room_map_of t l rm = true /\ cm_room_type rm = rt }.

Lemma connected_view t p rt l d d' :
  links d' = links d -> room_type_maps d' = room_type_maps d -> rate_plan_maps d' = rate_plan_maps d -> connected t p rt l d -> connected t p rt l d'.
Proof.
  intros H1 H2 H3 [[K1 K2 K3] Hl Ha Hd Hm]. split; [split; congruence|congruence|done| |by rewrite H2].
  unfold maps_distinct in *. by rewrite H2.
Qed.

Section reaches.
Context {env : Env} {crypto : Crypto} {net : Net} {reader : BodyReader} {W : Type} {channex : Wire W} {shows : ShowsAvailability W} {mailer : Mailer W}.
Context (resend_api_key email_from_default : string).

(** The confirmation's template renders, whatever it says. *)
Context (renders : forall ctx, exists html, render_email "booking_confirmation.html" ctx = Ok html).

(** The mail provider is not the channel manager. *)
Context (shown_mailed : forall w key m p rt x, shown (deliver w key m).1 p rt x = shown w p rt x).

Definition shows_as (w0 w : W) : Prop := forall p rt x, shown w p rt x = shown w0 p rt x.

Lemma shows_as_mailed w0 w key m : shows_as w0 w -> shows_as w0 (deliver w key m).1.
Proof. intros H p rt x. by rewrite shown_mailed. Qed.

Lemma mapping_ok {A B} h (m : M A) (k : A -> M B) s s' b :
  (mapping h m ≫= k) s = (s', Ok b) -> exists s1 a, m s = (s1, Ok a) /\ k a s1 = (s', Ok b).
Proof.
  intros (s1 & a & H & Hk)%bind_inv. unfold mapping, try_except in H. destruct (m s) as [s2 [a2|e]] eqn:E; [simplify_eq; eauto|].
  destruct (h e); cbn in H; [|done]. by cbv [raise] in H.
Qed.

Lemma stays_put {t body tm td u d s r} : create_booking t body (start d tm td u) = (s, r) ->
  links (mem s) = links d /\ room_type_maps (mem s) = room_type_maps d /\ rate_plan_maps (mem s) = rate_plan_maps d /\
  forall k, (forall nights, iter_stay_nights (bc_check_in body) (bc_check_out body) = Ok nights -> forall x, In x nights -> k <> (t, bc_room_type body, x)) ->
    ledger (mem s) !! k = ledger d !! k.
Proof.
  intros H.
  assert (Hk : forall k, (forall nights, iter_stay_nights (bc_check_in body) (bc_check_out body) = Ok nights -> forall x, In x nights -> k <> (t, bc_room_type body, x)) ->
    channel_side k (mem s) = channel_side k d).
  { intros k Hk. exact (proj1 (create_booking_keeps k t body Hk (channel_side k d) _ _ _ (steady_start _ _ _ _ _) H)). }
  assert (Hne : forall n : list date, forall x, In x n -> (t + 1, 0, 0) <> (t, bc_room_type body, x)) by (intros n x _ [=]; lia).
  pose proof (Hk (t + 1, 0, 0) (fun n _ => Hne n)) as H1. unfold channel_side in H1. injection H1 as -> -> -> _. split_and!; try done.
  intros k Hout. specialize (Hk k Hout). unfold channel_side in Hk. congruence.
Qed.

Lemma T_run_bind_ret {A} (m : T W unit) (b : A) tm td u d w d' w' x :
  T_run (m ≫= fun _ => mret b) tm td u d w = (d', w', Ok x) -> T_run m tm td u d w = (d', w', Ok tt) /\ x = b.
Proof.
  unfold T_run, mbind, T_bind. destruct (m (start d tm td u) w) as [[s1 w1] [[]|e]]; [|done]. by intros [= <- <- <-].
Qed.

(** The handler, in the transaction of its request. *)
Lemma post_booking_inv t body d tm td u (w : W) s1 w1 r :
  inventory_ok d -> fresh u d -> booking_create_valid body = true ->
  get_db (db (post_booking t body)) (start d tm td u) w = (s1, w1, Ok r) ->
  w1 = w /\ disk s1 = mem s1 /\ rp_status r = 201 /\ BookingRequests.created t body d (mem s1) (rp_body r) /\
  fresh (br_booking (rp_body r)) d /\ guests_after t (bc_guest body) (guests d) (guests (mem s1)) /\
  links (mem s1) = links d /\ room_type_maps (mem s1) = room_type_maps d /\ rate_plan_maps (mem s1) = rate_plan_maps d /\
  (forall k, (forall x, In x (List.map fst (br_nights (rp_body r))) -> k <> (t, bc_room_type body, x)) -> ledger (mem s1) !! k = ledger d !! k) /\
  rp_tasks r = [BookingCreatedWebhook t (br_booking (rp_body r)); ConfirmationEmail t (br_booking (rp_body r))]
    ++ pushes (schedule_push_channex_availability t (bc_property body) (bc_room_type body) (List.map fst (br_nights (rp_body r)))).
Proof.
  intros Hinv Hf Hv H. unfold get_db, T_transaction, db in H. destruct (post_booking t body _) as [s2 [r2|e]] eqn:E; [|done].
  injection H as <- <- <-. unfold post_booking in E. apply mapping_ok in E as (s3 & out & E & H).
  pose proof (stays_put E) as Hkeep. pose proof (create_booking_guests _ _ _ _ _ _ _ _ E) as Hguests.
  apply (create_booking_inv t body d) in E as (_ & Hc & Hfr); [|done|split; [by apply staged_start|apply same_core_refl]].
  destruct Hc as (Hn & Hrest). unfold record_audit in H. cbv [mbind M_bind uuid4 get_now add orm mret M_ret] in H. rewrite Hn in H. cbv [lift] in H.
  injection H as <- <-.
  destruct Hkeep as (Hl & Hrm & Hrp & Hled).
  split_and!; try done. intros k Hk. apply Hled. intros nights Hns x Hx. apply Hk. rewrite Hn in Hns. injection Hns as <-. exact Hx.
Qed.

(** *** The work after the response *)

Abbreviation tasks := (run_tasks (W := W) resend_api_key email_from_default).

Lemma run_pushes ts s w : tasks (pushes ts) s w = (s, w, Ok (List.map Push ts)).
Proof. revert s w. induction ts as [|t ts IH]; intros s w; [done|]. cbn. by rewrite IH. Qed.

(** What the confirmation reads. *)
Definition desk_view (d : DB) := (bookings d, lines d, guests d).
#[local] Instance desk_queue_side : Beside desk_view WebhookPendingDelivery.
Proof. done. Qed.

(** Neither the webhooks nor the confirmation raise: the pushes are queued,
    and neither the connection nor the ledger nor what the channel manager
    shows has changed. *)
Lemma created_tasks_done t bid ts s w :
  disk s = mem s -> (forall g, In g (guests (mem s)) -> address_fits (g_email g)) ->
  (forall b, In b (bookings (mem s)) -> b_id b = bid -> exists ci co n, stay_summary (lines_of (mem s) (b_tenant b) bid) = Ok (ci, co, n)) ->
  exists s' w', tasks ([BookingCreatedWebhook t bid; ConfirmationEmail t bid] ++ pushes ts) s w = (s', w', Ok (List.map Push ts)) /\
    shows_as w w' /\ forall k, channel_side k (mem s') = channel_side k (mem s).
Proof.
  intros Hd Hg Hb. destruct (created_webhook_total t bid s) as (s1 & [] & E1).
  assert (Hdesk : steady desk_view (desk_view (mem s)) s1).
  { eapply (created_webhook_keeps desk_view t bid); [|exact E1]. split; [done|by rewrite Hd]. }
  destruct Hdesk as [_ [= Hb1 Hl1 Hg1]].
  destruct (confirmation_returns resend_api_key email_from_default renders t bid s1 w) as (s2 & w2 & E2).
  { by rewrite Hg1. }
  { rewrite Hb1. unfold lines_of. by rewrite Hl1. }
  exists s2, w2. split.
  - cbn [app run_tasks run_background]. rewrite T_run_db, E1. cbv [mret T_ret]. cbn iota beta.
    unfold mbind, T_bind. rewrite E2. cbv [mret T_ret]. cbn iota beta. by rewrite run_pushes.
  - assert (Hk : forall k, steady (channel_side k) (channel_side k (mem s)) s2 /\ shows_as w w2).
    { intros k. eapply (confirmation_keeps resend_api_key email_from_default k (shows_as w)); [apply shows_as_mailed| |done|exact E2].
      eapply (created_webhook_keeps (channel_side k) t bid); [|exact E1]. split; [done|by rewrite Hd]. }
    split; [apply (Hk (0, 0, 0))|]. intros k. apply (Hk k).
Qed.

Lemma scheduled_push t p rt nights : Forall valid_date nights -> nights <> [] ->
  schedule_push_channex_availability t p rt nights = [PushAvailability t p rt (sorted_date_strs nights)].
Proof.
  intros Hv Hne. unfold schedule_push_channex_availability, schedule.
  destruct (sorted_date_strs nights) as [|x xs] eqn:Es; [|done]. exfalso.
  destruct (parse_scheduled nights Hv) as (ds & Hp & Hiff). rewrite Es in Hp. injection Hp as <-.
  destruct nights as [|n ns]; [done|]. by apply (Hiff n); left.
Qed.

(** C19: A booking made through POST /bookings, on a property whose
    availability the channel manager shows correctly, takes its nights from the
    ledger and queues exactly one task, the push of its nights; unless the
    channel manager refuses it and the link keeps the error, running that push
    makes the channel manager show the ledger again. *)
Theorem booking_reaches_channel_manager t body l d tm td u w s1 w1 r queue (window : date -> Prop) :
  inventory_ok d -> fresh u d -> booking_create_valid body = true -> valid_date (bc_check_in body) -> valid_date (bc_check_out body) ->
  (forall g, In g (guests d) -> address_fits (g_email g)) -> address_fits (gp_email (bc_guest body)) ->
  connected t (bc_property body) (bc_room_type body) l d -> (forall x, window x -> valid_date x) -> in_step w d l window ->
  serve resend_api_key email_from_default (get_db (db (post_booking t body))) (start d tm td u) w = (s1, w1, Ok (r, queue)) ->
  let nights := List.map fst (br_nights (rp_body r)) in
  let task := Push (PushAvailability t (bc_property body) (bc_room_type body) (sorted_date_strs nights)) in
  rp_status r = 201 /\ iter_stay_nights (bc_check_in body) (bc_check_out body) = Ok nights /\
  (forall k, booked_at (ledger (mem s1)) k = booked_at (ledger d) k + nights_share t (bc_room_type body) nights k) /\
  queue = [task] /\
  forall tm' td' u' d' w' more, T_run (run_celery_task resend_api_key email_from_default task) tm' td' u' (mem s1) w1 = (d', w', Ok more) ->
    more = [] /\ exists e, d' = put_links (where_id (cl_id l) (set_cl_error e) (links d)) (mem s1) /\ (e = None -> in_step w' d' l window).
Proof.
  intros Hinv Hf Hv Hci Hco Hgs Hgb Hcon Hwin Hstep H nights task. unfold serve in H. apply T_bind_inv in H as (s2 & w2 & r2 & Hh & H).
  apply T_bind_inv in H as (s3 & w3 & q & Ht & [= <- <- <- <-]).
  apply post_booking_inv in Hh as (-> & Hd2 & Hst & Hcr & Hfr & Hga & Hl & Hrm & Hrp & Hled & Htasks); [|done..].
  pose proof (proj1 Hcr) as Hn. fold nights in Hn, Hled, Htasks.
  assert (Hns : nights = seqZ (bc_check_in body) (bc_check_out body - bc_check_in body) /\ bc_check_in body < bc_check_out body).
  { apply iter_stay_nights_ok in Hn as [-> ?]; [|done..]. split; [done|lia]. }
  destruct Hns as [Hns Hlt].
  assert (Hvn : Forall valid_date nights).
  { rewrite Hns. apply Forall_forall. intros y Hy. apply list_elem_of_In, elem_of_seqZ in Hy. unfold valid_date in *. lia. }
  rewrite scheduled_push in Htasks; [|done|rewrite Hns, seqZ_cons_pos by lia; done]. rewrite Htasks in Ht.
  destruct (created_tasks_done t (br_booking (rp_body r2)) [PushAvailability t (bc_property body) (bc_room_type body) (sorted_date_strs nights)] s2 w)
    as (s4 & w4 & Ht' & Hsh & Hside); [done|by apply (guests_after_fit _ _ _ _ Hga Hgb)|intros b; by apply (created_summary t body d)|].
  rewrite Ht' in Ht. injection Ht as <- <- <-.
  assert (Hs0 : links (mem s4) = links d /\ room_type_maps (mem s4) = room_type_maps d /\ rate_plan_maps (mem s4) = rate_plan_maps d).
  { pose proof (Hside (0, 0, 0)) as E. unfold channel_side in E. injection E as -> -> -> _. done. }
  destruct Hs0 as (Hl3 & Hrm3 & Hrp3).
  assert (HL : ledger (mem s4) = ledger (mem s2)) by (apply map_eq; intros k; specialize (Hside k); unfold channel_side in Hside; congruence).
  split; [done|]. split; [done|]. split; [intros k; rewrite HL; apply Hcr|]. split; [done|].
  intros tm' td' u' d' w' more Hrun. apply T_run_bind_ret in Hrun as (Hrun & ->). split; [done|]. rewrite <- Hl3.
  assert (Hcon3 := connected_view _ _ _ _ _ (mem s4) Hl3 Hrm3 Hrp3 Hcon).
  eapply (push_restores_agreement t (bc_property body) (bc_room_type body) nights _ l d (mem s4)); try exact Hrun; try apply Hcon3; try done.
  - intros k Hk. rewrite HL in Hk. destruct (decide (k ∈ List.map (fun x => (t, bc_room_type body, x)) nights)) as [Hin|Hno].
    + apply list_elem_of_In, in_map_iff in Hin as (y & <- & Hy). eauto.
    + destruct Hk. apply Hled. intros y Hy ->. apply Hno, list_elem_of_In, in_map_iff. eauto.
  - apply scheduled_push; [done|]. rewrite Hns, seqZ_cons_pos by lia. done.
  - intros rm y Hin Hof Hy. destruct (Hstep rm y Hin Hof Hy) as (n & E & Hs). exists n. split; [by rewrite Hsh|done].
Qed.

End reaches.

(** ** A connected hotel *)

#[local] Existing Instances store_wire store_shows.
#[local] Instance desk_env : Env := sample_env.
#[local] Instance desk_net : Net := deaf_net.

(** Every mail is delivered. *)
#[local] Instance postman : Mailer store :=
  {| deliver := fun w _ _ => (w, Delivered "mail-1"); render_email := fun _ _ => Ok "<p>"%string; html_to_pdf := Ok |}.

Definition sea_link : ChannexPropertyLink := MkChannexPropertyLink 1 1 3 "cxp" None "key" "sandbox" "active" None None None.
Definition sea_map : ChannexRoomTypeMap := MkChannexRoomTypeMap 2 1 1 7 "cx-double" None.
Definition sea_db : DB :=
  put_links [sea_link] (put_room_type_maps [sea_map] (put_properties [MkProperty 3 1 "Sea" None "UTC" "EUR" 14 12] hotel_db)).
Definition sea_shown : store :=
  {[ ("cxp", "cx-double", isoformat 100)%string := 2; ("cxp", "cx-double", isoformat 101)%string := 2;
     ("cxp", "cx-double", isoformat 102)%string := 2 ]}.
Definition three_nights (x : date) : Prop := 100 <= x < 103.

Lemma three_nights_cases x : three_nights x -> x = 100 \/ x = 101 \/ x = 102.
Proof. unfold three_nights. lia. Qed.

Definition posted := serve (W := store) "re_key" "desk@sea.example" (get_db (db (post_booking 1 ann_books))) (start sea_db 0 0 1000) sea_shown.

Lemma sea_connected : connected 1 3 7 sea_link sea_db.
Proof.
  split; [split; repeat constructor; cbn; tauto|done|done|by intros rm rm' [<-|[]] [<-|[]]|]. exists sea_map. split; [by left|done].
Qed.

Lemma sea_inventory : inventory_ok sea_db.
Proof. destruct hotel_inventory as [[H1 H2 H3] H4 H5]. by split; [split| |]. Qed.

Lemma sea_fresh : fresh 1000 sea_db.
Proof. by split. Qed.

Lemma shown_correctly (w : store) d l :
  (forall rm, In rm (room_type_maps d) -> forall x, x = 100 \/ x = 101 \/ x = 102 ->
    shown w (strip (cl_channex_property l)) (strip (cm_channex_room_type rm)) (isoformat x) =
      Some (available (ledger d !! (cl_tenant l, cm_room_type rm, x)))) -> in_step w d l three_nights.
Proof. intros H. apply in_step_intro. intros rm x Hin _ Hx. by apply H, three_nights_cases. Qed.

Lemma postman_apart (w : store) key m p rt x : shown (deliver w key m).1 p rt x = shown w p rt x.
Proof. done. Qed.

Lemma postman_renders ctx : exists html, render_email "booking_confirmation.html" ctx = Ok html.
Proof. by exists "<p>"%string. Qed.

(** What a run leaves, when its boolean summary says so. *)
Definition one_push (r : session * store * result (reply booking_created * list celery_task)) : bool :=
  match r with (_, _, Ok (_, [_])) => true | _ => false end.
Definition worker (task : celery_task) := T_run (run_celery_task (W := store) "re_key" "desk@sea.example" task) 10 0 5000.
Definition clean_run (r : DB * store * result (list celery_task)) : bool :=
  match r with
  | (d, _, Ok _) => forallb (fun l => match cl_error l with None => true | Some _ => false end) (links d)
  | _ => false
  end.

Lemma booking_reaches_channel_manager_witness :
  exists s w r task, posted = (s, w, Ok (r, [task])) /\
    exists d' w', worker task (mem s) w = (d', w', Ok []) /\ in_step w' d' sea_link three_nights.
Proof.
  assert (H1 : one_push posted = true) by (vm_compute; reflexivity).
  assert (H2 : match posted with (s, w, Ok (_, [task])) => clean_run (worker task (mem s) w) | _ => false end = true) by (vm_compute; reflexivity).
  destruct posted as [[s w] [[r q]|]] eqn:E; [|discriminate H1].
  destruct q as [|task [|]]; [discriminate H1| |discriminate H1]. clear H1.
  exists s, w, r, task. split; [reflexivity|].
  destruct (booking_reaches_channel_manager "re_key" "desk@sea.example" postman_renders postman_apart 1 ann_books sea_link sea_db 0 0 1000 sea_shown s w r [task] three_nights)
    as (_ & _ & _ & [= ->] & Hrun).
  - exact sea_inventory.
  - exact sea_fresh.
  - reflexivity.
  - unfold valid_date, MINORD, MAXORD. cbn. lia.
  - unfold valid_date, MINORD, MAXORD. cbn. lia.
  - intros g [].
  - unfold address_fits. vm_compute. lia.
  - exact sea_connected.
  - clear E H2. intros x Hx%three_nights_cases. unfold valid_date, MINORD, MAXORD. lia.
  - clear E H2. apply shown_correctly. intros rm [<-|[]] x [-> |[-> | ->]]; vm_compute; reflexivity.
  - exact E.
  - clear E. unfold worker in *. destruct (T_run _ _ _ _ _ _) as [[d' w'] [more|]] eqn:Er; [|done].
    destruct (Hrun _ _ _ _ _ _ Er) as (-> & e & Hd & Hstep). exists d', w'. split; [done|]. apply Hstep.
    cbn [clean_run] in H2. rewrite forallb_forall in H2. specialize (H2 (set_cl_error e sea_link)). rewrite Hd in H2.
    by destruct e; [discriminate H2; by left|].
Defined.

(** ** A stay that moves *)

(** The hotel after Ann's booking and its push. *)
Definition sea_booked : DB := match posted with (s, _, _) => mem s end.
Definition sea_shown_booked : store :=
  {[ ("cxp", "cx-double", isoformat 100)%string := 1; ("cxp", "cx-double", isoformat 101)%string := 1;
     ("cxp", "cx-double", isoformat 102)%string := 2 ]}.

(** Her stay begins and ends a day later. *)
Definition later : booking_patch := BookingPatch None None (Some (Some 101)) (Some (Some 103)) None None.
Definition moved := serve (W := store) "re_key" "desk@sea.example" (get_db (db (patch_booking_by_id 1 1001 later))) (start sea_booked 5 0 2000) sea_shown_booked.

(** No error, and the first night shown with other rooms than the ledger has. *)
Definition stale (r : DB * store * result (list celery_task)) : bool :=
  match r with
  | (d, w, Ok []) =>
      forallb (fun l => match cl_error l with None => true | Some _ => false end) (links d)
      && match room_type_maps d with
         | [rm] => room_map_of (cl_tenant sea_link) sea_link rm
                   && negb (default (-1) (shown w (strip (cl_channex_property sea_link)) (strip (cm_channex_room_type rm)) (isoformat 100)) =?
                            available (ledger d !! (cl_tenant sea_link, cm_room_type rm, 100)))
         | _ => false
         end
  | _ => false
  end.

(** A PATCH that moves a stay pushes only its new nights: the night
    given back stays sold at the channel manager, although every call succeeded
    and no error was noted. *)
Theorem moved_night_stays_sold :
  in_step sea_shown_booked sea_booked sea_link three_nights /\
  exists s w r task d' w', moved = (s, w, Ok (r, [task])) /\ worker task (mem s) w = (d', w', Ok []) /\
    (forall l, In l (links d') -> cl_error l = None) /\ ~ in_step w' d' sea_link three_nights.
Proof.
  split.
  { assert (Hm : room_type_maps sea_booked = [sea_map]) by (vm_compute; reflexivity).
    apply shown_correctly. rewrite Hm. intros rm [<-|[]] x [-> |[-> | ->]]; vm_compute; reflexivity. }
  assert (H : match moved with (s, w, Ok (_, [task])) => stale (worker task (mem s) w) | _ => false end = true) by (vm_compute; reflexivity).
  destruct moved as [[s w] [[r q]|]]; [|discriminate H]. destruct q as [|task [|]]; [discriminate H| |discriminate H].
  destruct (worker task (mem s) w) as [[d' w'] [[|]|]] eqn:Er; try done. cbn [stale] in H. apply andb_prop in H as [H1 H2].
  exists s, w, r, task, d', w'. split_and!; [done|done| |].
  - intros l Hl. rewrite forallb_forall in H1. specialize (H1 l Hl). by destruct (cl_error l).
  - destruct (room_type_maps d') as [|rm [|]] eqn:Em; try done. apply andb_prop in H2 as [Hof H2%negb_true_iff%Z.eqb_neq].
    intros Hstep. apply H2. rewrite (in_step_elim w' d' sea_link three_nights rm 100 Hstep); [done| |done|done]. rewrite Em. by left.
Qed.
