(* ===== verification/ChannexTasksLaws.v ===== *)
(** * Laws of the channel manager's tasks

    A booking revision is acknowledged to the channel manager only after it
    has been recorded as done: an unacknowledged revision is sent again, an
    acknowledged one never is.  Every committed task leaves every revision
    done or in error. *)

From stdpp Require Import gmap strings.
From S2P Require Import Prelude PyDecimal PyJson StayDates Calendar Tax TaxOrder Models Session Ledger LedgerLaws Rates Folio FolioLaws Booking BookingFrame BookingInvariant Auth Access Webhooks WebhookLaws Channex ChannexLaws Remote ChannexClient ChannexAri AriLaws Payments Dashboard Receipts Emails ChannexTasks Steady BookingViews.

(** ** What becomes of a revision *)

(** Everything of the revisions but the state of one of them. *)
Definition naming (r : ChannexBookingRevision) := (cr_id r, cr_tenant r, cr_revision r, cr_payload r).
Definition others (rev : Z) (l : list ChannexBookingRevision) := List.filter (fun r => negb (cr_id r =? rev)) l.
Definition revision_view (rev : Z) (d : DB) := (List.map naming (revisions d), others rev (revisions d)).

Lemma others_where_id rev f l : (forall r, naming (f r) = naming r) -> others rev (where_id rev f l) = others rev l.
Proof.
  intros Hf. unfold others, where_id. induction l as [|r l IH]; [done|]. cbn [List.map List.filter].
  destruct (Z.eqb_spec (ident r) rev) as [E|E]; change (ident r) with (cr_id r) in E.
  - specialize (Hf r). unfold naming in Hf. injection Hf as Hi _ _ _. rewrite Hi. apply Z.eqb_eq in E. rewrite E. exact IH.
  - apply Z.eqb_neq in E. rewrite E. cbn. f_equal. exact IH.
Qed.

Lemma naming_where_id rev f l : (forall r, naming (f r) = naming r) -> List.map naming (where_id rev f l) = List.map naming l.
Proof. intros Hf. unfold where_id. rewrite List.map_map. apply List.map_ext. intros r. by destruct (_ =? _). Qed.

Lemma assign_revision_keeps rev f : (forall r, naming (f r) = naming r) -> keeps_view (revision_view rev) (assign rev f).
Proof.
  intros Hf. apply kv_orm. intros d. unfold revision_view. cbn [table put_table ChannexBookingRevision_entity revisions put_revisions].
  by rewrite others_where_id, naming_where_id.
Qed.
#[local] Hint Extern 1 (keeps_view (revision_view _) (assign _ _)) => (apply assign_revision_keeps; intros ?; reflexivity) : keeps.

#[local] Instance revision_booking_side rev : BookingSide (revision_view rev).
Proof. by repeat split. Qed.

(** The state of one revision. *)
Definition state_is (rev : Z) (st : string) (l : list ChannexBookingRevision) : Prop :=
  forall r, In r l -> cr_id r = rev -> cr_processing r = st.

Lemma state_set rev st f l : (forall r, naming (f r) = naming r) -> (forall r, cr_processing (f r) = st) -> state_is rev st (where_id rev f l).
Proof.
  intros Hf Hst r (r0 & <- & _)%in_map_iff. destruct (Z.eqb_spec (ident r0) rev) as [_|Hn]; [done|]. intros E. by destruct Hn.
Qed.

Lemma state_kept rev st f l :
  (forall r, naming (f r) = naming r) -> (forall r, cr_processing (f r) = cr_processing r) -> state_is rev st l -> state_is rev st (where_id rev f l).
Proof.
  intros Hf Hst Hl r (r0 & <- & Hin)%in_map_iff. specialize (Hf r0). unfold naming in Hf. injection Hf as Hi _ _ _.
  destruct (_ =? _); [rewrite Hi, Hst|]; by apply Hl.
Qed.

(** The state an outcome stands for. *)
Definition verdict (out : ingest_result) : string := if ir_success out then "done"%string else "error"%string.

(** A computation that ends by recording its outcome on the revision. *)
Definition marks (rev : Z) (m : M ingest_result) : Prop :=
  keeps_view (revision_view rev) m /\
  forall s s' out, m s = (s', Ok out) -> state_is rev (verdict out) (revisions (mem s')).

Section marks.
Context {env : Env} (rev : Z).

#[local] Abbreviation keeps := (keeps_view (revision_view rev)).

Lemma marks_bind {A} (m : M A) k : keeps m -> (forall a, marks rev (k a)) -> marks rev (m ≫= k).
Proof.
  intros Hm Hk. split; [apply kv_bind; [done|]; intros a; apply Hk|].
  intros s s' out (s1 & a & _ & H)%bind_inv. by eapply Hk.
Qed.

Lemma marks_raise e : marks rev (raise e).
Proof. split; [apply kv_raise|done]. Qed.

Lemma marks_try m h : marks rev m -> (forall e k, h e = Some k -> marks rev k) -> marks rev (try_except m h).
Proof.
  intros Hm Hh. split; [apply kv_try; [apply Hm|]; intros e k Hk; by apply (Hh e)|].
  intros s s' out H. unfold try_except in H. destruct (m s) as [s1 [a|e]] eqn:E; [simplify_eq; by eapply Hm|].
  destruct (h e) as [k|] eqn:Ek; [|done]. by eapply Hh.
Qed.

Lemma marks_refuse msg rt : marks rev (refuse rev msg rt).
Proof.
  split; [unfold refuse, mark_error; keeps_views|].
  intros s s' out H. unfold refuse, mark_error in H. cbv [mbind M_bind get_now assign orm flush mret M_ret] in H. injection H as <- <-.
  apply state_kept; [done..|]. apply state_kept; [done..|]. by apply state_set.
Qed.

Lemma mark_done_keeps link b : keeps (mark_done rev link b).
Proof. unfold mark_done. keeps_views. Qed.
#[local] Hint Resolve mark_done_keeps : keeps.

Lemma mark_done_state link b s s' : mark_done rev link b s = (s', Ok tt) -> state_is rev "done" (revisions (mem s')).
Proof.
  unfold mark_done. cbv [mbind M_bind get_now assign orm]. intros [= <-]. cbn.
  apply state_kept; [done..|]. apply state_kept; [done..|]. by apply state_set.
Qed.

(** A success is recorded, and what follows leaves revisions alone. *)
Lemma marks_done link b (m : M ingest_result) :
  (forall s s' out, m s = (s', Ok out) -> ir_success out = true /\ revisions (mem s') = revisions (mem s)) -> keeps m ->
  marks rev (_ ← mark_done rev link b; m).
Proof.
  intros Hout Hm. split; [apply kv_bind; auto with keeps|].
  intros s s' out (s1 & [] & H1%mark_done_state & H)%bind_inv. apply Hout in H as [Hs ->]. unfold verdict. by rewrite Hs.
Qed.

Lemma flush_success out s s' o : ir_success out = true -> (_ ← flush; mret out) s = (s', Ok o) -> ir_success o = true /\ revisions (mem s') = revisions (mem s).
Proof. intros Hs H. cbv [mbind M_bind flush mret M_ret] in H. by injection H as <- <-. Qed.

Lemma marks_settled link b out : ir_success out = true -> marks rev (_ ← mark_done rev link b; _ ← flush; mret out).
Proof. intros Hs. apply marks_done; [intros s s' o; by apply flush_success|keeps_views]. Qed.

Lemma flush_guest_success t g e out s s' o :
  ir_success out = true -> (_ ← flush_guest t g e; mret out) s = (s', Ok o) -> ir_success o = true /\ revisions (mem s') = revisions (mem s).
Proof.
  intros Hs (s1 & [] & H1 & H)%bind_inv. unfold flush_guest in H1. rewrite run_query in H1. cbv [mret M_ret] in H. injection H as <- <-.
  destruct (_ && _); [done|]. cbv [flush] in H1. by injection H1 as <-.
Qed.

(** *** The three kinds of revision *)

Lemma release_keeps t b : keeps (release_for_cancel t b).
Proof. unfold release_for_cancel, lock_and_validate_availability, select_ledger, decrement_booked_rooms, row, assign_row. keeps_views. Qed.
#[local] Hint Resolve release_keeps : keeps.

Lemma lock_keeps t rt ns n : keeps (lock_and_validate_availability t rt ns n).
Proof. unfold lock_and_validate_availability, select_ledger, row. keeps_views. Qed.
Lemma decrement_keeps rows n : keeps (decrement_booked_rooms rows n).
Proof. unfold decrement_booked_rooms, row, assign_row. keeps_views. Qed.
Lemma increment_keeps rows n : keeps (increment_booked_rooms rows n).
Proof. unfold increment_booked_rooms, assign_row. keeps_views. Qed.
Lemma add_priced_keeps t b rt per : keeps (add_priced_lines t b rt per).
Proof. unfold add_priced_lines. keeps_views. Qed.
Lemma update_guest_keeps t g v : keeps (update_guest t g v).
Proof. unfold update_guest. keeps_views. Qed.
Lemma flush_guest_keeps t g e : keeps (flush_guest t g e).
Proof. unfold flush_guest. keeps_views. Qed.
Lemma note_guest_keeps g n : keeps (note_new_guest g n).
Proof. unfold note_new_guest. keeps_views. Qed.
Lemma charge_keeps t b a : keeps (update_room_charge_folio t b a).
Proof. unfold update_room_charge_folio. keeps_views. Qed.
#[local] Hint Resolve lock_keeps decrement_keeps increment_keeps add_priced_keeps update_guest_keeps flush_guest_keeps note_guest_keeps charge_keeps : keeps.

End marks.

#[local] Hint Resolve release_keeps mark_done_keeps lock_keeps decrement_keeps increment_keeps add_priced_keeps update_guest_keeps flush_guest_keeps
  note_guest_keeps charge_keeps : keeps.

(** Follow a computation to the step that records its outcome. *)
Ltac mark_step :=
  match goal with
  | |- marks _ (refuse _ _ _) => apply marks_refuse
  | |- marks _ (unknown_booking _) => unfold unknown_booking; apply marks_refuse
  | |- marks _ (raise _) => apply marks_raise
  | |- marks _ (mark_done _ _ _ ≫= fun _ => flush ≫= _) => apply marks_settled; reflexivity
  | |- marks _ (mark_done _ _ _ ≫= fun _ => flush_guest _ _ _ ≫= _) =>
      apply marks_done; [intros ? ? ?; apply flush_guest_success; reflexivity | keeps_views]
  | |- marks _ (_ ≫= _) => apply marks_bind; [keeps_views|intros ?]
  | |- marks _ (match ?x with _ => _ end) => destruct x
  | |- marks _ (if ?b then _ else _) => destruct b
  end.
Ltac mark_steps := repeat mark_step.

Section ingest.
Context {env : Env}.

Lemma apply_cancelled_marks t v : marks (sv_rev v) (apply_cancelled t v).
Proof. unfold apply_cancelled. mark_steps. Qed.

Lemma apply_modified_marks t v : marks (sv_rev v) (apply_modified t v).
Proof. unfold apply_modified. cbv zeta. mark_steps. Qed.

Lemma apply_new_marks t v : marks (sv_rev v) (apply_new t v).
Proof. unfold apply_new. cbv zeta. mark_steps. Qed.

Lemma apply_revision_marks t st v : marks (sv_rev v) (apply_revision t st v).
Proof.
  unfold apply_revision. apply marks_try.
  - destruct (String.eqb st "cancelled"); [apply apply_cancelled_marks|]. destruct (String.eqb st "modified"); [apply apply_modified_marks|apply apply_new_marks].
  - intros [] k Hk; cbn in Hk; simplify_eq; mark_steps.
Qed.

(** *** Claiming *)

(** A revision that a committed task left: done or in error, with the
    payload that names it. *)
Definition recorded (r : ChannexBookingRevision) : Prop :=
  (cr_processing r = "done"%string \/ cr_processing r = "error"%string) /\
  forall flat p, cr_payload r = JObj flat -> model_validate flat = Some p -> strip (px_id p) = cr_revision r.

Definition names (t rev : Z) (rid : string) (flat : dict) (r : ChannexBookingRevision) : Prop :=
  cr_id r = rev /\ cr_tenant r = t /\ cr_revision r = rid /\ cr_payload r = JObj flat.

(** Revisions as flushed rows and as objects. *)
Definition revisions_are (l : list ChannexBookingRevision) (s : session) : Prop := revisions (mem s) = l /\ revisions (disk s) = l.

Lemma revisions_synced l s : revisions_are l s -> List.NoDup (List.map cr_id l) -> synced ChannexBookingRevision s.
Proof. intros [Hm Hd] Hn. split; cbn; [by rewrite Hm, Hd|by rewrite Hm]. Qed.

Lemma others_In rev l r : In r (others rev l) -> In r l /\ cr_id r <> rev.
Proof. intros [H Hn%negb_true_iff%Z.eqb_neq]%filter_In. done. Qed.

Lemma where_id_other rev f l x : In x (where_id rev f l) -> (forall r, cr_id (f r) = cr_id r) -> cr_id x <> rev -> In x l.
Proof.
  intros (x0 & Hin & ->)%where_id_In Hf Hne. destruct (Z.eqb_spec (ident x0) rev) as [E|_]; [|done].
  rewrite Hf in Hne. by destruct Hne.
Qed.

Lemma where_id_hit rev f l (x : ChannexBookingRevision) : In x l -> cr_id x = rev -> In (f x) (where_id rev f l).
Proof. intros Hin E. apply where_id_In. exists x. split; [done|]. apply Z.eqb_eq in E. by cbn; rewrite E. Qed.

Lemma claim_spec t link rid flat p l s s' c :
  model_validate flat = Some p -> strip (px_id p) = rid ->
  revisions_are l s -> List.NoDup (List.map cr_id l) -> Forall (fun r => cr_id r < uuids s) l -> Forall recorded l ->
  claim_revision_row t link rid flat p s = (s', Ok c) ->
  match c with
  | None => revisions_are l s' /\ exists r, In r l /\ cr_tenant r = t /\ cr_revision r = rid /\ cr_processing r = "done"%string
  | Some rev => exists l', revisions_are l' s' /\ List.NoDup (List.map cr_id l') /\ (forall r, In r (others rev l') -> recorded r) /\
      exists r, In r l' /\ names t rev rid flat r
  end.
Proof.
  intros Hp Hrid [Hm Hd] Hnd Hlt Hrec H. unfold claim_revision_row in H.
  apply bind_inv in H as (s1 & i & H1 & H). cbv [uuid4] in H1. injection H1 as <- <-.
  apply bind_lift_inv in H as (rid' & Hv & H). assert (rid' = rid) as -> by (unfold varchar in Hv; by destruct (_ <=? _)%nat; simplify_eq).
  apply bind_lift_inv in H as (bid & _ & H).
  set (row := MkChannexBookingRevision _ _ _ _ _ _ _ _ _ _ _ _) in H.
  set (s1 := Session _ _ _ _ _ _) in H. unfold insert_revision in H. rewrite run_assoc, run_query in H. cbn [disk s1] in H. rewrite Hd in H.
  change (cr_revision row) with rid in H. destruct (existsb (revision_is rid) l) eqn:Et.
  - rewrite run_ret in H. assert (H1 : revisions_are l s1) by done.
    rewrite (run_scalar_synced _ _ _ (revisions_synced _ _ H1 Hnd)) in H. cbn [table ChannexBookingRevision_entity mem s1] in H. rewrite Hm in H.
    destruct (List.find _ l) as [r|] eqn:Ef; [|done]. apply find_some in Ef as [Hin [Hr%String.eqb_eq Ht%Z.eqb_eq]%andb_prop].
    pose proof (proj1 (Forall_forall _ _) Hrec r Hin) as Hrr. destruct Hrr as [[Hst|Hst] _]; rewrite Hst in H; cbn [str_in existsb String.eqb Ascii.eqb Bool.eqb orb] in H.
    + cbv [mret M_ret] in H. injection H as <- <-. split; [done|]. exists r. done.
    + change (String.eqb "error" "error") with true in H. cbv beta iota in H. cbv [mbind M_bind assign orm flush mret M_ret] in H. injection H as <- <-.
      set (l' := where_id (cr_id r) (set_cr_payload (JObj flat)) (where_id (cr_id r) (set_cr_error None) (where_id (cr_id r) (set_cr_processing "processing") l))).
      assert (El : revisions_are l' (set_disk (put_revisions l' (mem s1)) (set_mem (put_revisions l' (mem s1)) s1))) by done.
      exists l'. split; [subst l'; unfold revisions_are; cbn; by rewrite Hm|]. split; [|split].
      * unfold l'. change (List.NoDup (List.map (ident (R := ChannexBookingRevision)) l)) in Hnd.
        change (List.map cr_id) with (List.map (ident (R := ChannexBookingRevision))). by rewrite !where_id_idents by done.
      * intros x [Hx Hne]%others_In. apply (proj1 (Forall_forall _ _) Hrec). unfold l' in Hx. by do 3 (apply where_id_other in Hx; [|done..]).
      * exists (set_cr_payload (JObj flat) (set_cr_error None (set_cr_processing "processing" r))). split; [|done].
        unfold l'. by do 3 (apply where_id_hit; [|done]).
  - rewrite run_assoc, run_execute, run_ret in H.
    set (s2 := set_mem _ _) in H. assert (H2 : revisions_are (l ++ [row]) s2) by (unfold revisions_are, s2; cbn; by rewrite Hm, Hd).
    assert (Hnd2 : List.NoDup (List.map cr_id (l ++ [row]))).
    { rewrite List.map_app. apply NoDup_snoc; [done|]. intros (x & E & Hx)%in_map_iff.
      pose proof (proj1 (Forall_forall _ _) Hlt x Hx) as Hl. cbn in E, Hl. lia. }
    rewrite (run_scalar_synced _ _ _ (revisions_synced _ _ H2 Hnd2)) in H. cbn [table ChannexBookingRevision_entity] in H. rewrite (proj1 H2) in H.
    destruct (List.find _ (l ++ [row])) as [r|] eqn:Ef; [|done]. apply find_some in Ef as [Hin [Hr%String.eqb_eq Ht%Z.eqb_eq]%andb_prop].
    assert (r = row) as ->.
    { apply in_app_or in Hin as [Hin|[<-|[]]]; [|done]. assert (existsb (revision_is rid) l = true); [|congruence].
      apply existsb_exists. exists r. split; [done|]. unfold revision_is. by rewrite Hr, String.eqb_refl. }
    cbv [mret M_ret] in H. injection H as <- <-. exists (l ++ [row]). split; [done|]. split; [done|]. split; [|exists row; done].
    intros x [Hx Hne]%others_In. apply in_app_or in Hx as [Hx|[<-|[]]]; [by apply (proj1 (Forall_forall _ _) Hrec)|by destruct Hne].
Qed.

(** *** Ingesting *)

(** The revisions of a database, each done or in error. *)
Definition filed (l : list ChannexBookingRevision) : Prop := List.NoDup (List.map cr_id l) /\ Forall recorded l.

(** A revision of a tenant that is done. *)
Definition done_in (l : list ChannexBookingRevision) (t : Z) (rid : string) : Prop :=
  exists r, In r l /\ cr_tenant r = t /\ cr_revision r = rid /\ cr_processing r = "done"%string.

Lemma ingest_settled_cases t flat rev p rid m s1 s' out l' :
  model_validate flat = Some p -> strip (px_id p) = rid -> marks rev m ->
  revisions_are l' s1 -> List.NoDup (List.map cr_id l') -> (forall r, In r (others rev l') -> recorded r) -> (exists r, In r l' /\ names t rev rid flat r) ->
  m s1 = (s', Ok out) -> filed (revisions (mem s')) /\ (ir_success out = true -> done_in (revisions (mem s')) t rid).
Proof.
  intros Hp Hrid [Hkeep Hstate] [Hm Hd] Hnd Hoth (r & Hr & Hid & Hten & Hrev & Hpay) H.
  pose proof (Hstate _ _ _ H) as Hst.
  assert (Hv : revision_view rev (mem s') = (List.map naming l', others rev l')).
  { apply (Hkeep (List.map naming l', others rev l')) in H as [H _]; [done|]. unfold steady, revision_view. by rewrite Hm, Hd. }
  unfold revision_view in Hv. injection Hv as Hn Ho. clear H Hstate Hkeep. generalize dependent (revisions (mem s')). clear s'. intros l Hst Hn Ho.
  assert (Hnd' : List.NoDup (List.map cr_id l)).
  { replace (List.map cr_id l) with (List.map (fun x => x.1.1.1) (List.map naming l)) by (rewrite List.map_map; by apply List.map_ext).
    rewrite Hn, List.map_map. exact Hnd. }
  assert (Hnamed : forall x, In x l -> cr_id x = rev -> cr_revision x = rid /\ cr_payload x = JObj flat).
  { intros x Hx Ex. assert (In (naming x) (List.map naming l')) as (y & Ey & Hy)%in_map_iff by (rewrite <- Hn; by apply in_map).
    unfold naming in Ey. injection Ey as E1 E2 E3 E4. assert (y = r) as -> by (apply (in_unique_key cr_id l'); [done..|congruence]). split; congruence. }
  split; [split; [done|]|].
  - apply Forall_forall. intros x Hx. destruct (Z.eq_dec (cr_id x) rev) as [E|Hne].
    + destruct (Hnamed x Hx E) as [H1 H2]. split; [rewrite (Hst x Hx E); unfold verdict; destruct (ir_success out); auto|].
      intros flat' p' E1 E2. congruence.
    + apply Hoth. rewrite <- Ho. apply filter_In. split; [done|]. by apply negb_true_iff, Z.eqb_neq.
  - intros Hs. assert (In (naming r) (List.map naming l)) as (x & Ex & Hx)%in_map_iff by (rewrite Hn; by apply in_map).
    unfold naming in Ex. injection Ex as E1 E2 E3 E4. exists x. split_and!; [done|congruence..|].
    rewrite (Hst x Hx) by congruence. unfold verdict. by rewrite Hs.
Qed.

Lemma ingest_settles t link flat l s s' out :
  revisions_are l s -> filed l -> Forall (fun r => cr_id r < uuids s) l -> ingest_channex_booking t link flat s = (s', Ok out) ->
  filed (revisions (mem s')) /\
  (ir_success out = true -> exists p, model_validate flat = Some p /\ done_in (revisions (mem s')) t (strip (px_id p))).
Proof.
  intros Hl [Hnd Hrec] Hlt H. unfold ingest_channex_booking in H. destruct (model_validate flat) as [p|] eqn:Hp.
  2:{ cbv [mret M_ret] in H. injection H as <- <-. rewrite (proj1 Hl). done. }
  cbv zeta in H. destruct (negb (truthy _)); [cbv [mret M_ret] in H; injection H as <- <-; rewrite (proj1 Hl); done|].
  apply bind_inv in H as (s1 & c & Hc & H). pose proof (claim_spec _ _ _ _ _ _ _ _ _ Hp eq_refl Hl Hnd Hlt Hrec Hc) as Hcl.
  destruct c as [rev|].
  - destruct Hcl as (l' & Hl' & Hnd' & Hoth & Hr).
    assert (Hgoal : filed (revisions (mem s')) /\ (ir_success out = true -> done_in (revisions (mem s')) t (strip (px_id p)))); [|destruct Hgoal as [H1 H2]; eauto].
    refine (ingest_settled_cases t flat rev p _ _ s1 s' out l' Hp eq_refl _ Hl' Hnd' Hoth Hr H). clear H.
    unfold resolve_room_and_rate_maps. mark_steps.
    match goal with |- marks _ (apply_revision ?t ?st ?v) => exact (apply_revision_marks t st v) end.
  - destruct Hcl as (Hl1 & r & Hin & Ht & Hr & Hdone). cbv [mret M_ret] in H. injection H as <- <-. rewrite (proj1 Hl1).
    split; [done|]. intros _. exists p. split; [done|]. exists r. done.
Qed.

End ingest.

(** ** The tasks *)

(** The calls made of the channel manager, written down. *)
#[export] Instance noted {W} {srv : Wire W} : Wire (W * list http_call) := {|
  serve := fun wo c => let '(w', r) := serve wo.1 c in ((w', wo.2 ++ [c]), r);
  exn_text := exn_text (W := W) |}.
#[export] Instance noted_mailer {W} {mailer : Mailer W} : Mailer (W * list http_call) := {|
  deliver := fun wo key m => let '(w', r) := deliver wo.1 key m in ((w', wo.2), r);
  render_email := render_email (W := W);
  html_to_pdf := html_to_pdf (W := W) |}.

Definition acknowledges (rid : string) (c : http_call) : Prop :=
  hc_method c = "POST"%string /\ hc_path c = ("booking_revisions/" ++ rid ++ "/acknowledge")%string.

Lemma append_cancel_l a x y : (a ++ x = a ++ y)%string -> x = y.
Proof. induction a as [|c a IH]; [done|]. intros H. apply IH. by injection H. Qed.

Lemma append_cancel_r x y s : (x ++ s = y ++ s)%string -> x = y.
Proof.
  assert (Hlen : forall a b, String.length (a ++ b)%string = (String.length a + String.length b)%nat) by (intros a b; induction a as [|c a IH]; [done|]; change (S (String.length (a ++ b)) = S (String.length a + String.length b))%nat; by rewrite IH).
  revert y. induction x as [|c x IH]; intros [|c' y] H.
  - done.
  - apply (f_equal String.length) in H. rewrite !Hlen in H. cbn in H. lia.
  - apply (f_equal String.length) in H. rewrite !Hlen in H. cbn in H. lia.
  - injection H as -> H. by rewrite (IH y).
Qed.

Lemma T_bind_cases {W A B} (m : T W A) (k : A -> T W B) s w res :
  (m ≫= k) s w = res -> (exists s1 w1 e, m s w = (s1, w1, Err e) /\ (s1, w1, Err e) = res) \/ (exists s1 w1 a, m s w = (s1, w1, Ok a) /\ k a s1 w1 = res).
Proof. unfold mbind, T_bind. destruct (m s w) as [[s1 w1] [a|e]]; intros <-; [right|left]; eauto 6. Qed.

Section acknowledged.
Context {env : Env} {net : Net} {reader : BodyReader} {W : Type} {srv : Wire W} {mailer : Mailer W}.
Context (resend_api_key email_from_default : string).

Abbreviation world := (W * list http_call)%type.

(** Documented of GET /booking_revisions/:id: it answers that revision. *)
Context (answers_by_id : forall c rid (w w' : world) flat p,
  get_booking_revision_raw c rid w = (w', Ok flat) -> model_validate flat = Some p -> strip (px_id p) = rid).

(** Only done revisions have been acknowledged. *)
Definition prudent (l : list ChannexBookingRevision) (w : world) : Prop :=
  forall c rid, In c w.2 -> acknowledges rid c -> exists t, done_in l t rid.

Lemma prudent_request l c method path body params :
  (forall rid, method = "POST"%string -> path = ("booking_revisions/" ++ rid ++ "/acknowledge")%string -> exists t, done_in l t rid) ->
  keeps (prudent l) (request c method path body params).
Proof.
  intros Hok. apply keeps_request. intros w Hw c' rid Hin [Hme Hpa]. cbn [serve noted] in Hin.
  destruct (serve w.1 _) as [w1 r]. cbn in Hin. apply in_app_or in Hin as [Hin|[<-|[]]]; [by apply (Hw c' rid)|]. by apply Hok.
Qed.

Lemma fetch_prudent l c rid : keeps (prudent l) (get_booking_revision_raw (W := world) c rid).
Proof.
  unfold get_booking_revision_raw, request_json. apply keeps_bind; [apply keeps_bind; [by apply prudent_request|]|].
  - intros [tx pl]. apply keeps_lift.
  - intros j. apply keeps_ret.
Qed.

Lemma acknowledge_prudent l c rid t : done_in l t rid -> keeps (prudent l) (acknowledge_revision (W := world) c rid).
Proof.
  intros Hd. unfold acknowledge_revision. apply keeps_bind; [apply prudent_request|].
  - intros rid' _ E. exists t. apply append_cancel_l, append_cancel_r in E. by rewrite <- E.
  - intros [tx pl]. destruct (negb _); [apply keeps_ret|apply keeps_lift].
Qed.

(** *** After the transaction *)

Abbreviation keeps_all l := (T_keeps_view (W := world) revisions (prudent l)).

Lemma deliver_prudent l (w : world) key m : prudent l w -> prudent l (deliver w key m).1.
Proof. intros Hw. cbn [deliver noted_mailer]. by destruct (deliver w.1 key m) as [w1 r]. Qed.

#[local] Instance revisions_booking_side : BookingSide revisions.
Proof. by repeat split. Qed.

Lemma send_email_keeps l t to subject html a atts : keeps_all l (send_booking_email resend_api_key email_from_default t to subject html a atts).
Proof.
  unfold send_booking_email, log_email. keeps_views. apply Tkv_wire. intros w Hw. unfold send_email.
  match goal with |- context [deliver w ?key ?m] => pose proof (deliver_prudent l w key m Hw); destruct (deliver w key m) end. done.
Qed.

Lemma label_keeps t ls : keeps_view revisions (room_label t ls).
Proof. induction ls as [|x ls IH]; cbn [room_label]; keeps_views. Qed.
#[local] Hint Resolve send_email_keeps label_keeps : keeps.

Lemma confirmation_task_keeps l t bid : keeps_all l (run_send_booking_confirmation_task resend_api_key email_from_default t bid).
Proof. unfold run_send_booking_confirmation_task, with_booking, booking_with_guest, send_booking_confirmation, room_type_name, send_template. keeps_views. Qed.
Lemma cancellation_task_keeps l t bid : keeps_all l (run_send_cancellation_email_task resend_api_key email_from_default t bid).
Proof.
  unfold run_send_cancellation_email_task, with_booking, booking_with_guest, send_cancellation_email, room_type_name, cancellation_policy, send_template. keeps_views.
Qed.
#[local] Hint Resolve confirmation_task_keeps cancellation_task_keeps : keeps.

Lemma mails_keep l t out : keeps_all l (mails_after resend_api_key email_from_default t out).
Proof. unfold mails_after, dispatch_channex_booking_emails. keeps_views. Qed.

Lemma acknowledge_keeps l t link rid o :
  (ir_success o = true -> exists t', done_in l t' rid) -> keeps_all l (acknowledge t link rid (Some o)).
Proof.
  intros Hok. unfold acknowledge, link_by_id. destruct (ir_success o); cbn [negb]; [destruct (Hok eq_refl) as (t' & Hd)|]; keeps_views.
  apply Tkv_try; [|intros [] k Hk; simplify_eq; apply Tkv_ret]. apply Tkv_bind; [|intros; apply Tkv_ret].
  apply Tkv_wire, (acknowledge_prudent l _ _ t' Hd).
Qed.

Lemma follow_up_keeps l p o :
  pc_out p = Some o -> (ir_success o = true -> exists t', done_in l t' (pc_revision p)) -> keeps_all l (follow_up resend_api_key email_from_default p).
Proof.
  intros Ho Hok. unfold follow_up. rewrite Ho. apply Tkv_bind; [apply mails_keep|]. intros _. apply Tkv_bind; [|intros; apply Tkv_ret].
  destruct (truthy _); [by apply acknowledge_keeps|apply Tkv_ret].
Qed.

(** *** The transaction *)

(** The revisions as they were found, with fresh keys to come. *)
Definition found (l : list ChannexBookingRevision) (s : session) : Prop := revisions_are l s /\ Forall (fun r => cr_id r < uuids s) l.

Lemma link_for_webhook_found l wl payload : preserves (found l) (link_for_webhook wl payload).
Proof.
  unfold link_for_webhook, link_by_id, lookup_channex_link_for_webhook. destruct (negb _); [apply preserves_ret|].
  apply preserves_bind; [apply preserves_query|]. intros [[tid lid]|]; [|apply preserves_ret].
  apply preserves_bind; [|intros _; apply preserves_bind; [apply preserves_scalar|intros; apply preserves_ret]].
  destruct (cw_tenant wl); [apply preserves_ret|]. by apply preserves_orm.
Qed.

(** What a transaction of a task hands on. *)
Definition handed_on (l' : list ChannexBookingRevision) (p : option processed) : Prop :=
  filed l' /\ match p with
  | None => True
  | Some p => exists o, pc_out p = Some o /\ (ir_success o = true -> exists t, done_in l' t (pc_revision p))
  end.

Lemma fetch_and_ingest_step l link t rid s w s' w' r :
  found l s -> filed l -> prudent [] w -> fetch_and_ingest (W := world) link t rid s w = (s', w', r) ->
  prudent [] w' /\ match r with Ok p => handed_on (revisions (mem s')) p | Err _ => True end.
Proof.
  intros [Hl Hlt] Hfiled Hw H. unfold fetch_and_ingest in H. rewrite T_run_db in H. unfold lift in H.
  destruct (client_for_link link) as [c|e]; [|injection H as <- <- <-; done].
  pose proof (fetch_prudent [] c rid w Hw) as Hf.
  assert (Hfetch : T_try (f ← wire (get_booking_revision_raw c rid); mret (Some f))
           (fun e => match e with ChannexApiError _ _ _ => Some (mret None) | _ => None end) s w =
     (s, (get_booking_revision_raw c rid w).1, match (get_booking_revision_raw c rid w).2 with
        | Ok f => Ok (Some f) | Err (ChannexApiError _ _ _) => Ok None | Err e => Err e end)).
  { unfold T_try, wire, mbind at 1, T_bind at 1. destruct (get_booking_revision_raw c rid w) as [w1 [f|e]]; [done|]. by destruct e. }
  destruct (get_booking_revision_raw c rid w) as [w1 [flat|e]] eqn:Eg; cbn [fst snd] in *.
  - apply (f_equal (fun x => x)) in Hfetch. unfold mbind at 1, T_bind at 1 in H. rewrite Hfetch in H. rewrite T_run_db in H.
    destruct (ingest_channex_booking t link flat s) as [s1 [o|e]] eqn:Ei; [|by injection H as <- <- <-].
    cbv [mret T_ret] in H. injection H as <- <- <-. split; [done|].
    destruct (ingest_settles t link flat l s s1 o Hl Hfiled Hlt Ei) as [H1 H2]. split; [done|]. exists o. split; [done|]. intros Hs.
    destruct (H2 Hs) as (p & Hp & Hd). exists t. cbn [pc_revision]. by rewrite <- (answers_by_id _ _ _ _ _ _ Eg Hp).
  - unfold mbind at 1, T_bind at 1 in H. rewrite Hfetch in H.
    destruct e; try (injection H as <- <- <-; done). cbv [mret T_ret] in H. injection H as <- <- <-. split; [done|]. split; [|done].
    by rewrite (proj1 Hl).
Qed.

Lemma process_logged_webhook_step l i s w s' w' r :
  found l s -> filed l -> prudent [] w -> process_logged_webhook (W := world) i s w = (s', w', r) ->
  prudent [] w' /\ match r with Ok p => handed_on (revisions (mem s')) p | Err _ => True end.
Proof.
  intros Hl Hf Hw H. unfold process_logged_webhook in H. rewrite T_run_db in H.
  pose proof (preserves_scalar (found l) (R := ChannexWebhookLog) (fun w => cw_id w =? i) s) as Hsc.
  destruct (scalar _ s) as [s1 [wl|e]]; [|injection H as <- <- <-; done]. specialize (Hsc _ _ Hl eq_refl).
  destruct wl as [wl|]; [|cbv [mret T_ret] in H; injection H as <- <- <-; split; [done|]; split; [by rewrite (proj1 (proj1 Hsc))|done]].
  cbv zeta in H. rewrite T_run_db in H. destruct (link_for_webhook wl _ s1) as [s2 [link|e]] eqn:El; [|injection H as <- <- <-; done].
  pose proof (link_for_webhook_found l wl _ _ _ _ Hsc El) as H2.
  apply T_bind_cases in H. set (step := match link with Some (l0, tid) => _ | None => _ end) in H.
  assert (H3 : forall s3 w3 ro, step s2 w = (s3, w3, ro) -> prudent [] w3 /\ match ro with Ok p => handed_on (revisions (mem s3)) p | Err _ => True end).
  { intros s3 w3 ro E3. unfold step in E3.
    assert (Hnone : (s2, w, Ok None) = (s3, w3, ro) -> prudent [] w3 /\ match ro with Ok p => handed_on (revisions (mem s3)) p | Err _ => True end).
    { intros [= <- <- <-]. split; [done|]. split; [by rewrite (proj1 (proj1 H2))|done]. }
    destruct link as [[l0 tid]|]; [|by apply Hnone]. destruct (revision_id_of _) as [rid|]; [|by apply Hnone].
    destruct (str_in _ _); [|by apply Hnone]. by eapply fetch_and_ingest_step. }
  destruct H as [(s3 & w3 & e & E3 & [= <- <- <-])|(s3 & w3 & p & E3 & H)]; apply H3 in E3 as [Hw3 E3]; [done|].
  unfold db in H. cbv [assign orm mbind T_bind mret T_ret] in H. injection H as <- <- <-. by split.
Qed.

Lemma scalar_as_found l p s : found l s -> filed l -> scalar p s = (s, Ok (List.find p l)).
Proof.
  intros [Hl _] [Hnd _]. pose proof (run_scalar_synced p mret s (revisions_synced _ _ Hl Hnd)) as H.
  cbn [table ChannexBookingRevision_entity] in H. rewrite (proj1 Hl) in H. unfold mbind, M_bind in H. destruct (scalar p s) as [s1 [a|e]]; [exact H|done].
Qed.

Lemma retry_ingest_step l i t s w s' w' r :
  found l s -> filed l -> retry_ingest (W := world) i t s w = (s', w', r) ->
  w' = w /\ match r with Ok p => handed_on (revisions (mem s')) p | Err _ => True end.
Proof.
  intros Hl Hf H. unfold retry_ingest in H. rewrite T_run_db, (scalar_as_found l) in H by done.
  assert (Hnone : (s, w, Ok None) = (s', w', r) -> w' = w /\ match r with Ok p => handed_on (revisions (mem s')) p | Err _ => True end).
  { intros [= <- <- <-]. split; [done|]. split; [by rewrite (proj1 (proj1 Hl))|done]. }
  destruct (List.find _ l) as [rev|] eqn:Er; [|by apply Hnone]. apply find_some in Er as [Hin _].
  destruct (negb _); [by apply Hnone|]. rewrite T_run_db in H.
  pose proof (preserves_scalar (found l) (R := ChannexPropertyLink) (fun l => (cl_id l =? cr_link rev) && (cl_tenant l =? t)) s) as Hsc.
  unfold link_by_id in H. destruct (scalar _ s) as [s1 [link|e]]; [|injection H as <- <- <-; done]. specialize (Hsc _ _ Hl eq_refl) as [Hl1 Hlt1].
  destruct link as [link|]; [|cbv [mret T_ret] in H; injection H as <- <- <-; split; [done|]; split; [by rewrite (proj1 Hl1)|done]].
  cbv zeta in H. set (payload := match cr_payload rev with JObj d => d | _ => [] end) in H. rewrite T_run_db in H.
  destruct (ingest_channex_booking t link payload s1) as [s2 [o|e]] eqn:Ei; [|by injection H as <- <- <-].
  cbv [mret T_ret] in H. injection H as <- <- <-. split; [done|]. destruct (ingest_settles t link payload l s1 s2 o Hl1 Hf Hlt1 Ei) as [H1 H2].
  split; [done|]. exists o. split; [done|]. intros Hs. destruct (H2 Hs) as (p & Hp & Hd). exists t. cbn [pc_revision].
  destruct Hf as [_ Hrec]. pose proof (proj1 (Forall_forall _ _) Hrec rev Hin) as [_ Hname].
  unfold payload in Hp. destruct (cr_payload rev) as [| | | | | |flat] eqn:Epay; try discriminate Hp. by rewrite <- (Hname flat p eq_refl Hp).
Qed.

(** *** The tasks *)

Inductive revision_job := Arrived (webhook_log_id : Z) | Retried (openpms_revision_id tenant_id : Z).

Definition run_job (j : revision_job) : T world (list ari_task) :=
  match j with
  | Arrived i => run_channex_process_webhook resend_api_key email_from_default i
  | Retried i t => run_channex_retry_booking_revision resend_api_key email_from_default i t
  end.

Lemma handed_on_followed l' p s1 w1 s' w' r :
  handed_on l' p -> revisions_are l' s1 -> prudent [] w1 ->
  (match p with Some p => follow_up resend_api_key email_from_default p | None => mret [] end) s1 w1 = (s', w', r) ->
  filed (revisions (mem s')) /\ prudent (revisions (mem s')) w'.
Proof.
  intros [Hf Hp] Hl Hw H.
  assert (Hw1 : prudent l' w1). { intros c rid Hin Ha. destruct (Hw c rid Hin Ha) as (t & x & [] & _). }
  destruct p as [p|]; [|cbv [mret T_ret] in H; injection H as <- <- <-; by rewrite (proj1 Hl)].
  destruct Hp as (o & Ho & Hs). apply (follow_up_keeps l' p o Ho Hs l') in H as [[Hm _] Hw']; [|done..]. by rewrite Hm.
Qed.

(** C20: Whatever arrives, and however the channel manager and the mail
    provider answer, a task leaves every revision done or in error, and the
    revisions it acknowledged are done in the database. *)
Theorem acknowledged_is_recorded j tm td u d w s' w' r :
  filed (revisions d) -> Forall (fun r => cr_id r < u) (revisions d) ->
  run_job j (start d tm td u) (w, []) = (s', w', r) ->
  filed (revisions (mem s')) /\ prudent (revisions (mem s')) w'.
Proof.
  intros Hf Hlt H.
  assert (Hl : found (revisions d) (start d tm td u)) by done.
  assert (Hw : prudent [] (w, [])) by (by intros c rid []).
  assert (Hrun : exists m : T world (option processed),
    run_job j = (p ← T_transaction m; match p with Some p => follow_up resend_api_key email_from_default p | None => mret [] end) /\
    forall s1 w1 r1, m (start d tm td u) (w, []) = (s1, w1, r1) -> prudent [] w1 /\ match r1 with Ok p => handed_on (revisions (mem s1)) p | Err _ => True end).
  { destruct j as [i|i t]; eexists; (split; [reflexivity|]); intros s1 w1 r1 E.
    - by eapply process_logged_webhook_step.
    - eapply retry_ingest_step in E as [-> E]; [|done..]. done. }
  destruct Hrun as (m & Ej & Hm). rewrite Ej in H. unfold mbind, T_bind, T_transaction in H.
  change (Session (disk (start d tm td u)) (disk (start d tm td u)) [] (now (start d tm td u)) (today (start d tm td u)) (uuids (start d tm td u))) with (start d tm td u) in H.
  destruct (m (start d tm td u) (w, [])) as [[s1 w1] [p|e]] eqn:E; specialize (Hm _ _ _ eq_refl) as [Hw1 Hh].
  - eapply handed_on_followed in H; [done|exact Hh|done|done].
  - injection H as <- <- <-. cbn [mem disk start]. split; [done|]. intros c rid Hin Ha. destruct (Hw1 c rid Hin Ha) as (t & x & [] & _).
Qed.

End acknowledged.


(** ** The purge of delivery logs *)

Section purge.
Context (days : Z).

Definition outdated (t : Z) (w : WebhookDeliveryLog) : bool := wl_created_at w <? t - days * 86400.

(** A role that the policies bind is shown no tenant before one is set: it
    deletes nothing, whatever the age of the logs. *)
Lemma purge_under_policies s : cleanup_old_delivery_logs TenantRole days s = (s, Ok 0).
Proof.
  unfold cleanup_old_delivery_logs, tenant_ids. rewrite run_now. unfold select. cbv [mbind M_bind query]. cbn [sees].
  rewrite (List.filter_ext _ (fun _ => false)) by done. by rewrite filter_none.
Qed.

Definition outdated_logs (t : Z) (d : DB) : list WebhookDeliveryLog := List.filter (outdated t) (webhook_logs d).

Definition kept_logs (t : Z) (d : DB) : list WebhookDeliveryLog := List.filter (fun w => negb (outdated t w)) (webhook_logs d).
Definition purged (t : Z) (d : DB) : DB := put_webhook_logs (kept_logs t d) d.

Lemma delete_without_policies t tid s :
  delete_old_logs Superuser (t - days * 86400) tid s =
  (set_mem (purged t (mem s)) (set_disk (purged t (disk s)) s), Ok (Z.of_nat (length (outdated_logs t (disk s))))).
Proof. reflexivity. Qed.

Lemma outdated_purged t d : outdated_logs t (purged t d) = [].
Proof. apply filter_none. intros w Hw. apply filter_In in Hw as [_ Hw]. by apply negb_true_iff. Qed.

Lemma kept_purged t d : kept_logs t (purged t d) = kept_logs t d.
Proof. apply filter_all. intros w Hw. by apply filter_In in Hw as [_ Hw]. Qed.

(** The first DELETE of a role without policies takes the logs of every
    tenant; the others find nothing left. *)
Lemma purge_tenants t tids s : tids <> [] ->
  exists s', sumM tids (delete_old_logs Superuser (t - days * 86400)) s = (s', Ok (Z.of_nat (length (outdated_logs t (disk s)))))
    /\ webhook_logs (mem s') = kept_logs t (mem s).
Proof.
  revert s. induction tids as [|tid tids IH]; intros s Hne; [done|]. cbn [sumM].
  rewrite (bind_run _ _ _ _ _ (delete_without_policies t tid s)).
  destruct tids as [|tid2 tids]; [eexists; split; [cbv [sumM mbind M_bind mret M_ret]; by rewrite Z.add_0_r|done]|].
  destruct (IH (set_mem (purged t (mem s)) (set_disk (purged t (disk s)) s))) as (s' & H & Hl); [done|].
  exists s'. rewrite (bind_run _ _ _ _ _ H). cbn [disk mem set_disk set_mem] in *. rewrite outdated_purged, Z.add_0_r. split; [done|].
  by rewrite Hl, kept_purged.
Qed.

(** A superuser's purge deletes the outdated logs, all of them and no others,
    and counts each once. *)
Lemma purge_by_superuser t td u d : tenants d <> [] -> List.NoDup (List.map tn_id (tenants d)) ->
  exists d', run (cleanup_old_delivery_logs Superuser days) t td u d = (d', Ok (Z.of_nat (length (outdated_logs t d))))
    /\ webhook_logs d' = kept_logs t d.
Proof.
  intros Hne Hnd. unfold run, cleanup_old_delivery_logs, tenant_ids. rewrite run_now.
  assert (Hs : select (fun tn => sees Superuser None (tn_id tn)) (start d t td u) = (start d t td u, Ok (tenants d))).
  { rewrite (select_synced (R := Tenant)); [|exact Hnd|done]. by rewrite filter_all. }
  cbv beta zeta. rewrite (bind_run _ _ _ (start d t td u) (order_by Z.leb (List.map tn_id (tenants d)))); [|by rewrite (bind_run _ _ _ _ _ Hs)].
  destruct (order_by Z.leb (List.map tn_id (tenants d))) as [|tid tids] eqn:E.
  { destruct Hne. pose proof (order_by_perm Z.leb (List.map tn_id (tenants d))) as Hp. rewrite E in Hp.
    apply Permutation_nil, map_eq_nil in Hp. exact Hp. }
  destruct (purge_tenants t (tid :: tids) (start d t td u)) as (s' & H & Hl); [done|].
  cbn [now start]. rewrite H. by exists (mem s').
Qed.
End purge.

(** ** A revision that arrives *)

#[local] Instance desk_env : Env := sample_env.
#[local] Instance desk_net : Net := deaf_net.
#[local] Instance desk_reader : BodyReader := {| json_loads := fun _ => None; decode_replace := fun s => s |}.
#[local] Instance desk_mailer : Mailer unit :=
  {| deliver := fun w _ _ => (w, Delivered "mail-1"); render_email := fun _ _ => Ok "<p>"%string; html_to_pdf := Ok |}.

(** A channel manager with one revision. *)
#[local] Instance one_revision : Wire unit := {|
  serve := fun w c =>
    (w, if String.eqb (hc_path c) "booking_revisions/rev-1" then
          Reply 200 "{}" (Some (JObj [("data", JObj [("id", JStr "rev-1"); ("attributes", JObj ota_revision)])]%string))
        else if String.eqb (hc_path c) "booking_revisions/rev-1/acknowledge" then Reply 200 EmptyString None
        else Reply 404 EmptyString None);
  exn_text := fun _ => EmptyString |}.

Definition arrived : ChannexWebhookLog :=
  MkChannexWebhookLog 9 None None
    (Some (JObj [("event", JStr "booking_new"); ("property_id", JStr "cx-prop"); ("payload", JObj [("id", JStr "rev-1")])]%string)) None None false.
Definition arrived_db : DB := put_channex_webhook_logs [arrived] ota_db.

Lemma one_revision_by_id c rid (w w' : unit * list http_call) flat p :
  get_booking_revision_raw c rid w = (w', Ok flat) -> model_validate flat = Some p -> strip (px_id p) = rid.
Proof.
  destruct (String.eqb_spec rid "rev-1") as [->|Hne].
  - destruct w as [[] calls]. intros H Hp. cbv -[app model_validate] in H. injection H as <- <-. cbv in Hp. by injection Hp as <-.
  - intros H _. exfalso. unfold get_booking_revision_raw, request_json in H. apply call_bind_inv in H as (w1 & j & H & _).
    apply call_bind_inv in H as (w2 & [text payload] & H & Hj).
    apply (request_answered (fun _ => True)) in H as (w3 & status & _ & Hst & H); [|done..].
    cbn [serve noted one_revision hc_path] in H. destruct (String.eqb_spec ("booking_revisions/" ++ rid) "booking_revisions/rev-1") as [E|_].
    { apply Hne. change "booking_revisions/rev-1"%string with ("booking_revisions/" ++ "rev-1")%string in E. by apply append_cancel_l in E. }
    destruct (String.eqb _ _); injection H as _ <- _ <-; [done|lia].
Qed.

(** What a run left: no error, one acknowledgement among its calls. *)
Definition acknowledged_one (r : session * (unit * list http_call) * result (list ari_task)) : bool :=
  match r with
  | (_, (_, calls), Ok [_]) => existsb (fun c => String.eqb (hc_method c) "POST" && String.eqb (hc_path c) "booking_revisions/rev-1/acknowledge") calls
  | _ => false
  end.

Lemma acknowledged_is_recorded_witness :
  exists s' w' r, run_job "re_key" "desk@inn.example" (Arrived 9) (start arrived_db 0 0 1000) (tt, []) = (s', w', r) /\
    (exists c, In c w'.2 /\ acknowledges "rev-1" c) /\ exists t, done_in (revisions (mem s')) t "rev-1".
Proof.
  assert (Hc : acknowledged_one (run_job "re_key" "desk@inn.example" (Arrived 9) (start arrived_db 0 0 1000) (tt, [])) = true) by (vm_compute; reflexivity).
  destruct (run_job "re_key" "desk@inn.example" (Arrived 9) (start arrived_db 0 0 1000) (tt, [])) as [[s' [w' calls]] r] eqn:E.
  assert (Ha : exists c, In c calls /\ acknowledges "rev-1" c).
  { clear E. destruct r as [[|? [|]]|]; [discriminate Hc| |discriminate Hc..]. cbn [acknowledged_one] in Hc. apply existsb_exists in Hc as (c & Hin & Hc).
    apply andb_prop in Hc as [Hm%String.eqb_eq Hp%String.eqb_eq]. exists c. split; [exact Hin|]. split; [exact Hm|exact Hp]. }
  exists s', (w', calls), r. split; [reflexivity|]. split; [exact Ha|]. destruct Ha as (c & Hin & Hc').
  destruct (acknowledged_is_recorded "re_key" "desk@inn.example" one_revision_by_id (Arrived 9) 0 0 1000 arrived_db tt s' (w', calls) r) as [_ H].
  - split; constructor.
  - constructor.
  - exact E.
  - exact (H c "rev-1"%string Hin Hc').
Defined.
