(* ===== verification/MigrationState.v ===== *)
(** * Migration: records, report, log, state and client

    scripts/migrate/models/records.py (what an adapter hands to the pipeline),
    core/report.py, core/audit_log.py and core/state.py (the SQLite file that
    lets a migration be taken up again), and core/client.py.  The API is a
    server in the sense of [Wire]; the waits between attempts are computed but
    not slept. *)

From stdpp Require Import gmap strings pretty.
From S2P Require Import Prelude PyDecimal PyJson Tax StayDates Calendar Models Session Auth Remote ChannexClient Access.

(** ** Text *)

Definition is_digit (c : ascii) : bool := let n := nat_of_ascii c in ((48 <=? n) && (n <=? 57))%nat.
Definition is_alpha (c : ascii) : bool :=
  let n := nat_of_ascii c in (((65 <=? n) && (n <=? 90)) || ((97 <=? n) && (n <=? 122)))%nat.

Definition keep_chars (p : ascii -> bool) (s : string) : string := string_of_list_ascii (List.filter p (list_ascii_of_string s)).

(** [re.sub(r"[^...]+", r, s)]: each run of other characters becomes [r]. *)
Fixpoint collapse_runs (other : ascii -> bool) (r : ascii) (in_run : bool) (l : list ascii) : list ascii :=
  match l with
  | [] => []
  | c :: l' =>
      if other c then (if in_run then [] else [r]) ++ collapse_runs other r true l'
      else c :: collapse_runs other r false l'
  end.

Definition re_sub_runs (other : ascii -> bool) (r : ascii) (s : string) : string :=
  string_of_list_ascii (collapse_runs other r false (list_ascii_of_string s)).

Definition word_char (c : ascii) : bool := is_alpha c || is_digit c || Ascii.eqb c "_"%char || Ascii.eqb c "-"%char.

(** [f"noemail-{re.sub(...)}@migrate.openpms.local"] *)
Definition synthetic_email (external_id : string) : string :=
  ("noemail-" ++ re_sub_runs (fun c => negb (word_char c)) "-"%char external_id ++ "@migrate.openpms.local")%string.

Example synthetic_one : synthetic_email "A 7/b" = "noemail-A-7-b@migrate.openpms.local"%string. Proof. reflexivity. Qed.

(** ** records.py *)

Record ValidationIssue := MkValidationIssue { vi_level : string; vi_message : string }.

Record GuestRecord := MkGuestRecord {
  gr_external : string; gr_first : string; gr_last : string; gr_email : option string; gr_phone : option string;
  gr_nationality : option string; gr_notes : option string; gr_vip : bool }.

Definition blank (o : option string) : bool := match o with Some s => negb (truthy (strip s)) | None => true end.

Definition normalize_email (v : option string) : option string :=
  if blank v then None else (lower ∘ strip) <$> v.

Definition normalize_phone (v : option string) : option string :=
  match v with
  | Some s =>
      if truthy (strip s) then
        let digits := keep_chars (fun c => is_digit c || Ascii.eqb c "+"%char) (strip s) in
        if truthy digits then Some digits else None
      else None
  | None => None
  end.

(** [GuestRecord(...)]: the validators of its address and phone. *)
Definition guest_record (external_id first_name last_name : string) (email phone nationality notes : option string) (vip_status : bool) : GuestRecord :=
  MkGuestRecord external_id first_name last_name (normalize_email email) (normalize_phone phone) nationality notes vip_status.

Record BookingGuestSnapshot := MkBookingGuestSnapshot {
  bs_first : string; bs_last : string; bs_email : string; bs_phone : string; bs_passport : option string }.

Record BookingRecord := MkBookingRecord {
  bk_external : string; bk_check_in : date; bk_check_out : date; bk_room_type : string; bk_rate_plan : string;
  bk_guest : BookingGuestSnapshot; bk_status : string; bk_source : string; bk_notes : option string;
  bk_adults : option Z; bk_total : option dec }.

Record RoomTypeRecord := MkRoomTypeRecord { rr_name : string; rr_base : Z; rr_max : Z }.
Record RoomRecord := MkRoomRecord { rm_type : string; rm_name : string; rm_status : string }.
Record RatePlanRecord := MkRatePlanRecord { pr_name : string; pr_policy : string }.

(** Their defaults. *)
Definition room_type_record (name : string) : RoomTypeRecord := MkRoomTypeRecord name 2 4.
Definition room_record (room_type_name name : string) : RoomRecord := MkRoomRecord room_type_name name "available".
Definition rate_plan_record (name : string) : RatePlanRecord := MkRatePlanRecord name "standard".

(** ** report.py *)

Record StageStats := MkStageStats {
  ss_total : Z; ss_created : Z; ss_updated : Z; ss_skipped : Z; ss_existed : Z; ss_errors : Z }.

Definition no_stats : StageStats := MkStageStats 0 0 0 0 0 0.

Inductive counter := Created | Updated | Skipped | Existed | Errors.

(** [stats.<counter> += n] *)
Definition add_to (c : counter) (n : Z) (s : StageStats) : StageStats :=
  let '(MkStageStats t cr up sk ex er) := s in
  match c with
  | Created => MkStageStats t (cr + n) up sk ex er
  | Updated => MkStageStats t cr (up + n) sk ex er
  | Skipped => MkStageStats t cr up (sk + n) ex er
  | Existed => MkStageStats t cr up sk (ex + n) er
  | Errors => MkStageStats t cr up sk ex (er + n)
  end.
Definition set_total (n : Z) (s : StageStats) : StageStats :=
  MkStageStats n (ss_created s) (ss_updated s) (ss_skipped s) (ss_existed s) (ss_errors s).
Definition set_created (n : Z) (s : StageStats) : StageStats :=
  MkStageStats (ss_total s) n (ss_updated s) (ss_skipped s) (ss_existed s) (ss_errors s).

Record report_error := ReportError { re_entity : string; re_ref : string; re_message : string }.

(** [stages] and [room_type_mapping] are dicts: later writes replace. *)
Record MigrationReport := MkMigrationReport {
  mr_source : string; mr_property : string; mr_dry_run : bool; mr_status : string;
  mr_stages : list (string * StageStats); mr_mapping : list (string * string); mr_errors : list report_error }.

Definition set_mr_status (v : string) (r : MigrationReport) : MigrationReport :=
  MkMigrationReport (mr_source r) (mr_property r) (mr_dry_run r) v (mr_stages r) (mr_mapping r) (mr_errors r).
Definition set_mr_stages (v : list (string * StageStats)) (r : MigrationReport) : MigrationReport :=
  MkMigrationReport (mr_source r) (mr_property r) (mr_dry_run r) (mr_status r) v (mr_mapping r) (mr_errors r).
Definition set_mr_mapping (v : list (string * string)) (r : MigrationReport) : MigrationReport :=
  MkMigrationReport (mr_source r) (mr_property r) (mr_dry_run r) (mr_status r) (mr_stages r) v (mr_errors r).
Definition set_mr_errors (v : list report_error) (r : MigrationReport) : MigrationReport :=
  MkMigrationReport (mr_source r) (mr_property r) (mr_dry_run r) (mr_status r) (mr_stages r) (mr_mapping r) v.

Fixpoint assoc {A} (k : string) (l : list (string * A)) : option A :=
  match l with [] => None | (k', v) :: l' => if String.eqb k k' then Some v else assoc k l' end.
Fixpoint assoc_set {A} (k : string) (v : A) (l : list (string * A)) : list (string * A) :=
  match l with
  | [] => [(k, v)]
  | (k', v') :: l' => if String.eqb k k' then (k, v) :: l' else (k', v') :: assoc_set k v l'
  end.

(** [report.stages[name] = stats]; the stage goes on counting in the object. *)
Definition set_stage (name : string) (s : StageStats) (r : MigrationReport) : MigrationReport :=
  set_mr_stages (assoc_set name s (mr_stages r)) r.
Definition count_in (name : string) (f : StageStats -> StageStats) (r : MigrationReport) : MigrationReport :=
  match assoc name (mr_stages r) with Some s => set_stage name (f s) r | None => r end.

Definition add_error (entity ref message : string) (r : MigrationReport) : MigrationReport :=
  set_mr_errors (mr_errors r ++ [ReportError entity ref (slice 2000 message)]) r.

(** [key.replace("_", " ").title()] *)
Fixpoint title_words (start : bool) (s : string) : string :=
  match s with
  | EmptyString => EmptyString
  | String c s' =>
      let c := if Ascii.eqb c "_"%char then " "%char else c in
      String (if start then upper_ascii c else lower_ascii c) (title_words (negb (is_alpha c)) s')
  end.

Definition REPORT_ORDER : list string :=
  ["room_types"; "rooms"; "rate_plans"; "rates"; "availability"; "guests"; "bookings"; "verify"]%string.

Definition stage_line (key : string) (st : StageStats) : string :=
  (title_words true key ++ ": total=" ++ pretty (ss_total st) ++ " created=" ++ pretty (ss_created st) ++ " updated=" ++ pretty (ss_updated st)
    ++ " skipped=" ++ pretty (ss_skipped st) ++ " existed=" ++ pretty (ss_existed st) ++ " errors=" ++ pretty (ss_errors st))%string.

Definition newline : string := String (ascii_of_nat 10) EmptyString.

(** [ReportGenerator.text]; the date and the duration are given as text. *)
Definition report_text (date_text duration : string) (r : MigrationReport) : string :=
  let errors := mr_errors r in
  py_join newline
    (["=== OpenPMS Migration Report ==="; "Source:     " ++ mr_source r; "Property:   " ++ mr_property r;
      "Date:       " ++ date_text ++ " UTC"; "Duration:   " ++ duration ++ "s"; "Dry run:    " ++ (if mr_dry_run r then "True" else "False"); EmptyString]%string
     ++ omap (fun key => stage_line key <$> assoc key (mr_stages r)) REPORT_ORDER
     ++ match mr_mapping r with
        | [] => []
        | m => [EmptyString; "Room type mapping (source name -> OpenPMS id):"%string]
               ++ List.map (fun kv => "  " ++ py_repr_str kv.1 ++ " -> " ++ kv.2)%string
                    (order_by (fun a b => String.leb a.1 b.1) m)
        end
     ++ match errors with
        | [] => []
        | _ => [EmptyString; "Errors:"%string]
               ++ List.map (fun e => "  [" ++ re_entity e ++ "] " ++ re_ref e ++ ": " ++ re_message e)%string (firstn 200 errors)
               ++ (if (200 <? length errors)%nat then ["  ... and " ++ pretty (Z.of_nat (length errors) - 200) ++ " more"]%string else [])
        end
     ++ [EmptyString; "Status: " ++ mr_status r]%string).

Definition stats_json (s : StageStats) : json :=
  JObj [("total", JInt (ss_total s)); ("created", JInt (ss_created s)); ("updated", JInt (ss_updated s));
        ("skipped", JInt (ss_skipped s)); ("existed", JInt (ss_existed s)); ("errors", JInt (ss_errors s))]%string.

(** [ReportGenerator.to_json], before [json.dumps]. *)
Definition report_json (started_at : string) (finished_at : option string) (duration : json) (r : MigrationReport) : json :=
  JObj [("source", JStr (mr_source r)); ("property", JStr (mr_property r)); ("started_at", JStr started_at);
        ("finished_at", match finished_at with Some t => JStr t | None => JNull end); ("dry_run", JBool (mr_dry_run r));
        ("duration_s", duration); ("final_status", JStr (mr_status r));
        ("stages", JObj (List.map (fun kv => (kv.1, stats_json kv.2)) (mr_stages r)));
        ("room_type_mapping", JObj (List.map (fun kv => (kv.1, JStr kv.2)) (mr_mapping r)));
        ("errors", JArr (List.map (fun e => JObj [("entity", JStr (re_entity e)); ("ref", JStr (re_ref e)); ("message", JStr (re_message e))]) (mr_errors r)))]%string.

(** ** audit_log.py: a line of the log *)

Definition one_line (s : string) : string := string_map (fun c => if (nat_of_ascii c =? 10)%nat then " "%char else c) s.

Definition audit_line (stage entity source_id result details : string) : string :=
  (stage ++ " | " ++ entity ++ " | " ++ slice 500 (one_line source_id) ++ " | " ++ result ++ " | " ++ slice 2000 (one_line details))%string.

(** ** state.py *)

(** The four tables, by primary key: a run with its source, property and
    final status, a stage with its status and counts, what became of a source
    row, and the names mapped to ids.  Every statement commits at once. *)
Record StateStore := MkStateStore {
  st_runs : gmap string (string * string * string);
  st_stages : gmap (string * string) (string * option json);
  st_processed : gmap (string * string * string) (string * string);
  st_mappings : gmap (string * string * string) string }.

Definition empty_store : StateStore := MkStateStore ∅ ∅ ∅ ∅.

Definition stage_stats_to_json (stats : option StageStats) : option json := stats_json <$> stats.

(** [int(d.get(k, 0))] of what [stage_stats_to_json] wrote. *)
Definition int_at (d : dict) (k : string) : Z := match dict_get d k with Some (JInt n) => n | _ => 0 end.

Definition stage_stats_from_json (raw : option json) : option StageStats :=
  match raw with
  | Some (JObj d) =>
      Some (MkStageStats (int_at d "total") (int_at d "created") (int_at d "updated") (int_at d "skipped") (int_at d "existed") (int_at d "errors"))
  | _ => None
  end.

Lemma stage_stats_roundtrip s : stage_stats_from_json (stage_stats_to_json s) = s.
Proof. destruct s as [[]|]; reflexivity. Qed.

Definition ensure_run (run_id source property_id : string) (s : StateStore) : StateStore :=
  match st_runs s !! run_id with
  | Some _ => s
  | None => MkStateStore (<[run_id := (source, property_id, "running"%string)]> (st_runs s)) (st_stages s) (st_processed s) (st_mappings s)
  end.

Definition finalize_run (run_id final_status : string) (s : StateStore) : StateStore :=
  MkStateStore (alter (fun r => (r.1, final_status)) run_id (st_runs s)) (st_stages s) (st_processed s) (st_mappings s).

Definition set_stage_status (run_id stage status : string) (stats : option StageStats) (s : StateStore) : StateStore :=
  MkStateStore (st_runs s) (<[(run_id, stage) := (status, stage_stats_to_json stats)]> (st_stages s)) (st_processed s) (st_mappings s).

Definition get_stage_status (run_id stage : string) (s : StateStore) : option string * option StageStats :=
  match st_stages s !! (run_id, stage) with
  | None => (None, None)
  | Some (status, sj) => (Some status, stage_stats_from_json sj)
  end.

Definition mark_processed (run_id entity external_id openpms_id result : string) (s : StateStore) : StateStore :=
  MkStateStore (st_runs s) (st_stages s) (<[(run_id, entity, external_id) := (openpms_id, result)]> (st_processed s)) (st_mappings s).

Definition is_processed (run_id entity external_id : string) (s : StateStore) : bool * option string :=
  match st_processed s !! (run_id, entity, external_id) with
  | None => (false, None)
  | Some (oid, _) => (true, if truthy oid then Some oid else None)
  end.

Definition put_mapping (run_id kind name openpms_id : string) (s : StateStore) : StateStore :=
  MkStateStore (st_runs s) (st_stages s) (st_processed s) (<[(run_id, kind, name) := openpms_id]> (st_mappings s)).
Definition get_mapping (run_id kind name : string) (s : StateStore) : option string := st_mappings s !! (run_id, kind, name).

Definition all_mappings (run_id kind : string) (s : StateStore) : list (string * string) :=
  omap (fun kv => let '(r, k, n, v) := kv in if String.eqb r run_id && String.eqb k kind then Some (n, v) else None) (map_to_list (st_mappings s)).

(** The files of the host: resolved paths, modification times, SHA-1. *)
Class Host := {
  resolve_path : string -> string;
  mtime_ns : string -> option Z;    (** [None]: not a file *)
  sha1_hex : string -> string }.

(** A run is known by its property and by its input files as they are now. *)
Definition compute_run_id `{Host} (property_id : string) (resolved_paths : list string) : string :=
  let uniq := List.nodup string_dec (List.map resolve_path (List.filter truthy resolved_paths)) in
  let parts := property_id :: List.map (fun p => (p ++ ":" ++ match mtime_ns p with Some t => pretty t | None => "missing" end)%string) (sort_str uniq) in
  slice 12 (sha1_hex (py_join "|" parts)).

(** * The client of the REST API *)

(** ** Exceptions *)

Definition APIConflictError (text : string) : exn := ServiceError "APIConflictError" text 409.
Definition APIValidationError (text : string) : exn := ServiceError "APIValidationError" text 422.
Definition APIRateLimitError : exn := ServiceError "APIRateLimitError" "rate limited" 429.
Definition HTTPStatusError (status : Z) : exn := ServiceError "HTTPStatusError" ("HTTP " ++ pretty status) status.
Definition KeyError (k : string) : exn := ServiceError "KeyError" (py_repr_str k) 0.

Definition is_error (name : string) (e : exn) : bool :=
  match e with ServiceError n _ _ => String.eqb n name | _ => false end.

(** ** Retrying *)

Definition MAX_ATTEMPTS : nat := 5.

(** [_exp_wait_seconds]: 1, 2, 4, 8, 16 seconds. *)
Definition exp_wait_seconds (attempt_number : Z) : Z := Z.min (2 ^ Z.max 0 (attempt_number - 1)) 16.

(** [_wait_retry]: what the server asked for, when it did. *)
Definition wait_retry (e : exn) (retry_after : option Z) (attempt_number : Z) : Z :=
  if is_error "APIRateLimitError" e then
    match retry_after with
    | Some t => if 0 <=? t then t else exp_wait_seconds attempt_number
    | None => exp_wait_seconds attempt_number
    end
  else exp_wait_seconds attempt_number.

(** [_is_retryable] *)
Definition is_retryable (e : exn) : bool :=
  match e with
  | TransportError => true
  | ServiceError "APIRateLimitError" _ _ => true
  | ServiceError "HTTPStatusError" _ status => 500 <=? status
  | _ => false
  end.

Section client.
Context {env : Env} {crypto : Crypto} {W : Type} {api : Wire W}.

Record openpms_client := OpenPMSClient { oc_base : string; oc_token : string }.

(** One attempt: the error a response stands for, or its JSON. *)
Definition attempt (c : openpms_client) (method path : string) (params : dict) (body : option json) : call W (option json) := fun w =>
  match serve w (HttpCall (oc_base c) (oc_token c) method path body params) with
  | (w', NoReply) => (w', Err TransportError)
  | (w', Reply status text payload) =>
      (w', if status =? 429 then Err APIRateLimitError
           else if status =? 409 then Err (APIConflictError text)
           else if status =? 422 then Err (APIValidationError text)
           else if (200 <=? status) && (status <? 300) then Ok payload
           else Err (HTTPStatusError status))
  end.

(** [@retry(stop=stop_after_attempt(5), ..., reraise=True)] *)
Fixpoint retrying {A} (attempts_left : nat) (m : call W A) : call W A := fun w =>
  match m w with
  | (w', Err e) =>
      match attempts_left with
      | S n => if is_retryable e then retrying n m w' else (w', Err e)
      | O => (w', Err e)
      end
  | r => r
  end.

Definition api_request (c : openpms_client) (method path : string) (params : dict) (body : option json) : call W (option json) :=
  retrying (MAX_ATTEMPTS - 1) (attempt c method path params body).

(** [r.json()] *)
Definition api_json (c : openpms_client) (method path : string) (params : dict) (body : option json) : call W json :=
  payload ← api_request c method path params body; call_lift (of_option payload (ValueError "JSONDecodeError")).

(** ** Reading responses *)

(** [j[k]], [j.get(k)], [j.get(k, [])] *)
Definition subscript (j : json) (k : string) : result json :=
  match j with
  | JObj d => of_option (dict_get d k) (KeyError k)
  | _ => Err AttributeOrTypeError
  end.
Definition get_or (j : json) (k : string) (default : json) : result json :=
  match j with JObj d => Ok (dict_get_or d k default) | _ => Err AttributeOrTypeError end.
Definition as_list (j : json) : result (list json) := match j with JArr l => Ok l | _ => Err AttributeOrTypeError end.

(** [UUID(str(j))] *)
Definition as_uuid (j : json) : result Z := of_option (uuid_parse (py_str j)) (ValueError "badly formed hexadecimal UUID string").

(** ** Endpoints *)

Definition list_room_types_api (c : openpms_client) (property_id : Z) : call W json :=
  api_json c "GET" "/room-types" [("property_id"%string, JStr (uuid_str property_id))] None.

Definition create_room_type_api (c : openpms_client) (property_id : Z) (name : string) (base_occupancy max_occupancy : Z) : call W json :=
  api_json c "POST" "/room-types" []
    (Some (JObj [("property_id", JStr (uuid_str property_id)); ("name", JStr name); ("base_occupancy", JInt base_occupancy); ("max_occupancy", JInt max_occupancy)]%string)).

Definition bulk_create_rooms_api (c : openpms_client) (room_type_id : Z) (rooms : list (string * string)) (on_conflict : string) : call W json :=
  api_json c "POST" "/rooms/bulk" []
    (Some (JObj [("room_type_id", JStr (uuid_str room_type_id));
                 ("rooms", JArr (List.map (fun r => JObj [("name", JStr r.1); ("status", JStr r.2)]) rooms)); ("on_conflict", JStr on_conflict)]%string)).

Definition list_rate_plans_api (c : openpms_client) (property_id : Z) : call W json :=
  api_json c "GET" "/rate-plans" [("property_id"%string, JStr (uuid_str property_id))] None.

Definition create_rate_plan_api (c : openpms_client) (property_id : Z) (name cancellation_policy : string) : call W json :=
  api_json c "POST" "/rate-plans" []
    (Some (JObj [("property_id", JStr (uuid_str property_id)); ("name", JStr name); ("cancellation_policy", JStr cancellation_policy)]%string)).

Definition bulk_put_rates_api (c : openpms_client) (segments : list json) : call W json :=
  api_json c "PUT" "/rates/bulk" [] (Some (JObj [("segments"%string, JArr segments)])).
Definition bulk_seed_availability_api (c : openpms_client) (segments : list json) : call W json :=
  api_json c "PUT" "/inventory/availability/seed" [] (Some (JObj [("segments"%string, JArr segments)])).

Definition list_guests_api (c : openpms_client) (q : option string) (limit : Z) : call W json :=
  api_json c "GET" "/guests"
    ([("limit", JInt limit); ("offset", JInt 0)]%string ++ match q with Some q => if truthy q then [("q"%string, JStr q)] else [] | None => [] end) None.
Definition create_guest_api (c : openpms_client) (body : dict) : call W json := api_json c "POST" "/guests" [] (Some (JObj body)).
Definition patch_guest_api (c : openpms_client) (guest_id : Z) (body : dict) : call W json :=
  api_json c "PATCH" ("/guests/" ++ uuid_str guest_id) [] (Some (JObj body)).

Definition list_bookings_window_api (c : openpms_client) (property_id : Z) (start_date end_date : date) (limit : Z) : call W json :=
  api_json c "GET" "/bookings"
    [("property_id", JStr (uuid_str property_id)); ("start_date", JStr (isoformat start_date)); ("end_date", JStr (isoformat end_date));
     ("limit", JInt limit); ("offset", JInt 0)]%string None.

Definition create_booking_api (c : openpms_client) (body : dict) : call W json := api_json c "POST" "/bookings" [] (Some (JObj body)).

(** The first booking with an external id; [None] when there is none. *)
Definition get_booking_by_external_id (c : openpms_client) (external_id : string) : call W (option json) :=
  let ext := slice 128 (strip external_id) in
  if negb (truthy ext) then mret None
  else
    data ← api_json c "GET" "/bookings" [("external_booking_id", JStr ext); ("limit", JInt 5); ("offset", JInt 0)]%string None;
    items ← call_lift (get_or data "items" JNull);
    if py_bool items then l ← call_lift (as_list items); mret (hd_error l) else mret None.

Definition patch_booking_api (c : openpms_client) (booking_id : Z) (body : dict) : call W unit :=
  _ ← api_request c "PATCH" ("/bookings/" ++ uuid_str booking_id) [] (Some (JObj body)); mret tt.

End client.
