(* ===== verification/Preno.v ===== *)
(** * Migration: the Preno adapter

    scripts/migrate/adapters/preno.py: the CSV exports of Preno as records.
    Files are read by pandas: what it gives is a parameter. *)

From stdpp Require Import gmap strings.
From S2P Require Import Prelude PyDecimal PyJson StayDates Tax MigrationState.

(** A table of texts; a cell that another file of the same export lacks is
    NaN. *)
Record frame := Frame { fr_columns : list string; fr_rows : list (list (option string)) }.

Class Pandas := {
  read_csv : string -> frame;
  glob_paths : string -> list string;          (** [glob.glob] *)
  is_file : string -> bool;
  to_datetime : option string -> option date;  (** [errors="coerce"], then [.date()] *)
  to_decimal : string -> option dec;           (** [Decimal(s)] *)
  float_to_int : string -> option Z }.         (** [int(float(s))] *)

(** ** Tables of the module *)

Definition COUNTRY_TO_ISO2 : list (string * string) :=
  [("thailand", "TH"); ("russian federation", "RU"); ("russia", "RU"); ("united kingdom", "GB"); ("uk", "GB"); ("great britain", "GB");
   ("united states", "US"); ("usa", "US"); ("united states of america", "US"); ("germany", "DE"); ("france", "FR"); ("spain", "ES");
   ("italy", "IT"); ("china", "CN"); ("japan", "JP"); ("india", "IN"); ("australia", "AU"); ("new zealand", "NZ"); ("singapore", "SG");
   ("malaysia", "MY"); ("indonesia", "ID"); ("vietnam", "VN"); ("philippines", "PH"); ("netherlands", "NL"); ("belgium", "BE");
   ("switzerland", "CH"); ("austria", "AT"); ("sweden", "SE"); ("norway", "NO"); ("denmark", "DK"); ("finland", "FI"); ("poland", "PL");
   ("ukraine", "UA"); ("israel", "IL"); ("united arab emirates", "AE"); ("uae", "AE"); ("saudi arabia", "SA"); ("south africa", "ZA");
   ("brazil", "BR"); ("mexico", "MX"); ("canada", "CA"); ("ireland", "IE"); ("portugal", "PT"); ("greece", "GR"); ("czech republic", "CZ");
   ("czechia", "CZ"); ("hungary", "HU"); ("romania", "RO"); ("bulgaria", "BG"); ("croatia", "HR"); ("slovenia", "SI"); ("slovakia", "SK");
   ("estonia", "EE"); ("latvia", "LV"); ("lithuania", "LT"); ("luxembourg", "LU"); ("iceland", "IS"); ("malta", "MT"); ("cyprus", "CY");
   ("turkey", "TR"); ("türkiye", "TR"); ("egypt", "EG"); ("morocco", "MA"); ("tunisia", "TN"); ("kenya", "KE"); ("nigeria", "NG");
   ("argentina", "AR"); ("chile", "CL"); ("colombia", "CO"); ("peru", "PE"); ("kazakhstan", "KZ"); ("south korea", "KR");
   ("korea, republic of", "KR"); ("hong kong", "HK"); ("taiwan", "TW")]%string.

Definition PRENO_STATUS_TO_INTERNAL : list (string * string) :=
  [("confirmed", "confirmed"); ("checked in", "checked_in"); ("checked out", "checked_out"); ("cancelled", "cancelled");
   ("canceled", "cancelled"); ("no show", "no_show"); ("no-show", "no_show")]%string.

Definition ROOM_TYPE_ALIASES : list (string * string) := [("garden bungalow", "Garden"); ("beachfront bungalow", "Bungalow")]%string.

Definition normalize_room_type_name (name : string) : string :=
  default (strip name) (assoc (lower (strip name)) ROOM_TYPE_ALIASES).

(** [re.sub(r"\s+", " ", name.strip().lower())] *)
Definition norm_key (name : string) : string := re_sub_runs is_space " "%char (lower (strip name)).

(** ** Columns *)

(** [{_norm_key(c): c for c in columns}]: the last column of a key. *)
Definition column_lookup (columns : list string) : list (string * string) :=
  List.fold_left (fun lu c => assoc_set (norm_key c) c lu) columns [].

Fixpoint get_col (lookup : list (string * string)) (candidates : list string) : option string :=
  match candidates with
  | [] => None
  | cand :: l => match assoc (norm_key cand) lookup with Some c => Some c | None => get_col lookup l end
  end.

(** [row.get(col)] *)
Definition cell (columns : list string) (row : list (option string)) (col : string) : option (option string) :=
  assoc col (combine columns row).

(** [str(v)] of a cell: NaN is "nan". *)
Definition cell_str (v : option string) : string := default "nan"%string v.

Definition to_bool_blacklist (v : option string) : bool :=
  match v with
  | None => false
  | Some s => str_in (lower (strip s)) ["1"; "true"; "yes"; "y"; "blacklisted"]%string
  end.

Definition map_country_to_nationality (raw : option string) : option string :=
  match raw with
  | None => None
  | Some r =>
      let s := strip r in
      if negb (truthy s) then None
      else if (String.length s =? 2)%nat && forallb is_alpha (list_ascii_of_string s) then Some (upper s)
      else assoc (norm_key s) COUNTRY_TO_ISO2
  end.

Section preno.
Context {pandas : Pandas}.

Definition parse_decimal_cell (v : option string) : option dec :=
  match v with
  | None => None
  | Some r =>
      let s := keep_chars (fun c => negb (Ascii.eqb c ","%char)) (strip r) in
      if truthy s then to_decimal s else None
  end.

(** ** Loading *)

(** [pd.concat]: the columns in the order they appear, missing cells NaN. *)
Definition concat_frames (frames : list frame) : frame :=
  let columns := List.fold_left (fun cs f => cs ++ List.filter (fun c => negb (str_in c cs)) (fr_columns f)) frames [] in
  Frame columns (List.flat_map (fun f => List.map (fun row => List.map (fun c => default None (cell (fr_columns f) row c)) columns) (fr_rows f)) frames).

(** [drop_duplicates(subset=[id_col], keep="first")] *)
Fixpoint drop_duplicates (key : list (option string) -> string) (seen : list string) (rows : list (list (option string))) : list (list (option string)) :=
  match rows with
  | [] => []
  | r :: l => if str_in (key r) seen then drop_duplicates key seen l else r :: drop_duplicates key (key r :: seen) l
  end.

(** [merged[col] = merged[col].astype(str).str.strip()] *)
Definition strip_column (columns : list string) (col : string) (row : list (option string)) : list (option string) :=
  List.map (fun cv => if String.eqb cv.1 col then Some (strip (cell_str cv.2)) else cv.2) (combine columns row).

Definition load_frames (pattern : option string) (id_column : string) : option frame :=
  match pattern with
  | None => None
  | Some pat =>
      if negb (truthy (strip pat)) then None
      else
        match sort_str (glob_paths pat) with
        | [] => None
        | paths =>
            let merged := concat_frames (List.map read_csv paths) in
            let columns := List.map strip (fr_columns merged) in
            match get_col (column_lookup columns) [id_column; "id"; "ID"]%string with
            | None => Some (Frame columns (fr_rows merged))
            | Some id_col =>
                let rows := List.map (strip_column columns id_col) (fr_rows merged) in
                Some (Frame columns (drop_duplicates (fun r => cell_str (mjoin (cell columns r id_col))) [] rows))
            end
        end
  end.

Record preno_adapter := PrenoAdapter {
  pa_guests : option string; pa_bookings : option string; pa_rooms : option string; pa_include_cancelled : bool }.

Definition given (o : option string) : option string := match o with Some s => if truthy s then Some s else None | None => None end.

Definition preno_validate (a : preno_adapter) : bool * list ValidationIssue :=
  let error m := MkValidationIssue "error" m in
  let issues :=
    match given (pa_guests a), given (pa_bookings a) with
    | None, None => [error "At least one of --guests or --bookings glob is required"%string]
    | _, _ => []
    end
    ++ match given (pa_guests a) with
       | Some g => match glob_paths g with [] => [error ("No files match guests glob: " ++ py_repr_str g)%string] | _ => [] end
       | None => []
       end
    ++ match given (pa_bookings a) with
       | Some b => match glob_paths b with [] => [error ("No files match bookings glob: " ++ py_repr_str b)%string] | _ => [] end
       | None => []
       end
    ++ match given (pa_rooms a) with
       | Some r => if is_file r then [] else [MkValidationIssue "warning" ("Rooms CSV not found: " ++ py_repr_str r ++ " (will infer rooms from bookings)")%string]
       | None => []
       end in
  (negb (existsb (fun i => String.eqb (vi_level i) "error") issues), issues).

(** ** Guests *)

(** [str(row.get(col, "")).strip()] *)
Definition text_at (columns : list string) (row : list (option string)) (col : string) : string :=
  strip (cell_str (default (Some EmptyString) (cell columns row col))).

(** [str(raw).strip() if raw else None] *)
Definition raw_text (columns : list string) (row : list (option string)) (col : option string) : option string :=
  match col with
  | None => None
  | Some c =>
      match default (Some EmptyString) (cell columns row c) with
      | Some s => if truthy s then Some (strip s) else None
      | None => Some "nan"%string
      end
  end.

Definition or_default (d s : string) : string := if truthy s then s else d.
Definition none_if_empty (s : string) : option string := if truthy s then Some s else None.

Definition extract_guest (columns : list string) (col_id col_first col_last : string) (col_email col_phone col_country col_note col_bl : option string)
    (row : list (option string)) : option GuestRecord :=
  let ext_id := text_at columns row col_id in
  if negb (truthy ext_id) then None
  else
    Some (guest_record ext_id (or_default "Unknown" (text_at columns row col_first)) (or_default "Guest" (text_at columns row col_last))
      (raw_text columns row col_email) (raw_text columns row col_phone)
      (match col_country with Some c => map_country_to_nationality (default (Some EmptyString) (cell columns row c)) | None => None end)
      (match col_note with Some c => none_if_empty (text_at columns row c) | None => None end)
      (match col_bl with Some c => to_bool_blacklist (default (Some "False"%string) (cell columns row c)) | None => false end)).

Definition extract_guests (a : preno_adapter) : list GuestRecord :=
  match load_frames (pa_guests a) "id" with
  | None => []
  | Some df =>
      let cols := fr_columns df in
      let col l := get_col (column_lookup cols) l in
      match col ["id"; "guest id"; "guest_id"]%string, col ["name"; "first name"; "firstname"]%string, col ["surname"; "last name"; "lastname"]%string with
      | Some col_id, Some col_first, Some col_last =>
          omap (extract_guest cols col_id col_first col_last (col ["email"]%string) (col ["phone"; "mobile"]%string) (col ["country"]%string)
                  (col ["note"; "notes"]%string) (col ["is_blacklisted"; "blacklisted"]%string)) (fr_rows df)
      | _, _, _ => []
      end
  end.

(** ** Bookings *)

(** [s.split(",")[0]] *)
Fixpoint before_comma (l : list ascii) : list ascii :=
  match l with [] => [] | c :: l' => if Ascii.eqb c ","%char then [] else c :: before_comma l' end.
Definition split_first (s : string) : string := string_of_list_ascii (before_comma (list_ascii_of_string s)).

Definition extract_booking (include_cancelled : bool) (columns : list string) (c_id c_in c_out c_rt c_rp : string)
    (c_gf c_gl c_source c_status c_notes c_adults c_total : option string) (row : list (option string)) : option BookingRecord :=
  let ext := text_at columns row c_id in
  if negb (truthy ext) then None
  else
    let raw_status := match c_status with Some c => lower (text_at columns row c) | None => EmptyString end in
    let internal := default "confirmed"%string (assoc raw_status PRENO_STATUS_TO_INTERNAL) in
    if String.eqb internal "cancelled" && negb include_cancelled then None
    else
      match to_datetime (mjoin (cell columns row c_in)), to_datetime (mjoin (cell columns row c_out)) with
      | Some d_in, Some d_out =>
          if d_out <=? d_in then None
          else
            let raw c := cell_str (default (Some EmptyString) (cell columns row c)) in
            let rt_name := normalize_room_type_name (split_first (raw c_rt)) in
            let rp_name := strip (split_first (raw c_rp)) in
            if negb (truthy rt_name) || negb (truthy rp_name) then None
            else
              let name c d := or_default d (match c with Some c => text_at columns row c | None => EmptyString end) in
              Some (MkBookingRecord ext d_in d_out rt_name rp_name
                (MkBookingGuestSnapshot (name c_gf "Guest"%string) (name c_gl "Unknown"%string) (synthetic_email ext) "+10000000000" None)
                internal
                (slice 64 (match c_source with Some c => text_at columns row c | None => "direct"%string end))
                (match c_notes with Some c => none_if_empty (text_at columns row c) | None => None end)
                (match c_adults with Some c => float_to_int (text_at columns row c) | None => None end)
                (match c_total with Some c => parse_decimal_cell (mjoin (cell columns row c)) | None => None end))
      | _, _ => None
      end.

Definition extract_bookings (a : preno_adapter) : list BookingRecord :=
  match load_frames (pa_bookings a) "Booking ID" with
  | None => []
  | Some df =>
      let cols := fr_columns df in
      let col l := get_col (column_lookup cols) l in
      match col ["Booking ID"; "booking id"; "booking_id"]%string, col ["Checkin date"; "checkin date"; "check_in"; "arrival"]%string,
            col ["Checkout date"; "checkout date"; "check_out"; "departure"]%string, col ["Room types"; "room types"; "room_type"]%string,
            col ["Rate plans"; "rate plans"; "rate_plan"]%string with
      | Some c_id, Some c_in, Some c_out, Some c_rt, Some c_rp =>
          omap (extract_booking (pa_include_cancelled a) cols c_id c_in c_out c_rt c_rp
                  (col ["Primary guest first name"; "guest first name"; "first name"]%string)
                  (col ["Primary guest last name"; "guest last name"; "last name"]%string)
                  (col ["Source"; "Channel"]%string) (col ["Status"]%string) (col ["Notes"; "Note"]%string) (col ["Adults"]%string) (col ["Total"]%string))
               (fr_rows df)
      | _, _, _, _, _ => []
      end
  end.

(** ** What the bookings imply *)

(** [sorted({...})] *)
Definition sorted_names (l : list string) : list string := sort_str (List.nodup string_dec l).

Definition extract_room_types (a : preno_adapter) : list RoomTypeRecord :=
  List.map room_type_record (sorted_names (List.map (fun b => normalize_room_type_name (bk_room_type b)) (extract_bookings a))).
Definition extract_rate_plans (a : preno_adapter) : list RatePlanRecord :=
  List.map rate_plan_record (sorted_names (List.map bk_rate_plan (extract_bookings a))).

Definition extract_rooms (a : preno_adapter) : list RoomRecord :=
  match given (pa_rooms a) with
  | None => []
  | Some path =>
      if negb (is_file path) then []
      else
        let df := read_csv path in
        let cols := List.map strip (fr_columns df) in
        let col l := get_col (column_lookup cols) l in
        match col ["name"; "room name"; "Room"]%string, col ["room type"; "type"; "category"]%string with
        | Some c_name, Some c_type =>
            omap (fun row =>
              let nm := text_at cols row c_name in
              let rt := text_at cols row c_type in
              if truthy nm && truthy rt then Some (room_record rt nm) else None) (fr_rows df)
        | _, _ => []
        end
  end.

End preno.

(** ** adapter.py: what a pipeline asks of a source *)

Record SourceAdapter := MkSourceAdapter {
  ad_validate : bool * list ValidationIssue;
  ad_guests : list GuestRecord;
  ad_bookings : list BookingRecord;
  ad_room_types : list RoomTypeRecord;
  ad_rate_plans : list RatePlanRecord;
  ad_rooms : list RoomRecord }.

Definition preno_source `{Pandas} (a : preno_adapter) : SourceAdapter :=
  MkSourceAdapter (preno_validate a) (extract_guests a) (extract_bookings a) (extract_room_types a) (extract_rate_plans a) (extract_rooms a).
