(* ===== verification/Migration.v ===== *)
(** * Migration: the pipeline

    scripts/migrate/core/pipeline.py and migrate.py: the stages that create a
    hotel in OpenPMS from the export of another system, with batches, conflict
    strategies, dry runs and resumption from the state file. *)

From stdpp Require Import gmap strings pretty.
From S2P Require Import Prelude PyDecimal PyJson StayDates Calendar Tax Models Session Auth Access Remote ChannexClient MigrationState Preno.

Inductive conflict_strategy := OnSkip | OnUpdate | OnFail.

Definition OnConflictFailError (msg : string) : exn := ServiceError "OnConflictFailError" msg 0.

(** ** Pure helpers *)

Fixpoint batches_from {A} (fuel : nat) (size : nat) (items : list A) : list (list A) :=
  match fuel, items with
  | S f, _ :: _ => firstn size items :: batches_from f size (skipn size items)
  | _, _ => []
  end.
(** [_iter_batches]; the pipeline's batch size is at least one. *)
Definition iter_batches {A} (items : list A) (batch_size : nat) : list (list A) := batches_from (length items) batch_size items.

Fixpoint ends_with_list (suffix l : list ascii) : bool :=
  bool_decide (l = suffix) || match l with [] => false | _ :: l' => ends_with_list suffix l' end.
Definition is_synthetic_guest_email (email : string) : bool :=
  ends_with_list (list_ascii_of_string "@migrate.openpms.local") (list_ascii_of_string (lower (strip email))).

Definition safe_email_for_guest (g : GuestRecord) : string :=
  match gr_email g with
  | Some e => if truthy (strip e) then lower (strip e) else synthetic_email (gr_external g)
  | None => synthetic_email (gr_external g)
  end.

Definition NO_PHONE : string := "+10000000000".
Definition safe_phone (g : GuestRecord) : string :=
  match gr_phone g with Some p => if truthy (strip p) then strip p else NO_PHONE | None => NO_PHONE end.

(** [sorted(guests, key=external_id)], first of each real address kept: the
    guests to import, and the duplicates with their address. *)
Fixpoint dedupe (seen : list string) (guests : list GuestRecord) : list GuestRecord * list (GuestRecord * string) :=
  match guests with
  | [] => ([], [])
  | g :: l =>
      let email_norm := safe_email_for_guest g in
      if is_synthetic_guest_email email_norm then let '(out, dup) := dedupe seen l in (g :: out, dup)
      else
        let key := lower (strip email_norm) in
        if str_in key seen then let '(out, dup) := dedupe seen l in (out, (g, key) :: dup)
        else let '(out, dup) := dedupe (key :: seen) l in (g :: out, dup)
  end.
Definition dedupe_guests_by_email (guests : list GuestRecord) : list GuestRecord * list (GuestRecord * string) :=
  dedupe [] (order_by (fun a b => String.leb (gr_external a) (gr_external b)) guests).

Definition two_letters (o : option string) : option string :=
  match o with Some s => if (String.length s =? 2)%nat then Some (upper s) else None | None => None end.

Definition guest_patch_payload (g : GuestRecord) : dict :=
  (let p := safe_phone g in if truthy p && negb (String.eqb p NO_PHONE) then [("phone"%string, JStr p)] else [])
  ++ match gr_notes g with Some n => if truthy n then [("notes"%string, JStr n)] else [] | None => [] end
  ++ match gr_nationality g with
     | Some n => if truthy n then match two_letters (Some (strip n)) with Some c => [("nationality"%string, JStr c)] | None => [] end else []
     | None => []
     end
  ++ [("vip_status"%string, JBool (gr_vip g))].

(** *** Rooms needed *)

Definition add_interval (rt : string) (iv : date * date) (l : list (string * list (date * date))) : list (string * list (date * date)) :=
  assoc_set rt (default [] (assoc rt l) ++ [iv]) l.

Definition intervals_by_type (bookings : list BookingRecord) : list (string * list (date * date)) :=
  List.fold_left (fun acc b =>
    if String.eqb (bk_status b) "cancelled" then acc else add_interval (bk_room_type b) (bk_check_in b, bk_check_out b) acc) bookings [].

Definition events_of (intervals : list (date * date)) : list (date * Z) := List.flat_map (fun ab => [(ab.1, 1); (ab.2, -1)]) intervals.
Definition event_le (x y : date * Z) : bool := (x.1 <? y.1) || ((x.1 =? y.1) && (x.2 <=? y.2)).

(** [cur += delta; best = max(best, cur)] *)
Definition sweep (events : list (date * Z)) : Z :=
  (List.fold_left (fun cb e => let cur := cb.1 + e.2 in (cur, Z.max cb.2 cur)) events (0, 0)).2.

Definition max_parallel_rooms (intervals : list (date * date)) : Z := Z.max 1 (sweep (order_by event_le (events_of intervals))).

Definition max_parallel_rooms_by_type (bookings : list BookingRecord) : list (string * Z) :=
  List.map (fun ti => (ti.1, max_parallel_rooms ti.2)) (intervals_by_type bookings).

(** *** Chunks of dates *)

(** [_iter_date_chunks]: the chunks it yields, and the exception that ends it
    at the end of the calendar. *)
Fixpoint date_chunks_from (fuel : nat) (max_days : Z) (cur last : date) : list (date * date) * option exn :=
  match fuel with
  | O => ([], None)
  | S f =>
      if last <? cur then ([], None)
      else
        match date_add cur (max_days - 1) with
        | Err e => ([], Some e)
        | Ok d =>
            let chunk_end := Z.min d last in
            match date_add chunk_end 1 with
            | Err e => ([(cur, chunk_end)], Some e)
            | Ok next => let '(l, e) := date_chunks_from f max_days next last in ((cur, chunk_end) :: l, e)
            end
        end
  end.
Definition iter_date_chunks (start last : date) (max_days : Z) : list (date * date) * option exn :=
  date_chunks_from (Z.to_nat (last - start + 1)) max_days start last.

(** ** The state of a run *)

Record pipeline := Pipeline {
  pl_store : option StateStore;     (** the state file, when there is one *)
  pl_report : MigrationReport;
  pl_log : list string;
  pl_run : string }.

Record config := Config {
  cf_property : Z; cf_on_conflict : conflict_strategy; cf_batch_size : nat; cf_night_rate : string;
  cf_resume : bool; cf_precheck : bool; cf_dry_run : bool; cf_client : option openpms_client;
  cf_source : string; cf_label : string; cf_paths : list string }.

Section pipeline.
Context {env : Env} {crypto : Crypto} {host : Host} {W : Type} {api : Wire W} (cf : config).

Definition J (A : Type) : Type := pipeline -> W -> pipeline * W * result A.
#[local] Typeclasses Opaque J.

#[local] Instance J_ret : MRet J := fun A a p w => (p, w, Ok a).
#[local] Instance J_bind : MBind J := fun A B k m p w =>
  match m p w with
  | (p', w', Ok a) => k a p' w'
  | (p', w', Err e) => (p', w', Err e)
  end.

Definition J_raise {A} (e : exn) : J A := fun p w => (p, w, Err e).
Definition J_lift {A} (r : result A) : J A := fun p w => (p, w, r).
Definition ask {A} (c : call W A) : J A := fun p w => let '(w', r) := c w in (p, w', r).
Definition J_try {A} (m : J A) (h : exn -> option (J A)) : J A := fun p w =>
  match m p w with
  | (p', w', Err e) => match h e with Some k => k p' w' | None => (p', w', Err e) end
  | r => r
  end.
Fixpoint J_for {A} (l : list A) (f : A -> J unit) : J unit :=
  match l with [] => mret tt | x :: l' => _ ← f x; J_for l' f end.

(** [str(exc)] *)
Definition exc_text (e : exn) : string :=
  match e with
  | ServiceError "HTTPStatusError" _ _ => exn_text e
  | ServiceError _ detail _ => detail
  | ValueError m => m
  | _ => exn_text e
  end.

(** *** Its parts *)

Definition on_report (f : MigrationReport -> MigrationReport) : J unit := fun p w =>
  (Pipeline (pl_store p) (f (pl_report p)) (pl_log p) (pl_run p), w, Ok tt).
Definition event (stage entity source_id result details : string) : J unit := fun p w =>
  (Pipeline (pl_store p) (pl_report p) (pl_log p ++ [audit_line stage entity source_id result details]) (pl_run p), w, Ok tt).
Definition count (stage : string) (c : counter) (n : Z) : J unit := on_report (count_in stage (add_to c n)).
Definition new_stats (stage : string) (total : Z) : J unit := on_report (set_stage stage (set_total total no_stats)).
Definition error (entity ref message : string) : J unit := on_report (add_error entity ref message).

(** [if self._state and self._run_id:] *)
Definition with_state (f : string -> StateStore -> StateStore) : J unit := fun p w =>
  match pl_store p with
  | Some s =>
      if truthy (pl_run p) then (Pipeline (Some (f (pl_run p) s)) (pl_report p) (pl_log p) (pl_run p), w, Ok tt) else (p, w, Ok tt)
  | None => (p, w, Ok tt)
  end.
Definition state_query {A} (default : A) (f : string -> StateStore -> A) : J A := fun p w =>
  (p, w, Ok match pl_store p with Some s => if truthy (pl_run p) then f (pl_run p) s else default | None => default end).

Definition init_run_state : J unit := fun p w =>
  match pl_store p, cf_client cf with
  | Some s, Some _ =>
      if cf_dry_run cf then (Pipeline (pl_store p) (pl_report p) (pl_log p) EmptyString, w, Ok tt)
      else
        let run_id := compute_run_id (uuid_str (cf_property cf)) (cf_paths cf) in
        (Pipeline (Some (ensure_run run_id (cf_source cf) (uuid_str (cf_property cf)) s)) (pl_report p) (pl_log p) run_id, w, Ok tt)
  | _, _ => (Pipeline (pl_store p) (pl_report p) (pl_log p) EmptyString, w, Ok tt)
  end.

Definition maybe_skip_stage (stage : string) : J bool :=
  if negb (cf_resume cf) then mret false
  else
    st ← state_query (None, None) (fun run s => get_stage_status run stage s);
    match st with
    | (Some st, Some stats) =>
        if negb (String.eqb st "done") then mret false
        else
          _ ← on_report (set_stage stage stats);
          _ ← (if String.eqb stage "room_types" then
                 maps ← state_query [] (fun run s => all_mappings run "room_type_name" s);
                 on_report (fun r => set_mr_mapping (List.fold_left (fun m kv => assoc_set kv.1 kv.2 m) maps (mr_mapping r)) r)
               else mret tt);
          _ ← event stage "stage" stage "skipped" "resume: stage already completed";
          mret true
    | _ => mret false
    end.

Definition begin_stage (stage : string) : J unit :=
  _ ← with_state (fun run => set_stage_status run stage "running" None);
  event stage "stage" stage "started" EmptyString.

Definition end_stage (stage : string) (failed : bool) : J unit := fun p w =>
  match pl_store p with
  | Some s =>
      if truthy (pl_run p) then
        (_ ← with_state (fun run => set_stage_status run stage (if failed then "failed" else "done") (assoc stage (mr_stages (pl_report p))));
         event stage "stage" stage (if failed then "failed" else "done") EmptyString) p w
      else (p, w, Ok tt)
  | None => (p, w, Ok tt)
  end%string.

(** *** Room types *)

(** Names, lower-cased, to ids; a later row of the same name wins. *)
Definition names_of (rows : json) : result (list (string * Z)) :=
  l ← as_list rows;
  foldR (fun m r =>
    n ← subscript r "name"; i ← subscript r "id"; i ← as_uuid i;
    Ok (assoc_set (lower (strip (py_str n))) i m)) [] l.

Definition room_type_map (c : openpms_client) : J (list (string * Z)) :=
  rows ← ask (list_room_types_api c (cf_property cf)); J_lift (names_of rows).

Definition persist_room_type (rt_name key : string) (openpms_id : Z) (result : string) : J unit :=
  _ ← with_state (fun run => put_mapping run "room_type_name" rt_name (uuid_str openpms_id));
  with_state (fun run => mark_processed run "room_type" key (uuid_str openpms_id) result).

(** The id a name has from here on. *)
Definition room_type_known (rt_name key : string) (rid : Z) (result : string) : J unit :=
  _ ← on_report (fun r => set_mr_mapping (assoc_set rt_name (uuid_str rid) (mr_mapping r)) r);
  _ ← persist_room_type rt_name key rid result;
  event "room_types" "room_type" key result (uuid_str rid).

Fixpoint room_types_loop (c : openpms_client) (by_name : list (string * Z)) (room_types : list RoomTypeRecord) : J unit :=
  match room_types with
  | [] => mret tt
  | rt :: l =>
      let key := lower (strip (rr_name rt)) in
      match assoc key by_name with
      | Some rid =>
          _ ← count "room_types" Existed 1;
          _ ← room_type_known (rr_name rt) key rid "existed";
          room_types_loop c by_name l
      | None =>
          by_name ← J_try
            (row ← ask (create_room_type_api c (cf_property cf) (rr_name rt) (rr_base rt) (rr_max rt));
             i ← J_lift (subscript row "id"); rid ← J_lift (as_uuid i);
             _ ← count "room_types" Created 1;
             _ ← room_type_known (rr_name rt) key rid "created";
             mret (assoc_set key rid by_name))
            (fun e => Some
              (_ ← count "room_types" Errors 1;
               _ ← error "room_type" (rr_name rt) (exc_text e);
               _ ← event "room_types" "room_type" key "error" (exc_text e);
               mret by_name));
          room_types_loop c by_name l
      end
  end.

Definition stage_room_types (c : openpms_client) (room_types : list RoomTypeRecord) : J unit :=
  _ ← new_stats "room_types" (Z.of_nat (length room_types));
  by_name ← room_type_map c;
  room_types_loop c by_name room_types.

(** *** Rooms *)

(** [len(res.get(k, []))] *)
Definition len_of (res : json) (k : string) : result Z :=
  v ← get_or res k (JArr []); l ← as_list v; Ok (Z.of_nat (length l)).

Definition create_room_chunk (c : openpms_client) (rt : Z) (chunk : list (string * string)) : J unit :=
  J_try
    (res ← ask (bulk_create_rooms_api c rt chunk "skip");
     n ← J_lift (len_of res "created"); _ ← count "rooms" Created n;
     k ← J_lift (len_of res "skipped"); _ ← count "rooms" Skipped k;
     event "rooms" "room_bulk" (uuid_str rt) "created" ("n=" ++ pretty n))
    (fun e => Some
      (_ ← count "rooms" Errors (Z.of_nat (length chunk));
       _ ← error "room_bulk" (uuid_str rt) (exc_text e);
       event "rooms" "room_bulk" (uuid_str rt) "error" (exc_text e))).

Definition add_total (stage : string) (n : Z) : J unit := on_report (count_in stage (fun s => set_total (ss_total s + n) s)).

Definition create_rooms_of_type (c : openpms_client) (rt : Z) (items : list (string * string)) : J unit :=
  _ ← add_total "rooms" (Z.of_nat (length items));
  J_for (iter_batches items 200) (create_room_chunk c rt).

(** [by_type[...].append(...)] *)
Definition rooms_by_type (rooms : list RoomRecord) : list (string * list (string * string)) :=
  List.fold_left (fun acc r =>
    let key := lower (strip (rm_type r)) in assoc_set key (default [] (assoc key acc) ++ [(rm_name r, rm_status r)]) acc) rooms [].

Definition rooms_without_type (rt_key : string) (items : list (string * string)) : J unit :=
  _ ← count "rooms" Errors (Z.of_nat (length items));
  J_for items (fun it =>
    let msg := ("room type " ++ py_repr_str rt_key ++ " not found")%string in
    _ ← error "room" it.1 msg; event "rooms" "room" it.1 "error" msg).

(** The rooms a category is given when the export lists none. *)
Definition synthetic_rooms (rt_name : string) (n : Z) : list (string * string) :=
  List.map (fun i => ("Migrated-" ++ rt_name ++ "-" ++ pretty i, "available")%string) (seqZ 1 n).

Definition stage_rooms (c : openpms_client) (bookings : list BookingRecord) (rooms_from_source : list RoomRecord) : J unit :=
  _ ← new_stats "rooms" 0;
  rt_ids ← room_type_map c;
  match rooms_from_source with
  | _ :: _ =>
      J_for (rooms_by_type rooms_from_source) (fun ki =>
        match assoc ki.1 rt_ids with
        | None => rooms_without_type ki.1 ki.2
        | Some rt => create_rooms_of_type c rt ki.2
        end)
  | [] =>
      J_for (max_parallel_rooms_by_type bookings) (fun tn =>
        match assoc (lower (strip tn.1)) rt_ids with
        | None =>
            _ ← count "rooms" Errors tn.2;
            _ ← error "room" tn.1 "room type missing before room synthesis";
            event "rooms" "room" tn.1 "error" "room type missing before room synthesis"
        | Some rt => create_rooms_of_type c rt (synthetic_rooms tn.1 tn.2)
        end)
  end.

(** *** Rate plans *)

Definition rate_plan_map (c : openpms_client) : J (list (string * Z)) :=
  rows ← ask (list_rate_plans_api c (cf_property cf)); J_lift (names_of rows).

Definition persist_rate_plan (display_name key : string) (openpms_id : Z) (result : string) : J unit :=
  _ ← with_state (fun run => put_mapping run "rate_plan_name" display_name (uuid_str openpms_id));
  with_state (fun run => mark_processed run "rate_plan" key (uuid_str openpms_id) result).

Fixpoint rate_plans_loop (c : openpms_client) (by_name : list (string * Z)) (rate_plans : list RatePlanRecord) : J unit :=
  match rate_plans with
  | [] => mret tt
  | rp :: l =>
      let key := lower (strip (pr_name rp)) in
      match assoc key by_name with
      | Some rid =>
          _ ← count "rate_plans" Existed 1;
          _ ← persist_rate_plan (pr_name rp) key rid "existed";
          _ ← event "rate_plans" "rate_plan" key "existed" (uuid_str rid);
          rate_plans_loop c by_name l
      | None =>
          by_name ← J_try
            (row ← ask (create_rate_plan_api c (cf_property cf) (pr_name rp) (or_default "standard" (pr_policy rp)));
             i ← J_lift (subscript row "id"); rid ← J_lift (as_uuid i);
             _ ← count "rate_plans" Created 1;
             _ ← persist_rate_plan (pr_name rp) key rid "created";
             _ ← event "rate_plans" "rate_plan" key "created" (uuid_str rid);
             mret (assoc_set key rid by_name))
            (fun e => Some
              (_ ← count "rate_plans" Errors 1;
               _ ← error "rate_plan" (pr_name rp) (exc_text e);
               _ ← event "rate_plans" "rate_plan" key "error" (exc_text e);
               mret by_name));
          rate_plans_loop c by_name l
      end
  end.

Definition stage_rate_plans (c : openpms_client) (rate_plans : list RatePlanRecord) : J unit :=
  _ ← new_stats "rate_plans" (Z.of_nat (length rate_plans));
  by_name ← rate_plan_map c;
  rate_plans_loop c by_name rate_plans.

(** *** Rates and availability *)

(** [min(b.check_in)] and [max(b.check_out - 1 day)], at least the first. *)
Definition stay_range (bookings : list BookingRecord) : result (date * date) :=
  d_min ← list_min (List.map bk_check_in bookings);
  lasts ← mapR (fun b => date_add (bk_check_out b) (-1)) bookings;
  d_max ← list_max lasts;
  Ok (d_min, if d_max <? d_min then d_min else d_max).

(** [n = int(res.get("rows_upserted", 0))] *)
Definition rows_upserted (res : json) : result Z :=
  v ← get_or res "rows_upserted" (JInt 0);
  match v with JInt n => Ok n | JBool b => Ok (if b then 1 else 0) | _ => Err AttributeOrTypeError end.

(** A loop over chunks that adds up rows; the exception that ends the
    generator ends the stage. *)
Fixpoint chunk_loop (chunks : list (date * date)) (f : date * date -> J Z) (acc : Z) : J Z :=
  match chunks with
  | [] => mret acc
  | x :: l => n ← f x; chunk_loop l f (acc + n)
  end.
Definition over_chunks (d_min d_max : date) (f : date * date -> J Z) (acc : Z) : J Z :=
  let '(chunks, e) := iter_date_chunks d_min d_max 90 in
  n ← chunk_loop chunks f acc;
  match e with Some e => J_raise e | None => mret n end.

Fixpoint sum_loop {A} (l : list A) (f : A -> Z -> J Z) (acc : Z) : J Z :=
  match l with [] => mret acc | x :: l' => n ← f x acc; sum_loop l' f n end.

(** The known pairs of the bookings; the set is walked in the order of first
    occurrence. *)
Definition rate_pairs (rt_map rp_map : list (string * Z)) (bookings : list BookingRecord) : list (Z * Z) :=
  remove_dups (omap (fun b =>
    match assoc (lower (strip (bk_room_type b))) rt_map, assoc (lower (strip (bk_rate_plan b))) rp_map with
    | Some rt, Some rp => Some (rt, rp)
    | _, _ => None
    end) bookings).

(** One call for one chunk: the rows it wrote, none when it failed. *)
Definition put_chunk (stage entity ref error_entity error_ref : string) (m : call W json) : J Z :=
  J_try
    (res ← ask m; n ← J_lift (rows_upserted res);
     _ ← event stage entity ref "created" ("rows_upserted=" ++ pretty n);
     mret n)
    (fun e => Some
      (_ ← count stage Errors 1;
       _ ← error error_entity error_ref (exc_text e);
       _ ← event stage entity ref "error" (exc_text e);
       mret 0)).

Definition rates_segment (pair : Z * Z) (chunk : date * date) : json :=
  JObj [("room_type_id", JStr (uuid_str pair.1)); ("rate_plan_id", JStr (uuid_str pair.2));
        ("start_date", JStr (isoformat chunk.1)); ("end_date", JStr (isoformat chunk.2)); ("price", JStr (cf_night_rate cf))]%string.

Definition put_rates (c : openpms_client) (pair : Z * Z) (chunk : date * date) : J Z :=
  let ids := (uuid_str pair.1 ++ "/" ++ uuid_str pair.2)%string in
  put_chunk "rates" "rates_bulk" (ids ++ "/" ++ isoformat chunk.1 ++ "->" ++ isoformat chunk.2) "rates" ids
    (bulk_put_rates_api c [rates_segment pair chunk]).

Definition finish_counts (stage : string) (total created : Z) : J unit :=
  on_report (count_in stage (fun s => set_created created (set_total total s))).

Definition stage_rates (c : openpms_client) (bookings : list BookingRecord) : J unit :=
  _ ← new_stats "rates" 0;
  match bookings with
  | [] => mret tt
  | _ =>
      '(d_min, d_max) ← J_lift (stay_range bookings);
      rt_map ← room_type_map c;
      rp_map ← rate_plan_map c;
      let pairs := rate_pairs rt_map rp_map bookings in
      n ← sum_loop pairs (fun pair acc => over_chunks d_min d_max (put_rates c pair) acc) 0;
      finish_counts "rates" (Z.of_nat (length pairs)) n
  end.

Definition seed_body (rt : Z) (chunk : date * date) : json :=
  JObj [("room_type_id", JStr (uuid_str rt)); ("start_date", JStr (isoformat chunk.1)); ("end_date", JStr (isoformat chunk.2))]%string.

Definition seed_chunk (c : openpms_client) (rt : Z) (chunk : date * date) : J Z :=
  put_chunk "availability" "availability_seed" (uuid_str rt ++ "/" ++ isoformat chunk.1 ++ "->" ++ isoformat chunk.2) "availability" (uuid_str rt)
    (bulk_seed_availability_api c [seed_body rt chunk]).

Definition stage_availability (c : openpms_client) (bookings : list BookingRecord) : J unit :=
  _ ← new_stats "availability" 0;
  match bookings with
  | [] => mret tt
  | _ =>
      '(d_min, d_max) ← J_lift (stay_range bookings);
      rt_map ← room_type_map c;
      let rt_ids := remove_dups (omap (fun b => assoc (lower (strip (bk_room_type b))) rt_map) bookings) in
      n ← sum_loop rt_ids (fun rt acc => over_chunks d_min d_max (seed_chunk c rt) acc) 0;
      finish_counts "availability" (Z.of_nat (length rt_ids)) n
  end.

(** *** Guests *)

Definition settle_guest (g : GuestRecord) (openpms_id result detail : string) (k : counter) : J unit :=
  _ ← count "guests" k 1;
  _ ← with_state (fun run => mark_processed run "guest" (gr_external g) openpms_id result);
  event "guests" "guest" (gr_external g) result detail.

Definition guest_processed_skip (g : GuestRecord) : J bool :=
  state_query false (fun run s => (is_processed run "guest" (gr_external g) s).1).

(** The first guest of a page with the address. *)
Fixpoint find_by_email (email_norm : string) (items : list json) : result (option json) :=
  match items with
  | [] => Ok None
  | item :: l =>
      e ← get_or item "email" (JStr EmptyString);
      if String.eqb (lower (strip (py_str e))) email_norm then i ← subscript item "id"; Ok (Some i) else find_by_email email_norm l
  end.

Definition guest_lookup_openpms (c : openpms_client) (email_norm : string) : J (option string) :=
  mid ← state_query None (fun run s => get_mapping run "guest_email" email_norm s);
  match given mid with
  | Some m => mret (Some m)
  | None =>
      page ← ask (list_guests_api c (Some email_norm) 10);
      v ← J_lift (get_or page "items" (JArr []));
      items ← J_lift (as_list v);
      found ← J_lift (find_by_email email_norm items);
      match found with
      | None => mret None
      | Some i =>
          let gid := py_str i in
          _ ← with_state (fun run => put_mapping run "guest_email" email_norm gid);
          mret (Some gid)
      end
  end.

Definition patch_existing_guest (c : openpms_client) (g : GuestRecord) (gid : string) : J unit :=
  match guest_patch_payload g with
  | [] => mret tt
  | patch => i ← J_lift (as_uuid (JStr gid)); _ ← ask (patch_guest_api c i patch); mret tt
  end.

Definition finalize_guest_existing (c : openpms_client) (g : GuestRecord) (gid : string) : J unit :=
  match cf_on_conflict cf with
  | OnFail => J_raise (OnConflictFailError ("guest " ++ py_repr_str (gr_external g) ++ " matches existing OpenPMS guest " ++ gid))
  | OnSkip => settle_guest g gid "existed" gid Existed
  | OnUpdate => _ ← patch_existing_guest c g gid; settle_guest g gid "updated" gid Updated
  end.

(** [if not gid] *)
Definition handle_guest_post_conflict (c : openpms_client) (g : GuestRecord) (email_norm : string) : J unit :=
  gid ← guest_lookup_openpms c email_norm;
  match given gid with
  | None => settle_guest g EmptyString "skipped" "409 unresolved guest" Skipped
  | Some gid =>
      match cf_on_conflict cf with
      | OnFail => J_raise (OnConflictFailError ("guest " ++ py_repr_str (gr_external g) ++ " duplicate email (409)"))
      | OnSkip => settle_guest g gid "skipped" "409 conflict" Skipped
      | OnUpdate => _ ← patch_existing_guest c g gid; settle_guest g gid "updated" gid Updated
      end
  end.

Definition guest_body (g : GuestRecord) (email_norm : string) (with_nationality : bool) : dict :=
  [("first_name", JStr (gr_first g)); ("last_name", JStr (gr_last g)); ("email", JStr email_norm); ("phone", JStr (safe_phone g));
   ("notes", match gr_notes g with Some n => JStr n | None => JNull end); ("vip_status", JBool (gr_vip g))]%string
  ++ if with_nationality then match two_letters (gr_nationality g) with Some c => [("nationality"%string, JStr c)] | None => [] end else [].

(** A guest posted: counted before its id is read.  A real address is
    remembered with the id. *)
Definition post_guest (c : openpms_client) (g : GuestRecord) (email_norm : string) (with_nationality : bool) : J unit :=
  row ← ask (create_guest_api c (guest_body g email_norm with_nationality));
  _ ← count "guests" Created 1;
  i ← J_lift (subscript row "id");
  let gid := py_str i in
  _ ← with_state (fun run => mark_processed run "guest" (gr_external g) gid "created");
  _ ← (if is_synthetic_guest_email email_norm then mret tt else with_state (fun run => put_mapping run "guest_email" email_norm gid));
  event "guests" "guest" (gr_external g) "created" gid.

Definition guest_failed (g : GuestRecord) (e : exn) : J unit :=
  _ ← count "guests" Errors 1;
  _ ← error "guest" (gr_external g) (exc_text e);
  event "guests" "guest" (gr_external g) "error" (exc_text e).

(** A conflict is resolved, a body the API finds invalid is sent once more
    without the nationality, any other error is noted. *)
Definition create_guest_or_recover (c : openpms_client) (g : GuestRecord) (email_norm : string) : J unit :=
  J_try (post_guest c g email_norm true)
    (fun e => Some
      (if is_error "APIConflictError" e then handle_guest_post_conflict c g email_norm
       else if is_error "APIValidationError" e then
         J_try (post_guest c g email_norm false)
           (fun e2 => Some (if is_error "APIConflictError" e2 then handle_guest_post_conflict c g email_norm else guest_failed g e2))
       else guest_failed g e)).

Definition import_guest (c : openpms_client) (g : GuestRecord) : J unit :=
  done ← guest_processed_skip g;
  if (done : bool) then
    _ ← count "guests" Skipped 1;
    event "guests" "guest" (gr_external g) "skipped" "resume: already processed"
  else
    let email_norm := safe_email_for_guest g in
    if negb (is_synthetic_guest_email email_norm) then
      existing_id ← guest_lookup_openpms c email_norm;
      match given existing_id with
      | Some gid => finalize_guest_existing c g gid
      | None => create_guest_or_recover c g email_norm
      end
    else create_guest_or_recover c g email_norm.

(** [for chunk in batches: for x in chunk: ...; done += 1; ...progress] *)
Fixpoint batch_loop {A} (stage : string) (chunks : list (list A)) (f : A -> J unit) (done total : Z) : J unit :=
  match chunks with
  | [] => mret tt
  | chunk :: l =>
      _ ← J_for chunk f;
      let n := Z.of_nat (length chunk) in
      _ ← event stage "progress" (pretty (done + n) ++ "/" ++ pretty total) "chunk_done" ("n=" ++ pretty n);
      batch_loop stage l f (done + n) total
  end.

Definition source_dup (gk : GuestRecord * string) : J unit := event "guests" "guest" (gr_external gk.1) "source_dup" gk.2.

Definition stage_guests (c : openpms_client) (guests : list GuestRecord) : J unit :=
  let '(unique, dups) := dedupe_guests_by_email guests in
  _ ← J_for dups source_dup;
  _ ← on_report (set_stage "guests" (add_to Skipped (Z.of_nat (length dups)) (set_total (Z.of_nat (length guests)) no_stats)));
  batch_loop "guests" (iter_batches unique (cf_batch_size cf)) (import_guest c) 0 (Z.of_nat (length unique)).

(** *** Bookings *)

Definition settle_booking (b : BookingRecord) (openpms_id result event_result detail : string) (k : counter) : J unit :=
  _ ← count "bookings" k 1;
  _ ← with_state (fun run => mark_processed run "booking" (bk_external b) openpms_id result);
  event "bookings" "booking" (bk_external b) event_result detail.

Definition booking_processed_skip (b : BookingRecord) : J bool :=
  state_query false (fun run s => (is_processed run "booking" (bk_external b) s).1).

(** A status the API refuses is only logged. *)
Definition sync_booking_lifecycle_status (c : openpms_client) (booking_id : Z) (current target : string) : J unit :=
  if String.eqb target current then mret tt
  else
    J_try (ask (patch_booking_api c booking_id [("status"%string, JStr target)]))
      (fun e => Some (event "bookings" "booking" (uuid_str booking_id) "warning" ("patch status " ++ py_repr_str target ++ ": " ++ exc_text e))).

Definition handle_booking_found_existing (c : openpms_client) (b : BookingRecord) (row : json) (reason : string) : J unit :=
  i ← J_lift (subscript row "id"); bid ← J_lift (as_uuid i);
  st ← J_lift (get_or row "status" JNull);
  let cur_status := if py_bool st then py_str st else EmptyString in
  match cf_on_conflict cf with
  | OnFail => J_raise (OnConflictFailError ("booking " ++ py_repr_str (bk_external b) ++ " already exists (" ++ reason ++ ")"))
  | OnSkip =>
      if String.eqb reason "precheck" then settle_booking b (uuid_str bid) "existed" "existed" (uuid_str bid) Existed
      else settle_booking b (uuid_str bid) "skipped" "skipped" (uuid_str bid) Skipped
  | OnUpdate =>
      _ ← sync_booking_lifecycle_status c bid cur_status (bk_status b);
      settle_booking b (uuid_str bid) "updated" "updated" (uuid_str bid) Updated
  end.

Definition booking_body (b : BookingRecord) (rt_id rp_id : Z) : dict :=
  [("property_id", JStr (uuid_str (cf_property cf))); ("room_type_id", JStr (uuid_str rt_id)); ("rate_plan_id", JStr (uuid_str rp_id));
   ("check_in", JStr (isoformat (bk_check_in b))); ("check_out", JStr (isoformat (bk_check_out b)));
   ("guest", JObj [("first_name", JStr (bs_first (bk_guest b))); ("last_name", JStr (bs_last (bk_guest b)));
                   ("email", JStr (lower (strip (bs_email (bk_guest b))))); ("phone", JStr (bs_phone (bk_guest b)))]);
   ("status", JStr "confirmed"); ("source", JStr (slice 64 (or_default "migration" (bk_source b)))); ("force_new_guest", JBool false);
   ("external_booking_id", JStr (slice 128 (bk_external b)))]%string.

Definition try_create_booking (c : openpms_client) (b : BookingRecord) (rt_id rp_id : Z) : J unit :=
  J_try
    (out ← ask (create_booking_api c (booking_body b rt_id rp_id));
     _ ← count "bookings" Created 1;
     i ← J_lift (subscript out "booking_id"); bid ← J_lift (as_uuid i);
     _ ← with_state (fun run => mark_processed run "booking" (bk_external b) (uuid_str bid) "created");
     _ ← event "bookings" "booking" (bk_external b) "created" (uuid_str bid);
     if str_in (bk_status b) ["pending"; "confirmed"]%string then mret tt
     else sync_booking_lifecycle_status c bid "confirmed" (bk_status b))
    (fun e =>
      if is_error "APIConflictError" e then Some
        (row2 ← ask (get_booking_by_external_id c (bk_external b));
         match row2 with
         | Some row => if py_bool row then handle_booking_found_existing c b row "409"
                       else settle_booking b EmptyString "skipped" "skipped" "409 duplicate external_booking_id (no row)" Skipped
         | None => settle_booking b EmptyString "skipped" "skipped" "409 duplicate external_booking_id (no row)" Skipped
         end)
      else None).

Definition booking_failed (b : BookingRecord) (msg : string) : J unit :=
  _ ← count "bookings" Errors 1;
  _ ← error "booking" (bk_external b) msg;
  event "bookings" "booking" (bk_external b) "error" msg.

(** [except OnConflictFailError: raise; except Exception: ...] *)
Definition create_booking_or_note (c : openpms_client) (b : BookingRecord) (rt_id rp_id : Z) : J unit :=
  J_try (try_create_booking c b rt_id rp_id)
    (fun e => if is_error "OnConflictFailError" e then None else Some (booking_failed b (exc_text e))).

Definition import_booking (c : openpms_client) (rt_map rp_map : list (string * Z)) (b : BookingRecord) : J unit :=
  done ← booking_processed_skip b;
  if (done : bool) then
    _ ← count "bookings" Skipped 1;
    event "bookings" "booking" (bk_external b) "skipped" "resume: already processed"
  else
    let rk := lower (strip (bk_room_type b)) in
    let pk := lower (strip (bk_rate_plan b)) in
    match assoc rk rt_map, assoc pk rp_map with
    | Some rt_id, Some rp_id =>
        if cf_precheck cf then
          row ← ask (get_booking_by_external_id c (bk_external b));
          match row with
          | Some r => if py_bool r then handle_booking_found_existing c b r "precheck" else create_booking_or_note c b rt_id rp_id
          | None => create_booking_or_note c b rt_id rp_id
          end
        else create_booking_or_note c b rt_id rp_id
    | _, _ => booking_failed b ("missing room type or rate plan (" ++ py_repr_str rk ++ ", " ++ py_repr_str pk ++ ")")
    end.

Definition stage_bookings (c : openpms_client) (bookings : list BookingRecord) : J unit :=
  _ ← new_stats "bookings" (Z.of_nat (length bookings));
  rt_map ← room_type_map c;
  rp_map ← rate_plan_map c;
  batch_loop "bookings" (iter_batches bookings (cf_batch_size cf)) (import_booking c rt_map rp_map) 0 (Z.of_nat (length bookings)).

(** *** Verification *)

Definition stage_verify (c : openpms_client) (bookings : list BookingRecord) : J unit :=
  _ ← new_stats "verify" 1;
  match bookings with
  | [] =>
      _ ← count "verify" Skipped 1;
      event "verify" "verify" "list_bookings" "skipped" "no bookings"
  | _ =>
      start ← J_lift (list_min (List.map bk_check_in bookings));
      last ← J_lift (list_max (List.map bk_check_out bookings));
      J_try
        (page ← ask (list_bookings_window_api c (cf_property cf) start last 500);
         n ← J_lift (len_of page "items");
         _ ← count "verify" Created 1;
         event "verify" "verify" "list_bookings" "ok" ("items_in_window=" ++ pretty n))
        (fun e => Some
          (_ ← count "verify" Errors 1;
           _ ← error "verify" "list_bookings" (exc_text e);
           event "verify" "verify" "list_bookings" "error" (exc_text e)))
  end.

(** *** The run *)

Definition set_status (v : string) : J unit := on_report (set_mr_status v).

Definition dry_run_stats (src : SourceAdapter) : J unit :=
  let rooms := ad_rooms src in
  let synth := match rooms with [] => sumZ (List.map snd (max_parallel_rooms_by_type (ad_bookings src))) | _ => Z.of_nat (length rooms) end in
  let full n := set_created n (set_total n no_stats) in
  let n_of {A} (l : list A) := Z.of_nat (length l) in
  let '(unique, dups) := dedupe_guests_by_email (ad_guests src) in
  _ ← on_report (set_stage "room_types" (full (n_of (ad_room_types src))));
  _ ← on_report (set_stage "rooms" (full synth));
  _ ← on_report (set_stage "rate_plans" (full (n_of (ad_rate_plans src))));
  _ ← on_report (set_stage "rates" (full 1));
  _ ← on_report (set_stage "availability" (full 1));
  _ ← J_for dups source_dup;
  _ ← on_report (set_stage "guests" (add_to Skipped (n_of dups) (set_created (n_of unique) (set_total (n_of (ad_guests src)) no_stats))));
  _ ← on_report (set_stage "bookings" (full (n_of (ad_bookings src))));
  on_report (set_stage "verify" (add_to Skipped 1 (set_total 1 no_stats))).

Definition stage_runners (c : openpms_client) (src : SourceAdapter) : list (string * J unit) :=
  [("room_types", stage_room_types c (ad_room_types src)); ("rooms", stage_rooms c (ad_bookings src) (ad_rooms src));
   ("rate_plans", stage_rate_plans c (ad_rate_plans src)); ("rates", stage_rates c (ad_bookings src));
   ("availability", stage_availability c (ad_bookings src)); ("guests", stage_guests c (ad_guests src));
   ("bookings", stage_bookings c (ad_bookings src)); ("verify", stage_verify c (ad_bookings src))]%string.

Definition run_stage (stage : string * J unit) : J unit :=
  skip ← maybe_skip_stage stage.1;
  if (skip : bool) then mret tt
  else
    _ ← begin_stage stage.1;
    _ ← J_try stage.2 (fun e => Some (_ ← end_stage stage.1 true; J_raise e));
    end_stage stage.1 false.

(** [add_error(entity="pipeline", ...)] of either handler. *)
Definition stopped (e : exn) : J unit :=
  _ ← error "pipeline" "run" (exc_text e);
  _ ← event "pipeline" "pipeline" "run" "error" (exc_text e);
  set_status "FAILED".

Definition set_final_status : J unit := on_report (fun r => set_mr_status (match mr_errors r with [] => "SUCCESS" | _ => "PARTIAL" end)%string r).

Definition finalize : J unit := fun p w =>
  with_state (fun run => finalize_run run (mr_status (pl_report p))) p w.

Definition invalid_source (issues : list ValidationIssue) : J unit :=
  _ ← J_for issues (fun i =>
        _ ← error "validation" "adapter" (vi_message i);
        event "validation" "validation" "adapter" "error" (vi_message i));
  set_status "FAILED".

Definition run_pipeline (src : SourceAdapter) : J unit :=
  if negb (ad_validate src).1 then invalid_source (ad_validate src).2
  else
    match cf_client cf with
    | Some c =>
        if cf_dry_run cf then dry_run_stats src
        else
          _ ← init_run_state;
          _ ← J_try (_ ← J_for (stage_runners c src) run_stage; set_final_status) (fun e => Some (stopped e));
          finalize
    | None => dry_run_stats src
    end.

(** [MigrationPipeline(...)] *)
Definition new_pipeline (store : option StateStore) : pipeline :=
  Pipeline store (MkMigrationReport (cf_source cf) (cf_label cf) (cf_dry_run cf) "SUCCESS" [] [] []) [] EmptyString.

(** The exit code of the command. *)
Definition exit_code (r : MigrationReport) : Z :=
  if String.eqb (mr_status r) "FAILED" then 1 else if String.eqb (mr_status r) "PARTIAL" then 2 else 0.

End pipeline.

(** ** migrate.py: the command *)

Definition collect_source_paths `{Host, Pandas} (guests bookings rooms : option string) : list string :=
  let globbed o := match given o with Some p => glob_paths p | None => [] end in
  let paths := globbed guests ++ globbed bookings
    ++ match given rooms with Some r => if is_file r then [resolve_path r] else [] | None => [] end in
  sort_str (List.nodup string_dec (List.map resolve_path paths)).

Record options := Options {
  op_api_url : string; op_api_token : string; op_property : Z; op_guests : option string; op_bookings : option string; op_rooms : option string;
  op_dry_run : bool; op_on_conflict : conflict_strategy; op_include_cancelled : bool; op_batch_size : Z; op_night_rate : string;
  op_resume : bool; op_precheck : bool }.

Definition UsageError (m : string) : exn := ServiceError "UsageError" m 2.
Definition ClickException (m : string) : exn := ServiceError "ClickException" m 1.

Section main.
Context {env : Env} {crypto : Crypto} {host : Host} {pandas : Pandas} {W : Type} {api : Wire W}.

(** [self._base = base_url.rstrip("/")] *)
Fixpoint rstrip_slash (l : list ascii) : list ascii :=
  match l with
  | [] => []
  | c :: l' => match rstrip_slash l' with [] => if Ascii.eqb c "/"%char then [] else [c] | r => c :: r end
  end.
Definition open_client (o : options) : openpms_client :=
  OpenPMSClient (string_of_list_ascii (rstrip_slash (list_ascii_of_string (op_api_url o)))) (strip (op_api_token o)).

Definition config_of (o : options) (rate : string) : config :=
  Config (op_property o) (op_on_conflict o) (Z.to_nat (Z.max 1 (op_batch_size o))) rate (op_resume o) (op_precheck o) (op_dry_run o)
    (if op_dry_run o then None else Some (open_client o)) "Preno" (uuid_str (op_property o))
    (collect_source_paths (op_guests o) (op_bookings o) (op_rooms o)).

(** The exit code, the report, and the state file after the command. *)
Definition main (o : options) (store : StateStore) (w : W) : W * result (Z * MigrationReport * StateStore) :=
  if op_resume o && op_dry_run o then (w, Err (UsageError "--resume cannot be used together with --dry-run"))
  else if negb (op_dry_run o) && negb (truthy (strip (op_api_token o))) then (w, Err (ClickException "--api-token is required unless --dry-run"))
  else
    match to_decimal (op_night_rate o) with
    | None => (w, Err (ClickException "Invalid --default-night-rate"))
    | Some _ =>
        let cf := config_of o (op_night_rate o) in
        let '(p, w', r) := run_pipeline cf (preno_source (PrenoAdapter (op_guests o) (op_bookings o) (op_rooms o) (op_include_cancelled o)))
                             (new_pipeline cf (if op_dry_run o then None else Some store)) w in
        (w', match r with Ok _ => Ok (exit_code (pl_report p), pl_report p, default store (pl_store p)) | Err e => Err e end)
    end.

End main.
