(* ===== verification/MigrationLaws.v ===== *)
(** * Laws of the migration

    The rooms made up for a category are as many as its stays ever need at
    once; the chunks of a range of dates are its dates, once each; nothing of
    the export is lost without a trace; and a run that is taken up again makes
    up for none of the errors of the one before. *)

From Stdlib Require Import Sorted.
From stdpp Require Import gmap strings pretty.
From S2P Require Import Prelude PyDecimal PyJson StayDates Calendar Tax TaxOrder Models Session Auth Access Remote ChannexClient MigrationState Preno Migration.

(** ** Rooms needed at once *)

Definition stays_on (x : date) (ab : date * date) : bool := (ab.1 <=? x) && (x <? ab.2).
Definition psum (es : list (date * Z)) : Z := sumZ (List.map snd es).
Definition by_day (x : date) (e : date * Z) : bool := e.1 <=? x.

Lemma psum_app p q : psum (p ++ q) = psum p + psum q.
Proof. unfold psum. by rewrite List.map_app, sumZ_app. Qed.

Lemma psum_cons e p : psum (e :: p) = e.2 + psum p.
Proof. done. Qed.

Lemma psum_perm p q : Permutation p q -> psum p = psum q.
Proof. induction 1; rewrite ?psum_cons; lia. Qed.

(** The running maximum bounds every prefix and is one of them. *)
Definition sweep_from (es : list (date * Z)) (cur best : Z) : Z :=
  (List.fold_left (fun (cb : Z * Z) (e : date * Z) => let cur := cb.1 + e.2 in (cur, Z.max cb.2 cur)) es (cur, best)).2.

Lemma sweep_from_cons e es cur best : sweep_from (e :: es) cur best = sweep_from es (cur + e.2) (Z.max best (cur + e.2)).
Proof. done. Qed.

Lemma sweep_bounds es cur best :
  best <= sweep_from es cur best /\ (forall p q, es = p ++ q -> p <> [] -> cur + psum p <= sweep_from es cur best) /\
  (sweep_from es cur best = best \/ exists p q, es = p ++ q /\ p <> [] /\ sweep_from es cur best = cur + psum p).
Proof.
  revert cur best. induction es as [|e es IH]; intros cur best.
  - change (sweep_from [] cur best) with best. split; [lia|]. split; [|by left]. intros p q E Hp. by destruct p.
  - rewrite sweep_from_cons. destruct (IH (cur + e.2) (Z.max best (cur + e.2))) as (H1 & H2 & H3). split; [lia|]. split.
    + intros p q E Hp. destruct p as [|e' p]; [done|]. injection E as <- E. rewrite psum_cons. destruct p as [|e2 p].
      * change (psum []) with 0. lia.
      * specialize (H2 _ _ E (fun H => match H with eq_refl => I end)). lia.
    + destruct H3 as [H3|(p & q & E & Hp & H3)].
      * destruct (Z.max_spec best (cur + e.2)) as [[_ Hm]|[_ Hm]]; [|left; lia].
        right. exists [e], es. split; [done|]. split; [done|]. rewrite psum_cons. change (psum []) with 0. lia.
      * right. exists (e :: p), q. split; [by rewrite E|]. split; [done|]. rewrite psum_cons. lia.
Qed.

(** Events in their order: by day, the departures of a day first. *)
Lemma events_sorted l : StronglySorted (fun x y => event_le x y = true) (order_by event_le l).
Proof.
  induction l as [|x l IH]; [constructor|]. cbn [order_by List.fold_right]. fold (order_by event_le l).
  induction IH as [|y k Hk IHk Hy]; [by repeat constructor|]. cbn. destruct (event_le x y) eqn:E.
  - constructor; [by constructor|]. constructor; [done|]. eapply Forall_impl; [|exact Hy]. cbn. unfold event_le in *. lia.
  - constructor; [exact IHk|]. apply (Permutation_Forall (Permutation_sym (insert_by_perm _ x k))).
    constructor; [unfold event_le in *; lia|exact Hy].
Qed.

Definition until (x : date) (es : list (date * Z)) : list (date * Z) := List.filter (by_day x) es.
Definition after (x : date) (es : list (date * Z)) : list (date * Z) := List.filter (fun e => negb (by_day x e)) es.

(** The events up to a day come before the others. *)
Lemma until_prefix x es : StronglySorted (fun e f => event_le e f = true) es -> es = until x es ++ after x es.
Proof.
  induction 1 as [|e es _ IH H]; [done|]. unfold until, after in *. cbn [List.filter]. destruct (by_day x e) eqn:E; cbn [negb].
  - cbn [app]. by rewrite <- IH.
  - rewrite filter_none in IH |- *; [cbn [app] in *; by rewrite <- IH| |];
      intros f Hf; pose proof (proj1 (List.Forall_forall _ _) H f Hf) as Hef; cbn in Hef; unfold by_day, event_le in *; lia.
Qed.

Lemma psum_split x es : psum es = psum (until x es) + psum (after x es).
Proof.
  induction es as [|e es IH]; [done|]. unfold until, after in *. cbn [List.filter].
  destruct (by_day x e); cbn [negb]; rewrite !psum_cons, IH; lia.
Qed.

Lemma until_app x p q : until x (p ++ q) = until x p ++ until x q.
Proof. apply List.filter_app. Qed.

Lemma psum_sign (P : Z -> Prop) es : P 0 -> (forall a b, P a -> P b -> P (a + b)) -> (forall e, In e es -> P e.2) -> P (psum es).
Proof.
  intros H0 Hadd. induction es as [|e es IH]; intros H; [done|]. rewrite psum_cons. apply Hadd; [apply H; by left|].
  apply IH. intros f Hf. apply H. by right.
Qed.

(** The sum of a prefix of the events is at most the sum of all the events up
    to some day. *)
Lemma prefix_below p q e es : StronglySorted (fun e f => event_le e f = true) es -> (forall f, In f es -> f.2 = 1 \/ f.2 = -1) ->
  es = p ++ e :: q -> exists x, psum (p ++ [e]) <= psum (until x es).
Proof.
  intros Hs Hd E.
  assert (Hp : forall f, In f (p ++ [e]) -> event_le f e = true).
  { intros f [Hf|[->|[]]]%in_app_iff; [|unfold event_le; lia]. subst es. clear - Hs Hf.
    induction p as [|g p IH]; [done|]. apply StronglySorted_inv in Hs as [Hs Hg]. destruct Hf as [->|Hf]; [|by apply IH].
    apply (proj1 (List.Forall_forall _ _) Hg). apply in_app_iff. right. by left. }
  assert (Hq : forall f, In f q -> event_le e f = true).
  { subst es. clear - Hs. induction p as [|g p IH]; apply StronglySorted_inv in Hs as [Hs Hg]; [|by apply IH].
    intros f Hf. by apply (proj1 (List.Forall_forall _ _) Hg). }
  assert (E' : es = (p ++ [e]) ++ q) by by rewrite E, <- app_assoc.
  assert (Hd' : forall f, In f (p ++ [e]) \/ In f q -> f.2 = 1 \/ f.2 = -1).
  { intros f Hf. apply Hd. rewrite E'. by apply in_app_iff. }
  assert (e.2 = 1 \/ e.2 = -1) as He by (apply Hd'; left; apply in_app_iff; right; by left).
  set (x := if e.2 =? 1 then e.1 else e.1 - 1). exists x. rewrite (psum_split x (p ++ [e])), E', (until_app x (p ++ [e]) q), (psum_app (until x (p ++ [e]))).
  assert (psum (after x (p ++ [e])) <= 0) as H1.
  { apply (psum_sign (fun z => z <= 0)); [lia|intros; lia|]. intros f [Hf Hn]%filter_In. specialize (Hp f Hf).
    specialize (Hd' f (or_introl Hf)). unfold event_le, by_day, x in *. destruct (e.2 =? 1) eqn:?; lia. }
  assert (0 <= psum (until x q)) as H2.
  { apply (psum_sign (fun z => 0 <= z)); [lia|intros; lia|]. intros f [Hf Hn]%filter_In. specialize (Hq f Hf).
    pose proof (Hd' f (or_intror Hf)) as Hf2. unfold event_le, by_day, x in *.
    destruct (e.2 =? 1) eqn:?; lia. }
  lia.
Qed.

Lemma until_events x ivs : (forall ab, In ab ivs -> ab.1 < ab.2) -> psum (until x (events_of ivs)) = countb (stays_on x) ivs.
Proof.
  induction ivs as [|[a b] ivs IH]; intros H; [done|]. rewrite countb_cons, <- IH by (intros; apply H; by right).
  specialize (H (a, b) (or_introl eq_refl)). unfold events_of, until, stays_on, by_day in *. cbn [List.flat_map List.filter app fst snd] in *.
  destruct (a <=? x) eqn:Ha, (b <=? x) eqn:Hb, (x <? b) eqn:Hx; cbn [andb]; rewrite ?psum_cons; cbn [snd]; lia.
Qed.

Lemma until_perm x p q : Permutation p q -> psum (until x p) = psum (until x q).
Proof.
  intros H. apply psum_perm. unfold until. induction H; cbn [List.filter]; [done| | |by etrans].
  - destruct (by_day x x0); [by constructor|done].
  - destruct (by_day x y), (by_day x x0); try done. constructor.
Qed.

(** The sweep finds the greatest number of stays on one day. *)
Lemma max_parallel_exact ivs : (forall ab, In ab ivs -> ab.1 < ab.2) ->
  (forall x, countb (stays_on x) ivs <= max_parallel_rooms ivs) /\
  (max_parallel_rooms ivs = 1 \/ exists x, max_parallel_rooms ivs = countb (stays_on x) ivs).
Proof.
  intros H. set (es := order_by event_le (events_of ivs)).
  pose proof (events_sorted (events_of ivs)) as Hs. fold es in Hs.
  assert (Hp : Permutation es (events_of ivs)) by apply order_by_perm.
  assert (Hc : forall x, psum (until x es) = countb (stays_on x) ivs).
  { intros x. rewrite (until_perm x _ _ Hp). by apply until_events. }
  assert (Hd : forall f, In f es -> f.2 = 1 \/ f.2 = -1).
  { intros f Hf. apply (Permutation_in _ Hp) in Hf. apply in_flat_map in Hf as (ab & _ & [<-|[<-|[]]]); [by left|by right]. }
  change (max_parallel_rooms ivs) with (Z.max 1 (sweep_from es 0 0)).
  destruct (sweep_bounds es 0 0) as (H1 & H2 & H3).
  assert (Hup : forall x, countb (stays_on x) ivs <= sweep_from es 0 0).
  { intros x. rewrite <- Hc. destruct (until x es) as [|e l] eqn:E; [done|].
    specialize (H2 (until x es) (after x es) (until_prefix x es Hs)). rewrite E in H2.
    specialize (H2 (fun H => match H with eq_refl => I end)). lia. }
  split; [intros x; specialize (Hup x); lia|].
  destruct (Z.le_gt_cases (sweep_from es 0 0) 1) as [Hle|Hgt]; [left; lia|]. right.
  destruct H3 as [H3|(p & q & E & Hne & H3)]; [lia|].
  destruct (exists_last Hne) as (p' & e & ->).
  destruct (prefix_below p' q e es Hs Hd) as (x & Hx); [by rewrite E, <- app_assoc|].
  exists x. specialize (Hup x). rewrite Hc in Hx. lia.
Qed.

(** *** Categories *)

Lemma assoc_set_spec {A} k k' (v : A) l : assoc k (assoc_set k' v l) = if String.eqb k k' then Some v else assoc k l.
Proof.
  induction l as [|[k0 v0] l IH]; cbn [assoc_set assoc]; [done|]. destruct (String.eqb_spec k' k0) as [->|Hn]; cbn [assoc].
  - by destruct (String.eqb k k0).
  - rewrite IH. destruct (String.eqb_spec k k0) as [->|]; [|done]. by destruct (String.eqb_spec k0 k') as [->|].
Qed.

Lemma assoc_set_keys {A} k k' (v : A) l : In k (List.map fst (assoc_set k' v l)) <-> k = k' \/ In k (List.map fst l).
Proof.
  induction l as [|[k0 v0] l IH]; cbn [assoc_set List.map fst In]; [intuition congruence|].
  destruct (String.eqb_spec k' k0) as [->|Hn]; cbn [List.map fst In]; [|rewrite IH]; intuition congruence.
Qed.

Lemma assoc_set_NoDup {A} k (v : A) l : List.NoDup (List.map fst l) -> List.NoDup (List.map fst (assoc_set k v l)).
Proof.
  induction l as [|[k0 v0] l IH]; cbn [assoc_set List.map fst].
  - intros _. constructor; [intros []|constructor].
  - intros [Hni Hnd]%List.NoDup_cons_iff. destruct (String.eqb_spec k k0) as [->|Hn]; cbn [List.map fst]; constructor; try done.
    + intros [?|?]%assoc_set_keys; congruence.
    + by apply IH.
Qed.

Lemma assoc_NoDup {A} k (v : A) l : List.NoDup (List.map fst l) -> In (k, v) l -> assoc k l = Some v.
Proof.
  induction l as [|[k0 v0] l IH]; [done|]. cbn [List.map fst assoc]. intros [Hni Hnd]%List.NoDup_cons_iff [[= -> ->]|Hin].
  - by rewrite String.eqb_refl.
  - destruct (String.eqb_spec k k0) as [->|]; [|by apply IH]. exfalso. apply Hni. by apply (in_map fst) in Hin.
Qed.

(** The stays of a category, cancelled bookings aside. *)
Definition stays_of (rt : string) (bookings : list BookingRecord) : list (date * date) :=
  List.map (fun b => (bk_check_in b, bk_check_out b))
    (List.filter (fun b => negb (String.eqb (bk_status b) "cancelled") && String.eqb (bk_room_type b) rt) bookings).

Lemma intervals_by_type_spec bs : List.NoDup (List.map fst (intervals_by_type bs)) /\
  (forall rt, default [] (assoc rt (intervals_by_type bs)) = stays_of rt bs) /\
  (forall b, In b bs -> bk_status b <> "cancelled"%string -> In (bk_room_type b) (List.map fst (intervals_by_type bs))).
Proof.
  unfold intervals_by_type. rewrite <- List.fold_left_rev_right. 
  assert (Hr : forall l, let r := List.fold_right (fun b acc => if String.eqb (bk_status b) "cancelled" then acc
      else add_interval (bk_room_type b) (bk_check_in b, bk_check_out b) acc) [] l in
    List.NoDup (List.map fst r) /\ (forall rt, default [] (assoc rt r) = stays_of rt (List.rev l)) /\
    (forall b, In b l -> bk_status b <> "cancelled"%string -> In (bk_room_type b) (List.map fst r))).
  { induction l as [|b l (IH1 & IH2 & IH3)]; cbn [List.fold_right List.rev].
    - split; [constructor|]. split; [done|]. intros ? [].
    - set (r := List.fold_right _ _ l) in *. destruct (String.eqb_spec (bk_status b) "cancelled") as [Hc|Hc].
      + split; [done|]. split.
        * intros rt. rewrite IH2. unfold stays_of. rewrite List.filter_app. cbn [List.filter]. rewrite Hc. cbn. by rewrite app_nil_r.
        * intros b' [<-|Hb] Hne; [done|]. by apply IH3.
      + unfold add_interval. split; [by apply assoc_set_NoDup|]. split.
        * intros rt. rewrite assoc_set_spec. unfold stays_of. rewrite List.filter_app, List.map_app. fold (stays_of rt (List.rev l)).
          cbn [List.filter]. rewrite (proj2 (String.eqb_neq _ _) Hc). cbn [negb andb]. rewrite (String.eqb_sym rt).
          destruct (String.eqb_spec (bk_room_type b) rt) as [<-|Hn]; cbn [default List.map]; [by rewrite IH2|].
          by rewrite app_nil_r, <- IH2.
        * intros b' [<-|Hb] Hne; apply assoc_set_keys; [by left|right; by apply IH3]. }
  destruct (Hr (List.rev bs)) as (H1 & H2 & H3). split; [done|]. split.
  - intros rt. by rewrite H2, List.rev_involutive.
  - intros b Hb. apply H3. by apply in_rev in Hb.
Qed.

(** C40: rooms. *)
Theorem rooms_made_are_rooms_needed bs :
  (forall b, In b bs -> bk_check_in b < bk_check_out b) ->
  (forall b, In b bs -> bk_status b <> "cancelled"%string -> In (bk_room_type b) (List.map fst (max_parallel_rooms_by_type bs))) /\
  (forall rt n, In (rt, n) (max_parallel_rooms_by_type bs) ->
     (forall x, countb (stays_on x) (stays_of rt bs) <= n) /\ (n = 1 \/ exists x, n = countb (stays_on x) (stays_of rt bs))).
Proof.
  intros H. destruct (intervals_by_type_spec bs) as (H1 & H2 & H3). unfold max_parallel_rooms_by_type. split.
  - intros b Hb Hc. rewrite List.map_map. cbn. by apply H3.
  - intros rt n [[rt' ivs] [[= -> <-] Hin]]%in_map_iff. specialize (H2 rt). rewrite (assoc_NoDup _ _ _ H1 Hin) in H2. cbn [from_option id] in H2.
    subst ivs. apply max_parallel_exact. intros ab [b [<- [Hb _]%filter_In]]%in_map_iff. by apply H.
Qed.

(** ** Chunks of dates *)

Definition dates_of (chunk : date * date) : list date := seqZ chunk.1 (chunk.2 - chunk.1 + 1).

Lemma seqZ_split a b m : 0 <= m -> 0 <= b -> seqZ a (m + b) = seqZ a m ++ seqZ (a + m) b.
Proof. intros. by rewrite seqZ_app. Qed.

Lemma date_chunks_exact fuel n cur last : 1 <= n -> MINORD <= cur -> last + n <= MAXORD -> (Z.to_nat (last - cur + 1) <= fuel)%nat ->
  exists l, date_chunks_from fuel n cur last = (l, None) /\
    List.flat_map dates_of l = seqZ cur (last - cur + 1) /\ Forall (fun ab => ab.1 <= ab.2 <= last /\ ab.2 - ab.1 < n) l.
Proof.
  revert cur. induction fuel as [|fuel IH]; intros cur Hn Hc Hl Hf; cbn [date_chunks_from].
  - exists []. split; [done|]. split; [|constructor]. cbn. rewrite seqZ_nil; [done|lia].
  - destruct (Z.ltb_spec last cur) as [Hlt|Hge].
    + exists []. split; [done|]. split; [|constructor]. cbn. rewrite seqZ_nil; [done|lia].
    + rewrite date_add_ok by (unfold valid_date; lia). set (e := Z.min (cur + (n - 1)) last).
      assert (cur <= e <= last /\ e < cur + n) as He by (unfold e; lia). clearbody e.
      rewrite date_add_ok by (unfold valid_date; lia).
      destruct (IH (e + 1)) as (l & El & Hl1 & Hl2); [lia|lia|lia|lia|]. rewrite El.
      exists ((cur, e) :: l). split; [done|]. split.
      * cbn [List.flat_map]. rewrite Hl1. unfold dates_of. cbn [fst snd].
        replace (last - cur + 1) with ((e - cur + 1) + (last - (e + 1) + 1)) by lia. rewrite (seqZ_split cur _ (e - cur + 1)) by lia. do 2 f_equal; lia.
      * constructor; [cbn; lia|done].
Qed.

Lemma iter_date_chunks_exact n start last : 1 <= n -> MINORD <= start -> last + n <= MAXORD ->
  exists l, iter_date_chunks start last n = (l, None) /\
    List.flat_map dates_of l = seqZ start (last - start + 1) /\ Forall (fun ab => ab.1 <= ab.2 <= last /\ ab.2 - ab.1 < n) l.
Proof. intros. by apply date_chunks_exact. Qed.

(** *** Three stays, two of them at once *)

Definition stay (i : string) (d1 d2 : date) (status : string) : BookingRecord :=
  MkBookingRecord i d1 d2 "Garden" "Standard" (MkBookingGuestSnapshot "Ann" "Lee" "ann@example.com" "+100" None) status "migration" None None None.

Definition season : list BookingRecord :=
  [stay "P-1" 739000 739003 "confirmed"; stay "P-2" 739002 739004 "confirmed"; stay "P-3" 739003 739006 "confirmed"; stay "P-4" 739002 739006 "cancelled"].

Lemma rooms_made_are_rooms_needed_witness :
  max_parallel_rooms_by_type season = [("Garden"%string, 2)] /\
  (forall x, countb (stays_on x) (stays_of "Garden" season) <= 2).
Proof.
  split; [vm_compute; reflexivity|].
  apply (rooms_made_are_rooms_needed season); [|vm_compute; by left].
  intros b Hb. cbv [season In] in Hb. decompose [or] Hb; subst; done.
Defined.
