(* ===== verification/MigrationRuns.v ===== *)
(** * Runs of the migration

    What a stage may change of a run, step by step along its structure; that a
    booking is recorded or reported before the stage moves on; and that a run
    taken up again does nothing once every stage has come to its end. *)

From stdpp Require Import gmap strings pretty.
From S2P Require Import Prelude PyDecimal PyJson StayDates Calendar Tax TaxOrder Models Session Auth Access Remote ChannexClient MigrationState Preno Migration MigrationLaws.

(** ** What a stage leaves as it is *)

Definition store_onwards (o o' : option StateStore) : Prop :=
  match o, o' with
  | None, None => True
  | Some s, Some s' => st_stages s' = st_stages s /\ (forall k, is_Some (st_processed s !! k) -> is_Some (st_processed s' !! k))
  | _, _ => False
  end.

Record onwards (p p' : pipeline) : Prop := Onwards {
  on_run : pl_run p' = pl_run p;
  on_store : store_onwards (pl_store p) (pl_store p');
  on_errors : forall e, In e (mr_errors (pl_report p)) -> In e (mr_errors (pl_report p'));
  on_keys : forall k, is_Some (assoc k (mr_stages (pl_report p))) -> is_Some (assoc k (mr_stages (pl_report p'))) }.

#[export] Instance store_onwards_pre : PreOrder store_onwards.
Proof.
  split; [by intros [s|]|]. intros [s1|] [s2|] [s3|]; try done. intros [E1 H1] [E2 H2]. split; [congruence|]. intros k Hk. by apply H2, H1.
Qed.

#[export] Instance onwards_pre : PreOrder onwards.
Proof.
  split; [by intros p; constructor|]. intros p q r [E1 S1 F1 K1] [E2 S2 F2 K2].
  constructor; [congruence|by etrans|intros e He; by apply F2, F1|intros k Hk; by apply K2, K1].
Qed.

Section walks.
Context {W : Type}.

Definition walks {A} (m : @J W A) : Prop := forall p w, onwards p (m p w).1.1.

Lemma walks_ret {A} (a : A) : walks (@mret (@J W) J_ret A a).
Proof. intros p w. reflexivity. Qed.
Lemma walks_raise {A} e : walks (J_raise (W := W) (A := A) e).
Proof. intros p w. reflexivity. Qed.
Lemma walks_lift {A} (r : result A) : walks (J_lift (W := W) r).
Proof. intros p w. reflexivity. Qed.
Lemma walks_ask {A} (c : call W A) : walks (ask c).
Proof. intros p w. unfold ask. destruct (c w). reflexivity. Qed.
Lemma walks_query {A} (d : A) f : walks (state_query (W := W) d f).
Proof. intros p w. reflexivity. Qed.
Lemma walks_bind {A B} (m : @J W A) (k : A -> @J W B) : walks m -> (forall a, walks (k a)) -> walks (@mbind (@J W) J_bind A B k m).
Proof.
  intros Hm Hk p w. unfold mbind, J_bind. specialize (Hm p w). destruct (m p w) as [[p1 w1] [a|e]]; [|done].
  etrans; [exact Hm|apply Hk].
Qed.
Lemma walks_try {A} (m : @J W A) h : walks m -> (forall e k, h e = Some k -> walks k) -> walks (J_try m h).
Proof.
  intros Hm Hh p w. unfold J_try. specialize (Hm p w). destruct (m p w) as [[p1 w1] [a|e]]; [done|].
  destruct (h e) as [k|] eqn:Ek; [|done]. etrans; [exact Hm|by apply (Hh e k)].
Qed.
Lemma walks_for {A} (l : list A) (f : A -> @J W unit) : (forall a, walks (f a)) -> walks (J_for l f).
Proof.
  intros Hf. induction l as [|x l IH]; [apply walks_ret|]. cbn [J_for]. apply walks_bind; [apply Hf|]. intros _. exact IH.
Qed.
Lemma walks_event stage entity sid result details : walks (event stage entity sid result details).
Proof. intros p w. constructor; cbn; try done. Qed.
Lemma walks_with_state f : (forall run s, store_onwards (Some s) (Some (f run s))) -> walks (with_state f).
Proof.
  intros Hf p w. unfold with_state. destruct (pl_store p) as [s|] eqn:Es; [|reflexivity].
  destruct (truthy (pl_run p)); [|reflexivity]. constructor; cbn; try done. rewrite Es. apply Hf.
Qed.

Definition report_onwards (f : MigrationReport -> MigrationReport) : Prop := forall r,
  (forall e, In e (mr_errors r) -> In e (mr_errors (f r))) /\ (forall k, is_Some (assoc k (mr_stages r)) -> is_Some (assoc k (mr_stages (f r)))).

Lemma walks_report f : report_onwards f -> walks (on_report f).
Proof. intros Hf p w. destruct (Hf (pl_report p)). constructor; cbn; done. Qed.

Lemma set_stage_onwards k s : report_onwards (set_stage k s).
Proof. intros r. split; [done|]. cbn. intros k' H. rewrite assoc_set_spec. by destruct (String.eqb k' k). Qed.
Lemma count_in_onwards k f : report_onwards (count_in k f).
Proof. intros r. unfold count_in. destruct (assoc k (mr_stages r)); [apply set_stage_onwards|done]. Qed.
Lemma set_mapping_onwards f : report_onwards (fun r => set_mr_mapping (f r) r).
Proof. by intros r. Qed.
Lemma add_error_onwards entity ref message : report_onwards (add_error entity ref message).
Proof. intros r. split; [|done]. cbn. intros e He. apply in_app_iff. by left. Qed.

Lemma walks_count stage c n : walks (count stage c n).
Proof. apply walks_report, count_in_onwards. Qed.
Lemma walks_add_total stage n : walks (add_total stage n).
Proof. apply walks_report, count_in_onwards. Qed.
Lemma walks_finish_counts stage n m : walks (finish_counts stage n m).
Proof. apply walks_report, count_in_onwards. Qed.
Lemma walks_new_stats stage n : walks (new_stats stage n).
Proof. apply walks_report, set_stage_onwards. Qed.
Lemma walks_set_stage stage s : walks (on_report (set_stage stage s)).
Proof. apply walks_report, set_stage_onwards. Qed.
Lemma walks_mapping f : walks (on_report (fun r => set_mr_mapping (f r) r)).
Proof. apply walks_report, set_mapping_onwards. Qed.
Lemma walks_error entity ref message : walks (error entity ref message).
Proof. apply walks_report, add_error_onwards. Qed.

Lemma mark_onwards f entity ext oid result : walks (with_state (fun run => mark_processed (f run) entity ext oid result)).
Proof.
  apply walks_with_state. intros run s. split; [done|]. cbn. intros k Hk. rewrite lookup_insert_is_Some.
  destruct (decide ((f run, entity, ext) = k)); auto.
Qed.
(** The stage's counts are in the report when it ends. *)
Definition counted (stage : string) (m : @J W unit) : Prop :=
  walks m /\ forall p w p' w', m p w = (p', w', Ok tt) -> is_Some (assoc stage (mr_stages (pl_report p'))).

Lemma counted_after stage s0 (k : unit -> @J W unit) : (forall u, walks (k u)) ->
  counted stage (@mbind (@J W) J_bind _ _ k (on_report (set_stage stage s0))).
Proof.
  intros Hk. split; [apply walks_bind; [apply walks_set_stage|exact Hk]|]. intros p w p' w' H. unfold mbind, J_bind, on_report in H.
  specialize (Hk tt (Pipeline (pl_store p) (set_stage stage s0 (pl_report p)) (pl_log p) (pl_run p)) w). rewrite H in Hk.
  apply (on_keys _ _ Hk). cbn. rewrite assoc_set_spec, String.eqb_refl. by eexists.
Qed.

Lemma counted_then {A} stage (m : @J W A) (k : A -> @J W unit) : walks m -> (forall a, counted stage (k a)) ->
  counted stage (@mbind (@J W) J_bind _ _ k m).
Proof.
  intros Hm Hk. split; [apply walks_bind; [done|intros a; apply Hk]|]. intros p w p' w' H. unfold mbind, J_bind in H.
  destruct (m p w) as [[p1 w1] [a|e]]; [|discriminate H]. by apply (Hk a) in H.
Qed.
Lemma map_onwards kind name oid : walks (with_state (fun run => put_mapping run kind name oid)).
Proof. by apply walks_with_state. Qed.
End walks.

Create HintDb walks discriminated.
#[export] Hint Resolve walks_ret walks_raise walks_lift walks_ask walks_query walks_event walks_count walks_add_total walks_finish_counts
  walks_new_stats walks_set_stage walks_mapping walks_error mark_onwards map_onwards : walks.

(** Follow the structure of a computation; stages of it are found in [walks]. *)
Ltac walk_step :=
  match goal with
  | |- walks (mbind _ _) => apply walks_bind; [|intros ?]
  | |- walks (J_try _ _) => apply walks_try; [|let H := fresh in intros ? ? H; repeat match type of H with (if ?b then _ else _) = _ => destruct b end; simplify_eq]
  | |- walks (J_for _ _) => apply walks_for; intros ?
  | |- walks (match ?x with _ => _ end) => destruct x
  | |- walks (if ?b then _ else _) => destruct b
  | |- walks (let _ := _ in _) => cbv zeta
  | |- _ => solve [eauto with walks nocore]
  end.
Ltac walking := intros; repeat walk_step.

Section stages.
Context {env : Env} {crypto : Crypto} {host : Host} {W : Type} {api : Wire W} (cf : config).

Lemma walks_room_type_map c : walks (room_type_map cf c).
Proof. unfold room_type_map. walking. Qed.
Lemma walks_rate_plan_map c : walks (rate_plan_map cf c).
Proof. unfold rate_plan_map. walking. Qed.
#[local] Hint Resolve walks_room_type_map walks_rate_plan_map : walks.

Lemma walks_room_type_known n k i r : walks (W := W) (room_type_known n k i r).
Proof. unfold room_type_known, persist_room_type. walking. Qed.
#[local] Hint Resolve walks_room_type_known : walks.

Lemma counted_room_types c rts : counted "room_types" (stage_room_types cf c rts).
Proof.
  unfold stage_room_types. apply counted_after. intros _. walking. match goal with |- walks (room_types_loop _ _ ?m _) => generalize m end.
  induction rts as [|rt rts IH]; intros m; cbn [room_types_loop]; walking.
Qed.

Lemma counted_rooms c bs rms : counted "rooms" (stage_rooms cf c bs rms).
Proof. unfold stage_rooms, rooms_without_type, create_rooms_of_type, create_room_chunk. apply counted_after. intros _. walking. Qed.

Lemma counted_rate_plans c rps : counted "rate_plans" (stage_rate_plans cf c rps).
Proof.
  unfold stage_rate_plans. apply counted_after. intros _. walking. match goal with |- walks (rate_plans_loop _ _ ?m _) => generalize m end.
  induction rps as [|rp rps IH]; intros m; cbn [rate_plans_loop]; [walking|]. unfold persist_rate_plan. walking.
Qed.

Lemma walks_sum_loop {A} (l : list A) (f : A -> Z -> @J W Z) acc : (forall a n, walks (f a n)) -> walks (sum_loop l f acc).
Proof. intros Hf. revert acc. induction l as [|x l IH]; intros acc; cbn [sum_loop]; walking. Qed.
Lemma walks_over_chunks d1 d2 (f : date * date -> @J W Z) acc : (forall x, walks (f x)) -> walks (over_chunks d1 d2 f acc).
Proof.
  intros Hf. unfold over_chunks. destruct (iter_date_chunks d1 d2 90) as [l e]. apply walks_bind; [|walking].
  revert acc. induction l as [|x l IH]; intros acc; cbn [chunk_loop]; walking.
Qed.
Lemma walks_put_chunk a b d e f (m : call W json) : walks (put_chunk a b d e f m).
Proof. unfold put_chunk. walking. Qed.
#[local] Hint Resolve walks_put_chunk : walks.

Lemma counted_rates c bs : counted "rates" (stage_rates cf c bs).
Proof.
  unfold stage_rates, put_rates. apply counted_after. intros _. walking. apply walks_sum_loop. intros [rt rp] n. apply walks_over_chunks. walking.
Qed.
Lemma counted_availability c bs : counted "availability" (stage_availability cf c bs).
Proof.
  unfold stage_availability, seed_chunk. apply counted_after. intros _. walking. apply walks_sum_loop. intros rt n. apply walks_over_chunks. walking.
Qed.

Lemma walks_batch_loop {A} stage (chunks : list (list A)) (f : A -> @J W unit) n total :
  (forall a, walks (f a)) -> walks (batch_loop stage chunks f n total).
Proof. intros Hf. revert n. induction chunks as [|x l IH]; intros n; cbn [batch_loop]; walking. Qed.

Lemma walks_lookup_guest c e : walks (guest_lookup_openpms c e).
Proof. unfold guest_lookup_openpms. walking. Qed.
Lemma walks_settle_guest g i r d k : walks (settle_guest (W := W) g i r d k).
Proof. unfold settle_guest. walking. Qed.
Lemma walks_patch_guest c g i : walks (patch_existing_guest c g i).
Proof. unfold patch_existing_guest. walking. Qed.
Lemma walks_post_guest c g e n : walks (post_guest c g e n).
Proof. unfold post_guest. walking. Qed.
Lemma walks_guest_failed g e : walks (guest_failed (W := W) g e).
Proof. unfold guest_failed. walking. Qed.
#[local] Hint Resolve walks_lookup_guest walks_settle_guest walks_patch_guest walks_post_guest walks_guest_failed : walks.

Lemma walks_guest_conflict c g e : walks (handle_guest_post_conflict cf c g e).
Proof. unfold handle_guest_post_conflict. walking. Qed.
#[local] Hint Resolve walks_guest_conflict : walks.

Lemma counted_guests c gs : counted "guests" (stage_guests cf c gs).
Proof.
  unfold stage_guests, source_dup. destruct (dedupe_guests_by_email gs) as [unique dups].
  apply counted_then; [walking|intros _]. apply counted_after. intros _. apply walks_batch_loop. intros g.
  unfold import_guest, guest_processed_skip, finalize_guest_existing, create_guest_or_recover. walking.
Qed.

Lemma walks_settle_booking b i r e d k : walks (settle_booking (W := W) b i r e d k).
Proof. unfold settle_booking. walking. Qed.
Lemma walks_sync c i u v : walks (sync_booking_lifecycle_status c i u v).
Proof. unfold sync_booking_lifecycle_status. walking. Qed.
#[local] Hint Resolve walks_settle_booking walks_sync : walks.
Lemma walks_found c b row reason : walks (handle_booking_found_existing cf c b row reason).
Proof. unfold handle_booking_found_existing. walking. Qed.
#[local] Hint Resolve walks_found : walks.
Lemma walks_try_create c b i j : walks (try_create_booking cf c b i j).
Proof. unfold try_create_booking. walking. Qed.
#[local] Hint Resolve walks_try_create : walks.
Lemma walks_failed b m : walks (booking_failed (W := W) b m).
Proof. unfold booking_failed. walking. Qed.
#[local] Hint Resolve walks_failed : walks.
Lemma walks_create_or_note c b i j : walks (create_booking_or_note cf c b i j).
Proof. unfold create_booking_or_note. walking. Qed.
#[local] Hint Resolve walks_create_or_note : walks.
Lemma walks_import_booking c m n b : walks (import_booking cf c m n b).
Proof. unfold import_booking, booking_processed_skip. walking. Qed.
Lemma counted_bookings c bs : counted "bookings" (stage_bookings cf c bs).
Proof. unfold stage_bookings. apply counted_after. intros _. walking. apply walks_batch_loop. intros b. apply walks_import_booking. Qed.

Lemma counted_verify c bs : counted "verify" (stage_verify cf c bs).
Proof. unfold stage_verify. apply counted_after. intros _. walking. Qed.

Lemma counted_stages c src : Forall (fun st => counted st.1 st.2) (stage_runners cf c src).
Proof.
  apply List.Forall_forall. intros st Hst. cbn [stage_runners In] in Hst.
  repeat (destruct Hst as [<-|Hst]; [cbn [fst snd]; auto using counted_room_types, counted_rooms, counted_rate_plans, counted_rates,
    counted_availability, counted_guests, counted_bookings, counted_verify|]). done.
Qed.
End stages.

(** ** No booking is lost *)

Definition has_state (p : pipeline) : Prop := is_Some (pl_store p) /\ truthy (pl_run p) = true.

(** Recorded in the state file, or named in the report. *)
Definition accounted (b : BookingRecord) (p : pipeline) : Prop :=
  (exists s, pl_store p = Some s /\ (is_processed (pl_run p) "booking" (bk_external b) s).1 = true) \/
  (exists e, In e (mr_errors (pl_report p)) /\ re_entity e = "booking"%string /\ re_ref e = bk_external b).

Lemma is_processed_spec run entity ext s : (is_processed run entity ext s).1 = true <-> is_Some (st_processed s !! (run, entity, ext)).
Proof. unfold is_processed. destruct (st_processed s !! _) as [[]|]; cbn; split; intros H; try done; by destruct H. Qed.

Lemma onwards_state p p' : onwards p p' -> has_state p -> has_state p'.
Proof.
  intros [E Hs _ _] [[s Es] Hr]. rewrite Es in Hs. split; [|by rewrite E]. by destruct (pl_store p').
Qed.

Lemma onwards_accounted b p p' : onwards p p' -> accounted b p -> accounted b p'.
Proof.
  intros [E Hs He _] [(s & Es & Hp)|(e & Hin & H)]; [left|right; exists e; split; [by apply He|done]].
  rewrite Es in Hs. destruct (pl_store p') as [s'|]; [|done]. exists s'. split; [done|]. apply is_processed_spec. rewrite E.
  apply Hs. by apply is_processed_spec.
Qed.

Section settles.
Context {W : Type} (Q : pipeline -> Prop) (HQ : forall p p', onwards p p' -> Q p -> Q p').

(** [Q] holds whenever the computation comes to its end. *)
Definition settles {A} (m : @J W A) : Prop := forall p w p' w' a, has_state p -> m p w = (p', w', Ok a) -> Q p'.

Lemma settles_raise {A} e : settles (J_raise (A := A) e).
Proof. by intros p w p' w' a _ H. Qed.
Lemma settles_bind {A B} (m : @J W A) (k : A -> @J W B) : walks m -> (forall a, settles (k a)) -> settles (@mbind (@J W) J_bind A B k m).
Proof.
  intros Hm Hk p w p' w' b Hp H. unfold mbind, J_bind in H. specialize (Hm p w). destruct (m p w) as [[p1 w1] [a|e]]; [|discriminate H].
  eapply Hk; [|exact H]. by eapply onwards_state.
Qed.
Lemma settles_first {A B} (m : @J W A) (k : A -> @J W B) : settles m -> (forall a, walks (k a)) -> settles (@mbind (@J W) J_bind A B k m).
Proof.
  intros Hm Hk p w p' w' b Hp H. unfold mbind, J_bind in H. destruct (m p w) as [[p1 w1] [a|e]] eqn:E; [|discriminate H].
  specialize (Hk a p1 w1). rewrite H in Hk. eapply HQ; [exact Hk|]. by eapply Hm.
Qed.
Lemma settles_try {A} (m : @J W A) h : walks m -> settles m -> (forall e k, h e = Some k -> settles k) -> settles (J_try m h).
Proof.
  intros Hw Hm Hh p w p' w' a Hp H. unfold J_try in H. specialize (Hw p w). destruct (m p w) as [[p1 w1] [b|e]] eqn:E.
  - injection H as <- <- <-. by eapply Hm.
  - destruct (h e) as [k|] eqn:Ek; [|discriminate H]. eapply (Hh e k Ek); [|exact H]. by eapply onwards_state.
Qed.
End settles.

Section bookings.
Context {env : Env} {crypto : Crypto} {host : Host} {W : Type} {api : Wire W} (cf : config).

#[local] Abbreviation accounts b := (settles (W := W) (accounted b)).

Lemma settles_mark b oid r : accounts b (with_state (fun run => mark_processed run "booking" (bk_external b) oid r)).
Proof.
  intros p w p' w' a [[s Es] Hr] H. unfold with_state in H. rewrite Es, Hr in H. injection H as <- _ _. left. eexists. split; [done|].
  apply is_processed_spec. cbn. rewrite lookup_insert_eq. by eexists.
Qed.

Lemma settles_error b msg : accounts b (error "booking" (bk_external b) msg).
Proof.
  intros p w p' w' a _ H. injection H as <- _ _. right. eexists. split; [cbn; apply in_app_iff; right; by left|done].
Qed.

Lemma settles_settle b i r e d k : accounts b (settle_booking b i r e d k).
Proof. apply settles_bind; [apply walks_count|]. intros _. apply (settles_first _ (onwards_accounted b)); [apply settles_mark|walking]. Qed.

Lemma settles_failed b msg : accounts b (booking_failed b msg).
Proof. apply settles_bind; [apply walks_count|]. intros _. apply (settles_first _ (onwards_accounted b)); [apply settles_error|walking]. Qed.

Lemma settles_found c b row reason : accounts b (handle_booking_found_existing cf c b row reason).
Proof.
  do 3 (apply settles_bind; [walking|intros ?]). cbv zeta. destruct (cf_on_conflict cf).
  - destruct (String.eqb reason "precheck"); apply settles_settle.
  - apply settles_bind; [apply walks_sync|]. intros _. apply settles_settle.
  - apply settles_raise.
Qed.

Lemma settles_create c b i j : accounts b (create_booking_or_note cf c b i j).
Proof.
  apply settles_try; [apply walks_try_create| |].
  - apply settles_try.
    + walking. apply walks_sync.
    + do 4 (apply settles_bind; [walking|intros ?]). apply (settles_first _ (onwards_accounted b)); [apply settles_mark|]. walking. apply walks_sync.
    + intros e k Hk. destruct (is_error "APIConflictError" e); [|discriminate Hk]. injection Hk as <-.
      apply settles_bind; [walking|]. intros [row|]; [destruct (py_bool row)|]; auto using settles_found, settles_settle.
  - intros e k Hk. destruct (is_error "OnConflictFailError" e); [discriminate Hk|]. injection Hk as <-. apply settles_failed.
Qed.

Lemma settles_import c m n b : accounts b (import_booking cf c m n b).
Proof.
  intros p w p' w' a Hp H. unfold import_booking in H. unfold mbind at 1, J_bind at 1 in H.
  destruct Hp as [[s Es] Hr]. unfold booking_processed_skip, state_query in H. rewrite Es, Hr in H.
  destruct (is_processed _ _ _ s).1 eqn:E.
  - pose proof (walks_bind (count "bookings" Skipped 1) _ (walks_count _ _ _)
      (fun _ => walks_event (W := W) "bookings" "booking" (bk_external b) "skipped" "resume: already processed") p w) as Hw.
    rewrite H in Hw. eapply onwards_accounted; [exact Hw|]. left. by exists s.
  - assert (Hp : has_state p) by (split; [by eexists|done]). cbv zeta in H.
    match type of H with ?k p w = _ => assert (Hk : accounts b k); [|exact (Hk p w p' w' a Hp H)] end. clear.
    destruct (assoc _ m) as [rt|]; [|apply settles_failed]. destruct (assoc _ n) as [rp|]; [|apply settles_failed].
    destruct (cf_precheck cf); [|apply settles_create]. apply settles_bind; [walking|].
    intros [row|]; [destruct (py_bool row)|]; auto using settles_found, settles_create.
Qed.

Lemma settles_for (f : BookingRecord -> @J W unit) l : (forall b, walks (f b)) -> (forall b, accounts b (f b)) ->
  settles (W := W) (fun p => forall b, In b l -> accounted b p) (J_for l f).
Proof.
  intros Hw Hf. induction l as [|x l IH]; [by intros ? ? ? ? ? ? ? ? []|]. intros p w p' w' a Hp H. cbn [J_for] in H.
  unfold mbind, J_bind in H. pose proof (Hw x p w) as H1. destruct (f x p w) as [[p1 w1] [[]|e]] eqn:E; [|discriminate H].
  pose proof (walks_for l f Hw p1 w1) as H2. rewrite H in H2. intros b [<-|Hb].
  - eapply onwards_accounted; [exact H2|]. by eapply Hf.
  - eapply IH; [|exact H|done]. by eapply onwards_state.
Qed.

Lemma settles_batches stage (f : BookingRecord -> @J W unit) chunks n total : (forall b, walks (f b)) -> (forall b, accounts b (f b)) ->
  settles (W := W) (fun p => forall b, In b (List.concat chunks) -> accounted b p) (batch_loop stage chunks f n total).
Proof.
  intros Hw Hf. revert n. induction chunks as [|x l IH]; intros n; [by intros ? ? ? ? ? ? ? ? []|].
  intros p w p' w' a Hp H. cbn [batch_loop] in H. unfold mbind at 1, J_bind at 1 in H.
  pose proof (walks_for x f Hw p w) as H1. destruct (J_for x f p w) as [[p1 w1] [[]|e]] eqn:E; [|discriminate H].
  assert (Hp1 : has_state p1) by by eapply onwards_state. cbn [fst] in H1.
  pose proof (settles_for f x Hw Hf p w p1 w1 tt Hp E) as Hx. cbv zeta in H.
  assert (H2 : onwards p1 p').
  { match type of H with ?m p1 w1 = _ => assert (Hm : walks m) by (apply walks_bind; [walking|intros _; by apply walks_batch_loop]); specialize (Hm p1 w1) end.
    by rewrite H in Hm. }
  intros b Hb%in_app_iff. destruct Hb as [Hb|Hb]; [by eapply onwards_accounted; [|apply Hx]|].
  match type of H with ?k p1 w1 = _ => assert (Hk : settles (W := W) (fun p => forall b, In b (List.concat l) -> accounted b p) k) end.
  { apply settles_bind; [walking|]. intros _. apply IH. }
  exact (Hk p1 w1 p' w' a Hp1 H b Hb).
Qed.

Lemma iter_batches_concat {A} (l : list A) n : (0 < n)%nat -> List.concat (iter_batches l n) = l.
Proof.
  intros Hn. unfold iter_batches. enough (H : forall fuel l, (length l <= fuel)%nat -> List.concat (batches_from fuel n l) = l) by by apply H.
  induction fuel as [|fuel IH]; intros [|x k] Hf; [done|cbn in Hf; lia|done|].
  cbn [batches_from List.concat]. rewrite IH; [by apply List.firstn_skipn|].
  rewrite List.length_skipn. cbn [length] in *. lia.
Qed.

(** C37: bookings. *)
Theorem every_booking_accounted_for c bs p w p' w' : (0 < cf_batch_size cf)%nat -> has_state p ->
  stage_bookings cf c bs p w = (p', w', Ok tt) -> forall b, In b bs -> accounted b p'.
Proof.
  intros Hn Hp H. rewrite <- (iter_batches_concat bs (cf_batch_size cf) Hn).
  revert p w p' w' Hp H.
  assert (Hk : settles (W := W) (fun p => forall b, In b (List.concat (iter_batches bs (cf_batch_size cf))) -> accounted b p) (stage_bookings cf c bs));
    [|intros p w p' w'; exact (Hk p w p' w' tt)].
  unfold stage_bookings.
  do 3 (apply settles_bind; [auto using walks_new_stats, walks_room_type_map, walks_rate_plan_map|intros ?]).
  apply settles_batches; [apply walks_import_booking|apply settles_import].
Qed.
End bookings.

(** ** A run taken up again *)

Definition finished (run stage : string) (s : StateStore) : Prop := exists stats, get_stage_status run stage s = (Some "done"%string, Some stats).

(** The store of a pipeline, for a run under way. *)
Definition keeps_run (run : string) (p : pipeline) : Prop := truthy run = true /\ pl_run p = run /\ is_Some (pl_store p).
Definition stage_finished (stage : string) (p : pipeline) : Prop := exists s, pl_store p = Some s /\ finished (pl_run p) stage s.

Lemma finished_same run stage s s' : st_stages s' = st_stages s -> finished run stage s -> finished run stage s'.
Proof. unfold finished, get_stage_status. by intros ->. Qed.

Lemma finished_set run stage k status stats s : stage <> k -> finished run k s -> finished run k (set_stage_status run stage status stats s).
Proof. intros Hne. unfold finished, get_stage_status, set_stage_status. cbn. by rewrite lookup_insert_ne by congruence. Qed.

Lemma finished_done run stage stats s : finished run stage (set_stage_status run stage "done" (Some stats) s).
Proof.
  unfold finished, get_stage_status, set_stage_status. cbn [st_stages]. rewrite lookup_insert_eq, stage_stats_roundtrip. by exists stats.
Qed.

Section resume.
Context {env : Env} {crypto : Crypto} {host : Host} {W : Type} {api : Wire W} (cf : config).

(** Whether a stage is skipped, and what skipping it leaves alone. *)
Definition skip_spec (k : string) (p : pipeline) (w : W) : Prop := exists p1 b, maybe_skip_stage (W := W) cf k p w = (p1, w, Ok b) /\
  pl_run p1 = pl_run p /\ pl_store p1 = pl_store p /\ mr_errors (pl_report p1) = mr_errors (pl_report p) /\
  (b = true -> stage_finished k p) /\ (cf_resume cf = true -> has_state p -> stage_finished k p -> b = true).

Lemma not_skipped k p w : maybe_skip_stage (W := W) cf k p w = (p, w, Ok false) ->
  (cf_resume cf = true -> has_state p -> stage_finished k p -> False) -> skip_spec k p w.
Proof. intros E H. exists p, false. do 4 (split; [done|]). split; [done|]. intros H1 H2 H3. destruct (H H1 H2 H3). Qed.

#[local] Ltac run_skip := unfold maybe_skip_stage, mbind, J_bind, state_query, on_report, event;
  repeat (first [match goal with E : ?x = _ |- context [?x] => rewrite E end
                | progress cbn -[get_stage_status all_mappings audit_line String.eqb set_stage set_mr_mapping]]).

Lemma maybe_skip_spec k p w : skip_spec k p w.
Proof.
  destruct (cf_resume cf) eqn:Hres; [|apply not_skipped; [by run_skip|congruence]].
  destruct (pl_store p) as [s|] eqn:Es; [|apply not_skipped; [by run_skip|intros _ [[? ?] _]; congruence]].
  destruct (truthy (pl_run p)) eqn:Hr; [|apply not_skipped; [by run_skip|intros _ [_ ?]; congruence]].
  destruct (get_stage_status (pl_run p) k s) as [[st|] [stats|]] eqn:E;
    try (apply not_skipped; [by run_skip|intros _ _ (s' & Es' & stats' & H); congruence]).
  destruct (String.eqb st "done") eqn:Hst;
    [|apply not_skipped; [by run_skip|intros _ _ (s' & Es' & stats' & H)]; apply String.eqb_neq in Hst; congruence].
  apply String.eqb_eq in Hst as ->. assert (stage_finished k p) as Hf by (exists s; split; [done|by exists stats]).
  unfold skip_spec. destruct (String.eqb k "room_types") eqn:Hk;
    do 2 eexists; (split; [run_skip; reflexivity|]); cbn; auto.
Qed.

Lemma run_stage_finishes k (m : @J W unit) run p w p' w' : counted k m -> keeps_run run p -> run_stage cf (k, m) p w = (p', w', Ok tt) ->
  keeps_run run p' /\ stage_finished k p' /\ forall j, stage_finished j p -> stage_finished j p'.
Proof.
  intros [Hw Hc] (Hr & Erun & [s Es]) H. unfold run_stage in H. cbn [fst snd] in H. unfold mbind at 1, J_bind at 1 in H.
  destruct (maybe_skip_spec k p w) as (p1 & b & E & E1 & E2 & E3 & Hb & _). rewrite E in H. destruct b.
  - injection H as <- <-. unfold keeps_run, stage_finished. rewrite E1, E2. split; [done|]. split; [by apply Hb|done].
  - clear Hb. unfold begin_stage, end_stage, J_try, mbind, J_bind in H.
    unfold with_state at 1 in H. rewrite E2, Es, E1, Erun, Hr in H. unfold event at 1 in H. cbn [pl_store pl_report pl_log pl_run] in H.
    match type of H with context [m ?q w] => set (p2 := q) in H; pose proof (Hw p2 w) as H2; destruct (m p2 w) as [[p3 w3] [[]|e]] eqn:Em end.
    + destruct H2 as [R2 S2 _ _]. cbn [fst snd] in R2, S2. cbn in R2, S2. rewrite R2 in H.
      destruct (pl_store p3) as [s3|] eqn:Es3; [|done]. destruct S2 as [S2 _]. rewrite Hr in H. unfold with_state, event in H.
      rewrite Es3, R2, Hr in H. cbn in H. injection H as <- _. destruct (Hc _ _ _ _ Em) as [stats Hst]. rewrite Hst.
      split; [by split; [|split; [|eexists]]|]. unfold stage_finished. cbn. split; [eexists; split; [done|apply finished_done]|].
      intros j (s' & Es' & Hj). eexists. split; [done|]. destruct (String.eqb_spec k j) as [<-|Hne]; [apply finished_done|].
      apply finished_set; [done|]. apply (finished_same run j (set_stage_status run k "running" None s)); [exact S2|]. rewrite Es in Es'. injection Es' as <-. rewrite Erun in Hj.
      by apply (finished_set run k j "running" None s Hne).
    + destruct H2 as [R2 S2 _ _]. cbn in R2, S2. exfalso. unfold J_raise in H.
      destruct (pl_store p3) as [s3|] eqn:Es3; [|done]. unfold with_state, event in H. do 3 (rewrite ?Es3, ?R2, ?Hr in H; cbn in H). discriminate H.
Qed.

Lemma stages_finish (l : list (string * @J W unit)) run p w p' w' : Forall (fun st => counted st.1 st.2) l -> keeps_run run p ->
  J_for l (run_stage cf) p w = (p', w', Ok tt) ->
  keeps_run run p' /\ forall k, In k (List.map fst l) \/ stage_finished k p -> stage_finished k p'.
Proof.
  intros Hl. revert p w. induction Hl as [|[k m] l Hc _ IH]; intros p w Hk H.
  - injection H as <- <-. split; [done|]. by intros k [[]|?].
  - cbn [J_for] in H. unfold mbind, J_bind in H. destruct (run_stage cf (k, m) p w) as [[p1 w1] [[]|e]] eqn:E; [|discriminate H].
    destruct (run_stage_finishes k m run p w p1 w1 Hc Hk E) as (Hk1 & H1 & H2). destruct (IH p1 w1 Hk1 H) as [Hk2 H3]. split; [done|].
    cbn [List.map In]. intros j [[<-|Hj]|Hj]; apply H3; auto.
Qed.

(** Every stage has come to its end: nothing is done again. *)
Lemma stages_skipped (l : list (string * @J W unit)) run p w : cf_resume cf = true -> keeps_run run p ->
  (forall k, In k (List.map fst l) -> stage_finished k p) ->
  exists p', J_for l (run_stage cf) p w = (p', w, Ok tt) /\ mr_errors (pl_report p') = mr_errors (pl_report p).
Proof.
  intros Hres. revert p. induction l as [|[k m] l IH]; intros p Hk Hl; [by exists p|].
  destruct (maybe_skip_spec k p w) as (p1 & b & E & E1 & E2 & E3 & _ & Hb).
  destruct Hk as (Hr & Erun & Hs). assert (b = true) as -> by (apply Hb; [done|split; [done|by rewrite Erun]|apply Hl; by left]).
  destruct (IH p1) as (p' & E' & E3').
  - unfold keeps_run. rewrite E1, E2. done.
  - intros j Hj. unfold stage_finished. rewrite E1, E2. apply Hl. by right.
  - exists p'. split; [|congruence]. cbn [J_for]. unfold mbind at 1, J_bind at 1, run_stage at 1. cbn [fst snd].
    unfold mbind at 1, J_bind at 1. rewrite E. exact E'.
Qed.
End resume.

(** *** The second run *)

Definition resuming (cf : config) : config :=
  Config (cf_property cf) (cf_on_conflict cf) (cf_batch_size cf) (cf_night_rate cf) true (cf_precheck cf) (cf_dry_run cf) (cf_client cf)
    (cf_source cf) (cf_label cf) (cf_paths cf).

Definition run_id_of `{Env, Host} (cf : config) : string := compute_run_id (uuid_str (cf_property cf)) (cf_paths cf).

Section second.
Context {env : Env} {crypto : Crypto} {host : Host} {W : Type} {api : Wire W} (cf : config).

(** A run that was started with a state file and did not fail. *)
Definition went_through (src : SourceAdapter) (store : StateStore) (w : W) (p : pipeline) (w' : W) : Prop :=
  run_pipeline cf src (new_pipeline cf (Some store)) w = (p, w', Ok tt) /\ mr_status (pl_report p) <> "FAILED"%string.

Lemma init_run store c (w : W) : cf_client cf = Some c -> cf_dry_run cf = false ->
  init_run_state cf (new_pipeline cf (Some store)) w =
    (Pipeline (Some (ensure_run (run_id_of cf) (cf_source cf) (uuid_str (cf_property cf)) store)) (pl_report (new_pipeline cf None)) [] (run_id_of cf),
     w, Ok tt).
Proof. intros Hc Hd. unfold init_run_state, new_pipeline. cbn. by rewrite Hc, Hd. Qed.

Lemma ensure_run_stages run a b s : st_stages (ensure_run run a b s) = st_stages s.
Proof. unfold ensure_run. by destruct (st_runs s !! run). Qed.

Lemma went_through_stages src store w p w' c : cf_client cf = Some c -> cf_dry_run cf = false -> truthy (run_id_of cf) = true ->
  went_through src store w p w' ->
  (ad_validate src).1 = true /\ exists s, pl_store p = Some s /\ forall k, In k (List.map fst (stage_runners cf c src)) -> finished (run_id_of cf) k s.
Proof.
  intros Hc Hd Hr [H Hst]. unfold run_pipeline in H. destruct (ad_validate src).1 eqn:Hv; cbn [negb] in H.
  - split; [done|]. rewrite Hc, Hd in H. unfold mbind at 1, J_bind at 1 in H. rewrite (init_run store c w Hc Hd) in H.
    set (p0 := Pipeline _ _ _ _) in H. assert (Hk : keeps_run (run_id_of cf) p0) by (split; [done|split; [done|by eexists]]).
    unfold mbind at 1, J_bind at 1, J_try in H. unfold mbind at 1, J_bind at 1 in H.
    destruct (J_for _ _ p0 w) as [[p1 w1] [[]|e]] eqn:E; cbn in H.
    + destruct (stages_finish cf _ _ _ _ _ _ (counted_stages cf c src) Hk E) as [(_ & Erun & s & Es) Hf].
      unfold finalize, with_state in H. cbn in H. rewrite Es, Erun, Hr in H. injection H as <- _. eexists. split; [done|].
      intros k Hk'. destruct (Hf k (or_introl Hk')) as (s' & Es' & Hs'). rewrite Es in Es'. injection Es' as <-. by rewrite Erun in Hs'.
    + exfalso. unfold finalize, with_state, stopped, mbind, J_bind, error, event, set_status, on_report in H. cbn in H. destruct (pl_store p1) as [s|]; [destruct (truthy (pl_run p1))|];
        cbn in H; injection H as <- _; by apply Hst.
  - exfalso. unfold invalid_source, mbind, J_bind in H. destruct (J_for _ _ _ w) as [[p1 w1] [[]|e]]; [|discriminate H].
    injection H as <- _. by apply Hst.
Qed.
End second.

(** C38: resume. *)
Theorem resumed_run_repeats_nothing `{Env, Crypto, Host} {W : Type} `{Wire W} cf src store (w : W) p w' c :
  cf_client cf = Some c -> cf_dry_run cf = false -> truthy (run_id_of cf) = true -> went_through cf src store w p w' ->
  exists s p2, pl_store p = Some s /\
    run_pipeline (resuming cf) src (new_pipeline (resuming cf) (Some s)) w' = (p2, w', Ok tt) /\
    mr_errors (pl_report p2) = [] /\ exit_code (pl_report p2) = 0.
Proof.
  intros Hc Hd Hr Hgo. destruct (went_through_stages cf src store w p w' c Hc Hd Hr Hgo) as (Hv & s & Es & Hf).
  exists s. unfold run_pipeline. rewrite Hv. cbn [negb cf_client cf_dry_run resuming]. rewrite Hc, Hd.
  unfold mbind at 1, J_bind at 1. rewrite (init_run (resuming cf) s c w') by done. change (run_id_of (resuming cf)) with (run_id_of cf).
  set (p0 := Pipeline _ _ _ _).
  destruct (stages_skipped (resuming cf) (stage_runners (resuming cf) c src) (run_id_of cf) p0 w') as (p1 & E & He).
  - done.
  - split; [done|split; [done|by eexists]].
  - intros k Hk. eexists. split; [done|]. eapply finished_same; [apply ensure_run_stages|]. by apply Hf.
  - unfold mbind at 1, J_bind at 1, J_try, mbind, J_bind. rewrite E. cbn [set_final_status on_report]. unfold finalize, with_state. cbn.
    rewrite He. destruct (pl_store p1); [destruct (truthy (pl_run p1))|]; eexists; (split; [done|]); (split; [reflexivity|]); cbn; by rewrite ?He.
Qed.

(** ** A server that fails every write *)

#[local] Instance moving_env : Env := sample_env.
#[local] Instance moving_crypto : Crypto := {|
  argon2_hash := fun _ s => s; argon2_verify := String.eqb; argon2_needs_rehash := fun _ => false; sha256_hex := fun s => s;
  token_urlsafe := fun _ => "t"%string; jwt_encode := fun _ => "t"%string; jwt_decode := fun _ _ => None; uuid_parse := fun _ => Some 7 |}.
#[local] Instance moving_host : Host := {| resolve_path := fun s => s; mtime_ns := fun _ => Some 7; sha1_hex := fun _ => "a94a8fe5ccb19ba6"%string |}.

(** The calls it got; lists are empty, anything else is an internal error. *)
#[local] Instance failing_server : Wire (list http_call) := {|
  serve := fun w c =>
    (w ++ [c], if String.eqb (hc_method c) "GET" then
                 Reply 200 "[]" (Some (if String.eqb (hc_path c) "/bookings" then JObj [("items"%string, JArr [])] else JArr []))
               else Reply 500 "oops" None);
  exn_text := fun _ => "HTTP error"%string |}.

Definition season_source : SourceAdapter :=
  MkSourceAdapter (true, []) [] season [room_type_record "Garden"] [rate_plan_record "Standard"] [].

Definition moving : config :=
  Config 5 OnSkip 50 "100.00" false true false (Some (OpenPMSClient "https://pms" "token")) "Preno" "5" ["guests.csv"%string].

Definition first_run : pipeline * list http_call * result unit := run_pipeline moving season_source (new_pipeline moving (Some empty_store)) [].

Lemma resumed_run_repeats_nothing_witness :
  exit_code (pl_report first_run.1.1) = 2 /\ (0 < length first_run.1.2)%nat /\
  exists s p2, pl_store first_run.1.1 = Some s /\
    run_pipeline (resuming moving) season_source (new_pipeline (resuming moving) (Some s)) first_run.1.2 = (p2, first_run.1.2, Ok tt) /\
    mr_errors (pl_report p2) = [] /\ exit_code (pl_report p2) = 0.
Proof.
  split; [vm_compute; reflexivity|]. split; [vm_compute; lia|].
  apply (resumed_run_repeats_nothing moving season_source empty_store [] first_run.1.1 first_run.1.2 (OpenPMSClient "https://pms" "token"));
    [reflexivity|reflexivity|vm_compute; reflexivity|].
  split; [vm_compute; reflexivity|]. intros H. vm_compute in H. discriminate H.
Defined.

Definition under_way : pipeline := Pipeline (Some empty_store) (MkMigrationReport "Preno" "5" false "SUCCESS" [] [] []) [] "run-1".
Definition bookings_run : pipeline * list http_call * result unit :=
  stage_bookings moving (OpenPMSClient "https://pms" "token") season under_way [].

Lemma every_booking_accounted_for_witness : length (mr_errors (pl_report bookings_run.1.1)) = 4%nat /\ forall b, In b season -> accounted b bookings_run.1.1.
Proof.
  split; [vm_compute; reflexivity|].
  apply (every_booking_accounted_for moving (OpenPMSClient "https://pms" "token") season under_way [] bookings_run.1.1 bookings_run.1.2);
    [cbn; lia|by split; [eexists|]|vm_compute; reflexivity].
Defined.
