(* ===== verification/Ddl.v ===== *)
(** * The database schema

    What src/migrations asks of PostgreSQL: a schema as tables with their
    columns, constraints, indexes and row-level security, the statements of
    the revisions with the errors PostgreSQL answers them with, and what a
    policy lets a session see.  Statements that only change rows are [Data]. *)

From stdpp Require Import gmap strings.
From S2P Require Import Prelude.

(** ** Tables *)

Inductive col_type : Type :=
  | Uuid | Varchar (length : Z) | Text | Boolean | Integer | SmallInteger | Date | Time | Timestamp | Timestamptz
  | Numeric (precision scale : Z) | Jsonb | ArrayOf (t : col_type) | Enum (name : string).

Record column := Column { c_name : string; c_type : col_type; c_nullable : bool; c_default : option string }.

Inductive constraint : Type :=
  | PrimaryKey (name : string) (cols : list string)
  | Unique (name : string) (cols : list string)
  | ForeignKey (name : string) (cols : list string) (target : string) (target_cols : list string) (on_delete : option string)
  | CheckThat (name : string) (condition : string).

Record table_index := Index { ix_name : string; ix_cols : list string; ix_unique : bool; ix_where : option string }.

(** *** Row-level security *)

Inductive command := ForAll | ForSelect | ForInsert | ForUpdate | ForDelete.

(** The conditions the policies are made of. *)
Inductive condition : Type :=
  | TenantIs (col : string)      (** [col = NULLIF(current_setting('app.tenant_id', true), '')::uuid] *)
  | IsNull (col : string)
  | IsNotNull (col : string)
  | IsBool (col : string) (b : bool)
  | SettingIs (name value : string)   (** [current_setting(name, true) = value] *)
  | And (a b : condition)
  | Or (a b : condition).

Record policy := Policy { p_name : string; p_command : command; p_using : option condition; p_check : option condition }.

Record table := Table {
  t_columns : list column; t_constraints : list constraint; t_indexes : list table_index;
  t_rls : bool; t_force : bool; t_policies : list policy }.

(** *** Functions *)

Inductive role := CurrentUser | Openpms.

Record function := Function { f_definer : bool; f_row_security_off : bool; f_body : string; f_public : bool; f_grants : list role }.

Record schema := Schema {
  tables : gmap string table; enums : gmap string (list string); functions : gmap string function }.

Definition empty_schema : schema := Schema ∅ ∅ ∅.

#[export] Instance col_type_eq : EqDecision col_type.
Proof. solve_decision. Defined.
#[export] Instance column_eq : EqDecision column.
Proof. solve_decision. Defined.
#[export] Instance constraint_eq : EqDecision constraint.
Proof. solve_decision. Defined.
#[export] Instance role_eq : EqDecision role.
Proof. solve_decision. Defined.
#[export] Instance command_eq : EqDecision command.
Proof. solve_decision. Defined.
#[export] Instance condition_eq : EqDecision condition.
Proof. solve_decision. Defined.
#[export] Instance policy_eq : EqDecision policy.
Proof. solve_decision. Defined.
#[export] Instance function_eq : EqDecision function.
Proof. solve_decision. Defined.
#[export] Instance table_index_eq : EqDecision table_index.
Proof. solve_decision. Defined.

#[export] Instance table_eq : EqDecision table.
Proof. solve_decision. Defined.
#[export] Instance schema_eq : EqDecision schema.
Proof. solve_decision. Defined.

(** ** Statements *)

Inductive statement : Type :=
  | CreateTable (name : string) (columns : list column) (constraints : list constraint)
  | CreateTableIfNotExists (name : string) (columns : list column) (constraints : list constraint)
  | DropTable (name : string)
  | AddColumn (tbl : string) (c : column)
  | DropColumn (tbl col : string)
  | SetDefault (tbl col : string) (d : option string)
  | CreateIndex (tbl : string) (i : table_index)
  | DropIndex (tbl name : string)
  | AddConstraint (tbl : string) (c : constraint)
  | DropConstraint (tbl name : string)
  | EnableRls (tbl : string)
  | DisableRls (tbl : string)
  | ForceRls (tbl : string)
  | NoForceRls (tbl : string)
  | CreatePolicy (tbl : string) (p : policy)
  | DropPolicyIfExists (name tbl : string)
  | CreateEnum (name : string) (values : list string)      (** [checkfirst=True] *)
  | DropEnum (name : string)
  | CreateOrReplaceFunction (signature : string) (definer row_security_off : bool) (body : string)
  | DropFunctionIfExists (signature : string)
  | RevokeFromPublic (signature : string)
  | GrantToCurrentUser (signature : string)
  | GrantToOpenpms (signature : string)                     (** where the role exists *)
  | Data (what : string).

Definition DuplicateTable : exn := ServiceError "ProgrammingError" "relation already exists" 0.
Definition UndefinedTable : exn := ServiceError "ProgrammingError" "relation does not exist" 0.
Definition DuplicateColumn : exn := ServiceError "ProgrammingError" "column already exists" 0.
Definition UndefinedColumn : exn := ServiceError "ProgrammingError" "column does not exist" 0.
Definition DuplicateObject : exn := ServiceError "ProgrammingError" "object already exists" 0.
Definition UndefinedObject : exn := ServiceError "ProgrammingError" "object does not exist" 0.
Definition InvalidForeignKey : exn := ServiceError "ProgrammingError" "there is no unique constraint matching given keys" 0.
Definition DependentObjects : exn := ServiceError "InternalError" "other objects depend on it" 0.

(** *** Reading a schema *)

Definition constraint_name (c : constraint) : string :=
  match c with PrimaryKey n _ | Unique n _ | ForeignKey n _ _ _ _ | CheckThat n _ => n end.
Definition constraint_cols (c : constraint) : list string :=
  match c with PrimaryKey _ l | Unique _ l | ForeignKey _ l _ _ _ => l | CheckThat _ _ => [] end.
(** Keys and unique constraints have an index of their name. *)
Definition is_key (c : constraint) : bool := match c with PrimaryKey _ _ | Unique _ _ => true | _ => false end.

Definition column_of (t : table) (col : string) : option column := List.find (fun c => String.eqb (c_name c) col) (t_columns t).
Definition has_column (t : table) (col : string) : bool := existsb (fun c => String.eqb (c_name c) col) (t_columns t).
Definition has_key (t : table) (cols : list string) : bool :=
  existsb (fun c => is_key c && bool_decide (constraint_cols c = cols)) (t_constraints t).
Definition table_relations (t : table) : list string :=
  List.map constraint_name (List.filter is_key (t_constraints t)) ++ List.map ix_name (t_indexes t).
Definition relation_taken (name : string) (s : schema) : bool :=
  existsb (fun kt => String.eqb kt.1 name || str_in name (table_relations kt.2)) (map_to_list (tables s)).
(** Foreign keys of the other tables to this one. *)
Definition refers_to (target : string) (c : constraint) : bool := match c with ForeignKey _ _ t _ _ => String.eqb t target | _ => false end.
Definition referenced (name : string) (s : schema) : bool :=
  existsb (fun kt => negb (String.eqb kt.1 name) && existsb (refers_to name) (t_constraints kt.2)) (map_to_list (tables s)).
(** Foreign keys, from anywhere, to these columns of this table. *)
Definition key_referenced (name : string) (cols : list string) (s : schema) : bool :=
  existsb (fun kt => existsb (fun c => match c with ForeignKey _ _ t tc _ => String.eqb t name && bool_decide (tc = cols) | _ => false end)
             (t_constraints kt.2)) (map_to_list (tables s)).
Definition enum_used (name : string) (s : schema) : bool :=
  existsb (fun kt => existsb (fun c => bool_decide (c_type c = Enum name)) (t_columns kt.2)) (map_to_list (tables s)).

(** *** Executing a statement *)

Definition grant (r : role) (l : list role) : list role := if existsb (fun r' => bool_decide (r' = r)) l then l else l ++ [r].

Definition the_table (name : string) (s : schema) : result table := of_option (tables s !! name) UndefinedTable.
Definition put_table (name : string) (t : table) (s : schema) : schema := Schema (<[name := t]> (tables s)) (enums s) (functions s).
Definition ensure (b : bool) (e : exn) : result unit := if b then Ok tt else Err e.

Definition set_columns (l : list column) (t : table) : table := Table l (t_constraints t) (t_indexes t) (t_rls t) (t_force t) (t_policies t).
Definition set_constraints (l : list constraint) (t : table) : table := Table (t_columns t) l (t_indexes t) (t_rls t) (t_force t) (t_policies t).
Definition set_indexes (l : list table_index) (t : table) : table := Table (t_columns t) (t_constraints t) l (t_rls t) (t_force t) (t_policies t).
Definition set_security (rls force : bool) (t : table) : table := Table (t_columns t) (t_constraints t) (t_indexes t) rls force (t_policies t).
Definition set_policies (l : list policy) (t : table) : table := Table (t_columns t) (t_constraints t) (t_indexes t) (t_rls t) (t_force t) l.

(** A constraint on a table that has the columns it needs, which may be the
    table a foreign key points to. *)
Definition constraint_fits (s : schema) (name : string) (t : table) (c : constraint) : result unit :=
  _ ← ensure (forallb (has_column t) (constraint_cols c)) UndefinedColumn;
  _ ← ensure (negb (existsb (fun c' => String.eqb (constraint_name c') (constraint_name c)) (t_constraints t))) DuplicateObject;
  match c with
  | ForeignKey _ cols target tcols _ =>
      tt' ← (if String.eqb target name then Ok t else the_table target s);
      ensure (has_key tt' tcols && (length cols =? length tcols)%nat) InvalidForeignKey
  | PrimaryKey n _ | Unique n _ => ensure (negb (relation_taken n s)) DuplicateTable
  | CheckThat _ _ => Ok tt
  end.

Definition add_constraint (s : schema) (name : string) (t : table) (c : constraint) : result table :=
  _ ← constraint_fits s name t c; Ok (set_constraints (t_constraints t ++ [c]) t).

(** Keys before the foreign keys that may point to them. *)
Definition create_table (name : string) (columns : list column) (constraints : list constraint) (s : schema) : result schema :=
  _ ← ensure (negb (relation_taken name s)) DuplicateTable;
  _ ← ensure (length (List.nodup string_dec (List.map c_name columns)) =? length columns)%nat DuplicateColumn;
  _ ← ensure (forallb (fun c => match c_type c with Enum e => bool_decide (is_Some (enums s !! e)) | _ => true end) columns) UndefinedObject;
  t ← foldR (fun t c => add_constraint s name t c) (Table columns [] [] false false [])
        (List.filter is_key constraints ++ List.filter (fun c => negb (is_key c)) constraints);
  Ok (put_table name t s).

(** Dropping a column drops what is built on it in its table. *)
Definition without_column (col : string) (t : table) : table :=
  set_indexes (List.filter (fun i => negb (str_in col (ix_cols i))) (t_indexes t))
    (set_constraints (List.filter (fun c => negb (str_in col (constraint_cols c))) (t_constraints t))
      (set_columns (List.filter (fun c => negb (String.eqb (c_name c) col)) (t_columns t)) t)).

Definition on_function (sig : string) (f : function -> function) (s : schema) : result schema :=
  g ← of_option (functions s !! sig) UndefinedObject; Ok (Schema (tables s) (enums s) (<[sig := f g]> (functions s))).

Definition set_default (col : string) (d : option string) (c : column) : column :=
  if String.eqb (c_name c) col then Column (c_name c) (c_type c) (c_nullable c) d else c.

Definition exec (openpms_role : bool) (q : statement) (s : schema) : result schema :=
  match q with
  | CreateTable name cols cs => create_table name cols cs s
  | CreateTableIfNotExists name cols cs => if bool_decide (is_Some (tables s !! name)) then Ok s else create_table name cols cs s
  | DropTable name =>
      _ ← the_table name s; _ ← ensure (negb (referenced name s)) DependentObjects;
      Ok (Schema (delete name (tables s)) (enums s) (functions s))
  | AddColumn name c =>
      t ← the_table name s; _ ← ensure (negb (has_column t (c_name c))) DuplicateColumn;
      Ok (put_table name (set_columns (t_columns t ++ [c]) t) s)
  | DropColumn name col =>
      t ← the_table name s; _ ← ensure (has_column t col) UndefinedColumn;
      _ ← ensure (negb (existsb (fun c => is_key c && str_in col (constraint_cols c) && key_referenced name (constraint_cols c) s) (t_constraints t))) DependentObjects;
      Ok (put_table name (without_column col t) s)
  | SetDefault name col d =>
      t ← the_table name s; _ ← ensure (has_column t col) UndefinedColumn;
      Ok (put_table name (set_columns (List.map (set_default col d) (t_columns t)) t) s)
  | CreateIndex name i =>
      t ← the_table name s; _ ← ensure (forallb (has_column t) (ix_cols i)) UndefinedColumn;
      _ ← ensure (negb (relation_taken (ix_name i) s)) DuplicateTable;
      Ok (put_table name (set_indexes (t_indexes t ++ [i]) t) s)
  | DropIndex name ix =>
      t ← the_table name s; _ ← ensure (existsb (fun i => String.eqb (ix_name i) ix) (t_indexes t)) UndefinedObject;
      Ok (put_table name (set_indexes (List.filter (fun i => negb (String.eqb (ix_name i) ix)) (t_indexes t)) t) s)
  | AddConstraint name c => t ← the_table name s; t' ← add_constraint s name t c; Ok (put_table name t' s)
  | DropConstraint name cn =>
      t ← the_table name s;
      c ← of_option (List.find (fun c => String.eqb (constraint_name c) cn) (t_constraints t)) UndefinedObject;
      _ ← ensure (negb (is_key c && key_referenced name (constraint_cols c) s)) DependentObjects;
      Ok (put_table name (set_constraints (List.filter (fun c => negb (String.eqb (constraint_name c) cn)) (t_constraints t)) t) s)
  | EnableRls name => t ← the_table name s; Ok (put_table name (set_security true (t_force t) t) s)
  | DisableRls name => t ← the_table name s; Ok (put_table name (set_security false (t_force t) t) s)
  | ForceRls name => t ← the_table name s; Ok (put_table name (set_security (t_rls t) true t) s)
  | NoForceRls name => t ← the_table name s; Ok (put_table name (set_security (t_rls t) false t) s)
  | CreatePolicy name p =>
      t ← the_table name s; _ ← ensure (negb (existsb (fun p' => String.eqb (p_name p') (p_name p)) (t_policies t))) DuplicateObject;
      Ok (put_table name (set_policies (t_policies t ++ [p]) t) s)
  | DropPolicyIfExists pn name =>
      match tables s !! name with
      | Some t => Ok (put_table name (set_policies (List.filter (fun p => negb (String.eqb (p_name p) pn)) (t_policies t)) t) s)
      | None => Ok s
      end
  | CreateEnum name vs => Ok (if bool_decide (is_Some (enums s !! name)) then s else Schema (tables s) (<[name := vs]> (enums s)) (functions s))
  | DropEnum name => _ ← ensure (negb (enum_used name s)) DependentObjects; Ok (Schema (tables s) (delete name (enums s)) (functions s))
  | CreateOrReplaceFunction sig definer off body =>
      let g := default (Function definer off body true []) (functions s !! sig) in
      Ok (Schema (tables s) (enums s) (<[sig := Function definer off body (f_public g) (f_grants g)]> (functions s)))
  | DropFunctionIfExists sig => Ok (Schema (tables s) (enums s) (delete sig (functions s)))
  | RevokeFromPublic sig => on_function sig (fun f => Function (f_definer f) (f_row_security_off f) (f_body f) false (f_grants f)) s
  | GrantToCurrentUser sig => on_function sig (fun f => Function (f_definer f) (f_row_security_off f) (f_body f) (f_public f) (grant CurrentUser (f_grants f))) s
  | GrantToOpenpms sig =>
      if openpms_role then on_function sig (fun f => Function (f_definer f) (f_row_security_off f) (f_body f) (f_public f) (grant Openpms (f_grants f))) s else Ok s
  | Data _ => Ok s
  end.

(** A revision runs in one transaction. *)
Definition exec_all (openpms_role : bool) (l : list statement) (s : schema) : result schema := foldR (fun s q => exec openpms_role q s) s l.

(** ** What a policy lets a session see *)

Inductive value := VNull | VUuid (i : Z) | VBool (b : bool) | VText (s : string).

(** The settings of the transaction: [app.tenant_id] as a UUID, unset or
    empty being null, and the others as text. *)
Record settings := Settings { st_tenant : option Z; st_text : string -> option string }.

(** SQL's three-valued logic. *)
Definition and3 (a b : option bool) : option bool :=
  match a, b with Some false, _ | _, Some false => Some false | Some true, Some true => Some true | _, _ => None end.
Definition or3 (a b : option bool) : option bool :=
  match a, b with Some true, _ | _, Some true => Some true | Some false, Some false => Some false | _, _ => None end.

Fixpoint holds (st : settings) (row : string -> value) (c : condition) : option bool :=
  match c with
  | TenantIs col => match row col, st_tenant st with VUuid i, Some t => Some (i =? t) | _, _ => None end
  | IsNull col => Some (match row col with VNull => true | _ => false end)
  | IsNotNull col => Some (match row col with VNull => false | _ => true end)
  | IsBool col b => match row col with VBool b' => Some (Bool.eqb b b') | _ => None end
  | SettingIs name v => match st_text st name with Some v' => Some (String.eqb v' v) | None => None end
  | And a b => and3 (holds st row a) (holds st row b)
  | Or a b => or3 (holds st row a) (holds st row b)
  end.

Definition command_applies (cmd : command) (p : policy) : bool :=
  match p_command p, cmd with
  | ForAll, _ | ForSelect, ForSelect | ForInsert, ForInsert | ForUpdate, ForUpdate | ForDelete, ForDelete => true
  | _, _ => false
  end.

(** Permissive policies: one that holds is enough; with row-level security
    off every row passes.  The owner of the table is subject to them because
    they are forced. *)
Definition passes (which : policy -> option condition) (t : table) (st : settings) (cmd : command) (row : string -> value) : bool :=
  negb (t_rls t) || existsb (fun p => command_applies cmd p && match which p with Some c => bool_decide (holds st row c = Some true) | None => false end) (t_policies t).

(** The rows a SELECT, UPDATE or DELETE reaches. *)
Definition visible : table -> settings -> command -> (string -> value) -> bool := passes p_using.
(** The rows an INSERT or UPDATE may write: the check of a policy, or what it
    uses when it has none. *)
Definition writable : table -> settings -> command -> (string -> value) -> bool :=
  passes (fun p => match p_check p with Some c => Some c | None => p_using p end).

(** ** Revisions *)

Record revision := Revision { rv_id : string; rv_down : option string; rv_upgrade : list statement; rv_downgrade : list statement }.

(** Alembic walks from the base to the head along [down_revision]; a branch
    has two heads. *)
Definition children (l : list revision) (down : option string) : list revision := List.filter (fun r => bool_decide (rv_down r = down)) l.
Fixpoint walk (fuel : nat) (l : list revision) (down : option string) : option (list revision) :=
  match fuel with
  | O => None
  | S f =>
      match children l down with
      | [] => Some []
      | [r] => (fun rest => r :: rest) <$> walk f l (Some (rv_id r))
      | _ => None
      end
  end.
Definition chain (l : list revision) : option (list revision) := walk (S (length l)) l None.

Definition upgrade_all (openpms_role : bool) (l : list revision) (s : schema) : result schema :=
  foldR (fun s r => exec_all openpms_role (rv_upgrade r) s) s l.
Definition downgrade_all (openpms_role : bool) (l : list revision) (s : schema) : result schema :=
  foldR (fun s r => exec_all openpms_role (rv_downgrade r) s) s (rev l).

(** ** Drift between the models and the database

    What [alembic check] compares (env.py sets [compare_type]): tables, the
    type and nullability of columns, constraints and indexes; server defaults
    are not compared. *)

Inductive drift : Type :=
  | NoTable (name : string)            (** the models declare it, the database lacks it *)
  | NotMapped (name : string)          (** the database has it, no model does *)
  | NoColumn (tbl col : string)
  | NotMappedColumn (tbl col : string)
  | OtherType (tbl col : string) (orm db : col_type)
  | OtherNullability (tbl col : string)
  | NoConstraint (tbl name : string)
  | NotMappedConstraint (tbl name : string)
  | NoIndex (tbl name : string)
  | NotMappedIndex (tbl name : string).

Definition column_drift (name : string) (db : table) (c : column) : list drift :=
  match column_of db (c_name c) with
  | None => [NoColumn name (c_name c)]
  | Some c' =>
      (if bool_decide (c_type c = c_type c') then [] else [OtherType name (c_name c) (c_type c) (c_type c')])
      ++ (if Bool.eqb (c_nullable c) (c_nullable c') then [] else [OtherNullability name (c_name c)])
  end.

Definition table_drift (name : string) (orm db : table) : list drift :=
  List.flat_map (column_drift name db) (t_columns orm)
  ++ List.map (fun c => NotMappedColumn name (c_name c)) (List.filter (fun c => negb (has_column orm (c_name c))) (t_columns db))
  ++ List.map (fun c => NoConstraint name (constraint_name c)) (List.filter (fun c => negb (existsb (fun c' => bool_decide (c = c')) (t_constraints db))) (t_constraints orm))
  ++ List.map (fun c => NotMappedConstraint name (constraint_name c)) (List.filter (fun c => negb (existsb (fun c' => bool_decide (c = c')) (t_constraints orm))) (t_constraints db))
  ++ List.map (fun i => NoIndex name (ix_name i)) (List.filter (fun i => negb (existsb (fun i' => bool_decide (i = i')) (t_indexes db))) (t_indexes orm))
  ++ List.map (fun i => NotMappedIndex name (ix_name i)) (List.filter (fun i => negb (existsb (fun i' => bool_decide (i = i')) (t_indexes orm))) (t_indexes db)).

Definition schema_drift (orm : list (string * table)) (s : schema) : list drift :=
  List.flat_map (fun nt => match tables s !! nt.1 with None => [NoTable nt.1] | Some db => table_drift nt.1 nt.2 db end) orm
  ++ List.map NotMapped (List.filter (fun n => negb (str_in n (List.map fst orm))) (List.map fst (map_to_list (tables s)))).
