(* ===== verification/Revisions.v ===== *)
(** * The revisions of the database

    src/migrations/versions: one list of statements for each [upgrade] and one
    for each [downgrade], in the order of the files' chain.  Loops over tables
    are written out.  After them the tables src/app/models declares. *)

From stdpp Require Import gmap strings.
From S2P Require Import Prelude Ddl.

Open Scope string_scope.
Open Scope list_scope.

(** ** Statements every revision repeats *)

Definition apply_rls_tenant_scoped (table : string) : list statement :=
  [EnableRls table;
   ForceRls table;
   DropPolicyIfExists "tenant_isolation" table;
   CreatePolicy table (Policy "tenant_isolation" ForAll
     (Some (TenantIs "tenant_id"))
     (Some (TenantIs "tenant_id")))].

Definition apply_rls_tenants : list statement :=
  [EnableRls "tenants";
   ForceRls "tenants";
   DropPolicyIfExists "tenant_isolation" "tenants";
   CreatePolicy "tenants" (Policy "tenant_isolation" ForAll
     (Some (TenantIs "id"))
     (Some (TenantIs "id")))].

Definition drop_rls_and_table (table : string) : list statement :=
  [DropPolicyIfExists "tenant_isolation" table;
   NoForceRls table;
   DisableRls table;
   DropTable table].

Definition recreate_mt_rls_smoke : list statement :=
  [CreateTable "mt_rls_smoke"
    [Column "id" Uuid false None; Column "tenant_id" Uuid false None; Column "note" Text true None]
    [PrimaryKey "mt_rls_smoke_pkey" ["id"]];
   EnableRls "mt_rls_smoke";
   ForceRls "mt_rls_smoke";
   DropPolicyIfExists "tenant_isolation" "mt_rls_smoke";
   CreatePolicy "mt_rls_smoke" (Policy "tenant_isolation" ForAll
     (Some (TenantIs "tenant_id"))
     (Some (TenantIs "tenant_id")))].

(** ** The chain *)

(** baseline. *)
Definition up_22d827ba2db9 : list statement :=
  [].

Definition down_22d827ba2db9 : list statement :=
  [].

(** mt_rls_smoke table + tenant RLS. *)
Definition up_c4f8a1b2d3e0 : list statement :=
  [CreateTableIfNotExists "mt_rls_smoke"
    [Column "id" Uuid false None; Column "tenant_id" Uuid false None; Column "note" Text true None]
    [PrimaryKey "mt_rls_smoke_pkey" ["id"]];
   EnableRls "mt_rls_smoke";
   ForceRls "mt_rls_smoke";
   DropPolicyIfExists "tenant_isolation" "mt_rls_smoke";
   CreatePolicy "mt_rls_smoke" (Policy "tenant_isolation" ForAll
     (Some (TenantIs "tenant_id"))
     (Some (TenantIs "tenant_id")))].

Definition down_c4f8a1b2d3e0 : list statement :=
  [DropPolicyIfExists "tenant_isolation" "mt_rls_smoke";
   NoForceRls "mt_rls_smoke";
   DisableRls "mt_rls_smoke";
   DropTable "mt_rls_smoke"].

(** Task 2.1: core domain (tenants, properties, room_types, rooms) + RLS; drop mt_rls_smoke. *)
Definition up_e7f91a2b3c4d : list statement :=
  [DropPolicyIfExists "tenant_isolation" "mt_rls_smoke";
   NoForceRls "mt_rls_smoke";
   DisableRls "mt_rls_smoke";
   DropTable "mt_rls_smoke";
   CreateTable "tenants"
    [Column "id" Uuid false None; Column "name" (Varchar 255) false None; Column "billing_email" (Varchar 320) false None;
     Column "status" (Varchar 64) false None]
    [PrimaryKey "tenants_pkey" ["id"]]]
  ++ apply_rls_tenants
  ++ [CreateTable "properties"
    [Column "id" Uuid false None; Column "tenant_id" Uuid false None; Column "name" (Varchar 255) false None; Column "timezone" (Varchar 64) false None;
     Column "currency" (Varchar 3) false None; Column "checkin_time" Time false None; Column "checkout_time" Time false None]
    [ForeignKey "fk_properties_tenant_id_tenants" ["tenant_id"] "tenants" ["id"] None; PrimaryKey "properties_pkey" ["id"];
     Unique "uq_properties_tenant_id_id" ["tenant_id"; "id"]]]
  ++ apply_rls_tenant_scoped "properties"
  ++ [CreateTable "room_types"
    [Column "id" Uuid false None; Column "tenant_id" Uuid false None; Column "property_id" Uuid false None; Column "name" (Varchar 255) false None;
     Column "base_occupancy" Integer false None; Column "max_occupancy" Integer false None]
    [ForeignKey "fk_room_types_property_composite" ["tenant_id"; "property_id"] "properties" ["tenant_id"; "id"] None; PrimaryKey "room_types_pkey" ["id"];
     Unique "uq_room_types_tenant_id_id" ["tenant_id"; "id"]]]
  ++ apply_rls_tenant_scoped "room_types"
  ++ [CreateTable "rooms"
    [Column "id" Uuid false None; Column "tenant_id" Uuid false None; Column "room_type_id" Uuid false None; Column "name" (Varchar 255) false None;
     Column "status" (Varchar 64) false None]
    [ForeignKey "fk_rooms_room_type_composite" ["tenant_id"; "room_type_id"] "room_types" ["tenant_id"; "id"] None; PrimaryKey "rooms_pkey" ["id"];
     Unique "uq_rooms_tenant_id_id" ["tenant_id"; "id"]]]
  ++ apply_rls_tenant_scoped "rooms".

Definition down_e7f91a2b3c4d : list statement :=
  drop_rls_and_table "rooms"
  ++ drop_rls_and_table "room_types"
  ++ drop_rls_and_table "properties"
  ++ drop_rls_and_table "tenants"
  ++ recreate_mt_rls_smoke.

(** Task 2.2: rate_plans, rates, availability_ledger + RLS. *)
Definition up_f8a92b3c4d5e : list statement :=
  [CreateTable "rate_plans"
    [Column "id" Uuid false None; Column "tenant_id" Uuid false None; Column "property_id" Uuid false None; Column "name" (Varchar 255) false None;
     Column "cancellation_policy" Text false None]
    [ForeignKey "fk_rate_plans_property_composite" ["tenant_id"; "property_id"] "properties" ["tenant_id"; "id"] None; PrimaryKey "rate_plans_pkey" ["id"];
     Unique "uq_rate_plans_tenant_id_id" ["tenant_id"; "id"]]]
  ++ apply_rls_tenant_scoped "rate_plans"
  ++ [CreateTable "rates"
    [Column "id" Uuid false None; Column "tenant_id" Uuid false None; Column "room_type_id" Uuid false None; Column "rate_plan_id" Uuid false None;
     Column "date" Date false None; Column "price" (Numeric 14 2) false None]
    [ForeignKey "fk_rates_room_type_composite" ["tenant_id"; "room_type_id"] "room_types" ["tenant_id"; "id"] None;
     ForeignKey "fk_rates_rate_plan_composite" ["tenant_id"; "rate_plan_id"] "rate_plans" ["tenant_id"; "id"] None; PrimaryKey "rates_pkey" ["id"];
     Unique "uq_rates_tenant_room_type_plan_date" ["tenant_id"; "room_type_id"; "rate_plan_id"; "date"]]]
  ++ apply_rls_tenant_scoped "rates"
  ++ [CreateTable "availability_ledger"
    [Column "id" Uuid false None; Column "tenant_id" Uuid false None; Column "date" Date false None; Column "room_type_id" Uuid false None;
     Column "total_rooms" Integer false None; Column "booked_rooms" Integer false (Some "0"); Column "blocked_rooms" Integer false (Some "0")]
    [ForeignKey "fk_availability_ledger_room_type_composite" ["tenant_id"; "room_type_id"] "room_types" ["tenant_id"; "id"] None;
     PrimaryKey "availability_ledger_pkey" ["id"]; Unique "uq_availability_ledger_tenant_room_type_date" ["tenant_id"; "room_type_id"; "date"]]]
  ++ apply_rls_tenant_scoped "availability_ledger".

Definition down_f8a92b3c4d5e : list statement :=
  drop_rls_and_table "availability_ledger"
  ++ drop_rls_and_table "rates"
  ++ drop_rls_and_table "rate_plans".

(** Task 2.3: guests, bookings, booking_lines, folio_transactions + RLS. *)
Definition up_a9b03c4d5e6f : list statement :=
  [CreateTable "guests"
    [Column "id" Uuid false None; Column "tenant_id" Uuid false None; Column "first_name" (Varchar 255) false None;
     Column "last_name" (Varchar 255) false None; Column "email" (Varchar 320) false None; Column "phone" (Varchar 64) false None;
     Column "passport_data" (Varchar 255) true None]
    [ForeignKey "fk_guests_tenant_id_tenants" ["tenant_id"] "tenants" ["id"] None; PrimaryKey "guests_pkey" ["id"];
     Unique "uq_guests_tenant_id_id" ["tenant_id"; "id"]]]
  ++ apply_rls_tenant_scoped "guests"
  ++ [CreateTable "bookings"
    [Column "id" Uuid false None; Column "tenant_id" Uuid false None; Column "property_id" Uuid false None; Column "guest_id" Uuid false None;
     Column "status" (Varchar 64) false None; Column "source" (Varchar 64) false None; Column "total_amount" (Numeric 14 2) false None]
    [ForeignKey "fk_bookings_property_composite" ["tenant_id"; "property_id"] "properties" ["tenant_id"; "id"] None;
     ForeignKey "fk_bookings_guest_composite" ["tenant_id"; "guest_id"] "guests" ["tenant_id"; "id"] None; PrimaryKey "bookings_pkey" ["id"];
     Unique "uq_bookings_tenant_id_id" ["tenant_id"; "id"]]]
  ++ apply_rls_tenant_scoped "bookings"
  ++ [CreateTable "booking_lines"
    [Column "id" Uuid false None; Column "tenant_id" Uuid false None; Column "booking_id" Uuid false None; Column "date" Date false None;
     Column "room_type_id" Uuid false None; Column "room_id" Uuid true None; Column "price_for_date" (Numeric 14 2) false None]
    [ForeignKey "fk_booking_lines_booking_composite" ["tenant_id"; "booking_id"] "bookings" ["tenant_id"; "id"] None;
     ForeignKey "fk_booking_lines_room_type_composite" ["tenant_id"; "room_type_id"] "room_types" ["tenant_id"; "id"] None;
     ForeignKey "fk_booking_lines_room_composite" ["tenant_id"; "room_id"] "rooms" ["tenant_id"; "id"] None; PrimaryKey "booking_lines_pkey" ["id"];
     Unique "uq_booking_lines_tenant_id_id" ["tenant_id"; "id"]]]
  ++ apply_rls_tenant_scoped "booking_lines"
  ++ [CreateTable "folio_transactions"
    [Column "id" Uuid false None; Column "tenant_id" Uuid false None; Column "booking_id" Uuid false None; Column "type" (Varchar 32) false None;
     Column "amount" (Numeric 14 2) false None; Column "payment_method" (Varchar 64) true None]
    [ForeignKey "fk_folio_transactions_booking_composite" ["tenant_id"; "booking_id"] "bookings" ["tenant_id"; "id"] None;
     PrimaryKey "folio_transactions_pkey" ["id"]; Unique "uq_folio_transactions_tenant_id_id" ["tenant_id"; "id"]]]
  ++ apply_rls_tenant_scoped "folio_transactions".

Definition down_a9b03c4d5e6f : list statement :=
  drop_rls_and_table "folio_transactions"
  ++ drop_rls_and_table "booking_lines"
  ++ drop_rls_and_table "bookings"
  ++ drop_rls_and_table "guests".

(** Users, refresh_tokens, rooms.deleted_at, bookings.rate_plan_id + RLS. *)
Definition up_b2c3d4e5f6a7 : list statement :=
  [AddColumn "rooms" (Column "deleted_at" Timestamptz true None);
   AddColumn "bookings" (Column "rate_plan_id" Uuid true None);
   AddConstraint "bookings" (ForeignKey "fk_bookings_rate_plan_composite" ["tenant_id"; "rate_plan_id"] "rate_plans" ["tenant_id"; "id"] None);
   CreateTable "users"
    [Column "id" Uuid false None; Column "tenant_id" Uuid false None; Column "email" (Varchar 320) false None;
     Column "password_hash" (Varchar 255) false None; Column "full_name" (Varchar 255) false None; Column "role" (Varchar 32) false None;
     Column "is_active" Boolean false (Some "true")]
    [ForeignKey "fk_users_tenant_id_tenants" ["tenant_id"] "tenants" ["id"] None; PrimaryKey "users_pkey" ["id"];
     Unique "uq_users_tenant_id_id" ["tenant_id"; "id"]; Unique "uq_users_tenant_email" ["tenant_id"; "email"]]]
  ++ apply_rls_tenant_scoped "users"
  ++ [CreateTable "refresh_tokens"
    [Column "id" Uuid false None; Column "tenant_id" Uuid false None; Column "user_id" Uuid false None; Column "token_hash" (Varchar 64) false None;
     Column "expires_at" Timestamptz false None; Column "revoked_at" Timestamptz true None; Column "created_at" Timestamptz false (Some "now()")]
    [ForeignKey "fk_refresh_tokens_user_composite" ["tenant_id"; "user_id"] "users" ["tenant_id"; "id"] None; PrimaryKey "refresh_tokens_pkey" ["id"];
     Unique "uq_refresh_tokens_tenant_id_id" ["tenant_id"; "id"]];
   CreateIndex "refresh_tokens" (Index "ix_refresh_tokens_token_hash" ["token_hash"] false None)]
  ++ apply_rls_tenant_scoped "refresh_tokens".

Definition down_b2c3d4e5f6a7 : list statement :=
  [DropIndex "refresh_tokens" "ix_refresh_tokens_token_hash"]
  ++ drop_rls_and_table "refresh_tokens"
  ++ drop_rls_and_table "users"
  ++ [DropConstraint "bookings" "fk_bookings_rate_plan_composite";
   DropColumn "bookings" "rate_plan_id";
   DropColumn "rooms" "deleted_at"].

(** Guest profile fields, unique email per tenant; room housekeeping; event log. *)
Definition up_c1d2e3f4a5b6 : list statement :=
  [Data "UPDATE guests SET email = lower(trim(email))";
   AddColumn "guests" (Column "nationality" (Varchar 2) true None);
   AddColumn "guests" (Column "date_of_birth" Date true None);
   AddColumn "guests" (Column "notes" Text true None);
   AddColumn "guests" (Column "vip_status" Boolean false (Some "false"));
   AddColumn "guests" (Column "created_at" Timestamptz false (Some "now()"));
   AddColumn "guests" (Column "updated_at" Timestamptz false (Some "now()"));
   AddConstraint "guests" (Unique "uq_guests_tenant_email" ["tenant_id"; "email"]);
   AddColumn "rooms" (Column "housekeeping_status" (Varchar 32) false (Some "clean"));
   AddColumn "rooms" (Column "housekeeping_priority" (Varchar 32) false (Some "normal"));
   CreateTable "room_housekeeping_events"
    [Column "id" Uuid false None; Column "tenant_id" Uuid false None; Column "room_id" Uuid false None; Column "old_status" (Varchar 32) false None;
     Column "new_status" (Varchar 32) false None; Column "changed_by_user_id" Uuid true None; Column "created_at" Timestamptz false (Some "now()")]
    [ForeignKey "fk_hk_events_room_composite" ["tenant_id"; "room_id"] "rooms" ["tenant_id"; "id"] None;
     ForeignKey "fk_hk_events_user_composite" ["tenant_id"; "changed_by_user_id"] "users" ["tenant_id"; "id"] None;
     PrimaryKey "room_housekeeping_events_pkey" ["id"]; Unique "uq_room_housekeeping_events_tenant_id_id" ["tenant_id"; "id"]]]
  ++ apply_rls_tenant_scoped "room_housekeeping_events".

Definition down_c1d2e3f4a5b6 : list statement :=
  drop_rls_and_table "room_housekeeping_events"
  ++ [DropColumn "rooms" "housekeeping_priority";
   DropColumn "rooms" "housekeeping_status";
   DropConstraint "guests" "uq_guests_tenant_email";
   DropColumn "guests" "updated_at";
   DropColumn "guests" "created_at";
   DropColumn "guests" "vip_status";
   DropColumn "guests" "notes";
   DropColumn "guests" "date_of_birth";
   DropColumn "guests" "nationality"].

(** Folio: description, created_at, created_by, category + FK users. *)
Definition up_d4e5f6a7b8c9 : list statement :=
  [AddColumn "folio_transactions" (Column "description" (Varchar 512) true None);
   AddColumn "folio_transactions" (Column "created_at" Timestamptz false (Some "now()"));
   AddColumn "folio_transactions" (Column "created_by" Uuid true None);
   AddColumn "folio_transactions" (Column "category" (Varchar 32) false (Some "room_charge"));
   AddConstraint "folio_transactions" (ForeignKey "fk_folio_transactions_created_by_user" ["tenant_id"; "created_by"] "users" ["tenant_id"; "id"] None);
   SetDefault "folio_transactions" "category" None].

Definition down_d4e5f6a7b8c9 : list statement :=
  [DropConstraint "folio_transactions" "fk_folio_transactions_created_by_user";
   DropColumn "folio_transactions" "category";
   DropColumn "folio_transactions" "created_by";
   DropColumn "folio_transactions" "created_at";
   DropColumn "folio_transactions" "description"].

(** Tenant API keys for X-API-Key integration auth. *)
Definition up_f5a6b7c8d9e0 : list statement :=
  [CreateTable "api_keys"
    [Column "id" Uuid false None; Column "tenant_id" Uuid false None; Column "key_hash" (Varchar 64) false None; Column "name" (Varchar 255) false None;
     Column "scopes" (ArrayOf Text) false None; Column "is_active" Boolean false (Some "true"); Column "expires_at" Timestamptz true None]
    [ForeignKey "fk_api_keys_tenant_id_tenants" ["tenant_id"] "tenants" ["id"] None; PrimaryKey "api_keys_pkey" ["id"];
     Unique "uq_api_keys_tenant_id_id" ["tenant_id"; "id"]; Unique "uq_api_keys_key_hash" ["key_hash"]];
   EnableRls "api_keys";
   NoForceRls "api_keys";
   DropPolicyIfExists "tenant_isolation" "api_keys";
   CreatePolicy "api_keys" (Policy "tenant_isolation" ForAll
     (Some (TenantIs "tenant_id"))
     (Some (TenantIs "tenant_id")))].

Definition down_f5a6b7c8d9e0 : list statement :=
  [DropPolicyIfExists "tenant_isolation" "api_keys";
   NoForceRls "api_keys";
   DisableRls "api_keys";
   DropTable "api_keys"].

(** Webhook subscriptions and delivery attempt log. *)
Definition up_g1h2i3j4k5l6 : list statement :=
  [CreateTable "webhook_subscriptions"
    [Column "id" Uuid false None; Column "tenant_id" Uuid false None; Column "url" (Varchar 2048) false None; Column "events" (ArrayOf Text) false None;
     Column "secret" (Varchar 512) false None; Column "is_active" Boolean false (Some "true")]
    [ForeignKey "fk_webhook_subscriptions_tenant_id_tenants" ["tenant_id"] "tenants" ["id"] None; PrimaryKey "webhook_subscriptions_pkey" ["id"];
     Unique "uq_webhook_subscriptions_tenant_id_id" ["tenant_id"; "id"]]]
  ++ apply_rls_tenant_scoped "webhook_subscriptions"
  ++ [CreateTable "webhook_delivery_logs"
    [Column "id" Uuid false None; Column "tenant_id" Uuid false None; Column "webhook_subscription_id" Uuid false None;
     Column "event_type" (Varchar 128) false None; Column "attempt_number" Integer false None; Column "http_status_code" Integer true None;
     Column "error_message" Text true None; Column "payload_json" Jsonb false None; Column "created_at" Timestamptz false (Some "now()")]
    [ForeignKey "fk_webhook_delivery_logs_tenant_id_tenants" ["tenant_id"] "tenants" ["id"] None;
     ForeignKey "fk_webhook_delivery_logs_subscription_composite" ["tenant_id"; "webhook_subscription_id"] "webhook_subscriptions" ["tenant_id"; "id"] None;
     PrimaryKey "webhook_delivery_logs_pkey" ["id"]; Unique "uq_webhook_delivery_logs_tenant_id_id" ["tenant_id"; "id"]]]
  ++ apply_rls_tenant_scoped "webhook_delivery_logs".

Definition down_g1h2i3j4k5l6 : list statement :=
  [DropPolicyIfExists "tenant_isolation" "webhook_delivery_logs";
   NoForceRls "webhook_delivery_logs";
   DisableRls "webhook_delivery_logs";
   DropTable "webhook_delivery_logs";
   DropPolicyIfExists "tenant_isolation" "webhook_subscriptions";
   NoForceRls "webhook_subscriptions";
   DisableRls "webhook_subscriptions";
   DropTable "webhook_subscriptions"].

(** Block 10: composite indexes for tenant+date scans, audit_log + RLS. *)
Definition up_h7i8j9k0l1m2 : list statement :=
  [CreateIndex "booking_lines" (Index "ix_booking_lines_tenant_date" ["tenant_id"; "date"] false None);
   CreateIndex "booking_lines" (Index "ix_booking_lines_tenant_room_date" ["tenant_id"; "room_id"; "date"] false (Some "room_id IS NOT NULL"));
   CreateIndex "rates" (Index "ix_rates_tenant_date" ["tenant_id"; "date"] false None);
   CreateIndex "availability_ledger" (Index "ix_availability_ledger_tenant_date" ["tenant_id"; "date"] false None);
   CreateTable "audit_log"
    [Column "id" Uuid false None; Column "tenant_id" Uuid false None; Column "user_id" Uuid true None; Column "action" (Varchar 128) false None;
     Column "entity_type" (Varchar 128) false None; Column "entity_id" Uuid true None; Column "old_values" Jsonb true None;
     Column "new_values" Jsonb true None; Column "ip_address" (Varchar 64) true None; Column "created_at" Timestamptz false (Some "now()")]
    [PrimaryKey "audit_log_pkey" ["id"]]]
  ++ apply_rls_tenant_scoped "audit_log".

Definition down_h7i8j9k0l1m2 : list statement :=
  [DropPolicyIfExists "tenant_isolation" "audit_log";
   NoForceRls "audit_log";
   DisableRls "audit_log";
   DropTable "audit_log";
   DropIndex "availability_ledger" "ix_availability_ledger_tenant_date";
   DropIndex "rates" "ix_rates_tenant_date";
   DropIndex "booking_lines" "ix_booking_lines_tenant_room_date";
   DropIndex "booking_lines" "ix_booking_lines_tenant_date"].

(** Align api_keys RLS with FORCE; SECURITY DEFINER lookup for middleware. *)
Definition up_i9j0k1l2m3n4 : list statement :=
  [CreateOrReplaceFunction "lookup_api_key_by_hash(text)" true false
     "SELECT ak.tenant_id, ak.id, ak.scopes FROM api_keys ak WHERE ak.key_hash = p_key_hash AND ak.is_active IS TRUE AND (ak.expires_at IS NULL OR ak.expires_at > now());";
   RevokeFromPublic "lookup_api_key_by_hash(text)";
   GrantToCurrentUser "lookup_api_key_by_hash(text)";
   GrantToOpenpms "lookup_api_key_by_hash(text)";
   ForceRls "api_keys"].

Definition down_i9j0k1l2m3n4 : list statement :=
  [NoForceRls "api_keys";
   DropFunctionIfExists "lookup_api_key_by_hash(text)"].

(** Encrypt webhook_subscriptions.secret at rest (Fernet). *)
Definition up_j0k1l2m3n4o5 : list statement :=
  [Data "encrypt the secrets of webhook_subscriptions that are not yet encrypted"].

Definition down_j0k1l2m3n4o5 : list statement :=
  [].

(** Webhook delivery logs: CASCADE delete when subscription removed. *)
Definition up_k0l1m2n3o4p5 : list statement :=
  [DropConstraint "webhook_delivery_logs" "fk_webhook_delivery_logs_subscription_composite";
   AddConstraint "webhook_delivery_logs" (ForeignKey "fk_webhook_delivery_logs_subscription_composite" ["tenant_id"; "webhook_subscription_id"] "webhook_subscriptions" ["tenant_id"; "id"] (Some "CASCADE"))].

Definition down_k0l1m2n3o4p5 : list statement :=
  [DropConstraint "webhook_delivery_logs" "fk_webhook_delivery_logs_subscription_composite";
   AddConstraint "webhook_delivery_logs" (ForeignKey "fk_webhook_delivery_logs_subscription_composite" ["tenant_id"; "webhook_subscription_id"] "webhook_subscriptions" ["tenant_id"; "id"] None)].

(** Soft-delete column on room_types. *)
Definition up_m2n3o4p5q6r7 : list statement :=
  [AddColumn "room_types" (Column "deleted_at" Timestamptz true None);
   CreateIndex "room_types" (Index "ix_room_types_tenant_deleted_at" ["tenant_id"; "deleted_at"] false None)].

Definition down_m2n3o4p5q6r7 : list statement :=
  [DropIndex "room_types" "ix_room_types_tenant_deleted_at";
   DropColumn "room_types" "deleted_at"].

(** Composite indexes for bookings and folio_transactions list queries. *)
Definition up_n3o4p5q6r7s8 : list statement :=
  [CreateIndex "bookings" (Index "ix_bookings_tenant_property_id" ["tenant_id"; "property_id"] false None);
   CreateIndex "folio_transactions" (Index "ix_folio_transactions_tenant_booking_id" ["tenant_id"; "booking_id"] false None)].

Definition down_n3o4p5q6r7s8 : list statement :=
  [DropIndex "folio_transactions" "ix_folio_transactions_tenant_booking_id";
   DropIndex "bookings" "ix_bookings_tenant_property_id"].

(** SECURITY DEFINER lookup for password login without tenant_id. *)
Definition up_o4p5q6r7s8t9 : list statement :=
  [CreateOrReplaceFunction "lookup_active_users_by_email_login(text)" true false
     "SELECT u.tenant_id, u.id FROM users u WHERE lower(trim(both from u.email)) = lower(trim(both from p_email)) AND u.is_active IS TRUE;";
   RevokeFromPublic "lookup_active_users_by_email_login(text)";
   GrantToCurrentUser "lookup_active_users_by_email_login(text)";
   GrantToOpenpms "lookup_active_users_by_email_login(text)"].

Definition down_o4p5q6r7s8t9 : list statement :=
  [DropFunctionIfExists "lookup_active_users_by_email_login(text)"].

(** Add booking status check constraint. *)
Definition up_p6q7r8s9t0u1 : list statement :=
  [AddConstraint "bookings" (CheckThat "ck_booking_status" "status IN ('pending','confirmed','checked_in','checked_out','cancelled','no_show')")].

Definition down_p6q7r8s9t0u1 : list statement :=
  [DropConstraint "bookings" "ck_booking_status"].

(** Webhook pending deliveries queue (background worker; RLS + internal worker policy). *)
Definition up_q7r8s9t0u1v2 : list statement :=
  [CreateTable "webhook_pending_deliveries"
    [Column "id" Uuid false None; Column "tenant_id" Uuid false None; Column "webhook_subscription_id" Uuid false None;
     Column "event_type" (Varchar 128) false None; Column "payload_json" Jsonb false None; Column "attempt_count" Integer false (Some "0");
     Column "next_retry_at" Timestamptz false None; Column "status" (Varchar 32) false (Some "pending"); Column "created_at" Timestamptz false (Some "now()")]
    [ForeignKey "fk_webhook_pending_deliveries_tenant_id_tenants" ["tenant_id"] "tenants" ["id"] None;
     ForeignKey "fk_webhook_pending_deliveries_subscription_composite" ["tenant_id"; "webhook_subscription_id"] "webhook_subscriptions" ["tenant_id"; "id"] None;
     PrimaryKey "webhook_pending_deliveries_pkey" ["id"]; Unique "uq_webhook_pending_deliveries_tenant_id_id" ["tenant_id"; "id"]];
   CreateIndex "webhook_pending_deliveries" (Index "ix_webhook_pending_deliveries_due_pending" ["next_retry_at"] false (Some "status = 'pending'"))]
  ++ apply_rls_tenant_scoped "webhook_pending_deliveries"
  ++ [CreatePolicy "webhook_pending_deliveries" (Policy "webhook_pending_internal_worker_select" ForSelect
     (Some (SettingIs "app.internal_webhook_worker" "true"))
     None);
   CreatePolicy "webhook_pending_deliveries" (Policy "webhook_pending_internal_worker_update" ForUpdate
     (Some (SettingIs "app.internal_webhook_worker" "true"))
     (Some (SettingIs "app.internal_webhook_worker" "true")));
   CreatePolicy "webhook_pending_deliveries" (Policy "webhook_pending_internal_worker_delete" ForDelete
     (Some (SettingIs "app.internal_webhook_worker" "true"))
     None)].

Definition down_q7r8s9t0u1v2 : list statement :=
  [DropPolicyIfExists "webhook_pending_internal_worker_delete" "webhook_pending_deliveries";
   DropPolicyIfExists "webhook_pending_internal_worker_update" "webhook_pending_deliveries";
   DropPolicyIfExists "webhook_pending_internal_worker_select" "webhook_pending_deliveries";
   DropPolicyIfExists "tenant_isolation" "webhook_pending_deliveries";
   NoForceRls "webhook_pending_deliveries";
   DisableRls "webhook_pending_deliveries";
   DropIndex "webhook_pending_deliveries" "ix_webhook_pending_deliveries_due_pending";
   DropTable "webhook_pending_deliveries"].

(** Country packs table (data-driven presets) + RLS for builtin vs tenant rows. *)
Definition up_countrypack_001 : list statement :=
  [CreateTable "country_packs"
    [Column "code" (Varchar 32) false None; Column "tenant_id" Uuid true None; Column "name" (Varchar 100) false None;
     Column "currency_code" (Varchar 3) false None; Column "currency_symbol" (Varchar 8) false None;
     Column "currency_symbol_position" (Varchar 6) false None; Column "currency_decimal_places" SmallInteger false None;
     Column "timezone" (Varchar 64) false None; Column "date_format" (Varchar 20) false None; Column "locale" (Varchar 10) false None;
     Column "default_checkin_time" Time false None; Column "default_checkout_time" Time false None; Column "taxes" Jsonb false None;
     Column "payment_methods" Jsonb false None; Column "fiscal_year_start" (Varchar 5) true None; Column "is_builtin" Boolean false (Some "false");
     Column "created_at" Timestamptz false (Some "now()"); Column "updated_at" Timestamptz false (Some "now()")]
    [ForeignKey "fk_country_packs_tenant_id_tenants" ["tenant_id"] "tenants" ["id"] None; PrimaryKey "country_packs_pkey" ["code"];
     CheckThat "ck_country_packs_currency_symbol_position" "currency_symbol_position IN ('before', 'after')";
     CheckThat "ck_country_packs_builtin_tenant" "(is_builtin = true AND tenant_id IS NULL) OR (is_builtin = false AND tenant_id IS NOT NULL)"];
   CreateIndex "country_packs" (Index "ix_country_packs_tenant_id" ["tenant_id"] false None);
   EnableRls "country_packs";
   ForceRls "country_packs";
   DropPolicyIfExists "country_pack_read" "country_packs";
   DropPolicyIfExists "country_pack_insert" "country_packs";
   DropPolicyIfExists "country_pack_update" "country_packs";
   DropPolicyIfExists "country_pack_delete" "country_packs";
   CreatePolicy "country_packs" (Policy "country_pack_read" ForSelect
     (Some (Or (And (IsBool "is_builtin" true) (IsNull "tenant_id")) (And (IsNotNull "tenant_id") (TenantIs "tenant_id"))))
     None);
   CreatePolicy "country_packs" (Policy "country_pack_insert" ForInsert
     None
     (Some (And (And (IsNotNull "tenant_id") (TenantIs "tenant_id")) (IsBool "is_builtin" false))));
   CreatePolicy "country_packs" (Policy "country_pack_update" ForUpdate
     (Some (And (And (IsNotNull "tenant_id") (TenantIs "tenant_id")) (IsBool "is_builtin" false)))
     (Some (And (And (IsNotNull "tenant_id") (TenantIs "tenant_id")) (IsBool "is_builtin" false))));
   CreatePolicy "country_packs" (Policy "country_pack_delete" ForDelete
     (Some (And (And (IsNotNull "tenant_id") (TenantIs "tenant_id")) (IsBool "is_builtin" false)))
     None)].

Definition down_countrypack_001 : list statement :=
  [DropPolicyIfExists "country_pack_read" "country_packs";
   DropPolicyIfExists "country_pack_insert" "country_packs";
   DropPolicyIfExists "country_pack_update" "country_packs";
   DropPolicyIfExists "country_pack_delete" "country_packs";
   NoForceRls "country_packs";
   DisableRls "country_packs";
   DropIndex "country_packs" "ix_country_packs_tenant_id";
   DropTable "country_packs"].

(** Seed builtin Thailand and Generic country packs. *)
Definition up_countrypack_002 : list statement :=
  [Data "INSERT INTO country_packs: the pack TH";
   Data "INSERT INTO country_packs ( code, tenant_id, name, currency_code, currency_symbol, currency_symbol_position, ..."].

Definition down_countrypack_002 : list statement :=
  [Data "DELETE FROM country_packs WHERE code IN ('TH', 'XX')"].

(** Add properties.country_pack_code FK to country_packs (nullable). *)
Definition up_countrypack_003 : list statement :=
  [AddColumn "properties" (Column "country_pack_code" (Varchar 32) true None);
   AddConstraint "properties" (ForeignKey "fk_properties_country_pack_code_country_packs" ["country_pack_code"] "country_packs" ["code"] None)].

Definition down_countrypack_003 : list statement :=
  [DropConstraint "properties" "fk_properties_country_pack_code_country_packs";
   DropColumn "properties" "country_pack_code"].

(** Country pack extensions registry (per tenant) + RLS. *)
Definition up_countrypack_004 : list statement :=
  [CreateTable "country_pack_extensions"
    [Column "id" Uuid false None; Column "tenant_id" Uuid false None; Column "country_code" (Varchar 2) true None; Column "code" (Varchar 64) false None;
     Column "name" (Varchar 100) false None; Column "webhook_url" Text false None; Column "required_fields" Jsonb false (Some "[]");
     Column "ui_config_schema" Jsonb true None; Column "is_active" Boolean false (Some "true"); Column "created_at" Timestamptz false (Some "now()");
     Column "updated_at" Timestamptz false (Some "now()")]
    [ForeignKey "fk_country_pack_extensions_tenant_id_tenants" ["tenant_id"] "tenants" ["id"] None; PrimaryKey "country_pack_extensions_pkey" ["id"];
     Unique "uq_country_pack_extensions_tenant_code" ["tenant_id"; "code"]; Unique "uq_country_pack_extensions_tenant_id_id" ["tenant_id"; "id"]]]
  ++ apply_rls_tenant_scoped "country_pack_extensions".

Definition down_countrypack_004 : list statement :=
  [DropPolicyIfExists "tenant_isolation" "country_pack_extensions";
   NoForceRls "country_pack_extensions";
   DisableRls "country_pack_extensions";
   DropTable "country_pack_extensions"].

(** Property ↔ extension activation (M:N) + RLS. *)
Definition up_countrypack_005 : list statement :=
  [CreateTable "property_extensions"
    [Column "id" Uuid false None; Column "tenant_id" Uuid false None; Column "property_id" Uuid false None; Column "extension_id" Uuid false None;
     Column "config" Jsonb true None; Column "is_active" Boolean false (Some "true"); Column "created_at" Timestamptz false (Some "now()")]
    [ForeignKey "fk_property_extensions_tenant_id_tenants" ["tenant_id"] "tenants" ["id"] None;
     ForeignKey "fk_property_extensions_property_composite" ["tenant_id"; "property_id"] "properties" ["tenant_id"; "id"] None;
     ForeignKey "fk_property_extensions_extension_composite" ["tenant_id"; "extension_id"] "country_pack_extensions" ["tenant_id"; "id"] None;
     PrimaryKey "property_extensions_pkey" ["id"]; Unique "uq_property_extensions_prop_ext" ["tenant_id"; "property_id"; "extension_id"];
     Unique "uq_property_extensions_tenant_id_id" ["tenant_id"; "id"]]]
  ++ apply_rls_tenant_scoped "property_extensions".

Definition down_countrypack_005 : list statement :=
  [DropPolicyIfExists "tenant_isolation" "property_extensions";
   NoForceRls "property_extensions";
   DisableRls "property_extensions";
   DropTable "property_extensions"].

(** Channex integration tables (property links, maps, revisions, logs). *)
Definition up_r8s9t0u1v2w3 : list statement :=
  [CreateTable "channex_property_links"
    [Column "id" Uuid false None; Column "tenant_id" Uuid false None; Column "property_id" Uuid false None;
     Column "channex_property_id" (Varchar 36) false None; Column "channex_api_key" Text false None;
     Column "channex_env" (Varchar 20) false (Some "production"); Column "status" (Varchar 20) false (Some "pending");
     Column "connected_at" Timestamptz true None; Column "last_sync_at" Timestamptz true None; Column "error_message" Text true None;
     Column "created_at" Timestamptz false (Some "now()")]
    [ForeignKey "fk_channex_property_links_tenant_id_tenants" ["tenant_id"] "tenants" ["id"] None;
     ForeignKey "fk_channex_property_links_property_composite" ["tenant_id"; "property_id"] "properties" ["tenant_id"; "id"] None;
     PrimaryKey "channex_property_links_pkey" ["id"]; Unique "uq_channex_property_links_tenant_id_id" ["tenant_id"; "id"];
     Unique "uq_channex_property_links_property_id" ["property_id"]];
   CreateTable "channex_webhook_logs"
    [Column "id" Uuid false None; Column "tenant_id" Uuid true None; Column "event_type" (Varchar 50) true None; Column "payload" Jsonb true None;
     Column "signature" Text true None; Column "ip_address" (Varchar 45) true None; Column "processed" Boolean false (Some "false");
     Column "created_at" Timestamptz false (Some "now()")]
    [ForeignKey "fk_channex_webhook_logs_tenant_id_tenants" ["tenant_id"] "tenants" ["id"] None; PrimaryKey "channex_webhook_logs_pkey" ["id"]];
   CreateTable "channex_room_type_maps"
    [Column "id" Uuid false None; Column "tenant_id" Uuid false None; Column "property_link_id" Uuid false None; Column "room_type_id" Uuid false None;
     Column "channex_room_type_id" (Varchar 36) false None; Column "channex_room_type_name" (Varchar 255) true None;
     Column "created_at" Timestamptz false (Some "now()")]
    [ForeignKey "fk_channex_room_type_maps_property_link_composite" ["tenant_id"; "property_link_id"] "channex_property_links" ["tenant_id"; "id"] None;
     ForeignKey "fk_channex_room_type_maps_room_type_composite" ["tenant_id"; "room_type_id"] "room_types" ["tenant_id"; "id"] None;
     PrimaryKey "channex_room_type_maps_pkey" ["id"]; Unique "uq_channex_room_type_maps_tenant_id_id" ["tenant_id"; "id"];
     Unique "uq_channex_room_type_maps_link_room_type" ["property_link_id"; "room_type_id"];
     Unique "uq_channex_room_type_maps_link_channex_rt" ["property_link_id"; "channex_room_type_id"]];
   CreateTable "channex_rate_plan_maps"
    [Column "id" Uuid false None; Column "tenant_id" Uuid false None; Column "room_type_map_id" Uuid false None; Column "rate_plan_id" Uuid false None;
     Column "channex_rate_plan_id" (Varchar 36) false None; Column "channex_rate_plan_name" (Varchar 255) true None;
     Column "created_at" Timestamptz false (Some "now()")]
    [ForeignKey "fk_channex_rate_plan_maps_room_type_map_composite" ["tenant_id"; "room_type_map_id"] "channex_room_type_maps" ["tenant_id"; "id"] None;
     ForeignKey "fk_channex_rate_plan_maps_rate_plan_composite" ["tenant_id"; "rate_plan_id"] "rate_plans" ["tenant_id"; "id"] None;
     PrimaryKey "channex_rate_plan_maps_pkey" ["id"]; Unique "uq_channex_rate_plan_maps_tenant_id_id" ["tenant_id"; "id"];
     Unique "uq_channex_rate_plan_maps_map_rate" ["room_type_map_id"; "rate_plan_id"]];
   CreateTable "channex_booking_revisions"
    [Column "id" Uuid false None; Column "tenant_id" Uuid false None; Column "property_link_id" Uuid false None;
     Column "channex_revision_id" (Varchar 36) false None; Column "channex_booking_id" (Varchar 36) true None; Column "status" (Varchar 20) true None;
     Column "channel_code" (Varchar 50) true None; Column "payload" Jsonb false None; Column "processing_status" (Varchar 20) false (Some "pending");
     Column "openpms_booking_id" Uuid true None; Column "error_message" Text true None; Column "received_at" Timestamptz false (Some "now()");
     Column "processed_at" Timestamptz true None]
    [ForeignKey "fk_channex_booking_revisions_property_link_composite" ["tenant_id"; "property_link_id"] "channex_property_links" ["tenant_id"; "id"] None;
     ForeignKey "fk_channex_booking_revisions_booking_composite" ["tenant_id"; "openpms_booking_id"] "bookings" ["tenant_id"; "id"] None;
     PrimaryKey "channex_booking_revisions_pkey" ["id"]; Unique "uq_channex_booking_revisions_tenant_id_id" ["tenant_id"; "id"];
     Unique "uq_channex_booking_revisions_channex_revision_id" ["channex_revision_id"]];
   CreateIndex "channex_booking_revisions" (Index "ix_channex_booking_revisions_status_received" ["processing_status"; "received_at"] false None);
   CreateTable "channex_ari_push_logs"
    [Column "id" Uuid false None; Column "tenant_id" Uuid false None; Column "property_link_id" Uuid false None; Column "request_payload" Jsonb false None;
     Column "response_status" Integer true None; Column "response_body" Text true None; Column "error_message" Text true None;
     Column "created_at" Timestamptz false (Some "now()")]
    [ForeignKey "fk_channex_ari_push_logs_property_link_composite" ["tenant_id"; "property_link_id"] "channex_property_links" ["tenant_id"; "id"] None;
     PrimaryKey "channex_ari_push_logs_pkey" ["id"]; Unique "uq_channex_ari_push_logs_tenant_id_id" ["tenant_id"; "id"]]]
  ++ apply_rls_tenant_scoped "channex_property_links"
  ++ apply_rls_tenant_scoped "channex_room_type_maps"
  ++ apply_rls_tenant_scoped "channex_rate_plan_maps"
  ++ apply_rls_tenant_scoped "channex_booking_revisions"
  ++ apply_rls_tenant_scoped "channex_ari_push_logs".

Definition down_r8s9t0u1v2w3 : list statement :=
  [DropPolicyIfExists "tenant_isolation" "channex_ari_push_logs";
   NoForceRls "channex_ari_push_logs";
   DisableRls "channex_ari_push_logs";
   DropPolicyIfExists "tenant_isolation" "channex_booking_revisions";
   NoForceRls "channex_booking_revisions";
   DisableRls "channex_booking_revisions";
   DropPolicyIfExists "tenant_isolation" "channex_rate_plan_maps";
   NoForceRls "channex_rate_plan_maps";
   DisableRls "channex_rate_plan_maps";
   DropPolicyIfExists "tenant_isolation" "channex_room_type_maps";
   NoForceRls "channex_room_type_maps";
   DisableRls "channex_room_type_maps";
   DropPolicyIfExists "tenant_isolation" "channex_property_links";
   NoForceRls "channex_property_links";
   DisableRls "channex_property_links";
   DropTable "channex_ari_push_logs";
   DropIndex "channex_booking_revisions" "ix_channex_booking_revisions_status_received";
   DropTable "channex_booking_revisions";
   DropTable "channex_rate_plan_maps";
   DropTable "channex_room_type_maps";
   DropTable "channex_webhook_logs";
   DropTable "channex_property_links"].

(** Add channex_webhook_id to channex_property_links. *)
Definition up_s0t1u2v3w4x5 : list statement :=
  [AddColumn "channex_property_links" (Column "channex_webhook_id" (Varchar 36) true None);
   CreateOrReplaceFunction "lookup_channex_link_for_webhook(text)" true false
     "SELECT cpl.tenant_id, cpl.id FROM channex_property_links cpl WHERE cpl.channex_property_id = p_cx_property_id LIMIT 1;"].

Definition down_s0t1u2v3w4x5 : list statement :=
  [DropFunctionIfExists "lookup_channex_link_for_webhook(text)";
   DropColumn "channex_property_links" "channex_webhook_id"].

(** Add Channex ARI restriction fields to rates. *)
Definition up_t2u3v4w5x6y7 : list statement :=
  [AddColumn "rates" (Column "stop_sell" Boolean false (Some "false"));
   AddColumn "rates" (Column "min_stay_arrival" Integer true None);
   AddColumn "rates" (Column "max_stay" Integer true None);
   SetDefault "rates" "stop_sell" None].

Definition down_t2u3v4w5x6y7 : list statement :=
  [DropColumn "rates" "max_stay";
   DropColumn "rates" "min_stay_arrival";
   DropColumn "rates" "stop_sell"].

(** Add external_booking_id to bookings for Channex OTA correlation. *)
Definition up_u3v4w5x6y7z8 : list statement :=
  [AddColumn "bookings" (Column "external_booking_id" (Varchar 128) true None);
   CreateIndex "bookings" (Index "ix_bookings_tenant_external_booking_id" ["tenant_id"; "external_booking_id"] false None)].

Definition down_u3v4w5x6y7z8 : list statement :=
  [DropIndex "bookings" "ix_bookings_tenant_external_booking_id";
   DropColumn "bookings" "external_booking_id"].

(** Login-by-email helper must bypass RLS when invoked as app role. *)
Definition up_v4w5x6y7z8a9 : list statement :=
  [CreateOrReplaceFunction "lookup_active_users_by_email_login(text)" true true
     "SELECT u.tenant_id, u.id FROM users u WHERE lower(trim(both from u.email)) = lower(trim(both from p_email)) AND u.is_active IS TRUE;";
   RevokeFromPublic "lookup_active_users_by_email_login(text)";
   GrantToCurrentUser "lookup_active_users_by_email_login(text)";
   GrantToOpenpms "lookup_active_users_by_email_login(text)"].

Definition down_v4w5x6y7z8a9 : list statement :=
  [CreateOrReplaceFunction "lookup_active_users_by_email_login(text)" true false
     "SELECT u.tenant_id, u.id FROM users u WHERE lower(trim(both from u.email)) = lower(trim(both from p_email)) AND u.is_active IS TRUE;";
   RevokeFromPublic "lookup_active_users_by_email_login(text)";
   GrantToCurrentUser "lookup_active_users_by_email_login(text)";
   GrantToOpenpms "lookup_active_users_by_email_login(text)"].

(** Phase 0: tax_configs + tax_mode enum, Stripe tables, folio source_channel. *)
Definition up_w0x1y2z3a4b5 : list statement :=
  [CreateEnum "tax_mode" ["off"; "inclusive"; "exclusive"];
   CreateTable "tax_configs"
    [Column "id" Uuid false None; Column "tenant_id" Uuid false None; Column "property_id" Uuid false None; Column "tax_mode" (Enum "tax_mode") false None;
     Column "tax_name" (Varchar 255) false None; Column "tax_rate" (Numeric 5 4) false None; Column "created_at" Timestamptz false (Some "now()");
     Column "updated_at" Timestamptz false (Some "now()")]
    [ForeignKey "fk_tax_configs_tenant_id_tenants" ["tenant_id"] "tenants" ["id"] None;
     ForeignKey "fk_tax_configs_property_composite" ["tenant_id"; "property_id"] "properties" ["tenant_id"; "id"] None; PrimaryKey "tax_configs_pkey" ["id"];
     Unique "uq_tax_configs_tenant_property" ["tenant_id"; "property_id"]; Unique "uq_tax_configs_tenant_id_id" ["tenant_id"; "id"]];
   CreateIndex "tax_configs" (Index "ix_tax_configs_property_id" ["property_id"] false None)]
  ++ apply_rls_tenant_scoped "tax_configs"
  ++ [CreateTable "stripe_connections"
    [Column "id" Uuid false None; Column "tenant_id" Uuid false None; Column "property_id" Uuid false None; Column "stripe_account_id" Text false None;
     Column "livemode" Boolean false None; Column "connected_at" Timestamptz false None; Column "disconnected_at" Timestamptz true None]
    [ForeignKey "fk_stripe_connections_tenant_id_tenants" ["tenant_id"] "tenants" ["id"] None;
     ForeignKey "fk_stripe_connections_property_composite" ["tenant_id"; "property_id"] "properties" ["tenant_id"; "id"] None;
     PrimaryKey "stripe_connections_pkey" ["id"]; Unique "uq_stripe_connections_tenant_property" ["tenant_id"; "property_id"];
     Unique "uq_stripe_connections_tenant_id_id" ["tenant_id"; "id"]]]
  ++ apply_rls_tenant_scoped "stripe_connections"
  ++ [CreateTable "stripe_payment_methods"
    [Column "id" Uuid false None; Column "tenant_id" Uuid false None; Column "property_id" Uuid false None; Column "booking_id" Uuid true None;
     Column "stripe_pm_id" (Varchar 255) false None; Column "card_last4" (Varchar 4) true None; Column "card_brand" (Varchar 32) true None;
     Column "card_exp_month" SmallInteger true None; Column "card_exp_year" SmallInteger true None; Column "label" (Varchar 255) true None;
     Column "created_at" Timestamptz false (Some "now()")]
    [ForeignKey "fk_stripe_payment_methods_tenant_id_tenants" ["tenant_id"] "tenants" ["id"] None;
     ForeignKey "fk_stripe_payment_methods_property_composite" ["tenant_id"; "property_id"] "properties" ["tenant_id"; "id"] None;
     ForeignKey "fk_stripe_payment_methods_booking_composite" ["tenant_id"; "booking_id"] "bookings" ["tenant_id"; "id"] None;
     PrimaryKey "stripe_payment_methods_pkey" ["id"]; Unique "uq_stripe_payment_methods_tenant_id_id" ["tenant_id"; "id"]]]
  ++ apply_rls_tenant_scoped "stripe_payment_methods"
  ++ [CreateTable "stripe_charges"
    [Column "id" Uuid false None; Column "tenant_id" Uuid false None; Column "property_id" Uuid false None; Column "booking_id" Uuid true None;
     Column "folio_tx_id" Uuid true None; Column "stripe_charge_id" (Varchar 255) false None; Column "stripe_pm_id" (Varchar 255) true None;
     Column "amount" (Numeric 12 2) false None; Column "currency" (Varchar 3) false None; Column "status" (Varchar 32) false None;
     Column "failure_message" Text true None; Column "created_at" Timestamptz false (Some "now()")]
    [CheckThat "ck_stripe_charges_status" "status IN ('succeeded', 'failed', 'refunded', 'partial_refund')";
     ForeignKey "fk_stripe_charges_tenant_id_tenants" ["tenant_id"] "tenants" ["id"] None;
     ForeignKey "fk_stripe_charges_property_composite" ["tenant_id"; "property_id"] "properties" ["tenant_id"; "id"] None;
     ForeignKey "fk_stripe_charges_booking_composite" ["tenant_id"; "booking_id"] "bookings" ["tenant_id"; "id"] None;
     ForeignKey "fk_stripe_charges_folio_tx_composite" ["tenant_id"; "folio_tx_id"] "folio_transactions" ["tenant_id"; "id"] None;
     PrimaryKey "stripe_charges_pkey" ["id"]; Unique "uq_stripe_charges_tenant_id_id" ["tenant_id"; "id"]]]
  ++ apply_rls_tenant_scoped "stripe_charges"
  ++ [AddColumn "folio_transactions" (Column "source_channel" (Varchar 64) true None)].

Definition down_w0x1y2z3a4b5 : list statement :=
  [DropColumn "folio_transactions" "source_channel";
   DropPolicyIfExists "tenant_isolation" "stripe_charges";
   DropPolicyIfExists "tenant_isolation" "stripe_payment_methods";
   DropPolicyIfExists "tenant_isolation" "stripe_connections";
   DropPolicyIfExists "tenant_isolation" "tax_configs";
   DropTable "stripe_charges";
   DropTable "stripe_payment_methods";
   DropTable "stripe_connections";
   DropIndex "tax_configs" "ix_tax_configs_property_id";
   DropTable "tax_configs";
   DropEnum "tax_mode"].

(** SECURITY DEFINER lookup for nightly Channex ARI fanout (bypasses RLS). *)
Definition up_x1y2z3a4b5c6 : list statement :=
  [CreateOrReplaceFunction "lookup_active_channex_property_links_for_worker()" true false
     "SELECT cpl.tenant_id, cpl.property_id FROM channex_property_links cpl WHERE cpl.status = 'active';";
   RevokeFromPublic "lookup_active_channex_property_links_for_worker()";
   GrantToCurrentUser "lookup_active_channex_property_links_for_worker()";
   GrantToOpenpms "lookup_active_channex_property_links_for_worker()"].

Definition down_x1y2z3a4b5c6 : list statement :=
  [DropFunctionIfExists "lookup_active_channex_property_links_for_worker()"].

(** email_logs audit table for transactional email (TZ-16). *)
Definition up_z0a1b2c3d4e5 : list statement :=
  [CreateTable "email_logs"
    [Column "id" Uuid false None; Column "tenant_id" Uuid false None; Column "property_id" Uuid true None; Column "booking_id" Uuid true None;
     Column "to_address" (Varchar 320) false None; Column "template_name" (Varchar 128) false None; Column "subject" (Varchar 512) false None;
     Column "status" (Varchar 32) false None; Column "resend_id" (Varchar 128) true None; Column "error_message" Text true None;
     Column "sent_at" Timestamptz false (Some "now()")]
    [CheckThat "ck_email_logs_status" "status IN ('sent', 'failed')"; ForeignKey "fk_email_logs_tenant_id_tenants" ["tenant_id"] "tenants" ["id"] None;
     ForeignKey "fk_email_logs_property_composite" ["tenant_id"; "property_id"] "properties" ["tenant_id"; "id"] None;
     ForeignKey "fk_email_logs_booking_composite" ["tenant_id"; "booking_id"] "bookings" ["tenant_id"; "id"] None; PrimaryKey "email_logs_pkey" ["id"];
     Unique "uq_email_logs_tenant_id_id" ["tenant_id"; "id"]];
   CreateIndex "email_logs" (Index "ix_email_logs_tenant_booking_id" ["tenant_id"; "booking_id"] false None);
   CreateIndex "email_logs" (Index "ix_email_logs_tenant_sent_at" ["tenant_id"; "sent_at"] false None)]
  ++ apply_rls_tenant_scoped "email_logs".

Definition down_z0a1b2c3d4e5 : list statement :=
  [DropPolicyIfExists "tenant_isolation" "email_logs";
   NoForceRls "email_logs";
   DisableRls "email_logs";
   DropIndex "email_logs" "ix_email_logs_tenant_sent_at";
   DropIndex "email_logs" "ix_email_logs_tenant_booking_id";
   DropTable "email_logs"].

(** SECURITY DEFINER lookup for check-in reminder Celery task (bypasses RLS). *)
Definition up_z1a2b3c4d5e6 : list statement :=
  [CreateOrReplaceFunction "lookup_checkin_reminder_candidates(date)" true false
     "SELECT b.tenant_id, b.id FROM bookings b INNER JOIN guests g ON g.tenant_id = b.tenant_id AND g.id = b.guest_id WHERE b.status = 'confirmed' AND g.email IS NOT NULL AND g.email NOT LIKE '%.invalid' AND ( SELECT min(bl.date) FROM booking_lines bl WHERE bl.tenant_id = b.tenant_id AND bl.booking_id = b.id ) = for_date;";
   RevokeFromPublic "lookup_checkin_reminder_candidates(date)";
   GrantToCurrentUser "lookup_checkin_reminder_candidates(date)";
   GrantToOpenpms "lookup_checkin_reminder_candidates(date)"].

Definition down_z1a2b3c4d5e6 : list statement :=
  [DropFunctionIfExists "lookup_checkin_reminder_candidates(date)"].

(** email_settings per property (TZ-16 seq 40). *)
Definition up_z2b3c4d5e6f7 : list statement :=
  [CreateTable "email_settings"
    [Column "id" Uuid false None; Column "tenant_id" Uuid false None; Column "property_id" Uuid false None; Column "sender_name" (Varchar 255) false None;
     Column "reply_to" (Varchar 320) true None; Column "logo_url" Text true None; Column "locale" (Varchar 16) false None;
     Column "created_at" Timestamptz false (Some "now()"); Column "updated_at" Timestamptz false (Some "now()")]
    [ForeignKey "fk_email_settings_tenant_id_tenants" ["tenant_id"] "tenants" ["id"] None;
     ForeignKey "fk_email_settings_property_composite" ["tenant_id"; "property_id"] "properties" ["tenant_id"; "id"] None;
     PrimaryKey "email_settings_pkey" ["id"]; Unique "uq_email_settings_tenant_id_id" ["tenant_id"; "id"];
     Unique "uq_email_settings_tenant_property" ["tenant_id"; "property_id"]]]
  ++ apply_rls_tenant_scoped "email_settings".

Definition down_z2b3c4d5e6f7 : list statement :=
  [DropPolicyIfExists "tenant_isolation" "email_settings";
   NoForceRls "email_settings";
   DisableRls "email_settings";
   DropTable "email_settings"].

(** Add optional notes on bookings (staff / folio context). *)
Definition up_a3b4c5d6e7f8 : list statement :=
  [AddColumn "bookings" (Column "notes" Text true None)].

Definition down_a3b4c5d6e7f8 : list statement :=
  [DropColumn "bookings" "notes"].

(** Per-tenant folio charge category catalog. *)
Definition up_c1d2e3f4b5a6 : list statement :=
  [CreateTable "folio_charge_categories"
    [Column "id" Uuid false None; Column "tenant_id" Uuid false None; Column "code" (Varchar 32) false None; Column "label" (Varchar 64) false None;
     Column "is_builtin" Boolean false None; Column "is_active" Boolean false None; Column "sort_order" Integer false None;
     Column "created_at" Timestamptz false (Some "now()"); Column "updated_at" Timestamptz false (Some "now()")]
    [ForeignKey "fk_folio_charge_categories_tenant_id_tenants" ["tenant_id"] "tenants" ["id"] None; PrimaryKey "folio_charge_categories_pkey" ["id"];
     Unique "uq_folio_charge_categories_tenant_code" ["tenant_id"; "code"]]]
  ++ apply_rls_tenant_scoped "folio_charge_categories"
  ++ [Data "INSERT INTO folio_charge_categories ( id, tenant_id, code, label, is_builtin, is_active, sort_order, created_at, ..."].

Definition down_c1d2e3f4b5a6 : list statement :=
  [DropPolicyIfExists "tenant_isolation" "folio_charge_categories";
   NoForceRls "folio_charge_categories";
   DisableRls "folio_charge_categories";
   DropTable "folio_charge_categories"].

(** Composite index refresh_tokens tenant_id + token_hash for auth lookups. *)
Definition up_p1q2r3s4t5u6 : list statement :=
  [CreateIndex "refresh_tokens" (Index "ix_refresh_tokens_tenant_token_hash" ["tenant_id"; "token_hash"] false None)].

Definition down_p1q2r3s4t5u6 : list statement :=
  [DropIndex "refresh_tokens" "ix_refresh_tokens_tenant_token_hash"].

(** Tenant resolver for inbound Stripe webhooks (SECURITY DEFINER, bypass RLS). *)
Definition up_q2r3s4t5u6v7 : list statement :=
  [CreateOrReplaceFunction "lookup_stripe_charge_for_webhook(text)" true true
     "SELECT sc.tenant_id, sc.id FROM stripe_charges sc WHERE sc.stripe_charge_id = p_pi LIMIT 1;";
   RevokeFromPublic "lookup_stripe_charge_for_webhook(text)";
   GrantToCurrentUser "lookup_stripe_charge_for_webhook(text)";
   GrantToOpenpms "lookup_stripe_charge_for_webhook(text)"].

Definition down_q2r3s4t5u6v7 : list statement :=
  [DropFunctionIfExists "lookup_stripe_charge_for_webhook(text)"].

(** SECURITY DEFINER lookup for night-audit Celery fanout (bypasses RLS). *)
Definition up_r3s4t5u6v7w8 : list statement :=
  [CreateOrReplaceFunction "lookup_all_active_properties_for_worker()" true true
     "SELECT p.tenant_id, p.id, p.timezone FROM properties p INNER JOIN tenants t ON t.id = p.tenant_id WHERE t.status = 'active';";
   RevokeFromPublic "lookup_all_active_properties_for_worker()";
   GrantToCurrentUser "lookup_all_active_properties_for_worker()";
   GrantToOpenpms "lookup_all_active_properties_for_worker()"].

Definition down_r3s4t5u6v7w8 : list statement :=
  [DropFunctionIfExists "lookup_all_active_properties_for_worker()"].

(** As the files of the directory are read. *)
Definition revisions : list revision :=
  [Revision "22d827ba2db9" None up_22d827ba2db9 down_22d827ba2db9; Revision "a3b4c5d6e7f8" (Some "z2b3c4d5e6f7") up_a3b4c5d6e7f8 down_a3b4c5d6e7f8;
   Revision "a9b03c4d5e6f" (Some "f8a92b3c4d5e") up_a9b03c4d5e6f down_a9b03c4d5e6f;
   Revision "b2c3d4e5f6a7" (Some "a9b03c4d5e6f") up_b2c3d4e5f6a7 down_b2c3d4e5f6a7;
   Revision "c1d2e3f4a5b6" (Some "b2c3d4e5f6a7") up_c1d2e3f4a5b6 down_c1d2e3f4a5b6;
   Revision "c1d2e3f4b5a6" (Some "a3b4c5d6e7f8") up_c1d2e3f4b5a6 down_c1d2e3f4b5a6;
   Revision "c4f8a1b2d3e0" (Some "22d827ba2db9") up_c4f8a1b2d3e0 down_c4f8a1b2d3e0;
   Revision "countrypack_001" (Some "q7r8s9t0u1v2") up_countrypack_001 down_countrypack_001;
   Revision "countrypack_002" (Some "countrypack_001") up_countrypack_002 down_countrypack_002;
   Revision "countrypack_003" (Some "countrypack_002") up_countrypack_003 down_countrypack_003;
   Revision "countrypack_004" (Some "countrypack_003") up_countrypack_004 down_countrypack_004;
   Revision "countrypack_005" (Some "countrypack_004") up_countrypack_005 down_countrypack_005;
   Revision "d4e5f6a7b8c9" (Some "c1d2e3f4a5b6") up_d4e5f6a7b8c9 down_d4e5f6a7b8c9;
   Revision "e7f91a2b3c4d" (Some "c4f8a1b2d3e0") up_e7f91a2b3c4d down_e7f91a2b3c4d;
   Revision "f5a6b7c8d9e0" (Some "d4e5f6a7b8c9") up_f5a6b7c8d9e0 down_f5a6b7c8d9e0;
   Revision "f8a92b3c4d5e" (Some "e7f91a2b3c4d") up_f8a92b3c4d5e down_f8a92b3c4d5e;
   Revision "g1h2i3j4k5l6" (Some "f5a6b7c8d9e0") up_g1h2i3j4k5l6 down_g1h2i3j4k5l6;
   Revision "h7i8j9k0l1m2" (Some "g1h2i3j4k5l6") up_h7i8j9k0l1m2 down_h7i8j9k0l1m2;
   Revision "i9j0k1l2m3n4" (Some "h7i8j9k0l1m2") up_i9j0k1l2m3n4 down_i9j0k1l2m3n4;
   Revision "j0k1l2m3n4o5" (Some "i9j0k1l2m3n4") up_j0k1l2m3n4o5 down_j0k1l2m3n4o5;
   Revision "k0l1m2n3o4p5" (Some "j0k1l2m3n4o5") up_k0l1m2n3o4p5 down_k0l1m2n3o4p5;
   Revision "m2n3o4p5q6r7" (Some "k0l1m2n3o4p5") up_m2n3o4p5q6r7 down_m2n3o4p5q6r7;
   Revision "n3o4p5q6r7s8" (Some "m2n3o4p5q6r7") up_n3o4p5q6r7s8 down_n3o4p5q6r7s8;
   Revision "o4p5q6r7s8t9" (Some "n3o4p5q6r7s8") up_o4p5q6r7s8t9 down_o4p5q6r7s8t9;
   Revision "p1q2r3s4t5u6" (Some "c1d2e3f4b5a6") up_p1q2r3s4t5u6 down_p1q2r3s4t5u6;
   Revision "p6q7r8s9t0u1" (Some "o4p5q6r7s8t9") up_p6q7r8s9t0u1 down_p6q7r8s9t0u1;
   Revision "q2r3s4t5u6v7" (Some "p1q2r3s4t5u6") up_q2r3s4t5u6v7 down_q2r3s4t5u6v7;
   Revision "q7r8s9t0u1v2" (Some "p6q7r8s9t0u1") up_q7r8s9t0u1v2 down_q7r8s9t0u1v2;
   Revision "r3s4t5u6v7w8" (Some "q2r3s4t5u6v7") up_r3s4t5u6v7w8 down_r3s4t5u6v7w8;
   Revision "r8s9t0u1v2w3" (Some "countrypack_005") up_r8s9t0u1v2w3 down_r8s9t0u1v2w3;
   Revision "s0t1u2v3w4x5" (Some "r8s9t0u1v2w3") up_s0t1u2v3w4x5 down_s0t1u2v3w4x5;
   Revision "t2u3v4w5x6y7" (Some "s0t1u2v3w4x5") up_t2u3v4w5x6y7 down_t2u3v4w5x6y7;
   Revision "u3v4w5x6y7z8" (Some "t2u3v4w5x6y7") up_u3v4w5x6y7z8 down_u3v4w5x6y7z8;
   Revision "v4w5x6y7z8a9" (Some "u3v4w5x6y7z8") up_v4w5x6y7z8a9 down_v4w5x6y7z8a9;
   Revision "w0x1y2z3a4b5" (Some "v4w5x6y7z8a9") up_w0x1y2z3a4b5 down_w0x1y2z3a4b5;
   Revision "x1y2z3a4b5c6" (Some "w0x1y2z3a4b5") up_x1y2z3a4b5c6 down_x1y2z3a4b5c6;
   Revision "z0a1b2c3d4e5" (Some "x1y2z3a4b5c6") up_z0a1b2c3d4e5 down_z0a1b2c3d4e5;
   Revision "z1a2b3c4d5e6" (Some "z0a1b2c3d4e5") up_z1a2b3c4d5e6 down_z1a2b3c4d5e6;
   Revision "z2b3c4d5e6f7" (Some "z1a2b3c4d5e6") up_z2b3c4d5e6f7 down_z2b3c4d5e6f7].

(** ** The tables of the models

    src/app/models: the table each mapped class declares, with PostgreSQL's
    name for a primary key that has none. *)

Open Scope string_scope.
Open Scope list_scope.

(** [AuditLog] *)
Definition orm_audit_log : string * table := ("audit_log", Table
  [Column "id" Uuid false None; Column "tenant_id" Uuid false None; Column "user_id" Uuid true None; Column "action" (Varchar 128) false None;
   Column "entity_type" (Varchar 128) false None; Column "entity_id" Uuid true None; Column "old_values" Jsonb true None;
   Column "new_values" Jsonb true None; Column "ip_address" (Varchar 64) true None; Column "created_at" Timestamptz false (Some "now()")]
  [PrimaryKey "audit_log_pkey" ["id"]]
  [] false false []).

(** [ApiKey] *)
Definition orm_api_keys : string * table := ("api_keys", Table
  [Column "id" Uuid false None; Column "tenant_id" Uuid false None; Column "key_hash" (Varchar 64) false None; Column "name" (Varchar 255) false None;
   Column "scopes" (ArrayOf Text) false None; Column "is_active" Boolean false None; Column "expires_at" Timestamptz true None]
  [PrimaryKey "api_keys_pkey" ["id"]; ForeignKey "fk_api_keys_tenant_id_tenants" ["tenant_id"] "tenants" ["id"] None;
   Unique "uq_api_keys_tenant_id_id" ["tenant_id"; "id"]; Unique "uq_api_keys_key_hash" ["key_hash"]]
  [] false false []).

(** [RefreshToken] *)
Definition orm_refresh_tokens : string * table := ("refresh_tokens", Table
  [Column "id" Uuid false None; Column "tenant_id" Uuid false None; Column "user_id" Uuid false None; Column "token_hash" (Varchar 64) false None;
   Column "expires_at" Timestamptz false None; Column "revoked_at" Timestamptz true None; Column "created_at" Timestamptz false None]
  [PrimaryKey "refresh_tokens_pkey" ["id"]; ForeignKey "fk_refresh_tokens_user_composite" ["tenant_id"; "user_id"] "users" ["tenant_id"; "id"] None;
   Unique "uq_refresh_tokens_tenant_id_id" ["tenant_id"; "id"]]
  [] false false []).

(** [User] *)
Definition orm_users : string * table := ("users", Table
  [Column "id" Uuid false None; Column "tenant_id" Uuid false None; Column "email" (Varchar 320) false None; Column "password_hash" (Varchar 255) false None;
   Column "full_name" (Varchar 255) false None; Column "role" (Varchar 32) false None; Column "is_active" Boolean false None]
  [PrimaryKey "users_pkey" ["id"]; ForeignKey "fk_users_tenant_id_tenants" ["tenant_id"] "tenants" ["id"] None;
   Unique "uq_users_tenant_id_id" ["tenant_id"; "id"]; Unique "uq_users_tenant_email" ["tenant_id"; "email"]]
  [] false false []).

(** [StripeCharge] *)
Definition orm_stripe_charges : string * table := ("stripe_charges", Table
  [Column "id" Uuid false None; Column "tenant_id" Uuid false None; Column "property_id" Uuid false None; Column "booking_id" Uuid true None;
   Column "folio_tx_id" Uuid true None; Column "stripe_charge_id" (Varchar 255) false None; Column "stripe_pm_id" (Varchar 255) true None;
   Column "amount" (Numeric 12 2) false None; Column "currency" (Varchar 3) false None; Column "status" (Varchar 32) false None;
   Column "failure_message" Text true None; Column "created_at" Timestamptz false (Some "now()")]
  [PrimaryKey "stripe_charges_pkey" ["id"]; ForeignKey "fk_stripe_charges_tenant_id_tenants" ["tenant_id"] "tenants" ["id"] None;
   ForeignKey "fk_stripe_charges_property_composite" ["tenant_id"; "property_id"] "properties" ["tenant_id"; "id"] None;
   ForeignKey "fk_stripe_charges_booking_composite" ["tenant_id"; "booking_id"] "bookings" ["tenant_id"; "id"] None;
   ForeignKey "fk_stripe_charges_folio_tx_composite" ["tenant_id"; "folio_tx_id"] "folio_transactions" ["tenant_id"; "id"] None;
   Unique "uq_stripe_charges_tenant_id_id" ["tenant_id"; "id"]]
  [] false false []).

(** [StripeConnection] *)
Definition orm_stripe_connections : string * table := ("stripe_connections", Table
  [Column "id" Uuid false None; Column "tenant_id" Uuid false None; Column "property_id" Uuid false None; Column "stripe_account_id" Text false None;
   Column "livemode" Boolean false None; Column "connected_at" Timestamptz false None; Column "disconnected_at" Timestamptz true None]
  [PrimaryKey "stripe_connections_pkey" ["id"]; ForeignKey "fk_stripe_connections_tenant_id_tenants" ["tenant_id"] "tenants" ["id"] None;
   ForeignKey "fk_stripe_connections_property_composite" ["tenant_id"; "property_id"] "properties" ["tenant_id"; "id"] None;
   Unique "uq_stripe_connections_tenant_property" ["tenant_id"; "property_id"]; Unique "uq_stripe_connections_tenant_id_id" ["tenant_id"; "id"]]
  [] false false []).

(** [StripePaymentMethod] *)
Definition orm_stripe_payment_methods : string * table := ("stripe_payment_methods", Table
  [Column "id" Uuid false None; Column "tenant_id" Uuid false None; Column "property_id" Uuid false None; Column "booking_id" Uuid true None;
   Column "stripe_pm_id" (Varchar 255) false None; Column "card_last4" (Varchar 4) true None; Column "card_brand" (Varchar 32) true None;
   Column "card_exp_month" SmallInteger true None; Column "card_exp_year" SmallInteger true None; Column "label" (Varchar 255) true None;
   Column "created_at" Timestamptz false (Some "now()")]
  [PrimaryKey "stripe_payment_methods_pkey" ["id"]; ForeignKey "fk_stripe_payment_methods_tenant_id_tenants" ["tenant_id"] "tenants" ["id"] None;
   ForeignKey "fk_stripe_payment_methods_property_composite" ["tenant_id"; "property_id"] "properties" ["tenant_id"; "id"] None;
   ForeignKey "fk_stripe_payment_methods_booking_composite" ["tenant_id"; "booking_id"] "bookings" ["tenant_id"; "id"] None;
   Unique "uq_stripe_payment_methods_tenant_id_id" ["tenant_id"; "id"]]
  [] false false []).

(** [TaxConfig] *)
Definition orm_tax_configs : string * table := ("tax_configs", Table
  [Column "id" Uuid false None; Column "tenant_id" Uuid false None; Column "property_id" Uuid false None; Column "tax_mode" (Enum "tax_mode") false None;
   Column "tax_name" (Varchar 255) false None; Column "tax_rate" (Numeric 5 4) false None; Column "created_at" Timestamptz false (Some "now()");
   Column "updated_at" Timestamptz false (Some "now()")]
  [PrimaryKey "tax_configs_pkey" ["id"]; ForeignKey "fk_tax_configs_tenant_id_tenants" ["tenant_id"] "tenants" ["id"] None;
   ForeignKey "fk_tax_configs_property_composite" ["tenant_id"; "property_id"] "properties" ["tenant_id"; "id"] None;
   Unique "uq_tax_configs_tenant_property" ["tenant_id"; "property_id"]; Unique "uq_tax_configs_tenant_id_id" ["tenant_id"; "id"]]
  [] false false []).

(** [Booking] *)
Definition orm_bookings : string * table := ("bookings", Table
  [Column "id" Uuid false None; Column "tenant_id" Uuid false None; Column "property_id" Uuid false None; Column "guest_id" Uuid false None;
   Column "rate_plan_id" Uuid true None; Column "external_booking_id" (Varchar 128) true None; Column "status" (Varchar 64) false None;
   Column "source" (Varchar 64) false None; Column "total_amount" (Numeric 14 2) false None; Column "notes" Text true None]
  [PrimaryKey "bookings_pkey" ["id"]; CheckThat "ck_booking_status" "status IN ('pending','confirmed','checked_in','checked_out','cancelled','no_show')";
   ForeignKey "fk_bookings_property_composite" ["tenant_id"; "property_id"] "properties" ["tenant_id"; "id"] None;
   ForeignKey "fk_bookings_guest_composite" ["tenant_id"; "guest_id"] "guests" ["tenant_id"; "id"] None;
   ForeignKey "fk_bookings_rate_plan_composite" ["tenant_id"; "rate_plan_id"] "rate_plans" ["tenant_id"; "id"] None;
   Unique "uq_bookings_tenant_id_id" ["tenant_id"; "id"]]
  [] false false []).

(** [BookingLine] *)
Definition orm_booking_lines : string * table := ("booking_lines", Table
  [Column "id" Uuid false None; Column "tenant_id" Uuid false None; Column "booking_id" Uuid false None; Column "date" Date false None;
   Column "room_type_id" Uuid false None; Column "room_id" Uuid true None; Column "price_for_date" (Numeric 14 2) false None]
  [PrimaryKey "booking_lines_pkey" ["id"]; ForeignKey "fk_booking_lines_booking_composite" ["tenant_id"; "booking_id"] "bookings" ["tenant_id"; "id"] None;
   ForeignKey "fk_booking_lines_room_type_composite" ["tenant_id"; "room_type_id"] "room_types" ["tenant_id"; "id"] None;
   ForeignKey "fk_booking_lines_room_composite" ["tenant_id"; "room_id"] "rooms" ["tenant_id"; "id"] None;
   Unique "uq_booking_lines_tenant_id_id" ["tenant_id"; "id"]]
  [] false false []).

(** [FolioChargeCategory] *)
Definition orm_folio_charge_categories : string * table := ("folio_charge_categories", Table
  [Column "id" Uuid false None; Column "tenant_id" Uuid false None; Column "code" (Varchar 32) false None; Column "label" (Varchar 64) false None;
   Column "is_builtin" Boolean false None; Column "is_active" Boolean false None; Column "sort_order" Integer false None;
   Column "created_at" Timestamptz false (Some "now()"); Column "updated_at" Timestamptz false (Some "now()")]
  [PrimaryKey "folio_charge_categories_pkey" ["id"]; ForeignKey "folio_charge_categories_tenant_id_fkey" ["tenant_id"] "tenants" ["id"] None;
   Unique "uq_folio_charge_categories_tenant_code" ["tenant_id"; "code"]]
  [] false false []).

(** [FolioTransaction] *)
Definition orm_folio_transactions : string * table := ("folio_transactions", Table
  [Column "id" Uuid false None; Column "tenant_id" Uuid false None; Column "booking_id" Uuid false None; Column "type" (Varchar 32) false None;
   Column "amount" (Numeric 14 2) false None; Column "payment_method" (Varchar 64) true None; Column "description" (Varchar 512) true None;
   Column "created_at" Timestamptz false (Some "now()"); Column "created_by" Uuid true None; Column "category" (Varchar 32) false None;
   Column "source_channel" (Varchar 64) true None]
  [PrimaryKey "folio_transactions_pkey" ["id"];
   ForeignKey "fk_folio_transactions_booking_composite" ["tenant_id"; "booking_id"] "bookings" ["tenant_id"; "id"] None;
   ForeignKey "fk_folio_transactions_created_by_user" ["tenant_id"; "created_by"] "users" ["tenant_id"; "id"] None;
   Unique "uq_folio_transactions_tenant_id_id" ["tenant_id"; "id"]]
  [] false false []).

(** [Guest] *)
Definition orm_guests : string * table := ("guests", Table
  [Column "id" Uuid false None; Column "tenant_id" Uuid false None; Column "first_name" (Varchar 255) false None;
   Column "last_name" (Varchar 255) false None; Column "email" (Varchar 320) false None; Column "phone" (Varchar 64) false None;
   Column "passport_data" (Varchar 255) true None; Column "nationality" (Varchar 2) true None; Column "date_of_birth" Date true None;
   Column "notes" Text true None; Column "vip_status" Boolean false None; Column "created_at" Timestamptz false (Some "now()");
   Column "updated_at" Timestamptz false (Some "now()")]
  [PrimaryKey "guests_pkey" ["id"]; ForeignKey "fk_guests_tenant_id_tenants" ["tenant_id"] "tenants" ["id"] None;
   Unique "uq_guests_tenant_id_id" ["tenant_id"; "id"]; Unique "uq_guests_tenant_email" ["tenant_id"; "email"]]
  [] false false []).

(** [CountryPack] *)
Definition orm_country_packs : string * table := ("country_packs", Table
  [Column "code" (Varchar 32) false None; Column "tenant_id" Uuid true None; Column "name" (Varchar 100) false None;
   Column "currency_code" (Varchar 3) false None; Column "currency_symbol" (Varchar 8) false None; Column "currency_symbol_position" (Varchar 6) false None;
   Column "currency_decimal_places" SmallInteger false None; Column "timezone" (Varchar 64) false None; Column "date_format" (Varchar 20) false None;
   Column "locale" (Varchar 10) false None; Column "default_checkin_time" Time false None; Column "default_checkout_time" Time false None;
   Column "taxes" Jsonb false None; Column "payment_methods" Jsonb false None; Column "fiscal_year_start" (Varchar 5) true None;
   Column "is_builtin" Boolean false None; Column "created_at" Timestamp false (Some "now()"); Column "updated_at" Timestamp false (Some "now()")]
  [PrimaryKey "country_packs_pkey" ["code"]; ForeignKey "fk_country_packs_tenant_id_tenants" ["tenant_id"] "tenants" ["id"] None]
  [] false false []).

(** [Property] *)
Definition orm_properties : string * table := ("properties", Table
  [Column "id" Uuid false None; Column "tenant_id" Uuid false None; Column "name" (Varchar 255) false None;
   Column "country_pack_code" (Varchar 32) true None; Column "timezone" (Varchar 64) false None; Column "currency" (Varchar 3) false None;
   Column "checkin_time" Time false None; Column "checkout_time" Time false None]
  [PrimaryKey "properties_pkey" ["id"]; ForeignKey "fk_properties_country_pack_code_country_packs" ["country_pack_code"] "country_packs" ["code"] None;
   ForeignKey "fk_properties_tenant_id_tenants" ["tenant_id"] "tenants" ["id"] None; Unique "uq_properties_tenant_id_id" ["tenant_id"; "id"]]
  [] false false []).

(** [Room] *)
Definition orm_rooms : string * table := ("rooms", Table
  [Column "id" Uuid false None; Column "tenant_id" Uuid false None; Column "room_type_id" Uuid false None; Column "name" (Varchar 255) false None;
   Column "status" (Varchar 64) false None; Column "deleted_at" Timestamptz true None; Column "housekeeping_status" (Varchar 32) false None;
   Column "housekeeping_priority" (Varchar 32) false None]
  [PrimaryKey "rooms_pkey" ["id"]; ForeignKey "fk_rooms_room_type_composite" ["tenant_id"; "room_type_id"] "room_types" ["tenant_id"; "id"] None;
   Unique "uq_rooms_tenant_id_id" ["tenant_id"; "id"]]
  [] false false []).

(** [RoomHousekeepingEvent] *)
Definition orm_room_housekeeping_events : string * table := ("room_housekeeping_events", Table
  [Column "id" Uuid false None; Column "tenant_id" Uuid false None; Column "room_id" Uuid false None; Column "old_status" (Varchar 32) false None;
   Column "new_status" (Varchar 32) false None; Column "changed_by_user_id" Uuid true None; Column "created_at" Timestamptz false (Some "now()")]
  [PrimaryKey "room_housekeeping_events_pkey" ["id"]; ForeignKey "fk_hk_events_room_composite" ["tenant_id"; "room_id"] "rooms" ["tenant_id"; "id"] None;
   ForeignKey "fk_hk_events_user_composite" ["tenant_id"; "changed_by_user_id"] "users" ["tenant_id"; "id"] None;
   Unique "uq_room_housekeeping_events_tenant_id_id" ["tenant_id"; "id"]]
  [] false false []).

(** [RoomType] *)
Definition orm_room_types : string * table := ("room_types", Table
  [Column "id" Uuid false None; Column "tenant_id" Uuid false None; Column "property_id" Uuid false None; Column "name" (Varchar 255) false None;
   Column "base_occupancy" Integer false None; Column "max_occupancy" Integer false None; Column "deleted_at" Timestamptz true None]
  [PrimaryKey "room_types_pkey" ["id"]; ForeignKey "fk_room_types_property_composite" ["tenant_id"; "property_id"] "properties" ["tenant_id"; "id"] None;
   Unique "uq_room_types_tenant_id_id" ["tenant_id"; "id"]]
  [] false false []).

(** [Tenant] *)
Definition orm_tenants : string * table := ("tenants", Table
  [Column "id" Uuid false None; Column "name" (Varchar 255) false None; Column "billing_email" (Varchar 320) false None;
   Column "status" (Varchar 64) false None]
  [PrimaryKey "tenants_pkey" ["id"]]
  [] false false []).

(** [ChannexAriPushLog] *)
Definition orm_channex_ari_push_logs : string * table := ("channex_ari_push_logs", Table
  [Column "id" Uuid false None; Column "tenant_id" Uuid false None; Column "property_link_id" Uuid false None; Column "request_payload" Jsonb false None;
   Column "response_status" Integer true None; Column "response_body" Text true None; Column "error_message" Text true None;
   Column "created_at" Timestamptz false (Some "now()")]
  [PrimaryKey "channex_ari_push_logs_pkey" ["id"];
   ForeignKey "fk_channex_ari_push_logs_property_link_composite" ["tenant_id"; "property_link_id"] "channex_property_links" ["tenant_id"; "id"] None;
   Unique "uq_channex_ari_push_logs_tenant_id_id" ["tenant_id"; "id"]]
  [] false false []).

(** [ChannexBookingRevision] *)
Definition orm_channex_booking_revisions : string * table := ("channex_booking_revisions", Table
  [Column "id" Uuid false None; Column "tenant_id" Uuid false None; Column "property_link_id" Uuid false None;
   Column "channex_revision_id" (Varchar 36) false None; Column "channex_booking_id" (Varchar 36) true None; Column "status" (Varchar 20) true None;
   Column "channel_code" (Varchar 50) true None; Column "payload" Jsonb false None; Column "processing_status" (Varchar 20) false None;
   Column "openpms_booking_id" Uuid true None; Column "error_message" Text true None; Column "received_at" Timestamptz false (Some "now()");
   Column "processed_at" Timestamptz true None]
  [PrimaryKey "channex_booking_revisions_pkey" ["id"];
   ForeignKey "fk_channex_booking_revisions_property_link_composite" ["tenant_id"; "property_link_id"] "channex_property_links" ["tenant_id"; "id"] None;
   ForeignKey "fk_channex_booking_revisions_booking_composite" ["tenant_id"; "openpms_booking_id"] "bookings" ["tenant_id"; "id"] None;
   Unique "uq_channex_booking_revisions_tenant_id_id" ["tenant_id"; "id"]; Unique "uq_channex_booking_revisions_channex_revision_id" ["channex_revision_id"]]
  [] false false []).

(** [ChannexPropertyLink] *)
Definition orm_channex_property_links : string * table := ("channex_property_links", Table
  [Column "id" Uuid false None; Column "tenant_id" Uuid false None; Column "property_id" Uuid false None;
   Column "channex_property_id" (Varchar 36) false None; Column "channex_webhook_id" (Varchar 36) true None; Column "channex_api_key" Text false None;
   Column "channex_env" (Varchar 20) false None; Column "status" (Varchar 20) false None; Column "connected_at" Timestamptz true None;
   Column "last_sync_at" Timestamptz true None; Column "error_message" Text true None; Column "created_at" Timestamptz false (Some "now()")]
  [PrimaryKey "channex_property_links_pkey" ["id"]; ForeignKey "fk_channex_property_links_tenant_id_tenants" ["tenant_id"] "tenants" ["id"] None;
   ForeignKey "fk_channex_property_links_property_composite" ["tenant_id"; "property_id"] "properties" ["tenant_id"; "id"] None;
   Unique "uq_channex_property_links_tenant_id_id" ["tenant_id"; "id"]; Unique "uq_channex_property_links_property_id" ["property_id"]]
  [] false false []).

(** [ChannexRatePlanMap] *)
Definition orm_channex_rate_plan_maps : string * table := ("channex_rate_plan_maps", Table
  [Column "id" Uuid false None; Column "tenant_id" Uuid false None; Column "room_type_map_id" Uuid false None; Column "rate_plan_id" Uuid false None;
   Column "channex_rate_plan_id" (Varchar 36) false None; Column "channex_rate_plan_name" (Varchar 255) true None;
   Column "created_at" Timestamptz false (Some "now()")]
  [PrimaryKey "channex_rate_plan_maps_pkey" ["id"];
   ForeignKey "fk_channex_rate_plan_maps_room_type_map_composite" ["tenant_id"; "room_type_map_id"] "channex_room_type_maps" ["tenant_id"; "id"] None;
   ForeignKey "fk_channex_rate_plan_maps_rate_plan_composite" ["tenant_id"; "rate_plan_id"] "rate_plans" ["tenant_id"; "id"] None;
   Unique "uq_channex_rate_plan_maps_tenant_id_id" ["tenant_id"; "id"]; Unique "uq_channex_rate_plan_maps_map_rate" ["room_type_map_id"; "rate_plan_id"]]
  [] false false []).

(** [ChannexRoomTypeMap] *)
Definition orm_channex_room_type_maps : string * table := ("channex_room_type_maps", Table
  [Column "id" Uuid false None; Column "tenant_id" Uuid false None; Column "property_link_id" Uuid false None; Column "room_type_id" Uuid false None;
   Column "channex_room_type_id" (Varchar 36) false None; Column "channex_room_type_name" (Varchar 255) true None;
   Column "created_at" Timestamptz false (Some "now()")]
  [PrimaryKey "channex_room_type_maps_pkey" ["id"];
   ForeignKey "fk_channex_room_type_maps_property_link_composite" ["tenant_id"; "property_link_id"] "channex_property_links" ["tenant_id"; "id"] None;
   ForeignKey "fk_channex_room_type_maps_room_type_composite" ["tenant_id"; "room_type_id"] "room_types" ["tenant_id"; "id"] None;
   Unique "uq_channex_room_type_maps_tenant_id_id" ["tenant_id"; "id"];
   Unique "uq_channex_room_type_maps_link_room_type" ["property_link_id"; "room_type_id"];
   Unique "uq_channex_room_type_maps_link_channex_rt" ["property_link_id"; "channex_room_type_id"]]
  [] false false []).

(** [ChannexWebhookLog] *)
Definition orm_channex_webhook_logs : string * table := ("channex_webhook_logs", Table
  [Column "id" Uuid false None; Column "tenant_id" Uuid true None; Column "event_type" (Varchar 50) true None; Column "payload" Jsonb true None;
   Column "signature" Text true None; Column "ip_address" (Varchar 45) true None; Column "processed" Boolean false None;
   Column "created_at" Timestamptz false (Some "now()")]
  [PrimaryKey "channex_webhook_logs_pkey" ["id"]; ForeignKey "fk_channex_webhook_logs_tenant_id_tenants" ["tenant_id"] "tenants" ["id"] None]
  [] false false []).

(** [CountryPackExtension] *)
Definition orm_country_pack_extensions : string * table := ("country_pack_extensions", Table
  [Column "id" Uuid false None; Column "tenant_id" Uuid false None; Column "country_code" (Varchar 2) true None; Column "code" (Varchar 64) false None;
   Column "name" (Varchar 100) false None; Column "webhook_url" Text false None; Column "required_fields" Jsonb false None;
   Column "ui_config_schema" Jsonb true None; Column "is_active" Boolean false None; Column "created_at" Timestamp false (Some "now()");
   Column "updated_at" Timestamp false (Some "now()")]
  [PrimaryKey "country_pack_extensions_pkey" ["id"]; ForeignKey "fk_country_pack_extensions_tenant_id_tenants" ["tenant_id"] "tenants" ["id"] None;
   Unique "uq_country_pack_extensions_tenant_code" ["tenant_id"; "code"]; Unique "uq_country_pack_extensions_tenant_id_id" ["tenant_id"; "id"]]
  [] false false []).

(** [PropertyExtension] *)
Definition orm_property_extensions : string * table := ("property_extensions", Table
  [Column "id" Uuid false None; Column "tenant_id" Uuid false None; Column "property_id" Uuid false None; Column "extension_id" Uuid false None;
   Column "config" Jsonb true None; Column "is_active" Boolean false None; Column "created_at" Timestamp false (Some "now()")]
  [PrimaryKey "property_extensions_pkey" ["id"]; ForeignKey "fk_property_extensions_tenant_id_tenants" ["tenant_id"] "tenants" ["id"] None;
   ForeignKey "fk_property_extensions_property_composite" ["tenant_id"; "property_id"] "properties" ["tenant_id"; "id"] None;
   ForeignKey "fk_property_extensions_extension_composite" ["tenant_id"; "extension_id"] "country_pack_extensions" ["tenant_id"; "id"] None;
   Unique "uq_property_extensions_prop_ext" ["tenant_id"; "property_id"; "extension_id"]; Unique "uq_property_extensions_tenant_id_id" ["tenant_id"; "id"]]
  [] false false []).

(** [WebhookDeliveryLog] *)
Definition orm_webhook_delivery_logs : string * table := ("webhook_delivery_logs", Table
  [Column "id" Uuid false None; Column "tenant_id" Uuid false None; Column "webhook_subscription_id" Uuid false None;
   Column "event_type" (Varchar 128) false None; Column "attempt_number" Integer false None; Column "http_status_code" Integer true None;
   Column "error_message" Text true None; Column "payload_json" Jsonb false None; Column "created_at" Timestamptz false (Some "now()")]
  [PrimaryKey "webhook_delivery_logs_pkey" ["id"]; ForeignKey "fk_webhook_delivery_logs_tenant_id_tenants" ["tenant_id"] "tenants" ["id"] None;
   ForeignKey "fk_webhook_delivery_logs_subscription_composite" ["tenant_id"; "webhook_subscription_id"] "webhook_subscriptions" ["tenant_id"; "id"] None;
   Unique "uq_webhook_delivery_logs_tenant_id_id" ["tenant_id"; "id"]]
  [] false false []).

(** [WebhookPendingDelivery] *)
Definition orm_webhook_pending_deliveries : string * table := ("webhook_pending_deliveries", Table
  [Column "id" Uuid false None; Column "tenant_id" Uuid false None; Column "webhook_subscription_id" Uuid false None;
   Column "event_type" (Varchar 128) false None; Column "payload_json" Jsonb false None; Column "attempt_count" Integer false None;
   Column "next_retry_at" Timestamptz false None; Column "status" (Varchar 32) false None; Column "created_at" Timestamptz false (Some "now()")]
  [PrimaryKey "webhook_pending_deliveries_pkey" ["id"]; ForeignKey "fk_webhook_pending_deliveries_tenant_id_tenants" ["tenant_id"] "tenants" ["id"] None;
   ForeignKey "fk_webhook_pending_deliveries_subscription_composite" ["tenant_id"; "webhook_subscription_id"] "webhook_subscriptions" ["tenant_id"; "id"] None;
   Unique "uq_webhook_pending_deliveries_tenant_id_id" ["tenant_id"; "id"]]
  [] false false []).

(** [WebhookSubscription] *)
Definition orm_webhook_subscriptions : string * table := ("webhook_subscriptions", Table
  [Column "id" Uuid false None; Column "tenant_id" Uuid false None; Column "url" (Varchar 2048) false None; Column "events" (ArrayOf Text) false None;
   Column "secret" (Varchar 512) false None; Column "is_active" Boolean false None]
  [PrimaryKey "webhook_subscriptions_pkey" ["id"]; ForeignKey "fk_webhook_subscriptions_tenant_id_tenants" ["tenant_id"] "tenants" ["id"] None;
   Unique "uq_webhook_subscriptions_tenant_id_id" ["tenant_id"; "id"]]
  [] false false []).

(** [EmailLog] *)
Definition orm_email_logs : string * table := ("email_logs", Table
  [Column "id" Uuid false None; Column "tenant_id" Uuid false None; Column "property_id" Uuid true None; Column "booking_id" Uuid true None;
   Column "to_address" (Varchar 320) false None; Column "template_name" (Varchar 128) false None; Column "subject" (Varchar 512) false None;
   Column "status" (Varchar 32) false None; Column "resend_id" (Varchar 128) true None; Column "error_message" Text true None;
   Column "sent_at" Timestamptz false (Some "now()")]
  [PrimaryKey "email_logs_pkey" ["id"]; CheckThat "ck_email_logs_status" "status IN ('sent', 'failed')";
   ForeignKey "fk_email_logs_tenant_id_tenants" ["tenant_id"] "tenants" ["id"] None;
   ForeignKey "fk_email_logs_property_composite" ["tenant_id"; "property_id"] "properties" ["tenant_id"; "id"] None;
   ForeignKey "fk_email_logs_booking_composite" ["tenant_id"; "booking_id"] "bookings" ["tenant_id"; "id"] None;
   Unique "uq_email_logs_tenant_id_id" ["tenant_id"; "id"]]
  [] false false []).

(** [EmailSettings] *)
Definition orm_email_settings : string * table := ("email_settings", Table
  [Column "id" Uuid false None; Column "tenant_id" Uuid false None; Column "property_id" Uuid false None; Column "sender_name" (Varchar 255) false None;
   Column "reply_to" (Varchar 320) true None; Column "logo_url" Text true None; Column "locale" (Varchar 16) false None;
   Column "created_at" Timestamptz false (Some "now()"); Column "updated_at" Timestamptz false (Some "now()")]
  [PrimaryKey "email_settings_pkey" ["id"]; ForeignKey "fk_email_settings_tenant_id_tenants" ["tenant_id"] "tenants" ["id"] None;
   ForeignKey "fk_email_settings_property_composite" ["tenant_id"; "property_id"] "properties" ["tenant_id"; "id"] None;
   Unique "uq_email_settings_tenant_property" ["tenant_id"; "property_id"]; Unique "uq_email_settings_tenant_id_id" ["tenant_id"; "id"]]
  [] false false []).

(** [AvailabilityLedger] *)
Definition orm_availability_ledger : string * table := ("availability_ledger", Table
  [Column "id" Uuid false None; Column "tenant_id" Uuid false None; Column "date" Date false None; Column "room_type_id" Uuid false None;
   Column "total_rooms" Integer false None; Column "booked_rooms" Integer false None; Column "blocked_rooms" Integer false None]
  [PrimaryKey "availability_ledger_pkey" ["id"];
   ForeignKey "fk_availability_ledger_room_type_composite" ["tenant_id"; "room_type_id"] "room_types" ["tenant_id"; "id"] None;
   Unique "uq_availability_ledger_tenant_room_type_date" ["tenant_id"; "room_type_id"; "date"]]
  [] false false []).

(** [Rate] *)
Definition orm_rates : string * table := ("rates", Table
  [Column "id" Uuid false None; Column "tenant_id" Uuid false None; Column "room_type_id" Uuid false None; Column "rate_plan_id" Uuid false None;
   Column "date" Date false None; Column "price" (Numeric 14 2) false None; Column "stop_sell" Boolean false None;
   Column "min_stay_arrival" Integer true None; Column "max_stay" Integer true None]
  [PrimaryKey "rates_pkey" ["id"]; ForeignKey "fk_rates_room_type_composite" ["tenant_id"; "room_type_id"] "room_types" ["tenant_id"; "id"] None;
   ForeignKey "fk_rates_rate_plan_composite" ["tenant_id"; "rate_plan_id"] "rate_plans" ["tenant_id"; "id"] None;
   Unique "uq_rates_tenant_room_type_plan_date" ["tenant_id"; "room_type_id"; "rate_plan_id"; "date"]]
  [] false false []).

(** [RatePlan] *)
Definition orm_rate_plans : string * table := ("rate_plans", Table
  [Column "id" Uuid false None; Column "tenant_id" Uuid false None; Column "property_id" Uuid false None; Column "name" (Varchar 255) false None;
   Column "cancellation_policy" Text false None]
  [PrimaryKey "rate_plans_pkey" ["id"]; ForeignKey "fk_rate_plans_property_composite" ["tenant_id"; "property_id"] "properties" ["tenant_id"; "id"] None;
   Unique "uq_rate_plans_tenant_id_id" ["tenant_id"; "id"]]
  [] false false []).

Definition orm : list (string * table) :=
  [orm_audit_log; orm_api_keys; orm_refresh_tokens; orm_users; orm_stripe_charges; orm_stripe_connections; orm_stripe_payment_methods; orm_tax_configs;
   orm_bookings; orm_booking_lines; orm_folio_charge_categories; orm_folio_transactions; orm_guests; orm_country_packs; orm_properties; orm_rooms;
   orm_room_housekeeping_events; orm_room_types; orm_tenants; orm_channex_ari_push_logs; orm_channex_booking_revisions; orm_channex_property_links;
   orm_channex_rate_plan_maps; orm_channex_room_type_maps; orm_channex_webhook_logs; orm_country_pack_extensions; orm_property_extensions;
   orm_webhook_delivery_logs; orm_webhook_pending_deliveries; orm_webhook_subscriptions; orm_email_logs; orm_email_settings; orm_availability_ledger;
   orm_rates; orm_rate_plans].
