(* ===== verification/DdlLaws.v ===== *)
(** * Laws of the database schema

    The revisions form one chain that goes up to the head and down again, the
    head is the database the models declare but for a known drift, and its
    row-level security lets a session reach its own tenant's rows only. *)

From stdpp Require Import gmap strings.
From S2P Require Import Prelude Ddl Revisions.

Open Scope list_scope.

(** The schema at the head; [role] tells whether the role openpms exists. *)
Definition upgraded (role : bool) : result schema :=
  match chain revisions with Some l => upgrade_all role l empty_schema | None => Err UndefinedObject end.

(** A fact about the head is checked once for each case. *)
Lemma at_head (p : schema -> bool) :
  (forall role, match upgraded role with Ok s => p s | Err _ => false end = true) ->
  forall role s, upgraded role = Ok s -> p s = true.
Proof. intros H role s E. specialize (H role). by rewrite E in H. Qed.

(** ** Up and down *)

(** Each revision of a chain is done and undone before the next is done. *)
Fixpoint reversible (role : bool) (s : schema) (l : list revision) : bool :=
  match l with
  | [] => true
  | r :: l' =>
      match exec_all role (rv_upgrade r) s with
      | Ok s' => match exec_all role (rv_downgrade r) s' with Ok s2 => bool_decide (s2 = s) && reversible role s' l' | Err _ => false end
      | Err _ => false
      end
  end.

Definition undoes (role : bool) (r : revision) (s s' : schema) : Prop :=
  exec_all role (rv_upgrade r) s = Ok s' /\ exec_all role (rv_downgrade r) s' = Ok s.

Lemma reversible_at role l : forall s n r, reversible role s l = true -> l !! n = Some r ->
  exists s1 s2, upgrade_all role (take n l) s = Ok s1 /\ undoes role r s1 s2.
Proof.
  induction l as [|r0 l IH]; intros s n r H Hn; [done|]. cbn in H.
  destruct (exec_all role (rv_upgrade r0) s) as [s'|] eqn:Eu; [|done].
  destruct (exec_all role (rv_downgrade r0) s') as [s2|] eqn:Ed; [|done]. apply andb_true_iff in H as [->%bool_decide_eq_true H].
  destruct n as [|n].
  - injection Hn as ->. exists s, s'. by repeat split.
  - destruct (IH s' n r H Hn) as (s1 & s3 & H1 & H2). exists s1, s3. split; [|done]. unfold upgrade_all in *. cbn. by rewrite Eu.
Qed.

Lemma reversible_down role l : forall s, reversible role s l = true -> exists s', upgrade_all role l s = Ok s' /\ downgrade_all role l s' = Ok s.
Proof.
  unfold downgrade_all. induction l as [|r l IH]; intros s H; [by exists s|]. cbn in H.
  destruct (exec_all role (rv_upgrade r) s) as [s'|] eqn:Eu; [|done].
  destruct (exec_all role (rv_downgrade r) s') as [s2|] eqn:Ed; [|done]. apply andb_true_iff in H as [->%bool_decide_eq_true H].
  destruct (IH s' H) as (s3 & H1 & H2). exists s3. unfold upgrade_all in *. cbn. rewrite Eu. split; [exact H1|].
  rewrite foldR_app, H2. cbn. by rewrite Ed.
Qed.

(** C4: the revisions form one chain without branches, of which every step,
    and the whole, can be undone exactly. *)
Theorem every_downgrade_undoes_its_upgrade role :
  exists l, chain revisions = Some l /\ length l = length revisions /\
    (forall n r, l !! n = Some r -> exists s s', upgrade_all role (take n l) empty_schema = Ok s /\ undoes role r s s') /\
    (exists head, upgraded role = Ok head /\ downgrade_all role l head = Ok empty_schema).
Proof.
  destruct (chain revisions) as [l|] eqn:El; [|vm_compute in El; discriminate El]. exists l. split; [done|].
  assert (H : match chain revisions with Some l => (length l =? length revisions)%nat && reversible role empty_schema l | None => false end = true)
    by (destruct role; vm_compute; reflexivity).
  rewrite El in H. apply andb_true_iff in H as [Hl%Nat.eqb_eq H]. split; [exact Hl|]. split.
  - intros n r. by apply reversible_at.
  - unfold upgraded. rewrite El. apply (reversible_down role l empty_schema H).
Qed.

(** ** Row-level security *)

(** The column that says whose a row is. *)
Definition tenant_column (name : string) : string := if String.eqb name "tenants" then "id" else "tenant_id".

Definition own_policy (name : string) : policy :=
  let c := TenantIs (tenant_column name) in Policy "tenant_isolation" ForAll (Some c) (Some c).

Definition own (name : string) (st : settings) (row : string -> value) : Prop :=
  exists i, row (tenant_column name) = VUuid i /\ st_tenant st = Some i.
Definition builtin_pack (cmd : command) (row : string -> value) : Prop :=
  cmd = ForSelect /\ row "is_builtin"%string = VBool true /\ row "tenant_id"%string = VNull.
Definition worker (cmd : command) (st : settings) : Prop :=
  cmd <> ForInsert /\ st_text st "app.internal_webhook_worker"%string = Some "true"%string.

(** A condition that only holds for the tenant's own rows. *)
Fixpoint implies_own (c : condition) : bool :=
  match c with
  | TenantIs col => String.eqb col "tenant_id"
  | And a b => implies_own a || implies_own b
  | Or a b => implies_own a && implies_own b
  | _ => false
  end.

(** The policies of the two tables that have others. *)
Definition own_pack_row_is : condition := And (IsNotNull "tenant_id") (TenantIs "tenant_id").
Definition own_custom_pack : condition := And own_pack_row_is (IsBool "is_builtin" false).
Definition pack_policies : list policy :=
  [Policy "country_pack_read" ForSelect (Some (Or (And (IsBool "is_builtin" true) (IsNull "tenant_id")) own_pack_row_is)) None;
   Policy "country_pack_insert" ForInsert None (Some own_custom_pack);
   Policy "country_pack_update" ForUpdate (Some own_custom_pack) (Some own_custom_pack);
   Policy "country_pack_delete" ForDelete (Some own_custom_pack) None]%string.
Definition worker_is : condition := SettingIs "app.internal_webhook_worker" "true".
Definition pending_policies : list policy :=
  [own_policy "webhook_pending_deliveries";
   Policy "webhook_pending_internal_worker_select" ForSelect (Some worker_is) None;
   Policy "webhook_pending_internal_worker_update" ForUpdate (Some worker_is) (Some worker_is);
   Policy "webhook_pending_internal_worker_delete" ForDelete (Some worker_is) None]%string.

Definition expected_policies (name : string) : list policy :=
  if String.eqb name "country_packs" then pack_policies
  else if String.eqb name "webhook_pending_deliveries" then pending_policies else [own_policy name].

Definition guarded (name : string) (t : table) : bool := t_rls t && t_force t && bool_decide (t_policies t = expected_policies name).

Definition UNGUARDED : string := "channex_webhook_logs".

Lemma head_guarded role s name t : upgraded role = Ok s -> tables s !! name = Some t -> name <> UNGUARDED -> guarded name t = true.
Proof.
  intros E Ht Hn.
  pose proof (at_head (fun s => forallb (fun kt => String.eqb kt.1 UNGUARDED || guarded kt.1 kt.2) (map_to_list (tables s)))
    ltac:(intros []; vm_compute; reflexivity) role s E) as H. cbv beta in H. clear E.
  rewrite forallb_forall in H. specialize (H (name, t)). cbn in H. rewrite orb_true_iff in H.
  destruct H as [H%String.eqb_eq|H]; [by apply list_elem_of_In, elem_of_map_to_list|done|done].
Qed.

Lemma holds_own c st row : implies_own c = true -> holds st row c = Some true -> exists i, row "tenant_id"%string = VUuid i /\ st_tenant st = Some i.
Proof.
  induction c as [col| | | | |a IHa b IHb|a IHa b IHb]; cbn; try done.
  - intros ->%String.eqb_eq. destruct (row "tenant_id"%string) as [|i| |] eqn:Er; try done. destruct (st_tenant st) as [t|] eqn:Et; [|done].
    intros [= ->%Z.eqb_eq]. by exists t.
  - intros [Ha|Hb]%orb_true_iff H; [apply IHa|apply IHb]; try done; destruct (holds st row a) as [[]|], (holds st row b) as [[]|]; done.
  - intros [Ha Hb]%andb_true_iff H. destruct (holds st row a) as [[]|]; [by apply IHa| |]; destruct (holds st row b) as [[]|]; try done; by apply IHb.
Qed.

Lemma passes_spec which t st cmd row : t_rls t = true ->
  passes which t st cmd row = true <->
  exists p c, In p (t_policies t) /\ command_applies cmd p = true /\ which p = Some c /\ holds st row c = Some true.
Proof.
  intros Hr. unfold passes. rewrite Hr. cbn. rewrite existsb_exists. split.
  - intros (p & Hp & [Hc Hw]%andb_true_iff). destruct (which p) as [c|] eqn:E; [|done]. apply bool_decide_eq_true in Hw. eauto 6.
  - intros (p & c & Hp & Hc & Hw & Hh). exists p. split; [done|]. rewrite Hc, Hw. by apply bool_decide_eq_true.
Qed.

Lemma own_spec name st row : holds st row (TenantIs (tenant_column name)) = Some true <-> own name st row.
Proof.
  cbn. unfold own. split.
  - destruct (row (tenant_column name)) as [|i| |]; try done. destruct (st_tenant st) as [t|]; [|done]. intros [= ->%Z.eqb_eq]. by exists t.
  - intros (i & -> & ->). by rewrite Z.eqb_refl.
Qed.

(** The condition an INSERT or UPDATE is checked against. *)
Definition check_of (p : policy) : option condition := match p_check p with Some c => Some c | None => p_using p end.

Definition allowed (name : string) (st : settings) (cmd : command) (row : string -> value) : Prop :=
  own name st row \/ (name = "country_packs"%string /\ builtin_pack cmd row) \/ (name = "webhook_pending_deliveries"%string /\ worker cmd st).

Lemma own_pack_row c st row : implies_own c = true -> holds st row c = Some true -> own "country_packs" st row.
Proof. apply holds_own. Qed.

Lemma pack_allowed p c st cmd row : In p pack_policies -> p_using p = Some c \/ check_of p = Some c -> command_applies cmd p = true -> cmd <> ForAll ->
  holds st row c = Some true -> allowed "country_packs" st cmd row.
Proof.
  intros Hp Hc Hcmd Hall Hh. assert (Hi : implies_own c = true \/ (p_command p = ForSelect /\ exists b, c = Or (And (IsBool "is_builtin" true) (IsNull "tenant_id")) b /\ implies_own b = true)).
  { destruct Hp as [<-|[<-|[<-|[<-|[]]]]]; cbn in Hc; destruct Hc as [Hc|Hc]; try discriminate Hc; injection Hc as <-; eauto 6. }
  destruct Hi as [Hi|(Hs & b & -> & Hi)]; [left; by apply (own_pack_row c)|].
  assert (cmd = ForSelect) as -> by (unfold command_applies in Hcmd; rewrite Hs in Hcmd; by destruct cmd).
  cbn in Hh. destruct (holds st row b) as [[]|] eqn:Eb; [left; by apply (own_pack_row b)| |];
    (right; left; repeat split; destruct (row "is_builtin"%string) as [| |[]|], (row "tenant_id"%string); done).
Qed.

Lemma pending_allowed p c st cmd row : In p pending_policies -> p_using p = Some c \/ check_of p = Some c -> command_applies cmd p = true -> cmd <> ForAll ->
  holds st row c = Some true -> allowed "webhook_pending_deliveries" st cmd row.
Proof.
  intros Hp Hc Hcmd Hall Hh.
  assert (Hi : c = TenantIs "tenant_id" \/ (c = worker_is /\ p_command p <> ForAll /\ p_command p <> ForInsert)).
  { destruct Hp as [<-|[<-|[<-|[<-|[]]]]]; cbn in Hc; destruct Hc as [Hc|Hc]; try discriminate Hc; injection Hc as <-; auto. }
  destruct Hi as [->|(-> & H1 & H2)]; [left; by apply own_spec|]. right; right. split; [done|]. split.
  - intros ->. unfold command_applies in Hcmd. by destruct (p_command p).
  - cbn in Hh. destruct (st_text st _) as [v|]; [|done]. injection Hh as ->%String.eqb_eq. done.
Qed.

Lemma guarded_allowed name t which st cmd row : guarded name t = true -> which = p_using \/ which = check_of ->
  passes which t st cmd row = true -> cmd <> ForAll -> allowed name st cmd row.
Proof.
  unfold guarded. intros [[Hr _]%andb_true_iff Hg%bool_decide_eq_true]%andb_true_iff Hw (p & c & Hp & Hcmd & Hc & Hh)%passes_spec Hall; [|done].
  assert (Hc' : p_using p = Some c \/ check_of p = Some c) by (destruct Hw as [->| ->]; auto).
  rewrite Hg in Hp. unfold expected_policies in Hp.
  destruct (String.eqb_spec name "country_packs") as [->|]; [by eapply pack_allowed|].
  destruct (String.eqb_spec name "webhook_pending_deliveries") as [->|]; [by eapply pending_allowed|].
  destruct Hp as [<-|[]]. left. apply own_spec. cbn in Hc'. destruct Hc' as [[= <-]|[= <-]]; exact Hh.
Qed.

(** A table with the tenant's policy alone shows and takes exactly the
    tenant's rows. *)
Lemma guarded_exact name t which st cmd row : guarded name t = true -> which = p_using \/ which = check_of ->
  own name st row -> name <> "country_packs"%string -> passes which t st cmd row = true.
Proof.
  unfold guarded. intros [[Hr _]%andb_true_iff Hg%bool_decide_eq_true]%andb_true_iff Hw Ho Hn. apply passes_spec; [done|].
  exists (own_policy name), (TenantIs (tenant_column name)). split; [|split; [by destruct cmd|split; [by destruct Hw as [->| ->]|by apply own_spec]]].
  rewrite Hg. unfold expected_policies. destruct (String.eqb_spec name "country_packs"); [done|].
  destruct (String.eqb_spec name "webhook_pending_deliveries") as [->|]; by left.
Qed.

(** C3: a session reaches and writes the rows of its own tenant only. *)
Theorem tenants_are_isolated role s name t st row cmd :
  upgraded role = Ok s -> tables s !! name = Some t -> name <> UNGUARDED -> cmd <> ForAll ->
  t_force t = true /\
  (visible t st cmd row = true -> allowed name st cmd row) /\ (writable t st cmd row = true -> allowed name st cmd row) /\
  (own name st row -> name <> "country_packs"%string -> visible t st cmd row = true /\ writable t st cmd row = true).
Proof.
  intros E Ht Hn Hall. pose proof (head_guarded role s name t E Ht Hn) as Hg. clear E. split_and!.
  - unfold guarded in Hg. by destruct (t_force t), (t_rls t).
  - intros Hv. by apply (guarded_allowed name t p_using); auto.
  - intros Hv. by apply (guarded_allowed name t check_of); auto.
  - intros Ho Hp. split; [apply (guarded_exact name t p_using)|apply (guarded_exact name t check_of)]; auto.
Qed.

(** ** References between tables *)

(** A row refers to another through a foreign key when none of its columns
    is null and they are equal. *)
Definition refers (cols tcols : list string) (row row' : string -> value) : Prop := Forall2 (fun a b => row a = row' b /\ row a <> VNull) cols tcols.

Definition keeps_tenant (c : constraint) : bool :=
  match c with
  | ForeignKey _ cols target tcols _ =>
      existsb (fun ab => String.eqb ab.1 "tenant_id" && String.eqb ab.2 (tenant_column target)) (combine cols tcols) || String.eqb target "country_packs"
  | _ => true
  end.

(** A row and what it refers to belong to one tenant; a property may refer to
    a pack of anyone. *)
Lemma references_stay_in_tenant role s name t n cols target tcols od row row' :
  upgraded role = Ok s -> tables s !! name = Some t -> In (ForeignKey n cols target tcols od) (t_constraints t) -> target <> "country_packs"%string ->
  refers cols tcols row row' -> row "tenant_id"%string = row' (tenant_column target).
Proof.
  intros E Ht Hc Hn Hr.
  pose proof (at_head (fun s => forallb (fun kt => forallb keeps_tenant (t_constraints kt.2)) (map_to_list (tables s)))
    ltac:(intros []; vm_compute; reflexivity) role s E) as H. cbv beta in H. clear E.
  rewrite forallb_forall in H. specialize (H (name, t)). cbn in H. rewrite forallb_forall in H.
  assert (Hin : In (name, t) (map_to_list (tables s))) by (by apply list_elem_of_In, elem_of_map_to_list).
  specialize (H Hin _ Hc). cbn in H. apply orb_true_iff in H as [H|H%String.eqb_eq]; [|done].
  apply existsb_exists in H as ([a b] & Hab & H). cbn in H. apply andb_true_iff in H as [->%String.eqb_eq ->%String.eqb_eq].
  clear -Hab Hr. induction Hr as [|x y xs ys [Hxy _] _ IH]; [done|]. destruct Hab as [[= -> ->]|Hab]; [done|by apply IH].
Qed.

(** ** The functions that look across tenants *)

(** All run with the rights of their owner; one is not closed to the public,
    and three do not turn row-level security off, which the revision
    v4w5x6y7z8a9 says is needed where it is forced. *)
Lemma functions_at_head role s : upgraded role = Ok s ->
  forallb (fun kf => f_definer kf.2) (map_to_list (functions s)) = true /\
  List.map fst (List.filter (fun kf => f_public kf.2) (map_to_list (functions s))) = ["lookup_channex_link_for_webhook(text)"%string] /\
  List.map fst (List.filter (fun kf => negb (f_row_security_off kf.2)) (map_to_list (functions s)))
    = ["lookup_checkin_reminder_candidates(date)"; "lookup_channex_link_for_webhook(text)";
       "lookup_active_channex_property_links_for_worker()"; "lookup_api_key_by_hash(text)"]%string.
Proof.
  intros E. pose proof (at_head (fun s => let l := map_to_list (functions s) in
      forallb (fun kf => f_definer kf.2) l && bool_decide (List.map fst (List.filter (fun kf => f_public kf.2) l) = ["lookup_channex_link_for_webhook(text)"%string])
      && bool_decide (List.map fst (List.filter (fun kf => negb (f_row_security_off kf.2)) l)
           = ["lookup_checkin_reminder_candidates(date)"; "lookup_channex_link_for_webhook(text)";
              "lookup_active_channex_property_links_for_worker()"; "lookup_api_key_by_hash(text)"]%string))
    ltac:(intros []; vm_compute; reflexivity) role s E) as H. clear E.
  cbv beta zeta in H. apply andb_true_iff in H as [[H1 H2%bool_decide_eq_true]%andb_true_iff H3%bool_decide_eq_true]. auto.
Qed.

(** ** The models and the database *)

Lemma drift_of_table tabs s n o d : In (n, o) tabs ->
  (match tables s !! n with None => d = NoTable n | Some db => In d (table_drift n o db) end) -> In d (schema_drift tabs s).
Proof.
  intros Hin Hd. apply in_or_app. left. apply in_flat_map. exists (n, o). split; [done|]. cbn. destruct (tables s !! n); [done|]. subst. by left.
Qed.

(** Every column a model declares is in the database, or the drift says so. *)
Lemma declared_column tabs s n o c : In (n, o) tabs -> In c (t_columns o) ->
  In (NoTable n) (schema_drift tabs s) \/ In (NoColumn n (c_name c)) (schema_drift tabs s) \/
  exists db c', tables s !! n = Some db /\ column_of db (c_name c) = Some c' /\
    (c_nullable c' = c_nullable c \/ In (OtherNullability n (c_name c)) (schema_drift tabs s)) /\
    (c_type c' = c_type c \/ In (OtherType n (c_name c) (c_type c) (c_type c')) (schema_drift tabs s)).
Proof.
  intros Hin Hc. destruct (tables s !! n) as [db|] eqn:Et.
  2:{ left. eapply drift_of_table; [done|]. by rewrite Et. }
  assert (Hd : forall d, In d (column_drift n db c) -> In d (schema_drift tabs s)).
  { intros d Hd. eapply drift_of_table; [done|]. rewrite Et. apply in_or_app. left. apply in_flat_map. by exists c. }
  unfold column_drift in Hd. destruct (column_of db (c_name c)) as [c'|] eqn:Ec; [|right; left; apply Hd; by left].
  right; right. exists db, c'. split; [done|]. split; [done|]. split.
  - destruct (Bool.eqb (c_nullable c) (c_nullable c')) eqn:Eb; [left; symmetry; by apply eqb_prop|]. right. apply Hd, in_or_app. right. by left.
  - case_bool_decide as Hty; [by left|]. right. apply Hd, in_or_app. left. by left.
Qed.

(** Every column of the database is declared, or the drift says so. *)
Lemma stored_column tabs s n db c : tables s !! n = Some db -> In c (t_columns db) ->
  In (NotMapped n) (schema_drift tabs s) \/ In (NotMappedColumn n (c_name c)) (schema_drift tabs s) \/ exists o, In (n, o) tabs /\ has_column o (c_name c) = true.
Proof.
  intros Ht Hc. destruct (str_in n (List.map fst tabs)) eqn:En.
  - apply str_in_spec, in_map_iff in En as ([n' o] & <- & Hin). right. destruct (has_column o (c_name c)) eqn:Eh; [right; by exists o|].
    left. eapply drift_of_table; [done|]. cbn in Ht. rewrite Ht. apply in_or_app. right. apply in_or_app. left.
    apply in_map_iff. exists c. split; [done|]. apply filter_In. by rewrite Eh.
  - left. apply in_or_app. right. apply in_map_iff. exists n. split; [done|]. apply filter_In. rewrite En. split; [|done].
    apply in_map_iff. exists (n, db). split; [done|]. by apply list_elem_of_In, elem_of_map_to_list.
Qed.

(** What is known to differ: dates without time zone, constraints and indexes
    that only the revisions have, a cascade and a name. *)
Definition known (d : drift) : bool :=
  match d with
  | OtherType t c Timestamp Timestamptz => str_in t ["country_packs"; "country_pack_extensions"; "property_extensions"]%string && str_in c ["created_at"; "updated_at"]%string
  | NoConstraint t n =>
      bool_decide ((t, n) = ("folio_charge_categories", "folio_charge_categories_tenant_id_fkey")%string)
      || bool_decide ((t, n) = ("webhook_delivery_logs", "fk_webhook_delivery_logs_subscription_composite")%string)
  | NotMappedConstraint t n =>
      str_in n ["ck_stripe_charges_status"; "fk_folio_charge_categories_tenant_id_tenants"; "ck_country_packs_currency_symbol_position";
                "ck_country_packs_builtin_tenant"; "fk_webhook_delivery_logs_subscription_composite"]%string
  | NotMappedIndex _ _ => true
  | _ => false
  end.

Lemma head_drift role s d : upgraded role = Ok s -> In d (schema_drift orm s) -> known d = true.
Proof.
  intros E Hd. pose proof (at_head (fun s => forallb known (schema_drift orm s)) ltac:(intros []; vm_compute; reflexivity) role s E) as H.
  clear E. cbv beta in H. rewrite forallb_forall in H. by apply H.
Qed.

(** C5: the revisions build the tables the models declare. *)
Theorem models_match_database role s : upgraded role = Ok s ->
  (forall n o c, In (n, o) orm -> In c (t_columns o) ->
     exists db c', tables s !! n = Some db /\ column_of db (c_name c) = Some c' /\ c_nullable c' = c_nullable c /\
       (c_type c' = c_type c \/ (c_type c = Timestamp /\ c_type c' = Timestamptz))) /\
  (forall n db c', tables s !! n = Some db -> In c' (t_columns db) -> exists o, In (n, o) orm /\ has_column o (c_name c') = true).
Proof.
  intros E. assert (Hk : forall d, In d (schema_drift orm s) -> known d = true) by (intros d; by apply (head_drift role)). clear E. split.
  - intros n o c Hin Hc. destruct (declared_column orm s n o c Hin Hc) as [Hd|[Hd|(db & c' & Ht & Ec & Hn & Hty)]]; [by apply Hk in Hd|by apply Hk in Hd|].
    exists db, c'. split; [done|]. split; [done|]. split; [destruct Hn as [Hn|Hn]; [done|by apply Hk in Hn]|].
    destruct Hty as [Hty|Hty]; [by left|right]. apply Hk in Hty. cbn in Hty. by destruct (c_type c), (c_type c').
  - intros n db c' Ht Hc. destruct (stored_column orm s n db c' Ht Hc) as [Hd|[Hd|Ho]]; [by apply Hk in Hd|by apply Hk in Hd|done].
Qed.

(** ** At the head *)

Lemma the_head role : exists s, upgraded role = Ok s.
Proof.
  assert (H : is_ok (upgraded role) = true) by (destruct role; vm_compute; reflexivity).
  destruct (upgraded role) as [s|e]; [by exists s|discriminate H].
Qed.

Definition a_booking_of (t : Z) : string -> value := fun c => if str_in c ["tenant_id"; "id"]%string then VUuid t else VNull.

(** Tenant 1 does not see a booking of tenant 2, and sees its own. *)
Lemma tenants_are_isolated_witness :
  exists s t, upgraded true = Ok s /\ tables s !! "bookings"%string = Some t /\
    visible t (Settings (Some 1) (fun _ => None)) ForSelect (a_booking_of 2) = false /\
    visible t (Settings (Some 1) (fun _ => None)) ForSelect (a_booking_of 1) = true.
Proof.
  destruct (the_head true) as [s E]. destruct (tables s !! "bookings"%string) as [t|] eqn:Et.
  2:{ exfalso. revert E Et. assert (H : match upgraded true with Ok s => bool_decide (is_Some (tables s !! "bookings"%string)) | Err _ => false end = true) by (vm_compute; reflexivity).
      intros E Et. rewrite E, Et in H. discriminate H. }
  exists s, t. split; [exact E|]. split; [exact Et|].
  destruct (tenants_are_isolated true s "bookings" t (Settings (Some 1) (fun _ => None)) (a_booking_of 2) ForSelect E Et) as (_ & Hv & _ & _); [done|done|].
  destruct (tenants_are_isolated true s "bookings" t (Settings (Some 1) (fun _ => None)) (a_booking_of 1) ForSelect E Et) as (_ & _ & _ & Ho); [done|done|].
  split.
  - destruct (visible _ _ _ _); [|reflexivity]. destruct (Hv eq_refl) as [(i & Hi & Hj)|[[? _]|[? _]]]; [|discriminate|discriminate].
    cbn in Hi, Hj. injection Hi as <-. discriminate Hj.
  - apply Ho; [|discriminate]. exists 1. split; reflexivity.
Defined.

Lemma models_match_database_witness :
  exists s db c', upgraded true = Ok s /\ tables s !! "bookings"%string = Some db /\ column_of db "notes" = Some c' /\ c_type c' = Text.
Proof.
  destruct (the_head true) as [s E]. destruct (models_match_database true s E) as [Hd _].
  destruct (Hd "bookings"%string (snd orm_bookings) (Column "notes" Text true None)) as (db & c' & H1 & H2 & _ & H3).
  - vm_compute. tauto.
  - vm_compute. tauto.
  - exists s, db, c'. destruct H3 as [H3|[H3 _]]; [|discriminate H3]. auto.
Defined.
