(* ===== verification/Startup.v ===== *)
(** * Settings and the start of the process

    app/core/config.py, jwt_keys.py, webhook_secrets.py, rate_limit.py and
    sentry.py, and the parts of app/main.py that are not routes: what a
    process refuses to start with, the keys it signs and verifies with, who
    is counted and who is exempt by the rate limiter, what is filtered from an
    error report, and the answers of the handlers of last resort; the daily
    purge of delivery logs, and the schedule of app/worker.py. *)

From stdpp Require Import gmap strings pretty.
From S2P Require Import Prelude PyJson StayDates Models Session Reports Dashboard ChannexTasks ChannexTasksLaws.

(** ** config.py *)

(** Times are in seconds, minutes or days as their names say. *)
Record settings := Settings {
  database_url : string; db_pool_size : Z; db_max_overflow : Z; db_pool_timeout : Z; db_pool_recycle : Z;
  jwt_secret : string; jwt_algorithm : string; jwt_private_key_pem : option string; jwt_public_key_pem : option string;
  jwt_issuer : option string; jwt_audience : option string; access_token_ttl_minutes : Z; refresh_token_ttl_days : Z;
  cors_origins : string; refresh_cookie_name : string; refresh_cookie_secure : bool; webhook_secret_fernet_key : option string;
  webhook_log_retention_days : Z; allow_public_registration : bool; frontend_base_url : string; channex_webhook_url : string;
  channex_webhook_secret : string; channex_webhook_verify_channex_ips : bool; celery_broker_url : string; stripe_secret_key : string;
  stripe_client_id : string; stripe_redirect_uri : string; stripe_connect_success_url : string; stripe_oauth_state_secret : option string;
  stripe_webhook_secret : string; require_stripe_webhook_secret : bool; migration_rate_limit_key : string; night_audit_hour : Z;
  resend_api_key : string; email_from_default : string; sentry_dsn : option string; app_env : string; app_release : option string }.

(** What is not in the environment. *)
Definition default_settings (url : string) : settings :=
  Settings url 10 5 30 1800 EmptyString "HS256" None None None None 60 14 "http://localhost:5173,http://127.0.0.1:5173" "openpms_refresh" true None
    30 false "http://localhost:5173" EmptyString EmptyString false "redis://localhost:6379/0" EmptyString EmptyString EmptyString EmptyString None
    EmptyString false EmptyString 3 EmptyString "noreply@openpms.app" None "development" None.

(** The bounds of the fields. *)
Definition bounds_ok (s : settings) : bool :=
  (1 <=? db_pool_size s) && (0 <=? db_max_overflow s) && (1 <=? db_pool_timeout s) && (300 <=? db_pool_recycle s)
  && (1 <=? access_token_ttl_minutes s) && (1 <=? refresh_token_ttl_days s) && (1 <=? webhook_log_retention_days s)
  && (0 <=? night_audit_hour s) && (night_audit_hour s <=? 23).

(** [(x or "").strip()] *)
Definition stripped (o : option string) : string := strip (default EmptyString o).
Definition algorithm (s : settings) : string := upper (jwt_algorithm s).
Definition is_hs256 (s : settings) : bool := String.eqb (algorithm s) "HS256".
Definition is_rs256 (s : settings) : bool := String.eqb (algorithm s) "RS256".
Definition secret_long_enough (s : settings) : bool := (32 <=? String.length (jwt_secret s))%nat.
Definition has_text (o : option string) : bool := truthy (stripped o).

Definition validate_jwt_config (s : settings) : result unit :=
  if is_hs256 s then if secret_long_enough s then Ok tt else Err (ValueError "jwt_secret must be at least 32 characters for HS256")
  else if is_rs256 s then if has_text (jwt_private_key_pem s) then Ok tt else Err (ValueError "jwt_private_key_pem is required when jwt_algorithm is RS256")
  else Err (ValueError ("Unsupported jwt_algorithm: " ++ jwt_algorithm s)).

Definition validate_webhook_fernet_for_rs256 (s : settings) : result unit :=
  if is_rs256 s && negb (has_text (webhook_secret_fernet_key s))
  then Err (ValueError "webhook_secret_fernet_key is required when jwt_algorithm is RS256") else Ok tt.

Fixpoint split_comma (l : list ascii) : list (list ascii) :=
  match l with
  | [] => [[]]
  | c :: l' => if Ascii.eqb c ","%char then [] :: split_comma l' else match split_comma l' with part :: rest => (c :: part) :: rest | [] => [[c]] end
  end.
Definition cors_allowed_origins (s : settings) : list string :=
  List.filter truthy (List.map (fun part => strip (string_of_list_ascii part)) (split_comma (list_ascii_of_string (cors_origins s)))).

Definition KNOWN_WEAK_JWT_SECRETS_HS256 : list string := ["openpms-dev-jwt-secret-min-32-chars!!"%string].

Definition ensure_jwt_secret_not_weak (s : settings) : result unit :=
  if negb (is_hs256 s) then Ok tt
  else if str_in (jwt_secret s) KNOWN_WEAK_JWT_SECRETS_HS256 then Err (ValueError "JWT_SECRET must not use a known weak/default value. ") else Ok tt.

Definition ensure_stripe_webhook_secret_if_required (s : settings) : result unit :=
  if negb (require_stripe_webhook_secret s) then Ok tt
  else if truthy (strip (stripe_webhook_secret s)) then Ok tt else Err (ValueError "STRIPE_WEBHOOK_SECRET is required").

(** [Settings()]: the fields, then the validators in their order. *)
Definition get_settings (s : settings) : result settings :=
  if bounds_ok s then _ ← validate_jwt_config s; _ ← validate_webhook_fernet_for_rs256 s; Ok s else Err (ValueError "settings").

(** ** main.py: lifespan *)

Inductive warning := RefreshCookieSecureDisabled | WebhookSecretFernetKeyMissing.

(** The checks of [lifespan], before the engine and the loops are made: the
    warnings it logs. *)
Definition lifespan (env : settings) : result (settings * list warning) :=
  s ← get_settings env;
  _ ← ensure_jwt_secret_not_weak s;
  _ ← ensure_stripe_webhook_secret_if_required s;
  Ok (s, (if refresh_cookie_secure s then [] else [RefreshCookieSecureDisabled])
         ++ (if is_hs256 s && negb (has_text (webhook_secret_fernet_key s)) then [WebhookSecretFernetKeyMissing] else [])).

(** ** jwt_keys.py *)

(** The text that two characters, a backslash and an n, stand for in a key of
    one line. *)
Definition newline : ascii := ascii_of_nat 10.
Definition backslash : ascii := ascii_of_nat 92.
Fixpoint unescape (l : list ascii) : list ascii :=
  match l with
  | b :: l1 =>
      match l1 with
      | n :: l2 => if Ascii.eqb b backslash && Ascii.eqb n "n"%char then newline :: unescape l2 else b :: unescape l1
      | [] => [b]
      end
  | [] => []
  end.
Fixpoint has_escape (l : list ascii) : bool :=
  match l with b :: l1 => match l1 with n :: _ => (Ascii.eqb b backslash && Ascii.eqb n "n"%char) || has_escape l1 | [] => false end | [] => false end.

Definition normalize_pem (pem : string) : string :=
  let l := list_ascii_of_string (strip pem) in
  if has_escape l && negb (existsb (Ascii.eqb newline) l) then string_of_list_ascii (unescape l) else strip pem.

(** PyJWT and cryptography. *)
Class JwtLibrary := {
  public_of : string -> option string;                       (** the public half of a private key *)
  jwt_sign : string -> string -> dict -> string;             (** [jwt.encode(payload, key, algorithm)] *)
  jwt_verify : string -> string -> Z -> string -> option dict;  (** [jwt.decode]: signature, expiry, required claims *)
  sha256_b64 : string -> string }.

Section keys.
Context {lib : JwtLibrary}.

Definition key_error (s : settings) : exn := RuntimeError ("Unsupported jwt_algorithm: " ++ jwt_algorithm s).

Definition jwt_signing_material (s : settings) : result (string * string) :=
  if is_rs256 s then
    match jwt_private_key_pem s with
    | Some pem => if has_text (Some pem) then Ok (normalize_pem pem, "RS256"%string) else Err (RuntimeError "jwt_private_key_pem is required when jwt_algorithm is RS256")
    | None => Err (RuntimeError "jwt_private_key_pem is required when jwt_algorithm is RS256")
    end
  else if is_hs256 s then
    if secret_long_enough s then Ok (jwt_secret s, "HS256"%string) else Err (RuntimeError "jwt_secret must be at least 32 characters when using HS256")
  else Err (key_error s).

Definition public_pem_from_private (pem : string) : result string := of_option (public_of (normalize_pem pem)) (ValueError "Could not deserialize key data").

Definition jwt_verifying_material (s : settings) : result (string * string) :=
  if is_rs256 s then
    if has_text (jwt_public_key_pem s) then Ok (normalize_pem (default EmptyString (jwt_public_key_pem s)), "RS256"%string)
    else if has_text (jwt_private_key_pem s) then
      pub ← public_pem_from_private (default EmptyString (jwt_private_key_pem s)); Ok (pub, "RS256"%string)
    else Err (RuntimeError "jwt_public_key_pem or jwt_private_key_pem required for RS256 verification")
  else if is_hs256 s then
    if secret_long_enough s then Ok (jwt_secret s, "HS256"%string) else Err (RuntimeError "jwt_secret must be at least 32 characters when using HS256")
  else Err (key_error s).

Definition InvalidTokenError (msg : string) : exn := ServiceError "InvalidTokenError" msg 401.

Definition encode_token (s : settings) (payload : dict) : result string :=
  k ← jwt_signing_material s; Ok (jwt_sign k.1 k.2 payload).

Definition missing (payload : dict) (k : string) : bool := match dict_get payload k with None | Some JNull => true | _ => false end.

Definition decode_access_token (s : settings) (now : Z) (token : string) : result dict :=
  k ← jwt_verifying_material s;
  payload ← of_option (jwt_verify k.1 k.2 now token) (InvalidTokenError "invalid token");
  if missing payload "tenant_id" then Err (InvalidTokenError "Missing required tenant_id claim") else Ok payload.

Definition decode_password_reset_token (s : settings) (now : Z) (token : string) : result dict :=
  k ← jwt_verifying_material s;
  payload ← of_option (jwt_verify k.1 k.2 now token) (InvalidTokenError "invalid token");
  if negb (match dict_get payload "typ" with Some (JStr t) => String.eqb t "password_reset" | _ => false end) then Err (InvalidTokenError "Not a password-reset token")
  else if missing payload "tenant_id" then Err (InvalidTokenError "Missing required tenant_id claim")
  else if negb (py_bool (dict_get_or payload "pwd_fp" JNull)) then Err (InvalidTokenError "Missing required pwd_fp claim")
  else Ok payload.

(** ** webhook_secrets.py *)

(** The key of [get_fernet]. *)
Definition fernet_key (s : settings) : string :=
  let raw := stripped (webhook_secret_fernet_key s) in
  if truthy raw then raw else sha256_b64 ("openpms.webhook.fernet.v1" ++ String (ascii_of_nat 0) (jwt_secret s)).

End keys.

(** ** rate_limit.py *)

(** [rate_limit_key]: one bucket for each tenant and address. *)
Definition rate_limit_key (tenant_id : option string) (remote_address : option string) : string :=
  let ip := match remote_address with Some a => if truthy a then a else "unknown"%string | None => "unknown"%string end in
  match tenant_id with Some tid => (tid ++ ":" ++ ip)%string | None => ("anon:" ++ ip)%string end.

(** [supplied] is the header X-OpenPMS-Migration-Key of the bound request. *)
Definition migration_rate_limit_exempt (s : settings) (bound : bool) (supplied : option string) : bool :=
  if negb bound then false
  else
    let expected := strip (migration_rate_limit_key s) in
    if negb (truthy expected) then false
    else let given := stripped supplied in if negb (truthy given) then false else String.eqb given expected.

(** ** sentry.py *)

Definition SENSITIVE_HEADERS : list string := ["authorization"; "cookie"; "set-cookie"; "x-api-key"]%string.
Definition SENSITIVE_BODY_PREFIXES : list string := ["/auth/"; "/stripe/"]%string.
Definition Filtered : json := JStr "[Filtered]".

Definition scrub_headers (headers : dict) : dict := List.map (fun kv => (kv.1, if str_in (lower kv.1) SENSITIVE_HEADERS then Filtered else kv.2)) headers.

Fixpoint after_scheme (l : list ascii) : option (list ascii) :=
  match l with
  | [] => None
  | _ :: l' => if String.prefix "://" (string_of_list_ascii l) then Some (skipn 3 l) else after_scheme l'
  end.
Fixpoint from_slash (l : list ascii) : option (list ascii) :=
  match l with [] => None | c :: l' => if Ascii.eqb c "/"%char then Some l else from_slash l' end.
(** The path of a URL: from the first slash after the scheme. *)
Definition url_path (url : string) : string :=
  match after_scheme (list_ascii_of_string url) with
  | Some rest => string_of_list_ascii (default rest (from_slash rest))
  | None => url
  end.

Definition filter_key (k : string) (d : dict) : dict := match dict_get d k with Some _ => dict_set d k Filtered | None => d end.

(** The request of an event. *)
Definition scrub_request (request : dict) : dict :=
  let request := dict_set request "headers" (match dict_get_or request "headers" JNull with JObj h => JObj (scrub_headers h) | j => j end) in
  let url := match dict_get_or request "url" JNull with JStr u => u | _ => EmptyString end in
  if existsb (fun p => String.prefix p (url_path url)) SENSITIVE_BODY_PREFIXES then filter_key "body" (filter_key "data" request) else request.

Definition scrub_event (event : dict) : dict :=
  match dict_get event "request" with Some (JObj r) => dict_set event "request" (JObj (scrub_request r)) | _ => event end.

(** Whether reports are sent, and under which release. *)
Definition init_sentry (s : settings) : option (string * string * option string) :=
  let dsn := stripped (sentry_dsn s) in
  if truthy dsn then let r := stripped (app_release s) in Some (dsn, app_env s, if truthy r then Some r else None) else None.

(** ** request_id.py *)

(** The id of a request: its own header, or a new one; the response carries it
    unless it names one. *)
Definition request_id_of (incoming : option string) (fresh : string) : string :=
  let i := stripped incoming in if truthy i then i else fresh.
Definition with_request_id (rid : string) (headers : list (string * string)) : list (string * string) :=
  if existsb (fun kv => String.eqb (lower kv.1) "x-request-id") headers then headers else headers ++ [("x-request-id"%string, rid)].

(** ** main.py: handlers of last resort, health *)

Inductive failure := PoolTimeout | ValidationFailure (detail : json) | HttpError (status : Z) (detail : json) | Unhandled.

Definition answer_failure (f : failure) (request_id : option string) : Z * json * list (string * string) :=
  match f with
  | PoolTimeout => (503, JObj [("detail", JStr "Service temporarily unavailable")], [("Retry-After", "5")])
  | ValidationFailure d => (422, JObj [("detail", d)], [])
  | HttpError st d => (st, JObj [("detail", d)], [])
  | Unhandled => (500, JObj [("detail", JStr "Internal Server Error"); ("request_id", match request_id with Some r => JStr r | None => JNull end)], [])
  end%string.

Definition health_check : json := JObj [("status", JStr "ok")]%string.
Definition health_deep (db_ok redis_ok : bool) : Z * json :=
  let healthy := db_ok && redis_ok in
  (if healthy then 200 else 503,
   JObj [("status", JStr (if healthy then "ok" else "degraded")); ("db", JStr (if db_ok then "ok" else "error")); ("redis", JStr (if redis_ok then "ok" else "error"))]%string).

(** The middlewares, the outermost first. *)
Definition middlewares : list string := ["RequestId"; "CORS"; "TenantJwt"; "RateLimitRequestContext"; "SlowAPI"]%string.

(** ** main.py: the purge of delivery logs, once a day *)

(** A turn of [_webhook_log_retention_loop] at a time, a date and the next
    UUID: what it raises is logged, and its transaction rolled back. *)
Definition retention_turn (s : settings) (role : db_role) (d : DB) (wake : Z * date * Z) : DB :=
  let '(t, td, u) := wake in (run (cleanup_old_delivery_logs role (webhook_log_retention_days s)) t td u d).1.
Definition webhook_log_retention_loop (s : settings) (role : db_role) (wakes : list (Z * date * Z)) (d : DB) : DB :=
  List.fold_left (retention_turn s role) wakes d.

(** ** worker.py: what the beat process queues, and when *)

(** [crontab(hour=..., minute=...)], every hour when none is given. *)
Record crontab := Crontab { cron_hour : option Z; cron_minute : Z }.
Record beat_entry := BeatEntry { be_name : string; be_task : string; be_schedule : crontab }.

Definition beat_schedule : list beat_entry :=
  [BeatEntry "channex-nightly-ari-sync" "channex_full_ari_sync_all_properties" (Crontab (Some 2) 0);
   BeatEntry "send-checkin-reminders-daily" "send_checkin_reminders" (Crontab (Some 9) 0);
   BeatEntry "night-audit-hourly" "night_audit_fanout" (Crontab None 0)]%string.

(** ** Laws *)

(** *** Tokens of a process that started *)

Lemma upper_cases s : is_hs256 s = true -> is_rs256 s = false.
Proof. unfold is_hs256, is_rs256. intros ->%String.eqb_eq. done. Qed.

Lemma get_settings_Ok s s' : get_settings s = Ok s' -> s' = s /\ bounds_ok s = true /\ validate_jwt_config s = Ok tt /\ validate_webhook_fernet_for_rs256 s = Ok tt.
Proof.
  unfold get_settings. destruct (bounds_ok s); [|done]. destruct (validate_jwt_config s) as [[]|]; [|done].
  destruct (validate_webhook_fernet_for_rs256 s) as [[]|]; [|done]. intros [= <-]. auto.
Qed.

Section started.
Context {lib : JwtLibrary}.

(** What a token must carry for the library to accept it at a time. *)
Variable live : dict -> Z -> Prop.
Hypothesis hs_roundtrip : forall k p now, live p now -> jwt_verify k "HS256" now (jwt_sign k "HS256" p) = Some p.
Hypothesis rs_roundtrip : forall k pub p now, public_of k = Some pub -> live p now -> jwt_verify pub "RS256" now (jwt_sign k "RS256" p) = Some p.

(** A private key the library can read, and a public key, when one is given,
    that belongs to it. *)
Definition key_pair_ok (s : settings) : Prop :=
  is_rs256 s = true -> exists pub, public_of (normalize_pem (default EmptyString (jwt_private_key_pem s))) = Some pub /\
    (has_text (jwt_public_key_pem s) = true -> normalize_pem (default EmptyString (jwt_public_key_pem s)) = pub).

Lemma materials_match s : validate_jwt_config s = Ok tt -> key_pair_ok s ->
  exists k v alg, jwt_signing_material s = Ok (k, alg) /\ jwt_verifying_material s = Ok (v, alg) /\
    forall p now, live p now -> jwt_verify v alg now (jwt_sign k alg p) = Some p.
Proof.
  unfold validate_jwt_config, jwt_signing_material, jwt_verifying_material, key_pair_ok, public_pem_from_private.
  destruct (is_hs256 s) eqn:Eh.
  - rewrite (upper_cases s Eh). destruct (secret_long_enough s); [|done]. intros _ _. exists (jwt_secret s), (jwt_secret s), "HS256"%string. auto.
  - destruct (is_rs256 s); [|done]. destruct (jwt_private_key_pem s) as [pem|] eqn:Ep; [|done]. destruct (has_text (Some pem)) eqn:Ht; [|done].
    intros _ Hk. destruct (Hk eq_refl) as (pub & Hpub & Hgiven). cbn [default] in *. exists (normalize_pem pem).
    destruct (has_text (jwt_public_key_pem s)) eqn:Eg; [rewrite (Hgiven eq_refl)|rewrite Hpub]; exists pub, "RS256"%string; auto.
Qed.

(** A process that starts signs every token, and accepts its own while they
    live; webhooks have a key of their own in RS256 mode, and their secret when
    it is required. *)
Theorem started_process_trusts_itself env s ws : lifespan env = Ok (s, ws) -> key_pair_ok s ->
  (is_rs256 s = true -> has_text (webhook_secret_fernet_key s) = true) /\
  (require_stripe_webhook_secret s = true -> truthy (strip (stripe_webhook_secret s)) = true) /\
  forall p now, live p now -> missing p "tenant_id" = false ->
    exists token, encode_token s p = Ok token /\ decode_access_token s now token = Ok p.
Proof.
  unfold lifespan. intros H Hk. destruct (get_settings env) as [s0|] eqn:Eg; [|done]. cbn in H.
  apply get_settings_Ok in Eg as (-> & _ & Hv & Hf). destruct (ensure_jwt_secret_not_weak env); [|done]. cbn in H.
  destruct (ensure_stripe_webhook_secret_if_required env) as [[]|] eqn:Es; [|done]. injection H as <- _. split_and!.
  - intros Hr. unfold validate_webhook_fernet_for_rs256 in Hf. rewrite Hr in Hf. by destruct (has_text _).
  - intros Hr. unfold ensure_stripe_webhook_secret_if_required in Es. rewrite Hr in Es. cbn in Es. by destruct (truthy _).
  - intros p now Hl Hm. destruct (materials_match env Hv Hk) as (k & v & alg & E1 & E2 & Hrt).
    exists (jwt_sign k alg p). unfold encode_token, decode_access_token. rewrite E1, E2. split; [done|].
    cbn [mbind result_bind fst snd]. rewrite (Hrt p now Hl). cbn [of_option mbind result_bind]. by rewrite Hm.
Qed.
End started.

(** A secret that is known is refused. *)
Lemma weak_secret_refused env : is_hs256 env = true -> str_in (jwt_secret env) KNOWN_WEAK_JWT_SECRETS_HS256 = true -> is_ok (lifespan env) = false.
Proof.
  intros Hh Hw. unfold lifespan. destruct (get_settings env) as [s|] eqn:Eg; [|done]. apply get_settings_Ok in Eg as (-> & _). cbn.
  unfold ensure_jwt_secret_not_weak. by rewrite Hh, Hw.
Qed.

(** The defaults do not start: the secret of HS256 is too short. *)
Example defaults_refused url : is_ok (lifespan (default_settings url)) = false. Proof. done. Qed.

Example default_origins url : cors_allowed_origins (default_settings url) = ["http://localhost:5173"; "http://127.0.0.1:5173"]%string. Proof. done. Qed.

(** *** The rate limiter *)

Lemma exempt_iff s bound supplied :
  migration_rate_limit_exempt s bound supplied = true <->
  bound = true /\ truthy (strip (migration_rate_limit_key s)) = true /\ stripped supplied = strip (migration_rate_limit_key s).
Proof.
  unfold migration_rate_limit_exempt. destruct bound; [|by split; [|intros [? _]]]. cbn [negb].
  destruct (truthy (strip (migration_rate_limit_key s))) eqn:Ek; cbn [negb]; [|by split; [|intros (_ & ? & _)]].
  destruct (truthy (stripped supplied)) eqn:Es; cbn [negb].
  - rewrite String.eqb_eq. intuition.
  - split; [done|]. intros (_ & _ & E). rewrite E, Ek in Es. done.
Qed.

Lemma append_cancel a b c : (a ++ b = a ++ c)%string -> b = c.
Proof. induction a as [|x a IH]; [done|]. intros H. injection H as H. by apply IH. Qed.

(** Texts without a colon before the first colon are equal. *)
Lemma before_colon a b x y : List.In ":"%char (list_ascii_of_string a) \/ List.In ":"%char (list_ascii_of_string b) \/
  ((a ++ String ":" x = b ++ String ":" y)%string -> a = b /\ x = y).
Proof.
  revert b. induction a as [|c a IH]; intros b.
  - destruct b as [|d b]; [right; right; intros H; injection H as ->; done|]. destruct (decide (d = ":"%char)) as [->|Hd]; [right; left; by left|].
    right; right. intros H. injection H as <- _. done.
  - destruct (decide (c = ":"%char)) as [->|Hc]; [left; by left|]. destruct b as [|d b]; [right; right; intros H; injection H as -> _; done|].
    destruct (IH b) as [H|[H|H]]; [left; by right|right; left; by right|]. right; right. intros E. injection E as -> E. by destruct (H E) as [-> ->].
Qed.

(** Two tenants never share a bucket, nor do a tenant and the public. *)
Lemma rate_limit_key_separates t t' a a' :
  (forall i, t = Some i \/ t' = Some i -> ~ List.In ":"%char (list_ascii_of_string i) /\ i <> "anon"%string) ->
  rate_limit_key t a = rate_limit_key t' a' -> t = t'.
Proof.
  unfold rate_limit_key. intros Hi.
  set (ip := match a with Some a => if truthy a then a else "unknown"%string | None => "unknown"%string end). clearbody ip.
  set (ip' := match a' with Some a' => if truthy a' then a' else "unknown"%string | None => "unknown"%string end). clearbody ip'.
  assert (Hn : ~ List.In ":"%char (list_ascii_of_string "anon")) by (vm_compute; intuition discriminate).
  assert (Heq : forall i j, ~ List.In ":"%char (list_ascii_of_string i) -> ~ List.In ":"%char (list_ascii_of_string j) ->
    (i ++ String ":" ip = j ++ String ":" ip')%string -> i = j).
  { intros i j Hci Hcj E. destruct (before_colon i j ip ip') as [H|[H|H]]; [done|done|]. by destruct (H E). }
  destruct t as [i|], t' as [j|]; intros E.
  - f_equal. apply Heq; [apply Hi; by left|apply Hi; by right|exact E].
  - exfalso. destruct (Hi i) as [Hc Hna]; [by left|]. apply Hna. by apply (Heq i "anon"%string).
  - exfalso. destruct (Hi j) as [Hc Hna]; [by right|]. apply Hna. symmetry. by apply (Heq "anon"%string j).
  - done.
Qed.

(** *** Error reports *)

Lemma scrubbed_header k v h : In (k, v) (scrub_headers h) -> str_in (lower k) SENSITIVE_HEADERS = true -> v = Filtered.
Proof. intros ([k' v'] & E & _)%in_map_iff Hs. pose proof (f_equal fst E) as E1. pose proof (f_equal snd E) as E2. cbn [fst snd] in E1, E2. subst. by rewrite Hs. Qed.

Lemma dict_get_set d k k' v : dict_get (dict_set d k v) k' = if String.eqb k' k then Some v else dict_get d k'.
Proof.
  induction d as [|[k0 v0] d IH]; cbn; [by destruct (String.eqb k' k)|].
  destruct (String.eqb_spec k k0) as [->|Hne]; cbn.
  - by destruct (String.eqb k' k0).
  - rewrite IH. destruct (String.eqb_spec k' k0) as [->|]; [|done]. destruct (String.eqb_spec k0 k) as [->|]; done.
Qed.

Lemma filter_key_get k d k' : dict_get (filter_key k d) k' = if String.eqb k' k then (fun _ => Filtered) <$> dict_get d k else dict_get d k'.
Proof.
  unfold filter_key. destruct (dict_get d k) eqn:E; cbn; [by rewrite dict_get_set|]. destruct (String.eqb_spec k' k) as [->|]; done.
Qed.

(** No credential leaves with a report: its headers are filtered, and so is
    the body of a request to the authentication routes. *)
Theorem reports_carry_no_credentials request :
  (forall h k v, dict_get (scrub_request request) "headers" = Some (JObj h) -> In (k, v) h -> str_in (lower k) SENSITIVE_HEADERS = true -> v = Filtered) /\
  (forall url k v, dict_get request "url" = Some (JStr url) -> existsb (fun p => String.prefix p (url_path url)) SENSITIVE_BODY_PREFIXES = true ->
     str_in k ["data"; "body"]%string = true -> dict_get (scrub_request request) k = Some v -> v = Filtered).
Proof.
  unfold scrub_request. set (hd := match dict_get_or request "headers" JNull with JObj h => JObj (scrub_headers h) | j => j end). split.
  - intros h k v Hg Hin Hs. assert (E : hd = JObj h).
    { revert Hg. match goal with |- context [if ?c then _ else _] => destruct c end; [rewrite !filter_key_get; cbn -[dict_set filter_key]|];
        rewrite dict_get_set; cbn; by intros [= ->]. }
    unfold hd in E. destruct (dict_get_or request "headers" JNull); try discriminate E. injection E as <-. by eapply scrubbed_header.
  - intros url k v Hu Hp Hk Hg. unfold dict_get_or in Hg at 1. rewrite dict_get_set in Hg. change (String.eqb "url" "headers") with false in Hg. cbv iota in Hg. rewrite Hu, Hp in Hg.
    apply str_in_spec in Hk as [<-|[<-|[]]]; rewrite !filter_key_get in Hg; cbn -[dict_get dict_set] in Hg;
      match type of Hg with ?f <$> ?o = _ => destruct o; cbn in Hg; congruence end.
Qed.

(** *** What is done once a day *)

(** Under the policies the logs of deliveries are kept for ever. *)
Lemma logs_kept_under_policies s wakes d : webhook_log_retention_loop s TenantRole wakes d = d.
Proof.
  revert d. induction wakes as [|[[t td] u] wakes IH]; intros d; [done|]. cbn [webhook_log_retention_loop List.fold_left].
  unfold retention_turn at 2, run. rewrite purge_under_policies. apply IH.
Qed.

Section beat.
Context {zones : Zones} (s : settings) (Hs : bounds_ok s = true).

(** Celery's reading of a schedule: on minutes in UTC. *)
Context (fires : crontab -> Z -> bool)
  (fires_iff : forall c t, fires c t = true <->
     t mod 60 = 0 /\ t / 60 mod 60 = cron_minute c /\ forall h, cron_hour c = Some h -> t / 3600 mod 24 = h).

Lemma on_the_hour t : t mod 3600 = 0 <-> t mod 60 = 0 /\ t / 60 mod 60 = 0.
Proof. Z.to_euclidean_division_equations. lia. Qed.

(** The properties one minute of the beat has audited. *)
Definition audits_queued (properties : list (Z * Z * string)) (t : Z) : list (Z * Z) :=
  flat_map (fun e => if String.eqb (be_task e) "night_audit_fanout" && fires (be_schedule e) t
    then night_audit_fanout properties (night_audit_hour s) t else []) beat_schedule.

Lemma audits_queued_iff properties t p :
  In p (audits_queued properties t) <-> t mod 3600 = 0 /\ exists z, In (p, z) properties /\ local_hour (audit_zone z) t = night_audit_hour s.
Proof.
  assert (Hin : In p (audits_queued properties t) <-> fires (Crontab None 0) t = true /\ In p (night_audit_fanout properties (night_audit_hour s) t)).
  { cbn. rewrite app_nil_r. destruct (fires (Crontab None 0) t); [by split; [split|intros [_ H]]|]. split; [done|by intros [[=] _]]. }
  assert (Hfan : In p (night_audit_fanout properties (night_audit_hour s) t) <->
    exists z, In (p, z) properties /\ local_hour (audit_zone z) t = night_audit_hour s).
  { unfold night_audit_fanout. rewrite <-list_elem_of_In, list_elem_of_omap. split.
    - intros ([[tn pr] z] & Hx%list_elem_of_In & He). destruct (Z.eqb_spec (local_hour (audit_zone z) t) (night_audit_hour s)); [|done].
      injection He as <-. by exists z.
    - intros (z & Hx%list_elem_of_In & E). exists (p, z). split; [done|]. destruct p as [tn pr]. by rewrite E, Z.eqb_refl. }
  rewrite Hin, fires_iff, Hfan. cbn [cron_minute cron_hour]. split.
  - intros [(H60 & Hm & _) H]. split; [by apply on_the_hour|done].
  - intros [[H60 Hm]%on_the_hour H]. by repeat split.
Qed.

(** On a day on which its zone keeps its offset from UTC, a property is
    audited once, whatever the offset. *)
Theorem audited_once_a_day properties p z day offset :
  In (p, z) properties -> List.NoDup (List.map fst properties) ->
  (forall t, 86400 * day <= t < 86400 * (day + 1) -> local_hour (audit_zone z) t = (t + offset) / 3600 mod 24) ->
  exists! t, 86400 * day <= t < 86400 * (day + 1) /\ In p (audits_queued properties t).
Proof.
  intros Hin Hnd Hz. unfold bounds_ok in Hs.
  assert (Hh : 0 <= night_audit_hour s < 24) by lia.
  assert (Hiff : forall t, 86400 * day <= t < 86400 * (day + 1) ->
    In p (audits_queued properties t) <-> t mod 3600 = 0 /\ (t / 3600 + offset / 3600) mod 24 = night_audit_hour s).
  { intros t Ht. rewrite audits_queued_iff. split.
    - intros (H0 & z' & Hin' & E). split; [done|]. rewrite (fst_determines _ _ _ _ Hnd Hin' Hin), Hz in E by done. rewrite <-E. f_equal. Z.to_euclidean_division_equations. lia.
    - intros [H0 E]. split; [done|]. exists z. split; [done|]. rewrite Hz, <-E by done. f_equal. Z.to_euclidean_division_equations. lia. }
  exists (86400 * day + 3600 * ((night_audit_hour s - offset / 3600) mod 24)). split.
  - rewrite Hiff; Z.to_euclidean_division_equations; lia.
  - intros t [Ht H]. apply Hiff in H; [|done]. Z.to_euclidean_division_equations. lia.
Qed.
End beat.

