(* ===== verification/Requests.v ===== *)
(** * Request bodies

    app/schemas: what a JSON body must be like to reach a handler.  A body that
    its schema refuses is answered 422 and reaches no handler, which is [None]
    here.  How pydantic reads a JSON value as a number, a date, a UUID or an
    address is a parameter; the constraints and validators are the source's. *)

From stdpp Require Import gmap strings.
From S2P Require Import Prelude PyDecimal PyJson StayDates Calendar Tax Models Session Ledger Rates Folio Extension Booking Guests Properties Rooms Auth AuthMail ChannexLink Emails.

(** What pydantic makes of a JSON value in its lax mode, and the zone database. *)
Class Pydantic := {
  lax_int : json -> option Z;
  lax_bool : json -> option bool;
  lax_decimal : json -> option dec;
  lax_uuid : json -> option Z;
  lax_date : json -> option date;
  lax_time : json -> option Z;
  lax_datetime : json -> option Z;
  lax_email : json -> option string;
  zone_known : string -> bool }.

(** Dates are Python dates. *)
Class PydanticLaws `{Pydantic} : Prop := lax_date_valid j d : lax_date j = Some d -> valid_date d.

(** ** Fields *)

Definition check {A} (p : A -> bool) (a : A) : option A := if p a then Some a else None.

Definition as_object (j : json) : option dict := match j with JObj d => Some d | _ => None end.
(** [extra="forbid"] *)
Definition only (keys : list string) (d : dict) : option unit :=
  if forallb (fun kv => str_in kv.1 keys) d then Some tt else None.

Definition required {A} (d : dict) (k : string) (dec : json -> option A) : option A := dict_get d k ≫= dec.
Definition with_default {A} (d : dict) (k : string) (a : A) (dec : json -> option A) : option A :=
  match dict_get d k with None => Some a | Some v => dec v end.
(** [T | None] *)
Definition nullable {A} (dec : json -> option A) (j : json) : option (option A) :=
  match j with JNull => Some None | _ => Some <$> dec j end.
Definition optional {A} (d : dict) (k : string) (dec : json -> option A) : option (option A) := with_default d k None (nullable dec).
(** A field of a body dumped with [exclude_unset=True]. *)
Definition sent {A} (d : dict) (k : string) (dec : json -> option A) : option (option (option A)) :=
  match dict_get d k with None => Some None | Some v => Some <$> nullable dec v end.

Definition str (j : json) : option string := match j with JStr s => Some s | _ => None end.
Definition longer (n : Z) (s : string) : bool := n <=? Z.of_nat (String.length s).
Definition shorter (n : Z) (s : string) : bool := Z.of_nat (String.length s) <=? n.
Definition some_text (j : json) : option string := s ← str j; check (longer 1) s.
(** [Field(min_length=lo, max_length=hi)] *)
Definition str_of (lo hi : Z) (j : json) : option string := s ← str j; check (fun s => longer lo s && shorter hi s) s.
Definition str_max (hi : Z) (j : json) : option string := s ← str j; check (shorter hi) s.
Definition literal (l : list string) (j : json) : option string := s ← str j; check (fun s => str_in s l) s.

Fixpoint each {A} (dec : json -> option A) (l : list json) : option (list A) :=
  match l with [] => Some [] | j :: l' => a ← dec j; rest ← each dec l'; Some (a :: rest) end.
Definition list_of {A} (dec : json -> option A) (j : json) : option (list A) := match j with JArr l => each dec l | _ => None end.
Definition list_between {A} (lo hi : Z) (dec : json -> option A) (j : json) : option (list A) :=
  l ← list_of dec j; check (fun l => (lo <=? Z.of_nat (length l)) && (Z.of_nat (length l) <=? hi)) l.
Definition nonempty {A} (dec : json -> option A) (j : json) : option (list A) := l ← list_of dec j; check (fun l => (1 <=? length l)%nat) l.

Section schemas.
Context {pyd : Pydantic}.

Definition int_from (lo : Z) (j : json) : option Z := n ← lax_int j; check (fun n => lo <=? n) n.
Definition int_between (lo hi : Z) (j : json) : option Z := n ← lax_int j; check (fun n => (lo <=? n) && (n <=? hi)) n.
(** [Field(gt=0)] *)
Definition positive (j : json) : option dec := x ← lax_decimal j; check (dec_ltb (dec_of_int 0)) x.
Definition dec_from (lo : dec) (j : json) : option dec := x ← lax_decimal j; check (dec_leb lo) x.

(** ** bookings.py *)

Definition parse_guest_payload (j : json) : option guest_payload :=
  d ← as_object j;
  first ← required d "first_name" (str_of 1 255); last ← required d "last_name" (str_of 1 255);
  email ← required d "email" (str_of 1 320); phone ← required d "phone" (str_of 1 64);
  passport ← optional d "passport_data" (str_max 255);
  Some (GuestPayload first last email phone passport).

Definition stay_dates_ok (check_in check_out : date) : bool := (check_in <? check_out) && (check_out - check_in <=? MAX_STAY_NIGHTS).

Definition parse_booking_create (j : json) : option booking_create :=
  d ← as_object j;
  _ ← only ["property_id"; "room_type_id"; "rate_plan_id"; "check_in"; "check_out"; "guest"; "status"; "source"; "force_new_guest"; "external_booking_id"]%string d;
  property_id ← required d "property_id" lax_uuid; room_type_id ← required d "room_type_id" lax_uuid;
  rate_plan_id ← required d "rate_plan_id" lax_uuid;
  check_in ← required d "check_in" lax_date; check_out ← required d "check_out" lax_date;
  guest ← required d "guest" parse_guest_payload;
  status ← with_default d "status" "confirmed"%string (literal ["pending"; "confirmed"]%string);
  source ← with_default d "source" "api"%string (str_max 64);
  force ← with_default d "force_new_guest" false lax_bool;
  external ← optional d "external_booking_id" (str_max 128);
  if stay_dates_ok check_in check_out then
    Some (BookingCreate property_id room_type_id rate_plan_id check_in check_out guest status source force external)
  else None.

Definition parse_booking_patch (j : json) : option booking_patch :=
  d ← as_object j;
  _ ← only ["room_id"; "status"; "check_in"; "check_out"; "cancellation_reason"; "notes"]%string d;
  room ← sent d "room_id" lax_uuid; status ← sent d "status" (str_max 64);
  check_in ← sent d "check_in" lax_date; check_out ← sent d "check_out" lax_date;
  reason ← sent d "cancellation_reason" (str_max 512); notes ← sent d "notes" (str_max 8000);
  Some (BookingPatch room status check_in check_out reason notes).

(** ** folio.py, folio_category.py *)

Definition lower_letter (c : ascii) : bool := let n := nat_of_ascii c in ((97 <=? n) && (n <=? 122))%nat.
Definition code_char (c : ascii) : bool :=
  let n := nat_of_ascii c in lower_letter c || ((48 <=? n) && (n <=? 57))%nat || Ascii.eqb c "_"%char.
(** [^[a-z][a-z0-9_]{0,31}$] *)
Definition category_code (s : string) : bool :=
  match list_ascii_of_string s with c :: l => lower_letter c && forallb code_char l && (length l <=? 31)%nat | [] => false end.

Definition folio_post_ok (charge : bool) (category : string) (method : option string) : bool :=
  if charge then negb (String.eqb category "payment")
  else String.eqb category "payment" && match method with Some m => truthy (strip m) | None => false end.

Definition parse_folio_post (j : json) : option folio_post :=
  d ← as_object j;
  _ ← only ["entry_type"; "amount"; "category"; "description"; "payment_method"]%string d;
  entry ← required d "entry_type" (literal ["charge"; "payment"]%string);
  amount ← required d "amount" positive;
  category ← required d "category" (fun j => s ← str_of 1 32 j; check category_code s);
  description ← optional d "description" (str_max 512);
  method ← optional d "payment_method" (str_max 64);
  if folio_post_ok (String.eqb entry "charge") category method then Some (FolioPost (String.eqb entry "charge") amount category description method) else None.

Definition label_of (j : json) : option string := s ← str_of 1 64 j; check truthy (strip s).

(** Code, label, sort order, whether active. *)
Definition parse_category_create (j : json) : option (string * string * Z * bool) :=
  d ← as_object j;
  _ ← only ["code"; "label"; "sort_order"; "is_active"]%string d;
  code ← required d "code" (fun j => s ← str_of 1 32 j; check (fun c => category_code c && negb (String.eqb c "payment")) (strip s));
  label ← required d "label" label_of;
  sort ← with_default d "sort_order" 0 lax_int;
  active ← with_default d "is_active" true lax_bool;
  Some (code, label, sort, active).

Definition parse_category_update (j : json) : option (option (option string) * option (option Z) * option (option bool)) :=
  d ← as_object j;
  _ ← only ["label"; "sort_order"; "is_active"]%string d;
  label ← sent d "label" label_of; sort ← sent d "sort_order" lax_int; active ← sent d "is_active" lax_bool;
  Some (label, sort, active).

(** ** inventory.py, availability_override.py, nightly_rates.py *)

Definition span (start last : date) : Z := last - start + 1.

Definition parse_override (j : json) : option override_request :=
  d ← as_object j;
  _ ← only ["room_type_id"; "start_date"; "end_date"; "blocked_rooms"]%string d;
  rt ← required d "room_type_id" lax_uuid; start ← required d "start_date" lax_date; last ← required d "end_date" lax_date;
  blocked ← required d "blocked_rooms" (int_from 0);
  if (start <=? last) && (span start last <=? 366) then Some (OverrideRequest rt start last blocked) else None.

Definition parse_seed_segment (j : json) : option seed_segment :=
  d ← as_object j;
  _ ← only ["room_type_id"; "start_date"; "end_date"]%string d;
  rt ← required d "room_type_id" lax_uuid; start ← required d "start_date" lax_date; last ← required d "end_date" lax_date;
  if (start <=? last) && (span start last <=? 366) then Some (SeedSegment rt start last) else None.

Definition parse_seed_request (j : json) : option (list seed_segment) :=
  d ← as_object j;
  _ ← only ["segments"]%string d;
  segs ← required d "segments" (nonempty parse_seed_segment);
  check (fun l => sumZ (List.map (fun g => span (seg_start g) (seg_end g)) l) <=? 366) segs.

Definition stays_ordered (lo hi : option Z) : bool := match lo, hi with Some lo, Some hi => lo <=? hi | _, _ => true end.

Definition parse_rate_segment (j : json) : option rate_segment :=
  d ← as_object j;
  _ ← only ["room_type_id"; "rate_plan_id"; "start_date"; "end_date"; "price"; "stop_sell"; "min_stay_arrival"; "max_stay"]%string d;
  rt ← required d "room_type_id" lax_uuid; rp ← required d "rate_plan_id" lax_uuid;
  start ← required d "start_date" lax_date; last ← required d "end_date" lax_date;
  price ← required d "price" (dec_from (dec_of_int 0));
  stop ← with_default d "stop_sell" false lax_bool;
  lo ← optional d "min_stay_arrival" (int_from 1); hi ← optional d "max_stay" (int_from 1);
  if (start <=? last) && (span start last <=? 366) && stays_ordered lo hi then Some (RateSegment rt rp start last price stop lo hi) else None.

Definition parse_rates_put (j : json) : option (list rate_segment) :=
  d ← as_object j;
  _ ← only ["segments"]%string d;
  segs ← required d "segments" (nonempty parse_rate_segment);
  check (fun l => sumZ (List.map (fun g => span (rs_start g) (rs_end g)) l) <=? 366) segs.

(** Query strings of GET /inventory/availability and /inventory/rooms-for-stay. *)
Definition availability_query_ok (start last : date) : bool := (start <=? last) && (span start last <=? 366).
Definition assignable_query_ok (check_in check_out : date) : bool := (check_in <? check_out) && is_ok (iter_stay_nights check_in check_out).

(** ** guest.py *)

Definition upper_letter (c : ascii) : bool := let n := nat_of_ascii c in ((65 <=? n) && (n <=? 90))%nat.
(** [s.isalpha()] *)
Definition isalpha (s : string) : bool :=
  match list_ascii_of_string s with [] => false | l => forallb (fun c => lower_letter c || upper_letter c) l end.

(** [uppercase_nationality]: the text of anything but a string is not two letters. *)
Definition nationality (j : json) : option (option string) :=
  match j with
  | JNull => Some None
  | JStr s =>
      if String.eqb s EmptyString then Some None
      else let u := upper (strip s) in if (String.length u =? 2)%nat && isalpha u then Some (Some u) else None
  | _ => None
  end.

Definition parse_guest_create (j : json) : option guest_create :=
  d ← as_object j;
  _ ← only ["first_name"; "last_name"; "email"; "phone"; "passport_data"; "nationality"; "date_of_birth"; "notes"; "vip_status"]%string d;
  first ← required d "first_name" (str_of 1 255); last ← required d "last_name" (str_of 1 255);
  email ← required d "email" (str_of 1 320); phone ← required d "phone" (str_of 1 64);
  passport ← optional d "passport_data" (str_max 255);
  nation ← with_default d "nationality" None nationality;
  birth ← optional d "date_of_birth" lax_date; notes ← optional d "notes" str;
  vip ← with_default d "vip_status" false lax_bool;
  Some (GuestCreate first last email phone passport nation birth notes vip).

Definition parse_guest_patch (j : json) : option guest_patch :=
  d ← as_object j;
  _ ← only ["first_name"; "last_name"; "email"; "phone"; "passport_data"; "nationality"; "date_of_birth"; "notes"; "vip_status"]%string d;
  first ← sent d "first_name" (str_of 1 255); last ← sent d "last_name" (str_of 1 255);
  email ← sent d "email" (str_of 1 320); phone ← sent d "phone" (str_of 1 64);
  passport ← sent d "passport_data" (str_max 255);
  nation ← with_default d "nationality" None (fun j => Some <$> nationality j);
  birth ← sent d "date_of_birth" lax_date; notes ← sent d "notes" str;
  vip ← sent d "vip_status" lax_bool;
  Some (GuestPatch first last email phone passport nation birth notes vip).

(** ** property.py, country_pack.py, tax_config.py *)

(** [^[A-Z]{3}$], of a text that was stripped. *)
Definition currency_re (s : string) : bool := (String.length s =? 3)%nat && forallb upper_letter (list_ascii_of_string s).
Definition property_currency (j : json) : option string := v ← str_of 3 3 j; check currency_re (upper (strip v)).
Definition property_timezone (j : json) : option string := v ← str_of 1 64 j; check (fun s => truthy s && zone_known s) (strip v).

(** Other keys are ignored. *)
Definition parse_property_create (j : json) : option property_create :=
  d ← as_object j;
  name ← required d "name" (str_of 1 255); zone ← required d "timezone" property_timezone;
  currency ← required d "currency" property_currency;
  checkin ← required d "checkin_time" lax_time; checkout ← required d "checkout_time" lax_time;
  pack ← optional d "country_pack_code" (str_max 32);
  Some (PropertyCreate name zone currency checkin checkout pack).

Definition parse_property_patch (j : json) : option property_patch :=
  d ← as_object j;
  _ ← only ["name"; "timezone"; "currency"; "checkin_time"; "checkout_time"; "country_pack_code"]%string d;
  name ← sent d "name" (str_of 1 255); zone ← sent d "timezone" property_timezone;
  currency ← sent d "currency" property_currency;
  checkin ← sent d "checkin_time" lax_time; checkout ← sent d "checkout_time" lax_time;
  pack ← sent d "country_pack_code" (str_max 32);
  Some (PropertyPatch name zone currency checkin checkout pack).

Definition dec_within (lo hi : dec) (j : json) : option dec := x ← lax_decimal j; check (fun x => dec_leb lo x && dec_leb x hi) x.
Definition fraction : json -> option dec := dec_within (dec_of_int 0) (dec_of_int 1).

Definition parse_tax_rule (j : json) : option tax_rule_schema :=
  d ← as_object j;
  _ ← only ["code"; "name"; "rate"; "inclusive"; "applies_to"; "compound_after"; "display_on_folio"; "active"]%string d;
  code ← required d "code" (str_of 1 32); name ← required d "name" (str_of 1 100); rate ← required d "rate" fraction;
  inclusive ← required d "inclusive" lax_bool; applies ← required d "applies_to" (nonempty str);
  after ← optional d "compound_after" (str_max 32);
  display ← with_default d "display_on_folio" true lax_bool; active ← with_default d "active" true lax_bool;
  Some (TaxRuleSchema code name rate inclusive applies after display active).

(** [currency_upper]: the length is checked before the spaces go. *)
Definition pack_currency (j : json) : option string := v ← str_of 3 3 j; Some (upper (strip v)).
Definition symbol_position : json -> option string := literal ["before"; "after"]%string.

Definition parse_pack_create (j : json) : option pack_create :=
  d ← as_object j;
  _ ← only ["code"; "name"; "currency_code"; "currency_symbol"; "currency_symbol_position"; "currency_decimal_places"; "timezone"; "date_format"; "locale"; "default_checkin_time"; "default_checkout_time"; "taxes"; "payment_methods"; "fiscal_year_start"]%string d;
  code ← required d "code" (str_of 1 32); name ← required d "name" (str_of 1 100);
  currency ← required d "currency_code" pack_currency; symbol ← required d "currency_symbol" (str_of 1 8);
  position ← required d "currency_symbol_position" symbol_position;
  decimals ← required d "currency_decimal_places" (int_between 0 4);
  zone ← required d "timezone" (str_of 1 64); format ← required d "date_format" (str_of 1 20); locale ← required d "locale" (str_of 1 10);
  checkin ← required d "default_checkin_time" lax_time; checkout ← required d "default_checkout_time" lax_time;
  taxes ← with_default d "taxes" [] (list_of parse_tax_rule); methods ← with_default d "payment_methods" [] (list_of str);
  fiscal ← optional d "fiscal_year_start" (str_max 5);
  Some (PackCreate code name currency symbol position decimals zone format locale checkin checkout taxes methods fiscal).

Definition parse_pack_patch (j : json) : option pack_patch :=
  d ← as_object j;
  _ ← only ["name"; "currency_code"; "currency_symbol"; "currency_symbol_position"; "currency_decimal_places"; "timezone"; "date_format"; "locale"; "default_checkin_time"; "default_checkout_time"; "taxes"; "payment_methods"; "fiscal_year_start"]%string d;
  name ← sent d "name" (str_of 1 100); currency ← sent d "currency_code" pack_currency; symbol ← sent d "currency_symbol" (str_of 1 8);
  position ← sent d "currency_symbol_position" symbol_position;
  decimals ← sent d "currency_decimal_places" (int_between 0 4);
  zone ← sent d "timezone" (str_of 1 64); format ← sent d "date_format" (str_of 1 20); locale ← sent d "locale" (str_of 1 10);
  checkin ← sent d "default_checkin_time" lax_time; checkout ← sent d "default_checkout_time" lax_time;
  taxes ← sent d "taxes" (list_of parse_tax_rule); methods ← sent d "payment_methods" (list_of str);
  fiscal ← sent d "fiscal_year_start" (str_max 5);
  Some (PackPatch name currency symbol position decimals zone format locale checkin checkout taxes methods fiscal).

Definition parse_pack_apply (j : json) : option Z :=
  d ← as_object j; _ ← only ["property_id"]%string d; required d "property_id" lax_uuid.

Record extension_create := ExtensionCreate {
  ec_code : string; ec_name : string; ec_country : option string; ec_url : string; ec_required : list string; ec_schema : option dict }.

(** [country_upper]: as [currency_upper]. *)
Definition parse_extension_create (j : json) : option extension_create :=
  d ← as_object j;
  _ ← only ["code"; "name"; "country_code"; "webhook_url"; "required_fields"; "ui_config_schema"]%string d;
  code ← required d "code" (str_of 1 64); name ← required d "name" (str_of 1 100);
  country ← optional d "country_code" (fun j => v ← str_of 2 2 j; Some (upper (strip v)));
  url ← required d "webhook_url" some_text;
  fields ← with_default d "required_fields" [] (list_of str); schema ← optional d "ui_config_schema" as_object;
  Some (ExtensionCreate code name country url fields schema).

Record extension_upsert := ExtensionUpsert { eu_property : Z; eu_extension : Z; eu_config : option dict; eu_active : bool }.

Definition parse_extension_upsert (j : json) : option extension_upsert :=
  d ← as_object j;
  _ ← only ["property_id"; "extension_id"; "config"; "is_active"]%string d;
  property ← required d "property_id" lax_uuid; extension ← required d "extension_id" lax_uuid;
  config ← optional d "config" as_object; active ← with_default d "is_active" true lax_bool;
  Some (ExtensionUpsert property extension config active).

(** Mode, name and rate; other keys are ignored. *)
Definition parse_tax_config (j : json) : option (string * string * dec) :=
  d ← as_object j;
  mode ← required d "tax_mode" (literal ["off"; "inclusive"; "exclusive"]%string);
  name ← required d "tax_name" (str_of 1 255); rate ← required d "tax_rate" fraction;
  Some (mode, name, rate).

(** ** rooms.py, room_type.py, rate_plan.py, housekeeping.py *)

Definition parse_room_item (j : json) : option (string * string) :=
  d ← as_object j;
  _ ← only ["name"; "status"]%string d;
  name ← required d "name" (str_of 1 255); status ← with_default d "status" "available"%string (str_max 64);
  Some (name, status).

Definition parse_room_create (j : json) : option (Z * string * string) :=
  d ← as_object j;
  _ ← only ["room_type_id"; "name"; "status"]%string d;
  rt ← required d "room_type_id" lax_uuid;
  name ← required d "name" (str_of 1 255); status ← with_default d "status" "available"%string (str_max 64);
  Some (rt, name, status).

(** The room type, the rooms, whether a name that is taken is skipped. *)
Definition parse_room_bulk (j : json) : option (Z * list (string * string) * bool) :=
  d ← as_object j;
  _ ← only ["room_type_id"; "rooms"; "on_conflict"]%string d;
  rt ← required d "room_type_id" lax_uuid; rooms ← required d "rooms" (list_between 1 200 parse_room_item);
  conflict ← with_default d "on_conflict" "fail"%string (literal ["skip"; "fail"]%string);
  Some (rt, rooms, String.eqb conflict "skip").

Definition parse_room_patch (j : json) : option (option (option Z) * option (option string) * option (option string)) :=
  d ← as_object j;
  _ ← only ["room_type_id"; "name"; "status"]%string d;
  rt ← sent d "room_type_id" lax_uuid; name ← sent d "name" (str_of 1 255); status ← sent d "status" (str_max 64);
  Some (rt, name, status).

(** Property, name, base and greatest occupancy; other keys are ignored. *)
Definition parse_room_type_create (j : json) : option (Z * string * Z * Z) :=
  d ← as_object j;
  property ← required d "property_id" lax_uuid; name ← required d "name" (str_of 1 255);
  base ← required d "base_occupancy" (int_from 1); most ← required d "max_occupancy" (int_from 1);
  if base <=? most then Some (property, name, base, most) else None.

Definition parse_room_type_patch (j : json) : option room_type_patch :=
  d ← as_object j;
  _ ← only ["name"; "base_occupancy"; "max_occupancy"]%string d;
  name ← sent d "name" (str_of 1 255); base ← sent d "base_occupancy" (int_from 1); most ← sent d "max_occupancy" (int_from 1);
  if stays_ordered (mjoin base) (mjoin most) then Some (RoomTypePatch name base most) else None.

Definition parse_rate_plan_create (j : json) : option (Z * string * string) :=
  d ← as_object j;
  _ ← only ["property_id"; "name"; "cancellation_policy"]%string d;
  property ← required d "property_id" lax_uuid; name ← required d "name" (str_of 1 255);
  policy ← required d "cancellation_policy" some_text;
  Some (property, name, policy).

Definition parse_rate_plan_patch (j : json) : option (option (option string) * option (option string)) :=
  d ← as_object j;
  _ ← only ["name"; "cancellation_policy"]%string d;
  name ← sent d "name" (str_of 1 255); policy ← sent d "cancellation_policy" some_text;
  Some (name, policy).

Definition parse_housekeeping_patch (j : json) : option (string * option string) :=
  d ← as_object j;
  _ ← only ["housekeeping_status"; "housekeeping_priority"]%string d;
  status ← required d "housekeeping_status" (str_of 1 32); priority ← optional d "housekeeping_priority" (str_of 1 32);
  Some (status, priority).

(** ** auth.py, api_keys.py *)

(** [_empty_string_tenant_to_none] *)
Definition tenant_or_none (j : json) : option (option Z) :=
  match j with JStr s => if String.eqb s EmptyString then Some None else Some <$> lax_uuid j | _ => nullable lax_uuid j end.

(** Organisation, address, password, name. *)
Definition parse_register (j : json) : option (string * string * string * string) :=
  d ← as_object j;
  _ ← only ["tenant_name"; "email"; "password"; "full_name"]%string d;
  tenant ← required d "tenant_name" (str_of 1 255); email ← required d "email" lax_email;
  password ← required d "password" (str_of 8 256); name ← required d "full_name" (str_of 1 255);
  Some (tenant, email, password, name).

Definition parse_login (j : json) : option (option Z * string * string) :=
  d ← as_object j;
  _ ← only ["tenant_id"; "email"; "password"]%string d;
  tenant ← with_default d "tenant_id" None tenant_or_none; email ← required d "email" lax_email;
  password ← required d "password" (str_of 1 256);
  Some (tenant, email, password).

Definition parse_logout (j : json) : option (option Z * option string) :=
  d ← as_object j;
  _ ← only ["tenant_id"; "refresh_token"]%string d;
  tenant ← with_default d "tenant_id" None tenant_or_none; token ← optional d "refresh_token" (str_max 4096);
  Some (tenant, token).

Definition parse_refresh (j : json) : option (Z * option string) :=
  d ← as_object j;
  _ ← only ["tenant_id"; "refresh_token"]%string d;
  tenant ← required d "tenant_id" lax_uuid; token ← optional d "refresh_token" (str_max 4096);
  Some (tenant, token).

Definition parse_invite (j : json) : option invitation :=
  d ← as_object j;
  _ ← only ["email"; "full_name"; "role"]%string d;
  email ← required d "email" lax_email; name ← required d "full_name" (str_of 1 255); role ← required d "role" (str_of 1 32);
  Some (Invitation email name role).

Definition parse_change_password (j : json) : option (string * string) :=
  d ← as_object j;
  _ ← only ["current_password"; "new_password"]%string d;
  current ← required d "current_password" (str_of 1 256); new ← required d "new_password" (str_of 8 256);
  Some (current, new).

Definition parse_forgot_password (j : json) : option string :=
  d ← as_object j; _ ← only ["email"]%string d; required d "email" lax_email.

Definition parse_reset_password (j : json) : option (string * string) :=
  d ← as_object j;
  _ ← only ["token"; "new_password"]%string d;
  token ← required d "token" (str_of 1 4096); new ← required d "new_password" (str_of 8 256);
  Some (token, new).

Definition parse_user_patch (j : json) : option user_patch :=
  d ← as_object j;
  _ ← only ["is_active"; "role"]%string d;
  active ← sent d "is_active" lax_bool; role ← sent d "role" (str_of 1 32);
  Some (UserPatch active role).

Definition parse_api_key_create (j : json) : option (string * list string * option Z) :=
  d ← as_object j;
  _ ← only ["name"; "scopes"; "expires_at"]%string d;
  name ← required d "name" (str_of 1 255); scopes ← required d "scopes" (nonempty str);
  expires ← optional d "expires_at" lax_datetime;
  Some (name, scopes, expires).

Definition parse_api_key_patch (j : json) : option (option (option string) * option (option bool)) :=
  d ← as_object j;
  _ ← only ["name"; "is_active"]%string d;
  name ← sent d "name" (str_of 1 255); active ← sent d "is_active" lax_bool;
  Some (name, active).

(** ** email_settings.py, webhooks.py, channex.py, stripe_payments.py *)

Definition parse_email_settings (j : json) : option email_settings_put :=
  d ← as_object j;
  _ ← only ["sender_name"; "reply_to"; "logo_url"; "locale"]%string d;
  sender ← required d "sender_name" (str_of 1 255); reply ← optional d "reply_to" (str_max 320);
  logo ← optional d "logo_url" (str_max 8000); locale ← required d "locale" (str_of 2 16);
  Some (EmailSettingsPut sender reply logo locale).

Definition parse_send_invoice (j : json) : option (option string) :=
  d ← as_object j; _ ← only ["email"]%string d; optional d "email" (str_max 320).

Definition parse_subscription_create (j : json) : option (string * list string * bool) :=
  d ← as_object j;
  _ ← only ["url"; "events"; "is_active"]%string d;
  url ← required d "url" str; events ← required d "events" (list_of str); active ← with_default d "is_active" true lax_bool;
  Some (url, events, active).

Definition parse_subscription_patch (j : json) : option (option (option string) * option (option (list string)) * option (option bool)) :=
  d ← as_object j;
  _ ← only ["url"; "events"; "is_active"]%string d;
  url ← sent d "url" str; events ← sent d "events" (list_of str); active ← sent d "is_active" lax_bool;
  Some (url, events, active).

Definition parse_reencrypt (j : json) : option string :=
  d ← as_object j; _ ← only ["new_fernet_key"]%string d; required d "new_fernet_key" str.

(** The key and the environment; other keys are ignored, as in the mappings. *)
Definition parse_channex_key (j : json) : option (string * string) :=
  d ← as_object j; key ← required d "api_key" some_text; e ← with_default d "env" "production"%string str; Some (key, e).

Definition parse_channex_connect (j : json) : option (string * string * string) :=
  k ← parse_channex_key j; d ← as_object j; property ← required d "channex_property_id" some_text; Some (k.1, k.2, property).

Definition parse_room_mapping (j : json) : option room_mapping :=
  d ← as_object j;
  rt ← required d "room_type_id" lax_uuid; channex ← required d "channex_room_type_id" some_text; name ← optional d "channex_room_type_name" str;
  Some (RoomMapping rt channex name).

Definition parse_room_mappings (j : json) : option (list room_mapping) := d ← as_object j; required d "mappings" (list_of parse_room_mapping).

Definition parse_rate_mapping (j : json) : option rate_mapping :=
  d ← as_object j;
  m ← required d "room_type_map_id" lax_uuid; plan ← required d "rate_plan_id" lax_uuid;
  channex ← required d "channex_rate_plan_id" some_text; name ← optional d "channex_rate_plan_name" str;
  Some (RateMapping m plan channex name).

Definition parse_rate_mappings (j : json) : option (list rate_mapping) := d ← as_object j; required d "mappings" (list_of parse_rate_mapping).

Definition parse_save_method (j : json) : option (string * option Z * option string) :=
  d ← as_object j;
  _ ← only ["stripe_pm_id"; "booking_id"; "label"]%string d;
  pm ← required d "stripe_pm_id" (str_of 1 255); booking ← optional d "booking_id" lax_uuid; label ← optional d "label" (str_max 255);
  Some (pm, booking, label).

Definition parse_charge (j : json) : option (Z * dec * option string) :=
  d ← as_object j;
  _ ← only ["stripe_pm_id"; "amount"; "label"]%string d;
  pm ← required d "stripe_pm_id" lax_uuid; amount ← required d "amount" positive; label ← optional d "label" (str_max 512);
  Some (pm, amount, label).

(** The amount of a partial refund has no bound here. *)
Definition parse_refund (j : json) : option (Z * option dec) :=
  d ← as_object j;
  _ ← only ["stripe_charge_id"; "amount"]%string d;
  charge ← required d "stripe_charge_id" lax_uuid; amount ← optional d "amount" lax_decimal;
  Some (charge, amount).

End schemas.

