(* ===== verification/RequestsLaws.v ===== *)
(** * Laws of request bodies

    What a body that its schema accepts satisfies, the booking system driven
    by raw bodies, and the bodies of the migration tool, which the schemas
    accept. *)

From stdpp Require Import gmap strings relations pretty.
From S2P Require Import Prelude PyDecimal PyJson StayDates Calendar Tax Models Session Ledger Rates Folio Extension Booking BookingFrame BookingInvariant BookingRequests System Auth Guests Properties Requests MigrationState Preno Migration MigrationLaws.

(** ** Reading a schema backwards *)

(** The fields read by a parser that gave a result, one equation each. *)
Ltac fields H :=
  repeat match type of H with
  | (_ ≫= _) = Some _ => let a := fresh "v" in let E := fresh "E" in apply bind_Some in H as (a & E & H)
  end.

Lemma check_Some {A} (p : A -> bool) a b : check p a = Some b -> b = a /\ p b = true.
Proof. unfold check. destruct (p a) eqn:E; [|done]. by intros [= <-]. Qed.

Lemma literal_Some l j s : literal l j = Some s -> str_in s l = true.
Proof. unfold literal. intros H. fields H. by apply check_Some in H as [-> ?]. Qed.

Lemma each_Some {A} (dec : json -> option A) l l' a : each dec l = Some l' -> In a l' -> exists j, In j l /\ dec j = Some a.
Proof.
  revert l'. induction l as [|j l IH]; intros l'; cbn; intros H; [by injection H as <-|]. fields H. injection H as <-.
  intros [<-|Ha]; [exists j; auto|]. destruct (IH v0 E0 Ha) as (j' & ? & ?). exists j'. auto.
Qed.

Lemma nonempty_Some {A} (dec : json -> option A) j l : nonempty dec j = Some l -> l <> [] /\ forall a, In a l -> exists j', dec j' = Some a.
Proof.
  unfold nonempty, list_of. intros H. fields H. apply check_Some in H as [-> Hl]. split; [by destruct v|].
  destruct j; try discriminate E. intros a Ha. destruct (each_Some _ _ _ _ E Ha) as (j' & _ & ?). by exists j'.
Qed.

Lemma with_default_Some {A} d k (a : A) dec b : with_default d k a dec = Some b -> b = a \/ exists j, dec j = Some b.
Proof. unfold with_default. destruct (dict_get d k) as [j|]; [right; by exists j|]. intros [= <-]. by left. Qed.

Section accepted.
Context {pyd : Pydantic}.

Lemma parse_booking_create_valid j b : parse_booking_create j = Some b -> booking_create_valid b = true.
Proof.
  unfold parse_booking_create, stay_dates_ok. intros H. fields H. destruct (_ && _) eqn:Ed; [|done]. injection H as <-.
  unfold booking_create_valid. cbn [bc_status bc_check_in bc_check_out]. rewrite <- andb_assoc, Ed, andb_true_r.
  apply with_default_Some in E7 as [->|[j' Hl%literal_Some]]; [done|exact Hl].
Qed.

Lemma parse_override_valid j b : parse_override j = Some b -> override_valid b = true.
Proof.
  unfold parse_override, span. intros H. fields H. destruct (_ && _) eqn:Ed; [|done]. injection H as <-.
  unfold override_valid. cbn. unfold required in E4. fields E4. unfold int_from in E4. fields E4. apply check_Some in E4 as [-> ->]. exact Ed.
Qed.

Lemma optional_from lo d k o : optional d k (int_from lo) = Some o -> (lo <=? default lo o) = true.
Proof.
  unfold optional. intros [->|[j Hj]]%with_default_Some; [apply Z.leb_refl|]. unfold nullable in Hj.
  destruct j; try (by injection Hj as <-; apply Z.leb_refl);
    (unfold int_from in Hj; apply fmap_Some in Hj as (n & Hn & ->); fields Hn; by apply check_Some in Hn as [-> ?]).
Qed.

Lemma parse_rate_segment_valid j g : parse_rate_segment j = Some g -> rate_segment_valid g = true.
Proof.
  unfold parse_rate_segment, span. intros H. fields H. destruct (_ && stays_ordered v7 v8) eqn:Ed; [|done]. injection H as <-.
  apply andb_true_iff in Ed as [Ed Ho]. unfold rate_segment_valid. cbn. apply optional_from in E7, E8.
  unfold required in E5. fields E5. unfold dec_from in E5. fields E5. apply check_Some in E5 as [-> ->].
  apply andb_true_iff in Ed as [-> ->]. rewrite E7, E8. exact Ho.
Qed.

Lemma parse_rates_valid j segs : parse_rates_put j = Some segs -> forallb rate_segment_valid segs = true.
Proof.
  unfold parse_rates_put. intros H. fields H. apply check_Some in H as [-> _]. unfold required in E1. fields E1.
  apply nonempty_Some in E1 as [_ Hs]. apply forallb_forall. intros g Hg. destruct (Hs g Hg) as [j' Hj]. by eapply parse_rate_segment_valid.
Qed.

End accepted.

(** The length of a pack's currency is checked before its spaces go. *)
Lemma pack_currency_may_be_short `{Pydantic} :
  pack_currency (JStr "  x") = Some "X"%string /\ property_currency (JStr "  x") = None.
Proof. done. Qed.

(** ** The system behind the schemas *)

(** A request as it arrives: the ids of its path and its body. *)
Inductive arrival : Type :=
  | PostBooking (body : json)
  | PatchBookingById (booking_id : Z) (body : json)
  | DeleteBookingById (booking_id : Z)
  | PutOverrides (body : json)
  | PutSeed (body : json)
  | PutRates (body : json)
  | PostFolioEntry (booking_id : Z) (body : json) (user_id : option Z)
  | DeleteFolioEntry (booking_id tx : Z) (user_id : option Z).

Section arrivals.
Context {env : Env} {pyd : Pydantic} (visible : RoomType -> bool).

Definition decoded (a : arrival) : option request :=
  match a with
  | PostBooking j => CreateBooking <$> parse_booking_create j
  | PatchBookingById i j => PatchBooking i <$> parse_booking_patch j
  | DeleteBookingById i => Some (DeleteBooking i)
  | PutOverrides j => BlockRooms <$> parse_override j
  | PutSeed j => SeedLedger <$> parse_seed_request j
  | PutRates j => UpsertRates <$> parse_rates_put j
  | PostFolioEntry i j u => (fun b => PostFolio i b u) <$> parse_folio_post j
  | DeleteFolioEntry i tx u => Some (ReverseFolio i tx u)
  end.

(** A body its schema refuses reaches no handler. *)
Definition RequestValidationError : exn := ServiceError "RequestValidationError" "Unprocessable Entity" 422.
Definition answer (t : Z) (a : arrival) : M unit :=
  match decoded a with Some q => serve visible t q | None => raise RequestValidationError end.

Inductive answered : DB -> DB -> Prop :=
  | answered_one t a tm td u d : fresh u d -> answered d (run (answer t a) tm td u d).1.

Lemma decoded_valid a q : decoded a = Some q -> request_valid q = true.
Proof.
  destruct a; cbn; try (intros [= <-]; done); intros (b & Hb & ->)%fmap_Some; cbn;
    eauto using parse_booking_create_valid, parse_override_valid, parse_rates_valid.
Qed.

Lemma refused_changes_nothing t a tm td u d : decoded a = None -> (run (answer t a) tm td u d).1 = d.
Proof. intros E. unfold answer. by rewrite E. Qed.

Lemma refused_step (t : Z) a (tm td u : Z) d : decoded a = None -> fresh u d -> answered d d.
Proof. intros E Hf. pose proof (answered_one t a tm td u d Hf) as H. by rewrite (refused_changes_nothing t a tm td u d E) in H. Qed.

Lemma answered_inventory d d' : answered d d' -> inventory_ok d -> inventory_ok d'.
Proof.
  intros [t a tm td u d0 Hf]. unfold answer. destruct (decoded a) as [q|] eqn:E; [|done].
  apply (transaction_inventory visible). constructor; [by eapply decoded_valid|done].
Qed.


End arrivals.

(** ** The bodies of the migration tool *)

Lemma truthy_length s : truthy s = true -> 0 < Z.of_nat (String.length s).
Proof. destruct s; [done|]. cbn. lia. Qed.

Lemma or_default_truthy d s : truthy d = true -> truthy (or_default d s) = true.
Proof. intros Hd. unfold or_default. by destruct (truthy s) eqn:E. Qed.

Lemma slice_length n s : (String.length (slice n s) <= n)%nat.
Proof. unfold slice. revert s. induction n as [|n IH]; intros [|c s]; cbn; try lia. specialize (IH s). lia. Qed.

Lemma strip_truthy c s : is_space c = false -> truthy (strip (String c s)) = true.
Proof.
  intros Hc. unfold strip. cbn. rewrite Hc. cbn [rev]. rewrite drop_spaces_app_last, rev_app_distr by done. done.
Qed.

Lemma lower_truthy s : truthy (lower s) = truthy s.
Proof. by destruct s. Qed.

Lemma collapse_length other r b l : (length (collapse_runs other r b l) <= length l)%nat.
Proof.
  revert b. induction l as [|c l IH]; intros b; cbn; [lia|]. destruct (other c); cbn.
  - rewrite length_app. specialize (IH true). destruct b; cbn; lia.
  - specialize (IH false). lia.
Qed.

Lemma append_length a b : String.length (a ++ b)%string = (String.length a + String.length b)%nat.
Proof. induction a as [|c a IH]; [done|]. exact (f_equal S IH). Qed.

(** A made-up address is eight characters, the id and twenty-two more, at most. *)
Lemma synthetic_length ext : Z.of_nat (String.length (synthetic_email ext)) <= Z.of_nat (String.length ext) + 30.
Proof.
  unfold synthetic_email, re_sub_runs. rewrite (append_length "noemail-"), append_length, length_text.
  pose proof (collapse_length (fun c => negb (word_char c)) "-"%char false (list_ascii_of_string ext)) as H. rewrite length_chars in H. cbn. lia.
Qed.

Lemma sent_email_fits ext : Z.of_nat (String.length ext) <= 290 ->
  str_of 1 320 (JStr (lower (strip (synthetic_email ext)))) = Some (lower (strip (synthetic_email ext))).
Proof.
  intros He. unfold str_of, str. cbn [mbind option_bind]. unfold check, longer, shorter.
  pose proof (synthetic_length ext). pose proof (strip_length (synthetic_email ext)).
  assert (0 < Z.of_nat (String.length (lower (strip (synthetic_email ext))))).
  { apply truthy_length. rewrite lower_truthy. by apply strip_truthy. }
  unfold lower in *. rewrite length_mapped in *. by rewrite !(proj2 (Z.leb_le _ _)) by lia.
Qed.

Lemma str_of_fits lo hi s : lo <= Z.of_nat (String.length s) <= hi -> str_of lo hi (JStr s) = Some s.
Proof. intros H. unfold str_of, check, longer, shorter. cbn. by rewrite !(proj2 (Z.leb_le _ _)) by lia. Qed.

Lemma str_max_fits hi s : Z.of_nat (String.length s) <= hi -> str_max hi (JStr s) = Some s.
Proof. intros H. unfold str_max, check, shorter. cbn. by rewrite (proj2 (Z.leb_le _ _)) by lia. Qed.

(** What the adapter makes sure of in a booking. *)
Record well_extracted `{Pandas} (b : BookingRecord) : Prop := {
  we_stay : bk_check_in b < bk_check_out b;
  we_in : exists c, to_datetime c = Some (bk_check_in b);
  we_out : exists c, to_datetime c = Some (bk_check_out b);
  we_first : truthy (bs_first (bk_guest b)) = true;
  we_last : truthy (bs_last (bk_guest b)) = true;
  we_email : bs_email (bk_guest b) = synthetic_email (bk_external b);
  we_phone : bs_phone (bk_guest b) = "+10000000000"%string }.

Lemma extracted_bookings `{Pandas} a b : In b (extract_bookings a) -> well_extracted b.
Proof.
  unfold extract_bookings. destruct (load_frames _ _) as [df|]; [|done].
  repeat match goal with |- In b (match ?x with _ => _ end) -> _ => destruct x; try done end.
  intros Hb. apply list_elem_of_In, list_elem_of_omap in Hb as (row & _ & Hr). unfold extract_booking in Hr.
  destruct (negb _); [done|]. destruct (_ && _); [done|]. destruct (to_datetime _) as [d1|] eqn:E1; [|done].
  match type of Hr with context [to_datetime ?c] => destruct (to_datetime c) as [d2|] eqn:E2 end; [|done]. destruct (d2 <=? d1) eqn:Ed; [done|]. apply Z.leb_gt in Ed.
  destruct (_ || _); [done|]. injection Hr as <-.
  split; cbn; try done; try (by eexists); by apply or_default_truthy.
Qed.

(** *** What the adapter makes sure of in a guest *)

Lemma upper_of_alpha c : is_alpha c = true ->
  upper_letter (upper_ascii c) = true /\ is_space (upper_ascii c) = false /\ upper_ascii (upper_ascii c) = upper_ascii c.
Proof. by destruct c as [[] [] [] [] [] [] [] []]. Qed.

Definition two_alpha (s : string) : bool := (String.length s =? 2)%nat && forallb is_alpha (list_ascii_of_string s).
Definition nation_ok (o : option string) : Prop := match o with Some s => two_alpha s = true | None => True end.

Lemma nation_read o c : nation_ok o -> two_letters o = Some c -> nationality (JStr c) = Some (Some c).
Proof.
  destruct o as [s|]; [|done]. cbn. destruct (String.length s =? 2)%nat eqn:El; [|done]. intros Ha [= <-].
  unfold two_alpha in Ha. rewrite El in Ha. cbn in Ha.
  destruct s as [|c1 [|c2 [|]]]; try discriminate El. cbn in Ha. apply andb_true_iff in Ha as [H1 H2]. apply andb_true_iff in H2 as [H2 _].
  destruct (upper_of_alpha c1 H1) as (U1 & S1 & I1), (upper_of_alpha c2 H2) as (U2 & S2 & I2).
  assert (Es : strip (upper (String c1 (String c2 EmptyString))) = upper (String c1 (String c2 EmptyString))).
  { unfold strip. cbn. rewrite S1. cbn. rewrite S2. reflexivity. }
  unfold nationality. rewrite Es. cbn. rewrite I1, I2. unfold isalpha. cbn. by rewrite U1, U2, !orb_true_r.
Qed.

Lemma assoc_In {A} k (v : A) l : assoc k l = Some v -> In (k, v) l.
Proof.
  induction l as [|[k' v'] l IH]; [done|]. cbn. destruct (String.eqb_spec k k') as [->|]; [|by right; apply IH]. intros [= ->]. by left.
Qed.

Lemma country_ok raw : nation_ok (map_country_to_nationality raw).
Proof.
  destruct raw as [r|]; [|done]. unfold map_country_to_nationality. cbv zeta. destruct (negb _); [done|]. destruct ((_ =? 2)%nat && _) eqn:E.
  - unfold nation_ok, two_alpha, upper. rewrite length_mapped, list_ascii_map. apply andb_true_iff in E as [-> E]. cbn.
    rewrite forallb_forall in *. intros x (y & <- & Hy)%in_map_iff. specialize (E y Hy). by destruct y as [[] [] [] [] [] [] [] []].
  - match goal with |- context [assoc ?k COUNTRY_TO_ISO2] => destruct (assoc k COUNTRY_TO_ISO2) as [v|] eqn:Ea end; [|done]. apply assoc_In in Ea.
    assert (H : forallb (fun kv => two_alpha kv.2) COUNTRY_TO_ISO2 = true) by (vm_compute; reflexivity).
    rewrite forallb_forall in H. exact (H _ Ea).
Qed.

Definition guest_extracted (g : GuestRecord) : Prop := truthy (gr_first g) = true /\ truthy (gr_last g) = true /\ nation_ok (gr_nationality g).

Lemma extracted_guests `{Pandas} a g : In g (extract_guests a) -> guest_extracted g.
Proof.
  unfold extract_guests. destruct (load_frames _ _) as [df|]; [|done].
  repeat match goal with |- In g (match ?x with _ => _ end) -> _ => destruct x; try done end.
  intros Hb. apply list_elem_of_In, list_elem_of_omap in Hb as (row & _ & Hr). unfold extract_guest in Hr.
  destruct (negb _); [done|]. injection Hr as <-. split_and!; cbn; try (by apply or_default_truthy).
  match goal with |- nation_ok (match ?x with _ => _ end) => destruct x end; [apply country_ok|done].
Qed.

Lemma safe_email_truthy g : truthy (safe_email_for_guest g) = true.
Proof.
  unfold safe_email_for_guest. destruct (gr_email g) as [e|]; [|done]. destruct (truthy (strip e)) eqn:E; [|done]. by rewrite lower_truthy.
Qed.

Lemma safe_phone_truthy g : truthy (safe_phone g) = true.
Proof. unfold safe_phone. destruct (gr_phone g) as [p|]; [|done]. by destruct (truthy (strip p)) eqn:E. Qed.

Lemma extracted_dates `{Pandas} : (forall c d, to_datetime c = Some d -> valid_date d) -> forall a b, In b (extract_bookings a) ->
  valid_date (bk_check_in b) /\ valid_date (bk_check_out b).
Proof. intros Hpd a b [_ [c1 ?] [c2 ?] _ _ _ _]%extracted_bookings. eauto. Qed.

Section migration.
Context {env : Env} {pyd : Pydantic} {pandas : Pandas} (cf : config).

(** The API reads the texts the client writes. *)
Definition id_read (i : Z) : Prop := lax_uuid (JStr (uuid_str i)) = Some i.
Definition date_read (d : date) : Prop := lax_date (JStr (isoformat d)) = Some d.

(** What the export itself must keep to: lengths the tool does not cut. *)
Record sendable (b : BookingRecord) : Prop := {
  sd_stay : bk_check_out b - bk_check_in b <= MAX_STAY_NIGHTS;
  sd_first : Z.of_nat (String.length (bs_first (bk_guest b))) <= 255;
  sd_last : Z.of_nat (String.length (bs_last (bk_guest b))) <= 255;
  sd_external : Z.of_nat (String.length (bk_external b)) <= 290 }.

Definition sent_booking (b : BookingRecord) (rt rp : Z) : booking_create :=
  BookingCreate (cf_property cf) rt rp (bk_check_in b) (bk_check_out b)
    (GuestPayload (bs_first (bk_guest b)) (bs_last (bk_guest b)) (lower (strip (bs_email (bk_guest b)))) (bs_phone (bk_guest b)) None)
    "confirmed" (slice 64 (or_default "migration" (bk_source b))) false (Some (slice 128 (bk_external b))).

Lemma booking_body_read b rt rp :
  well_extracted b -> sendable b -> id_read (cf_property cf) -> id_read rt -> id_read rp -> date_read (bk_check_in b) -> date_read (bk_check_out b) ->
  lax_bool (JBool false) = Some false -> parse_booking_create (JObj (booking_body cf b rt rp)) = Some (sent_booking b rt rp).
Proof.
  intros [Hs _ _ Hf Hl He Hp] [Hs' Hf' Hl' Hx] Hi1 Hi2 Hi3 Hd1 Hd2 Hb.
  assert (Hg : parse_guest_payload (JObj [("first_name", JStr (bs_first (bk_guest b))); ("last_name", JStr (bs_last (bk_guest b)));
      ("email", JStr (lower (strip (bs_email (bk_guest b))))); ("phone", JStr (bs_phone (bk_guest b)))]%string)
    = Some (GuestPayload (bs_first (bk_guest b)) (bs_last (bk_guest b)) (lower (strip (bs_email (bk_guest b)))) (bs_phone (bk_guest b)) None)).
  { apply truthy_length in Hf, Hl. unfold parse_guest_payload, as_object, required, optional, with_default. cbn [dict_get String.eqb Ascii.eqb Bool.eqb mbind option_bind].
    rewrite (str_of_fits 1 255) by lia. cbn [mbind option_bind]. rewrite (str_of_fits 1 255) by lia. cbn [mbind option_bind].
    rewrite He, Hp, sent_email_fits by lia. reflexivity. }
  unfold parse_booking_create, booking_body, sent_booking, as_object, required, optional, with_default, id_read, date_read in *.
  cbn [dict_get String.eqb Ascii.eqb Bool.eqb mbind option_bind].
  match goal with |- context [only ?k ?d] => assert (only k d = Some tt) as -> by reflexivity end. cbn [mbind option_bind].
  rewrite Hi1, Hi2, Hi3. cbn [mbind option_bind]. rewrite Hd1, Hd2. cbn [mbind option_bind]. rewrite Hg, Hb. cbn [mbind option_bind].
  change (literal ["pending"; "confirmed"]%string (JStr "confirmed")) with (Some "confirmed"%string). cbn [mbind option_bind].
  pose proof (slice_length 64 (or_default "migration" (bk_source b))). pose proof (slice_length 128 (bk_external b)).
  rewrite str_max_fits by lia. cbn [mbind option_bind nullable]. rewrite str_max_fits by lia. cbn [fmap option_fmap option_map mbind option_bind].
  unfold stay_dates_ok. by rewrite (proj2 (Z.ltb_lt _ _)), (proj2 (Z.leb_le _ _)) by lia.
Qed.

(** *** Guests *)

(** Lengths the tool does not cut. *)
Record guest_sendable (g : GuestRecord) : Prop := {
  gd_first : Z.of_nat (String.length (gr_first g)) <= 255;
  gd_last : Z.of_nat (String.length (gr_last g)) <= 255;
  gd_email : Z.of_nat (String.length (safe_email_for_guest g)) <= 320;
  gd_phone : Z.of_nat (String.length (safe_phone g)) <= 64 }.

Definition sent_guest (g : GuestRecord) : guest_create :=
  GuestCreate (gr_first g) (gr_last g) (safe_email_for_guest g) (safe_phone g) None (two_letters (gr_nationality g)) None (gr_notes g) (gr_vip g).

Lemma guest_body_read g : guest_extracted g -> guest_sendable g -> (forall x, lax_bool (JBool x) = Some x) ->
  parse_guest_create (JObj (guest_body g (safe_email_for_guest g) true)) = Some (sent_guest g).
Proof.
  intros (Hf & Hl & Hn) [Hf' Hl' He Hp] Hb. apply truthy_length in Hf, Hl.
  pose proof (truthy_length _ (safe_email_truthy g)). pose proof (truthy_length _ (safe_phone_truthy g)).
  unfold parse_guest_create, guest_body, sent_guest, as_object, required, optional, with_default.
  assert (Ho : forall l, only ["first_name"; "last_name"; "email"; "phone"; "passport_data"; "nationality"; "date_of_birth"; "notes"; "vip_status"]%string
    ([("first_name", JStr (gr_first g)); ("last_name", JStr (gr_last g)); ("email", JStr (safe_email_for_guest g)); ("phone", JStr (safe_phone g));
      ("notes", match gr_notes g with Some n => JStr n | None => JNull end); ("vip_status", JBool (gr_vip g))]%string ++ match l with Some c => [("nationality"%string, JStr c)] | None => [] end) = Some tt)
    by (by intros []).
  cbn [mbind option_bind]. rewrite Ho. cbn [app dict_get String.eqb Ascii.eqb Bool.eqb mbind option_bind].
  rewrite (str_of_fits 1 255) by lia. cbn [mbind option_bind]. rewrite (str_of_fits 1 255) by lia. cbn [mbind option_bind].
  rewrite (str_of_fits 1 320) by lia. cbn [mbind option_bind]. rewrite (str_of_fits 1 64) by lia. cbn [mbind option_bind]. rewrite Hb.
  destruct (two_letters (gr_nationality g)) as [c|] eqn:Ec; cbn [dict_get String.eqb Ascii.eqb Bool.eqb mbind option_bind].
  - rewrite (nation_read _ _ Hn Ec). by destruct (gr_notes g).
  - by destruct (gr_notes g).
Qed.

(** *** Segments *)

Lemma one_segment {A} (dec : json -> option A) (total : list A -> bool) j g : dec j = Some g ->
  (segs ← required [("segments"%string, JArr [j])] "segments" (nonempty dec); check total segs) = check total [g].
Proof. intros E. unfold required, nonempty, list_of. cbn. by rewrite E. Qed.

Lemma seed_body_read rt chunk : id_read rt -> date_read chunk.1 -> date_read chunk.2 -> chunk.1 <= chunk.2 -> chunk.2 - chunk.1 < 90 ->
  parse_seed_request (JObj [("segments"%string, JArr [seed_body rt chunk])]) = Some [SeedSegment rt chunk.1 chunk.2].
Proof.
  unfold id_read, date_read. intros Hi H1 H2 Hle Hlt.
  assert (parse_seed_segment (seed_body rt chunk) = Some (SeedSegment rt chunk.1 chunk.2)) as E.
  { unfold parse_seed_segment, seed_body, as_object, required. cbn. rewrite Hi. cbn. rewrite H1. cbn. rewrite H2. cbn.
    unfold span. by rewrite !(proj2 (Z.leb_le _ _)) by lia. }
  etrans; [exact (one_segment _ _ _ _ E)|]. unfold check, span. cbn. by rewrite (proj2 (Z.leb_le _ _)) by lia.
Qed.

Lemma rates_body_read rt rp chunk price : id_read rt -> id_read rp -> date_read chunk.1 -> date_read chunk.2 -> chunk.1 <= chunk.2 -> chunk.2 - chunk.1 < 90 ->
  lax_decimal (JStr (cf_night_rate cf)) = Some price -> dec_leb (dec_of_int 0) price = true ->
  parse_rates_put (JObj [("segments"%string, JArr [rates_segment cf (rt, rp) chunk])]) = Some [RateSegment rt rp chunk.1 chunk.2 price false None None].
Proof.
  unfold id_read, date_read. intros Hi Hi' H1 H2 Hle Hlt Hp Hp0.
  assert (parse_rate_segment (rates_segment cf (rt, rp) chunk) = Some (RateSegment rt rp chunk.1 chunk.2 price false None None)) as E.
  { unfold parse_rate_segment, rates_segment, as_object, required, dec_from, check. cbn. rewrite Hi. cbn. rewrite Hi'. cbn. rewrite H1. cbn. rewrite H2. cbn.
    rewrite Hp. cbn. rewrite Hp0. cbn. unfold span. by rewrite !(proj2 (Z.leb_le _ _)) by lia. }
  etrans; [exact (one_segment _ _ _ _ E)|]. unfold check, span. cbn. by rewrite (proj2 (Z.leb_le _ _)) by lia.
Qed.

End migration.

(** C6: the migration tool speaks the schemas of the API. *)
Theorem migration_speaks_the_schemas `{Env, Pydantic, Pandas} cf a price rt rp :
  (forall d, valid_date d -> date_read d) -> (forall x, lax_bool (JBool x) = Some x) -> (forall c d, to_datetime c = Some d -> valid_date d) ->
  lax_decimal (JStr (cf_night_rate cf)) = Some price -> dec_leb (dec_of_int 0) price = true -> id_read (cf_property cf) -> id_read rt -> id_read rp ->
  (forall b, In b (extract_bookings a) -> sendable b ->
     parse_booking_create (JObj (booking_body cf b rt rp)) = Some (sent_booking cf b rt rp) /\ booking_create_valid (sent_booking cf b rt rp) = true) /\
  (forall g, In g (extract_guests a) -> guest_sendable g ->
     parse_guest_create (JObj (guest_body g (safe_email_for_guest g) true)) = Some (sent_guest g)) /\
  (forall start last, MINORD <= start -> last + 90 <= MAXORD -> forall chunk, In chunk (iter_date_chunks start last 90).1 ->
     parse_seed_request (JObj [("segments"%string, JArr [seed_body rt chunk])]) = Some [SeedSegment rt chunk.1 chunk.2] /\
     parse_rates_put (JObj [("segments"%string, JArr [rates_segment cf (rt, rp) chunk])]) = Some [RateSegment rt rp chunk.1 chunk.2 price false None None]).
Proof.
  intros Hd Hb Hpd Hp Hp0 Hi1 Hi2 Hi3. split_and!.
  - intros b Hin Hs. destruct (extracted_dates Hpd a b Hin) as [Hd1 Hd2].
    assert (E : parse_booking_create (JObj (booking_body cf b rt rp)) = Some (sent_booking cf b rt rp))
      by (apply booking_body_read; eauto using extracted_bookings).
    split; [exact E|]. by eapply parse_booking_create_valid.
  - intros g Hin Hs. apply guest_body_read; eauto using extracted_guests.
  - intros start last Hs Hl chunk Hin. destruct (iter_date_chunks_exact 90 start last) as (l & El & Hcov & Hall); [lia|done|done|].
    rewrite El in Hin. pose proof (proj1 (List.Forall_forall _ _) Hall chunk Hin) as [[Hle Hle'] Hlt].
    assert (Hlo : start <= chunk.1).
    { assert (In chunk.1 (seqZ start (last - start + 1))) as Hm; [|apply In_seqZ in Hm; lia].
      rewrite <- Hcov. apply in_flat_map. exists chunk. split; [done|]. unfold dates_of. apply In_seqZ. lia. }
    assert (date_read chunk.1 /\ date_read chunk.2) as [Hr1 Hr2] by (split; apply Hd; unfold valid_date; lia).
    split; [by apply seed_body_read|by apply rates_body_read].
Qed.

(** ** A hotel that is sent bodies *)

Definition posted_json : json :=
  JObj [("property_id", JStr "3"); ("room_type_id", JStr "7"); ("rate_plan_id", JStr "5"); ("check_in", JInt 100); ("check_out", JInt 102);
        ("guest", JObj [("first_name", JStr "Ann"); ("last_name", JStr "Lee"); ("email", JStr "Ann@Example.com "); ("phone", JStr "1")])]%string.

(** One-digit ids, days and dates of the calendar, whole amounts. *)
#[local] Instance plain_pydantic : Pydantic := {|
  lax_int := fun j => match j with JInt n => Some n | _ => None end;
  lax_bool := fun j => match j with JBool b => Some b | _ => None end;
  lax_decimal := fun j => match j with JStr s => if String.eqb s "100" then Some (dec_of_int 100) else None | JInt n => Some (dec_of_int n) | _ => None end;
  lax_uuid := fun j => match j with JStr s => List.find (fun i => String.eqb (pretty i) s) (seqZ 0 10) | _ => None end;
  lax_date := fun j => match j with JStr s => fromisoformat s | JInt n => if (MINORD <=? n) && (n <=? MAXORD) then Some n else None | _ => None end;
  lax_time := fun j => match j with JInt n => Some n | _ => None end;
  lax_datetime := fun j => match j with JInt n => Some n | _ => None end;
  lax_email := fun j => match j with JStr s => if has_char "@" s then Some s else None | _ => None end;
  zone_known := fun s => String.eqb s "UTC" |}.

#[local] Instance plain_env : Env := {| collate := String.leb; uuid_str := pretty; python_attr := fun _ => false |}.

Definition second_json : json := match posted_json with JObj d => JObj (("status", JStr "pending") :: d) | j => j end%string.
Definition first_state : DB := (run (answer (fun _ => true) 1 (PostBooking posted_json)) 0 0 1000 hotel_db).1.
Definition last_state : DB := (run (answer (fun _ => true) 1 (PostBooking second_json)) 0 0 2000 first_state).1.

Lemma first_fresh : fresh 2000 first_state.
Proof.
  split.
  - vm_compute. intros b [<-|[]]. done.
  - vm_compute. intros l [<-|[<-|[]]]; done.
Qed.

(** A stay, a body that is a list, another stay. *)
Lemma three_bodies : rtc (answered (fun _ => true)) hotel_db last_state.
Proof.
  apply (rtc_l _ _ first_state); [exact (answered_one _ 1 (PostBooking posted_json) 0 0 1000 hotel_db hotel_fresh)|].
  apply (rtc_l _ _ first_state); [exact (refused_step _ 1 (PostBooking (JArr [])) 0 0 2000 first_state eq_refl first_fresh)|].
  apply rtc_once. exact (answered_one _ 1 (PostBooking second_json) 0 0 2000 first_state first_fresh).
Qed.


(** *** An export of one guest and one stay *)

#[local] Instance one_export : Pandas := {|
  read_csv := fun p =>
    if String.eqb p "guests.csv" then
      Frame ["Id"; "Name"; "Surname"; "Email"; "Country"]%string [[Some "G1"; Some "Ann"; Some "Lee"; Some "Ann@Example.com"; Some "Germany"]]%string
    else
      Frame ["Booking ID"; "Checkin date"; "Checkout date"; "Room types"; "Rate plans"]%string
        [[Some "B 1"; Some "2026-05-01"; Some "2026-05-03"; Some "Garden, Double"; Some "BAR"]]%string;
  glob_paths := fun p => [p]; is_file := fun _ => true;
  to_datetime := fun c => match c with Some s => match fromisoformat s with Some d => if (MINORD <=? d) && (d <=? MAXORD) then Some d else None | None => None end | None => None end;
  to_decimal := fun _ => None; float_to_int := fun _ => None |}.

Definition one_hotel : preno_adapter := PrenoAdapter (Some "guests.csv"%string) (Some "bookings.csv"%string) None false.
Definition into_pms : config :=
  Config 3 OnSkip 50 "100" false true false None "Preno" "3" [].

Lemma one_export_shape :
  List.map (fun b => (bk_check_in b, bk_check_out b, bs_first (bk_guest b))) (extract_bookings one_hotel) = [(739737, 739739, "Guest"%string)] /\
  List.map (fun g => (gr_first g, gr_last g, gr_nationality g)) (extract_guests one_hotel) = [("Ann", "Lee", Some "DE")]%string.
Proof. split; vm_compute; reflexivity. Qed.

Lemma migration_speaks_the_schemas_witness :
  List.map (fun b => parse_booking_create (JObj (booking_body into_pms b 7 5))) (extract_bookings one_hotel)
    = List.map (fun b => Some (sent_booking into_pms b 7 5)) (extract_bookings one_hotel) /\
  List.map (fun b => bk_external b) (extract_bookings one_hotel) = ["B 1"%string] /\
  parse_guest_create (JObj (guest_body (List.hd (guest_record EmptyString EmptyString EmptyString None None None None false) (extract_guests one_hotel)) "ann@example.com" true))
    = Some (GuestCreate "Ann" "Lee" "ann@example.com" "+10000000000" None (Some "DE") None None false)%string.
Proof.
  destruct (migration_speaks_the_schemas into_pms one_hotel (dec_of_int 100) 7 5) as (Hb & Hg & _).
  - intros d Hd. by apply fromisoformat_isoformat.
  - done.
  - intros [c|] d; [|done]. cbn. destruct (fromisoformat c) as [d'|]; [|done]. destruct (_ && _) eqn:E; [|done]. intros [= <-].
    apply andb_true_iff in E as [?%Z.leb_le ?%Z.leb_le]. done.
  - vm_compute. reflexivity.
  - vm_compute. reflexivity.
  - vm_compute. reflexivity.
  - vm_compute. reflexivity.
  - vm_compute. reflexivity.
  - split; [|split].
    + apply List.map_ext_in. intros b Hin. apply Hb; [exact Hin|]. revert Hin. vm_compute extract_bookings. intros [<-|[]]. split; vm_compute; intros H; discriminate H.
    + vm_compute. reflexivity.
    + set (g := List.hd _ _). assert (Hin : In g (extract_guests one_hotel)) by (vm_compute; by left).
      transitivity (parse_guest_create (JObj (guest_body g (safe_email_for_guest g) true))); [vm_compute; reflexivity|].
      rewrite (Hg g Hin); [vm_compute; reflexivity|].
      split; vm_compute; intros H; discriminate H.
Defined.
