(* ===== verification/Scripts.v ===== *)
(** * Maintenance scripts

    src/scripts: the commands an operator runs against the database, outside
    the API.  Environment variables are arguments, [None] when unset; what a
    row-level security policy lets a session see is decided by the role it
    connects with; the result is the exit code. *)

From stdpp Require Import gmap strings pretty.
From S2P Require Import Prelude PyJson StayDates Calendar BookingStatus Models Session Ledger FolioLaws Booking BookingInvariant Auth.

(** [os.environ.get(k)] in a condition. *)
Definition set_env (o : option string) : option string := match o with Some s => if truthy s then Some s else None | None => None end.

(** What a run of the assignment script has looked up. *)
Abbreviation room_cache := (list (Z * Z * option Z)).

Section scripts.
Context {env : Env} {crypto : Crypto}.

(** [UUID(s)] *)
Definition uuid_of (s : string) : M Z := lift (of_option (uuid_parse s) (ValueError "badly formed hexadecimal UUID string")).

(** *** One tenant or all of them *)

(** The body of the [session.begin()] block of both horizon and purge: the
    work for [TENANT_ID] when it is set, for every tenant otherwise. *)
Definition for_tenants (role : db_role) (tenant_env : option string) (run_for_tenant : Z -> M Z) : M Z :=
  transaction (
    match set_env tenant_env with
    | Some s => tenant_id ← uuid_of (strip s); _ ← run_for_tenant tenant_id; mret 0
    | None =>
        tenants ← tenant_ids role;
        match tenants with
        | [] => mret 2
        | _ => _ ← sumM tenants run_for_tenant; mret 0
        end
    end).

(** *** extend_availability_ledger.py *)

Definition extend_for_tenant (role : db_role) (extra_days tenant_id : Z) : M Z :=
  extend_availability_ledger_days (fun rt => sees role (Some tenant_id) (rt_tenant rt)) extra_days.

Definition extend_main (role : db_role) (database_url tenant_env : option string) (extra_days : Z) : M Z :=
  match database_url with
  | None => mret 1
  | Some _ => if extra_days <? 1 then mret 1 else for_tenants role tenant_env (extend_for_tenant role extra_days)
  end.

(** *** purge_refresh_tokens.py *)

Definition purge_for_tenant (role : db_role) (tenant_id : Z) : M Z :=
  purge_stale_refresh_tokens (fun k => sees role (Some tenant_id) (tk_tenant k)).

Definition purge_main (role : db_role) (database_url tenant_env : option string) : M Z :=
  match database_url with None => mret 1 | Some _ => for_tenants role tenant_env (purge_for_tenant role) end.

(** *** seed_availability_ledger_for_room_type.py *)

Definition existing_ledger_rows (tenant_id room_type_id : Z) : M Z :=
  query (fun d => Z.of_nat (size (filter (fun kr : ledger_key * AvailabilityLedger => kr.1.1 = (tenant_id, room_type_id)) (ledger d)))).

Definition seed_main (database_url tenant_env room_type_env : option string) : M Z :=
  match database_url, tenant_env ≫= uuid_parse, room_type_env ≫= uuid_parse with
  | Some _, Some tenant_id, Some room_type_id =>
      transaction (
        existing ← existing_ledger_rows tenant_id room_type_id;
        if 0 <? existing then mret 2
        else
          total ← count_rooms_for_room_type tenant_id room_type_id;
          _ ← seed_empty_availability_ledger_year_forward tenant_id room_type_id total None 365;
          mret 0)
  | _, _, _ => mret 1
  end.

(** *** assign_room_ids_to_booking_lines.py *)

Definition DEMO_SOURCE : string := "assign_script_demo".

(** [today.replace(day=1)] *)
Definition first_of_month (d : date) : date := d - (let '(_, _, day) := ord2ymd d in day) + 1.
Definition month_of (d : date) : Z := let '(_, m, _) := ord2ymd d in m.

Definition by_tenant_and_name (a b : Room) : bool :=
  (r_tenant a <? r_tenant b) || ((r_tenant a =? r_tenant b) && collate (r_name a) (r_name b)).

Definition demo_nights (td : date) : list date :=
  let first := first_of_month td in
  let check_in := if negb (month_of (first + 4) =? month_of first) then first else first + 4 in
  [check_in; check_in + 1; check_in + 2].

Definition insert_demo_booking (room : Room) (property_id : Z) : M unit :=
  td ← get_today;
  guest_id ← uuid4;
  _ ← add (MkGuest guest_id (r_tenant room) "Demo" "Board" "board-demo@openpms.local" "+10000000000" None None None None false 0);
  _ ← flush;
  booking_id ← uuid4;
  _ ← add (MkBooking booking_id (r_tenant room) property_id guest_id None None "confirmed" DEMO_SOURCE 30000 None);
  _ ← flush;
  _ ← forM (demo_nights td) (fun night =>
        i ← uuid4; add (MkBookingLine i (r_tenant room) booking_id night (r_room_type room) None 10000));
  flush.

Definition seed_demo_booking_if_requested (role : db_role) (seed_env : option string) : M unit :=
  if negb (bool_decide (seed_env = Some "1"%string)) then mret tt
  else
    existing ← scalar (R := Booking) (fun b => sees role None (b_tenant b) && String.eqb (b_source b) DEMO_SOURCE);
    match existing with
    | Some _ => mret tt
    | None =>
        rows ← select (R := Room) (fun r => sees role None (r_tenant r));
        types ← query room_types;
        let joined := omap (fun r =>
          (fun t => (r, rt_property t)) <$> List.find (fun t => (rt_tenant t =? r_tenant r) && (rt_id t =? r_room_type r)) types) rows in
        match order_by (fun a b => by_tenant_and_name a.1 b.1) joined with
        | [] => mret tt
        | (room, property_id) :: _ => insert_demo_booking room property_id
        end
    end.

Definition unassigned (role : db_role) (l : BookingLine) : bool := sees role None (l_tenant l) && bool_decide (l_room l = None).

(** The first room of a type by name, whatever its state. *)
Definition first_room (role : db_role) (tenant_id room_type_id : Z) : M (option Z) :=
  rows ← select (R := Room) (fun r => sees role None (r_tenant r) && (r_tenant r =? tenant_id) && (r_room_type r =? room_type_id));
  mret (r_id <$> hd_error (order_by (fun a b => collate (r_name a) (r_name b)) rows)).

Definition cached (tenant_id room_type_id : Z) (cache : room_cache) : option (option Z) :=
  snd <$> List.find (fun e => (e.1.1 =? tenant_id) && (e.1.2 =? room_type_id)) cache.

(** [cache[key]], looked up once. *)
Definition room_for (role : db_role) (l : BookingLine) (cache : room_cache) : M (option Z * room_cache) :=
  match cached (l_tenant l) (l_room_type l) cache with
  | Some r => mret (r, cache)
  | None => r ← first_room role (l_tenant l) (l_room_type l); mret (r, (l_tenant l, l_room_type l, r) :: cache)
  end.

(** The numbers of lines given a room and of lines without any. *)
Fixpoint assign_rooms (role : db_role) (ls : list BookingLine) (cache : room_cache) (updated skipped : Z) : M (Z * Z) :=
  match ls with
  | [] => mret (updated, skipped)
  | l :: rest =>
      '(room, cache) ← room_for role l cache;
      match room with
      | None => assign_rooms role rest cache updated (skipped + 1)
      | Some rid => _ ← assign (l_id l) (set_l_room (Some rid)); assign_rooms role rest cache (updated + 1) skipped
      end
  end.

Definition assign_main (role : db_role) (database_url seed_env : option string) : M Z :=
  match database_url with
  | None => mret 1
  | Some _ =>
      _ ← transaction (seed_demo_booking_if_requested role seed_env);
      transaction (ls ← select (unassigned role); _ ← assign_rooms role ls [] 0 0; mret 0)
  end.

(** *** seed_demo_data.py *)

(** Name, rooms, base and greatest occupancy, prefix of the room names. *)
Definition room_specs : list (string * Z * Z * Z * string) :=
  [("Pool Villa", 5, 2, 4, "PV"); ("Ocean View Suite", 10, 2, 3, "OVS"); ("Standard", 15, 2, 2, "STD")]%string.

(** [time(h, m)], in seconds. *)
Definition clock (h m : Z) : Z := h * 3600 + m * 60.

Definition seed_demo_room_type (tenant_id property_id : Z) (spec : string * Z * Z * Z * string) : M unit :=
  let '(name, count, base_occ, max_occ, prefix) := spec in
  rt_id ← uuid4;
  _ ← add (MkRoomType rt_id tenant_id property_id name base_occ max_occ None);
  _ ← flush;
  _ ← forM (seqZ 1 count) (fun i =>
        room_id ← uuid4;
        add (MkRoom room_id tenant_id rt_id (prefix ++ "-" ++ pretty i)%string "available" None "clean" "normal"));
  _ ← flush;
  seed_empty_availability_ledger_year_forward tenant_id rt_id count None 365.

(** [_mint_jwt] *)
Definition mint_jwt (tenant_id : Z) : M string :=
  sub ← uuid4;
  t ← get_now;
  mret (jwt_encode [("tenant_id", JStr (uuid_str tenant_id)); ("sub", JStr (uuid_str sub)); ("exp", JInt (t + 365 * 86400))]%string).

(** The exit code and the token it prints. *)
Definition seed_demo_main (database_url jwt_secret : option string) : M (Z * option string) :=
  match database_url, jwt_secret with
  | Some _, Some _ =>
      try_except
        (tenant_id ← uuid4;
         property_id ← uuid4;
         _ ← transaction (
               _ ← add (MkTenant tenant_id "Demo Hotel Group" "demo@openpms.local" "active");
               _ ← flush;
               _ ← add (MkProperty property_id tenant_id "Grand Samui Resort" None "Asia/Bangkok" "THB" (clock 14 0) (clock 11 0));
               _ ← flush;
               forM room_specs (seed_demo_room_type tenant_id property_id));
         token ← mint_jwt tenant_id;
         mret (0, Some token))
        (fun e => match e with IntegrityError => Some (mret (2, None)) | _ => None end)
  | _, _ => mret (1, None)
  end.

End scripts.

(** * Laws of the scripts *)

(** ** The last date of a ledger *)

Lemma max_date_list (l : list (ledger_key * AvailabilityLedger)) t rt :
  let here d := exists r, In ((t, rt, d), r) l in
  match List.fold_right (fun (kr : ledger_key * AvailabilityLedger) acc =>
    let '((t', rt', d), _) := kr in
    if (t' =? t) && (rt' =? rt) then Some (match acc with Some m => Z.max d m | None => d end) else acc) None l with
  | Some m => here m /\ forall d, here d -> d <= m
  | None => forall d, ~ here d
  end.
Proof.
  cbv zeta. induction l as [|[[[t' rt'] d'] r'] l IH]; cbn [List.fold_right]; [by intros d [r []]|].
  set (acc := List.fold_right _ None l) in *.
  destruct (Z.eqb_spec t' t) as [->|Ht]; cbn [andb]; [destruct (Z.eqb_spec rt' rt) as [->|Hrt]; cbn [andb]|].
  - destruct acc as [m|].
    + destruct IH as [[r Hm] Hle]. split.
      * destruct (Z.max_spec d' m) as [[_ ->]|[_ ->]]; [exists r; by right|exists r'; by left].
      * intros d [r2 [[= <- _]|Hin]]; [lia|]. specialize (Hle d (ex_intro _ r2 Hin)). lia.
    + split; [exists r'; by left|]. intros d [r2 [[= <- _]|Hin]]; [lia|]. destruct (IH d). by exists r2.
  - destruct acc as [m|]; [destruct IH as [[r Hm] Hle]; split; [exists r; by right|]|];
      intros d [r2 [[= -> -> _]|Hin]]; try done; [apply Hle|apply (IH d)]; by exists r2.
  - destruct acc as [m|]; [destruct IH as [[r Hm] Hle]; split; [exists r; by right|]|];
      intros d [r2 [[= -> -> _]|Hin]]; try done; [apply Hle|apply (IH d)]; by exists r2.
Qed.

Lemma max_date_spec L t rt m : max_date L t rt = Some m <-> is_Some (L !! (t, rt, m)) /\ forall d, is_Some (L !! (t, rt, d)) -> d <= m.
Proof.
  assert (Hin : forall d, (exists r, In ((t, rt, d), r) (map_to_list L)) <-> is_Some (L !! (t, rt, d))).
  { intros d. split; intros [r Hr]; exists r; [by apply elem_of_map_to_list, list_elem_of_In|by apply list_elem_of_In, elem_of_map_to_list]. }
  pose proof (max_date_list (map_to_list L) t rt) as H. cbv zeta in H. fold (max_date L t rt) in H.
  destruct (max_date L t rt) as [m'|].
  - destruct H as [H1 H2]. apply Hin in H1. split.
    + intros [= <-]. split; [done|]. intros d Hd. by apply H2, Hin.
    + intros [H3 H4]. f_equal. apply Hin in H3. specialize (H2 m H3). specialize (H4 m' H1). lia.
  - split; [done|]. intros [H3 _]. by apply Hin, H in H3.
Qed.

Lemma max_date_dom L L' t rt : (forall d, is_Some (L !! (t, rt, d)) <-> is_Some (L' !! (t, rt, d))) -> max_date L' t rt = max_date L t rt.
Proof.
  intros H. destruct (max_date L t rt) as [m|] eqn:E.
  - apply max_date_spec in E as [E1 E2]. apply max_date_spec. split; [by apply H|]. intros d Hd. by apply E2, H.
  - destruct (max_date L' t rt) as [m|] eqn:E'; [|done]. apply max_date_spec in E' as [E1 E2]. exfalso.
    assert (max_date L t rt = Some m); [|congruence]. apply max_date_spec. split; [by apply H|]. intros d Hd. by apply E2, H.
Qed.

(** ** Rows laid into the ledger *)

Record laid (P : ledger_key -> Prop) (s s' : session) : Prop := Laid {
  laid_sync : disk s = mem s -> disk s' = mem s';
  laid_types : room_types (mem s') = room_types (mem s);
  laid_rows : disk s = mem s -> forall k, is_Some (ledger (mem s') !! k) <-> is_Some (ledger (mem s) !! k) \/ P k }.

Lemma laid_refl P s : (forall k, ~ P k) -> laid P s s.
Proof. intros H. constructor; [done|done|]. intros _ k. split; [by left|]. intros [?|Hk]; [done|]. destruct (H k Hk). Qed.

Lemma laid_trans P Q s1 s2 s3 : laid P s1 s2 -> laid Q s2 s3 -> laid (fun k => P k \/ Q k) s1 s3.
Proof.
  intros [S1 T1 R1] [S2 T2 R2]. constructor; [auto|congruence|]. intros Hs k. rewrite (R2 (S1 Hs)), (R1 Hs). tauto.
Qed.

Lemma laid_ext P Q s s' : (forall k, P k <-> Q k) -> laid P s s' -> laid Q s s'.
Proof. intros H [S1 T1 R1]. constructor; [done|done|]. intros Hs k. by rewrite (R1 Hs), H. Qed.

Lemma insert_or_nothing_laid k total s s' v : insert_or_nothing k total s = (s', Ok v) -> laid (eq k) s s'.
Proof.
  unfold insert_or_nothing. intros H. rewrite run_query in H. destruct (ledger (disk s) !! k) as [r|] eqn:E.
  - injection H as <- _. constructor; [done|done|]. intros Hs k'. split; [by left|]. intros [?|<-]; [done|]. rewrite <- Hs, E. by eexists.
  - unfold mbind, M_bind, execute in H. injection H as <- _. constructor; cbn; [by intros ->|done|]. intros Hs k'.
    rewrite lookup_insert_is_Some. destruct (decide (k = k')) as [->|Hne]; [split; auto|]. split; [intros [?|[_ ?]]; auto|].
    intros [?|?]; [by right|by left].
Qed.

Lemma insert_rows_laid total ks s s' v : insert_rows total ks s = (s', Ok v) -> laid (fun k => In k ks) s s'.
Proof.
  unfold insert_rows. intros H. rewrite run_query in H. destruct (existsb _ _); [discriminate H|].
  rewrite run_orm in H. cbv [flush] in H. injection H as <- _. constructor; [done|done|]. intros _ k. cbn.
  assert (forall L : ledger_map, is_Some (List.fold_left (fun (L : ledger_map) k => <[k := empty_row total]> L) ks L !! k) <-> is_Some (L !! k) \/ In k ks) as Hl; [|apply Hl].
  induction ks as [|k0 ks IH]; intros L; cbn [List.fold_left In]; [tauto|]. rewrite IH, lookup_insert_is_Some.
  destruct (decide (k0 = k)); tauto.
Qed.

Section extend.
Context (role : db_role) (days : Z) (Hdays : 1 <= days).

(** One room type: its rows move on, no other row is laid. *)
Definition extend_type (x : RoomType) : M Z :=
  max_d ← query (fun d => max_date (ledger d) (rt_tenant x) (rt_id x));
  total ← count_rooms_for_room_type (rt_tenant x) (rt_id x);
  match max_d with
  | None => _ ← seed_empty_availability_ledger_year_forward (rt_tenant x) (rt_id x) total None days; mret days
  | Some m =>
      sumM (seqZ 1 days) (fun i => day ← lift (date_add m i); insert_or_nothing (rt_tenant x, rt_id x, day) total)
  end.

Lemma insert_days_laid t' rt' m' total l s s' v :
  sumM l (fun i => day ← lift (date_add m' i); insert_or_nothing (t', rt', day) total) s = (s', Ok v) ->
  laid (fun k => exists i, In i l /\ k = (t', rt', m' + i)) s s'.
Proof.
  revert s v. induction l as [|i l IH]; intros s v H; cbn [sumM] in H.
  - injection H as <- _. apply laid_refl. by intros k (i & [] & _).
  - mbind_in H s1 n H1. mbind_in H s2 n2 H2. injection H as <- _. apply bind_lift_inv in H1 as (day & Hd & H1).
    apply insert_or_nothing_laid in H1. apply IH in H2. eapply laid_ext; [|eapply laid_trans; [exact H1|exact H2]].
    assert (day = m' + i) as -> by (unfold date_add in Hd; destruct (_ && _); [by injection Hd|discriminate Hd]).
    intros k. cbn [In]. split; [intros [<-|(j & Hj & ->)]; eauto|intros (j & [<-|Hj] & ->); eauto].
Qed.

Lemma extend_type_laid x s s' v : extend_type x s = (s', Ok v) ->
  laid (fun k => k.1 = (rt_tenant x, rt_id x) /\
    match max_date (ledger (disk s)) (rt_tenant x) (rt_id x) with Some m => m < k.2 <= m + days | None => today s <= k.2 < today s + days end) s s'.
Proof.
  unfold extend_type, count_rooms_for_room_type. intros H. rewrite !run_query in H.
  destruct (max_date (ledger (disk s)) _ _) as [m'|].
  - apply insert_days_laid in H. eapply laid_ext; [|exact H]. intros [[t r] d]. cbn. split.
    + intros (i & Hi & [= -> -> ->]). apply list_elem_of_In, elem_of_seqZ in Hi. split; [done|lia].
    + intros [[= -> ->] Hd]. exists (d - m'). split; [apply list_elem_of_In, elem_of_seqZ; lia|f_equal; lia].
  - mbind_in H s1 u H1. injection H as <- _. unfold seed_empty_availability_ledger_year_forward in H1. rewrite run_today in H1.
    apply bind_lift_inv in H1 as (ds & Hds & H1). apply insert_rows_laid in H1. eapply laid_ext; [|exact H1].
    assert (Hin : forall d, In d ds <-> today s <= d < today s + days).
    { intros d. cbn [from_option id] in Hds. clear -Hds. change (default (today s) None) with (today s) in Hds.
      assert (Hm : forall l ds, mapR (date_add (today s)) l = Ok ds -> ds = List.map (fun i => today s + i) l).
      { induction l as [|i l IH]; intros ds' E; cbn [mapR] in E; [by injection E as <-|].
        destruct (date_add (today s) i) as [x|] eqn:Ex; [|discriminate E]. cbn in E.
        destruct (mapR (date_add (today s)) l) as [ds2|]; [|discriminate E]. injection E as <-. cbn. f_equal; [|by apply IH].
        unfold date_add in Ex. destruct (_ && _); [by injection Ex|discriminate Ex]. }
      rewrite (Hm _ _ Hds), in_map_iff. split; [intros (i & <- & Hi)|intros Hd; exists (d - today s); split; [lia|]];
        [apply list_elem_of_In, elem_of_seqZ in Hi; lia|apply list_elem_of_In, elem_of_seqZ; lia]. }
    intros [[t r] d]. cbn [fst snd]. rewrite in_map_iff. split.
    + intros (d' & [= <- <- <-] & Hd). split; [done|by apply Hin].
    + intros [[= -> ->] Hd]. exists d. split; [done|by apply Hin].
Qed.
(** The horizon of the room type [rt] of tenant [t]. *)
Context (t rt : Z).
Definition reaches (n : Z) (s : session) : Prop := disk s = mem s /\ max_date (ledger (mem s)) t rt = Some n.
Definition types_key (x : RoomType) : Z * Z := (rt_tenant x, rt_id x).

Lemma laid_elsewhere P s s' n : laid P s s' -> (forall d, ~ P (t, rt, d)) -> reaches n s -> reaches n s'.
Proof.
  intros [S1 _ R1] HP [Hs Hm]. split; [auto|]. rewrite <- Hm. apply max_date_dom. intros d. rewrite (R1 Hs). specialize (HP d). tauto.
Qed.

Lemma extend_type_here x n s s' v : types_key x = (t, rt) -> reaches n s -> extend_type x s = (s', Ok v) -> reaches (n + days) s'.
Proof.
  intros [= Ht Hr] [Hs Hm] H. apply extend_type_laid in H as [S1 _ R1]. split; [auto|]. rewrite Ht, Hr, Hs, Hm in R1.
  apply max_date_spec in Hm as [Hm Hle]. apply max_date_spec. split.
  - apply (R1 eq_refl). right. cbn. split; [done|lia].
  - intros d Hd. apply (R1 eq_refl) in Hd as [Hd|[_ Hd]]; [specialize (Hle d Hd); lia|cbn in Hd; lia].
Qed.

Lemma extend_type_other x n s s' v : types_key x <> (t, rt) -> reaches n s -> extend_type x s = (s', Ok v) -> reaches n s'.
Proof.
  intros Hne Hr H. apply extend_type_laid in H. eapply laid_elsewhere; [exact H| |exact Hr]. intros d [E _]. cbn in E. by apply Hne.
Qed.

Lemma extend_types l n s s' v : List.NoDup (List.map types_key l) -> reaches n s -> sumM l extend_type s = (s', Ok v) ->
  room_types (mem s') = room_types (mem s) /\
  (In (t, rt) (List.map types_key l) -> reaches (n + days) s') /\ (~ In (t, rt) (List.map types_key l) -> reaches n s').
Proof.
  revert n s v. induction l as [|x l IH]; intros n s v Hnd Hr H; cbn [sumM] in H; [by injection H as <- _|].
  mbind_in H s1 a H1. mbind_in H s2 b H2. injection H as <- _. cbn [List.map] in *. apply List.NoDup_cons_iff in Hnd as [Hni Hnd].
  pose proof (laid_types _ _ _ (extend_type_laid _ _ _ _ H1)) as Ht.
  destruct (decide (types_key x = (t, rt))) as [E|Hne].
  - destruct (IH _ _ _ Hnd (extend_type_here x n s s1 a E Hr H1) H2) as (Ht2 & _ & Hout). rewrite E in *. split; [congruence|].
    split; [intros _; by apply Hout|]. intros Hn. destruct Hn. by left.
  - destruct (IH _ _ _ Hnd (extend_type_other x n s s1 a Hne Hr H1) H2) as (Ht2 & Hin & Hout). split; [congruence|].
    split; [intros [?|?]; [done|auto]|]. intros Hn. apply Hout. intros ?. apply Hn. by right.
Qed.

(** One tenant's turn: the room type moves on by [days] when the session sees it. *)
Lemma extend_turn tid n s s' v x : List.NoDup (List.map rt_id (room_types (mem s))) -> In x (room_types (mem s)) -> types_key x = (t, rt) ->
  reaches n s -> extend_for_tenant role days tid s = (s', Ok v) ->
  room_types (mem s') = room_types (mem s) /\ reaches (if sees role (Some tid) t then n + days else n) s'.
Proof.
  intros Hnd Hx [= Hxt Hxr] Hr H. unfold extend_for_tenant, extend_availability_ledger_days in H.
  rewrite (proj2 (Z.ltb_ge _ _) Hdays) in H. unfold mbind at 1, M_bind at 1 in H.
  rewrite select_synced in H; [|exact Hnd|exact (f_equal room_types (proj1 Hr))].
  change (table (mem s)) with (room_types (mem s)) in H. set (l := List.filter _ (room_types (mem s))) in H.
  assert (Hl : List.NoDup (List.map types_key l)).
  { apply (List.NoDup_map_inv snd). rewrite List.map_map. cbn [types_key snd]. subst l. clear -Hnd.
    induction (room_types (mem s)) as [|y k IH]; [constructor|]. cbn [List.map] in Hnd. apply List.NoDup_cons_iff in Hnd as [Hni Hnd].
    cbn [List.filter]. destruct (sees _ _ _); [|by apply IH]. cbn [List.map]. constructor; [|by apply IH].
    intros Hin. apply Hni. apply in_map_iff in Hin as (z & <- & Hz). apply in_map. by apply filter_In in Hz as [? _]. }
  change (sumM l extend_type s = (s', Ok v)) in H. destruct (extend_types l n s s' v Hl Hr H) as (Ht & Hin & Hout). split; [done|].
  destruct (sees role (Some tid) t) eqn:Hsee.
  - apply Hin. rewrite <- Hxt, <- Hxr. apply (in_map types_key _ x). apply filter_In. rewrite Hxt. done.
  - apply Hout. intros (y & Ey & Hy)%in_map_iff. injection Ey as Hyt _. apply filter_In in Hy as [_ Hy]. rewrite Hyt in Hy. congruence.
Qed.
End extend.

Lemma extend_turns days t rt tids : 1 <= days -> forall n s s' v x, List.NoDup (List.map rt_id (room_types (mem s))) -> In x (room_types (mem s)) ->
  types_key x = (t, rt) -> reaches t rt n s -> sumM tids (extend_for_tenant Superuser days) s = (s', Ok v) ->
  reaches t rt (n + Z.of_nat (length tids) * days) s'.
Proof.
  intros Hd. induction tids as [|tid tids IH]; intros n s s' v x Hnd Hx Hk Hr H; cbn [sumM] in H.
  - injection H as <- _. replace (n + Z.of_nat (length (@nil Z)) * days) with n; [done|cbn; lia].
  - mbind_in H s1 a H1. mbind_in H s2 b H2. injection H as <- _.
    destruct (extend_turn Superuser days Hd t rt tid n s s1 a x Hnd Hx Hk Hr H1) as [Ht Hr1]. cbn [sees] in Hr1.
    rewrite <- Ht in Hnd, Hx. specialize (IH _ _ _ _ _ Hnd Hx Hk Hr1 H2). cbn [length].
    by replace (n + Z.of_nat (S (length tids)) * days) with (n + days + Z.of_nat (length tids) * days) by lia.
Qed.

(** C39: extend. *)
Theorem horizon_moves_once_per_tenant `{Crypto} d tm td u url days t rt m x s' :
  1 <= days -> List.NoDup (List.map tn_id (tenants d)) -> List.NoDup (List.map rt_id (room_types d)) ->
  In x (room_types d) -> rt_tenant x = t -> rt_id x = rt -> max_date (ledger d) t rt = Some m ->
  extend_main Superuser (Some url) None days (start d tm td u) = (s', Ok 0) ->
  max_date (ledger (mem s')) t rt = Some (m + Z.of_nat (length (tenants d)) * days).
Proof.
  intros Hd Htn Hnd Hx Ht Hr Hm Hrun. unfold extend_main, for_tenants, transaction in Hrun. rewrite (proj2 (Z.ltb_ge _ _) Hd) in Hrun.
  cbn [set_env disk start now today uuids] in Hrun. change (Session d d [] tm td u) with (start d tm td u) in Hrun.
  set (tids := order_by Z.leb (List.map tn_id (List.filter (fun t => sees Superuser None (tn_id t)) (tenants d)))).
  assert (Hids : tenant_ids Superuser (start d tm td u) = (start d tm td u, Ok tids)).
  { unfold tenant_ids, mbind, M_bind. by rewrite select_synced. }
  unfold mbind at 1, M_bind at 1 in Hrun. rewrite Hids in Hrun.
  assert (Hlen : length tids = length (tenants d)).
  { subst tids. rewrite (Permutation_length (order_by_perm Z.leb _)), length_map. clear. induction (tenants d) as [|y l IH]; [done|]. cbn [List.filter sees length] in *. by rewrite IH. }
  clearbody tids. destruct tids as [|t0 tids]; [discriminate Hrun|].
  unfold mbind, M_bind in Hrun. destruct (sumM (t0 :: tids) _ _) as [s1 [n|e]] eqn:E; [|discriminate Hrun].
  injection Hrun as <-. cbn [mem]. rewrite <- Hlen.
  refine (proj2 (extend_turns days t rt (t0 :: tids) Hd m (start d tm td u) s1 n x Hnd Hx _ _ E)); [by rewrite <- Ht, <- Hr|done].
Qed.

(** ** Rooms for the lines without one *)

Section assign.
Context {env : Env} (role : db_role).

Definition first_of (dd dm : DB) (l : BookingLine) : option Z :=
  r_id <$> hd_error (order_by (fun a b => collate (r_name a) (r_name b)) (omap (identity dm)
    (List.filter (fun r => sees role None (r_tenant r) && (r_tenant r =? l_tenant l) && (r_room_type r =? l_room_type l)) (rooms dd)))).

Lemma first_of_key dd dm l l' : l_tenant l = l_tenant l' -> l_room_type l = l_room_type l' -> first_of dd dm l = first_of dd dm l'.
Proof. intros E1 E2. unfold first_of. by rewrite E1, E2. Qed.

Lemma first_room_run dd dm l s : disk s = dd -> rooms (mem s) = rooms dm ->
  first_room role (l_tenant l) (l_room_type l) s = (s, Ok (first_of dd dm l)).
Proof.
  intros <- E. unfold first_room, select, mbind, M_bind, first_of, identity. cbn [mret M_ret].
  change (table (mem s)) with (rooms (mem s)). change (table dm) with (rooms dm). by rewrite E.
Qed.

Definition cache_ok (dd dm : DB) (cache : room_cache) : Prop :=
  forall l r, cached (l_tenant l) (l_room_type l) cache = Some r -> r = first_of dd dm l.

Lemma room_for_run dd dm l cache s : cache_ok dd dm cache -> disk s = dd -> rooms (mem s) = rooms dm ->
  exists cache', room_for role l cache s = (s, Ok (first_of dd dm l, cache')) /\ cache_ok dd dm cache'.
Proof.
  intros Hc Hd Hm. unfold room_for. destruct (cached _ _ cache) as [r|] eqn:E.
  - rewrite (Hc l r E). by exists cache.
  - unfold mbind, M_bind. rewrite (first_room_run dd dm) by done. eexists. split; [done|]. intros l' r Hr.
    unfold cached in Hr. cbn [List.find fst snd] in Hr. destruct (Z.eqb_spec (l_tenant l) (l_tenant l')) as [E1|]; cbn [andb] in Hr; [|by apply Hc].
    destruct (Z.eqb_spec (l_room_type l) (l_room_type l')) as [E2|]; [|by apply Hc]. cbn in Hr. injection Hr as <-. by apply first_of_key.
Qed.

(** What becomes of a line. *)
Definition roomed_by (F : BookingLine -> option Z) (x l : BookingLine) : BookingLine :=
  match F l with Some r => if l_id x =? l_id l then set_l_room (Some r) x else x | None => x end.
Definition given_rooms (F : BookingLine -> option Z) (ls L : list BookingLine) : list BookingLine :=
  List.map (fun x => List.fold_left (roomed_by F) ls x) L.

Lemma assign_rooms_run dd dm ls cache n k s : cache_ok dd dm cache -> disk s = dd -> rooms (mem s) = rooms dm ->
  exists nk, assign_rooms role ls cache n k s = (set_mem (put_lines (given_rooms (first_of dd dm) ls (lines (mem s))) (mem s)) s, Ok nk).
Proof.
  revert cache n k s. induction ls as [|l ls IH]; intros cache n k s Hc Hd Hm; cbn [assign_rooms].
  - exists (n, k). cbn. unfold given_rooms. cbn. rewrite List.map_id. by destruct s as [? []].
  - unfold mbind at 1, M_bind at 1. destruct (room_for_run dd dm l cache s Hc Hd Hm) as (cache' & -> & Hc').
    destruct (first_of dd dm l) as [r|] eqn:E.
    + unfold mbind, M_bind, assign, orm. destruct (IH cache' (n + 1) k (set_mem (put_table (where_id (l_id l) (set_l_room (Some r)) (table (mem s))) (mem s)) s))
        as [nk Hrun]; [done|done|done|]. exists nk. rewrite Hrun.
      assert (Eg : given_rooms (first_of dd dm) (l :: ls) (lines (mem s)) =
                   given_rooms (first_of dd dm) ls (where_id (l_id l) (set_l_room (Some r)) (lines (mem s)))).
      { unfold given_rooms, where_id. rewrite List.map_map. apply List.map_ext. intros x. cbn [List.fold_left]. f_equal. unfold roomed_by. by rewrite E. }
      rewrite Eg. by destruct s as [? []].
    + destruct (IH cache' n (k + 1) s Hc' Hd Hm) as [nk Hrun]. exists nk. rewrite Hrun.
      assert (Eg : given_rooms (first_of dd dm) (l :: ls) (lines (mem s)) = given_rooms (first_of dd dm) ls (lines (mem s))).
      { unfold given_rooms. apply List.map_ext. intros x. cbn [List.fold_left]. f_equal. unfold roomed_by. by rewrite E. }
      by rewrite Eg.
Qed.

(** A line of the list gets the room of its type. *)
Lemma given_here (F : BookingLine -> option Z) ls x r : (forall l, In l ls -> l_id l = l_id x -> F l = Some r) ->
  (exists l, In l ls /\ l_id l = l_id x) -> List.fold_left (roomed_by F) ls x = set_l_room (Some r) x.
Proof.
  assert (Hset : forall ls, (forall l, In l ls -> l_id l = l_id x -> F l = Some r) ->
    List.fold_left (roomed_by F) ls (set_l_room (Some r) x) = set_l_room (Some r) x).
  { clear. induction ls as [|l ls IH]; intros H; [done|]. cbn [List.fold_left]. rewrite <- IH at 2 by (intros; apply H; [by right|done]).
    f_equal. unfold roomed_by. destruct (F l) as [r'|] eqn:E; [|done]. cbn [l_id set_l_room].
    destruct (Z.eqb_spec (l_id x) (l_id l)) as [Ei|]; [|done]. rewrite (H l) in E by (by try left). by injection E as <-. }
  induction ls as [|l ls IH]; intros H (l0 & Hin & E0); [done|]. cbn [List.fold_left].
  destruct (decide (l_id l = l_id x)) as [E|Hne].
  - unfold roomed_by at 2. rewrite (H l) by (by try left). rewrite (proj2 (Z.eqb_eq _ _) (eq_sym E)). apply Hset. intros; apply H; [by right|done].
  - assert (roomed_by F x l = x) as ->. { unfold roomed_by. destruct (F l); [|done]. by rewrite (proj2 (Z.eqb_neq _ _)) by congruence. }
    apply IH; [intros; apply H; [by right|done]|]. destruct Hin as [->|Hin]; [congruence|by exists l0].
Qed.
End assign.

(** assign. *)
Theorem assign_script_double_books `{Env} d tm td u url l1 l2 :
  List.NoDup (List.map l_id (lines d)) -> List.NoDup (List.map r_id (rooms d)) ->
  In l1 (lines d) -> In l2 (lines d) -> l_room l1 = None -> l_room l2 = None ->
  line_active d l1 = true -> line_active d l2 = true ->
  l_tenant l1 = l_tenant l2 -> l_room_type l1 = l_room_type l2 -> l_date l1 = l_date l2 -> l_booking l1 <> l_booking l2 ->
  (exists r, In r (rooms d) /\ r_tenant r = l_tenant l1 /\ r_room_type r = l_room_type l1) ->
  exists s', assign_main Superuser (Some url) None (start d tm td u) = (s', Ok 0) /\ ~ exclusive (mem s').
Proof.
  intros Hl Hr H1 H2 N1 N2 A1 A2 Et Ert Ed Hb (rm & Hrm & Hrt & Hrr).
  set (ls := List.filter (unassigned Superuser) (lines d)).
  assert (Hsel : select (unassigned Superuser) (start d tm td u) = (start d tm td u, Ok ls)) by exact (select_synced (unassigned Superuser) (start d tm td u) Hl eq_refl).
  destruct (assign_rooms_run Superuser d d ls [] 0 0 (start d tm td u)) as [nk Hrun]; [by intros ? ?|done|done|].
  set (d' := put_lines (given_rooms (first_of Superuser d d) ls (lines d)) d).
  exists (Session d' d' [] tm td u). split.
  - assert (Hseed : transaction (seed_demo_booking_if_requested Superuser None) (start d tm td u) = (start d tm td u, Ok tt)) by reflexivity.
    unfold assign_main. unfold mbind at 1, M_bind at 1. rewrite Hseed. unfold transaction, mbind, M_bind.
    change (Session (disk (start d tm td u)) (disk (start d tm td u)) [] (now (start d tm td u)) (today (start d tm td u)) (uuids (start d tm td u)))
      with (start d tm td u).
    rewrite Hsel, Hrun. done.
  - assert (exists r, first_of Superuser d d l1 = Some r) as [r F1].
    { unfold first_of. rewrite omap_identity by (try done; intros x Hx; by apply filter_In in Hx as [? _]).
      set (rows := order_by _ _). assert (In rm rows) as Hin. { apply order_by_In, filter_In. split; [done|]. cbn [sees andb]. by rewrite Hrt, Hrr, !Z.eqb_refl. }
      destruct rows as [|r0 rows]; [done|]. by exists (r_id r0). }
    assert (F2 : first_of Superuser d d l2 = Some r) by (rewrite <- F1; by apply first_of_key).
    assert (Hg : forall l, In l (lines d) -> l_room l = None -> first_of Superuser d d l = Some r -> In (set_l_room (Some r) l) (lines d')).
    { intros l Hin Hn F. cbn. unfold given_rooms. apply in_map_iff. exists l. split; [|done]. apply given_here.
      - intros l' Hl' E. apply filter_In in Hl' as [Hl' _]. assert (l' = l) as ->; [|done].
        pose proof (find_ident (lines d) l Hl Hin) as Ef. pose proof (find_ident (lines d) l' Hl Hl') as Ef'. assert (ident l' = ident l) as Ei by exact E. rewrite Ei in Ef'. congruence.
      - exists l. split; [|done]. apply filter_In. split; [done|]. unfold unassigned. cbn. by rewrite Hn. }
    intros Hex. apply Hb.
    apply (Hex (set_l_room (Some r) l1) (set_l_room (Some r) l2) r); try done; by apply Hg.
Qed.

(** *** Two tenants, one room type *)

#[local] Instance night_env : Env := sample_env.
#[local] Instance night_crypto : Crypto := {|
  argon2_hash := fun _ s => s; argon2_verify := String.eqb; argon2_needs_rehash := fun _ => false; sha256_hex := fun s => s;
  token_urlsafe := fun _ => "t"%string; jwt_encode := fun _ => "t"%string; jwt_decode := fun _ _ => None; uuid_parse := fun _ => Some 1 |}.

Definition two_tenants : DB :=
  put_tenants [MkTenant 2 "B" "b@example.com" "active"; MkTenant 1 "A" "a@example.com" "active"]
    (put_room_types [MkRoomType 5 1 3 "Twin" 2 2 None] (put_ledger {[ (1, 5, 739000) := empty_row 0 ]} empty_db)).

Definition monthly_run : session * result Z := extend_main Superuser (Some "postgresql://pms"%string) None 30 (start two_tenants 0 738990 100).

Lemma horizon_moves_once_per_tenant_witness :
  max_date (ledger (mem monthly_run.1)) 1 5 = Some (739000 + 60).
Proof.
  apply (horizon_moves_once_per_tenant two_tenants 0 738990 100 "postgresql://pms" 30 1 5 739000 (MkRoomType 5 1 3 "Twin" 2 2 None) monthly_run.1);
    [lia|repeat constructor; cbn; intuition congruence|repeat constructor; cbn; intuition congruence|by left|done|done|vm_compute; reflexivity|vm_compute; reflexivity].
Defined.

(** Two bookings of one night, two rooms to choose from. *)
Definition full_night : DB :=
  put_rooms [MkRoom 21 1 5 "101" "available" None "clean" "normal"; MkRoom 22 1 5 "102" "available" None "clean" "normal"]
    (put_bookings [MkBooking 11 1 3 1 None None "confirmed" "api" 10000 None; MkBooking 12 1 3 2 None None "confirmed" "api" 10000 None]
      (put_lines [MkBookingLine 31 1 11 739000 5 None 10000; MkBookingLine 32 1 12 739000 5 None 10000] empty_db)).

Lemma assign_script_double_books_witness : exists s',
  assign_main Superuser (Some "postgresql://pms"%string) None (start full_night 0 738990 100) = (s', Ok 0) /\ ~ exclusive (mem s').
Proof.
  apply (assign_script_double_books full_night 0 738990 100 "postgresql://pms"
           (MkBookingLine 31 1 11 739000 5 None 10000) (MkBookingLine 32 1 12 739000 5 None 10000));
    [repeat constructor; cbn; intuition congruence|repeat constructor; cbn; intuition congruence|by left|by right; left|done|done|done|done|done|done|done|done|].
  exists (MkRoom 21 1 5 "101" "available" None "clean" "normal"). split; [by left|done].
Defined.
